(* ===== verification/_CoqProject ===== *)
-Q . S2P
Prelude.v
Base.v
Buffer.v
Format.v
Base64.v
Str.v
Url.v
Ws.v
Elem.v
Hash.v
Heap.v
Table.v
Map.v
Smap.v
Dataset.v
Http.v
HttpParser.v
HttpRequest.v
VtmList.v
Serialization.v
Nm.v
NmProps.v
NmWire.v
Squeue.v
Socket.v
Emitter.v
StreamServer.v
ServerProps.v
Sync.v
StreamWorkers.v
HttpResponse.v
ResponseProps.v
ResponseRoom.v
ResponseWire.v
HttpFrame.v
HttpCon.v
HttpServer.v
HttpPeer.v
HttpServerProps.v
HttpWindow.v
HttpRoutes.v
HttpClient.v
HttpClientProps.v
DgramServer.v
DgramLife.v
StreamLife.v
NmSend.v
NmServer.v
NmServerProps.v
NmExchange.v
ServerLife.v
Config.v
HttpAuth.v
Json.v
Log.v
