(* ===== verification/Prelude.v ===== *)
(** * Ventanium: a verification development

    Ventanium is a C library for network applications: containers and strings
    ([src/src/vtm/core]), sockets, stream servers and the protocols on top of
    them ([src/src/vtm/net]), utilities ([src/src/vtm/util]).  This development
    models the parts of it that compute, and proves what makes them correct.
    Every definition that models code says in its comment which lines it
    translates, as a path below [src/src/vtm].

    ** How the code is modelled

    - Integers are [Z] with their wrap-around written out ([u8] to [u64], [i8] to
      [i64]); [size_t] has 64 bits.  Bytes are integers below 256, memory is the
      list of its initialised bytes, C strings are lists without a zero.
    - State is passed explicitly.  Undefined behaviour, a failed assertion and a
      loop that runs out of fuel are [None]; error codes are values.  A theorem
      that a call returns [Some] therefore says that it ends and touches only
      memory it may touch.
    - What the library asks of its surroundings is a parameter: the allocator
      (a boolean that says whether it succeeds), the system calls
      ([sys_net], [srv_env]) and the callbacks of an application.  What is
      assumed of them is a class ([SendLaws], [EnvLaws]) with an instance.
    - Memory that runs out: a buffer that cannot leave its embedded array keeps
      its numbers and loses its contents ([buf_place], [Nowhere]), and whoever
      reads them gets [None], as the code reads through NULL; a worker of the
      stream server without a dataset is gone ([WGone]) and counts no latch; the
      stream server goes on without an entry in its map, or does not drain.
      Where a theorem assumes that memory suffices its comment says so.
    - Fuel: each loop without a structural argument has its own, with a lemma
      that the fuel its caller gives is enough ([grow_fuel], [file_fuel],
      [sq_fuel], [accept_fuel] and so on).  Where the C loop may not end the
      theorems say so ([map_new_diverges]).

    ** The parts, from the bottom

    - [Prelude]: notations, lists, integers, tactics, hint databases.
    - [Base]: error codes, byte order, size arithmetic (core/error.c,
      core/system.c, core/math.c).
    - [Buffer]: the byte buffer (core/buffer.c); it refines a queue of bytes.
    - [Format]: numbers as text (core/format.c).  [Base64]: util/base64.c.
      [Str]: core/string.c.  [Url]: net/url.c.
    - [Elem], [Hash], [Heap], [Table], [Map], [Smap], [Dataset]: tagged values
      (core/elem.c, convert.c, variant.c), hashing (hash.c), copied strings
      (blob.c), the hash map (map.c), the macro map (smap.h) and the dataset
      (dataset.c).  [Table] holds the lemmas on tables of buckets; map and
      dataset refine finite maps with every block they own accounted for.
    - [VtmList], [Squeue]: the growing array (list.c) and the linked queue
      (squeue.h); they refine a sequence and a first-in first-out list.
    - [Serialization], [Nm], [NmProps], [NmWire]: floating point numbers on the
      wire (util/serialization.c), the message protocol (net/nm/nm_protocol.c,
      nm_parser.c): the invariant of the parser, the round trip.
    - [Http], [HttpParser], [HttpRequest]: net/http/http.c and http_parser.c; a
      printer of requests and what the parser makes of its text.
    - [Ws]: WebSocket frames, the parser, messages (net/http/ws_*.c).
    - [Socket], [Emitter]: net/socket.c over sys/base/net/socket_plain.c,
      net/socket_emitter.c and net/socket_writer.c: what reaches the peer.
    - [StreamServer], [ServerProps], [StreamLife]: net/socket_stream_server.c;
      the invariant of the connections of a server without threads; what a run
      creates and frees.
    - [Sync], [StreamWorkers]: util/spinlock.c and util/latch.c, and the protocol
      between the main thread of a stream server and its workers, as steps of
      interleaved threads.
    - [HttpResponse], [ResponseProps], [ResponseRoom], [ResponseWire]:
      net/http/http_response.c, http_request.c, http_format.c; the text that an
      application sends with a response, the room it takes in the emitters, and
      what the parser of the library makes of it.
    - [HttpFrame]: what the parser leaves alone: bytes behind the ones it read,
      and the blocks of others.
    - [HttpCon], [HttpServer], [HttpRoutes]: net/http/http_connection.c,
      ws_connection.c, http_server.c, http_router.c, http_static_route.c: the
      connections of the HTTP and WebSocket server, its handlers of socket
      events, the upgrade, and the tables of routes.
    - [HttpPeer], [HttpServerProps], [HttpWindow]: a peer that sends one request
      after the other and takes the answers whole, resp. a peer whose window
      closes; what the server's handlers do with it.
    - [HttpClient], [HttpClientProps]: net/http/http_client.c and ws_client.c;
      the client with a worker of the server as its peer.
    - [DgramServer], [DgramLife]: net/socket_dgram_server.c; its threads as
      interleaved steps, and what a run allocates and frees.
    - [NmSend], [NmServer], [NmServerProps], [NmExchange]: the connections,
      servers and clients of the message protocol (net/nm/nm_stream_*.c,
      nm_dgram_*.c), and the exchanges between them.
    - [ServerLife]: running and stopping the HTTP server and the two servers of
      the message protocol, with the two locks that guard it, as steps of
      interleaved threads.
    - [Config], [Log]: lines of files, MIME types and files of settings
      (fs/file.c, mime.c, config.c), log files and their rotation (fs/log.c).
    - [HttpAuth]: basic authentication (net/http/http_util.c).  [Json]: datasets
      as JSON (util/json.c).

    ** What the theorems show

    - Round trips: what a writer produces the parser reads back (HTTP requests,
      messages of the nm protocol, WebSocket messages, URLs, percent coding,
      Base64, numbers), in one piece or cut anywhere.
    - Refinement: buffer (until its contents are lost), list, queue, map, macro map and dataset behave as the
      abstract container for every sequence of operations, and own exactly the
      blocks that they should.
    - Safety: no run of a parser reads or writes outside its buffers, but for the
      one copy of the WebSocket parser that [ws_run_safe] names; no event
      makes a server use a socket after it was freed, under the stated
      discipline of its application and its listener.
    - Termination and progress: an interrupted chain of emitters can be resumed
      and finishes; a stream server without threads that stops closes, reports
      and frees every connection, if it gets the list of them.
    - Concurrency: mutual exclusion of the spinlock, no lost count of the latch,
      the invariants of the threads of the stream and the datagram server (the
      latter in its first run), how they get stuck on the mutex, the condition
      and the latches of the queue, and the wake-ups that get lost.  Locks of
      connections are left out there; a deadlock with them is shown on its own
      ([lock_order_deadlock]).
    - Starting and stopping: the two locks of a server are held by one thread at
      a time and always given back, whatever the main loop does.  That the main
      loop, the draining and the joining of workers end is not stated: they may
      not ([workers_lost_wakeup], [worker_gone_hangs], [dgram_stop_hangs]).
    - Files: a file of settings is read as it is written, a log that is rotated
      loses no line; the bounds under which basic authentication works.
    - Responses: the calls of an application yield the text of the answer that
      they describe, and that text parses back to the answer.
    - Server: an application's handler sees the requests of a connection one
      after the other, and its peer gets exactly the answers; the handshake of
      the upgrade; the router finds the route that a plain search finds; a
      waiting answer is finished when the window opens.
    - Client: a request of the client library goes through the connection of the
      server library and back, end to end; so does a message of the nm protocol,
      over a stream or in a datagram.
    - Errors: what the code does on bad input, and where it does something else
      than it means to (the theorems with [error] as kind).

    ** Not modelled

    - What only calls the system or a foreign library: sys/unix and sys/windows
      (threads, mutexes, files, time, the listeners over epoll, kqueue and
      select), TLS over OpenSSL, crypto, sql over SQLite and MySQL.
    - The locks by key and the routes of files of the HTTP server.
    - The printf family of core/string.c and floating point text: the
      formatting is that of the C library. *)

From Stdlib Require Export ZArith Lia.
From stdpp Require Export base numbers list sets decidable strings.


#[global] Open Scope Z_scope.

(** ** Notations *)

Declare Scope c_scope.
Delimit Scope c_scope with c.

(** Wrap-around of an unsigned [w]-bit integer. *)
Definition wrap (w x : Z) : Z := x mod 2 ^ w.

(** Two's complement wrap-around of a signed [w]-bit integer. *)
Definition swrap (w x : Z) : Z := (x + 2 ^ (w - 1)) mod 2 ^ w - 2 ^ (w - 1).

Definition u8 (x : Z) : Z := wrap 8 x.
Definition u16 (x : Z) : Z := wrap 16 x.
Definition u32 (x : Z) : Z := wrap 32 x.
Definition u64 (x : Z) : Z := wrap 64 x.
Definition i8 (x : Z) : Z := swrap 8 x.
Definition i16 (x : Z) : Z := swrap 16 x.
Definition i32 (x : Z) : Z := swrap 32 x.
Definition i64 (x : Z) : Z := swrap 64 x.

(** [size_t] arithmetic on a 64-bit platform. *)
Notation "a '+sz' b" := (u64 (a + b)) (at level 50, left associativity) : c_scope.
Notation "a '*sz' b" := (u64 (a * b)) (at level 40, left associativity) : c_scope.
#[global] Open Scope c_scope.

Definition SIZE_MAX : Z := 2 ^ 64 - 1.
Definition SSIZE_MAX : Z := 2 ^ 63 - 1.
Definition UINT_MAX : Z := 2 ^ 32 - 1.
Definition UINT32_MAX : Z := 2 ^ 32 - 1.
Definition UINT16_MAX : Z := 2 ^ 16 - 1.
Definition UCHAR_MAX : Z := 255.

Definition is_size (x : Z) : Prop := 0 <= x <= SIZE_MAX.

(** Bytes are integers [0 <= b < 256]; memory contents are lists of bytes. *)
Definition is_byte (b : Z) : Prop := 0 <= b < 256.
Abbreviation bytes := (list Z).

#[global] Instance is_byte_dec b : Decision (is_byte b).
Proof. unfold is_byte. apply _. Defined.

(** Length of a byte list as a [size_t]-valued integer. *)
Definition zlen {A} (l : list A) : Z := Z.of_nat (length l).
Definition ztake {A} (n : Z) (l : list A) : list A := take (Z.to_nat n) l.
Definition zdrop {A} (n : Z) (l : list A) : list A := drop (Z.to_nat n) l.
Definition znth (l : bytes) (i : Z) : option Z :=
  if i <? 0 then None else l !! Z.to_nat i.

(** The block [src] written at offset [off] of the initialised bytes [dst]
    ([off] is at most the length of [dst], so no gap arises). *)
Definition splice (off : Z) (src dst : bytes) : bytes :=
  ztake off dst ++ src ++ zdrop (off + zlen src) dst.

(** One byte stored at offset [off]. *)
Definition zput (off b : Z) (dst : bytes) : bytes := splice off [b] dst.

(** A NUL-terminated string is the list of its bytes without the NUL. *)
Definition is_cstr (s : bytes) : Prop := Forall (fun c => 0 < c < 256) s.

#[global] Instance is_cstr_dec s : Decision (is_cstr s).
Proof. unfold is_cstr. apply _. Defined.

(** ** Character constants and the parts of <ctype.h> used by the program,
    in the "C" locale.  The argument is a [char] value, possibly negative. *)
Definition isdigit (c : Z) : bool := (48 <=? c) && (c <=? 57).
Definition isspace (c : Z) : bool := (c =? 32) || ((9 <=? c) && (c <=? 13)).
Definition isupper (c : Z) : bool := (65 <=? c) && (c <=? 90).
Definition islower (c : Z) : bool := (97 <=? c) && (c <=? 122).
Definition tolower (c : Z) : Z := if isupper c then c + 32 else c.

(** The bytes of a string literal of the source. *)
Fixpoint cstr_of (s : String.string) : bytes :=
  match s with
  | String.EmptyString => []
  | String.String a s' => Z.of_N (Ascii.N_of_ascii a) :: cstr_of s'
  end.

(** ** Automation *)

Create HintDb vtm discriminated.
#[global] Hint Constants Opaque : vtm.
Create Rewrite HintDb vtm_len.
#[export] Hint Rewrite @length_app @length_rev @length_map : vtm_len.

(** Exposes the integer content of the abbreviations to [lia]. *)
Ltac zunfold :=
  unfold is_size, is_byte, SIZE_MAX, SSIZE_MAX, UINT_MAX, UINT32_MAX,
    UINT16_MAX, UCHAR_MAX, zlen in *.
Ltac zlia := zunfold; autorewrite with vtm_len in *; lia.

(** [lia] with division and remainder by constants. *)
Ltac dlia := zunfold; Z.to_euclidean_division_equations; lia.

(** Splits every boolean test of the goal and its hypotheses. *)
Ltac bsplit :=
  repeat match goal with
  | H : (_ && _)%bool = true |- _ => apply andb_prop in H as [? ?]
  | H : (_ || _)%bool = false |- _ => apply orb_false_elim in H as [? ?]
  | H : negb _ = true |- _ => apply negb_true_iff in H
  | H : negb _ = false |- _ => apply negb_false_iff in H
  | H : (_ <=? _) = true |- _ => apply Z.leb_le in H
  | H : (_ <=? _) = false |- _ => apply Z.leb_gt in H
  | H : (_ <? _) = true |- _ => apply Z.ltb_lt in H
  | H : (_ <? _) = false |- _ => apply Z.ltb_ge in H
  | H : (_ =? _) = true |- _ => apply Z.eqb_eq in H
  | H : (_ =? _) = false |- _ => apply Z.eqb_neq in H
  end.

(** Case analysis on the first boolean comparison of the goal. *)
Ltac bcase :=
  match goal with
  | |- context [if ?b then _ else _] =>
      let E := fresh "E" in destruct b eqn:E; bsplit
  end.

(** ** Integers *)

Lemma wrap_bounds w x : 0 <= w -> 0 <= wrap w x < 2 ^ w.
Proof. intros. unfold wrap. apply Z.mod_pos_bound. lia. Qed.

Lemma wrap_small w x : 0 <= x < 2 ^ w -> wrap w x = x.
Proof. apply Z.mod_small. Qed.

Lemma swrap_small w x :
  0 < w -> - 2 ^ (w - 1) <= x < 2 ^ (w - 1) -> swrap w x = x.
Proof.
  intros Hw Hx. unfold swrap.
  assert (2 ^ w = 2 * 2 ^ (w - 1)) as E
    by (rewrite <- Z.pow_succ_r by lia; f_equal; lia).
  rewrite Z.mod_small; lia.
Qed.

Lemma swrap_bounds w x :
  0 < w -> - 2 ^ (w - 1) <= swrap w x < 2 ^ (w - 1).
Proof.
  intros Hw. unfold swrap.
  assert (2 ^ w = 2 * 2 ^ (w - 1)) as E
    by (rewrite <- Z.pow_succ_r by lia; f_equal; lia).
  pose proof (Z.mod_pos_bound (x + 2 ^ (w - 1)) (2 ^ w)). lia.
Qed.

Lemma wrap_swrap w x : 0 < w -> wrap w (swrap w x) = wrap w x.
Proof.
  intros Hw. unfold wrap, swrap.
  rewrite Zminus_mod_idemp_l. f_equal. lia.
Qed.

Lemma swrap_wrap w x : 0 < w -> swrap w (wrap w x) = swrap w x.
Proof.
  intros Hw. unfold wrap, swrap. by rewrite Zplus_mod_idemp_l.
Qed.

Lemma wrap_wrap w x : wrap w (wrap w x) = wrap w x.
Proof. unfold wrap. apply Zmod_mod. Qed.

Lemma u64_bounds x : 0 <= u64 x < 2 ^ 64.
Proof. by apply wrap_bounds. Qed.

Lemma u64_small x : is_size x -> u64 x = x.
Proof. intros. apply wrap_small. zlia. Qed.

Lemma u64_over x : 2 ^ 64 <= x < 2 * 2 ^ 64 -> u64 x = x - 2 ^ 64.
Proof.
  intros. unfold u64, wrap.
  rewrite <- (Z_mod_plus_full _ (-1)). rewrite Z.mod_small; lia.
Qed.

Lemma u8_bounds x : is_byte (u8 x).
Proof. unfold is_byte. by apply (wrap_bounds 8). Qed.

Lemma u8_single_bytes x : Forall is_byte [u8 x].
Proof. repeat constructor; apply u8_bounds. Qed.

#[export] Hint Resolve u64_bounds u8_bounds u8_single_bytes : vtm.

(** ** Lists and memory *)

Section lists.
Context {A : Type}.
Implicit Types l k : list A.

Lemma zlen_nonneg l : 0 <= zlen l.
Proof. unfold zlen. lia. Qed.

Lemma zlen_app l k : zlen (l ++ k) = zlen l + zlen k.
Proof. unfold zlen. rewrite length_app. lia. Qed.

Lemma zlen_cons (x : A) l : zlen (x :: l) = 1 + zlen l.
Proof. unfold zlen. simpl. lia. Qed.

Lemma zlen_rev l : zlen (rev l) = zlen l.
Proof. unfold zlen. by rewrite length_rev. Qed.

Lemma zlen_ztake n l : 0 <= n <= zlen l -> zlen (ztake n l) = n.
Proof. unfold zlen, ztake. rewrite length_take. lia. Qed.

Lemma zlen_zdrop n l : 0 <= n <= zlen l -> zlen (zdrop n l) = zlen l - n.
Proof. unfold zlen, zdrop. rewrite length_drop. lia. Qed.

Lemma ztake_zdrop n l : ztake n l ++ zdrop n l = l.
Proof. apply take_drop. Qed.

Lemma ztake_app_exact l k n : n = zlen l -> ztake n (l ++ k) = l.
Proof. unfold ztake, zlen. intros ->. rewrite Nat2Z.id. apply take_app_length. Qed.

Lemma zdrop_app_exact l k n : n = zlen l -> zdrop n (l ++ k) = k.
Proof. unfold zdrop, zlen. intros ->. rewrite Nat2Z.id. apply drop_app_length. Qed.

Lemma ztake_all l n : zlen l <= n -> ztake n l = l.
Proof. unfold ztake, zlen. intros. apply take_ge. lia. Qed.

Lemma zdrop_all l n : zlen l <= n -> zdrop n l = [].
Proof. unfold zdrop, zlen. intros. apply drop_ge. lia. Qed.

Lemma zdrop_0 l : zdrop 0 l = l.
Proof. done. Qed.

Lemma ztake_0 l : ztake 0 l = [].
Proof. done. Qed.

Lemma zdrop_zdrop l n m : 0 <= n -> 0 <= m -> zdrop n (zdrop m l) = zdrop (m + n) l.
Proof. unfold zdrop. intros. rewrite drop_drop. f_equal. lia. Qed.

Lemma ztake_app_le l k n : n <= zlen l -> ztake n (l ++ k) = ztake n l.
Proof. unfold ztake, zlen. intros. apply take_app_le. lia. Qed.

Lemma zdrop_app_le l k n : n <= zlen l -> zdrop n (l ++ k) = zdrop n l ++ k.
Proof. unfold zdrop, zlen. intros. apply drop_app_le. lia. Qed.

Lemma ztake_ztake l n m : 0 <= n <= m -> ztake n (ztake m l) = ztake n l.
Proof. unfold ztake. intros. rewrite take_take. f_equal. lia. Qed.

Lemma ztake_zdrop_split l n m :
  0 <= n <= m -> ztake m l = ztake n l ++ ztake (m - n) (zdrop n l).
Proof.
  unfold ztake, zdrop. intros.
  replace (Z.to_nat m) with (Z.to_nat n + Z.to_nat (m - n))%nat at 1 by lia.
  rewrite <- (take_take_drop l). done.
Qed.
End lists.

#[export] Hint Rewrite @zlen_app @zlen_cons @zlen_rev : vtm_len.

Lemma znth_lookup (l : bytes) (i : Z) :
  0 <= i -> znth l i = l !! Z.to_nat i.
Proof. intros. unfold znth. destruct (Z.ltb_spec i 0); [lia | done]. Qed.

Lemma znth_zdrop (l : bytes) (i : Z) c :
  0 <= i -> znth l i = Some c -> zdrop i l = c :: zdrop (i + 1) l.
Proof.
  intros Hi. rewrite znth_lookup by done. intros H. unfold zdrop.
  rewrite (drop_S l c (Z.to_nat i)) by done. f_equal.
  by replace (Z.to_nat (i + 1)) with (S (Z.to_nat i)) by lia.
Qed.

Lemma znth_is_Some (l : bytes) (i : Z) : 0 <= i < zlen l -> is_Some (znth l i).
Proof.
  intros. rewrite znth_lookup by lia. apply lookup_lt_is_Some. zlia.
Qed.

Lemma znth_Some_lt (l : bytes) (i : Z) c : znth l i = Some c -> 0 <= i < zlen l.
Proof.
  unfold znth. destruct (Z.ltb_spec i 0); [done |]. intros H2%lookup_lt_Some.
  zlia.
Qed.

Lemma splice_len off src dst :
  0 <= off -> off + zlen src <= zlen dst -> zlen (splice off src dst) = zlen dst.
Proof.
  intros. pose proof (zlen_nonneg src). unfold splice.
  rewrite !zlen_app, zlen_ztake, zlen_zdrop; lia.
Qed.

Lemma splice_take off src dst :
  0 <= off <= zlen dst ->
  ztake (off + zlen src) (splice off src dst) = ztake off dst ++ src.
Proof.
  intros. unfold splice. rewrite app_assoc. apply ztake_app_exact.
  rewrite zlen_app, zlen_ztake; lia.
Qed.

Lemma splice_len_ge off src dst :
  0 <= off <= zlen dst -> zlen dst <= off + zlen src ->
  zlen (splice off src dst) = off + zlen src.
Proof.
  intros. unfold splice.
  rewrite (zdrop_all dst) by lia. rewrite app_nil_r, zlen_app, zlen_ztake; lia.
Qed.

Lemma zlen_splice off src dst :
  0 <= off <= zlen dst -> zlen (splice off src dst) = Z.max (zlen dst) (off + zlen src).
Proof.
  intros. destruct (Z.le_ge_cases (zlen dst) (off + zlen src)).
  - rewrite splice_len_ge; lia.
  - rewrite splice_len; lia.
Qed.

Lemma splice_app off src a t :
  0 <= off -> off + zlen src <= zlen a -> splice off src (a ++ t) = splice off src a ++ t.
Proof.
  intros. pose proof (zlen_nonneg src). unfold splice.
  rewrite ztake_app_le, zdrop_app_le by lia. by rewrite !app_assoc.
Qed.

Lemma ztake_splice n off src dst :
  0 <= off -> off + zlen src <= n <= zlen dst ->
  ztake n (splice off src dst) = splice off src (ztake n dst).
Proof.
  intros. pose proof (zlen_nonneg src).
  rewrite <- (ztake_zdrop n dst) at 1.
  assert (zlen (ztake n dst) = n) by (rewrite zlen_ztake; lia).
  rewrite splice_app by lia. apply ztake_app_exact. rewrite splice_len; lia.
Qed.

Lemma splice_bytes off src dst :
  Forall is_byte src -> Forall is_byte dst -> Forall is_byte (splice off src dst).
Proof.
  intros. unfold splice, ztake, zdrop.
  rewrite !Forall_app. auto using Forall_take, Forall_drop.
Qed.
#[export] Hint Resolve splice_bytes : vtm.

(** ** Bit operations as arithmetic *)

Lemma shiftr_div x n : 0 <= n -> Z.shiftr x n = x / 2 ^ n.
Proof. apply Z.shiftr_div_pow2. Qed.

Lemma shiftl_mul x n : 0 <= n -> Z.shiftl x n = x * 2 ^ n.
Proof. apply Z.shiftl_mul_pow2. Qed.

Lemma land_mask x n m : 0 <= n -> m = Z.ones n -> Z.land x m = x mod 2 ^ n.
Proof. intros Hn ->. by apply Z.land_ones. Qed.

Lemma land_0x0f x : Z.land x 0x0f = x mod 16.
Proof. by apply (land_mask x 4). Qed.
Lemma land_0x3f x : Z.land x 0x3f = x mod 64.
Proof. by apply (land_mask x 6). Qed.
Lemma land_0x7f x : Z.land x 0x7f = x mod 128.
Proof. by apply (land_mask x 7). Qed.
Lemma land_0xff x : Z.land x 0xff = x mod 256.
Proof. by apply (land_mask x 8). Qed.
Lemma land_0x01 x : Z.land x 0x01 = x mod 2.
Proof. by apply (land_mask x 1). Qed.

(** Turns shifts and masks by constants into division and remainder. *)
Ltac bits_to_arith :=
  rewrite ?land_0x0f, ?land_0x3f, ?land_0x7f, ?land_0xff, ?land_0x01;
  rewrite ?shiftr_div, ?shiftl_mul by lia.

(** A boolean test checked by computation on an initial segment of [Z]. *)
Lemma check_below (f : Z -> bool) n i :
  forallb f (seqZ 0 n) = true -> 0 <= i < n -> f i = true.
Proof.
  intros H Hi. rewrite forallb_forall in H. apply H.
  apply list_elem_of_In, elem_of_seqZ. lia.
Qed.
