(* ===== verification/Base.v ===== *)
(** * Base: error codes, host byte order and checked size arithmetic

    The parts of src/vtm/core every other component uses: the return codes
    and the thread-local error record (core/error.h, core/error.c), the host
    byte order (core/system.h, core/system.c) and the overflow-checked
    [size_t] operations (core/math.c).  The platform is LP64 little-endian. *)

From S2P Require Import Prelude.

(** ** Return codes, core/error.h:25-49 *)

Definition VTM_OK : Z := 0.
Definition VTM_ERROR : Z := -1.
Definition VTM_E_MALLOC : Z := -100.
Definition VTM_E_MEMORY : Z := -101.
Definition VTM_E_OUT_OF_RANGE : Z := -102.
Definition VTM_E_NOT_SUPPORTED : Z := -103.
Definition VTM_E_NOT_HANDLED : Z := -104.
Definition VTM_E_NOT_FOUND : Z := -105.
Definition VTM_E_ASSERT_FAILED : Z := -106.
Definition VTM_E_INVALID_ARG : Z := -107.
Definition VTM_E_INVALID_STATE : Z := -108.
Definition VTM_E_OVERFLOW : Z := -109.
Definition VTM_E_MAX_REACHED : Z := -110.
Definition VTM_E_INTERRUPTED : Z := -111.
Definition VTM_E_PERMISSION : Z := -112.
Definition VTM_E_IO_UNKNOWN : Z := -200.
Definition VTM_E_IO_EOF : Z := -201.
Definition VTM_E_IO_AGAIN : Z := -202.
Definition VTM_E_IO_CANCELED : Z := -203.
Definition VTM_E_IO_CLOSED : Z := -204.
Definition VTM_E_IO_TIMEOUT : Z := -205.
Definition VTM_E_IO_FILE_NOT_FOUND : Z := -206.
Definition VTM_E_IO_PARTIAL : Z := -207.
Definition VTM_E_IO_PROTOCOL : Z := -208.

(** ** The thread-local error record *)
Module Error.
Definition VTM_ERR_MAX_MSG_LEN : Z := 512.

(** core/error.c:14-21 [struct vtm_err].  A thread owns one record. *)
Record vtm_err := mk_err {
  err_code : Z;
  err_name : bytes;
  err_file : bytes;
  err_line : Z;
  err_msg : bytes
}.

(** core/error.c:25-44.  [msg] is the formatted message, if the caller
    passed a format; vsnprintf() cuts it to the size of the array. *)
Definition vtm_err_setf_intl (code : Z) (name file : bytes) (line : Z)
    (msg : option bytes) (err : vtm_err) : vtm_err * Z :=
  let text := match msg with
              | Some m => ztake (VTM_ERR_MAX_MSG_LEN - 1) m
              | None => []
              end in
  (mk_err code name file line text, code).

(** core/error.c:46-49 *)
Definition vtm_err_get_code (err : vtm_err) : Z := err_code err.
(** core/error.c:51-54 *)
Definition vtm_err_get_name (err : vtm_err) : bytes := err_name err.
(** core/error.c:56-59 *)
Definition vtm_err_get_msg (err : vtm_err) : bytes := err_msg err.
(** core/error.c:61-64 *)
Definition vtm_err_get_file (err : vtm_err) : bytes := err_file err.
(** core/error.c:66-69 *)
Definition vtm_err_get_line (err : vtm_err) : Z := err_line err.
End Error.

(** ** Byte order *)

(** core/system.h:20-24 [enum vtm_byteorder] *)
Inductive vtm_byteorder := VTM_BYTEORDER_BE | VTM_BYTEORDER_LE.

#[global] Instance vtm_byteorder_eq_dec : EqDecision vtm_byteorder.
Proof. solve_decision. Defined.

(** The [n] bytes of the memory representation of an integer, least
    significant first, and the value of such a representation. *)
Fixpoint le_bytes (n : nat) (v : Z) : bytes :=
  match n with
  | O => []
  | S n' => u8 v :: le_bytes n' (v / 256)
  end.

Fixpoint le_val (l : bytes) : Z :=
  match l with
  | [] => 0
  | b :: l' => b + 256 * le_val l'
  end.

(** The object representation of an unsigned [n]-byte integer in memory
    of byte order [o]. *)
Definition ord_bytes (o : vtm_byteorder) (n : nat) (v : Z) : bytes :=
  match o with
  | VTM_BYTEORDER_LE => le_bytes n v
  | VTM_BYTEORDER_BE => rev (le_bytes n v)
  end.

Definition ord_val (o : vtm_byteorder) (l : bytes) : Z :=
  match o with
  | VTM_BYTEORDER_LE => le_val l
  | VTM_BYTEORDER_BE => le_val (rev l)
  end.

(** The byte order of the modelled platform. *)
Definition host : vtm_byteorder := VTM_BYTEORDER_LE.

(** core/system.c:9-17.  The first byte in memory of a known number. *)
Definition vtm_sys_get_byteorder : vtm_byteorder :=
  match ord_bytes host 4 0x0a0b0c0d with
  | b :: _ => if b =? 0x0d then VTM_BYTEORDER_LE else VTM_BYTEORDER_BE
  | [] => VTM_BYTEORDER_BE
  end.

(** ** Checked size arithmetic *)

(** core/math.c:10-20.  The result is stored in [*r] only on success. *)
Definition vtm_math_size_add (a b : Z) : Z * option Z :=
  let res := a +sz b in
  if res <? a then (VTM_E_OVERFLOW, None) else (VTM_OK, Some res).

(** core/math.c:22-32 *)
Definition vtm_math_size_mul (a b : Z) : Z * option Z :=
  let res := a *sz b in
  if res <? a then (VTM_E_OVERFLOW, None) else (VTM_OK, Some res).

(** ** Lemmas *)

Lemma vtm_sys_get_byteorder_host : vtm_sys_get_byteorder = host.
Proof. reflexivity. Qed.

Lemma size_add_no_overflow a b :
  is_size a -> is_size b -> a + b <= SIZE_MAX ->
  vtm_math_size_add a b = (VTM_OK, Some (a + b)).
Proof.
  intros Ha Hb Hab. unfold vtm_math_size_add.
  rewrite u64_small by zlia. bcase; [zlia | done].
Qed.

Lemma size_add_overflow a b :
  is_size a -> is_size b -> SIZE_MAX < a + b ->
  vtm_math_size_add a b = (VTM_E_OVERFLOW, None).
Proof.
  intros Ha Hb Hab. unfold vtm_math_size_add.
  rewrite u64_over by zlia. bcase; [done | zlia].
Qed.

Lemma length_le_bytes n v : length (le_bytes n v) = n.
Proof. revert v. induction n; intros; simpl; auto. Qed.

Lemma length_ord_bytes o n v : length (ord_bytes o n v) = n.
Proof. destruct o; simpl; rewrite ?length_rev; apply length_le_bytes. Qed.

Lemma zlen_ord_bytes o n v : zlen (ord_bytes o n v) = Z.of_nat n.
Proof. unfold zlen. by rewrite length_ord_bytes. Qed.

#[export] Hint Rewrite length_le_bytes length_ord_bytes zlen_ord_bytes : vtm_len.

Lemma le_bytes_bytes n v : Forall is_byte (le_bytes n v).
Proof.
  revert v. induction n; intros; simpl; constructor; auto with vtm.
Qed.

Lemma ord_bytes_bytes o n v : Forall is_byte (ord_bytes o n v).
Proof. destruct o; simpl; [apply Forall_rev |]; apply le_bytes_bytes. Qed.
#[export] Hint Resolve le_bytes_bytes ord_bytes_bytes : vtm.

Lemma le_val_bytes n v : le_val (le_bytes n v) = v mod 2 ^ (8 * Z.of_nat n).
Proof.
  revert v. induction n as [|n IH]; intros v; [by rewrite Z.mod_1_r |].
  cbn [le_bytes le_val]. rewrite IH.
  unfold u8, wrap. change (2 ^ 8) with 256.
  replace (8 * Z.of_nat (S n)) with (8 + 8 * Z.of_nat n) by lia.
  rewrite Z.pow_add_r by lia. change (2 ^ 8) with 256.
  rewrite Z.rem_mul_r by lia. lia.
Qed.

Lemma ord_val_bytes o n v :
  ord_val o (ord_bytes o n v) = v mod 2 ^ (8 * Z.of_nat n).
Proof. destruct o; simpl; rewrite ?rev_involutive; apply le_val_bytes. Qed.

Lemma le_val_app l k : le_val (l ++ k) = le_val l + 2 ^ (8 * zlen l) * le_val k.
Proof.
  induction l as [|b l IH].
  - change (zlen (A:=Z) []) with 0. cbn [app le_val]. lia.
  - cbn [app le_val]. rewrite IH, zlen_cons. pose proof (zlen_nonneg l).
    replace (8 * (1 + zlen l)) with (8 + 8 * zlen l) by lia. rewrite Z.pow_add_r by lia. change (2 ^ 8) with 256. lia.
Qed.

Lemma le_bytes_val l : Forall is_byte l -> le_bytes (length l) (le_val l) = l.
Proof.
  induction 1 as [|b l Hb Hl IH]; simpl; [done |].
  unfold is_byte in Hb. f_equal.
  - unfold u8, wrap. change (2 ^ 8) with 256.
    rewrite Z.mul_comm, Z_mod_plus_full. apply Z.mod_small. lia.
  - rewrite Z.mul_comm, Z.div_add by lia. by rewrite Z.div_small by lia.
Qed.

Lemma le_val_bound l : Forall is_byte l -> 0 <= le_val l < 2 ^ (8 * zlen l).
Proof.
  induction 1 as [|b l Hb Hl IH]; [done |].
  cbn [le_val]. rewrite zlen_cons.
  pose proof (zlen_nonneg l). rewrite Z.mul_add_distr_l, Z.pow_add_r by lia.
  unfold is_byte in Hb. change (2 ^ (8 * 1)) with 256. nia.
Qed.

(** ** Properties *)

(** [vtm_math_size_add] reports an overflow exactly when the mathematical
    sum does not fit into [size_t], and otherwise delivers the sum. *)
Theorem size_add_exact a b :
  is_size a -> is_size b ->
  vtm_math_size_add a b =
    if SIZE_MAX <? a + b then (VTM_E_OVERFLOW, None) else (VTM_OK, Some (a + b)).
Proof.
  intros Ha Hb. destruct (Z.ltb_spec SIZE_MAX (a + b)).
  - by apply size_add_overflow.
  - by apply size_add_no_overflow.
Qed.

Lemma size_add_exact_witness :
  is_size SIZE_MAX /\ is_size 1 /\
  vtm_math_size_add SIZE_MAX 1 =
    if SIZE_MAX <? SIZE_MAX + 1 then (VTM_E_OVERFLOW, None) else (VTM_OK, Some (SIZE_MAX + 1)).
Proof. split_and!; [zlia | zlia |]. apply (size_add_exact SIZE_MAX 1); zlia. Defined.

(** [vtm_math_size_mul] is exact only for a multiplier of 2 (its one use,
    in [vtm_str_vprintf]): for factors whose product wraps to a value not
    below the first factor it reports success and delivers the wrapped
    product, and it reports an overflow for every product with 0. *)
Theorem size_mul_exact_for_two_only :
  (forall a, is_size a ->
     vtm_math_size_mul a 2 =
       if SIZE_MAX <? 2 * a then (VTM_E_OVERFLOW, None) else (VTM_OK, Some (2 * a))) /\
  (exists a b, is_size a /\ is_size b /\ SIZE_MAX < a * b /\
     vtm_math_size_mul a b = (VTM_OK, Some ((a * b) mod 2 ^ 64)) /\
     (a * b) mod 2 ^ 64 <> a * b) /\
  (forall a, 0 < a -> vtm_math_size_mul a 0 = (VTM_E_OVERFLOW, None)).
Proof.
  split_and!.
  - intros a Ha. unfold vtm_math_size_mul. rewrite (Z.mul_comm a 2).
    destruct (Z.ltb_spec SIZE_MAX (2 * a)).
    + rewrite u64_over by zlia. bcase; [done | zlia].
    + rewrite u64_small by zlia. bcase; [zlia | done].
  - exists (2 ^ 32), (2 ^ 33 + 1).
    split_and!; [zlia | zlia | zlia | reflexivity | discriminate].
  - intros a Ha. unfold vtm_math_size_mul. rewrite Z.mul_0_r.
    bcase; [done |]. change (u64 0) with 0 in *. lia.
Qed.
