(* ===== verification/Buffer.v ===== *)
(** * Buffer: the growing byte buffer of core/buffer.c and core/buffer.h

    [vtm_buf] is the C struct: [buf_data] holds the initialised bytes of the
    block [buf->data] points to (the block itself has [buf_len] bytes, those
    behind the initialised ones are unspecified), [buf_place] says which block
    that is: the embedded array [sdata], a block of the heap, or none, behind a
    growth out of the array for which there was no memory.  Operations that
    allocate take the allocator's answer as an argument.  A store through NULL
    is undefined behaviour; it yields the code [BUF_UNDEF], which is none of the
    library's and is never cleared.  The abstract view of a buffer is the queue
    of its unprocessed bytes, [buf_content]. *)

From S2P Require Import Prelude Base.

Definition VTM_BUF_SDATA_LEN : Z := 1024.

(** What [buf->data] points to; [Nowhere] is NULL. *)
Inductive buf_home := InArray | InBlock | Nowhere.
#[export] Instance buf_home_eq_dec : EqDecision buf_home.
Proof. solve_decision. Defined.

(** core/buffer.h:56-65 [struct vtm_buf] *)
Record vtm_buf := mk_buf {
  buf_order : vtm_byteorder;
  buf_place : buf_home;
  buf_data : bytes;
  buf_len : Z;
  buf_used : Z;
  buf_read : Z;
  buf_err : Z
}.

(** Field updates. *)
Definition buf_with_data b d u :=
  mk_buf (buf_order b) (buf_place b) d (buf_len b) u (buf_read b) (buf_err b).
Definition buf_with_read b r :=
  mk_buf (buf_order b) (buf_place b) (buf_data b) (buf_len b) (buf_used b) r (buf_err b).
Definition buf_with_err b l e :=
  mk_buf (buf_order b) (buf_place b) (buf_data b) l (buf_used b) (buf_read b) e.
Definition buf_with_block b l :=
  mk_buf (buf_order b) InBlock (buf_data b) l (buf_used b) (buf_read b) (buf_err b).

(** The contents are out of reach. *)
Definition buf_lose b l e :=
  mk_buf (buf_order b) Nowhere [] l (buf_used b) (buf_read b) e.

(** The used bytes, as somebody else reads them; there are none behind NULL. *)
Definition buf_bytes (b : vtm_buf) : option bytes :=
  if decide (buf_place b = Nowhere) then None else Some (ztake (buf_used b) (buf_data b)).

(** Behind a store through NULL. *)
Definition BUF_UNDEF : Z := -1.
Definition buf_undef b := buf_lose b (buf_len b) BUF_UNDEF.

(** Bytes are stored in the block. *)
Definition buf_stored b d u := if decide (buf_place b = Nowhere) then buf_undef b else buf_with_data b d u.

(** ** The macros of buffer.h *)

(** core/buffer.h:23-25 *)
Definition VTM_BUF_GET_AVAIL (b : vtm_buf) (n : Z) : bool :=
  (buf_read b +sz n <=? buf_used b) && (buf_read b <=? buf_read b +sz n).

(** core/buffer.h:28-29 *)
Definition VTM_BUF_GET_AVAIL_TOTAL (b : vtm_buf) : Z := u64 (buf_used b - buf_read b).

(** core/buffer.h:32-33.  No result models a read outside of the
    initialised bytes. *)
Definition VTM_BUF_GETC (b : vtm_buf) : option (Z * vtm_buf) :=
  c ← znth (buf_data b) (buf_read b); Some (c, buf_with_read b (buf_read b +sz 1)).

(** core/buffer.h:36-38 *)
Definition VTM_BUF_PUT_AVAIL (b : vtm_buf) (n : Z) : bool :=
  (buf_used b +sz n <=? buf_len b) && (buf_used b <=? buf_used b +sz n).

(** core/buffer.h:41-42 *)
Definition VTM_BUF_PUT_AVAIL_TOTAL (b : vtm_buf) : Z := u64 (buf_len b - buf_used b).

(** core/buffer.h:49-50.  The caller stored [l] at VTM_BUF_PUT_PTR before. *)
Definition VTM_BUF_PUT_INC (b : vtm_buf) (l : bytes) : vtm_buf :=
  buf_stored b (splice (buf_used b) l (buf_data b)) (buf_used b +sz zlen l).

(** core/buffer.h:53-54 *)
Definition VTM_BUF_PROCESS_ALL (b : vtm_buf) : vtm_buf := buf_with_read b (buf_used b).

(** ** Operations *)

(** core/buffer.c:30-38 *)
Definition vtm_buf_init (order : vtm_byteorder) : vtm_buf :=
  mk_buf order InArray [] VTM_BUF_SDATA_LEN 0 0 VTM_OK.

(** core/buffer.c:15-28.  NULL if the allocation of the struct fails. *)
Definition vtm_buf_new (malloc_ok : bool) (order : vtm_byteorder) : option vtm_buf :=
  if malloc_ok then Some (vtm_buf_init order) else None.

(** core/buffer.c:52-57 *)
Definition vtm_buf_clear (b : vtm_buf) : vtm_buf :=
  mk_buf (buf_order b) (buf_place b) (buf_data b) (buf_len b) 0 0
    (if buf_err b =? BUF_UNDEF then BUF_UNDEF else VTM_OK).

(** core/buffer.c:164-169.  The doubling loop of [vtm_buf_grow]; the inner
    result is [None] if the size overflowed. *)
Fixpoint grow_loop (fuel : nat) (old target len : Z) : option (option Z) :=
  match fuel with
  | O => None
  | S fuel' =>
      if len <? target then
        let len' := u64 (Z.shiftl len 1) in
        if len' <? old then Some None else grow_loop fuel' old target len'
      else Some (Some len)
  end.

(** The size doubles in every iteration, so 65 iterations suffice. *)
Definition grow_fuel : nat := 65.

(** core/buffer.c:149-194.  [malloc_ok] is the answer of malloc() or
    realloc() to a request.  The initialised bytes are kept, unless the block is
    the array and malloc() fails: [buf->data] is NULL then. *)
Definition vtm_buf_grow (malloc_ok : Z -> bool) (b : vtm_buf) (add_size : Z) : vtm_buf :=
  if negb (buf_err b =? VTM_OK) then b
  else
    let old := buf_len b in
    let target := old +sz add_size in
    if target <? old then buf_with_err b old VTM_E_OVERFLOW
    else match grow_loop grow_fuel old target old with
         | Some (Some len) =>
             if malloc_ok len then buf_with_block b len
             else match buf_place b with
                  | InArray => buf_lose b old VTM_E_MALLOC
                  | _ => buf_with_err b old VTM_E_MALLOC
                  end
         | _ => buf_with_err b old VTM_E_OVERFLOW
         end.

Section with_allocator.
Context (malloc_ok : Z -> bool).

(** core/buffer.c:59-65 *)
Definition vtm_buf_ensure (b : vtm_buf) (space : Z) : vtm_buf * Z :=
  let b' := if VTM_BUF_PUT_AVAIL b space then b else vtm_buf_grow malloc_ok b space in
  (b', buf_err b').

(** core/buffer.c:104-124 *)
Definition vtm_buf_puto (b : vtm_buf) (src : bytes) (src_order : vtm_byteorder)
    : vtm_buf * Z :=
  let len := zlen src in
  let b' := if VTM_BUF_PUT_AVAIL b len then b else vtm_buf_grow malloc_ok b len in
  if negb (buf_err b' =? VTM_OK) then (b', buf_err b')
  else
    let l := if decide (buf_order b' = src_order) then src else rev src in
    let b' := buf_stored b' (splice (buf_used b') l (buf_data b')) (buf_used b' +sz len) in
    (b', buf_err b').

(** core/buffer.c:126-129 *)
Definition vtm_buf_putm (b : vtm_buf) (src : bytes) : vtm_buf * Z :=
  vtm_buf_puto b src (buf_order b).

(** core/buffer.c:131-134.  [str] is NUL-terminated. *)
Definition vtm_buf_puts (b : vtm_buf) (str : bytes) : vtm_buf * Z :=
  vtm_buf_putm b str.

(** core/buffer.c:136-147 *)
Definition vtm_buf_putc (b : vtm_buf) (c : Z) : vtm_buf * Z :=
  let b' := if VTM_BUF_PUT_AVAIL b 1 then b else vtm_buf_grow malloc_ok b 1 in
  if negb (buf_err b' =? VTM_OK) then (b', buf_err b')
  else
    let b' := buf_stored b' (zput (buf_used b') (u8 c) (buf_data b')) (buf_used b' +sz 1) in
    (b', buf_err b').
End with_allocator.

(** core/buffer.c:67-75.  memmove() of the unprocessed bytes to the front. *)
Definition vtm_buf_discard_processed (b : vtm_buf) : vtm_buf :=
  if buf_read b =? 0 then b
  else if decide (buf_place b = Nowhere) then buf_undef b
  else
    let n := u64 (buf_used b - buf_read b) in
    let moved := ztake n (zdrop (buf_read b) (buf_data b)) in
    mk_buf (buf_order b) (buf_place b) (splice 0 moved (buf_data b)) (buf_len b)
      n 0 (buf_err b).

(** core/buffer.c:77-80 *)
Definition vtm_buf_mark_processed (b : vtm_buf) (num : Z) : vtm_buf * Z :=
  match vtm_math_size_add (buf_read b) num with
  | (rc, Some r) => (buf_with_read b r, rc)
  | (rc, None) => (b, rc)
  end.

(** core/buffer.c:82-97.  The bytes copied to [dst]; no result models a
    read outside of the initialised bytes (the function does no check). *)
Definition vtm_buf_geto (b : vtm_buf) (len : Z) (dst_order : vtm_byteorder)
    : option (bytes * vtm_buf) :=
  if (buf_read b + len <=? zlen (buf_data b)) && (0 <=? len) then
    let src := ztake len (zdrop (buf_read b) (buf_data b)) in
    Some (if decide (buf_order b = dst_order) then src else rev src,
          buf_with_read b (buf_read b +sz len))
  else None.

(** core/buffer.c:99-102 *)
Definition vtm_buf_getm (b : vtm_buf) (len : Z) : option (bytes * vtm_buf) :=
  vtm_buf_geto b len (buf_order b).

(** ** Invariant and abstract view *)

(** The bytes that were put and not yet processed. *)
Definition buf_content (b : vtm_buf) : bytes :=
  zdrop (buf_read b) (ztake (buf_used b) (buf_data b)).

(** Sizes are ordered as in the struct's documentation, the block size is a
    power of two that starts at the size of the embedded array. *)
Record buf_ok (b : vtm_buf) : Prop := {
  buf_ok_pow : exists k, 10 <= k < 64 /\ buf_len b = 2 ^ k;
  buf_ok_read : 0 <= buf_read b <= buf_used b;
  buf_ok_used : buf_used b <= zlen (buf_data b);
  buf_ok_len : zlen (buf_data b) <= buf_len b;
  buf_ok_place : buf_place b <> Nowhere;
  buf_ok_static : buf_place b = InArray -> buf_len b = VTM_BUF_SDATA_LEN;
  buf_ok_bytes : Forall is_byte (buf_data b);
  buf_ok_defined : buf_err b <> BUF_UNDEF
}.

(** A buffer behind a growth out of its array that has failed. *)
Record buf_lost (b : vtm_buf) : Prop := {
  lost_place : buf_place b = Nowhere;
  lost_data : buf_data b = [];
  lost_err : buf_err b = VTM_E_MALLOC
}.

Lemma buf_ok_sizes b :
  buf_ok b -> 0 <= buf_read b <= buf_used b /\ buf_used b <= zlen (buf_data b)
              /\ zlen (buf_data b) <= buf_len b /\ 1024 <= buf_len b <= 2 ^ 63.
Proof.
  intros [ (k & Hk & Hl) ? ? ? _ _ _ _]. repeat split; try lia; rewrite Hl.
  - change 1024 with (2 ^ 10). apply Z.pow_le_mono_r; lia.
  - apply Z.pow_le_mono_r; lia.
Qed.

Ltac buf_sizes :=
  repeat match goal with
  | H : buf_ok ?b |- _ =>
      lazymatch goal with
      | _ : 1024 <= buf_len b <= _ |- _ => fail
      | _ => let P := fresh in pose proof (buf_ok_sizes b H) as P;
             destruct P as (? & ? & ? & ?)
      end
  end.

Lemma buf_init_ok order : buf_ok (vtm_buf_init order).
Proof.
  constructor; simpl; try done.
  exists 10. split; [lia | done].
Qed.

Lemma buf_content_len b :
  buf_ok b -> zlen (buf_content b) = buf_used b - buf_read b.
Proof.
  intros Hb. buf_sizes. unfold buf_content.
  rewrite zlen_zdrop; rewrite zlen_ztake; lia.
Qed.

Lemma buf_content_bytes b : buf_ok b -> Forall is_byte (buf_content b).
Proof.
  intros Hb. unfold buf_content, zdrop, ztake.
  apply Forall_drop, Forall_take, Hb.
Qed.

Lemma get_avail_total b :
  buf_ok b -> VTM_BUF_GET_AVAIL_TOTAL b = zlen (buf_content b).
Proof.
  intros Hb. rewrite buf_content_len by done. buf_sizes.
  unfold VTM_BUF_GET_AVAIL_TOTAL. rewrite u64_small; zlia.
Qed.

Lemma get_avail_spec b n :
  buf_ok b -> is_size n ->
  VTM_BUF_GET_AVAIL b n = true <-> n <= zlen (buf_content b).
Proof.
  intros Hb Hn. rewrite buf_content_len by done. buf_sizes.
  unfold VTM_BUF_GET_AVAIL. rewrite andb_true_iff, !Z.leb_le.
  destruct (Z.leb_spec (buf_read b + n) SIZE_MAX).
  - rewrite u64_small by zlia. zlia.
  - rewrite u64_over by zlia. zlia.
Qed.

Lemma put_avail_spec b n :
  buf_ok b -> is_size n ->
  VTM_BUF_PUT_AVAIL b n = true <-> buf_used b + n <= buf_len b.
Proof.
  intros Hb Hn. buf_sizes.
  unfold VTM_BUF_PUT_AVAIL. rewrite andb_true_iff, !Z.leb_le.
  destruct (Z.leb_spec (buf_used b + n) SIZE_MAX).
  - rewrite u64_small by zlia. zlia.
  - rewrite u64_over by zlia. zlia.
Qed.

(** ** Growing *)

Lemma grow_loop_spec fuel k0 k target :
  10 <= k0 <= k -> k <= 63 -> target < 2 ^ 64 -> 64 - k < Z.of_nat fuel ->
  (exists k', k <= k' <= 63 /\ target <= 2 ^ k' /\ (k' = k \/ 2 ^ k' < 2 * target) /\
     grow_loop fuel (2 ^ k0) target (2 ^ k) = Some (Some (2 ^ k'))) \/
  (2 ^ 63 < target /\ grow_loop fuel (2 ^ k0) target (2 ^ k) = Some None).
Proof.
  revert k. induction fuel as [|fuel IH]; intros k Hk0 Hk Ht Hf; [lia |].
  cbn [grow_loop]. destruct (Z.ltb_spec (2 ^ k) target) as [Hlt|Hge].
  2: { left. exists k. split_and!; auto; lia. }
  rewrite Z.shiftl_mul_pow2 by lia.
  replace (2 ^ k * 2 ^ 1) with (2 ^ (k + 1)) by (rewrite Z.pow_add_r; lia).
  assert (2 ^ k0 <= 2 ^ (k + 1)) as Hle by (apply Z.pow_le_mono_r; lia).
  assert (0 < 2 ^ k0) by (apply Z.pow_pos_nonneg; lia).
  destruct (decide (k = 63)) as [->|Hne].
  - right. split; [lia |]. change (u64 (2 ^ (63 + 1))) with 0.
    destruct (Z.ltb_spec 0 (2 ^ k0)); [done | lia].
  - assert (2 ^ (k + 1) <= 2 ^ 63) by (apply Z.pow_le_mono_r; lia).
    rewrite u64_small by zlia.
    destruct (Z.ltb_spec (2 ^ (k + 1)) (2 ^ k0)); [lia |].
    destruct (IH (k + 1)) as [(k' & ? & ? & Hmin & ->) | (? & ->)]; try lia.
    + left. exists k'. split_and!; try lia; [|done]. right.
      destruct Hmin as [->|]; [|lia].
      replace (2 ^ (k + 1)) with (2 * 2 ^ k) by (rewrite Z.pow_add_r; lia). lia.
    + by right.
Qed.

(** The outcomes of [vtm_buf_grow]: enough space, an error that leaves the
    contents alone, or an error with which they are lost. *)
Variant grow_outcome (malloc_ok : Z -> bool) (b : vtm_buf) (add : Z) : vtm_buf -> Prop :=
  | grow_done k :
      10 <= k <= 63 -> buf_err b = VTM_OK -> buf_len b <= 2 ^ k ->
      buf_len b + add <= 2 ^ k ->
      2 ^ k = buf_len b \/ 2 ^ k < 2 * (buf_len b + add) -> malloc_ok (2 ^ k) = true ->
      grow_outcome malloc_ok b add (buf_with_block b (2 ^ k))
  | grow_lost k :
      10 <= k <= 63 -> buf_len b + add <= 2 ^ k -> malloc_ok (2 ^ k) = false ->
      buf_err b = VTM_OK -> buf_place b = InArray ->
      grow_outcome malloc_ok b add (buf_lose b (buf_len b) VTM_E_MALLOC)
  | grow_oom k :
      10 <= k <= 63 -> buf_len b + add <= 2 ^ k -> malloc_ok (2 ^ k) = false ->
      buf_err b = VTM_OK -> buf_place b = InBlock ->
      grow_outcome malloc_ok b add (buf_with_err b (buf_len b) VTM_E_MALLOC)
  | grow_overflow :
      2 ^ 63 < buf_len b + add -> buf_err b = VTM_OK ->
      grow_outcome malloc_ok b add (buf_with_err b (buf_len b) VTM_E_OVERFLOW)
  | grow_failed :
      buf_err b <> VTM_OK -> grow_outcome malloc_ok b add b.

Lemma vtm_buf_grow_spec malloc_ok b add :
  buf_ok b -> is_size add ->
  grow_outcome malloc_ok b add (vtm_buf_grow malloc_ok b add).
Proof.
  intros Hb Hadd. unfold vtm_buf_grow.
  destruct (Z.eqb_spec (buf_err b) VTM_OK) as [He|He]; cbn [negb]; [|by constructor].
  destruct (buf_ok_pow b Hb) as (k & Hk & Hl). buf_sizes.
  destruct (Z.leb_spec (buf_len b + add) SIZE_MAX) as [Hs|Hs].
  2: { rewrite u64_over by zlia. bcase; [|zlia]. apply grow_overflow; zlia. }
  rewrite u64_small by zlia. bcase; [zlia |].
  pose proof (grow_loop_spec grow_fuel k k (buf_len b + add)) as Hg.
  rewrite <- Hl in Hg.
  destruct Hg as [(k' & Hk' & Ht & Hmin & ->) | (Ht & ->)];
    [lia | lia | zlia | unfold grow_fuel; lia | |].
  - destruct (malloc_ok (2 ^ k')) eqn:Hm.
    + apply grow_done; auto; [lia | zlia |]. rewrite Hl in Hmin |- *.
      destruct Hmin as [->|]; auto.
    + pose proof (buf_ok_place b Hb). destruct (buf_place b) eqn:Hpl; [| |done].
      * apply (grow_lost _ _ _ k'); auto. lia.
      * apply (grow_oom _ _ _ k'); auto. lia.
  - by apply grow_overflow.
Qed.

Lemma buf_with_err_ok b e : buf_ok b -> e <> BUF_UNDEF -> buf_ok (buf_with_err b (buf_len b) e).
Proof. intros []. by constructor. Qed.

Lemma buf_lose_lost b l : buf_lost (buf_lose b l VTM_E_MALLOC).
Proof. by constructor. Qed.

Lemma buf_with_block_ok b k :
  buf_ok b -> 10 <= k <= 63 -> buf_len b <= 2 ^ k -> buf_ok (buf_with_block b (2 ^ k)).
Proof.
  intros [] Hk Hl. constructor; cbn [buf_with_block buf_len buf_read buf_used
    buf_data buf_place buf_err]; auto; [|lia |discriminate].
  exists k. split; [lia | done].
Qed.

(** Unless they are lost, the invariant holds and the contents stay. *)
Lemma vtm_buf_grow_ok malloc_ok b add :
  buf_ok b -> is_size add ->
  let b' := vtm_buf_grow malloc_ok b add in
  buf_order b' = buf_order b /\ buf_used b' = buf_used b /\ buf_read b' = buf_read b /\
  ((buf_ok b' /\ buf_data b' = buf_data b) \/
   (buf_lost b' /\ buf_place b = InArray /\ buf_err b = VTM_OK /\ exists l, buf_len b + add <= l /\ malloc_ok l = false)).
Proof.
  intros Hb Hadd b'. subst b'.
  destruct (vtm_buf_grow_spec malloc_ok b add Hb Hadd); do 3 (split; [done|]);
    try (left; split; [by auto using buf_with_err_ok, buf_with_block_ok | done]).
  right. split; [apply buf_lose_lost|]. eauto.
Qed.

(** ** Putting *)

(** The bytes as stored for a source in byte order [o]. *)
Definition orient (b : vtm_buf) (o : vtm_byteorder) (l : bytes) : bytes :=
  if decide (buf_order b = o) then l else rev l.

Lemma orient_orient b o l : orient b o (orient b o l) = l.
Proof. unfold orient. case_decide; [done | apply rev_involutive]. Qed.

Lemma orient_len b o l : zlen (orient b o l) = zlen l.
Proof. unfold orient. case_decide; [done | apply zlen_rev]. Qed.

Lemma orient_bytes b o l : Forall is_byte l -> Forall is_byte (orient b o l).
Proof. unfold orient. case_decide; [done | apply Forall_rev]. Qed.

(** Storing [l] behind the used bytes appends [l] to the contents. *)
Lemma buf_store_spec b l u :
  buf_ok b -> Forall is_byte l -> buf_used b + zlen l <= buf_len b ->
  u = buf_used b + zlen l ->
  let b' := buf_stored b (splice (buf_used b) l (buf_data b)) u in
  b' = buf_with_data b (splice (buf_used b) l (buf_data b)) u /\
  buf_ok b' /\ buf_content b' = buf_content b ++ l.
Proof.
  intros Hb Hl Hlen -> b'. subst b'. pose proof Hb as [Hp Hr Hu Hd Hpl Hst Hby Hdef].
  unfold buf_stored. rewrite decide_False by done. split; [done|].
  pose proof (zlen_nonneg l).
  assert (zlen (splice (buf_used b) l (buf_data b)) =
          Z.max (zlen (buf_data b)) (buf_used b + zlen l)) as Hsl.
  { destruct (Z.leb_spec (buf_used b + zlen l) (zlen (buf_data b))).
    - rewrite splice_len; lia.
    - rewrite splice_len_ge; lia. }
  split.
  - constructor; cbn [buf_with_data buf_len buf_read buf_used buf_data buf_place buf_err];
      auto with vtm; lia.
  - unfold buf_content; cbn [buf_with_data buf_used buf_read buf_data].
    rewrite splice_take by lia. rewrite zdrop_app_le; [done |].
    rewrite zlen_ztake; lia.
Qed.

Lemma put_inc_spec b l :
  buf_ok b -> Forall is_byte l -> buf_used b + zlen l <= buf_len b ->
  let b' := buf_with_data b (splice (buf_used b) l (buf_data b)) (buf_used b + zlen l) in
  VTM_BUF_PUT_INC b l = b' /\ buf_ok b' /\ buf_content b' = buf_content b ++ l.
Proof.
  intros Hb Hl Hlen. destruct (buf_store_spec b l (buf_used b + zlen l) Hb Hl Hlen eq_refl) as (E & Hb' & Hc).
  rewrite E in Hb', Hc. cbv zeta. split; [|done]. unfold VTM_BUF_PUT_INC.
  pose proof (zlen_nonneg l). rewrite u64_small by (buf_sizes; unfold is_size, SIZE_MAX; lia). exact E.
Qed.

(** The outcome of a put: success and the bytes appended, the error code and
    unchanged contents, or no memory and the contents lost. *)
Variant put_outcome (b : vtm_buf) (l : bytes) : vtm_buf * Z -> Prop :=
  | put_done b' :
      buf_ok b' -> buf_err b = VTM_OK -> buf_err b' = VTM_OK ->
      buf_order b' = buf_order b -> buf_read b' = buf_read b ->
      buf_content b' = buf_content b ++ l -> put_outcome b l (b', VTM_OK)
  | put_failed b' :
      buf_ok b' -> buf_err b' <> VTM_OK -> buf_order b' = buf_order b ->
      buf_content b' = buf_content b -> put_outcome b l (b', buf_err b')
  | put_lost b' :
      buf_lost b' -> buf_err b = VTM_OK -> buf_place b = InArray -> buf_order b' = buf_order b ->
      put_outcome b l (b', buf_err b').

Section puts.
Context (malloc_ok : Z -> bool).

(** Every put first makes room; afterwards there is room or an error. *)
Lemma make_room b n :
  buf_ok b -> is_size n ->
  let b' := if VTM_BUF_PUT_AVAIL b n then b else vtm_buf_grow malloc_ok b n in
  buf_order b' = buf_order b /\ buf_read b' = buf_read b /\ buf_used b' = buf_used b /\
  ((buf_ok b' /\ buf_content b' = buf_content b /\
    (buf_err b' = VTM_OK -> buf_used b + n <= buf_len b' /\ buf_err b = VTM_OK)) \/
   (buf_lost b' /\ buf_place b = InArray /\ buf_err b = VTM_OK /\ exists l, buf_len b + n <= l /\ malloc_ok l = false)).
Proof.
  intros Hb Hn b'. subst b'. pose proof (put_avail_spec b n Hb Hn) as Ha.
  destruct (VTM_BUF_PUT_AVAIL b n).
  { split_and!; auto. left. split_and!; auto. intros; split; [by apply Ha | done]. }
  destruct (vtm_buf_grow_ok malloc_ok b n Hb Hn) as (Ho & Hu & Hr & [[Hok Hd]|H]); split_and!; auto.
  left. split_and!; [done| |].
  { unfold buf_content. by rewrite Hu, Hd, Hr. }
  destruct (vtm_buf_grow_spec malloc_ok b n Hb Hn);
    cbn [buf_with_err buf_with_block buf_lose buf_err buf_len] in *; try done.
  intros _. buf_sizes. split; [zlia | done].
Qed.

Lemma vtm_buf_puto_spec b src o :
  buf_ok b -> Forall is_byte src -> is_size (zlen src) ->
  put_outcome b (orient b o src) (vtm_buf_puto malloc_ok b src o).
Proof.
  intros Hb Hs Hl. unfold vtm_buf_puto.
  destruct (make_room b (zlen src) Hb Hl) as (Ho & Hr & Hu & Hroom').
  set (b' := if VTM_BUF_PUT_AVAIL b _ then _ else _) in *.
  destruct Hroom' as [(Hb' & Hc & He)|(Hlost & Hpl & He & _)].
  2: { rewrite (lost_err b' Hlost). change (negb (VTM_E_MALLOC =? VTM_OK)) with true. cbn iota.
       rewrite <- (lost_err b' Hlost) at 1. by apply put_lost. }
  destruct (Z.eqb_spec (buf_err b') VTM_OK) as [E|E]; cbn [negb].
  2: { by apply put_failed. }
  destruct (He E) as [Hroom Hok].
  change (if decide (buf_order b' = o) then src else rev src) with (orient b' o src).
  pose proof (orient_len b' o src) as Hol. buf_sizes.
  rewrite u64_small by (pose proof (zlen_nonneg src); zlia).
  destruct (buf_store_spec b' (orient b' o src) (buf_used b' + zlen src)) as (HE & HA & HB);
    auto using orient_bytes; try lia.
  rewrite HE in *. cbn [buf_with_data buf_err]. rewrite E.
  apply put_done; auto. rewrite HB, Hc. unfold orient. by rewrite Ho.
Qed.

Lemma vtm_buf_putm_spec b src :
  buf_ok b -> Forall is_byte src -> is_size (zlen src) ->
  put_outcome b src (vtm_buf_putm malloc_ok b src).
Proof.
  intros. pose proof (vtm_buf_puto_spec b src (buf_order b)) as P.
  unfold orient in P. rewrite decide_True in P by done. auto.
Qed.

Lemma vtm_buf_putc_spec b c :
  buf_ok b -> put_outcome b [u8 c] (vtm_buf_putc malloc_ok b c).
Proof.
  intros Hb. unfold vtm_buf_putc.
  destruct (make_room b 1 Hb) as (Ho & Hr & Hu & Hroom'); [zlia |].
  set (b' := if VTM_BUF_PUT_AVAIL b _ then _ else _) in *.
  destruct Hroom' as [(Hb' & Hc & He)|(Hlost & Hpl & He & _)].
  2: { rewrite (lost_err b' Hlost). change (negb (VTM_E_MALLOC =? VTM_OK)) with true. cbn iota.
       rewrite <- (lost_err b' Hlost) at 1. by apply put_lost. }
  destruct (Z.eqb_spec (buf_err b') VTM_OK) as [E|E]; cbn [negb].
  2: { by apply put_failed. }
  destruct (He E) as [Hroom Hok]. buf_sizes. rewrite u64_small by zlia. unfold zput.
  destruct (buf_store_spec b' [u8 c] (buf_used b' + 1)) as (HE & HA & HB);
    auto with vtm; try (change (zlen [u8 c]) with 1; lia).
  rewrite HE in *. cbn [buf_with_data buf_err]. rewrite E.
  apply put_done; auto. by rewrite HB, Hc.
Qed.
End puts.

(** ** Getting *)

Lemma buf_with_read_ok b r :
  buf_ok b -> 0 <= r <= buf_used b -> buf_ok (buf_with_read b r).
Proof. intros [] Hr. by constructor. Qed.

Lemma buf_content_read b n :
  buf_ok b -> 0 <= n <= zlen (buf_content b) ->
  buf_content (buf_with_read b (buf_read b + n)) = zdrop n (buf_content b).
Proof.
  intros Hb Hn. buf_sizes. unfold buf_content; cbn [buf_with_read buf_read buf_used buf_data].
  by rewrite zdrop_zdrop by lia.
Qed.

Lemma buf_content_prefix b n :
  buf_ok b -> 0 <= n <= zlen (buf_content b) ->
  ztake n (zdrop (buf_read b) (buf_data b)) = ztake n (buf_content b).
Proof.
  intros Hb Hn. rewrite buf_content_len in Hn by done. buf_sizes.
  unfold buf_content, ztake, zdrop.
  rewrite skipn_firstn_comm, take_take. f_equal. lia.
Qed.

Lemma vtm_buf_geto_spec b n o :
  buf_ok b -> 0 <= n <= zlen (buf_content b) ->
  exists b', vtm_buf_geto b n o = Some (orient b o (ztake n (buf_content b)), b') /\
    buf_ok b' /\ buf_content b' = zdrop n (buf_content b) /\
    buf_order b' = buf_order b /\ buf_err b' = buf_err b /\
    b' = buf_with_read b (buf_read b + n).
Proof.
  intros Hb Hn. pose proof Hn as Hn'. rewrite buf_content_len in Hn' by done.
  buf_sizes. unfold vtm_buf_geto.
  assert ((buf_read b + n <=? zlen (buf_data b)) && (0 <=? n) = true) as ->
    by (apply andb_true_intro; split; apply Z.leb_le; lia).
  rewrite u64_small by zlia. rewrite buf_content_prefix by done.
  eexists. split; [reflexivity |].
  split; [apply buf_with_read_ok; [done | lia] |]. auto using buf_content_read.
Qed.

Lemma VTM_BUF_GETC_spec b c l :
  buf_ok b -> buf_content b = c :: l ->
  VTM_BUF_GETC b = Some (c, buf_with_read b (buf_read b + 1)) /\
  buf_ok (buf_with_read b (buf_read b + 1)) /\
  buf_content (buf_with_read b (buf_read b + 1)) = l.
Proof.
  intros Hb Hc.
  assert (0 <= 1 <= zlen (buf_content b)) as Hn.
  { rewrite Hc, zlen_cons. pose proof (zlen_nonneg l). lia. }
  pose proof (buf_content_prefix b 1 Hb Hn) as P. rewrite Hc in P.
  pose proof (buf_content_read b 1 Hb Hn) as R. rewrite Hc in R.
  rewrite buf_content_len in Hn by done. buf_sizes.
  unfold VTM_BUF_GETC. rewrite u64_small by zlia.
  destruct (znth_is_Some (buf_data b) (buf_read b)) as [x Hx]; [lia |].
  rewrite Hx. rewrite (znth_zdrop (buf_data b) (buf_read b) x) in P by (done || lia). injection P as ->.
  split; [done |]. split; [apply buf_with_read_ok; [done | lia] | done].
Qed.

Lemma vtm_buf_discard_processed_spec b :
  buf_ok b ->
  let b' := vtm_buf_discard_processed b in
  buf_ok b' /\ buf_content b' = buf_content b /\ buf_read b' = 0 /\
  buf_order b' = buf_order b /\ buf_err b' = buf_err b /\ buf_len b' = buf_len b.
Proof.
  intros Hb b'. subst b'. unfold vtm_buf_discard_processed.
  destruct (Z.eqb_spec (buf_read b) 0) as [E|E]; [by split_and! |].
  pose proof Hb as [Hp Hr Hu Hd Hpl Hst Hby Hdef]. buf_sizes. rewrite decide_False by done.
  rewrite u64_small by zlia.
  pose proof (buf_content_len b Hb) as Hl. pose proof (zlen_nonneg (buf_content b)).
  rewrite buf_content_prefix by (auto; lia).
  rewrite (ztake_all (buf_content b)) by lia.
  assert (zlen (splice 0 (buf_content b) (buf_data b)) = zlen (buf_data b))
    by (apply splice_len; lia).
  pose proof (splice_take 0 (buf_content b) (buf_data b)) as Ht.
  split_and!; try done.
  - constructor; cbn [buf_len buf_read buf_used buf_data buf_place buf_err]; auto; try lia.
    apply splice_bytes; auto using buf_content_bytes.
  - unfold buf_content at 1; cbn [buf_read buf_used buf_data].
    rewrite zdrop_0, <- Hl. apply Ht. lia.
Qed.

Lemma vtm_buf_mark_processed_spec b n :
  buf_ok b -> 0 <= n <= zlen (buf_content b) ->
  vtm_buf_mark_processed b n = (buf_with_read b (buf_read b + n), VTM_OK).
Proof.
  intros Hb Hn. rewrite buf_content_len in Hn by done. buf_sizes.
  unfold vtm_buf_mark_processed. by rewrite size_add_no_overflow by zlia.
Qed.

(** ** Refinement: the buffer is a byte queue *)

(** The operations of a client; reads are guarded by VTM_BUF_GET_AVAIL, as
    every caller of the library does. *)
Inductive buf_op :=
  | OPut (l : bytes) (o : vtm_byteorder)
  | OPutc (c : Z)
  | OGet (n : Z) (o : vtm_byteorder)
  | OMark (n : Z)
  | OEnsure (n : Z)
  | ODiscard
  | OClear.

(** What the client observes: a return code and the bytes read. *)
Definition buf_obs : Type := Z * bytes.

(** No result for a store through NULL. *)
Definition buf_defined (r : vtm_buf * buf_obs) : option (vtm_buf * buf_obs) :=
  if buf_err r.1 =? BUF_UNDEF then None else Some r.

Definition buf_step (malloc_ok : Z -> bool) (b : vtm_buf) (op : buf_op)
    : option (vtm_buf * buf_obs) :=
  match op with
  | OPut l o => let '(b', rc) := vtm_buf_puto malloc_ok b l o in buf_defined (b', (rc, []))
  | OPutc c => let '(b', rc) := vtm_buf_putc malloc_ok b c in buf_defined (b', (rc, []))
  | OGet n o =>
      if VTM_BUF_GET_AVAIL b n then
        '(l, b') ← vtm_buf_geto b n o; Some (b', (VTM_OK, l))
      else Some (b, (VTM_E_IO_AGAIN, []))
  | OMark n =>
      if VTM_BUF_GET_AVAIL b n then
        let '(b', rc) := vtm_buf_mark_processed b n in Some (b', (rc, []))
      else Some (b, (VTM_E_IO_AGAIN, []))
  | OEnsure n => let '(b', rc) := vtm_buf_ensure malloc_ok b n in Some (b', (rc, []))
  | ODiscard => buf_defined (vtm_buf_discard_processed b, (VTM_OK, []))
  | OClear => Some (vtm_buf_clear b, (VTM_OK, []))
  end.

Fixpoint buf_run (malloc_ok : Z -> bool) (b : vtm_buf) (ops : list buf_op)
    : option (vtm_buf * list buf_obs) :=
  match ops with
  | [] => Some (b, [])
  | op :: ops' =>
      '(b1, r) ← buf_step malloc_ok b op;
      '(b2, rs) ← buf_run malloc_ok b1 ops';
      Some (b2, r :: rs)
  end.

(** The abstract machine: a queue of bytes of order [ord] and the sticky
    error.  Only putting and ensuring may fail, which leaves the queue. *)
Inductive queue_step (ord : vtm_byteorder) (q : bytes) (e : Z)
    : buf_op -> bytes -> Z -> buf_obs -> Prop :=
  | QPut l o : e = VTM_OK ->
      queue_step ord q e (OPut l o)
        (q ++ if decide (ord = o) then l else rev l) e (VTM_OK, [])
  | QPutc c : e = VTM_OK -> queue_step ord q e (OPutc c) (q ++ [u8 c]) e (VTM_OK, [])
  | QFail op e' : e' <> VTM_OK -> (e <> VTM_OK -> e' = e) ->
      match op with OPut _ _ | OPutc _ | OEnsure _ => True | _ => False end ->
      queue_step ord q e op q e' (e', [])
  | QEnsure n : queue_step ord q e (OEnsure n) q e (e, [])
  | QGet n o : n <= zlen q ->
      queue_step ord q e (OGet n o) (zdrop n q) e
        (VTM_OK, if decide (ord = o) then ztake n q else rev (ztake n q))
  | QMark n : n <= zlen q -> queue_step ord q e (OMark n) (zdrop n q) e (VTM_OK, [])
  | QAgain op n : zlen q < n ->
      match op with OGet m _ | OMark m => m = n | _ => False end ->
      queue_step ord q e op q e (VTM_E_IO_AGAIN, [])
  | QDiscard : queue_step ord q e ODiscard q e (VTM_OK, [])
  | QClear : queue_step ord q e OClear [] VTM_OK (VTM_OK, []).

Inductive queue_run (ord : vtm_byteorder)
    : bytes -> Z -> list buf_op -> bytes -> Z -> list buf_obs -> Prop :=
  | QRnil q e : queue_run ord q e [] q e []
  | QRcons q e op q1 e1 r ops q2 e2 rs :
      queue_step ord q e op q1 e1 r -> queue_run ord q1 e1 ops q2 e2 rs ->
      queue_run ord q e (op :: ops) q2 e2 (r :: rs).

(** Arguments have the C types: byte arrays and [size_t] counts. *)
Definition buf_op_ok (op : buf_op) : Prop :=
  match op with
  | OPut l _ => Forall is_byte l /\ is_size (zlen l)
  | OGet n _ | OMark n | OEnsure n => is_size n
  | _ => True
  end.

Lemma grow_sticky malloc_ok b n : buf_err b <> VTM_OK -> vtm_buf_grow malloc_ok b n = b.
Proof.
  intros He. unfold vtm_buf_grow. by destruct (Z.eqb_spec (buf_err b) VTM_OK).
Qed.

Lemma room_sticky malloc_ok b n :
  buf_err b <> VTM_OK ->
  (if VTM_BUF_PUT_AVAIL b n then b else vtm_buf_grow malloc_ok b n) = b.
Proof. intros He. rewrite grow_sticky by done. by destruct (VTM_BUF_PUT_AVAIL b n). Qed.

Lemma buf_clear_ok b : buf_ok b -> buf_ok (vtm_buf_clear b).
Proof.
  intros [Hp ? ? ? Hpl Hst ? Hdef]. constructor; cbn [vtm_buf_clear buf_len buf_read buf_used
    buf_data buf_place buf_err]; auto; try zlia. by destruct (Z.eqb_spec (buf_err b) BUF_UNDEF).
Qed.

Lemma buf_clear_err b : buf_ok b -> buf_err (vtm_buf_clear b) = VTM_OK.
Proof. intros [_ _ _ _ _ _ _ Hdef]. cbn. by destruct (Z.eqb_spec (buf_err b) BUF_UNDEF). Qed.

Lemma buf_defined_ok b r : buf_ok b \/ buf_lost b -> buf_defined (b, r) = Some (b, r).
Proof.
  intros H. unfold buf_defined. cbn [fst]. destruct (Z.eqb_spec (buf_err b) BUF_UNDEF) as [E|]; [|done].
  destruct H as [[_ _ _ _ _ _ _ Hdef]|[_ _ He]]; [done|]. rewrite He in E. discriminate E.
Qed.

Lemma put_outcome_sticky malloc_ok b l o :
  buf_err b <> VTM_OK -> vtm_buf_puto malloc_ok b l o = (b, buf_err b).
Proof.
  intros He. unfold vtm_buf_puto. rewrite room_sticky by done.
  by destruct (Z.eqb_spec (buf_err b) VTM_OK).
Qed.

Lemma putc_sticky malloc_ok b c :
  buf_err b <> VTM_OK -> vtm_buf_putc malloc_ok b c = (b, buf_err b).
Proof.
  intros He. unfold vtm_buf_putc. rewrite room_sticky by done.
  by destruct (Z.eqb_spec (buf_err b) VTM_OK).
Qed.

(** ** Puts whose codes are not looked at *)

(** A buffer with or without its contents. *)
Definition buf_live (b : vtm_buf) : Prop := buf_ok b \/ buf_lost b.

Lemma buf_ok_lost b : buf_ok b -> buf_lost b -> False.
Proof. intros [_ _ _ _ Hp _ _ _] [Hl _ _]. done. Qed.

Lemma buf_live_ok b : buf_live b -> buf_err b = VTM_OK -> buf_ok b.
Proof. intros [?|Hl] E; [done|]. by rewrite (lost_err b Hl) in E. Qed.

Lemma buf_live_clean b : buf_live b -> buf_place b <> Nowhere -> buf_ok b.
Proof. by intros [?|[? _ _]]. Qed.

(** [b'] is [b] with [l] appended, or carries an error. *)
Definition puts_ext (b : vtm_buf) (l : bytes) (b' : vtm_buf) : Prop :=
  buf_live b' /\ buf_order b' = buf_order b /\
  (buf_err b' = VTM_OK -> buf_err b = VTM_OK /\ buf_content b' = buf_content b ++ l /\ buf_read b' = buf_read b).

Lemma puts_ext_refl b : buf_live b -> puts_ext b [] b.
Proof. intros Hb. split_and!; [done | done |]. intros He. by rewrite app_nil_r. Qed.

Lemma puts_ext_trans b l b1 l1 b2 : puts_ext b l b1 -> puts_ext b1 l1 b2 -> puts_ext b (l ++ l1) b2.
Proof.
  intros (Hb1 & Ho1 & H1) (Hb2 & Ho2 & H2). split_and!; [done | by rewrite Ho2 |].
  intros He. destruct (H2 He) as (He1 & Hc2 & Hr2). destruct (H1 He1) as (He0 & Hc1 & Hr1). split; [done |].
  by rewrite Hc2, Hc1, Hr2, app_assoc.
Qed.

Lemma put_outcome_ext b l r : put_outcome b l r -> puts_ext b l r.1 /\ r.2 = buf_err r.1.
Proof.
  intros [b' Hok He He' Ho Hr Hc | b' Hok He' Ho Hc | b' Hl He Hp Ho]; cbn [fst snd];
    (split; [|done]); unfold puts_ext.
  - split_and!; [by left|done|done].
  - split_and!; [by left|done|done].
  - split_and!; [by right|done|]. rewrite (lost_err b' Hl). discriminate.
Qed.

(** With memory for everything, a put leaves a buffer with its contents. *)
Lemma put_outcome_kept b l r : put_outcome b l r -> buf_ok r.1 ->
  buf_order r.1 = buf_order b /\ r.2 = buf_err r.1 /\
  (r.2 = VTM_OK -> buf_err b = VTM_OK /\ buf_read r.1 = buf_read b /\ buf_content r.1 = buf_content b ++ l) /\
  (r.2 <> VTM_OK -> buf_content r.1 = buf_content b).
Proof.
  intros [b' Hok He He' Ho Hr Hc | b' Hok He' Ho Hc | b' Hl He Hp Ho] Hb; cbn [fst snd] in *; try done.
  exfalso. by eapply buf_ok_lost.
Qed.

Section lives.
Context (malloc_ok : Z -> bool).

Lemma puto_read b src o : buf_read (vtm_buf_puto malloc_ok b src o).1 = buf_read b.
Proof.
  unfold vtm_buf_puto.
  assert (buf_read (if VTM_BUF_PUT_AVAIL b (zlen src) then b else vtm_buf_grow malloc_ok b (zlen src))
          = buf_read b) as H.
  { destruct (VTM_BUF_PUT_AVAIL _ _); [done|]. unfold vtm_buf_grow. by repeat case_match. }
  cbv zeta. destruct (negb _); [done|]. cbn [fst]. unfold buf_stored. by case_decide.
Qed.

Lemma lost_put b r l : buf_lost b -> r = (b, buf_err b) -> puts_ext b l r.1 /\ r.2 = buf_err r.1.
Proof.
  intros Hl ->. cbn [fst snd]. split; [|done]. unfold puts_ext. split_and!; [by right|done|]. rewrite (lost_err b Hl). discriminate.
Qed.

Lemma lost_not_ok b : buf_lost b -> buf_err b <> VTM_OK.
Proof. intros Hl. rewrite (lost_err b Hl). discriminate. Qed.

Lemma puto_ext b src o :
  buf_live b -> Forall is_byte src -> is_size (zlen src) ->
  puts_ext b (orient b o src) (vtm_buf_puto malloc_ok b src o).1 /\
  (vtm_buf_puto malloc_ok b src o).2 = buf_err (vtm_buf_puto malloc_ok b src o).1.
Proof.
  intros [Hb|Hb] Hs Hl.
  - by apply put_outcome_ext, vtm_buf_puto_spec.
  - by apply lost_put, put_outcome_sticky, lost_not_ok.
Qed.

Lemma putm_ext b src :
  buf_live b -> Forall is_byte src -> is_size (zlen src) ->
  puts_ext b src (vtm_buf_putm malloc_ok b src).1 /\
  (vtm_buf_putm malloc_ok b src).2 = buf_err (vtm_buf_putm malloc_ok b src).1.
Proof.
  intros Hb Hs Hl. pose proof (puto_ext b src (buf_order b) Hb Hs Hl) as P.
  unfold orient in P. by rewrite decide_True in P by done.
Qed.

Lemma putc_ext b c : buf_live b ->
  puts_ext b [u8 c] (vtm_buf_putc malloc_ok b c).1 /\
  (vtm_buf_putc malloc_ok b c).2 = buf_err (vtm_buf_putc malloc_ok b c).1.
Proof.
  intros [Hb|Hb].
  - by apply put_outcome_ext, vtm_buf_putc_spec.
  - by apply lost_put, putc_sticky, lost_not_ok.
Qed.

(** The allocator has refused a request. *)
Definition refused : Prop := exists n, malloc_ok n = false.

(** Contents are lost only if the memory is short. *)
Lemma puto_refused b src o :
  buf_ok b -> is_size (zlen src) -> buf_lost (vtm_buf_puto malloc_ok b src o).1 -> refused.
Proof.
  intros Hb Hl Hlost. destruct (make_room malloc_ok b (zlen src) Hb Hl) as (_ & _ & _ & [(Hr & _)|(_ & _ & _ & l & _ & H)]);
    [|by exists l].
  exfalso. unfold vtm_buf_puto in Hlost. set (b1 := if VTM_BUF_PUT_AVAIL _ _ then _ else _) in *.
  destruct (Z.eqb_spec (buf_err b1) VTM_OK) as [E|E]; cbn [negb fst] in Hlost; [|by eapply buf_ok_lost].
  apply (lost_not_ok _ Hlost). unfold buf_stored. rewrite decide_False by apply Hr. done.
Qed.
End lives.

(** With memory for everything no contents are lost. *)
Section memory.
Context (malloc_ok : Z -> bool) (Hmalloc : forall n, malloc_ok n = true).

Lemma make_room_kept b n :
  buf_ok b -> is_size n ->
  let b' := if VTM_BUF_PUT_AVAIL b n then b else vtm_buf_grow malloc_ok b n in
  buf_ok b' /\ buf_order b' = buf_order b /\ buf_read b' = buf_read b /\ buf_used b' = buf_used b /\
  buf_content b' = buf_content b /\
  (buf_err b' = VTM_OK -> buf_used b + n <= buf_len b' /\ buf_err b = VTM_OK).
Proof.
  intros Hb Hn. destruct (make_room malloc_ok b n Hb Hn) as (? & ? & ? & [(? & ? & ?)|(_ & _ & _ & l & _ & Hl)]).
  - done.
  - rewrite Hmalloc in Hl. discriminate Hl.
Qed.

Lemma puto_kept b src o :
  buf_ok b -> Forall is_byte src -> is_size (zlen src) -> buf_ok (vtm_buf_puto malloc_ok b src o).1.
Proof.
  intros Hb Hs Hl. destruct (proj1 (proj1 (puto_ext malloc_ok b src o (or_introl Hb) Hs Hl))) as [?|Hlost]; [done|].
  destruct (puto_refused malloc_ok b src o Hb Hl Hlost) as [n Hn]. rewrite Hmalloc in Hn. discriminate Hn.
Qed.

Lemma putm_kept b src :
  buf_ok b -> Forall is_byte src -> is_size (zlen src) -> buf_ok (vtm_buf_putm malloc_ok b src).1.
Proof. apply puto_kept. Qed.
End memory.

(** A put is a step of the abstract machine. *)
Lemma put_outcome_step b l op r :
  put_outcome b l r ->
  (buf_err b <> VTM_OK -> r = (b, buf_err b)) ->
  match op with OPut _ _ | OPutc _ => True | _ => False end ->
  (buf_err b = VTM_OK ->
   queue_step (buf_order b) (buf_content b) (buf_err b) op (buf_content b ++ l)
     (buf_err b) (VTM_OK, [])) ->
  (buf_ok r.1 /\ buf_order r.1 = buf_order b /\
   queue_step (buf_order b) (buf_content b) (buf_err b) op (buf_content r.1)
     (buf_err r.1) (r.2, [])) \/
  (buf_lost r.1 /\ buf_place b = InArray /\ r.2 = VTM_E_MALLOC).
Proof.
  intros [b' Hok He He' Ho Hr Hc | b' Hok He' Ho Hc | b' Hlost He Hpl Ho] Hst Hop Hdone; simpl;
    [left; (split; [done |]); (split; [done |]) .. | right; split_and!; [done|done|apply Hlost]].
  - rewrite Hc, He', <- He. rewrite He at 3. auto.
  - rewrite Hc. apply QFail; [done | |by destruct op].
    intros He. specialize (Hst He). by injection Hst as ->.
Qed.

Lemma buf_step_refines malloc_ok b op :
  buf_ok b -> buf_op_ok op ->
  exists b' r, buf_step malloc_ok b op = Some (b', r) /\
    ((buf_ok b' /\ buf_order b' = buf_order b /\
      queue_step (buf_order b) (buf_content b) (buf_err b) op (buf_content b')
        (buf_err b') r) \/
     (buf_lost b' /\ buf_place b = InArray /\ r = (VTM_E_MALLOC, []) /\
      match op with OPut _ _ | OPutc _ | OEnsure _ => True | _ => False end)).
Proof.
  intros Hb Hop. destruct op as [l o|c|n o|n|n| |]; simpl in *.
  - destruct Hop as [Hl Hs].
    pose proof (put_outcome_step b _ (OPut l o) _ (vtm_buf_puto_spec malloc_ok b l o Hb Hl Hs))
      as P. destruct (vtm_buf_puto malloc_ok b l o) as [b' rc] eqn:E.
    destruct P as [(? & ? & ?)|(? & ? & Erc)]; [|done |intros; by apply QPut | |].
    { intros He. rewrite put_outcome_sticky in E by done. congruence. }
    { rewrite buf_defined_ok by (by left). do 2 eexists. split; [done|]. by left. }
    cbn [fst snd] in *. subst rc. rewrite buf_defined_ok by (by right). do 2 eexists. split; [done|]. by right.
  - pose proof (put_outcome_step b _ (OPutc c) _ (vtm_buf_putc_spec malloc_ok b c Hb)) as P.
    destruct (vtm_buf_putc malloc_ok b c) as [b' rc] eqn:E.
    destruct P as [(? & ? & ?)|(? & ? & Erc)]; [|done |intros; by apply QPutc | |].
    { intros He. rewrite putc_sticky in E by done. congruence. }
    { rewrite buf_defined_ok by (by left). do 2 eexists. split; [done|]. by left. }
    cbn [fst snd] in *. subst rc. rewrite buf_defined_ok by (by right). do 2 eexists. split; [done|]. by right.
  - pose proof (get_avail_spec b n Hb Hop) as Ha. destruct (VTM_BUF_GET_AVAIL b n).
    + destruct (vtm_buf_geto_spec b n o Hb) as (b' & -> & Hb' & Hc & Ho & He & _).
      { split; [zlia | by apply Ha]. }
      simpl. do 2 eexists. split; [done|]. left. split_and!; [done | done |].
      rewrite Hc, He. apply QGet. by apply Ha.
    + do 2 eexists. split; [done|]. left. split_and!; [done | done |].
      apply (QAgain _ _ _ _ n); [|done]. apply Z.nle_gt. intros H%Ha. done.
  - pose proof (get_avail_spec b n Hb Hop) as Ha. destruct (VTM_BUF_GET_AVAIL b n).
    + assert (0 <= n <= zlen (buf_content b)) as Hn by (split; [zlia | by apply Ha]).
      rewrite vtm_buf_mark_processed_spec by done.
      pose proof Hn as Hn'. rewrite buf_content_len in Hn' by done.
      do 2 eexists. split; [done|]. left. split_and!; [apply buf_with_read_ok; [done | buf_sizes; lia] | done |].
      rewrite buf_content_read by done. apply QMark. lia.
    + do 2 eexists. split; [done|]. left. split_and!; [done | done |].
      apply (QAgain _ _ _ _ n); [|done]. apply Z.nle_gt. intros H%Ha. done.
  - destruct (make_room malloc_ok b n Hb Hop) as (Ho & Hr & Hu & Hroom).
    unfold vtm_buf_ensure. do 2 eexists. split; [done|].
    destruct (decide (buf_err b = VTM_OK)) as [E|E].
    + set (b' := if VTM_BUF_PUT_AVAIL b n then _ else _) in *.
      destruct Hroom as [(Hb' & Hc & He)|(Hlost & Hpl & _)].
      2: { right. rewrite (lost_err b' Hlost). done. }
      left. split_and!; [done | done |]. rewrite Hc.
      destruct (decide (buf_err b' = VTM_OK)) as [E'|E']; [|by apply QFail].
      rewrite E', <- E. apply QEnsure.
    + rewrite room_sticky by done. left. split_and!; [done | done |]. apply QEnsure.
  - destruct (vtm_buf_discard_processed_spec b Hb) as (? & Hc & ? & ? & He & ?).
    rewrite buf_defined_ok by (by left).
    do 2 eexists. split; [done|]. left. split_and!; [done | done |]. rewrite Hc, He. constructor.
  - do 2 eexists. split; [done|]. left. split_and!; [by apply buf_clear_ok | done |].
    rewrite buf_clear_err by done. unfold buf_content at 2. simpl. constructor.
Qed.

(** ** Properties *)

(** C13: Refinement.  For every allocator, every sequence of puts, guarded
    gets, marks, ensures, discards and clears runs without reading outside of
    the initialised bytes, keeps the buffer's invariant, and shows its client
    exactly what the abstract byte queue shows: puts append at the tail,
    gets take from the head, a failed growth leaves the queue alone and sticks
    until the buffer is cleared.  This holds for the whole sequence, or up to the
    first call that has to move the buffer out of its embedded array and gets no
    memory for it: that call reports VTM_E_MALLOC, and the contents are lost. *)
Theorem buffer_refines_queue malloc_ok b ops :
  buf_ok b -> Forall buf_op_ok ops ->
  (exists b' rs, buf_run malloc_ok b ops = Some (b', rs) /\ buf_ok b' /\
     queue_run (buf_order b) (buf_content b) (buf_err b) ops
       (buf_content b') (buf_err b') rs) \/
  (exists ops1 op ops2 b1 rs b2, ops = ops1 ++ op :: ops2 /\
     buf_run malloc_ok b ops1 = Some (b1, rs) /\ buf_ok b1 /\ buf_place b1 = InArray /\
     queue_run (buf_order b) (buf_content b) (buf_err b) ops1 (buf_content b1) (buf_err b1) rs /\
     match op with OPut _ _ | OPutc _ | OEnsure _ => True | _ => False end /\
     buf_step malloc_ok b1 op = Some (b2, (VTM_E_MALLOC, [])) /\ buf_lost b2).
Proof.
  intros Hb Hops. revert b Hb. induction Hops as [|op ops Hop Hops IH]; intros b Hb.
  - left. exists b, []. split_and!; [done | done | constructor].
  - destruct (buf_step_refines malloc_ok b op Hb Hop) as (b1 & r & E1 & [(H1 & Ho & S1)|(Hl & Hpl & -> & Hop')]).
    2: { right. exists [], op, ops, b, [], b1. split_and!; try done. constructor. }
    destruct (IH b1 H1) as [(b2 & rs & E2 & H2 & S2)|(o1 & o & o2 & b2 & rs & b3 & -> & E2 & H2 & Hpl & S2 & H3)].
    + left. exists b2, (r :: rs). simpl. rewrite E1. simpl. rewrite E2. simpl.
      split_and!; [done | done |]. econstructor; [done |]. by rewrite <- Ho.
    + right. exists (op :: o1), o, o2, b2, (r :: rs), b3. simpl. rewrite E1. simpl. rewrite E2. simpl.
      split_and!; try done; try apply H3. econstructor; [done |]. by rewrite <- Ho.
Qed.

(** A buffer used as in a short exchange: two puts, a partial read, a discard. *)
Definition demo_ops : list buf_op :=
  [OPut [1; 2; 3] VTM_BYTEORDER_BE; OPutc 4; OGet 2 VTM_BYTEORDER_BE; ODiscard;
   OGet 9 VTM_BYTEORDER_BE; OMark 1].

Lemma buffer_refines_queue_witness :
  (exists b' rs,
    buf_run (fun _ => true) (vtm_buf_init VTM_BYTEORDER_BE) demo_ops = Some (b', rs) /\
    buf_ok b' /\
    queue_run VTM_BYTEORDER_BE [] VTM_OK demo_ops (buf_content b') (buf_err b') rs) \/
  (exists ops1 op ops2 b1 rs b2, demo_ops = ops1 ++ op :: ops2 /\
     buf_run (fun _ => true) (vtm_buf_init VTM_BYTEORDER_BE) ops1 = Some (b1, rs) /\ buf_ok b1 /\ buf_place b1 = InArray /\
     queue_run VTM_BYTEORDER_BE [] VTM_OK ops1 (buf_content b1) (buf_err b1) rs /\
     match op with OPut _ _ | OPutc _ | OEnsure _ => True | _ => False end /\
     buf_step (fun _ => true) b1 op = Some (b2, (VTM_E_MALLOC, [])) /\ buf_lost b2).
Proof.
  apply (buffer_refines_queue (fun _ => true) (vtm_buf_init VTM_BYTEORDER_BE) demo_ops).
  - apply buf_init_ok.
  - repeat constructor; vm_compute; congruence.
Defined.

(** Round trip.  An integer of at most 8 bytes written in host order with
    [vtm_buf_puto] and read back in host order with [vtm_buf_geto] is the
    integer modulo its width, whatever the buffer's byte order is; the bytes
    stored in between are the representation in the buffer's order. *)
Theorem put_get_int_roundtrip malloc_ok b n v b1 :
  buf_ok b -> buf_content b = [] -> (n <= 8)%nat ->
  vtm_buf_puto malloc_ok b (ord_bytes host n v) host = (b1, VTM_OK) ->
  exists b2, vtm_buf_geto b1 (Z.of_nat n) host = Some (ord_bytes host n v, b2) /\
    buf_content b1 = ord_bytes (buf_order b) n v /\ buf_content b2 = [] /\
    ord_val host (ord_bytes host n v) = v mod 2 ^ (8 * Z.of_nat n).
Proof.
  intros Hb Hc Hn E.
  assert (put_outcome b (orient b host (ord_bytes host n v)) (b1, VTM_OK)) as P.
  { rewrite <- E. apply vtm_buf_puto_spec; [done | auto with vtm | zlia]. }
  inversion P as [b' Hb' He He' Ho Hr Hcc | b' Hb' He' Ho Hcc | b' Hlost]; subst;
    [|congruence|pose proof (lost_err _ Hlost) as Hm; match goal with H : buf_err _ = VTM_OK |- _ => rewrite H in Hm; discriminate Hm end].
  rewrite Hc, app_nil_l in Hcc.
  assert (zlen (buf_content b1) = Z.of_nat n) as Hlen
    by (rewrite Hcc, orient_len; by autorewrite with vtm_len).
  destruct (vtm_buf_geto_spec b1 (Z.of_nat n) host Hb') as (b2 & E2 & _ & Hc2 & _);
    [lia |].
  exists b2. rewrite E2, (ztake_all (buf_content b1)), Hcc by lia.
  replace (orient b1 host) with (orient b host) by (unfold orient; by rewrite Ho).
  rewrite orient_orient, Hc2, zdrop_all by lia.
  split_and!; [done | | done | apply ord_val_bytes].
  unfold orient, host. by destruct (buf_order b).
Qed.

Lemma put_get_int_roundtrip_witness :
  let b := vtm_buf_init VTM_BYTEORDER_BE in
  let b1 := (vtm_buf_puto (fun _ => true) b (ord_bytes host 4 0x01020304) host).1 in
  exists b2, vtm_buf_geto b1 (Z.of_nat 4) host = Some (ord_bytes host 4 0x01020304, b2) /\
    buf_content b1 = ord_bytes VTM_BYTEORDER_BE 4 0x01020304 /\ buf_content b2 = [] /\
    ord_val host (ord_bytes host 4 0x01020304) = 0x01020304 mod 2 ^ (8 * Z.of_nat 4).
Proof.
  apply (put_get_int_roundtrip (fun _ => true) (vtm_buf_init VTM_BYTEORDER_BE)).
  - apply buf_init_ok.
  - reflexivity.
  - lia.
  - reflexivity.
Defined.

(** C35: Bounds.  After [vtm_buf_ensure] succeeds there is room for the
    requested bytes, in a block that is less than twice as large as needed;
    the doubling loop of [vtm_buf_grow] terminates and the call fails only if
    the size would pass 2^63, if the allocator refuses, or if an earlier
    error was not cleared.  The contents are kept, unless the buffer is still in
    its embedded array and the allocator refuses: then they are lost. *)
Theorem ensure_room malloc_ok b n b' rc :
  buf_ok b -> is_size n -> vtm_buf_ensure malloc_ok b n = (b', rc) ->
  ((buf_ok b' /\ buf_content b' = buf_content b) \/
   (buf_lost b' /\ buf_place b = InArray /\ rc = VTM_E_MALLOC)) /\
  (rc = VTM_OK -> VTM_BUF_PUT_AVAIL b' n = true /\
     (buf_len b' = buf_len b \/ buf_len b' < 2 * (buf_len b + n))) /\
  (rc <> VTM_OK ->
     (rc = VTM_E_OVERFLOW /\ 2 ^ 63 < buf_len b + n) \/
     (rc = VTM_E_MALLOC /\ exists l, buf_len b + n <= l /\ malloc_ok l = false) \/
     (rc = buf_err b)).
Proof.
  intros Hb Hn E. unfold vtm_buf_ensure in E. injection E as <- <-.
  destruct (make_room malloc_ok b n Hb Hn) as (Ho & Hr & Hu & [(Hb' & Hc & He)|(Hlost & Hpl & He & l & Hl)]).
  2: { split; [right; split_and!; [done|done|apply Hlost]|]. rewrite (lost_err _ Hlost).
       split; [done|]. intros _. right. left. eauto. }
  split_and!; [by left | |].
  - intros E. destruct (He E) as [Hroom E0]. split.
    { apply put_avail_spec; [done | done |]. lia. }
    destruct (VTM_BUF_PUT_AVAIL b n); [by left |].
    destruct (vtm_buf_grow_spec malloc_ok b n Hb Hn); cbn [buf_with_block
      buf_with_err buf_lose buf_len]; [|by left | by left | by left | by left].
    intuition lia.
  - intros E. destruct (VTM_BUF_PUT_AVAIL b n); [by auto |].
    destruct (vtm_buf_grow_spec malloc_ok b n Hb Hn); cbn [buf_with_block
      buf_with_err buf_lose buf_err] in *; [by auto | | | by auto | by auto];
      (right; left; split; [done |]; by exists (2 ^ k)).
Qed.

Lemma ensure_room_witness :
  let b := vtm_buf_init VTM_BYTEORDER_BE in
  let b' := (vtm_buf_ensure (fun _ => true) b 5000).1 in
  ((buf_ok b' /\ buf_content b' = []) \/ (buf_lost b' /\ InArray = InArray /\ VTM_OK = VTM_E_MALLOC)) /\
  (VTM_OK = VTM_OK -> VTM_BUF_PUT_AVAIL b' 5000 = true /\
     (buf_len b' = 1024 \/ buf_len b' < 2 * (1024 + 5000))) /\
  (VTM_OK <> VTM_OK ->
     (VTM_OK = VTM_E_OVERFLOW /\ 2 ^ 63 < 1024 + 5000) \/
     (VTM_OK = VTM_E_MALLOC /\ exists l, 1024 + 5000 <= l /\ true = false) \/
     (VTM_OK = VTM_OK)).
Proof.
  apply (ensure_room (fun _ => true) (vtm_buf_init VTM_BYTEORDER_BE) 5000).
  - apply buf_init_ok.
  - zlia.
  - reflexivity.
Defined.

(** What becomes of a buffer whose contents are lost.  A buffer in its embedded
    array, a growth for which there is no memory: the buffer reports the error,
    but once it is cleared, as its owners do before they use it again, it reports
    none, and the next byte is stored through NULL. *)
Theorem buffer_oom_dangles b n c malloc_ok :
  buf_ok b -> buf_place b = InArray -> buf_err b = VTM_OK -> 1024 < n <= 2 ^ 62 ->
  let b1 := (vtm_buf_ensure (fun _ => false) b n).1 in
  buf_lost b1 /\ buf_err (vtm_buf_clear b1) = VTM_OK /\
  buf_err (vtm_buf_putc malloc_ok (vtm_buf_clear b1) c).1 = BUF_UNDEF.
Proof.
  intros Hb Hpl He Hn. pose proof (buf_ok_static b Hb Hpl) as Hlen. unfold VTM_BUF_SDATA_LEN in Hlen. cbn zeta.
  assert (is_size n) as Hs by zlia. unfold vtm_buf_ensure. cbn [fst].
  destruct (VTM_BUF_PUT_AVAIL b n) eqn:Ea.
  { apply put_avail_spec in Ea; [|done|done]. buf_sizes. lia. }
  destruct (vtm_buf_grow_spec (fun _ => false) b n Hb Hs) as [k ? ? ? ? ? Hm|k| k ? ? ? ? Hp|Hover|]; try done.
  - split; [apply buf_lose_lost|]. split; [done|].
    unfold vtm_buf_putc. cbn [buf_lose vtm_buf_clear buf_err buf_used buf_len buf_place buf_read buf_data].
    unfold VTM_BUF_PUT_AVAIL. cbn [buf_used buf_len]. by rewrite Hlen.
  - rewrite Hp in Hpl. done.
  - rewrite Hlen in Hover. lia.
Qed.
