(* ===== verification/Format.v ===== *)
(** * Format: number formatting of core/format.c

    Each function returns the number of characters and the characters stored
    at [dst]; a NULL [dst] asks for the length only.  [None] stands for an
    operation without defined behaviour in C. *)

From S2P Require Import Prelude Base.

Definition INT_MIN : Z := - 2 ^ 31.
Definition INT64_MIN : Z := - 2 ^ 63.

(** core/format.c:7-10 *)
Definition VTM_HEX_CHARS : bytes := cstr_of "0123456789ABCDEF"%string.
(** core/format.c:12-15 *)
Definition VTM_HEX_LCHARS : bytes := cstr_of "0123456789abcdef"%string.

(** Table access [t[i]] with [0 <= i < 16]. *)
Definition hexchar (t : bytes) (i : Z) : Z := default 0 (znth t i).

(** The counting loop [for (n=1; r > 9; n++) r /= 10]. *)
Fixpoint count_dec (fuel : nat) (r : Z) (n : Z) : Z :=
  match fuel with
  | O => n
  | S fuel' => if 9 <? r then count_dec fuel' (r / 10) (n + 1) else n
  end.

(** The writing loop, which stores [n] digits from the last to the first. *)
Fixpoint write_dec (n : nat) (val : Z) (acc : bytes) : bytes :=
  match n with
  | O => acc
  | S n' => write_dec n' (val / 10) (48 + val mod 10 :: acc)
  end.

(** A 64-bit number has at most 20 digits, in base 16 at most 16. *)
Definition fmt_fuel : nat := 20.

(** core/format.c:28-48 *)
Definition vtm_fmt_uint (dst : bool) (val : Z) : Z * bytes :=
  let n := count_dec fmt_fuel val 1 in
  if negb dst then (n, []) else (n, write_dec (Z.to_nat n) val []).

(** core/format.c:17-26.  [-val] has no defined value for INT_MIN. *)
Definition vtm_fmt_int (dst : bool) (val : Z) : option (Z * bytes) :=
  if val <? 0 then
    if val =? INT_MIN then None
    else let '(n, out) := vtm_fmt_uint dst (u32 (- val)) in
         Some (n + 1, if dst then 45 :: out else [])
  else Some (vtm_fmt_uint dst (u32 val)).

(** core/format.c:61-81 *)
Definition vtm_fmt_uint64 (dst : bool) (val : Z) : Z * bytes :=
  let n := count_dec fmt_fuel val 1 in
  if negb dst then (n, []) else (n, write_dec (Z.to_nat n) val []).

(** core/format.c:50-59 *)
Definition vtm_fmt_int64 (dst : bool) (val : Z) : option (Z * bytes) :=
  if val <? 0 then
    if val =? INT64_MIN then None
    else let '(n, out) := vtm_fmt_uint64 dst (u64 (- val)) in
         Some (n + 1, if dst then 45 :: out else [])
  else Some (vtm_fmt_uint64 dst (u64 val)).

Fixpoint count_hex (fuel : nat) (r : Z) (n : Z) : Z :=
  match fuel with
  | O => n
  | S fuel' => if 0x0f <? r then count_hex fuel' (Z.shiftr r 4) (n + 1) else n
  end.

Fixpoint write_hex (n : nat) (val : Z) (acc : bytes) : bytes :=
  match n with
  | O => acc
  | S n' => write_hex n' (Z.shiftr val 4)
              (hexchar VTM_HEX_CHARS (Z.land val 0x0f) :: acc)
  end.

(** core/format.c:83-103 *)
Definition vtm_fmt_hex_size (dst : bool) (val : Z) : Z * bytes :=
  let n := count_hex fmt_fuel val 1 in
  if negb dst then (n, []) else (n, write_hex (Z.to_nat n) val []).

(** core/format.c:121-125.  The loop of [vtm_fmt_hex_mem]. *)
Fixpoint hex_mem_loop (t src : bytes) : bytes :=
  match src with
  | [] => []
  | c :: src' => hexchar t (Z.shiftr c 4) :: hexchar t (Z.land c 0x0f) :: hex_mem_loop t src'
  end.

(** core/format.c:105-128 *)
Definition vtm_fmt_hex_mem (dst : bool) (src : bytes) (ucase : bool) : Z * bytes :=
  let len := zlen src in
  if (len *sz 2 <? len) || (UINT_MAX <? len *sz 2) then (0, [])
  else
    let n := u32 (len *sz 2) in
    if negb dst then (n, [])
    else (n, hex_mem_loop (if ucase then VTM_HEX_CHARS else VTM_HEX_LCHARS) src).

(** ** Specification: the value of a digit string *)

Definition hexval (c : Z) : option Z :=
  if isdigit c then Some (c - 48)
  else if (65 <=? c) && (c <=? 70) then Some (c - 55)
  else if (97 <=? c) && (c <=? 102) then Some (c - 87)
  else None.

(** Value of a string of digits in base [base], continuing from [acc]. *)
Fixpoint num_val (base acc : Z) (s : bytes) : option Z :=
  match s with
  | [] => Some acc
  | c :: s' => v ← hexval c;
               if v <? base then num_val base (acc * base + v) s' else None
  end.

Definition dec_int_val (s : bytes) : option Z :=
  match s with
  | c :: s' => if c =? 45 then Z.opp <$> num_val 10 0 s' else num_val 10 0 s
  | [] => None
  end.

(** Two hexadecimal digits per byte. *)
Fixpoint unhex (s : bytes) : option bytes :=
  match s with
  | [] => Some []
  | h :: l :: s' => a ← hexval h; b ← hexval l; r ← unhex s'; Some (16 * a + b :: r)
  | _ => None
  end.

(** ** Lemmas *)

Lemma hexval_dec d : 0 <= d < 10 -> hexval (48 + d) = Some d.
Proof.
  intros. unfold hexval, isdigit.
  destruct (Z.leb_spec 48 (48 + d)), (Z.leb_spec (48 + d) 57); try lia.
  simpl. f_equal. lia.
Qed.

Lemma hexval_hexchar t d :
  t = VTM_HEX_CHARS \/ t = VTM_HEX_LCHARS -> 0 <= d < 16 ->
  hexval (hexchar t d) = Some d.
Proof.
  intros Ht Hd.
  assert (Forall (fun d => hexval (hexchar t d) = Some d) (seqZ 0 16)) as H
    by (destruct Ht as [-> | ->]; repeat constructor).
  rewrite Forall_forall in H. apply H, elem_of_seqZ. lia.
Qed.

Lemma num_val_app base acc s s' :
  num_val base acc (s ++ s') = num_val base acc s ≫= fun a => num_val base a s'.
Proof.
  revert acc. induction s as [|c s IH]; intros acc; simpl; [done |].
  destruct (hexval c); simpl; [|done]. by destruct (_ <? _).
Qed.

Lemma div_lt_step r q b : 0 < b -> 0 <= r < b * q -> 0 <= r / b < q.
Proof.
  intros Hb Hr. split; [apply Z.div_pos; lia | apply Z.div_lt_upper_bound; lia].
Qed.

Lemma lt_div_step r q b : 0 < b -> r / b < q -> r < b * q.
Proof.
  intros Hb Hr. pose proof (Z.mod_pos_bound r b Hb).
  pose proof (Z.div_mod r b ltac:(lia)). nia.
Qed.

Lemma le_div_step r q b : 0 < b -> q <= r / b -> b * q <= r.
Proof.
  intros Hb Hr. pose proof (Z.mod_pos_bound r b Hb).
  pose proof (Z.div_mod r b ltac:(lia)). nia.
Qed.

(** The counting loops compute the least number of digits. *)
Lemma count_dec_spec fuel r n :
  0 <= r < 10 ^ Z.of_nat fuel ->
  exists k, count_dec fuel r n = n + k /\ 0 <= k /\ r < 10 ^ (k + 1) /\
            (k = 0 \/ 10 ^ k <= r).
Proof.
  revert r n. induction fuel as [|fuel IH]; intros r n Hr.
  - exists 0. simpl in *. lia.
  - cbn [count_dec]. destruct (Z.ltb_spec 9 r).
    + destruct (IH (r / 10) (n + 1)) as (k & -> & Hk & Hlt & Hge).
      { rewrite Nat2Z.inj_succ, Z.pow_succ_r in Hr by lia. by apply div_lt_step. }
      exists (k + 1). replace (k + 1 + 1) with (Z.succ (k + 1)) by lia.
      rewrite Z.pow_succ_r by lia.
      split_and!; [lia | lia | by apply lt_div_step |]. right.
      replace (k + 1) with (Z.succ k) by lia. rewrite Z.pow_succ_r by lia.
      destruct Hge as [-> | Hge]; [lia | by apply le_div_step].
    + exists 0. lia.
Qed.

Lemma write_dec_spec n v acc :
  0 <= v < 10 ^ Z.of_nat n ->
  exists ds, write_dec n v acc = ds ++ acc /\ length ds = n /\
    (forall a, num_val 10 a ds = Some (a * 10 ^ Z.of_nat n + v)).
Proof.
  revert v acc. induction n as [|n IH]; intros v acc Hv.
  - exists []. simpl in *. repeat split. intros. f_equal. lia.
  - cbn [write_dec]. rewrite Nat2Z.inj_succ, Z.pow_succ_r in * by lia.
    destruct (IH (v / 10) (48 + v mod 10 :: acc)) as (ds & -> & Hl & Hv');
      [by apply div_lt_step |].
    exists (ds ++ [48 + v mod 10]). rewrite <- app_assoc.
    split_and!; [done | rewrite length_app; simpl; lia |].
    intros a. rewrite num_val_app, Hv'. cbn [num_val mbind option_bind].
    rewrite hexval_dec by dlia. cbn [mbind option_bind].
    destruct (Z.ltb_spec (v mod 10) 10); [|dlia].
    f_equal. clear. generalize (10 ^ Z.of_nat n). intros. dlia.
Qed.

Lemma fmt_dec_spec v :
  0 <= v < 2 ^ 64 ->
  let n := count_dec fmt_fuel v 1 in
  let s := write_dec (Z.to_nat n) v [] in
  1 <= n <= 20 /\ zlen s = n /\ num_val 10 0 s = Some v /\
  (1 < n -> 10 ^ (n - 1) <= v) /\ v < 10 ^ n.
Proof.
  intros Hv n s. subst n s.
  destruct (count_dec_spec fmt_fuel v 1) as (k & -> & Hk & Hlt & Hge).
  { unfold fmt_fuel. lia. }
  assert (k <= 19).
  { destruct Hge as [-> | Hge]; [lia |]. apply Z.lt_succ_r.
    apply (Z.pow_lt_mono_r_iff 10); lia. }
  destruct (write_dec_spec (Z.to_nat (1 + k)) v []) as (ds & -> & Hl & Hval).
  { rewrite Z2Nat.id by lia. replace (1 + k) with (k + 1) by lia. lia. }
  rewrite app_nil_r, (Z.add_comm 1 k). split_and!; [lia | lia | zlia | | | done].
  - by rewrite Hval.
  - intros. destruct Hge as [-> | Hge]; [lia |]. by replace (k + 1 - 1) with k by lia.
Qed.

Lemma count_hex_spec fuel r n :
  0 <= r < 16 ^ Z.of_nat fuel ->
  exists k, count_hex fuel r n = n + k /\ 0 <= k /\ r < 16 ^ (k + 1) /\
            (k = 0 \/ 16 ^ k <= r).
Proof.
  revert r n. induction fuel as [|fuel IH]; intros r n Hr.
  - exists 0. simpl in *. lia.
  - cbn [count_hex]. destruct (Z.ltb_spec 0x0f r).
    + rewrite Z.shiftr_div_pow2 by lia. change (2 ^ 4) with 16.
      destruct (IH (r / 16) (n + 1)) as (k & -> & Hk & Hlt & Hge).
      { rewrite Nat2Z.inj_succ, Z.pow_succ_r in Hr by lia. by apply div_lt_step. }
      exists (k + 1). replace (k + 1 + 1) with (Z.succ (k + 1)) by lia.
      rewrite Z.pow_succ_r by lia.
      split_and!; [lia | lia | by apply lt_div_step |]. right.
      replace (k + 1) with (Z.succ k) by lia. rewrite Z.pow_succ_r by lia.
      destruct Hge as [-> | Hge]; [lia | by apply le_div_step].
    + exists 0. lia.
Qed.

Lemma write_hex_spec n v acc :
  0 <= v < 16 ^ Z.of_nat n ->
  exists ds, write_hex n v acc = ds ++ acc /\ length ds = n /\
    (forall a, num_val 16 a ds = Some (a * 16 ^ Z.of_nat n + v)).
Proof.
  revert v acc. induction n as [|n IH]; intros v acc Hv.
  - exists []. simpl in *. repeat split. intros. f_equal. lia.
  - cbn [write_hex]. rewrite Nat2Z.inj_succ, Z.pow_succ_r in * by lia.
    rewrite Z.shiftr_div_pow2 by lia. change (2 ^ 4) with 16.
    assert (Z.land v 15 = v mod 16) as -> by apply (Z.land_ones v 4 ltac:(lia)).
    destruct (IH (v / 16) (hexchar VTM_HEX_CHARS (v mod 16) :: acc))
      as (ds & -> & Hl & Hv'); [by apply div_lt_step |].
    exists (ds ++ [hexchar VTM_HEX_CHARS (v mod 16)]). rewrite <- app_assoc.
    split_and!; [done | rewrite length_app; simpl; lia |].
    intros a. rewrite num_val_app, Hv'. cbn [num_val mbind option_bind].
    rewrite hexval_hexchar by (auto; dlia). cbn [mbind option_bind].
    destruct (Z.ltb_spec (v mod 16) 16); [|dlia].
    f_equal. clear. generalize (16 ^ Z.of_nat n). intros. dlia.
Qed.

Lemma hex_mem_loop_spec t src :
  t = VTM_HEX_CHARS \/ t = VTM_HEX_LCHARS -> Forall is_byte src ->
  zlen (hex_mem_loop t src) = 2 * zlen src /\ unhex (hex_mem_loop t src) = Some src.
Proof.
  intros Ht. induction 1 as [|c src Hc Hs IH]; [done |].
  destruct IH as [Hl Hu]. cbn [hex_mem_loop unhex]. rewrite !zlen_cons, Hl.
  split; [lia |]. unfold is_byte in Hc.
  rewrite Z.shiftr_div_pow2 by lia. change (2 ^ 4) with 16.
  assert (Z.land c 15 = c mod 16) as -> by apply (Z.land_ones c 4 ltac:(lia)).
  rewrite !hexval_hexchar by (auto; dlia). simpl. rewrite Hu. simpl.
  do 2 f_equal. dlia.
Qed.

(** ** Properties *)

(** Round trip.  [vtm_fmt_int64] writes a decimal representation whose
    value is the argument, for every 64-bit integer but the smallest one,
    whose negation overflows; the number of characters is the returned count,
    the same one that a NULL destination yields, and at most 20. *)
Theorem fmt_int64_roundtrip v :
  INT64_MIN <= v < 2 ^ 63 ->
  (v = INT64_MIN /\ vtm_fmt_int64 true v = None) \/
  exists n s, vtm_fmt_int64 true v = Some (n, s) /\ vtm_fmt_int64 false v = Some (n, []) /\
    zlen s = n /\ 1 <= n <= 21 /\ dec_int_val s = Some v.
Proof.
  intros Hv. unfold INT64_MIN in *. unfold vtm_fmt_int64, vtm_fmt_uint64.
  destruct (Z.ltb_spec v 0) as [Hneg|Hpos].
  - destruct (Z.eqb_spec v INT64_MIN) as [->|Hne]; [by left | right].
    unfold INT64_MIN in Hne. rewrite u64_small by zlia.
    destruct (fmt_dec_spec (- v)) as (Hn & Hl & Hval & _); [lia |].
    do 2 eexists. split_and!; [done | done | | lia | lia |].
    + rewrite zlen_cons, Hl. lia.
    + cbn [dec_int_val Z.eqb Pos.eqb]. rewrite Hval. simpl. f_equal. lia.
  - right. rewrite u64_small by zlia.
    destruct (fmt_dec_spec v) as (Hn & Hl & Hval & _); [lia |].
    do 2 eexists. split_and!; [done | done | done | lia | lia |].
    unfold dec_int_val. cbn [negb].
    destruct (write_dec _ v []) as [|c s]; [change (zlen (A:=Z) []) with 0 in Hl; lia |].
    by destruct (Z.eqb_spec c 45) as [->|Hc].
Qed.

Lemma fmt_int64_roundtrip_witness :
  (-1203 = INT64_MIN /\ vtm_fmt_int64 true (-1203) = None) \/
  exists n s, vtm_fmt_int64 true (-1203) = Some (n, s) /\
    vtm_fmt_int64 false (-1203) = Some (n, []) /\
    zlen s = n /\ 1 <= n <= 21 /\ dec_int_val s = Some (-1203).
Proof. apply (fmt_int64_roundtrip (-1203)). unfold INT64_MIN. lia. Defined.

(** Round trip.  The hexadecimal form [vtm_fmt_hex_size] writes (used for
    HTTP chunk sizes) has the argument as its value, no superfluous leading
    zero and at most 16 digits. *)
Theorem fmt_hex_size_roundtrip v :
  is_size v ->
  exists n s, vtm_fmt_hex_size true v = (n, s) /\ vtm_fmt_hex_size false v = (n, []) /\
    zlen s = n /\ 1 <= n <= 16 /\ num_val 16 0 s = Some v /\
    (1 < n -> 16 ^ (n - 1) <= v).
Proof.
  intros Hv. unfold vtm_fmt_hex_size.
  destruct (count_hex_spec fmt_fuel v 1) as (k & -> & Hk & Hlt & Hge).
  { unfold fmt_fuel. zlia. }
  assert (k <= 15).
  { destruct Hge as [-> | Hge]; [lia |]. apply Z.lt_succ_r.
    apply (Z.pow_lt_mono_r_iff 16); zlia. }
  destruct (write_hex_spec (Z.to_nat (1 + k)) v []) as (ds & -> & Hl & Hval).
  { rewrite Z2Nat.id by lia. replace (1 + k) with (k + 1) by lia. zlia. }
  do 2 eexists. split_and!; [done | done | | lia | lia | |].
  - rewrite app_nil_r. unfold zlen. lia.
  - by rewrite app_nil_r, Hval.
  - intros. destruct Hge as [-> | Hge]; [lia |]. by replace (1 + k - 1) with k by lia.
Qed.

Lemma fmt_hex_size_roundtrip_witness :
  exists n s, vtm_fmt_hex_size true 0xbeef = (n, s) /\
    vtm_fmt_hex_size false 0xbeef = (n, []) /\
    zlen s = n /\ 1 <= n <= 16 /\ num_val 16 0 s = Some 0xbeef /\
    (1 < n -> 16 ^ (n - 1) <= 0xbeef).
Proof. apply (fmt_hex_size_roundtrip 0xbeef). zlia. Defined.
