(* ===== verification/Base64.v ===== *)
(** * Base64: util/base64.c

    Both functions return the code and the bytes stored at [buf].  [None]
    models a read outside of the input, which the decoder performs when the
    input length is not a multiple of four. *)

From S2P Require Import Prelude Base.

Definition VTM_BASE64_PADDING_CHAR : Z := 61.

(** util/base64.c:11-17 *)
Definition VTM_BASE64_ENCODING : bytes :=
  cstr_of "ABCDEFGHIJKLMNOPQRSTUVWXYZabcdefghijklmnopqrstuvwxyz0123456789+/"%string.

(** util/base64.c:19-36.  The rows of the table. *)
Definition VTM_BASE64_DECODING : bytes :=
  [ 0;  0;  0;  0;  0;  0;  0;  0;  0;  0;  0;  0;  0;  0;  0;  0;
    0;  0;  0;  0;  0;  0;  0;  0;  0;  0;  0;  0;  0;  0;  0;  0;
    0;  0;  0;  0;  0;  0;  0;  0;  0;  0;  0; 62;  0;  0;  0; 63;
   52; 53; 54; 55; 56; 57; 58; 59; 60; 61;  0;  0;  0;  0;  0;  0;
    0;  0;  1;  2;  3;  4;  5;  6;  7;  8;  9; 10; 11; 12; 13; 14;
   15; 16; 17; 18; 19; 20; 21; 22; 23; 24; 25;  0;  0;  0;  0;  0;
    0; 26; 27; 28; 29; 30; 31; 32; 33; 34; 35; 36; 37; 38; 39; 40;
   41; 42; 43; 44; 45; 46; 47; 48; 49; 50; 51;  0;  0;  0;  0;  0]
  ++ repeat 0 128.

(** util/base64.h:25 *)
Definition VTM_BASE64_ENC_BUF_LEN (len : Z) : Z := u64 (u64 (4 * (u64 (len + 2) / 3)) + 1).

(** util/base64.h:31 *)
Definition VTM_BASE64_DEC_BUF_LEN (len : Z) : Z := u64 ((len / 4) * 3).

Definition enc_char (i : Z) : Z := default 0 (znth VTM_BASE64_ENCODING i).
Definition dec_char (c : Z) : Z := default 0 (znth VTM_BASE64_DECODING c).

(** util/base64.c:49-76.  The loop over groups of three bytes, the remaining
    one or two bytes and the terminating NUL. *)
Fixpoint encode_loop (r : bytes) : bytes :=
  match r with
  | a :: b :: d :: r' =>
      let c := u32 (u32 (Z.shiftl a 16 + Z.shiftl b 8) + d) in
      [enc_char (Z.shiftr c 18);
       enc_char (Z.land (Z.shiftr c 12) 0x3F);
       enc_char (Z.land (Z.shiftr c 6) 0x3F);
       enc_char (Z.land c 0x3F)] ++ encode_loop r'
  | [a; b] =>
      let c := u32 (Z.shiftl a 16 + Z.shiftl b 8) in
      [enc_char (Z.shiftr c 18);
       enc_char (Z.land (Z.shiftr c 12) 0x3F);
       enc_char (Z.land (Z.shiftr c 6) 0x3F);
       VTM_BASE64_PADDING_CHAR; 0]
  | [a] =>
      let c := Z.shiftl a 16 in
      [enc_char (Z.shiftr c 18);
       enc_char (Z.land (Z.shiftr c 12) 0x3F);
       VTM_BASE64_PADDING_CHAR;
       VTM_BASE64_PADDING_CHAR; 0]
  | [] => [0]
  end.

(** util/base64.c:38-79 *)
Definition vtm_base64_encode (input : bytes) (buf_len : Z) : Z * bytes :=
  if buf_len <? VTM_BASE64_ENC_BUF_LEN (zlen input) then (VTM_E_INVALID_ARG, [])
  else (VTM_OK, encode_loop input).

(** util/base64.c:102-115.  The loop over groups of four characters: the
    bytes written and the rest of the input. *)
Fixpoint decode_loop (r : bytes) (remaining : Z) : option (bytes * bytes) :=
  if 0 <? remaining then
    match r with
    | r0 :: r1 :: r2 :: r3 :: r' =>
        let c := u32 (Z.shiftl (dec_char r0) 18 + Z.shiftl (dec_char r1) 12
                      + Z.shiftl (dec_char r2) 6 + Z.shiftl (dec_char r3) 0) in
        '(w, rest) ← decode_loop r' (u64 (remaining - 4));
        Some ([Z.land (Z.shiftr c 16) 0xff; Z.land (Z.shiftr c 8) 0xff;
               Z.land (Z.shiftr c 0) 0xff] ++ w, rest)
    | _ => None
    end
  else Some ([], r).

(** util/base64.c:81-133.  The code, the bytes written, the new [*buf_len]. *)
Definition vtm_base64_decode (input : bytes) (buf_len : Z)
    : option (Z * bytes * Z) :=
  let len := zlen input in
  if len <? 4 then Some (VTM_E_INVALID_ARG, [], buf_len)
  else if buf_len <? VTM_BASE64_DEC_BUF_LEN len then Some (VTM_E_INVALID_ARG, [], buf_len)
  else
    last ← znth input (len - 1);
    last2 ← znth input (len - 2);
    let pad := (if last =? VTM_BASE64_PADDING_CHAR then 1 else 0)
               + (if last2 =? VTM_BASE64_PADDING_CHAR then 1 else 0) in
    let remaining := if 0 <? pad then len - 4 else len in
    '(w, r) ← decode_loop input remaining;
    tail ← (if pad =? 0 then Some []
            else match r with
                 | r0 :: r1 :: r2 :: _ =>
                     let c := u32 (Z.shiftl (dec_char r0) 18 + Z.shiftl (dec_char r1) 12
                                + (if pad =? 1 then Z.shiftl (dec_char r2) 6 else 0)) in
                     Some ([Z.land (Z.shiftr c 16) 0xff]
                           ++ (if pad =? 1 then [Z.land (Z.shiftr c 8) 0xff] else []))
                 | _ => None
                 end);
    Some (VTM_OK, w ++ tail, u64 (VTM_BASE64_DEC_BUF_LEN len - pad)).

(** ** Lemmas *)

Lemma dec_enc_char i : 0 <= i < 64 -> dec_char (enc_char i) = i.
Proof.
  intros. by apply Z.eqb_eq, (check_below (fun i => dec_char (enc_char i) =? i) 64).
Qed.

Lemma enc_char_range i :
  0 <= i < 64 -> enc_char i <> VTM_BASE64_PADDING_CHAR /\ 0 < enc_char i < 256.
Proof.
  intros Hi.
  pose proof (check_below (fun i => negb (enc_char i =? VTM_BASE64_PADDING_CHAR)
    && (0 <? enc_char i) && (enc_char i <? 256)) 64 i eq_refl Hi) as H.
  simpl in H. bsplit. done.
Qed.

(** The four sextets of a 24-bit group. *)
Definition sextet (c k : Z) : Z := Z.land (Z.shiftr c k) 0x3F.

Lemma sextet_range c k : 0 <= sextet c k < 64.
Proof. unfold sextet. bits_to_arith. apply Z.mod_pos_bound. lia. Qed.

Lemma sextet_top c : 0 <= c < 2 ^ 24 -> Z.shiftr c 18 = sextet c 18.
Proof. intros. unfold sextet. bits_to_arith. dlia. Qed.

Lemma sextet_low c : Z.land c 0x3F = sextet c 0.
Proof. done. Qed.

Lemma sextets_group c :
  0 <= c < 2 ^ 24 ->
  Z.shiftl (sextet c 18) 18 + Z.shiftl (sextet c 12) 12 + Z.shiftl (sextet c 6) 6
  + Z.shiftl (sextet c 0) 0 = c.
Proof. intros. unfold sextet. bits_to_arith. dlia. Qed.

Lemma group_bytes a b d :
  is_byte a -> is_byte b -> is_byte d ->
  let c := u32 (u32 (Z.shiftl a 16 + Z.shiftl b 8) + d) in
  0 <= c < 2 ^ 24 /\ Z.land (Z.shiftr c 16) 0xff = a /\
  Z.land (Z.shiftr c 8) 0xff = b /\ Z.land (Z.shiftr c 0) 0xff = d.
Proof.
  unfold is_byte. intros Ha Hb Hd. cbv zeta.
  assert (u32 (u32 (Z.shiftl a 16 + Z.shiftl b 8) + d) = a * 65536 + b * 256 + d) as ->.
  { bits_to_arith. unfold u32. rewrite (wrap_small _ (a * 2 ^ 16 + _)) by lia.
    rewrite wrap_small; lia. }
  bits_to_arith. dlia.
Qed.

(** The encoder's output on one group, and the decoder's on that output. *)
Definition enc4 (c : Z) : bytes :=
  [enc_char (sextet c 18); enc_char (sextet c 12); enc_char (sextet c 6);
   enc_char (sextet c 0)].

(** The text without its terminating NUL. *)
Fixpoint b64_text (r : bytes) : bytes :=
  match r with
  | a :: b :: d :: r' =>
      enc4 (u32 (u32 (Z.shiftl a 16 + Z.shiftl b 8) + d)) ++ b64_text r'
  | [a; b] =>
      let c := u32 (u32 (Z.shiftl a 16 + Z.shiftl b 8) + 0) in
      [enc_char (sextet c 18); enc_char (sextet c 12); enc_char (sextet c 6);
       VTM_BASE64_PADDING_CHAR]
  | [a] =>
      let c := u32 (u32 (Z.shiftl a 16 + Z.shiftl 0 8) + 0) in
      [enc_char (sextet c 18); enc_char (sextet c 12);
       VTM_BASE64_PADDING_CHAR; VTM_BASE64_PADDING_CHAR]
  | [] => []
  end.

(** Induction over groups of three. *)
Lemma group_ind (P : bytes -> Prop) :
  P [] -> (forall a, P [a]) -> (forall a b, P [a; b]) ->
  (forall a b d r, P r -> P (a :: b :: d :: r)) -> forall r, P r.
Proof.
  intros H0 H1 H2 H3 r.
  enough (P r /\ (forall a, P (a :: r)) /\ (forall a b, P (a :: b :: r))) by tauto.
  induction r as [|x r (IH0 & IH1 & IH2)]; [auto |].
  split_and!; [apply IH1 | intros a; apply IH2 | intros a b; by apply H3].
Qed.

Ltac isbyte := first [done | by vm_compute].

Ltac byte_hyps :=
  repeat match goal with H : Forall is_byte (_ :: _) |- _ => inversion_clear H end.

Lemma encode_loop_text r :
  Forall is_byte r -> encode_loop r = b64_text r ++ [0].
Proof.
  induction r as [|a|a b|a b d r IH] using group_ind; intros Hr; byte_hyps; [done | | |].
  - destruct (group_bytes a 0 0) as [Hc _]; [done | by vm_compute | by vm_compute |].
    cbn [encode_loop b64_text app]. rewrite <- sextet_top by done.
    assert (Z.shiftl a 16 = u32 (u32 (Z.shiftl a 16 + Z.shiftl 0 8) + 0)) as <-.
    { unfold is_byte in *. bits_to_arith. rewrite !Z.add_0_r. unfold u32.
      rewrite wrap_wrap, wrap_small; lia. }
    done.
  - destruct (group_bytes a b 0) as [Hc _]; [done | done | by vm_compute |].
    cbn [encode_loop b64_text app]. rewrite <- sextet_top by done.
    assert (u32 (Z.shiftl a 16 + Z.shiftl b 8) = u32 (u32 (Z.shiftl a 16 + Z.shiftl b 8) + 0))
      as <- by (rewrite Z.add_0_r; unfold u32; by rewrite wrap_wrap).
    done.
  - destruct (group_bytes a b d) as [Hc _]; [done | done | done |].
    cbn [encode_loop b64_text]. unfold enc4. rewrite <- sextet_top, IH by done.
    by rewrite <- app_assoc.
Qed.

Lemma b64_text_len r : zlen (b64_text r) = 4 * ((zlen r + 2) / 3).
Proof.
  induction r as [|a|a b|a b d r IH] using group_ind; [done | done | done |].
  cbn [b64_text]. rewrite zlen_app, IH, !zlen_cons.
  change (zlen (enc4 _)) with 4.
  replace (1 + (1 + (1 + zlen r)) + 2) with (zlen r + 2 + 1 * 3) by lia.
  rewrite Z.div_add by lia. lia.
Qed.

Lemma dec4_enc4 c :
  0 <= c < 2 ^ 24 ->
  u32 (Z.shiftl (dec_char (enc_char (sextet c 18))) 18
       + Z.shiftl (dec_char (enc_char (sextet c 12))) 12
       + Z.shiftl (dec_char (enc_char (sextet c 6))) 6
       + Z.shiftl (dec_char (enc_char (sextet c 0))) 0) = c.
Proof.
  intros Hc. rewrite !dec_enc_char by apply sextet_range.
  rewrite sextets_group by done. apply wrap_small. lia.
Qed.

(** Inputs that consist of whole groups. *)
Inductive groups : bytes -> Prop :=
  | groups_nil : groups []
  | groups_cons a b d g : groups g -> groups (a :: b :: d :: g).

Lemma groups_split r :
  exists g t, r = g ++ t /\ groups g /\
    (t = [] \/ (exists a, t = [a]) \/ (exists a b, t = [a; b])).
Proof.
  induction r as [|a|a b|a b d r (g & t & -> & Hg & Ht)] using group_ind.
  - exists [], []. split_and!; [done | constructor | auto].
  - exists [], [a]. split_and!; [done | constructor | eauto].
  - exists [], [a; b]. split_and!; [done | constructor | eauto].
  - exists (a :: b :: d :: g), t. split_and!; [done | by constructor | done].
Qed.

Lemma b64_text_groups g t : groups g -> b64_text (g ++ t) = b64_text g ++ b64_text t.
Proof.
  induction 1 as [|a b d g Hg IH]; [done |].
  cbn [app b64_text]. by rewrite IH, app_assoc.
Qed.

Lemma decode_loop_0 r : decode_loop r 0 = Some ([], r).
Proof. by destruct r. Qed.

Lemma decode_loop_groups g s n :
  groups g -> Forall is_byte g -> n = zlen (b64_text g) -> is_size n ->
  decode_loop (b64_text g ++ s) n = Some (g, s).
Proof.
  intros Hg. revert n. induction Hg as [|a b d g Hg IH]; intros n Hb Hn Hs.
  - subst n. apply decode_loop_0.
  - byte_hyps. destruct (group_bytes a b d) as (Hc & E1 & E2 & E3); [done..|].
    set (c := u32 (u32 _ + d)) in *.
    cbn [b64_text] in *. fold c in Hn |- *. rewrite zlen_app in Hn.
    change (zlen (enc4 c)) with 4 in Hn. pose proof (zlen_nonneg (b64_text g)).
    unfold enc4. cbn [app decode_loop].
    destruct (Z.ltb_spec 0 n); [|lia]. rewrite u64_small by zlia.
    rewrite (IH (n - 4)) by (try done; zlia). cbn [mbind option_bind app].
    by rewrite dec4_enc4, E1, E2, E3.
Qed.

Lemma b64_text_decode g t :
  groups g -> Forall is_byte g -> zlen (b64_text g) <= 2 ^ 63 ->
  decode_loop (b64_text g ++ t) (zlen (b64_text g)) = Some (g, t).
Proof.
  intros. pose proof (zlen_nonneg (b64_text g)).
  apply decode_loop_groups; [done | done | done | zlia].
Qed.

Lemma znth_app_r l k i : zlen l <= i -> znth (l ++ k) i = znth k (i - zlen l).
Proof.
  intros Hi. pose proof (zlen_nonneg l). rewrite !znth_lookup by lia.
  rewrite lookup_app_r by zlia. f_equal. zlia.
Qed.

(** The last group decides the padding. *)
Lemma pad_last l x y z w :
  let text := l ++ [x; y; z; w] in
  zlen text = zlen l + 4 /\ znth text (zlen text - 1) = Some w /\
  znth text (zlen text - 2) = Some z.
Proof.
  intros text. assert (zlen text = zlen l + 4) as Hl by (unfold text; by rewrite zlen_app).
  rewrite Hl. subst text. split_and!; [done | |]; rewrite znth_app_r by lia.
  - by replace (zlen l + 4 - 1 - zlen l) with 3 by lia.
  - by replace (zlen l + 4 - 2 - zlen l) with 2 by lia.
Qed.

Lemma enc_buf_len n :
  0 <= n <= 2 ^ 62 -> VTM_BASE64_ENC_BUF_LEN n = 4 * ((n + 2) / 3) + 1.
Proof.
  intros. unfold VTM_BASE64_ENC_BUF_LEN. rewrite (u64_small (n + 2)) by zlia.
  rewrite (u64_small (4 * _)) by dlia. rewrite u64_small by dlia. done.
Qed.

Lemma dec_buf_len n : 0 <= n <= SIZE_MAX -> VTM_BASE64_DEC_BUF_LEN n = n / 4 * 3.
Proof. intros. unfold VTM_BASE64_DEC_BUF_LEN. rewrite u64_small; dlia. Qed.

(** The two cases of the decoder on a text that ends in a group. *)
Lemma decode_unpadded l x y z w n :
  z <> VTM_BASE64_PADDING_CHAR -> w <> VTM_BASE64_PADDING_CHAR ->
  VTM_BASE64_DEC_BUF_LEN (zlen (l ++ [x; y; z; w])) <= n ->
  vtm_base64_decode (l ++ [x; y; z; w]) n =
    '(out, _) ← decode_loop (l ++ [x; y; z; w]) (zlen (l ++ [x; y; z; w]));
    Some (VTM_OK, out, u64 (VTM_BASE64_DEC_BUF_LEN (zlen (l ++ [x; y; z; w])))).
Proof.
  intros Hz Hw Hn. destruct (pad_last l x y z w) as (Hl & H1 & H2).
  pose proof (zlen_nonneg l). unfold vtm_base64_decode.
  destruct (Z.ltb_spec (zlen (l ++ [x; y; z; w])) 4); [lia |].
  destruct (Z.ltb_spec n (VTM_BASE64_DEC_BUF_LEN (zlen (l ++ [x; y; z; w])))); [lia |].
  rewrite H1, H2. cbn [mbind option_bind].
  destruct (Z.eqb_spec w VTM_BASE64_PADDING_CHAR), (Z.eqb_spec z VTM_BASE64_PADDING_CHAR);
    try done. cbn [Z.add Z.ltb Z.eqb Z.compare].
  destruct (decode_loop _ _) as [[out r]|]; [|done]. simpl.
  by rewrite app_nil_r, Z.sub_0_r.
Qed.

Lemma decode_padded l x y z n out :
  VTM_BASE64_DEC_BUF_LEN (zlen (l ++ [x; y; z; VTM_BASE64_PADDING_CHAR])) <= n ->
  decode_loop (l ++ [x; y; z; VTM_BASE64_PADDING_CHAR]) (zlen l) =
    Some (out, [x; y; z; VTM_BASE64_PADDING_CHAR]) ->
  vtm_base64_decode (l ++ [x; y; z; VTM_BASE64_PADDING_CHAR]) n =
    let one := negb (z =? VTM_BASE64_PADDING_CHAR) in
    let c := u32 (Z.shiftl (dec_char x) 18 + Z.shiftl (dec_char y) 12
                  + (if one then Z.shiftl (dec_char z) 6 else 0)) in
    Some (VTM_OK, out ++ Z.land (Z.shiftr c 16) 0xff
                    :: (if one then [Z.land (Z.shiftr c 8) 0xff] else []),
          u64 (VTM_BASE64_DEC_BUF_LEN (zlen l + 4) - if one then 1 else 2)).
Proof.
  intros Hn Hd.
  destruct (pad_last l x y z VTM_BASE64_PADDING_CHAR) as (Hl & H1 & H2).
  pose proof (zlen_nonneg l). unfold vtm_base64_decode.
  destruct (Z.ltb_spec (zlen (l ++ [x; y; z; VTM_BASE64_PADDING_CHAR])) 4); [lia |].
  destruct (Z.ltb_spec n
    (VTM_BASE64_DEC_BUF_LEN (zlen (l ++ [x; y; z; VTM_BASE64_PADDING_CHAR])))); [lia |].
  rewrite H1, H2. cbn [mbind option_bind]. rewrite Z.eqb_refl.
  rewrite Hl. replace (zlen l + 4 - 4) with (zlen l) by lia.
  destruct (Z.eqb_spec z VTM_BASE64_PADDING_CHAR); simpl; rewrite Hd; done.
Qed.

Lemma b64_text_last g :
  groups g -> g <> [] ->
  exists l x y z w, b64_text g = l ++ [x; y; z; w] /\
    z <> VTM_BASE64_PADDING_CHAR /\ w <> VTM_BASE64_PADDING_CHAR.
Proof.
  induction 1 as [|a b d g Hg IH]; intros Hne; [done |].
  cbn [b64_text]. set (c := u32 (u32 _ + d)). destruct g as [|a' g'].
  - exists [], (enc_char (sextet c 18)), (enc_char (sextet c 12)),
      (enc_char (sextet c 6)), (enc_char (sextet c 0)).
    split; [done |]. split; apply enc_char_range, sextet_range.
  - destruct IH as (l & x & y & z & w & -> & Hz & Hw); [done |].
    exists (enc4 c ++ l), x, y, z, w. by rewrite app_assoc.
Qed.

(** The incomplete groups at the end, whose missing bytes count as zero. *)
Lemma dec2_enc2 c :
  0 <= c < 2 ^ 24 -> c mod 2 ^ 12 = 0 ->
  u32 (Z.shiftl (dec_char (enc_char (sextet c 18))) 18
       + Z.shiftl (dec_char (enc_char (sextet c 12))) 12 + 0) = c.
Proof.
  intros Hc Hm. rewrite !dec_enc_char by apply sextet_range. unfold sextet.
  bits_to_arith. unfold u32. rewrite wrap_small by dlia. dlia.
Qed.

Lemma dec3_enc3 c :
  0 <= c < 2 ^ 24 -> c mod 2 ^ 6 = 0 ->
  u32 (Z.shiftl (dec_char (enc_char (sextet c 18))) 18
       + Z.shiftl (dec_char (enc_char (sextet c 12))) 12
       + Z.shiftl (dec_char (enc_char (sextet c 6))) 6) = c.
Proof.
  intros Hc Hm. rewrite !dec_enc_char by apply sextet_range. unfold sextet.
  bits_to_arith. unfold u32. rewrite wrap_small by dlia. dlia.
Qed.

Lemma group_value a b d :
  is_byte a -> is_byte b -> is_byte d ->
  u32 (u32 (Z.shiftl a 16 + Z.shiftl b 8) + d) = a * 65536 + b * 256 + d.
Proof.
  unfold is_byte. intros. bits_to_arith. unfold u32.
  rewrite (wrap_small _ (a * 2 ^ 16 + _)) by lia. rewrite wrap_small; lia.
Qed.

Lemma b64_text_mod4 r : zlen (b64_text r) / 4 * 3 = (zlen r + 2) / 3 * 3.
Proof. rewrite b64_text_len. dlia. Qed.

Lemma groups_len g : groups g -> zlen g = (zlen g + 2) / 3 * 3.
Proof. induction 1 as [|a b d g Hg IH]; [done |]. rewrite !zlen_cons. dlia. Qed.

(** Decoding the three forms a text can end in. *)
Lemma decode_text_whole g :
  groups g -> Forall is_byte g -> g <> [] -> zlen g <= 2 ^ 61 ->
  vtm_base64_decode (b64_text g) (VTM_BASE64_DEC_BUF_LEN (zlen (b64_text g)))
    = Some (VTM_OK, g, zlen g).
Proof.
  intros Hg Hb Hne Hlen. pose proof (zlen_nonneg g). pose proof (b64_text_len g) as Hl.
  pose proof (b64_text_mod4 g) as Hm. pose proof (groups_len g Hg) as Hgl.
  assert (decode_loop (b64_text g) (zlen (b64_text g)) = Some (g, [])) as Hd.
  { pose proof (b64_text_decode g [] Hg Hb) as P. rewrite app_nil_r in P. apply P. dlia. }
  destruct (b64_text_last g Hg Hne) as (l & x & y & z & w & E & Hz & Hw).
  rewrite E in *. rewrite decode_unpadded by done. rewrite Hd.
  cbn [mbind option_bind]. rewrite dec_buf_len by dlia.
  rewrite Hm, <- Hgl. rewrite u64_small by dlia. done.
Qed.

Lemma decode_text_padded g t x y z v n :
  groups g -> Forall is_byte g -> zlen g <= 2 ^ 61 ->
  b64_text t = [x; y; z; VTM_BASE64_PADDING_CHAR] ->
  (let one := negb (z =? VTM_BASE64_PADDING_CHAR) in
   let c := u32 (Z.shiftl (dec_char x) 18 + Z.shiftl (dec_char y) 12
                 + (if one then Z.shiftl (dec_char z) 6 else 0)) in
   Z.land (Z.shiftr c 16) 0xff
     :: (if one then [Z.land (Z.shiftr c 8) 0xff] else []) = v /\
   n = 3 - if one then 1 else 2) ->
  vtm_base64_decode (b64_text (g ++ t))
    (VTM_BASE64_DEC_BUF_LEN (zlen (b64_text (g ++ t)))) = Some (VTM_OK, g ++ v, zlen g + n).
Proof.
  intros Hg Hb Hlen Ht (Hv & Hn). rewrite b64_text_groups, Ht by done.
  pose proof (zlen_nonneg g). pose proof (b64_text_len g) as Hl.
  pose proof (groups_len g Hg) as Hgl.
  erewrite decode_padded; [|done |apply b64_text_decode; [done | done | dlia]].
  cbv zeta. rewrite Hv. rewrite dec_buf_len by dlia.
  replace ((zlen (b64_text g) + 4) / 4 * 3) with (zlen g + 3) by dlia.
  subst n. rewrite u64_small by (destruct (negb _); zlia). do 2 f_equal. lia.
Qed.

(** ** Properties *)

(** Round trip.  For every non-empty byte string the encoder, given the
    buffer size its macro computes, fills exactly that buffer with a
    NUL-terminated text, and the decoder restores the bytes and their number
    from that text.  (The empty text is refused by the decoder.) *)
Theorem base64_roundtrip r :
  Forall is_byte r -> r <> [] -> zlen r <= 2 ^ 61 ->
  vtm_base64_encode r (VTM_BASE64_ENC_BUF_LEN (zlen r)) = (VTM_OK, b64_text r ++ [0]) /\
  zlen (b64_text r ++ [0]) = VTM_BASE64_ENC_BUF_LEN (zlen r) /\
  vtm_base64_decode (b64_text r) (VTM_BASE64_DEC_BUF_LEN (zlen (b64_text r)))
    = Some (VTM_OK, r, zlen r).
Proof.
  intros Hr Hne Hlen. pose proof (zlen_nonneg r) as Hnn. split_and!.
  - unfold vtm_base64_encode. rewrite Z.ltb_irrefl. by rewrite encode_loop_text.
  - rewrite enc_buf_len by lia. by rewrite zlen_app, b64_text_len.
  - destruct (groups_split r) as (g & t & -> & Hg & Ht).
    apply Forall_app in Hr as [Hbg Hbt]. rewrite zlen_app in *.
    pose proof (zlen_nonneg t).
    destruct Ht as [-> | [(a & ->) | (a & b & ->)]]; byte_hyps.
    + rewrite app_nil_r in *. rewrite Z.add_0_r. apply decode_text_whole; auto. lia.
    + destruct (group_bytes a 0 0) as (Hc & E1 & _); [isbyte.. |].
      eapply (decode_text_padded g [a] _ _ _ [a] 1); [done | done | lia | done |].
      cbv zeta. rewrite Z.eqb_refl. cbn [negb].
      rewrite dec2_enc2; [rewrite E1; split; [done | lia] | done |].
      rewrite group_value by isbyte. unfold is_byte in *. dlia.
    + destruct (group_bytes a b 0) as (Hc & E1 & E2 & _); [isbyte.. |].
      eapply (decode_text_padded g [a; b] _ _ _ [a; b] 2); [done | done | lia | done |].
      cbv zeta. rewrite (proj2 (Z.eqb_neq _ _) (proj1 (enc_char_range _ (sextet_range _ 6)))).
      cbn [negb]. rewrite dec3_enc3; [rewrite E1, E2; split; [done | lia] | done |].
      rewrite group_value by isbyte. unfold is_byte in *. dlia.
Qed.

Lemma base64_roundtrip_witness :
  let r := [77; 97; 110; 33] in
  vtm_base64_encode r (VTM_BASE64_ENC_BUF_LEN (zlen r)) = (VTM_OK, b64_text r ++ [0]) /\
  zlen (b64_text r ++ [0]) = VTM_BASE64_ENC_BUF_LEN (zlen r) /\
  vtm_base64_decode (b64_text r) (VTM_BASE64_DEC_BUF_LEN (zlen (b64_text r)))
    = Some (VTM_OK, r, zlen r).
Proof.
  apply (base64_roundtrip [77; 97; 110; 33]).
  - repeat constructor; done.
  - discriminate.
  - vm_compute. discriminate.
Defined.

(** The encoder produces the well-known text of a well-known input. *)
Example encode_man :
  vtm_base64_encode (cstr_of "Man!"%string) 9 = (VTM_OK, cstr_of "TWFuIQ=="%string ++ [0]).
Proof. reflexivity. Qed.

Lemma decode_loop_unaligned r n :
  zlen r = n -> 0 < n mod 4 -> n <= SIZE_MAX -> decode_loop r n = None.
Proof.
  intros Hl Hm Hn. subst n.
  assert (exists k, (length r <= k)%nat) as [k Hk] by eauto.
  revert r Hk Hm Hn. induction k as [|k IH]; intros r Hk Hm Hn.
  - destruct r; [done | simpl in Hk; lia].
  - destruct r as [|r0 r]; [done |]. pose proof (zlen_nonneg r) as Hnn.
    cbn [decode_loop]. destruct (Z.ltb_spec 0 (zlen (r0 :: r))); [|rewrite zlen_cons in *; lia].
    destruct r as [|r1 [|r2 [|r3 r]]]; [done | done | done |].
    rewrite !zlen_cons in *. pose proof (zlen_nonneg r).
    rewrite u64_small by zlia.
    replace (1 + (1 + (1 + (1 + zlen r))) - 4) with (zlen r) by lia.
    rewrite IH; [done | simpl in Hk; lia | dlia | zlia].
Qed.

(** Defect.  The decoder checks the buffer and the minimal length but not
    that the length of the text is a multiple of four: for every other length
    of an unpadded text [remaining] wraps around below zero and the loop reads
    behind the input, which the model shows as an undefined result. *)
Theorem base64_decode_unaligned_reads_outside r n :
  4 <= zlen r <= SIZE_MAX -> 0 < zlen r mod 4 ->
  VTM_BASE64_DEC_BUF_LEN (zlen r) <= n ->
  znth r (zlen r - 1) <> Some VTM_BASE64_PADDING_CHAR ->
  znth r (zlen r - 2) <> Some VTM_BASE64_PADDING_CHAR ->
  vtm_base64_decode r n = None.
Proof.
  intros Hl Hm Hn H1 H2. unfold vtm_base64_decode.
  destruct (Z.ltb_spec (zlen r) 4); [lia |].
  destruct (Z.ltb_spec n (VTM_BASE64_DEC_BUF_LEN (zlen r))); [lia |].
  destruct (znth_is_Some r (zlen r - 1)) as [c1 E1]; [lia |].
  destruct (znth_is_Some r (zlen r - 2)) as [c2 E2]; [lia |].
  rewrite E1, E2 in *. cbn [mbind option_bind].
  destruct (Z.eqb_spec c1 VTM_BASE64_PADDING_CHAR), (Z.eqb_spec c2 VTM_BASE64_PADDING_CHAR);
    try congruence.
  change (0 <? 0 + 0) with false. cbv iota.
  by rewrite (decode_loop_unaligned r (zlen r)) by (done || lia).
Qed.

Lemma base64_decode_unaligned_reads_outside_witness :
  vtm_base64_decode (cstr_of "QUJDR"%string) 100 = None.
Proof.
  apply base64_decode_unaligned_reads_outside; vm_compute; try split; congruence.
Defined.
