(* ===== verification/Str.v ===== *)
(** * Str: the string helpers of core/string.c

    A NUL-terminated string is the list of its bytes without the NUL, so the
    read of the terminator is the end of the list.  A [char] is signed; where
    the code computes with it the byte is converted with [i8].  [None] stands
    for a read or write outside of an object, or for a loop that does not
    end. *)

From S2P Require Import Prelude Base.

(** ** Comparison *)

(** core/string.c:100-110 *)
Fixpoint vtm_str_casecmp (s1 s2 : bytes) : Z :=
  match s1 with
  | [] => tolower 0 - tolower (i8 (default 0 (head s2)))
  | c1 :: s1' =>
      let c2 := default 0 (head s2) in
      if tolower (i8 c1) =? tolower (i8 c2) then
        if (c1 =? 0) || (c2 =? 0) then tolower (i8 c1) - tolower (i8 c2)
        else vtm_str_casecmp s1' (tail s2)
      else tolower (i8 c1) - tolower (i8 c2)
  end.

(** strcmp(s1, s2) == 0 and strncmp(start, in, strlen(start)) == 0. *)
Definition strcmp_eq (s1 s2 : bytes) : bool := bool_decide (s1 = s2).

(** core/string.c:371-374 *)
Definition vtm_str_starts_with (s start : bytes) : bool :=
  strcmp_eq start (take (length start) s).

(** ** Tokens *)

(** Characters of a set, and the span functions of <string.h>. *)
Definition in_set (delim : bytes) (c : Z) : bool := bool_decide (c ∈ delim).

Fixpoint skip_while (p : Z -> bool) (s : bytes) : bytes :=
  match s with
  | c :: s' => if p c then skip_while p s' else s
  | [] => []
  end.

Fixpoint take_until (p : Z -> bool) (s : bytes) : bytes :=
  match s with
  | c :: s' => if p c then [] else c :: take_until p s'
  | [] => []
  end.

(** strtok_r() of POSIX on the text still to be scanned: the token and the
    saved position. *)
Definition strtok_r (s delim : bytes) : option (bytes * bytes) :=
  let s1 := skip_while (in_set delim) s in
  if bool_decide (s1 = []) then None
  else let tok := take_until (in_set delim) s1 in
       Some (tok, drop (S (length tok)) s1).

(** core/string.c:47-70.  The replacement for systems without strtok_r():
    the saved position is [strlen(delim)] behind the token; the inner result
    is [None] if that is behind the terminating NUL. *)
Definition vtm_strtok_r_self (s delim : bytes) : option (bytes * option bytes) :=
  let s1 := skip_while (in_set delim) s in
  if bool_decide (s1 = []) then None
  else
    let tok := take_until (in_set delim) s1 in
    let len := length tok in
    if bool_decide (len = length s1) then Some (tok, Some [])
    else
      let ctx := (len + length delim)%nat in
      Some (tok, if bool_decide (ctx <= length s1)%nat then Some (drop ctx s1) else None).

(** core/string.c:121-131 [vtm_str_split].  The tokens of the resulting list; after [count]
    tokens the delimiter set is empty and the rest is one token. *)
Fixpoint split_loop (fuel : nat) (s delim : bytes) (tokens count : Z) : option (list bytes) :=
  match fuel with
  | O => None
  | S fuel' =>
      match strtok_r s delim with
      | None => Some []
      | Some (tok, rest) =>
          let tokens' := u32 (tokens + 1) in
          let delim' := if (0 <? count) && (tokens' =? count) then [] else delim in
          toks ← split_loop fuel' rest delim' tokens' count; Some (tok :: toks)
      end
  end.

(** core/string.c:112-134 [vtm_str_split].  One token consumes at least one character. *)
Definition vtm_str_split (s delim : bytes) (count : Z) : option (list bytes) :=
  split_loop (S (length s)) s delim 0 count.

(** core/string.c:359-365.  One pass of the inner loop: the number of
    matched characters and the rest of the text. *)
Fixpoint match_prefix (s pattern : bytes) : nat * bytes :=
  match pattern, s with
  | p :: pattern', c :: s' =>
      if c =? p then let '(n, r) := match_prefix s' pattern' in (S n, r) else (O, s')
  | _, _ => (O, s)
  end.

Fixpoint pattern_count_loop (fuel : nat) (s pattern : bytes) (result : Z) : option Z :=
  match fuel with
  | O => None
  | S fuel' =>
      match s with
      | [] => Some result
      | _ =>
          let '(i, s') := match_prefix s pattern in
          pattern_count_loop fuel' s' pattern
            (if bool_decide (i = length pattern) then u64 (result + 1) else result)
      end
  end.

(** core/string.c:350-369 *)
Definition vtm_str_pattern_count (s pattern : bytes) : option Z :=
  pattern_count_loop (S (length s)) s pattern 0.

(** core/string.c:163-171 and 326-334: leading white space is skipped and the
    token ends at the next white space, where a NUL is stored. *)
Definition norm_token (tok : bytes) : bytes :=
  take_until isspace (skip_while isspace tok).

(** core/string.c:162-176.  [room] is the number of free slots of [buf]. *)
Fixpoint split_ex_loop (fuel : nat) (s delim : bytes) (room : Z) : option (list bytes) :=
  match fuel with
  | O => None
  | S fuel' =>
      match strtok_r s delim with
      | None => Some []
      | Some (tok, rest) =>
          if bool_decide (skip_while isspace tok = []) then split_ex_loop fuel' rest delim room
          else if 0 <? room then
                 toks ← split_ex_loop fuel' rest delim (room - 1);
                 Some (norm_token tok :: toks)
               else None
      end
  end.

(** core/string.c:136-185 *)
Definition vtm_str_split_ex (s delim : bytes) : option (Z * list bytes) :=
  n ← vtm_str_pattern_count s delim;
  toks ← split_ex_loop (S (length s)) s delim (n +sz 1);
  Some (VTM_OK, toks).

(** core/string.c:323-343 *)
Fixpoint list_contains_loop (fuel : nat) (s delim search : bytes) (nocase : bool)
    : option bool :=
  match fuel with
  | O => None
  | S fuel' =>
      match strtok_r s delim with
      | None => Some false
      | Some (tok, rest) =>
          let t := norm_token tok in
          if (nocase && (vtm_str_casecmp search t =? 0))
             || (negb nocase && strcmp_eq search t)
          then Some true
          else list_contains_loop fuel' rest delim search nocase
      end
  end.

(** core/string.c:311-348 *)
Definition vtm_str_list_contains (s delim search : bytes) (nocase : bool) : option bool :=
  list_contains_loop (S (length s)) s delim search nocase.

(** ** Trimming and searching *)

(** The loop at core/string.c:199-202: the text up to the last character that
    is not white space. *)
Fixpoint trim_end (s : bytes) : bytes :=
  match s with
  | [] => []
  | c :: s' => match trim_end s' with
               | [] => if isspace c then [] else [c]
               | t => c :: t
               end
  end.

(** core/string.c:187-209.  [begin] stays at the start if every character is
    white space, while [end] is then the terminating NUL. *)
Definition vtm_str_trim (s : bytes) : bytes :=
  match skip_while isspace s with
  | [] => s
  | s1 => trim_end s1
  end.

(** core/string.c:84-98.  [None] if [in] has less than [len] readable bytes. *)
Definition vtm_str_ncopy (s : bytes) (len : Z) : option bytes :=
  if (0 <=? len) && (len <=? zlen s) then Some (ztake len s) else None.

Fixpoint index_of_loop (s : bytes) (c : Z) (i len : Z) : Z :=
  match s with
  | [] => -1
  | x :: s' => if i <? len then if x =? c then i else index_of_loop s' c (i + 1) len
               else -1
  end.

(** core/string.c:247-260 *)
Definition vtm_str_index_of (s : bytes) (c len : Z) : Z :=
  if SSIZE_MAX <? len then -2 else index_of_loop s c 0 len.

Fixpoint index_chars_loop (s chars : bytes) (i : Z) : option (Z * Z) :=
  match s with
  | [] => None
  | c :: s' => if in_set chars c then Some (i, c) else index_chars_loop s' chars (i + 1)
  end.

(** core/string.c:262-285.  [s] is the memory [in .. in+len); the index and
    the character found. *)
Definition vtm_str_index_chars (s chars : bytes) : option (Z * Z) :=
  index_chars_loop s chars 0.

(** core/string.c:298-303.  [in[i-(begin-c)] != pattern[c]] for some [c]. *)
Fixpoint window_matches (s pattern : bytes) : bool :=
  match pattern, s with
  | [], _ => true
  | p :: pattern', c :: s' => (c =? p) && window_matches s' pattern'
  | _ :: _, [] => false
  end.

(** The search loop, at window position [i - begin]; [s] is the text from
    there on.  The read of [in[i]] precedes the test of [i]. *)
Fixpoint index_pattern_loop (s pattern : bytes) (pos input_len : Z) : option Z :=
  let beg := zlen pattern - 1 in
  match znth s beg with
  | None => if zlen s =? beg then Some (-1) else None
  | Some c =>
      if (c =? 0) || (input_len <=? pos + beg) then Some (-1)
      else if window_matches s pattern then Some pos
      else match s with
           | [] => None
           | _ :: s' => index_pattern_loop s' pattern (pos + 1) input_len
           end
  end.

(** core/string.c:287-309.  [None] if the terminating NUL is passed. *)
Definition vtm_str_index_pattern (s pattern : bytes) (input_len : Z) : option Z :=
  if SSIZE_MAX <? input_len then Some (-2)
  else index_pattern_loop s pattern 0 input_len.

(** Smoke tests taken from test/vtm/core/test_string.c. *)
Example test_contains :
  vtm_str_list_contains (cstr_of "deflate, gzip "%string) (cstr_of ","%string)
    (cstr_of "flate"%string) false = Some false /\
  vtm_str_list_contains (cstr_of "deflate, gzip "%string) (cstr_of ","%string)
    (cstr_of "gzip"%string) false = Some true.
Proof. split; reflexivity. Qed.

Example test_pattern_count :
  vtm_str_pattern_count (cstr_of "ABC BC CB"%string) (cstr_of "BC"%string) = Some 2.
Proof. reflexivity. Qed.

Example test_split_ex :
  vtm_str_split_ex (cstr_of "AB, CD ,EF , "%string) (cstr_of ","%string) =
    Some (VTM_OK, [cstr_of "AB"%string; cstr_of "CD"%string; cstr_of "EF"%string]).
Proof. reflexivity. Qed.

Example test_index_pattern :
  vtm_str_index_pattern (cstr_of "1234ABCD"%string) (cstr_of "ABCD"%string) 8 = Some 4.
Proof. reflexivity. Qed.

(** ** Lemmas *)

Lemma tolower_i8_inj c1 c2 :
  is_byte c1 -> is_byte c2 ->
  (tolower (i8 c1) =? tolower (i8 c2)) = (tolower c1 =? tolower c2).
Proof.
  assert (forall c, is_byte c -> i8 c = if c <? 128 then c else c - 256) as Hi8.
  { intros c Hc. apply Z.eqb_eq.
    by apply (check_below (fun c => i8 c =? if c <? 128 then c else c - 256) 256). }
  intros H1 H2. rewrite !Hi8 by done. unfold is_byte, tolower, isupper in *.
  apply eq_true_iff_eq. rewrite !Z.eqb_eq.
  repeat bcase; lia.
Qed.

Lemma cstr_byte s : is_cstr s -> Forall is_byte s.
Proof. unfold is_cstr, is_byte. intros H. eapply Forall_impl; [done |]. simpl. lia. Qed.

Lemma is_cstr_cons c s : is_cstr (c :: s) <-> 0 < c < 256 /\ is_cstr s.
Proof. unfold is_cstr. apply Forall_cons_iff. Qed.

Lemma vtm_str_casecmp_spec s1 s2 :
  is_cstr s1 -> is_cstr s2 ->
  vtm_str_casecmp s1 s2 = 0 <-> map tolower s1 = map tolower s2.
Proof.
  revert s2. induction s1 as [|c1 s1 IH]; intros s2 H1 H2.
  - destruct s2 as [|c2 s2]; [done |]. apply is_cstr_cons in H2 as [Hc2 _]. simpl.
    split; [|done]. intros E. exfalso.
    assert (is_byte c2) as Hb by (unfold is_byte; lia).
    assert (is_byte 0) as H0 by by vm_compute.
    pose proof (tolower_i8_inj 0 c2 H0 Hb) as T. change (i8 0) with 0 in T.
    assert ((tolower 0 =? tolower (i8 c2)) = true) as T' by (apply Z.eqb_eq; lia).
    rewrite T' in T. symmetry in T. apply Z.eqb_eq in T.
    unfold tolower, isupper in T. revert T. repeat bcase; lia.
  - apply is_cstr_cons in H1 as [Hc1 Hs1]. destruct s2 as [|c2 s2].
    + cbn [vtm_str_casecmp head default map]. change (default 0 None) with 0.
      split; [|done]. intros E. exfalso. revert E.
      rewrite Z.eqb_refl, orb_true_r.
      assert (is_byte c1) as Hb by (unfold is_byte; lia).
      assert (is_byte 0) as H0 by by vm_compute.
      pose proof (tolower_i8_inj c1 0 Hb H0) as T.
      destruct (Z.eqb_spec (tolower (i8 c1)) (tolower (i8 0))); [|lia].
      symmetry in T. apply Z.eqb_eq in T. intros _.
      unfold tolower, isupper in T. revert T. repeat bcase; lia.
    + apply is_cstr_cons in H2 as [Hc2 Hs2]. cbn [vtm_str_casecmp head tail map].
      change (default 0 (Some c2)) with c2.
      assert (is_byte c1 /\ is_byte c2) as [Hb1 Hb2] by (unfold is_byte; lia).
      pose proof (tolower_i8_inj c1 c2 Hb1 Hb2) as T.
      destruct (Z.eqb_spec c1 0), (Z.eqb_spec c2 0); try lia. cbn [orb].
      destruct (Z.eqb_spec (tolower (i8 c1)) (tolower (i8 c2))) as [E|E];
        symmetry in T; [apply Z.eqb_eq in T | apply Z.eqb_neq in T].
      * rewrite IH by done. rewrite T. split; [by intros -> | by intros [= ->]].
      * split; [lia | intros [= ? _]; done].
Qed.

(** Characters skipped and kept by the span functions. *)
Lemma skip_while_split p s :
  exists a, s = a ++ skip_while p s /\ Forall (fun c => p c = true) a /\
    match skip_while p s with [] => True | c :: _ => p c = false end.
Proof.
  induction s as [|c s (a & E & Ha & Hh)]; [by exists []; split_and!; constructor |]. cbn [skip_while].
  destruct (p c) eqn:Hc; [|exists []; by split_and!; [|constructor |]].
  exists (c :: a). split_and!; [simpl; congruence | by constructor | done].
Qed.

Lemma take_until_split p s :
  s = take_until p s ++ drop (length (take_until p s)) s /\
  Forall (fun c => p c = false) (take_until p s) /\
  match drop (length (take_until p s)) s with [] => True | c :: _ => p c = true end.
Proof.
  induction s as [|c s (E & Ha & Hh)]; [by split_and!; constructor |]. cbn [take_until].
  destruct (p c) eqn:Hc; [by split_and!; [|constructor |] |]. cbn [length drop app].
  split_and!; [by rewrite <- E | by constructor | done].
Qed.

Lemma trim_end_split s :
  exists b, s = trim_end s ++ b /\ Forall (fun c => isspace c = true) b /\
    match reverse (trim_end s) with [] => True | c :: _ => isspace c = false end.
Proof.
  induction s as [|c s (b & E & Hb & Hl)]; [by exists []; split_and!; constructor |]. cbn [trim_end].
  destruct (trim_end s) as [|t ts] eqn:Et.
  - destruct (isspace c) eqn:Hc.
    + exists (c :: b). rewrite app_nil_l in E. subst s.
      split_and!; [done | by constructor | done].
    + exists b. rewrite app_nil_l in E. by subst s.
  - exists b. split_and!; [by rewrite E at 1 | done |].
    rewrite reverse_cons. destruct (reverse (t :: ts)) as [|x l] eqn:Er.
    + by apply (f_equal length) in Er; rewrite length_reverse in Er.
    + done.
Qed.

(** *** Fields separated by one character: the specification of splitting *)

Fixpoint fields (d : Z) (s : bytes) : list bytes :=
  match s with
  | [] => [[]]
  | c :: s' =>
      if c =? d then [] :: fields d s'
      else match fields d s' with
           | f :: fs => (c :: f) :: fs
           | [] => [[c]]
           end
  end.

(** The non-empty fields: the tokens of strtok_r() for one delimiter. *)
Definition tokens_of (d : Z) (s : bytes) : list bytes :=
  filter (fun f => f <> []) (fields d s).

Lemma in_set_single d c : in_set [d] c = (c =? d).
Proof.
  unfold in_set. apply eq_true_iff_eq.
  rewrite bool_decide_eq_true, list_elem_of_singleton, Z.eqb_eq. done.
Qed.

Lemma fields_not_nil d s : fields d s <> [].
Proof. destruct s as [|c s]; simpl; [done |]. destruct (c =? d), (fields d s); done. Qed.

Lemma tokens_of_skip d s :
  tokens_of d s = tokens_of d (skip_while (in_set [d]) s).
Proof.
  induction s as [|c s IH]; [done |]. cbn [skip_while]. rewrite in_set_single.
  destruct (Z.eqb_spec c d) as [->|]; [|done]. rewrite <- IH.
  unfold tokens_of. cbn [fields]. rewrite Z.eqb_refl.
  by rewrite filter_cons_False by tauto.
Qed.

Lemma fields_take_until d s :
  fields d s = take_until (in_set [d]) s ::
    match drop (length (take_until (in_set [d]) s)) s with
    | [] => []
    | _ :: s' => fields d s'
    end.
Proof.
  induction s as [|c s IH]; [done |]. cbn [fields take_until]. rewrite in_set_single.
  destruct (Z.eqb_spec c d) as [->|]; [done |]. cbn [length drop]. by rewrite IH.
Qed.

Lemma take_until_nil p c s : p c = false -> take_until p (c :: s) <> [].
Proof. intros E. simpl. by rewrite E. Qed.

Lemma drop_S_tail (n : nat) (l : bytes) : drop (S n) l = tail (drop n l).
Proof.
  revert l. induction n as [|n IH]; intros [|x l]; [done | done | done | apply IH].
Qed.

(** One step of the scanner. *)
Lemma strtok_r_single d s :
  match strtok_r s [d] with
  | None => tokens_of d s = []
  | Some (tok, rest) => tok <> [] /\ tokens_of d s = tok :: tokens_of d rest /\
      (length rest < length s)%nat
  end.
Proof.
  rewrite tokens_of_skip. unfold strtok_r.
  destruct (skip_while_split (in_set [d]) s) as (a & E & _ & Hh).
  case_bool_decide as Hs; [by rewrite Hs |].
  destruct (skip_while (in_set [d]) s) as [|c s1]; [done |].
  pose proof (take_until_nil _ _ s1 Hh) as Ht.
  set (tok := take_until _ (c :: s1)) in *.
  split_and!; [done | |].
  - unfold tokens_of at 1. rewrite fields_take_until. fold tok.
    rewrite filter_cons_True by done. f_equal.
    rewrite drop_S_tail. by destruct (drop (length tok) (c :: s1)).
  - rewrite E, length_drop, length_app. simpl.
    destruct tok; [done |]. simpl. lia.
Qed.

(** *** The loops over the tokens of a single delimiter *)

Lemma list_contains_loop_single fuel s d search nocase :
  (length s < fuel)%nat ->
  list_contains_loop fuel s [d] search nocase =
    Some (existsb (fun tok =>
      if nocase then vtm_str_casecmp search (norm_token tok) =? 0
      else strcmp_eq search (norm_token tok)) (tokens_of d s)).
Proof.
  revert s. induction fuel as [|fuel IH]; intros s Hf; [lia |].
  cbn [list_contains_loop]. pose proof (strtok_r_single d s) as H.
  destruct (strtok_r s [d]) as [[tok rest]|]; [|by rewrite H].
  destruct H as (_ & -> & Hl). cbn [existsb].
  destruct nocase; cbn [andb negb]; rewrite ?orb_false_r; cbn [orb].
  - destruct (_ =? 0); [done |]. rewrite IH by lia. done.
  - destruct (strcmp_eq _ _); [done |]. rewrite IH by lia. done.
Qed.

(** Tokens that are not white space only, as [vtm_str_split_ex] stores them. *)
Definition ex_tokens (toks : list bytes) : list bytes :=
  norm_token <$> filter (fun tok => skip_while isspace tok <> []) toks.

Lemma split_ex_loop_single fuel s d room :
  (length s < fuel)%nat -> zlen (tokens_of d s) <= room ->
  split_ex_loop fuel s [d] room = Some (ex_tokens (tokens_of d s)).
Proof.
  revert s room. induction fuel as [|fuel IH]; intros s room Hf Hr; [lia |].
  cbn [split_ex_loop]. pose proof (strtok_r_single d s) as H.
  destruct (strtok_r s [d]) as [[tok rest]|]; [|by rewrite H].
  destruct H as (_ & Ht & Hl). rewrite Ht in *. rewrite zlen_cons in Hr.
  pose proof (zlen_nonneg (tokens_of d rest)). unfold ex_tokens.
  case_bool_decide as Hs.
  - rewrite filter_cons_False by tauto. apply IH; lia.
  - rewrite filter_cons_True by done. destruct (Z.ltb_spec 0 room); [|lia].
    by rewrite IH by lia.
Qed.

(** For one character the pattern count is the number of occurrences. *)
Definition occurrences (d : Z) (s : bytes) : Z := zlen (filter (fun c => c = d) s).

Lemma occurrences_cons d c s :
  occurrences d (c :: s) = (if c =? d then 1 else 0) + occurrences d s.
Proof.
  unfold occurrences. destruct (Z.eqb_spec c d).
  - by rewrite filter_cons_True, zlen_cons by done.
  - by rewrite filter_cons_False by done.
Qed.

Lemma occurrences_le d s : 0 <= occurrences d s <= zlen s.
Proof.
  induction s as [|c s IH]; [done |]. rewrite occurrences_cons, zlen_cons.
  destruct (c =? d); lia.
Qed.

Lemma pattern_count_single_loop fuel s d n :
  (length s < fuel)%nat -> 0 <= n -> n + zlen s <= SIZE_MAX ->
  pattern_count_loop fuel s [d] n = Some (n + occurrences d s).
Proof.
  revert s n. induction fuel as [|fuel IH]; intros s n Hf Hn Hm; [lia |].
  cbn [pattern_count_loop]. destruct s as [|c s].
  - apply (f_equal Some). change (occurrences d []) with 0. lia.
  - rewrite occurrences_cons. rewrite zlen_cons in Hm. simpl in Hf.
    pose proof (zlen_nonneg s). cbn [match_prefix].
    destruct (Z.eqb_spec c d); cbn [length].
    + replace (match_prefix s []) with (O, s) by by destruct s.
      rewrite bool_decide_true by done. rewrite u64_small by zlia.
      rewrite IH by lia. f_equal. lia.
    + rewrite bool_decide_false by done. rewrite IH by lia. f_equal.
Qed.

Lemma tokens_of_count d s : zlen (tokens_of d s) <= occurrences d s + 1.
Proof.
  assert (zlen (fields d s) = occurrences d s + 1) as <-.
  { induction s as [|c s IH]; [done |]. rewrite occurrences_cons. cbn [fields].
    destruct (c =? d); [rewrite zlen_cons; lia |].
    pose proof (fields_not_nil d s). destruct (fields d s); [done |].
    rewrite zlen_cons in *. lia. }
  unfold tokens_of, zlen. pose proof (length_filter (fun f : bytes => f <> []) (fields d s)).
  lia.
Qed.

Lemma vtm_str_split_ex_single s d :
  zlen s < SIZE_MAX ->
  vtm_str_split_ex s [d] = Some (VTM_OK, ex_tokens (tokens_of d s)).
Proof.
  intros Hs. unfold vtm_str_split_ex, vtm_str_pattern_count.
  pose proof (occurrences_le d s).
  rewrite pattern_count_single_loop by (zlia || lia).
  cbn [mbind option_bind]. rewrite Z.add_0_l, u64_small by zlia.
  rewrite split_ex_loop_single; [done | lia |].
  pose proof (tokens_of_count d s). lia.
Qed.

(** The remaining text gets shorter with every token, for any delimiters. *)
Lemma skip_while_length p s : (length (skip_while p s) <= length s)%nat.
Proof.
  destruct (skip_while_split p s) as (a & E & _). rewrite E at 2.
  rewrite length_app. lia.
Qed.

Lemma strtok_r_shorter s delim tok rest :
  strtok_r s delim = Some (tok, rest) -> (length rest < length s)%nat.
Proof.
  unfold strtok_r. case_bool_decide as Hs; [done |]. intros [= <- <-].
  pose proof (skip_while_length (in_set delim) s).
  destruct (skip_while (in_set delim) s) as [|c s1]; [done |].
  rewrite length_drop. simpl in *. lia.
Qed.

Lemma split_loop_total fuel s delim tokens count :
  (length s < fuel)%nat -> is_Some (split_loop fuel s delim tokens count).
Proof.
  revert s delim tokens. induction fuel as [|fuel IH]; intros s delim tokens Hf; [lia |].
  cbn [split_loop]. destruct (strtok_r s delim) as [[tok rest]|] eqn:E; [|done].
  apply strtok_r_shorter in E.
  destruct (IH rest (if (0 <? count) && (u32 (tokens + 1) =? count) then [] else delim)
              (u32 (tokens + 1))) as [toks ->]; [lia | done].
Qed.

Lemma strtok_r_no_delim s :
  strtok_r s [] = if bool_decide (s = []) then None else Some (s, []).
Proof.
  unfold strtok_r.
  assert (forall c, in_set [] c = false) as Hn.
  { intros c. apply bool_decide_eq_false. apply not_elem_of_nil. }
  destruct s as [|c s]; [done |]. cbn [skip_while]. rewrite Hn.
  rewrite !bool_decide_eq_false_2 by done.
  assert (take_until (in_set []) (c :: s) = c :: s) as ->.
  { induction (c :: s) as [|x l IH]; [done |]. cbn [take_until]. by rewrite Hn, IH. }
  by rewrite drop_ge by lia.
Qed.

(** The parts of a C string are C strings. *)
Lemma skip_while_cstr p s : is_cstr s -> is_cstr (skip_while p s).
Proof.
  intros Hs. destruct (skip_while_split p s) as (a & E & _).
  unfold is_cstr in *. rewrite E in Hs. by apply Forall_app in Hs as [_ ?].
Qed.

Lemma take_until_cstr p s : is_cstr s -> is_cstr (take_until p s).
Proof.
  intros Hs. destruct (take_until_split p s) as (E & _).
  unfold is_cstr in *. rewrite E in Hs. by apply Forall_app in Hs as [? _].
Qed.

Lemma fields_cstr s d : is_cstr s -> Forall is_cstr (fields d s).
Proof.
  induction s as [|c s IH]; intros Hs; [by repeat constructor |].
  apply is_cstr_cons in Hs as [Hc Hs]. specialize (IH Hs). simpl.
  pose proof (fields_not_nil d s). destruct (c =? d); [by constructor; [constructor |] |].
  destruct (fields d s); [done |]. inversion_clear IH.
  constructor; [by apply is_cstr_cons | done].
Qed.

Lemma norm_field_cstr s d :
  is_cstr s -> forall f, f ∈ fields d s -> is_cstr (norm_token f).
Proof.
  intros Hs f Hin. pose proof (fields_cstr s d Hs) as Hf. rewrite Forall_forall in Hf.
  unfold norm_token. auto using skip_while_cstr, take_until_cstr.
Qed.

(** ** Properties *)

(** [vtm_str_casecmp] yields 0 exactly for strings that are equal after
    ASCII case folding; the comparison is total on C strings, with bytes above
    127 read as negative [char] values. *)
Theorem casecmp_zero_iff s1 s2 :
  is_cstr s1 -> is_cstr s2 ->
  vtm_str_casecmp s1 s2 = 0 <-> map tolower s1 = map tolower s2.
Proof. apply vtm_str_casecmp_spec. Qed.

Lemma casecmp_zero_iff_witness :
  vtm_str_casecmp (cstr_of "Content-Length"%string) (cstr_of "content-LENGTH"%string) = 0 <->
  map tolower (cstr_of "Content-Length"%string) = map tolower (cstr_of "content-LENGTH"%string).
Proof.
  apply casecmp_zero_iff; vm_compute; repeat constructor; congruence.
Defined.

(** For a single delimiter character [vtm_str_split_ex] never stores
    behind its array, whose size it computes by counting the delimiter, and
    delivers the fields between the delimiters in order, without leading white
    space and cut at the next white space, leaving out blank ones. *)
Theorem split_ex_single_delimiter s d :
  zlen s < SIZE_MAX ->
  vtm_str_split_ex s [d] =
    Some (VTM_OK, norm_token <$> filter (fun f => skip_while isspace f <> []) (fields d s)).
Proof.
  intros Hs. rewrite vtm_str_split_ex_single by done. unfold ex_tokens, tokens_of.
  do 3 f_equal. induction (fields d s) as [|f fs IH]; [done |].
  destruct (decide (f = [])) as [->|Hf].
  - rewrite (filter_cons_False (fun f : bytes => f <> [])) by tauto.
    by rewrite filter_cons_False by (simpl; tauto).
  - rewrite (filter_cons_True (fun f : bytes => f <> [])) by done.
    rewrite !filter_cons. by case_decide; rewrite IH.
Qed.

Lemma split_ex_single_delimiter_witness :
  vtm_str_split_ex (cstr_of " a b,,c "%string) [44] =
    Some (VTM_OK, norm_token <$> filter (fun f => skip_while isspace f <> [])
                                   (fields 44 (cstr_of " a b,,c "%string))).
Proof. apply (split_ex_single_delimiter (cstr_of " a b,,c "%string) 44). by vm_compute. Defined.

(** Defects of [vtm_str_split_ex] and [vtm_str_pattern_count] for other
    delimiters: the array is sized by occurrences of the delimiter string while
    strtok_r() splits at each of its characters, so a third token of "a,b;c"
    is stored behind an array of one slot; for an empty delimiter the counting
    loop does not consume its input and never ends; and an occurrence that
    starts inside a failed match is not counted. *)
Theorem split_ex_other_delimiters :
  vtm_str_split_ex (cstr_of "a,b;c"%string) (cstr_of ",;"%string) = None /\
  vtm_str_pattern_count (cstr_of "a,b;c"%string) (cstr_of ",;"%string) = Some 0 /\
  (forall fuel c s n, pattern_count_loop fuel (c :: s) [] n = None) /\
  vtm_str_pattern_count (cstr_of "aab"%string) (cstr_of "ab"%string) = Some 0.
Proof.
  split_and!; [done | done | | done].
  induction fuel as [|fuel IH]; intros c s n; [done |]. apply IH.
Qed.

(** For a single delimiter character [vtm_str_list_contains], which the
    HTTP parser uses on header values, ends and answers whether one of the
    non-empty fields, stripped of white space, equals the searched string. *)
Theorem list_contains_single_delimiter s d search nocase :
  is_cstr s -> is_cstr search ->
  exists r, vtm_str_list_contains s [d] search nocase = Some r /\
    (r = true <-> exists f, f ∈ fields d s /\ f <> [] /\
       if nocase then map tolower search = map tolower (norm_token f)
       else search = norm_token f).
Proof.
  intros Hs Hse. unfold vtm_str_list_contains.
  rewrite list_contains_loop_single by lia. eexists. split; [done |].
  pose proof (norm_field_cstr s d Hs) as Hcs.
  rewrite existsb_exists. unfold tokens_of. split.
  - intros (f & Hin & Hb). apply list_elem_of_In, list_elem_of_filter in Hin as [Hne Hin].
    exists f. split_and!; [done | done |]. destruct nocase.
    + apply vtm_str_casecmp_spec; auto. by apply Z.eqb_eq.
    + by apply bool_decide_eq_true in Hb.
  - intros (f & Hin & Hne & Hb). exists f. split.
    + by apply list_elem_of_In, list_elem_of_filter.
    + destruct nocase; [apply Z.eqb_eq, vtm_str_casecmp_spec; auto |].
      by apply bool_decide_eq_true.
Qed.

Lemma list_contains_single_delimiter_witness :
  exists r, vtm_str_list_contains (cstr_of "gzip, Chunked"%string) [44]
      (cstr_of "chunked"%string) true = Some r /\
    (r = true <-> exists f, f ∈ fields 44 (cstr_of "gzip, Chunked"%string) /\ f <> [] /\
       map tolower (cstr_of "chunked"%string) = map tolower (norm_token f)).
Proof.
  apply (list_contains_single_delimiter (cstr_of "gzip, Chunked"%string) 44
    (cstr_of "chunked"%string) true); vm_compute; repeat constructor; congruence.
Defined.

(** [vtm_str_trim] removes exactly the white space at both ends of a
    string with another character; a string of white space only is returned
    unchanged, because [begin] is never advanced then. *)
Theorem trim_spec s :
  (exists c, c ∈ s /\ isspace c = false) /\
    (exists a b, s = a ++ vtm_str_trim s ++ b /\
       Forall (fun c => isspace c = true) a /\ Forall (fun c => isspace c = true) b /\
       vtm_str_trim s <> [] /\
       from_option isspace true (head (vtm_str_trim s)) = false /\
       from_option isspace true (last (vtm_str_trim s)) = false)
  \/ Forall (fun c => isspace c = true) s /\ vtm_str_trim s = s.
Proof.
  unfold vtm_str_trim. destruct (skip_while_split isspace s) as (a & E & Ha & Hh).
  destruct (skip_while isspace s) as [|c s1].
  - right. split; [|done]. by rewrite E, app_nil_r.
  - left. split; [exists c; rewrite E; split; [set_solver | done] |].
    destruct (trim_end_split (c :: s1)) as (b & Eb & Hb & Hl).
    assert (exists t, trim_end (c :: s1) = c :: t) as [t Et].
    { cbn [trim_end]. destruct (trim_end s1); [rewrite Hh |]; eauto. }
    exists a, b. rewrite E, Eb at 1. rewrite Et in *.
    split_and!; [done | done | done | done | done |].
    rewrite <- head_reverse. destruct (reverse (c :: t)) eqn:Er; [|done].
    by apply (f_equal length) in Er; rewrite length_reverse in Er.
Qed.

(** [vtm_str_split] ends for all delimiters; with a limit of one token, as
    the configuration reader uses it, it delivers two tokens: the text before
    the first delimiter and the whole rest, one more than the limit that the
    documentation calls the maximum number of tokens. *)
Theorem split_limit_one s d key rest :
  is_cstr key -> key <> [] -> d ∉ key -> rest <> [] -> s = key ++ d :: rest ->
  vtm_str_split s [d] 1 = Some [key; rest] /\
  (forall delim count, is_Some (vtm_str_split s delim count)).
Proof.
  intros Hk Hne Hd Hr ->. split.
  2: { intros. apply split_loop_total. lia. }
  assert (strtok_r (key ++ d :: rest) [d] = Some (key, rest)) as E.
  { unfold strtok_r.
    assert (skip_while (in_set [d]) (key ++ d :: rest) = key ++ d :: rest) as ->.
    { destruct key as [|k key]; [done |]. simpl. rewrite in_set_single.
      destruct (Z.eqb_spec k d); [set_solver | done]. }
    rewrite bool_decide_eq_false_2 by by destruct key.
    assert (take_until (in_set [d]) (key ++ d :: rest) = key) as ->.
    { clear -Hd. induction key as [|k key IH]; simpl; rewrite in_set_single.
      - by rewrite Z.eqb_refl.
      - destruct (Z.eqb_spec k d); [set_solver |]. rewrite IH by set_solver. done. }
    by rewrite drop_S_tail, drop_app_length. }
  unfold vtm_str_split. rewrite length_app. simpl length.
  rewrite <- plus_n_Sm. cbn [split_loop]. rewrite E.
  change ((0 <? 1) && (u32 (0 + 1) =? 1)) with true. cbv iota.
  rewrite strtok_r_no_delim, bool_decide_eq_false_2 by done.
  destruct (length key + length rest)%nat eqn:El; [by destruct key |].
  by simpl.
Qed.

Lemma split_limit_one_witness :
  vtm_str_split (cstr_of "key=a=b"%string) [61] 1 =
    Some [cstr_of "key"%string; cstr_of "a=b"%string] /\
  (forall delim count, is_Some (vtm_str_split (cstr_of "key=a=b"%string) delim count)).
Proof.
  apply (split_limit_one _ 61 (cstr_of "key"%string) (cstr_of "a=b"%string));
    [by repeat constructor | done | | done | done].
  vm_compute. intros H. repeat (apply elem_of_cons in H as [H|H]; [congruence |]).
  by apply elem_of_nil in H.
Defined.
