(* ===== verification/Url.v ===== *)
(** * Url: parsing of URLs and percent coding, net/url.c

    Pointers into the input are the suffixes of the input they point to.  The
    coding functions return the code and the bytes stored at [buf]. *)

From S2P Require Import Prelude Base Str Format.

(** net/url.h:23-27 [enum vtm_url_scheme] *)
Inductive vtm_url_scheme := VTM_URL_SCHEME_HTTPS | VTM_URL_SCHEME_HTTP.

#[global] Instance vtm_url_scheme_eq_dec : EqDecision vtm_url_scheme.
Proof. solve_decision. Defined.

(** net/url.h:29-35 [struct vtm_url].  NULL strings are [None]. *)
Record vtm_url := mk_url {
  url_scheme : vtm_url_scheme;
  url_host : option bytes;
  url_path : option bytes;
  url_port : Z
}.

(** net/url.c:12-16 *)
Definition VTM_URL_SCHEMES : list (bytes * vtm_url_scheme) :=
  [(cstr_of "https"%string, VTM_URL_SCHEME_HTTPS);
   (cstr_of "http"%string, VTM_URL_SCHEME_HTTP)].

(** net/url.c:41-48.  The first scheme that is a prefix of the input. *)
Fixpoint find_scheme (str : bytes) (schemes : list (bytes * vtm_url_scheme))
    : option (bytes * vtm_url_scheme) :=
  match schemes with
  | [] => None
  | (name, idx) :: schemes' =>
      if vtm_str_starts_with str name then Some (name, idx) else find_scheme str schemes'
  end.

(** The first slash and the first colon before it, as offsets. *)
Record scan_state := mk_scan { first_slash : option Z; first_colon : option Z }.

(** net/url.c:68-88 *)
Fixpoint url_scan (cur : bytes) (off : Z) (st : scan_state) : scan_state :=
  match cur with
  | [] => st
  | c :: cur' =>
      url_scan cur' (off + 1)
        (if c =? 58 then
           match first_colon st, first_slash st with
           | None, None => mk_scan (first_slash st) (Some off)
           | _, _ => st
           end
         else if c =? 47 then
           match first_slash st with
           | None => mk_scan (Some off) (first_colon st)
           | _ => st
           end
         else st)
  end.

(** net/url.c:130-154.  The digits behind the colon; [cnt] counts the
    characters looked at, the terminating one included. *)
Fixpoint port_loop (s : bytes) (port cnt : Z) : option (Z * Z) :=
  match s with
  | c :: s' =>
      if isdigit c then
        let port' := u32 (u32 (u32 (port * 10) + c) - 48) in
        if port' <? port then None else port_loop s' port' (u32 (cnt + 1))
      else Some (port, u32 (cnt + 1))
  | [] => Some (port, u32 (cnt + 1))
  end.

(** net/url.c:118-177.  [url->port] is 0 before the call. *)
Definition vtm_url_parse_port (colon : option bytes) (scheme : vtm_url_scheme)
    : Z * Z :=
  match colon with
  | Some s =>
      match port_loop (tail s) 0 0 with
      | None => (VTM_E_INVALID_ARG, 0)
      | Some (port, cnt) => if cnt =? 0 then (VTM_E_INVALID_ARG, port) else (VTM_OK, port)
      end
  | None =>
      (VTM_OK, match scheme with
               | VTM_URL_SCHEME_HTTP => 80
               | VTM_URL_SCHEME_HTTPS => 443
               end)
  end.

(** net/url.c:22-110.  On an error the url keeps what was stored so far; the
    model returns no url then. *)
Definition vtm_url_parse (str : bytes) : Z * option vtm_url :=
  match find_scheme str VTM_URL_SCHEMES with
  | None => (VTM_E_NOT_SUPPORTED, None)
  | Some (name, scheme) =>
      let cur := zdrop (zlen name) str in
      if negb (default 0 (head cur) =? 58) then (VTM_E_INVALID_ARG, None)
      else if negb (default 0 (znth cur 1) =? 47) then (VTM_E_NOT_SUPPORTED, None)
      else if negb (default 0 (znth cur 2) =? 47) then (VTM_E_NOT_SUPPORTED, None)
      else
        let host_begin := zdrop 3 cur in
        let st := url_scan host_begin 0 (mk_scan None None) in
        let '(rc, port) :=
          vtm_url_parse_port ((fun o => zdrop o host_begin) <$> first_colon st) scheme in
        if negb (rc =? VTM_OK) then (rc, None)
        else
          let host :=
            match first_colon st, first_slash st with
            | None, None => Some host_begin
            | Some e, _ | None, Some e => vtm_str_ncopy host_begin e
            end in
          let path := (fun o => zdrop o host_begin) <$> first_slash st in
          (VTM_OK, Some (mk_url scheme host path port))
  end.

(** ** Percent coding *)

(** net/url.c:189-191.  Characters that are not encoded. *)
Definition url_unreserved (c : Z) : bool :=
  ((65 <=? c) && (c <=? 90)) || ((97 <=? c) && (c <=? 122)) || ((48 <=? c) && (c <=? 57))
  || (c =? 46) || (c =? 45) || (c =? 95) || (c =? 126).

(** The loop and the terminator; [idx] bytes are stored already. *)
Fixpoint url_encode_loop (s : bytes) (idx len : Z) : Z * bytes :=
  match s with
  | c :: s' =>
      if url_unreserved c then
        if len <=? idx then (VTM_E_MAX_REACHED, [])
        else let '(rc, out) := url_encode_loop s' (idx + 1) len in (rc, c :: out)
      else if len <=? idx + 2 then (VTM_E_MAX_REACHED, [])
      else
        let '(rc, out) := url_encode_loop s' (idx + 3) len in
        (rc, [37; hexchar VTM_HEX_CHARS (Z.shiftr c 4); hexchar VTM_HEX_CHARS (Z.land c 0x0f)]
             ++ out)
  | [] => if len <=? idx then (VTM_E_MAX_REACHED, []) else (VTM_OK, [0])
  end.

(** net/url.c:179-213 *)
Definition vtm_url_encode (s : bytes) (len : Z) : Z * bytes := url_encode_loop s 0 len.

(** net/url.c:260-278 *)
Definition vtm_get_hexchar_value (hex : Z) : Z * option Z :=
  if (48 <=? hex) && (hex <=? 57) then (VTM_OK, Some (hex - 48))
  else if (65 <=? hex) && (hex <=? 70) then (VTM_OK, Some (10 + hex - 65))
  else if (97 <=? hex) && (hex <=? 102) then (VTM_OK, Some (10 + hex - 97))
  else (VTM_E_INVALID_ARG, None).

Fixpoint url_decode_loop (s : bytes) (idx len : Z) : Z * bytes :=
  match s with
  | c :: s' =>
      if len <=? idx then (VTM_E_MAX_REACHED, [])
      else if negb (c =? 37) then
        let '(rc, out) := url_decode_loop s' (idx + 1) len in (rc, c :: out)
      else
        match s' with
        | h :: l :: s'' =>
            match vtm_get_hexchar_value h, vtm_get_hexchar_value l with
            | (_, Some c1), (_, Some t) =>
                let '(rc, out) := url_decode_loop s'' (idx + 1) len in
                (rc, u8 (Z.shiftl c1 4 + t) :: out)
            | _, _ => (VTM_E_INVALID_ARG, [])
            end
        | _ => (VTM_E_INVALID_ARG, [])
        end
  | [] => if len <=? idx then (VTM_E_MAX_REACHED, []) else (VTM_OK, [0])
  end.

(** net/url.c:215-258 *)
Definition vtm_url_decode (s : bytes) (len : Z) : Z * bytes := url_decode_loop s 0 len.

(** ** Specification *)

(** The encoded text of a string, without the NUL. *)
Fixpoint url_encoded (s : bytes) : bytes :=
  match s with
  | [] => []
  | c :: s' =>
      (if url_unreserved c then [c]
       else [37; hexchar VTM_HEX_CHARS (c / 16); hexchar VTM_HEX_CHARS (c mod 16)])
      ++ url_encoded s'
  end.

Definition scheme_name (scheme : vtm_url_scheme) : bytes :=
  match scheme with
  | VTM_URL_SCHEME_HTTPS => cstr_of "https"%string
  | VTM_URL_SCHEME_HTTP => cstr_of "http"%string
  end.

(** A URL as text; [port] is written only if given. *)
Definition url_text (scheme : vtm_url_scheme) (host : bytes) (port : option bytes)
    (path : option bytes) : bytes :=
  scheme_name scheme ++ cstr_of "://"%string ++ host
  ++ from_option (cons 58) [] port ++ default [] path.

(** ** Lemmas: percent coding *)

Lemma vtm_get_hexchar_value_hexval h :
  (vtm_get_hexchar_value h).2 = hexval h.
Proof.
  unfold vtm_get_hexchar_value, hexval, isdigit.
  repeat bcase; simpl; try apply (f_equal Some); lia || done.
Qed.

Lemma hexchar_range t d :
  t = VTM_HEX_CHARS -> 0 <= d < 16 -> 0 < hexchar t d < 256.
Proof.
  intros -> Hd.
  pose proof (check_below (fun d => (0 <? hexchar VTM_HEX_CHARS d)
    && (hexchar VTM_HEX_CHARS d <? 256)) 16 d eq_refl Hd) as H. simpl in H. bsplit. done.
Qed.

Lemma url_encode_loop_spec s idx len :
  Forall is_byte s -> 0 <= idx ->
  (idx + zlen (url_encoded s) < len /\
     url_encode_loop s idx len = (VTM_OK, url_encoded s ++ [0])) \/
  (len <= idx + zlen (url_encoded s) /\
     exists out, url_encode_loop s idx len = (VTM_E_MAX_REACHED, out) /\
       (out = [] \/ idx + zlen out <= len)).
Proof.
  intros Hs. revert idx. induction Hs as [|c s Hc Hs IH]; intros idx Hidx.
  - simpl. change (zlen (A:=Z) []) with 0. destruct (Z.leb_spec len idx).
    + right. split; [lia |]. exists []. auto.
    + left. split; [lia | done].
  - cbn [url_encode_loop url_encoded]. rewrite shiftr_div, land_0x0f by lia.
    change (2 ^ 4) with 16. pose proof (zlen_nonneg (url_encoded s)).
    destruct (url_unreserved c); rewrite zlen_app.
    + change (zlen [c]) with 1. destruct (Z.leb_spec len idx).
      { right. split; [lia |]. exists []. auto. }
      destruct (IH (idx + 1)) as [(Hlt & ->) | (Hge & out & -> & Ho)]; [lia | |].
      * left. split; [lia | done].
      * right. split; [lia |]. eexists. split; [done |]. right. rewrite zlen_cons.
        destruct Ho as [-> | Ho]; [change (zlen (A:=Z) []) with 0 |]; lia.
    + change (zlen [37; _; _]) with 3. destruct (Z.leb_spec len (idx + 2)).
      { right. split; [lia |]. exists []. auto. }
      destruct (IH (idx + 3)) as [(Hlt & ->) | (Hge & out & -> & Ho)]; [lia | |].
      * left. split; [lia | done].
      * right. split; [lia |]. eexists. split; [done |]. right. rewrite zlen_app.
        change (zlen [37; _; _]) with 3.
        destruct Ho as [-> | Ho]; [change (zlen (A:=Z) []) with 0 |]; lia.
Qed.

Lemma url_decode_loop_encoded s idx len :
  Forall is_byte s -> 0 <= idx -> idx + zlen s < len ->
  url_decode_loop (url_encoded s) idx len = (VTM_OK, s ++ [0]).
Proof.
  intros Hs. revert idx. induction Hs as [|c s Hc Hs IH]; intros idx Hidx Hlen.
  - simpl. change (zlen (A:=Z) []) with 0 in Hlen. destruct (Z.leb_spec len idx); [lia | done].
  - cbn [url_encoded]. rewrite zlen_cons in Hlen. pose proof (zlen_nonneg s).
    destruct (url_unreserved c) eqn:Hu; cbn [app url_decode_loop];
      (destruct (Z.leb_spec len idx); [lia |]).
    + destruct (Z.eqb_spec c 37) as [->|]; [done |]. cbn [negb].
      rewrite IH by lia. done.
    + cbn [Z.eqb Pos.eqb negb].
      unfold is_byte in Hc.
      pose proof (vtm_get_hexchar_value_hexval (hexchar VTM_HEX_CHARS (c / 16))) as H1.
      pose proof (vtm_get_hexchar_value_hexval (hexchar VTM_HEX_CHARS (c mod 16))) as H2.
      rewrite hexval_hexchar in H1, H2 by (auto; dlia).
      destruct (vtm_get_hexchar_value _) as [rc1 v1], (vtm_get_hexchar_value _) as [rc2 v2].
      simpl in H1, H2. subst v1 v2. rewrite IH by lia.
      assert (u8 (Z.shiftl (c / 16) 4 + c mod 16) = c) as ->; [|done].
      rewrite shiftl_mul by lia. unfold u8. rewrite wrap_small; dlia.
Qed.

Lemma url_decode_loop_bound s idx len rc out :
  0 <= idx -> url_decode_loop s idx len = (rc, out) ->
  out = [] \/ idx + zlen out <= len.
Proof.
  assert (exists k, (length s <= k)%nat) as [k Hk] by eauto.
  revert s Hk idx rc out. induction k as [|k IH]; intros s Hk idx rc out Hidx.
  - destruct s; [|simpl in Hk; lia]. cbn [url_decode_loop].
    destruct (Z.leb_spec len idx); intros [= <- <-]; [by left | right].
    change (zlen [0]) with 1. lia.
  - destruct s as [|c s]; cbn [url_decode_loop].
    { destruct (Z.leb_spec len idx); intros [= <- <-]; [by left | right].
      change (zlen [0]) with 1. lia. }
    destruct (Z.leb_spec len idx); [intros [= <- <-]; by left |].
    assert (forall r x, (length r <= k)%nat -> forall rc out,
      (let '(rc, out) := url_decode_loop r (idx + 1) len in (rc, x :: out)) = (rc, out) ->
      out = [] \/ idx + zlen out <= len) as Hstep.
    { intros r x Hr rc' out'. destruct (url_decode_loop r (idx + 1) len) eqn:E.
      intros [= <- <-]. right. rewrite zlen_cons.
      apply IH in E; [|done |lia].
      destruct E as [-> | E]; [change (zlen (A:=Z) []) with 0 |]; lia. }
    simpl in Hk. destruct (negb (c =? 37)); [apply Hstep; lia |].
    destruct s as [|h [|l s]]; [intros [= <- <-]; by left.. |].
    destruct (vtm_get_hexchar_value h) as [? [v1|]], (vtm_get_hexchar_value l) as [? [v2|]];
      try (intros [= <- <-]; by left).
    apply Hstep. simpl in Hk. lia.
Qed.

(** ** Lemmas: parsing *)

(** A character that does not delimit the host. *)
Definition url_plain (c : Z) : bool := negb (c =? 58) && negb (c =? 47).

Lemma url_scan_plain h r off st :
  forallb url_plain h = true ->
  url_scan (h ++ r) off st = url_scan r (off + zlen h) st.
Proof.
  revert off. induction h as [|c h IH]; intros off Hh.
  - change (zlen (A:=Z) []) with 0. by rewrite Z.add_0_r.
  - cbn [forallb] in Hh. unfold url_plain at 1 in Hh. bsplit.
    cbn [app url_scan]. destruct (Z.eqb_spec c 58); [lia |].
    destruct (Z.eqb_spec c 47); [lia |]. rewrite IH by done. f_equal. rewrite zlen_cons. lia.
Qed.

Lemma url_scan_done s off a b :
  url_scan s off (mk_scan (Some a) b) = mk_scan (Some a) b.
Proof.
  revert off. induction s as [|c s IH]; intros off; [done |].
  cbn [url_scan first_slash first_colon].
  destruct (c =? 58), b; try destruct (c =? 47); apply IH.
Qed.

Lemma url_scan_path p off b :
  p = [] \/ head p = Some 47 ->
  url_scan p off (mk_scan None b) =
  mk_scan (if bool_decide (p = []) then None else Some off) b.
Proof.
  intros [-> | Hp]; [done |]. destruct p as [|c p]; [done |].
  injection Hp as ->. cbn [url_scan Z.eqb Pos.eqb first_slash]. apply url_scan_done.
Qed.

Lemma digits_plain ds : forallb isdigit ds = true -> forallb url_plain ds = true.
Proof.
  rewrite !forallb_forall. intros H c Hc. specialize (H c Hc).
  unfold isdigit in H. unfold url_plain. bsplit. apply andb_true_intro.
  split; apply negb_true_iff, Z.eqb_neq; lia.
Qed.

Lemma num_val_ge ds acc v :
  0 <= acc -> num_val 10 acc ds = Some v -> acc <= v.
Proof.
  revert acc. induction ds as [|c ds IH]; intros acc Hacc; cbn [num_val]; [intros [= ->]; lia |].
  destruct (hexval c) as [d|] eqn:Hd; cbn [mbind option_bind]; [|done].
  destruct (Z.ltb_spec d 10); [|done]. intros Hv. 
  assert (0 <= d).
  { revert Hd. unfold hexval, isdigit. repeat bcase; intros [= <-]; lia. }
  apply IH in Hv; lia.
Qed.

Lemma port_loop_value ds p acc cnt v :
  forallb isdigit ds = true -> isdigit (default 0 (head p)) = false ->
  0 <= acc -> num_val 10 acc ds = Some v -> v <= UINT_MAX ->
  port_loop (ds ++ p) acc cnt = Some (v, u32 (cnt + zlen ds + 1)).
Proof.
  intros Hds Hp. revert acc cnt. induction ds as [|c ds IH]; intros acc cnt Hacc Hv Hmax.
  - injection Hv as ->. change (zlen (A:=Z) []) with 0. rewrite Z.add_0_r.
    destruct p as [|c p]; [done |]. simpl in Hp |- *. by rewrite Hp.
  - cbn [forallb] in Hds. bsplit. cbn [num_val] in Hv. unfold hexval in Hv.
    rewrite H in Hv. cbn [mbind option_bind] in Hv.
    unfold isdigit in H. bsplit. destruct (Z.ltb_spec (c - 48) 10); [|done].
    assert (acc * 10 + (c - 48) <= v) by (eapply num_val_ge; [|exact Hv]; lia).
    unfold UINT_MAX in *.
    cbn [app port_loop]. unfold isdigit.
    destruct (Z.leb_spec 48 c), (Z.leb_spec c 57); try lia. cbn [andb].
    assert (u32 (u32 (u32 (acc * 10) + c) - 48) = acc * 10 + (c - 48)) as ->.
    { unfold u32, wrap. dlia. }
    destruct (Z.ltb_spec (acc * 10 + (c - 48)) acc); [lia |].
    rewrite IH by (done || lia). f_equal. f_equal.
    rewrite zlen_cons. unfold u32, wrap. rewrite <- !Z.add_assoc, Zplus_mod_idemp_l.
    f_equal. lia.
Qed.

Lemma vtm_str_ncopy_app h r : vtm_str_ncopy (h ++ r) (zlen h) = Some h.
Proof.
  unfold vtm_str_ncopy. pose proof (zlen_nonneg h). pose proof (zlen_nonneg r).
  destruct (Z.leb_spec 0 (zlen h)); [|lia].
  destruct (Z.leb_spec (zlen h) (zlen (h ++ r))); [|rewrite zlen_app in *; lia].
  simpl. by rewrite ztake_app_exact.
Qed.

Lemma url_encoded_cstr s : is_cstr s -> is_cstr (url_encoded s).
Proof.
  induction 1 as [|c s Hc Hs IH]; [constructor |]. cbn [url_encoded].
  apply Forall_app. split; [|done].
  destruct (url_unreserved c); repeat constructor; try lia; apply hexchar_range; auto; dlia.
Qed.

(** A port as it is written, and the port a URL without one has. *)
Definition port_ok (ds : bytes) (v : Z) : Prop :=
  forallb isdigit ds = true /\ zlen ds < UINT_MAX /\ num_val 10 0 ds = Some v /\ v <= UINT_MAX.

Lemma vtm_url_parse_port_value scheme ds v rest :
  port_ok ds v -> isdigit (default 0 (head rest)) = false ->
  vtm_url_parse_port (Some (58 :: ds ++ rest)) scheme = (VTM_OK, v).
Proof.
  intros (Hds & Hlen & Hv & Hmax) Hr. cbn [vtm_url_parse_port tail].
  rewrite (port_loop_value _ _ _ _ v) by done.
  pose proof (zlen_nonneg ds). unfold UINT_MAX in *.
  assert (u32 (0 + zlen ds + 1) = zlen ds + 1) as -> by (unfold u32, wrap; apply Z.mod_small; lia).
  destruct (Z.eqb_spec (zlen ds + 1) 0); [lia | done].
Qed.

Definition default_port (scheme : vtm_url_scheme) : Z :=
  match scheme with VTM_URL_SCHEME_HTTP => 80 | VTM_URL_SCHEME_HTTPS => 443 end.

Lemma find_scheme_name scheme s :
  find_scheme (scheme_name scheme ++ 58 :: s) VTM_URL_SCHEMES = Some (scheme_name scheme, scheme).
Proof. by destruct scheme. Qed.

(** ** Properties *)

(** C34: Parsing.  The text of an URL - scheme, host without colon and slash,
    an optional decimal port of at most 32 bits, an optional path that begins
    with a slash and may hold any further characters - is parsed to exactly
    these parts; the port of an URL without one is that of the scheme. *)
Theorem url_parse_text scheme host port path
    (Hhost : forallb url_plain host = true)
    (Hport : from_option (fun p => port_ok p.1 p.2) True port)
    (Hpath : from_option (fun p => head p = Some 47) True path) :
  vtm_url_parse (url_text scheme host (fst <$> port) path) =
  (VTM_OK, Some (mk_url scheme (Some host) path
                   (from_option snd (default_port scheme) port))).
Proof.
  set (p := default [] path).
  assert (p = [] \/ head p = Some 47) as Hp by (destruct path; [by right | by left]).
  unfold vtm_url_parse, url_text.
  change (cstr_of "://"%string) with [58; 47; 47]. cbn [app].
  rewrite find_scheme_name, zdrop_app_exact by done.
  cbn [head default Z.eqb Pos.eqb negb znth Z.ltb Z.compare].
  change (znth (58 :: 47 :: 47 :: _) 1) with (Some 47).
  change (znth (58 :: 47 :: 47 :: _) 2) with (Some 47).
  change (zdrop 3 (58 :: 47 :: 47 :: ?s)) with s. cbn [default Z.eqb Pos.eqb negb].
  rewrite url_scan_plain by done. fold p. rewrite Z.add_0_l.
  assert ((fun o => zdrop o (host ++ p)) <$>
    (if bool_decide (p = []) then None else Some (zlen host)) = path) as Epath.
  { case_bool_decide as E; subst p; destruct path as [q|]; simpl in *; try done.
    - by subst.
    - by rewrite zdrop_app_exact. }
  destruct port as [[ds v]|]; cbn [from_option fst snd fmap option_fmap option_map] in *.
  - pose proof Hport as [Hds _]. cbn [app].
    cbn [url_scan Z.eqb Pos.eqb first_slash first_colon].
    rewrite url_scan_plain, url_scan_path by (done || by apply digits_plain).
    cbn [first_slash first_colon fmap option_fmap option_map].
    rewrite zdrop_app_exact, (vtm_url_parse_port_value _ _ v)
      by (done || by destruct Hp as [-> | ->]). cbn [negb Z.eqb].
    rewrite vtm_str_ncopy_app.
    assert ((fun o => zdrop o (host ++ 58 :: ds ++ p)) <$>
      (if bool_decide (p = []) then None else Some (zlen host + 1 + zlen ds)) = path) as ->;
      [| done].
    case_bool_decide as E; subst p; destruct path as [q|]; simpl in *; try done.
    rewrite app_comm_cons, app_assoc, zdrop_app_exact; [done |].
    rewrite zlen_app, zlen_cons. lia.
  - cbn [app]. rewrite url_scan_path by done. cbn [first_slash first_colon fmap option_fmap option_map].
    cbn [vtm_url_parse_port negb Z.eqb]. fold (default_port scheme). rewrite Epath.
    case_bool_decide as E; [by rewrite E, app_nil_r |]. by rewrite vtm_str_ncopy_app.
Qed.

Lemma url_parse_text_witness :
  vtm_url_parse (cstr_of "https://example.org:8443/a:b/c"%string) =
  (VTM_OK, Some (mk_url VTM_URL_SCHEME_HTTPS (Some (cstr_of "example.org"%string))
     (Some (cstr_of "/a:b/c"%string)) 8443)).
Proof.
  apply (url_parse_text VTM_URL_SCHEME_HTTPS (cstr_of "example.org"%string)
    (Some (cstr_of "8443"%string, 8443)) (Some (cstr_of "/a:b/c"%string)));
    [reflexivity | | reflexivity].
  repeat split; reflexivity || (vm_compute; congruence).
Defined.

(** Percent coding.  For a buffer of [len] bytes and any string the
    encoder succeeds exactly if the encoded text and its NUL fit, never stores
    behind the buffer, and decoding what it stored - with room for the string
    and its NUL - gives the string back. *)
Theorem url_percent_roundtrip s len
    (Hs : is_cstr s) (Hlen : is_size len) :
  exists rc out, vtm_url_encode s len = (rc, out) /\ zlen out <= len /\
    (rc = VTM_OK <-> zlen (url_encoded s) < len) /\
    (rc = VTM_OK -> exists text, out = text ++ [0] /\ is_cstr text /\
       forall len', zlen s < len' -> vtm_url_decode text len' = (VTM_OK, s ++ [0])).
Proof.
  assert (Forall is_byte s) as Hb.
  { eapply Forall_impl; [exact Hs |]. unfold is_byte. simpl. lia. }
  destruct (url_encode_loop_spec s 0 len Hb ltac:(lia)) as [(Hlt & E) | (Hge & out & E & Ho)].
  - exists VTM_OK, (url_encoded s ++ [0]). split; [done |].
    rewrite zlen_app. change (zlen [0]) with 1. split_and!; [lia | split; [lia | done] |].
    intros _. exists (url_encoded s). split_and!; [done | by apply url_encoded_cstr |].
    intros len' Hl. apply url_decode_loop_encoded; [done | lia | lia].
  - exists VTM_E_MAX_REACHED, out. split; [done |]. unfold is_size in Hlen.
    split_and!; [| split; [done | lia] | done].
    destruct Ho as [-> | Ho]; [change (zlen (A:=Z) []) with 0 |]; lia.
Qed.

Lemma url_percent_roundtrip_witness :
  exists rc out, vtm_url_encode (cstr_of "a b/c"%string) 10 = (rc, out) /\ zlen out <= 10 /\
    (rc = VTM_OK <-> zlen (url_encoded (cstr_of "a b/c"%string)) < 10) /\
    (rc = VTM_OK -> exists text, out = text ++ [0] /\ is_cstr text /\
       forall len', zlen (cstr_of "a b/c"%string) < len' ->
         vtm_url_decode text len' = (VTM_OK, cstr_of "a b/c"%string ++ [0])).
Proof.
  apply (url_percent_roundtrip (cstr_of "a b/c"%string) 10).
  - by vm_compute; repeat constructor.
  - vm_compute; split; discriminate.
Defined.

(** Defects of the port parser.  An empty port is accepted as port 0: the
    counter that should detect it counts the terminating character too.
    Characters behind the digits are ignored, so "80x" is port 80, and the
    overflow test misses ports that wrap around to a larger value. *)
Theorem url_port_defects scheme :
  (forall ds v rest, port_ok ds v -> isdigit (default 0 (head rest)) = false ->
     vtm_url_parse_port (Some (58 :: ds ++ rest)) scheme = (VTM_OK, v)) /\
  vtm_url_parse_port (Some (cstr_of ":"%string)) scheme = (VTM_OK, 0) /\
  vtm_url_parse_port (Some (cstr_of ":80x"%string)) scheme = (VTM_OK, 80) /\
  vtm_url_parse_port (Some (cstr_of ":9999999999"%string)) scheme = (VTM_OK, 1410065407).
Proof.
  split_and!; [|reflexivity..].
  intros ds v rest Hp Hr. by apply vtm_url_parse_port_value.
Qed.
