(* ===== verification/Ws.v ===== *)
(** * Ws: WebSocket frames and the WebSocket parser

    net/http/ws.h, ws_frame.c, ws_message.c and ws_parser.c.  The parser is a
    state machine that the connection runs on its receive buffer (Buffer.v)
    after every read; [ws_step] is one pass of its loop, composed of one
    definition per stage, [vtm_ws_parser_run] the loop with fuel.  The block
    [msg_buf] points to is represented by its size and the bytes stored in it
    so far. *)

From S2P Require Import Prelude Base Buffer.

(** ** Constants *)

Definition VTM_E_WS_RSV_NONZERO : Z := -2500.
Definition VTM_E_WS_CTRL_MSG_FRAGMENTED : Z := -2501.
Definition VTM_E_WS_CLIENT_MSG_UNMASKED : Z := -2502.
Definition VTM_E_WS_SERVER_MSG_MASKED : Z := -2503.
Definition VTM_E_WS_INVALID_OPCODE : Z := -2504.
Definition VTM_E_WS_INVALID_PAYLOAD_LEN : Z := -2505.
Definition VTM_E_WS_BAD_CONTINUE_FRAME : Z := -2506.
Definition VTM_E_WS_MSG_NOT_CONTINUED : Z := -2507.

Definition VTM_WS_OPCODE_CONTINUE : Z := 0x0.
Definition VTM_WS_OPCODE_TEXT : Z := 0x1.
Definition VTM_WS_OPCODE_BINARY : Z := 0x2.
Definition VTM_WS_OPCODE_CLOSE : Z := 0x8.
Definition VTM_WS_OPCODE_PING : Z := 0x9.
Definition VTM_WS_OPCODE_PONG : Z := 0xA.
Definition VTM_WS_LEN7_MAX : Z := 125.
Definition VTM_WS_LEN16_MAX : Z := 65535.
Definition VTM_WS_LEN64_MAX : Z := 9223372036854775807.
Definition VTM_WS_LEN16_ID : Z := 126.
Definition VTM_WS_LEN64_ID : Z := 127.
Definition VTM_WS_PARSER_MSG_BUF_INIT : Z := 1024.
Definition VTM_WS_PARSER_MSG_BUF_MAX : Z := 65536.

(** net/http/ws.h:32-36 [enum vtm_ws_mode] *)
Inductive vtm_ws_mode := VTM_WS_MODE_SERVER | VTM_WS_MODE_CLIENT.

(** net/http/ws.h:38-45 [enum vtm_ws_msg_type] *)
Inductive vtm_ws_msg_type :=
  VTM_WS_MSG_TEXT | VTM_WS_MSG_BINARY | VTM_WS_MSG_CLOSE | VTM_WS_MSG_PING | VTM_WS_MSG_PONG.

(** The enumerators are the opcodes. *)
Definition ws_msg_opcode (t : vtm_ws_msg_type) : Z :=
  match t with
  | VTM_WS_MSG_TEXT => VTM_WS_OPCODE_TEXT
  | VTM_WS_MSG_BINARY => VTM_WS_OPCODE_BINARY
  | VTM_WS_MSG_CLOSE => VTM_WS_OPCODE_CLOSE
  | VTM_WS_MSG_PING => VTM_WS_OPCODE_PING
  | VTM_WS_MSG_PONG => VTM_WS_OPCODE_PONG
  end.

(** net/common.h:23-30 [enum vtm_net_recv_stat] *)
Inductive vtm_net_recv_stat :=
  VTM_NET_RECV_STAT_ERROR | VTM_NET_RECV_STAT_CLOSED | VTM_NET_RECV_STAT_INVALID
  | VTM_NET_RECV_STAT_AGAIN | VTM_NET_RECV_STAT_COMPLETE.

(** ** Frames *)

(** net/http/ws_frame_intl.h:16-27 [struct vtm_ws_frame_desc].  The one-bit
    fields are booleans. *)
Record vtm_ws_frame_desc := mk_desc {
  d_fin : bool; d_rsv1 : bool; d_rsv2 : bool; d_rsv3 : bool;
  d_opcode : Z; d_masked : bool; d_mask : Z; d_len : Z
}.

(** net/http/ws_frame.c:24-28 *)
Definition ws_header_byte0 (d : vtm_ws_frame_desc) : Z :=
  let b := u8 (Z.shiftl (Z.b2z (d_fin d)) 7) in
  let b := u8 (Z.lor b (Z.shiftl (Z.b2z (d_rsv1 d)) 6)) in
  let b := u8 (Z.lor b (Z.shiftl (Z.b2z (d_rsv2 d)) 5)) in
  let b := u8 (Z.lor b (Z.shiftl (Z.b2z (d_rsv3 d)) 4)) in
  u8 (Z.lor b (Z.land (d_opcode d) 0x0f)).

(** net/http/ws_frame.c:32-37 *)
Definition ws_header_len7 (d : vtm_ws_frame_desc) : Z :=
  if VTM_WS_LEN16_MAX <? d_len d then VTM_WS_LEN64_ID
  else if VTM_WS_LEN7_MAX <? d_len d then VTM_WS_LEN16_ID
  else u8 (d_len d).

(** net/http/ws_frame.c:39-40 *)
Definition ws_header_byte1 (d : vtm_ws_frame_desc) : Z :=
  u8 (Z.lor (u8 (Z.shiftl (Z.b2z (d_masked d)) 7)) (Z.land (ws_header_len7 d) 0x7f)).

(** net/http/ws_frame.c:44-49 *)
Definition ws_header_len16 (d : vtm_ws_frame_desc) : bytes :=
  if ws_header_len7 d =? VTM_WS_LEN16_ID then
    let len16 := u16 (d_len d) in
    [Z.land (Z.shiftr len16 8) 0xff; Z.land len16 0xff]
  else [].

(** net/http/ws_frame.c:52-63 *)
Definition ws_header_len64 (d : vtm_ws_frame_desc) : bytes :=
  if ws_header_len7 d =? VTM_WS_LEN64_ID then
    let len64 := u64 (d_len d) in
    [Z.land (Z.shiftr len64 56) 0xff; Z.land (Z.shiftr len64 48) 0xff;
     Z.land (Z.shiftr len64 40) 0xff; Z.land (Z.shiftr len64 32) 0xff;
     Z.land (Z.shiftr len64 24) 0xff; Z.land (Z.shiftr len64 16) 0xff;
     Z.land (Z.shiftr len64 8) 0xff; Z.land len64 0xff]
  else [].

(** net/http/ws_frame.c:66-71 *)
Definition ws_header_mask (d : vtm_ws_frame_desc) : bytes :=
  if d_masked d then
    [Z.land (Z.shiftr (d_mask d) 24) 0xff; Z.land (Z.shiftr (d_mask d) 16) 0xff;
     Z.land (Z.shiftr (d_mask d) 8) 0xff; Z.land (d_mask d) 0xff]
  else [].

(** The array [header] up to [header_len]. *)
Definition ws_header (d : vtm_ws_frame_desc) : bytes :=
  [ws_header_byte0 d; ws_header_byte1 d] ++ ws_header_len16 d ++ ws_header_len64 d
  ++ ws_header_mask d.

(** net/http/ws_frame.c:10-74 *)
Definition vtm_ws_frame_write_header (malloc_ok : Z -> bool) (buf : vtm_buf)
    (d : vtm_ws_frame_desc) : vtm_buf * Z :=
  if VTM_WS_LEN64_MAX <? d_len d then (buf, VTM_E_WS_INVALID_PAYLOAD_LEN)
  else vtm_buf_putm malloc_ok buf (ws_header d).

(** net/http/ws_frame.c:83-84.  Byte [i] of the mask. *)
Definition ws_mask_uc (mask : Z) (i : Z) : Z := Z.land (Z.shiftr mask (24 - 8 * i)) 0xff.

(** net/http/ws_frame.c:86-88, from index [i] on *)
Fixpoint ws_mask_from (i : Z) (dst : bytes) (mask : Z) : bytes :=
  match dst with
  | [] => []
  | c :: dst' => Z.lxor c (ws_mask_uc mask (i mod 4)) :: ws_mask_from (i + 1) dst' mask
  end.

(** net/http/ws_frame.c:76-89.  [dst] are the [len] bytes at the pointer. *)
Definition vtm_ws_frame_mask_payload (dst : bytes) (mask : Z) : bytes :=
  ws_mask_from 0 dst mask.

(** ** Messages *)

(** net/http/ws_message.h:23-29 [struct vtm_ws_msg].  The payload block holds
    [msg_len] bytes; the connection pointer is set by the caller. *)
Record vtm_ws_msg := mk_msg { msg_type : vtm_ws_msg_type; msg_data : bytes; msg_len : Z }.

(** net/http/ws_message.c:9-14 *)
Definition vtm_ws_msg_init (type : vtm_ws_msg_type) (data : bytes) (len : Z) : vtm_ws_msg :=
  mk_msg type data len.

(** ** The parser *)

(** net/http/ws_parser.h:24-39 [enum vtm_ws_parser_stage] *)
Inductive vtm_ws_parser_stage :=
  | VTM_WS_PARSE_MSG_BEGIN | VTM_WS_PARSE_FRAME_BEGIN | VTM_WS_PARSE_FRAME_FIN_OPCODE
  | VTM_WS_PARSE_FRAME_MASK_LEN7 | VTM_WS_PARSE_FRAME_LEN16 | VTM_WS_PARSE_FRAME_LEN64
  | VTM_WS_PARSE_FRAME_MASK32 | VTM_WS_PARSE_FRAME_PAYLOAD | VTM_WS_PARSE_FRAME_FINISH_CTRL
  | VTM_WS_PARSE_FRAME_FINISH_DATA | VTM_WS_PARSE_FRAME_COMPLETE | VTM_WS_PARSE_MSG_COMPLETE
  | VTM_WS_PARSE_ERROR.

(** net/http/ws_parser.h:41-68 [struct vtm_ws_parser].  [msg_buf] is NULL
    ([None]) or the bytes stored in the block of [msg_buf_size] bytes; the control message is kept with its flag. *)
Record vtm_ws_parser := mk_par {
  mode : vtm_ws_mode;
  stage : vtm_ws_parser_stage;
  fin : bool; rsv1 : bool; rsv2 : bool; rsv3 : bool;
  opcode : Z;
  masked : bool;
  payload_len : Z;
  payload_begin : Z;
  mask : Z;
  msg_buf : option bytes;
  msg_buf_size : Z;
  msg_buf_used : Z;
  msg_frame_count : Z;
  par_msg_type : vtm_ws_msg_type;
  ctrl_msg : option vtm_ws_msg
}.

(** Field updates. *)
Definition set_stage s p := mk_par (mode p) s (fin p) (rsv1 p) (rsv2 p) (rsv3 p) (opcode p)
  (masked p) (payload_len p) (payload_begin p) (mask p) (msg_buf p) (msg_buf_size p) (msg_buf_used p)
  (msg_frame_count p) (par_msg_type p) (ctrl_msg p).
Definition set_flags f r1 r2 r3 o p := mk_par (mode p) (stage p) f r1 r2 r3 o
  (masked p) (payload_len p) (payload_begin p) (mask p) (msg_buf p) (msg_buf_size p) (msg_buf_used p)
  (msg_frame_count p) (par_msg_type p) (ctrl_msg p).
Definition set_masked m p := mk_par (mode p) (stage p) (fin p) (rsv1 p) (rsv2 p) (rsv3 p)
  (opcode p) m (payload_len p) (payload_begin p) (mask p) (msg_buf p) (msg_buf_size p) (msg_buf_used p)
  (msg_frame_count p) (par_msg_type p) (ctrl_msg p).
Definition set_payload l b p := mk_par (mode p) (stage p) (fin p) (rsv1 p) (rsv2 p) (rsv3 p)
  (opcode p) (masked p) l b (mask p) (msg_buf p) (msg_buf_size p) (msg_buf_used p)
  (msg_frame_count p) (par_msg_type p) (ctrl_msg p).
Definition set_mask m p := mk_par (mode p) (stage p) (fin p) (rsv1 p) (rsv2 p) (rsv3 p)
  (opcode p) (masked p) (payload_len p) (payload_begin p) m (msg_buf p) (msg_buf_size p) (msg_buf_used p)
  (msg_frame_count p) (par_msg_type p) (ctrl_msg p).
Definition set_msg_buf d s u p := mk_par (mode p) (stage p) (fin p) (rsv1 p) (rsv2 p) (rsv3 p)
  (opcode p) (masked p) (payload_len p) (payload_begin p) (mask p) d s u
  (msg_frame_count p) (par_msg_type p) (ctrl_msg p).
Definition set_msg n t p := mk_par (mode p) (stage p) (fin p) (rsv1 p) (rsv2 p) (rsv3 p)
  (opcode p) (masked p) (payload_len p) (payload_begin p) (mask p) (msg_buf p) (msg_buf_size p) (msg_buf_used p)
  n t (ctrl_msg p).
Definition set_ctrl c p := mk_par (mode p) (stage p) (fin p) (rsv1 p) (rsv2 p) (rsv3 p)
  (opcode p) (masked p) (payload_len p) (payload_begin p) (mask p) (msg_buf p) (msg_buf_size p) (msg_buf_used p)
  (msg_frame_count p) (par_msg_type p) c.

(** net/http/ws_parser.c:23-38.  [junk] is the uninitialised struct. *)
Definition vtm_ws_parser_init (malloc_ok : Z -> bool) (junk : vtm_ws_parser)
    (m : vtm_ws_mode) : Z * option vtm_ws_parser :=
  if malloc_ok VTM_WS_PARSER_MSG_BUF_INIT then
    (VTM_OK, Some (mk_par m VTM_WS_PARSE_MSG_BEGIN (fin junk) (rsv1 junk) (rsv2 junk) (rsv3 junk)
       (opcode junk) (masked junk) (payload_len junk) (payload_begin junk) (mask junk)
       (Some []) VTM_WS_PARSER_MSG_BUF_INIT 0 (msg_frame_count junk) (par_msg_type junk) None))
  else (VTM_E_MALLOC, None).

(** net/http/ws_parser.c:45-54 *)
Definition vtm_ws_parser_reset (p : vtm_ws_parser) : vtm_ws_parser :=
  set_ctrl None (set_msg_buf (msg_buf p) (msg_buf_size p) 0
    (set_stage VTM_WS_PARSE_MSG_BEGIN p)).

(** net/http/ws_parser.c:343-356 *)
Definition vtm_ws_parser_is_valid_opcode (op : Z) : bool :=
  (op =? VTM_WS_OPCODE_CONTINUE) || (op =? VTM_WS_OPCODE_TEXT) || (op =? VTM_WS_OPCODE_BINARY)
  || (op =? VTM_WS_OPCODE_CLOSE) || (op =? VTM_WS_OPCODE_PING) || (op =? VTM_WS_OPCODE_PONG).

(** net/http/ws_parser.c:358-368 *)
Definition vtm_ws_parser_is_control_opcode (op : Z) : bool :=
  (op =? VTM_WS_OPCODE_CLOSE) || (op =? VTM_WS_OPCODE_PING) || (op =? VTM_WS_OPCODE_PONG).

(** net/http/ws_parser.c:370-386.  The program aborts for other opcodes. *)
Definition vtm_ws_parser_convert_opcode (op : Z) : option vtm_ws_msg_type :=
  if op =? VTM_WS_OPCODE_TEXT then Some VTM_WS_MSG_TEXT
  else if op =? VTM_WS_OPCODE_BINARY then Some VTM_WS_MSG_BINARY
  else if op =? VTM_WS_OPCODE_CLOSE then Some VTM_WS_MSG_CLOSE
  else if op =? VTM_WS_OPCODE_PING then Some VTM_WS_MSG_PING
  else if op =? VTM_WS_OPCODE_PONG then Some VTM_WS_MSG_PONG
  else None.

(** What one pass of the loop does: go on, return a status (with the error
    code that was set), or behave in an undefined way (an access outside of
    an object, or an abort). *)
Inductive ws_result :=
  | WCont (p : vtm_ws_parser) (b : vtm_buf)
  | WStop (stat : vtm_net_recv_stat) (err : Z) (p : vtm_ws_parser) (b : vtm_buf)
  | WUndef.

Definition ws_of_option (r : option ws_result) : ws_result := default WUndef r.

Definition ws_again (p : vtm_ws_parser) (b : vtm_buf) : ws_result :=
  WStop VTM_NET_RECV_STAT_AGAIN VTM_OK p b.

(** net/http/ws_parser.c:338-340 *)
Definition ws_invalid (err : Z) (p : vtm_ws_parser) (b : vtm_buf) : ws_result :=
  WStop VTM_NET_RECV_STAT_INVALID err (set_stage VTM_WS_PARSE_ERROR p) b.

(** The sum of [n] characters read in sequence, the first one shifted most. *)
Fixpoint ws_getc_be (w : Z) (n : nat) (acc : Z) (b : vtm_buf) : option (Z * vtm_buf) :=
  match n with
  | O => Some (acc, b)
  | S n' => '(c, b') ← VTM_BUF_GETC b;
            ws_getc_be w n' (wrap w (acc + Z.shiftl c (8 * Z.of_nat n'))) b'
  end.

(** *** The stages of [vtm_ws_parser_run] *)

(** net/http/ws_parser.c:66-71 *)
Definition ws_msg_begin (p : vtm_ws_parser) (b : vtm_buf) : ws_result :=
  WCont (set_stage VTM_WS_PARSE_FRAME_BEGIN
    (set_msg 0 VTM_WS_MSG_CLOSE
      (set_msg_buf (msg_buf p) (msg_buf_size p) 0 p))) b.

(** net/http/ws_parser.c:73-77 *)
Definition ws_frame_begin (p : vtm_ws_parser) (b : vtm_buf) : ws_result :=
  WCont (set_stage VTM_WS_PARSE_FRAME_FIN_OPCODE (set_payload 0 0 p)) b.

(** net/http/ws_parser.c:91-119.  The checks of the first header byte, in
    order: the error code, or none. *)
Definition ws_check_opcode (p : vtm_ws_parser) : option Z :=
  if rsv1 p || rsv2 p || rsv3 p then Some VTM_E_WS_RSV_NONZERO
  else if negb (vtm_ws_parser_is_valid_opcode (opcode p)) then Some VTM_E_WS_INVALID_OPCODE
  else if (VTM_WS_OPCODE_CLOSE <=? opcode p) && negb (fin p)
       then Some VTM_E_WS_CTRL_MSG_FRAGMENTED
  else if (opcode p =? VTM_WS_OPCODE_CONTINUE) && (msg_frame_count p <? 1)
       then Some VTM_E_WS_BAD_CONTINUE_FRAME
  else if (0 <? msg_frame_count p) && (VTM_WS_OPCODE_CONTINUE <? opcode p)
          && (opcode p <? VTM_WS_OPCODE_CLOSE)
       then Some VTM_E_WS_MSG_NOT_CONTINUED
  else None.

(** net/http/ws_parser.c:79-128 *)
Definition ws_fin_opcode (p : vtm_ws_parser) (b : vtm_buf) : ws_result :=
  if negb (VTM_BUF_GET_AVAIL b 1) then WStop VTM_NET_RECV_STAT_INVALID VTM_OK p b
  else ws_of_option (
    '(c, b) ← VTM_BUF_GETC b;
    let p := set_flags (Z.testbit c 7) (Z.testbit c 6) (Z.testbit c 5) (Z.testbit c 4)
               (Z.land c 0x0f) p in
    match ws_check_opcode p with
    | Some err => Some (ws_invalid err p b)
    | None =>
        p ← (if (msg_frame_count p =? 0) && (opcode p <? VTM_WS_OPCODE_CLOSE) then
               t ← vtm_ws_parser_convert_opcode (opcode p);
               Some (set_msg (msg_frame_count p) t p)
             else Some p);
        Some (WCont (set_stage VTM_WS_PARSE_FRAME_MASK_LEN7 p) b)
    end).

(** net/http/ws_parser.c:130-158 *)
Definition ws_mask_len7 (p : vtm_ws_parser) (b : vtm_buf) : ws_result :=
  if negb (VTM_BUF_GET_AVAIL b 1) then ws_again p b
  else ws_of_option (
    '(c, b) ← VTM_BUF_GETC b;
    let p := set_payload (Z.land c 0x7f) (payload_begin p) (set_masked (Z.testbit c 7) p) in
    Some (match mode p, masked p with
          | VTM_WS_MODE_SERVER, false => ws_invalid VTM_E_WS_CLIENT_MSG_UNMASKED p b
          | VTM_WS_MODE_CLIENT, true => ws_invalid VTM_E_WS_SERVER_MSG_MASKED p b
          | _, _ =>
              WCont (set_stage (if payload_len p =? VTM_WS_LEN16_ID then VTM_WS_PARSE_FRAME_LEN16
                                else if payload_len p =? VTM_WS_LEN64_ID
                                     then VTM_WS_PARSE_FRAME_LEN64
                                else VTM_WS_PARSE_FRAME_MASK32) p) b
          end)).

(** net/http/ws_parser.c:160-176 *)
Definition ws_len16 (p : vtm_ws_parser) (b : vtm_buf) : ws_result :=
  if negb (VTM_BUF_GET_AVAIL b 2) then ws_again p b
  else ws_of_option (
    '(l, b) ← ws_getc_be 64 2 0 b;
    let p := set_payload l (payload_begin p) p in
    Some (if payload_len p <=? VTM_WS_LEN7_MAX
          then ws_invalid VTM_E_WS_INVALID_PAYLOAD_LEN p b
          else WCont (set_stage VTM_WS_PARSE_FRAME_MASK32 p) b)).

(** net/http/ws_parser.c:178-213 *)
Definition ws_len64 (p : vtm_ws_parser) (b : vtm_buf) : ws_result :=
  if negb (VTM_BUF_GET_AVAIL b 8) then ws_again p b
  else ws_of_option (
    '(payload64, b) ← ws_getc_be 64 8 0 b;
    Some (if Z.testbit payload64 31 then ws_invalid VTM_E_WS_INVALID_PAYLOAD_LEN p b
          else if payload64 <=? VTM_WS_LEN16_MAX
               then ws_invalid VTM_E_WS_INVALID_PAYLOAD_LEN p b
          else if SIZE_MAX <? payload64 then ws_invalid VTM_E_WS_INVALID_PAYLOAD_LEN p b
          else WCont (set_stage VTM_WS_PARSE_FRAME_MASK32
                       (set_payload payload64 (payload_begin p) p)) b)).

(** net/http/ws_parser.c:215-229 *)
Definition ws_mask32 (p : vtm_ws_parser) (b : vtm_buf) : ws_result :=
  if masked p && negb (VTM_BUF_GET_AVAIL b 4) then ws_again p b
  else ws_of_option (
    '(m, b) ← (if masked p then ws_getc_be 32 4 0 b else Some (mask p, b));
    Some (WCont (set_stage VTM_WS_PARSE_FRAME_PAYLOAD
            (set_payload (payload_len p) (buf_read b) (set_mask m p))) b)).

(** The [len] bytes at offset [off] of the buffer's block. *)
Definition buf_slice (b : vtm_buf) (off len : Z) : option bytes :=
  if (0 <=? off) && (0 <=? len) && (off + len <=? zlen (buf_data b))
  then Some (ztake len (zdrop off (buf_data b))) else None.

(** net/http/ws_parser.c:246-249 *)
Definition ws_unmask (p : vtm_ws_parser) (b : vtm_buf) : option vtm_buf :=
  if masked p then
    dst ← buf_slice b (payload_begin p) (payload_len p);
    Some (buf_with_data b
      (splice (payload_begin p) (vtm_ws_frame_mask_payload dst (mask p)) (buf_data b)) (buf_used b))
  else Some b.

(** net/http/ws_parser.c:232-254 *)
Definition ws_payload (p : vtm_ws_parser) (b : vtm_buf) : ws_result :=
  if negb (VTM_BUF_GET_AVAIL b (payload_len p)) then ws_again p b
  else
    let '(b, rc) := vtm_buf_mark_processed b (payload_len p) in
    if negb (rc =? VTM_OK) then WStop VTM_NET_RECV_STAT_ERROR VTM_OK p b
    else ws_of_option (
      b ← ws_unmask p b;
      Some (WCont (set_stage (if vtm_ws_parser_is_control_opcode (opcode p)
                              then VTM_WS_PARSE_FRAME_FINISH_CTRL
                              else VTM_WS_PARSE_FRAME_FINISH_DATA) p) b)).

Section with_allocator.
Context (malloc_ok : Z -> bool).

(** net/http/ws_parser.c:256-279 *)
Definition ws_finish_ctrl (p : vtm_ws_parser) (b : vtm_buf) : ws_result :=
  match ctrl_msg p with
  | Some _ => ws_invalid VTM_ERROR p b
  | None =>
      if negb (malloc_ok (payload_len p)) then
        WStop VTM_NET_RECV_STAT_ERROR VTM_E_MALLOC p b
      else ws_of_option (
        payload ← buf_slice b (payload_begin p) (payload_len p);
        t ← vtm_ws_parser_convert_opcode (opcode p);
        Some (WCont (set_stage VTM_WS_PARSE_FRAME_COMPLETE
                (set_ctrl (Some (vtm_ws_msg_init t payload (payload_len p))) p)) b))
  end.

(** net/http/ws_parser.c:282-297.  The block after making room, or the
    result the stage ends with.  The block is doubled at most once. *)
Definition ws_msg_buf_grow (p : vtm_ws_parser) (b : vtm_buf) : vtm_ws_parser + ws_result :=
  if u64 (msg_buf_size p - msg_buf_used p) <? payload_len p then
    if msg_buf_size p <? VTM_WS_PARSER_MSG_BUF_MAX then
      let size := u64 (msg_buf_size p * 2) in
      if malloc_ok size then inl (set_msg_buf (msg_buf p) size (msg_buf_used p) p)
      else inr (WStop VTM_NET_RECV_STAT_ERROR VTM_E_MALLOC (set_msg_buf None size (msg_buf_used p) p) b)
    else inr (WStop VTM_NET_RECV_STAT_ERROR VTM_OK p b)
  else inl p.

(** net/http/ws_parser.c:281-305.  A copy that does not fit into the block is
    undefined behaviour. *)
Definition ws_finish_data (p : vtm_ws_parser) (b : vtm_buf) : ws_result :=
  match ws_msg_buf_grow p b with
  | inr r => r
  | inl p => ws_of_option (
      src ← buf_slice b (payload_begin p) (payload_len p);
      data ← msg_buf p;
      if (msg_buf_used p <=? zlen data) && (msg_buf_used p + payload_len p <=? msg_buf_size p) then
        Some (WCont (set_stage VTM_WS_PARSE_FRAME_COMPLETE
          (set_msg (u64 (msg_frame_count p + 1)) (par_msg_type p)
            (set_msg_buf (Some (splice (msg_buf_used p) src data)) (msg_buf_size p)
              (u64 (msg_buf_used p + payload_len p)) p))) b)
      else None)
  end.

(** net/http/ws_parser.c:307-317 *)
Definition ws_frame_complete (p : vtm_ws_parser) (b : vtm_buf) : ws_result :=
  let b := vtm_buf_discard_processed b in
  match ctrl_msg p with
  | Some _ => WStop VTM_NET_RECV_STAT_COMPLETE VTM_OK (set_stage VTM_WS_PARSE_FRAME_BEGIN p) b
  | None => WCont (set_stage (if fin p then VTM_WS_PARSE_MSG_COMPLETE
                              else VTM_WS_PARSE_FRAME_BEGIN) p) b
  end.

(** net/http/ws_parser.c:65-331.  One pass of the loop. *)
Definition ws_step (p : vtm_ws_parser) (b : vtm_buf) : ws_result :=
  match stage p with
  | VTM_WS_PARSE_MSG_BEGIN => ws_msg_begin p b
  | VTM_WS_PARSE_FRAME_BEGIN => ws_frame_begin p b
  | VTM_WS_PARSE_FRAME_FIN_OPCODE => ws_fin_opcode p b
  | VTM_WS_PARSE_FRAME_MASK_LEN7 => ws_mask_len7 p b
  | VTM_WS_PARSE_FRAME_LEN16 => ws_len16 p b
  | VTM_WS_PARSE_FRAME_LEN64 => ws_len64 p b
  | VTM_WS_PARSE_FRAME_MASK32 => ws_mask32 p b
  | VTM_WS_PARSE_FRAME_PAYLOAD => ws_payload p b
  | VTM_WS_PARSE_FRAME_FINISH_CTRL => ws_finish_ctrl p b
  | VTM_WS_PARSE_FRAME_FINISH_DATA => ws_finish_data p b
  | VTM_WS_PARSE_FRAME_COMPLETE => ws_frame_complete p b
  | VTM_WS_PARSE_MSG_COMPLETE =>
      WStop VTM_NET_RECV_STAT_COMPLETE VTM_OK (set_stage VTM_WS_PARSE_MSG_BEGIN p) b
  | VTM_WS_PARSE_ERROR => WStop VTM_NET_RECV_STAT_ERROR VTM_OK p b
  end.

(** The loop; [None] if the fuel is used up. *)
Fixpoint ws_run (fuel : nat) (p : vtm_ws_parser) (b : vtm_buf) : option ws_result :=
  match fuel with
  | O => None
  | S fuel' =>
      match ws_step p b with
      | WCont p' b' => ws_run fuel' p' b'
      | r => Some r
      end
  end.

(** A frame takes at most 16 passes and at least 2 bytes. *)
Definition ws_fuel (b : vtm_buf) : nat := Z.to_nat (16 * zlen (buf_content b) + 16).

(** net/http/ws_parser.c:56-341 *)
Definition vtm_ws_parser_run (p : vtm_ws_parser) (b : vtm_buf) : option ws_result :=
  ws_run (ws_fuel b) p b.

(** net/http/ws_parser.c:388-406.  The message and the parser, with a fresh
    block for the next message; [None] if the message is not initialised. *)
Definition vtm_ws_parser_get_msg (p : vtm_ws_parser)
    : option (Z * vtm_ws_msg * vtm_ws_parser) :=
  match ctrl_msg p with
  | Some m => Some (VTM_OK, m, set_ctrl None p)
  | None =>
      d ← msg_buf p;
      if msg_buf_used p <=? zlen d then
        let m := vtm_ws_msg_init (par_msg_type p) (ztake (msg_buf_used p) d) (msg_buf_used p) in
        if malloc_ok (msg_buf_size p)
        then Some (VTM_OK, m, set_msg_buf (Some []) (msg_buf_size p) (msg_buf_used p) p)
        else Some (VTM_E_MALLOC, m, set_msg_buf None (msg_buf_size p) (msg_buf_used p) p)
      else None
  end.
End with_allocator.

(** ** Sending *)

(** net/http/ws_connection.c:108-126.  What the server side puts into the
    send buffer; the socket is written afterwards. *)
Definition vtm_ws_con_send_msg (malloc_ok : Z -> bool) (sendbuf : vtm_buf)
    (type : vtm_ws_msg_type) (data : bytes) : vtm_buf * Z :=
  let desc := mk_desc true false false false (ws_msg_opcode type) false 0 (zlen data) in
  let '(buf, rc) := vtm_ws_frame_write_header malloc_ok sendbuf desc in
  if negb (rc =? VTM_OK) then (buf, rc) else vtm_buf_putm malloc_ok buf data.

(** net/http/ws_client.c:187-215.  The bytes the client writes to the socket;
    [mask] is the hash of the time. *)
Definition vtm_ws_client_send (malloc_ok : Z -> bool) (type : vtm_ws_msg_type) (mask : Z)
    (src : bytes) : option (vtm_buf * Z) :=
  let desc := mk_desc true false false false (ws_msg_opcode type) true mask (zlen src) in
  let '(buf, rc) := vtm_ws_frame_write_header malloc_ok (vtm_buf_init VTM_BYTEORDER_LE) desc in
  if negb (rc =? VTM_OK) then Some (buf, rc)
  else
    let payload_begin := buf_used buf in
    let '(buf, rc) := vtm_buf_putm malloc_ok buf src in
    if negb (rc =? VTM_OK) then Some (buf, rc)
    else
      dst ← buf_slice buf payload_begin (zlen src);
      Some (buf_with_data buf
              (splice payload_begin (vtm_ws_frame_mask_payload dst mask) (buf_data buf))
              (buf_used buf), VTM_OK).

(** ** Reading from the buffer *)

(** The value [ws_getc_be] computes from the characters it reads. *)
Fixpoint ws_be (w acc : Z) (l : bytes) : Z :=
  match l with
  | [] => acc
  | c :: l' => ws_be w (wrap w (acc + Z.shiftl c (8 * zlen l'))) l'
  end.

Lemma ws_getc_be_spec w l r acc b :
  buf_ok b -> buf_content b = l ++ r ->
  ws_getc_be w (length l) acc b = Some (ws_be w acc l, buf_with_read b (buf_read b + zlen l)).
Proof.
  revert acc b. induction l as [|c l IH]; intros acc b Hb Hc.
  - cbn. change (zlen (A:=Z) []) with 0. rewrite Z.add_0_r. by destruct b.
  - destruct (VTM_BUF_GETC_spec b c (l ++ r) Hb Hc) as (E & Hb' & Hc').
    cbn [length ws_getc_be]. rewrite E. cbn [mbind option_bind].
    fold (zlen l). rewrite (IH _ _ Hb' Hc').
    rewrite zlen_cons. cbn [buf_with_read buf_read]. unfold buf_with_read; simpl.
    do 2 f_equal. f_equal. lia.
Qed.

Lemma buf_with_splice_ok b off l :
  buf_ok b -> 0 <= off -> off + zlen l <= zlen (buf_data b) -> Forall is_byte l ->
  buf_ok (buf_with_data b (splice off l (buf_data b)) (buf_used b)).
Proof.
  intros [] Ho Hl Hby. constructor; cbn [buf_with_data buf_len buf_read buf_used buf_data
    buf_place buf_err]; rewrite ?splice_len by lia; auto with vtm.
Qed.

(** [b2] is [b] with the bytes [t] put behind its content. *)
Record buf_ext (t : bytes) (b b2 : vtm_buf) : Prop := {
  ext_ok1 : buf_ok b;
  ext_ok2 : buf_ok b2;
  ext_read : buf_read b2 = buf_read b;
  ext_order : buf_order b2 = buf_order b;
  ext_bytes : ztake (buf_used b2) (buf_data b2) = ztake (buf_used b) (buf_data b) ++ t
}.

Section extension.
Context (t : bytes) (b b2 : vtm_buf) (E : buf_ext t b b2).

Lemma ext_used : buf_used b2 = buf_used b + zlen t.
Proof.
  destruct E as [H1 H2 _ _ Hb]. buf_sizes. apply (f_equal zlen) in Hb.
  rewrite zlen_app, !zlen_ztake in Hb; lia.
Qed.

Lemma ext_content : buf_content b2 = buf_content b ++ t.
Proof.
  unfold buf_content. rewrite (ext_bytes t b b2 E), (ext_read t b b2 E).
  pose proof (ext_ok1 t b b2 E). buf_sizes. rewrite zdrop_app_le; [done |].
  rewrite zlen_ztake; lia.
Qed.

Lemma ext_avail n :
  is_size n -> VTM_BUF_GET_AVAIL b n = true -> VTM_BUF_GET_AVAIL b2 n = true.
Proof.
  intros Hn H. apply get_avail_spec in H; [| apply E | done].
  apply get_avail_spec; [apply E | done |]. rewrite ext_content, zlen_app.
  pose proof (zlen_nonneg t). lia.
Qed.

Lemma ext_with_read n :
  0 <= n <= zlen (buf_content b) ->
  buf_ext t (buf_with_read b (buf_read b + n)) (buf_with_read b2 (buf_read b2 + n)).
Proof.
  intros Hn. pose proof ext_used as Hu. destruct E as [H1 H2 Hr Ho Hb].
  rewrite buf_content_len in Hn by done. buf_sizes. pose proof (zlen_nonneg t).
  constructor; cbn [buf_with_read buf_read buf_order buf_used buf_data];
    auto using buf_with_read_ok; try congruence; apply buf_with_read_ok; auto; lia.
Qed.

Lemma ext_slice off len :
  0 <= off -> 0 <= len -> off + len <= buf_used b ->
  buf_slice b off len = Some (ztake len (zdrop off (ztake (buf_used b) (buf_data b)))) /\
  buf_slice b2 off len = buf_slice b off len.
Proof.
  intros Ho Hl Hu. pose proof ext_used as Hu2. destruct E as [H1 H2 _ _ Hb].
  buf_sizes. pose proof (zlen_nonneg t).
  assert (forall b', buf_used b' <= zlen (buf_data b') -> off + len <= buf_used b' ->
    buf_slice b' off len = Some (ztake len (zdrop off (ztake (buf_used b') (buf_data b'))))) as Hs.
  { intros b' ? ?. unfold buf_slice.
    destruct (Z.leb_spec 0 off), (Z.leb_spec 0 len), (Z.leb_spec (off + len) (zlen (buf_data b')));
      try lia. simpl. apply (f_equal Some). unfold ztake, zdrop.
    rewrite skipn_firstn_comm, take_take. f_equal. lia. }
  rewrite !Hs, Hb by lia. split; [done |]. apply (f_equal Some).
  rewrite zdrop_app_le by (rewrite zlen_ztake; lia). apply ztake_app_le.
  rewrite zlen_zdrop, zlen_ztake; rewrite ?zlen_ztake; lia.
Qed.

Lemma ext_splice off l :
  0 <= off -> off + zlen l <= buf_used b -> Forall is_byte l ->
  buf_ext t (buf_with_data b (splice off l (buf_data b)) (buf_used b))
            (buf_with_data b2 (splice off l (buf_data b2)) (buf_used b2)).
Proof.
  intros Ho Hl Hby. pose proof ext_used as Hu2. destruct E as [H1 H2 Hr Ho2 Hb].
  buf_sizes. pose proof (zlen_nonneg t).
  constructor; cbn [buf_with_data buf_read buf_order buf_used buf_data]; auto;
    try (apply buf_with_splice_ok; auto; lia).
  rewrite !ztake_splice by (pose proof (zlen_nonneg l); lia).
  rewrite Hb. apply splice_app; [lia |]. rewrite zlen_ztake; lia.
Qed.
End extension.

(** ** The invariant of the parser *)

Record ws_inv (p : vtm_ws_parser) (b : vtm_buf) : Prop := {
  inv_buf : buf_ok b;
  inv_len : is_size (payload_len p);
  inv_payload :
    match stage p with
    | VTM_WS_PARSE_FRAME_PAYLOAD => payload_begin p = buf_read b
    | VTM_WS_PARSE_FRAME_FINISH_CTRL =>
        vtm_ws_parser_is_control_opcode (opcode p) = true /\
        0 <= payload_begin p /\ payload_begin p + payload_len p = buf_read b
    | VTM_WS_PARSE_FRAME_FINISH_DATA =>
        0 <= payload_begin p /\ payload_begin p + payload_len p = buf_read b
    | _ => True
    end;
  inv_msg_size : VTM_WS_PARSER_MSG_BUF_INIT <= msg_buf_size p < 2 * VTM_WS_PARSER_MSG_BUF_MAX;
  inv_msg_used : 0 <= msg_buf_used p;
  inv_msg : exists d, msg_buf p = Some d /\ zlen d <= msg_buf_size p /\
    (stage p <> VTM_WS_PARSE_MSG_BEGIN -> msg_buf_used p <= zlen d)
}.

(** Two results that differ only in the bytes [t] behind the buffer. *)
Variant res_ext (t : bytes) : ws_result -> ws_result -> Prop :=
  | res_ext_cont p b b2 : buf_ext t b b2 -> res_ext t (WCont p b) (WCont p b2)
  | res_ext_stop s e p b b2 :
      buf_ext t b b2 -> s <> VTM_NET_RECV_STAT_AGAIN -> res_ext t (WStop s e p b) (WStop s e p b2)
  | res_ext_undef : res_ext t WUndef WUndef.

#[local] Hint Constructors res_ext : vtm.

Lemma ws_be_bounds w l acc : 0 <= w -> 0 <= acc < 2 ^ w -> 0 <= ws_be w acc l < 2 ^ w.
Proof.
  intros Hw. revert acc. induction l as [|c l IH]; intros acc Ha; [done |].
  apply IH, wrap_bounds, Hw.
Qed.

Lemma getc_ext w n acc t b b2 :
  buf_ext t b b2 -> VTM_BUF_GET_AVAIL b (Z.of_nat n) = true ->
  is_size (Z.of_nat n) ->
  exists v b' b2', ws_getc_be w n acc b = Some (v, b') /\
    ws_getc_be w n acc b2 = Some (v, b2') /\ buf_ext t b' b2' /\
    zlen (buf_content b') = zlen (buf_content b) - Z.of_nat n /\
    (0 <= w -> 0 <= acc < 2 ^ w -> 0 <= v < 2 ^ w).
Proof.
  intros E Ha Hn. apply get_avail_spec in Ha; [| apply E | done].
  set (l := take n (buf_content b)). set (r := drop n (buf_content b)).
  assert (buf_content b = l ++ r) as Hc by (symmetry; apply take_drop).
  assert (length l = n) as Hl by (unfold l; rewrite length_take; zlia).
  assert (buf_content b2 = l ++ (r ++ t)) as Hc2
    by (rewrite (ext_content t b b2 E), Hc; by rewrite app_assoc).
  assert (zlen l = Z.of_nat n) as Hz by (unfold zlen; by rewrite Hl).
  pose proof (ws_getc_be_spec w l r acc b (ext_ok1 _ _ _ E) Hc) as G1.
  pose proof (ws_getc_be_spec w l (r ++ t) acc b2 (ext_ok2 _ _ _ E) Hc2) as G2.
  rewrite Hl, Hz in G1, G2.
  assert (buf_ext t (buf_with_read b (buf_read b + Z.of_nat n))
    (buf_with_read b2 (buf_read b2 + Z.of_nat n))) as E' by (apply ext_with_read; [done | lia]).
  do 3 eexists. split_and!; [exact G1 | exact G2 | done | |].
  - rewrite (buf_content_len b (ext_ok1 _ _ _ E)), (buf_content_len _ (ext_ok1 _ _ _ E')).
    cbn [buf_with_read buf_used buf_read]. lia.
  - intros. by apply ws_be_bounds.
Qed.

Lemma getc1_ext t b b2 :
  buf_ext t b b2 -> VTM_BUF_GET_AVAIL b 1 = true ->
  exists c b' b2', VTM_BUF_GETC b = Some (c, b') /\ VTM_BUF_GETC b2 = Some (c, b2') /\
    buf_ext t b' b2' /\ zlen (buf_content b') = zlen (buf_content b) - 1.
Proof.
  intros E Ha. apply get_avail_spec in Ha; [| apply E | zlia].
  destruct (buf_content b) as [|c l] eqn:Hc; [change (zlen (A:=Z) []) with 0 in Ha; lia |].
  destruct (VTM_BUF_GETC_spec b c l (ext_ok1 _ _ _ E) Hc) as (G1 & _).
  destruct (VTM_BUF_GETC_spec b2 c (l ++ t) (ext_ok2 _ _ _ E)) as (G2 & _).
  { by rewrite (ext_content t b b2 E), Hc. }
  assert (buf_ext t (buf_with_read b (buf_read b + 1)) (buf_with_read b2 (buf_read b2 + 1))) as E'
    by (apply ext_with_read; [done | rewrite Hc; zlia]).
  exists c. do 2 eexists. split_and!; [exact G1 | exact G2 | done |]. rewrite <- Hc.
  rewrite (buf_content_len b (ext_ok1 _ _ _ E)), (buf_content_len _ (ext_ok1 _ _ _ E')). cbn [buf_with_read buf_used buf_read]. lia.
Qed.

Lemma ws_mask_from_bytes i dst mask :
  Forall is_byte dst -> Forall is_byte (ws_mask_from i dst mask).
Proof.
  intros H. revert i. induction H as [|c dst Hc _ IH]; intros i; constructor; [|done].
  unfold ws_mask_uc. rewrite land_0xff. unfold is_byte in *.
  set (m := _ mod 256). assert (0 <= m < 256) by (apply Z.mod_pos_bound; lia).
  split; [apply Z.lxor_nonneg; lia |].
  destruct (Z.eq_dec (Z.lxor c m) 0) as [->|Hne]; [lia |].
  apply Z.log2_lt_pow2 with (b := 8); [assert (0 <= Z.lxor c m) by (apply Z.lxor_nonneg; lia); lia |].
  eapply Z.le_lt_trans; [apply Z.log2_lxor; lia |].
  apply Z.max_lub_lt; [destruct (Z.eq_dec c 0) as [->|] | destruct (Z.eq_dec m 0) as [->|]];
    try (by vm_compute); apply Z.log2_lt_pow2; lia.
Qed.

Lemma zlen_mask_from i dst mask : zlen (ws_mask_from i dst mask) = zlen dst.
Proof.
  revert i. induction dst as [|c dst IH]; intros i; [done |].
  cbn [ws_mask_from]. rewrite !zlen_cons. by rewrite IH.
Qed.

Lemma ws_unmask_ext t b b2 p :
  buf_ext t b b2 -> is_size (payload_len p) -> 0 <= payload_begin p ->
  payload_begin p + payload_len p <= buf_used b ->
  exists b' b2', ws_unmask p b = Some b' /\ ws_unmask p b2 = Some b2' /\ buf_ext t b' b2' /\
    buf_read b' = buf_read b /\ buf_used b' = buf_used b.
Proof.
  intros E Hl Hb Hu. unfold ws_unmask. destruct (masked p); [| by exists b, b2].
  unfold is_size in Hl.
  destruct (ext_slice t b b2 E (payload_begin p) (payload_len p)) as [H1 H2]; [lia.. |].
  rewrite H2, H1. cbn [mbind option_bind]. do 2 eexists. split_and!; [done | done | | done | done].
  pose proof (ext_ok1 _ _ _ E). buf_sizes.
  apply ext_splice; [done | done | |].
  - unfold vtm_ws_frame_mask_payload.
    rewrite zlen_mask_from, zlen_ztake; rewrite ?zlen_zdrop, ?zlen_ztake; rewrite ?zlen_ztake; lia.
  - apply ws_mask_from_bytes. unfold ztake, zdrop. apply Forall_take, Forall_drop, Forall_take.
    by apply buf_ok_bytes.
Qed.

Lemma discard_ext t b b2 :
  buf_ext t b b2 -> buf_ext t (vtm_buf_discard_processed b) (vtm_buf_discard_processed b2).
Proof.
  intros E. pose proof (ext_content t b b2 E) as Hc. destruct E as [H1 H2 Hr Ho _].
  destruct (vtm_buf_discard_processed_spec b H1) as (? & Hc1 & Hr1 & Ho1 & _).
  destruct (vtm_buf_discard_processed_spec b2 H2) as (? & Hc2 & Hr2 & Ho2 & _).
  constructor; [done | done | congruence | congruence |].
  unfold buf_content in Hc1 at 1. unfold buf_content in Hc2 at 1.
  rewrite Hr1, zdrop_0 in Hc1. rewrite Hr2, zdrop_0 in Hc2. by rewrite Hc1, Hc2, Hc.
Qed.

(** ** More input never changes what a pass does, unless it waits for input *)

Section steps.
Context (malloc_ok : Z -> bool).

Definition ws_waits (p : vtm_ws_parser) (b : vtm_buf) (r : ws_result) : Prop :=
  r = ws_again p b \/
  (stage p = VTM_WS_PARSE_FRAME_FIN_OPCODE /\ r = WStop VTM_NET_RECV_STAT_INVALID VTM_OK p b).

Lemma ws_finish_ctrl_ext t b b2 p :
  buf_ext t b b2 -> ws_inv p b -> stage p = VTM_WS_PARSE_FRAME_FINISH_CTRL ->
  res_ext t (ws_finish_ctrl malloc_ok p b) (ws_finish_ctrl malloc_ok p b2).
Proof.
  intros E [Hb Hl Hp _ _ _] Hs. rewrite Hs in Hp. destruct Hp as (_ & H0 & H1).
  unfold ws_finish_ctrl, ws_invalid. destruct (ctrl_msg p); [by constructor |].
  destruct (malloc_ok (payload_len p)); cbn [negb]; [|by constructor].
  destruct (ext_slice t b b2 E (payload_begin p) (payload_len p)) as [G1 G2];
    [done | apply Hl | buf_sizes; lia |].
  rewrite G2, G1. cbn [mbind option_bind].
  destruct (vtm_ws_parser_convert_opcode (opcode p)); by constructor.
Qed.

Lemma ws_finish_data_ext t b b2 p :
  buf_ext t b b2 -> ws_inv p b -> stage p = VTM_WS_PARSE_FRAME_FINISH_DATA ->
  res_ext t (ws_finish_data malloc_ok p b) (ws_finish_data malloc_ok p b2).
Proof.
  intros E [Hb Hl Hp _ _ _] Hs. rewrite Hs in Hp. destruct Hp as [H0 H1].
  unfold ws_finish_data, ws_msg_buf_grow.
  destruct (ext_slice t b b2 E (payload_begin p) (payload_len p)) as [G1 G2];
    [done | apply Hl | buf_sizes; lia |].
  destruct (u64 _ <? payload_len p).
  - destruct (msg_buf_size p <? _); [|by constructor].
    destruct (malloc_ok _); [|by constructor]. cbn [set_msg_buf payload_begin payload_len msg_buf].
    rewrite G2, G1. cbn [mbind option_bind]. destruct (msg_buf p); [|by constructor].
    cbn [mbind option_bind]. destruct (_ && _); by constructor.
  - rewrite G2, G1. cbn [mbind option_bind]. destruct (msg_buf p); [|by constructor].
    cbn [mbind option_bind]. destruct (_ && _); by constructor.
Qed.

Lemma ws_read_ext t b b2 p :
  buf_ext t b b2 -> ws_inv p b ->
  match stage p with
  | VTM_WS_PARSE_FRAME_FIN_OPCODE | VTM_WS_PARSE_FRAME_MASK_LEN7 | VTM_WS_PARSE_FRAME_LEN16
  | VTM_WS_PARSE_FRAME_LEN64 | VTM_WS_PARSE_FRAME_MASK32 | VTM_WS_PARSE_FRAME_PAYLOAD => True
  | _ => False
  end ->
  ws_waits p b (ws_step malloc_ok p b) \/
  res_ext t (ws_step malloc_ok p b) (ws_step malloc_ok p b2).
Proof.
  intros E Hi Hs. unfold ws_waits. unfold ws_step.
  assert (forall n, is_size n -> VTM_BUF_GET_AVAIL b n = true -> VTM_BUF_GET_AVAIL b2 n = true)
    as Hav by (intros; by eapply ext_avail).
  destruct (stage p) eqn:Hst; try done; clear Hs.
  - unfold ws_fin_opcode. destruct (VTM_BUF_GET_AVAIL b 1) eqn:Ha; [right | left; by right].
    rewrite (Hav 1) by (zlia || done). cbn [negb].
    destruct (getc1_ext t b b2 E Ha) as (c & b' & b2' & -> & -> & E' & _).
    cbn [mbind option_bind]. destruct (ws_check_opcode _); [by constructor |].
    destruct (_ && _); [|by constructor].
    destruct (vtm_ws_parser_convert_opcode _); by constructor.
  - unfold ws_mask_len7. destruct (VTM_BUF_GET_AVAIL b 1) eqn:Ha; [right | left; by left].
    rewrite (Hav 1) by (zlia || done). cbn [negb].
    destruct (getc1_ext t b b2 E Ha) as (c & b' & b2' & -> & -> & E' & _).
    cbn [mbind option_bind]. cbn [ws_of_option default].
    destruct (mode _), (masked _); by constructor.
  - unfold ws_len16. destruct (VTM_BUF_GET_AVAIL b 2) eqn:Ha; [right | left; by left].
    rewrite (Hav 2) by (zlia || done). cbn [negb].
    destruct (getc_ext 64 2 0 t b b2 E) as (v & b' & b2' & -> & -> & E' & _); [done | zlia |].
    cbn [mbind option_bind]. cbn [ws_of_option default]. bcase; by constructor.
  - unfold ws_len64. destruct (VTM_BUF_GET_AVAIL b 8) eqn:Ha; [right | left; by left].
    rewrite (Hav 8) by (zlia || done). cbn [negb].
    destruct (getc_ext 64 8 0 t b b2 E) as (v & b' & b2' & -> & -> & E' & _); [done | zlia |].
    cbn [mbind option_bind]. cbn [ws_of_option default]. repeat bcase; by constructor.
  - unfold ws_mask32. destruct (masked p).
    + destruct (VTM_BUF_GET_AVAIL b 4) eqn:Ha; [right | left; by left].
      rewrite (Hav 4) by (zlia || done). cbn [negb andb].
      destruct (getc_ext 32 4 0 t b b2 E) as (v & b' & b2' & -> & -> & E' & _); [done | zlia |].
      cbn [mbind option_bind]. cbn [ws_of_option default].
      rewrite (ext_read _ _ _ E'). by constructor.
    + right. cbn [andb mbind option_bind]. cbn [ws_of_option default].
      rewrite (ext_read _ _ _ E). by constructor.
  - unfold ws_payload. destruct (VTM_BUF_GET_AVAIL b (payload_len p)) eqn:Ha; [right | left; by left].
    destruct Hi as [Hb Hl Hp _ _ _]. rewrite Hst in Hp.
    rewrite Hav by done. cbn [negb].
    apply get_avail_spec in Ha; [|done..]. pose proof Hl as [? _].
    pose proof (ext_content t b b2 E) as Hc. pose proof (zlen_nonneg t).
    rewrite !vtm_buf_mark_processed_spec by (apply E || rewrite ?Hc, ?zlen_app; lia).
    cbn [negb Z.eqb].
    destruct (ws_unmask_ext t _ _ p (ext_with_read t b b2 E (payload_len p) ltac:(lia)))
      as (b' & b2' & -> & -> & E' & _); cbn [buf_with_read buf_used];
      [done | buf_sizes; lia | rewrite buf_content_len in Ha by done; lia | by constructor].
Qed.

Lemma ws_step_ext t b b2 p :
  buf_ext t b b2 -> ws_inv p b ->
  ws_waits p b (ws_step malloc_ok p b) \/
  res_ext t (ws_step malloc_ok p b) (ws_step malloc_ok p b2).
Proof.
  intros E Hi. destruct (stage p) eqn:Hs;
    try (apply ws_read_ext; [done | done | by rewrite Hs]); right; unfold ws_step; rewrite Hs.
  - by constructor.
  - by constructor.
  - by apply ws_finish_ctrl_ext.
  - by apply ws_finish_data_ext.
  - unfold ws_frame_complete. apply discard_ext in E.
    destruct (ctrl_msg p); by constructor.
  - by constructor.
  - by constructor.
Qed.

(** ** The invariant is preserved and every pass makes progress *)

Definition ws_rank (s : vtm_ws_parser_stage) : Z :=
  match s with
  | VTM_WS_PARSE_MSG_BEGIN => 3
  | VTM_WS_PARSE_FRAME_BEGIN => 2
  | VTM_WS_PARSE_FRAME_FIN_OPCODE => 1
  | VTM_WS_PARSE_FRAME_MASK_LEN7 => 9
  | VTM_WS_PARSE_FRAME_LEN16 | VTM_WS_PARSE_FRAME_LEN64 => 8
  | VTM_WS_PARSE_FRAME_MASK32 => 7
  | VTM_WS_PARSE_FRAME_PAYLOAD => 6
  | VTM_WS_PARSE_FRAME_FINISH_CTRL | VTM_WS_PARSE_FRAME_FINISH_DATA => 5
  | VTM_WS_PARSE_FRAME_COMPLETE => 4
  | VTM_WS_PARSE_MSG_COMPLETE | VTM_WS_PARSE_ERROR => 0
  end.

Definition ws_measure (p : vtm_ws_parser) (b : vtm_buf) : Z :=
  16 * zlen (buf_content b) + ws_rank (stage p).

Definition ws_msg_buf_overflow (p : vtm_ws_parser) : Prop :=
  stage p = VTM_WS_PARSE_FRAME_FINISH_DATA /\ msg_buf_size p < VTM_WS_PARSER_MSG_BUF_MAX /\
  2 * msg_buf_size p < msg_buf_used p + payload_len p.

Definition ws_step_ok (p : vtm_ws_parser) (b : vtm_buf) (r : ws_result) : Prop :=
  match r with
  | WCont p' b' => ws_inv p' b' /\ ws_measure p' b' < ws_measure p b
  | WStop s e p' b' => s = VTM_NET_RECV_STAT_ERROR \/ ws_inv p' b'
  | WUndef => ws_msg_buf_overflow p
  end.

Lemma buf_ext_refl b : buf_ok b -> buf_ext [] b b.
Proof. intros. constructor; auto. by rewrite app_nil_r. Qed.

(** The invariant after a change of the stage and of the frame's fields. *)
Lemma ws_inv_stage p b p' b' :
  ws_inv p b -> buf_ok b' -> is_size (payload_len p') ->
  msg_buf p' = msg_buf p -> msg_buf_size p' = msg_buf_size p ->
  msg_buf_used p' = msg_buf_used p \/ msg_buf_used p' = 0 ->
  stage p <> VTM_WS_PARSE_MSG_BEGIN \/ msg_buf_used p' = 0 \/ stage p' = VTM_WS_PARSE_MSG_BEGIN ->
  match stage p' with
  | VTM_WS_PARSE_FRAME_PAYLOAD => payload_begin p' = buf_read b'
  | VTM_WS_PARSE_FRAME_FINISH_CTRL =>
      vtm_ws_parser_is_control_opcode (opcode p') = true /\
      0 <= payload_begin p' /\ payload_begin p' + payload_len p' = buf_read b'
  | VTM_WS_PARSE_FRAME_FINISH_DATA =>
      0 <= payload_begin p' /\ payload_begin p' + payload_len p' = buf_read b'
  | _ => True
  end -> ws_inv p' b'.
Proof.
  intros [Hb Hl Hp Hs Hu (d & Hd & Hz & Hd2)] Hb' Hl' Em Es Eu Hst Hp'.
  constructor; auto; [by rewrite Es | destruct Eu as [-> | ->]; lia |].
  exists d. rewrite Em, Es. split_and!; auto. intros Hne.
  pose proof (zlen_nonneg d). destruct Eu as [Eu|Eu], Hst as [?|[?|?]]; rewrite ?Eu; try lia;
    try contradiction; auto.
Qed.

Ltac ws_inv_tac Hi :=
  unfold ws_invalid; apply (ws_inv_stage _ _ _ _ Hi); cbn [set_stage set_flags set_masked set_payload set_mask
    set_msg set_msg_buf set_ctrl stage payload_len msg_buf msg_buf_size msg_buf_used
    payload_begin opcode]; auto; try (left; congruence);
    try (right; left; reflexivity); try (right; right; reflexivity); try zlia; try congruence.

Lemma convert_control op :
  vtm_ws_parser_is_control_opcode op = true -> is_Some (vtm_ws_parser_convert_opcode op).
Proof.
  unfold vtm_ws_parser_is_control_opcode, vtm_ws_parser_convert_opcode.
  repeat destruct (_ =? _); simpl; done || eauto.
Qed.

Lemma convert_checked p :
  ws_check_opcode p = None -> msg_frame_count p = 0 ->
  is_Some (vtm_ws_parser_convert_opcode (opcode p)).
Proof.
  unfold ws_check_opcode, vtm_ws_parser_is_valid_opcode, vtm_ws_parser_convert_opcode.
  intros H Hn. rewrite Hn in H. revert H.
  destruct (Z.eqb_spec (opcode p) VTM_WS_OPCODE_CONTINUE) as [->|].
  { destruct (rsv1 p || rsv2 p || rsv3 p); by vm_compute. }
  destruct (rsv1 p || rsv2 p || rsv3 p); [done |].
  repeat (destruct (_ =? _); [eauto |]). done.
Qed.


Lemma ws_head_inv p b :
  ws_inv p b -> stage p = VTM_WS_PARSE_FRAME_FIN_OPCODE \/ stage p = VTM_WS_PARSE_FRAME_MASK_LEN7 ->
  ws_step_ok p b (ws_step malloc_ok p b).
Proof.
  intros Hi Hs. pose proof (inv_buf p b Hi) as Hb. pose proof (inv_len p b Hi) as Hl.
  unfold ws_step. destruct Hs as [Hs|Hs]; rewrite Hs;
    [unfold ws_fin_opcode | unfold ws_mask_len7];
    (destruct (VTM_BUF_GET_AVAIL b 1) eqn:Ha; [|right; done]); cbn [negb];
    destruct (getc1_ext [] b b (buf_ext_refl b Hb) Ha) as (c & b' & ? & -> & _ & E & Hm);
    pose proof (ext_ok1 _ _ _ E) as Hb'; pose proof (zlen_nonneg (buf_content b'));
    cbn [mbind option_bind].
  - destruct (ws_check_opcode _) eqn:Hck; [right; ws_inv_tac Hi |].
    destruct (Z.eqb_spec (msg_frame_count (set_flags (Z.testbit c 7) (Z.testbit c 6)
      (Z.testbit c 5) (Z.testbit c 4) (Z.land c 0x0f) p)) 0) as [Hn|]; cbn [andb].
    + destruct (convert_checked _ Hck Hn) as [ty Hty]. rewrite Hty.
      destruct (_ <? _); cbn [mbind option_bind ws_of_option default];
        (split; [ws_inv_tac Hi |]);
        unfold ws_measure; rewrite Hm, Hs; cbn [set_stage stage ws_rank]; lia.
    + split; [ws_inv_tac Hi |].
      unfold ws_measure; rewrite Hm, Hs; cbn [set_stage stage ws_rank]; lia.
  - cbn [ws_of_option default]. pose proof (land_mask c 7 0x7f ltac:(lia) eq_refl) as Hc.
    assert (0 <= Z.land c 0x7f < 2 ^ 7) by (rewrite Hc; apply Z.mod_pos_bound; lia).
    assert (forall q, q = set_stage (if Z.land c 0x7f =? VTM_WS_LEN16_ID
        then VTM_WS_PARSE_FRAME_LEN16 else if Z.land c 0x7f =? VTM_WS_LEN64_ID
        then VTM_WS_PARSE_FRAME_LEN64 else VTM_WS_PARSE_FRAME_MASK32)
        (set_payload (Z.land c 0x7f) (payload_begin p) (set_masked (Z.testbit c 7) p)) ->
        ws_step_ok p b (WCont q b')) as Hq.
    { intros q ->. split.
      - ws_inv_tac Hi. repeat bcase; done.
      - unfold ws_measure. rewrite Hm, Hs. cbn [set_stage stage].
        repeat bcase; cbn [ws_rank]; lia. }
    cbn [set_payload set_masked mode masked payload_begin payload_len].
    destruct (mode p), (Z.testbit c 7); try (by apply Hq);
      right; ws_inv_tac Hi.
Qed.

Lemma ws_len_inv p b :
  ws_inv p b ->
  match stage p with
  | VTM_WS_PARSE_FRAME_LEN16 | VTM_WS_PARSE_FRAME_LEN64 | VTM_WS_PARSE_FRAME_MASK32 => True
  | _ => False
  end -> ws_step_ok p b (ws_step malloc_ok p b).
Proof.
  intros Hi Hst. pose proof (inv_buf p b Hi) as Hb. pose proof (inv_len p b Hi) as Hl.
  unfold ws_step. destruct (stage p) eqn:Hs; try done; clear Hst.
  - unfold ws_len16. destruct (VTM_BUF_GET_AVAIL b 2) eqn:Ha; [|by right]. cbn [negb].
    destruct (getc_ext 64 2 0 [] b b (buf_ext_refl b Hb) Ha)
      as (v & b' & ? & -> & _ & E & Hm & Hv); [zlia |]. specialize (Hv ltac:(lia) ltac:(lia)).
    pose proof (ext_ok1 _ _ _ E) as Hb'.
    cbn [mbind option_bind]. cbn [ws_of_option default].
    bcase; [right; ws_inv_tac Hi | split; [ws_inv_tac Hi |]].
    unfold ws_measure; rewrite Hm, Hs; cbn [set_stage stage ws_rank]; lia.
  - unfold ws_len64. destruct (VTM_BUF_GET_AVAIL b 8) eqn:Ha; [|by right]. cbn [negb].
    destruct (getc_ext 64 8 0 [] b b (buf_ext_refl b Hb) Ha)
      as (v & b' & ? & -> & _ & E & Hm & Hv); [zlia |]. specialize (Hv ltac:(lia) ltac:(lia)).
    pose proof (ext_ok1 _ _ _ E) as Hb'.
    cbn [mbind option_bind]. cbn [ws_of_option default].
    repeat bcase; try (right; ws_inv_tac Hi). split; [ws_inv_tac Hi |].
    unfold ws_measure; rewrite Hm, Hs; cbn [set_stage stage ws_rank]; lia.
  - unfold ws_mask32. destruct (masked p) eqn:Hmk; cbn [andb].
    + destruct (VTM_BUF_GET_AVAIL b 4) eqn:Ha; [|by right]. cbn [negb].
      destruct (getc_ext 32 4 0 [] b b (buf_ext_refl b Hb) Ha)
        as (v & b' & ? & -> & _ & E & Hm & Hv); [zlia |].
      pose proof (ext_ok1 _ _ _ E) as Hb'.
      cbn [mbind option_bind]. cbn [ws_of_option default].
      split; [ws_inv_tac Hi |].
      unfold ws_measure; rewrite Hm, Hs; cbn [set_stage stage ws_rank]; lia.
    + cbn [mbind option_bind]. cbn [ws_of_option default]. split; [ws_inv_tac Hi |].
      unfold ws_measure; rewrite Hs; cbn [set_stage stage ws_rank]; lia.
Qed.

Lemma ws_payload_inv p b :
  ws_inv p b -> stage p = VTM_WS_PARSE_FRAME_PAYLOAD -> ws_step_ok p b (ws_step malloc_ok p b).
Proof.
  intros Hi Hs. pose proof (inv_buf p b Hi) as Hb. pose proof (inv_len p b Hi) as Hl.
  pose proof (inv_payload p b Hi) as Hp. rewrite Hs in Hp. unfold ws_step. rewrite Hs.
  unfold ws_payload. destruct (VTM_BUF_GET_AVAIL b (payload_len p)) eqn:Ha; [|by right].
  apply get_avail_spec in Ha; [|done..]. pose proof Hl as [? _]. cbn [negb].
  rewrite vtm_buf_mark_processed_spec by (done || lia). cbn [negb Z.eqb].
  pose proof Ha as Ha'. rewrite buf_content_len in Ha' by done.
  destruct (ws_unmask_ext [] _ _ p (ext_with_read [] b b (buf_ext_refl b Hb) (payload_len p)
    ltac:(lia))) as (b' & ? & -> & _ & E & Er & Eu); cbn [buf_with_read buf_used buf_read] in *;
    [done | buf_sizes; lia | lia |].
  cbn [mbind option_bind]. cbn [ws_of_option default]. pose proof (ext_ok1 _ _ _ E) as Hb'.
  buf_sizes. split.
  - ws_inv_tac Hi. destruct (vtm_ws_parser_is_control_opcode (opcode p)); [split; [done |] |]; lia.
  - unfold ws_measure. rewrite !buf_content_len by done. rewrite Hs. cbn [set_stage stage].
    destruct (vtm_ws_parser_is_control_opcode (opcode p)); cbn [ws_rank]; lia.
Qed.

Lemma ws_finish_data_inv p b :
  ws_inv p b -> stage p = VTM_WS_PARSE_FRAME_FINISH_DATA ->
  ws_step_ok p b (ws_finish_data malloc_ok p b).
Proof.
  intros Hi Hs. pose proof Hi as [Hb Hl Hp Hsz Hu (d & Hd & Hz & Hud)].
  rewrite Hs in Hp. destruct Hp as [H0 H1]. specialize (Hud ltac:(congruence)).
  unfold VTM_WS_PARSER_MSG_BUF_INIT, VTM_WS_PARSER_MSG_BUF_MAX in *. unfold is_size, SIZE_MAX in Hl.
  unfold ws_finish_data.
  destruct (ext_slice [] b b (buf_ext_refl b Hb) (payload_begin p) (payload_len p)) as [G _];
    [lia | lia | buf_sizes; lia |].
  set (src := ztake (payload_len p) _) in G.
  assert (zlen src = payload_len p) as Hsrc.
  { subst src. buf_sizes. rewrite zlen_ztake; rewrite ?zlen_zdrop, ?zlen_ztake;
      rewrite ?zlen_ztake; lia. }
  assert (forall size, msg_buf_used p + payload_len p <= size -> msg_buf_size p <= size ->
    VTM_WS_PARSER_MSG_BUF_INIT <= size < 2 * VTM_WS_PARSER_MSG_BUF_MAX ->
    ws_step_ok p b (WCont (set_stage VTM_WS_PARSE_FRAME_COMPLETE
      (set_msg (u64 (msg_frame_count p + 1)) (par_msg_type p)
        (set_msg_buf (Some (splice (msg_buf_used p) src d)) size
          (u64 (msg_buf_used p + payload_len p)) p))) b)) as Hok.
  { intros size Hle Hge Hsize.
    assert (zlen (splice (msg_buf_used p) src d)
      = Z.max (zlen d) (msg_buf_used p + payload_len p)) as Hlen
      by (rewrite zlen_splice; lia).
    rewrite (u64_small (msg_buf_used p + _)) by (unfold is_size, SIZE_MAX,
      VTM_WS_PARSER_MSG_BUF_MAX in *; lia).
    split.
    - constructor; cbn [set_stage set_msg set_msg_buf stage payload_len msg_buf msg_buf_size
        msg_buf_used]; auto; [lia |].
      eexists. split_and!; [done | lia | intros _; lia].
    - unfold ws_measure. rewrite Hs. cbn [set_stage stage ws_rank]. lia. }
  unfold ws_msg_buf_grow. rewrite (u64_small (_ - _)) by (unfold is_size, SIZE_MAX; lia).
  destruct (Z.ltb_spec (msg_buf_size p - msg_buf_used p) (payload_len p)).
  - unfold VTM_WS_PARSER_MSG_BUF_MAX in *.
    destruct (Z.ltb_spec (msg_buf_size p) 65536); [|by left].
    rewrite (u64_small (_ * 2)) by (unfold is_size, SIZE_MAX; lia).
    destruct (malloc_ok _); [|by left].
    cbn [set_msg_buf payload_begin payload_len msg_buf msg_buf_used msg_buf_size msg_frame_count
      par_msg_type].
    rewrite G, Hd. cbn [mbind option_bind].
    destruct (Z.leb_spec (msg_buf_used p) (zlen d)); [|lia]. cbn [andb].
    destruct (Z.leb_spec (msg_buf_used p + payload_len p) (msg_buf_size p * 2)).
    + cbn [ws_of_option default]. apply Hok; unfold VTM_WS_PARSER_MSG_BUF_INIT; lia.
    + split_and!; [done | done | lia].
  - rewrite G, Hd. cbn [mbind option_bind].
    destruct (Z.leb_spec (msg_buf_used p) (zlen d)); [|lia].
    destruct (Z.leb_spec (msg_buf_used p + payload_len p) (msg_buf_size p)); [|lia].
    cbn [andb ws_of_option default]. apply Hok; unfold VTM_WS_PARSER_MSG_BUF_INIT, VTM_WS_PARSER_MSG_BUF_MAX in *; lia.
Qed.

Lemma ws_finish_inv p b :
  ws_inv p b ->
  stage p = VTM_WS_PARSE_FRAME_FINISH_CTRL \/ stage p = VTM_WS_PARSE_FRAME_FINISH_DATA ->
  ws_step_ok p b (ws_step malloc_ok p b).
Proof.
  intros Hi Hs. pose proof (inv_buf p b Hi) as Hb. pose proof (inv_len p b Hi) as Hl.
  pose proof (inv_payload p b Hi) as Hp. pose proof Hl as [? _]. unfold ws_step.
  destruct Hs as [Hs|Hs]; rewrite Hs in Hp |- *.
  - destruct Hp as (Hop & H0 & H1). unfold ws_finish_ctrl.
    destruct (ctrl_msg p); [right; ws_inv_tac Hi |].
    destruct (malloc_ok _); [cbn [negb] | by left].
    destruct (ext_slice [] b b (buf_ext_refl b Hb) (payload_begin p) (payload_len p)) as [-> _];
      [lia | lia | buf_sizes; lia |].
    destruct (convert_control _ Hop) as [ty ->]. cbn [mbind option_bind].
    cbn [ws_of_option default]. split; [ws_inv_tac Hi |].
    unfold ws_measure. rewrite Hs. cbn [set_stage stage ws_rank set_ctrl]. lia.
  - by apply ws_finish_data_inv.
Qed.

Lemma ws_step_inv p b : ws_inv p b -> ws_step_ok p b (ws_step malloc_ok p b).
Proof.
  intros Hi. pose proof (inv_buf p b Hi) as Hb. pose proof (inv_len p b Hi) as Hl.
  destruct (stage p) eqn:Hs;
    try (apply ws_head_inv; [done | by (left + right)]);
    try (apply ws_len_inv; [done | by rewrite Hs]);
    try (by apply ws_payload_inv); try (apply ws_finish_inv; [done | by (left + right)]);
    unfold ws_step; rewrite Hs.
  - split; [ws_inv_tac Hi | unfold ws_measure; rewrite Hs; cbn [set_stage stage ws_rank]; lia].
  - split; [ws_inv_tac Hi; zlia | unfold ws_measure; rewrite Hs; cbn [set_stage stage ws_rank]; lia].
  - unfold ws_frame_complete.
    destruct (vtm_buf_discard_processed_spec b Hb) as (Hb' & Hc & _).
    destruct (ctrl_msg p); [right; ws_inv_tac Hi |].
    split; [ws_inv_tac Hi; by destruct (fin p) |].
    unfold ws_measure. rewrite Hs, Hc. cbn [set_stage stage].
    destruct (fin p); cbn [ws_rank]; lia.
  - right. ws_inv_tac Hi.
  - by left.
Qed.

(** ** Runs *)

Lemma ws_run_mono n m p b r :
  (n <= m)%nat -> ws_run malloc_ok n p b = Some r -> ws_run malloc_ok m p b = Some r.
Proof.
  revert m p b. induction n as [|n IH]; intros m p b Hle H; [done |].
  destruct m as [|m]; [lia |]. cbn [ws_run] in *.
  destruct (ws_step malloc_ok p b); [|done..]. apply IH; [lia | done].
Qed.

Lemma ws_run_det n m p b r r' :
  ws_run malloc_ok n p b = Some r -> ws_run malloc_ok m p b = Some r' -> r = r'.
Proof.
  intros H1 H2. apply (ws_run_mono n (Nat.max n m)) in H1; [|lia].
  apply (ws_run_mono m (Nat.max n m)) in H2; [|lia]. congruence.
Qed.

(** The last pass of a run from a state that satisfies the invariant. *)
Lemma ws_run_total n p b :
  ws_inv p b -> ws_measure p b < Z.of_nat n ->
  exists p' b' r, ws_run malloc_ok n p b = Some r /\ ws_inv p' b' /\
    r = ws_step malloc_ok p' b' /\ match r with WCont _ _ => False | _ => True end.
Proof.
  revert p b. induction n as [|n IH]; intros p b Hi Hm.
  - unfold ws_measure in Hm. pose proof (zlen_nonneg (buf_content b)).
    destruct (stage p); cbn [ws_rank] in Hm; lia.
  - cbn [ws_run]. pose proof (ws_step_inv p b Hi) as Hs.
    destruct (ws_step malloc_ok p b) as [p' b'| |] eqn:E.
    + destruct Hs as [Hi' Hlt]. apply IH; [done | lia].
    + eexists p, b, _. by rewrite E.
    + eexists p, b, _. by rewrite E.
Qed.

Lemma ws_fuel_enough p b : ws_inv p b -> ws_measure p b < Z.of_nat (ws_fuel b).
Proof.
  intros Hi. unfold ws_fuel, ws_measure. pose proof (zlen_nonneg (buf_content b)).
  destruct (stage p); cbn [ws_rank]; lia.
Qed.

Lemma vtm_ws_parser_run_of n p b r :
  ws_inv p b -> ws_run malloc_ok n p b = Some r -> vtm_ws_parser_run malloc_ok p b = Some r.
Proof.
  intros Hi H. destruct (ws_run_total _ p b Hi (ws_fuel_enough p b Hi)) as (? & ? & r' & Hr & _).
  unfold vtm_ws_parser_run. rewrite Hr. f_equal. by eapply ws_run_det.
Qed.

Lemma ws_run_again n t p b b2 p' b' e :
  ws_inv p b -> buf_ext t b b2 ->
  ws_run malloc_ok n p b = Some (WStop VTM_NET_RECV_STAT_AGAIN e p' b') ->
  ws_inv p' b' /\ exists b2', buf_ext t b' b2' /\
    forall m r, ws_run malloc_ok m p' b2' = Some r ->
      exists k, ws_run malloc_ok k p b2 = Some r.
Proof.
  revert p b b2. induction n as [|n IH]; intros p b b2 Hi E Hr; [done |].
  cbn [ws_run] in Hr. pose proof (ws_step_inv p b Hi) as Hok.
  destruct (ws_step_ext t b b2 p E Hi) as [[Hw | [_ Hw]] | Hx].
  - rewrite Hw in Hr. injection Hr as _ <- <-. split; [done |]. exists b2. split; [done |]. eauto.
  - by rewrite Hw in Hr.
  - inversion Hx as [q c c2 E' H1 H2 | s e' q c c2 E' Hne H1 H2 | H1 H2]; rewrite <- H1 in *.
    + destruct Hok as [Hi' _]. destruct (IH _ _ c2 Hi' E' Hr) as (Hi2 & b2' & Eb & Hk).
      split; [done |]. exists b2'. split; [done |]. intros m r Hm.
      destruct (Hk m r Hm) as [k Hk']. exists (S k). cbn [ws_run]. by rewrite <- H2.
    + congruence.
    + done.
Qed.

(** One or more passes. *)
Definition ws_reach (p : vtm_ws_parser) (b : vtm_buf) (p' : vtm_ws_parser) (b' : vtm_buf) : Prop :=
  ws_inv p' b' /\ exists n, forall m, ws_run malloc_ok (n + m) p b = ws_run malloc_ok m p' b'.

Lemma ws_reach_refl p b : ws_inv p b -> ws_reach p b p b.
Proof. intros. split; [done |]. by exists O. Qed.

Lemma ws_reach_trans p b p1 b1 p2 b2 :
  ws_reach p b p1 b1 -> ws_reach p1 b1 p2 b2 -> ws_reach p b p2 b2.
Proof.
  intros [_ [n1 H1]] [Hi [n2 H2]]. split; [done |]. exists (n1 + n2)%nat. intros m.
  by rewrite <- Nat.add_assoc, H1, H2.
Qed.

Lemma ws_reach_step p b p' b' :
  ws_inv p b -> ws_step malloc_ok p b = WCont p' b' -> ws_reach p b p' b'.
Proof.
  intros Hi E. pose proof (ws_step_inv p b Hi) as Hok. rewrite E in Hok.
  split; [apply Hok |]. exists 1%nat. intros m. cbn [Nat.add ws_run]. by rewrite E.
Qed.

Lemma ws_reach_run p b p' b' r :
  ws_inv p b -> ws_reach p b p' b' -> vtm_ws_parser_run malloc_ok p' b' = Some r ->
  vtm_ws_parser_run malloc_ok p b = Some r.
Proof.
  intros Hi [_ [n H]] Hr. apply (vtm_ws_parser_run_of (n + ws_fuel b')); [done |].
  by rewrite H.
Qed.
End steps.

(** ** The header of a frame is read back *)

Definition ws_desc_ok (d : vtm_ws_frame_desc) : Prop :=
  0 <= d_opcode d < 16 /\ 0 <= d_mask d <= UINT32_MAX /\ 0 <= d_len d <= VTM_WS_LEN64_MAX.

Lemma ws_byte0_bits f r1 r2 r3 op m mk l :
  0 <= op < 16 ->
  let b := ws_header_byte0 (mk_desc f r1 r2 r3 op m mk l) in
  Z.testbit b 7 = f /\ Z.testbit b 6 = r1 /\ Z.testbit b 5 = r2 /\ Z.testbit b 4 = r3 /\
  Z.land b 0x0f = op /\ is_byte b.
Proof.
  intros Ho. cbn zeta. unfold ws_header_byte0.
  cbn [d_fin d_rsv1 d_rsv2 d_rsv3 d_opcode].
  assert (op ∈ seqZ 0 16) as Hin by (apply elem_of_seqZ; lia).
  cut (forall op, op ∈ seqZ 0 16 ->
    let b := u8 (Z.lor (u8 (Z.lor (u8 (Z.lor (u8 (Z.lor (u8 (Z.shiftl (Z.b2z f) 7))
      (Z.shiftl (Z.b2z r1) 6))) (Z.shiftl (Z.b2z r2) 5))) (Z.shiftl (Z.b2z r3) 4)))
      (Z.land op 15)) in
    Z.testbit b 7 = f /\ Z.testbit b 6 = r1 /\ Z.testbit b 5 = r2 /\ Z.testbit b 4 = r3 /\
    Z.land b 0x0f = op /\ is_byte b); [by auto |].
  clear. apply Forall_forall.
  apply (bool_decide_unpack _). destruct f, r1, r2, r3; by vm_compute.
Qed.

Lemma ws_byte0_fields d :
  0 <= d_opcode d < 16 ->
  Z.testbit (ws_header_byte0 d) 7 = d_fin d /\ Z.testbit (ws_header_byte0 d) 6 = d_rsv1 d /\
  Z.testbit (ws_header_byte0 d) 5 = d_rsv2 d /\ Z.testbit (ws_header_byte0 d) 4 = d_rsv3 d /\
  Z.land (ws_header_byte0 d) 0x0f = d_opcode d /\ is_byte (ws_header_byte0 d).
Proof. destruct d. apply ws_byte0_bits. Qed.

Lemma ws_len7_range d : 0 <= d_len d -> 0 <= ws_header_len7 d < 128.
Proof.
  intros. unfold ws_header_len7, VTM_WS_LEN16_MAX, VTM_WS_LEN7_MAX, VTM_WS_LEN64_ID,
    VTM_WS_LEN16_ID, u8, wrap. repeat bcase; try lia. rewrite Z.mod_small; lia.
Qed.

Lemma ws_byte1_fields d :
  0 <= d_len d ->
  Z.testbit (ws_header_byte1 d) 7 = d_masked d /\
  Z.land (ws_header_byte1 d) 0x7f = ws_header_len7 d /\ is_byte (ws_header_byte1 d).
Proof.
  intros Hl%ws_len7_range. unfold ws_header_byte1. set (l7 := ws_header_len7 d) in *.
  destruct (d_masked d).
  - pose proof (check_below (fun l => Z.testbit (u8 (Z.lor (u8 (Z.shiftl (Z.b2z true) 7))
      (Z.land l 0x7f))) 7 && (Z.land (u8 (Z.lor (u8 (Z.shiftl (Z.b2z true) 7)) (Z.land l 0x7f)))
      0x7f =? l)) 128 l7 ltac:(by vm_compute) Hl) as H. cbn beta in H. bsplit.
    split_and!; auto. apply u8_bounds.
  - pose proof (check_below (fun l => negb (Z.testbit (u8 (Z.lor (u8 (Z.shiftl (Z.b2z false) 7))
      (Z.land l 0x7f))) 7) && (Z.land (u8 (Z.lor (u8 (Z.shiftl (Z.b2z false) 7)) (Z.land l 0x7f)))
      0x7f =? l)) 128 l7 ltac:(by vm_compute) Hl) as H. cbn beta in H. bsplit.
    split_and!; auto. apply u8_bounds.
Qed.

Lemma ws_be_sum w l acc :
  0 <= w -> 0 <= acc < 2 ^ w -> ws_be w acc l = wrap w (acc + le_val (rev l)).
Proof.
  intros Hw. revert acc. induction l as [|c l IH]; intros acc Ha.
  - cbn [ws_be rev le_val]. rewrite Z.add_0_r, wrap_small; done.
  - cbn [ws_be rev]. rewrite IH by (by apply wrap_bounds).
    rewrite le_val_app, zlen_rev, shiftl_mul by (pose proof (zlen_nonneg l); lia).
    cbn [le_val]. unfold wrap. rewrite Zplus_mod_idemp_l. f_equal. lia.
Qed.

(** The header's numbers are the big-endian bytes of the fields. *)
Lemma ws_header_len16_be d :
  0 <= d_len d <= VTM_WS_LEN16_MAX -> ws_header_len7 d = VTM_WS_LEN16_ID ->
  ws_header_len16 d = rev (le_bytes 2 (d_len d)).
Proof.
  unfold VTM_WS_LEN16_MAX. intros Hl E. unfold ws_header_len16. rewrite E.
  cbn [Z.eqb Pos.eqb VTM_WS_LEN16_ID]. unfold u16. rewrite wrap_small by lia.
  rewrite !land_0xff, shiftr_div by lia. reflexivity.
Qed.

Lemma ws_header_len64_be d :
  0 <= d_len d <= VTM_WS_LEN64_MAX -> ws_header_len7 d = VTM_WS_LEN64_ID ->
  ws_header_len64 d = rev (le_bytes 8 (d_len d)).
Proof.
  unfold VTM_WS_LEN64_MAX. intros Hl E. unfold ws_header_len64. rewrite E.
  cbn [Z.eqb Pos.eqb VTM_WS_LEN64_ID]. unfold u64. rewrite wrap_small by lia.
  rewrite !land_0xff, !shiftr_div by lia.
  cbn [le_bytes rev app]. unfold u8, wrap. change (2 ^ 8) with 256.
  rewrite !Z.div_div by lia. reflexivity.
Qed.

Lemma ws_header_mask_be d :
  d_masked d = true -> ws_header_mask d = rev (le_bytes 4 (d_mask d)).
Proof.
  intros E. unfold ws_header_mask. rewrite E, !land_0xff, !shiftr_div by lia.
  cbn [le_bytes rev app]. unfold u8, wrap. change (2 ^ 8) with 256.
  rewrite !Z.div_div by lia. reflexivity.
Qed.

Lemma ws_be_le_bytes w n v :
  8 * Z.of_nat n <= w -> 0 <= v < 2 ^ (8 * Z.of_nat n) -> ws_be w 0 (rev (le_bytes n v)) = v.
Proof.
  intros Hw Hv. assert (2 ^ (8 * Z.of_nat n) <= 2 ^ w) by (apply Z.pow_le_mono_r; lia).
  rewrite ws_be_sum by lia. rewrite rev_involutive, le_val_bytes, Z.add_0_l.
  rewrite Z.mod_small by lia. apply wrap_small. lia.
Qed.

(** ** A frame is parsed *)

(** The frame of a payload as the writing side sends it. *)
Definition ws_frame_bytes (d : vtm_ws_frame_desc) (payload : bytes) : bytes :=
  ws_header d ++
  (if d_masked d then vtm_ws_frame_mask_payload payload (d_mask d) else payload).

Lemma ws_mask_involutive i dst mask :
  ws_mask_from i (ws_mask_from i dst mask) mask = dst.
Proof.
  revert i. induction dst as [|c dst IH]; intros i; [done |]. cbn [ws_mask_from].
  rewrite Z.lxor_assoc, Z.lxor_nilpotent, Z.lxor_0_r. by rewrite IH.
Qed.

(** The parser accepts the frame: the mask fits the mode and the length does
    not have the bit that the 64-bit form is rejected for. *)
Record ws_acceptable (p : vtm_ws_parser) (d : vtm_ws_frame_desc) : Prop := {
  acc_desc : ws_desc_ok d;
  acc_opcode : ws_check_opcode (set_flags (d_fin d) (d_rsv1 d) (d_rsv2 d) (d_rsv3 d)
                                  (d_opcode d) p) = None;
  acc_mode : d_masked d = match mode p with
                          | VTM_WS_MODE_SERVER => true | VTM_WS_MODE_CLIENT => false end;
  acc_len : VTM_WS_LEN16_MAX < d_len d -> Z.testbit (d_len d) 31 = false
}.

(** The message type after the first byte of a frame. *)
Definition ws_next_type (p : vtm_ws_parser) (op : Z) : vtm_ws_msg_type :=
  if (msg_frame_count p =? 0) && (op <? VTM_WS_OPCODE_CLOSE)
  then default VTM_WS_MSG_CLOSE (vtm_ws_parser_convert_opcode op) else par_msg_type p.

(** The state behind the header. *)
Definition ws_header_state (p : vtm_ws_parser) (d : vtm_ws_frame_desc) (begin : Z)
    : vtm_ws_parser :=
  mk_par (mode p) VTM_WS_PARSE_FRAME_PAYLOAD (d_fin d) (d_rsv1 d) (d_rsv2 d) (d_rsv3 d)
    (d_opcode d) (d_masked d) (d_len d) begin (if d_masked d then d_mask d else mask p)
    (msg_buf p) (msg_buf_size p) (msg_buf_used p) (msg_frame_count p)
    (ws_next_type p (d_opcode d)) (ctrl_msg p).

Section parse.
Context (malloc_ok : Z -> bool).
Implicit Types (p : vtm_ws_parser) (b : vtm_buf) (d : vtm_ws_frame_desc).

Lemma avail_prefix b l r :
  buf_ok b -> buf_content b = l ++ r -> VTM_BUF_GET_AVAIL b (zlen l) = true.
Proof.
  intros Hb Hc. pose proof (buf_content_len b Hb) as Hz. rewrite Hc, zlen_app in Hz.
  pose proof (zlen_nonneg l). pose proof (zlen_nonneg r). buf_sizes.
  apply get_avail_spec; [done | unfold is_size, SIZE_MAX; lia |]. rewrite Hc, zlen_app. lia.
Qed.

Lemma content_skip b l r :
  buf_ok b -> buf_content b = l ++ r ->
  buf_ok (buf_with_read b (buf_read b + zlen l)) /\
  buf_content (buf_with_read b (buf_read b + zlen l)) = r.
Proof.
  intros Hb Hc. pose proof (buf_content_len b Hb) as Hz. rewrite Hc, zlen_app in Hz.
  pose proof (zlen_nonneg l). pose proof (zlen_nonneg r). buf_sizes.
  split; [apply buf_with_read_ok; [done | lia] |].
  rewrite buf_content_read by (done || rewrite Hc, zlen_app; lia). rewrite Hc.
  by apply zdrop_app_exact.
Qed.

Lemma step_fin_opcode p b d r :
  ws_acceptable p d -> buf_ok b -> buf_content b = ws_header_byte0 d :: r ->
  ws_fin_opcode p b =
  WCont (set_stage VTM_WS_PARSE_FRAME_MASK_LEN7
    (set_msg (msg_frame_count p) (ws_next_type p (d_opcode d))
      (set_flags (d_fin d) (d_rsv1 d) (d_rsv2 d) (d_rsv3 d) (d_opcode d) p)))
    (buf_with_read b (buf_read b + 1)).
Proof.
  intros [(Ho & _) Hck _ _] Hb Hc. unfold ws_fin_opcode.
  rewrite (avail_prefix b [ws_header_byte0 d] r Hb Hc : VTM_BUF_GET_AVAIL b 1 = true). cbn [negb].
  destruct (VTM_BUF_GETC_spec b _ _ Hb Hc) as (-> & _). cbn [mbind option_bind].
  destruct (ws_byte0_fields d Ho) as (-> & -> & -> & -> & -> & _). rewrite Hck.
  unfold ws_next_type. cbn [set_flags msg_frame_count opcode].
  destruct (Z.eqb_spec (msg_frame_count p) 0) as [Hn|]; cbn [andb]; [|by destruct p].
  destruct (_ <? _); [|by destruct p].
  destruct (convert_checked _ Hck Hn) as [ty Hty]. cbn [set_flags opcode] in Hty.
  by rewrite Hty.
Qed.

Lemma step_mask_len7 p b d r :
  0 <= d_len d ->
  d_masked d = match mode p with VTM_WS_MODE_SERVER => true | VTM_WS_MODE_CLIENT => false end ->
  buf_ok b -> buf_content b = ws_header_byte1 d :: r ->
  ws_mask_len7 p b =
  WCont (set_stage (if ws_header_len7 d =? VTM_WS_LEN16_ID then VTM_WS_PARSE_FRAME_LEN16
                    else if ws_header_len7 d =? VTM_WS_LEN64_ID then VTM_WS_PARSE_FRAME_LEN64
                    else VTM_WS_PARSE_FRAME_MASK32)
           (set_payload (ws_header_len7 d) (payload_begin p) (set_masked (d_masked d) p)))
    (buf_with_read b (buf_read b + 1)).
Proof.
  intros Hl Hm Hb Hc. unfold ws_mask_len7.
  rewrite (avail_prefix b [ws_header_byte1 d] r Hb Hc : VTM_BUF_GET_AVAIL b 1 = true). cbn [negb].
  destruct (VTM_BUF_GETC_spec b _ _ Hb Hc) as (-> & _). cbn [mbind option_bind].
  destruct (ws_byte1_fields d Hl) as (-> & -> & _).
  cbn [set_payload set_masked mode masked payload_len payload_begin ws_of_option default].
  by destruct (mode p); rewrite Hm.
Qed.

Lemma step_len p b d r :
  let s := if ws_header_len7 d =? VTM_WS_LEN16_ID then VTM_WS_PARSE_FRAME_LEN16
           else if ws_header_len7 d =? VTM_WS_LEN64_ID then VTM_WS_PARSE_FRAME_LEN64
           else VTM_WS_PARSE_FRAME_MASK32 in
  let p' := set_stage VTM_WS_PARSE_FRAME_MASK32 (set_payload (d_len d) (payload_begin p) p) in
  let l := ws_header_len16 d ++ ws_header_len64 d in
  let b' := buf_with_read b (buf_read b + zlen l) in
  ws_desc_ok d -> (VTM_WS_LEN16_MAX < d_len d -> Z.testbit (d_len d) 31 = false) ->
  stage p = s -> payload_len p = ws_header_len7 d -> ws_inv p b ->
  buf_content b = l ++ r ->
  ws_reach malloc_ok p b p' b'.
Proof.
  intros s p' l b' (_ & _ & Hl) H31 Hs Hlen Hi Hc. pose proof (inv_buf p b Hi) as Hb.
  pose proof (ws_header_len16_be d) as L16. pose proof (ws_header_len64_be d) as L64.
  assert (ws_header_len7 d = d_len d /\ d_len d <= VTM_WS_LEN7_MAX \/
    ws_header_len7 d = VTM_WS_LEN16_ID /\ VTM_WS_LEN7_MAX < d_len d <= VTM_WS_LEN16_MAX \/
    ws_header_len7 d = VTM_WS_LEN64_ID /\ VTM_WS_LEN16_MAX < d_len d) as Hcase.
  { unfold ws_header_len7. repeat bcase; auto. left.
    unfold VTM_WS_LEN7_MAX, u8 in *. rewrite wrap_small; lia. }
  destruct Hcase as [[E Hle] | [[E Hle] | [E Hle]]]; subst s p' l b'.
  - assert (ws_header_len16 d ++ ws_header_len64 d = []) as El.
    { unfold ws_header_len16, ws_header_len64, VTM_WS_LEN16_ID, VTM_WS_LEN64_ID,
        VTM_WS_LEN7_MAX in *. rewrite E. repeat bcase; lia || done. }
    rewrite El in Hc |- *. change (zlen (A:=Z) []) with 0. rewrite Z.add_0_r.
    rewrite E in Hs, Hlen. unfold VTM_WS_LEN16_ID, VTM_WS_LEN64_ID, VTM_WS_LEN7_MAX in *.
    destruct (Z.eqb_spec (d_len d) 126); [lia |]. destruct (Z.eqb_spec (d_len d) 127); [lia |].
    replace (set_stage _ _) with p by (destruct p; simpl in *; by subst).
    replace (buf_with_read b (buf_read b)) with b by (by destruct b).
    by apply ws_reach_refl.
  - rewrite E in Hs. cbn [Z.eqb Pos.eqb VTM_WS_LEN16_ID] in Hs.
    assert (ws_header_len64 d = []) as E64 by (unfold ws_header_len64; by rewrite E).
    rewrite E64, app_nil_r, L16 in Hc |- * by (done || unfold VTM_WS_LEN7_MAX in *; lia).
    set (l := rev (le_bytes 2 (d_len d))) in *.
    apply ws_reach_step; [done |]. unfold ws_step. rewrite Hs. unfold ws_len16.
    rewrite (avail_prefix b l r Hb Hc : VTM_BUF_GET_AVAIL b 2 = true). cbn [negb].
    rewrite (ws_getc_be_spec 64 l r 0 b Hb Hc : ws_getc_be 64 2 0 b = _).
    assert (ws_be 64 0 l = d_len d) as Ev by (apply ws_be_le_bytes; unfold VTM_WS_LEN7_MAX, VTM_WS_LEN16_MAX in *; lia).
    cbn [mbind option_bind]. rewrite Ev.
    cbn [set_payload payload_len payload_begin ws_of_option default].
    destruct (Z.leb_spec (d_len d) VTM_WS_LEN7_MAX); [lia | done].
  - rewrite E in Hs. cbn [Z.eqb Pos.eqb VTM_WS_LEN16_ID VTM_WS_LEN64_ID] in Hs.
    assert (ws_header_len16 d = []) as E16 by (unfold ws_header_len16; by rewrite E).
    specialize (L64 Hl E). rewrite E16, L64 in Hc |- *. cbn [app] in Hc |- *.
    set (l := rev (le_bytes 8 (d_len d))) in *.
    apply ws_reach_step; [done |]. unfold ws_step. rewrite Hs. unfold ws_len64.
    rewrite (avail_prefix b l r Hb Hc : VTM_BUF_GET_AVAIL b 8 = true). cbn [negb].
    rewrite (ws_getc_be_spec 64 l r 0 b Hb Hc : ws_getc_be 64 8 0 b = _).
    assert (ws_be 64 0 l = d_len d) as Ev by (apply ws_be_le_bytes; unfold VTM_WS_LEN16_MAX, VTM_WS_LEN64_MAX in *; lia).
    cbn [mbind option_bind]. rewrite Ev.
    cbn [ws_of_option default]. rewrite H31 by done.
    destruct (Z.leb_spec (d_len d) VTM_WS_LEN16_MAX); [lia |].
    unfold SIZE_MAX, VTM_WS_LEN64_MAX in *.
    destruct (Z.ltb_spec (2 ^ 64 - 1) (d_len d)); [lia | done].
Qed.

Lemma step_mask32 p b d r :
  ws_desc_ok d -> masked p = d_masked d -> buf_ok b -> buf_content b = ws_header_mask d ++ r ->
  let b' := buf_with_read b (buf_read b + zlen (ws_header_mask d)) in
  ws_mask32 p b = WCont (set_stage VTM_WS_PARSE_FRAME_PAYLOAD
    (set_payload (payload_len p) (buf_read b')
      (set_mask (if d_masked d then d_mask d else mask p) p))) b'.
Proof.
  intros (_ & Hm & _) Em Hb Hc b'. subst b'. unfold ws_mask32. rewrite Em.
  destruct (d_masked d) eqn:E; cbn [andb].
  - rewrite ws_header_mask_be in Hc |- * by done. set (l := rev (le_bytes 4 (d_mask d))) in *.
    rewrite (avail_prefix b l r Hb Hc : VTM_BUF_GET_AVAIL b 4 = true). cbn [negb].
    rewrite (ws_getc_be_spec 32 l r 0 b Hb Hc : ws_getc_be 32 4 0 b = _).
    assert (ws_be 32 0 l = d_mask d) as Ev by (apply ws_be_le_bytes; unfold UINT32_MAX in *; lia).
    cbn [mbind option_bind]. rewrite Ev. done.
  - unfold ws_header_mask. rewrite E. change (zlen (A:=Z) []) with 0. rewrite Z.add_0_r.
    cbn [mbind option_bind]. destruct b; done.
Qed.

Lemma reach_header p b d r :
  ws_inv p b -> stage p = VTM_WS_PARSE_FRAME_BEGIN -> ws_acceptable p d ->
  buf_content b = ws_header d ++ r ->
  let b' := buf_with_read b (buf_read b + zlen (ws_header d)) in
  ws_reach malloc_ok p b (ws_header_state p d (buf_read b')) b' /\ buf_content b' = r.
Proof.
  intros Hi Hs Ha Hc b'. pose proof (inv_buf p b Hi) as Hb.
  split; [|by apply (content_skip _ _ _ Hb Hc)].
  pose proof Ha as [Hd _ Hm H31]. pose proof Hd as (_ & _ & Hl).
  unfold ws_header in Hc. rewrite <- !app_assoc in Hc. cbn [app] in Hc.
  (* the first bytes *)
  eapply ws_reach_trans.
  { apply ws_reach_step; [done |]. unfold ws_step. rewrite Hs. done. }
  set (p1 := set_stage VTM_WS_PARSE_FRAME_FIN_OPCODE (set_payload 0 0 p)).
  assert (ws_inv p1 b) as Hi1.
  { pose proof (ws_step_inv malloc_ok p b Hi) as H. unfold ws_step in H. rewrite Hs in H. apply H. }
  assert (ws_acceptable p1 d) as Ha1 by (destruct Ha; by constructor).
  pose proof (step_fin_opcode p1 b d _ Ha1 Hb Hc) as E1.
  pose proof (ws_reach_step malloc_ok p1 b _ _ Hi1 E1) as R1.
  eapply ws_reach_trans; [exact R1 |]. destruct R1 as [Hi2 _].
  destruct (content_skip b [ws_header_byte0 d] _ Hb Hc) as [Hb1 Hc1].
  change (zlen [_]) with 1 in Hb1, Hc1.
  set (p2 := set_stage VTM_WS_PARSE_FRAME_MASK_LEN7 _) in *. set (b1 := buf_with_read b (buf_read b + 1)) in *.
  pose proof (step_mask_len7 p2 b1 d _ (proj1 Hl) Hm Hb1 Hc1) as E2.
  pose proof (ws_reach_step malloc_ok p2 b1 _ _ Hi2 E2) as R2.
  eapply ws_reach_trans; [exact R2 |]. destruct R2 as [Hi3 _].
  destruct (content_skip b1 [ws_header_byte1 d] _ Hb1 Hc1) as [Hb2 Hc2].
  change (zlen [_]) with 1 in Hb2, Hc2.
  set (p3 := set_stage _ (set_payload _ _ (set_masked _ _))) in *.
  set (b2 := buf_with_read b1 (buf_read b1 + 1)) in *.
  (* the length, the mask *)
  rewrite app_assoc in Hc2.
  pose proof (step_len p3 b2 d _ Hd H31 eq_refl eq_refl Hi3 Hc2) as R3.
  eapply ws_reach_trans; [exact R3 |]. destruct R3 as [Hi4 _].
  destruct (content_skip b2 _ _ Hb2 Hc2) as [Hb3 Hc3].
  set (p4 := set_stage VTM_WS_PARSE_FRAME_MASK32 _) in *. set (b3 := buf_with_read b2 (buf_read b2 + _)) in *.
  pose proof (step_mask32 p4 b3 d _ Hd eq_refl Hb3 Hc3) as E4.
  assert (buf_with_read b3 (buf_read b3 + zlen (ws_header_mask d)) = b') as Eb.
  { subst b' b3 b2 b1. unfold buf_with_read, ws_header; simpl. f_equal.
    rewrite !zlen_cons, !zlen_app. lia. }
  rewrite Eb in E4. eapply ws_reach_trans; [apply (ws_reach_step malloc_ok p4 b3 _ _ Hi4 E4) |].
  apply ws_reach_refl.
  pose proof (ws_step_inv malloc_ok p4 b3 Hi4 : ws_step_ok _ _ (ws_mask32 p4 b3)) as H.
  rewrite E4 in H. apply H.
Qed.

Lemma buf_data_split b :
  buf_ok b -> exists a z, buf_data b = a ++ buf_content b ++ z /\ zlen a = buf_read b.
Proof.
  intros Hb. buf_sizes. exists (ztake (buf_read b) (buf_data b)), (zdrop (buf_used b) (buf_data b)).
  split; [|rewrite zlen_ztake; lia]. unfold buf_content.
  rewrite <- (ztake_zdrop (buf_used b) (buf_data b)) at 1. rewrite app_assoc. f_equal.
  rewrite <- (ztake_zdrop (buf_read b) (ztake (buf_used b) (buf_data b))) at 1.
  by rewrite ztake_ztake by lia.
Qed.

Lemma buf_slice_at b a l z :
  buf_data b = a ++ l ++ z -> buf_slice b (zlen a) (zlen l) = Some l.
Proof.
  intros E. unfold buf_slice. rewrite E, !zlen_app.
  pose proof (zlen_nonneg a). pose proof (zlen_nonneg l). pose proof (zlen_nonneg z).
  destruct (Z.leb_spec 0 (zlen a)), (Z.leb_spec 0 (zlen l)),
    (Z.leb_spec (zlen a + zlen l) (zlen a + (zlen l + zlen z))); try lia. simpl.
  by rewrite zdrop_app_exact, ztake_app_exact by done.
Qed.

Lemma splice_at (a l l' z : bytes) :
  zlen l' = zlen l -> splice (zlen a) l' (a ++ l ++ z) = a ++ l' ++ z.
Proof.
  intros El. unfold splice. rewrite ztake_app_exact by done. do 2 f_equal.
  rewrite app_assoc, zdrop_app_exact; [done |]. rewrite zlen_app. lia.
Qed.

Lemma reach_payload p b d payload r :
  let q := ws_header_state p d (buf_read b) in
  ws_inv q b -> d_len d = zlen payload ->
  vtm_ws_parser_is_control_opcode (d_opcode d) = false ->
  buf_content b = (if d_masked d then vtm_ws_frame_mask_payload payload (d_mask d)
                   else payload) ++ r ->
  exists b', ws_reach malloc_ok q b (set_stage VTM_WS_PARSE_FRAME_FINISH_DATA q) b' /\
    buf_slice b' (payload_begin q) (payload_len q) = Some payload /\ buf_content b' = r.
Proof.
  intros q Hi Hl Hop Hc. pose proof (inv_buf q b Hi) as Hb.
  set (enc := if d_masked d then _ else _) in Hc.
  assert (zlen enc = zlen payload) as Henc.
  { unfold enc. destruct (d_masked d); [apply zlen_mask_from | done]. }
  destruct (content_skip b enc r Hb Hc) as [Hb1 Hc1].
  destruct (buf_data_split b Hb) as (a & z & Hdata & Ha). rewrite Hc, <- app_assoc in Hdata.
  pose proof (zlen_nonneg payload). pose proof (zlen_nonneg r).
  assert (ws_step malloc_ok q b =
    ws_of_option (b' ← ws_unmask q (buf_with_read b (buf_read b + zlen enc));
      Some (WCont (set_stage VTM_WS_PARSE_FRAME_FINISH_DATA q) b'))) as Estep.
  { unfold ws_step, q at 1. cbn [ws_header_state stage]. unfold ws_payload.
    assert (payload_len q = zlen enc) as -> by (rewrite Henc; exact Hl).
    rewrite (avail_prefix b enc r Hb Hc). cbn [negb].
    rewrite vtm_buf_mark_processed_spec by (done || (pose proof (zlen_nonneg enc); rewrite Hc, zlen_app; lia)). cbn [negb Z.eqb].
    assert (vtm_ws_parser_is_control_opcode (opcode q) = false) as -> by exact Hop. done. }
  assert (exists b', ws_unmask q (buf_with_read b (buf_read b + zlen enc)) = Some b' /\
    buf_slice b' (payload_begin q) (payload_len q) = Some payload /\ buf_content b' = r)
    as (b' & Eu & Es & Ec).
  { unfold ws_unmask, q. cbn [ws_header_state masked payload_begin payload_len mask].
    rewrite Hl, <- Ha. unfold enc in *. destruct (d_masked d).
    - rewrite <- Henc, (buf_slice_at _ a _ (r ++ z)) by done. cbn [mbind option_bind].
      eexists. split_and!; [done | |].
      + rewrite Henc. apply (buf_slice_at _ a payload (r ++ z)).
        cbn [buf_with_data buf_with_read buf_data]. rewrite Hdata. unfold vtm_ws_frame_mask_payload.
        rewrite ws_mask_involutive. by rewrite splice_at by (symmetry; apply zlen_mask_from).
      + unfold buf_content. cbn [buf_with_data buf_with_read buf_data
          buf_read buf_used].
        unfold vtm_ws_frame_mask_payload. rewrite ws_mask_involutive.
        rewrite Hdata, splice_at by (by symmetry).
        pose proof (buf_content_len b Hb) as Hz. rewrite Hc, zlen_app in Hz.
        replace (buf_used b) with (zlen a + zlen payload + zlen r) by lia.
        assert (forall m : bytes, zlen m = zlen payload ->
          zdrop (zlen a + zlen payload) (ztake (zlen a + zlen payload + zlen r) (a ++ m ++ r ++ z))
          = r) as Hcut; [|rewrite zlen_mask_from; by apply Hcut].
        intros m Hm. replace (a ++ m ++ r ++ z) with (((a ++ m) ++ r) ++ z)
          by (by rewrite <- !app_assoc).
        rewrite ztake_app_exact by (rewrite !zlen_app; lia). apply zdrop_app_exact.
        rewrite zlen_app. lia.
    - eexists. split_and!; [done | | by rewrite Ha]. by apply (buf_slice_at _ a payload (r ++ z)). }
  rewrite Eu in Estep. exists b'. split_and!; [|done..]. by apply ws_reach_step.
Qed.

(** The bytes of the message that is being assembled. *)
Definition ws_msg_bytes (p : vtm_ws_parser) : bytes :=
  ztake (msg_buf_used p) (default [] (msg_buf p)).

Lemma reach_finish_data q b payload r :
  ws_inv q b -> stage q = VTM_WS_PARSE_FRAME_FINISH_DATA -> ctrl_msg q = None ->
  payload_len q = zlen payload -> msg_buf_used q + zlen payload <= msg_buf_size q ->
  buf_slice b (payload_begin q) (payload_len q) = Some payload -> buf_content b = r ->
  exists p' b', ws_reach malloc_ok q b p' b' /\ buf_content b' = r /\
    stage p' = (if fin q then VTM_WS_PARSE_MSG_COMPLETE else VTM_WS_PARSE_FRAME_BEGIN) /\
    ws_msg_bytes p' = ws_msg_bytes q ++ payload /\
    msg_buf_used p' = msg_buf_used q + zlen payload /\ msg_buf_size p' = msg_buf_size q /\
    msg_frame_count p' = u64 (msg_frame_count q + 1) /\ par_msg_type p' = par_msg_type q /\
    ctrl_msg p' = None /\ mode p' = mode q /\ msg_buf p' <> None.
Proof.
  intros Hi Hs Hctrl Hl Hroom Hsl Hc. pose proof Hi as [Hb _ _ Hsz Hu (d & Hd & Hz & Hud)].
  specialize (Hud ltac:(congruence)). unfold VTM_WS_PARSER_MSG_BUF_MAX in Hsz.
  pose proof (zlen_nonneg payload).
  set (q1 := set_stage VTM_WS_PARSE_FRAME_COMPLETE
    (set_msg (u64 (msg_frame_count q + 1)) (par_msg_type q)
      (set_msg_buf (Some (splice (msg_buf_used q) payload d)) (msg_buf_size q)
        (u64 (msg_buf_used q + payload_len q)) q))).
  assert (ws_reach malloc_ok q b q1 b) as R1.
  { apply ws_reach_step; [done |]. unfold ws_step. rewrite Hs. unfold ws_finish_data,
      ws_msg_buf_grow. rewrite (u64_small (_ - _)) by (unfold is_size, SIZE_MAX; lia).
    destruct (Z.ltb_spec (msg_buf_size q - msg_buf_used q) (payload_len q)); [lia |].
    rewrite Hsl, Hd. cbn [mbind option_bind].
    destruct (Z.leb_spec (msg_buf_used q) (zlen d)); [|lia].
    destruct (Z.leb_spec (msg_buf_used q + payload_len q) (msg_buf_size q)); [done | lia]. }
  destruct (vtm_buf_discard_processed_spec b Hb) as (Hb' & Hc' & _).
  set (q2 := set_stage (if fin q then VTM_WS_PARSE_MSG_COMPLETE
    else VTM_WS_PARSE_FRAME_BEGIN) q1).
  exists q2, (vtm_buf_discard_processed b). split.
  { eapply ws_reach_trans; [exact R1 |]. destruct R1 as [Hi1 _].
    apply ws_reach_step; [done |]. unfold ws_step. cbn [q1 set_stage stage].
    unfold ws_frame_complete. cbn [q1 set_stage set_msg set_msg_buf ctrl_msg fin]. by rewrite Hctrl. }
  rewrite Hc'. unfold q2, q1, ws_msg_bytes. rewrite Hl, (u64_small (msg_buf_used q + _))
    by (unfold is_size, SIZE_MAX; lia). cbn [set_stage set_msg set_msg_buf stage msg_buf
    msg_buf_used msg_buf_size msg_frame_count par_msg_type ctrl_msg mode default from_option].
  rewrite Hd. cbn [default from_option]. split_and!; try done.
  unfold id. apply splice_take. lia.
Qed.

Lemma control_opcode_ge op : 0 <= op < VTM_WS_OPCODE_CLOSE ->
  vtm_ws_parser_is_control_opcode op = false.
Proof.
  unfold vtm_ws_parser_is_control_opcode, VTM_WS_OPCODE_CLOSE, VTM_WS_OPCODE_PING,
    VTM_WS_OPCODE_PONG. intros. rewrite !(proj2 (Z.eqb_neq _ _)) by lia. done.
Qed.

(** A data frame whose payload fits is appended to the message. *)
Lemma reach_data_frame p b d payload r :
  ws_inv p b -> stage p = VTM_WS_PARSE_FRAME_BEGIN -> ctrl_msg p = None ->
  ws_acceptable p d -> d_opcode d < VTM_WS_OPCODE_CLOSE -> d_len d = zlen payload ->
  msg_buf_used p + zlen payload <= msg_buf_size p ->
  buf_content b = ws_frame_bytes d payload ++ r ->
  exists p' b', ws_reach malloc_ok p b p' b' /\ buf_content b' = r /\
    stage p' = (if d_fin d then VTM_WS_PARSE_MSG_COMPLETE else VTM_WS_PARSE_FRAME_BEGIN) /\
    ws_msg_bytes p' = ws_msg_bytes p ++ payload /\
    msg_buf_used p' = msg_buf_used p + zlen payload /\ msg_buf_size p' = msg_buf_size p /\
    msg_frame_count p' = u64 (msg_frame_count p + 1) /\
    par_msg_type p' = ws_next_type p (d_opcode d) /\
    ctrl_msg p' = None /\ mode p' = mode p /\ msg_buf p' <> None.
Proof.
  intros Hi Hs Hctrl Ha Hop Hl Hroom Hc. unfold ws_frame_bytes in Hc.
  rewrite <- app_assoc in Hc.
  destruct (reach_header p b d _ Hi Hs Ha Hc) as [R1 Hc1].
  set (b1 := buf_with_read b _) in *. pose proof R1 as [Hi1 _].
  destruct Ha as [(Ho & _) _ _ _].
  destruct (reach_payload p b1 d payload r Hi1 Hl (control_opcode_ge (d_opcode d) ltac:(lia)) Hc1)
    as (b2 & R2 & Hsl & Hc2). pose proof R2 as [Hi2 _].
  destruct (reach_finish_data _ b2 payload r Hi2 eq_refl Hctrl Hl Hroom Hsl Hc2)
    as (p' & b' & R3 & Hpost).
  exists p', b'. split; [|exact Hpost].
  eapply ws_reach_trans; [exact R1 |]. eapply ws_reach_trans; [exact R2 | exact R3].
Qed.
End parse.

(** ** Messages in frames *)

(** A message in frames: the mask and the payload of each; only the first one
    has the opcode, only the last one the final flag. *)
Fixpoint ws_message_bytes (masked : bool) (op : Z) (frames : list (Z * bytes)) : bytes :=
  match frames with
  | [] => []
  | (m, pl) :: rest =>
      ws_frame_bytes (mk_desc (bool_decide (rest = [])) false false false op masked m (zlen pl)) pl
      ++ ws_message_bytes masked VTM_WS_OPCODE_CONTINUE rest
  end.

Definition ws_message_payload (frames : list (Z * bytes)) : bytes := concat (snd <$> frames).

Definition ws_mode_masks (m : vtm_ws_mode) : bool :=
  match m with VTM_WS_MODE_SERVER => true | VTM_WS_MODE_CLIENT => false end.

Section message.
Context (malloc_ok : Z -> bool).

Lemma ws_small_desc_ok op m mk fin (pl : bytes) :
  0 <= op < 16 -> 0 <= mk <= UINT32_MAX -> zlen pl < 2 ^ 31 ->
  ws_desc_ok (mk_desc fin false false false op m mk (zlen pl)) /\
  Z.testbit (zlen pl) 31 = false.
Proof.
  intros Ho Hm Hl. pose proof (zlen_nonneg pl). split.
  - split_and!; cbn [d_opcode d_mask d_len]; unfold VTM_WS_LEN64_MAX; lia.
  - destruct (Z.eq_dec (zlen pl) 0) as [->|]; [done |].
    apply Z.bits_above_log2; [lia |]. apply Z.log2_lt_pow2; lia.
Qed.

(** The opcode of the next frame of a message. *)
Definition ws_op_ok (count op : Z) : Prop :=
  if count =? 0 then op = VTM_WS_OPCODE_TEXT \/ op = VTM_WS_OPCODE_BINARY
  else op = VTM_WS_OPCODE_CONTINUE.

Lemma ws_small_acceptable p op mk f (pl : bytes) :
  ws_op_ok (msg_frame_count p) op -> 0 <= msg_frame_count p -> 0 <= mk <= UINT32_MAX ->
  zlen pl < 2 ^ 31 ->
  ws_acceptable p (mk_desc f false false false op (ws_mode_masks (mode p)) mk (zlen pl)) /\
  0 <= op < VTM_WS_OPCODE_CLOSE.
Proof.
  intros Hop Hn Hm Hl. unfold ws_op_ok in Hop.
  assert (0 <= op < VTM_WS_OPCODE_CLOSE) as Ho.
  { unfold VTM_WS_OPCODE_TEXT, VTM_WS_OPCODE_BINARY, VTM_WS_OPCODE_CONTINUE,
      VTM_WS_OPCODE_CLOSE in *. destruct (_ =? 0); lia. }
  split; [|done]. destruct (ws_small_desc_ok op (ws_mode_masks (mode p)) mk f pl)
    as [Hd Hb]; [unfold VTM_WS_OPCODE_CLOSE in *; lia | done | done |].
  constructor; [done | | by destruct (mode p) | done].
  unfold ws_check_opcode. cbn [set_flags rsv1 rsv2 rsv3 opcode msg_frame_count fin
    d_rsv1 d_rsv2 d_rsv3 d_opcode d_fin orb].
  destruct (Z.eqb_spec (msg_frame_count p) 0) as [->|Hne].
  - destruct Hop as [-> | ->]; by destruct f.
  - subst op. destruct (Z.ltb_spec (msg_frame_count p) 1); [lia |].
    destruct (0 <? msg_frame_count p); by destruct f.
Qed.

Lemma reach_frames frames p b op r :
  ws_inv p b -> stage p = VTM_WS_PARSE_FRAME_BEGIN -> ctrl_msg p = None ->
  frames <> [] -> Forall (fun f => 0 <= f.1 <= UINT32_MAX) frames ->
  0 <= msg_frame_count p -> msg_frame_count p + zlen frames < 2 ^ 64 ->
  ws_op_ok (msg_frame_count p) op ->
  msg_buf_used p + zlen (ws_message_payload frames) <= msg_buf_size p ->
  buf_content b = ws_message_bytes (ws_mode_masks (mode p)) op frames ++ r ->
  exists p' b', ws_reach malloc_ok p b p' b' /\ buf_content b' = r /\
    stage p' = VTM_WS_PARSE_MSG_COMPLETE /\
    ws_msg_bytes p' = ws_msg_bytes p ++ ws_message_payload frames /\
    msg_buf_size p' = msg_buf_size p /\ par_msg_type p' = ws_next_type p op /\
    msg_buf_used p' = msg_buf_used p + zlen (ws_message_payload frames) /\
    ctrl_msg p' = None /\ mode p' = mode p /\ msg_buf p' <> None.
Proof.
  intros Hi Hs Hctrl Hne Hmask. revert p b op Hi Hs Hctrl Hne.
  induction Hmask as [|[mk pl] rest Hmk Hmask IH]; intros p b op Hi Hs Hctrl Hne Hn Hn2 Hop Hroom Hc;
    [done |]. clear Hne. cbn [fst] in Hmk.
  pose proof (inv_msg_size p b Hi) as Hsz. pose proof (inv_msg_used p b Hi) as Hu.
  unfold VTM_WS_PARSER_MSG_BUF_MAX in Hsz.
  assert (ws_message_payload ((mk, pl) :: rest) = pl ++ ws_message_payload rest) as Epl by done.
  rewrite Epl, zlen_app in Hroom |- *. pose proof (zlen_nonneg (ws_message_payload rest)).
  rewrite zlen_cons in Hn2. pose proof (zlen_nonneg rest). pose proof (zlen_nonneg pl).
  cbn [ws_message_bytes] in Hc. rewrite <- app_assoc in Hc.
  destruct (ws_small_acceptable p op mk (bool_decide (rest = [])) pl Hop Hn Hmk ltac:(lia))
    as [Ha Ho].
  destruct (reach_data_frame malloc_ok p b _ pl _ Hi Hs Hctrl Ha ltac:(cbn; lia) eq_refl
    ltac:(lia) Hc) as (p1 & b1 & R1 & Hc1 & Hs1 & Hm1 & Hu1 & Hz1 & Hn1 & Ht1 & Hc1' & Hmo1 & Hd1).
  cbn [d_fin d_opcode] in Hs1, Ht1. rewrite u64_small in Hn1 by (unfold is_size, SIZE_MAX; lia).
  destruct rest as [|f rest].
  - exists p1, b1. cbn [ws_message_bytes app] in Hc1.
    change (ws_message_payload []) with (@nil Z) in *. rewrite app_nil_r.
    change (zlen (A:=Z) []) with 0. rewrite Z.add_0_r. by split_and!.
  - rewrite bool_decide_false in Hs1 by done. pose proof R1 as [Hi1 _].
    destruct (IH p1 b1 VTM_WS_OPCODE_CONTINUE Hi1 Hs1 Hc1')
      as (p2 & b2 & R2 & Hc2 & Hs2 & Hm2 & Hz2 & Ht2 & Hu2 & Hx2 & Hmo2 & Hd2);
      [done | lia | lia | | lia | by rewrite Hmo1 |].
    { unfold ws_op_ok. destruct (Z.eqb_spec (msg_frame_count p1) 0); [lia | done]. }
    exists p2, b2. split_and!; try congruence; try lia.
    + eapply ws_reach_trans; [exact R1 | exact R2].
    + rewrite Hm2, Hm1. by rewrite app_assoc.
    + rewrite Ht2. unfold ws_next_type at 1.
      destruct (Z.eqb_spec (msg_frame_count p1) 0); [lia | done].
Qed.

(** The parser is ready for a message, and the message that is delivered. *)
Definition ws_ready (p : vtm_ws_parser) (b : vtm_buf) : Prop :=
  ws_inv p b /\ stage p = VTM_WS_PARSE_MSG_BEGIN /\ ctrl_msg p = None.

Definition ws_delivers (p : vtm_ws_parser) (b : vtm_buf) (t : vtm_ws_msg_type) (payload : bytes)
    (rest : bytes) : Prop :=
  exists p1 b1 p2,
    vtm_ws_parser_run malloc_ok p b = Some (WStop VTM_NET_RECV_STAT_COMPLETE VTM_OK p1 b1) /\
    buf_content b1 = rest /\
    vtm_ws_parser_get_msg malloc_ok p1
      = Some (VTM_OK, mk_msg t payload (zlen payload), p2) /\
    ws_ready p2 b1.

Lemma ws_deliver_frames p b ty frames r :
  ws_ready p b -> malloc_ok (msg_buf_size p) = true ->
  ty = VTM_WS_MSG_TEXT \/ ty = VTM_WS_MSG_BINARY ->
  frames <> [] -> Forall (fun f => 0 <= f.1 <= UINT32_MAX) frames -> zlen frames < 2 ^ 64 ->
  zlen (ws_message_payload frames) <= msg_buf_size p ->
  buf_content b = ws_message_bytes (ws_mode_masks (mode p)) (ws_msg_opcode ty) frames ++ r ->
  ws_delivers p b ty (ws_message_payload frames) r.
Proof.
  intros (Hi & Hs & Hctrl) Hm Hty Hne Hmask Hlen Hroom Hc.
  set (p1 := set_stage VTM_WS_PARSE_FRAME_BEGIN (set_msg 0 VTM_WS_MSG_CLOSE
    (set_msg_buf (msg_buf p) (msg_buf_size p) 0 p))).
  assert (ws_reach malloc_ok p b p1 b) as R1.
  { apply ws_reach_step; [done |]. unfold ws_step. by rewrite Hs. }
  pose proof R1 as [Hi1 _].
  destruct (reach_frames frames p1 b (ws_msg_opcode ty) r Hi1 eq_refl Hctrl Hne Hmask)
    as (p2 & b2 & R2 & Hc2 & Hs2 & Hm2 & Hz2 & Ht2 & Hu2 & Hx2 & Hmo2 & Hd2);
    [done | cbn; lia | | cbn; lia | done |].
  { unfold ws_op_ok. cbn. destruct Hty as [-> | ->]; auto. }
  pose proof R2 as [Hi2 _].
  assert (par_msg_type p2 = ty) as Ety.
  { rewrite Ht2. unfold ws_next_type. by destruct Hty as [-> | ->]. }
  set (p3 := set_stage VTM_WS_PARSE_MSG_BEGIN p2).
  destruct (msg_buf p2) as [d|] eqn:Hbuf; [|done].
  pose proof (inv_msg p2 b2 Hi2) as (d' & Hd' & Hzd & Hud). rewrite Hbuf in Hd'.
  injection Hd' as <-. specialize (Hud ltac:(by rewrite Hs2)).
  cbn [p1 set_stage set_msg set_msg_buf msg_buf_used] in Hu2. rewrite Z.add_0_l in Hu2.
  assert (ztake (msg_buf_used p2) d = ws_message_payload frames) as Epl.
  { unfold ws_msg_bytes in Hm2. rewrite Hbuf in Hm2. exact Hm2. }
  exists p3, b2, (set_msg_buf (Some []) (msg_buf_size p3) (msg_buf_used p3) p3). split_and!.
  - eapply ws_reach_run; [done | eapply ws_reach_trans; [exact R1 | exact R2] |].
    apply (vtm_ws_parser_run_of _ 1); [done |]. cbn [ws_run]. unfold ws_step. by rewrite Hs2.
  - done.
  - unfold vtm_ws_parser_get_msg, p3. cbn [set_stage ctrl_msg msg_buf msg_buf_used msg_buf_size
      par_msg_type]. rewrite Hx2, Hbuf, Hz2. cbn [mbind option_bind].
    destruct (Z.leb_spec (msg_buf_used p2) (zlen d)); [|lia].
    change (msg_buf_size p1) with (msg_buf_size p). rewrite Hm.
    unfold vtm_ws_msg_init. by rewrite Epl, Ety, Hu2.
  - unfold p3. split_and!; [| done | exact Hx2]. destruct Hi2 as [? ? _ ? ? _].
    constructor; cbn [set_msg_buf set_stage stage payload_len msg_buf msg_buf_size msg_buf_used];
      auto. exists []. split_and!; [done | change (zlen (A:=Z) []) with 0; lia | done].
Qed.

(** What the two sending functions produce. *)
Lemma ws_header_bytes d : ws_desc_ok d -> Forall is_byte (ws_header d).
Proof.
  intros (Ho & Hm & Hl). unfold ws_header.
  assert (forall x, is_byte (Z.land x 0xff)) as Hff
    by (intros; rewrite land_0xff; apply Z.mod_pos_bound; lia).
  rewrite !Forall_app. split_and!.
  - repeat constructor; apply u8_bounds.
  - unfold ws_header_len16. destruct (_ =? _); auto 10.
  - unfold ws_header_len64. destruct (_ =? _); auto 20.
  - unfold ws_header_mask. destruct (d_masked d); auto 10.
Qed.

Lemma zlen_ws_header d : zlen (ws_header d) <= 14.
Proof.
  unfold ws_header, ws_header_len16, ws_header_len64, ws_header_mask, VTM_WS_LEN16_ID,
    VTM_WS_LEN64_ID.
  destruct (Z.eqb_spec (ws_header_len7 d) 126) as [->|];
    destruct (Z.eqb_spec (ws_header_len7 d) 127), (d_masked d); by vm_compute.
Qed.

Lemma put_ok b l b' : put_outcome b l (b', VTM_OK) ->
  buf_ok b' /\ buf_content b' = buf_content b ++ l /\ buf_read b' = buf_read b.
Proof.
  inversion 1 as [|? ? ? ? ? E1|? Hl ? ? ? E1]; [done | congruence |].
  exfalso. by apply (lost_not_ok _ Hl).
Qed.

Lemma ws_write_header_spec b d b' :
  buf_ok b -> ws_desc_ok d -> vtm_ws_frame_write_header malloc_ok b d = (b', VTM_OK) ->
  buf_ok b' /\ buf_content b' = buf_content b ++ ws_header d /\ buf_read b' = buf_read b.
Proof.
  intros Hb Hd. pose proof Hd as (_ & _ & Hl). unfold vtm_ws_frame_write_header.
  destruct (Z.ltb_spec VTM_WS_LEN64_MAX (d_len d)); [lia |]. intros E.
  pose proof (zlen_ws_header d). pose proof (zlen_nonneg (ws_header d)).
  apply put_ok. rewrite <- E. apply vtm_buf_putm_spec; [done | by apply ws_header_bytes |].
  unfold is_size, SIZE_MAX. lia.
Qed.

Lemma ws_con_send_spec b ty data b' :
  buf_ok b -> Forall is_byte data -> zlen data < 2 ^ 31 ->
  vtm_ws_con_send_msg malloc_ok b ty data = (b', VTM_OK) ->
  buf_ok b' /\
  buf_content b' = buf_content b ++ ws_message_bytes false (ws_msg_opcode ty) [(0, data)].
Proof.
  intros Hb Hby Hl. unfold vtm_ws_con_send_msg.
  destruct (vtm_ws_frame_write_header _ _ _) as [b1 rc] eqn:E.
  destruct (Z.eqb_spec rc VTM_OK) as [->|]; cbn [negb]; [|by intros [= _ ->]].
  destruct (ws_small_desc_ok (ws_msg_opcode ty) false 0 true data) as [Hd _];
    [by destruct ty | done | done |].
  destruct (ws_write_header_spec _ _ _ Hb Hd E) as (Hb1 & Hc1 & _). intros E2.
  pose proof (zlen_nonneg data).
  destruct (put_ok b1 data b') as (Hb2 & Hc2 & _).
  { rewrite <- E2. apply vtm_buf_putm_spec; [done | done | unfold is_size, SIZE_MAX; lia]. }
  split; [done |]. rewrite Hc2, Hc1. cbn [ws_message_bytes]. rewrite app_nil_r.
  unfold ws_frame_bytes. cbn [d_masked]. by rewrite app_assoc.
Qed.

Lemma ws_client_send_spec ty mask data b' :
  Forall is_byte data -> zlen data < 2 ^ 31 -> 0 <= mask <= UINT32_MAX ->
  vtm_ws_client_send malloc_ok ty mask data = Some (b', VTM_OK) ->
  buf_content b' = ws_message_bytes true (ws_msg_opcode ty) [(mask, data)].
Proof.
  intros Hby Hl Hm. unfold vtm_ws_client_send.
  destruct (vtm_ws_frame_write_header _ _ _) as [b1 rc] eqn:E.
  destruct (Z.eqb_spec rc VTM_OK) as [->|]; cbn [negb]; [|by intros [= _ ->]].
  set (d := mk_desc true _ _ _ _ _ _ _) in *.
  destruct (ws_small_desc_ok (ws_msg_opcode ty) true mask true data) as [Hd _];
    [by destruct ty | done | done |]. fold d in Hd.
  destruct (ws_write_header_spec _ _ _ (buf_init_ok _) Hd E) as (Hb1 & Hc1 & Hr1).
  change (buf_content (vtm_buf_init _)) with (@nil Z) in Hc1. cbn [app] in Hc1.
  pose proof (zlen_nonneg data).
  assert (buf_used b1 = zlen (ws_header d)) as Hu.
  { pose proof (buf_content_len b1 Hb1) as Hz. rewrite Hc1, Hr1 in Hz.
    cbn [vtm_buf_init buf_read] in Hz. lia. }
  destruct (vtm_buf_putm malloc_ok b1 data) as [b2 rc] eqn:E2.
  destruct (Z.eqb_spec rc VTM_OK) as [->|]; cbn [negb]; [|by intros [= _ ->]].
  destruct (put_ok b1 data b2) as (Hb2 & Hc2 & Hr2).
  { rewrite <- E2. apply vtm_buf_putm_spec; [done | done | unfold is_size, SIZE_MAX; lia]. }
  destruct (buf_data_split b2 Hb2) as (a & z & Hdata & Ha).
  assert (a = []) as ->. { destruct a; [done |]. rewrite zlen_cons, Hr2, Hr1 in Ha.
    cbn [vtm_buf_init buf_read] in Ha. pose proof (zlen_nonneg a). exfalso; lia. }
  rewrite Hc2, Hc1, <- app_assoc in Hdata. cbn [app] in Hdata.
  rewrite Hu, (buf_slice_at b2 _ data z Hdata). cbn [mbind option_bind]. intros [= <-].
  unfold buf_content. cbn [buf_with_data buf_read buf_used buf_data].
  rewrite Hr2, Hr1, zdrop_0, Hdata, splice_at by apply zlen_mask_from.
  assert (buf_used b2 = zlen (ws_header d) + zlen data) as ->.
  { pose proof (buf_content_len b2 Hb2) as Hz. rewrite Hc2, Hc1, Hr2, Hr1, zlen_app in Hz.
    cbn [vtm_buf_init buf_read] in Hz. lia. }
  cbn [ws_message_bytes]. rewrite app_nil_r. unfold ws_frame_bytes. cbn [d_masked d_mask].
  rewrite app_assoc. apply ztake_app_exact.
  rewrite zlen_app. unfold vtm_ws_frame_mask_payload. by rewrite zlen_mask_from.
Qed.
End message.

(** ** Properties *)

(** A fresh parser, and a receive buffer with the given bytes. *)
Definition ws_junk : vtm_ws_parser :=
  mk_par VTM_WS_MODE_SERVER VTM_WS_PARSE_ERROR true true true true 0 true 7 7 7 None 0 7 7
    VTM_WS_MSG_PONG None.

Definition ws_fresh (m : vtm_ws_mode) : vtm_ws_parser :=
  default ws_junk (vtm_ws_parser_init (fun _ => true) ws_junk m).2.

Definition buf_of (l : bytes) : vtm_buf :=
  (vtm_buf_putm (fun _ => true) (vtm_buf_init VTM_BYTEORDER_LE) l).1.

Lemma buf_of_ok l :
  Forall is_byte l -> zlen l < 2 ^ 31 -> buf_ok (buf_of l).
Proof.
  intros Hby Hl. unfold buf_of. pose proof (zlen_nonneg l).
  apply putm_kept; [done|apply buf_init_ok|done|unfold is_size, SIZE_MAX; lia].
Qed.

Lemma ws_fresh_ready m b : buf_ok b -> ws_ready (ws_fresh m) b.
Proof.
  intros Hb. split_and!; [|done..]. constructor; auto; try (by vm_compute).
  exists []. by vm_compute.
Qed.

(** C9: A WebSocket message, split into any number of frames with any masks,
    whose payload fits into the parser's block, is delivered: the parser
    returns COMPLETE, the message it hands out has the type of the first
    frame and the concatenated, unmasked payloads, the input behind the
    message stays in the buffer and the parser is ready for the next one. *)
Theorem ws_message_roundtrip malloc_ok p b ty frames rest :
  ws_ready p b -> malloc_ok (msg_buf_size p) = true ->
  ty = VTM_WS_MSG_TEXT \/ ty = VTM_WS_MSG_BINARY ->
  frames <> [] -> Forall (fun f => 0 <= f.1 <= UINT32_MAX) frames -> zlen frames < 2 ^ 64 ->
  zlen (ws_message_payload frames) <= msg_buf_size p ->
  buf_content b = ws_message_bytes (ws_mode_masks (mode p)) (ws_msg_opcode ty) frames ++ rest ->
  ws_delivers malloc_ok p b ty (ws_message_payload frames) rest.
Proof. apply ws_deliver_frames. Qed.

Lemma ws_message_roundtrip_witness :
  let frames := [(0x01020304, cstr_of "Hel"%string); (0xa0b0c0d0, cstr_of "lo"%string)] in
  ws_delivers (fun _ => true) (ws_fresh VTM_WS_MODE_SERVER)
    (buf_of (ws_message_bytes true 1 frames ++ [0x88])) VTM_WS_MSG_TEXT
    (cstr_of "Hello"%string) [0x88].
Proof.
  apply (ws_message_roundtrip (fun _ => true) (ws_fresh VTM_WS_MODE_SERVER) (buf_of _)
    VTM_WS_MSG_TEXT [(0x01020304, cstr_of "Hel"%string); (0xa0b0c0d0, cstr_of "lo"%string)]).
  - apply ws_fresh_ready, buf_of_ok; [|reflexivity].
    apply (bool_decide_unpack _). by vm_compute.
  - reflexivity.
  - by left.
  - discriminate.
  - apply (bool_decide_unpack _). by vm_compute.
  - reflexivity.
  - by vm_compute.
  - by vm_compute.
Defined.

(** C27: The two ends fit together.  What [vtm_ws_client_send] writes, a parser
    in server mode delivers as the same message; what [vtm_ws_con_send_msg]
    puts into an empty send buffer, a parser in client mode delivers, for
    text and binary messages that fit into the parser's block. *)
Theorem ws_send_receive malloc_ok ty mask data p b out rest
    (Hty : ty = VTM_WS_MSG_TEXT \/ ty = VTM_WS_MSG_BINARY)
    (Hdata : Forall is_byte data) (Hmask : 0 <= mask <= UINT32_MAX)
    (Hp : ws_ready p b) (Hm : malloc_ok (msg_buf_size p) = true)
    (Hfit : zlen data <= msg_buf_size p) (Hin : buf_content b = buf_content out ++ rest)
    (Hsend :
      match mode p with
      | VTM_WS_MODE_SERVER => vtm_ws_client_send malloc_ok ty mask data = Some (out, VTM_OK)
      | VTM_WS_MODE_CLIENT =>
          vtm_ws_con_send_msg malloc_ok (vtm_buf_init VTM_BYTEORDER_LE) ty data = (out, VTM_OK)
      end) :
  ws_delivers malloc_ok p b ty data rest.
Proof.
  pose proof (inv_msg_size p b (proj1 Hp)) as Hsz. unfold VTM_WS_PARSER_MSG_BUF_MAX in Hsz.
  assert (exists m, 0 <= m <= UINT32_MAX /\ buf_content out
    = ws_message_bytes (ws_mode_masks (mode p)) (ws_msg_opcode ty) [(m, data)]) as (m & Hm2 & Hout).
  { destruct (mode p).
    - exists mask. split; [done |]. eapply ws_client_send_spec; [done | lia | done | exact Hsend].
    - exists 0. split; [by vm_compute |].
      destruct (ws_con_send_spec malloc_ok (vtm_buf_init VTM_BYTEORDER_LE) ty data out)
        as [_ E]; [apply buf_init_ok | done | lia | done | exact E]. }
  rewrite Hout in Hin. pose proof (zlen_nonneg data).
  assert (ws_message_payload [(m, data)] = data) as Epl by apply app_nil_r.
  rewrite <- Epl at 1. apply ws_deliver_frames; rewrite ?Epl; auto; try done.
Qed.

Lemma ws_send_receive_witness :
  ws_delivers (fun _ => true) (ws_fresh VTM_WS_MODE_SERVER)
    (buf_of (buf_content (default (buf_of []) (fst <$> vtm_ws_client_send (fun _ => true)
       VTM_WS_MSG_BINARY 0xdeadbeef [1; 2; 3; 255; 0])))) VTM_WS_MSG_BINARY
    [1; 2; 3; 255; 0] [].
Proof.
  apply (ws_send_receive (fun _ => true) VTM_WS_MSG_BINARY 0xdeadbeef [1; 2; 3; 255; 0]
    (ws_fresh VTM_WS_MODE_SERVER) (buf_of _) (default (buf_of []) (fst <$>
      vtm_ws_client_send (fun _ => true) VTM_WS_MSG_BINARY 0xdeadbeef [1; 2; 3; 255; 0]))).
  - by right.
  - apply (bool_decide_unpack _). by vm_compute.
  - by vm_compute.
  - apply ws_fresh_ready, buf_of_ok; [|by vm_compute].
    apply (bool_decide_unpack _). by vm_compute.
  - reflexivity.
  - by vm_compute.
  - by vm_compute.
  - by vm_compute.
Defined.

(** C26: The input may arrive in pieces.  If the parser asks for more input,
    running it again after the bytes [t] arrived has the same result as
    running it once on the whole input - from every state the parser can be
    in and for every split. *)
Theorem ws_split_input malloc_ok t p b b2 e p' b' :
  ws_inv p b -> buf_ext t b b2 ->
  vtm_ws_parser_run malloc_ok p b = Some (WStop VTM_NET_RECV_STAT_AGAIN e p' b') ->
  ws_inv p' b' /\
  exists b2', buf_ext t b' b2' /\
    vtm_ws_parser_run malloc_ok p' b2' = vtm_ws_parser_run malloc_ok p b2.
Proof.
  intros Hi E Hr. destruct (ws_run_again malloc_ok _ t p b b2 p' b' e Hi E Hr)
    as (Hi' & b2' & E' & Hk).
  split; [done |]. exists b2'. split; [done |].
  assert (forall q c c2, ws_inv q c -> buf_ext t c c2 -> ws_inv q c2) as Hext.
  { intros q c c2 [Hb ? Hp ? ? ?] Ec. constructor; auto; [apply Ec |].
    by rewrite (ext_read _ _ _ Ec). }
  destruct (ws_run_total malloc_ok _ p' b2' (Hext _ _ _ Hi' E')
    (ws_fuel_enough _ _ (Hext _ _ _ Hi' E'))) as (_ & _ & r & Hrun & _).
  unfold vtm_ws_parser_run at 1. rewrite Hrun. destruct (Hk _ _ Hrun) as [k Hk'].
  symmetry. eapply vtm_ws_parser_run_of; [by apply (Hext p b b2) | exact Hk'].
Qed.

Lemma ws_split_input_witness :
  let full := [0x81; 0x82; 1; 2; 3; 4; 0x49; 0x6b] in
  let b := buf_of (take 3 full) in
  let p' := match vtm_ws_parser_run (fun _ => true) (ws_fresh VTM_WS_MODE_SERVER) b with
            | Some (WStop _ _ p' _) => p' | _ => ws_junk end in
  let b' := match vtm_ws_parser_run (fun _ => true) (ws_fresh VTM_WS_MODE_SERVER) b with
            | Some (WStop _ _ _ b') => b' | _ => b end in
  ws_inv p' b' /\
  exists b2', buf_ext (drop 3 full) b' b2' /\
    vtm_ws_parser_run (fun _ => true) p' b2'
    = vtm_ws_parser_run (fun _ => true) (ws_fresh VTM_WS_MODE_SERVER) (buf_of full).
Proof.
  assert (forall l, forallb (fun c => (0 <=? c) && (c <? 256)) l = true -> zlen l < 2 ^ 31 ->
    buf_ok (buf_of l)) as Hok.
  { intros l Hl. apply buf_of_ok. rewrite forallb_forall in Hl. apply Forall_forall.
    intros c Hc%list_elem_of_In%Hl. unfold is_byte. bsplit. lia. }
  apply (ws_split_input (fun _ => true) _ (ws_fresh VTM_WS_MODE_SERVER)
    (buf_of [0x81; 0x82; 1]) (buf_of [0x81; 0x82; 1; 2; 3; 4; 0x49; 0x6b]) VTM_OK).
  - apply ws_fresh_ready, Hok; reflexivity.
  - constructor; try reflexivity; apply Hok; reflexivity.
  - by vm_compute.
Defined.

(** C25: Safety and termination.  From every state that satisfies the
    invariant the parser returns within [ws_fuel] passes of its loop; unless
    it reports an error the invariant holds again, and the only undefined
    behaviour it can reach is the copy behind the message block in the stage
    that appends a data frame (see [ws_msg_buf_overflow_reached]). *)
Theorem ws_run_safe malloc_ok p b :
  ws_inv p b ->
  exists r, vtm_ws_parser_run malloc_ok p b = Some r /\
    match r with
    | WCont _ _ => False
    | WStop s _ p' b' => s = VTM_NET_RECV_STAT_ERROR \/ ws_inv p' b'
    | WUndef => exists q c, ws_inv q c /\ ws_finish_data malloc_ok q c = WUndef /\
        2 * msg_buf_size q < msg_buf_used q + payload_len q
    end.
Proof.
  intros Hi. destruct (ws_run_total malloc_ok _ p b Hi (ws_fuel_enough p b Hi))
    as (q & c & r & Hr & Hq & Er & Hstop).
  exists r. split; [done |]. pose proof (ws_step_inv malloc_ok q c Hq) as Hs. rewrite <- Er in Hs.
  destruct r as [| |]; [done | exact Hs |]. destruct Hs as (Hst & _ & Hov).
  exists q, c. split_and!; [done | | done]. unfold ws_step in Er. by rewrite Hst in Er.
Qed.

Lemma ws_run_safe_witness :
  exists r, vtm_ws_parser_run (fun _ => true) (ws_fresh VTM_WS_MODE_CLIENT) (buf_of [0x81; 0x00])
    = Some r /\
    match r with
    | WCont _ _ => False
    | WStop s _ p' b' => s = VTM_NET_RECV_STAT_ERROR \/ ws_inv p' b'
    | WUndef => exists q c, ws_inv q c /\ ws_finish_data (fun _ => true) q c = WUndef /\
        2 * msg_buf_size q < msg_buf_used q + payload_len q
    end.
Proof.
  apply (ws_run_safe (fun _ => true) (ws_fresh VTM_WS_MODE_CLIENT)).
  apply ws_fresh_ready, buf_of_ok; [|reflexivity]. apply (bool_decide_unpack _). by vm_compute.
Defined.

Lemma ws_finish_data_overflow q p b :
  ws_inv p b -> ws_msg_buf_overflow p -> q (msg_buf_size p * 2) = true ->
  ws_finish_data q p b = WUndef.
Proof.
  intros Hi (Hs & Hsz & Hov) Hq. pose proof Hi as [Hb Hl Hp Hsz2 Hu (d & Hd & Hz & Hud)].
  specialize (Hud ltac:(congruence)). unfold VTM_WS_PARSER_MSG_BUF_MAX,
    VTM_WS_PARSER_MSG_BUF_INIT in *. unfold ws_finish_data, ws_msg_buf_grow.
  rewrite (u64_small (_ - _)) by (unfold is_size, SIZE_MAX; lia).
  destruct (Z.ltb_spec (msg_buf_size p - msg_buf_used p) (payload_len p)); [|lia].
  unfold VTM_WS_PARSER_MSG_BUF_MAX. destruct (Z.ltb_spec (msg_buf_size p) 65536); [|lia].
  rewrite (u64_small (_ * 2)) by (unfold is_size, SIZE_MAX; lia). rewrite Hq.
  cbn [set_msg_buf payload_begin payload_len msg_buf msg_buf_used msg_buf_size].
  destruct (buf_slice b _ _); [|done]. rewrite Hd. cbn [mbind option_bind].
  destruct (Z.leb_spec (msg_buf_used p + payload_len p) (msg_buf_size p * 2)); [lia |].
  by rewrite andb_false_r.
Qed.

(** Defect.  The parser doubles the block of the message at most once per
    frame, whatever the size of the payload, and copies the payload
    nevertheless: a text frame that is larger than twice the block makes the
    copy run behind the block.  A client only has to send one unfragmented
    message of more than 2048 bytes. *)
Theorem ws_msg_buf_overflow_reached malloc_ok p b mask payload rest :
  ws_ready p b -> 0 <= mask <= UINT32_MAX -> zlen payload < 2 ^ 31 ->
  msg_buf_size p < VTM_WS_PARSER_MSG_BUF_MAX -> malloc_ok (msg_buf_size p * 2) = true ->
  2 * msg_buf_size p < zlen payload ->
  buf_content b = ws_message_bytes (ws_mode_masks (mode p)) VTM_WS_OPCODE_TEXT [(mask, payload)]
                  ++ rest ->
  vtm_ws_parser_run malloc_ok p b = Some WUndef.
Proof.
  intros (Hi & Hs & Hctrl) Hmask Hl Hsz Hq Hov Hc. rename malloc_ok into q.
  set (p1 := set_stage VTM_WS_PARSE_FRAME_BEGIN (set_msg 0 VTM_WS_MSG_CLOSE
    (set_msg_buf (msg_buf p) (msg_buf_size p) 0 p))).
  assert (ws_reach q p b p1 b) as R0.
  { apply ws_reach_step; [done |]. unfold ws_step. by rewrite Hs. }
  pose proof R0 as [Hi0 _]. pose proof (zlen_nonneg payload).
  destruct (ws_small_acceptable p1 VTM_WS_OPCODE_TEXT mask true payload) as [Ha Ho];
    [by left | by vm_compute | done | done |].
  cbn [ws_message_bytes] in Hc. rewrite app_nil_r, bool_decide_true in Hc by done.
  unfold ws_frame_bytes in Hc. rewrite <- app_assoc in Hc.
  destruct (reach_header q p1 b _ _ Hi0 eq_refl Ha Hc) as [R1 Hc1].
  set (d := mk_desc _ _ _ _ _ _ _ _) in *. set (b1 := buf_with_read b _) in *.
  pose proof R1 as [Hi1 _].
  destruct (reach_payload q p1 b1 d payload rest Hi1 eq_refl eq_refl Hc1) as (b2 & R2 & Hsl & _).
  set (p2 := set_stage VTM_WS_PARSE_FRAME_FINISH_DATA _) in *. pose proof R2 as [Hi2 _].
  apply (ws_reach_run q p b p2 b2); [done | |].
  { eapply ws_reach_trans; [exact R0 |]. eapply ws_reach_trans; [exact R1 | exact R2]. }
  apply (vtm_ws_parser_run_of q 1); [done |]. cbn [ws_run].
  change (ws_step q p2 b2) with (ws_finish_data q p2 b2).
  rewrite ws_finish_data_overflow; [done | done | | exact Hq].
  split_and!; [done | exact Hsz |]. cbn. lia.
Qed.

Lemma ws_msg_buf_overflow_reached_witness :
  vtm_ws_parser_run (fun _ => true) (ws_fresh VTM_WS_MODE_CLIENT)
    (buf_of (ws_message_bytes false 1 [(0, replicate 2049 65)])) = Some WUndef.
Proof.
  apply (ws_msg_buf_overflow_reached (fun _ => true) (ws_fresh VTM_WS_MODE_CLIENT) (buf_of _) 0
    (replicate 2049 65) []).
  - apply ws_fresh_ready, buf_of_ok; [|by vm_compute].
    apply (bool_decide_unpack _). by vm_compute.
  - by vm_compute.
  - by vm_compute.
  - by vm_compute.
  - reflexivity.
  - by vm_compute.
  - by vm_compute.
Defined.

(** Defect.  At the beginning of a frame the parser returns INVALID
    instead of AGAIN when there is no input.  A fragmented message whose
    frames arrive one by one is therefore rejected, and a read that brings no
    bytes between two messages (the server reads again after every message)
    closes the connection. *)
Theorem ws_no_input_is_invalid malloc_ok p b :
  ws_inv p b -> buf_content b = [] ->
  match stage p with
  | VTM_WS_PARSE_MSG_BEGIN | VTM_WS_PARSE_FRAME_BEGIN | VTM_WS_PARSE_FRAME_FIN_OPCODE => True
  | _ => False
  end ->
  exists p', vtm_ws_parser_run malloc_ok p b
    = Some (WStop VTM_NET_RECV_STAT_INVALID VTM_OK p' b).
Proof.
  intros Hi Hc Hst.
  assert (VTM_BUF_GET_AVAIL b 1 = false) as Ha.
  { apply not_true_iff_false. rewrite get_avail_spec by (apply Hi || zlia). rewrite Hc. by vm_compute. }
  assert (forall q, stage q = VTM_WS_PARSE_FRAME_FIN_OPCODE ->
    ws_run malloc_ok 1 q b = Some (WStop VTM_NET_RECV_STAT_INVALID VTM_OK q b)) as Hfin.
  { intros q Hq. cbn [ws_run]. unfold ws_step, ws_fin_opcode. by rewrite Hq, Ha. }
  assert (forall q, stage q = VTM_WS_PARSE_FRAME_BEGIN -> exists q',
    ws_run malloc_ok 2 q b = Some (WStop VTM_NET_RECV_STAT_INVALID VTM_OK q' b)) as Hbeg.
  { intros q Hq. eexists. cbn [ws_run]. unfold ws_step at 1. rewrite Hq. by apply Hfin. }
  destruct (stage p) eqn:Hs; try done.
  - destruct (Hbeg (set_stage VTM_WS_PARSE_FRAME_BEGIN (set_msg 0 VTM_WS_MSG_CLOSE
      (set_msg_buf (msg_buf p) (msg_buf_size p) 0 p))) eq_refl) as [q' Hq'].
    exists q'. apply (vtm_ws_parser_run_of malloc_ok 3); [done |].
    cbn [ws_run] in Hq' |- *. unfold ws_step at 1. rewrite Hs. exact Hq'.
  - destruct (Hbeg p Hs) as [q' Hq']. exists q'. by apply (vtm_ws_parser_run_of malloc_ok 2).
  - exists p. apply (vtm_ws_parser_run_of malloc_ok 1); [done | by apply Hfin].
Qed.

Lemma ws_no_input_is_invalid_witness :
  exists p', vtm_ws_parser_run (fun _ => true) (ws_fresh VTM_WS_MODE_SERVER) (buf_of [])
    = Some (WStop VTM_NET_RECV_STAT_INVALID VTM_OK p' (buf_of [])).
Proof.
  apply (ws_no_input_is_invalid (fun _ => true) (ws_fresh VTM_WS_MODE_SERVER) (buf_of [])).
  - apply ws_fresh_ready, buf_of_ok; [constructor | reflexivity].
  - reflexivity.
  - exact I.
Defined.

(** The 64-bit length of a frame.  The stage accepts a value exactly if it
    needs the 64-bit form and has bit 31 clear; the protocol (and the comment
    in the code) wants the most significant bit, bit 63, to be clear.  So
    lengths of 2 to 4 GiB are refused, and lengths of 2^63 and more are not. *)
Theorem ws_len64_bit31 p b v rest :
  buf_ok b -> 0 <= v < 2 ^ 64 -> buf_content b = rev (le_bytes 8 v) ++ rest ->
  exists q b',
    buf_content b' = rest /\
    ws_len64 p b =
      (if Z.testbit v 31 || (v <=? VTM_WS_LEN16_MAX)
       then ws_invalid VTM_E_WS_INVALID_PAYLOAD_LEN p b'
       else WCont q b') /\
    stage q = VTM_WS_PARSE_FRAME_MASK32 /\ payload_len q = v.
Proof.
  intros Hb Hv Hc. set (l := rev (le_bytes 8 v)) in *.
  exists (set_stage VTM_WS_PARSE_FRAME_MASK32 (set_payload v (payload_begin p) p)),
    (buf_with_read b (buf_read b + zlen l)).
  split; [by apply (content_skip b l rest)|]. split; [|done].
  unfold ws_len64. rewrite (avail_prefix b l rest Hb Hc : VTM_BUF_GET_AVAIL b 8 = true). cbn [negb].
  rewrite (ws_getc_be_spec 64 l rest 0 b Hb Hc : ws_getc_be 64 8 0 b = _).
  assert (ws_be 64 0 l = v) as Ev by (apply ws_be_le_bytes; lia).
  cbn [mbind option_bind]. rewrite Ev. cbn [ws_of_option default].
  destruct (Z.testbit v 31); [done |]. cbn [orb]. destruct (v <=? VTM_WS_LEN16_MAX); [done |].
  destruct (Z.ltb_spec SIZE_MAX v); [zlia | done].
Qed.

Lemma ws_len64_bit31_witness :
  exists q b', buf_content b' = [] /\
    ws_len64 (ws_fresh VTM_WS_MODE_CLIENT) (buf_of (rev (le_bytes 8 (2 ^ 63 + 65536)))) = WCont q b' /\
    stage q = VTM_WS_PARSE_FRAME_MASK32 /\ payload_len q = 2 ^ 63 + 65536.
Proof.
  apply (ws_len64_bit31 (ws_fresh VTM_WS_MODE_CLIENT)
    (buf_of (rev (le_bytes 8 (2 ^ 63 + 65536)))) (2 ^ 63 + 65536) []).
  - apply buf_of_ok; [|reflexivity]. apply (bool_decide_unpack _). by vm_compute.
  - by vm_compute.
  - by vm_compute.
Defined.
