(* ===== verification/Elem.v ===== *)
(** * Elem: tagged values, core/elem.c, core/convert.c, core/variant.c

    [union vtm_elem] is an 8-byte object: either the word last stored through
    an arithmetic member (with whatever the upper bytes held before) or a
    pointer.  Strings and blobs are not changed while they are referenced, so
    a pointer carries the bytes it points to; NULL has address 0.  Floating
    point members are bit patterns, their arithmetic is that of [spec_float].
    An abort of the program, and undefined behaviour, is [None]. *)

From Stdlib Require Import SpecFloat.
From S2P Require Import Prelude Base Format Str.

(** ** Pointers *)

Record cptr := mk_ptr { p_addr : Z; p_text : bytes }.

Definition NULL : cptr := mk_ptr 0 [].

#[global] Instance cptr_eq_dec : EqDecision cptr.
Proof. solve_decision. Defined.

Definition is_null (p : cptr) : bool := p_addr p =? 0.

(** ** Floating point: bit patterns of [mw]+[ew]+1 bits and their values *)

Module Float.
Section format.
Context (mw ew : Z).

Definition bias : Z := 2 ^ (ew - 1) - 1.
Definition fmin : Z := 1 - bias - mw.

Definition decode (w : Z) : spec_float :=
  let s := Z.testbit w (mw + ew) in
  let e := (w / 2 ^ mw) mod 2 ^ ew in
  let m := w mod 2 ^ mw in
  if e =? 2 ^ ew - 1 then if m =? 0 then S754_infinity s else S754_nan
  else if e =? 0 then
    match m with Zpos p => S754_finite s p fmin | _ => S754_zero s end
  else match m + 2 ^ mw with Zpos p => S754_finite s p (fmin + e - 1) | _ => S754_nan end.

Definition sign_bit (s : bool) : Z := if s then 2 ^ (mw + ew) else 0.

Definition encode (f : spec_float) : Z :=
  match f with
  | S754_zero s => sign_bit s
  | S754_infinity s => sign_bit s + (2 ^ ew - 1) * 2 ^ mw
  | S754_nan => (2 ^ ew - 1) * 2 ^ mw + 2 ^ (mw - 1)
  | S754_finite s m e =>
      if 2 ^ mw <=? Zpos m then sign_bit s + (e - fmin + 1) * 2 ^ mw + (Zpos m - 2 ^ mw)
      else sign_bit s + Zpos m
  end.

(** The value of an integer, rounded to nearest. *)
Definition of_Z (z : Z) : Z := encode (binary_normalize (mw + 1) (bias + 1) z 0 false).

(** Conversion to the nearest value of this format. *)
Definition of_float (f : spec_float) : Z :=
  encode match f with
         | S754_finite s m e => binary_normalize (mw + 1) (bias + 1) (cond_Zopp s (Zpos m)) e s
         | _ => f
         end.
End format.

(** The integer part; there is none for infinities and NaN. *)
Definition trunc (f : spec_float) : option Z :=
  match f with
  | S754_zero _ => Some 0
  | S754_finite s m e =>
      Some (cond_Zopp s (if 0 <=? e then Zpos m * 2 ^ e else Zpos m / 2 ^ (- e)))
  | _ => None
  end.

Abbreviation decode32 := (decode 23 8).
Abbreviation decode64 := (decode 52 11).
End Float.

(** ** core/convert.c and the library functions it calls *)

(** The digits of a non-negative number below [10 ^ fuel]. *)
Fixpoint dec_digits (fuel : nat) (v : Z) (acc : bytes) : bytes :=
  match fuel with
  | O => acc
  | S fuel' => if v <? 10 then (48 + v) :: acc
               else dec_digits fuel' (v / 10) ((48 + v mod 10) :: acc)
  end.

(** printf() with "%lld" and "%llu"; 20 digits suffice for 64 bits. *)
Definition printf_d (v : Z) : bytes :=
  if v <? 0 then 45 :: dec_digits 20 (- v) [] else dec_digits 20 v [].

(** strtoll() and strtoull() for base 10: white space, sign, digits. *)
Fixpoint scan_digits (acc : Z) (s : bytes) : Z :=
  match s with
  | c :: s' => if isdigit c then scan_digits (acc * 10 + (c - 48)) s' else acc
  | [] => acc
  end.

Definition scan_number (s : bytes) : bool * Z :=
  match skip_while isspace s with
  | c :: s' => if c =? 45 then (true, scan_digits 0 s')
               else if c =? 43 then (false, scan_digits 0 s')
               else (false, scan_digits 0 (c :: s'))
  | [] => (false, 0)
  end.

Definition INT64_MAX : Z := 2 ^ 63 - 1.
Definition UINT64_MAX : Z := 2 ^ 64 - 1.

Definition strtoll (s : bytes) : Z :=
  let '(neg, v) := scan_number s in
  let v := if neg then - v else v in
  if v <? INT64_MIN then INT64_MIN else if INT64_MAX <? v then INT64_MAX else v.

Definition strtoull (s : bytes) : Z :=
  let '(neg, v) := scan_number s in
  if UINT64_MAX <? v then UINT64_MAX else if neg then u64 (- v) else v.

(** core/convert.c:12-15 *)
Definition vtm_conv_int64_str (num : Z) : bytes := printf_d num.
(** core/convert.c:17-20 *)
Definition vtm_conv_uint64_str (num : Z) : bytes := printf_d num.
(** core/convert.c:27-43.  The blob is given by its bytes. *)
Definition vtm_conv_blob_str (malloc_ok : Z -> bool) (blob : bytes) : option bytes :=
  let len := zlen blob in
  if len *sz 2 <? len then None
  else if malloc_ok (len *sz 2 +sz 1) then Some (vtm_fmt_hex_mem true blob true).2 else None.
(** core/convert.c:45-48 *)
Definition vtm_conv_str_int64 (s : bytes) : Z := strtoll s.
(** core/convert.c:50-53 *)
Definition vtm_conv_str_uint64 (s : bytes) : Z := strtoull s.

(** ** core/elem.h, core/elem.c *)

(** core/elem.h:25-51 [enum vtm_elem_type] *)
Inductive vtm_elem_type :=
  | VTM_ELEM_NULL | VTM_ELEM_INT8 | VTM_ELEM_UINT8 | VTM_ELEM_INT16 | VTM_ELEM_UINT16
  | VTM_ELEM_INT32 | VTM_ELEM_UINT32 | VTM_ELEM_INT64 | VTM_ELEM_UINT64 | VTM_ELEM_BOOL
  | VTM_ELEM_CHAR | VTM_ELEM_SCHAR | VTM_ELEM_UCHAR | VTM_ELEM_SHORT | VTM_ELEM_USHORT
  | VTM_ELEM_INT | VTM_ELEM_UINT | VTM_ELEM_LONG | VTM_ELEM_ULONG | VTM_ELEM_FLOAT
  | VTM_ELEM_DOUBLE | VTM_ELEM_STRING | VTM_ELEM_BLOB | VTM_ELEM_POINTER.

#[global] Instance vtm_elem_type_eq_dec : EqDecision vtm_elem_type.
Proof. solve_decision. Defined.

(** core/elem.h:53-76 [union vtm_elem] *)
Inductive vtm_elem := ElemWord (w : Z) | ElemPtr (p : cptr).

Definition elem_word (e : vtm_elem) : Z :=
  match e with ElemWord w => w | ElemPtr p => p_addr p end.

(** The pointer member; a word that was not stored as a pointer points to no
    object of the program. *)
Definition elem_pointer (e : vtm_elem) : option cptr :=
  match e with
  | ElemPtr p => Some p
  | ElemWord w => if w =? 0 then Some NULL else None
  end.

(** core/elem.c:17-46 *)
Definition vtm_elem_size (type : vtm_elem_type) : Z :=
  match type with
  | VTM_ELEM_NULL | VTM_ELEM_INT8 | VTM_ELEM_UINT8 | VTM_ELEM_BOOL
  | VTM_ELEM_CHAR | VTM_ELEM_SCHAR | VTM_ELEM_UCHAR => 1
  | VTM_ELEM_INT16 | VTM_ELEM_UINT16 | VTM_ELEM_SHORT | VTM_ELEM_USHORT => 2
  | VTM_ELEM_INT32 | VTM_ELEM_UINT32 | VTM_ELEM_INT | VTM_ELEM_UINT | VTM_ELEM_FLOAT => 4
  | VTM_ELEM_INT64 | VTM_ELEM_UINT64 | VTM_ELEM_LONG | VTM_ELEM_ULONG | VTM_ELEM_DOUBLE
  | VTM_ELEM_STRING | VTM_ELEM_BLOB | VTM_ELEM_POINTER => 8
  end.

(** The members of integer type, with their signedness. *)
Definition elem_int_signed (type : vtm_elem_type) : option bool :=
  match type with
  | VTM_ELEM_INT8 | VTM_ELEM_INT16 | VTM_ELEM_INT32 | VTM_ELEM_INT64 | VTM_ELEM_CHAR
  | VTM_ELEM_SCHAR | VTM_ELEM_SHORT | VTM_ELEM_INT | VTM_ELEM_LONG => Some true
  | VTM_ELEM_UINT8 | VTM_ELEM_UINT16 | VTM_ELEM_UINT32 | VTM_ELEM_UINT64 | VTM_ELEM_UCHAR
  | VTM_ELEM_USHORT | VTM_ELEM_UINT | VTM_ELEM_ULONG => Some false
  | _ => None
  end.

(** Conversion of an integer to an integer type of [n] bytes. *)
Definition cast_int (n : Z) (signed : bool) (v : Z) : Z :=
  if signed then swrap (8 * n) v else wrap (8 * n) v.

(** The value of the member of an integer type. *)
Definition elem_int (type : vtm_elem_type) (signed : bool) (e : vtm_elem) : Z :=
  cast_int (vtm_elem_size type) signed (elem_word e).

Definition elem_bool (e : vtm_elem) : bool := negb (wrap 8 (elem_word e) =? 0).
Definition elem_float (e : vtm_elem) : Z := wrap 32 (elem_word e).
Definition elem_double (e : vtm_elem) : Z := wrap 64 (elem_word e).

(** A store to a member of [n] bytes keeps the other bytes of the union. *)
Definition elem_store (n v : Z) (junk : Z) : vtm_elem :=
  ElemWord (wrap 64 (junk - junk mod 2 ^ (8 * n) + v mod 2 ^ (8 * n))).

(** What va_arg() yields: integers and doubles are promoted. *)
Inductive va_arg := VaInt (v : Z) | VaDouble (bits : Z) | VaPtr (p : cptr).

(** core/elem.c:48-146 *)
Definition vtm_elem_parse (type : vtm_elem_type) (junk : Z) (arg : va_arg) : option vtm_elem :=
  match type, arg with
  | VTM_ELEM_BOOL, VaInt v => Some (elem_store 1 (Z.b2z (negb (v =? 0))) junk)
  | VTM_ELEM_FLOAT, VaDouble d => Some (elem_store 4 (Float.of_float 23 8 (Float.decode64 d)) junk)
  | VTM_ELEM_DOUBLE, VaDouble d => Some (elem_store 8 d junk)
  | (VTM_ELEM_STRING | VTM_ELEM_BLOB | VTM_ELEM_POINTER), VaPtr p => Some (ElemPtr p)
  | _, VaInt v =>
      match elem_int_signed type with
      | Some _ => Some (elem_store (vtm_elem_size type) v junk)
      | None => None
      end
  | _, _ => None
  end.

(** A floating point value converted to an integer type: its integer part,
    which has to be representable. *)
Definition cast_float (n : Z) (signed : bool) (f : spec_float) : option Z :=
  v ← Float.trunc f;
  if cast_int n signed v =? v then Some v else None.

(** core/elem.c:150-178 [VTM_ELEM_CONV_NUMERIC].  [n] is the size of the result
    type.  In the lines for BOOL and below the cast applies to the condition. *)
Definition VTM_ELEM_CONV_NUMERIC (n : Z) (type : vtm_elem_type) (src : vtm_elem) : option Z :=
  match type with
  | VTM_ELEM_NULL => None
  | VTM_ELEM_BOOL => Some (Z.b2z (elem_bool src))
  | VTM_ELEM_FLOAT => cast_float n true (Float.decode32 (elem_float src))
  | VTM_ELEM_DOUBLE => cast_float n true (Float.decode64 (elem_double src))
  | VTM_ELEM_STRING =>
      p ← elem_pointer src;
      if is_null p then None else Some (cast_int n true (vtm_conv_str_int64 (p_text p)))
  | VTM_ELEM_BLOB => Some 0
  | VTM_ELEM_POINTER => Some (cast_int n true (swrap 64 (elem_word src)))
  | _ => signed ← elem_int_signed type; Some (cast_int n true (elem_int type signed src))
  end.

(** core/elem.c:180-208 [VTM_ELEM_CONV_UNUMERIC] *)
Definition VTM_ELEM_CONV_UNUMERIC (n : Z) (type : vtm_elem_type) (src : vtm_elem) : option Z :=
  match type with
  | VTM_ELEM_NULL => None
  | VTM_ELEM_BOOL => Some (Z.b2z (elem_bool src))
  | VTM_ELEM_FLOAT => cast_float n false (Float.decode32 (elem_float src))
  | VTM_ELEM_DOUBLE => cast_float n false (Float.decode64 (elem_double src))
  | VTM_ELEM_STRING =>
      p ← elem_pointer src;
      if is_null p then None else Some (cast_int n false (vtm_conv_str_uint64 (p_text p)))
  | VTM_ELEM_BLOB => Some 0
  | VTM_ELEM_POINTER => Some (cast_int n false (wrap 64 (elem_word src)))
  | _ => signed ← elem_int_signed type; Some (cast_int n false (elem_int type signed src))
  end.

(** core/elem.c:210-324 [vtm_elem_as_int8 and the 15 functions behind it].  The
    function for the integer type [rtype]. *)
Definition vtm_elem_as_integer (rtype type : vtm_elem_type) (src : vtm_elem) : option Z :=
  match elem_int_signed rtype with
  | Some true => VTM_ELEM_CONV_NUMERIC (vtm_elem_size rtype) type src
  | Some false => VTM_ELEM_CONV_UNUMERIC (vtm_elem_size rtype) type src
  | None => None
  end.

(** core/elem.c:14-15 *)
Definition VTM_ELEM_BOOL_TRUE : bytes := cstr_of "TRUE"%string.
Definition VTM_ELEM_BOOL_FALSE : bytes := cstr_of "FALSE"%string.

Definition float_nonzero (f : spec_float) : bool :=
  match f with S754_zero _ => false | _ => true end.

(** core/elem.c:250-279.  There is no case for SCHAR. *)
Definition vtm_elem_as_bool (type : vtm_elem_type) (src : vtm_elem) : option bool :=
  match type with
  | VTM_ELEM_NULL | VTM_ELEM_SCHAR => None
  | VTM_ELEM_BOOL => Some (elem_bool src)
  | VTM_ELEM_FLOAT => Some (float_nonzero (Float.decode32 (elem_float src)))
  | VTM_ELEM_DOUBLE => Some (float_nonzero (Float.decode64 (elem_double src)))
  | VTM_ELEM_STRING =>
      p ← elem_pointer src;
      if is_null p then None else Some (strcmp_eq VTM_ELEM_BOOL_TRUE (p_text p))
  | VTM_ELEM_BLOB | VTM_ELEM_POINTER => Some false
  | _ => signed ← elem_int_signed type; Some (negb (elem_int type signed src =? 0))
  end.

(** core/elem.c:334-363.  The result is a bit pattern; [strtod] is the library
    function. *)
Definition vtm_elem_as_double (strtod : bytes -> Z) (type : vtm_elem_type) (src : vtm_elem)
    : option Z :=
  match type with
  | VTM_ELEM_NULL => None
  | VTM_ELEM_BOOL => Some (Float.of_Z 52 11 (Z.b2z (elem_bool src)))
  | VTM_ELEM_FLOAT => Some (Float.of_float 52 11 (Float.decode32 (elem_float src)))
  | VTM_ELEM_DOUBLE => Some (elem_double src)
  | VTM_ELEM_STRING => p ← elem_pointer src; if is_null p then None else Some (strtod (p_text p))
  | VTM_ELEM_BLOB | VTM_ELEM_POINTER => Some 0
  | _ => signed ← elem_int_signed type; Some (Float.of_Z 52 11 (elem_int type signed src))
  end.

(** core/elem.c:326-332 *)
Definition vtm_elem_as_float (strtod : bytes -> Z) (type : vtm_elem_type) (src : vtm_elem)
    : option Z :=
  if decide (type = VTM_ELEM_FLOAT) then Some (elem_float src)
  else d ← vtm_elem_as_double strtod type src; Some (Float.of_float 23 8 (Float.decode64 d)).

(** core/elem.c:365-395.  The text of the result, the inner [None] is NULL; for
    strings it is the string itself, otherwise a new block.  The outer [None] is
    the abort for a value without a type, and a blob that is NULL.  [printf_g]
    prints a double. *)
Definition vtm_elem_as_str (malloc_ok : Z -> bool) (printf_g : Z -> bytes)
    (type : vtm_elem_type) (src : vtm_elem) : option (option bytes) :=
  match type with
  | VTM_ELEM_NULL => None
  | VTM_ELEM_BOOL => Some (Some (if elem_bool src then VTM_ELEM_BOOL_TRUE else VTM_ELEM_BOOL_FALSE))
  | VTM_ELEM_FLOAT => Some (Some (printf_g (Float.of_float 52 11 (Float.decode32 (elem_float src)))))
  | VTM_ELEM_DOUBLE => Some (Some (printf_g (elem_double src)))
  | VTM_ELEM_STRING => p ← elem_pointer src; Some (if is_null p then None else Some (p_text p))
  | VTM_ELEM_BLOB =>
      p ← elem_pointer src; if is_null p then None else Some (vtm_conv_blob_str malloc_ok (p_text p))
  | VTM_ELEM_POINTER => Some (Some (vtm_conv_uint64_str (wrap 64 (elem_word src))))
  | _ => signed ← elem_int_signed type;
         let v := elem_int type signed src in
         Some (Some (if signed : bool then vtm_conv_int64_str v else vtm_conv_uint64_str v))
  end.

(** core/elem.c:397-403 *)
Definition vtm_elem_as_blob (type : vtm_elem_type) (src : vtm_elem) : option cptr :=
  if decide (type = VTM_ELEM_BLOB) then elem_pointer src else Some NULL.

(** core/elem.c:405-411 *)
Definition vtm_elem_as_ptr (type : vtm_elem_type) (src : vtm_elem) : option cptr :=
  if decide (type = VTM_ELEM_POINTER) then elem_pointer src else Some NULL.

(** core/elem.c:524-540 *)
Definition vtm_elem_cmp_blob (e1 e2 : vtm_elem) : option bool :=
  p1 ← elem_pointer e1; p2 ← elem_pointer e2;
  if is_null p1 && is_null p2 then Some true
  else if is_null p1 || is_null p2 then Some false
  else if negb (zlen (p_text p1) =? zlen (p_text p2)) then Some false
  else Some (bool_decide (p_text p1 = p_text p2)).

(** core/elem.c:519-522 *)
Definition vtm_elem_cmp_strcase (e1 e2 : vtm_elem) : option bool :=
  p1 ← elem_pointer e1; p2 ← elem_pointer e2;
  if is_null p1 || is_null p2 then None
  else Some (vtm_str_casecmp (p_text p1) (p_text p2) =? 0).

(** core/elem.c:414-517 [the comparison functions of the other types], chosen
    by [vtm_elem_get_cmp_fn]; NULL strings are not allowed *)
Definition vtm_elem_cmp (type : vtm_elem_type) (e1 e2 : vtm_elem) : option bool :=
  match type with
  | VTM_ELEM_NULL => None
  | VTM_ELEM_BOOL => Some (Bool.eqb (elem_bool e1) (elem_bool e2))
  | VTM_ELEM_FLOAT =>
      Some (SFeqb (Float.decode32 (elem_float e1)) (Float.decode32 (elem_float e2)))
  | VTM_ELEM_DOUBLE =>
      Some (SFeqb (Float.decode64 (elem_double e1)) (Float.decode64 (elem_double e2)))
  | VTM_ELEM_STRING =>
      p1 ← elem_pointer e1; p2 ← elem_pointer e2;
      if is_null p1 || is_null p2 then None else Some (strcmp_eq (p_text p1) (p_text p2))
  | VTM_ELEM_BLOB => vtm_elem_cmp_blob e1 e2
  | VTM_ELEM_POINTER => Some (wrap 64 (elem_word e1) =? wrap 64 (elem_word e2))
  | _ => signed ← elem_int_signed type; Some (elem_int type signed e1 =? elem_int type signed e2)
  end.

(** core/elem.c:547-578.  There is none for NULL. *)
Definition vtm_elem_get_cmp_fn (type : vtm_elem_type)
    : option (vtm_elem -> vtm_elem -> option bool) :=
  match type with VTM_ELEM_NULL => None | _ => Some (vtm_elem_cmp type) end.

(** ** core/variant.h, core/variant.c *)

(** core/variant.h:23-31 [struct vtm_variant].  [v_str] is the cached text. *)
Record vtm_variant := mk_variant {
  v_data : vtm_elem;
  v_type : vtm_elem_type;
  v_str : option bytes
}.

(** core/variant.c:19-22 *)
Definition vtm_variant_init (v : vtm_variant) : vtm_variant :=
  mk_variant (v_data v) (v_type v) None.

(** core/variant.c:30-68 [vtm_variant_as_int8 ... vtm_variant_as_ulong] *)
Definition vtm_variant_as_integer (rtype : vtm_elem_type) (v : vtm_variant) : option Z :=
  vtm_elem_as_integer rtype (v_type v) (v_data v).
(** core/variant.c:70-73 *)
Definition vtm_variant_as_bool (v : vtm_variant) : option bool :=
  vtm_elem_as_bool (v_type v) (v_data v).
(** core/variant.c:120-123 *)
Definition vtm_variant_as_float strtod (v : vtm_variant) : option Z :=
  vtm_elem_as_float strtod (v_type v) (v_data v).
(** core/variant.c:125-128 *)
Definition vtm_variant_as_double strtod (v : vtm_variant) : option Z :=
  vtm_elem_as_double strtod (v_type v) (v_data v).
(** core/variant.c:130-136.  The text is computed once.  [None]: the program
    aborts. *)
Definition vtm_variant_as_str malloc_ok printf_g (v : vtm_variant)
    : option (option bytes * vtm_variant) :=
  match v_str v with
  | Some s => Some (Some s, v)
  | None =>
      s ← vtm_elem_as_str malloc_ok printf_g (v_type v) (v_data v);
      Some (s, mk_variant (v_data v) (v_type v) s)
  end.
(** core/variant.c:138-141 *)
Definition vtm_variant_as_blob (v : vtm_variant) : option cptr :=
  vtm_elem_as_blob (v_type v) (v_data v).
(** core/variant.c:143-146 *)
Definition vtm_variant_as_ptr (v : vtm_variant) : option cptr :=
  vtm_elem_as_ptr (v_type v) (v_data v).

(** core/variant.c:148-157 *)
Definition vtm_variant_from_null : vtm_variant := mk_variant (ElemPtr NULL) VTM_ELEM_NULL None.
(** core/variant.c:159-247 [vtm_variant_from_int8 ... vtm_variant_from_ulong].
    [junk] is what the union held before. *)
Definition vtm_variant_from_integer (type : vtm_elem_type) (junk val : Z) : vtm_variant :=
  mk_variant (elem_store (vtm_elem_size type) val junk) type None.
Definition vtm_variant_from_bool (junk : Z) (val : bool) : vtm_variant :=
  mk_variant (elem_store 1 (Z.b2z val) junk) VTM_ELEM_BOOL None.
(** core/variant.c:249-252 *)
Definition vtm_variant_from_float (junk bits : Z) : vtm_variant :=
  mk_variant (elem_store 4 bits junk) VTM_ELEM_FLOAT None.
(** core/variant.c:254-257 *)
Definition vtm_variant_from_double (junk bits : Z) : vtm_variant :=
  mk_variant (elem_store 8 bits junk) VTM_ELEM_DOUBLE None.
(** core/variant.c:259-262 *)
Definition vtm_variant_from_str (p : cptr) : vtm_variant :=
  mk_variant (ElemPtr p) VTM_ELEM_STRING None.
(** core/variant.c:264-267 *)
Definition vtm_variant_from_blob (p : cptr) : vtm_variant :=
  mk_variant (ElemPtr p) VTM_ELEM_BLOB None.
(** core/variant.c:269-272 *)
Definition vtm_variant_from_ptr (p : cptr) : vtm_variant :=
  mk_variant (ElemPtr p) VTM_ELEM_POINTER None.

(** ** Lemmas: members of the union *)

Lemma wrap_wrap_le n m x : 0 <= n <= m -> wrap n (wrap m x) = wrap n x.
Proof.
  intros H. unfold wrap. apply Z.mod_mod_divide.
  exists (2 ^ (m - n)). rewrite <- Z.pow_add_r by lia. f_equal. lia.
Qed.

Lemma elem_store_word n v junk :
  0 < n <= 8 -> wrap (8 * n) (elem_word (elem_store n v junk)) = wrap (8 * n) v.
Proof.
  intros Hn. unfold elem_store, elem_word. rewrite wrap_wrap_le by lia. unfold wrap.
  pose proof (Z.div_mod junk (2 ^ (8 * n)) ltac:(apply Z.pow_nonzero; lia)) as E.
  replace (junk - junk mod 2 ^ (8 * n)) with ((junk / 2 ^ (8 * n)) * 2 ^ (8 * n)) by lia.
  rewrite Z.add_comm, Z_mod_plus_full, Zmod_mod. done.
Qed.

Lemma cast_int_wrap n s v : 0 < n -> cast_int n s (wrap (8 * n) v) = cast_int n s v.
Proof.
  intros. unfold cast_int. destruct s; [apply swrap_wrap; lia | apply wrap_wrap].
Qed.

(** A member is read back as the stored value, converted to its type. *)
Lemma elem_int_store type signed v junk :
  elem_int_signed type = Some signed ->
  elem_int type signed (elem_store (vtm_elem_size type) v junk)
  = cast_int (vtm_elem_size type) signed v.
Proof.
  intros Hs. assert (0 < vtm_elem_size type <= 8) as Hz by (destruct type; cbn; lia).
  unfold elem_int. rewrite <- cast_int_wrap by lia. rewrite elem_store_word by done.
  apply cast_int_wrap. lia.
Qed.

(** The range of an integer type of [n] bytes. *)
Definition int_range (n : Z) (signed : bool) (v : Z) : Prop :=
  if signed then - 2 ^ (8 * n - 1) <= v < 2 ^ (8 * n - 1) else 0 <= v < 2 ^ (8 * n).

Lemma cast_int_id n signed v : 0 < n -> int_range n signed v -> cast_int n signed v = v.
Proof.
  intros Hn. unfold int_range, cast_int. destruct signed; intros.
  - apply swrap_small; lia.
  - by apply wrap_small.
Qed.

Lemma vtm_elem_as_integer_of_int rtype rsigned type signed src :
  elem_int_signed rtype = Some rsigned -> elem_int_signed type = Some signed ->
  vtm_elem_as_integer rtype type src
  = Some (cast_int (vtm_elem_size rtype) rsigned (elem_int type signed src)).
Proof.
  intros Hr Ht. unfold vtm_elem_as_integer. rewrite Hr.
  destruct rsigned, type; cbn in Ht; try discriminate; by injection Ht as <-.
Qed.

(** ** Lemmas: decimal text *)

Lemma dec_digits_scan fuel v acc0 tail :
  0 <= v < 10 ^ Z.of_nat fuel ->
  scan_digits acc0 (dec_digits fuel v tail)
  = scan_digits (acc0 * 10 ^ zlen (dec_digits fuel v []) + v) tail /\
  dec_digits fuel v tail = dec_digits fuel v [] ++ tail /\
  (fuel <> 0%nat -> exists c s, dec_digits fuel v [] = c :: s /\ isdigit c = true).
Proof.
  revert v acc0 tail. induction fuel as [|fuel IH]; intros v acc0 tail Hv.
  - assert (v = 0) as -> by (change (10 ^ Z.of_nat 0) with 1 in Hv; lia). cbn [dec_digits].
    change (zlen (A:=Z) []) with 0. rewrite Z.mul_1_r, Z.add_0_r. done.
  - cbn [dec_digits]. destruct (Z.ltb_spec v 10) as [Hlt|Hge].
    + assert (isdigit (48 + v) = true) as Hd by (unfold isdigit; apply andb_true_intro;
        split; apply Z.leb_le; lia).
      cbn [scan_digits]. rewrite Hd. change (zlen [48 + v]) with 1.
      split_and!; [f_equal; lia | done | eauto].
    + replace (Z.of_nat (S fuel)) with (Z.of_nat fuel + 1) in Hv by lia.
      rewrite Z.pow_add_r in Hv by lia.
      assert (0 <= v / 10 < 10 ^ Z.of_nat fuel) as Hq by dlia.
      assert (0 <= v mod 10 < 10) as Hm by dlia.
      assert (isdigit (48 + v mod 10) = true) as Hd by (unfold isdigit; apply andb_true_intro;
        split; apply Z.leb_le; lia).
      destruct (IH (v / 10) acc0 ((48 + v mod 10) :: tail) Hq) as (E1 & E2 & E3).
      destruct (IH (v / 10) 0 [48 + v mod 10] Hq) as (_ & E4 & _).
      rewrite E1, E4. cbn [scan_digits]. rewrite Hd. split_and!.
      * f_equal. rewrite zlen_app. change (zlen [_]) with 1.
        rewrite Z.pow_add_r by (try lia; apply zlen_nonneg). dlia.
      * rewrite E2, <- app_assoc. done.
      * intros _. destruct E3 as (c & s & -> & Hc); [|by exists c, (s ++ [48 + v mod 10])].
        intros ->. change (10 ^ Z.of_nat 0) with 1 in Hq. dlia.
Qed.

Lemma scan_digits_dec v : 0 <= v < 10 ^ 20 -> scan_digits 0 (dec_digits 20 v []) = v.
Proof. intros Hv. destruct (dec_digits_scan 20 v 0 [] Hv) as (-> & _). cbn. lia. Qed.

Lemma scan_number_printf v :
  - 10 ^ 20 < v < 10 ^ 20 -> scan_number (printf_d v) = (v <? 0, Z.abs v).
Proof.
  intros Hv. unfold printf_d, scan_number. destruct (Z.ltb_spec v 0).
  - cbn [skip_while]. change (isspace 45) with false. cbn iota.
    rewrite Z.eqb_refl. rewrite scan_digits_dec by lia. f_equal. lia.
  - destruct (dec_digits_scan 20 v 0 [] ltac:(lia)) as (_ & _ & (c & s & E & Hc)); [done |].
    pose proof (scan_digits_dec v ltac:(lia)) as Hs. rewrite E in Hs |- *.
    assert (48 <= c <= 57) as Hc2 by (unfold isdigit in Hc; bsplit; lia).
    assert (isspace c = false) as Hsp.
    { unfold isspace. apply orb_false_intro; [apply Z.eqb_neq; lia |].
      apply andb_false_intro2. apply Z.leb_gt. lia. }
    cbn [skip_while]. rewrite Hsp.
    destruct (Z.eqb_spec c 45); [lia |]. destruct (Z.eqb_spec c 43); [lia |].
    rewrite Hs. f_equal. lia.
Qed.

Lemma strtoll_printf v : int_range 8 true v -> strtoll (printf_d v) = v.
Proof.
  unfold int_range. intros Hv. unfold strtoll. rewrite scan_number_printf by lia.
  unfold INT64_MIN, INT64_MAX. destruct (Z.ltb_spec v 0).
  - replace (- Z.abs v) with v by lia. repeat bcase; lia.
  - replace (Z.abs v) with v by lia. repeat bcase; lia.
Qed.

Lemma strtoull_printf v : int_range 8 false v -> strtoull (printf_d v) = v.
Proof.
  unfold int_range. intros Hv. unfold strtoull. rewrite scan_number_printf by lia.
  unfold UINT64_MAX. destruct (Z.ltb_spec v 0); [lia |].
  replace (Z.abs v) with v by lia. bcase; lia.
Qed.

(** ** Properties *)

Lemma int_range_widen n m s v : 0 < n <= m -> int_range n s v -> int_range m s v.
Proof.
  intros H. unfold int_range. destruct s; intros.
  - assert (2 ^ (8 * n - 1) <= 2 ^ (8 * m - 1)) by (apply Z.pow_le_mono_r; lia). lia.
  - assert (2 ^ (8 * n) <= 2 ^ (8 * m)) by (apply Z.pow_le_mono_r; lia). lia.
Qed.

(** Conversion between integer types.  A value put into a variant of any
    integer type, whatever the union held before, is read as any integer type
    with exactly the conversion of C between the two types; if the value fits
    both types it is read unchanged. *)
Theorem variant_integer_conversion type signed rtype rsigned junk v :
  elem_int_signed type = Some signed -> elem_int_signed rtype = Some rsigned ->
  vtm_variant_as_integer rtype (vtm_variant_from_integer type junk v)
  = Some (cast_int (vtm_elem_size rtype) rsigned (cast_int (vtm_elem_size type) signed v)) /\
  (int_range (vtm_elem_size type) signed v -> int_range (vtm_elem_size rtype) rsigned v ->
   vtm_variant_as_integer rtype (vtm_variant_from_integer type junk v) = Some v).
Proof.
  intros Ht Hr. unfold vtm_variant_as_integer, vtm_variant_from_integer. cbn [v_type v_data].
  rewrite (vtm_elem_as_integer_of_int rtype rsigned type signed) by done.
  rewrite elem_int_store by done. split; [done |]. intros H1 H2.
  assert (0 < vtm_elem_size type) by (destruct type; cbn; lia).
  assert (0 < vtm_elem_size rtype) by (destruct rtype; cbn; lia).
  by rewrite (cast_int_id (vtm_elem_size type)), cast_int_id.
Qed.

Lemma variant_integer_conversion_witness :
  vtm_variant_as_integer VTM_ELEM_UINT8 (vtm_variant_from_integer VTM_ELEM_SHORT 0xcccccccc (-2))
  = Some 254 /\
  (int_range 2 true (-2) -> int_range 1 false (-2) ->
   vtm_variant_as_integer VTM_ELEM_UINT8 (vtm_variant_from_integer VTM_ELEM_SHORT 0xcccccccc (-2))
   = Some (-2)).
Proof.
  apply (variant_integer_conversion VTM_ELEM_SHORT true VTM_ELEM_UINT8 false 0xcccccccc (-2));
    reflexivity.
Defined.

(** Text round trip.  The string form of an integer variant, put into a
    string variant, is read back as the same integer, for every integer type
    and every value of it; the second time the string form is asked for, the
    cached text is returned. *)
Theorem variant_text_roundtrip malloc_ok printf_g type signed junk v addr
    (Ht : elem_int_signed type = Some signed) (Hv : int_range (vtm_elem_size type) signed v)
    (Haddr : addr <> 0) :
  exists s var',
    vtm_variant_as_str malloc_ok printf_g (vtm_variant_from_integer type junk v)
      = Some (Some s, var') /\
    vtm_variant_as_str malloc_ok printf_g var' = Some (Some s, var') /\
    vtm_variant_as_integer type (vtm_variant_from_str (mk_ptr addr s)) = Some v.
Proof.
  assert (0 < vtm_elem_size type <= 8) as Hz by (destruct type; cbn; lia).
  assert (vtm_elem_as_str malloc_ok printf_g type (elem_store (vtm_elem_size type) v junk)
    = Some (Some (printf_d v))) as E.
  { assert (elem_int type signed (elem_store (vtm_elem_size type) v junk) = v) as Ei.
    { rewrite elem_int_store by done. apply cast_int_id; [lia | done]. }
    destruct type; cbn in Ht; try discriminate; injection Ht as <-;
      cbn [vtm_elem_as_str elem_int_signed mbind option_bind]; by rewrite Ei. }
  exists (printf_d v), (mk_variant (elem_store (vtm_elem_size type) v junk) type (Some (printf_d v))).
  unfold vtm_variant_as_str, vtm_variant_from_integer. cbn [v_str v_type v_data].
  rewrite E. split_and!; [done | done |].
  unfold vtm_variant_as_integer, vtm_elem_as_integer, vtm_variant_from_str. cbn [v_type v_data].
  rewrite Ht. pose proof (int_range_widen _ 8 _ _ Hz Hv) as Hw.
  assert (is_null (mk_ptr addr (printf_d v)) = false) as Hn by by apply Z.eqb_neq.
  destruct signed; cbn [VTM_ELEM_CONV_NUMERIC VTM_ELEM_CONV_UNUMERIC elem_pointer mbind option_bind
    p_text]; rewrite Hn; unfold vtm_conv_str_int64, vtm_conv_str_uint64;
    rewrite ?strtoll_printf, ?strtoull_printf, cast_int_id by (done || lia); done.
Qed.

Lemma variant_text_roundtrip_witness :
  exists s var',
    vtm_variant_as_str (fun _ => true) (fun _ => []) (vtm_variant_from_integer VTM_ELEM_INT64 7 (-2 ^ 63))
      = Some (Some s, var') /\
    vtm_variant_as_str (fun _ => true) (fun _ => []) var' = Some (Some s, var') /\
    vtm_variant_as_integer VTM_ELEM_INT64 (vtm_variant_from_str (mk_ptr 4096 s)) = Some (-2 ^ 63).
Proof.
  apply (variant_text_roundtrip (fun _ => true) (fun _ => []) VTM_ELEM_INT64 true 7 (-2 ^ 63) 4096);
    [reflexivity | by vm_compute | lia].
Defined.

(** Defect.  A signed char has an integer value and a text, but asking for
    its truth value aborts the program: [vtm_elem_as_bool] has no case for
    SCHAR.  All other integer types have the truth value of C. *)
Theorem variant_bool_conversion type signed junk v :
  elem_int_signed type = Some signed ->
  vtm_variant_as_bool (vtm_variant_from_integer type junk v) =
    (if decide (type = VTM_ELEM_SCHAR) then None
     else Some (negb (cast_int (vtm_elem_size type) signed v =? 0))) /\
  is_Some (vtm_variant_as_integer type (vtm_variant_from_integer type junk v)).
Proof.
  intros Ht. unfold vtm_variant_as_bool, vtm_variant_as_integer, vtm_variant_from_integer.
  cbn [v_type v_data].
  rewrite (vtm_elem_as_integer_of_int type signed type signed) by done. split; [|eauto].
  rewrite <- (elem_int_store type signed v junk) by done.
  destruct type; cbn in Ht; try discriminate; injection Ht as <-; done.
Qed.

Lemma variant_bool_conversion_witness :
  vtm_variant_as_bool (vtm_variant_from_integer VTM_ELEM_SCHAR 0 1) = None /\
  is_Some (vtm_variant_as_integer VTM_ELEM_SCHAR (vtm_variant_from_integer VTM_ELEM_SCHAR 0 1)).
Proof. apply (variant_bool_conversion VTM_ELEM_SCHAR true 0 1). reflexivity. Defined.
