(* ===== verification/Hash.v ===== *)
(** * Hash: hash functions of keys, core/hash.c, and the interface of keys

    [KeyOps] is what the hash maps need of a type of keys, [KeyLaws] what they
    rely on: equality of keys is an equivalence and equal keys have equal
    hashes.  The instances are the key types of the program. *)

From Stdlib Require Import SpecFloat.
From S2P Require Import Prelude Base Str Elem.

Definition VTM_HASH_INIT : Z := 2503.
Definition VTM_HASH_MAGIC_32 : Z := 0x54321bb7.
Definition VTM_HASH_MAGIC_64 : Z := 0x4c13b5651eba82cb.

(** One round: [((hash << 13) - hash) ^ c] in 32 bits, where [c] is an int. *)
Definition hash_round (hash c : Z) : Z :=
  Z.lxor (u32 (u32 (Z.shiftl hash 13) - hash)) (u32 c).

Fixpoint hash_loop (f : Z -> Z) (hash : Z) (s : bytes) : Z :=
  match s with
  | [] => hash
  | c :: s' => hash_loop f (hash_round hash (f (i8 c))) s'
  end.

(** core/hash.c:16-27 *)
Definition vtm_hash_str (s : bytes) : Z := hash_loop (fun c => c) VTM_HASH_INIT s.

(** core/hash.c:29-40 *)
Definition vtm_hash_strcase (s : bytes) : Z := hash_loop tolower VTM_HASH_INIT s.

(** core/hash.c:42-55 *)
Definition vtm_hash_mem (s : bytes) : Z := hash_loop (fun c => c) VTM_HASH_INIT s.

(** core/hash.c:67-76 *)
Definition vtm_hash_unum (v : Z) : Z :=
  let result := u32 (Z.shiftr (u64 v) 32) in
  let result := u32 (result + Z.land (u64 v) 0xffffffff) in
  u32 (result * VTM_HASH_MAGIC_32).

(** core/hash.c:62-65 *)
Definition vtm_hash_num (v : Z) : Z := vtm_hash_unum (u64 v).

(** core/hash.c:57-60 *)
Definition vtm_hash_ptr (addr : Z) : Z := vtm_hash_unum (u64 (addr * VTM_HASH_MAGIC_64)).

(** core/hash.c:111-229 [vtm_hash_elem_int8 and the functions behind it].  The
    function of the type; no result for NULL strings and blobs. *)
Definition vtm_hash_elem (type : vtm_elem_type) (e : vtm_elem) : option Z :=
  match type with
  | VTM_ELEM_NULL => None
  | VTM_ELEM_BOOL => Some (vtm_hash_num (Z.b2z (elem_bool e)))
  | VTM_ELEM_FLOAT => Some (vtm_hash_mem (le_bytes 4 (elem_float e)))
  | VTM_ELEM_DOUBLE => Some (vtm_hash_mem (le_bytes 8 (elem_double e)))
  | VTM_ELEM_STRING =>
      p ← elem_pointer e; if is_null p then None else Some (vtm_hash_str (p_text p))
  | VTM_ELEM_BLOB =>
      p ← elem_pointer e; if is_null p then None else Some (vtm_hash_mem (p_text p))
  | VTM_ELEM_POINTER => Some (vtm_hash_ptr (wrap 64 (elem_word e)))
  | _ => signed ← elem_int_signed type;
         let v := elem_int type signed e in
         Some (if signed : bool then vtm_hash_num v else vtm_hash_unum v)
  end.

(** core/hash.c:216-219 *)
Definition vtm_hash_elem_strcase (e : vtm_elem) : option Z :=
  p ← elem_pointer e; if is_null p then None else Some (vtm_hash_strcase (p_text p)).

(** core/hash.c:78-109.  There is none for NULL. *)
Definition vtm_hash_elem_get_fn (type : vtm_elem_type) : option (vtm_elem -> option Z) :=
  match type with VTM_ELEM_NULL => None | _ => Some (vtm_hash_elem type) end.

(** ** The interface of keys *)

(** The functions a hash map is given for its keys. *)
Record key_ops := mk_key_ops {
  ko_hash : vtm_elem -> option Z;
  ko_cmp : vtm_elem -> vtm_elem -> option bool
}.

(** What the maps rely on: for proper keys the functions have results, there
    is a canonical form that is equal exactly for keys that compare equal,
    and the hash is a function of the canonical form. *)
Class KeyLaws (o : key_ops) := {
  key_ok : vtm_elem -> Prop;
  key_canon : vtm_elem -> bytes;
  key_hash_some k : key_ok k -> exists h, ko_hash o k = Some h /\ 0 <= h;
  key_hash_canon k k' : key_ok k -> key_ok k' -> key_canon k = key_canon k' ->
    ko_hash o k = ko_hash o k';
  key_cmp_canon k k' : key_ok k -> key_ok k' ->
    ko_cmp o k k' = Some (bool_decide (key_canon k = key_canon k'))
}.

(** The functions [vtm_map_new] and [VTM_SMAP_INIT] choose for a type, and the
    ones of a dataset that ignores case. *)
Definition elem_key_ops (type : vtm_elem_type) : key_ops :=
  mk_key_ops (vtm_hash_elem type) (vtm_elem_cmp type).

Definition strcase_key_ops : key_ops := mk_key_ops vtm_hash_elem_strcase vtm_elem_cmp_strcase.

(** A proper key of a type: a pointer to a string or a blob, not NULL. *)
Definition ptr_key (e : vtm_elem) : Prop :=
  match e with ElemPtr p => is_null p = false /\ is_cstr (p_text p) | ElemWord _ => False end.

Definition blob_key (e : vtm_elem) : Prop :=
  match e with ElemPtr p => is_null p = false | ElemWord _ => False end.

Definition elem_text (e : vtm_elem) : bytes :=
  match e with ElemPtr p => p_text p | ElemWord _ => [] end.

(** Canonical form of the keys of a type. *)
Definition elem_canon (type : vtm_elem_type) (e : vtm_elem) : bytes :=
  match type with
  | VTM_ELEM_STRING | VTM_ELEM_BLOB => elem_text e
  | VTM_ELEM_BOOL => [Z.b2z (elem_bool e)]
  | VTM_ELEM_POINTER => [wrap 64 (elem_word e)]
  | _ => match elem_int_signed type with
         | Some signed => [elem_int type signed e]
         | None => []
         end
  end.

(** ** Lemmas *)

Lemma hash_round_nonneg h c : 0 <= hash_round h c.
Proof.
  unfold hash_round. apply Z.lxor_nonneg.
  pose proof (wrap_bounds 32 (u32 (Z.shiftl h 13) - h)). pose proof (wrap_bounds 32 c).
  split; unfold u32 in *; lia.
Qed.

Lemma hash_loop_nonneg f h s : 0 <= h -> 0 <= hash_loop f h s.
Proof.
  revert h. induction s as [|c s IH]; intros h Hh; [done |]. apply IH, hash_round_nonneg.
Qed.

Lemma vtm_hash_unum_nonneg v : 0 <= vtm_hash_unum v.
Proof. unfold vtm_hash_unum, u32. apply wrap_bounds. lia. Qed.

Lemma hash_loop_fold (f : Z -> Z) h s s' :
  map (fun c => f (i8 c)) s = map (fun c => f (i8 c)) s' -> hash_loop f h s = hash_loop f h s'.
Proof.
  revert h s'. induction s as [|c s IH]; intros h [|c' s']; cbn [map]; try done.
  intros [= Hc Hs]. cbn [hash_loop]. rewrite Hc. by apply IH.
Qed.

Lemma tolower_map_i8 s s' :
  is_cstr s -> is_cstr s' -> map tolower s = map tolower s' ->
  map (fun c => tolower (i8 c)) s = map (fun c => tolower (i8 c)) s'.
Proof.
  revert s'. induction s as [|c s IH]; intros [|c' s'] H1 H2; cbn [map]; try done.
  apply is_cstr_cons in H1 as [Hc H1]. apply is_cstr_cons in H2 as [Hc' H2].
  intros [= E Es]. f_equal; [|by apply IH].
  pose proof (tolower_i8_inj c c') as T. apply Z.eqb_eq. rewrite T; [by apply Z.eqb_eq | ..];
    unfold is_byte; lia.
Qed.

(** ** The instances *)

#[export] Instance strcase_key_laws : KeyLaws strcase_key_ops.
Proof.
  refine {| key_ok := ptr_key; key_canon := fun e => map tolower (elem_text e) |}.
  - intros [w|p]; [done |]. cbn. intros [-> _]. eexists. split; [done |].
    by apply hash_loop_nonneg.
  - intros [w|p] [w'|p']; try done. cbn. intros [-> H1] [-> H2] E.
    f_equal. apply hash_loop_fold. by apply tolower_map_i8.
  - intros [w|p] [w'|p']; try done. cbn. intros [N1 H1] [N2 H2].
    unfold vtm_elem_cmp_strcase. cbn. rewrite N1, N2. cbn. f_equal.
    apply eq_true_iff_eq. rewrite Z.eqb_eq, bool_decide_eq_true. by apply vtm_str_casecmp_spec.
Defined.

(** The types whose values are proper keys; floating point numbers are not,
    see [float_key_hash_differs]. *)
Definition key_type (type : vtm_elem_type) : bool :=
  match type with VTM_ELEM_NULL | VTM_ELEM_FLOAT | VTM_ELEM_DOUBLE => false | _ => true end.

Definition elem_key_ok (type : vtm_elem_type) (e : vtm_elem) : Prop :=
  match type with
  | VTM_ELEM_STRING => ptr_key e
  | VTM_ELEM_BLOB => blob_key e
  | _ => True
  end.

Lemma elem_hash_laws type k k' :
  key_type type = true -> elem_key_ok type k -> elem_key_ok type k' ->
  (exists h, vtm_hash_elem type k = Some h /\ 0 <= h) /\
  (elem_canon type k = elem_canon type k' -> vtm_hash_elem type k = vtm_hash_elem type k').
Proof.
  intros Ht H1 H2. unfold vtm_hash_ptr, vtm_hash_num, vtm_hash_mem, vtm_hash_str.
  destruct type; try discriminate; cbn [elem_key_ok] in H1, H2;
    cbn [vtm_hash_elem elem_canon elem_int_signed mbind option_bind];
    try (split; [eexists; split; [reflexivity | apply vtm_hash_unum_nonneg] |];
      intros E; apply (f_equal (hd 0)) in E; cbn [hd] in E; by rewrite E).
  - destruct k as [|p], k' as [|p']; try done. destruct H1 as [N1 _], H2 as [N2 _]. cbn.
    rewrite N1, N2. split; [eexists; split; [done | by apply hash_loop_nonneg] | by intros ->].
  - destruct k as [|p], k' as [|p']; try done. cbn in H1, H2 |- *. rewrite H1, H2.
    split; [eexists; split; [done | by apply hash_loop_nonneg] | by intros ->].
Qed.

Lemma eqb_bool_decide (a b : Z) : (a =? b) = bool_decide ([a] = [b]).
Proof.
  apply eq_true_iff_eq. rewrite Z.eqb_eq, bool_decide_eq_true. split; [by intros -> | by intros [=]].
Qed.

Lemma elem_cmp_laws type k k' :
  key_type type = true -> elem_key_ok type k -> elem_key_ok type k' ->
  vtm_elem_cmp type k k' = Some (bool_decide (elem_canon type k = elem_canon type k')).
Proof.
  intros Ht H1 H2.
  destruct type; try discriminate; cbn [elem_key_ok] in H1, H2;
    cbn [vtm_elem_cmp elem_canon elem_int_signed mbind option_bind];
    try (by rewrite eqb_bool_decide).
  - f_equal. by destruct (elem_bool k), (elem_bool k').
  - destruct k as [|p], k' as [|p']; try done. destruct H1 as [N1 _], H2 as [N2 _]. cbn.
    rewrite N1, N2. done.
  - destruct k as [|p], k' as [|p']; try done. cbn in H1, H2. unfold vtm_elem_cmp_blob. cbn.
    rewrite H1, H2. cbn. destruct (Z.eqb_spec (zlen (p_text p)) (zlen (p_text p'))) as [E|E]; [done |].
    cbn. f_equal. symmetry. apply bool_decide_eq_false. intros Ep. by rewrite Ep in E.
Qed.

Definition elem_key_laws (type : vtm_elem_type) (Ht : key_type type = true) :
  KeyLaws (elem_key_ops type).
Proof.
  refine {| key_ok := elem_key_ok type; key_canon := elem_canon type |}.
  - intros k Hk. by apply (elem_hash_laws type k k).
  - intros k k' Hk Hk' E. by apply elem_hash_laws.
  - intros k k' Hk Hk'. by apply elem_cmp_laws.
Defined.

#[export] Instance string_key_laws : KeyLaws (elem_key_ops VTM_ELEM_STRING) :=
  elem_key_laws VTM_ELEM_STRING eq_refl.

(** ** Properties *)

(** Hash and comparison agree.  For every type but the floating point
    ones, two keys that the comparison function of the type takes for equal
    have the same hash, whatever the unused bytes of the union hold; and so
    have names that are equal up to case, for the functions a dataset uses
    that ignores case. *)
Theorem hash_respects_cmp type k k' :
  (key_type type = true -> elem_key_ok type k -> elem_key_ok type k' ->
   vtm_elem_cmp type k k' = Some true ->
   exists h, vtm_hash_elem type k = Some h /\ vtm_hash_elem type k' = Some h) /\
  (ptr_key k -> ptr_key k' -> vtm_elem_cmp_strcase k k' = Some true ->
   exists h, vtm_hash_elem_strcase k = Some h /\ vtm_hash_elem_strcase k' = Some h).
Proof.
  split.
  - intros Ht H1 H2. rewrite elem_cmp_laws by done. intros [= E%bool_decide_eq_true].
    destruct (elem_hash_laws type k k' Ht H1 H2) as ((h & Hh & _) & Heq).
    exists h. by rewrite <- Heq.
  - intros H1 H2 Hc. pose proof (key_cmp_canon (o := strcase_key_ops) k k' H1 H2) as E.
    cbn [ko_cmp strcase_key_ops] in E. rewrite Hc in E. injection E as E. symmetry in E.
    apply bool_decide_eq_true in E.
    destruct (@key_hash_some strcase_key_ops strcase_key_laws k H1) as (h & Hh & _).
    pose proof (@key_hash_canon strcase_key_ops strcase_key_laws k k' H1 H2 E) as Hcan.
    cbn in Hh, Hcan. exists h. by rewrite <- Hcan.
Qed.

Lemma hash_respects_cmp_witness :
  let k := ElemPtr (mk_ptr 64 (cstr_of "Content-Length"%string)) in
  let k' := ElemPtr (mk_ptr 128 (cstr_of "content-length"%string)) in
  exists h, vtm_hash_elem_strcase k = Some h /\ vtm_hash_elem_strcase k' = Some h.
Proof.
  apply (hash_respects_cmp VTM_ELEM_STRING
    (ElemPtr (mk_ptr 64 (cstr_of "Content-Length"%string)))
    (ElemPtr (mk_ptr 128 (cstr_of "content-length"%string)))).
  - split; [reflexivity | apply (bool_decide_unpack _); by vm_compute].
  - split; [reflexivity | apply (bool_decide_unpack _); by vm_compute].
  - reflexivity.
Defined.

(** Defect.  Floating point keys compare by value but are hashed by their
    bytes: positive and negative zero are equal and have different hashes, so
    a value stored under one is not found under the other. *)
Theorem float_key_hash_differs :
  let pos := v_data (vtm_variant_from_double 0 (Float.of_Z 52 11 0)) in
  let neg := v_data (vtm_variant_from_double 0 (2 ^ 63)) in
  vtm_elem_cmp VTM_ELEM_DOUBLE pos neg = Some true /\
  vtm_hash_elem VTM_ELEM_DOUBLE pos <> vtm_hash_elem VTM_ELEM_DOUBLE neg.
Proof. split; [reflexivity | by vm_compute]. Qed.
