(* ===== verification/Heap.v ===== *)
(** * Heap: live blocks and their owners

    [heap] is the set of addresses of live memory blocks.  Containers that own
    copies of strings take and return it; freeing a block that is not live is
    undefined behaviour ([None]). *)

From stdpp Require Import gmap fin_sets.
From S2P Require Import Prelude Base Elem.

(** ** The heap *)

Definition heap := gset Z.

(** free() *)
Definition c_free (p : cptr) (h : heap) : option heap :=
  if is_null p then Some h else if decide (p_addr p ∈ h) then Some (h ∖ {[p_addr p]}) else None.

(** core/string.c:73-82.  A new block with the same text; NULL if [ok], the
    answer of the allocator, is false. *)
Definition vtm_str_copy (ok : bool) (p : cptr) (h : heap) : option (cptr * heap) :=
  if is_null p then None
  else if negb ok then Some (NULL, h)
  else let a := fresh ({[0]} ∪ h : heap) in Some (mk_ptr a (p_text p), {[a]} ∪ h).

(** malloc(): a new block, with the contents that the caller stores next; NULL
    if [ok] is false. *)
Definition c_malloc (ok : bool) (text : bytes) (h : heap) : cptr * heap :=
  if negb ok then (NULL, h)
  else let a := fresh ({[0]} ∪ h : heap) in (mk_ptr a text, {[a]} ∪ h).

(** The string in a block: the bytes up to the first NUL. *)
Fixpoint until_nul (l : bytes) : bytes :=
  match l with
  | [] => []
  | c :: l' => if c =? 0 then [] else c :: until_nul l'
  end.

(** ** Blobs, core/blob.c

    A blob is a block with its length in front of the contents; the program
    holds pointers to the contents. *)

(** core/blob.c:16-34.  [mem] is what the caller stores in it. *)
Definition vtm_blob_new (ok : bool) (len : Z) (mem : bytes) (h : heap) : cptr * heap :=
  if (UINT32_MAX <? len) || (len +sz 4 <? len) then (NULL, h) else c_malloc ok mem h.

(** core/blob.c:36-42 *)
Definition vtm_blob_size (blob : cptr) : Z := u32 (zlen (p_text blob)).

(** core/blob.c:44-47.  The address in front of NULL is no block. *)
Definition vtm_blob_free (blob : cptr) (h : heap) : option heap :=
  if is_null blob then None else c_free blob h.

(** ** Lemmas: ownership

    [heap_ok F l h]: the live blocks are the foreign ones [F] and, each once,
    the ones of [l]. *)

Definition heap_ok (F : heap) (l : list Z) (h : heap) : Prop :=
  NoDup l /\ (forall a, a ∈ l -> a ∉ F) /\ h = F ∪ list_to_set l.

Lemma heap_ok_perm F l l' h : l ≡ₚ l' -> heap_ok F l h -> heap_ok F l' h.
Proof.
  intros E (Hnd & Hf & ->). split_and!.
  - by rewrite <- E.
  - intros a Ha. apply Hf. by rewrite E.
  - f_equal. apply set_eq. intros a. rewrite !elem_of_list_to_set. by rewrite E.
Qed.

Lemma heap_ok_nil F : heap_ok F [] F.
Proof. split_and!; [constructor | by intros a Ha%not_elem_of_nil | set_solver]. Qed.

Lemma heap_ok_alloc F l h p :
  heap_ok F l h -> is_null p = false ->
  exists p' h', vtm_str_copy true p h = Some (p', h') /\ p_text p' = p_text p /\
    is_null p' = false /\ heap_ok F (p_addr p' :: l) h'.
Proof.
  intros (Hnd & Hf & ->) Hp. unfold vtm_str_copy. rewrite Hp. cbn [negb].
  set (h := F ∪ list_to_set l). pose proof (is_fresh ({[0]} ∪ h : heap)) as Ha.
  set (a := fresh _) in *. eexists _, _. split_and!; [reflexivity | done | |].
  - apply Z.eqb_neq. cbn. set_solver.
  - cbn [p_addr]. split_and!.
    + constructor; [|done]. set_solver.
    + intros b [->|Hb]%elem_of_cons; [set_solver | auto].
    + cbn [list_to_set]. set_solver.
Qed.

Lemma heap_ok_malloc F l h text :
  heap_ok F l h ->
  exists p h', c_malloc true text h = (p, h') /\ p_text p = text /\ is_null p = false /\
    heap_ok F (p_addr p :: l) h'.
Proof.
  intros Ho. destruct (heap_ok_alloc F l h (mk_ptr 1 text) Ho eq_refl) as (p & h' & E & Et & Hp & Ho').
  exists p, h'. injection E as <- <-. by split_and!.
Qed.

Lemma until_nul_cstr l : Forall is_byte l -> is_cstr (until_nul l).
Proof.
  induction 1 as [|c l Hc Hl IH]; cbn; [constructor |].
  destruct (Z.eqb_spec c 0); constructor; [unfold is_byte in Hc; lia | done].
Qed.

Lemma until_nul_id l : is_cstr l -> until_nul l = l.
Proof.
  induction 1 as [|c l Hc Hl IH]; [done |]. cbn. destruct (Z.eqb_spec c 0); [lia | by rewrite IH].
Qed.

Lemma heap_ok_free F l h p :
  heap_ok F (p_addr p :: l) h -> is_null p = false ->
  exists h', c_free p h = Some h' /\ heap_ok F l h'.
Proof.
  intros (Hnd & Hf & ->) Hp. apply NoDup_cons in Hnd as [Hn Hnd]. unfold c_free. rewrite Hp.
  rewrite decide_True by set_solver. eexists. split; [reflexivity |]. split_and!; auto.
  - intros b Hb. apply Hf. set_solver.
  - assert (p_addr p ∉ F) by set_solver. cbn [list_to_set]. set_solver.
Qed.

(** A foreign block becomes an owned one. *)
Lemma heap_ok_take F l h a :
  heap_ok F l h -> a ∈ F -> heap_ok (F ∖ {[a]}) (a :: l) h.
Proof.
  intros (Hnd & Hf & ->) Ha. split_and!.
  - constructor; [|done]. intros Hal. by apply (Hf a).
  - intros b [->|Hb]%elem_of_cons; [set_solver |]. specialize (Hf b Hb). set_solver.
  - cbn [list_to_set]. apply set_eq. intros x. rewrite !elem_of_union, elem_of_difference.
    rewrite elem_of_singleton. destruct (decide (x = a)); naive_solver.
Qed.

(** An owned block that is forgotten. *)
Lemma heap_ok_give F l h a : heap_ok F (a :: l) h -> heap_ok ({[a]} ∪ F) l h.
Proof.
  intros (Hnd & Hf & ->). apply NoDup_cons in Hnd as [Hn Hnd]. split_and!.
  - done.
  - intros b Hb. specialize (Hf b (list_elem_of_further _ _ _ Hb)). set_solver.
  - cbn [list_to_set]. set_solver.
Qed.
