(* ===== verification/Table.v ===== *)
(** * Table: arrays of buckets

    What the two hash maps of the program (core/map.c and core/smap.h) share:
    an array of chains, searched with the comparison function of the keys.
    The lemmas reduce every change of one bucket to a permutation of the
    table's entries, so the maps' proofs do not see the buckets. *)

From stdpp Require Import gmap.
From S2P Require Import Prelude Base Elem Hash.

Section table.
Context (o : key_ops) {N : Type} (nkey : N -> vtm_elem).

(** The first node of a chain whose key compares equal, by position. *)
Fixpoint bucket_find (b : list N) (k : vtm_elem) : option (option nat) :=
  match b with
  | [] => Some None
  | n :: b' =>
      c ← ko_cmp o (nkey n) k;
      if c : bool then Some (Some O) else r ← bucket_find b' k; Some (option_map S r)
  end.

Context {Laws : KeyLaws o} (idx : Z -> nat).

Abbreviation canon n := (key_canon (nkey n)).

(** Every node is in the bucket of its hash and no two keys are equal. *)
Record tbl_inv (t : list (list N)) : Prop := {
  tbl_keys : Forall (fun n => key_ok (nkey n)) (concat t);
  tbl_index i b n : t !! i = Some b -> n ∈ b ->
    exists h, ko_hash o (nkey n) = Some h /\ idx h = i;
  tbl_range h : 0 <= h -> (idx h < length t)%nat;
  tbl_nodup : NoDup ((fun n => canon n) <$> concat t)
}.

Lemma bucket_find_spec b k :
  Forall (fun n => key_ok (nkey n)) b -> key_ok k ->
  (exists b1 n b2, b = b1 ++ n :: b2 /\ canon n = key_canon k /\
     bucket_find b k = Some (Some (length b1))) \/
  (bucket_find b k = Some None /\ forall n, n ∈ b -> canon n <> key_canon k).
Proof.
  intros Hb Hk. induction Hb as [|n b Hn Hb IH].
  - right. split; [done |]. by intros n Hn%not_elem_of_nil.
  - cbn [bucket_find]. rewrite key_cmp_canon by done. cbn [mbind option_bind].
    case_bool_decide as E; [left; by exists [], n, b |].
    destruct IH as [(b1 & n0 & b2 & -> & Ec & ->) | (-> & Hne)].
    + left. by exists (n :: b1), n0, b2.
    + right. split; [done |]. intros n' [->|Hn']%elem_of_cons; auto.
Qed.

Lemma concat_update (t : list (list N)) i b b' :
  t !! i = Some b -> exists rest,
    concat t ≡ₚ b ++ rest /\ concat (<[i := b']> t) ≡ₚ b' ++ rest.
Proof.
  intros Hi. pose proof (lookup_lt_Some _ _ _ Hi) as Hlt.
  exists (concat (take i t) ++ concat (drop (S i) t)).
  rewrite <- (take_drop_middle t i b Hi) at 1.
  rewrite insert_take_drop by done. rewrite !concat_app. cbn [concat].
  split; rewrite !app_assoc; f_equiv; by rewrite Permutation_app_comm.
Qed.

(** The bucket of a key, and whether the key is in the table. *)
Variant tbl_find (t : list (list N)) (k : vtm_elem) (i : nat) (b : list N) : Prop :=
  | tbl_found j n rest :
      bucket_find b k = Some (Some j) -> b !! j = Some n -> canon n = key_canon k ->
      concat t ≡ₚ n :: rest ->
      (forall n', concat (<[i := <[j := n']> b]> t) ≡ₚ n' :: rest) ->
      concat (<[i := delete j b]> t) ≡ₚ rest ->
      tbl_find t k i b
  | tbl_missing :
      bucket_find b k = Some None ->
      (forall n, n ∈ concat t -> canon n <> key_canon k) ->
      (forall n', concat (<[i := n' :: b]> t) ≡ₚ n' :: concat t) ->
      (forall n', concat (<[i := b ++ [n']]> t) ≡ₚ n' :: concat t) ->
      tbl_find t k i b.

Lemma tbl_bucket_keys t i b :
  tbl_inv t -> t !! i = Some b -> Forall (fun n => key_ok (nkey n)) b.
Proof.
  intros Ht Hi. destruct (concat_update t i b b Hi) as (rest & E & _).
  pose proof (tbl_keys t Ht) as Hk. rewrite E, Forall_app in Hk. apply Hk.
Qed.

Lemma tbl_find_spec t k h :
  tbl_inv t -> key_ok k -> ko_hash o k = Some h -> 0 <= h ->
  exists b, t !! idx h = Some b /\ tbl_find t k (idx h) b.
Proof.
  intros Ht Hk Hh Hpos.
  destruct (lookup_lt_is_Some_2 t (idx h) (tbl_range t Ht h Hpos)) as [b Hi].
  exists b. split; [done |]. pose proof (tbl_bucket_keys t _ b Ht Hi) as Hb.
  destruct (bucket_find_spec b k Hb Hk) as [(b1 & n & b2 & -> & Ec & Hf) | (Hf & Hne)].
  - destruct (concat_update t _ _ (b1 ++ b2) Hi) as (rest & E & E').
    apply (tbl_found _ _ _ _ (length b1) n (b1 ++ b2 ++ rest)); auto.
    + by rewrite lookup_app_r, Nat.sub_diag by lia.
    + rewrite E, <- app_assoc. cbn [app]. symmetry. apply Permutation_middle.
    + intros n'. destruct (concat_update t _ _ (b1 ++ n' :: b2) Hi) as (rest' & F & F').
      rewrite insert_app_r_alt, Nat.sub_diag by lia. cbn [insert list_insert].
      rewrite F', <- app_assoc. cbn [app]. rewrite <- Permutation_middle. f_equiv.
      f_equiv. f_equiv. rewrite E in F. symmetry. by apply Permutation_app_inv_l in F.
    + rewrite delete_middle, E'. by rewrite app_assoc.
  - apply tbl_missing; auto.
    + intros n Hn E. apply list_elem_of_In, in_concat in Hn as (b' & Hb' & Hn).
      apply list_elem_of_In in Hb', Hn. apply list_elem_of_lookup in Hb' as [i' Hi'].
      destruct (tbl_index t Ht i' b' n Hi' Hn) as (h' & Hh' & Hidx).
      assert (key_ok (nkey n)) as Hn_ok.
      { pose proof (tbl_bucket_keys t _ _ Ht Hi') as F. rewrite Forall_forall in F. auto. }
      pose proof (key_hash_canon _ _ Hn_ok Hk E) as Heq. rewrite Hh, Hh' in Heq.
      injection Heq as ->. rewrite Hidx in Hi. rewrite Hi in Hi'. injection Hi' as ->.
      by apply (Hne n).
    + intros n'. destruct (concat_update t _ b (n' :: b) Hi) as (rest & E & ->).
      cbn [app]. by rewrite E.
    + intros n'. destruct (concat_update t _ b (b ++ [n']) Hi) as (rest & E & ->).
      rewrite E, <- app_assoc. cbn [app]. by rewrite <- Permutation_middle.
Qed.

(** The invariant after the change of one bucket. *)
Lemma tbl_inv_update t i b b' :
  tbl_inv t -> t !! i = Some b ->
  (forall n, n ∈ b' -> n ∈ b \/
     (key_ok (nkey n) /\ exists h, ko_hash o (nkey n) = Some h /\ idx h = i)) ->
  NoDup ((fun n => canon n) <$> concat (<[i := b']> t)) ->
  tbl_inv (<[i := b']> t).
Proof.
  intros Ht Hi Hnew Hnd. pose proof (lookup_lt_Some _ _ _ Hi) as Hlt. constructor; auto.
  - destruct (concat_update t i b b' Hi) as (rest & E & E').
    pose proof (tbl_keys t Ht) as Hk. rewrite E, Forall_app in Hk. rewrite E', Forall_app.
    split; [|apply Hk]. apply Forall_forall. intros n Hn. destruct (Hnew n Hn) as [Hb|[? _]]; [|done].
    destruct Hk as [Hk _]. rewrite Forall_forall in Hk. auto.
  - intros j c n Hj Hn. apply list_lookup_insert_Some in Hj as [(<- & <- & _) | (Hne & Hj)].
    + destruct (Hnew n Hn) as [Hb|[_ ?]]; [|done]. by apply (tbl_index t Ht i b).
    + by apply (tbl_index t Ht j c).
  - intros h Hh. rewrite length_insert. by apply (tbl_range t Ht).
Qed.

Lemma tbl_inv_replicate n :
  (forall h, 0 <= h -> (idx h < n)%nat) -> tbl_inv (replicate n []).
Proof.
  intros Hr. assert (concat (replicate n (@nil N)) = []) as E
    by (clear; induction n as [|n IH]; [done | exact IH]).
  constructor; rewrite ?E; try constructor; [|by rewrite length_replicate].
  intros i b x Hi Hx. apply lookup_replicate in Hi as [-> _]. by apply not_elem_of_nil in Hx.
Qed.

(** ** The abstract map of a table *)

Context {V : Type} (nval : N -> V).

Definition tbl_abs (t : list (list N)) : gmap bytes V :=
  list_to_map ((fun n => (canon n, nval n)) <$> concat t).

Lemma fst_entries (l : list N) :
  ((fun n => (canon n, nval n)) <$> l).*1 = (fun n => canon n) <$> l.
Proof. rewrite <- list_fmap_compose. done. Qed.

Lemma tbl_abs_perm t l :
  NoDup ((fun n => canon n) <$> l) -> concat t ≡ₚ l ->
  tbl_abs t = list_to_map ((fun n => (canon n, nval n)) <$> l).
Proof.
  intros Hnd E. unfold tbl_abs. apply list_to_map_proper; [|by rewrite E].
  rewrite fst_entries. by rewrite E.
Qed.

Lemma nodup_perm t l :
  tbl_inv t -> concat t ≡ₚ l -> NoDup ((fun n => canon n) <$> l).
Proof. intros Ht E. pose proof (tbl_nodup t Ht) as H. by rewrite E in H. Qed.

Lemma list_to_map_notin (l : list N) k :
  (forall n, n ∈ l -> canon n <> k) ->
  (list_to_map ((fun n => (canon n, nval n)) <$> l) : gmap bytes V) !! k = None.
Proof.
  intros H. apply not_elem_of_list_to_map. rewrite fst_entries.
  intros (n & -> & Hn)%list_elem_of_fmap. by apply (H n).
Qed.

Lemma nodup_head n rest :
  NoDup ((fun n => canon n) <$> n :: rest) -> forall n', n' ∈ rest -> canon n' <> canon n.
Proof.
  intros [Hn _]%NoDup_cons n' Hn' E. apply Hn. rewrite <- E.
  apply list_elem_of_fmap. by exists n'.
Qed.

(** Lookup, insertion and removal in terms of the abstract map. *)
Lemma tbl_abs_found t n rest :
  tbl_inv t -> concat t ≡ₚ n :: rest -> tbl_abs t !! canon n = Some (nval n).
Proof.
  intros Ht E. rewrite (tbl_abs_perm t _ (nodup_perm t _ Ht E) E). cbn. apply lookup_insert_eq.
Qed.

Lemma tbl_abs_missing t k :
  (forall n, n ∈ concat t -> canon n <> k) -> tbl_abs t !! k = None.
Proof. apply list_to_map_notin. Qed.

Lemma tbl_abs_insert t t' n :
  tbl_inv t -> (forall n', n' ∈ concat t -> canon n' <> canon n) -> concat t' ≡ₚ n :: concat t ->
  NoDup ((fun n => canon n) <$> concat t') /\ tbl_abs t' = <[canon n := nval n]> (tbl_abs t).
Proof.
  intros Ht Hn E. assert (NoDup ((fun n => canon n) <$> n :: concat t)) as Hnd.
  { apply NoDup_cons. split; [|apply Ht]. intros (n' & E' & Hn')%list_elem_of_fmap.
    by apply (Hn n'). }
  split; [by rewrite E |]. by rewrite (tbl_abs_perm t' _ Hnd E).
Qed.

Lemma tbl_abs_replace t t' n n' rest :
  tbl_inv t -> concat t ≡ₚ n :: rest -> concat t' ≡ₚ n' :: rest -> canon n' = canon n ->
  NoDup ((fun n => canon n) <$> concat t') /\ tbl_abs t' = <[canon n' := nval n']> (tbl_abs t).
Proof.
  intros Ht E E' Ec. pose proof (nodup_perm t _ Ht E) as Hnd.
  assert (NoDup ((fun n => canon n) <$> n' :: rest)) as Hnd'.
  { cbn [fmap list_fmap] in Hnd |- *. by rewrite Ec. }
  split; [by rewrite E' |].
  rewrite (tbl_abs_perm t' _ Hnd' E'), (tbl_abs_perm t _ Hnd E). cbn. rewrite Ec.
  by rewrite insert_insert_eq.
Qed.

Lemma tbl_abs_remove t t' n rest :
  tbl_inv t -> concat t ≡ₚ n :: rest -> concat t' ≡ₚ rest ->
  NoDup ((fun n => canon n) <$> concat t') /\ tbl_abs t' = delete (canon n) (tbl_abs t).
Proof.
  intros Ht E E'. pose proof (nodup_perm t _ Ht E) as Hnd.
  pose proof Hnd as [_ Hnd']%NoDup_cons. split; [by rewrite E' |].
  rewrite (tbl_abs_perm t' _ Hnd' E'), (tbl_abs_perm t _ Hnd E). cbn.
  rewrite delete_insert_id; [done |]. apply list_to_map_notin. by apply nodup_head.
Qed.

Lemma tbl_abs_size t : tbl_inv t -> size (tbl_abs t) = length (concat t).
Proof.
  intros Ht. unfold tbl_abs. rewrite <- (length_fmap (fun n => canon n)).
  rewrite <- fst_entries. rewrite <- (size_list_to_set (C := gset bytes)).
  2: { rewrite fst_entries. apply Ht. }
  by rewrite <- dom_list_to_map_L, size_dom.
Qed.
End table.
