(* ===== verification/Map.v ===== *)
(** * Map: the hash map of core/map.c

    A map is its array of chains.  A map with string keys or string values owns
    copies of these strings and frees them with their entries.  Operations that
    free or copy strings take and return the heap (see Heap.v); [None] is
    undefined behaviour (a block freed twice, a comparison of NULL strings, an
    access outside of the array).  The chain nodes themselves are the elements
    of the lists. *)

From stdpp Require Import gmap fin_sets.
From S2P Require Import Prelude Base Str Elem Hash Heap Table.

(** ** Data *)

(** core/map.c:20-24 [struct vtm_map_node]; the link is the position in the
    chain *)
Record vtm_map_node := mk_node { entry_key : vtm_elem; entry_value : vtm_elem }.

(** core/map.c:26-34 [struct vtm_map].  [bucket_count] is the length of the
    array, the key functions are determined by the key type. *)
Record vtm_map := mk_map {
  keytype : vtm_elem_type;
  valuetype : vtm_elem_type;
  buckets : list (list vtm_map_node);
  fn_free_val : option (cptr -> heap -> option heap)
}.

Definition map_with_buckets (m : vtm_map) b := mk_map (keytype m) (valuetype m) b (fn_free_val m).

(** core/map.h:33-37 [struct vtm_map_key] *)
Record vtm_map_key := mk_key { key_var : vtm_variant; key_hash : Z }.

(** ** Operations *)

(** core/map.c:65-67.  The number of buckets; no result if the loop does not
    end. *)
Fixpoint map_new_loop (fuel : nat) (count capacity : Z) : option Z :=
  match fuel with
  | O => None
  | S fuel' => if count <? capacity then map_new_loop fuel' (u64 (Z.shiftl count 1)) capacity
               else Some count
  end.

(** Doubling reaches the largest power of two after 63 steps. *)
Definition map_new_fuel : nat := 65.

(** core/map.c:50-77.  The inner [None] is NULL; calloc() fails if the size
    overflows. *)
Definition vtm_map_new (malloc_ok : Z -> bool) (kt vt : vtm_elem_type) (capacity : Z)
    : option (option vtm_map) :=
  if negb (malloc_ok 40) then Some None
  else
    count ← map_new_loop map_new_fuel 1 capacity;
    if (SIZE_MAX <? count * 8) || negb (malloc_ok (count * 8)) then Some None
    else Some (Some (mk_map kt vt (replicate (Z.to_nat count) []) None)).

(** core/map.c:89-92 *)
Definition vtm_map_set_free_func (m : vtm_map) f : vtm_map :=
  mk_map (keytype m) (valuetype m) (buckets m) f.

(** core/map.c:94-106 *)
Definition vtm_map_size (m : vtm_map) : Z := zlen (concat (buckets m)).

(** core/map.c:310-313 *)
Definition vtm_map_calc_index (m : vtm_map) (hash : Z) : nat :=
  Z.to_nat (hash mod zlen (buckets m)).

(** core/map.c:374-384 *)
Definition vtm_map_find_bucket_node_pos (m : vtm_map) (b : list vtm_map_node) (k : vtm_elem)
    : option (option nat) :=
  bucket_find (elem_key_ops (keytype m)) entry_key b k.

(** core/map.c:386-415 *)
Definition vtm_map_node_free (m : vtm_map) (n : vtm_map_node) (h : heap) : option heap :=
  h ← match keytype m with
      | VTM_ELEM_STRING => p ← elem_pointer (entry_key n); c_free p h
      | _ => Some h
      end;
  match valuetype m with
  | VTM_ELEM_STRING => p ← elem_pointer (entry_value n); c_free p h
  | VTM_ELEM_POINTER =>
      match fn_free_val m with
      | Some f => p ← elem_pointer (entry_value n); f p h
      | None => Some h
      end
  | _ => Some h
  end.

Fixpoint map_free_nodes (m : vtm_map) (l : list vtm_map_node) (h : heap) : option heap :=
  match l with
  | [] => Some h
  | n :: l' => h ← vtm_map_node_free m n h; map_free_nodes m l' h
  end.

(** core/map.c:108-121 *)
Definition vtm_map_clear (m : vtm_map) (h : heap) : option (vtm_map * heap) :=
  h ← map_free_nodes m (concat (buckets m)) h;
  Some (map_with_buckets m (replicate (length (buckets m)) []), h).

(** core/map.c:79-87 *)
Definition vtm_map_free (m : vtm_map) (h : heap) : option heap :=
  '(_, h) ← vtm_map_clear m h; Some h.

(** core/map.c:142-176.  [ok] tells whether the node can be allocated. *)
Definition vtm_map_put_internal (ok : bool) (m : vtm_map) (key : vtm_map_key) (value : vtm_elem)
    (h : heap) : option (Z * vtm_map * heap) :=
  let node := mk_node (v_data (key_var key)) value in
  let index := vtm_map_calc_index m (key_hash key) in
  if negb ok then Some (VTM_E_MALLOC, m, h)
  else
  b ← buckets m !! index;
  if bool_decide (b = []) then
    Some (VTM_OK, map_with_buckets m (<[index := [node]]> (buckets m)), h)
  else
    pos ← vtm_map_find_bucket_node_pos m b (entry_key node);
    match pos with
    | Some i =>
        old ← b !! i;
        h ← vtm_map_node_free m old h;
        Some (VTM_OK, map_with_buckets m (<[index := <[i := node]> b]> (buckets m)), h)
    | None => Some (VTM_OK, map_with_buckets m (<[index := node :: b]> (buckets m)), h)
    end.

(** core/map.c:363-372 *)
Definition vtm_map_find_node_pos (m : vtm_map) (k : vtm_elem) (hash : Z)
    : option (option (nat * nat)) :=
  let index := vtm_map_calc_index m hash in
  b ← buckets m !! index;
  if bool_decide (b = []) then Some None
  else pos ← vtm_map_find_bucket_node_pos m b k; Some (option_map (pair index) pos).

(** core/map.c:349-352 *)
Definition vtm_map_get_node_pos (m : vtm_map) (key : vtm_map_key) : option (option (nat * nat)) :=
  vtm_map_find_node_pos m (v_data (key_var key)) (key_hash key).

Definition map_node_at (m : vtm_map) (pos : nat * nat) : option vtm_map_node :=
  b ← buckets m !! pos.1; b !! pos.2.

(** core/map.c:315-333.  [junk] is what the uninitialised key held, [ok] the
    answer of the allocator. *)
Definition vtm_map_parse_key (ok : bool) (m : vtm_map) (junk : Z) (ap : va_arg) (copy : bool) (h : heap)
    : option (vtm_map_key * heap) :=
  e ← vtm_elem_parse (keytype m) junk ap;
  fn ← vtm_hash_elem_get_fn (keytype m);
  hash ← fn e;
  '(e, h) ← match copy, keytype m with
            | true, VTM_ELEM_STRING =>
                p ← elem_pointer e; '(p, h) ← vtm_str_copy ok p h; Some (ElemPtr p, h)
            | _, _ => Some (e, h)
            end;
  Some (mk_key (mk_variant e (keytype m) None) hash, h).

(** core/map.c:335-347 *)
Definition vtm_map_parse_value (ok : bool) (m : vtm_map) (junk : Z) (ap : va_arg) (h : heap)
    : option (vtm_elem * heap) :=
  e ← vtm_elem_parse (valuetype m) junk ap;
  match valuetype m with
  | VTM_ELEM_STRING => p ← elem_pointer e; '(p, h) ← vtm_str_copy ok p h; Some (ElemPtr p, h)
  | _ => Some (e, h)
  end.

(** core/map.c:123-126 *)
Definition vtm_map_put (ok : bool) (m : vtm_map) (key : vtm_map_key) (value : vtm_variant)
    (h : heap) :=
  vtm_map_put_internal ok m key (v_data value) h.

(** core/map.c:128-140.  [oks] are the answers of the allocator for the copy
    of the key, the copy of the value and the node. *)
Definition vtm_map_put_va (oks : bool * bool * bool) (m : vtm_map) (junk : Z) (key val : va_arg)
    (h : heap) : option (Z * vtm_map * heap) :=
  '(k, h) ← vtm_map_parse_key oks.1.1 m junk key true h;
  '(v, h) ← vtm_map_parse_value oks.1.2 m junk val h;
  vtm_map_put_internal oks.2 m k v h.

(** core/map.c:354-361 *)
Definition vtm_map_get_node_pos_va (m : vtm_map) (junk : Z) (key : va_arg) (h : heap)
    : option (option (nat * nat)) :=
  '(k, _) ← vtm_map_parse_key true m junk key false h; vtm_map_get_node_pos m k.

(** core/map.c:199-205 *)
Definition vtm_map_get_internal (m : vtm_map) (pos : option (nat * nat))
    : option (option vtm_elem) :=
  match pos with
  | Some p => n ← map_node_at m p; Some (Some (entry_value n))
  | None => Some None
  end.

(** core/map.c:178-185 *)
Definition vtm_map_get (m : vtm_map) (key : vtm_map_key) : option (option vtm_elem) :=
  pos ← vtm_map_get_node_pos m key; vtm_map_get_internal m pos.

(** core/map.c:187-197 *)
Definition vtm_map_get_va (m : vtm_map) (junk : Z) (key : va_arg) (h : heap)
    : option (option vtm_elem) :=
  pos ← vtm_map_get_node_pos_va m junk key h; vtm_map_get_internal m pos.

(** core/map.c:228-234 *)
Definition vtm_map_get_pointer_internal (m : vtm_map) (pos : option (nat * nat)) : option cptr :=
  match pos with
  | Some p => n ← map_node_at m p; elem_pointer (entry_value n)
  | None => Some NULL
  end.

(** core/map.c:207-214 *)
Definition vtm_map_get_pointer (m : vtm_map) (key : vtm_map_key) : option cptr :=
  pos ← vtm_map_get_node_pos m key; vtm_map_get_pointer_internal m pos.

(** core/map.c:216-226 *)
Definition vtm_map_get_pointer_va (m : vtm_map) (junk : Z) (key : va_arg) (h : heap)
    : option cptr :=
  pos ← vtm_map_get_node_pos_va m junk key h; vtm_map_get_pointer_internal m pos.

(** core/map.c:257-269 *)
Definition vtm_map_remove_internal (m : vtm_map) (pos : option (nat * nat)) (h : heap)
    : option (bool * vtm_map * heap) :=
  match pos with
  | Some (index, i) =>
      b ← buckets m !! index;
      n ← b !! i;
      h ← vtm_map_node_free m n h;
      Some (true, map_with_buckets m (<[index := delete i b]> (buckets m)), h)
  | None => Some (false, m, h)
  end.

(** core/map.c:236-243 *)
Definition vtm_map_remove (m : vtm_map) (key : vtm_map_key) (h : heap) :=
  pos ← vtm_map_get_node_pos m key; vtm_map_remove_internal m pos h.

(** core/map.c:245-255 *)
Definition vtm_map_remove_va (m : vtm_map) (junk : Z) (key : va_arg) (h : heap)
    : option (bool * vtm_map * heap) :=
  pos ← vtm_map_get_node_pos_va m junk key h; vtm_map_remove_internal m pos h.

(** core/map.c:271-278 *)
Definition vtm_map_contains_key (m : vtm_map) (key : vtm_map_key) : option bool :=
  pos ← vtm_map_get_node_pos m key; Some (bool_decide (is_Some pos)).

(** core/map.c:280-290 *)
Definition vtm_map_contains_key_va (m : vtm_map) (junk : Z) (key : va_arg) (h : heap)
    : option bool :=
  pos ← vtm_map_get_node_pos_va m junk key h; Some (bool_decide (is_Some pos)).

(** core/map.c:292-308.  The entries in the order of the list that is
    returned. *)
Definition vtm_map_entryset (m : vtm_map) : list vtm_map_node := concat (buckets m).

(** core/map.c:419-507 [vtm_map_key_from_int8 ... vtm_map_key_from_ulong].  The
    key of an integer type. *)
Definition vtm_map_key_from_integer (type : vtm_elem_type) (junk v : Z) : option vtm_map_key :=
  let var := vtm_variant_from_integer type junk v in
  hash ← vtm_hash_elem type (v_data var); Some (mk_key var hash).

(** core/map.c:519-526 *)
Definition vtm_map_key_from_str (p : cptr) : option vtm_map_key :=
  hash ← vtm_hash_elem VTM_ELEM_STRING (ElemPtr p);
  Some (mk_key (vtm_variant_from_str p) hash).

(** core/map.c:528-535 *)
Definition vtm_map_key_from_blob (p : cptr) : option vtm_map_key :=
  hash ← vtm_hash_elem VTM_ELEM_BLOB (ElemPtr p);
  Some (mk_key (vtm_variant_from_blob p) hash).

(** core/map.c:537-544 *)
Definition vtm_map_key_from_ptr (p : cptr) : option vtm_map_key :=
  hash ← vtm_hash_elem VTM_ELEM_POINTER (ElemPtr p);
  Some (mk_key (vtm_variant_from_ptr p) hash).

(** ** Specification *)

(** What a stored element means: the text of a string, the member's value
    otherwise; blobs and pointers are addresses. *)
Definition elem_view (type : vtm_elem_type) (e : vtm_elem) : bytes :=
  match type with
  | VTM_ELEM_FLOAT => [elem_float e]
  | VTM_ELEM_DOUBLE => [elem_double e]
  | VTM_ELEM_BLOB => [wrap 64 (elem_word e)]
  | _ => elem_canon type e
  end.

Definition arg_elem (type : vtm_elem_type) (a : va_arg) : vtm_elem :=
  default (ElemWord 0) (vtm_elem_parse type 0 a).
Definition key_arg_canon type a := elem_canon type (arg_elem type a).
Definition val_arg_view type a := elem_view type (arg_elem type a).

(** Arguments of the type the map expects; strings and blob keys not NULL. *)
Definition val_arg_ok (type : vtm_elem_type) (a : va_arg) : Prop :=
  match type, a with
  | VTM_ELEM_STRING, VaPtr p => is_null p = false /\ is_cstr (p_text p)
  | (VTM_ELEM_BLOB | VTM_ELEM_POINTER), VaPtr _ => True
  | (VTM_ELEM_FLOAT | VTM_ELEM_DOUBLE), VaDouble _ => True
  | VTM_ELEM_BOOL, VaInt _ => True
  | _, VaInt _ => is_Some (elem_int_signed type)
  | _, _ => False
  end.

Definition key_arg_ok (type : vtm_elem_type) (a : va_arg) : Prop :=
  val_arg_ok type a /\ match type, a with VTM_ELEM_BLOB, VaPtr p => is_null p = false | _, _ => True end.

(** The blocks an element of a type owns. *)
Definition str_owned (type : vtm_elem_type) (e : vtm_elem) : list Z :=
  if decide (type = VTM_ELEM_STRING) then [elem_word e] else [].

Definition node_owned (kt vt : vtm_elem_type) (n : vtm_map_node) : list Z :=
  str_owned kt (entry_key n) ++ str_owned vt (entry_value n).

Definition map_owned (m : vtm_map) : list Z :=
  concat (buckets m) ≫= node_owned (keytype m) (valuetype m).

(** ** Lemmas: elements *)

(** What parsing an argument yields does not depend on the memory the result
    is written to. *)
Lemma parse_arg_ok type junk a :
  val_arg_ok type a ->
  exists e, vtm_elem_parse type junk a = Some e /\
    elem_canon type e = key_arg_canon type a /\ elem_view type e = val_arg_view type a /\
    (type = VTM_ELEM_STRING -> exists p, e = ElemPtr p /\ is_null p = false /\ is_cstr (p_text p)) /\
    (type = VTM_ELEM_BLOB -> exists p, a = VaPtr p /\ e = ElemPtr p).
Proof.
  unfold key_arg_canon, val_arg_view, arg_elem.
  destruct type, a as [v|d|p]; cbn [val_arg_ok elem_int_signed]; intros Hok; try done;
    try (by destruct Hok);
    (eexists; split; [reflexivity |]);
    cbn [vtm_elem_parse elem_int_signed default from_option elem_canon elem_view]; unfold id;
    try (split_and!; try done; (f_equal; by rewrite !elem_int_store)).
  - unfold elem_bool. by rewrite !(elem_store_word 1).
  - unfold elem_float. by rewrite !(elem_store_word 4).
  - unfold elem_double. by rewrite !(elem_store_word 8).
  - split_and!; eauto.
  - split_and!; eauto. done.
Qed.

Lemma parse_key_elem type junk a :
  key_arg_ok type a ->
  exists e, vtm_elem_parse type junk a = Some e /\ elem_key_ok type e /\
    elem_canon type e = key_arg_canon type a.
Proof.
  intros [Ha Hb]. destruct (parse_arg_ok type junk a Ha) as (e & E & Ec & _ & Es & Ebl).
  exists e. split_and!; try done. destruct type; try done; cbn.
  - destruct (Es eq_refl) as (p & -> & Hp). exact Hp.
  - destruct (Ebl eq_refl) as (p & -> & ->). exact Hb.
Qed.

Lemma hash_get_fn type :
  key_type type = true -> vtm_hash_elem_get_fn type = Some (vtm_hash_elem type).
Proof. by destruct type. Qed.

Lemma match_string {A} type (x y : A) :
  match type with VTM_ELEM_STRING => x | _ => y end
  = if decide (type = VTM_ELEM_STRING) then x else y.
Proof. by destruct type. Qed.

(** ** Lemmas: ownership *)

(** What the map stores in place of an argument: a string is a copy. *)
Definition stored (type : vtm_elem_type) (e : vtm_elem) : Prop :=
  type = VTM_ELEM_STRING -> exists p, e = ElemPtr p /\ is_null p = false.

Lemma str_free_ok F type e l h :
  stored type e -> heap_ok F (str_owned type e ++ l) h ->
  exists h', match type with
             | VTM_ELEM_STRING => p ← elem_pointer e; c_free p h
             | _ => Some h
             end = Some h' /\ heap_ok F l h'.
Proof.
  intros Hs Hh. destruct (decide (type = VTM_ELEM_STRING)) as [->|Hne].
  - destruct (Hs eq_refl) as (p & -> & Hp). by apply heap_ok_free.
  - exists h. unfold str_owned in Hh. rewrite decide_False in Hh by done. by destruct type.
Qed.

Lemma vtm_map_node_free_ok F m n l h :
  fn_free_val m = None -> stored (keytype m) (entry_key n) ->
  stored (valuetype m) (entry_value n) ->
  heap_ok F (node_owned (keytype m) (valuetype m) n ++ l) h ->
  exists h', vtm_map_node_free m n h = Some h' /\ heap_ok F l h'.
Proof.
  intros Hf Hk Hv Hh. unfold node_owned in Hh. rewrite <- app_assoc in Hh.
  destruct (str_free_ok F _ _ _ _ Hk Hh) as (h1 & E1 & Hh1).
  destruct (str_free_ok F _ _ _ _ Hv Hh1) as (h2 & E2 & Hh2).
  exists h2. unfold vtm_map_node_free. rewrite Hf, E1. cbn [mbind option_bind].
  split; [|done]. by destruct (valuetype m).
Qed.

Lemma map_free_nodes_ok F m b l h :
  fn_free_val m = None ->
  Forall (fun n => stored (keytype m) (entry_key n) /\ stored (valuetype m) (entry_value n)) b ->
  heap_ok F ((b ≫= node_owned (keytype m) (valuetype m)) ++ l) h ->
  exists h', map_free_nodes m b h = Some h' /\ heap_ok F l h'.
Proof.
  intros Hf Hb. revert h. induction Hb as [|n b [Hk Hv] Hb IH]; intros h Hh; cbn [map_free_nodes].
  - by exists h.
  - cbn [mbind list_bind] in Hh. rewrite <- app_assoc in Hh.
    destruct (vtm_map_node_free_ok F m n _ h Hf Hk Hv Hh) as (h1 & -> & Hh1).
    cbn [mbind option_bind]. by apply IH.
Qed.

(** ** The invariant, for a map of given key and value types *)

Section inv.
Context (kt vt : vtm_elem_type) (Hkt : key_type kt = true).

#[local] Instance map_key_laws : KeyLaws (elem_key_ops kt) := elem_key_laws kt Hkt.

Definition map_idx (n : nat) (hash : Z) : nat := Z.to_nat (hash mod Z.of_nat n).

Record map_wf (m : vtm_map) : Prop := {
  mw_kt : keytype m = kt;
  mw_vt : valuetype m = vt;
  mw_free : fn_free_val m = None;
  mw_len : (0 < length (buckets m))%nat;
  mw_tbl : tbl_inv (elem_key_ops kt) entry_key (map_idx (length (buckets m))) (buckets m);
  mw_val : Forall (fun n => stored vt (entry_value n)) (concat (buckets m))
}.

Definition map_abs (m : vtm_map) : gmap bytes bytes :=
  tbl_abs (elem_key_ops kt) entry_key (fun n => elem_view vt (entry_value n)) (buckets m).

Definition owned (m : vtm_map) : list Z := concat (buckets m) ≫= node_owned kt vt.

Lemma owned_spec m : map_wf m -> map_owned m = owned m.
Proof. intros Hm. unfold map_owned. by rewrite (mw_kt m Hm), (mw_vt m Hm). Qed.

Lemma stored_key e : elem_key_ok kt e -> stored kt e.
Proof.
  intros Hk E. rewrite E in Hk. destruct e as [|p]; [done |]. exists p. by destruct Hk.
Qed.

(** The change of one bucket keeps the map well-formed. *)
Lemma map_wf_update m i b b' l :
  map_wf m -> buckets m !! i = Some b ->
  concat (<[i := b']> (buckets m)) ≡ₚ l -> Forall (fun n => stored vt (entry_value n)) l ->
  tbl_inv (elem_key_ops kt) entry_key (map_idx (length (buckets m))) (<[i := b']> (buckets m)) ->
  map_wf (map_with_buckets m (<[i := b']> (buckets m))).
Proof.
  intros [] Hi E Hv Ht. constructor; cbn; rewrite ?length_insert; auto. by rewrite E.
Qed.

Lemma map_find m e hash :
  map_wf m -> elem_key_ok kt e -> vtm_hash_elem kt e = Some hash ->
  exists b, buckets m !! vtm_map_calc_index m hash = Some b /\
    tbl_find (elem_key_ops kt) entry_key (buckets m) e (vtm_map_calc_index m hash) b.
Proof.
  intros Hm He Hh. destruct (@key_hash_some (elem_key_ops kt) map_key_laws e He) as (h0 & E & Hpos).
  cbn in E. rewrite Hh in E. injection E as <-.
  apply (tbl_find_spec _ _ (map_idx (length (buckets m))) (buckets m) e hash); auto using mw_tbl.
Qed.

(** put: the pair is inserted, the blocks of a replaced entry are freed. *)
Lemma put_internal_ok F m e hash v h :
  map_wf m -> elem_key_ok kt e -> vtm_hash_elem kt e = Some hash -> stored vt v ->
  heap_ok F (node_owned kt vt (mk_node e v) ++ owned m) h ->
  exists m' h',
    vtm_map_put_internal true m (mk_key (mk_variant e kt None) hash) v h
      = Some (VTM_OK, m', h') /\
    map_wf m' /\ heap_ok F (owned m') h' /\
    map_abs m' = <[elem_canon kt e := elem_view vt v]> (map_abs m).
Proof.
  intros Hm He Hh Hv Ho. destruct (map_find m e hash Hm He Hh) as (b & Hb & Hf).
  pose proof (mw_tbl m Hm) as Ht. pose proof (mw_val m Hm) as Hvs.
  unfold vtm_map_put_internal. cbn [negb v_data key_var key_hash]. rewrite Hb.
  cbn [mbind option_bind]. set (n' := mk_node e v) in *. set (i := vtm_map_calc_index m hash) in *.
  assert (elem_key_ok kt (entry_key n') /\ exists h1, ko_hash (elem_key_ops kt) (entry_key n') = Some h1 /\
    map_idx (length (buckets m)) h1 = i) as Hnew by (split; [done | by exists hash]).
  unfold vtm_map_find_bucket_node_pos. rewrite (mw_kt m Hm).
  destruct Hf as [j n rest Hf Hn Hc E Er _ | Hf Hne Er _].
  - rewrite bool_decide_eq_false_2 by (intros ->; done). change (entry_key n') with e.
    rewrite Hf. cbn [mbind option_bind]. rewrite Hn. cbn [mbind option_bind].
    assert (elem_key_ok kt (entry_key n)) as Hkn.
    { pose proof (tbl_keys _ _ _ _ Ht) as Hk. rewrite E in Hk. by inversion Hk. }
    rewrite E in Hvs. inversion Hvs as [|? ? Hvn Hvr]; subst.
    assert (heap_ok F (node_owned kt vt n ++ (node_owned kt vt n' ++ (rest ≫= node_owned kt vt))) h)
      as Ho'.
    { eapply heap_ok_perm; [|exact Ho]. unfold owned. rewrite E. cbn [mbind list_bind].
      apply Permutation_app_swap_app. }
    destruct (vtm_map_node_free_ok F m n (node_owned kt vt n' ++ (rest ≫= node_owned kt vt)) h
      (mw_free m Hm)) as (h' & -> & Ho2).
    1: rewrite (mw_kt m Hm); by apply stored_key.
    1: by rewrite (mw_vt m Hm).
    1: by rewrite (mw_kt m Hm), (mw_vt m Hm).
    cbn [mbind option_bind]. eexists _, h'. split; [reflexivity |].
    destruct (tbl_abs_replace _ entry_key (map_idx (length (buckets m))) (fun n => elem_view vt (entry_value n)) _
      (<[i := <[j := n']> b]> (buckets m)) n n' rest Ht E (Er n') (eq_sym Hc)) as [Hnd Ha].
    split_and!; [|unfold owned; cbn [buckets map_with_buckets]; eapply heap_ok_perm; [|exact Ho2];
      by rewrite (Er n') | exact Ha].
    eapply map_wf_update; [done.. | exact (Er n') | by constructor |].
    eapply tbl_inv_update; [done.. | | exact Hnd].
    intros x [k Hk]%list_elem_of_lookup. apply list_lookup_insert_Some in Hk as [(_ & <- & _)|(_ & Hk)];
      [by right | left; by eapply list_elem_of_lookup_2].
  - assert ((if bool_decide (b = []) then Some (VTM_OK, map_with_buckets m (<[i := [n']]> (buckets m)), h)
      else Some (VTM_OK, map_with_buckets m (<[i := n' :: b]> (buckets m)), h))
      = Some (VTM_OK, map_with_buckets m (<[i := n' :: b]> (buckets m)), h)) as E
      by (case_bool_decide; by subst).
    change (entry_key n') with e. rewrite Hf. cbn [mbind option_bind]. rewrite E.
    eexists _, h. split; [reflexivity |].
    destruct (tbl_abs_insert _ entry_key (map_idx (length (buckets m))) (fun n => elem_view vt (entry_value n)) _
      (<[i := n' :: b]> (buckets m)) n' Ht Hne (Er n')) as [Hnd Ha].
    split_and!; [|unfold owned; cbn [buckets map_with_buckets]; eapply heap_ok_perm; [|exact Ho];
      by rewrite (Er n') | exact Ha].
    eapply map_wf_update; [done.. | exact (Er n') | by constructor |].
    eapply tbl_inv_update; [done.. | | exact Hnd].
    intros x [->|Hx]%elem_of_cons; [by right | by left].
Qed.

(** Lookup: the value of the abstract map, which is stored in the map. *)
Lemma find_pos_ok m e hash :
  map_wf m -> elem_key_ok kt e -> vtm_hash_elem kt e = Some hash ->
  (exists pos n, vtm_map_get_node_pos m (mk_key (mk_variant e kt None) hash) = Some (Some pos) /\
     map_node_at m pos = Some n /\ n ∈ concat (buckets m) /\
     map_abs m !! elem_canon kt e = Some (elem_view vt (entry_value n))) \/
  (vtm_map_get_node_pos m (mk_key (mk_variant e kt None) hash) = Some None /\
     map_abs m !! elem_canon kt e = None).
Proof.
  intros Hm He Hh. destruct (map_find m e hash Hm He Hh) as (b & Hb & Hf).
  unfold vtm_map_get_node_pos, vtm_map_find_node_pos, vtm_map_find_bucket_node_pos.
  cbn [v_data key_var key_hash]. rewrite Hb, (mw_kt m Hm). cbn [mbind option_bind].
  destruct Hf as [j n rest Hf Hn Hc E _ _ | Hf Hne _ _]; rewrite Hf; cbn [mbind option_bind option_map].
  - left. exists (vtm_map_calc_index m hash, j), n. rewrite bool_decide_eq_false_2 by (intros ->; done).
    split_and!; [done | unfold map_node_at; cbn; by rewrite Hb | rewrite E; by apply list_elem_of_here |].
    change (elem_canon kt e) with (key_canon (KeyLaws := map_key_laws) e). rewrite <- Hc.
    eapply tbl_abs_found; [apply (mw_tbl m Hm) | exact E].
  - right. split; [by case_bool_decide |]. by apply tbl_abs_missing.
Qed.

(** remove: the entry is deleted and its blocks are freed. *)
Lemma remove_ok F m e hash h :
  map_wf m -> elem_key_ok kt e -> vtm_hash_elem kt e = Some hash -> heap_ok F (owned m) h ->
  exists m' h',
    (pos ← vtm_map_get_node_pos m (mk_key (mk_variant e kt None) hash);
     vtm_map_remove_internal m pos h)
      = Some (bool_decide (is_Some (map_abs m !! elem_canon kt e)), m', h') /\
    map_wf m' /\ heap_ok F (owned m') h' /\
    map_abs m' = delete (elem_canon kt e) (map_abs m).
Proof.
  intros Hm He Hh Ho. destruct (map_find m e hash Hm He Hh) as (b & Hb & Hf).
  pose proof (mw_tbl m Hm) as Ht. pose proof (mw_val m Hm) as Hvs.
  unfold vtm_map_get_node_pos, vtm_map_find_node_pos, vtm_map_find_bucket_node_pos.
  cbn [v_data key_var key_hash]. rewrite Hb, (mw_kt m Hm). cbn [mbind option_bind].
  change (elem_canon kt e) with (key_canon (KeyLaws := map_key_laws) e).
  destruct Hf as [j n rest Hf Hn Hc E _ Er | Hf Hne _ _]; rewrite Hf; cbn [mbind option_bind option_map].
  - rewrite bool_decide_eq_false_2 by (intros ->; done). cbn [mbind option_bind].
    unfold vtm_map_remove_internal. rewrite Hb. cbn [mbind option_bind]. rewrite Hn.
    cbn [mbind option_bind].
    assert (elem_key_ok kt (entry_key n)) as Hkn.
    { pose proof (tbl_keys _ _ _ _ Ht) as Hk. rewrite E in Hk. by inversion Hk. }
    rewrite E in Hvs. inversion Hvs as [|? ? Hvn Hvr]; subst.
    destruct (vtm_map_node_free_ok F m n (rest ≫= node_owned kt vt) h (mw_free m Hm)) as (h' & -> & Ho2).
    1: rewrite (mw_kt m Hm); by apply stored_key.
    1: by rewrite (mw_vt m Hm).
    1: { rewrite (mw_kt m Hm), (mw_vt m Hm). eapply heap_ok_perm; [|exact Ho].
         unfold owned. by rewrite E. }
    cbn [mbind option_bind]. rewrite <- Hc.
    rewrite bool_decide_eq_true_2
      by (eexists; exact (tbl_abs_found _ entry_key _ (fun n => elem_view vt (entry_value n)) _ _ _ Ht E)).
    eexists _, h'. split; [reflexivity |].
    set (i := vtm_map_calc_index m hash) in *.
    destruct (tbl_abs_remove _ entry_key _ (fun n => elem_view vt (entry_value n)) _ _ n rest Ht E Er)
      as [Hnd Ha].
    split_and!; [|unfold owned; cbn [buckets map_with_buckets]; eapply heap_ok_perm; [|exact Ho2];
      by rewrite Er | exact Ha].
    eapply map_wf_update; [done.. | exact Er | done |].
    eapply tbl_inv_update; [done.. | | exact Hnd].
    intros x Hx. left. apply list_elem_of_lookup in Hx as [k Hk].
    rewrite list_lookup_delete in Hk. by eapply list_elem_of_lookup_2.
  - pose proof (tbl_abs_missing _ entry_key (fun n => elem_view vt (entry_value n)) _ _ Hne) as Hno.
    rewrite (bool_decide_eq_false_2 (is_Some _)) by (intros [x Hx]; discriminate (eq_trans (eq_sym Hx) Hno)).
    exists m, h. split_and!; [by case_bool_decide | done | done |].
    symmetry. by apply delete_id.
Qed.

(** clear: nothing is left, all blocks are freed. *)
Lemma clear_ok F m h :
  map_wf m -> heap_ok F (owned m) h ->
  exists m' h', vtm_map_clear m h = Some (m', h') /\ map_wf m' /\ heap_ok F (owned m') h' /\
    map_abs m' = ∅ /\ h' = F.
Proof.
  intros Hm Ho. unfold vtm_map_clear.
  destruct (map_free_nodes_ok F m (concat (buckets m)) [] h) as (h' & -> & Ho').
  - by apply mw_free.
  - rewrite (mw_kt m Hm), (mw_vt m Hm). pose proof (mw_val m Hm) as Hv.
    pose proof (tbl_keys _ _ _ _ (mw_tbl m Hm)) as Hk. rewrite Forall_forall in Hv, Hk |- *.
    intros n Hn. split; [apply stored_key; by apply Hk | by apply Hv].
  - rewrite (mw_kt m Hm), (mw_vt m Hm), app_nil_r. exact Ho.
  - cbn [mbind option_bind]. eexists _, h'. split; [reflexivity |].
    assert (concat (replicate (length (buckets m)) (@nil vtm_map_node)) = []) as E
      by (generalize (length (buckets m)) as k; clear; intros k; induction k; [done | exact IHk]).
    split_and!.
    + destruct Hm. constructor; cbn; rewrite ?length_replicate; auto.
      * apply tbl_inv_replicate. intros hash _. unfold map_idx.
        pose proof (Z.mod_pos_bound hash (Z.of_nat (length (buckets m)))). lia.
      * by rewrite E.
    + unfold owned. cbn [buckets map_with_buckets]. by rewrite E.
    + unfold map_abs, tbl_abs. cbn [buckets map_with_buckets]. by rewrite E.
    + destruct Ho' as (_ & _ & ->). cbn [list_to_set]. set_solver.
Qed.

Lemma size_ok m : map_wf m -> vtm_map_size m = Z.of_nat (size (map_abs m)).
Proof. intros Hm. unfold map_abs. by rewrite (tbl_abs_size _ entry_key _ _ _ (mw_tbl m Hm)). Qed.

(** Keys and values given as arguments. *)
Lemma parse_key_ok ok m junk a h :
  map_wf m -> key_arg_ok kt a ->
  exists e hash, vtm_map_parse_key ok m junk a false h = Some (mk_key (mk_variant e kt None) hash, h) /\
    elem_key_ok kt e /\ vtm_hash_elem kt e = Some hash /\ elem_canon kt e = key_arg_canon kt a.
Proof.
  intros Hm Ha. destruct (parse_key_elem kt junk a Ha) as (e & E & He & Ec).
  destruct (elem_hash_laws kt e e Hkt He He) as ((hash & Hh & _) & _).
  exists e, hash. unfold vtm_map_parse_key. rewrite (mw_kt m Hm), E, (hash_get_fn kt Hkt).
  cbn [mbind option_bind]. by rewrite Hh.
Qed.

Lemma parse_key_copy_ok F l m junk a h :
  map_wf m -> key_arg_ok kt a -> heap_ok F l h ->
  exists e hash h', vtm_map_parse_key true m junk a true h
      = Some (mk_key (mk_variant e kt None) hash, h') /\
    elem_key_ok kt e /\ vtm_hash_elem kt e = Some hash /\ elem_canon kt e = key_arg_canon kt a /\
    heap_ok F (str_owned kt e ++ l) h'.
Proof.
  intros Hm Ha Ho. destruct (parse_key_ok true m junk a h Hm Ha) as (e & hash & E & He & Hh & Hc).
  unfold vtm_map_parse_key in E |- *. rewrite (mw_kt m Hm) in E |- *.
  destruct (vtm_elem_parse kt junk a) as [e0|]; [|done]. cbn [mbind option_bind] in E |- *.
  rewrite (hash_get_fn kt Hkt) in E |- *. cbn [mbind option_bind] in E |- *.
  destruct (vtm_hash_elem kt e0) as [hash0|]; [|done]. cbn [mbind option_bind] in E |- *.
  injection E as -> ->. rewrite match_string. unfold str_owned.
  destruct (decide (kt = VTM_ELEM_STRING)) as [Es|Hne].
  - rewrite Es in He, Hh, Hc |- *. destruct e as [|p]; [done |]. destruct He as [Hp Hs].
    destruct (heap_ok_alloc F l h p Ho Hp) as (p' & h' & E & Et & Hp' & Ho').
    exists (ElemPtr p'), hash, h'. cbn [elem_pointer mbind option_bind]. rewrite E.
    cbn [mbind option_bind]. split_and!; [done | by rewrite <- Et in Hs | | | exact Ho'].
    + rewrite <- Hh. cbn. by rewrite Hp, Hp', Et.
    + rewrite <- Hc. cbn. exact Et.
  - by exists e, hash, h.
Qed.

Lemma parse_value_ok F l m junk a h :
  map_wf m -> val_arg_ok vt a -> heap_ok F l h ->
  exists e h', vtm_map_parse_value true m junk a h = Some (e, h') /\ stored vt e /\
    elem_view vt e = val_arg_view vt a /\ heap_ok F (str_owned vt e ++ l) h'.
Proof.
  intros Hm Ha Ho. destruct (parse_arg_ok vt junk a Ha) as (e & E & _ & Ev & Es & _).
  unfold vtm_map_parse_value. rewrite (mw_vt m Hm), E. cbn [mbind option_bind].
  rewrite match_string. unfold str_owned. destruct (decide (vt = VTM_ELEM_STRING)) as [Ets|Hne].
  - rewrite Ets in Ev |- *. destruct (Es Ets) as (p & -> & Hp & _).
    destruct (heap_ok_alloc F l h p Ho Hp) as (p' & h' & Ec & Et & Hp' & Ho').
    exists (ElemPtr p'), h'. cbn [elem_pointer mbind option_bind]. rewrite Ec. cbn [mbind option_bind].
    split_and!; [done | by exists p' | | exact Ho']. rewrite <- Ev. cbn. exact Et.
  - exists e, h. split_and!; [done | by intros -> | done | done].
Qed.
End inv.

(** ** Scripts of operations and their specification *)

Inductive map_op :=
  | OpPut (key val : va_arg) | OpGet (key : va_arg) | OpContains (key : va_arg)
  | OpRemove (key : va_arg) | OpSize | OpClear.

Inductive map_res :=
  | ResRc (rc : Z) | ResVal (v : option bytes) | ResBool (b : bool) | ResSize (n : Z) | ResUnit.

(** One operation, with the contents of its uninitialised variables; values
    are reported by their meaning. *)
Definition map_exec (junk : Z) (op : map_op) (m : vtm_map) (h : heap)
    : option (map_res * vtm_map * heap) :=
  match op with
  | OpPut k v =>
      '(rc, m, h) ← vtm_map_put_va (true, true, true) m junk k v h; Some (ResRc rc, m, h)
  | OpGet k =>
      r ← vtm_map_get_va m junk k h; Some (ResVal (option_map (elem_view (valuetype m)) r), m, h)
  | OpContains k => b ← vtm_map_contains_key_va m junk k h; Some (ResBool b, m, h)
  | OpRemove k => '(b, m, h) ← vtm_map_remove_va m junk k h; Some (ResBool b, m, h)
  | OpSize => Some (ResSize (vtm_map_size m), m, h)
  | OpClear => '(m, h) ← vtm_map_clear m h; Some (ResUnit, m, h)
  end.

Fixpoint map_run (ops : list (Z * map_op)) (m : vtm_map) (h : heap)
    : option (list map_res * vtm_map * heap) :=
  match ops with
  | [] => Some ([], m, h)
  | (junk, op) :: ops' =>
      '(r, m, h) ← map_exec junk op m h;
      '(rs, m, h) ← map_run ops' m h; Some (r :: rs, m, h)
  end.

(** The same on a finite map from canonical keys to meanings of values. *)
Definition spec_exec (kt vt : vtm_elem_type) (op : map_op) (g : gmap bytes bytes)
    : map_res * gmap bytes bytes :=
  match op with
  | OpPut k v => (ResRc VTM_OK, <[key_arg_canon kt k := val_arg_view vt v]> g)
  | OpGet k => (ResVal (g !! key_arg_canon kt k), g)
  | OpContains k => (ResBool (bool_decide (is_Some (g !! key_arg_canon kt k))), g)
  | OpRemove k =>
      (ResBool (bool_decide (is_Some (g !! key_arg_canon kt k))), delete (key_arg_canon kt k) g)
  | OpSize => (ResSize (Z.of_nat (size g)), g)
  | OpClear => (ResUnit, ∅)
  end.

Fixpoint spec_run (kt vt : vtm_elem_type) (ops : list (Z * map_op)) (g : gmap bytes bytes)
    : list map_res :=
  match ops with
  | [] => []
  | (_, op) :: ops' => let (r, g) := spec_exec kt vt op g in r :: spec_run kt vt ops' g
  end.

Definition op_ok (kt vt : vtm_elem_type) (op : map_op) : Prop :=
  match op with
  | OpPut k v => key_arg_ok kt k /\ val_arg_ok vt v
  | OpGet k | OpContains k | OpRemove k => key_arg_ok kt k
  | OpSize | OpClear => True
  end.

(** ** Lemmas: creation, single operations *)

Lemma map_new_loop_ok fuel i capacity :
  0 <= i <= 63 -> capacity <= 2 ^ 63 -> 64 - i <= Z.of_nat fuel ->
  exists j, map_new_loop fuel (2 ^ i) capacity = Some (2 ^ j) /\ i <= j <= 63 /\
    capacity <= 2 ^ j /\ (j = i \/ 2 ^ (j - 1) < capacity).
Proof.
  revert i. induction fuel as [|fuel IH]; intros i Hi Hc Hf; [lia |]. cbn [map_new_loop].
  destruct (Z.ltb_spec (2 ^ i) capacity) as [Hlt|Hge]; [|exists i; split_and!; auto; lia].
  assert (i < 63) as Hi2.
  { destruct (Z.eq_dec i 63) as [->|]; lia. }
  assert (2 ^ (i + 1) <= 2 ^ 63) by (apply Z.pow_le_mono_r; lia).
  assert (0 < 2 ^ (i + 1)) by (apply Z.pow_pos_nonneg; lia).
  rewrite shiftl_mul, <- Z.pow_add_r by lia. rewrite u64_small by zlia.
  destruct (IH (i + 1)) as (j & E & Hj & Hcj & Hmin); [lia.. |].
  exists j. split_and!; auto; try lia. right. destruct Hmin as [->|]; [|done].
  by replace (i + 1 - 1) with i by lia.
Qed.

Lemma map_new_loop_none fuel count capacity :
  2 ^ 63 < capacity -> count = 0 \/ (exists i, 0 <= i <= 63 /\ count = 2 ^ i) ->
  map_new_loop fuel count capacity = None.
Proof.
  intros Hc. revert count. induction fuel as [|fuel IH]; intros count Hcount; [done |].
  cbn [map_new_loop]. destruct Hcount as [->|(i & Hi & ->)].
  - rewrite (proj2 (Z.ltb_lt 0 capacity)) by lia. apply IH. by left.
  - assert (2 ^ i <= 2 ^ 63) by (apply Z.pow_le_mono_r; lia).
    rewrite (proj2 (Z.ltb_lt (2 ^ i) capacity)) by lia. apply IH.
    rewrite shiftl_mul, <- Z.pow_add_r by lia. destruct (Z.eq_dec i 63) as [->|Hne]; [by left |].
    assert (2 ^ (i + 1) <= 2 ^ 63) by (apply Z.pow_le_mono_r; lia).
    assert (0 < 2 ^ (i + 1)) by (apply Z.pow_pos_nonneg; lia).
    right. exists (i + 1). split; [lia |]. apply u64_small. zlia.
Qed.

Lemma map_wf_new kt vt Hkt n : (0 < n)%nat -> map_wf kt vt Hkt (mk_map kt vt (replicate n []) None).
Proof.
  intros Hn. assert (concat (replicate n (@nil vtm_map_node)) = []) as E
    by (clear; induction n as [|n IH]; [done | exact IH]).
  constructor; cbn; rewrite ?length_replicate, ?E; auto.
  apply tbl_inv_replicate. intros hash _. unfold map_idx.
  pose proof (Z.mod_pos_bound hash (Z.of_nat n)). lia.
Qed.

Lemma vtm_map_new_ok malloc_ok kt vt Hkt capacity :
  (forall n, malloc_ok n = true) -> 0 <= capacity <= 2 ^ 60 ->
  exists m, vtm_map_new malloc_ok kt vt capacity = Some (Some m) /\ map_wf kt vt Hkt m /\
    concat (buckets m) = [].
Proof.
  intros Hok Hc. destruct (map_new_loop_ok map_new_fuel 0 capacity) as (j & E & Hj & _ & Hmin);
    [lia | lia | by vm_compute |].
  unfold vtm_map_new. rewrite !Hok. cbn [negb]. change 1 with (2 ^ 0). rewrite E.
  cbn [mbind option_bind].
  assert (j <= 60).
  { destruct Hmin as [->|Hmin]; [lia |]. apply Z.nlt_ge. intros Hlt.
    assert (2 ^ 60 <= 2 ^ (j - 1)) by (apply Z.pow_le_mono_r; lia). lia. }
  assert (2 ^ j <= 2 ^ 60) by (apply Z.pow_le_mono_r; lia).
  assert (0 < 2 ^ j) by (apply Z.pow_pos_nonneg; lia).
  rewrite (proj2 (Z.ltb_ge SIZE_MAX (2 ^ j * 8))) by (unfold SIZE_MAX; lia). rewrite Hok.
  eexists. split; [reflexivity |]. split; [apply map_wf_new; lia |].
  cbn [buckets]. induction (Z.to_nat (2 ^ j)); done.
Qed.

Lemma map_exec_ok F kt vt Hkt junk op m h :
  map_wf kt vt Hkt m -> heap_ok F (owned kt vt m) h -> op_ok kt vt op ->
  exists r m' h', map_exec junk op m h = Some (r, m', h') /\
    map_wf kt vt Hkt m' /\ heap_ok F (owned kt vt m') h' /\
    spec_exec kt vt op (map_abs kt vt Hkt m) = (r, map_abs kt vt Hkt m').
Proof.
  intros Hm Ho Hop. destruct op as [k v|k|k|k| |]; cbn [map_exec spec_exec op_ok] in Hop |- *.
  - destruct Hop as [Hk Hv]. unfold vtm_map_put_va. cbn [fst snd].
    destruct (parse_key_copy_ok kt vt Hkt F _ m junk k h Hm Hk Ho) as (e & hash & h1 & -> & He & Hh & Hc & Ho1).
    cbn [mbind option_bind].
    destruct (parse_value_ok kt vt Hkt F _ m junk v h1 Hm Hv Ho1) as (x & h2 & -> & Hs & Hx & Ho2).
    cbn [mbind option_bind].
    destruct (put_internal_ok kt vt Hkt F m e hash x h2 Hm He Hh Hs) as (m' & h' & -> & Hm' & Ho' & Ha).
    { eapply heap_ok_perm; [|exact Ho2]. unfold node_owned. cbn [entry_key entry_value].
      rewrite !app_assoc. apply Permutation_app_tail. apply Permutation_app_comm. }
    eexists _, m', h'. cbn [mbind option_bind]. rewrite Ha, Hc, Hx. done.
  - unfold vtm_map_get_va, vtm_map_get_node_pos_va.
    destruct (parse_key_ok kt vt Hkt true m junk k h Hm Hop) as (e & hash & -> & He & Hh & Hc).
    cbn [mbind option_bind]. rewrite <- Hc.
    destruct (find_pos_ok kt vt Hkt m e hash Hm He Hh) as [(pos & n & -> & Hn & _ & Hl)|[-> Hl]];
      cbn [mbind option_bind vtm_map_get_internal].
    + rewrite Hn. cbn [mbind option_bind option_map]. rewrite Hl, (mw_vt _ _ _ m Hm). by eexists _, m, h.
    + rewrite Hl. by eexists _, m, h.
  - unfold vtm_map_contains_key_va, vtm_map_get_node_pos_va.
    destruct (parse_key_ok kt vt Hkt true m junk k h Hm Hop) as (e & hash & -> & He & Hh & Hc).
    cbn [mbind option_bind]. rewrite <- Hc.
    destruct (find_pos_ok kt vt Hkt m e hash Hm He Hh) as [(pos & n & -> & _ & _ & Hl)|[-> Hl]];
      cbn [mbind option_bind]; eexists _, m, h; split_and!; try done; f_equal; f_equal;
      by apply bool_decide_ext; rewrite Hl.
  - unfold vtm_map_remove_va, vtm_map_get_node_pos_va.
    destruct (parse_key_ok kt vt Hkt true m junk k h Hm Hop) as (e & hash & -> & He & Hh & Hc).
    cbn [mbind option_bind]. rewrite <- Hc.
    destruct (remove_ok kt vt Hkt F m e hash h Hm He Hh Ho) as (m' & h' & -> & Hm' & Ho' & Ha).
    eexists _, m', h'. cbn [mbind option_bind]. by rewrite Ha.
  - eexists _, m, h. by rewrite (size_ok kt vt Hkt m Hm).
  - destruct (clear_ok kt vt Hkt F m h Hm Ho) as (m' & h' & -> & Hm' & Ho' & Ha & _).
    eexists _, m', h'. cbn [mbind option_bind]. by rewrite Ha.
Qed.

Lemma map_run_ok F kt vt Hkt ops m h :
  map_wf kt vt Hkt m -> heap_ok F (owned kt vt m) h -> Forall (op_ok kt vt) ops.*2 ->
  exists m' h', map_run ops m h = Some (spec_run kt vt ops (map_abs kt vt Hkt m), m', h') /\
    map_wf kt vt Hkt m' /\ heap_ok F (owned kt vt m') h'.
Proof.
  revert m h. induction ops as [|[junk op] ops IH]; intros m h Hm Ho Hops.
  - by exists m, h.
  - cbn [fmap list_fmap snd] in Hops. apply Forall_cons in Hops as [Hop Hops].
    destruct (map_exec_ok F kt vt Hkt junk op m h Hm Ho Hop) as (r & m1 & h1 & E & Hm1 & Ho1 & Es).
    cbn [map_run spec_run]. rewrite E, Es. cbn [mbind option_bind].
    destruct (IH m1 h1 Hm1 Ho1 Hops) as (m' & h' & -> & Hm' & Ho'). by exists m', h'.
Qed.

(** ** Properties *)

(** C11: The map refines a finite map.  For every key type but the floating
    point ones and every value type, a map created with any reasonable
    capacity answers every sequence of put, get, contains, remove, size and
    clear as the finite map from keys (texts for strings, values for integers,
    addresses for pointers, bytes for blobs) does; no operation frees a block
    twice, uses NULL or reads outside of the table, whatever uninitialised
    variables hold; and after vtm_map_free the live blocks are exactly the
    ones that were live before: every copied string was freed once. *)
Theorem map_refines_gmap malloc_ok kt vt capacity ops (F : heap)
    (Hmalloc : forall n, malloc_ok n = true) (Hkt : key_type kt = true)
    (Hcap : 0 <= capacity <= 2 ^ 60) (Hops : Forall (op_ok kt vt) ops.*2) :
  exists m0 m h,
    vtm_map_new malloc_ok kt vt capacity = Some (Some m0) /\
    map_run ops m0 F = Some (spec_run kt vt ops ∅, m, h) /\
    F ⊆ h /\ vtm_map_free m h = Some F.
Proof.
  destruct (vtm_map_new_ok malloc_ok kt vt Hkt capacity Hmalloc Hcap) as (m0 & E0 & Hm0 & Hc).
  assert (heap_ok F (owned kt vt m0) F) as Ho0
    by (unfold owned; rewrite Hc; apply heap_ok_nil).
  destruct (map_run_ok F kt vt Hkt ops m0 F Hm0 Ho0 Hops) as (m & h & E & Hm & Ho).
  exists m0, m, h. split_and!; [done | | |].
  - rewrite E. do 2 f_equal. unfold map_abs, tbl_abs. by rewrite Hc.
  - destruct Ho as (_ & _ & ->). set_solver.
  - destruct (clear_ok kt vt Hkt F m h Hm Ho) as (m' & h' & E' & _ & _ & _ & ->).
    unfold vtm_map_free. by rewrite E'.
Qed.

Definition map_script : list (Z * map_op) :=
  let s n t := VaPtr (mk_ptr n (cstr_of t)) in
  [(7, OpPut (s 4096 "a"%string) (s 4100 "one"%string)); (8, OpPut (s 4104 "b"%string) (s 4108 "two"%string));
   (9, OpPut (s 4112 "a"%string) (s 4116 "three"%string)); (0, OpGet (s 4120 "a"%string)); (1, OpSize);
   (2, OpRemove (s 4124 "b"%string)); (3, OpContains (s 4128 "b"%string)); (4, OpSize)].

Lemma map_refines_gmap_witness :
  exists m0 m h,
    vtm_map_new (fun _ => true) VTM_ELEM_STRING VTM_ELEM_STRING 3 = Some (Some m0) /\
    map_run map_script m0 {[4096]} = Some (spec_run VTM_ELEM_STRING VTM_ELEM_STRING map_script ∅, m, h) /\
    {[4096]} ⊆ h /\ vtm_map_free m h = Some {[4096]}.
Proof.
  apply (map_refines_gmap (fun _ => true) VTM_ELEM_STRING VTM_ELEM_STRING 3 map_script {[4096]});
    [done | done | lia |].
  unfold map_script. cbn [fmap list_fmap snd].
  repeat constructor; (reflexivity || (apply (bool_decide_unpack _); by vm_compute) || done).
Defined.

Example map_script_result :
  spec_run VTM_ELEM_STRING VTM_ELEM_STRING map_script ∅
  = [ResRc VTM_OK; ResRc VTM_OK; ResRc VTM_OK; ResVal (Some (cstr_of "three"%string)); ResSize 2;
     ResBool true; ResBool false; ResSize 1].
Proof. by vm_compute. Qed.

(** Defect.  With a requested capacity above 2^63 the number of buckets
    is doubled until it wraps around to zero and the loop never ends: for no
    number of rounds there is a result. *)
Theorem map_new_diverges capacity fuel (Hc : 2 ^ 63 < capacity <= SIZE_MAX) :
  map_new_loop fuel 1 capacity = None.
Proof. apply map_new_loop_none; [lia |]. right. by exists 0. Qed.

Lemma map_new_diverges_witness : map_new_loop 200 1 SIZE_MAX = None.
Proof. apply (map_new_diverges SIZE_MAX 200). by vm_compute. Defined.

(** Defect.  If the node of a put cannot be allocated, the caller is told
    and the map is unchanged, but the copies of a string key and a string
    value are neither stored nor freed: two blocks stay live that no map
    owns. *)
Theorem map_put_oom_leaks m junk k v (F h : heap) (Hkt : key_type (keytype m) = true)
    (Hm : map_wf (keytype m) (valuetype m) Hkt m)
    (Hs : keytype m = VTM_ELEM_STRING /\ valuetype m = VTM_ELEM_STRING)
    (Ho : heap_ok F (map_owned m) h)
    (Hk : key_arg_ok (keytype m) k) (Hv : val_arg_ok (valuetype m) v) :
  exists a b h', vtm_map_put_va (true, true, false) m junk k v h = Some (VTM_E_MALLOC, m, h') /\
    heap_ok F (a :: b :: map_owned m) h'.
Proof.
  unfold vtm_map_put_va. cbn [fst snd].
  destruct (parse_key_copy_ok _ _ Hkt F _ m junk k h Hm Hk Ho) as (e & hash & h1 & -> & _ & _ & _ & Ho1).
  cbn [mbind option_bind].
  destruct (parse_value_ok _ _ Hkt F _ m junk v h1 Hm Hv Ho1) as (x & h2 & -> & _ & _ & Ho2).
  cbn [mbind option_bind]. unfold vtm_map_put_internal. cbn [negb].
  unfold str_owned in Ho2. destruct Hs as [Ek Ev]. rewrite !decide_True in Ho2 by done.
  by exists (elem_word x), (elem_word e), h2.
Qed.

Definition empty_string_map : vtm_map := mk_map VTM_ELEM_STRING VTM_ELEM_STRING [[]] None.

Lemma map_put_oom_leaks_witness :
  exists a b h', vtm_map_put_va (true, true, false) empty_string_map 0
      (VaPtr (mk_ptr 4096 [107])) (VaPtr (mk_ptr 4100 [118])) {[4096; 4100]}
    = Some (VTM_E_MALLOC, empty_string_map, h') /\
    heap_ok {[4096; 4100]} (a :: b :: map_owned empty_string_map) h'.
Proof.
  apply (map_put_oom_leaks empty_string_map 0 (VaPtr (mk_ptr 4096 [107])) (VaPtr (mk_ptr 4100 [118]))
    {[4096; 4100]} {[4096; 4100]} eq_refl).
  - apply (map_wf_new VTM_ELEM_STRING VTM_ELEM_STRING eq_refl 1). lia.
  - split; reflexivity.
  - apply heap_ok_nil.
  - repeat split; by apply (bool_decide_unpack _); vm_compute.
  - repeat split; by apply (bool_decide_unpack _); vm_compute.
Defined.
