(* ===== verification/Smap.v ===== *)
(** * Smap: the generic hash map of core/smap.h

    The macros of smap.h, for a type of nodes with a key: the chains are
    walked as the macros do, a new node goes to the end of its chain, a node
    with an equal key is replaced in place and freed. *)

From stdpp Require Import gmap.
From S2P Require Import Prelude Base Elem Hash Heap Table.

Section smap.
Context (o : key_ops) {N : Type} (nkey : N -> vtm_elem) (free_node : N -> heap -> option heap).

(** core/smap.h:77-78.  VTM_ARRAY_LEN expands to [sizeof(x) / sizeof(x[0])]
    without parentheses, so the hash is reduced modulo the size of the array
    in bytes and then divided by the size of a pointer. *)
Definition VTM_SMAP_INDEX (len : nat) (hash : Z) : nat :=
  Z.to_nat ((hash mod (Z.of_nat len * 8)) / 8).

(** core/smap.h:99-132 [VTM_SMAP_PUT].  The walk along one chain. *)
Fixpoint smap_put_chain (b : list N) (n : N) (h : heap) : option (list N * heap) :=
  match b with
  | [] => Some ([n], h)
  | cur :: b' =>
      eq ← ko_cmp o (nkey cur) (nkey n);
      if eq : bool then h ← free_node cur h; Some (n :: b', h)
      else '(r, h) ← smap_put_chain b' n h; Some (cur :: r, h)
  end.

Definition VTM_SMAP_PUT (t : list (list N)) (n : N) (h : heap) : option (list (list N) * heap) :=
  hash ← ko_hash o (nkey n);
  let index := VTM_SMAP_INDEX (length t) hash in
  b ← t !! index;
  '(b, h) ← smap_put_chain b n h; Some (<[index := b]> t, h).

(** core/smap.h:142-157.  The position of the node. *)
Definition VTM_SMAP_GET (t : list (list N)) (k : vtm_elem) : option (option (nat * nat)) :=
  hash ← ko_hash o k;
  let index := VTM_SMAP_INDEX (length t) hash in
  b ← t !! index;
  pos ← bucket_find o nkey b k; Some (option_map (pair index) pos).

(** core/smap.h:167-191 [VTM_SMAP_REMOVE].  The walk along one chain. *)
Fixpoint smap_remove_chain (b : list N) (k : vtm_elem) (h : heap)
    : option (bool * list N * heap) :=
  match b with
  | [] => Some (false, [], h)
  | cur :: b' =>
      eq ← ko_cmp o (nkey cur) k;
      if eq : bool then h ← free_node cur h; Some (true, b', h)
      else '(removed, r, h) ← smap_remove_chain b' k h; Some (removed, cur :: r, h)
  end.

Definition VTM_SMAP_REMOVE (t : list (list N)) (k : vtm_elem) (h : heap)
    : option (bool * list (list N) * heap) :=
  hash ← ko_hash o k;
  let index := VTM_SMAP_INDEX (length t) hash in
  b ← t !! index;
  '(removed, b, h) ← smap_remove_chain b k h; Some (removed, <[index := b]> t, h).

(** core/smap.h:216-219 *)
Definition VTM_SMAP_FOR_EACH (t : list (list N)) : list N := concat t.

(** core/smap.h:229-231 *)
Definition VTM_SMAP_GET_SIZE (t : list (list N)) : Z := zlen (VTM_SMAP_FOR_EACH t).

(** core/smap.h:239-251 *)
Fixpoint smap_free_nodes (l : list N) (h : heap) : option heap :=
  match l with [] => Some h | n :: l' => h ← free_node n h; smap_free_nodes l' h end.

Definition VTM_SMAP_CLEAR (t : list (list N)) (h : heap) : option (list (list N) * heap) :=
  h ← smap_free_nodes (concat t) h; Some (replicate (length t) [], h).

(** ** The chains in terms of positions *)

Lemma smap_put_chain_find b n h :
  smap_put_chain b n h =
  (pos ← bucket_find o nkey b (nkey n);
   match pos with
   | Some j => old ← b !! j; h ← free_node old h; Some (<[j := n]> b, h)
   | None => Some (b ++ [n], h)
   end).
Proof.
  induction b as [|c b IH]; [done |]. cbn [smap_put_chain bucket_find].
  destruct (ko_cmp o (nkey c) (nkey n)) as [[]|]; [done | | done].
  cbn [mbind option_bind]. rewrite IH.
  destruct (bucket_find o nkey b (nkey n)) as [[j|]|]; cbn; [|done|done].
  destruct (b !! j) as [old|]; cbn; [|done]. by destruct (free_node old h).
Qed.

Lemma smap_remove_chain_find b k h :
  smap_remove_chain b k h =
  (pos ← bucket_find o nkey b k;
   match pos with
   | Some j => old ← b !! j; h ← free_node old h; Some (true, delete j b, h)
   | None => Some (false, b, h)
   end).
Proof.
  induction b as [|c b IH]; [done |]. cbn [smap_remove_chain bucket_find].
  destruct (ko_cmp o (nkey c) k) as [[]|]; [done | | done].
  cbn [mbind option_bind]. rewrite IH.
  destruct (bucket_find o nkey b k) as [[j|]|]; cbn; [|done|done].
  destruct (b !! j) as [old|]; cbn; [|done]. by destruct (free_node old h).
Qed.

Lemma VTM_SMAP_INDEX_range len hash :
  (0 < len)%nat -> 0 <= hash -> (VTM_SMAP_INDEX len hash < len)%nat.
Proof. intros Hl Hh. unfold VTM_SMAP_INDEX. dlia. Qed.

(** ** What the operations do to a table that keeps its invariant

    [own n] are the blocks a node owns; [free_node] frees them. *)

Context {Laws : KeyLaws o} (own : N -> list Z) {V : Type} (nval : N -> V) (node_ok : N -> Prop).

Hypothesis free_node_ok : forall F n l h,
  node_ok n -> heap_ok F (own n ++ l) h ->
  exists h', free_node n h = Some h' /\ heap_ok F l h'.

Abbreviation idx t := (VTM_SMAP_INDEX (length t)).

Record smap_wf (t : list (list N)) : Prop := {
  sw_tbl : tbl_inv o nkey (idx t) t;
  sw_ok : Forall node_ok (concat t)
}.

Definition smap_owned (t : list (list N)) : list Z := concat t ≫= own.
Abbreviation abs t := (tbl_abs o nkey nval t).

Lemma smap_wf_update t i b b' l :
  smap_wf t -> t !! i = Some b -> concat (<[i := b']> t) ≡ₚ l -> Forall node_ok l ->
  (forall n, n ∈ b' -> n ∈ b \/
     (key_ok (nkey n) /\ exists h, ko_hash o (nkey n) = Some h /\ idx t h = i)) ->
  NoDup ((fun n => key_canon (nkey n)) <$> concat (<[i := b']> t)) ->
  smap_wf (<[i := b']> t).
Proof.
  intros [Ht _] Hi E Hl Hnew Hnd. constructor; [|by rewrite E].
  rewrite length_insert. by eapply tbl_inv_update.
Qed.

Lemma smap_find t k :
  smap_wf t -> key_ok k ->
  exists hash b, ko_hash o k = Some hash /\ t !! idx t hash = Some b /\
    tbl_find o nkey t k (idx t hash) b.
Proof.
  intros [Ht _] Hk. destruct (key_hash_some k Hk) as (hash & Hh & Hpos).
  destruct (tbl_find_spec o nkey (idx t) t k hash Ht Hk Hh Hpos) as (b & Hb & Hf).
  by exists hash, b.
Qed.

Lemma smap_put_ok F t n h :
  smap_wf t -> key_ok (nkey n) -> node_ok n -> heap_ok F (own n ++ smap_owned t) h ->
  exists t' h', VTM_SMAP_PUT t n h = Some (t', h') /\ smap_wf t' /\
    heap_ok F (smap_owned t') h' /\ abs t' = <[key_canon (nkey n) := nval n]> (abs t) /\
    length t' = length t.
Proof.
  intros Hw Hk Hn Ho. destruct (smap_find t (nkey n) Hw Hk) as (hash & b & Hh & Hb & Hf).
  pose proof (sw_tbl t Hw) as Ht. pose proof (sw_ok t Hw) as Hall.
  unfold VTM_SMAP_PUT. rewrite Hh. cbn [mbind option_bind]. rewrite Hb. cbn [mbind option_bind].
  rewrite smap_put_chain_find.
  destruct Hf as [j old rest Hf Hj Hc E Er _ | Hf Hne _ Er]; rewrite Hf; cbn [mbind option_bind].
  - rewrite Hj. cbn [mbind option_bind]. rewrite E in Hall. inversion Hall as [|? ? Hold Hrest]; subst.
    destruct (free_node_ok F old (own n ++ (rest ≫= own)) h Hold) as (h' & -> & Ho').
    { eapply heap_ok_perm; [|exact Ho]. unfold smap_owned. rewrite E. cbn [mbind list_bind].
      apply Permutation_app_swap_app. }
    cbn [mbind option_bind]. eexists _, h'. split; [reflexivity |].
    destruct (tbl_abs_replace o nkey (idx t) nval t _ old n rest Ht E (Er n) (eq_sym Hc)) as [Hnd Ha].
    split_and!; [|unfold smap_owned; eapply heap_ok_perm; [|exact Ho']; by rewrite (Er n)
      | exact Ha | by rewrite length_insert].
    eapply smap_wf_update; [done.. | exact (Er n) | by constructor | | exact Hnd].
    intros x [i Hi]%list_elem_of_lookup. apply list_lookup_insert_Some in Hi as [(_ & <- & _)|(_ & Hi)];
      [right; eauto | left; by eapply list_elem_of_lookup_2].
  - eexists _, h. split; [reflexivity |].
    destruct (tbl_abs_insert o nkey (idx t) nval t _ n Ht Hne (Er n)) as [Hnd Ha].
    split_and!; [|unfold smap_owned; eapply heap_ok_perm; [|exact Ho]; by rewrite (Er n)
      | exact Ha | by rewrite length_insert].
    eapply smap_wf_update; [done.. | exact (Er n) | by constructor | | exact Hnd].
    intros x [Hx|Hx]%elem_of_app; [by left | right]. apply list_elem_of_singleton in Hx as ->. eauto.
Qed.

Lemma smap_get_ok t k :
  smap_wf t -> key_ok k ->
  (exists i j b n, VTM_SMAP_GET t k = Some (Some (i, j)) /\ t !! i = Some b /\ b !! j = Some n /\
     node_ok n /\ abs t !! key_canon k = Some (nval n)) \/
  (VTM_SMAP_GET t k = Some None /\ abs t !! key_canon k = None).
Proof.
  intros Hw Hk. destruct (smap_find t k Hw Hk) as (hash & b & Hh & Hb & Hf).
  unfold VTM_SMAP_GET. rewrite Hh. cbn [mbind option_bind]. rewrite Hb. cbn [mbind option_bind].
  destruct Hf as [j n rest Hf Hj Hc E _ _ | Hf Hne _ _]; rewrite Hf; cbn [mbind option_bind option_map].
  - left. exists (idx t hash), j, b, n. split_and!; try done.
    + pose proof (sw_ok t Hw) as Hall. rewrite E in Hall. by inversion Hall.
    + rewrite <- Hc. eapply tbl_abs_found; [apply (sw_tbl t Hw) | exact E].
  - right. split; [done |]. by apply tbl_abs_missing.
Qed.

(** A node found is changed without its key and without its meaning. *)
Lemma smap_change_ok F t k i j b n n' h :
  smap_wf t -> key_ok k -> heap_ok F (smap_owned t) h ->
  VTM_SMAP_GET t k = Some (Some (i, j)) -> t !! i = Some b -> b !! j = Some n ->
  nkey n' = nkey n -> nval n' = nval n -> own n' = own n -> node_ok n' ->
  smap_wf (<[i := <[j := n']> b]> t) /\ heap_ok F (smap_owned (<[i := <[j := n']> b]> t)) h /\
  abs (<[i := <[j := n']> b]> t) = abs t.
Proof.
  intros Hw Hk Ho Hg Hi Hj Ek Ev Eo Hn'. destruct (smap_find t k Hw Hk) as (hash & b0 & Hh & Hb & Hf).
  pose proof (sw_tbl t Hw) as Ht. pose proof (sw_ok t Hw) as Hall.
  unfold VTM_SMAP_GET in Hg. rewrite Hh in Hg. cbn [mbind option_bind] in Hg. rewrite Hb in Hg.
  cbn [mbind option_bind] in Hg.
  destruct Hf as [j0 n0 rest Hf Hj0 Hc E Er _ | Hf Hne _ _]; rewrite Hf in Hg; [|done].
  cbn in Hg. injection Hg as <- <-. rewrite Hi in Hb. injection Hb as <-.
  rewrite Hj in Hj0. injection Hj0 as <-.
  assert (key_canon (nkey n') = key_canon (nkey n)) as Ec by by rewrite Ek.
  destruct (tbl_abs_replace o nkey (idx t) nval t _ n n' rest Ht E (Er n') Ec) as [Hnd Ha].
  split_and!.
  - eapply smap_wf_update; [done.. | exact (Er n') | | | exact Hnd].
    { rewrite E in Hall. inversion Hall. by constructor. }
    intros x [i' Hx]%list_elem_of_lookup. apply list_lookup_insert_Some in Hx as [(_ & <- & _)|(_ & Hx)];
      [right | left; by eapply list_elem_of_lookup_2].
    rewrite Ek. pose proof (tbl_bucket_keys o nkey _ t _ b Ht Hi) as Hks.
    rewrite Forall_forall in Hks. apply list_elem_of_lookup_2 in Hj as Hin.
    split; [by apply Hks | by eapply (tbl_index o nkey _ t Ht)].
  - unfold smap_owned. eapply heap_ok_perm; [|exact Ho]. unfold smap_owned. rewrite E, (Er n').
    cbn [mbind list_bind]. by rewrite Eo.
  - rewrite Ha, Ev, Ec. apply insert_id. by eapply tbl_abs_found.
Qed.

Lemma smap_remove_ok F t k h :
  smap_wf t -> key_ok k -> heap_ok F (smap_owned t) h ->
  exists t' h', VTM_SMAP_REMOVE t k h
      = Some (bool_decide (is_Some (abs t !! key_canon k)), t', h') /\ smap_wf t' /\
    heap_ok F (smap_owned t') h' /\ abs t' = delete (key_canon k) (abs t) /\ length t' = length t.
Proof.
  intros Hw Hk Ho. destruct (smap_find t k Hw Hk) as (hash & b & Hh & Hb & Hf).
  pose proof (sw_tbl t Hw) as Ht. pose proof (sw_ok t Hw) as Hall.
  unfold VTM_SMAP_REMOVE. rewrite Hh. cbn [mbind option_bind]. rewrite Hb. cbn [mbind option_bind].
  rewrite smap_remove_chain_find.
  destruct Hf as [j n rest Hf Hj Hc E _ Er | Hf Hne _ _]; rewrite Hf; cbn [mbind option_bind].
  - rewrite Hj. cbn [mbind option_bind]. rewrite E in Hall. inversion Hall as [|? ? Hn Hrest]; subst.
    destruct (free_node_ok F n (rest ≫= own) h Hn) as (h' & -> & Ho').
    { eapply heap_ok_perm; [|exact Ho]. unfold smap_owned. by rewrite E. }
    cbn [mbind option_bind]. rewrite <- Hc.
    rewrite bool_decide_eq_true_2 by (eexists; exact (tbl_abs_found o nkey _ nval t n rest Ht E)).
    eexists _, h'. split; [reflexivity |].
    destruct (tbl_abs_remove o nkey (idx t) nval t _ n rest Ht E Er) as [Hnd Ha].
    split_and!; [|unfold smap_owned; eapply heap_ok_perm; [|exact Ho']; by rewrite Er
      | exact Ha | by rewrite length_insert].
    eapply smap_wf_update; [done.. | exact Er | done | | exact Hnd].
    intros x Hx. left. apply list_elem_of_lookup in Hx as [i Hx].
    rewrite list_lookup_delete in Hx. by eapply list_elem_of_lookup_2.
  - pose proof (tbl_abs_missing o nkey nval t _ Hne) as Hno.
    rewrite bool_decide_eq_false_2 by (rewrite Hno; by intros []).
    rewrite list_insert_id by done. exists t, h. split_and!; try done.
    symmetry. by apply delete_id.
Qed.

Lemma smap_free_nodes_ok F l l' h :
  Forall node_ok l -> heap_ok F ((l ≫= own) ++ l') h ->
  exists h', smap_free_nodes l h = Some h' /\ heap_ok F l' h'.
Proof.
  intros Hl. revert h. induction Hl as [|n l Hn Hl IH]; intros h Ho; [by exists h |].
  cbn [mbind list_bind] in Ho. rewrite <- app_assoc in Ho.
  destruct (free_node_ok F n _ h Hn Ho) as (h1 & E & Ho1). cbn [smap_free_nodes]. rewrite E.
  cbn [mbind option_bind]. by apply IH.
Qed.

Lemma concat_replicate_nil (k : nat) : concat (replicate k (@nil N)) = [].
Proof. induction k as [|k IH]; [done | exact IH]. Qed.

Lemma smap_wf_empty k : (0 < k)%nat -> smap_wf (replicate k []).
Proof.
  intros Hk. constructor; rewrite ?length_replicate, ?concat_replicate_nil; [|constructor].
  apply tbl_inv_replicate. intros hash Hh. by apply VTM_SMAP_INDEX_range.
Qed.

Lemma smap_clear_ok F t h :
  (0 < length t)%nat -> smap_wf t -> heap_ok F (smap_owned t) h ->
  VTM_SMAP_CLEAR t h = Some (replicate (length t) [], F).
Proof.
  intros Hl Hw Ho. unfold VTM_SMAP_CLEAR.
  destruct (smap_free_nodes_ok F (concat t) [] h) as (h' & -> & (_ & _ & ->)).
  - apply (sw_ok t Hw).
  - by rewrite app_nil_r.
  - cbn [mbind option_bind list_to_set]. do 2 f_equal. set_solver.
Qed.

Lemma smap_abs_size t : smap_wf t -> VTM_SMAP_GET_SIZE t = Z.of_nat (size (abs t)).
Proof.
  intros Hw. unfold VTM_SMAP_GET_SIZE, VTM_SMAP_FOR_EACH, zlen.
  by rewrite (tbl_abs_size o nkey (idx t) nval t (sw_tbl t Hw)).
Qed.
End smap.
