(* ===== verification/Dataset.v ===== *)
(** * Dataset: named values, core/dataset.c over core/smap.h

    A dataset maps names to variants.  Names are copied unless the hint
    STATIC_NAMES is given and compare without case if the hint IGNORE_CASE is.
    A node owns the copy of its name and, when [free_val_ptr] says so, the
    string or blob it holds; the text a variant caches on its first use as a
    string is allocated and freed with the node and is not in the heap.
    [None] is undefined behaviour or an abort. *)

From stdpp Require Import gmap fin_sets.
From S2P Require Import Prelude Base Format Elem Hash Heap Table Smap.

(** ** Data *)

(** core/dataset.h:24-35 *)
Definition VTM_DS_HINT_DEFAULT : Z := 0.
Definition VTM_DS_HINT_STATIC_NAMES : Z := 1.
Definition VTM_DS_HINT_IGNORE_CASE : Z := 2.

(** core/dataset.c:55-62 [struct vtm_dataset_node]; the link is the position
    in the chain *)
Record vtm_dataset_node := mk_ds_node {
  dn_key : vtm_variant;
  dn_value : vtm_variant;
  free_key_ptr : bool;
  free_val_ptr : bool
}.

(** core/dataset.h:37-42 [struct vtm_dataset].  The key functions are
    determined by the hints, the function that frees a node is fixed. *)
Record vtm_dataset := mk_ds { hints : Z; vars : list (list vtm_dataset_node) }.

Definition dn_key_data (n : vtm_dataset_node) : vtm_elem := v_data (dn_key n).

(** [vtm_flag_is_set] *)
Definition flag_is_set (val flag : Z) : bool := Z.land val flag =? flag.

(** core/dataset.c:67-77.  The functions set for the keys. *)
Definition ds_key_ops (hints : Z) : key_ops :=
  if negb (Z.land hints VTM_DS_HINT_IGNORE_CASE =? 0) then strcase_key_ops
  else elem_key_ops VTM_ELEM_STRING.

(** core/dataset.c:67-77.  The map is empty. *)
Definition vtm_dataset_init (hints : Z) : vtm_dataset := mk_ds hints (replicate 8 []).

(** core/dataset.c:89-102.  The inner [None] is NULL. *)
Definition vtm_dataset_newh (malloc_ok : bool) (hints : Z) : option vtm_dataset :=
  if malloc_ok then Some (vtm_dataset_init hints) else None.

(** core/dataset.c:84-87 *)
Definition vtm_dataset_new (malloc_ok : bool) : option vtm_dataset :=
  vtm_dataset_newh malloc_ok VTM_DS_HINT_DEFAULT.

(** ** Operations on nodes *)

(** core/dataset.c:118-143 *)
Definition vtm_dataset_free_node (n : vtm_dataset_node) (h : heap) : option heap :=
  h ← (if free_key_ptr n then p ← elem_pointer (dn_key_data n); c_free p h else Some h);
  if free_val_ptr n then
    match v_type (dn_value n) with
    | VTM_ELEM_BLOB =>
        (* the block starts before the contents, NULL is not allowed *)
        p ← elem_pointer (v_data (dn_value n)); if is_null p then None else c_free p h
    | VTM_ELEM_STRING | VTM_ELEM_POINTER => p ← elem_pointer (v_data (dn_value n)); c_free p h
    | _ => Some h
    end
  else Some h.

(** core/dataset.c:113-116 *)
Definition vtm_dataset_clear (ds : vtm_dataset) (h : heap) : option (vtm_dataset * heap) :=
  '(t, h) ← VTM_SMAP_CLEAR vtm_dataset_free_node (vars ds) h; Some (mk_ds (hints ds) t, h).

(** core/dataset.c:79-82 *)
Definition vtm_dataset_release (ds : vtm_dataset) (h : heap) : option heap :=
  '(_, h) ← vtm_dataset_clear ds h; Some h.

(** core/dataset.c:104-111 *)
Definition vtm_dataset_free (ds : option vtm_dataset) (h : heap) : option heap :=
  match ds with None => Some h | Some ds => vtm_dataset_release ds h end.

(** core/dataset.c:145-148 *)
Definition vtm_dataset_put_node (ds : vtm_dataset) (n : vtm_dataset_node) (h : heap)
    : option (vtm_dataset * heap) :=
  '(t, h) ← VTM_SMAP_PUT (ds_key_ops (hints ds)) dn_key_data vtm_dataset_free_node (vars ds) n h;
  Some (mk_ds (hints ds) t, h).

(** core/dataset.c:150-161.  The position of the node. *)
Definition vtm_dataset_get_node (ds : vtm_dataset) (name : cptr) : option (option (nat * nat)) :=
  VTM_SMAP_GET (ds_key_ops (hints ds)) dn_key_data (vars ds) (ElemPtr name).

Definition ds_node_at (ds : vtm_dataset) (pos : nat * nat) : option vtm_dataset_node :=
  b ← vars ds !! pos.1; b !! pos.2.

(** core/dataset.c:163-204.  The entries: names and values; [None] is NULL. *)
Definition vtm_dataset_entryset (malloc_ok : bool) (ds : option vtm_dataset)
    : option (list (option cptr * vtm_variant)) :=
  match ds with
  | None => None
  | Some ds =>
      if malloc_ok then
        Some (map (fun n => (elem_pointer (dn_key_data n), dn_value n)) (VTM_SMAP_FOR_EACH (vars ds)))
      else None
  end.

(** core/dataset.c:206-213 *)
Definition vtm_dataset_contains (ds : vtm_dataset) (name : cptr) : option bool :=
  pos ← vtm_dataset_get_node ds name; Some (bool_decide (is_Some pos)).

(** core/dataset.c:215-224 *)
Definition vtm_dataset_remove (ds : vtm_dataset) (name : cptr) (h : heap)
    : option (Z * vtm_dataset * heap) :=
  let key := vtm_variant_from_str name in
  '(removed, t, h) ← VTM_SMAP_REMOVE (ds_key_ops (hints ds)) dn_key_data vtm_dataset_free_node
     (vars ds) (v_data key) h;
  Some (if removed : bool then VTM_OK else VTM_E_NOT_FOUND, mk_ds (hints ds) t, h).

(** core/dataset.c:226-235 *)
Definition vtm_dataset_get_variant (ds : vtm_dataset) (name : cptr)
    : option (option vtm_variant) :=
  pos ← vtm_dataset_get_node ds name;
  match pos with
  | Some p => n ← ds_node_at ds p; Some (Some (dn_value n))
  | None => Some None
  end.

(** ** Setters *)

(** Answers of the allocator for the node, the copy of the name and the copy
    of a string value. *)
Record ds_alloc := mk_ds_alloc { ok_node : bool; ok_key : bool; ok_val : bool }.
Definition alloc_ok : ds_alloc := mk_ds_alloc true true true.

(** core/dataset.c:35-50 [VTM_DATASET_SETX].  A node that cannot be allocated is
    reported and then written to.  [valtype] is the value, computed after the
    name was copied. *)
Definition VTM_DATASET_SETX (a : ds_alloc) (ds : vtm_dataset) (name : cptr)
    (valtype : heap -> option (vtm_variant * heap)) (free_val : bool) (h : heap)
    : option (vtm_dataset * heap) :=
  if negb (ok_node a) then None
  else
    let static_key := flag_is_set (hints ds) VTM_DS_HINT_STATIC_NAMES in
    '(key, h) ← (if static_key then Some (name, h) else vtm_str_copy (ok_key a) name h);
    '(value, h) ← valtype h;
    vtm_dataset_put_node ds
      (mk_ds_node (vtm_variant_from_str key) value (negb static_key) free_val) h.

(** core/dataset.c:53 *)
Definition VTM_DATASET_SET (a : ds_alloc) (ds : vtm_dataset) (name : cptr) (value : vtm_variant)
    (h : heap) : option (vtm_dataset * heap) :=
  VTM_DATASET_SETX a ds name (fun h => Some (value, h)) false h.

(** core/dataset.c:16-22 *)
Definition VTM_DATASET_CHECK_NULL_VALUE (ds : vtm_dataset) (name val : cptr) (h : heap)
    (cont : option (vtm_dataset * heap)) : option (vtm_dataset * heap) :=
  if is_null val then '(_, ds, h) ← vtm_dataset_remove ds name h; Some (ds, h) else cont.

(** core/dataset.c:278-451 [vtm_dataset_set_int8 ... vtm_dataset_set_ulong].
    [junk] is what the variant held before. *)
Definition vtm_dataset_set_integer (type : vtm_elem_type) (junk : Z) a ds name (val : Z) h :=
  VTM_DATASET_SET a ds name (vtm_variant_from_integer type junk val) h.

(** core/dataset.c:358-361 *)
Definition vtm_dataset_set_bool (junk : Z) a ds name (val : bool) h :=
  VTM_DATASET_SET a ds name (vtm_variant_from_bool junk val) h.

(** core/dataset.c:458-461 *)
Definition vtm_dataset_set_float (junk : Z) a ds name (val : Z) h :=
  VTM_DATASET_SET a ds name (vtm_variant_from_float junk val) h.

(** core/dataset.c:468-471 *)
Definition vtm_dataset_set_double (junk : Z) a ds name (val : Z) h :=
  VTM_DATASET_SET a ds name (vtm_variant_from_double junk val) h.

(** core/dataset.c:478-482 *)
Definition vtm_dataset_set_string a ds name (val : cptr) h :=
  VTM_DATASET_CHECK_NULL_VALUE ds name val h
    (VTM_DATASET_SETX a ds name
       (fun h => '(p, h) ← vtm_str_copy (ok_val a) val h; Some (vtm_variant_from_str p, h)) true h).

(** core/dataset.c:484-488 *)
Definition vtm_dataset_set_static_string a ds name (val : cptr) h :=
  VTM_DATASET_CHECK_NULL_VALUE ds name val h
    (VTM_DATASET_SETX a ds name (fun h => Some (vtm_variant_from_str val, h)) false h).

(** core/dataset.c:495-499 *)
Definition vtm_dataset_set_blob a ds name (val : cptr) h :=
  VTM_DATASET_CHECK_NULL_VALUE ds name val h
    (VTM_DATASET_SETX a ds name (fun h => Some (vtm_variant_from_blob val, h)) true h).

(** core/dataset.c:501-505 *)
Definition vtm_dataset_set_static_blob a ds name (val : cptr) h :=
  VTM_DATASET_CHECK_NULL_VALUE ds name val h
    (VTM_DATASET_SETX a ds name (fun h => Some (vtm_variant_from_blob val, h)) false h).

(** core/dataset.c:512-516 *)
Definition vtm_dataset_set_pointer a ds name (val : cptr) h :=
  VTM_DATASET_CHECK_NULL_VALUE ds name val h
    (VTM_DATASET_SET a ds name (vtm_variant_from_ptr val) h).

(** core/dataset.c:237-271 *)
Definition vtm_dataset_set_variant (a : ds_alloc) (ds : vtm_dataset) (name : cptr)
    (var : vtm_variant) (h : heap) : option (vtm_dataset * heap) :=
  if negb (ok_node a) then None
  else
    let static_key := flag_is_set (hints ds) VTM_DS_HINT_STATIC_NAMES in
    '(key, h) ← (if static_key then Some (name, h) else vtm_str_copy (ok_key a) name h);
    let node data free_val :=
      mk_ds_node (vtm_variant_from_str key) (mk_variant data (v_type var) None)
        (negb static_key) free_val in
    match v_type var with
    | VTM_ELEM_STRING =>
        p ← elem_pointer (v_data var);
        '(p, h) ← vtm_str_copy (ok_val a) p h;
        vtm_dataset_put_node ds (node (ElemPtr p) true) h
    | VTM_ELEM_BLOB => vtm_dataset_put_node ds (node (v_data var) true) h
    | _ => vtm_dataset_put_node ds (node (v_data var) false) h
    end.

(** ** Getters *)

(** core/dataset.c:24-33 [VTM_DATASET_GET].  [as_type] is the conversion of the
    variant, [nvl] the result for a name that is not set. *)
Definition VTM_DATASET_GET {A} (ds : vtm_dataset) (name : cptr) (as_type : vtm_variant -> option A)
    (nvl : A) : option A :=
  var ← vtm_dataset_get_variant ds name;
  match var with Some v => as_type v | None => Some nvl end.

(** core/dataset.c:273-446 [vtm_dataset_get_int8 ... vtm_dataset_get_ulong].  The
    getter for uint64 converts to int64 and the result to uint64_t. *)
Definition vtm_dataset_get_integer (rtype : vtm_elem_type) (ds : vtm_dataset) (name : cptr)
    : option Z :=
  if decide (rtype = VTM_ELEM_UINT64) then
    v ← VTM_DATASET_GET ds name (vtm_variant_as_integer VTM_ELEM_INT64) 0; Some (u64 v)
  else VTM_DATASET_GET ds name (vtm_variant_as_integer rtype) 0.

(** core/dataset.c:353-356 *)
Definition vtm_dataset_get_bool (ds : vtm_dataset) (name : cptr) : option bool :=
  VTM_DATASET_GET ds name vtm_variant_as_bool false.

(** core/dataset.c:453-456 *)
Definition vtm_dataset_get_float strtod (ds : vtm_dataset) (name : cptr) : option Z :=
  VTM_DATASET_GET ds name (vtm_variant_as_float strtod) 0.

(** core/dataset.c:463-466 *)
Definition vtm_dataset_get_double strtod (ds : vtm_dataset) (name : cptr) : option Z :=
  VTM_DATASET_GET ds name (vtm_variant_as_double strtod) 0.

(** core/dataset.c:490-493 *)
Definition vtm_dataset_get_blob (ds : vtm_dataset) (name : cptr) : option cptr :=
  VTM_DATASET_GET ds name vtm_variant_as_blob NULL.

(** core/dataset.c:507-510 *)
Definition vtm_dataset_get_pointer (ds : vtm_dataset) (name : cptr) : option cptr :=
  VTM_DATASET_GET ds name vtm_variant_as_ptr NULL.

Definition ds_set_value (n : vtm_dataset_node) (v : vtm_variant) : vtm_dataset_node :=
  mk_ds_node (dn_key n) v (free_key_ptr n) (free_val_ptr n).

(** core/dataset.c:473-476.  The text is cached in the node; [None] as text is
    NULL, [None] as result the abort for a value without a type. *)
Definition vtm_dataset_get_string malloc_ok printf_g (ds : vtm_dataset) (name : cptr)
    : option (option bytes * vtm_dataset) :=
  pos ← vtm_dataset_get_node ds name;
  match pos with
  | None => Some (None, ds)
  | Some (i, j) =>
      b ← vars ds !! i;
      n ← b !! j;
      '(s, v) ← vtm_variant_as_str malloc_ok printf_g (dn_value n);
      Some (s, mk_ds (hints ds) (<[i := <[j := ds_set_value n v]> b]> (vars ds)))
  end.

(** ** Specification: a finite map from names to variants *)

(** Names that are the same name for the dataset. *)
Definition ds_canon (hints : Z) (name : bytes) : bytes :=
  if negb (Z.land hints VTM_DS_HINT_IGNORE_CASE =? 0) then map tolower name else name.

(** A variant up to the place of a copied string and the cached text. *)
Definition canon_variant (v : vtm_variant) : vtm_variant :=
  mk_variant
    match v_type v, v_data v with
    | VTM_ELEM_STRING, ElemPtr p => ElemPtr (mk_ptr 1 (p_text p))
    | _, d => d
    end (v_type v) None.

Inductive ds_val :=
  | SetInteger (type : vtm_elem_type) (junk val : Z)
  | SetBool (junk : Z) (b : bool) | SetFloat (junk bits : Z) | SetDouble (junk bits : Z)
  | SetString (p : cptr) | SetStaticString (p : cptr)
  | SetBlob (p : cptr) | SetStaticBlob (p : cptr) | SetPointer (p : cptr)
  | SetVariant (v : vtm_variant).

Inductive ds_query :=
  | GetInteger (rtype : vtm_elem_type) | GetBool | GetFloat | GetDouble
  | GetString | GetBlob | GetPointer.

#[export] Instance ds_query_eq_dec : EqDecision ds_query.
Proof. solve_decision. Defined.

Inductive ds_op :=
  | DsSet (name : cptr) (v : ds_val) | DsGet (name : cptr) (q : ds_query)
  | DsContains (name : cptr) | DsRemove (name : cptr) | DsClear.

Inductive ds_res :=
  | ResUnit | ResRc (rc : Z) | ResBool (b : bool) | ResInt (v : Z) | ResStr (s : option bytes)
  | ResPtr (p : cptr).

Section spec.
Context (malloc_ok : Z -> bool) (printf_g : Z -> bytes) (strtod : bytes -> Z).

Definition ds_set (ds : vtm_dataset) (name : cptr) (v : ds_val) (h : heap)
    : option (vtm_dataset * heap) :=
  match v with
  | SetInteger type junk val => vtm_dataset_set_integer type junk alloc_ok ds name val h
  | SetBool junk b => vtm_dataset_set_bool junk alloc_ok ds name b h
  | SetFloat junk bits => vtm_dataset_set_float junk alloc_ok ds name bits h
  | SetDouble junk bits => vtm_dataset_set_double junk alloc_ok ds name bits h
  | SetString p => vtm_dataset_set_string alloc_ok ds name p h
  | SetStaticString p => vtm_dataset_set_static_string alloc_ok ds name p h
  | SetBlob p => vtm_dataset_set_blob alloc_ok ds name p h
  | SetStaticBlob p => vtm_dataset_set_static_blob alloc_ok ds name p h
  | SetPointer p => vtm_dataset_set_pointer alloc_ok ds name p h
  | SetVariant var => vtm_dataset_set_variant alloc_ok ds name var h
  end.

Definition ds_get (ds : vtm_dataset) (name : cptr) (q : ds_query)
    : option (ds_res * vtm_dataset) :=
  match q with
  | GetInteger rtype => v ← vtm_dataset_get_integer rtype ds name; Some (ResInt v, ds)
  | GetBool => b ← vtm_dataset_get_bool ds name; Some (ResBool b, ds)
  | GetFloat => v ← vtm_dataset_get_float strtod ds name; Some (ResInt v, ds)
  | GetDouble => v ← vtm_dataset_get_double strtod ds name; Some (ResInt v, ds)
  | GetString => '(s, ds) ← vtm_dataset_get_string malloc_ok printf_g ds name; Some (ResStr s, ds)
  | GetBlob => p ← vtm_dataset_get_blob ds name; Some (ResPtr p, ds)
  | GetPointer => p ← vtm_dataset_get_pointer ds name; Some (ResPtr p, ds)
  end.

Definition ds_exec (op : ds_op) (ds : vtm_dataset) (h : heap)
    : option (ds_res * vtm_dataset * heap) :=
  match op with
  | DsSet name v => '(ds, h) ← ds_set ds name v h; Some (ResUnit, ds, h)
  | DsGet name q => '(r, ds) ← ds_get ds name q; Some (r, ds, h)
  | DsContains name => b ← vtm_dataset_contains ds name; Some (ResBool b, ds, h)
  | DsRemove name => '(rc, ds, h) ← vtm_dataset_remove ds name h; Some (ResRc rc, ds, h)
  | DsClear => '(ds, h) ← vtm_dataset_clear ds h; Some (ResUnit, ds, h)
  end.

Fixpoint ds_run (ops : list ds_op) (ds : vtm_dataset) (h : heap)
    : option (list ds_res * vtm_dataset * heap) :=
  match ops with
  | [] => Some ([], ds, h)
  | op :: ops' =>
      '(r, ds, h) ← ds_exec op ds h; '(rs, ds, h) ← ds_run ops' ds h; Some (r :: rs, ds, h)
  end.

(** The state of the specification: the map and the live blocks that do not
    belong to the dataset.  No result: the caller broke a rule (a NULL name, a
    NULL string in a variant, a blob that is not his, a conversion that aborts:
    anything but a test for presence of a value without a type). *)
Definition ds_state : Type := gmap bytes vtm_variant * heap.

(** Storing a variant: a string is copied, a blob changes its owner if [take]. *)
Definition spec_put (k : bytes) (v : vtm_variant) (take : bool) (st : ds_state)
    : option ds_state :=
  if decide (take = true) then
    p ← elem_pointer (v_data v);
    if is_null p then None
    else if decide (p_addr p ∈ st.2) then
      Some (<[k := canon_variant v]> st.1, st.2 ∖ {[p_addr p]})
    else None
  else Some (<[k := canon_variant v]> st.1, st.2).

Definition spec_set (k : bytes) (v : ds_val) (st : ds_state) : option ds_state :=
  let nonnull p v take :=
    if is_null p then Some (delete k st.1, st.2) else spec_put k v take st in
  match v with
  | SetInteger type junk val =>
      _ ← elem_int_signed type; spec_put k (vtm_variant_from_integer type junk val) false st
  | SetBool junk b => spec_put k (vtm_variant_from_bool junk b) false st
  | SetFloat junk bits => spec_put k (vtm_variant_from_float junk bits) false st
  | SetDouble junk bits => spec_put k (vtm_variant_from_double junk bits) false st
  | SetString p | SetStaticString p => nonnull p (vtm_variant_from_str p) false
  | SetBlob p => nonnull p (vtm_variant_from_blob p) true
  | SetStaticBlob p => nonnull p (vtm_variant_from_blob p) false
  | SetPointer p => nonnull p (vtm_variant_from_ptr p) false
  | SetVariant v =>
      match v_type v with
      | VTM_ELEM_STRING =>
          match v_data v with
          | ElemPtr p => if is_null p then None else spec_put k (vtm_variant_from_str p) false st
          | _ => None
          end
      | VTM_ELEM_BLOB =>
          match v_data v with
          | ElemPtr p => spec_put k (vtm_variant_from_blob p) true st
          | _ => None
          end
      | _ => spec_put k v false st
      end
  end.

(** The value of a name as seen by a getter. *)
Definition spec_get (q : ds_query) (v : option vtm_variant) : option ds_res :=
  let get {A} (f : vtm_variant -> option A) nvl := match v with Some v => f v | None => Some nvl end in
  match q with
  | GetInteger rtype =>
      if decide (rtype = VTM_ELEM_UINT64) then
        v ← get (vtm_variant_as_integer VTM_ELEM_INT64) 0; Some (ResInt (u64 v))
      else v ← get (vtm_variant_as_integer rtype) 0; Some (ResInt v)
  | GetBool => b ← get vtm_variant_as_bool false; Some (ResBool b)
  | GetFloat => v ← get (vtm_variant_as_float strtod) 0; Some (ResInt v)
  | GetDouble => v ← get (vtm_variant_as_double strtod) 0; Some (ResInt v)
  | GetString =>
      match v with
      | Some v => s ← vtm_elem_as_str malloc_ok printf_g (v_type v) (v_data v); Some (ResStr s)
      | None => Some (ResStr None)
      end
  | GetBlob => p ← get vtm_variant_as_blob NULL; Some (ResPtr p)
  | GetPointer => p ← get vtm_variant_as_ptr NULL; Some (ResPtr p)
  end.

Definition name_ok (name : cptr) : bool := negb (is_null name) && bool_decide (is_cstr (p_text name)).

Definition spec_exec (hints : Z) (op : ds_op) (st : ds_state) : option (ds_res * ds_state) :=
  let key name := ds_canon hints (p_text name) in
  match op with
  | DsSet name v =>
      if name_ok name then st ← spec_set (key name) v st; Some (ResUnit, st) else None
  | DsGet name q =>
      if name_ok name then r ← spec_get q (st.1 !! key name); Some (r, st) else None
  | DsContains name =>
      if name_ok name then Some (ResBool (bool_decide (is_Some (st.1 !! key name))), st) else None
  | DsRemove name =>
      if name_ok name then
        Some (ResRc (if bool_decide (is_Some (st.1 !! key name)) then VTM_OK else VTM_E_NOT_FOUND),
              (delete (key name) st.1, st.2))
      else None
  | DsClear => Some (ResUnit, (∅, st.2))
  end.

Fixpoint spec_run (hints : Z) (ops : list ds_op) (st : ds_state)
    : option (list ds_res * ds_state) :=
  match ops with
  | [] => Some ([], st)
  | op :: ops' =>
      '(r, st) ← spec_exec hints op st; '(rs, st) ← spec_run hints ops' st; Some (r :: rs, st)
  end.
End spec.

(** ** Lemmas *)

#[export] Instance ds_key_laws (hints : Z) : KeyLaws (ds_key_ops hints) :=
  match negb (Z.land hints VTM_DS_HINT_IGNORE_CASE =? 0) as b
  return KeyLaws (if b then strcase_key_ops else elem_key_ops VTM_ELEM_STRING) with
  | true => strcase_key_laws
  | false => string_key_laws
  end.

Lemma ds_key_ok hints e : key_ok (KeyLaws := ds_key_laws hints) e <-> ptr_key e.
Proof. unfold key_ok, ds_key_laws, ds_key_ops. by destruct (negb _). Qed.

Lemma ds_key_canon hints p :
  key_canon (KeyLaws := ds_key_laws hints) (ElemPtr p) = ds_canon hints (p_text p).
Proof. unfold key_canon, ds_key_laws, ds_key_ops, ds_canon. by destruct (negb _). Qed.

Lemma name_ok_spec name : name_ok name = true <-> is_null name = false /\ is_cstr (p_text name).
Proof.
  unfold name_ok. rewrite andb_true_iff, negb_true_iff, bool_decide_eq_true. done.
Qed.

Section lemmas.
Context (malloc_ok : Z -> bool) (printf_g : Z -> bytes) (strtod : bytes -> Z).

(** A value a node can hold. *)
Definition value_ok (v : vtm_variant) (free_val : bool) : Prop :=
  (v_type v = VTM_ELEM_STRING -> exists p, v_data v = ElemPtr p /\ is_null p = false) /\
  (free_val = true -> (v_type v = VTM_ELEM_STRING \/ v_type v = VTM_ELEM_BLOB) /\
     exists p, v_data v = ElemPtr p /\ is_null p = false) /\
  (v_str v = None \/ Some (v_str v) = vtm_elem_as_str malloc_ok printf_g (v_type v) (v_data v)).

Definition ds_node_ok (n : vtm_dataset_node) : Prop :=
  ptr_key (dn_key_data n) /\ value_ok (dn_value n) (free_val_ptr n).

Definition ds_own (n : vtm_dataset_node) : list Z :=
  (if free_key_ptr n then [elem_word (dn_key_data n)] else []) ++
  (if free_val_ptr n then [elem_word (v_data (dn_value n))] else []).

Lemma vtm_dataset_free_node_ok F n l h :
  ds_node_ok n -> heap_ok F (ds_own n ++ l) h ->
  exists h', vtm_dataset_free_node n h = Some h' /\ heap_ok F l h'.
Proof.
  intros [Hk (_ & Hv & _)] Ho. unfold vtm_dataset_free_node, ds_own in *.
  rewrite <- app_assoc in Ho.
  assert (exists h1, (if free_key_ptr n then p ← elem_pointer (dn_key_data n); c_free p h else Some h)
    = Some h1 /\ heap_ok F ((if free_val_ptr n then [elem_word (v_data (dn_value n))] else []) ++ l) h1)
    as (h1 & -> & Ho1).
  { destruct (free_key_ptr n); [|by exists h]. destruct (dn_key_data n) as [|p]; [done |].
    destruct Hk as [Hp _]. by apply heap_ok_free. }
  cbn [mbind option_bind]. destruct (free_val_ptr n); [|by exists h1].
  destruct (Hv eq_refl) as (Ht & p & Ed & Hp). rewrite Ed in Ho1 |- *. cbn [elem_word] in Ho1.
  destruct (heap_ok_free F l h1 p Ho1 Hp) as (h' & E & Ho').
  exists h'. split; [|done]. destruct Ht as [-> | ->]; cbn; by rewrite ?Hp, E.
Qed.

Abbreviation wf hints t := (smap_wf (ds_key_ops hints) dn_key_data ds_node_ok t).
Definition ds_wf (ds : vtm_dataset) : Prop := wf (hints ds) (vars ds) /\ (0 < length (vars ds))%nat.
Definition ds_owned (ds : vtm_dataset) : list Z := smap_owned ds_own (vars ds).
Abbreviation nval := (fun n => canon_variant (dn_value n)).
Definition ds_abs (ds : vtm_dataset) : gmap bytes vtm_variant :=
  tbl_abs (ds_key_ops (hints ds)) dn_key_data nval (vars ds).

(** Setters *)
Lemma ds_put_ok F ds key value fk fv h :
  ds_wf ds -> ptr_key (ElemPtr key) -> value_ok value fv ->
  heap_ok F (ds_own (mk_ds_node (vtm_variant_from_str key) value fk fv) ++ ds_owned ds) h ->
  exists ds' h', vtm_dataset_put_node ds (mk_ds_node (vtm_variant_from_str key) value fk fv) h
      = Some (ds', h') /\ ds_wf ds' /\ hints ds' = hints ds /\ heap_ok F (ds_owned ds') h' /\
    ds_abs ds' = <[ds_canon (hints ds) (p_text key) := canon_variant value]> (ds_abs ds).
Proof.
  intros [Hw Hl] Hk Hv Ho. unfold vtm_dataset_put_node.
  destruct (smap_put_ok (ds_key_ops (hints ds)) dn_key_data vtm_dataset_free_node ds_own nval ds_node_ok
    vtm_dataset_free_node_ok F (vars ds) (mk_ds_node (vtm_variant_from_str key) value fk fv) h)
    as (t' & h' & -> & Hw' & Ho' & Ha & Hlen); auto.
  - by apply ds_key_ok.
  - by split.
  - cbn [mbind option_bind]. eexists _, h'. split; [reflexivity |].
    split_and!; [split; [done | cbn; by rewrite Hlen] | done | done |].
    unfold ds_abs. cbn [hints vars]. rewrite Ha. unfold dn_key_data at 1. cbn [dn_key v_data vtm_variant_from_str].
    by rewrite ds_key_canon.
Qed.

Lemma ds_setx_ok F F' ds name valtype fv cv h :
  ds_wf ds -> name_ok name = true -> heap_ok F (ds_owned ds) h ->
  (forall l h1, heap_ok F l h1 -> exists v h2, valtype h1 = Some (v, h2) /\ value_ok v fv /\
     canon_variant v = cv /\ heap_ok F' ((if fv then [elem_word (v_data v)] else []) ++ l) h2) ->
  exists ds' h', VTM_DATASET_SETX alloc_ok ds name valtype fv h = Some (ds', h') /\
    ds_wf ds' /\ hints ds' = hints ds /\ heap_ok F' (ds_owned ds') h' /\
    ds_abs ds' = <[ds_canon (hints ds) (p_text name) := cv]> (ds_abs ds).
Proof.
  intros Hw [Hp Hs]%name_ok_spec Ho Hval. unfold VTM_DATASET_SETX. cbn [ok_node alloc_ok negb ok_key].
  destruct (flag_is_set (hints ds) VTM_DS_HINT_STATIC_NAMES); cbn [mbind option_bind negb].
  - destruct (Hval _ _ Ho) as (v & h2 & -> & Hv & <- & Ho2). cbn [mbind option_bind].
    by apply ds_put_ok.
  - destruct (heap_ok_alloc F _ h name Ho Hp) as (key & h1 & -> & Et & Hkey & Ho1).
    cbn [mbind option_bind]. destruct (Hval _ _ Ho1) as (v & h2 & -> & Hv & <- & Ho2).
    cbn [mbind option_bind]. rewrite <- Et in *. apply ds_put_ok; auto; [by split |].
    eapply heap_ok_perm; [|exact Ho2]. unfold ds_own. cbn [free_key_ptr free_val_ptr dn_value].
    change (elem_word (dn_key_data _)) with (p_addr key). cbn [app]. symmetry.
    apply Permutation_middle.
Qed.

Lemma set_variant_setx ds name v h :
  vtm_dataset_set_variant alloc_ok ds name v h =
  VTM_DATASET_SETX alloc_ok ds name
    (fun h => match v_type v with
              | VTM_ELEM_STRING => p ← elem_pointer (v_data v); '(p, h) ← vtm_str_copy true p h;
                                   Some (mk_variant (ElemPtr p) (v_type v) None, h)
              | _ => Some (mk_variant (v_data v) (v_type v) None, h)
              end)
    match v_type v with VTM_ELEM_STRING | VTM_ELEM_BLOB => true | _ => false end h.
Proof.
  unfold vtm_dataset_set_variant, VTM_DATASET_SETX. cbn [ok_node ok_key ok_val alloc_ok negb].
  destruct (if flag_is_set _ _ then _ else _) as [[key h1]|]; [|done]. cbn [mbind option_bind].
  destruct (v_type v) eqn:Et; try done.
  destruct (elem_pointer (v_data v)) as [p|]; [|done]. cbn [mbind option_bind].
  by destruct (vtm_str_copy true p h1) as [[]|].
Qed.

(** The value functions of the setters: a constant, a copied string, a blob. *)
Lemma const_value_ok F v :
  (v_type v = VTM_ELEM_STRING -> exists p, v_data v = ElemPtr p /\ is_null p = false) ->
  v_str v = None ->
  forall l h1, heap_ok F l h1 -> exists v' h2, Some (v, h1) = Some (v', h2) /\ value_ok v' false /\
    canon_variant v' = canon_variant v /\ heap_ok F ([] ++ l) h2.
Proof.
  intros Hs Hn l h1 Ho. exists v, h1. split; [done |]. split; [|done].
  split; [done |]. split; [done | by left].
Qed.

Lemma copy_value_ok F p :
  is_null p = false ->
  forall l h1, heap_ok F l h1 -> exists v' h2,
    ('(p, h) ← vtm_str_copy true p h1; Some (mk_variant (ElemPtr p) VTM_ELEM_STRING None, h))
      = Some (v', h2) /\ value_ok v' true /\
    canon_variant v' = canon_variant (vtm_variant_from_str p) /\
    heap_ok F ([elem_word (v_data v')] ++ l) h2.
Proof.
  intros Hp l h1 Ho. destruct (heap_ok_alloc F l h1 p Ho Hp) as (p' & h2 & -> & Et & Hp' & Ho').
  cbn [mbind option_bind]. eexists _, h2. split; [reflexivity |]. cbn [v_data elem_word app].
  split_and!; [|unfold canon_variant; cbn; by rewrite Et | done].
  split_and!; cbn; [eauto | by intros _; split; eauto | by left].
Qed.

Lemma blob_value_ok F p :
  is_null p = false -> p_addr p ∈ F ->
  forall l h1, heap_ok F l h1 -> exists v' h2,
    Some (vtm_variant_from_blob p, h1) = Some (v', h2) /\ value_ok v' true /\
    canon_variant v' = canon_variant (vtm_variant_from_blob p) /\
    heap_ok (F ∖ {[p_addr p]}) ([elem_word (v_data v')] ++ l) h2.
Proof.
  intros Hp Ha l h1 Ho. eexists _, h1. split; [reflexivity |]. split_and!; [|done|by apply heap_ok_take].
  split_and!; cbn; [done | by intros _; split; eauto | by left].
Qed.

Lemma ds_remove_ok F ds name h :
  ds_wf ds -> name_ok name = true -> heap_ok F (ds_owned ds) h ->
  let k := ds_canon (hints ds) (p_text name) in
  exists ds' h', vtm_dataset_remove ds name h
      = Some (if bool_decide (is_Some (ds_abs ds !! k)) then VTM_OK else VTM_E_NOT_FOUND, ds', h') /\
    ds_wf ds' /\ hints ds' = hints ds /\ heap_ok F (ds_owned ds') h' /\
    ds_abs ds' = delete k (ds_abs ds).
Proof.
  intros [Hw Hl] Hn%name_ok_spec Ho k. unfold vtm_dataset_remove. cbn [v_data vtm_variant_from_str].
  destruct (smap_remove_ok (ds_key_ops (hints ds)) dn_key_data vtm_dataset_free_node ds_own nval
    ds_node_ok vtm_dataset_free_node_ok F (vars ds) (ElemPtr name) h Hw) as (t' & h' & E & Hw' & Ho' & Ha & Hlen); auto.
  { by apply ds_key_ok. }
  rewrite ds_key_canon in E, Ha. rewrite E. cbn [mbind option_bind]. eexists _, h'.
  split; [reflexivity |]. split_and!; [split; [done | cbn; by rewrite Hlen] | done | done | exact Ha].
Qed.

(** Getters *)
Lemma ds_get_variant_ok ds name :
  ds_wf ds -> name_ok name = true ->
  exists ov, vtm_dataset_get_variant ds name = Some ov /\
    (forall v, ov = Some v -> exists fv, value_ok v fv) /\
    ds_abs ds !! ds_canon (hints ds) (p_text name) = canon_variant <$> ov.
Proof.
  intros [Hw Hl] Hn%name_ok_spec. unfold vtm_dataset_get_variant, vtm_dataset_get_node.
  rewrite <- ds_key_canon.
  destruct (smap_get_ok (ds_key_ops (hints ds)) dn_key_data nval ds_node_ok (vars ds) (ElemPtr name) Hw)
    as [(i & j & b & n & -> & Hi & Hj & [_ Hn'] & Ha) | (-> & Ha)]; [by apply ds_key_ok | |];
    cbn [mbind option_bind].
  - unfold ds_node_at. cbn [fst snd]. rewrite Hi. cbn [mbind option_bind]. rewrite Hj.
    cbn [mbind option_bind]. exists (Some (dn_value n)). split_and!; [done | | done].
    intros v [= <-]. eauto.
  - by exists None.
Qed.

Lemma canon_variant_as v fv :
  value_ok v fv ->
  (forall rtype, vtm_variant_as_integer rtype (canon_variant v) = vtm_variant_as_integer rtype v) /\
  vtm_variant_as_bool (canon_variant v) = vtm_variant_as_bool v /\
  vtm_variant_as_float strtod (canon_variant v) = vtm_variant_as_float strtod v /\
  vtm_variant_as_double strtod (canon_variant v) = vtm_variant_as_double strtod v /\
  vtm_variant_as_blob (canon_variant v) = vtm_variant_as_blob v /\
  vtm_variant_as_ptr (canon_variant v) = vtm_variant_as_ptr v /\
  vtm_elem_as_str malloc_ok printf_g (v_type v) (v_data (canon_variant v))
    = fst <$> vtm_variant_as_str malloc_ok printf_g v.
Proof.
  intros (Hs & _ & Hc).
  assert (fst <$> vtm_variant_as_str malloc_ok printf_g v
    = vtm_elem_as_str malloc_ok printf_g (v_type v) (v_data v)) as ->.
  { unfold vtm_variant_as_str. destruct (v_str v) as [s|]; [by destruct Hc|].
    by destruct (vtm_elem_as_str _ _ _ _). }
  destruct v as [d t s]. cbn [v_type v_data] in *. destruct (decide (t = VTM_ELEM_STRING)) as [->|Hne].
  - destruct (Hs eq_refl) as (p & -> & Hp). cbn.
    split_and!; try done; try (intros rtype); unfold vtm_variant_as_integer, vtm_elem_as_integer,
      vtm_variant_as_bool, vtm_variant_as_float, vtm_elem_as_float, vtm_variant_as_double; cbn;
      by rewrite ?Hp.
  - assert (canon_variant (mk_variant d t s) = mk_variant d t None) as -> by by destruct t.
    split_and!; done.
Qed.

Lemma ds_get_string_ok F ds name h r :
  ds_wf ds -> name_ok name = true -> heap_ok F (ds_owned ds) h ->
  spec_get malloc_ok printf_g strtod GetString (ds_abs ds !! ds_canon (hints ds) (p_text name)) = Some r ->
  exists s ds', vtm_dataset_get_string malloc_ok printf_g ds name = Some (s, ds') /\ r = ResStr s /\
    ds_wf ds' /\ hints ds' = hints ds /\ heap_ok F (ds_owned ds') h /\ ds_abs ds' = ds_abs ds.
Proof.
  intros [Hw Hl] Hn%name_ok_spec Ho Hr. unfold vtm_dataset_get_string, vtm_dataset_get_node.
  rewrite <- ds_key_canon in *. assert (key_ok (KeyLaws := ds_key_laws (hints ds)) (ElemPtr name)) as Hk
    by by apply ds_key_ok.
  destruct (smap_get_ok (ds_key_ops (hints ds)) dn_key_data nval ds_node_ok (vars ds) (ElemPtr name) Hw Hk)
    as [(i & j & b & n & Hg & Hi & Hj & [Hkn Hvn] & Ha) | (-> & Ha)]; cbn [mbind option_bind].
  - rewrite Hg. cbn [mbind option_bind]. rewrite Hi. cbn [mbind option_bind]. rewrite Hj.
    cbn [mbind option_bind].
    destruct (canon_variant_as (dn_value n) _ Hvn) as (_ & _ & _ & _ & _ & _ & Es).
    unfold ds_abs at 1 in Hr. rewrite Ha in Hr. cbn [spec_get fmap option_fmap option_map v_type canon_variant] in Hr.
    rewrite Es in Hr.
    destruct (vtm_variant_as_str malloc_ok printf_g (dn_value n)) as [[s v]|] eqn:E; [|done].
    injection Hr as <-. cbn [mbind option_bind].
    assert (v_type v = v_type (dn_value n) /\ v_data v = v_data (dn_value n) /\
      (v_str v = None \/ Some (v_str v) = vtm_elem_as_str malloc_ok printf_g (v_type v) (v_data v)))
      as (Et & Ed & Ec).
    { unfold vtm_variant_as_str in E. destruct Hvn as (_ & _ & Hc).
      destruct (v_str (dn_value n)) as [s0|] eqn:E0.
      - injection E as <- <-. split_and!; [done|done|]. by rewrite E0.
      - destruct (vtm_elem_as_str _ _ _ _) as [s0|] eqn:E1; [|done]. injection E as <- <-. split_and!; [done|done|]. by right. }
    destruct (smap_change_ok (ds_key_ops (hints ds)) dn_key_data ds_own nval ds_node_ok F
      (vars ds) (ElemPtr name) i j b n (ds_set_value n v) h) as (Hw' & Ho' & Ha'); auto.
    + cbn. unfold canon_variant. by rewrite Et, Ed.
    + unfold ds_own. cbn. by rewrite Ed.
    + split; [done |]. destruct Hvn as (H1 & H2 & _). cbn. split_and!; [by rewrite Et, Ed | | done].
      by rewrite Et, Ed.
    + eexists s, _. split; [reflexivity |].
      split_and!; [done | split; [done | cbn; by rewrite length_insert] | done | done | exact Ha'].
  - exists None, ds. unfold ds_abs at 1 in Hr. rewrite Ha in Hr. by injection Hr as <-.
Qed.

Lemma ds_get_ok F ds name q h r :
  ds_wf ds -> name_ok name = true -> heap_ok F (ds_owned ds) h ->
  spec_get malloc_ok printf_g strtod q (ds_abs ds !! ds_canon (hints ds) (p_text name)) = Some r ->
  exists ds', ds_get malloc_ok printf_g strtod ds name q = Some (r, ds') /\
    ds_wf ds' /\ hints ds' = hints ds /\ heap_ok F (ds_owned ds') h /\ ds_abs ds' = ds_abs ds.
Proof.
  intros Hw Hn Ho Hr. destruct (decide (q = GetString)) as [->|Hq].
  - destruct (ds_get_string_ok F ds name h r Hw Hn Ho Hr) as (s & ds' & E & -> & H).
    exists ds'. cbn [ds_get]. by rewrite E.
  - exists ds. split_and!; try done.
    destruct (ds_get_variant_ok ds name Hw Hn) as (ov & E & Hov & Ha). rewrite Ha in Hr.
    unfold ds_get, vtm_dataset_get_integer, vtm_dataset_get_bool, vtm_dataset_get_float,
      vtm_dataset_get_double, vtm_dataset_get_blob, vtm_dataset_get_pointer, VTM_DATASET_GET.
    rewrite E. cbn [mbind option_bind]. destruct ov as [v|].
    + destruct (Hov v eq_refl) as (fv & Hv).
      destruct (canon_variant_as v fv Hv) as (H1 & H2 & H3 & H4 & H5 & H6 & _).
      cbn [fmap option_fmap option_map] in Hr. unfold spec_get in Hr.
      rewrite ?H1, ?H2, ?H3, ?H4, ?H5, ?H6 in Hr.
      destruct q; try done; try case_decide; rewrite ?H1 in Hr;
        match type of Hr with (?o ≫= _ = _) => destruct o as [x|] end;
        cbn [mbind option_bind] in Hr |- *; congruence.
    + destruct q; cbn in Hr |- *; try congruence.
      case_decide; cbn in Hr |- *; congruence.
Qed.

(** The result of a setter: the state of the specification. *)
Definition ds_post (ds : vtm_dataset) (st : ds_state) (r : option (vtm_dataset * heap)) : Prop :=
  exists ds' h', r = Some (ds', h') /\ ds_wf ds' /\ hints ds' = hints ds /\
    heap_ok st.2 (ds_owned ds') h' /\ ds_abs ds' = st.1.

Lemma ds_set_const_ok F ds name v h :
  ds_wf ds -> name_ok name = true -> heap_ok F (ds_owned ds) h ->
  (v_type v = VTM_ELEM_STRING -> exists p, v_data v = ElemPtr p /\ is_null p = false) ->
  v_str v = None ->
  ds_post ds (<[ds_canon (hints ds) (p_text name) := canon_variant v]> (ds_abs ds), F)
    (VTM_DATASET_SETX alloc_ok ds name (fun h => Some (v, h)) false h).
Proof.
  intros Hw Hn Ho Hv Hs.
  destruct (ds_setx_ok F F ds name (fun h => Some (v, h)) false (canon_variant v) h Hw Hn Ho)
    as (ds' & h' & E & H); [by apply const_value_ok |]. by exists ds', h'.
Qed.

Lemma ds_check_null_ok F ds name p st cont h :
  ds_wf ds -> name_ok name = true -> heap_ok F (ds_owned ds) h ->
  (if is_null p then Some (delete (ds_canon (hints ds) (p_text name)) (ds_abs ds), F) else None)
    = Some st \/ (is_null p = false /\ ds_post ds st cont) ->
  ds_post ds st (VTM_DATASET_CHECK_NULL_VALUE ds name p h cont).
Proof.
  intros Hw Hn Ho Hst. unfold VTM_DATASET_CHECK_NULL_VALUE. destruct Hst as [Hst | [-> H]]; [|done].
  destruct (is_null p); [|done]. injection Hst as <-.
  destruct (ds_remove_ok F ds name h Hw Hn Ho) as (ds' & h' & -> & H). by exists ds', h'.
Qed.

Lemma spec_put_const k v g F st :
  spec_put k v false (g, F) = Some st -> st = (<[k := canon_variant v]> g, F).
Proof. unfold spec_put. rewrite decide_False by done. by intros [= <-]. Qed.

Lemma spec_put_take k p g F st :
  spec_put k (vtm_variant_from_blob p) true (g, F) = Some st ->
  is_null p = false /\ p_addr p ∈ F /\
  st = (<[k := canon_variant (vtm_variant_from_blob p)]> g, F ∖ {[p_addr p]}).
Proof.
  unfold spec_put. rewrite decide_True by done. cbn.
  destruct (is_null p); [done |]. case_decide; [|done]. by intros [= <-].
Qed.

Lemma ds_set_copy_ok F ds name p h :
  ds_wf ds -> name_ok name = true -> heap_ok F (ds_owned ds) h -> is_null p = false ->
  ds_post ds (<[ds_canon (hints ds) (p_text name) := canon_variant (vtm_variant_from_str p)]> (ds_abs ds), F)
    (VTM_DATASET_SETX alloc_ok ds name
      (fun h => '(p, h) ← vtm_str_copy true p h; Some (mk_variant (ElemPtr p) VTM_ELEM_STRING None, h))
      true h).
Proof.
  intros Hw Hn Ho Hp.
  destruct (ds_setx_ok F F ds name
    (fun h => '(p, h) ← vtm_str_copy true p h; Some (mk_variant (ElemPtr p) VTM_ELEM_STRING None, h))
    true (canon_variant (vtm_variant_from_str p)) h Hw Hn Ho)
    as (ds' & h' & E & H); [by apply copy_value_ok |]. by exists ds', h'.
Qed.

Lemma ds_set_blob_ok F ds name p h :
  ds_wf ds -> name_ok name = true -> heap_ok F (ds_owned ds) h -> is_null p = false ->
  p_addr p ∈ F ->
  ds_post ds (<[ds_canon (hints ds) (p_text name) := canon_variant (vtm_variant_from_blob p)]> (ds_abs ds),
      F ∖ {[p_addr p]})
    (VTM_DATASET_SETX alloc_ok ds name (fun h => Some (vtm_variant_from_blob p, h)) true h).
Proof.
  intros Hw Hn Ho Hp Ha.
  destruct (ds_setx_ok F (F ∖ {[p_addr p]}) ds name (fun h => Some (vtm_variant_from_blob p, h)) true
    (canon_variant (vtm_variant_from_blob p)) h Hw Hn Ho)
    as (ds' & h' & E & H); [by apply blob_value_ok |]. by exists ds', h'.
Qed.

Lemma ds_set_variant_ok F ds name v h st :
  ds_wf ds -> name_ok name = true -> heap_ok F (ds_owned ds) h ->
  spec_set (ds_canon (hints ds) (p_text name)) (SetVariant v) (ds_abs ds, F) = Some st ->
  ds_post ds st (vtm_dataset_set_variant alloc_ok ds name v h).
Proof.
  intros Hw Hn Ho Hst. rewrite set_variant_setx. cbn [spec_set] in Hst.
  destruct (decide (v_type v = VTM_ELEM_STRING)) as [Es|Hs].
  { rewrite Es in Hst |- *. destruct (v_data v) as [|p]; [done |]. destruct (is_null p) eqn:Hp; [done |].
    apply spec_put_const in Hst as ->. by apply ds_set_copy_ok. }
  destruct (decide (v_type v = VTM_ELEM_BLOB)) as [Eb|Hb].
  { rewrite Eb in Hst |- *. destruct (v_data v) as [|p]; [done |].
    apply spec_put_take in Hst as (Hp & Ha & ->). by apply ds_set_blob_ok. }
  assert (st = (<[ds_canon (hints ds) (p_text name) := canon_variant v]> (ds_abs ds), F)) as ->.
  { apply spec_put_const. by destruct (v_type v). }
  pose proof (ds_set_const_ok F ds name (mk_variant (v_data v) (v_type v) None) h Hw Hn Ho) as H.
  cbn [v_type v_str] in H. specialize (H (fun E => match Hs E with end) eq_refl).
  replace (canon_variant (mk_variant (v_data v) (v_type v) None)) with (canon_variant v) in H by done.
  by destruct (v_type v).
Qed.

Lemma ds_set_ok F ds name v h st :
  ds_wf ds -> name_ok name = true -> heap_ok F (ds_owned ds) h ->
  spec_set (ds_canon (hints ds) (p_text name)) v (ds_abs ds, F) = Some st ->
  ds_post ds st (ds_set ds name v h).
Proof.
  intros Hw Hn Ho Hst.
  destruct v as [type junk val|junk b|junk bits|junk bits|p|p|p|p|p|v];
    cbn [ds_set] in Hst |- *; [| | | | | | | | | by eapply ds_set_variant_ok]; cbn [spec_set] in Hst.
  - destruct (elem_int_signed type) as [s|] eqn:Es; [|done]. apply spec_put_const in Hst as ->.
    apply ds_set_const_ok; auto. cbn. intros ->. done.
  - apply spec_put_const in Hst as ->. by apply ds_set_const_ok.
  - apply spec_put_const in Hst as ->. by apply ds_set_const_ok.
  - apply spec_put_const in Hst as ->. by apply ds_set_const_ok.
  - apply (ds_check_null_ok F); auto. destruct (is_null p) eqn:Hp; [by left | right].
    apply spec_put_const in Hst as ->. split; [done |]. by apply ds_set_copy_ok.
  - apply (ds_check_null_ok F); auto. destruct (is_null p) eqn:Hp; [by left | right].
    apply spec_put_const in Hst as ->. split; [done |]. apply ds_set_const_ok; auto. cbn. eauto.
  - apply (ds_check_null_ok F); auto. destruct (is_null p) eqn:Hp; [by left | right].
    apply spec_put_take in Hst as (_ & Ha & ->). split; [done |]. by apply ds_set_blob_ok.
  - apply (ds_check_null_ok F); auto. destruct (is_null p) eqn:Hp; [by left | right].
    apply spec_put_const in Hst as ->. split; [done |]. by apply ds_set_const_ok.
  - apply (ds_check_null_ok F); auto. destruct (is_null p) eqn:Hp; [by left | right].
    apply spec_put_const in Hst as ->. split; [done |]. by apply ds_set_const_ok.
Qed.

Lemma ds_clear_ok F ds h :
  ds_wf ds -> heap_ok F (ds_owned ds) h ->
  exists ds', vtm_dataset_clear ds h = Some (ds', F) /\ ds_wf ds' /\ hints ds' = hints ds /\
    ds_owned ds' = [] /\ ds_abs ds' = ∅.
Proof.
  intros [Hw Hl] Ho. unfold vtm_dataset_clear.
  rewrite (smap_clear_ok (ds_key_ops (hints ds)) dn_key_data vtm_dataset_free_node ds_own ds_node_ok
    vtm_dataset_free_node_ok F) by done.
  cbn [mbind option_bind]. eexists. split; [reflexivity |]. unfold ds_wf, ds_owned, ds_abs, smap_owned, tbl_abs.
  cbn [hints vars]. rewrite concat_replicate_nil, length_replicate.
  split_and!; try done. by apply smap_wf_empty.
Qed.

Lemma ds_exec_ok F ds op h r st :
  ds_wf ds -> heap_ok F (ds_owned ds) h ->
  spec_exec malloc_ok printf_g strtod (hints ds) op (ds_abs ds, F) = Some (r, st) ->
  exists ds' h', ds_exec malloc_ok printf_g strtod op ds h = Some (r, ds', h') /\ ds_wf ds' /\
    hints ds' = hints ds /\ heap_ok st.2 (ds_owned ds') h' /\ ds_abs ds' = st.1.
Proof.
  intros Hw Ho Hs. destruct op as [name v|name q|name|name|]; cbn [spec_exec ds_exec fst snd] in *;
    try (destruct (name_ok name) eqn:Hn; [|done]).
  - destruct (spec_set _ v (ds_abs ds, F)) as [st'|] eqn:E; [|done]. injection Hs as <- <-.
    destruct (ds_set_ok F ds name v h st' Hw Hn Ho E) as (ds' & h' & -> & H). by exists ds', h'.
  - destruct (spec_get _ _ _ q _) as [r'|] eqn:E; [|done]. injection Hs as <- <-.
    destruct (ds_get_ok F ds name q h r' Hw Hn Ho E) as (ds' & -> & H). by exists ds', h.
  - injection Hs as <- <-. exists ds, h. split_and!; try done. unfold vtm_dataset_contains.
    destruct Hw as [Hw Hl]. pose proof (proj1 (name_ok_spec name) Hn) as Hk.
    unfold vtm_dataset_get_node. rewrite <- ds_key_canon.
    destruct (smap_get_ok (ds_key_ops (hints ds)) dn_key_data nval ds_node_ok (vars ds) (ElemPtr name) Hw)
      as [(i & j & b & n & -> & _ & _ & _ & Ha) | (-> & Ha)]; [by apply ds_key_ok | |];
      cbn [mbind option_bind]; do 4 f_equal; apply bool_decide_ext; unfold ds_abs; by rewrite Ha.
  - injection Hs as <- <-. destruct (ds_remove_ok F ds name h Hw Hn Ho) as (ds' & h' & -> & H).
    by exists ds', h'.
  - injection Hs as <- <-. destruct (ds_clear_ok F ds h Hw Ho) as (ds' & -> & Hw' & Hh & Eo & Ea).
    exists ds', F. split_and!; try done. rewrite Eo. apply heap_ok_nil.
Qed.

Lemma ds_run_ok F ds ops h rs st :
  ds_wf ds -> heap_ok F (ds_owned ds) h ->
  spec_run malloc_ok printf_g strtod (hints ds) ops (ds_abs ds, F) = Some (rs, st) ->
  exists ds' h', ds_run malloc_ok printf_g strtod ops ds h = Some (rs, ds', h') /\ ds_wf ds' /\
    hints ds' = hints ds /\ heap_ok st.2 (ds_owned ds') h' /\ ds_abs ds' = st.1.
Proof.
  revert F ds h rs. induction ops as [|op ops IH]; intros F ds h rs Hw Ho Hs; cbn [spec_run ds_run] in *.
  - injection Hs as <- <-. by exists ds, h.
  - destruct (spec_exec _ _ _ _ op _) as [[r [g1 F1]]|] eqn:E; [|done]. cbn [mbind option_bind] in Hs.
    destruct (spec_run _ _ _ _ ops _) as [[rs' st']|] eqn:E'; [|done]. injection Hs as <- <-.
    destruct (ds_exec_ok F ds op h r (g1, F1) Hw Ho E) as (ds1 & h1 & -> & Hw1 & Hh1 & Ho1 & Ha1).
    cbn [mbind option_bind fst snd] in *. rewrite <- Ha1, <- Hh1 in E'.
    destruct (IH F1 ds1 h1 rs' Hw1 Ho1 E') as (ds' & h' & -> & Hw' & Hh' & H).
    exists ds', h'. cbn [mbind option_bind]. split_and!; auto; [congruence | apply H..].
Qed.

(** The entries, up to their order. *)
Lemma ds_entryset_ok ds :
  ds_wf ds -> exists l, vtm_dataset_entryset true (Some ds) = Some l /\
    ((fun e : option cptr * vtm_variant =>
        (ds_canon (hints ds) (p_text (default NULL e.1)), canon_variant e.2)) <$> l)
    ≡ₚ map_to_list (ds_abs ds).
Proof.
  intros [Hw Hl]. eexists. split; [reflexivity |].
  unfold ds_abs, tbl_abs. rewrite map_to_list_to_map.
  2: { rewrite fst_entries. apply (tbl_nodup _ _ _ _ (sw_tbl _ _ _ _ Hw)). }
  unfold VTM_SMAP_FOR_EACH. change (@map ?A ?B) with (@fmap list _ A B). rewrite <- list_fmap_compose.
  apply Permutation_refl'. apply list_fmap_ext. intros i n Hi. cbn.
  pose proof (tbl_keys _ _ _ _ (sw_tbl _ _ _ _ Hw)) as Hk.
  rewrite Forall_lookup in Hk. specialize (Hk i n Hi). apply ds_key_ok in Hk.
  destruct (dn_key_data n) as [|p] eqn:E; [done |]. cbn. by rewrite ds_key_canon.
Qed.
End lemmas.

(** ** Properties *)

(** C12: A dataset refines a finite map from names to variants.  For every
    combination of hints and every sequence of typed setters, getters,
    contains, remove and clear that follows the rules, the program runs without
    undefined behaviour and gives the results of the specification, whatever
    uninitialised memory held.  The rules are: names are C strings; strings of
    variants are not NULL; a blob that is given away is a live block of the
    caller; and no getter asks for a number, a text or a blob where the code
    aborts, as it does for a stored variant without a type, for which the
    specification has no result.  Names that differ only
    in case are one name exactly if IGNORE_CASE is set; the entry set lists
    exactly the map; texts cached by get_string are never stale; and after
    vtm_dataset_release the live blocks are the caller's, less the blobs he
    gave away: nothing is leaked and nothing is freed twice. *)
Theorem dataset_refines_gmap malloc_ok printf_g strtod hints ops (F : heap) rs st
    (Hspec : spec_run malloc_ok printf_g strtod hints ops (∅, F) = Some (rs, st)) :
  exists ds h l,
    ds_run malloc_ok printf_g strtod ops (vtm_dataset_init hints) F = Some (rs, ds, h) /\
    vtm_dataset_entryset true (Some ds) = Some l /\
    ((fun e : option cptr * vtm_variant =>
        (ds_canon hints (p_text (default NULL e.1)), canon_variant e.2)) <$> l)
      ≡ₚ map_to_list st.1 /\
    vtm_dataset_release ds h = Some st.2.
Proof.
  assert (ds_wf malloc_ok printf_g (vtm_dataset_init hints)) as Hw
    by (split; [apply smap_wf_empty; cbn; lia | cbn; lia]).
  destruct (ds_run_ok malloc_ok printf_g strtod F (vtm_dataset_init hints) ops F rs st Hw)
    as (ds & h & E & Hw' & Hh & Ho & Ha); [apply heap_ok_nil | exact Hspec |].
  destruct (ds_entryset_ok malloc_ok printf_g ds Hw') as (l & El & Hl).
  exists ds, h, l. split_and!; [done | done | |].
  - rewrite <- Ha. cbn in Hh. by rewrite Hh in Hl.
  - unfold vtm_dataset_release.
    destruct (ds_clear_ok malloc_ok printf_g st.2 ds h Hw' Ho) as (ds' & -> & _). done.
Qed.

Definition ds_script : list ds_op :=
  let s n t := mk_ptr n (cstr_of t) in
  [DsSet (s 4096 "Host"%string) (SetString (s 4112 "example.org"%string));
   DsSet (s 4128 "port"%string) (SetInteger VTM_ELEM_UINT16 77 8080);
   DsSet (s 4144 "HOST"%string) (SetString (s 4160 "localhost"%string));
   DsGet (s 4176 "host"%string) GetString; DsGet (s 4192 "Port"%string) GetString;
   DsGet (s 4192 "Port"%string) (GetInteger VTM_ELEM_INT64);
   DsSet (s 4208 "data"%string) (SetBlob (s 8192 "xyz"%string));
   DsRemove (s 4096 "hosT"%string); DsContains (s 4096 "host"%string)].

Definition ds_script_result : list ds_res :=
  [ResUnit; ResUnit; ResUnit; ResStr (Some (cstr_of "localhost"%string));
   ResStr (Some (cstr_of "8080"%string)); ResInt 8080; ResUnit; ResRc VTM_OK; ResBool false].

Lemma dataset_refines_gmap_witness :
  exists st ds h l,
    ds_run (fun _ => true) (fun _ => []) (fun _ => 0) ds_script
      (vtm_dataset_init VTM_DS_HINT_IGNORE_CASE) {[8192]} = Some (ds_script_result, ds, h) /\
    vtm_dataset_entryset true (Some ds) = Some l /\
    ((fun e : option cptr * vtm_variant =>
        (ds_canon VTM_DS_HINT_IGNORE_CASE (p_text (default NULL e.1)), canon_variant e.2)) <$> l)
      ≡ₚ map_to_list st.1 /\
    vtm_dataset_release ds h = Some st.2.
Proof.
  destruct (spec_run (fun _ => true) (fun _ => []) (fun _ => 0) VTM_DS_HINT_IGNORE_CASE ds_script
    (∅, {[8192]})) as [[rs st]|] eqn:E; [|by vm_compute in E].
  assert (rs = ds_script_result) as -> by (apply (f_equal (fmap fst)) in E; by vm_compute in E;
    injection E).
  exists st. exact (dataset_refines_gmap (fun _ => true) (fun _ => []) (fun _ => 0)
    VTM_DS_HINT_IGNORE_CASE ds_script {[8192]} ds_script_result st E).
Defined.

Lemma set_then_get malloc_ok printf_g strtod F ds name v st q h r :
  ds_wf malloc_ok printf_g ds -> name_ok name = true -> heap_ok F (ds_owned ds) h ->
  spec_set (ds_canon (hints ds) (p_text name)) v (ds_abs ds, F) = Some st ->
  spec_get malloc_ok printf_g strtod q (st.1 !! ds_canon (hints ds) (p_text name)) = Some r ->
  exists ds' h', ds_set ds name v h = Some (ds', h') /\
    hints ds' = hints ds /\
    exists ds'', ds_get malloc_ok printf_g strtod ds' name q = Some (r, ds'').
Proof.
  intros Hw Hn Ho Hst Hg.
  destruct (ds_set_ok malloc_ok printf_g F ds name v h st Hw Hn Ho Hst)
    as (ds' & h' & E & Hw' & Hh & Ho' & Ha).
  exists ds', h'. split_and!; try done. rewrite <- Ha, <- Hh in Hg.
  destruct (ds_get_ok malloc_ok printf_g strtod st.2 ds' name q h' r Hw' Hn Ho' Hg) as (ds'' & E' & _).
  by exists ds''.
Qed.

Lemma ds_get_integer_inv malloc_ok printf_g strtod ds name rtype v ds' :
  ds_get malloc_ok printf_g strtod ds name (GetInteger rtype) = Some (ResInt v, ds') ->
  vtm_dataset_get_integer rtype ds name = Some v.
Proof. cbn. destruct (vtm_dataset_get_integer rtype ds name); [|done]. by intros [= ->]. Qed.

Lemma uint64_via_int64 v : u64 (cast_int 8 true (cast_int 8 false v)) = u64 v.
Proof.
  unfold cast_int, u64. change (8 * 8) with 64. rewrite wrap_swrap, wrap_wrap by lia. done.
Qed.

Lemma strtoll_clamps text : 2 ^ 63 <= text < 2 ^ 64 -> strtoll (printf_d text) = 2 ^ 63 - 1.
Proof.
  intros H. unfold strtoll. rewrite scan_number_printf by lia.
  rewrite (proj2 (Z.ltb_ge text 0)), Z.abs_eq by lia. unfold INT64_MIN, INT64_MAX.
  repeat bcase; lia.
Qed.

(** Defect.  The getter for 64-bit unsigned values converts through
    int64_t.  For a value stored as an integer the detour is harmless, every
    value comes back; a number stored as text is clamped to 2^63-1, so
    "18446744073709551615" is read as 9223372036854775807 while the getter
    for unsigned long, a type of the same range, reads it right. *)
Theorem dataset_get_uint64_text malloc_ok printf_g ds h name val p text
    (Hw : ds_wf malloc_ok printf_g ds) (Hn : name_ok name = true)
    (Hv : is_null p = false) (Ht : p_text p = printf_d text)
    (Hr : 2 ^ 63 <= text < 2 ^ 64) (Hval : 0 <= val < 2 ^ 64)
    (F : heap) (Ho : heap_ok F (ds_owned ds) h) (junk : Z) :
  (exists ds' h', vtm_dataset_set_integer VTM_ELEM_UINT64 junk alloc_ok ds name val h = Some (ds', h') /\
     vtm_dataset_get_integer VTM_ELEM_UINT64 ds' name = Some val) /\
  (exists ds' h', vtm_dataset_set_string alloc_ok ds name p h = Some (ds', h') /\
     vtm_dataset_get_integer VTM_ELEM_UINT64 ds' name = Some (2 ^ 63 - 1) /\
     vtm_dataset_get_integer VTM_ELEM_ULONG ds' name = Some text).
Proof.
  set (k := ds_canon (hints ds) (p_text name)). split.
  - destruct (set_then_get malloc_ok printf_g (fun _ => 0) F ds name (SetInteger VTM_ELEM_UINT64 junk val)
      (<[k := canon_variant (vtm_variant_from_integer VTM_ELEM_UINT64 junk val)]> (ds_abs ds), F)
      (GetInteger VTM_ELEM_UINT64) h (ResInt val) Hw Hn Ho eq_refl)
      as (ds' & h' & E & _ & ds'' & Eg).
    { cbn [fst]. subst k. rewrite lookup_insert_eq. cbn [spec_get]. rewrite decide_True by done.
      unfold vtm_variant_as_integer, canon_variant. cbn [v_type v_data vtm_variant_from_integer].
      rewrite (vtm_elem_as_integer_of_int _ true _ false) by done. rewrite elem_int_store by done.
      cbn [mbind option_bind vtm_elem_size]. rewrite uint64_via_int64. do 2 f_equal. by apply wrap_small. }
    exists ds', h'. split; [exact E |]. by eapply ds_get_integer_inv.
  - set (st := (<[k := canon_variant (vtm_variant_from_str p)]> (ds_abs ds), F)).
    assert (spec_set k (SetString p) (ds_abs ds, F) = Some st) as Hst by (cbn; by rewrite Hv).
    assert (forall rtype v, spec_get malloc_ok printf_g (fun _ => 0) (GetInteger rtype) (st.1 !! k)
      = Some (ResInt v) -> exists ds' h', ds_set ds name (SetString p) h = Some (ds', h') /\
        vtm_dataset_get_integer rtype ds' name = Some v) as H.
    { intros rtype v Hg. destruct (set_then_get malloc_ok printf_g (fun _ => 0) F ds name (SetString p) st
        (GetInteger rtype) h (ResInt v) Hw Hn Ho Hst Hg) as (ds' & h' & E & _ & ds'' & Eg).
      exists ds', h'. split; [exact E |]. by eapply ds_get_integer_inv. }
    destruct (H VTM_ELEM_UINT64 (2 ^ 63 - 1)) as (ds' & h' & E & E1).
    { subst st. cbn [fst]. rewrite lookup_insert_eq. cbn. rewrite Ht. unfold vtm_conv_str_int64.
      rewrite strtoll_clamps by lia. done. }
    destruct (H VTM_ELEM_ULONG text) as (ds2 & h2 & E' & E2).
    { subst st. cbn [fst]. rewrite lookup_insert_eq. cbn. rewrite Ht. unfold vtm_conv_str_uint64.
      rewrite strtoull_printf by (unfold int_range; lia).
      do 2 f_equal. apply wrap_small. change (8 * 8) with 64. lia. }
    exists ds', h'. split_and!; [exact E | exact E1 |]. rewrite E in E'. by injection E' as <- <-.
Qed.

Lemma dataset_get_uint64_text_witness :
  let name := mk_ptr 4096 (cstr_of "n"%string) in
  let p := mk_ptr 4112 (printf_d (2 ^ 64 - 1)) in
  (exists ds' h', vtm_dataset_set_integer VTM_ELEM_UINT64 5 alloc_ok (vtm_dataset_init 0) name (2 ^ 63) ∅
       = Some (ds', h') /\ vtm_dataset_get_integer VTM_ELEM_UINT64 ds' name = Some (2 ^ 63)) /\
  (exists ds' h', vtm_dataset_set_string alloc_ok (vtm_dataset_init 0) name p ∅ = Some (ds', h') /\
     vtm_dataset_get_integer VTM_ELEM_UINT64 ds' name = Some (2 ^ 63 - 1) /\
     vtm_dataset_get_integer VTM_ELEM_ULONG ds' name = Some (2 ^ 64 - 1)).
Proof.
  apply (dataset_get_uint64_text (fun _ => true) (fun _ => []) (vtm_dataset_init 0) ∅
    (mk_ptr 4096 (cstr_of "n"%string)) (2 ^ 63) (mk_ptr 4112 (printf_d (2 ^ 64 - 1))) (2 ^ 64 - 1))
    with (F := ∅);
    try reflexivity; try lia.
  - split; [apply smap_wf_empty; cbn; lia | cbn; lia].
  - apply (heap_ok_nil ∅).
Defined.
