(* ===== verification/Http.v ===== *)
(** * Http: versions, methods and status codes, net/http/http.c *)

From S2P Require Import Prelude Base Str.

(** net/http/http.h:17-21 [enum vtm_http_version] *)
Inductive vtm_http_version := VTM_HTTP_VER_1_0 | VTM_HTTP_VER_1_1.

(** net/http/http.h:31-42 [enum vtm_http_method] *)
Inductive vtm_http_method :=
  | VTM_HTTP_METHOD_GET | VTM_HTTP_METHOD_POST | VTM_HTTP_METHOD_HEAD | VTM_HTTP_METHOD_PUT
  | VTM_HTTP_METHOD_PATCH | VTM_HTTP_METHOD_DELETE | VTM_HTTP_METHOD_TRACE
  | VTM_HTTP_METHOD_OPTIONS | VTM_HTTP_METHOD_CONNECT.

#[global] Instance vtm_http_version_eq_dec : EqDecision vtm_http_version.
Proof. solve_decision. Defined.
#[global] Instance vtm_http_method_eq_dec : EqDecision vtm_http_method.
Proof. solve_decision. Defined.

(** The enumerators in their order. *)
Definition all_methods : list vtm_http_method :=
  [VTM_HTTP_METHOD_GET; VTM_HTTP_METHOD_POST; VTM_HTTP_METHOD_HEAD; VTM_HTTP_METHOD_PUT;
   VTM_HTTP_METHOD_PATCH; VTM_HTTP_METHOD_DELETE; VTM_HTTP_METHOD_TRACE;
   VTM_HTTP_METHOD_OPTIONS; VTM_HTTP_METHOD_CONNECT].

(** net/http/http.c:14-18 *)
Definition VTM_HTTP_VERSIONS : list (option bytes) :=
  [Some (cstr_of "HTTP/1.0"%string); Some (cstr_of "HTTP/1.1"%string); None].

(** net/http/http.c:20-35 *)
Definition vtm_http_get_version_string (ver : vtm_http_version) : option bytes :=
  match ver with
  | VTM_HTTP_VER_1_0 => mjoin (VTM_HTTP_VERSIONS !! 0%nat)
  | VTM_HTTP_VER_1_1 => mjoin (VTM_HTTP_VERSIONS !! 1%nat)
  end.

(** net/http/http.c:37-53.  The return code and the value stored. *)
Definition vtm_http_get_version (major minor : Z) : Z * option vtm_http_version :=
  if major =? 1 then
    if minor =? 0 then (VTM_OK, Some VTM_HTTP_VER_1_0)
    else if minor =? 1 then (VTM_OK, Some VTM_HTTP_VER_1_1)
    else (VTM_E_NOT_FOUND, None)
  else (VTM_E_NOT_FOUND, None).

(** net/http/http.c:57-68.  The commas after DELETE and TRACE are missing, so
    the three literals are one string. *)
Definition VTM_HTTP_METHODS : list (option bytes) :=
  [Some (cstr_of "GET"%string); Some (cstr_of "POST"%string); Some (cstr_of "HEAD"%string);
   Some (cstr_of "PUT"%string); Some (cstr_of "PATCH"%string);
   Some (cstr_of "DELETE"%string ++ cstr_of "TRACE"%string ++ cstr_of "OPTIONS"%string);
   Some (cstr_of "CONNECT"%string); None].

(** net/http/http.c:74-82.  The search from index [i] on. *)
Fixpoint get_method_loop (str : bytes) (i : nat) (l : list (option bytes)) : option nat :=
  match l with
  | Some m :: l' => if strcmp_eq str m then Some i else get_method_loop str (S i) l'
  | _ => None
  end.

(** net/http/http.c:70-85.  The return code and the value stored. *)
Definition vtm_http_get_method (str : bytes) : Z * option vtm_http_method :=
  match get_method_loop str 0 VTM_HTTP_METHODS with
  | Some i => (VTM_OK, all_methods !! i)
  | None => (VTM_E_NOT_FOUND, None)
  end.

(** net/http/http.c:90-125 [VTM_HTTP_PHRASE_000 ...] *)
Definition status_phrases : list (Z * String.string) :=
  [(100, "Continue"); (101, "Switching Protocols"); (102, "Processing"); (200, "OK");
   (300, "Multiple Choices"); (301, "Moved Permanently"); (302, "Moved Temporarily");
   (303, "See other"); (304, "Not modified"); (305, "Use proxy"); (306, "Reserved");
   (307, "Temporary redirect"); (308, "Permanent redirect"); (400, "Bad request");
   (401, "Unauthorized"); (402, "Reserved"); (403, "Forbidden"); (404, "Not found");
   (405, "Method not allowed"); (500, "Internal server error"); (501, "Not implemented");
   (502, "Bad gateway"); (503, "Service unavailable"); (504, "Gateway timeout");
   (505, "HTTP Version not supported")]%string.

(** net/http/http.c:127-162 *)
Definition vtm_http_get_status_phrase (code : Z) : bytes :=
  match find (fun p => p.1 =? code) status_phrases with
  | Some (_, phrase) => cstr_of phrase
  | None => cstr_of "Unknown"%string
  end.

(** net/http/http.c:168 *)
Definition VTM_HTTP_HEADER_CONTENT_LENGTH : bytes := cstr_of "Content-Length"%string.
(** net/http/http.c:174 *)
Definition VTM_HTTP_HEADER_TRANSFER_ENCODING : bytes := cstr_of "Transfer-Encoding"%string.
(** net/http/http.c:186 *)
Definition VTM_HTTP_VALUE_CHUNKED : bytes := cstr_of "chunked"%string.

(** ** Properties *)

(** Defect.  Exactly seven texts are accepted as request methods.  The five
    first methods are recognised; DELETE, TRACE and OPTIONS, which the
    enumeration has, are not, and CONNECT is taken for TRACE. *)
Theorem http_get_method_table str m :
  vtm_http_get_method str = (VTM_OK, Some m) <->
  (str, m) ∈ [(cstr_of "GET"%string, VTM_HTTP_METHOD_GET); (cstr_of "POST"%string, VTM_HTTP_METHOD_POST);
              (cstr_of "HEAD"%string, VTM_HTTP_METHOD_HEAD); (cstr_of "PUT"%string, VTM_HTTP_METHOD_PUT);
              (cstr_of "PATCH"%string, VTM_HTTP_METHOD_PATCH);
              (cstr_of "DELETETRACEOPTIONS"%string, VTM_HTTP_METHOD_DELETE);
              (cstr_of "CONNECT"%string, VTM_HTTP_METHOD_TRACE)].
Proof.
  split.
  - unfold vtm_http_get_method, VTM_HTTP_METHODS. cbn [get_method_loop]. unfold strcmp_eq.
    repeat (case_bool_decide; [subst str; intros E; apply (f_equal snd) in E;
      injection E as <-; repeat (apply elem_of_cons; first [left; reflexivity | right]) |]).
    intros E. discriminate (f_equal snd E).
  - intros H. repeat (apply elem_of_cons in H as [[= -> ->]|H]; [reflexivity |]).
    by apply not_elem_of_nil in H.
Qed.
