(* ===== verification/HttpParser.v ===== *)
(** * HttpParser: the HTTP request and response parser,
    net/http/http_parser.c

    The parser reads a buffer byte by byte; between runs it keeps its state in
    [vtm_http_parser], grouped as the comments of the struct group its fields.
    Pointers into the buffer are offsets from [buf->data].  One definition per
    state of the machine, [http_eval] is the loop around the label [eval], and
    [http_run_loop] the loop over the available bytes.  The datasets of
    parameters and headers live in the heap of Heap.v.  [None] is undefined
    behaviour: an access outside of the initialised bytes of the buffer. *)

From stdpp Require Import gmap fin_sets.
From S2P Require Import Prelude Base Buffer Str Ws Elem Hash Heap Table Smap Dataset Http.

(** net/http/http_parser.h:25-28 *)
Definition VTM_HTTP_DEF_MAX_HEADER_SIZE : Z := 8192.
Definition VTM_HTTP_DEF_MAX_BODY_SIZE : Z := 8 * 1024 * 1024.

(** net/http/http_parser.h:30-34 [enum vtm_http_parser_mode] *)
Inductive vtm_http_parser_mode := VTM_HTTP_PM_REQUEST | VTM_HTTP_PM_RESPONSE.

(** net/http/http_parser.h:36-70 [enum vtm_http_parser_state] *)
Inductive vtm_http_parser_state :=
  | VTM_HTTP_PARSE_BEGIN | VTM_HTTP_PARSE_REQ_METHOD | VTM_HTTP_PARSE_REQ_PATH
  | VTM_HTTP_PARSE_REQ_PARAM_BEGIN | VTM_HTTP_PARSE_REQ_PARAM_NAME
  | VTM_HTTP_PARSE_REQ_PARAM_VALUE | VTM_HTTP_PARSE_REQ_LINE_LF
  | VTM_HTTP_PARSE_RES_STATUS_CODE | VTM_HTTP_PARSE_RES_STATUS_MSG_CR
  | VTM_HTTP_PARSE_RES_STATUS_MSG_LF | VTM_HTTP_PARSE_VERSION_H | VTM_HTTP_PARSE_VERSION_HT
  | VTM_HTTP_PARSE_VERSION_HTT | VTM_HTTP_PARSE_VERSION_HTTP | VTM_HTTP_PARSE_VERSION_SLASH
  | VTM_HTTP_PARSE_VERSION_MAJOR | VTM_HTTP_PARSE_VERSION_MINOR
  | VTM_HTTP_PARSE_HEADER_LINE_BEGIN | VTM_HTTP_PARSE_HEADER_NAME | VTM_HTTP_PARSE_HEADER_VALUE
  | VTM_HTTP_PARSE_HEADER_LINE_LF | VTM_HTTP_PARSE_HEADER_LINE_COMPLETE
  | VTM_HTTP_PARSE_HEADERS_END_LF | VTM_HTTP_PARSE_BODY | VTM_HTTP_PARSE_BODY_READALL
  | VTM_HTTP_PARSE_BODY_FIXEDLENGTH | VTM_HTTP_PARSE_BODY_CHUNKED
  | VTM_HTTP_PARSE_BODY_CHUNK_SIZE | VTM_HTTP_PARSE_BODY_CHUNK_SIZE_LF
  | VTM_HTTP_PARSE_BODY_CHUNK_CONTENT | VTM_HTTP_PARSE_BODY_CHUNK_END_LF
  | VTM_HTTP_PARSE_COMPLETE.

#[global] Instance vtm_http_parser_state_eq_dec : EqDecision vtm_http_parser_state.
Proof. solve_decision. Defined.

(** [state >= VTM_HTTP_PARSE_BODY] in the order of the enumeration. *)
Definition state_in_body (s : vtm_http_parser_state) : bool :=
  match s with
  | VTM_HTTP_PARSE_BODY | VTM_HTTP_PARSE_BODY_READALL | VTM_HTTP_PARSE_BODY_FIXEDLENGTH
  | VTM_HTTP_PARSE_BODY_CHUNKED | VTM_HTTP_PARSE_BODY_CHUNK_SIZE
  | VTM_HTTP_PARSE_BODY_CHUNK_SIZE_LF | VTM_HTTP_PARSE_BODY_CHUNK_CONTENT
  | VTM_HTTP_PARSE_BODY_CHUNK_END_LF | VTM_HTTP_PARSE_COMPLETE => true
  | _ => false
  end.

(** net/http/http_parser.h:81-89.  Request and response fields; pointers into
    the buffer are offsets, [None] is NULL. *)
Record http_message := mk_msg {
  req_method : vtm_http_method;
  req_path : option Z;
  req_params : option vtm_dataset;
  req_params_free : bool;
  res_status_code : Z;
  res_status_msg : option Z
}.

(** net/http/http_parser.h:91-96.  Shared fields. *)
Record http_shared := mk_shared {
  version : vtm_http_version;
  headers : option vtm_dataset;
  headers_free : bool;
  body : option Z;
  body_len : Z
}.

(** net/http/http_parser.h:98-113.  Internal fields. *)
Record http_internal := mk_internal {
  version_major : Z;
  version_minor : Z;
  status_msg_begin : Z;
  param_name_begin : Z;
  header_name_begin : Z;
  header_value_begin : Z;
  body_begin : Z;
  chunk_dst : Z;
  chunk_begin : Z;
  chunk_size : Z
}.

(** net/http/http_parser.h:72-114 [struct vtm_http_parser].  [path_begin] is
    only reset and never read, it is left out. *)
Record vtm_http_parser := mk_parser {
  mode : vtm_http_parser_mode;
  state : vtm_http_parser_state;
  state_chars : Z;
  max_header_size : Z;
  max_body_size : Z;
  msg : http_message;
  shared : http_shared;
  intl : http_internal
}.

(** Field updates. *)
Definition set_state (s : vtm_http_parser_state) (p : vtm_http_parser) : vtm_http_parser :=
  mk_parser (mode p) s (state_chars p) (max_header_size p) (max_body_size p) (msg p) (shared p)
    (intl p).
Definition set_chars (n : Z) (p : vtm_http_parser) : vtm_http_parser :=
  mk_parser (mode p) (state p) n (max_header_size p) (max_body_size p) (msg p) (shared p) (intl p).
Definition set_msg (m : http_message) (p : vtm_http_parser) : vtm_http_parser :=
  mk_parser (mode p) (state p) (state_chars p) (max_header_size p) (max_body_size p) m (shared p)
    (intl p).
Definition set_shared (s : http_shared) (p : vtm_http_parser) : vtm_http_parser :=
  mk_parser (mode p) (state p) (state_chars p) (max_header_size p) (max_body_size p) (msg p) s
    (intl p).
Definition set_intl (i : http_internal) (p : vtm_http_parser) : vtm_http_parser :=
  mk_parser (mode p) (state p) (state_chars p) (max_header_size p) (max_body_size p) (msg p)
    (shared p) i.

Definition msg_method v (m : http_message) := mk_msg v (req_path m) (req_params m)
  (req_params_free m) (res_status_code m) (res_status_msg m).
Definition msg_path v (m : http_message) := mk_msg (req_method m) v (req_params m)
  (req_params_free m) (res_status_code m) (res_status_msg m).
Definition msg_params v (m : http_message) := mk_msg (req_method m) (req_path m) v
  (req_params_free m) (res_status_code m) (res_status_msg m).
Definition msg_code v (m : http_message) := mk_msg (req_method m) (req_path m) (req_params m)
  (req_params_free m) v (res_status_msg m).
Definition msg_status v (m : http_message) := mk_msg (req_method m) (req_path m) (req_params m)
  (req_params_free m) (res_status_code m) v.

Definition sh_version v (s : http_shared) :=
  mk_shared v (headers s) (headers_free s) (body s) (body_len s).
Definition sh_headers v f (s : http_shared) := mk_shared (version s) v f (body s) (body_len s).
Definition sh_body v (s : http_shared) :=
  mk_shared (version s) (headers s) (headers_free s) v (body_len s).
Definition sh_body_len v (s : http_shared) :=
  mk_shared (version s) (headers s) (headers_free s) (body s) v.

Definition in_version ma mi (i : http_internal) := mk_internal ma mi (status_msg_begin i)
  (param_name_begin i) (header_name_begin i) (header_value_begin i) (body_begin i) (chunk_dst i)
  (chunk_begin i) (chunk_size i).
Definition in_status v (i : http_internal) := mk_internal (version_major i) (version_minor i) v
  (param_name_begin i) (header_name_begin i) (header_value_begin i) (body_begin i) (chunk_dst i)
  (chunk_begin i) (chunk_size i).
Definition in_param v (i : http_internal) := mk_internal (version_major i) (version_minor i)
  (status_msg_begin i) v (header_name_begin i) (header_value_begin i) (body_begin i) (chunk_dst i)
  (chunk_begin i) (chunk_size i).
Definition in_header n v (i : http_internal) := mk_internal (version_major i) (version_minor i)
  (status_msg_begin i) (param_name_begin i) n v (body_begin i) (chunk_dst i) (chunk_begin i)
  (chunk_size i).
Definition in_body v (i : http_internal) := mk_internal (version_major i) (version_minor i)
  (status_msg_begin i) (param_name_begin i) (header_name_begin i) (header_value_begin i) v
  (chunk_dst i) (chunk_begin i) (chunk_size i).
Definition in_chunk dst bg sz (i : http_internal) := mk_internal (version_major i)
  (version_minor i) (status_msg_begin i) (param_name_begin i) (header_name_begin i)
  (header_value_begin i) (body_begin i) dst bg sz.

(** ** Creation *)

(** net/http/http_parser.c:46-77.  The limits and the mode stay. *)
Definition vtm_http_parser_reset (p : vtm_http_parser) : vtm_http_parser :=
  mk_parser (mode p) VTM_HTTP_PARSE_BEGIN 0 (max_header_size p) (max_body_size p)
    (mk_msg VTM_HTTP_METHOD_GET None None false 0 None)
    (mk_shared VTM_HTTP_VER_1_0 None false None 0)
    (mk_internal 0 0 0 0 0 0 0 0 0 0).

(** net/http/http_parser.c:24-32.  [p] is the uninitialised struct. *)
Definition vtm_http_parser_init (p : vtm_http_parser) (m : vtm_http_parser_mode)
    : vtm_http_parser :=
  vtm_http_parser_reset
    (mk_parser m (state p) (state_chars p) VTM_HTTP_DEF_MAX_HEADER_SIZE VTM_HTTP_DEF_MAX_BODY_SIZE
       (msg p) (shared p) (intl p)).

(** net/http/http_parser.c:34-44.  A body that was marked lies inside of the
    buffer: freeing it is undefined. *)
Definition vtm_http_parser_release (p : vtm_http_parser) (h : heap) : option heap :=
  match body (shared p) with
  | Some _ => None
  | None =>
      h ← (if headers_free (shared p) then vtm_dataset_free (headers (shared p)) h else Some h);
      if req_params_free (msg p) then vtm_dataset_free (req_params (msg p)) h else Some h
  end.

(** ** Reading the buffer *)

(** The string that starts at an offset: the bytes up to the first NUL. *)
Fixpoint c_string (l : bytes) : option bytes :=
  match l with
  | [] => None
  | c :: l' => if c =? 0 then Some [] else s ← c_string l'; Some (c :: s)
  end.

(** A pointer into the buffer, used as a string.  Its address does not matter
    as long as it is not NULL. *)
Definition buf_str (b : vtm_buf) (off : Z) : option cptr :=
  if off <? 0 then None else s ← c_string (zdrop off (buf_data b)); Some (mk_ptr 1 s).

(** [buf->data[i] = 0] *)
Definition buf_nul (b : vtm_buf) (i : Z) : option vtm_buf :=
  if (0 <=? i) && (i <? zlen (buf_data b)) then
    Some (buf_with_data b (zput i 0 (buf_data b)) (buf_used b))
  else None.

(** A string constant. *)
Definition str_const (s : bytes) : cptr := mk_ptr 1 s.

(** net/http/http_parser.c:530-539 *)
Definition vtm_http_parser_isspace (c : Z) : bool := (c =? 32) || (c =? 9).

(** Answers of the allocator for a new dataset, a merged header value and the
    nodes of the datasets. *)
Record http_alloc := mk_http_alloc { ok_ds : bool; ok_merged : bool; ok_entry : ds_alloc }.

(** Where the evaluation of a state goes on: with the next byte ([continue] or
    the end of the switch), at the label [eval], or out of the function. *)
Inductive http_ctl := HNext | HEval | HReturn (s : vtm_net_recv_stat).

(** What a state works on. *)
Record http_env := mk_env { e_par : vtm_http_parser; e_buf : vtm_buf; e_heap : heap }.

Definition with_par (e : http_env) (p : vtm_http_parser) : http_env :=
  mk_env p (e_buf e) (e_heap e).
Definition to_state (e : http_env) (s : vtm_http_parser_state) : http_env :=
  with_par e (set_state s (e_par e)).
Definition invalid (e : http_env) : option (http_ctl * http_env) :=
  Some (HReturn VTM_NET_RECV_STAT_INVALID, e).

(** The byte just read is replaced by NUL. *)
Definition nul_here (e : http_env) : option http_env :=
  b ← buf_nul (e_buf e) (buf_read (e_buf e) - 1); Some (mk_env (e_par e) b (e_heap e)).

(** A state in which one byte is expected. *)
Definition expect (e : http_env) (c want : Z) (next : vtm_http_parser_state)
    : option (http_ctl * http_env) :=
  if c =? want then Some (HNext, to_state e next) else invalid e.

(** ** The states

    [c] is the byte just read, as a char. *)

Section states.
Context (malloc_ok : Z -> bool) (printf_g : Z -> bytes) (a : http_alloc).

(** net/http/http_parser.c:128-138 *)
Definition http_begin (e : http_env) : option (http_ctl * http_env) :=
  Some (HEval, to_state e match mode (e_par e) with
                          | VTM_HTTP_PM_REQUEST => VTM_HTTP_PARSE_REQ_METHOD
                          | VTM_HTTP_PM_RESPONSE => VTM_HTTP_PARSE_VERSION_H
                          end).

(** net/http/http_parser.c:140-149 *)
Definition http_req_method (e : http_env) (c : Z) : option (http_ctl * http_env) :=
  if negb (c =? 32) then Some (HNext, e)
  else
    e ← nul_here e;
    name ← buf_str (e_buf e) 0;
    let '(rc, m) := vtm_http_get_method (p_text name) in
    match m with
    | Some m => Some (HNext, to_state (with_par e (set_msg (msg_method m (msg (e_par e))) (e_par e)))
                               VTM_HTTP_PARSE_REQ_PATH)
    | None => invalid e
    end.

(** net/http/http_parser.c:151-166 *)
Definition http_req_path (e : http_env) (c : Z) : option (http_ctl * http_env) :=
  let next := if c =? 32 then Some VTM_HTTP_PARSE_VERSION_H
              else if c =? 63 then Some VTM_HTTP_PARSE_REQ_PARAM_BEGIN else None in
  match next with
  | None => Some (HNext, e)
  | Some s =>
      let e := to_state e s in
      e ← nul_here e;
      let off := u64 (buf_read (e_buf e) - state_chars (e_par e)) in
      Some (HNext, with_par e (set_msg (msg_path (Some off) (msg (e_par e))) (e_par e)))
  end.

(** net/http/http_parser.c:168-171 *)
Definition http_param_begin (e : http_env) : option (http_ctl * http_env) :=
  Some (HEval, to_state (with_par e (set_intl (in_param 0 (intl (e_par e))) (e_par e)))
                 VTM_HTTP_PARSE_REQ_PARAM_NAME).

(** net/http/http_parser.c:173-194 *)
Definition http_param_name (e : http_env) (c : Z) : option (http_ctl * http_env) :=
  if c =? 32 then Some (HNext, to_state e VTM_HTTP_PARSE_VERSION_H)
  else if c =? 38 then Some (HNext, to_state e VTM_HTTP_PARSE_REQ_PARAM_BEGIN)
  else if c =? 61 then
    e ← (if 1 <? state_chars (e_par e) then
           e ← nul_here e;
           let off := u64 (buf_read (e_buf e) - state_chars (e_par e)) in
           Some (with_par e (set_intl (in_param off (intl (e_par e))) (e_par e)))
         else Some e);
    Some (HNext, to_state e VTM_HTTP_PARSE_REQ_PARAM_VALUE)
  else Some (HNext, e).

(** net/http/http_parser.c:196-221 *)
Definition http_param_value (e : http_env) (c : Z) : option (http_ctl * http_env) :=
  let next := if c =? 32 then Some VTM_HTTP_PARSE_VERSION_H
              else if c =? 38 then Some VTM_HTTP_PARSE_REQ_PARAM_BEGIN else None in
  match next with
  | None => Some (HNext, e)
  | Some s =>
      let e := to_state e s in
      if param_name_begin (intl (e_par e)) =? 0 then Some (HNext, e)
      else
        e ← nul_here e;
        match (match req_params (msg (e_par e)) with
               | Some ds => Some ds
               | None => vtm_dataset_new (ok_ds a)
               end) with
        | None => Some (HReturn VTM_NET_RECV_STAT_ERROR, e)
        | Some ds =>
            name ← buf_str (e_buf e) (param_name_begin (intl (e_par e)));
            value ← buf_str (e_buf e) (u64 (buf_read (e_buf e) - state_chars (e_par e)));
            '(ds, h) ← vtm_dataset_set_string (ok_entry a) ds name value (e_heap e);
            Some (HNext, mk_env (set_msg (msg_params (Some ds) (msg (e_par e))) (e_par e)) (e_buf e) h)
        end
  end.

(** net/http/http_parser.c:223-227 *)
Definition http_req_line_lf (e : http_env) (c : Z) : option (http_ctl * http_env) :=
  expect e c 10 VTM_HTTP_PARSE_HEADER_LINE_BEGIN.

(** net/http/http_parser.c:229-244 *)
Definition http_status_code (e : http_env) (c : Z) : option (http_ctl * http_env) :=
  if state_chars (e_par e) <=? 3 then
    if negb (isdigit c) then invalid e
    else
      let code := i32 (res_status_code (msg (e_par e)) * 10 + (c - 48)) in
      Some (HNext, with_par e (set_msg (msg_code code (msg (e_par e))) (e_par e)))
  else if negb (c =? 32) then invalid e
  else
    let i := in_status (buf_read (e_buf e)) (intl (e_par e)) in
    Some (HNext, to_state (with_par e (set_intl i (e_par e))) VTM_HTTP_PARSE_RES_STATUS_MSG_CR).

(** net/http/http_parser.c:246-253 *)
Definition http_status_msg_cr (e : http_env) (c : Z) : option (http_ctl * http_env) :=
  if negb (c =? 13) then Some (HNext, e)
  else
    e ← nul_here e;
    let off := status_msg_begin (intl (e_par e)) in
    Some (HNext, to_state (with_par e (set_msg (msg_status (Some off) (msg (e_par e))) (e_par e)))
                   VTM_HTTP_PARSE_RES_STATUS_MSG_LF).

(** net/http/http_parser.c:255-260 *)
Definition http_status_msg_lf (e : http_env) (c : Z) : option (http_ctl * http_env) :=
  if negb (c =? 10) then invalid e
  else
    let i := intl (e_par e) in
    let i := in_header (buf_read (e_buf e)) (header_value_begin i) i in
    Some (HNext, to_state (with_par e (set_intl i (e_par e))) VTM_HTTP_PARSE_HEADER_LINE_BEGIN).

(** net/http/http_parser.c:262-290.  The literal "HTTP/". *)
Definition http_version_literal (e : http_env) (c : Z) : option (http_ctl * http_env) :=
  match state (e_par e) with
  | VTM_HTTP_PARSE_VERSION_H => expect e c 72 VTM_HTTP_PARSE_VERSION_HT
  | VTM_HTTP_PARSE_VERSION_HT => expect e c 84 VTM_HTTP_PARSE_VERSION_HTT
  | VTM_HTTP_PARSE_VERSION_HTT => expect e c 84 VTM_HTTP_PARSE_VERSION_HTTP
  | VTM_HTTP_PARSE_VERSION_HTTP => expect e c 80 VTM_HTTP_PARSE_VERSION_SLASH
  | _ => expect e c 47 VTM_HTTP_PARSE_VERSION_MAJOR
  end.

(** net/http/http_parser.c:292-300 *)
Definition http_version_major (e : http_env) (c : Z) : option (http_ctl * http_env) :=
  let i := intl (e_par e) in
  if isdigit c then
    let i := in_version (u32 (version_major i * 10 + (c - 48))) (version_minor i) i in
    Some (HNext, with_par e (set_intl i (e_par e)))
  else expect e c 46 VTM_HTTP_PARSE_VERSION_MINOR.

(** net/http/http_parser.c:302-324.  The version is looked up as int. *)
Definition http_version_minor (e : http_env) (c : Z) : option (http_ctl * http_env) :=
  let i := intl (e_par e) in
  if isdigit c then
    let i := in_version (version_major i) (u32 (version_minor i * 10 + (c - 48))) i in
    Some (HNext, with_par e (set_intl i (e_par e)))
  else
    let '(want, next) := match mode (e_par e) with
                         | VTM_HTTP_PM_REQUEST => (13, VTM_HTTP_PARSE_REQ_LINE_LF)
                         | VTM_HTTP_PM_RESPONSE => (32, VTM_HTTP_PARSE_RES_STATUS_CODE)
                         end in
    if negb (c =? want) then invalid e
    else
      let e := to_state e next in
      match (vtm_http_get_version (i32 (version_major i)) (i32 (version_minor i))).2 with
      | Some v => Some (HNext, with_par e (set_shared (sh_version v (shared (e_par e))) (e_par e)))
      | None => invalid e
      end.

(** net/http/http_parser.c:326-330 *)
Definition http_header_line_begin (e : http_env) : option (http_ctl * http_env) :=
  let i := in_header (u64 (buf_read (e_buf e) - 1)) 0 (intl (e_par e)) in
  Some (HEval, to_state (with_par e (set_intl i (e_par e))) VTM_HTTP_PARSE_HEADER_NAME).

(** net/http/http_parser.c:332-353 *)
Definition http_header_name (e : http_env) (c : Z) : option (http_ctl * http_env) :=
  if (c =? 13) && (state_chars (e_par e) =? 1) then
    Some (HNext, to_state e VTM_HTTP_PARSE_HEADERS_END_LF)
  else if (c =? 13) || (c =? 32) || (c =? 10) then invalid e
  else if c =? 58 then
    e ← nul_here e; Some (HNext, to_state e VTM_HTTP_PARSE_HEADER_VALUE)
  else Some (HNext, e).

(** net/http/http_parser.c:373-375.  The end of the value, from [j] backwards. *)
Fixpoint header_value_end (fuel : nat) (data : bytes) (j : Z) : option Z :=
  match fuel with
  | O => None
  | S fuel' =>
      c ← znth data j;
      if vtm_http_parser_isspace c then header_value_end fuel' data (j - 1) else Some j
  end.

(** net/http/http_parser.c:355-378 *)
Definition http_header_value (e : http_env) (c : Z) : option (http_ctl * http_env) :=
  let i := intl (e_par e) in
  if vtm_http_parser_isspace c && (header_value_begin i =? 0) then Some (HNext, e)
  else if c =? 13 then
    if header_value_begin i =? 0 then invalid e
    else
      j ← header_value_end (length (buf_data (e_buf e))) (buf_data (e_buf e)) (buf_read (e_buf e) - 1);
      b ← buf_nul (e_buf e) j;
      Some (HNext, mk_env (set_state VTM_HTTP_PARSE_HEADER_LINE_LF (e_par e)) b (e_heap e))
  else if c =? 10 then invalid e
  else if header_value_begin i =? 0 then
    let i := in_header (header_name_begin i) (u64 (buf_read (e_buf e) - 1)) i in
    Some (HNext, with_par e (set_intl i (e_par e)))
  else Some (HNext, e).

(** net/http/http_parser.c:380-384 *)
Definition http_header_line_lf (e : http_env) (c : Z) : option (http_ctl * http_env) :=
  if negb (c =? 10) then invalid e
  else Some (HEval, to_state e VTM_HTTP_PARSE_HEADER_LINE_COMPLETE).

(** net/http/http_parser.c:541-571.  The return code, the dataset and the heap;
    the block of a merged value is not freed. *)
Definition vtm_http_parser_save_header (ds : vtm_dataset) (b : vtm_buf) (i : http_internal)
    (h : heap) : option (bool * vtm_dataset * heap) :=
  value ← buf_str b (header_value_begin i);
  name ← buf_str b (header_name_begin i);
  '(prev, ds) ← vtm_dataset_get_string malloc_ok printf_g ds name;
  match prev with
  | Some prev =>
      if negb (ok_merged a) then Some (false, ds, h)
      else
        '(merged, h) ← vtm_str_copy true (mk_ptr 1 (prev ++ [44; 32] ++ p_text value)) h;
        '(ds, h) ← vtm_dataset_set_string (ok_entry a) ds name merged h; Some (true, ds, h)
  | None =>
      '(ds, h) ← vtm_dataset_set_string (ok_entry a) ds name value h; Some (true, ds, h)
  end.

(** net/http/http_parser.c:386-398 *)
Definition http_header_line_complete (e : http_env) : option (http_ctl * http_env) :=
  let s := shared (e_par e) in
  match (match headers s with
         | Some ds => Some (ds, headers_free s)
         | None => ds ← vtm_dataset_newh (ok_ds a) VTM_DS_HINT_IGNORE_CASE; Some (ds, true)
         end) with
  | None => Some (HReturn VTM_NET_RECV_STAT_ERROR, e)
  | Some (ds, free) =>
      '(ok, ds, h) ← vtm_http_parser_save_header ds (e_buf e) (intl (e_par e)) (e_heap e);
      let p := set_shared (sh_headers (Some ds) free s) (e_par e) in
      if ok : bool then Some (HNext, mk_env (set_state VTM_HTTP_PARSE_HEADER_LINE_BEGIN p) (e_buf e) h)
      else Some (HReturn VTM_NET_RECV_STAT_ERROR, mk_env p (e_buf e) h)
  end.

(** net/http/http_parser.c:400-404 *)
Definition http_headers_end_lf (e : http_env) (c : Z) : option (http_ctl * http_env) :=
  if negb (c =? 10) then invalid e else Some (HEval, to_state e VTM_HTTP_PARSE_BODY).

(** net/http/http_parser.c:430-439 *)
Definition http_body_default (e : http_env) : option (http_ctl * http_env) :=
  Some (HEval, to_state e match mode (e_par e) with
                          | VTM_HTTP_PM_REQUEST => VTM_HTTP_PARSE_COMPLETE
                          | VTM_HTTP_PM_RESPONSE => VTM_HTTP_PARSE_BODY_READALL
                          end).

(** net/http/http_parser.c:406-440 *)
Definition http_body (e : http_env) : option (http_ctl * http_env) :=
  let e := with_par e (set_intl (in_body (buf_read (e_buf e)) (intl (e_par e))) (e_par e)) in
  let s := shared (e_par e) in
  match headers s with
  | None => http_body_default e
  | Some ds =>
      '(val, ds) ← vtm_dataset_get_string malloc_ok printf_g ds
        (str_const VTM_HTTP_HEADER_TRANSFER_ENCODING);
      chunked ← match val with
                | Some val => vtm_str_list_contains val [44] VTM_HTTP_VALUE_CHUNKED true
                | None => Some false
                end;
      let s := sh_headers (Some ds) (headers_free s) s in
      let e := with_par e (set_shared s (e_par e)) in
      if chunked : bool then Some (HNext, to_state e VTM_HTTP_PARSE_BODY_CHUNKED)
      else
        has ← vtm_dataset_contains ds (str_const VTM_HTTP_HEADER_CONTENT_LENGTH);
        if has : bool then
          len ← vtm_dataset_get_integer VTM_ELEM_UINT64 ds (str_const VTM_HTTP_HEADER_CONTENT_LENGTH);
          let e := with_par e (set_shared (sh_body_len len s) (e_par e)) in
          Some (HEval, to_state e VTM_HTTP_PARSE_BODY_FIXEDLENGTH)
        else http_body_default e
  end.

(** net/http/http_parser.c:442-446 *)
Definition http_body_readall (e : http_env) : option (http_ctl * http_env) :=
  let e := mk_env (e_par e) (VTM_BUF_PROCESS_ALL (e_buf e)) (e_heap e) in
  if max_body_size (e_par e) <? buf_read (e_buf e) then invalid e
  else Some (HReturn VTM_NET_RECV_STAT_AGAIN, e).

(** net/http/http_parser.c:448-452 *)
Definition http_body_fixedlength (e : http_env) : option (http_ctl * http_env) :=
  if state_chars (e_par e) <? body_len (shared (e_par e)) then Some (HNext, e)
  else Some (HEval, to_state e VTM_HTTP_PARSE_COMPLETE).

(** net/http/http_parser.c:454-459 *)
Definition http_body_chunked (e : http_env) : option (http_ctl * http_env) :=
  let i := intl (e_par e) in
  let dst := if chunk_dst i =? 0 then body_begin i else chunk_dst i in
  let i := in_chunk dst (chunk_begin i) 0 i in
  Some (HEval, to_state (with_par e (set_intl i (e_par e))) VTM_HTTP_PARSE_BODY_CHUNK_SIZE).

(** net/http/http_parser.c:467-482.  The value of a hexadecimal digit. *)
Definition hex_value (c : Z) : option Z :=
  if (48 <=? c) && (c <=? 57) then Some (c - 48)
  else if (65 <=? c) && (c <=? 70) then Some (c - 65 + 10)
  else if (97 <=? c) && (c <=? 102) then Some (c - 97 + 10)
  else None.

(** net/http/http_parser.c:461-485 *)
Definition http_chunk_size (e : http_env) (c : Z) : option (http_ctl * http_env) :=
  if c =? 13 then Some (HNext, to_state e VTM_HTTP_PARSE_BODY_CHUNK_SIZE_LF)
  else
    match hex_value c with
    | None => invalid e
    | Some d =>
        let i := intl (e_par e) in
        let i := in_chunk (chunk_dst i) (chunk_begin i) (u64 (Z.shiftl (chunk_size i) 4) +sz d) i in
        Some (HNext, with_par e (set_intl i (e_par e)))
    end.

(** net/http/http_parser.c:487-492 *)
Definition http_chunk_size_lf (e : http_env) (c : Z) : option (http_ctl * http_env) :=
  if negb (c =? 10) then invalid e
  else
    let i := intl (e_par e) in
    let i := in_chunk (chunk_dst i) (buf_read (e_buf e)) (chunk_size i) i in
    Some (HNext, to_state (with_par e (set_intl i (e_par e))) VTM_HTTP_PARSE_BODY_CHUNK_CONTENT).

(** net/http/http_parser.c:494-502 *)
Definition http_chunk_content (e : http_env) (c : Z) : option (http_ctl * http_env) :=
  if state_chars (e_par e) <=? chunk_size (intl (e_par e)) then Some (HNext, e)
  else expect e c 13 VTM_HTTP_PARSE_BODY_CHUNK_END_LF.

(** net/http/http_parser.c:513-515.  memmove() inside of the buffer. *)
Definition buf_move (b : vtm_buf) (dst src n : Z) : option vtm_buf :=
  if (0 <=? dst) && (0 <=? src) && (dst + n <=? zlen (buf_data b)) && (src + n <=? zlen (buf_data b))
  then Some (buf_with_data b (splice dst (ztake n (zdrop src (buf_data b))) (buf_data b)) (buf_used b))
  else None.

(** net/http/http_parser.c:504-520 *)
Definition http_chunk_end_lf (e : http_env) (c : Z) : option (http_ctl * http_env) :=
  let i := intl (e_par e) in
  if negb (c =? 10) then invalid e
  else if chunk_size i =? 0 then Some (HEval, to_state e VTM_HTTP_PARSE_COMPLETE)
  else
    b ← buf_move (e_buf e) (chunk_dst i) (chunk_begin i) (chunk_size i);
    let p := set_intl (in_chunk (chunk_dst i +sz chunk_size i) (chunk_begin i) (chunk_size i) i) (e_par e) in
    let s := shared p in
    let p := set_shared (sh_body_len (body_len s +sz chunk_size i) s) p in
    Some (HNext, mk_env (set_state VTM_HTTP_PARSE_BODY_CHUNKED p) b (e_heap e)).

(** net/http/http_parser.c:14-18 *)
Definition VTM_HTTP_PARSER_MARK_BODY (p : vtm_http_parser) : vtm_http_parser :=
  if 0 <? body_len (shared p) then
    set_shared (sh_body (Some (body_begin (intl p))) (shared p)) p
  else p.

(** net/http/http_parser.c:522-524 *)
Definition http_complete (e : http_env) : option (http_ctl * http_env) :=
  Some (HReturn VTM_NET_RECV_STAT_COMPLETE, with_par e (VTM_HTTP_PARSER_MARK_BODY (e_par e))).

(** net/http/http_parser.c:127-525.  The switch. *)
Definition http_switch (e : http_env) (c : Z) : option (http_ctl * http_env) :=
  match state (e_par e) with
  | VTM_HTTP_PARSE_BEGIN => http_begin e
  | VTM_HTTP_PARSE_REQ_METHOD => http_req_method e c
  | VTM_HTTP_PARSE_REQ_PATH => http_req_path e c
  | VTM_HTTP_PARSE_REQ_PARAM_BEGIN => http_param_begin e
  | VTM_HTTP_PARSE_REQ_PARAM_NAME => http_param_name e c
  | VTM_HTTP_PARSE_REQ_PARAM_VALUE => http_param_value e c
  | VTM_HTTP_PARSE_REQ_LINE_LF => http_req_line_lf e c
  | VTM_HTTP_PARSE_RES_STATUS_CODE => http_status_code e c
  | VTM_HTTP_PARSE_RES_STATUS_MSG_CR => http_status_msg_cr e c
  | VTM_HTTP_PARSE_RES_STATUS_MSG_LF => http_status_msg_lf e c
  | VTM_HTTP_PARSE_VERSION_H | VTM_HTTP_PARSE_VERSION_HT | VTM_HTTP_PARSE_VERSION_HTT
  | VTM_HTTP_PARSE_VERSION_HTTP | VTM_HTTP_PARSE_VERSION_SLASH => http_version_literal e c
  | VTM_HTTP_PARSE_VERSION_MAJOR => http_version_major e c
  | VTM_HTTP_PARSE_VERSION_MINOR => http_version_minor e c
  | VTM_HTTP_PARSE_HEADER_LINE_BEGIN => http_header_line_begin e
  | VTM_HTTP_PARSE_HEADER_NAME => http_header_name e c
  | VTM_HTTP_PARSE_HEADER_VALUE => http_header_value e c
  | VTM_HTTP_PARSE_HEADER_LINE_LF => http_header_line_lf e c
  | VTM_HTTP_PARSE_HEADER_LINE_COMPLETE => http_header_line_complete e
  | VTM_HTTP_PARSE_HEADERS_END_LF => http_headers_end_lf e c
  | VTM_HTTP_PARSE_BODY => http_body e
  | VTM_HTTP_PARSE_BODY_READALL => http_body_readall e
  | VTM_HTTP_PARSE_BODY_FIXEDLENGTH => http_body_fixedlength e
  | VTM_HTTP_PARSE_BODY_CHUNKED => http_body_chunked e
  | VTM_HTTP_PARSE_BODY_CHUNK_SIZE => http_chunk_size e c
  | VTM_HTTP_PARSE_BODY_CHUNK_SIZE_LF => http_chunk_size_lf e c
  | VTM_HTTP_PARSE_BODY_CHUNK_CONTENT => http_chunk_content e c
  | VTM_HTTP_PARSE_BODY_CHUNK_END_LF => http_chunk_end_lf e c
  | VTM_HTTP_PARSE_COMPLETE => http_complete e
  end.

(** ** The loops *)

(** net/http/http_parser.c:120-526.  One byte: the label [eval] until the byte
    is done with.  [oldstate] is the local variable.  The result is the value
    returned by the function, or [oldstate] for the next byte. *)
Fixpoint http_eval (fuel : nat) (oldstate : vtm_http_parser_state) (e : http_env) (c : Z)
    : option ((vtm_net_recv_stat + vtm_http_parser_state) * http_env) :=
  match fuel with
  | O => None
  | S fuel' =>
      let p := e_par e in
      let p := if decide (state p <> oldstate) then set_chars 0 p else p in
      let oldstate := state p in
      let p := set_chars (state_chars p +sz 1) p in
      '(ctl, e) ← http_switch (with_par e p) c;
      match ctl with
      | HNext => Some (inr oldstate, e)
      | HEval => http_eval fuel' oldstate e c
      | HReturn s => Some (inl s, e)
      end
  end.

(** A byte is evaluated at most four times: at the end of the headers in the
    states HEADERS_END_LF, BODY, BODY_FIXEDLENGTH and COMPLETE. *)
Definition http_eval_fuel : nat := 5.

(** net/http/http_parser.c:106-116.  The limits. *)
Definition http_over_limit (e : http_env) : bool :=
  let p := e_par e in
  (negb (state_in_body (state p)) && (max_header_size p <? buf_read (e_buf e))) ||
  (state_in_body (state p) && (max_body_size p <? buf_read (e_buf e))).

(** net/http/http_parser.c:104-527.  [n] bytes are left. *)
Fixpoint http_run_loop (n : nat) (oldstate : vtm_http_parser_state) (e : http_env)
    : option (vtm_net_recv_stat * http_env) :=
  match n with
  | O => Some (VTM_NET_RECV_STAT_AGAIN, e)
  | S n' =>
      if http_over_limit e then Some (VTM_NET_RECV_STAT_INVALID, e)
      else
        '(c, b) ← VTM_BUF_GETC (e_buf e);
        '(r, e) ← http_eval http_eval_fuel oldstate (mk_env (e_par e) b (e_heap e)) (i8 c);
        match r with
        | inl s => Some (s, e)
        | inr oldstate => http_run_loop n' oldstate e
        end
  end.

(** net/http/http_parser.c:79-528 *)
Definition vtm_http_parser_run (e : http_env) : option (vtm_net_recv_stat * http_env) :=
  let p := e_par e in
  let n := VTM_BUF_GET_AVAIL_TOTAL (e_buf e) in
  if n =? 0 then
    match state p with
    | VTM_HTTP_PARSE_BODY_READALL =>
        let len := u64 (buf_used (e_buf e) - body_begin (intl p)) in
        let p := VTM_HTTP_PARSER_MARK_BODY (set_shared (sh_body_len len (shared p)) p) in
        Some (VTM_NET_RECV_STAT_COMPLETE, with_par e (set_state VTM_HTTP_PARSE_COMPLETE p))
    | _ => Some (VTM_NET_RECV_STAT_AGAIN, e)
    end
  else http_run_loop (Z.to_nat n) (state p) e.
End states.
