(* ===== verification/HttpRequest.v ===== *)
(** * HttpRequest: what the HTTP parser makes of well-formed requests

    The text of a request is printed from its parts; the parser, run once over
    the text, returns the parts.  The second half states what goes wrong when
    the same text arrives in pieces or carries a body. *)

From stdpp Require Import gmap fin_sets.
From S2P Require Import Prelude Base Buffer Str Ws Elem Hash Heap Table Smap Dataset Http HttpParser.

(** ** Strings inside of the buffer *)

Lemma c_string_app s t : is_cstr s -> c_string (s ++ 0 :: t) = Some s.
Proof.
  intros Hs. induction Hs as [|c s Hc Hs IH]; [reflexivity |]. cbn.
  rewrite (proj2 (Z.eqb_neq c 0)) by lia. by rewrite IH.
Qed.

Lemma zput_middle (p l : bytes) c : zput (zlen p) 0 (p ++ c :: l) = p ++ 0 :: l.
Proof.
  unfold zput, splice. rewrite ztake_app_exact by done.
  change (zlen [0]) with 1. change (p ++ c :: l) with (p ++ [c] ++ l). rewrite (app_assoc p [c] l).
  rewrite zdrop_app_exact; [done |]. rewrite zlen_app. unfold zlen. cbn. lia.
Qed.

(** A comparison of the byte as char with an ASCII character. *)
Lemma i8_eqb c x : is_byte c -> 0 <= x < 128 -> (i8 c =? x) = (c =? x).
Proof.
  unfold is_byte, i8, swrap. intros Hc Hx. apply eq_true_iff_eq. rewrite !Z.eqb_eq.
  change (2 ^ (8 - 1)) with 128. change (2 ^ 8) with 256. dlia.
Qed.

Lemma i8_neqb c x : is_byte c -> 0 <= x < 128 -> c <> x -> (i8 c =? x) = false.
Proof. intros. rewrite i8_eqb by done. by apply Z.eqb_neq. Qed.

Lemma i8_small c : 0 <= c < 128 -> i8 c = c.
Proof. intros. apply swrap_small; [lia |]. change (2 ^ (8 - 1)) with 128. lia. Qed.

(** Lengths of concatenations. *)
Lemma zlen_nil : zlen (A:=Z) [] = 0.
Proof. done. Qed.

#[local] Hint Rewrite zlen_nil : vtm_len.
Ltac zl := autorewrite with vtm_len in *; lia.

Section run.
Context (malloc_ok : Z -> bool) (printf_g : Z -> bytes).

Definition all_ok : http_alloc := mk_http_alloc true true alloc_ok.
Abbreviation switch := (http_switch malloc_ok printf_g all_ok).
Abbreviation loop := (http_run_loop malloc_ok printf_g all_ok).

Context (md : vtm_http_parser_mode) (mh mb : Z).
Context (ord : vtm_byteorder) (stc : buf_home) (len used err : Z).

(** The environment in which [pre] has been read and [l] is left, written out;
    [k] bytes have been seen in the present state. *)
Definition env st k m sh i (pre l : bytes) (h : heap) : http_env :=
  mk_env (mk_parser md st k mh mb m sh i) (mk_buf ord stc (pre ++ l) len used (zlen pre) err) h.

(** The same while the first byte of [l] is evaluated. *)
Definition at_byte st k m sh i (pre : bytes) c l h : http_env :=
  mk_env (mk_parser md st k mh mb m sh i)
    (mk_buf ord stc (pre ++ c :: l) len used (zlen pre + 1) err) h.

(** The rest of a run. *)
Definition RUN st k m sh i pre l h : option (vtm_net_recv_stat * http_env) :=
  loop (length l) st (env st k m sh i pre l h).

Lemma buf_str_at st k m sh i pre s t l h c :
  is_cstr s ->
  buf_str (e_buf (at_byte st k m sh i (pre ++ s ++ 0 :: t) c l h)) (zlen pre) = Some (mk_ptr 1 s).
Proof.
  intros Hs. unfold buf_str, at_byte. cbn [e_buf buf_data].
  pose proof (zlen_nonneg pre). rewrite (proj2 (Z.ltb_ge (zlen pre) 0)) by lia.
  rewrite <- app_assoc. rewrite zdrop_app_exact by done. rewrite <- app_assoc. cbn [app].
  by rewrite c_string_app.
Qed.

Lemma nul_here_at st k m sh i pre c l h :
  nul_here (at_byte st k m sh i pre c l h) = Some (at_byte st k m sh i pre 0 l h).
Proof.
  unfold nul_here, buf_nul, at_byte. cbn [e_buf buf_read buf_data e_par e_heap].
  replace (zlen pre + 1 - 1) with (zlen pre) by lia. pose proof (zlen_nonneg pre).
  rewrite (proj2 (Z.leb_le 0 (zlen pre))) by lia.
  rewrite (proj2 (Z.ltb_lt _ _)) by (rewrite zlen_app, zlen_cons; pose proof (zlen_nonneg l); lia).
  cbn [andb mbind option_bind]. unfold buf_with_data.
  cbn [buf_order buf_place buf_data buf_len buf_used buf_read buf_err]. by rewrite zput_middle.
Qed.

(** ** One byte of a run

    [nrm] resets the counter when the state changed. *)

Definition nrm (st st' : vtm_http_parser_state) (k : Z) : Z :=
  if decide (st' <> st) then 0 else k.

Lemma eval_norm fuel old st k m sh i pre c l h ch :
  http_eval malloc_ok printf_g all_ok (S fuel) old (at_byte st k m sh i pre c l h) ch =
  http_eval malloc_ok printf_g all_ok (S fuel) st (at_byte st (nrm old st k) m sh i pre c l h) ch.
Proof.
  cbn [http_eval at_byte e_par state]. unfold nrm.
  destruct (decide (st <> old)) as [Hne|Heq]; cbn [set_chars state state_chars];
    by rewrite (decide_False (P := st <> st)) by tauto.
Qed.

Lemma at_byte_env st k m sh i pre c l h :
  at_byte st k m sh i pre c l h = env st k m sh i (pre ++ [c]) l h.
Proof.
  unfold at_byte, env. rewrite <- app_assoc, zlen_app. do 2 f_equal.
Qed.

(** The evaluation of a byte and the rest of the run. *)
Definition EV fuel st k m sh i pre c l h : option (vtm_net_recv_stat * http_env) :=
  '(r, e) ← http_eval malloc_ok printf_g all_ok fuel st (at_byte st k m sh i pre c l h) (i8 c);
  match r with inl s => Some (s, e) | inr old => loop (length l) old e end.

(** The size limits are not reached. *)
Definition in_limits (pre : bytes) : Prop := zlen pre < mh /\ zlen pre < mb /\ zlen pre < 2 ^ 63.

Lemma over_limit_false st k m sh i pre l h :
  in_limits pre -> http_over_limit (env st k m sh i pre l h) = false.
Proof.
  intros (H1 & H2 & _). unfold http_over_limit, env.
  cbn [e_par state max_header_size max_body_size e_buf buf_read].
  rewrite (proj2 (Z.ltb_ge mh (zlen pre))), (proj2 (Z.ltb_ge mb (zlen pre))) by lia.
  by rewrite !andb_false_r.
Qed.

Lemma getc_env st k m sh i pre c l h :
  in_limits pre ->
  VTM_BUF_GETC (e_buf (env st k m sh i pre (c :: l) h))
  = Some (c, e_buf (at_byte st k m sh i pre c l h)).
Proof.
  intros (_ & _ & H). pose proof (zlen_nonneg pre).
  unfold VTM_BUF_GETC, env, at_byte. cbn [e_buf buf_data buf_read].
  assert (znth (pre ++ c :: l) (zlen pre) = Some c) as ->.
  { rewrite znth_lookup by lia. unfold zlen. rewrite Nat2Z.id. by apply list_lookup_middle. }
  cbn [mbind option_bind]. unfold buf_with_read.
  cbn [buf_order buf_place buf_data buf_len buf_used buf_read buf_err].
  rewrite u64_small by (unfold is_size, SIZE_MAX; lia). done.
Qed.

Lemma run_loop_S n old e :
  loop (S n) old e =
  if http_over_limit e then Some (VTM_NET_RECV_STAT_INVALID, e)
  else
    '(c, b) ← VTM_BUF_GETC (e_buf e);
    '(r, e) ← http_eval malloc_ok printf_g all_ok http_eval_fuel old (mk_env (e_par e) b (e_heap e)) (i8 c);
    match r with
    | inl s => Some (s, e)
    | inr old => loop n old e
    end.
Proof. reflexivity. Qed.

Lemma RUN_cons old st k m sh i pre c l h :
  in_limits pre ->
  loop (length (c :: l)) old (env st k m sh i pre (c :: l) h)
  = EV http_eval_fuel st (nrm old st k) m sh i pre c l h.
Proof.
  intros Hl. cbn [length]. rewrite run_loop_S, over_limit_false by done.
  rewrite getc_env by done. cbn [mbind option_bind].
  change (mk_env (e_par (env st k m sh i pre (c :: l) h)) (e_buf (at_byte st k m sh i pre c l h))
    (e_heap (env st k m sh i pre (c :: l) h))) with (at_byte st k m sh i pre c l h).
  assert (exists f, http_eval_fuel = S f) as [f ->] by by exists 4%nat.
  unfold EV. rewrite eval_norm. reflexivity.
Qed.

Lemma RUN_EV st k m sh i pre c l h :
  in_limits pre -> RUN st k m sh i pre (c :: l) h = EV http_eval_fuel st k m sh i pre c l h.
Proof.
  intros Hl. unfold RUN. rewrite RUN_cons by done. unfold nrm. by rewrite decide_False by tauto.
Qed.

Section ev.
Context (fuel : nat) (st : vtm_http_parser_state) (k : Z) (m : http_message) (sh : http_shared)
  (i : http_internal) (pre : bytes) (c : Z) (l : bytes) (h : heap).
Hypothesis Hk : 0 <= k < 2 ^ 63.

Lemma EV_unfold :
  EV (S fuel) st k m sh i pre c l h =
  '(ctl, e) ← switch (at_byte st (k + 1) m sh i pre c l h) (i8 c);
  match ctl with
  | HNext => loop (length l) st e
  | HEval => '(r, e) ← http_eval malloc_ok printf_g all_ok fuel st e (i8 c);
             match r with inl s => Some (s, e) | inr old => loop (length l) old e end
  | HReturn s => Some (s, e)
  end.
Proof.
  unfold EV at 1. cbn [http_eval at_byte e_par state]. rewrite (decide_False (P := st <> st)) by tauto.
  cbn [state_chars set_chars state]. rewrite u64_small by (unfold is_size, SIZE_MAX; lia).
  change (with_par _ _) with (at_byte st (k + 1) m sh i pre c l h).
  destruct (switch _ _) as [[[]]|]; done.
Qed.

Lemma EV_goto st1 k1 m1 sh1 i1 h1 :
  fuel <> 0%nat ->
  switch (at_byte st (k + 1) m sh i pre c l h) (i8 c) = Some (HEval, at_byte st1 k1 m1 sh1 i1 pre c l h1) ->
  EV (S fuel) st k m sh i pre c l h = EV fuel st1 (nrm st st1 k1) m1 sh1 i1 pre c l h1.
Proof.
  intros Hf E. rewrite EV_unfold, E. cbn [mbind option_bind].
  destruct fuel as [|fuel']; [done |]. rewrite eval_norm. reflexivity.
Qed.

(** The byte is done with; the state may have changed what was read. *)
Lemma EV_next_gen st1 k1 m1 sh1 i1 pre1 c1 h1 :
  l <> [] -> in_limits (pre1 ++ [c1]) ->
  switch (at_byte st (k + 1) m sh i pre c l h) (i8 c) = Some (HNext, at_byte st1 k1 m1 sh1 i1 pre1 c1 l h1) ->
  EV (S fuel) st k m sh i pre c l h = RUN st1 (nrm st st1 k1) m1 sh1 i1 (pre1 ++ [c1]) l h1.
Proof.
  intros Hl Hlim E. rewrite EV_unfold, E. cbn [mbind option_bind]. rewrite at_byte_env.
  destruct l as [|d l']; [done |]. rewrite RUN_cons, RUN_EV by done. done.
Qed.

Lemma EV_next st1 k1 m1 sh1 i1 c1 h1 :
  l <> [] -> in_limits (pre ++ [c1]) ->
  switch (at_byte st (k + 1) m sh i pre c l h) (i8 c) = Some (HNext, at_byte st1 k1 m1 sh1 i1 pre c1 l h1) ->
  EV (S fuel) st k m sh i pre c l h = RUN st1 (nrm st st1 k1) m1 sh1 i1 (pre ++ [c1]) l h1.
Proof. apply EV_next_gen. Qed.

Lemma EV_return s e :
  switch (at_byte st (k + 1) m sh i pre c l h) (i8 c) = Some (HReturn s, e) ->
  EV (S fuel) st k m sh i pre c l h = Some (s, e).
Proof. intros E. rewrite EV_unfold, E. done. Qed.
End ev.

Lemma EV_RUN fuel st k m sh i pre c l h ctl e :
  0 <= k < 2 ^ 63 -> in_limits pre ->
  switch (at_byte st (k + 1) m sh i pre c l h) (i8 c) = Some (ctl, e) -> ctl <> HEval ->
  EV (S fuel) st k m sh i pre c l h = RUN st k m sh i pre (c :: l) h.
Proof.
  intros Hk Hlim E Hne. rewrite RUN_EV by done. unfold http_eval_fuel.
  rewrite !EV_unfold, E by done. by destruct ctl.
Qed.

(** A byte that is only looked at to enter the next state. *)
Lemma RUN_goto st k m sh i pre c l h st1 k1 m1 sh1 i1 h1 ctl e :
  0 <= k < 2 ^ 63 -> in_limits pre -> st1 <> st ->
  switch (at_byte st (k + 1) m sh i pre c l h) (i8 c) = Some (HEval, at_byte st1 k1 m1 sh1 i1 pre c l h1) ->
  switch (at_byte st1 1 m1 sh1 i1 pre c l h1) (i8 c) = Some (ctl, e) -> ctl <> HEval ->
  RUN st k m sh i pre (c :: l) h = RUN st1 0 m1 sh1 i1 pre (c :: l) h1.
Proof.
  intros Hk Hlim Hst E1 E2 Hne. rewrite RUN_EV by done. unfold http_eval_fuel.
  rewrite (EV_goto 4 st k m sh i pre c l h Hk st1 k1 m1 sh1 i1 h1) by done.
  unfold nrm. rewrite decide_True by done. eapply EV_RUN; [lia | done | exact E2 | done].
Qed.

Lemma RUN_next_gen st k m sh i pre c l h st1 k1 m1 sh1 i1 pre1 c1 h1 :
  0 <= k < 2 ^ 63 -> in_limits (pre ++ [c]) -> l <> [] -> zlen pre1 = zlen pre ->
  switch (at_byte st (k + 1) m sh i pre c l h) (i8 c)
    = Some (HNext, at_byte st1 k1 m1 sh1 i1 pre1 c1 l h1) ->
  RUN st k m sh i pre (c :: l) h = RUN st1 (nrm st st1 k1) m1 sh1 i1 (pre1 ++ [c1]) l h1.
Proof.
  intros Hk (H1 & H2 & H3) Hl Hp E. rewrite zlen_app in H1, H2, H3. change (zlen [c]) with 1 in *.
  rewrite RUN_EV by (unfold in_limits; lia). apply (EV_next_gen 4); try done.
  unfold in_limits. rewrite zlen_app. change (zlen [c1]) with 1. lia.
Qed.

Lemma RUN_next st k m sh i pre c l h st1 k1 m1 sh1 i1 c1 h1 :
  0 <= k < 2 ^ 63 -> in_limits (pre ++ [c]) -> l <> [] ->
  switch (at_byte st (k + 1) m sh i pre c l h) (i8 c)
    = Some (HNext, at_byte st1 k1 m1 sh1 i1 pre c1 l h1) ->
  RUN st k m sh i pre (c :: l) h = RUN st1 (nrm st st1 k1) m1 sh1 i1 (pre ++ [c1]) l h1.
Proof. intros. by apply RUN_next_gen. Qed.

Lemma in_limits_app pre l : in_limits (pre ++ l) -> in_limits pre.
Proof. unfold in_limits. rewrite zlen_app. pose proof (zlen_nonneg l). lia. Qed.

Lemma in_limits_len pre pre' : zlen pre = zlen pre' -> in_limits pre -> in_limits pre'.
Proof. unfold in_limits. by intros ->. Qed.

(** A run of bytes that change nothing. *)
Lemma RUN_skip st (P : Z -> Prop) m sh i h s :
  (forall k pre c l, P c -> switch (at_byte st k m sh i pre c l h) (i8 c)
     = Some (HNext, at_byte st k m sh i pre c l h)) ->
  Forall P s -> forall k pre l, l <> [] -> in_limits (pre ++ s) -> 0 <= k <= zlen pre ->
  RUN st k m sh i pre (s ++ l) h = RUN st (k + zlen s) m sh i (pre ++ s) l h.
Proof.
  intros Hskip Hs. induction Hs as [|c s Hc Hs IH]; intros k pre l Hl Hlim Hk.
  - cbn [app]. rewrite app_nil_r. change (zlen (A:=Z) []) with 0. by rewrite Z.add_0_r.
  - change (c :: s) with ([c] ++ s) in Hlim |- *. rewrite app_assoc in Hlim |- *.
    pose proof (in_limits_app _ _ Hlim) as Hlim1. rewrite <- app_assoc. cbn [app].
    destruct (in_limits_app _ _ Hlim1) as (_ & _ & Hp).
    erewrite (RUN_next st k m sh i pre c); [| lia | done | | apply Hskip; done].
    + unfold nrm. rewrite decide_False by tauto. rewrite IH; auto.
      * f_equal. change (c :: s) with ([c] ++ s). rewrite zlen_app. change (zlen [c]) with 1. lia.
      * rewrite zlen_app. change (zlen [c]) with 1. lia.
    + intros E. apply app_eq_nil in E as [_ E]. done.
Qed.

(** ** The request line *)

Definition good_methods : list (bytes * vtm_http_method) :=
  [(cstr_of "GET"%string, VTM_HTTP_METHOD_GET); (cstr_of "POST"%string, VTM_HTTP_METHOD_POST);
   (cstr_of "HEAD"%string, VTM_HTTP_METHOD_HEAD); (cstr_of "PUT"%string, VTM_HTTP_METHOD_PUT);
   (cstr_of "PATCH"%string, VTM_HTTP_METHOD_PATCH)].

(** Bytes other than the given ones and NUL. *)
Definition none_of (l : list Z) (c : Z) : Prop := 0 < c < 256 /\ c ∉ l.

Lemma none_of_byte l c : none_of l c -> is_byte c.
Proof. unfold none_of, is_byte. lia. Qed.

Lemma none_of_eqb l c x : none_of l c -> x ∈ l -> 0 <= x < 128 -> (i8 c =? x) = false.
Proof.
  intros Hc Hx H. apply i8_neqb; [by eapply none_of_byte | done |]. intros ->. by apply Hc.
Qed.

Lemma none_of_cstr l s : Forall (none_of l) s -> is_cstr s.
Proof. intros H. eapply Forall_impl; [exact H |]. by intros c [Hc _]. Qed.

Lemma good_method_name mn mt :
  (mn, mt) ∈ good_methods ->
  Forall (none_of [32]) mn /\ mn <> [] /\ (vtm_http_get_method mn).2 = Some mt.
Proof.
  intros H. unfold good_methods in H. repeat (apply elem_of_cons in H as [[= -> ->]|H];
    [split_and!; [|done | reflexivity]; repeat constructor; try lia;
     intros E; apply list_elem_of_singleton in E; discriminate E |]).
  by apply not_elem_of_nil in H.
Qed.

Lemma app_cons_ne (s : bytes) c l : s ++ c :: l <> [].
Proof. by destruct s. Qed.

Lemma RUN_method m sh i mn mt l h :
  (mn, mt) ∈ good_methods -> in_limits (mn ++ [32]) -> l <> [] ->
  RUN VTM_HTTP_PARSE_REQ_METHOD 0 m sh i [] (mn ++ 32 :: l) h
  = RUN VTM_HTTP_PARSE_REQ_PATH 0 (msg_method mt m) sh i (mn ++ [0]) l h.
Proof.
  intros Hm Hlim Hl. destruct (good_method_name mn mt Hm) as (Hs & Hne & Hget).
  pose proof (in_limits_app _ _ Hlim) as Hlim1. destruct (in_limits_app _ _ Hlim) as (_ & _ & Hp).
  pose proof (zlen_nonneg mn).
  rewrite (RUN_skip _ (none_of [32])); try done.
  - cbn [app]. rewrite (RUN_next _ _ _ _ _ _ _ _ _ VTM_HTTP_PARSE_REQ_PATH (0 + zlen mn + 1)
      (msg_method mt m) sh i 0 h); [reflexivity | lia | done | done |].
    cbn [http_switch at_byte e_par state]. unfold http_req_method.
    change (i8 32 =? 32) with true. cbn [negb].
    change (mk_env _ _ _) with (at_byte VTM_HTTP_PARSE_REQ_METHOD (0 + zlen mn + 1) m sh i mn 32 l h).
    rewrite nul_here_at. cbn [mbind option_bind].
    assert (buf_str (e_buf (at_byte VTM_HTTP_PARSE_REQ_METHOD (0 + zlen mn + 1) m sh i mn 0 l h)) 0
      = Some (mk_ptr 1 mn)) as ->.
    { unfold buf_str, at_byte. cbn [e_buf buf_data]. change (0 <? 0) with false. cbn iota.
      rewrite zdrop_0, c_string_app; [done |]. by eapply none_of_cstr. }
    cbn [mbind option_bind p_text]. destruct (vtm_http_get_method mn) as [rc o]. cbn [snd] in Hget.
    subst o. reflexivity.
  - intros k pre c l0 Hc. cbn [http_switch at_byte e_par state]. unfold http_req_method.
    rewrite (none_of_eqb [32]) by (done || lia || apply list_elem_of_here). done.
Qed.

Lemma RUN_path m sh i pre path x next l h :
  Forall (none_of [32; 63]) path -> in_limits (pre ++ path ++ [x]) -> l <> [] ->
  (x = 32 /\ next = VTM_HTTP_PARSE_VERSION_H) \/ (x = 63 /\ next = VTM_HTTP_PARSE_REQ_PARAM_BEGIN) ->
  RUN VTM_HTTP_PARSE_REQ_PATH 0 m sh i pre (path ++ x :: l) h
  = RUN next 0 (msg_path (Some (zlen pre)) m) sh i (pre ++ path ++ [0]) l h.
Proof.
  intros Hs Hlim Hl Hx. rewrite app_assoc in Hlim. destruct (in_limits_app _ _ Hlim) as (H1 & H2 & H3).
  pose proof (zlen_nonneg path). pose proof (zlen_nonneg pre). rewrite zlen_app in H3.
  rewrite (RUN_skip _ (none_of [32; 63])); try done; [| | by apply in_limits_app in Hlim].
  - rewrite (RUN_next _ _ _ _ _ _ _ _ _ next (0 + zlen path + 1) (msg_path (Some (zlen pre)) m) sh i 0 h);
      [| lia | done | done |].
    2: { cbn [http_switch at_byte e_par state]. unfold http_req_path.
         assert ((if i8 x =? 32 then Some VTM_HTTP_PARSE_VERSION_H else if i8 x =? 63
           then Some VTM_HTTP_PARSE_REQ_PARAM_BEGIN else None) = Some next) as ->
           by (destruct Hx as [[-> ->] | [-> ->]]; reflexivity).
         change (to_state _ _) with (at_byte next (0 + zlen path + 1) m sh i (pre ++ path) x l h).
         rewrite nul_here_at. cbn [mbind option_bind]. cbn [at_byte e_buf buf_read e_par state_chars].
         replace (zlen (pre ++ path) + 1 - (0 + zlen path + 1)) with (zlen pre) by (rewrite zlen_app; lia).
         rewrite u64_small by (unfold is_size, SIZE_MAX; lia).
         reflexivity. }
    rewrite <- app_assoc. f_equal. unfold nrm. rewrite decide_True; [done |].
    by destruct Hx as [[_ ->] | [_ ->]].
  - intros k pre0 c l0 Hc. cbn [http_switch at_byte e_par state]. unfold http_req_path.
    rewrite !(none_of_eqb [32; 63]) by (done || lia || set_solver). done.
Qed.

(** ** Version and end of line *)

Definition ver_minor (v : vtm_http_version) : Z :=
  match v with VTM_HTTP_VER_1_0 => 0 | VTM_HTTP_VER_1_1 => 1 end.

Definition version_text (v : vtm_http_version) : bytes :=
  default [] (vtm_http_get_version_string v).

Lemma version_text_eq v : version_text v = [72; 84; 84; 80; 47; 49; 46; 48 + ver_minor v].
Proof. by destruct v. Qed.

Lemma in_limits_le (pre pre' : bytes) : zlen pre' <= zlen pre -> in_limits pre -> in_limits pre'.
Proof. unfold in_limits. lia. Qed.

(** A byte that leads to another state and changes nothing else. *)
Lemma RUN_expect st next c k m sh i pre l h :
  (forall k0, switch (at_byte st k0 m sh i pre c l h) (i8 c)
     = Some (HNext, at_byte next k0 m sh i pre c l h)) ->
  next <> st -> 0 <= k <= zlen pre -> in_limits (pre ++ [c]) -> l <> [] ->
  RUN st k m sh i pre (c :: l) h = RUN next 0 m sh i (pre ++ [c]) l h.
Proof.
  intros Hsw Hne Hk Hlim Hl. destruct (in_limits_app _ _ Hlim) as (_ & _ & Hp).
  rewrite (RUN_next st k m sh i pre c l h next (k + 1) m sh i c h); [| lia | done | done | apply Hsw].
  unfold nrm. by rewrite decide_True by done.
Qed.

(** A sequence of such bytes. *)
Lemma RUN_http_slash m sh i pre l h :
  in_limits (pre ++ [72; 84; 84; 80; 47]) -> l <> [] ->
  RUN VTM_HTTP_PARSE_VERSION_H 0 m sh i pre (72 :: 84 :: 84 :: 80 :: 47 :: l) h
  = RUN VTM_HTTP_PARSE_VERSION_MAJOR 0 m sh i (pre ++ [72; 84; 84; 80; 47]) l h.
Proof.
  intros Hlim Hl.
  assert (forall p : bytes, zlen p <= zlen pre + 5 -> in_limits p) as Hin.
  { intros p Hp. eapply in_limits_le; [|exact Hlim]. rewrite zlen_app. unfold zlen at 3. cbn [length]. lia. }
  assert (forall (p : bytes) c, zlen (p ++ [c]) = zlen p + 1) as Ha
    by (intros; rewrite zlen_app; done).
  pose proof (zlen_nonneg pre).
  rewrite (RUN_expect _ VTM_HTTP_PARSE_VERSION_HT) by (done || (rewrite ?Ha; lia) || (apply Hin; rewrite !Ha; lia)).
  rewrite (RUN_expect _ VTM_HTTP_PARSE_VERSION_HTT) by (done || (rewrite ?Ha; lia) || (apply Hin; rewrite !Ha; lia)).
  rewrite (RUN_expect _ VTM_HTTP_PARSE_VERSION_HTTP) by (done || (rewrite ?Ha; lia) || (apply Hin; rewrite !Ha; lia)).
  rewrite (RUN_expect _ VTM_HTTP_PARSE_VERSION_SLASH) by (done || (rewrite ?Ha; lia) || (apply Hin; rewrite !Ha; lia)).
  rewrite (RUN_expect _ VTM_HTTP_PARSE_VERSION_MAJOR) by (done || (rewrite ?Ha; lia) || (apply Hin; rewrite !Ha; lia)).
  by rewrite <- !app_assoc.
Qed.

(** The version, up to the byte behind it. *)
Lemma RUN_version_number m sh i v pre c l h :
  version_major i = 0 -> version_minor i = 0 -> in_limits (pre ++ version_text v) ->
  RUN VTM_HTTP_PARSE_VERSION_H 0 m sh i pre (version_text v ++ c :: l) h
  = RUN VTM_HTTP_PARSE_VERSION_MINOR 1 m sh (in_version 1 (ver_minor v) i) (pre ++ version_text v) (c :: l) h.
Proof.
  intros Hma Hmi Hlim. rewrite version_text_eq in *. cbn [app] in *.
  assert (forall p : bytes, zlen p <= zlen pre + 8 -> in_limits p) as Hin.
  { intros p Hp. eapply in_limits_le; [|exact Hlim]. rewrite zlen_app. unfold zlen at 3. cbn [length]. lia. }
  assert (forall (p : bytes) c, zlen (p ++ [c]) = zlen p + 1) as Ha
    by (intros; rewrite zlen_app; done).
  pose proof (zlen_nonneg pre).
  rewrite RUN_http_slash by (done || apply Hin; rewrite zlen_app; unfold zlen at 2; cbn [length]; lia).
  set (p5 := pre ++ [72; 84; 84; 80; 47]).
  assert (zlen p5 = zlen pre + 5) as H5 by (subst p5; by rewrite zlen_app).
  rewrite (RUN_next _ _ _ _ _ _ _ _ _ VTM_HTTP_PARSE_VERSION_MAJOR 1 m sh (in_version 1 0 i) 49 h).
  2: by vm_compute.
  2: apply Hin; rewrite !Ha; lia.
  2: done.
  2: { cbn [http_switch at_byte e_par state]. unfold http_version_major.
       cbn [at_byte e_par intl]. rewrite Hma, Hmi. reflexivity. }
  rewrite (RUN_expect _ VTM_HTTP_PARSE_VERSION_MINOR) by (done || (rewrite ?Ha; unfold nrm; case_decide; lia) || (apply Hin; rewrite !Ha; lia)).
  rewrite (RUN_next _ _ _ _ _ _ _ _ _ VTM_HTTP_PARSE_VERSION_MINOR 1 m sh (in_version 1 (ver_minor v) i) (48 + ver_minor v) h).
  2: by vm_compute.
  2: apply Hin; rewrite !Ha; lia.
  2: done.
  2: by destruct v.
  subst p5. by rewrite <- !app_assoc.
Qed.

Lemma RUN_version m sh i v pre l h :
  md = VTM_HTTP_PM_REQUEST -> version_major i = 0 -> version_minor i = 0 -> l <> [] ->
  in_limits (pre ++ version_text v ++ [13; 10]) ->
  RUN VTM_HTTP_PARSE_VERSION_H 0 m sh i pre (version_text v ++ 13 :: 10 :: l) h
  = RUN VTM_HTTP_PARSE_HEADER_LINE_BEGIN 0 m (sh_version v sh) (in_version 1 (ver_minor v) i)
      (pre ++ version_text v ++ [13; 10]) l h.
Proof.
  intros Hmd Hma Hmi Hl Hlim.
  assert (forall p : bytes, zlen p <= zlen pre + zlen (version_text v) + 2 -> in_limits p) as Hin
    by (intros p Hp; eapply in_limits_le; [|exact Hlim]; zl).
  pose proof (zlen_nonneg pre). assert (zlen (version_text v) = 8) as H8 by by destruct v.
  rewrite RUN_version_number by (done || apply Hin; zl). set (p1 := pre ++ version_text v).
  assert (zlen p1 = zlen pre + zlen (version_text v)) as H1 by apply zlen_app.
  rewrite (RUN_next _ _ _ _ _ _ _ _ _ VTM_HTTP_PARSE_REQ_LINE_LF 2 m (sh_version v sh) (in_version 1 (ver_minor v) i) 13 h).
  2: lia.
  2: apply Hin; zl.
  2: done.
  2: { cbn [http_switch at_byte e_par state]. unfold http_version_minor.
       cbn [at_byte e_par intl mode]. rewrite Hmd. by destruct v. }
  rewrite (RUN_expect _ VTM_HTTP_PARSE_HEADER_LINE_BEGIN) by (done || (apply Hin; zl) || (unfold nrm; rewrite decide_True by done; zl)).
  subst p1. by rewrite <- !app_assoc.
Qed.

(** ** Parameters *)

(** A text as the datasets see it. *)
Definition str_variant (v : bytes) : vtm_variant := canon_variant (vtm_variant_from_str (mk_ptr 1 v)).

Abbreviation wf := (ds_wf malloc_ok printf_g).

Lemma set_string_ok F ds n v h :
  wf ds -> is_cstr n -> heap_ok F (ds_owned ds) h ->
  forall p, is_null p = false -> p_text p = v ->
  exists ds' h', vtm_dataset_set_string alloc_ok ds (mk_ptr 1 n) p h = Some (ds', h') /\
    wf ds' /\ hints ds' = hints ds /\ heap_ok F (ds_owned ds') h' /\
    ds_abs ds' = <[ds_canon (hints ds) n := str_variant v]> (ds_abs ds).
Proof.
  intros Hw Hn Ho p Hp <-.
  destruct (ds_set_ok malloc_ok printf_g F ds (mk_ptr 1 n) (SetString p) h
    (<[ds_canon (hints ds) n := str_variant (p_text p)]> (ds_abs ds), F)) as (ds' & h' & E & H); auto.
  - by apply name_ok_spec.
  - cbn [spec_set p_text]. by rewrite Hp.
  - by exists ds', h'.
Qed.

Lemma RUN_param_begin m sh i pre c l h :
  in_limits pre -> is_byte c ->
  RUN VTM_HTTP_PARSE_REQ_PARAM_BEGIN 0 m sh i pre (c :: l) h
  = RUN VTM_HTTP_PARSE_REQ_PARAM_NAME 0 m sh (in_param 0 i) pre (c :: l) h.
Proof.
  intros Hlim Hc.
  assert (exists e, switch (at_byte VTM_HTTP_PARSE_REQ_PARAM_NAME 1 m sh (in_param 0 i) pre c l h) (i8 c)
    = Some (HNext, e)) as (e & E).
  { cbn [http_switch at_byte e_par state]. unfold http_param_name. cbn [at_byte e_par state_chars].
    destruct (i8 c =? 32); [eauto |]. destruct (i8 c =? 38); [eauto |].
    destruct (i8 c =? 61); [|eauto]. cbn. eauto. }
  eapply (RUN_goto _ _ _ _ _ _ _ _ _ VTM_HTTP_PARSE_REQ_PARAM_NAME 1);
    [lia | done | done | reflexivity | exact E | done].
Qed.

Lemma in_limits_2_63 pre : in_limits pre -> 0 <= zlen pre < 2 ^ 63.
Proof. intros (_ & _ & H). pose proof (zlen_nonneg pre). lia. Qed.

Lemma RUN_param_name m sh i pre name l h :
  name <> [] -> Forall (none_of [32; 38; 61]) name -> l <> [] -> in_limits (pre ++ name ++ [61]) ->
  RUN VTM_HTTP_PARSE_REQ_PARAM_BEGIN 0 m sh i pre (name ++ 61 :: l) h
  = RUN VTM_HTTP_PARSE_REQ_PARAM_VALUE 0 m sh (in_param (zlen pre) i) (pre ++ name ++ [0]) l h.
Proof.
  intros Hne Hn Hl Hlim. rewrite app_assoc in Hlim. pose proof (in_limits_app _ _ Hlim) as Hlim1.
  pose proof (in_limits_2_63 _ Hlim1) as Hb. rewrite zlen_app in Hb.
  pose proof (in_limits_app _ _ Hlim1) as Hlim2. pose proof (zlen_nonneg pre).
  destruct name as [|c name']; [done |]. set (name := c :: name') in *.
  assert (0 < zlen name) by (subst name; rewrite zlen_cons; pose proof (zlen_nonneg name'); lia).
  assert (is_byte c) as Hc by (inversion Hn; by eapply none_of_byte).
  change (name ++ 61 :: l) with (c :: (name' ++ 61 :: l)). rewrite RUN_param_begin by done.
  change (c :: (name' ++ 61 :: l)) with (name ++ 61 :: l).
  rewrite (RUN_skip VTM_HTTP_PARSE_REQ_PARAM_NAME (none_of [32; 38; 61])); [| | done | done | done | lia].
  2: { intros k p0 c0 l0 Hc0. cbn [http_switch at_byte e_par state]. unfold http_param_name.
       rewrite !(none_of_eqb [32; 38; 61]) by (done || lia || set_solver). done. }
  rewrite (RUN_next _ _ _ _ _ _ _ _ _ VTM_HTTP_PARSE_REQ_PARAM_VALUE (0 + zlen name + 1) m sh
    (in_param (zlen pre) i) 0 h); [by rewrite <- app_assoc | lia | done | done |].
  cbn [http_switch at_byte e_par state]. unfold http_param_name.
  change (i8 61 =? 32) with false. change (i8 61 =? 38) with false. change (i8 61 =? 61) with true.
  cbn [at_byte e_par state_chars]. rewrite (proj2 (Z.ltb_lt 1 (0 + zlen name + 1))) by lia.
  change (mk_env _ _ _) with (at_byte VTM_HTTP_PARSE_REQ_PARAM_NAME (0 + zlen name + 1) m sh (in_param 0 i)
    (pre ++ name) 61 l h).
  rewrite nul_here_at. cbn [mbind option_bind at_byte e_buf buf_read e_par state_chars].
  replace (zlen (pre ++ name) + 1 - (0 + zlen name + 1)) with (zlen pre) by (rewrite zlen_app; lia).
  rewrite u64_small by (unfold is_size, SIZE_MAX; lia). reflexivity.
Qed.

(** Two strings in the buffer. *)
Lemma buf_str_app st k m sh i p s t l h c :
  is_cstr s -> forall off, off = zlen p ->
  buf_str (e_buf (at_byte st k m sh i (p ++ s ++ 0 :: t) c l h)) off = Some (mk_ptr 1 s).
Proof. intros Hs off ->. by apply buf_str_at. Qed.

Lemma buf_str_last st k m sh i p s l h :
  is_cstr s -> forall off, off = zlen p ->
  buf_str (e_buf (at_byte st k m sh i (p ++ s) 0 l h)) off = Some (mk_ptr 1 s).
Proof.
  intros Hs off ->. unfold buf_str, at_byte. cbn [e_buf buf_data].
  pose proof (zlen_nonneg p). rewrite (proj2 (Z.ltb_ge (zlen p) 0)) by lia.
  rewrite <- app_assoc, zdrop_app_exact by done. by rewrite c_string_app.
Qed.

Lemma RUN_param_value m sh i p name value x next l h F ds :
  is_cstr name -> Forall (none_of [32; 38]) value -> l <> [] ->
  0 < zlen p -> param_name_begin i = zlen p ->
  in_limits ((p ++ name ++ [0]) ++ value ++ [x]) ->
  (x = 32 /\ next = VTM_HTTP_PARSE_VERSION_H) \/ (x = 38 /\ next = VTM_HTTP_PARSE_REQ_PARAM_BEGIN) ->
  ds = default (vtm_dataset_init VTM_DS_HINT_DEFAULT) (req_params m) ->
  wf ds -> hints ds = VTM_DS_HINT_DEFAULT -> heap_ok F (ds_owned ds) h ->
  exists ds' h', RUN VTM_HTTP_PARSE_REQ_PARAM_VALUE 0 m sh i (p ++ name ++ [0]) (value ++ x :: l) h
      = RUN next 0 (msg_params (Some ds') m) sh i ((p ++ name ++ [0]) ++ value ++ [0]) l h' /\
    wf ds' /\ hints ds' = VTM_DS_HINT_DEFAULT /\ heap_ok F (ds_owned ds') h' /\
    ds_abs ds' = <[name := str_variant value]> (ds_abs ds).
Proof.
  intros Hn Hv Hl Hp Hpn Hlim Hx Eds Hw Hh Ho. set (pre := p ++ name ++ [0]) in *.
  rewrite app_assoc in Hlim. pose proof (in_limits_app _ _ Hlim) as Hlim1.
  pose proof (in_limits_2_63 _ Hlim1) as Hb. rewrite zlen_app in Hb.
  pose proof (zlen_nonneg pre). pose proof (zlen_nonneg value).
  destruct (set_string_ok F ds name value h Hw Hn Ho (mk_ptr 1 value) eq_refl eq_refl)
    as (ds' & h' & E & Hw' & Hh' & Ho' & Ha). rewrite Hh in Ha.
  exists ds', h'. split; [|by rewrite Hh' ].
  rewrite (RUN_skip VTM_HTTP_PARSE_REQ_PARAM_VALUE (none_of [32; 38])); [| | done | done | done | lia].
  2: { intros k p0 c0 l0 Hc0. cbn [http_switch at_byte e_par state]. unfold http_param_value.
       rewrite !(none_of_eqb [32; 38]) by (done || lia || set_solver). done. }
  rewrite (RUN_next _ _ _ _ _ _ _ _ _ next (0 + zlen value + 1) (msg_params (Some ds') m) sh i 0 h');
    [| lia | done | done |].
  - rewrite <- app_assoc. unfold nrm. rewrite decide_True; [done |]. by destruct Hx as [[_ ->] | [_ ->]].
  - cbn [http_switch at_byte e_par state]. unfold http_param_value.
    assert ((if i8 x =? 32 then Some VTM_HTTP_PARSE_VERSION_H else if i8 x =? 38
      then Some VTM_HTTP_PARSE_REQ_PARAM_BEGIN else None) = Some next) as ->
      by (destruct Hx as [[-> ->] | [-> ->]]; reflexivity).
    change (to_state _ _) with (at_byte next (0 + zlen value + 1) m sh i (pre ++ value) x l h).
    assert (is_cstr value) as Hvc by by eapply none_of_cstr.
    assert (buf_str (e_buf (at_byte next (0 + zlen value + 1) m sh i (pre ++ value) 0 l h)) (zlen p)
      = Some (mk_ptr 1 name)) as Es1.
    { subst pre. rewrite <- !app_assoc. cbn [app]. by apply buf_str_app. }
    pose proof (buf_str_last next (0 + zlen value + 1) m sh i pre value l h Hvc _ eq_refl) as Es2.
    rewrite nul_here_at. change (intl (e_par (at_byte next (0 + zlen value + 1) m sh i (pre ++ value) x l h))) with i.
    rewrite Hpn, (proj2 (Z.eqb_neq (zlen p) 0)) by lia. cbn [mbind option_bind].
    set (e1 := at_byte next (0 + zlen value + 1) m sh i (pre ++ value) 0 l h) in *.
    change (req_params (msg (e_par e1))) with (req_params m).
    change (intl (e_par e1)) with i. change (state_chars (e_par e1)) with (0 + zlen value + 1).
    change (buf_read (e_buf e1)) with (zlen (pre ++ value) + 1). change (e_heap e1) with h.
    assert ((match req_params m with Some ds => Some ds | None => vtm_dataset_new (ok_ds all_ok) end)
      = Some ds) as -> by (rewrite Eds; by destruct (req_params m)).
    replace (zlen (pre ++ value) + 1 - (0 + zlen value + 1)) with (zlen pre) by (rewrite zlen_app; lia).
    rewrite u64_small by (unfold is_size, SIZE_MAX; lia).
    rewrite Hpn, Es1. cbn [mbind option_bind]. rewrite Es2. cbn [mbind option_bind all_ok ok_entry].
    rewrite E. reflexivity.
Qed.

(** All parameters of a request. *)
Fixpoint params_text (ps : list (bytes * bytes)) : bytes :=
  match ps with
  | [] => []
  | (n, v) :: ps' => n ++ 61 :: v ++ match ps' with [] => [] | _ => 38 :: params_text ps' end
  end.

Definition param_ok (p : bytes * bytes) : Prop :=
  p.1 <> [] /\ Forall (none_of [32; 38; 61]) p.1 /\ Forall (none_of [32; 38]) p.2.

(** The last value of a name counts. *)
Definition params_map (ps : list (bytes * bytes)) (g : gmap bytes vtm_variant) : gmap bytes vtm_variant :=
  fold_left (fun g p => <[p.1 := str_variant p.2]> g) ps g.

Lemma RUN_params ps m sh i pre l h F ds :
  ps <> [] -> Forall param_ok ps -> l <> [] -> 0 < zlen pre ->
  in_limits (pre ++ params_text ps ++ [32]) ->
  ds = default (vtm_dataset_init VTM_DS_HINT_DEFAULT) (req_params m) ->
  wf ds -> hints ds = VTM_DS_HINT_DEFAULT -> heap_ok F (ds_owned ds) h ->
  exists ds' h' off txt, RUN VTM_HTTP_PARSE_REQ_PARAM_BEGIN 0 m sh i pre (params_text ps ++ 32 :: l) h
      = RUN VTM_HTTP_PARSE_VERSION_H 0 (msg_params (Some ds') m) sh (in_param off i)
          (pre ++ txt ++ [0]) l h' /\
    zlen txt = zlen (params_text ps) /\
    wf ds' /\ hints ds' = VTM_DS_HINT_DEFAULT /\ heap_ok F (ds_owned ds') h' /\
    ds_abs ds' = params_map ps (ds_abs ds).
Proof.
  intros Hps. destruct ps as [|q ps]; [done |]. clear Hps.
  revert q m i pre h ds. induction ps as [|q' ps IH]; intros [n v] m i pre h ds Hok Hl Hp Hlim Eds Hw Hh Ho;
    apply Forall_cons in Hok as [(Hne & Hn & Hv) Hok]; cbn [fst snd] in *.
  - cbn [params_text] in *. rewrite app_nil_r in *. rewrite <- app_assoc. cbn [app].
    replace ((n ++ 61 :: v) ++ [32]) with ((n ++ [61]) ++ v ++ [32]) in Hlim
      by (rewrite <- !app_assoc; done).
    assert (in_limits ((pre ++ n ++ [0]) ++ v ++ [32])) as Hlim2
      by (eapply in_limits_len; [|exact Hlim]; rewrite !zlen_app; change (zlen [0]) with (zlen [61]); lia).
    rewrite app_assoc in Hlim. apply in_limits_app in Hlim as Hlim1.
    rewrite RUN_param_name; [| done | done | apply app_cons_ne | done].
    destruct (RUN_param_value m sh (in_param (zlen pre) i) pre n v 32 VTM_HTTP_PARSE_VERSION_H l h F ds)
      as (ds' & h' & E & H); auto; [by eapply none_of_cstr |].
    exists ds', h', (zlen pre), (n ++ [0] ++ v). rewrite E. split; [|split; [|exact H]].
    + by rewrite <- !app_assoc.
    + zl.
  - set (rest := params_text (q' :: ps)) in *.
    change (params_text ((n, v) :: q' :: ps)) with (n ++ 61 :: v ++ 38 :: rest) in *.
    replace ((n ++ 61 :: v ++ 38 :: rest) ++ 32 :: l) with (n ++ 61 :: v ++ 38 :: (rest ++ 32 :: l))
      by (rewrite <- app_assoc; cbn [app]; by rewrite <- app_assoc).
    assert (forall p, zlen p <= zlen pre + zlen n + zlen v + zlen rest + 3 -> in_limits p) as Hin
      by (intros p Hle; eapply in_limits_le; [|exact Hlim]; zl).
    pose proof (zlen_nonneg rest). pose proof (zlen_nonneg v). pose proof (zlen_nonneg n).
    rewrite RUN_param_name; [| done | done | apply app_cons_ne | apply Hin; zl].
    destruct (RUN_param_value m sh (in_param (zlen pre) i) pre n v 38 VTM_HTTP_PARSE_REQ_PARAM_BEGIN
      (rest ++ 32 :: l) h F ds) as (ds1 & h1 & E & Hw1 & Hh1 & Ho1 & Ha1);
      auto using app_cons_ne; [by eapply none_of_cstr | apply Hin; zl |].
    rewrite E.
    destruct (IH q' (msg_params (Some ds1) m) (in_param (zlen pre) i) ((pre ++ n ++ [0]) ++ v ++ [0]) h1 ds1)
      as (ds' & h' & off & txt & E' & Ht & Hw' & Hh' & Ho' & Ha'); auto;
      [zl | fold rest; apply Hin; zl |].
    exists ds', h', off, (n ++ [0] ++ v ++ [0] ++ txt). fold rest in E'. rewrite E'. split_and!; auto.
    + by rewrite <- !app_assoc.
    + fold rest in Ht. zl.
    + rewrite Ha', Ha1. done.
Qed.

(** ** Header lines *)

Lemma RUN_header_begin m sh i pre c l h :
  in_limits pre ->
  RUN VTM_HTTP_PARSE_HEADER_LINE_BEGIN 0 m sh i pre (c :: l) h
  = RUN VTM_HTTP_PARSE_HEADER_NAME 0 m sh (in_header (zlen pre) 0 i) pre (c :: l) h.
Proof.
  intros Hlim. pose proof (in_limits_2_63 _ Hlim) as Hb.
  assert (exists ctl e, switch (at_byte VTM_HTTP_PARSE_HEADER_NAME 1 m sh (in_header (zlen pre) 0 i) pre c l h) (i8 c)
    = Some (ctl, e) /\ ctl <> HEval) as (ctl & e & E & Hctl).
  { cbn [http_switch at_byte e_par state]. unfold http_header_name. cbn [at_byte e_par state_chars].
    change (mk_env _ _ _) with (at_byte VTM_HTTP_PARSE_HEADER_NAME 1 m sh (in_header (zlen pre) 0 i) pre c l h).
    destruct (_ && _); [eauto |]. destruct (_ || _); [unfold invalid; eauto |].
    destruct (i8 c =? 58); [|eauto]. rewrite nul_here_at. cbn [mbind option_bind]. eauto. }
  eapply (RUN_goto _ _ _ _ _ _ _ _ _ VTM_HTTP_PARSE_HEADER_NAME 1);
    [lia | done | done | | exact E | done].
  cbn [http_switch at_byte e_par state]. unfold http_header_line_begin. cbn [at_byte e_par e_buf buf_read intl].
  replace (zlen pre + 1 - 1) with (zlen pre) by lia.
  by rewrite u64_small by (unfold is_size, SIZE_MAX; lia).
Qed.

Lemma RUN_header_name m sh i pre name l h :
  Forall (none_of [10; 13; 32; 58]) name -> l <> [] -> in_limits (pre ++ name ++ [58]) ->
  RUN VTM_HTTP_PARSE_HEADER_NAME 0 m sh i pre (name ++ 58 :: l) h
  = RUN VTM_HTTP_PARSE_HEADER_VALUE 0 m sh i (pre ++ name ++ [0]) l h.
Proof.
  intros Hn Hl Hlim. rewrite app_assoc in Hlim. pose proof (in_limits_app _ _ Hlim) as Hlim1.
  pose proof (in_limits_2_63 _ Hlim1) as Hb. rewrite zlen_app in Hb.
  pose proof (zlen_nonneg pre). pose proof (zlen_nonneg name).
  rewrite (RUN_skip VTM_HTTP_PARSE_HEADER_NAME (none_of [10; 13; 32; 58])); [| | done | done | done | lia].
  2: { intros k p0 c0 l0 Hc0. cbn [http_switch at_byte e_par state]. unfold http_header_name.
       rewrite !(none_of_eqb [10; 13; 32; 58]) by (done || lia || set_solver). done. }
  rewrite (RUN_next _ _ _ _ _ _ _ _ _ VTM_HTTP_PARSE_HEADER_VALUE (0 + zlen name + 1) m sh i 0 h);
    [by rewrite <- app_assoc | lia | done | done |].
  cbn [http_switch at_byte e_par state]. unfold http_header_name.
  change (i8 58 =? 13) with false. change (i8 58 =? 32) with false. change (i8 58 =? 10) with false.
  change (i8 58 =? 58) with true. cbn [andb orb].
  change (mk_env _ _ _) with (at_byte VTM_HTTP_PARSE_HEADER_NAME (0 + zlen name + 1) m sh i (pre ++ name) 58 l h).
  by rewrite nul_here_at.
Qed.

Definition is_ws (c : Z) : Prop := c = 32 \/ c = 9.

Lemma RUN_header_value m sh i pre ws c0 v l h :
  header_value_begin i = 0 -> 0 < zlen pre -> Forall is_ws ws ->
  none_of [9; 10; 13; 32] c0 -> Forall (none_of [10; 13]) v -> l <> [] ->
  in_limits (pre ++ ws ++ (c0 :: v) ++ [13]) ->
  RUN VTM_HTTP_PARSE_HEADER_VALUE 0 m sh i pre (ws ++ (c0 :: v) ++ 13 :: l) h
  = RUN VTM_HTTP_PARSE_HEADER_LINE_LF 0 m sh (in_header (header_name_begin i) (zlen (pre ++ ws)) i)
      (pre ++ ws ++ (c0 :: v) ++ [0]) l h.
Proof.
  intros Hi Hp Hws Hc0 Hv Hl Hlim.
  assert (forall p, zlen p <= zlen pre + zlen ws + zlen v + 2 -> in_limits p) as Hin
    by (intros p Hle; eapply in_limits_le; [|exact Hlim]; zl).
  destruct (in_limits_2_63 _ Hlim) as [_ Hb].
  pose proof (zlen_nonneg ws). pose proof (zlen_nonneg v).
  rewrite (RUN_skip VTM_HTTP_PARSE_HEADER_VALUE is_ws); [| | done | done | apply Hin; zl | lia].
  2: { intros k p0 c l0 Hc. cbn [http_switch at_byte e_par state]. unfold http_header_value.
       cbn [at_byte e_par intl]. rewrite Hi. destruct Hc as [-> | ->]; done. }
  set (i' := in_header (header_name_begin i) (zlen (pre ++ ws)) i).
  cbn [app]. rewrite (RUN_next _ _ _ _ _ _ _ _ _ VTM_HTTP_PARSE_HEADER_VALUE (0 + zlen ws + 1) m sh i' c0 h);
    [| zl | apply Hin; zl | apply app_cons_ne |].
  2: { cbn [http_switch at_byte e_par state]. unfold http_header_value, vtm_http_parser_isspace.
       rewrite !(none_of_eqb [9; 10; 13; 32]) by (done || lia || set_solver).
       cbn [andb orb at_byte e_par e_buf buf_read intl]. rewrite Hi. cbn [Z.eqb].
       replace (zlen (pre ++ ws) + 1 - 1) with (zlen (pre ++ ws)) by lia.
       rewrite u64_small by (unfold is_size, SIZE_MAX; zl). done. }
  assert (0 < header_value_begin i') as Hi' by (cbn; zl).
  unfold nrm at 1. rewrite decide_False by tauto.
  rewrite (RUN_skip VTM_HTTP_PARSE_HEADER_VALUE (none_of [10; 13])); [| | done | done | apply Hin; zl | zl].
  2: { intros k p0 c l0 Hc. cbn [http_switch at_byte e_par state]. unfold http_header_value.
       cbn [at_byte e_par intl]. rewrite (proj2 (Z.eqb_neq (header_value_begin i') 0)) by lia.
       rewrite andb_false_r. rewrite !(none_of_eqb [10; 13]) by (done || lia || set_solver). done. }
  set (p2 := ((pre ++ ws) ++ [c0]) ++ v).
  rewrite (RUN_next _ _ _ _ _ _ _ _ _ VTM_HTTP_PARSE_HEADER_LINE_LF (0 + zlen ws + 1 + zlen v + 1) m sh i' 0 h);
    [subst p2; by rewrite <- !app_assoc | zl | apply Hin; subst p2; zl | done |].
  cbn [http_switch at_byte e_par state]. unfold http_header_value.
  change (vtm_http_parser_isspace (i8 13)) with false. change (i8 13 =? 13) with true. cbn [andb].
  cbn [at_byte e_par intl e_buf buf_data buf_read e_heap].
  rewrite (proj2 (Z.eqb_neq (header_value_begin i') 0)) by lia.
  replace (zlen p2 + 1 - 1) with (zlen p2) by lia.
  assert (header_value_end (length (p2 ++ 13 :: l)) (p2 ++ 13 :: l) (zlen p2) = Some (zlen p2)) as ->.
  { rewrite length_app. cbn [length]. rewrite <- plus_n_Sm. cbn [header_value_end].
    rewrite znth_lookup by apply zlen_nonneg.
    replace (Z.to_nat (zlen p2)) with (length p2) by (unfold zlen; lia).
    by rewrite list_lookup_middle. }
  cbn [mbind option_bind].
  pose proof (nul_here_at VTM_HTTP_PARSE_HEADER_VALUE (0 + zlen ws + 1 + zlen v + 1) m sh i' p2 13 l h) as E.
  unfold nul_here, at_byte in E. cbn [e_buf buf_read e_par e_heap] in E.
  replace (zlen p2 + 1 - 1) with (zlen p2) in E by lia.
  destruct (buf_nul _ (zlen p2)) as [b|]; [|done]. cbn [mbind option_bind] in E |- *.
  injection E as ->. done.
Qed.

(** A header field: name, white space after the colon, value. *)
Record http_field := mk_field { f_name : bytes; f_ws : bytes; f_value : bytes }.

Definition field_text (f : http_field) : bytes :=
  f_name f ++ [58] ++ f_ws f ++ f_value f ++ [13; 10].

Definition field_ok (f : http_field) : Prop :=
  f_name f <> [] /\ Forall (none_of [10; 13; 32; 58]) (f_name f) /\ Forall is_ws (f_ws f) /\
  Forall (none_of [10; 13]) (f_value f) /\
  match f_value f with [] => False | c :: _ => none_of [9; 10; 13; 32] c end.

(** Fields of the same name, up to case, are merged. *)
Definition hdr_add (g : gmap bytes bytes) (f : http_field) : gmap bytes bytes :=
  let k := map tolower (f_name f) in
  <[k := match g !! k with Some old => old ++ [44; 32] ++ f_value f | None => f_value f end]> g.

Definition hdr_map (fs : list http_field) (g : gmap bytes bytes) : gmap bytes bytes :=
  fold_left hdr_add fs g.

(** A dataset of headers with the contents [g]. *)
Definition hdr_ds (ds : vtm_dataset) (g : gmap bytes bytes) : Prop :=
  wf ds /\ hints ds = VTM_DS_HINT_IGNORE_CASE /\ ds_abs ds = str_variant <$> g.

Lemma hdr_get_string F ds g n h :
  hdr_ds ds g -> is_cstr n -> heap_ok F (ds_owned ds) h ->
  exists ds', vtm_dataset_get_string malloc_ok printf_g ds (mk_ptr 1 n)
      = Some (g !! map tolower n, ds') /\ hdr_ds ds' g /\ heap_ok F (ds_owned ds') h.
Proof.
  intros (Hw & Hh & Ha) Hn Ho.
  assert (name_ok (mk_ptr 1 n) = true) as Hn' by by apply name_ok_spec.
  destruct (ds_get_string_ok malloc_ok printf_g (fun _ => 0) F ds (mk_ptr 1 n) h
    (ResStr (g !! map tolower n)) Hw Hn' Ho) as (s & ds' & E & Es & Hw' & Hh' & Ho' & Ha').
  { rewrite Hh, Ha. change (ds_canon _ _) with (map tolower n). rewrite lookup_fmap.
    by destruct (g !! map tolower n). }
  injection Es as <-. exists ds'. rewrite E. rewrite Hh in Hh'.
  split; [done|]. split; [split_and!; [done | done | by rewrite Ha'] | done].
Qed.

Lemma save_header_ok F ds g b i f h :
  hdr_ds ds g -> is_cstr (f_name f) -> heap_ok F (ds_owned ds) h ->
  buf_str b (header_value_begin i) = Some (mk_ptr 1 (f_value f)) ->
  buf_str b (header_name_begin i) = Some (mk_ptr 1 (f_name f)) ->
  exists ds' h' F', vtm_http_parser_save_header malloc_ok printf_g all_ok ds b i h = Some (true, ds', h') /\
    F ⊆ F' /\ (g !! map tolower (f_name f) = None -> F' = F) /\
    hdr_ds ds' (hdr_add g f) /\ heap_ok F' (ds_owned ds') h'.
Proof.
  intros Hds Hn Ho Hv Hname. unfold vtm_http_parser_save_header. rewrite Hv, Hname. cbn [mbind option_bind].
  destruct (hdr_get_string F ds g (f_name f) h Hds Hn Ho) as (ds1 & -> & (Hw1 & Hh1 & Ha1) & Ho1).
  cbn [mbind option_bind]. set (k := map tolower (f_name f)).
  assert (forall F2 h2 p v, heap_ok F2 (ds_owned ds1) h2 -> is_null p = false -> p_text p = v ->
    exists ds' h', vtm_dataset_set_string alloc_ok ds1 (mk_ptr 1 (f_name f)) p h2 = Some (ds', h') /\
      hdr_ds ds' (<[k := v]> g) /\ heap_ok F2 (ds_owned ds') h') as Hset.
  { intros F2 h2 p v Ho2 Hp Et.
    destruct (set_string_ok F2 ds1 (f_name f) v h2 Hw1 Hn Ho2 p Hp Et) as (ds' & h' & E & Hw' & Hh' & Ho' & Ha').
    exists ds', h'. split_and!; try done. split_and!; [done | by rewrite Hh' |].
    rewrite Ha', Ha1, Hh1. by rewrite fmap_insert. }
  unfold hdr_add. fold k. destruct (g !! k) as [old|] eqn:Eg.
  - cbn [all_ok ok_merged ok_entry negb p_text].
    destruct (heap_ok_alloc F (ds_owned ds1) h (mk_ptr 1 (old ++ [44; 32] ++ f_value f)) Ho1 eq_refl)
      as (p & h1 & -> & Et & Hp & Ho2). cbn [mbind option_bind].
    apply heap_ok_give in Ho2.
    destruct (Hset _ h1 p (old ++ [44; 32] ++ f_value f) Ho2 Hp Et) as (ds' & h' & -> & Hds' & Ho').
    exists ds', h', ({[p_addr p]} ∪ F). split_and!; try done. set_solver.
  - destruct (Hset F h (mk_ptr 1 (f_value f)) (f_value f) Ho1 eq_refl eq_refl) as (ds' & h' & E & Hds' & Ho').
    exists ds', h', F. cbn [all_ok ok_entry]. rewrite E. by split_and!.
Qed.

(** The dataset of headers, not allocated before the first field. *)
Definition sh_hdr_ok (sh : http_shared) (g : gmap bytes bytes) F h : Prop :=
  (headers sh = None /\ g = ∅ /\ heap_ok F [] h) \/
  (exists ds, headers sh = Some ds /\ headers_free sh = true /\ hdr_ds ds g /\ heap_ok F (ds_owned ds) h).

Lemma hdr_ds_init : hdr_ds (vtm_dataset_init VTM_DS_HINT_IGNORE_CASE) ∅.
Proof.
  split_and!; [|done|].
  - split; [apply smap_wf_empty; cbn; lia | cbn; lia].
  - by rewrite fmap_empty.
Qed.

Lemma sh_hdr_ds sh g F h :
  sh_hdr_ok sh g F h ->
  exists ds, match headers sh with
             | Some ds => Some (ds, headers_free sh)
             | None => ds ← vtm_dataset_newh (ok_ds all_ok) VTM_DS_HINT_IGNORE_CASE; Some (ds, true)
             end = Some (ds, true) /\ hdr_ds ds g /\ heap_ok F (ds_owned ds) h.
Proof.
  intros [(-> & -> & Ho) | (ds & -> & -> & Hds & Ho)].
  - exists (vtm_dataset_init VTM_DS_HINT_IGNORE_CASE). split_and!; [done | apply hdr_ds_init | exact Ho].
  - by exists ds.
Qed.

(** The end of a header line: the line feed is evaluated in two states. *)
Lemma RUN_header_lf m sh i pre f l h F g :
  is_cstr (f_name f) -> l <> [] -> in_limits (pre ++ [10]) -> sh_hdr_ok sh g F h ->
  (forall k, buf_str (e_buf (at_byte VTM_HTTP_PARSE_HEADER_LINE_COMPLETE k m sh i pre 10 l h)) (header_value_begin i)
     = Some (mk_ptr 1 (f_value f)) /\
   buf_str (e_buf (at_byte VTM_HTTP_PARSE_HEADER_LINE_COMPLETE k m sh i pre 10 l h)) (header_name_begin i)
     = Some (mk_ptr 1 (f_name f))) ->
  exists ds' h' F', RUN VTM_HTTP_PARSE_HEADER_LINE_LF 0 m sh i pre (10 :: l) h
      = RUN VTM_HTTP_PARSE_HEADER_LINE_BEGIN 0 m (sh_headers (Some ds') true sh) i (pre ++ [10]) l h' /\
    F ⊆ F' /\ (g !! map tolower (f_name f) = None -> F' = F) /\
    sh_hdr_ok (sh_headers (Some ds') true sh) (hdr_add g f) F' h'.
Proof.
  intros Hn Hl Hlim Hsh Hbuf. destruct (sh_hdr_ds sh g F h Hsh) as (ds & Eds & Hds & Ho).
  destruct (Hbuf 1) as [Hbv Hbn].
  destruct (save_header_ok F ds g _ i f h Hds Hn Ho Hbv Hbn) as (ds' & h' & F' & E & HF & HF1 & Hds' & Ho').
  exists ds', h', F'. split; [|split; [done | split; [exact HF1 | right; by exists ds']]].
  pose proof (in_limits_app _ _ Hlim) as Hlim1. rewrite RUN_EV by done. unfold http_eval_fuel.
  rewrite (EV_goto 4 VTM_HTTP_PARSE_HEADER_LINE_LF 0 m sh i pre 10 l h ltac:(lia) VTM_HTTP_PARSE_HEADER_LINE_COMPLETE 1 m sh i h) by done.
  unfold nrm. rewrite decide_True by done.
  rewrite (EV_next 3 VTM_HTTP_PARSE_HEADER_LINE_COMPLETE 0 m sh i pre 10 l h ltac:(lia) VTM_HTTP_PARSE_HEADER_LINE_BEGIN 1 m
    (sh_headers (Some ds') true sh) i 10 h'); [done | done | done |].
  cbn [http_switch at_byte e_par state]. unfold http_header_line_complete.
  cbn [at_byte e_par shared]. rewrite Eds. cbn [mbind option_bind].
  change (0 + 1) with 1. change (mk_buf _ _ _ _ _ _ _)
    with (e_buf (at_byte VTM_HTTP_PARSE_HEADER_LINE_COMPLETE 1 m sh i pre 10 l h)).
  cbn [e_buf e_heap intl at_byte]. cbn [e_buf at_byte] in E. rewrite E. done.
Qed.

Lemma RUN_field m sh i pre f l h F g :
  field_ok f -> l <> [] -> 0 < zlen pre -> in_limits (pre ++ field_text f) -> sh_hdr_ok sh g F h ->
  exists ds' h' F' nb vb txt,
    RUN VTM_HTTP_PARSE_HEADER_LINE_BEGIN 0 m sh i pre (field_text f ++ l) h
      = RUN VTM_HTTP_PARSE_HEADER_LINE_BEGIN 0 m (sh_headers (Some ds') true sh) (in_header nb vb i)
          (pre ++ txt) l h' /\
    zlen txt = zlen (field_text f) /\ F ⊆ F' /\ (g !! map tolower (f_name f) = None -> F' = F) /\
    sh_hdr_ok (sh_headers (Some ds') true sh) (hdr_add g f) F' h'.
Proof.
  destruct f as [name ws value]. unfold field_ok, field_text. cbn [f_name f_ws f_value].
  intros (Hne & Hn & Hws & Hv & Hc0) Hl Hp Hlim Hsh.
  destruct value as [|c0 v]; [done |]. apply Forall_cons in Hv as [Hc Hv'].
  assert (forall p, zlen p <= zlen pre + zlen name + zlen ws + zlen v + 4 -> in_limits p) as Hin
    by (intros p Hle; eapply in_limits_le; [|exact Hlim]; zl).
  pose proof (zlen_nonneg name). pose proof (zlen_nonneg ws). pose proof (zlen_nonneg v).
  destruct name as [|n0 name'] eqn:Ename; [done |]. rewrite <- Ename in *. clear Hne.
  rewrite <- !app_assoc. cbn [app].
  replace (name ++ 58 :: ws ++ c0 :: v ++ 13 :: 10 :: l) with (n0 :: (name' ++ 58 :: ws ++ c0 :: v ++ 13 :: 10 :: l))
    by (by rewrite Ename).
  rewrite RUN_header_begin by (apply Hin; lia).
  replace (n0 :: (name' ++ 58 :: ws ++ c0 :: v ++ 13 :: 10 :: l)) with (name ++ 58 :: (ws ++ (c0 :: v) ++ 13 :: (10 :: l)))
    by (by rewrite Ename).
  rewrite RUN_header_name; [| done | by destruct ws | apply Hin; zl].
  set (pre1 := pre ++ name ++ [0]). set (i1 := in_header (zlen pre) 0 i).
  rewrite (RUN_header_value m sh i1 pre1 ws c0 v); [| done | subst pre1; zl | done | done | done | done
    | apply Hin; subst pre1; zl].
  set (i2 := in_header (header_name_begin i1) (zlen (pre1 ++ ws)) i1).
  set (pre2 := pre1 ++ ws ++ (c0 :: v) ++ [0]).
  assert (is_cstr name /\ is_cstr (c0 :: v)) as [Hcn Hcv].
  { split; [by eapply none_of_cstr | constructor; [apply Hc | by eapply none_of_cstr]]. }
  destruct (RUN_header_lf m sh i2 pre2 (mk_field name ws (c0 :: v)) l h F g) as (ds' & h' & F' & E & HF & HF1 & Hok);
    [done | done | apply Hin; subst pre2 pre1; zl | done | |].
  { intros k. cbn [f_name f_value header_name_begin header_value_begin i2 in_header]. split.
    - subst pre2. rewrite (app_assoc pre1). rewrite (app_assoc (pre1 ++ ws)).
      replace (((pre1 ++ ws) ++ c0 :: v) ++ [0]) with ((pre1 ++ ws) ++ (c0 :: v) ++ 0 :: []) by (by rewrite app_assoc).
      by apply buf_str_app.
    - subst pre2 pre1. rewrite <- !app_assoc. cbn [app]. by apply buf_str_app. }
  rewrite E.
  exists ds', h', F', (header_name_begin i1), (zlen (pre1 ++ ws)), (name ++ [0] ++ ws ++ (c0 :: v) ++ [0; 10]).
  split_and!; try done.
  - subst i2 pre2 pre1. rewrite <- !app_assoc. done.
  - zl.
Qed.

Definition fields_text (fs : list http_field) : bytes := fs ≫= field_text.

(** No two fields have the same name. *)
Definition distinct_fields (fs : list http_field) : Prop := NoDup (map (fun f => map tolower (f_name f)) fs).

Lemma RUN_fields fs m sh i pre l h F g :
  Forall field_ok fs -> l <> [] -> 0 < zlen pre -> in_limits (pre ++ fields_text fs) ->
  sh_hdr_ok sh g F h ->
  exists o fr h' F' nb vb txt,
    RUN VTM_HTTP_PARSE_HEADER_LINE_BEGIN 0 m sh i pre (fields_text fs ++ l) h
      = RUN VTM_HTTP_PARSE_HEADER_LINE_BEGIN 0 m (sh_headers o fr sh) (in_header nb vb i)
          (pre ++ txt) l h' /\
    zlen txt = zlen (fields_text fs) /\ F ⊆ F' /\
    (distinct_fields fs -> Forall (fun f => g !! map tolower (f_name f) = None) fs -> F' = F) /\
    sh_hdr_ok (sh_headers o fr sh) (hdr_map fs g) F' h'.
Proof.
  intros Hfs. revert sh i pre h F g. induction Hfs as [|f fs Hf Hfs IH]; intros sh i pre h F g Hl Hp Hlim Hsh.
  - exists (headers sh), (headers_free sh), h, F, (header_name_begin i), (header_value_begin i), [].
    rewrite app_nil_r. destruct sh, i. by split_and!.
  - change (fields_text (f :: fs)) with (field_text f ++ fields_text fs) in *.
    rewrite app_assoc in Hlim. rewrite <- app_assoc.
    destruct (RUN_field m sh i pre f (fields_text fs ++ l) h F g)
      as (ds1 & h1 & F1 & nb1 & vb1 & txt1 & -> & Ht1 & HF1 & HF1' & Hok1); try done.
    { intros E. apply app_eq_nil in E as [_ E]. done. }
    { by eapply in_limits_app. }
    destruct (IH (sh_headers (Some ds1) true sh) (in_header nb1 vb1 i) (pre ++ txt1) h1 F1 (hdr_add g f))
      as (o & fr & h' & F' & nb & vb & txt & -> & Ht & HF & HF' & Hok); try done.
    { pose proof (zlen_nonneg txt1). zl. }
    { eapply in_limits_len; [|exact Hlim]. zl. }
    exists o, fr, h', F', nb, vb, (txt1 ++ txt). rewrite <- app_assoc. split_and!; try done; [zl | set_solver |].
    intros [Hnin Hnd]%NoDup_cons [Hg Hgs]%Forall_cons. rewrite HF', HF1'; try done.
    rewrite Forall_forall in Hgs |- *. intros f' Hf'. unfold hdr_add. rewrite lookup_insert_ne by
      (intros Ek; apply Hnin; rewrite Ek; by apply (list_elem_of_fmap_2 (fun f => map tolower (f_name f)))). by apply Hgs.
Qed.

(** The empty line. *)
Lemma RUN_headers_end m sh i pre l h :
  l <> [] -> in_limits (pre ++ [13]) ->
  RUN VTM_HTTP_PARSE_HEADER_LINE_BEGIN 0 m sh i pre (13 :: l) h
  = RUN VTM_HTTP_PARSE_HEADERS_END_LF 0 m sh (in_header (zlen pre) 0 i) (pre ++ [13]) l h.
Proof.
  intros Hl Hlim. rewrite RUN_header_begin by by eapply in_limits_app.
  by rewrite (RUN_next _ _ _ _ _ _ _ _ _ VTM_HTTP_PARSE_HEADERS_END_LF 1 m sh (in_header (zlen pre) 0 i) 13 h).
Qed.

(** ** A whole request *)

Record http_request := mk_request {
  r_name : bytes;
  r_method : vtm_http_method;
  r_path : bytes;
  r_params : list (bytes * bytes);
  r_version : vtm_http_version;
  r_fields : list http_field
}.

Definition request_ok (r : http_request) : Prop :=
  (r_name r, r_method r) ∈ good_methods /\ Forall (none_of [32; 63]) (r_path r) /\
  Forall param_ok (r_params r) /\ Forall field_ok (r_fields r).

Definition query_text (ps : list (bytes * bytes)) : bytes :=
  match ps with [] => [] | _ => 63 :: params_text ps end.

Definition request_text (r : http_request) : bytes :=
  r_name r ++ [32] ++ r_path r ++ query_text (r_params r) ++ [32] ++ version_text (r_version r) ++
  [13; 10] ++ fields_text (r_fields r) ++ [13; 10].

(** What the parser has found: the method, the path as a string of the buffer,
    the parameters, the version and the headers. *)
Record request_parsed (r : http_request) (e : http_env) : Prop := {
  rp_method : req_method (msg (e_par e)) = r_method r;
  rp_path : exists off, req_path (msg (e_par e)) = Some off /\
    buf_str (e_buf e) off = Some (mk_ptr 1 (r_path r));
  rp_params : match r_params r with
              | [] => req_params (msg (e_par e)) = None
              | ps => exists ds, req_params (msg (e_par e)) = Some ds /\ ds_abs ds = params_map ps ∅
              end;
  rp_version : version (shared (e_par e)) = r_version r;
  rp_headers : match headers (shared (e_par e)) with
               | None => hdr_map (r_fields r) ∅ = ∅
               | Some ds => hdr_ds ds (hdr_map (r_fields r) ∅)
               end
}.

Definition reset_msg : http_message := mk_msg VTM_HTTP_METHOD_GET None None false 0 None.
Definition reset_shared : http_shared := mk_shared VTM_HTTP_VER_1_0 None false None 0.
Definition reset_intl : http_internal := mk_internal 0 0 0 0 0 0 0 0 0 0.

Lemma RUN_begin m sh i pre c l h :
  md = VTM_HTTP_PM_REQUEST -> in_limits pre ->
  RUN VTM_HTTP_PARSE_BEGIN 0 m sh i pre (c :: l) h
  = EV 4 VTM_HTTP_PARSE_REQ_METHOD 0 m sh i pre c l h.
Proof.
  intros Hmd Hlim. rewrite RUN_EV by done. unfold http_eval_fuel.
  rewrite (EV_goto 4 VTM_HTTP_PARSE_BEGIN 0 m sh i pre c l h ltac:(lia) VTM_HTTP_PARSE_REQ_METHOD 1 m sh i h); [done | done |].
  cbn [http_switch at_byte e_par state]. unfold http_begin. cbn [at_byte e_par mode]. by rewrite Hmd.
Qed.

Lemma RUN_begin_method m sh i mn mt l h :
  md = VTM_HTTP_PM_REQUEST -> (mn, mt) ∈ good_methods -> in_limits (mn ++ [32]) ->
  RUN VTM_HTTP_PARSE_BEGIN 0 m sh i [] (mn ++ 32 :: l) h
  = RUN VTM_HTTP_PARSE_REQ_METHOD 0 m sh i [] (mn ++ 32 :: l) h.
Proof.
  intros Hmd Hm Hlim. destruct (good_method_name mn mt Hm) as (Hs & Hne & _).
  assert (in_limits []) as Hnil by exact (in_limits_app [] (mn ++ [32]) Hlim).
  destruct mn as [|c mn]; [done |]. cbn [app]. rewrite RUN_begin by done.
  apply Forall_cons in Hs as [Hc _].
  apply (EV_RUN 3 VTM_HTTP_PARSE_REQ_METHOD 0 m sh i [] c (mn ++ 32 :: l) h HNext
    (at_byte VTM_HTTP_PARSE_REQ_METHOD (0 + 1) m sh i [] c (mn ++ 32 :: l) h)); [lia | done | | done].
  cbn [http_switch at_byte e_par state]. unfold http_req_method.
  by rewrite (none_of_eqb [32]) by (done || lia || apply list_elem_of_here).
Qed.

Lemma params_abs_init : ds_abs (vtm_dataset_init VTM_DS_HINT_DEFAULT) = ∅.
Proof. done. Qed.

(** The target and the version. *)
(** The parameters and the blocks that they own. *)
Definition params_owned (h h1 : heap) (o : option vtm_dataset) : Prop :=
  match o with
  | None => h1 = h
  | Some ds => wf ds /\ hints ds = VTM_DS_HINT_DEFAULT /\ heap_ok h (ds_owned ds) h1
  end.

Lemma RUN_target m sh i pre r l h :
  md = VTM_HTTP_PM_REQUEST -> request_ok r -> req_params m = None ->
  version_major i = 0 -> version_minor i = 0 -> l <> [] ->
  0 < zlen pre ->
  in_limits (pre ++ r_path r ++ query_text (r_params r) ++ [32] ++ version_text (r_version r) ++ [13; 10]) ->
  exists o i' txt h', RUN VTM_HTTP_PARSE_REQ_PATH 0 m sh i pre
      (r_path r ++ query_text (r_params r) ++ 32 :: version_text (r_version r) ++ 13 :: 10 :: l) h
    = RUN VTM_HTTP_PARSE_HEADER_LINE_BEGIN 0 (msg_params o (msg_path (Some (zlen pre)) m))
        (sh_version (r_version r) sh) i' (pre ++ r_path r ++ 0 :: txt) l h' /\
    zlen (r_path r ++ 0 :: txt) = zlen (r_path r ++ query_text (r_params r) ++ [32] ++ version_text (r_version r) ++ [13; 10]) /\
    chunk_dst i' = chunk_dst i /\ params_owned h h' o /\
    match r_params r with
    | [] => o = None
    | ps => exists ds, o = Some ds /\ ds_abs ds = params_map ps ∅
    end.
Proof.
  intros Hmd (_ & Hpath & Hps & _) Hm Hma Hmi Hl Hpre Hlim.
  assert (forall p, zlen p <= zlen pre + zlen (r_path r) + zlen (query_text (r_params r)) + 11 -> in_limits p) as Hin.
  { intros p Hle. eapply in_limits_le; [|exact Hlim]. rewrite version_text_eq. zl. }
  pose proof (zlen_nonneg (r_path r)).
  assert (zlen (version_text (r_version r)) = 8) as Hvt by (by rewrite version_text_eq).
  destruct (r_params r) as [|q ps] eqn:Eps; cbn [query_text app] in *.
  - rewrite (RUN_path m sh i pre (r_path r) 32 VTM_HTTP_PARSE_VERSION_H) by (done || (apply Hin; zl) || (by left) || by destruct (version_text (r_version r))).
    rewrite RUN_version by (done || apply Hin; zl).
    exists None, (in_version 1 (ver_minor (r_version r)) i), (version_text (r_version r) ++ [13; 10]), h.
    split_and!; try done; [|zl].
    assert (msg_params None (msg_path (Some (zlen pre)) m) = msg_path (Some (zlen pre)) m) as ->
      by (unfold msg_params, msg_path; cbn; by rewrite Hm).
    f_equal. rewrite <- !app_assoc. done.
  - set (pt := params_text (q :: ps)) in *. pose proof (zlen_nonneg pt).
    change (63 :: pt ++ 32 :: version_text (r_version r) ++ 13 :: 10 :: l) with (63 :: (pt ++ 32 :: (version_text (r_version r) ++ 13 :: 10 :: l))).
    rewrite (RUN_path m sh i pre (r_path r) 63 VTM_HTTP_PARSE_REQ_PARAM_BEGIN)
      by (done || (apply Hin; zl) || apply app_cons_ne || by right).
    destruct (RUN_params (q :: ps) (msg_path (Some (zlen pre)) m) sh i (pre ++ r_path r ++ [0])
      (version_text (r_version r) ++ 13 :: 10 :: l) h h (vtm_dataset_init VTM_DS_HINT_DEFAULT))
      as (ds & h' & off & txt & E & Ht & Hw & Hh & Ho & Ha); try done.
    { apply app_cons_ne. }
    { zl. }
    { fold pt. apply Hin. zl. }
    { cbn. by rewrite Hm. }
    { split; [apply smap_wf_empty; cbn; lia | cbn; lia]. }
    { apply heap_ok_nil. }
    fold pt in E, Ht. rewrite E. rewrite RUN_version by (done || apply Hin; zl).
    exists (Some ds), (in_version 1 (ver_minor (r_version r)) (in_param off i)), (txt ++ [0] ++ version_text (r_version r) ++ [13; 10]), h'.
    split_and!; try done; [|zl | eauto].
    f_equal. rewrite <- !app_assoc. done.
Qed.
(** ** The body *)

(** No chunked transfer coding is announced. *)
Definition not_chunked (g : gmap bytes bytes) : Prop :=
  match g !! map tolower VTM_HTTP_HEADER_TRANSFER_ENCODING with
  | Some v => vtm_str_list_contains v [44] VTM_HTTP_VALUE_CHUNKED true = Some false
  | None => True
  end.

(** The announced length of the body, read as the dataset reads it. *)
Definition hdr_length (g : gmap bytes bytes) : option Z :=
  v ← g !! map tolower VTM_HTTP_HEADER_CONTENT_LENGTH; Some (u64 (cast_int 8 true (strtoll v))).

Definition body_env k m sh i pre c l h (n : option Z) : http_env :=
  match n with
  | None => at_byte VTM_HTTP_PARSE_COMPLETE k m sh i pre c l h
  | Some n => at_byte VTM_HTTP_PARSE_BODY_FIXEDLENGTH k m (sh_body_len n sh) i pre c l h
  end.

Lemma hdr_get_length F ds g h :
  hdr_ds ds g -> heap_ok F (ds_owned ds) h ->
  vtm_dataset_contains ds (str_const VTM_HTTP_HEADER_CONTENT_LENGTH)
    = Some (bool_decide (is_Some (hdr_length g))) /\
  forall n, hdr_length g = Some n ->
    vtm_dataset_get_integer VTM_ELEM_UINT64 ds (str_const VTM_HTTP_HEADER_CONTENT_LENGTH) = Some n.
Proof.
  intros (Hw & Hh & Ha) Ho. set (name := str_const VTM_HTTP_HEADER_CONTENT_LENGTH).
  assert (name_ok name = true) as Hn by reflexivity.
  destruct (ds_get_variant_ok malloc_ok printf_g ds name Hw Hn) as (ov & E & _ & Eov).
  rewrite Ha, Hh, lookup_fmap in Eov.
  change (ds_canon VTM_DS_HINT_IGNORE_CASE (p_text name)) with (map tolower VTM_HTTP_HEADER_CONTENT_LENGTH) in Eov.
  split.
  - unfold vtm_dataset_contains. unfold vtm_dataset_get_variant in E.
    destruct (vtm_dataset_get_node ds name) as [o|]; [|done]. cbn [mbind option_bind] in *. unfold hdr_length.
    destruct (g !! map tolower VTM_HTTP_HEADER_CONTENT_LENGTH) as [v|]; cbn in Eov;
      destruct o; destruct ov; try done; cbn in E;
      try (destruct (ds_node_at ds _); cbn in E; done); done.
  - intros n Hl. unfold hdr_length in Hl.
    destruct (g !! map tolower VTM_HTTP_HEADER_CONTENT_LENGTH) as [v|] eqn:Ev; [|done]. injection Hl as <-.
    destruct (ds_get_ok malloc_ok printf_g (fun _ => 0) F ds name (GetInteger VTM_ELEM_UINT64) h
      (ResInt (u64 (cast_int 8 true (strtoll v)))) Hw Hn Ho) as (ds' & Eg & _).
    + rewrite Ha, Hh, lookup_fmap.
      change (ds_canon VTM_DS_HINT_IGNORE_CASE (p_text name)) with (map tolower VTM_HTTP_HEADER_CONTENT_LENGTH).
      rewrite Ev. reflexivity.
    + by eapply ds_get_integer_inv.
Qed.

Lemma switch_body k m sh i pre c l h F g :
  md = VTM_HTTP_PM_REQUEST \/ is_Some (hdr_length g) -> sh_hdr_ok sh g F h -> not_chunked g ->
  exists o fr, sh_hdr_ok (sh_headers o fr sh) g F h /\
    switch (at_byte VTM_HTTP_PARSE_BODY k m sh i pre c l h) (i8 c)
    = Some (HEval, body_env k m (sh_headers o fr sh) (in_body (zlen pre + 1) i) pre c l h (hdr_length g)).
Proof.
  intros Hmd Hsh Hnc. cbn [http_switch at_byte e_par state]. unfold http_body, http_body_default.
  cbn [at_byte e_par e_buf buf_read with_par set_intl shared].
  destruct Hsh as [(E & -> & Ho) | (ds & E & Ef & Hds & Ho)]; rewrite E; cbn iota.
  - exists (headers sh), (headers_free sh). split; [left; by destruct sh |].
    unfold body_env, at_byte. destruct Hmd as [-> | [? Hx]]; [|discriminate Hx].
    destruct sh; cbn in E; subst; reflexivity.
  - destruct (hdr_get_string F ds g VTM_HTTP_HEADER_TRANSFER_ENCODING h Hds) as (ds' & Eg & Hds' & Ho');
      [repeat constructor; lia | done |].
    unfold str_const. rewrite Eg. cbn [mbind option_bind].
    exists (Some ds'), true. split; [right; by exists ds' |].
    assert ((match g !! map tolower VTM_HTTP_HEADER_TRANSFER_ENCODING with
      | Some val => vtm_str_list_contains val [44] VTM_HTTP_VALUE_CHUNKED true
      | None => Some false end) = Some false) as ->.
    { unfold not_chunked in Hnc. by destruct (g !! _). }
    cbn [mbind option_bind]. destruct (hdr_get_length F ds' g h Hds' Ho') as [Ec El]. unfold str_const in *.
    rewrite Ec. cbn [mbind option_bind].
    destruct (hdr_length g) as [n|].
    + rewrite bool_decide_eq_true_2 by done. rewrite (El n eq_refl). cbn [mbind option_bind].
      by rewrite Ef.
    + rewrite bool_decide_eq_false_2 by (by intros [? ?]). rewrite Ef. unfold body_env, at_byte.
      destruct Hmd as [-> | [? Hx]]; [done | discriminate Hx].
Qed.

(** The end of a request whose body has [n] announced bytes, after [l]. *)
Definition mark_body (n : option Z) (i : http_internal) (sh : http_shared) : http_shared :=
  match n with
  | None => sh
  | Some n => let sh := sh_body_len n sh in if 0 <? n then sh_body (Some (body_begin i)) sh else sh
  end.

(** The end of any message. *)
Lemma EV_complete_any fuel k m sh i pre c l h :
  0 <= k < 2 ^ 63 ->
  EV (S fuel) VTM_HTTP_PARSE_COMPLETE k m sh i pre c l h
  = Some (VTM_NET_RECV_STAT_COMPLETE,
      env VTM_HTTP_PARSE_COMPLETE (k + 1) m
        (if 0 <? body_len sh then sh_body (Some (body_begin i)) sh else sh) i (pre ++ [c]) l h).
Proof.
  intros Hk. rewrite <- at_byte_env. apply EV_return; [done |].
  cbn [http_switch at_byte e_par state]. unfold http_complete, VTM_HTTP_PARSER_MARK_BODY.
  cbn [at_byte e_par shared]. by destruct (0 <? body_len sh).
Qed.

Lemma EV_complete fuel k m sh i pre c l h n :
  0 <= k < 2 ^ 63 -> body_len sh = 0 ->
  EV (S fuel) VTM_HTTP_PARSE_COMPLETE k m (match n with Some n => sh_body_len n sh | None => sh end) i pre c l h
  = Some (VTM_NET_RECV_STAT_COMPLETE,
      env VTM_HTTP_PARSE_COMPLETE (k + 1) m (mark_body n i sh) i (pre ++ [c]) l h).
Proof.
  intros Hk Hb. rewrite EV_complete_any by done. destruct n as [n|]; [done|]. by rewrite Hb.
Qed.

(** The body is complete when [n - 1] bytes of it have been read. *)
Lemma RUN_fixedlength m sh i n l rest h :
  body_len sh = 0 -> forall k pre, l <> [] -> 0 < k -> k + zlen l = n -> in_limits (pre ++ l) ->
  k <= zlen pre ->
  RUN VTM_HTTP_PARSE_BODY_FIXEDLENGTH k m (sh_body_len n sh) i pre (l ++ rest) h
  = Some (VTM_NET_RECV_STAT_COMPLETE,
      env VTM_HTTP_PARSE_COMPLETE 1 m (mark_body (Some n) i sh) i (pre ++ l) rest h).
Proof.
  intros Hb. induction l as [|c l IH]; intros k pre Hne Hk Hn Hlim Hkp; [done |]. clear Hne.
  change (c :: l) with ([c] ++ l) in Hlim |- *. rewrite app_assoc in Hlim |- *.
  pose proof (in_limits_app _ _ Hlim) as Hlim1. pose proof (in_limits_app _ _ Hlim1) as Hlim0.
  destruct (in_limits_2_63 _ Hlim0) as [_ Hp]. rewrite zlen_cons in Hn.
  destruct l as [|c' l].
  - rewrite !app_nil_r. cbn [app]. change (zlen (A:=Z) []) with 0 in Hn.
    rewrite RUN_EV by done. unfold http_eval_fuel.
    rewrite (EV_goto 4 VTM_HTTP_PARSE_BODY_FIXEDLENGTH k m (sh_body_len n sh) i pre c rest h ltac:(lia)
      VTM_HTTP_PARSE_COMPLETE (k + 1) m (sh_body_len n sh) i h); [| done |].
    + unfold nrm. rewrite decide_True by done. by rewrite (EV_complete 3 0 m sh i pre c rest h (Some n)).
    + cbn [http_switch at_byte e_par state]. unfold http_body_fixedlength.
      cbn [at_byte e_par state_chars shared sh_body_len body_len].
      by rewrite (proj2 (Z.ltb_ge (k + 1) n)) by lia.
  - pose proof (zlen_nonneg l). rewrite zlen_cons in Hn.
    assert (0 <= k < 2 ^ 63) as Hk0 by lia. rewrite <- app_assoc. cbn [app].
    rewrite (RUN_next VTM_HTTP_PARSE_BODY_FIXEDLENGTH k m (sh_body_len n sh) i pre c (c' :: l ++ rest) h
      VTM_HTTP_PARSE_BODY_FIXEDLENGTH (k + 1) m (sh_body_len n sh) i c h Hk0); [| done | done |].
    + unfold nrm. rewrite decide_False by tauto.
      apply IH; [done | lia | rewrite zlen_cons; lia | done | rewrite zlen_app; change (zlen [c]) with 1; lia].
    + cbn [http_switch at_byte e_par state]. unfold http_body_fixedlength.
      cbn [at_byte e_par state_chars shared sh_body_len body_len].
      by rewrite (proj2 (Z.ltb_lt (k + 1) n)) by lia.
Qed.

(** The bytes of the body that are waited for. *)
Definition body_awaited (g : gmap bytes bytes) : Z :=
  match hdr_length g with Some n => Z.max 0 (n - 1) | None => 0 end.

(** The last line feed of the head, and the body. *)
Lemma RUN_body m sh i pre bd rest h F g :
  md = VTM_HTTP_PM_REQUEST \/ is_Some (hdr_length g) -> sh_hdr_ok sh g F h -> not_chunked g -> body_len sh = 0 ->
  zlen bd = body_awaited g -> in_limits ((pre ++ [10]) ++ bd) ->
  exists o fr, sh_hdr_ok (sh_headers o fr sh) g F h /\
    RUN VTM_HTTP_PARSE_HEADERS_END_LF 0 m sh i pre (10 :: bd ++ rest) h
    = Some (VTM_NET_RECV_STAT_COMPLETE, env VTM_HTTP_PARSE_COMPLETE 1 m
        (mark_body (hdr_length g) (in_body (zlen pre + 1) i) (sh_headers o fr sh))
        (in_body (zlen pre + 1) i) ((pre ++ [10]) ++ bd) rest h).
Proof.
  intros Hmd Hsh Hnc Hb Hbd Hlim. pose proof (in_limits_app _ _ Hlim) as Hlim1.
  pose proof (in_limits_app _ _ Hlim1) as Hlim0. pose proof (zlen_nonneg pre).
  destruct (switch_body 1 m sh i pre 10 (bd ++ rest) h F g Hmd Hsh Hnc) as (o & fr & Hok & Esw).
  exists o, fr. split; [exact Hok |]. set (sh1 := sh_headers o fr sh) in *.
  set (i1 := in_body (zlen pre + 1) i) in *. assert (body_len sh1 = 0) as Hb1 by exact Hb.
  rewrite RUN_EV by done. unfold http_eval_fuel.
  rewrite (EV_goto 4 VTM_HTTP_PARSE_HEADERS_END_LF 0 m sh i pre 10 (bd ++ rest) h ltac:(lia) VTM_HTTP_PARSE_BODY 1 m sh i h) by done.
  unfold nrm. rewrite decide_True by done. unfold body_env, body_awaited in *.
  destruct (hdr_length g) as [n|].
  - rewrite (EV_goto 3 VTM_HTTP_PARSE_BODY 0 m sh i pre 10 (bd ++ rest) h ltac:(lia) VTM_HTTP_PARSE_BODY_FIXEDLENGTH 1 m
      (sh_body_len n sh1) i1 h); [| done | exact Esw].
    unfold nrm. rewrite decide_True by done. destruct (decide (n <= 1)) as [Hn|Hn].
    + assert (bd = []) as -> by (destruct bd; [done | rewrite zlen_cons in Hbd; pose proof (zlen_nonneg bd); lia]).
      rewrite app_nil_r. cbn [app].
      rewrite (EV_goto 2 VTM_HTTP_PARSE_BODY_FIXEDLENGTH 0 m (sh_body_len n sh1) i1 pre 10 rest h ltac:(lia)
        VTM_HTTP_PARSE_COMPLETE 1 m (sh_body_len n sh1) i1 h); [| done |].
      * unfold nrm. rewrite decide_True by done. by rewrite (EV_complete 1 0 m sh1 i1 pre 10 rest h (Some n)).
      * cbn [http_switch at_byte e_par state]. unfold http_body_fixedlength.
        cbn [at_byte e_par state_chars shared sh_body_len body_len].
        by rewrite (proj2 (Z.ltb_ge (0 + 1) n)) by lia.
    + assert (bd <> []) as Hbd0 by (intros ->; change (zlen (A:=Z) []) with 0 in Hbd; lia).
      rewrite (EV_next 2 VTM_HTTP_PARSE_BODY_FIXEDLENGTH 0 m (sh_body_len n sh1) i1 pre 10 (bd ++ rest) h ltac:(lia)
        VTM_HTTP_PARSE_BODY_FIXEDLENGTH 1 m (sh_body_len n sh1) i1 10 h);
        [| intros Hx; by apply app_eq_nil in Hx as [Hx _] | done |].
      * unfold nrm. rewrite decide_False by tauto. apply RUN_fixedlength; try done; [lia |].
        rewrite zlen_app. change (zlen [10]) with 1. lia.
      * cbn [http_switch at_byte e_par state]. unfold http_body_fixedlength.
        cbn [at_byte e_par state_chars shared sh_body_len body_len].
        by rewrite (proj2 (Z.ltb_lt (0 + 1) n)) by lia.
  - assert (bd = []) as -> by (destruct bd; [done | rewrite zlen_cons in Hbd; pose proof (zlen_nonneg bd); lia]).
    rewrite app_nil_r. cbn [app].
    rewrite (EV_goto 3 VTM_HTTP_PARSE_BODY 0 m sh i pre 10 rest h ltac:(lia) VTM_HTTP_PARSE_COMPLETE 1 m sh1 i1 h);
      [| done | exact Esw].
    unfold nrm. rewrite decide_True by done. by rewrite (EV_complete 2 0 m sh1 i1 pre 10 rest h None).
Qed.
(** ** All of it *)

Lemma request_text_eq r bd :
  request_text r ++ bd =
  r_name r ++ 32 :: (r_path r ++ query_text (r_params r) ++ 32 :: version_text (r_version r) ++
    13 :: 10 :: (fields_text (r_fields r) ++ 13 :: 10 :: bd)).
Proof. unfold request_text. rewrite <- !app_assoc. cbn [app]. by rewrite <- ?app_assoc. Qed.

Lemma sh_hdr_parsed sh g F h :
  sh_hdr_ok sh g F h -> match headers sh with None => g = ∅ | Some ds => hdr_ds ds g end.
Proof. by intros [(-> & -> & _) | (ds & -> & _ & Hds & _)]. Qed.

(** What a parsed request holds of the heap: the parameters and the headers own
    their blocks; without repeated names nothing else was allocated. *)
Definition request_owned (r : http_request) (h : heap) (e : http_env) : Prop :=
  exists h1 F, params_owned h h1 (req_params (msg (e_par e))) /\ h1 ⊆ F /\
    (distinct_fields (r_fields r) -> F = h1) /\
    sh_hdr_ok (shared (e_par e)) (hdr_map (r_fields r) ∅) F (e_heap e).

(** A request, its body, and bytes behind it. *)
Lemma RUN_request_rest r bd rest h :
  md = VTM_HTTP_PM_REQUEST -> request_ok r ->
  not_chunked (hdr_map (r_fields r) ∅) -> zlen bd = body_awaited (hdr_map (r_fields r) ∅) ->
  in_limits (request_text r ++ bd) ->
  exists e done, RUN VTM_HTTP_PARSE_BEGIN 0 reset_msg reset_shared reset_intl [] (request_text r ++ bd ++ rest) h
      = Some (VTM_NET_RECV_STAT_COMPLETE, e) /\
    request_parsed r e /\ request_owned r h e /\
    e_buf e = mk_buf ord stc (done ++ rest) len used (zlen done) err /\
    zlen done = zlen (request_text r ++ bd) /\
    (exists m sh i, e_par e = mk_parser md VTM_HTTP_PARSE_COMPLETE 1 mh mb m sh i) /\
    body (shared (e_par e)) = match hdr_length (hdr_map (r_fields r) ∅) with
                              | Some n => if 0 <? n then Some (zlen (request_text r)) else None
                              | None => None
                              end /\
    body_len (shared (e_par e)) = default 0 (hdr_length (hdr_map (r_fields r) ∅)).
Proof.
  intros Hmd Hr Hnc Hbd Hlim. pose proof Hr as (Hm & _ & _ & Hfs).
  pose proof (zlen_nonneg bd). set (g := hdr_map (r_fields r) ∅) in *.
  assert (forall p, zlen p <= zlen (request_text r ++ bd) -> in_limits p) as Hin
    by (intros p Hle; eapply in_limits_le; [|exact Hlim]; done).
  rewrite request_text_eq in Hin |- *. rewrite version_text_eq in Hin. set (bdr := bd ++ rest).
  pose proof (zlen_nonneg (r_name r)). pose proof (zlen_nonneg (r_path r)).
  pose proof (zlen_nonneg (query_text (r_params r))). pose proof (zlen_nonneg (fields_text (r_fields r))).
  rewrite (RUN_begin_method _ _ _ _ (r_method r)) by (done || apply Hin; zl).
  rewrite (RUN_method _ _ _ _ (r_method r)) by (done || (apply Hin; zl) || by destruct (r_path r), (query_text (r_params r))).
  set (pre := r_name r ++ [0]). assert (zlen pre = zlen (r_name r) + 1) as Hpre by (subst pre; zl).
  destruct (RUN_target (msg_method (r_method r) reset_msg) reset_shared reset_intl pre r
    (fields_text (r_fields r) ++ 13 :: 10 :: bdr) h) as (o & i1 & txt & h1 & E & Ht & _ & Hpo & Ho); try done.
  { apply app_cons_ne. }
  { lia. }
  { apply Hin. rewrite version_text_eq. zl. }
  rewrite E. set (pre1 := pre ++ r_path r ++ 0 :: txt) in *.
  assert (zlen pre1 = zlen pre + zlen (r_path r ++ 0 :: txt)) as Hpre1 by (subst pre1; zl).
  rewrite Ht, version_text_eq in Hpre1.
  set (m1 := msg_params o (msg_path (Some (zlen pre)) (msg_method (r_method r) reset_msg))) in *.
  destruct (RUN_fields (r_fields r) m1 (sh_version (r_version r) reset_shared) i1 pre1 (13 :: 10 :: bdr) h1 h1 ∅)
    as (o2 & fr2 & h2 & F2 & nb & vb & txt2 & -> & Ht2 & HF2 & HF2' & Hsh); try done.
  { zl. }
  { apply Hin. zl. }
  { left. split_and!; try done. apply heap_ok_nil. }
  set (pre2 := pre1 ++ txt2) in *. assert (zlen pre2 = zlen pre1 + zlen txt2) as Hpre2 by (subst pre2; zl).
  rewrite RUN_headers_end by (done || apply Hin; zl).
  destruct (RUN_body m1 (sh_headers o2 fr2 (sh_version (r_version r) reset_shared))
    (in_header (zlen pre2) 0 (in_header nb vb i1)) (pre2 ++ [13]) bd rest h2 F2 g) as (o3 & fr3 & Hsh3 & E3'); try done.
  { by left. }
  { apply Hin. zl. }
  subst bdr. rewrite E3'.
  set (sh3 := sh_headers o3 fr3 (sh_headers o2 fr2 (sh_version (r_version r) reset_shared))) in *.
  set (i3 := in_body _ _). set (sh4 := mark_body (hdr_length g) i3 sh3).
  assert (headers sh4 = o3 /\ version sh4 = r_version r /\ body_len sh4 = default 0 (hdr_length g) /\
    body sh4 = match hdr_length g with
               | Some n => if 0 <? n then Some (body_begin i3) else None | None => None end) as (E1 & E2 & E3 & E4).
  { subst sh4. destruct (hdr_length g) as [n|]; [|done]. cbn [mark_body]. by destruct (0 <? n). }
  assert (zlen (((pre2 ++ [13]) ++ [10]) ++ bd) = zlen (request_text r ++ bd)) as Hlen.
  { rewrite request_text_eq, version_text_eq. zl. }
  eexists _, (((pre2 ++ [13]) ++ [10]) ++ bd). split; [reflexivity |]. cbn [env e_par e_buf shared msg buf_read buf_data].
  rewrite E3, E4, Hlen. split_and!; try done.
  - split; cbn [env e_par e_buf shared msg]; rewrite ?E1, ?E2; try done.
    + exists (zlen pre). split; [done |].
      unfold buf_str. cbn [buf_data]. rewrite (proj2 (Z.ltb_ge (zlen pre) 0)) by lia.
      subst pre2 pre1. rewrite <- !app_assoc, zdrop_app_exact by done. cbn [app].
      rewrite c_string_app; [done |]. destruct Hr as (_ & Hp & _). by eapply none_of_cstr.
    + exact (sh_hdr_parsed _ _ _ _ Hsh3).
  - exists h1, F2. cbn [env e_par e_heap shared msg]. split_and!; try done.
    + intros Hd. apply HF2'; [done|]. apply Forall_forall. intros f _. apply lookup_empty.
    + unfold sh_hdr_ok in Hsh3 |- *. subst sh4. destruct (hdr_length g) as [n|]; [|done].
      cbn [mark_body]. by destruct (0 <? n).
  - by eexists _, _, _.
  - destruct (hdr_length g) as [n|]; [|done]. destruct (0 <? n); [|done]. f_equal. cbn [i3 in_body body_begin].
    rewrite <- (app_nil_r (request_text r)), request_text_eq, version_text_eq. zl.
Qed.

Lemma RUN_request r bd h :
  md = VTM_HTTP_PM_REQUEST -> request_ok r ->
  not_chunked (hdr_map (r_fields r) ∅) -> zlen bd = body_awaited (hdr_map (r_fields r) ∅) ->
  in_limits (request_text r ++ bd) ->
  exists e, RUN VTM_HTTP_PARSE_BEGIN 0 reset_msg reset_shared reset_intl [] (request_text r ++ bd) h
      = Some (VTM_NET_RECV_STAT_COMPLETE, e) /\
    request_parsed r e /\ buf_read (e_buf e) = zlen (request_text r ++ bd) /\
    zlen (buf_data (e_buf e)) = zlen (request_text r ++ bd) /\
    body (shared (e_par e)) = match hdr_length (hdr_map (r_fields r) ∅) with
                              | Some n => if 0 <? n then Some (zlen (request_text r)) else None
                              | None => None
                              end /\
    body_len (shared (e_par e)) = default 0 (hdr_length (hdr_map (r_fields r) ∅)).
Proof.
  intros Hmd Hr Hnc Hbd Hlim.
  destruct (RUN_request_rest r bd [] h Hmd Hr Hnc Hbd Hlim) as (e & done & E & Hp & _ & Eb & Hl & _ & H).
  rewrite app_nil_r in E. exists e. rewrite Eb. cbn [buf_read buf_data]. by rewrite app_nil_r.
Qed.
End run.

(** ** Properties *)

(** The buffer with a received text, before anything has been read. *)
Definition received (ord : vtm_byteorder) (stc : buf_home) (text : bytes) (len err : Z) : vtm_buf :=
  mk_buf ord stc text len (zlen text) 0 err.

Lemma run_received malloc_ok printf_g p ord stc text len err h :
  zlen text < 2 ^ 63 -> text <> [] ->
  vtm_http_parser_run malloc_ok printf_g all_ok
    (mk_env (vtm_http_parser_reset p) (received ord stc text len err) h)
  = RUN malloc_ok printf_g (mode p) (max_header_size p) (max_body_size p) ord stc len (zlen text) err
      VTM_HTTP_PARSE_BEGIN 0 reset_msg reset_shared reset_intl [] text h.
Proof.
  intros Hl Hne. pose proof (zlen_nonneg text).
  unfold vtm_http_parser_run, VTM_BUF_GET_AVAIL_TOTAL.
  cbn [e_par e_buf received buf_used buf_read vtm_http_parser_reset state].
  rewrite Z.sub_0_r, u64_small by (unfold is_size, SIZE_MAX; lia).
  rewrite (proj2 (Z.eqb_neq (zlen text) 0)) by (destruct text; [done | rewrite zlen_cons; pose proof (zlen_nonneg text); lia]).
  replace (Z.to_nat (zlen text)) with (length text) by (unfold zlen; lia).
  done.
Qed.

Lemma request_text_ne r bd : request_text r ++ bd <> [].
Proof. rewrite request_text_eq. apply app_cons_ne. Qed.

Lemma run_request malloc_ok printf_g p ord stc len err r bd h :
  let g := hdr_map (r_fields r) ∅ in
  let text := request_text r ++ bd in
  mode p = VTM_HTTP_PM_REQUEST -> request_ok r -> not_chunked g -> zlen bd = body_awaited g ->
  in_limits (max_header_size p) (max_body_size p) text ->
  exists e, vtm_http_parser_run malloc_ok printf_g all_ok
      (mk_env (vtm_http_parser_reset p) (received ord stc text len err) h)
      = Some (VTM_NET_RECV_STAT_COMPLETE, e) /\
    request_parsed malloc_ok printf_g r e /\ buf_read (e_buf e) = zlen text /\
    zlen (buf_data (e_buf e)) = zlen text /\
    body (shared (e_par e)) = match hdr_length g with
                              | Some n => if 0 <? n then Some (zlen (request_text r)) else None
                              | None => None
                              end /\
    body_len (shared (e_par e)) = default 0 (hdr_length g).
Proof.
  intros g text Hm Hr Hnc Hbd Hlim.
  rewrite run_received by (apply Hlim || apply request_text_ne). rewrite Hm. by eapply RUN_request.
Qed.

(** C1: A well-formed request without a body, received in one piece, is parsed
    to its parts, if it is shorter than the limits that the parser was given and
    memory suffices for the objects that it makes.  For every request line made of a supported method, a path,
    any number of name=value parameters and a version, followed by any number
    of header lines none of which announces a body, the run consumes exactly the
    text of the request, ends with COMPLETE and hands over the method, the
    path, the parameters (of a repeated name the last one), the version and the
    headers by their lower-case names, with the values of repeated names joined
    by a comma, and no body. *)
Theorem http_request_parsed malloc_ok printf_g p ord stc len err r h
    (Hmode : mode p = VTM_HTTP_PM_REQUEST) (Hr : request_ok r)
    (Hnc : not_chunked (hdr_map (r_fields r) ∅)) (Hcl : hdr_length (hdr_map (r_fields r) ∅) = None)
    (Hlim : in_limits (max_header_size p) (max_body_size p) (request_text r)) :
  exists e, vtm_http_parser_run malloc_ok printf_g all_ok
      (mk_env (vtm_http_parser_reset p) (received ord stc (request_text r) len err) h)
      = Some (VTM_NET_RECV_STAT_COMPLETE, e) /\
    request_parsed malloc_ok printf_g r e /\
    buf_read (e_buf e) = zlen (request_text r) /\
    body (shared (e_par e)) = None /\ body_len (shared (e_par e)) = 0.
Proof.
  rewrite <- (app_nil_r (request_text r)) in Hlim.
  destruct (run_request malloc_ok printf_g p ord stc len err r [] h) as (e & E & Hp & Hread & _ & Hb & Hl); try done.
  { unfold body_awaited. by rewrite Hcl. }
  rewrite Hcl in Hb, Hl. rewrite app_nil_r in E, Hread. by exists e.
Qed.

Definition test_request : http_request :=
  mk_request (cstr_of "GET"%string) VTM_HTTP_METHOD_GET (cstr_of "/idx"%string)
    [(cstr_of "a"%string, cstr_of "1"%string)] VTM_HTTP_VER_1_1
    [mk_field (cstr_of "Host"%string) [32] (cstr_of "h.org"%string)].

Definition test_parser : vtm_http_parser :=
  vtm_http_parser_init (mk_parser VTM_HTTP_PM_REQUEST VTM_HTTP_PARSE_BEGIN 0 0 0 reset_msg reset_shared reset_intl)
    VTM_HTTP_PM_REQUEST.

Lemma test_request_ok : request_ok test_request.
Proof.
  split_and!; [by left | | |]; repeat constructor; cbn; try lia; try done;
    try (intros H; repeat (apply elem_of_cons in H as [H|H]; [discriminate H |]); by apply not_elem_of_nil in H).
Qed.

Lemma http_request_parsed_witness :
  let r := test_request in
  exists e, vtm_http_parser_run (fun _ => true) (fun _ => []) all_ok
      (mk_env (vtm_http_parser_reset test_parser) (received VTM_BYTEORDER_LE InBlock (request_text r) 100 0) ∅)
      = Some (VTM_NET_RECV_STAT_COMPLETE, e) /\
    request_parsed (fun _ => true) (fun _ => []) r e /\
    buf_read (e_buf e) = zlen (request_text r) /\
    body (shared (e_par e)) = None /\ body_len (shared (e_par e)) = 0.
Proof.
  apply (http_request_parsed (fun _ => true) (fun _ => []) test_parser VTM_BYTEORDER_LE InBlock 100 0 test_request ∅);
    [reflexivity | apply test_request_ok | exact I | reflexivity | split_and!; reflexivity].
Defined.

(** Defect.  A body of announced length is taken for complete one byte too
    early.  After a well-formed head with "Content-Length: n" and no chunked
    coding, the parser answers COMPLETE when n-1 bytes of the body have arrived;
    it marks a body of n bytes, the last of which lies behind the received
    bytes. *)
Theorem http_content_length_short malloc_ok printf_g p ord stc len err r n bd h
    (Hmode : mode p = VTM_HTTP_PM_REQUEST) (Hr : request_ok r)
    (Hnc : not_chunked (hdr_map (r_fields r) ∅))
    (Hcl : hdr_map (r_fields r) ∅ !! map tolower VTM_HTTP_HEADER_CONTENT_LENGTH = Some (printf_d n))
    (Hn : 1 <= n < 2 ^ 63) (Hbd : zlen bd = n - 1)
    (Hlim : in_limits (max_header_size p) (max_body_size p) (request_text r ++ bd)) :
  exists e off, vtm_http_parser_run malloc_ok printf_g all_ok
      (mk_env (vtm_http_parser_reset p) (received ord stc (request_text r ++ bd) len err) h)
      = Some (VTM_NET_RECV_STAT_COMPLETE, e) /\
    request_parsed malloc_ok printf_g r e /\
    body (shared (e_par e)) = Some off /\ body_len (shared (e_par e)) = n /\
    off + n = zlen (buf_data (e_buf e)) + 1.
Proof.
  assert (hdr_length (hdr_map (r_fields r) ∅) = Some n) as E.
  { unfold hdr_length. rewrite Hcl. cbn [mbind option_bind].
    rewrite strtoll_printf by (unfold int_range; lia).
    rewrite cast_int_id by (unfold int_range; lia). f_equal. apply u64_small. unfold is_size, SIZE_MAX. lia. }
  destruct (run_request malloc_ok printf_g p ord stc len err r bd h) as (e & Er & Hp & _ & Hd & Hb & Hl); try done.
  { unfold body_awaited. rewrite E. lia. }
  rewrite E in Hb, Hl. rewrite (proj2 (Z.ltb_lt 0 n)) in Hb by lia.
  exists e, (zlen (request_text r)). split_and!; try done. rewrite Hd, zlen_app. lia.
Qed.

Definition test_post : http_request :=
  mk_request (cstr_of "POST"%string) VTM_HTTP_METHOD_POST (cstr_of "/"%string) [] VTM_HTTP_VER_1_1
    [mk_field (cstr_of "Content-Length"%string) [32] (cstr_of "5"%string)].

Lemma test_post_ok : request_ok test_post.
Proof.
  split_and!; [by right; left | | |]; repeat constructor; cbn; try lia; try done;
    try (intros H; repeat (apply elem_of_cons in H as [H|H]; [discriminate H |]); by apply not_elem_of_nil in H).
Qed.

Lemma http_content_length_short_witness :
  exists e off, vtm_http_parser_run (fun _ => true) (fun _ => []) all_ok
      (mk_env (vtm_http_parser_reset test_parser)
        (received VTM_BYTEORDER_LE InBlock (request_text test_post ++ cstr_of "hell"%string) 100 0) ∅)
      = Some (VTM_NET_RECV_STAT_COMPLETE, e) /\
    request_parsed (fun _ => true) (fun _ => []) test_post e /\
    body (shared (e_par e)) = Some off /\ body_len (shared (e_par e)) = 5 /\
    off + 5 = zlen (buf_data (e_buf e)) + 1.
Proof.
  apply (http_content_length_short (fun _ => true) (fun _ => []) test_parser VTM_BYTEORDER_LE InBlock 100 0 test_post 5
    (cstr_of "hell"%string) ∅);
    [reflexivity | apply test_post_ok | exact I | reflexivity | lia | reflexivity | split_and!; reflexivity].
Defined.

(** The parser run again after more bytes were put into the buffer. *)
Definition run_more malloc_ok printf_g (e : http_env) (l : bytes) : option (vtm_net_recv_stat * http_env) :=
  vtm_http_parser_run malloc_ok printf_g all_ok (mk_env (e_par e) (VTM_BUF_PUT_INC (e_buf e) l) (e_heap e)).

Section split.
Context (malloc_ok : Z -> bool) (printf_g : Z -> bytes).
Context (md : vtm_http_parser_mode) (mh mb : Z) (ord : vtm_byteorder) (stc : buf_home) (len used err : Z).

Abbreviation EV := (EV malloc_ok printf_g md mh mb ord stc len used err).
Abbreviation RUN := (RUN malloc_ok printf_g md mh mb ord stc len used err).
Abbreviation at_byte := (at_byte md mh mb ord stc len used err).
Abbreviation env := (env md mh mb ord stc len used err).

(** The last byte of a run. *)
Lemma RUN_last st k m sh i pre c h st1 k1 m1 sh1 i1 c1 h1 :
  0 <= k < 2 ^ 63 -> in_limits mh mb pre ->
  http_switch malloc_ok printf_g all_ok (at_byte st (k + 1) m sh i pre c [] h) (i8 c)
    = Some (HNext, at_byte st1 k1 m1 sh1 i1 pre c1 [] h1) ->
  RUN st k m sh i pre [c] h = Some (VTM_NET_RECV_STAT_AGAIN, env st1 k1 m1 sh1 i1 (pre ++ [c1]) [] h1).
Proof.
  intros Hk Hlim E. rewrite RUN_EV by done. unfold http_eval_fuel. rewrite EV_unfold by done.
  rewrite E. cbn [mbind option_bind length http_run_loop]. by rewrite at_byte_env.
Qed.
End split.

Lemma run_more_RUN malloc_ok printf_g md mh mb ord stc len err st k m sh i pre l h :
  stc <> Nowhere -> l <> [] -> zlen pre + zlen l < 2 ^ 63 ->
  run_more malloc_ok printf_g (env md mh mb ord stc len (zlen pre) err st k m sh i pre [] h) l
  = RUN malloc_ok printf_g md mh mb ord stc len (zlen pre + zlen l) err st k m sh i pre l h.
Proof.
  intros Hst Hl Hlen. pose proof (zlen_nonneg pre). pose proof (zlen_nonneg l).
  assert (0 < zlen l) by (destruct l; [done | rewrite zlen_cons; pose proof (zlen_nonneg l); lia]).
  unfold run_more, vtm_http_parser_run, VTM_BUF_PUT_INC, env, buf_stored.
  cbn [e_buf buf_place]. rewrite decide_False by done.
  cbn [e_par e_buf e_heap buf_used buf_data buf_with_data buf_order buf_place buf_len buf_read buf_err].
  rewrite app_nil_r. unfold VTM_BUF_GET_AVAIL_TOTAL, buf_with_data.
  cbn [buf_used buf_data buf_order buf_place buf_len buf_read buf_err state].
  rewrite (u64_small (zlen pre + zlen l)) by (unfold is_size, SIZE_MAX; lia).
  rewrite u64_small by (unfold is_size, SIZE_MAX; lia).
  rewrite (proj2 (Z.eqb_neq _ 0)) by lia.
  replace (Z.to_nat (zlen pre + zlen l - zlen pre)) with (length l) by (unfold zlen; lia).
  unfold RUN, env, splice. rewrite zdrop_all, app_nil_r by lia. by rewrite ztake_all by lia.
Qed.

(** Defect.  The counter of the bytes seen in a state is not reset between
    two runs.  If the received bytes end right after the blank behind the method,
    the path is looked up too far in front: for every supported method and every
    path, the parser hands over the text of the method as the path. *)
Theorem http_path_split malloc_ok printf_g p ord stc len err mn mt path h
    (Hmode : mode p = VTM_HTTP_PM_REQUEST) (Hst : stc <> Nowhere) (Hm : (mn, mt) ∈ good_methods)
    (Hp : Forall (none_of [32; 63]) path)
    (Hlim : in_limits (max_header_size p) (max_body_size p) (mn ++ [32] ++ path ++ [32])) :
  exists e e', vtm_http_parser_run malloc_ok printf_g all_ok
      (mk_env (vtm_http_parser_reset p) (received ord stc (mn ++ [32]) len err) h)
      = Some (VTM_NET_RECV_STAT_AGAIN, e) /\
    run_more malloc_ok printf_g e (path ++ [32]) = Some (VTM_NET_RECV_STAT_AGAIN, e') /\
    state (e_par e') = VTM_HTTP_PARSE_VERSION_H /\
    exists off, req_path (msg (e_par e')) = Some off /\ buf_str (e_buf e') off = Some (mk_ptr 1 mn).
Proof.
  destruct (good_method_name mn mt Hm) as (Hs & Hne & Hget).
  pose proof (zlen_nonneg mn). pose proof (zlen_nonneg path).
  assert (forall q : bytes, zlen q <= zlen mn + zlen path + 2 -> in_limits (max_header_size p) (max_body_size p) q) as Hin
    by (intros q Hq; eapply in_limits_le; [|exact Hlim]; zl).
  destruct (in_limits_2_63 _ _ _ Hlim) as [_ Hb].
  assert (is_cstr mn) as Hmc by by eapply none_of_cstr.
  set (m1 := msg_method mt reset_msg).
  eexists _, _. split.
  { rewrite run_received; [| zl | apply app_cons_ne]. rewrite Hmode.
    rewrite RUN_begin_method with (mt := mt) by (done || apply Hin; zl).
    rewrite RUN_skip with (P := none_of [32]); [| | done | done | apply Hin; cbn [app]; lia | by change (zlen (A:=Z) []) with 0].
    2: { intros k pre c l0 Hc. cbn [http_switch at_byte e_par state]. unfold http_req_method.
         rewrite (none_of_eqb [32]) by (done || lia || apply list_elem_of_here). done. }
    apply (RUN_last malloc_ok printf_g VTM_HTTP_PM_REQUEST (max_header_size p) (max_body_size p) ord stc len
      (zlen (mn ++ [32])) err VTM_HTTP_PARSE_REQ_METHOD (0 + zlen mn) reset_msg reset_shared reset_intl mn 32 h
      VTM_HTTP_PARSE_REQ_PATH (0 + zlen mn + 1) m1 reset_shared reset_intl 0 h); [zl | apply Hin; zl |].
    cbn [http_switch at_byte e_par state]. unfold http_req_method. change (i8 32 =? 32) with true. cbn [negb].
    change (mk_env _ _ _) with (at_byte VTM_HTTP_PM_REQUEST (max_header_size p) (max_body_size p) ord stc len
      (zlen (mn ++ [32])) err VTM_HTTP_PARSE_REQ_METHOD (0 + zlen mn + 1) reset_msg reset_shared reset_intl mn 32 [] h).
    rewrite nul_here_at. cbn [mbind option_bind].
    rewrite buf_str_last with (p := []) (s := mn) by done.
    cbn [mbind option_bind p_text]. destruct (vtm_http_get_method mn) as [rc o]. cbn [snd] in Hget.
    subst o. reflexivity. }
  set (pre := mn ++ [0]). assert (zlen pre = zlen mn + 1) as Hpre by (subst pre; zl).
  replace (zlen (mn ++ [32])) with (zlen pre) by zl.
  rewrite run_more_RUN by (done || apply app_cons_ne || zl).
  rewrite RUN_skip with (P := none_of [32; 63]); [| | done | done | apply Hin; zl | lia].
  2: { intros k p0 c l0 Hc. cbn [http_switch at_byte e_par state]. unfold http_req_path.
       rewrite !(none_of_eqb [32; 63]) by (done || lia || set_solver). done. }
  split.
  { apply (RUN_last malloc_ok printf_g VTM_HTTP_PM_REQUEST (max_header_size p) (max_body_size p) ord stc len
      (zlen pre + zlen (path ++ [32])) err VTM_HTTP_PARSE_REQ_PATH (0 + zlen mn + 1 + zlen path) m1 reset_shared
      reset_intl (pre ++ path) 32 h VTM_HTTP_PARSE_VERSION_H (0 + zlen mn + 1 + zlen path + 1) (msg_path (Some 0) m1)
      reset_shared reset_intl 0 h); [zl | apply Hin; zl |].
    cbn [http_switch at_byte e_par state]. unfold http_req_path. change (i8 32 =? 32) with true. cbn iota.
    change (to_state _ _) with (at_byte VTM_HTTP_PM_REQUEST (max_header_size p) (max_body_size p) ord stc len
      (zlen pre + zlen (path ++ [32])) err VTM_HTTP_PARSE_VERSION_H (0 + zlen mn + 1 + zlen path + 1) m1 reset_shared
      reset_intl (pre ++ path) 32 [] h).
    rewrite nul_here_at. cbn [mbind option_bind]. cbn [at_byte e_buf buf_read e_par state_chars].
    replace (zlen (pre ++ path) + 1 - (0 + zlen mn + 1 + zlen path + 1)) with 0 by zl. reflexivity. }
  split; [done |]. exists 0. split; [done |].
  unfold buf_str. cbn [env e_buf buf_data]. change (0 <? 0) with false. cbn iota.
  rewrite zdrop_0. subst pre. rewrite <- !app_assoc. cbn [app]. by rewrite c_string_app.
Qed.

Lemma http_path_split_witness :
  exists e e', vtm_http_parser_run (fun _ => true) (fun _ => []) all_ok
      (mk_env (vtm_http_parser_reset test_parser)
        (received VTM_BYTEORDER_LE InBlock (cstr_of "GET"%string ++ [32]) 100 0) ∅) = Some (VTM_NET_RECV_STAT_AGAIN, e) /\
    run_more (fun _ => true) (fun _ => []) e (cstr_of "/index"%string ++ [32]) = Some (VTM_NET_RECV_STAT_AGAIN, e') /\
    state (e_par e') = VTM_HTTP_PARSE_VERSION_H /\
    exists off, req_path (msg (e_par e')) = Some off /\
      buf_str (e_buf e') off = Some (mk_ptr 1 (cstr_of "GET"%string)).
Proof.
  apply (http_path_split (fun _ => true) (fun _ => []) test_parser VTM_BYTEORDER_LE InBlock 100 0 (cstr_of "GET"%string)
    VTM_HTTP_METHOD_GET (cstr_of "/index"%string) ∅); [reflexivity | discriminate | by left | | split_and!; reflexivity].
  repeat constructor; cbn; try lia;
    try (intros H; repeat (apply elem_of_cons in H as [H|H]; [discriminate H |]); by apply not_elem_of_nil in H).
Defined.

(** Defect.  The counter is not reset in front of the content of a chunk
    either when a run ends after the size.  Received in three pieces, the head of
    a chunk of three bytes and a line end make the parser take no byte for the
    three of the content: it leaves the bounds of the received bytes. *)
Theorem http_chunk_split :
  let head := cstr_of "POST / HTTP/1.1"%string ++ [13; 10] ++ cstr_of "Transfer-Encoding: chunked"%string ++
    [13; 10; 13; 10] ++ cstr_of "0003"%string ++ [13] in
  let run3 := '(s1, e) ← vtm_http_parser_run (fun _ => true) (fun _ => []) all_ok
        (mk_env (vtm_http_parser_reset test_parser) (received VTM_BYTEORDER_LE InBlock head 100 0) ∅);
      '(s2, e) ← run_more (fun _ => true) (fun _ => []) e [10];
      Some (s1, s2, e) in
  exists e, run3 = Some (VTM_NET_RECV_STAT_AGAIN, VTM_NET_RECV_STAT_AGAIN, e) /\
    run_more (fun _ => true) (fun _ => []) e [13; 10] = None.
Proof. eexists. split; [vm_compute; reflexivity | vm_compute; reflexivity]. Qed.
