(* ===== verification/VtmList.v ===== *)
(** * VtmList: the growing array, core/list.c

    A list stores elements of one type one behind the other in a block of
    memory.  The block is modelled by its cells, of [li_elem_size] bytes each,
    that have been written so far, and by its size in bytes; [li_array] is
    [None] when the pointer is NULL.  A cell is the stored member of the union:
    a word wrapped to the element size, or a pointer.  [None] is undefined
    behaviour: an access outside of the block or to bytes never written, or a
    read as a type of another size. *)

From stdpp Require Import gmap fin_sets.
From S2P Require Import Prelude Base Str Elem Heap.

(** core/list.c:15 *)
Definition MAX_LIST_SIZE : Z := SIZE_MAX.

(** core/list.h [vtm_list_free_func], a function that may free memory. *)
Definition vtm_list_free_func : Type := cptr -> heap -> option heap.

(** core/list.c:36-44 [struct vtm_list].  [li_block] is the size of the block
    behind [array] in bytes. *)
Record vtm_list := mk_list {
  li_type : vtm_elem_type;
  li_fn_free : option vtm_list_free_func;
  li_array : option (list vtm_elem);
  li_block : Z;
  li_elem_size : Z;
  li_used : Z;
  li_size : Z
}.

Definition list_with_array (a : option (list vtm_elem)) (block size : Z) (li : vtm_list) : vtm_list :=
  mk_list (li_type li) (li_fn_free li) a block (li_elem_size li) (li_used li) size.
Definition list_with_used (a : option (list vtm_elem)) (used : Z) (li : vtm_list) : vtm_list :=
  mk_list (li_type li) (li_fn_free li) a (li_block li) (li_elem_size li) used (li_size li).

(** core/list.c:49-78.  The answers of the allocator for the struct and the
    array. *)
Definition vtm_list_new (ok_list ok_array : bool) (type : vtm_elem_type) (init_size : Z)
    : option vtm_list :=
  if decide (type = VTM_ELEM_NULL) then None
  else if negb ok_list then None
  else
    let es := vtm_elem_size type in
    if negb ok_array then None
    else Some (mk_list type None (Some []) (init_size *sz es) es 0 init_size).

(** core/list.c:19-22 [VTM_LIST_READ].  [size] is the size of the type read. *)
Definition VTM_LIST_READ (size : Z) (li : vtm_list) (index : Z) : option vtm_elem :=
  cells ← li_array li;
  if (size =? li_elem_size li) && (0 <=? index) then cells !! Z.to_nat index else None.

(** core/list.c:263-351 [vtm_list_get_int8 ... vtm_list_get_ulong].  The getter
    for the integer type [rtype]. *)
Definition vtm_list_get_integer (rtype : vtm_elem_type) (li : vtm_list) (index : Z) : option Z :=
  signed ← elem_int_signed rtype;
  e ← VTM_LIST_READ (vtm_elem_size rtype) li index;
  Some (elem_int rtype signed e).
(** core/list.c:303-306 *)
Definition vtm_list_get_bool (li : vtm_list) (index : Z) : option bool :=
  e ← VTM_LIST_READ 1 li index; Some (elem_bool e).
(** core/list.c:353-356 *)
Definition vtm_list_get_float (li : vtm_list) (index : Z) : option Z :=
  e ← VTM_LIST_READ 4 li index; Some (elem_float e).
(** core/list.c:358-361 *)
Definition vtm_list_get_double (li : vtm_list) (index : Z) : option Z :=
  e ← VTM_LIST_READ 8 li index; Some (elem_double e).
(** core/list.c:363-366 *)
Definition vtm_list_get_pointer (li : vtm_list) (index : Z) : option cptr :=
  e ← VTM_LIST_READ 8 li index; elem_pointer e.

(** core/list.c:96-99.  The loop over the elements, [n] are left. *)
Fixpoint list_free_loop (fn : vtm_list_free_func) (li : vtm_list) (n : nat) (i : Z) (h : heap)
    : option heap :=
  match n with
  | O => Some h
  | S n' => val ← vtm_list_get_pointer li i; h ← fn val h; list_free_loop fn li n' (i + 1) h
  end.

(** core/list.c:90-103 *)
Definition vtm_list_clear (li : vtm_list) (h : heap) : option (vtm_list * heap) :=
  h ← match li_fn_free li with
      | Some fn => list_free_loop fn li (Z.to_nat (li_used li)) 0 h
      | None => Some h
      end;
  Some (list_with_used (li_array li) 0 li, h).

(** core/list.c:80-88.  The blocks of the list itself are not in the heap. *)
Definition vtm_list_free (li : option vtm_list) (h : heap) : option heap :=
  match li with
  | None => Some h
  | Some li => '(_, h) ← vtm_list_clear li h; Some h
  end.

(** core/list.c:105-108 *)
Definition vtm_list_size (li : vtm_list) : Z := li_used li.

(** core/list.c:242-261.  [ok] is the answer of the allocator.  The bytes of
    the old block that fit into the new one are kept. *)
Definition vtm_list_grow (ok : bool) (li : vtm_list) : Z * vtm_list :=
  if li_size li =? MAX_LIST_SIZE then (VTM_E_MAX_REACHED, li)
  else
    let old := li_size li in
    let size := old *sz 2 in
    let size := if size <? old then SIZE_MAX else size in
    let block := size *sz li_elem_size li in
    if ok then
      let cells := match li_array li with
                   | Some cells => take (Z.to_nat (block / li_elem_size li)) cells
                   | None => []
                   end in
      (VTM_OK, list_with_array (Some cells) block size li)
    else (VTM_E_MALLOC, list_with_array None 0 size li).

(** The value of a type as it is stored in a cell. *)
Definition list_cell (type : vtm_elem_type) (e : vtm_elem) : option vtm_elem :=
  match type with
  | VTM_ELEM_NULL => None
  | VTM_ELEM_STRING | VTM_ELEM_BLOB | VTM_ELEM_POINTER => p ← elem_pointer e; Some (ElemPtr p)
  | VTM_ELEM_BOOL => Some (ElemWord (Z.b2z (elem_bool e)))
  | _ => Some (ElemWord (wrap (8 * vtm_elem_size type) (elem_word e)))
  end.

(** core/list.c:25-34 [VTM_LIST_WRITE, VTM_LIST_WRITE_CASTED,
    VTM_LIST_WRITE_VAR] *)
Definition VTM_LIST_WRITE (cell : vtm_elem) (li : vtm_list) : option vtm_list :=
  cells ← li_array li;
  if (li_used li + 1) * li_elem_size li <=? li_block li then
    let i := Z.to_nat (li_used li) in
    if decide (i <= length cells)%nat then
      Some (list_with_used (Some (take i cells ++ [cell] ++ drop (S i) cells)) (li_used li +sz 1) li)
    else None
  else None.

(** core/list.c:110-162 *)
Definition vtm_list_add (ok : bool) (li : vtm_list) (var : vtm_variant) : option (Z * vtm_list) :=
  if decide (v_type var <> li_type li) then Some (VTM_E_INVALID_ARG, li)
  else
    let '(rc, li) := if li_used li =? li_size li then vtm_list_grow ok li else (VTM_OK, li) in
    if negb (rc =? VTM_OK) then Some (rc, li)
    else if decide (li_type li = VTM_ELEM_NULL) then Some (VTM_E_INVALID_STATE, li)
    else cell ← list_cell (li_type li) (v_data var); li ← VTM_LIST_WRITE cell li; Some (VTM_OK, li).

(** core/list.c:164-219.  The conversions of the promoted argument are those of
    vtm_elem_parse(). *)
Definition vtm_list_add_va (ok : bool) (li : vtm_list) (arg : va_arg) : option (Z * vtm_list) :=
  let '(rc, li) := if li_used li =? li_size li then vtm_list_grow ok li else (VTM_OK, li) in
  if negb (rc =? VTM_OK) then Some (rc, li)
  else if decide (li_type li = VTM_ELEM_NULL) then Some (VTM_E_INVALID_STATE, li)
  else
    e ← vtm_elem_parse (li_type li) 0 arg;
    cell ← list_cell (li_type li) e; li ← VTM_LIST_WRITE cell li; Some (VTM_OK, li).

(** core/list.c:221-235 *)
Definition vtm_list_remove (li : vtm_list) (index : Z) : option (Z * vtm_list) :=
  if li_used li <=? index then Some (VTM_E_OUT_OF_RANGE, li)
  else
    cells ← li_array li;
    let i := Z.to_nat index in
    let n := Z.to_nat (li_used li) in
    if decide (n <= length cells)%nat then
      let cells := take i cells ++ take (n - (i + 1)) (drop (S i) cells) ++ drop (n - 1) cells in
      Some (VTM_OK, list_with_used (Some cells) (li_used li - 1) li)
    else None.

(** core/list.c:237-240 *)
Definition vtm_list_set_free_func (li : vtm_list) (fn : option vtm_list_free_func) : vtm_list :=
  mk_list (li_type li) fn (li_array li) (li_block li) (li_elem_size li) (li_used li) (li_size li).

(** ** Specification: a sequence *)

Inductive list_op :=
  | ListAdd (var : vtm_variant) | ListAddVa (arg : va_arg) | ListGet (index : Z)
  | ListRemove (index : Z) | ListSize | ListClear.

Inductive list_res := ListRc (rc : Z) | ListVal (e : vtm_elem) | ListNum (n : Z).

Definition list_exec (op : list_op) (li : vtm_list) : option (list_res * vtm_list) :=
  match op with
  | ListAdd var => '(rc, li) ← vtm_list_add true li var; Some (ListRc rc, li)
  | ListAddVa arg => '(rc, li) ← vtm_list_add_va true li arg; Some (ListRc rc, li)
  | ListGet index => e ← VTM_LIST_READ (li_elem_size li) li index; Some (ListVal e, li)
  | ListRemove index => '(rc, li) ← vtm_list_remove li index; Some (ListRc rc, li)
  | ListSize => Some (ListNum (vtm_list_size li), li)
  | ListClear => '(li, _) ← vtm_list_clear li ∅; Some (ListRc VTM_OK, li)
  end.

Fixpoint list_run (ops : list list_op) (li : vtm_list) : option (list list_res * vtm_list) :=
  match ops with
  | [] => Some ([], li)
  | op :: ops' => '(r, li) ← list_exec op li; '(rs, li) ← list_run ops' li; Some (r :: rs, li)
  end.

Definition spec_list_exec (type : vtm_elem_type) (op : list_op) (l : list vtm_elem)
    : option (list_res * list vtm_elem) :=
  match op with
  | ListAdd var =>
      if decide (v_type var = type) then
        e ← list_cell type (v_data var); Some (ListRc VTM_OK, l ++ [e])
      else Some (ListRc VTM_E_INVALID_ARG, l)
  | ListAddVa arg =>
      e ← vtm_elem_parse type 0 arg; e ← list_cell type e; Some (ListRc VTM_OK, l ++ [e])
  | ListGet index => if 0 <=? index then e ← l !! Z.to_nat index; Some (ListVal e, l) else None
  | ListRemove index =>
      if index <? 0 then None
      else if index <? zlen l then Some (ListRc VTM_OK, delete (Z.to_nat index) l)
      else Some (ListRc VTM_E_OUT_OF_RANGE, l)
  | ListSize => Some (ListNum (zlen l), l)
  | ListClear => Some (ListRc VTM_OK, [])
  end.

Fixpoint spec_list_run (type : vtm_elem_type) (ops : list list_op) (l : list vtm_elem)
    : option (list list_res * list vtm_elem) :=
  match ops with
  | [] => Some ([], l)
  | op :: ops' =>
      '(r, l) ← spec_list_exec type op l; '(rs, l) ← spec_list_run type ops' l; Some (r :: rs, l)
  end.

(** ** Lemmas *)

(** A list with the contents [l], after at most [k] additions. *)
Record list_ok (type : vtm_elem_type) (k : Z) (l : list vtm_elem) (li : vtm_list) : Prop := {
  lo_type : li_type li = type /\ type <> VTM_ELEM_NULL;
  lo_es : li_elem_size li = vtm_elem_size type;
  lo_free : li_fn_free li = None;
  lo_cells : exists rest, li_array li = Some (l ++ rest);
  lo_used : li_used li = zlen l;
  lo_size : 1 <= li_size li <= 2 ^ 60 /\ zlen l <= li_size li;
  lo_block : li_block li = li_size li * li_elem_size li;
  lo_count : zlen l <= k
}.

Lemma elem_size_range type : 1 <= vtm_elem_size type <= 8.
Proof. by destruct type. Qed.

Lemma list_new_ok type init :
  type <> VTM_ELEM_NULL -> 1 <= init <= 2 ^ 60 ->
  exists li, vtm_list_new true true type init = Some li /\ list_ok type 0 [] li.
Proof.
  intros Ht Hi. pose proof (elem_size_range type). unfold vtm_list_new.
  rewrite decide_False by done. cbn [negb]. eexists. split; [reflexivity |].
  split; cbn [li_type li_elem_size li_fn_free li_array li_used li_size li_block]; try done.
  - by exists [].
  - change (zlen (A:=vtm_elem) []) with 0. lia.
  - apply u64_small. unfold is_size, SIZE_MAX. nia.
Qed.

Lemma list_grow_ok type k l li :
  list_ok type k l li -> li_used li = li_size li -> 2 * k <= 2 ^ 60 ->
  exists li', vtm_list_grow true li = (VTM_OK, li') /\ list_ok type k l li' /\ zlen l < li_size li'.
Proof.
  intros [Ht He Hf (rest & Ha) Hu Hs Hb Hc] Hfull Hk. pose proof (elem_size_range type).
  unfold vtm_list_grow, MAX_LIST_SIZE, SIZE_MAX.
  rewrite (proj2 (Z.eqb_neq _ _)) by lia.
  rewrite (u64_small (li_size li * 2)) by (unfold is_size, SIZE_MAX; lia).
  rewrite (proj2 (Z.ltb_ge (li_size li * 2) (li_size li))) by lia.
  rewrite (u64_small (li_size li * 2 * li_elem_size li)) by (unfold is_size, SIZE_MAX; nia).
  rewrite Ha, Z.div_mul by lia. eexists. split; [reflexivity |].
  split; [|cbn [li_size list_with_array]; lia].
  split; cbn [li_type li_elem_size li_fn_free li_array li_used li_size li_block list_with_array];
    try done; try lia.
  exists (take (Z.to_nat (li_size li * 2) - length l) rest).
  rewrite take_app. f_equal. f_equal. apply take_ge. unfold zlen in *. lia.
Qed.

Lemma list_write_ok type k l li cell :
  list_ok type k l li -> zlen l < li_size li -> k < 2 ^ 60 ->
  exists li', VTM_LIST_WRITE cell li = Some li' /\ list_ok type (k + 1) (l ++ [cell]) li'.
Proof.
  intros [Ht He Hf (rest & Ha) Hu Hs Hb Hc] Hlt Hk. pose proof (elem_size_range type).
  pose proof (zlen_nonneg l). unfold VTM_LIST_WRITE. rewrite Ha, Hu, Hb. cbn [mbind option_bind].
  rewrite (proj2 (Z.leb_le _ _)) by nia. replace (Z.to_nat (zlen l)) with (length l) by (unfold zlen; lia).
  rewrite decide_True by (rewrite length_app; lia). eexists. split; [reflexivity |].
  split; cbn [li_type li_elem_size li_fn_free li_array li_used li_size li_block list_with_used];
    try done; rewrite ?zlen_app; change (zlen [cell]) with 1; try lia.
  - exists (drop 1 rest). rewrite take_app_length. rewrite <- app_assoc. do 3 f_equal.
    replace (S (length l)) with (length l + 1)%nat by lia. by rewrite <- drop_drop, drop_app_length.
  - apply u64_small. unfold is_size, SIZE_MAX. lia.
Qed.

(** Growing when necessary. *)
Lemma list_room type k l li :
  list_ok type k l li -> 2 * k <= 2 ^ 60 ->
  exists li', (if li_used li =? li_size li then vtm_list_grow true li else (VTM_OK, li)) = (VTM_OK, li') /\
    list_ok type k l li' /\ zlen l < li_size li'.
Proof.
  intros Hok Hk. destruct (Z.eqb_spec (li_used li) (li_size li)) as [E|E].
  - by apply list_grow_ok.
  - exists li. split_and!; [done | done |]. destruct Hok as [_ _ _ _ Hu Hs _ _]. lia.
Qed.

Lemma list_remove_ok type k l li index :
  list_ok type k l li -> 0 <= index < zlen l ->
  exists li', vtm_list_remove li index = Some (VTM_OK, li') /\
    list_ok type k (delete (Z.to_nat index) l) li'.
Proof.
  intros [Ht He Hf (rest & Ha) Hu Hs Hb Hc] Hi. unfold zlen in *.
  unfold vtm_list_remove. rewrite Hu, (proj2 (Z.leb_gt _ _)) by lia. rewrite Ha. cbn [mbind option_bind].
  rewrite Nat2Z.id. set (i := Z.to_nat index). assert (i < length l)%nat as Hlt by lia.
  rewrite decide_True by (rewrite length_app; lia). eexists. split; [reflexivity |].
  assert (length (delete i l) = length l - 1)%nat as Hd by (apply length_delete, lookup_lt_is_Some_2; lia).
  split; cbn [li_type li_elem_size li_fn_free li_array li_used li_size li_block list_with_used];
    try done; unfold zlen; rewrite ?Hd; try lia.
  exists (drop (length l - 1) (l ++ rest)). f_equal. rewrite app_assoc. f_equal.
  rewrite delete_take_drop, take_app_le, drop_app_le by lia. f_equal.
  rewrite take_app_le by (rewrite length_drop; lia). apply take_ge. rewrite length_drop. lia.
Qed.

Lemma list_exec_ok type k l li op r l' :
  list_ok type k l li -> 2 * k <= 2 ^ 60 -> k < 2 ^ 60 -> spec_list_exec type op l = Some (r, l') ->
  exists li', list_exec op li = Some (r, li') /\ list_ok type (k + 1) l' li'.
Proof.
  intros Hok Hk Hk' Hs.
  assert (forall l0 li0, list_ok type k l0 li0 -> list_ok type (k + 1) l0 li0) as Hmono
    by (intros l0 li0 []; split; auto; lia).
  destruct op as [var|arg|index|index| |]; cbn [spec_list_exec list_exec] in *.
  - unfold vtm_list_add. destruct (lo_type _ _ _ _ Hok) as [Ht Hn]. rewrite Ht.
    destruct (decide (v_type var = type)) as [Hv|Hv].
    + rewrite decide_False by tauto. destruct (list_cell type (v_data var)) as [e|] eqn:Ec; [|done].
      injection Hs as <- <-. destruct (list_room type k l li Hok Hk) as (li1 & -> & Hok1 & Hlt).
      cbn [negb]. change (VTM_OK =? VTM_OK) with true. cbn [negb].
      destruct (lo_type _ _ _ _ Hok1) as [Ht1 _]. rewrite Ht1, decide_False by done. rewrite Ec.
      cbn [mbind option_bind]. destruct (list_write_ok type k l li1 e Hok1 Hlt Hk') as (li2 & -> & Hok2).
      by exists li2.
    + rewrite decide_True by done. injection Hs as <- <-. exists li. auto.
  - destruct (vtm_elem_parse type 0 arg) as [e0|] eqn:Ep; [|done]. cbn [mbind option_bind] in Hs.
    destruct (list_cell type e0) as [e|] eqn:Ec; [|done]. injection Hs as <- <-. unfold vtm_list_add_va.
    destruct (list_room type k l li Hok Hk) as (li1 & -> & Hok1 & Hlt).
    change (VTM_OK =? VTM_OK) with true. cbn [negb].
    destruct (lo_type _ _ _ _ Hok1) as [Ht1 Hn]. rewrite Ht1, decide_False by done. rewrite Ep.
    cbn [mbind option_bind]. rewrite Ec. cbn [mbind option_bind].
    destruct (list_write_ok type k l li1 e Hok1 Hlt Hk') as (li2 & -> & Hok2). by exists li2.
  - destruct (Z.leb_spec 0 index); [|done]. destruct (l !! Z.to_nat index) as [e|] eqn:El; [|done].
    injection Hs as <- <-. exists li. split; [|auto].
    destruct Hok as [_ _ _ (rest & Ha) _ _ _ _]. unfold VTM_LIST_READ. rewrite Ha. cbn [mbind option_bind].
    rewrite Z.eqb_refl, (proj2 (Z.leb_le 0 index)) by lia. cbn [andb].
    by rewrite lookup_app_l, El by by eapply lookup_lt_Some.
  - destruct (Z.ltb_spec index 0); [done |]. destruct (Z.ltb_spec index (zlen l)) as [Hlt|Hge].
    + injection Hs as <- <-. destruct (list_remove_ok type k l li index Hok ltac:(lia)) as (li' & -> & Hok').
      exists li'. auto.
    + injection Hs as <- <-. exists li. split; [|auto]. unfold vtm_list_remove.
      destruct Hok as [_ _ _ _ Hu _ _ _]. by rewrite Hu, (proj2 (Z.leb_le _ _)).
  - injection Hs as <- <-. exists li. split; [|auto]. destruct Hok as [_ _ _ _ Hu _ _ _].
    unfold vtm_list_size. by rewrite Hu.
  - injection Hs as <- <-. destruct Hok as [Ht He Hf (rest & Ha) Hu Hsz Hb Hc]. unfold vtm_list_clear. rewrite Hf.
    cbn [mbind option_bind]. eexists. split; [reflexivity |]. pose proof (zlen_nonneg l).
    split; cbn [li_type li_elem_size li_fn_free li_array li_used li_size li_block list_with_used]; try done;
      change (zlen (A:=vtm_elem) []) with 0; try lia. eauto.
Qed.

Lemma list_run_ok type ops : forall k l li rs l',
  list_ok type k l li -> 0 <= k -> 2 * (k + zlen ops) <= 2 ^ 60 -> spec_list_run type ops l = Some (rs, l') ->
  exists li', list_run ops li = Some (rs, li') /\ list_ok type (k + zlen ops) l' li'.
Proof.
  induction ops as [|op ops IH]; intros k l li rs l' Hok H0 Hk Hs; cbn [spec_list_run list_run] in *.
  - injection Hs as <- <-. exists li. split; [done |]. change (zlen (A:=list_op) []) with 0.
    by rewrite Z.add_0_r.
  - rewrite zlen_cons in *. pose proof (zlen_nonneg ops).
    destruct (spec_list_exec type op l) as [[r l1]|] eqn:E; [|done]. cbn [mbind option_bind] in Hs.
    destruct (spec_list_run type ops l1) as [[rs1 l2]|] eqn:E2; [|done]. injection Hs as <- <-.
    destruct (list_exec_ok type k l li op r l1 Hok) as (li1 & -> & Hok1); [lia | lia | done |].
    destruct (IH (k + 1) l1 li1 rs1 l2 Hok1) as (li2 & E3 & Hok2); [lia | lia | done |].
    exists li2. cbn [mbind option_bind]. rewrite E3. split; [done |].
    by replace (k + (1 + zlen ops)) with (k + 1 + zlen ops) by lia.
Qed.

(** ** Properties *)

(** C14: A list behaves as a sequence of values of its type.  Any sequence of
    additions (of variants and of promoted arguments), removals, reads, size
    queries and clearing on a new list of a non-zero capacity gives the results
    of the same operations on a sequence, growing of the array included:
    an addition appends the value converted to the element type, a variant of
    another type is refused, a removal closes the gap, an index behind the end is
    refused. *)
Theorem list_refines_seq type init ops rs l
    (Ht : type <> VTM_ELEM_NULL) (Hi : 1 <= init <= 2 ^ 60) (Hops : zlen ops <= 2 ^ 59)
    (Hs : spec_list_run type ops [] = Some (rs, l)) :
  exists li0 li, vtm_list_new true true type init = Some li0 /\
    list_run ops li0 = Some (rs, li) /\
    vtm_list_size li = zlen l /\ exists rest, li_array li = Some (l ++ rest).
Proof.
  destruct (list_new_ok type init Ht Hi) as (li0 & E0 & Hok0).
  destruct (list_run_ok type ops 0 [] li0 rs l Hok0) as (li & E & Hok); [done | lia | done |].
  exists li0, li. split_and!; [done | done | apply Hok | apply Hok].
Qed.

Lemma list_refines_seq_witness :
  let ops := [ListAddVa (VaInt 300); ListAddVa (VaInt (-1)); ListAdd vtm_variant_from_null;
              ListAddVa (VaInt 7); ListRemove 0; ListGet 0; ListRemove 2; ListSize] in
  let rs := [ListRc VTM_OK; ListRc VTM_OK; ListRc VTM_E_INVALID_ARG; ListRc VTM_OK; ListRc VTM_OK;
             ListVal (ElemWord 255); ListRc VTM_E_OUT_OF_RANGE; ListNum 2] in
  let l := [ElemWord 255; ElemWord 7] in
  exists li0 li, vtm_list_new true true VTM_ELEM_UINT8 1 = Some li0 /\
    list_run ops li0 = Some (rs, li) /\
    vtm_list_size li = zlen l /\ exists rest, li_array li = Some (l ++ rest).
Proof.
  apply (list_refines_seq VTM_ELEM_UINT8 1); [done | lia | vm_compute; done | vm_compute; reflexivity].
Defined.

(** The owned blocks of a list of pointers. *)
Definition list_addrs (l : list cptr) : list Z := map p_addr l.

Lemma list_free_loop_ok li ptrs rest : forall (done_ : list cptr) F h,
  li_elem_size li = 8 -> li_array li = Some (map ElemPtr (done_ ++ ptrs) ++ rest) ->
  Forall (fun p => is_null p = false) ptrs -> heap_ok F (list_addrs ptrs) h ->
  list_free_loop c_free li (length ptrs) (zlen done_) h = Some F.
Proof.
  induction ptrs as [|p ptrs IH]; intros done_ F h He Ha Hn Ho; cbn [list_free_loop length].
  - destruct Ho as (_ & _ & ->). cbn [list_addrs map list_to_set]. by rewrite (right_id_L ∅ (∪)).
  - apply Forall_cons in Hn as [Hp Hn].
    unfold vtm_list_get_pointer, VTM_LIST_READ. rewrite Ha, He. cbn [mbind option_bind].
    rewrite Z.eqb_refl, (proj2 (Z.leb_le 0 _)) by apply zlen_nonneg. cbn [andb].
    replace (Z.to_nat (zlen done_)) with (length done_) by (unfold zlen; lia). rewrite map_app, <- app_assoc. cbn [map].
    rewrite lookup_app_r by (rewrite length_map; lia). rewrite length_map, Nat.sub_diag.
    cbn [app lookup list_lookup mbind option_bind elem_pointer].
    destruct (heap_ok_free F (list_addrs ptrs) h p Ho Hp) as (h' & -> & Ho'). cbn [mbind option_bind].
    replace (zlen done_ + 1) with (zlen (done_ ++ [p])) by (rewrite zlen_app; done).
    apply (IH (done_ ++ [p]) F h'); auto. by rewrite <- (app_assoc done_ [p] ptrs).
Qed.

(** Clearing or freeing a list of pointers with a free function frees every
    element exactly once and nothing else: if the list owns distinct live blocks,
    afterwards exactly the other blocks are live, and the list is empty. *)
Theorem list_clear_frees li ptrs rest (F h : heap)
    (Hes : li_elem_size li = 8) (Hf : li_fn_free li = Some c_free)
    (Ha : li_array li = Some (map ElemPtr ptrs ++ rest)) (Hu : li_used li = zlen ptrs)
    (Hn : Forall (fun p => is_null p = false) ptrs) (Ho : heap_ok F (list_addrs ptrs) h) :
  vtm_list_clear li h = Some (list_with_used (li_array li) 0 li, F) /\
  vtm_list_free (Some li) h = Some F.
Proof.
  assert (vtm_list_clear li h = Some (list_with_used (li_array li) 0 li, F)) as E.
  { unfold vtm_list_clear. rewrite Hf, Hu. replace (Z.to_nat (zlen ptrs)) with (length ptrs) by (unfold zlen; lia).
    pose proof (list_free_loop_ok li ptrs rest [] F h Hes Ha Hn Ho) as E. change (zlen (A:=cptr) []) with 0 in E.
    by rewrite E. }
  split; [exact E |]. unfold vtm_list_free. by rewrite E.
Qed.

Lemma list_clear_frees_witness :
  let li := mk_list VTM_ELEM_STRING (Some c_free) (Some [ElemPtr (mk_ptr 16 [97]); ElemPtr (mk_ptr 32 [98])]) 64 8 2 8 in
  vtm_list_clear li {[16; 32; 48]} = Some (list_with_used (li_array li) 0 li, {[48]}) /\
  vtm_list_free (Some li) {[16; 32; 48]} = Some {[48]}.
Proof.
  apply (list_clear_frees (mk_list VTM_ELEM_STRING (Some c_free)
    (Some [ElemPtr (mk_ptr 16 [97]); ElemPtr (mk_ptr 32 [98])]) 64 8 2 8) [mk_ptr 16 [97]; mk_ptr 32 [98]] []);
    try reflexivity.
  - repeat constructor.
  - split_and!; [| |reflexivity].
    + apply (bool_decide_eq_true_1 (NoDup [16; 32])). reflexivity.
    + intros a Ha. repeat (apply elem_of_cons in Ha as [->|Ha]; [set_solver |]). by apply not_elem_of_nil in Ha.
Defined.

Lemma list_add_null_array ok li arg :
  li_array li = None -> li_used li <> li_size li -> li_type li <> VTM_ELEM_NULL ->
  vtm_list_add_va ok li arg = None.
Proof.
  intros Ha Hu Ht. unfold vtm_list_add_va. rewrite (proj2 (Z.eqb_neq _ _)) by done.
  change (VTM_OK =? VTM_OK) with true. cbn [negb]. rewrite decide_False by done.
  destruct (vtm_elem_parse _ _ _) as [e|]; [|done]. cbn [mbind option_bind].
  destruct (list_cell _ _); [|done]. cbn [mbind option_bind]. unfold VTM_LIST_WRITE. by rewrite Ha.
Qed.

(** Defects at the ends of the capacity.  If growing a full list fails for
    lack of memory, the array pointer is NULL afterwards and the doubled size
    stays: every element is lost and the next addition writes through the NULL
    pointer.  A list created with capacity 0 never takes an element, because
    doubling 0 gives no room: the addition fails, or writes behind an empty
    block.  The size in bytes of the first block wraps around: a list of 2^61+1
    words of 8 bytes has room for one, the second is written behind the block. *)
Theorem list_capacity_defects :
  (forall type k l li arg, list_ok type k l li -> li_used li = li_size li ->
     exists li', vtm_list_add_va false li arg = Some (VTM_E_MALLOC, li') /\
       (forall size i, VTM_LIST_READ size li' i = None) /\
       (forall ok arg', vtm_list_add_va ok li' arg' = None)) /\
  (forall type li ok arg, vtm_list_new true true type 0 = Some li ->
     vtm_list_add_va ok li arg
     = if ok then None else Some (VTM_E_MALLOC, list_with_array None 0 0 li)) /\
  (exists li li', vtm_list_new true true VTM_ELEM_UINT64 (2 ^ 61 + 1) = Some li /\
     vtm_list_add_va true li (VaInt 1) = Some (VTM_OK, li') /\ vtm_list_add_va true li' (VaInt 2) = None).
Proof.
  split_and!.
  - intros type k l li arg [[Ht Hnn] He Hf _ Hu Hs _ _] Hfull. pose proof (zlen_nonneg l).
    unfold vtm_list_add_va at 1. rewrite Hfull, Z.eqb_refl. unfold vtm_list_grow, MAX_LIST_SIZE, SIZE_MAX.
    rewrite (proj2 (Z.eqb_neq _ _)) by lia.
    rewrite (u64_small (li_size li * 2)) by (unfold is_size, SIZE_MAX; lia).
    rewrite (proj2 (Z.ltb_ge _ _)) by lia. change (VTM_E_MALLOC =? VTM_OK) with false. cbn [negb].
    eexists. split; [reflexivity |]. split; [done |]. intros ok arg'.
    apply list_add_null_array; cbn [li_array li_used li_size li_type list_with_array]; [done | lia | congruence].
  - intros type li ok arg Hnew. unfold vtm_list_new in Hnew. destruct (decide (type = VTM_ELEM_NULL)) as [|Hn]; [done |].
    cbn [negb] in Hnew. injection Hnew as <-. unfold vtm_list_add_va.
    cbn [li_used li_size]. rewrite Z.eqb_refl. unfold vtm_list_grow. cbn [li_size li_elem_size li_array].
    change (0 =? MAX_LIST_SIZE) with false. change (0 *sz 2) with 0. change (0 <? 0) with false. cbn iota.
    change (0 *sz vtm_elem_size type) with 0. destruct ok.
    + change (VTM_OK =? VTM_OK) with true. cbn [negb li_type list_with_array]. rewrite decide_False by done.
      destruct (vtm_elem_parse type 0 arg) as [e|]; [|done]. cbn [mbind option_bind].
      destruct (list_cell type e); [|done]. cbn [mbind option_bind]. by destruct type.
    + change (VTM_E_MALLOC =? VTM_OK) with false. done.
  - eexists _, _. split; [reflexivity |]. split; [vm_compute; reflexivity | vm_compute; reflexivity].
Qed.
