(* ===== verification/Serialization.v ===== *)
(** * Serialization: floating point numbers as integers, util/serialization.c

    A number is packed as sign, scaled significand and exponent.  Numbers are
    given by their bit patterns; the arithmetic is that of IEEE 754 with
    rounding to nearest, as SpecFloat of the Standard Library defines it.
    [None] is undefined behaviour: the conversion of an infinity to an integer. *)

From Stdlib Require Import SpecFloat.
From S2P Require Import Prelude Base Elem.

(** util/serialization.c:10-11 *)
Definition VTM_MANTISSA_23 : Z := 8388606.
Definition VTM_MANTISSA_52 : Z := 4503599627370494.

(** util/serialization.c:13-14 *)
Definition VTM_FLT_EXP_OFFSET : Z := 126.
Definition VTM_DBL_EXP_OFFSET : Z := 1022.

(** ** Arithmetic of one format *)

Section format.
(** Bits of the significand and of the exponent. *)
Context (mw ew : Z).

Definition fprec : Z := mw + 1.
Definition femax : Z := 2 ^ (ew - 1).

Definition f_of_Z (z : Z) : spec_float := binary_normalize fprec femax z 0 false.
Definition fadd : spec_float -> spec_float -> spec_float := SFadd fprec femax.
Definition fsub : spec_float -> spec_float -> spec_float := SFsub fprec femax.
Definition fmul : spec_float -> spec_float -> spec_float := SFmul fprec femax.
Definition fdiv : spec_float -> spec_float -> spec_float := SFdiv fprec femax.
(** 0.5 *)
Definition fhalf : spec_float := binary_normalize fprec femax 1 (-1) false.

(** frexp(): the exponent of zero is 0, of infinities and NaN it is not
    specified. *)
Definition frexp (f : spec_float) : spec_float * Z :=
  match f with
  | S754_finite _ _ _ => SFfrexp fprec femax f
  | _ => (f, 0)
  end.
Definition ldexp : spec_float -> Z -> spec_float := SFldexp fprec femax.

Definition fis_nan (f : spec_float) : bool := match f with S754_nan => true | _ => false end.
Definition fis_zero (f : spec_float) : bool := match f with S754_zero _ => true | _ => false end.

(** The significand of a packed number: 1 + (|frac| - 0.5) * 2 * scale. *)
Definition pack_mantissa (scale : Z) (frac : spec_float) : option Z :=
  if fis_zero frac then Some 0
  else
    Float.trunc (fadd (f_of_Z 1)
      (fmul (fmul (fsub (SFabs frac) fhalf) (f_of_Z 2)) (f_of_Z scale))).

(** The number of an unpacked significand and exponent. *)
Definition unpack_number (scale : Z) (sig : spec_float) (man exp : Z) : spec_float :=
  if man <? 1 then fmul sig (S754_zero false)
  else
    let mantissa := fdiv (fdiv (f_of_Z (man - 1)) (f_of_Z scale)) (f_of_Z 2) in
    fmul sig (ldexp (fadd mantissa fhalf) exp).
End format.

(** ** Operations *)

(** util/serialization.c:16-31.  The result code and the packed number. *)
Definition vtm_pack_float (bits : Z) : option (Z * Z) :=
  let f := Float.decode32 bits in
  if fis_nan f then Some (VTM_E_INVALID_ARG, 0)
  else
    let '(frac, exp) := frexp 23 8 f in
    mantissa ← pack_mantissa 23 8 VTM_MANTISSA_23 frac;
    let sign := if SFltb f (S754_zero false) then 2 ^ 31 else 0 in
    Some (VTM_OK, u32 (sign + u32 (Z.shiftl (u32 mantissa) 8) + u8 (exp + VTM_FLT_EXP_OFFSET))).

(** util/serialization.c:33-48 *)
Definition vtm_pack_double (bits : Z) : option (Z * Z) :=
  let f := Float.decode64 bits in
  if fis_nan f then Some (VTM_E_INVALID_ARG, 0)
  else
    let '(frac, exp) := frexp 52 11 f in
    mantissa ← pack_mantissa 52 11 VTM_MANTISSA_52 frac;
    let sign := if SFltb f (S754_zero false) then 2 ^ 63 else 0 in
    Some (VTM_OK, u64 (sign + u64 (Z.shiftl (u64 mantissa) 11) + u16 (exp + VTM_DBL_EXP_OFFSET))).

(** util/serialization.c:50-69 *)
Definition vtm_unpack_float (v : Z) : Z * Z :=
  let sig := f_of_Z 23 8 (if negb (Z.shiftr v 31 =? 0) then -1 else 1) in
  let exp := Z.land v 0xff - VTM_FLT_EXP_OFFSET in
  let man := Z.shiftr (Z.land v 0x7fffffff) 8 in
  (VTM_OK, Float.encode 23 8 (unpack_number 23 8 VTM_MANTISSA_23 sig man exp)).

(** util/serialization.c:71-90 *)
Definition vtm_unpack_double (v : Z) : Z * Z :=
  let sig := f_of_Z 52 11 (if negb (Z.shiftr v 63 =? 0) then -1 else 1) in
  let exp := Z.land v 0x7ff - VTM_DBL_EXP_OFFSET in
  let man := Z.shiftr (Z.land v 0x7fffffffffffffff) 11 in
  (VTM_OK, Float.encode 52 11 (unpack_number 52 11 VTM_MANTISSA_52 sig man exp)).

(** A number sent and received. *)
Definition transfer_float (bits : Z) : option Z :=
  '(rc, v) ← vtm_pack_float bits; if rc =? VTM_OK then Some (vtm_unpack_float v).2 else None.
Definition transfer_double (bits : Z) : option Z :=
  '(rc, v) ← vtm_pack_double bits; if rc =? VTM_OK then Some (vtm_unpack_double v).2 else None.

(** ** Properties *)

(** The bit pattern of 2^(e-127) or its negation, and the same for doubles. *)
Definition float_pow2 (s : bool) (e : Z) : Z := Z.b2z s * 2 ^ 31 + e * 2 ^ 23.
Definition double_pow2 (s : bool) (e : Z) : Z := Z.b2z s * 2 ^ 63 + e * 2 ^ 52.

Definition transfers (f : Z -> option Z) (v : Z) : bool :=
  match f v with Some w => w =? v | None => false end.

Lemma transfers_true f v : transfers f v = true -> f v = Some v.
Proof. unfold transfers. destruct (f v); [|done]. by intros ->%Z.eqb_eq. Qed.

(** Round trip.  Every power of two of either sign in the normal range of
    float and of double, 254 and 2046 exponents, is packed and unpacked without
    a change; so is zero. *)
Theorem pack_pow2_roundtrip s :
  (forall e, 1 <= e < 255 -> transfer_float (float_pow2 s e) = Some (float_pow2 s e)) /\
  (forall e, 1 <= e < 2047 -> transfer_double (double_pow2 s e) = Some (double_pow2 s e)) /\
  transfer_float 0 = Some 0 /\ transfer_double 0 = Some 0.
Proof.
  split_and!; [| | reflexivity | reflexivity].
  - intros e He. apply transfers_true.
    assert ((e =? 0) || transfers transfer_float (float_pow2 s e) = true) as H.
    { apply (check_below (fun e => (e =? 0) || transfers transfer_float (float_pow2 s e)) 255 e); [|lia].
      destruct s; vm_compute; reflexivity. }
    apply orb_prop in H as [H|H]; [apply Z.eqb_eq in H; lia | done].
  - intros e He. apply transfers_true.
    assert ((e =? 0) || transfers transfer_double (double_pow2 s e) = true) as H.
    { apply (check_below (fun e => (e =? 0) || transfers transfer_double (double_pow2 s e)) 2047 e); [|lia].
      destruct s; vm_compute; reflexivity. }
    apply orb_prop in H as [H|H]; [apply Z.eqb_eq in H; lia | done].
Qed.

(** Defects of the packing of floating point numbers.  The scale of the
    significand is 2^23-2 (2^52-2) and the result is truncated, so the number
    after 1.0 is received as 1.0 and the double nearest to 1.1 as its predecessor;
    negative zero loses its sign; the exponent of a denormal number wraps around,
    the smallest positive float is received as 2^107; and packing an infinity is
    undefined. *)
Theorem pack_defects :
  transfer_float (float_pow2 false 127 + 1) = Some (float_pow2 false 127) /\
  transfer_double 0x3ff199999999999a = Some 0x3ff1999999999999 /\
  transfer_float (2 ^ 31) = Some 0 /\ transfer_double (2 ^ 63) = Some 0 /\
  transfer_float 1 = Some (float_pow2 false 234) /\
  vtm_pack_float (255 * 2 ^ 23) = None /\ vtm_pack_double (2047 * 2 ^ 52) = None.
Proof. split_and!; vm_compute; reflexivity. Qed.
