(* ===== verification/Nm.v ===== *)
(** * Nm: messages of named values, net/nm/nm_protocol.c and nm_parser.c

    A message is a dataset, on the wire: magic, version, number of fields, and
    for each field name length, name, type number and value, strings and blobs
    with their length.  The parser reads a buffer and keeps its state between
    runs; one definition per larger state, [nm_switch] is the switch and
    [vtm_nm_parser_run] the loop around it.  The dataset, the name and the value
    that are being built live in the heap of Heap.v.  [None] is undefined
    behaviour. *)

From stdpp Require Import gmap fin_sets.
From S2P Require Import Prelude Base Buffer Str Ws Elem Hash Heap Table Smap Dataset Serialization.

(** net/nm/nm_protocol_intl.h:15-16 *)
Definition VTM_NM_PROTO_MAGIC : Z := 86.
Definition VTM_NM_PROTO_VER_1 : Z := 1.

(** net/nm/nm_protocol_intl.h:18-33.  The types that can be sent; the number of
    a type is its position, starting with 1. *)
Definition nm_types : list vtm_elem_type :=
  [VTM_ELEM_INT8; VTM_ELEM_UINT8; VTM_ELEM_INT16; VTM_ELEM_UINT16; VTM_ELEM_INT32; VTM_ELEM_UINT32;
   VTM_ELEM_INT64; VTM_ELEM_UINT64; VTM_ELEM_BOOL; VTM_ELEM_CHAR; VTM_ELEM_SCHAR; VTM_ELEM_UCHAR;
   VTM_ELEM_FLOAT; VTM_ELEM_DOUBLE; VTM_ELEM_STRING; VTM_ELEM_BLOB].

(** net/nm/nm_protocol.c:16-41.  [None] is VTM_E_NOT_SUPPORTED. *)
Definition vtm_nm_type_to_num (type : vtm_elem_type) : option Z :=
  match type with
  | VTM_ELEM_INT8 => Some 1 | VTM_ELEM_UINT8 => Some 2 | VTM_ELEM_INT16 => Some 3
  | VTM_ELEM_UINT16 => Some 4 | VTM_ELEM_INT32 => Some 5 | VTM_ELEM_UINT32 => Some 6
  | VTM_ELEM_INT64 => Some 7 | VTM_ELEM_UINT64 => Some 8 | VTM_ELEM_BOOL => Some 9
  | VTM_ELEM_CHAR => Some 10 | VTM_ELEM_SCHAR => Some 11 | VTM_ELEM_UCHAR => Some 12
  | VTM_ELEM_FLOAT => Some 13 | VTM_ELEM_DOUBLE => Some 14 | VTM_ELEM_STRING => Some 15
  | VTM_ELEM_BLOB => Some 16
  | _ => None
  end.

(** net/nm/nm_protocol.c:43-68.  [None] is VTM_E_NOT_SUPPORTED. *)
Definition vtm_nm_type_from_num (c : Z) : option vtm_elem_type :=
  if (1 <=? c) && (c <=? 16) then nm_types !! Z.to_nat (c - 1) else None.

(** ** The parser *)

(** net/nm/nm_parser_intl.h:17-31 [enum vtm_nm_parser_state] *)
Inductive vtm_nm_parser_state :=
  | VTM_NM_PARSE_MSG_BEGIN | VTM_NM_PARSE_MAGIC | VTM_NM_PARSE_VERSION | VTM_NM_PARSE_FIELD_COUNT
  | VTM_NM_PARSE_FIELD_BEGIN | VTM_NM_PARSE_NAME_LEN | VTM_NM_PARSE_NAME | VTM_NM_PARSE_VALUE_TYPE
  | VTM_NM_PARSE_VALUE_LEN | VTM_NM_PARSE_VALUE | VTM_NM_PARSE_FIELD_COMPLETE
  | VTM_NM_PARSE_MSG_COMPLETE.

(** net/nm/nm_parser_intl.h:33-48 [struct vtm_nm_parser].  Pointers are [None]
    when NULL. *)
Record vtm_nm_parser := mk_nm {
  nm_order : vtm_byteorder;
  nm_state : vtm_nm_parser_state;
  nm_msg : option vtm_dataset;
  nm_field_count : Z;
  nm_fields_parsed : Z;
  nm_name_len : Z;
  nm_name : option cptr;
  nm_value_type : vtm_elem_type;
  nm_value_len : Z;
  nm_value : vtm_elem
}.

(** Field updates. *)
Definition nm_to (s : vtm_nm_parser_state) (p : vtm_nm_parser) : vtm_nm_parser :=
  mk_nm (nm_order p) s (nm_msg p) (nm_field_count p) (nm_fields_parsed p) (nm_name_len p) (nm_name p)
    (nm_value_type p) (nm_value_len p) (nm_value p).
Definition nm_set_counts (count parsed : Z) (p : vtm_nm_parser) : vtm_nm_parser :=
  mk_nm (nm_order p) (nm_state p) (nm_msg p) count parsed (nm_name_len p) (nm_name p)
    (nm_value_type p) (nm_value_len p) (nm_value p).
Definition nm_set_name (len : Z) (name : option cptr) (p : vtm_nm_parser) : vtm_nm_parser :=
  mk_nm (nm_order p) (nm_state p) (nm_msg p) (nm_field_count p) (nm_fields_parsed p) len name
    (nm_value_type p) (nm_value_len p) (nm_value p).
Definition nm_set_type (type : vtm_elem_type) (len : Z) (p : vtm_nm_parser) : vtm_nm_parser :=
  mk_nm (nm_order p) (nm_state p) (nm_msg p) (nm_field_count p) (nm_fields_parsed p) (nm_name_len p)
    (nm_name p) type len (nm_value p).
Definition nm_set_value (v : vtm_elem) (p : vtm_nm_parser) : vtm_nm_parser :=
  mk_nm (nm_order p) (nm_state p) (nm_msg p) (nm_field_count p) (nm_fields_parsed p) (nm_name_len p)
    (nm_name p) (nm_value_type p) (nm_value_len p) v.
Definition nm_set_msg (msg : option vtm_dataset) (p : vtm_nm_parser) : vtm_nm_parser :=
  mk_nm (nm_order p) (nm_state p) msg (nm_field_count p) (nm_fields_parsed p) (nm_name_len p)
    (nm_name p) (nm_value_type p) (nm_value_len p) (nm_value p).

(** net/nm/nm_parser.c:15-21.  [p] is the uninitialised struct. *)
Definition vtm_nm_parser_init (p : vtm_nm_parser) : vtm_nm_parser :=
  mk_nm vtm_sys_get_byteorder VTM_NM_PARSE_MSG_BEGIN None (nm_field_count p) (nm_fields_parsed p)
    (nm_name_len p) None (nm_value_type p) (nm_value_len p) (nm_value p).

(** net/nm/nm_parser.c:23-30 *)
Definition vtm_nm_parser_release (p : vtm_nm_parser) (h : heap) : option heap :=
  h ← vtm_dataset_free (nm_msg p) h;
  match nm_name p with Some name => c_free name h | None => Some h end.

(** net/nm/nm_parser.c:32-36 *)
Definition vtm_nm_parser_reset (p : vtm_nm_parser) (h : heap) : option (vtm_nm_parser * heap) :=
  h ← vtm_nm_parser_release p h; Some (vtm_nm_parser_init p, h).

(** What the parser works on. *)
Record nm_env := mk_nm_env { nm_par : vtm_nm_parser; nm_buf : vtm_buf; nm_heap : heap }.

Inductive nm_ctl := NmLoop | NmReturn (s : vtm_net_recv_stat).

Definition nm_again (e : nm_env) : option (nm_ctl * nm_env) :=
  Some (NmReturn VTM_NET_RECV_STAT_AGAIN, e).
Definition nm_fail (s : vtm_net_recv_stat) (e : nm_env) : option (nm_ctl * nm_env) :=
  Some (NmReturn s, e).
Definition nm_loop (p : vtm_nm_parser) (b : vtm_buf) (h : heap) : option (nm_ctl * nm_env) :=
  Some (NmLoop, mk_nm_env p b h).

Section parser.
(** The answers of malloc() by size, and those for the dataset. *)
Context (malloc_ok : Z -> bool) (ds_ok : bool) (a : ds_alloc).

(** net/nm/nm_parser.c:52-72.  One expected byte. *)
Definition nm_expect (e : nm_env) (want : Z) (next : vtm_nm_parser_state)
    : option (nm_ctl * nm_env) :=
  if negb (VTM_BUF_GET_AVAIL (nm_buf e) 1) then nm_again e
  else
    '(c, b) ← VTM_BUF_GETC (nm_buf e);
    let e := mk_nm_env (nm_par e) b (nm_heap e) in
    if negb (i8 c =? want) then nm_fail VTM_NET_RECV_STAT_INVALID e
    else nm_loop (nm_to next (nm_par e)) b (nm_heap e).

(** net/nm/nm_parser.c:74-81 *)
Definition nm_parse_field_count (e : nm_env) : option (nm_ctl * nm_env) :=
  let p := nm_par e in
  if negb (VTM_BUF_GET_AVAIL (nm_buf e) 2) then nm_again e
  else
    '(l, b) ← vtm_buf_geto (nm_buf e) 2 (nm_order p);
    nm_loop (nm_to VTM_NM_PARSE_FIELD_BEGIN (nm_set_counts (ord_val host l) 0 p)) b (nm_heap e).

(** net/nm/nm_parser.c:90-99 *)
Definition nm_parse_name_len (e : nm_env) : option (nm_ctl * nm_env) :=
  let p := nm_par e in
  if negb (VTM_BUF_GET_AVAIL (nm_buf e) 1) then nm_again e
  else
    '(l, b) ← vtm_buf_geto (nm_buf e) 1 (nm_order p);
    let p := nm_set_name (ord_val host l) (nm_name p) p in
    if nm_name_len p =? 0 then nm_fail VTM_NET_RECV_STAT_INVALID (mk_nm_env p b (nm_heap e))
    else nm_loop (nm_to VTM_NM_PARSE_NAME p) b (nm_heap e).

(** net/nm/nm_parser.c:101-114 *)
Definition nm_parse_name (e : nm_env) : option (nm_ctl * nm_env) :=
  let p := nm_par e in
  if negb (VTM_BUF_GET_AVAIL (nm_buf e) (nm_name_len p)) then nm_again e
  else if negb (malloc_ok (nm_name_len p + 1)) then
    nm_fail VTM_NET_RECV_STAT_ERROR
      (mk_nm_env (nm_set_name (nm_name_len p) None p) (nm_buf e) (nm_heap e))
  else
    '(l, b) ← vtm_buf_getm (nm_buf e) (nm_name_len p);
    let '(name, h) := c_malloc true (until_nul l) (nm_heap e) in
    nm_loop (nm_to VTM_NM_PARSE_VALUE_TYPE (nm_set_name (nm_name_len p) (Some name) p)) b h.

(** net/nm/nm_parser.c:116-146 *)
Definition nm_parse_value_type (e : nm_env) : option (nm_ctl * nm_env) :=
  let p := nm_par e in
  if negb (VTM_BUF_GET_AVAIL (nm_buf e) 1) then nm_again e
  else
    '(c, b) ← VTM_BUF_GETC (nm_buf e);
    match vtm_nm_type_from_num (u8 c) with
    | None => nm_fail VTM_NET_RECV_STAT_INVALID (mk_nm_env p b (nm_heap e))
    | Some type =>
        let '(len, next) :=
          match type with
          | VTM_ELEM_FLOAT => (4, VTM_NM_PARSE_VALUE)
          | VTM_ELEM_DOUBLE => (8, VTM_NM_PARSE_VALUE)
          | VTM_ELEM_STRING | VTM_ELEM_BLOB => (nm_value_len p, VTM_NM_PARSE_VALUE_LEN)
          | _ => (vtm_elem_size type, VTM_NM_PARSE_VALUE)
          end in
        nm_loop (nm_to next (nm_set_type type len p)) b (nm_heap e)
    end.

(** net/nm/nm_parser.c:148-154 *)
Definition nm_parse_value_len (e : nm_env) : option (nm_ctl * nm_env) :=
  let p := nm_par e in
  if negb (VTM_BUF_GET_AVAIL (nm_buf e) 4) then nm_again e
  else
    '(l, b) ← vtm_buf_geto (nm_buf e) 4 (nm_order p);
    nm_loop (nm_to VTM_NM_PARSE_VALUE (nm_set_type (nm_value_type p) (ord_val host l) p)) b (nm_heap e).

(** net/nm/nm_parser.c:156-198.  A string of 2^32-1 bytes is stored in a block of
    size 0: the addition wraps around. *)
Definition nm_parse_value (e : nm_env) : option (nm_ctl * nm_env) :=
  let p := nm_par e in
  let b := nm_buf e in
  let len := nm_value_len p in
  let complete v b h := nm_loop (nm_to VTM_NM_PARSE_FIELD_COMPLETE (nm_set_value v p)) b h in
  let oom := nm_fail VTM_NET_RECV_STAT_ERROR (mk_nm_env (nm_set_value (ElemPtr NULL) p) b (nm_heap e)) in
  if negb (VTM_BUF_GET_AVAIL b len) then nm_again e
  else
    match nm_value_type p with
    | VTM_ELEM_FLOAT =>
        '(l, b) ← vtm_buf_geto b 4 (nm_order p);
        let '(_, bits) := vtm_unpack_float (ord_val host l) in
        complete (elem_store 4 bits (elem_word (nm_value p))) b (nm_heap e)
    | VTM_ELEM_DOUBLE =>
        '(l, b) ← vtm_buf_geto b 8 (nm_order p);
        let '(_, bits) := vtm_unpack_double (ord_val host l) in
        complete (elem_store 8 bits (elem_word (nm_value p))) b (nm_heap e)
    | VTM_ELEM_STRING =>
        if negb (malloc_ok (u32 (len + 1))) then oom
        else if u32 (len + 1) <=? len then None
        else
          '(l, b) ← vtm_buf_getm b len;
          let '(s, h) := c_malloc true (until_nul l) (nm_heap e) in complete (ElemPtr s) b h
    | VTM_ELEM_BLOB =>
        if negb (malloc_ok (len + 4)) then oom
        else
          '(l, b) ← vtm_buf_getm b len;
          let '(s, h) := vtm_blob_new true len l (nm_heap e) in
          if is_null s then None else complete (ElemPtr s) b h
    | _ =>
        '(l, b) ← vtm_buf_geto b len (nm_order p);
        complete (elem_store len (ord_val host l) (elem_word (nm_value p))) b (nm_heap e)
    end.

(** net/nm/nm_parser.c:200-220 *)
Definition nm_parse_field_complete (e : nm_env) : option (nm_ctl * nm_env) :=
  let p := nm_par e in
  match (match nm_msg p with Some ds => Some ds | None => vtm_dataset_new ds_ok end) with
  | None => nm_fail VTM_NET_RECV_STAT_ERROR e
  | Some ds =>
      name ← nm_name p;
      let var := mk_variant (nm_value p) (nm_value_type p) None in
      '(ds, h) ← vtm_dataset_set_variant a ds name var (nm_heap e);
      h ← c_free name h;
      h ← (if decide (nm_value_type p = VTM_ELEM_STRING) then
             s ← elem_pointer (nm_value p); c_free s h
           else Some h);
      let p := nm_set_name (nm_name_len p) None (nm_set_msg (Some ds) p) in
      nm_loop (nm_to VTM_NM_PARSE_FIELD_BEGIN
                 (nm_set_counts (nm_field_count p) (u16 (nm_fields_parsed p + 1)) p)) (nm_buf e) h
  end.

(** net/nm/nm_parser.c:47-224.  The switch. *)
Definition nm_switch (e : nm_env) : option (nm_ctl * nm_env) :=
  let p := nm_par e in
  match nm_state p with
  | VTM_NM_PARSE_MSG_BEGIN => nm_loop (nm_to VTM_NM_PARSE_MAGIC p) (nm_buf e) (nm_heap e)
  | VTM_NM_PARSE_MAGIC => nm_expect e VTM_NM_PROTO_MAGIC VTM_NM_PARSE_VERSION
  | VTM_NM_PARSE_VERSION => nm_expect e VTM_NM_PROTO_VER_1 VTM_NM_PARSE_FIELD_COUNT
  | VTM_NM_PARSE_FIELD_COUNT => nm_parse_field_count e
  | VTM_NM_PARSE_FIELD_BEGIN =>
      nm_loop (nm_to (if nm_fields_parsed p =? nm_field_count p then VTM_NM_PARSE_MSG_COMPLETE
                      else VTM_NM_PARSE_NAME_LEN) p) (nm_buf e) (nm_heap e)
  | VTM_NM_PARSE_NAME_LEN => nm_parse_name_len e
  | VTM_NM_PARSE_NAME => nm_parse_name e
  | VTM_NM_PARSE_VALUE_TYPE => nm_parse_value_type e
  | VTM_NM_PARSE_VALUE_LEN => nm_parse_value_len e
  | VTM_NM_PARSE_VALUE => nm_parse_value e
  | VTM_NM_PARSE_FIELD_COMPLETE => nm_parse_field_complete e
  | VTM_NM_PARSE_MSG_COMPLETE => nm_fail VTM_NET_RECV_STAT_COMPLETE e
  end.

Fixpoint nm_run_loop (fuel : nat) (e : nm_env) : option (vtm_net_recv_stat * nm_env) :=
  match fuel with
  | O => None
  | S fuel' =>
      '(ctl, e) ← nm_switch e;
      match ctl with NmLoop => nm_run_loop fuel' e | NmReturn s => Some (s, e) end
  end.

(** Every byte is read in one state, and at most four states read nothing in a
    row. *)
Definition nm_fuel (b : vtm_buf) : nat := Z.to_nat (5 * VTM_BUF_GET_AVAIL_TOTAL b + 6).

(** net/nm/nm_parser.c:38-229 *)
Definition vtm_nm_parser_run (e : nm_env) : option (vtm_net_recv_stat * nm_env) :=
  nm_run_loop (nm_fuel (nm_buf e)) e.
End parser.

(** net/nm/nm_parser.c:231-245.  [None] as message is NULL. *)
Definition vtm_nm_parser_get_msg (p : vtm_nm_parser) : option vtm_dataset * vtm_nm_parser :=
  match nm_state p with
  | VTM_NM_PARSE_MSG_COMPLETE => (nm_msg p, nm_to VTM_NM_PARSE_MSG_BEGIN (nm_set_msg None p))
  | _ => (None, p)
  end.

(** net/nm/nm_protocol.c:184-196 *)
Definition vtm_nm_msg_from_buf malloc_ok ds_ok a (junk : vtm_nm_parser) (msg : vtm_dataset) (b : vtm_buf)
    (h : heap) : option (Z * option vtm_dataset * vtm_buf * heap) :=
  let par := nm_set_msg (Some msg) (vtm_nm_parser_init junk) in
  '(stat, e) ← vtm_nm_parser_run malloc_ok ds_ok a (mk_nm_env par b h);
  h ← vtm_nm_parser_release (nm_set_msg None (nm_par e)) (nm_heap e);
  Some (match stat with VTM_NET_RECV_STAT_COMPLETE => VTM_OK | _ => VTM_ERROR end,
        nm_msg (nm_par e), nm_buf e, h).

(** ** Writing *)

Section writer.
Context (malloc_ok : Z -> bool).

Definition nm_puto (b : vtm_buf) (n v : Z) : vtm_buf :=
  (vtm_buf_puto malloc_ok b (ord_bytes host (Z.to_nat n) v) vtm_sys_get_byteorder).1.

(** net/nm/nm_protocol.c:125-169.  The value of a field; the code is that of the
    last assignment to [rc], which was VTM_OK before. *)
Definition nm_put_value (var : vtm_variant) (b : vtm_buf) : option (Z * vtm_buf) :=
  match v_type var with
  | VTM_ELEM_FLOAT =>
      '(rc, v) ← vtm_pack_float (elem_float (v_data var));
      if rc =? VTM_OK then Some (VTM_OK, nm_puto b 4 v) else Some (rc, b)
  | VTM_ELEM_DOUBLE =>
      '(rc, v) ← vtm_pack_double (elem_double (v_data var));
      if rc =? VTM_OK then Some (VTM_OK, nm_puto b 8 v) else Some (rc, b)
  | VTM_ELEM_STRING =>
      p ← elem_pointer (v_data var);
      if is_null p then None
      else
        let len := zlen (p_text p) in
        if UINT32_MAX <? len then Some (VTM_E_NOT_SUPPORTED, b)
        else Some (VTM_OK, (vtm_buf_putm malloc_ok (nm_puto b 4 len) (p_text p)).1)
  | VTM_ELEM_BLOB =>
      p ← elem_pointer (v_data var);
      if is_null p then None
      else
        let len := vtm_blob_size p in
        if UINT32_MAX <? len then Some (VTM_E_NOT_SUPPORTED, b)
        else Some (VTM_OK, (vtm_buf_putm malloc_ok (nm_puto b 4 len) (ztake len (p_text p))).1)
  | type => Some (VTM_OK, nm_puto b (vtm_elem_size type) (elem_word (v_data var)))
  end.

(** net/nm/nm_protocol.c:105-169.  One field. *)
Definition nm_put_field (entry : option cptr * vtm_variant) (b : vtm_buf) : option (Z * vtm_buf) :=
  name ← entry.1;
  if is_null name then None
  else
    let len := zlen (p_text name) in
    if UCHAR_MAX <? len then Some (VTM_E_NOT_SUPPORTED, b)
    else
      let b := (vtm_buf_putc malloc_ok b len).1 in
      let b := (vtm_buf_puts malloc_ok b (p_text name)).1 in
      match vtm_nm_type_to_num (v_type entry.2) with
      | None => Some (VTM_E_NOT_SUPPORTED, b)
      | Some c => nm_put_value entry.2 (vtm_buf_putc malloc_ok b c).1
      end.

(** net/nm/nm_protocol.c:103-171.  The loop over the fields; [rc] is the variable
    of the function, the flag tells whether the loop was left by goto. *)
Fixpoint nm_put_fields (entries : list (option cptr * vtm_variant)) (rc : Z) (b : vtm_buf)
    : option (bool * Z * vtm_buf) :=
  match entries with
  | [] => Some (false, rc, b)
  | entry :: entries' =>
      '(rc, b) ← nm_put_field entry b;
      if rc =? VTM_OK then nm_put_fields entries' rc b else Some (true, rc, b)
  end.

(** net/nm/nm_protocol.c:70-182.  [rc0] is what the variable [rc] holds, which
    is not initialised. *)
Definition vtm_nm_msg_to_buf (ok_entries : bool) (rc0 : Z) (msg : option vtm_dataset) (b : vtm_buf)
    : option (Z * vtm_buf) :=
  match vtm_dataset_entryset ok_entries msg with
  | None => Some (VTM_ERROR, b)
  | Some entries =>
      let b := (vtm_buf_putc malloc_ok b VTM_NM_PROTO_MAGIC).1 in
      let b := (vtm_buf_putc malloc_ok b VTM_NM_PROTO_VER_1).1 in
      let count := zlen entries in
      if UINT16_MAX <? count then Some (VTM_E_OVERFLOW, b)
      else
        '(jumped, rc, b) ← nm_put_fields entries rc0 (nm_puto b 2 count);
        Some (if negb jumped && negb (buf_err b =? VTM_OK) then buf_err b else rc, b)
  end.
End writer.
