(* ===== verification/NmProps.v ===== *)
(** * NmProps: the message parser stays within its buffer, ends and loses no
    memory; messages survive the way through a buffer *)

From stdpp Require Import gmap fin_sets.
From S2P Require Import Prelude Base Buffer Str Ws Elem Hash Heap Table Smap Dataset Serialization Nm.

(** ** Blocks that change their owner *)

Lemma heap_ok_lend F l1 l2 h :
  heap_ok F (l1 ++ l2) h <->
  heap_ok (list_to_set l1 ∪ F) l2 h /\ NoDup l1 /\ forall a, a ∈ l1 -> a ∉ F.
Proof.
  unfold heap_ok. rewrite NoDup_app, list_to_set_app_L. split.
  - intros ((H1 & H2 & H3) & Hf & ->). split_and!; auto.
    + intros a Ha. rewrite elem_of_union, elem_of_list_to_set. intros [Hx|Hx]; [by eapply H2|].
      apply (Hf a); [set_solver | done].
    + set_solver.
    + intros a Ha. apply Hf. set_solver.
  - intros ((H1 & Hf & ->) & H2 & H3). split_and!; auto.
    + intros a Ha Ha2. apply (Hf a Ha2). set_solver.
    + intros a [Ha|Ha]%elem_of_app; [auto |]. specialize (Hf a Ha). set_solver.
    + set_solver.
Qed.

Lemma elem_size_le type : 1 <= vtm_elem_size type <= 8.
Proof. by destruct type. Qed.

Definition is_ref_type (type : vtm_elem_type) : bool :=
  bool_decide (type = VTM_ELEM_STRING \/ type = VTM_ELEM_BLOB).

(** The block of a value that was parsed. *)
Definition value_block (type : vtm_elem_type) (v : vtm_elem) : list Z :=
  if is_ref_type type then [elem_word v] else [].

Definition value_valid (type : vtm_elem_type) (v : vtm_elem) : Prop :=
  type ∈ nm_types /\ (is_ref_type type = true -> exists p, v = ElemPtr p /\ is_null p = false).

Section safe.
Context (malloc_ok : Z -> bool) (printf_g : Z -> bytes) (ds_ok : bool).

Abbreviation wf := (ds_wf malloc_ok printf_g).

(** Storing a field: the name is copied and freed, a string too, a blob is
    handed over. *)
Lemma nm_store_ok F ds name type v h :
  wf ds -> is_null name = false -> is_cstr (p_text name) -> value_valid type v ->
  heap_ok F (p_addr name :: value_block type v ++ ds_owned ds) h ->
  exists ds' h1 h2 h3,
    vtm_dataset_set_variant alloc_ok ds name (mk_variant v type None) h = Some (ds', h1) /\
    c_free name h1 = Some h2 /\
    (if decide (type = VTM_ELEM_STRING) then s ← elem_pointer v; c_free s h2 else Some h2) = Some h3 /\
    wf ds' /\ hints ds' = hints ds /\ heap_ok F (ds_owned ds') h3 /\
    ds_abs ds' = <[ds_canon (hints ds) (p_text name) := canon_variant (mk_variant v type None)]> (ds_abs ds).
Proof.
  intros Hw Hnn Hnc [Ht Hv] Ho. set (k := ds_canon (hints ds) (p_text name)).
  set (cv := canon_variant (mk_variant v type None)).
  assert (name_ok name = true) as Hname by by apply name_ok_spec.
  assert (forall F1 F2, heap_ok F1 (ds_owned ds) h ->
    spec_set k (SetVariant (mk_variant v type None)) (ds_abs ds, F1) = Some (<[k := cv]> (ds_abs ds), F2) ->
    exists ds' h', vtm_dataset_set_variant alloc_ok ds name (mk_variant v type None) h = Some (ds', h') /\
      wf ds' /\ hints ds' = hints ds /\ heap_ok F2 (ds_owned ds') h' /\ ds_abs ds' = <[k := cv]> (ds_abs ds)) as Hset.
  { intros F1 F2 Ho1 Hs. by destruct (ds_set_variant_ok malloc_ok printf_g F1 ds name _ h _ Hw Hname Ho1 Hs)
      as (ds' & h' & H); exists ds', h'. }
  unfold value_block in Ho. destruct (is_ref_type type) eqn:Er; cbn [app] in Ho.
  - destruct (Hv eq_refl) as (p & -> & Hp). cbn [elem_word] in Ho.
    apply bool_decide_eq_true in Er as Er'.
    apply (heap_ok_lend F [p_addr name; p_addr p]) in Ho as (Ho & Hnd & Hf).
    destruct Er' as [-> | ->].
    + destruct (Hset _ (list_to_set [p_addr name; p_addr p] ∪ F) Ho) as (ds' & h1 & E & Hw' & Hh & Ho' & Ha); [cbn; by rewrite Hp |].
      assert (heap_ok F ([p_addr name; p_addr p] ++ ds_owned ds') h1) as Ho2 by by apply heap_ok_lend.
      destruct (heap_ok_free _ _ _ _ Ho2 Hnn) as (h2 & E2 & Ho3).
      destruct (heap_ok_free _ _ _ _ Ho3 Hp) as (h3 & E3 & Ho4).
      exists ds', h1, h2, h3. rewrite decide_True by done. cbn [elem_pointer mbind option_bind]. by split_and!.
    + destruct (Hset _ (list_to_set [p_addr name] ∪ F) Ho) as (ds' & h1 & E & Hw' & Hh & Ho' & Ha).
      { cbn [spec_set v_type v_data]. unfold spec_put. rewrite decide_True by done.
        cbn [vtm_variant_from_blob v_data elem_pointer mbind option_bind fst snd]. rewrite Hp.
        rewrite decide_True by set_solver. do 2 f_equal. apply NoDup_cons in Hnd as [Hnd _].
        assert (p_addr p ∉ F) by (apply Hf; set_solver). set_solver. }
      assert (heap_ok F ([p_addr name] ++ ds_owned ds') h1) as Ho2.
      { apply heap_ok_lend. split_and!; [done | apply NoDup_singleton |]. intros a Ha'. apply Hf. set_solver. }
      destruct (heap_ok_free _ _ _ _ Ho2 Hnn) as (h2 & E2 & Ho3).
      exists ds', h1, h2, h2. by rewrite decide_False by done.
  - apply (heap_ok_lend F [p_addr name]) in Ho as (Ho & Hnd & Hf).
    apply bool_decide_eq_false in Er.
    destruct (Hset _ (list_to_set [p_addr name] ∪ F) Ho) as (ds' & h1 & E & Hw' & Hh & Ho' & Ha).
    { cbn [spec_set v_type v_data]. by destruct type; try done; destruct Er; auto. }
    assert (heap_ok F ([p_addr name] ++ ds_owned ds') h1) as Ho2 by by apply heap_ok_lend.
    destruct (heap_ok_free _ _ _ _ Ho2 Hnn) as (h2 & E2 & Ho3).
    exists ds', h1, h2, h2. rewrite decide_False by (intros ->; auto). by split_and!.
Qed.

(** ** Invariant *)

Definition nm_named (p : vtm_nm_parser) : Prop :=
  exists n, nm_name p = Some n /\ is_null n = false /\ is_cstr (p_text n).

Definition nm_state_ok (p : vtm_nm_parser) : Prop :=
  match nm_state p with
  | VTM_NM_PARSE_NAME => nm_name p = None /\ 1 <= nm_name_len p <= 255
  | VTM_NM_PARSE_VALUE_TYPE => nm_named p
  | VTM_NM_PARSE_VALUE_LEN => nm_named p /\ is_ref_type (nm_value_type p) = true
  | VTM_NM_PARSE_VALUE =>
      nm_named p /\ nm_value_type p ∈ nm_types /\ 0 <= nm_value_len p <= UINT32_MAX /\
      (is_ref_type (nm_value_type p) = false -> nm_value_len p = vtm_elem_size (nm_value_type p))
  | VTM_NM_PARSE_FIELD_COMPLETE => nm_named p /\ value_valid (nm_value_type p) (nm_value p)
  | _ => nm_name p = None
  end.

(** The blocks of the parser. *)
Definition nm_owned (p : vtm_nm_parser) : list Z :=
  match nm_name p with Some n => [p_addr n] | None => [] end ++
  match nm_state p with
  | VTM_NM_PARSE_FIELD_COMPLETE => value_block (nm_value_type p) (nm_value p)
  | _ => []
  end ++
  match nm_msg p with Some ds => ds_owned ds | None => [] end.

Record nm_inv (F : heap) (e : nm_env) : Prop := {
  ni_buf : buf_ok (nm_buf e);
  ni_len : zlen (buf_content (nm_buf e)) < UINT32_MAX;
  ni_state : nm_state_ok (nm_par e);
  ni_msg : match nm_msg (nm_par e) with Some ds => wf ds | None => True end;
  ni_heap : heap_ok F (nm_owned (nm_par e)) (nm_heap e)
}.

(** ** Termination *)

Definition nm_rank (s : vtm_nm_parser_state) : Z :=
  match s with
  | VTM_NM_PARSE_MSG_BEGIN | VTM_NM_PARSE_NAME_LEN | VTM_NM_PARSE_MSG_COMPLETE => 1
  | VTM_NM_PARSE_FIELD_BEGIN => 2
  | VTM_NM_PARSE_FIELD_COMPLETE => 3
  | VTM_NM_PARSE_VALUE => 4
  | _ => 0
  end.

Definition nm_measure (e : nm_env) : Z :=
  5 * zlen (buf_content (nm_buf e)) + nm_rank (nm_state (nm_par e)).

(** What a step guarantees. *)
Definition nm_post (F : heap) (e : nm_env) (r : option (nm_ctl * nm_env)) : Prop :=
  exists ctl e', r = Some (ctl, e') /\ nm_inv F e' /\
    match ctl with
    | NmLoop => 0 <= nm_measure e' < nm_measure e
    | NmReturn s => s = VTM_NET_RECV_STAT_COMPLETE -> nm_state (nm_par e') = VTM_NM_PARSE_MSG_COMPLETE
    end.

Lemma nm_stop_post F e e' s :
  nm_inv F e' -> s <> VTM_NET_RECV_STAT_COMPLETE -> nm_post F e (nm_fail s e').
Proof. intros Hi Hs. exists (NmReturn s), e'. by split_and!. Qed.

Lemma nm_rank_pos s : 0 <= nm_rank s.
Proof. by destruct s. Qed.

Lemma nm_loop_post F e p b h n :
  nm_inv F e -> buf_ok b -> buf_content b = zdrop n (buf_content (nm_buf e)) ->
  0 <= n <= zlen (buf_content (nm_buf e)) ->
  nm_state_ok p -> match nm_msg p with Some ds => wf ds | None => True end ->
  heap_ok F (nm_owned p) h -> nm_rank (nm_state p) < nm_rank (nm_state (nm_par e)) + 5 * n ->
  nm_post F e (nm_loop p b h).
Proof.
  intros [Hb Hl _ _ _] Hb' Hc Hn Hs Hm Ho Hr. eexists _, _. split; [reflexivity |].
  assert (zlen (buf_content b) = zlen (buf_content (nm_buf e)) - n) as E by (rewrite Hc; by rewrite zlen_zdrop).
  split; [split; cbn [nm_buf nm_par nm_heap]; auto; lia |].
  unfold nm_measure. cbn [nm_buf nm_par]. rewrite E. pose proof (nm_rank_pos (nm_state p)). lia.
Qed.

(** Reading [n] bytes. *)
Lemma nm_avail F e n :
  nm_inv F e -> 0 <= n <= UINT32_MAX ->
  VTM_BUF_GET_AVAIL (nm_buf e) n = false \/
  (VTM_BUF_GET_AVAIL (nm_buf e) n = true /\ 0 <= n <= zlen (buf_content (nm_buf e))).
Proof.
  intros Hi Hn. pose proof (get_avail_spec (nm_buf e) n (ni_buf _ _ Hi)) as H.
  destruct (VTM_BUF_GET_AVAIL (nm_buf e) n); [right | by left]. split; [done |].
  unfold UINT32_MAX in Hn. split; [lia |]. apply H; [unfold is_size, SIZE_MAX; lia | done].
Qed.

Lemma nm_getc F e :
  nm_inv F e -> 0 <= 1 <= zlen (buf_content (nm_buf e)) ->
  exists c b, VTM_BUF_GETC (nm_buf e) = Some (c, b) /\ buf_ok b /\ is_byte c /\
    buf_content b = zdrop 1 (buf_content (nm_buf e)).
Proof.
  intros Hi Hn. pose proof (buf_content_bytes _ (ni_buf _ _ Hi)) as Hbytes.
  destruct (buf_content (nm_buf e)) as [|c l] eqn:Ec; [by destruct Hn|].
  destruct (VTM_BUF_GETC_spec (nm_buf e) c l (ni_buf _ _ Hi) Ec) as (E & Hb & Hc).
  eexists _, _. split; [exact E |]. split_and!; [done | by inversion Hbytes | exact Hc].
Qed.

Lemma nm_geto F e n o :
  nm_inv F e -> 0 <= n <= zlen (buf_content (nm_buf e)) ->
  exists l b, vtm_buf_geto (nm_buf e) n o = Some (l, b) /\ buf_ok b /\ Forall is_byte l /\ zlen l = n /\
    buf_content b = zdrop n (buf_content (nm_buf e)).
Proof.
  intros Hi Hn. pose proof (buf_content_bytes _ (ni_buf _ _ Hi)) as Hbytes.
  destruct (vtm_buf_geto_spec (nm_buf e) n o (ni_buf _ _ Hi) Hn) as (b & E & Hb & Hc & _).
  eexists _, b. split; [exact E |]. split_and!; [done | | | done].
  - apply orient_bytes. unfold ztake. by apply Forall_take.
  - rewrite orient_len, zlen_ztake; lia.
Qed.

(** Stopping after bytes were read. *)
Lemma nm_read_inv F e b n p h :
  nm_inv F e -> buf_ok b -> buf_content b = zdrop n (buf_content (nm_buf e)) ->
  0 <= n <= zlen (buf_content (nm_buf e)) ->
  nm_state_ok p -> match nm_msg p with Some ds => wf ds | None => True end -> heap_ok F (nm_owned p) h ->
  nm_inv F (mk_nm_env p b h).
Proof.
  intros [_ Hl _ _ _] Hb Hc Hn Hs Hm Ho. split; cbn [nm_buf nm_par nm_heap]; auto.
  rewrite Hc, zlen_zdrop; lia.
Qed.
(** ** The states *)

Lemma nm_expect_post F e want next :
  nm_inv F e -> nm_rank (nm_state (nm_par e)) = 0 -> nm_state_ok (nm_par e) ->
  nm_rank next = 0 -> nm_name (nm_par e) = None -> nm_state_ok (nm_to next (nm_par e)) ->
  match nm_state (nm_par e) with VTM_NM_PARSE_FIELD_COMPLETE => False | _ => True end ->
  match next with VTM_NM_PARSE_FIELD_COMPLETE => False | _ => True end ->
  nm_post F e (nm_expect e want next).
Proof.
  intros Hi Hr Hs Hrn Hname Hsn Hfc Hfn. unfold nm_expect.
  destruct (nm_avail F e 1 Hi) as [->|[-> Hn]]; [zunfold; lia | by apply nm_stop_post |]. cbn [negb].
  destruct (nm_getc F e Hi Hn) as (c & b & -> & Hb & _ & Hc). cbn [mbind option_bind nm_par nm_buf nm_heap].
  destruct (i8 c =? want); cbn [negb].
  - eapply nm_loop_post; [done | done | exact Hc | done | done | apply Hi | | cbn [nm_state nm_to]; rewrite Hr, Hrn; lia].
    pose proof (ni_heap _ _ Hi) as Ho. unfold nm_owned in *. cbn [nm_to nm_name nm_state nm_msg nm_value_type nm_value].
    destruct (nm_state (nm_par e)); try done; by destruct next.
  - apply nm_stop_post; [|done]. eapply nm_read_inv; [done | done | exact Hc | done | done | apply Hi | apply Hi].
Qed.

Lemma nm_field_count_post F e :
  nm_inv F e -> nm_state (nm_par e) = VTM_NM_PARSE_FIELD_COUNT -> nm_post F e (nm_parse_field_count e).
Proof.
  intros Hi Es. pose proof (ni_state _ _ Hi) as Hs. unfold nm_state_ok in Hs. rewrite Es in Hs.
  pose proof (ni_heap _ _ Hi) as Ho. unfold nm_owned in Ho. rewrite Es, Hs in Ho.
  unfold nm_parse_field_count.
  destruct (nm_avail F e 2 Hi) as [->|[-> Hn]]; [zunfold; lia | by apply nm_stop_post |]. cbn [negb].
  destruct (nm_geto F e 2 (nm_order (nm_par e)) Hi Hn) as (l & b & -> & Hb & _ & _ & Hc). cbn [mbind option_bind].
  eapply nm_loop_post; [done | done | exact Hc | done | done | apply Hi | | rewrite Es; cbn; lia].
  unfold nm_owned. cbn [nm_to nm_set_counts nm_name nm_state nm_msg]. by rewrite Hs.
Qed.

Lemma nm_name_len_post F e :
  nm_inv F e -> nm_state (nm_par e) = VTM_NM_PARSE_NAME_LEN -> nm_post F e (nm_parse_name_len e).
Proof.
  intros Hi Es. pose proof (ni_state _ _ Hi) as Hs. unfold nm_state_ok in Hs. rewrite Es in Hs.
  pose proof (ni_heap _ _ Hi) as Ho. unfold nm_owned in Ho. rewrite Es, Hs in Ho.
  unfold nm_parse_name_len.
  destruct (nm_avail F e 1 Hi) as [->|[-> Hn]]; [zunfold; lia | by apply nm_stop_post |]. cbn [negb].
  destruct (nm_geto F e 1 (nm_order (nm_par e)) Hi Hn) as (l & b & -> & Hb & Hl & Hlen & Hc).
  cbn [mbind option_bind nm_set_name nm_name_len nm_name].
  pose proof (le_val_bound l Hl) as Hv. rewrite Hlen in Hv. change (2 ^ (8 * 1)) with 256 in Hv.
  change (ord_val host l) with (le_val l).
  destruct (Z.eqb_spec (le_val l) 0).
  - apply nm_stop_post; [|done]. eapply nm_read_inv; [done | done | exact Hc | done | | apply Hi |].
    + unfold nm_state_ok, nm_set_name. cbn [nm_state nm_name]. by rewrite Es.
    + unfold nm_owned, nm_set_name. cbn [nm_name nm_state nm_msg]. by rewrite Hs, Es.
  - eapply nm_loop_post; [done | done | exact Hc | done | | apply Hi | | rewrite Es; cbn; lia].
    + unfold nm_state_ok. cbn [nm_to nm_set_name nm_state nm_name nm_name_len]. split; [done | lia].
    + unfold nm_owned. cbn [nm_to nm_set_name nm_name nm_state nm_msg]. by rewrite Hs.
Qed.

Lemma nm_parse_name_post F e :
  nm_inv F e -> nm_state (nm_par e) = VTM_NM_PARSE_NAME -> nm_post F e (nm_parse_name malloc_ok e).
Proof.
  intros Hi Es. pose proof (ni_state _ _ Hi) as Hs. unfold nm_state_ok in Hs. rewrite Es in Hs.
  destruct Hs as [Hs Hnl]. pose proof (ni_heap _ _ Hi) as Ho. unfold nm_owned in Ho. rewrite Es, Hs in Ho.
  cbn [app] in Ho. unfold nm_parse_name.
  destruct (nm_avail F e (nm_name_len (nm_par e)) Hi) as [->|[-> Hn]]; [zunfold; lia | by apply nm_stop_post |].
  cbn [negb]. destruct (malloc_ok _); cbn [negb].
  - destruct (nm_geto F e (nm_name_len (nm_par e)) (buf_order (nm_buf e)) Hi Hn) as (l & b & E & Hb & Hl & _ & Hc).
    unfold vtm_buf_getm. rewrite E. cbn [mbind option_bind].
    destruct (heap_ok_malloc F _ _ (until_nul l) Ho) as (name & h' & -> & Et & Hnn & Ho').
    eapply nm_loop_post; [done | done | exact Hc | lia | | apply Hi | | rewrite Es; cbn; lia].
    + exists name. rewrite Et. split_and!; [done | done | by apply until_nul_cstr].
    + done.
  - apply nm_stop_post; [|done]. destruct Hi as [Hb Hl Hst Hm _]. split; cbn [nm_buf nm_par nm_heap]; try done.
    + unfold nm_state_ok. cbn [nm_set_name nm_state nm_name nm_name_len]. by rewrite Es.
    + unfold nm_owned. cbn [nm_set_name nm_state nm_name nm_msg]. by rewrite Es.
Qed.

Lemma nm_types_from_num c type : vtm_nm_type_from_num c = Some type -> type ∈ nm_types.
Proof.
  unfold vtm_nm_type_from_num. destruct (_ && _); [|done]. apply list_elem_of_lookup_2.
Qed.

Lemma nm_value_type_post F e :
  nm_inv F e -> nm_state (nm_par e) = VTM_NM_PARSE_VALUE_TYPE -> nm_post F e (nm_parse_value_type e).
Proof.
  intros Hi Es. pose proof (ni_state _ _ Hi) as Hs. unfold nm_state_ok in Hs. rewrite Es in Hs.
  pose proof (ni_heap _ _ Hi) as Ho. unfold nm_owned in Ho. rewrite Es in Ho.
  unfold nm_parse_value_type.
  destruct (nm_avail F e 1 Hi) as [->|[-> Hn]]; [zunfold; lia | by apply nm_stop_post |]. cbn [negb].
  destruct (nm_getc F e Hi Hn) as (c & b & -> & Hb & _ & Hc). cbn [mbind option_bind].
  destruct (vtm_nm_type_from_num (u8 c)) as [type|] eqn:Et.
  - apply nm_types_from_num in Et. set (ln := match type with VTM_ELEM_FLOAT => _ | _ => _ end).
    assert ((ln.2 = VTM_NM_PARSE_VALUE_LEN /\ is_ref_type type = true) \/
      (ln.2 = VTM_NM_PARSE_VALUE /\ is_ref_type type = false /\ ln.1 = vtm_elem_size type)) as Hln.
    { subst ln. destruct type; first [by left | by right]. }
    destruct ln as [len next]. cbn [fst snd] in Hln. pose proof (elem_size_le type).
    eapply nm_loop_post; [done | done | exact Hc | lia | | apply Hi | | rewrite Es; cbn].
    + unfold nm_state_ok. cbn [nm_to nm_set_type nm_state nm_value_type nm_value_len].
      destruct Hln as [[-> Hr]|(-> & Hr & ->)]; [by split |]. split_and!; try done; zunfold; lia.
    + unfold nm_owned. cbn [nm_to nm_set_type nm_state nm_name nm_msg].
      by destruct Hln as [[-> _]|(-> & _)].
    + destruct Hln as [[-> _]|(-> & _)]; cbn; lia.
  - apply nm_stop_post; [|done]. eapply nm_read_inv; [done | done | exact Hc | done | apply Hi | apply Hi | apply Hi].
Qed.

Lemma nm_value_len_post F e :
  nm_inv F e -> nm_state (nm_par e) = VTM_NM_PARSE_VALUE_LEN -> nm_post F e (nm_parse_value_len e).
Proof.
  intros Hi Es. pose proof (ni_state _ _ Hi) as Hs. unfold nm_state_ok in Hs. rewrite Es in Hs.
  destruct Hs as [Hs Hr]. pose proof (ni_heap _ _ Hi) as Ho. unfold nm_owned in Ho. rewrite Es in Ho.
  unfold nm_parse_value_len.
  destruct (nm_avail F e 4 Hi) as [->|[-> Hn]]; [zunfold; lia | by apply nm_stop_post |]. cbn [negb].
  destruct (nm_geto F e 4 (nm_order (nm_par e)) Hi Hn) as (l & b & -> & Hb & Hl & Hlen & Hc). cbn [mbind option_bind].
  pose proof (le_val_bound l Hl) as Hv. rewrite Hlen in Hv. change (ord_val host l) with (le_val l).
  eapply nm_loop_post; [done | done | exact Hc | lia | | apply Hi | | rewrite Es; cbn; lia].
  - unfold nm_state_ok. cbn [nm_to nm_set_type nm_state nm_value_type nm_value_len].
    split_and!; [done | | zunfold; lia | zunfold; lia | by rewrite Hr].
    apply bool_decide_eq_true in Hr as [-> | ->]; unfold nm_types; set_solver.
  - done.
Qed.
(** The end of the state VALUE. *)
Lemma nm_complete_post F e b v h n :
  nm_inv F e -> nm_state (nm_par e) = VTM_NM_PARSE_VALUE -> nm_named (nm_par e) ->
  buf_ok b -> buf_content b = zdrop n (buf_content (nm_buf e)) -> 0 <= n <= zlen (buf_content (nm_buf e)) ->
  value_valid (nm_value_type (nm_par e)) v ->
  heap_ok F (value_block (nm_value_type (nm_par e)) v ++ nm_owned (nm_par e)) h ->
  nm_post F e (nm_loop (nm_to VTM_NM_PARSE_FIELD_COMPLETE (nm_set_value v (nm_par e))) b h).
Proof.
  intros Hi Es Hs Hb Hc Hn Hv Ho.
  eapply nm_loop_post; [done | done | exact Hc | done | by split | apply Hi | | rewrite Es; cbn; lia].
  eapply heap_ok_perm; [|exact Ho]. unfold nm_owned. rewrite Es. cbn [nm_to nm_set_value nm_name nm_state nm_msg nm_value_type nm_value].
  rewrite !app_assoc. f_equiv. rewrite app_nil_r. apply Permutation_app_comm.
Qed.

Lemma nm_value_post F e :
  nm_inv F e -> nm_state (nm_par e) = VTM_NM_PARSE_VALUE -> nm_post F e (nm_parse_value malloc_ok e).
Proof.
  intros Hi Es. pose proof (ni_state _ _ Hi) as Hs. unfold nm_state_ok in Hs. rewrite Es in Hs.
  destruct Hs as (Hs & Ht & Hlen & Hes). pose proof (ni_heap _ _ Hi) as Ho. pose proof (ni_len _ _ Hi) as Hcl.
  unfold nm_parse_value.
  destruct (nm_avail F e (nm_value_len (nm_par e)) Hi Hlen) as [->|[-> Hn]]; [by apply nm_stop_post |]. cbn [negb].
  assert (nm_inv F (mk_nm_env (nm_set_value (ElemPtr NULL) (nm_par e)) (nm_buf e) (nm_heap e))) as Hoom.
  { destruct Hi as [Hb Hl _ Hm _]. split; cbn [nm_buf nm_par nm_heap]; try done.
    - unfold nm_state_ok. cbn [nm_set_value nm_state]. rewrite Es. exact (conj Hs (conj Ht (conj Hlen Hes))).
    - unfold nm_owned in *. cbn [nm_set_value nm_state nm_name nm_msg nm_value_type]. by rewrite Es in *. }
  assert (forall n l b v, is_ref_type (nm_value_type (nm_par e)) = false ->
    vtm_buf_geto (nm_buf e) n (nm_order (nm_par e)) = Some (l, b) -> 0 <= n <= zlen (buf_content (nm_buf e)) ->
    nm_post F e (nm_loop (nm_to VTM_NM_PARSE_FIELD_COMPLETE (nm_set_value v (nm_par e))) b (nm_heap e))) as Hplain.
  { intros n l b v Hr E Hn'. destruct (nm_geto F e n (nm_order (nm_par e)) Hi Hn') as (l' & b' & E' & Hb & _ & _ & Hc).
    rewrite E in E'. injection E' as <- <-. apply (nm_complete_post F e b v _ n); try done.
    - split; [done |]. by rewrite Hr.
    - unfold value_block. by rewrite Hr. }
  destruct (is_ref_type (nm_value_type (nm_par e))) eqn:Er.
  - destruct (nm_geto F e (nm_value_len (nm_par e)) (buf_order (nm_buf e)) Hi Hn) as (l & b & E & Hb & Hl & Hll & Hc).
    unfold vtm_buf_getm. rewrite E. cbn [mbind option_bind].
    assert (forall text, exists s h', c_malloc true text (nm_heap e) = (s, h') /\ is_null s = false /\
      nm_post F e (nm_loop (nm_to VTM_NM_PARSE_FIELD_COMPLETE (nm_set_value (ElemPtr s) (nm_par e))) b h')) as Hmal.
    { intros text. destruct (heap_ok_malloc F _ _ text Ho) as (s & h' & Em & _ & Hnn & Ho').
      exists s, h'. split_and!; try done. apply (nm_complete_post F e b _ _ (nm_value_len (nm_par e))); try done.
      - split; [done |]. eauto.
      - unfold value_block. by rewrite Er. }
    apply bool_decide_eq_true in Er as Er'. destruct Er' as [Et | Et]; rewrite Et in *.
    + destruct (malloc_ok _); cbn [negb]; [|by apply nm_stop_post].
      assert (u32 (nm_value_len (nm_par e) + 1) = nm_value_len (nm_par e) + 1) as ->
        by (apply wrap_small; unfold UINT32_MAX in *; lia).
      rewrite (proj2 (Z.leb_gt _ _)) by lia.
      destruct (Hmal (until_nul l)) as (s & h' & -> & _ & Hpost). exact Hpost.
    + destruct (malloc_ok _); cbn [negb]; [|by apply nm_stop_post].
      unfold vtm_blob_new. unfold UINT32_MAX in *. rewrite (proj2 (Z.ltb_ge _ _)) by lia.
      rewrite u64_small by (unfold is_size, SIZE_MAX; lia). rewrite (proj2 (Z.ltb_ge _ _)) by lia. cbn [orb].
      destruct (Hmal l) as (s & h' & -> & -> & Hpost). exact Hpost.
  - specialize (Hes eq_refl).
    destruct (decide (nm_value_type (nm_par e) = VTM_ELEM_FLOAT)) as [Et|Hf];
      [|destruct (decide (nm_value_type (nm_par e) = VTM_ELEM_DOUBLE)) as [Et|Hd]].
    + rewrite Et in Hes |- *. cbn [vtm_elem_size] in Hes. rewrite Hes in Hn.
      destruct (nm_geto F e 4 (nm_order (nm_par e)) Hi Hn) as (l & b & E & _). rewrite E. cbn [mbind option_bind].
      destruct (vtm_unpack_float (ord_val host l)). by apply (Hplain 4 l b).
    + rewrite Et in Hes |- *. cbn [vtm_elem_size] in Hes. rewrite Hes in Hn.
      destruct (nm_geto F e 8 (nm_order (nm_par e)) Hi Hn) as (l & b & E & _). rewrite E. cbn [mbind option_bind].
      destruct (vtm_unpack_double (ord_val host l)). by apply (Hplain 8 l b).
    + destruct (nm_geto F e (nm_value_len (nm_par e)) (nm_order (nm_par e)) Hi Hn) as (l & b & E & _).
      rewrite E. apply bool_decide_eq_false in Er.
      destruct (nm_value_type (nm_par e)); try done; try (by apply (Hplain (nm_value_len (nm_par e)) l b)); by destruct Er; auto.
Qed.

Lemma nm_field_complete_post F e :
  nm_inv F e -> nm_state (nm_par e) = VTM_NM_PARSE_FIELD_COMPLETE ->
  nm_post F e (nm_parse_field_complete ds_ok alloc_ok e).
Proof.
  intros Hi Es. pose proof (ni_state _ _ Hi) as Hs. unfold nm_state_ok in Hs. rewrite Es in Hs.
  destruct Hs as [(name & En & Hnn & Hnc) Hv]. pose proof (ni_heap _ _ Hi) as Ho. pose proof (ni_msg _ _ Hi) as Hm.
  unfold nm_owned in Ho. rewrite Es, En in Ho. cbn [app] in Ho. unfold nm_parse_field_complete.
  assert (match nm_msg (nm_par e) with Some ds => Some ds | None => vtm_dataset_new ds_ok end = None \/
    exists ds, match nm_msg (nm_par e) with Some ds => Some ds | None => vtm_dataset_new ds_ok end = Some ds /\
      wf ds /\ heap_ok F (p_addr name :: value_block (nm_value_type (nm_par e)) (nm_value (nm_par e)) ++ ds_owned ds)
                 (nm_heap e)) as [-> | (ds & -> & Hw & Ho')].
  { destruct (nm_msg (nm_par e)) as [ds|]; [right; by exists ds |].
    unfold vtm_dataset_new, vtm_dataset_newh. destruct ds_ok; [right | by left].
    eexists. split; [reflexivity |]. split; [|exact Ho]. split; [apply smap_wf_empty; cbn; lia | cbn; lia]. }
  { by apply nm_stop_post. }
  rewrite En. cbn [mbind option_bind].
  destruct (nm_store_ok F ds name _ _ _ Hw Hnn Hnc Hv Ho') as (ds' & h1 & h2 & h3 & -> & E2 & E3 & Hw' & _ & Ho2 & _).
  cbn [mbind option_bind]. rewrite E2. cbn [mbind option_bind]. rewrite E3. cbn [mbind option_bind].
  apply (nm_loop_post F e _ _ _ 0); try done.
  - apply Hi.
  - pose proof (zlen_nonneg (buf_content (nm_buf e))). lia.
  - rewrite Es. cbn. lia.
Qed.

Lemma nm_switch_post F e : nm_inv F e -> nm_post F e (nm_switch malloc_ok ds_ok alloc_ok e).
Proof.
  intros Hi. pose proof (ni_state _ _ Hi) as Hs. unfold nm_state_ok in Hs. unfold nm_switch.
  assert (forall s, nm_name (nm_par e) = None ->
    match nm_state (nm_par e) with VTM_NM_PARSE_FIELD_COMPLETE => False | _ => True end ->
    nm_state_ok (nm_to s (nm_par e)) ->
    match s with VTM_NM_PARSE_FIELD_COMPLETE => False | _ => True end ->
    nm_rank s < nm_rank (nm_state (nm_par e)) ->
    nm_post F e (nm_loop (nm_to s (nm_par e)) (nm_buf e) (nm_heap e))) as Hstep.
  { intros s Hn Hfc Hs' Hfs Hr. apply (nm_loop_post F e _ _ _ 0); try done; try apply Hi.
    - pose proof (zlen_nonneg (buf_content (nm_buf e))). lia.
    - pose proof (ni_heap _ _ Hi) as Ho. unfold nm_owned in *. cbn [nm_to nm_name nm_state nm_msg].
      destruct (nm_state (nm_par e)); try done; by destruct s.
    - cbn [nm_to nm_state]. lia. }
  destruct (nm_state (nm_par e)) eqn:Es.
  - by apply Hstep.
  - apply nm_expect_post; try done; rewrite ?Es; try done. unfold nm_state_ok. by rewrite Es.
  - apply nm_expect_post; try done; rewrite ?Es; try done. unfold nm_state_ok. by rewrite Es.
  - by apply nm_field_count_post.
  - destruct (_ =? _); by apply Hstep.
  - by apply nm_name_len_post.
  - by apply nm_parse_name_post.
  - by apply nm_value_type_post.
  - by apply nm_value_len_post.
  - by apply nm_value_post.
  - by apply nm_field_complete_post.
  - exists (NmReturn VTM_NET_RECV_STAT_COMPLETE), e. by split_and!.
Qed.

Lemma nm_run_loop_ok F fuel : forall e,
  nm_inv F e -> nm_measure e < Z.of_nat fuel ->
  exists s e', nm_run_loop malloc_ok ds_ok alloc_ok fuel e = Some (s, e') /\ nm_inv F e' /\
    (s = VTM_NET_RECV_STAT_COMPLETE -> nm_state (nm_par e') = VTM_NM_PARSE_MSG_COMPLETE).
Proof.
  induction fuel as [|fuel IH]; intros e Hi Hf; cbn [nm_run_loop].
  - unfold nm_measure in Hf. pose proof (nm_rank_pos (nm_state (nm_par e))).
    pose proof (zlen_nonneg (buf_content (nm_buf e))). lia.
  - destruct (nm_switch_post F e Hi) as (ctl & e' & -> & Hi' & Hp). cbn [mbind option_bind].
    destruct ctl as [|s]; [apply IH; [done | lia] | by exists s, e'].
Qed.
End safe.

(** ** Properties: safety *)

Lemma nm_release_ok malloc_ok printf_g F e :
  nm_inv malloc_ok printf_g F e -> nm_state (nm_par e) <> VTM_NM_PARSE_FIELD_COMPLETE ->
  vtm_nm_parser_release (nm_par e) (nm_heap e) = Some F.
Proof.
  intros [_ _ Hs Hm Ho] Hne. unfold nm_owned in Ho.
  assert (heap_ok F (match nm_name (nm_par e) with Some n => [p_addr n] | None => [] end ++
    match nm_msg (nm_par e) with Some ds => ds_owned ds | None => [] end) (nm_heap e)) as Ho'
    by by destruct (nm_state (nm_par e)).
  apply heap_ok_lend in Ho' as (Ho' & _ & Hf). unfold vtm_nm_parser_release, vtm_dataset_free, vtm_dataset_release.
  set (G := list_to_set _ ∪ F) in *.
  assert ((match nm_msg (nm_par e) with
    | None => Some (nm_heap e)
    | Some ds => '(_, h) ← vtm_dataset_clear ds (nm_heap e); Some h end) = Some G) as ->.
  { destruct (nm_msg (nm_par e)) as [ds|].
    - destruct (ds_clear_ok malloc_ok printf_g G ds (nm_heap e) Hm Ho') as (ds' & -> & _). done.
    - destruct Ho' as (_ & _ & ->). f_equal. cbn [list_to_set]. by rewrite (right_id_L ∅ (∪)). }
  cbn [mbind option_bind]. destruct (nm_name (nm_par e)) as [n|] eqn:En.
  - assert (is_null n = false) as Hn.
    { assert (nm_named (nm_par e)) as (n' & E' & Hn & _);
        [|rewrite En in E'; by injection E' as <-].
      unfold nm_state_ok in Hs. destruct (nm_state (nm_par e)); rewrite ?En in Hs; try done; by destruct Hs. }
    unfold c_free. rewrite Hn. subst G. cbn [list_to_set]. rewrite decide_True by set_solver. f_equal.
    specialize (Hf (p_addr n) (list_elem_of_here _ _)). set_solver.
  - subst G. cbn [list_to_set]. f_equal. set_solver.
Qed.

(** C24: Invariant, safety and termination of the message parser.  Whatever bytes
    (less than 4 GiB) are in the buffer and in whatever state an earlier run left
    the parser, a run ends within the number of steps given by the available
    bytes, never reads outside of the buffer, and leaves a parser that owns
    exactly its name, its value and the blocks of its dataset; it answers
    COMPLETE only in the final state, and unless it was stopped by a failing
    allocation of the dataset, releasing it frees everything it owns. *)
Theorem nm_run_safe malloc_ok printf_g ds_ok (F : heap) e
    (Hi : nm_inv malloc_ok printf_g F e) :
  exists s e', vtm_nm_parser_run malloc_ok ds_ok alloc_ok e = Some (s, e') /\
    nm_inv malloc_ok printf_g F e' /\
    (s = VTM_NET_RECV_STAT_COMPLETE -> nm_state (nm_par e') = VTM_NM_PARSE_MSG_COMPLETE) /\
    (nm_state (nm_par e') <> VTM_NM_PARSE_FIELD_COMPLETE ->
       vtm_nm_parser_release (nm_par e') (nm_heap e') = Some F).
Proof.
  destruct (nm_run_loop_ok malloc_ok printf_g ds_ok F (nm_fuel (nm_buf e)) e Hi) as (s & e' & E & Hi' & Hs).
  - unfold nm_measure, nm_fuel. rewrite (get_avail_total _ (ni_buf _ _ _ _ Hi)).
    pose proof (zlen_nonneg (buf_content (nm_buf e))).
    assert (nm_rank (nm_state (nm_par e)) <= 4) by by destruct (nm_state (nm_par e)). lia.
  - exists s, e'. split_and!; [done | done | done |]. intros Hn. by eapply nm_release_ok.
Qed.

Lemma nm_init_inv malloc_ok printf_g F p b :
  buf_ok b -> zlen (buf_content b) < UINT32_MAX ->
  nm_inv malloc_ok printf_g F (mk_nm_env (vtm_nm_parser_init p) b F).
Proof. intros Hb Hl. split; cbn [nm_buf nm_par nm_heap]; try done. apply heap_ok_nil. Qed.

Definition nm_junk : vtm_nm_parser :=
  mk_nm VTM_BYTEORDER_LE VTM_NM_PARSE_MSG_COMPLETE None 7 7 7 None VTM_ELEM_NULL 7 (ElemWord 7).

Lemma nm_run_safe_witness :
  let b := (vtm_buf_putm (fun _ => true) (vtm_buf_init VTM_BYTEORDER_BE) [86; 1; 0; 1; 1; 97; 15; 0]).1 in
  exists s e', vtm_nm_parser_run (fun _ => true) true alloc_ok (mk_nm_env (vtm_nm_parser_init nm_junk) b ∅) = Some (s, e') /\
    nm_inv (fun _ => true) (fun _ => []) ∅ e' /\
    (s = VTM_NET_RECV_STAT_COMPLETE -> nm_state (nm_par e') = VTM_NM_PARSE_MSG_COMPLETE) /\
    (nm_state (nm_par e') <> VTM_NM_PARSE_FIELD_COMPLETE ->
       vtm_nm_parser_release (nm_par e') (nm_heap e') = Some ∅).
Proof.
  apply (nm_run_safe (fun _ => true) (fun _ => []) true ∅), nm_init_inv; [|reflexivity].
  apply putm_kept; [done | apply buf_init_ok | repeat constructor; lia | zunfold; cbn; lia].
Defined.
