(* ===== verification/NmWire.v ===== *)
(** * NmWire: the wire format of messages, and the way there and back *)

From stdpp Require Import gmap fin_sets relations.
From S2P Require Import Prelude Base Buffer Str Ws Elem Hash Heap Table Smap Dataset Serialization Nm NmProps.

(** ** The wire format *)

(** What a value is for the receiver: the bytes of the number without the rest
    of the union, or the text of a string or blob. *)
Inductive nm_val := NmWord (type : vtm_elem_type) (w : Z) | NmBytes (type : vtm_elem_type) (s : bytes).

Definition nm_view (v : vtm_variant) : nm_val :=
  if is_ref_type (v_type v) then
    NmBytes (v_type v) (match v_data v with ElemPtr p => p_text p | ElemWord _ => [] end)
  else NmWord (v_type v) (wrap (8 * vtm_elem_size (v_type v)) (elem_word (v_data v))).

(** The packed form of a floating point number. *)
Definition packed (r : option (Z * Z)) : Z := match r with Some (_, v) => v | None => 0 end.

Lemma packed_float_range w : 0 <= packed (vtm_pack_float w) < 2 ^ 32.
Proof.
  unfold vtm_pack_float. destruct (fis_nan _); [done |]. destruct (frexp _ _ _) as [frac exp].
  destruct (pack_mantissa _ _ _ _); [|done]. apply wrap_bounds. lia.
Qed.

Lemma packed_double_range w : 0 <= packed (vtm_pack_double w) < 2 ^ 64.
Proof.
  unfold vtm_pack_double. destruct (fis_nan _); [done |]. destruct (frexp _ _ _) as [frac exp].
  destruct (pack_mantissa _ _ _ _); [|done]. apply wrap_bounds. lia.
Qed.

(** What is received for a value: floating point numbers pass through
    vtm_pack_float() and vtm_unpack_float(). *)
Definition nm_sent (x : nm_val) : nm_val :=
  match x with
  | NmWord VTM_ELEM_FLOAT w => NmWord VTM_ELEM_FLOAT (u32 (vtm_unpack_float (packed (vtm_pack_float w))).2)
  | NmWord VTM_ELEM_DOUBLE w => NmWord VTM_ELEM_DOUBLE (u64 (vtm_unpack_double (packed (vtm_pack_double w))).2)
  | x => x
  end.

Definition nm_value_wire (o : vtm_byteorder) (x : nm_val) : bytes :=
  match x with
  | NmWord VTM_ELEM_FLOAT w => ord_bytes o 4 (packed (vtm_pack_float w))
  | NmWord VTM_ELEM_DOUBLE w => ord_bytes o 8 (packed (vtm_pack_double w))
  | NmWord type w => ord_bytes o (Z.to_nat (vtm_elem_size type)) w
  | NmBytes _ s => ord_bytes o 4 (zlen s) ++ s
  end.

Definition nm_val_type (x : nm_val) : vtm_elem_type :=
  match x with NmWord type _ | NmBytes type _ => type end.

Definition nm_type_num (type : vtm_elem_type) : Z := default 0 (vtm_nm_type_to_num type).

Definition nm_field_wire (o : vtm_byteorder) (f : bytes * nm_val) : bytes :=
  [zlen f.1] ++ f.1 ++ [nm_type_num (nm_val_type f.2)] ++ nm_value_wire o f.2.

Definition nm_wire (o : vtm_byteorder) (fs : list (bytes * nm_val)) : bytes :=
  [VTM_NM_PROTO_MAGIC; VTM_NM_PROTO_VER_1] ++ ord_bytes o 2 (zlen fs) ++ (fs ≫= nm_field_wire o).

(** A field that can be sent. *)
Definition nm_field_ok (f : bytes * nm_val) : Prop :=
  f.1 <> [] /\ is_cstr f.1 /\ zlen f.1 <= 255 /\ nm_val_type f.2 ∈ nm_types /\
  match f.2 with
  | NmWord type w => is_ref_type type = false /\ 0 <= w < 2 ^ (8 * vtm_elem_size type)
  | NmBytes type s => is_ref_type type = true /\ zlen s <= UINT32_MAX /\
      (type = VTM_ELEM_STRING -> is_cstr s) /\ Forall is_byte s
  end.

(** ** Writing *)

Lemma ord_bytes_wrap o n v : ord_bytes o n (wrap (8 * Z.of_nat n) v) = ord_bytes o n v.
Proof.
  assert (le_bytes n (wrap (8 * Z.of_nat n) v) = le_bytes n v) as E.
  { unfold wrap. rewrite <- le_val_bytes. rewrite <- (length_le_bytes n v) at 1.
    apply le_bytes_val. auto with vtm. }
  unfold ord_bytes. destruct o; by rewrite E.
Qed.

Section write.
Context (malloc_ok : Z -> bool).

Lemma nm_puto_ext b n v :
  buf_live b -> 0 <= n <= 8 -> puts_ext b (ord_bytes (buf_order b) (Z.to_nat n) v) (nm_puto malloc_ok b n v).
Proof.
  intros Hb Hn. unfold nm_puto.
  replace (ord_bytes (buf_order b) (Z.to_nat n) v)
    with (orient b host (ord_bytes host (Z.to_nat n) v)) by (unfold orient, host; by destruct (buf_order b)).
  apply puto_ext; [done | auto with vtm |].
  rewrite zlen_ord_bytes. zunfold. lia.
Qed.

Lemma nm_putc_ext b c : buf_live b -> 0 <= c < 256 -> puts_ext b [c] (vtm_buf_putc malloc_ok b c).1.
Proof.
  intros Hb Hc. replace [c] with [u8 c] by (f_equal; apply wrap_small; lia).
  by apply putc_ext.
Qed.

Lemma nm_putm_ext b l :
  buf_live b -> Forall is_byte l -> zlen l <= UINT32_MAX -> puts_ext b l (vtm_buf_putm malloc_ok b l).1.
Proof.
  intros Hb Hl Hlen. apply putm_ext; [done | done |].
  pose proof (zlen_nonneg l). zunfold. lia.
Qed.

(** A variant of a dataset that can be sent. *)
Definition nm_sendable (v : vtm_variant) : Prop :=
  if is_ref_type (v_type v) then
    exists p, v_data v = ElemPtr p /\ is_null p = false /\ zlen (p_text p) <= UINT32_MAX /\
      (v_type v = VTM_ELEM_STRING -> is_cstr (p_text p)) /\ Forall is_byte (p_text p)
  else True.

Lemma nm_put_value_ext var b b' :
  buf_live b -> nm_sendable var -> vtm_nm_type_to_num (v_type var) <> None ->
  nm_put_value malloc_ok var b = Some (VTM_OK, b') ->
  puts_ext b (nm_value_wire (buf_order b) (nm_view var)) b'.
Proof.
  intros Hb Hs Ht E. unfold nm_put_value, nm_sendable, nm_view in *.
  destruct (is_ref_type (v_type var)) eqn:Er.
  - destruct Hs as (p & Ed & Hp & Hlen & Hcs & Hby). rewrite Ed in E |- *. cbn [elem_pointer mbind option_bind] in E.
    rewrite Hp in E. pose proof (zlen_nonneg (p_text p)).
    assert (vtm_blob_size p = zlen (p_text p)) as Ebs by (apply wrap_small; unfold UINT32_MAX in *; lia).
    assert (b' = (vtm_buf_putm malloc_ok (nm_puto malloc_ok b 4 (zlen (p_text p))) (p_text p)).1) as ->.
    { apply bool_decide_eq_true in Er as [Et | Et]; rewrite Et in E; rewrite ?Ebs in E;
        rewrite (proj2 (Z.ltb_ge _ _)) in E by lia; injection E as <-; [done |]. by rewrite ztake_all by lia. }
    cbn [nm_value_wire]. pose proof (nm_puto_ext b 4 (zlen (p_text p)) Hb ltac:(lia)) as H1.
    eapply puts_ext_trans; [exact H1 | apply nm_putm_ext; [apply H1 | done | done]].
  - set (w := wrap _ _). pose proof (elem_size_le (v_type var)) as Hsz.
    assert (forall n v, 0 <= n <= 8 -> ord_bytes (buf_order b) (Z.to_nat n) (wrap (8 * n) v)
      = ord_bytes (buf_order b) (Z.to_nat n) v) as Hw.
    { intros n v Hn. pose proof (ord_bytes_wrap (buf_order b) (Z.to_nat n) v) as H.
      by replace (8 * Z.of_nat (Z.to_nat n)) with (8 * n) in H by lia. }
    destruct (v_type var) eqn:Et; try done; cbn [nm_value_wire];
      try (injection E as <-; subst w; cbn [vtm_elem_size] in *; rewrite Hw by lia; apply nm_puto_ext; [done | lia]).
    + subst w. cbn [vtm_elem_size] in *. change (wrap (8 * 4) (elem_word (v_data var))) with (elem_float (v_data var)).
      destruct (vtm_pack_float (elem_float (v_data var))) as [[rc v]|]; [|done]. cbn [mbind option_bind packed] in *.
      destruct (Z.eqb_spec rc VTM_OK) as [->|Hrc]; [|congruence]. injection E as <-. apply (nm_puto_ext b 4); [done | lia].
    + subst w. cbn [vtm_elem_size] in *. change (wrap (8 * 8) (elem_word (v_data var))) with (elem_double (v_data var)).
      destruct (vtm_pack_double (elem_double (v_data var))) as [[rc v]|]; [|done]. cbn [mbind option_bind packed] in *.
      destruct (Z.eqb_spec rc VTM_OK) as [->|Hrc]; [|congruence]. injection E as <-. apply (nm_puto_ext b 8); [done | lia].
Qed.
(** An entry of a dataset that can be sent, and what it stands for. *)
Definition entry_ok (en : option cptr * vtm_variant) : Prop :=
  (exists name, en.1 = Some name /\ is_null name = false /\ is_cstr (p_text name) /\ p_text name <> []) /\
  nm_sendable en.2.

Definition entry_field (en : option cptr * vtm_variant) : bytes * nm_val :=
  (match en.1 with Some name => p_text name | None => [] end, nm_view en.2).

Lemma nm_view_type v : nm_val_type (nm_view v) = v_type v.
Proof. unfold nm_view. by destruct (is_ref_type (v_type v)). Qed.

Lemma nm_type_supported type c : vtm_nm_type_to_num type = Some c -> type ∈ nm_types /\ 1 <= c <= 16.
Proof.
  intros E. split; [|destruct type; cbn in E; try discriminate; injection E as <-; lia].
  destruct type; try discriminate; unfold nm_types;
    repeat (apply elem_of_cons; first [left; reflexivity | right]).
Qed.

Lemma nm_field_wf en c :
  entry_ok en -> vtm_nm_type_to_num (v_type en.2) = Some c -> zlen (entry_field en).1 <= 255 ->
  nm_field_ok (entry_field en).
Proof.
  intros [(name & En & _ & Hcs & Hne) Hs] Ht Hlen. unfold nm_field_ok, entry_field in *. rewrite En in *.
  cbn [fst snd] in *. rewrite nm_view_type. destruct (nm_type_supported _ _ Ht) as [Hin _].
  split_and!; try done. unfold nm_view, nm_sendable in *.
  destruct (is_ref_type (v_type en.2)) eqn:Er.
  - destruct Hs as (p & -> & _ & Hl & Hc & Hb). by split_and!.
  - split; [done |]. apply wrap_bounds. pose proof (elem_size_le (v_type en.2)). lia.
Qed.

Lemma nm_put_field_ext en b b' :
  buf_live b -> entry_ok en -> nm_put_field malloc_ok en b = Some (VTM_OK, b') ->
  puts_ext b (nm_field_wire (buf_order b) (entry_field en)) b' /\ nm_field_ok (entry_field en).
Proof.
  intros Hb Hen E. pose proof Hen as [(name & En & Hnn & Hcs & Hne) Hs].
  unfold nm_put_field in E. rewrite En in E. cbn [mbind option_bind] in E. rewrite Hnn in E.
  destruct (Z.ltb_spec UCHAR_MAX (zlen (p_text name))) as [|Hlen]; [done |]. unfold UCHAR_MAX in Hlen.
  destruct (vtm_nm_type_to_num (v_type en.2)) as [c|] eqn:Et; [|done].
  destruct (nm_type_supported _ _ Et) as [_ Hc]. pose proof (zlen_nonneg (p_text name)).
  assert (nm_field_ok (entry_field en)) as Hf.
  { eapply nm_field_wf; [done | done |]. unfold entry_field. by rewrite En. }
  split; [|done]. unfold nm_field_wire, entry_field. rewrite En. cbn [fst snd]. rewrite nm_view_type.
  unfold nm_type_num. rewrite Et. cbn [default].
  pose proof (nm_putc_ext b (zlen (p_text name)) Hb ltac:(lia)) as H1. set (b1 := (vtm_buf_putc malloc_ok b _).1) in *.
  assert (puts_ext b1 (p_text name) (vtm_buf_puts malloc_ok b1 (p_text name)).1) as H2.
  { apply nm_putm_ext; [apply H1 | | unfold UINT32_MAX; lia]. eapply Forall_impl; [exact Hcs |]. intros x; unfold is_byte; lia. }
  set (b2 := (vtm_buf_puts _ _ _).1) in *.
  pose proof (nm_putc_ext b2 c (proj1 H2) ltac:(lia)) as H3. set (b3 := (vtm_buf_putc malloc_ok b2 _).1) in *.
  pose proof (nm_put_value_ext en.2 b3 b' (proj1 H3) Hs) as H4. rewrite Et in H4. specialize (H4 ltac:(done) E).
  assert (buf_order b3 = buf_order b) as Eo.
  { destruct H1 as (_ & <- & _), H2 as (_ & <- & _), H3 as (_ & <- & _). done. }
  rewrite Eo in H4. eapply puts_ext_trans; [exact H1 |]. eapply puts_ext_trans; [exact H2 |].
  eapply puts_ext_trans; [exact H3 | exact H4].
Qed.

Lemma nm_put_fields_ext entries : forall rc b jumped rc' b',
  buf_live b -> Forall entry_ok entries -> nm_put_fields malloc_ok entries rc b = Some (jumped, rc', b') ->
  (jumped = true /\ rc' <> VTM_OK) \/
  (jumped = false /\ puts_ext b ((entry_field <$> entries) ≫= nm_field_wire (buf_order b)) b' /\
   Forall nm_field_ok (entry_field <$> entries) /\ (entries <> [] -> rc' = VTM_OK)).
Proof.
  induction entries as [|en entries IH]; intros rc b jumped rc' b' Hb Hok E; cbn [nm_put_fields] in E.
  - injection E as <- <- <-. right. split_and!; [done | by apply puts_ext_refl | constructor | done].
  - apply Forall_cons in Hok as [Hen Hok].
    destruct (nm_put_field malloc_ok en b) as [[rc1 b1]|] eqn:E1; [|done]. cbn [mbind option_bind] in E.
    destruct (Z.eqb_spec rc1 VTM_OK) as [->|Hrc].
    + destruct (nm_put_field_ext en b b1 Hb Hen E1) as [H1 Hf].
      destruct (IH _ _ _ _ _ (proj1 H1) Hok E) as [?|(Hj & H2 & Hfs & Hrc)]; [by left | right].
      replace (buf_order b1) with (buf_order b) in H2 by (by destruct H1 as (_ & -> & _)).
      split_and!; [done | | by constructor |].
      * cbn [fmap list_fmap mbind list_bind]. by eapply puts_ext_trans.
      * intros _. destruct entries as [|en' entries']; [|by apply Hrc]. cbn in E. by injection E.
    + injection E as <- <- <-. by left.
Qed.

(** A successfully written message is the wire format of its fields. *)
Lemma nm_msg_to_buf_wire rc0 ds b b' :
  buf_ok b -> Forall entry_ok (default [] (vtm_dataset_entryset true (Some ds))) ->
  vtm_nm_msg_to_buf malloc_ok true rc0 (Some ds) b = Some (VTM_OK, b') ->
  let fs := entry_field <$> default [] (vtm_dataset_entryset true (Some ds)) in
  buf_ok b' /\ buf_order b' = buf_order b /\ buf_content b' = buf_content b ++ nm_wire (buf_order b) fs /\
  Forall nm_field_ok fs /\ zlen fs <= UINT16_MAX /\ buf_read b' = buf_read b.
Proof.
  intros Hb Hok E. unfold vtm_nm_msg_to_buf in E.
  destruct (vtm_dataset_entryset true (Some ds)) as [entries|]; [|done]. cbn [default] in *.
  destruct (Z.ltb_spec UINT16_MAX (zlen entries)) as [|Hlen]; [done |].
  pose proof (nm_putc_ext b VTM_NM_PROTO_MAGIC (or_introl Hb) ltac:(unfold VTM_NM_PROTO_MAGIC; lia)) as H1.
  set (b1 := (vtm_buf_putc malloc_ok b _).1) in *.
  pose proof (nm_putc_ext b1 VTM_NM_PROTO_VER_1 (proj1 H1) ltac:(unfold VTM_NM_PROTO_VER_1; lia)) as H2.
  set (b2 := (vtm_buf_putc malloc_ok b1 _).1) in *.
  pose proof (nm_puto_ext b2 2 (zlen entries) (proj1 H2) ltac:(lia)) as H3.
  set (b3 := nm_puto malloc_ok b2 2 _) in *.
  destruct (nm_put_fields malloc_ok entries rc0 b3) as [[[j rc] b4]|] eqn:Ef; [|done].
  cbn [mbind option_bind] in E.
  destruct (nm_put_fields_ext _ _ _ _ _ _ (proj1 H3) Hok Ef) as [[-> Hrc]|(-> & H4 & Hfs & _)];
    [cbn in E; congruence |].
  cbn [negb andb] in E. destruct (Z.eqb_spec (buf_err b4) VTM_OK) as [He|He]; [|cbn in E; congruence].
  injection E as _ <-.
  assert (buf_order b3 = buf_order b /\ buf_order b2 = buf_order b) as [Eo3 Eo2].
  { destruct H1 as (_ & <- & _), H2 as (_ & <- & _), H3 as (_ & <- & _). done. }
  rewrite Eo3 in H4. rewrite Eo2 in H3.
  pose proof (puts_ext_trans _ _ _ _ _ (puts_ext_trans _ _ _ _ _ (puts_ext_trans _ _ _ _ _ H1 H2) H3) H4)
    as (Hb' & Ho' & Hc). destruct (Hc He) as (_ & -> & Hrd).
  split_and!; [by apply buf_live_ok | done | | done | | done].
  - f_equal. unfold nm_wire. rewrite <- !app_assoc. unfold zlen. by rewrite length_fmap.
  - unfold zlen. rewrite length_fmap. done.
Qed.
End write.

(** ** Reading *)

Section read.
Context (malloc_ok : Z -> bool) (printf_g : Z -> bytes) (ds_ok : bool).
Hypothesis Hmalloc : forall n, malloc_ok n = true.

Abbreviation wf := (ds_wf malloc_ok printf_g).

(** A step that goes on. *)
Definition nm_step (e e' : nm_env) : Prop := nm_switch malloc_ok ds_ok alloc_ok e = Some (NmLoop, e').

Lemma nm_steps_run e e' s e2 :
  rtc nm_step e e' -> nm_switch malloc_ok ds_ok alloc_ok e' = Some (NmReturn s, e2) ->
  exists fuel, nm_run_loop malloc_ok ds_ok alloc_ok fuel e = Some (s, e2).
Proof.
  intros Hs He. induction Hs as [e|e e1 e' Hstep _ IH].
  - exists 1%nat. cbn. by rewrite He.
  - destruct (IH He) as [fuel IH']. exists (S fuel). cbn. by rewrite Hstep.
Qed.

Lemma nm_run_loop_det fuel1 : forall fuel2 e r1 r2,
  nm_run_loop malloc_ok ds_ok alloc_ok fuel1 e = Some r1 ->
  nm_run_loop malloc_ok ds_ok alloc_ok fuel2 e = Some r2 -> r1 = r2.
Proof.
  induction fuel1 as [|fuel1 IH]; intros fuel2 e r1 r2 E1 E2; [done |].
  destruct fuel2 as [|fuel2]; [done |]. cbn [nm_run_loop] in *.
  destruct (nm_switch _ _ _ e) as [[[] e']|]; cbn [mbind option_bind] in *; [|congruence | done].
  eapply IH; [exact E1 | exact E2].
Qed.

(** Reading a known prefix. *)
Lemma geto_app b l r o :
  buf_ok b -> buf_content b = l ++ r ->
  VTM_BUF_GET_AVAIL b (zlen l) = true /\
  exists b', vtm_buf_geto b (zlen l) o = Some (orient b o l, b') /\ buf_ok b' /\ buf_content b' = r /\
    buf_order b' = buf_order b.
Proof.
  intros Hb Hc. pose proof (zlen_nonneg l). pose proof (zlen_nonneg r).
  assert (0 <= zlen l <= zlen (buf_content b)) as Hn by (rewrite Hc, zlen_app; lia).
  assert (is_size (zlen l)) as Hsz.
  { pose proof (buf_content_len b Hb). buf_sizes. unfold is_size, SIZE_MAX. lia. }
  split; [apply get_avail_spec; [done | done | lia] |].
  destruct (vtm_buf_geto_spec b (zlen l) o Hb Hn) as (b' & E & Hb' & Hc' & Ho & _).
  rewrite Hc, ztake_app_exact in E by done. rewrite Hc, zdrop_app_exact in Hc' by done. by exists b'.
Qed.

Lemma getc_app b c r :
  buf_ok b -> buf_content b = c :: r ->
  VTM_BUF_GET_AVAIL b 1 = true /\
  exists b', VTM_BUF_GETC b = Some (c, b') /\ buf_ok b' /\ buf_content b' = r /\ buf_order b' = buf_order b.
Proof.
  intros Hb Hc. destruct (geto_app b [c] r host Hb Hc) as [Ha _]. split; [exact Ha |].
  destruct (VTM_BUF_GETC_spec b c r Hb Hc) as (E & Hb' & Hc'). eexists. by split_and!.
Qed.

(** An integer in the order of the buffer. *)
Lemma geto_int b n v r :
  buf_ok b -> 0 <= n -> buf_content b = ord_bytes (buf_order b) (Z.to_nat n) v ++ r ->
  VTM_BUF_GET_AVAIL b n = true /\
  exists b', vtm_buf_geto b n host = Some (ord_bytes host (Z.to_nat n) v, b') /\ buf_ok b' /\ buf_content b' = r /\
    buf_order b' = buf_order b.
Proof.
  intros Hb Hn Hc. destruct (geto_app b _ r host Hb Hc) as [Ha (b' & E & H)].
  rewrite zlen_ord_bytes in Ha, E. rewrite Z2Nat.id in Ha, E by done. split; [done |].
  exists b'. rewrite E. split; [|done].
  assert (orient b host (ord_bytes (buf_order b) (Z.to_nat n) v) = ord_bytes host (Z.to_nat n) v) as ->; [|done].
  unfold orient, host, ord_bytes.
  destruct (buf_order b); [rewrite decide_False by done; apply rev_involutive | by rewrite decide_True].
Qed.

Lemma nm_type_roundtrip type : type ∈ nm_types -> vtm_nm_type_from_num (u8 (nm_type_num type)) = Some type.
Proof.
  unfold nm_types. intros H. repeat (apply elem_of_cons in H as [->|H]; [reflexivity |]).
  by apply not_elem_of_nil in H.
Qed.

(** The view of a value that was read. *)
Lemma nm_view_word type v junk :
  is_ref_type type = false ->
  nm_view (mk_variant (elem_store (vtm_elem_size type) v junk) type None)
  = NmWord type (wrap (8 * vtm_elem_size type) v).
Proof.
  intros Hr. unfold nm_view. cbn [v_type v_data]. rewrite Hr. f_equal. pose proof (elem_size_le type).
  apply elem_store_word. lia.
Qed.

(** The state VALUE reads what was written for a value. *)
Lemma nm_value_step p b h x rest F l :
  nm_state p = VTM_NM_PARSE_VALUE -> nm_order p = host -> nm_value_type p = nm_val_type x ->
  buf_ok b -> heap_ok F l h -> nm_val_type x ∈ nm_types ->
  match x with
  | NmWord type w => is_ref_type type = false /\ nm_value_len p = vtm_elem_size type /\
      0 <= w < 2 ^ (8 * vtm_elem_size type) /\ buf_content b = nm_value_wire (buf_order b) x ++ rest
  | NmBytes type s => is_ref_type type = true /\ nm_value_len p = zlen s /\ zlen s < UINT32_MAX /\
      (type = VTM_ELEM_STRING -> is_cstr s) /\ buf_content b = s ++ rest
  end ->
  exists v b' h', nm_step (mk_nm_env p b h)
      (mk_nm_env (nm_to VTM_NM_PARSE_FIELD_COMPLETE (nm_set_value v p)) b' h') /\
    buf_ok b' /\ buf_content b' = rest /\ buf_order b' = buf_order b /\
    heap_ok F (value_block (nm_val_type x) v ++ l) h' /\ value_valid (nm_val_type x) v /\
    nm_view (mk_variant v (nm_val_type x) None) = nm_sent x.
Proof.
  intros Es Eo Et Hb Ho Hin Hx. unfold nm_step, nm_switch. cbn [nm_par nm_buf nm_heap]. rewrite Es.
  unfold nm_parse_value. cbn [nm_par nm_buf nm_heap]. rewrite Et, Eo.
  destruct x as [type w|type s]; cbn [nm_val_type] in *.
  - destruct Hx as (Hr & Elen & Hw & Hc). pose proof (elem_size_le type) as Hsz.
    assert (forall v b', VTM_BUF_GET_AVAIL b (vtm_elem_size type) = true ->
      buf_ok b' /\ buf_content b' = rest /\ buf_order b' = buf_order b ->
      nm_view (mk_variant v type None) = nm_sent (NmWord type w) ->
      exists v0 b0 h0, nm_loop (nm_to VTM_NM_PARSE_FIELD_COMPLETE (nm_set_value v p)) b' h
        = Some (NmLoop, mk_nm_env (nm_to VTM_NM_PARSE_FIELD_COMPLETE (nm_set_value v0 p)) b0 h0) /\
      buf_ok b0 /\ buf_content b0 = rest /\ buf_order b0 = buf_order b /\
      heap_ok F (value_block type v0 ++ l) h0 /\ value_valid type v0 /\
      nm_view (mk_variant v0 type None) = nm_sent (NmWord type w)) as Hfin.
    { intros v b' _ (H1 & H2 & H3) Hv. exists v, b', h. split_and!; try done.
      - unfold value_block. by rewrite Hr.
      - split; [done |]. by rewrite Hr. }
    destruct (decide (type = VTM_ELEM_FLOAT)) as [->|Hf]; [|destruct (decide (type = VTM_ELEM_DOUBLE)) as [->|Hd]].
    + cbn [vtm_elem_size nm_value_wire] in *.
      destruct (geto_int b 4 _ rest Hb ltac:(lia) Hc) as [Ha (b' & E & H)]. rewrite Elen, Ha. cbn [negb].
      rewrite E. cbn [mbind option_bind]. rewrite ord_val_bytes.
      assert (packed (vtm_pack_float w) mod 2 ^ (8 * Z.of_nat (Z.to_nat 4)) = packed (vtm_pack_float w)) as ->.
      { apply (wrap_small 32). apply packed_float_range. }
      destruct (vtm_unpack_float (packed (vtm_pack_float w))) as [rc bits] eqn:Eu.
      apply Hfin; [done | done |]. etransitivity; [apply (nm_view_word VTM_ELEM_FLOAT); done |]. cbn [nm_sent]. by rewrite Eu.
    + cbn [vtm_elem_size nm_value_wire] in *.
      destruct (geto_int b 8 _ rest Hb ltac:(lia) Hc) as [Ha (b' & E & H)]. rewrite Elen, Ha. cbn [negb].
      rewrite E. cbn [mbind option_bind]. rewrite ord_val_bytes.
      assert (packed (vtm_pack_double w) mod 2 ^ (8 * Z.of_nat (Z.to_nat 8)) = packed (vtm_pack_double w)) as ->.
      { apply (wrap_small 64). apply packed_double_range. }
      destruct (vtm_unpack_double (packed (vtm_pack_double w))) as [rc bits] eqn:Eu.
      apply Hfin; [done | done |]. etransitivity; [apply (nm_view_word VTM_ELEM_DOUBLE); done |]. cbn [nm_sent]. by rewrite Eu.
    + assert (nm_value_wire (buf_order b) (NmWord type w) = ord_bytes (buf_order b) (Z.to_nat (vtm_elem_size type)) w) as Ew
        by (by destruct type).
      rewrite Ew in Hc. destruct (geto_int b (vtm_elem_size type) _ rest Hb ltac:(lia) Hc) as [Ha (b' & E & H)].
      rewrite Elen, Ha. cbn [negb].
      assert (nm_sent (NmWord type w) = NmWord type w) as Esent by by destruct type.
      assert (nm_view (mk_variant (elem_store (vtm_elem_size type) (ord_val host (ord_bytes host (Z.to_nat (vtm_elem_size type)) w))
        (elem_word (nm_value p))) type None) = nm_sent (NmWord type w)) as Hv.
      { rewrite nm_view_word by done. rewrite Esent, ord_val_bytes. f_equal. rewrite Z2Nat.id by lia.
        rewrite (wrap_small _ (w mod _)); [apply Z.mod_small; lia |]. apply Z.mod_pos_bound. apply Z.pow_pos_nonneg; lia. }
      apply bool_decide_eq_false in Hr as Hr'.
      destruct type; try done; try (by destruct Hr'; auto); rewrite E; cbn [mbind option_bind]; by apply Hfin.
  - destruct Hx as (Hr & Elen & Hlt & Hcs & Hc). pose proof (zlen_nonneg s).
    destruct (geto_app b s rest (buf_order b) Hb Hc) as [Ha (b' & E & H1 & H2 & H3)].
    assert (orient b (buf_order b) s = s) as Eor by (unfold orient; by rewrite decide_True).
    rewrite Eor in E. rewrite Elen, Ha. cbn [negb]. rewrite !Hmalloc. cbn [negb].
    assert (forall text, text = s -> exists q h', c_malloc true text h = (q, h') /\ is_null q = false /\
      heap_ok F (value_block type (ElemPtr q) ++ l) h' /\ value_valid type (ElemPtr q) /\
      nm_view (mk_variant (ElemPtr q) type None) = NmBytes type s) as Hq.
    { intros text ->. destruct (heap_ok_malloc F l h s Ho) as (q & h' & Em & Eq & Hnn & Ho').
      exists q, h'. split_and!; try done.
      - unfold value_block. by rewrite Hr.
      - split; [done | eauto].
      - unfold nm_view. cbn [v_type v_data]. by rewrite Hr, Eq. }
    apply bool_decide_eq_true in Hr as [-> | ->].
    + assert (u32 (zlen s + 1) = zlen s + 1) as -> by (apply wrap_small; unfold UINT32_MAX in *; lia).
      rewrite (proj2 (Z.leb_gt _ _)) by lia. unfold vtm_buf_getm. rewrite E. cbn [mbind option_bind].
      destruct (Hq (until_nul s) (until_nul_id s (Hcs eq_refl))) as (q & h' & -> & _ & H4 & H5 & H6).
      exists (ElemPtr q), b', h'. by split_and!.
    + unfold vtm_buf_getm. rewrite E. cbn [mbind option_bind]. unfold vtm_blob_new.
      unfold UINT32_MAX in *. rewrite (proj2 (Z.ltb_ge _ _)) by lia.
      rewrite u64_small by (unfold is_size, SIZE_MAX; lia). rewrite (proj2 (Z.ltb_ge _ _)) by lia. cbn [orb].
      destruct (Hq s eq_refl) as (q & h' & -> & -> & H4 & H5 & H6).
      exists (ElemPtr q), b', h'. by split_and!.
Qed.
(** A parser between two fields. *)
Record nm_between (F : heap) (count parsed : Z) (ds : vtm_dataset) (rest : bytes) (o : vtm_byteorder)
    (e : nm_env) : Prop := {
  nb_state : nm_state (nm_par e) = VTM_NM_PARSE_FIELD_BEGIN;
  nb_order : nm_order (nm_par e) = host;
  nb_msg : nm_msg (nm_par e) = Some ds;
  nb_name : nm_name (nm_par e) = None;
  nb_count : nm_field_count (nm_par e) = count /\ nm_fields_parsed (nm_par e) = parsed;
  nb_wf : wf ds;
  nb_heap : heap_ok F (ds_owned ds) (nm_heap e);
  nb_buf : buf_ok (nm_buf e) /\ buf_content (nm_buf e) = rest /\ buf_order (nm_buf e) = o
}.

Lemma nm_name_steps p b h name r :
  nm_state p = VTM_NM_PARSE_NAME_LEN -> nm_order p = host -> nm_name p = None ->
  buf_ok b -> name <> [] -> is_cstr name -> zlen name <= 255 ->
  buf_content b = [zlen name] ++ name ++ r ->
  forall F l, heap_ok F l h ->
  exists q b' h', rtc nm_step (mk_nm_env p b h)
      (mk_nm_env (nm_to VTM_NM_PARSE_VALUE_TYPE (nm_set_name (zlen name) (Some q) p)) b' h') /\
    buf_ok b' /\ buf_content b' = r /\ buf_order b' = buf_order b /\
    is_null q = false /\ p_text q = name /\ heap_ok F (p_addr q :: l) h'.
Proof.
  intros Es Eo En Hb Hne Hcs Hlen Hc F l Ho.
  assert (0 < zlen name) as Hpos by (destruct name; [done | rewrite zlen_cons; pose proof (zlen_nonneg name); lia]).
  destruct (geto_app b [zlen name] (name ++ r) host Hb Hc) as [Ha (b1 & E1 & Hb1 & Hc1 & Ho1)].
  change (zlen [zlen name]) with 1 in Ha, E1.
  destruct (geto_app b1 name r (buf_order b1) Hb1 Hc1) as [Ha2 (b2 & E2 & Hb2 & Hc2 & Ho2)].
  destruct (heap_ok_malloc F l h name Ho) as (q & h' & Em & Eq & Hq & Ho').
  exists q, b2, h'. split; [|split_and!; [done | done | congruence | done | done | done]].
  set (p1 := nm_to VTM_NM_PARSE_NAME (nm_set_name (zlen name) (nm_name p) p)).
  eapply (rtc_l _ _ (mk_nm_env p1 b1 h)); [|eapply rtc_once].
  - unfold nm_step, nm_switch. cbn [nm_par nm_buf nm_heap]. rewrite Es. unfold nm_parse_name_len.
    cbn [nm_par nm_buf nm_heap]. rewrite Ha. cbn [negb]. rewrite Eo, E1. cbn [mbind option_bind].
    assert (ord_val host (orient b host [zlen name]) = zlen name) as ->
      by (unfold orient, host; destruct (decide _); cbn; lia).
    cbn [nm_set_name nm_name_len]. rewrite (proj2 (Z.eqb_neq (zlen name) 0)) by lia. done.
  - unfold nm_step, nm_switch. cbn [nm_par nm_buf nm_heap]. change (nm_state p1) with VTM_NM_PARSE_NAME. cbn iota.
    unfold nm_parse_name. cbn [nm_par nm_buf nm_heap]. change (nm_name_len p1) with (zlen name).
    rewrite Ha2. cbn [negb]. rewrite Hmalloc. cbn [negb]. unfold vtm_buf_getm. rewrite E2. cbn [mbind option_bind].
    assert (until_nul (orient b1 (buf_order b1) name) = name) as ->
      by (unfold orient; rewrite decide_True by done; by apply until_nul_id).
    rewrite Em. done.
Qed.

(** From the type of a value to the end of the value. *)
Lemma nm_typed_steps p b h x rest F l :
  nm_state p = VTM_NM_PARSE_VALUE_TYPE -> nm_order p = host -> buf_ok b -> heap_ok F l h ->
  nm_val_type x ∈ nm_types ->
  match x with
  | NmWord type w => is_ref_type type = false /\ 0 <= w < 2 ^ (8 * vtm_elem_size type)
  | NmBytes type s => is_ref_type type = true /\ zlen s < UINT32_MAX /\ (type = VTM_ELEM_STRING -> is_cstr s)
  end ->
  buf_content b = [nm_type_num (nm_val_type x)] ++ nm_value_wire (buf_order b) x ++ rest ->
  exists v len b' h', rtc nm_step (mk_nm_env p b h)
      (mk_nm_env (nm_to VTM_NM_PARSE_FIELD_COMPLETE (nm_set_value v (nm_set_type (nm_val_type x) len p))) b' h') /\
    buf_ok b' /\ buf_content b' = rest /\ buf_order b' = buf_order b /\
    heap_ok F (value_block (nm_val_type x) v ++ l) h' /\ value_valid (nm_val_type x) v /\
    nm_view (mk_variant v (nm_val_type x) None) = nm_sent x.
Proof.
  intros Es Eo Hb Ho Hin Hx Hc.
  destruct (getc_app b _ _ Hb Hc) as [Ha (b1 & E1 & Hb1 & Hc1 & Ho1)].
  assert (forall len next, (match nm_val_type x with
      | VTM_ELEM_FLOAT => (4, VTM_NM_PARSE_VALUE) | VTM_ELEM_DOUBLE => (8, VTM_NM_PARSE_VALUE)
      | VTM_ELEM_STRING | VTM_ELEM_BLOB => (nm_value_len p, VTM_NM_PARSE_VALUE_LEN)
      | _ => (vtm_elem_size (nm_val_type x), VTM_NM_PARSE_VALUE) end) = (len, next) ->
    nm_step (mk_nm_env p b h) (mk_nm_env (nm_to next (nm_set_type (nm_val_type x) len p)) b1 h)) as Hstep.
  { intros len next E. unfold nm_step, nm_switch. cbn [nm_par nm_buf nm_heap]. rewrite Es. unfold nm_parse_value_type.
    cbn [nm_par nm_buf nm_heap]. rewrite Ha. cbn [negb]. rewrite E1. cbn [mbind option_bind].
    rewrite nm_type_roundtrip by done. by rewrite E. }
  destruct x as [type w|type s]; cbn [nm_val_type] in *.
  - destruct Hx as [Hr Hw].
    set (p1 := nm_to VTM_NM_PARSE_VALUE (nm_set_type type (vtm_elem_size type) p)).
    destruct (nm_value_step p1 b1 h (NmWord type w) rest F l) as (v & b' & h' & Hs & Hb' & Hc' & Ho' & Hrest); try done.
    { split_and!; try done; try apply Hw. by rewrite Ho1. }
    exists v, (vtm_elem_size type), b', h'. split_and!; [|done | done | by rewrite Ho' | apply Hrest..].
    eapply rtc_l; [apply (Hstep (vtm_elem_size type) VTM_NM_PARSE_VALUE) | eapply rtc_once, Hs].
    apply bool_decide_eq_false in Hr. destruct type; try done; by destruct Hr; auto.
  - destruct Hx as (Hr & Hlt & Hcs). cbn [nm_value_wire] in Hc1. rewrite <- app_assoc in Hc1.
    rewrite <- Ho1 in Hc1. destruct (geto_int b1 4 (zlen s) (s ++ rest) Hb1 ltac:(lia) Hc1) as [Ha2 (b2 & E2 & Hb2 & Hc2 & Ho2)].
    set (p1 := nm_to VTM_NM_PARSE_VALUE_LEN (nm_set_type type (nm_value_len p) p)).
    set (p2 := nm_to VTM_NM_PARSE_VALUE (nm_set_type type (zlen s) p1)).
    destruct (nm_value_step p2 b2 h (NmBytes type s) rest F l) as (v & b' & h' & Hs & Hb' & Hc' & Ho' & Hrest); try done.
    exists v, (zlen s), b', h'. split_and!; [|done | done | congruence | apply Hrest..].
    apply (rtc_l _ _ (mk_nm_env p1 b1 h)); [apply (Hstep (nm_value_len p) VTM_NM_PARSE_VALUE_LEN)|
      apply (rtc_l _ _ (mk_nm_env p2 b2 h)); [|eapply rtc_once, Hs]].
    { by apply bool_decide_eq_true in Hr as [-> | ->]. }
    unfold nm_step, nm_switch. cbn [nm_par nm_buf nm_heap]. unfold nm_parse_value_len. cbn [nm_par nm_buf nm_heap].
    change (nm_state p1) with VTM_NM_PARSE_VALUE_LEN. cbn iota. change (nm_order p1) with (nm_order p).
    rewrite Ha2, Eo, E2. cbn [negb mbind option_bind].
    rewrite ord_val_bytes. pose proof (zlen_nonneg s). unfold UINT32_MAX in Hlt.
    rewrite Z.mod_small by (change (8 * Z.of_nat (Z.to_nat 4)) with 32; lia). done.
Qed.

Lemma nm_field_steps F count parsed ds f rest o e :
  nm_between F count parsed ds (nm_field_wire o f ++ rest) o e -> nm_field_ok f -> parsed <> count ->
  zlen (nm_field_wire o f) < UINT32_MAX ->
  exists e' ds', rtc nm_step e e' /\ nm_between F count (u16 (parsed + 1)) ds' rest o e' /\
    hints ds' = hints ds /\
    nm_view <$> ds_abs ds' = <[ds_canon (hints ds) f.1 := nm_sent f.2]> (nm_view <$> ds_abs ds).
Proof.
  intros [Hs Ho Hm Hn [Hcnt Hpar] Hw Hh (Hb & Hc & Hbo)] (Hne & Hcs & Hlen & Hin & Hx) Hpc Hsz.
  destruct e as [p b h]. cbn [nm_par nm_buf nm_heap] in *. destruct f as [name x]. cbn [fst snd] in *.
  unfold nm_field_wire in Hc, Hsz. cbn [fst snd] in Hc, Hsz. rewrite <- !app_assoc in Hc.
  set (p1 := nm_to VTM_NM_PARSE_NAME_LEN p).
  destruct (nm_name_steps p1 b h name _ eq_refl Ho Hn Hb Hne Hcs Hlen Hc F _ Hh)
    as (q & b1 & h1 & S1 & Hb1 & Hc1 & Ho1 & Hq & Eq & Hh1).
  set (p2 := nm_to VTM_NM_PARSE_VALUE_TYPE (nm_set_name (zlen name) (Some q) p1)) in *.
  rewrite Hbo in Ho1. rewrite <- Ho1 in Hc1.
  destruct (nm_typed_steps p2 b1 h1 x rest F _ eq_refl Ho Hb1 Hh1 Hin) as (v & len & b2 & h2 & S2 & Hb2 & Hc2 & Ho2 & Hh2 & Hv & Hview);
    [ | exact Hc1 |].
  { destruct x as [type w|type s]; [done |]. destruct Hx as (Hr & _ & Hc' & _). split_and!; [done | | done].
    cbn [nm_value_wire] in Hsz. rewrite !zlen_app, zlen_ord_bytes in Hsz. change (zlen [_]) with 1 in Hsz.
    pose proof (zlen_nonneg name). unfold zlen in *. cbn [length] in *. lia. }
  set (p3 := nm_to VTM_NM_PARSE_FIELD_COMPLETE _) in *.
  assert (heap_ok F (p_addr q :: value_block (nm_val_type x) v ++ ds_owned ds) h2) as Hh3.
  { eapply heap_ok_perm; [|exact Hh2]. symmetry. apply Permutation_middle. }
  destruct (nm_store_ok malloc_ok printf_g F ds q (nm_val_type x) v h2 Hw Hq) as
    (ds' & g1 & g2 & g3 & E1 & E2 & E3 & Hw' & Hhints & Hh4 & Ha); [by rewrite Eq | done | done |].
  set (p4 := nm_set_name (zlen name) None (nm_set_msg (Some ds') p3)).
  exists (mk_nm_env (nm_to VTM_NM_PARSE_FIELD_BEGIN (nm_set_counts count (u16 (parsed + 1)) p4)) b2 g3), ds'.
  split_and!; [| |done |].
  - eapply rtc_l; [|etransitivity; [exact S1 |]; etransitivity; [exact S2 | eapply rtc_once]].
    + unfold nm_step, nm_switch. cbn [nm_par nm_buf nm_heap]. rewrite Hs, Hcnt, Hpar.
      by rewrite (proj2 (Z.eqb_neq parsed count)) by done.
    + unfold nm_step, nm_switch. cbn [nm_par nm_buf nm_heap]. change (nm_state p3) with VTM_NM_PARSE_FIELD_COMPLETE.
      cbn iota. unfold nm_parse_field_complete. cbn [nm_par nm_buf nm_heap]. change (nm_msg p3) with (nm_msg p).
      rewrite Hm. change (nm_name p3) with (Some q). change (nm_value p3) with v.
      change (nm_value_type p3) with (nm_val_type x). cbn [mbind option_bind].
      rewrite E1. cbn [mbind option_bind]. rewrite E2. cbn [mbind option_bind]. rewrite E3. cbn [mbind option_bind].
      subst p4. unfold nm_loop. do 3 f_equal. cbn. rewrite ?Hcnt, ?Hpar. done.
  - split; try done; cbn [nm_par nm_buf nm_heap]. split_and!; [done | done | congruence].
  - rewrite Ha, fmap_insert, Eq. f_equal. rewrite <- Hview. unfold nm_view, canon_variant. cbn [v_type v_data].
    destruct Hv as [_ Hv]. destruct (is_ref_type (nm_val_type x)) eqn:Er.
    + destruct (Hv eq_refl) as (pp & -> & _). by destruct (nm_val_type x).
    + apply bool_decide_eq_false in Er. destruct (nm_val_type x); try done; by destruct Er; auto.
Qed.
Definition nm_insert (g : gmap bytes nm_val) (f : bytes * nm_val) : gmap bytes nm_val :=
  <[f.1 := nm_sent f.2]> g.

Lemma nm_fields_steps F count o rest fs : forall parsed ds e,
  nm_between F count parsed ds ((fs ≫= nm_field_wire o) ++ rest) o e -> Forall nm_field_ok fs ->
  hints ds = VTM_DS_HINT_DEFAULT -> 0 <= parsed -> parsed + zlen fs = count -> count <= UINT16_MAX ->
  zlen (fs ≫= nm_field_wire o) < UINT32_MAX ->
  exists e' ds', rtc nm_step e e' /\ nm_between F count count ds' rest o e' /\
    nm_view <$> ds_abs ds' = fold_left nm_insert fs (nm_view <$> ds_abs ds).
Proof.
  induction fs as [|f fs IH]; intros parsed ds e Hb Hok Hh Hp Hc Hmax Hlen.
  - exists e, ds. change (zlen (A:=bytes * nm_val) []) with 0 in Hc. rewrite Z.add_0_r in Hc. subst count.
    by split_and!.
  - apply Forall_cons in Hok as [Hf Hok]. change ((f :: fs) ≫= nm_field_wire o)
      with (nm_field_wire o f ++ (fs ≫= nm_field_wire o)) in Hb, Hlen.
    rewrite <- app_assoc in Hb. rewrite zlen_cons in Hc. rewrite zlen_app in Hlen.
    pose proof (zlen_nonneg fs). pose proof (zlen_nonneg (nm_field_wire o f)).
    pose proof (zlen_nonneg (fs ≫= nm_field_wire o)). unfold UINT16_MAX in Hmax.
    destruct (nm_field_steps F count parsed ds f _ o e Hb Hf) as (e1 & ds1 & S1 & Hb1 & Hh1 & Ha1); [lia | lia |].
    unfold u16 in Hb1. rewrite wrap_small in Hb1 by lia.
    destruct (IH (parsed + 1) ds1 e1 Hb1) as (e2 & ds2 & S2 & Hb2 & Ha2); auto; [by rewrite Hh1 | lia | lia | lia |].
    exists e2, ds2. split_and!; [by etransitivity | done |]. rewrite Ha2, Ha1, Hh. done.
Qed.

(** The head of a message. *)
Lemma nm_head_steps p b h ds o fs rest :
  nm_state p = VTM_NM_PARSE_MSG_BEGIN -> nm_order p = host -> nm_msg p = Some ds -> nm_name p = None ->
  wf ds -> buf_ok b -> buf_order b = o -> buf_content b = nm_wire o fs ++ rest -> zlen fs <= UINT16_MAX ->
  forall F, heap_ok F (ds_owned ds) h ->
  exists e, rtc nm_step (mk_nm_env p b h) e /\ nm_between F (zlen fs) 0 ds ((fs ≫= nm_field_wire o) ++ rest) o e.
Proof.
  intros Es Eo Em En Hw Hb Hbo Hc Hlen F Hh. pose proof (zlen_nonneg fs). unfold UINT16_MAX in Hlen.
  unfold nm_wire in Hc. rewrite <- !app_assoc in Hc. cbn [app] in Hc.
  destruct (getc_app b _ _ Hb Hc) as [Ha1 (b1 & E1 & Hb1 & Hc1 & Ho1)].
  destruct (getc_app b1 _ _ Hb1 Hc1) as [Ha2 (b2 & E2 & Hb2 & Hc2 & Ho2)].
  assert (buf_order b2 = o) as Hbo2 by congruence. rewrite <- Hbo2 in Hc2 at 1.
  destruct (geto_int b2 2 (zlen fs) _ Hb2 ltac:(lia) Hc2) as [Ha3 (b3 & E3 & Hb3 & Hc3 & Ho3)].
  exists (mk_nm_env (nm_to VTM_NM_PARSE_FIELD_BEGIN (nm_set_counts (zlen fs) 0 (nm_to VTM_NM_PARSE_FIELD_COUNT p))) b3 h).
  split.
  - apply (rtc_l _ _ (mk_nm_env (nm_to VTM_NM_PARSE_MAGIC p) b h)).
    { unfold nm_step, nm_switch. cbn [nm_par]. by rewrite Es. }
    apply (rtc_l _ _ (mk_nm_env (nm_to VTM_NM_PARSE_VERSION p) b1 h)).
    { unfold nm_step, nm_switch, nm_expect. cbn [nm_par nm_to nm_state nm_buf nm_heap]. rewrite Ha1. cbn [negb].
      by rewrite E1. }
    apply (rtc_l _ _ (mk_nm_env (nm_to VTM_NM_PARSE_FIELD_COUNT p) b2 h)).
    { unfold nm_step, nm_switch, nm_expect. cbn [nm_par nm_to nm_state nm_buf nm_heap]. rewrite Ha2. cbn [negb].
      by rewrite E2. }
    apply rtc_once. unfold nm_step, nm_switch, nm_parse_field_count. cbn [nm_par nm_to nm_state nm_buf nm_heap nm_order].
    rewrite Ha3, Eo, E3. cbn [negb mbind option_bind]. rewrite ord_val_bytes.
    by rewrite Z.mod_small by (change (8 * Z.of_nat (Z.to_nat 2)) with 16; lia).
  - split; try done; cbn [nm_par nm_buf nm_heap]. split_and!; [done | done | congruence].
Qed.
End read.

(** The fields of a dataset and its map of values. *)
Lemma nm_view_canon v : nm_view (canon_variant v) = nm_view v.
Proof.
  unfold nm_view, canon_variant. cbn [v_type v_data]. destruct (is_ref_type (v_type v)) eqn:Er.
  - apply bool_decide_eq_true in Er as [-> | ->]; by destruct (v_data v).
  - apply bool_decide_eq_false in Er. destruct (v_type v); try done; by destruct Er; auto.
Qed.

Lemma fold_insert_list_to_map fs : forall g,
  NoDup fs.*1 -> (forall k, k ∈ fs.*1 -> g !! k = None) ->
  fold_left nm_insert fs g = (nm_sent <$> list_to_map fs) ∪ g.
Proof.
  induction fs as [|[k x] fs IH]; intros g Hnd Hg; cbn [fold_left].
  - cbn. by rewrite fmap_empty, (left_id_L ∅ (∪)).
  - cbn [fmap list_fmap fst] in Hnd, Hg. apply NoDup_cons in Hnd as [Hk Hnd]. rewrite IH; [| done |].
    + unfold nm_insert. cbn [fst snd list_to_map foldr]. change (foldr _ _ fs) with (list_to_map (M:=gmap bytes nm_val) fs).
      rewrite fmap_insert. rewrite <- insert_union_l. rewrite insert_union_r; [done |].
      rewrite lookup_fmap, (not_elem_of_list_to_map_1 (M:=gmap bytes) fs k Hk). done.
    + intros k' Hk'. unfold nm_insert. cbn [fst snd]. rewrite lookup_insert_ne; [apply Hg; by right |].
      intros ->. done.
Qed.

Definition nm_entries (ds : vtm_dataset) : list (option cptr * vtm_variant) :=
  default [] (vtm_dataset_entryset true (Some ds)).

Lemma nm_fields_abs malloc_ok printf_g ds :
  ds_wf malloc_ok printf_g ds -> hints ds = VTM_DS_HINT_DEFAULT -> Forall entry_ok (nm_entries ds) ->
  NoDup (entry_field <$> nm_entries ds).*1 /\
  list_to_map (entry_field <$> nm_entries ds) = nm_view <$> ds_abs ds.
Proof.
  intros [Hw _] Hh Hok. unfold nm_entries, vtm_dataset_entryset, VTM_SMAP_FOR_EACH in *. cbn [default id] in *.
  pose proof (sw_tbl _ _ _ _ Hw) as Ht. pose proof (tbl_nodup _ _ _ _ Ht) as Hnd.
  assert (forall n, n ∈ concat (vars ds) ->
    entry_field (elem_pointer (dn_key_data n), dn_value n)
    = (key_canon (KeyLaws := ds_key_laws (hints ds)) (dn_key_data n), nm_view (canon_variant (dn_value n)))) as Hent.
  { intros n Hn. rewrite List.Forall_map, Forall_forall in Hok. specialize (Hok n Hn) as [(name & En & _) _].
    unfold entry_field. cbn [fst snd] in *. rewrite En, nm_view_canon. f_equal.
    pose proof (tbl_keys _ _ _ _ Ht) as Hk. rewrite Forall_forall in Hk. specialize (Hk n Hn). apply ds_key_ok in Hk.
    destruct (dn_key_data n) as [|p] eqn:Ed; [done |]. cbn in En. injection En as ->. rewrite ds_key_canon, Hh. done. }
  assert (entry_field <$> (map (fun n => (elem_pointer (dn_key_data n), dn_value n)) (concat (vars ds)))
    = (fun n => (key_canon (KeyLaws := ds_key_laws (hints ds)) (dn_key_data n), nm_view (canon_variant (dn_value n))))
        <$> concat (vars ds)) as ->.
  { change (map (fun n => (elem_pointer (dn_key_data n), dn_value n)) (concat (vars ds)))
      with ((fun n => (elem_pointer (dn_key_data n), dn_value n)) <$> concat (vars ds)).
    rewrite <- list_fmap_compose. apply list_fmap_ext. intros i n Hi. apply Hent. by eapply list_elem_of_lookup_2. }
  split.
  - rewrite <- list_fmap_compose. exact Hnd.
  - unfold ds_abs, tbl_abs. rewrite <- list_to_map_fmap. f_equal. rewrite <- list_fmap_compose. done.
Qed.

(** ** Properties *)

(** C7: Round trip.  Take a dataset with case-sensitive names, none of them empty,
    whose strings and blobs are there and shorter than 4 GiB ([entry_ok]).  If
    memory suffices, writing it into an empty buffer reports success and the text
    is shorter than 4 GiB, then reading the buffer back into an empty dataset
    reports success, consumes everything and yields exactly the fields of the
    dataset, under the same names and types, whatever the byte order of the buffer
    is (an empty name is written, and refused by the reader: [nm_defects]): integers, booleans and characters with their value, strings
    and blobs with their contents, and floating point numbers as they come out
    of packing and unpacking. *)
Theorem nm_roundtrip malloc_ok printf_g ds rc0 b b' p (h : heap)
    (Hmalloc : forall n, malloc_ok n = true)
    (Hw : ds_wf malloc_ok printf_g ds) (Hh : hints ds = VTM_DS_HINT_DEFAULT)
    (Hok : Forall entry_ok (nm_entries ds)) (Hb : buf_ok b) (Hc : buf_content b = [])
    (Hput : vtm_nm_msg_to_buf malloc_ok true rc0 (Some ds) b = Some (VTM_OK, b'))
    (Hlen : zlen (buf_content b') < UINT32_MAX) :
  exists ds' b2 h', vtm_nm_msg_from_buf malloc_ok true alloc_ok p (vtm_dataset_init VTM_DS_HINT_DEFAULT) b' h
      = Some (VTM_OK, Some ds', b2, h') /\
    nm_view <$> ds_abs ds' = nm_sent <$> (nm_view <$> ds_abs ds) /\
    buf_content b2 = [] /\ heap_ok h (ds_owned ds') h'.
Proof.
  destruct (nm_msg_to_buf_wire malloc_ok rc0 ds b b' Hb Hok Hput) as (Hb' & Hbo & Hc' & Hfs & Hn & _).
  rewrite Hc in Hc'. cbn [app] in Hc'. fold (nm_entries ds) in Hc', Hfs, Hn. set (fs := entry_field <$> nm_entries ds) in *.
  set (ds0 := vtm_dataset_init VTM_DS_HINT_DEFAULT).
  assert (ds_wf malloc_ok printf_g ds0) as Hw0 by (split; [apply smap_wf_empty; cbn; lia | cbn; lia]).
  set (p0 := nm_set_msg (Some ds0) (vtm_nm_parser_init p)).
  destruct (nm_head_steps malloc_ok printf_g true p0 b' h ds0 (buf_order b) fs [] eq_refl eq_refl eq_refl eq_refl Hw0 Hb'
    Hbo ltac:(by rewrite app_nil_r) Hn h (heap_ok_nil h)) as (e1 & S1 & H1).
  assert (zlen (fs ≫= nm_field_wire (buf_order b)) < UINT32_MAX) as Hfl.
  { rewrite Hc' in Hlen. unfold nm_wire in Hlen. rewrite !zlen_app in Hlen.
    pose proof (zlen_nonneg (ord_bytes (buf_order b) 2 (zlen fs))). change (zlen [_; _]) with 2 in Hlen. lia. }
  destruct (nm_fields_steps malloc_ok printf_g true Hmalloc h (zlen fs) (buf_order b) [] fs 0 ds0 e1 H1 Hfs eq_refl)
    as (e2 & ds2 & S2 & H2 & Ha); [lia | lia | exact Hn | done |].
  destruct H2 as [Hs2 _ Hm2 Hname2 [Hcnt Hpar] Hw2 Hheap2 (Hb2 & Hc2 & _)].
  set (e3 := mk_nm_env (nm_to VTM_NM_PARSE_MSG_COMPLETE (nm_par e2)) (nm_buf e2) (nm_heap e2)).
  destruct (nm_steps_run malloc_ok true (mk_nm_env p0 b' h) e3 VTM_NET_RECV_STAT_COMPLETE e3) as [fuel Hfuel].
  { etransitivity; [exact S1 |]. etransitivity; [exact S2 |]. apply rtc_once. unfold nm_step, nm_switch.
    rewrite Hs2, Hcnt, Hpar, Z.eqb_refl. done. }
  { done. }
  destruct (nm_run_safe malloc_ok printf_g true h (mk_nm_env p0 b' h)) as (s & e4 & Hrun & _).
  { split; cbn [nm_buf nm_par nm_heap]; try done. apply (heap_ok_nil h). }
  pose proof (nm_run_loop_det malloc_ok true _ _ _ _ _ Hfuel Hrun) as E. injection E as <- <-.
  exists ds2, (nm_buf e2), (nm_heap e2). unfold vtm_nm_msg_from_buf. fold p0. rewrite Hrun. cbn [mbind option_bind].
  unfold vtm_nm_parser_release. cbn [nm_par e3 nm_to nm_set_msg nm_msg nm_name nm_heap vtm_dataset_free mbind option_bind nm_buf].
  rewrite Hname2, Hm2. split_and!; try done.
  rewrite Ha. destruct (nm_fields_abs malloc_ok printf_g ds Hw Hh Hok) as [Hnd <-].
  change (nm_view <$> ds_abs ds0) with (nm_view <$> (∅ : gmap bytes vtm_variant)). rewrite fmap_empty.
  rewrite fold_insert_list_to_map; [|exact Hnd | by intros; apply lookup_empty]. apply (right_id_L ∅ (∪)).
Qed.

Definition test_run : option (list ds_res * vtm_dataset * heap) :=
  ds_run (fun _ => true) (fun _ => []) (fun _ => 0)
    [DsSet (mk_ptr 16 (cstr_of "id"%string)) (SetInteger VTM_ELEM_INT16 7 (-2));
     DsSet (mk_ptr 32 (cstr_of "text"%string)) (SetString (mk_ptr 48 (cstr_of "hello"%string)))]
    (vtm_dataset_init VTM_DS_HINT_DEFAULT) ∅.

Definition test_ds : vtm_dataset :=
  match test_run with Some (_, ds, _) => ds | None => vtm_dataset_init VTM_DS_HINT_DEFAULT end.

Definition test_msg : vtm_buf :=
  match vtm_nm_msg_to_buf (fun _ => true) true 7 (Some test_ds) (vtm_buf_init VTM_BYTEORDER_BE) with
  | Some (_, b) => b
  | None => vtm_buf_init VTM_BYTEORDER_BE
  end.

Lemma test_ds_wf : ds_wf (fun _ => true) (fun _ => []) test_ds.
Proof.
  edestruct (ds_run_ok (fun _ => true) (fun _ => []) (fun _ => 0) ∅ (vtm_dataset_init VTM_DS_HINT_DEFAULT)
    [DsSet (mk_ptr 16 (cstr_of "id"%string)) (SetInteger VTM_ELEM_INT16 7 (-2));
     DsSet (mk_ptr 32 (cstr_of "text"%string)) (SetString (mk_ptr 48 (cstr_of "hello"%string)))] ∅)
    as (ds & h' & E & Hw & _); [| apply (heap_ok_nil ∅) | reflexivity |].
  - split; [apply smap_wf_empty; cbn; lia | cbn; lia].
  - unfold test_ds, test_run. by rewrite E.
Qed.

Lemma nm_roundtrip_witness :
  exists ds' b2 h', vtm_nm_msg_from_buf (fun _ => true) true alloc_ok nm_junk (vtm_dataset_init VTM_DS_HINT_DEFAULT)
      test_msg ∅ = Some (VTM_OK, Some ds', b2, h') /\
    nm_view <$> ds_abs ds' = nm_sent <$> (nm_view <$> ds_abs test_ds) /\
    buf_content b2 = [] /\ heap_ok ∅ (ds_owned ds') h'.
Proof.
  apply (nm_roundtrip (fun _ => true) (fun _ => []) test_ds 7 (vtm_buf_init VTM_BYTEORDER_BE) test_msg nm_junk ∅);
    [done | apply test_ds_wf | reflexivity | | apply buf_init_ok | reflexivity | vm_compute; reflexivity | vm_compute; reflexivity].
  assert (nm_entries test_ds = [(Some (mk_ptr 1 (cstr_of "id"%string)), mk_variant (ElemWord 65534) VTM_ELEM_INT16 None);
    (Some (mk_ptr 2 (cstr_of "text"%string)), vtm_variant_from_str (mk_ptr 3 (cstr_of "hello"%string)))]) as ->
    by (vm_compute; reflexivity).
  repeat constructor; cbn; try lia; try done; eexists; split_and!; try reflexivity; repeat constructor; done.
Defined.

(** Defects of the message protocol.  Writing a message without fields
    returns the value of a variable that was never set; a received message without
    fields completes but is handed out as NULL, the answer for an error; and the
    writer accepts a field with an empty name, which the parser rejects. *)
Theorem nm_defects :
  (forall malloc_ok rc0 b, buf_ok b -> buf_err b = VTM_OK ->
     exists b' rc, vtm_nm_msg_to_buf malloc_ok true rc0 (Some (vtm_dataset_init 0)) b = Some (rc, b') /\
       (buf_err b' = VTM_OK -> rc = rc0)) /\
  (forall p b c h, buf_ok b -> buf_content b = nm_wire (buf_order b) [] ->
     exists e, vtm_nm_parser_run (fun _ => true) c alloc_ok (mk_nm_env (vtm_nm_parser_init p) b h)
         = Some (VTM_NET_RECV_STAT_COMPLETE, e) /\
       (vtm_nm_parser_get_msg (nm_par e)).1 = None) /\
  (exists ds h b b', vtm_dataset_set_integer VTM_ELEM_INT8 0 alloc_ok (vtm_dataset_init 0) (mk_ptr 16 []) 5 ∅ = Some (ds, h) /\
     vtm_nm_msg_to_buf (fun _ => true) true 0 (Some ds) (vtm_buf_init VTM_BYTEORDER_BE) = Some (VTM_OK, b) /\
     exists e, vtm_nm_parser_run (fun _ => true) true alloc_ok (mk_nm_env (vtm_nm_parser_init nm_junk) b h)
       = Some (VTM_NET_RECV_STAT_INVALID, mk_nm_env e b' h)).
Proof.
  split_and!.
  - intros malloc_ok rc0 b Hb He. unfold vtm_nm_msg_to_buf. cbn [vtm_dataset_entryset].
    change (VTM_SMAP_FOR_EACH _) with (@nil vtm_dataset_node). cbn [map nm_put_fields].
    change (UINT16_MAX <? zlen []) with false. cbn iota. cbn [mbind option_bind negb andb].
    eexists _, _. split; [reflexivity |]. intros ->. by rewrite Z.eqb_refl.
  - intros p b c h Hb Hc. destruct (getc_app b _ _ Hb Hc) as [Ha1 (b1 & E1 & Hb1 & Hc1 & Ho1)].
    destruct (getc_app b1 _ _ Hb1 Hc1) as [Ha2 (b2 & E2 & Hb2 & Hc2 & Ho2)].
    assert (buf_order b2 = buf_order b) as Hbo2 by congruence. rewrite <- Hbo2 in Hc2 at 1.
    destruct (geto_int b2 2 _ _ Hb2 ltac:(lia) Hc2) as [Ha3 (b3 & E3 & _)].
    set (p0 := vtm_nm_parser_init p). set (p1 := nm_set_counts 0 0 (nm_to VTM_NM_PARSE_FIELD_COUNT p0)).
    set (e := mk_nm_env (nm_to VTM_NM_PARSE_MSG_COMPLETE p1) b3 h).
    destruct (nm_steps_run (fun _ => true) c (mk_nm_env p0 b h) e VTM_NET_RECV_STAT_COMPLETE e) as [fuel Hfuel]; [|done|].
    { apply (rtc_l _ _ (mk_nm_env (nm_to VTM_NM_PARSE_MAGIC p0) b h)); [done |].
      apply (rtc_l _ _ (mk_nm_env (nm_to VTM_NM_PARSE_VERSION p0) b1 h)).
      { unfold nm_step, nm_switch, nm_expect. cbn [nm_par nm_to nm_state nm_buf nm_heap]. by rewrite Ha1, E1. }
      apply (rtc_l _ _ (mk_nm_env (nm_to VTM_NM_PARSE_FIELD_COUNT p0) b2 h)).
      { unfold nm_step, nm_switch, nm_expect. cbn [nm_par nm_to nm_state nm_buf nm_heap]. by rewrite Ha2, E2. }
      apply (rtc_l _ _ (mk_nm_env (nm_to VTM_NM_PARSE_FIELD_BEGIN p1) b3 h)); [|by apply rtc_once].
      unfold nm_step, nm_switch, nm_parse_field_count. cbn [nm_par nm_to nm_state nm_buf nm_heap nm_order].
      rewrite Ha3. change (nm_order p0) with host. rewrite E3. cbn [negb mbind option_bind].
      by rewrite ord_val_bytes. }
    destruct (nm_run_safe (fun _ => true) (fun _ => []) c h (mk_nm_env p0 b h)) as (s & e4 & Hrun & _).
    { apply nm_init_inv; [done |]. rewrite Hc. by destruct (buf_order b). }
    pose proof (nm_run_loop_det (fun _ => true) c _ _ _ _ _ Hfuel Hrun) as E. injection E as <- <-.
    exists e. split; [exact Hrun | done].
  - do 4 eexists. split; [vm_compute; reflexivity |]. split; [vm_compute; reflexivity |].
    eexists. vm_compute. reflexivity.
Qed.
