(* ===== verification/Squeue.v ===== *)
(** * Squeue: the intrusive singly linked queue of core/squeue.h

    The items of a queue are linked through their member [next]; the queue
    holds the first and the last.  The store maps the addresses of live items
    to what they hold; NULL is [None], and following a pointer to an item that
    is not live is undefined behaviour ([None] as result).  [sq_rep] relates a
    queue to the list of its items; every macro acts on that list the way a
    queue does. *)

From stdpp Require Import gmap.
From S2P Require Import Prelude.

Section Squeue.
Context {A : Type}.

(** ** Items and queues *)

(** An item: what its owner keeps in it, and its link. *)
Record sq_node := mk_sq_node { sq_val : A; sq_next : option Z }.
Abbreviation sq_store := (gmap Z sq_node).

(** core/squeue.h:26-30 [VTM_SQUEUE_STRUCT] *)
Record squeue := mk_sq { sq_head : option Z; sq_tail : option Z }.

(** The assignment [p->next = n]. *)
Definition set_next (p : Z) (n : option Z) (st : sq_store) : option sq_store :=
  nd ← st !! p; Some (<[p := mk_sq_node (sq_val nd) n]> st).

(** The expression [p->next]. *)
Definition get_next (p : Z) (st : sq_store) : option (option Z) :=
  nd ← st !! p; Some (sq_next nd).

(** The expression [p ? p->next : NULL]. *)
Definition next_or_null (p : option Z) (st : sq_store) : option (option Z) :=
  match p with Some a => get_next a st | None => Some None end.

(** ** Operations *)

(** core/squeue.h:40-44 *)
Definition VTM_SQUEUE_INIT : squeue := mk_sq None None.

(** core/squeue.h:53-61 *)
Definition VTM_SQUEUE_ADD (q : squeue) (node : Z) (st : sq_store) : option (squeue * sq_store) :=
  st ← set_next node None st;
  st ← match sq_tail q with Some t => set_next t (Some node) st | None => Some st end;
  Some (mk_sq (match sq_head q with Some h => Some h | None => Some node end) (Some node), st).

(** core/squeue.h:69-77.  The item, NULL if there is none. *)
Definition VTM_SQUEUE_POLL (q : squeue) (st : sq_store) : option (option Z * squeue) :=
  match sq_head q with
  | None => Some (None, q)
  | Some h =>
      n ← get_next h st;
      Some (Some h, mk_sq n (if decide (sq_tail q = Some h) then None else sq_tail q))
  end.

(** core/squeue.h:87-96.  [func] is what the caller does with the item. *)
Definition VTM_SQUEUE_REMOVE (q : squeue) (node : Z) (prev : option Z)
    (func : Z -> sq_store -> option sq_store) (st : sq_store) : option (squeue * sq_store) :=
  n ← get_next node st;
  '(head, st) ← match prev with
                | Some p => st ← set_next p n st; Some (sq_head q, st)
                | None => Some (n, st)
                end;
  let tail := if decide (sq_tail q = Some node) then prev else sq_tail q in
  st ← func node st;
  Some (mk_sq head tail, st).

(** core/squeue.h:103-104 *)
Definition VTM_SQUEUE_IS_EMPTY (q : squeue) : bool := bool_decide (sq_head q = None).

(** core/squeue.h:112-114 [VTM_SQUEUE_FOR_EACH].  The items in the order in
    which the loop visits them; the body leaves the links alone. *)
Fixpoint sq_for_each (fuel : nat) (node : option Z) (st : sq_store) : option (list Z) :=
  match fuel, node with
  | _, None => Some []
  | O, Some _ => None
  | S fuel', Some a => n ← get_next a st; l ← sq_for_each fuel' n st; Some (a :: l)
  end.

(** core/squeue.h:124-131 [VTM_SQUEUE_FOR_EACH_MOD].  The body [func] is given
    the item and PREV_PTR; it may remove and release the item. *)
Fixpoint sq_for_each_mod (fuel : nat)
    (func : Z -> option Z -> squeue * sq_store -> option (squeue * sq_store))
    (node prev next : option Z) (s : squeue * sq_store) : option (squeue * sq_store) :=
  match fuel, node with
  | _, None => Some s
  | O, Some _ => None
  | S fuel', Some a =>
      s ← func a prev s;
      next' ← next_or_null next (snd s);
      sq_for_each_mod fuel' func next (Some a) next' s
  end.

(** The visits of a loop: no item is visited twice. *)
Definition sq_fuel (st : sq_store) : nat := S (size st).

(** The usual [func]: free(). *)
Definition sq_free (a : Z) (st : sq_store) : option sq_store :=
  match st !! a with Some _ => Some (delete a st) | None => None end.

(** core/squeue.h:142-153 *)
Definition VTM_SQUEUE_CLEAR (q : squeue) (func : Z -> sq_store -> option sq_store) (st : sq_store)
    : option (squeue * sq_store) :=
  next ← next_or_null (sq_head q) st;
  '(_, st) ← sq_for_each_mod (sq_fuel st)
      (fun a _ '(q, st) => st ← func a st; Some (q, st)) (sq_head q) None next (q, st);
  Some (mk_sq None None, st).

(** The loop of a client that removes and frees the items it selects while it
    iterates, as in examples/core_queue.c. *)
Definition sq_remove_if (P : A -> bool) (q : squeue) (st : sq_store)
    : option (squeue * sq_store) :=
  next ← next_or_null (sq_head q) st;
  sq_for_each_mod (sq_fuel st)
    (fun a prev '(q, st) =>
       nd ← st !! a;
       if P (sq_val nd) then VTM_SQUEUE_REMOVE q a prev sq_free st else Some (q, st))
    (sq_head q) None next (q, st).

(** ** The items of a queue *)

Fixpoint sq_chain (st : sq_store) (p : option Z) (l : list Z) : Prop :=
  match l with
  | [] => p = None
  | a :: l' => p = Some a /\ exists nd, st !! a = Some nd /\ sq_chain st (sq_next nd) l'
  end.

Definition sq_rep (q : squeue) (st : sq_store) (l : list Z) : Prop :=
  NoDup l /\ sq_chain st (sq_head q) l /\ sq_tail q = last l.

Lemma sq_chain_agree st st' p l :
  (forall a, a ∈ l -> st' !! a = st !! a) -> sq_chain st p l -> sq_chain st' p l.
Proof.
  revert p; induction l as [|a l IH]; intros p H; [done|]. intros (-> & nd & Hnd & Hc).
  split; [done|]. exists nd. rewrite H by set_solver. split; [done|]. apply IH; [|done].
  intros b Hb. apply H. set_solver.
Qed.

Lemma sq_chain_live st p l a : sq_chain st p l -> a ∈ l -> is_Some (st !! a).
Proof.
  revert p; induction l as [|b l IH]; intros p; [set_solver|].
  intros (-> & nd & Hnd & Hc) Ha. apply elem_of_cons in Ha as [->|Ha]; [by exists nd|]. eauto.
Qed.

(** An item that is linked behind the last one. *)
Lemma sq_chain_snoc st p l a nd :
  NoDup (l ++ [a]) -> sq_chain st p l -> st !! a = Some nd -> sq_next nd = None ->
  exists st', match last l with
              | Some t => set_next t (Some a) st = Some st' /\ sq_chain st' p (l ++ [a])
              | None => st' = st /\ sq_chain st' (Some a) (l ++ [a])
              end.
Proof.
  revert p; induction l as [|b l IH]; intros p Hd Hc Ha Hn.
  { exists st. repeat split. exists nd. by rewrite Hn. }
  destruct Hc as (-> & bd & Hb & Hc). destruct l as [|c l].
  - cbn in Hc. exists (<[b := mk_sq_node (sq_val bd) (Some a)]> st).
    cbn [last app sq_chain sq_next]. unfold set_next. rewrite Hb.
    split; [done|]. split; [done|]. eexists.
    split; [by rewrite lookup_insert_eq|]. split; [done|]. exists nd.
    cbn in Hd. apply NoDup_cons in Hd as [Hd _]. rewrite lookup_insert_ne by set_solver.
    by rewrite Hn.
  - cbn [app] in Hd. apply NoDup_cons in Hd as [Hb' Hd].
    destruct (IH _ Hd Hc Ha Hn) as (st' & Hst'). exists st'.
    change (last (b :: c :: l)) with (last (c :: l)).
    destruct (last (c :: l)) as [t|] eqn:El; [|by apply last_None in El].
    destruct Hst' as [Hs Hc']. split; [done|]. split; [done|]. exists bd. split; [|exact Hc'].
    unfold set_next in Hs. destruct (st !! t) eqn:Et; [|done]. injection Hs as <-.
    rewrite lookup_insert_ne; [done|]. intros ->. apply last_Some_elem_of in El. set_solver.
Qed.

Lemma sq_chain_mid st p l1 a l2 :
  sq_chain st p (l1 ++ a :: l2) ->
  exists nd, st !! a = Some nd /\ sq_chain st (sq_next nd) l2 /\
    (l1 = [] -> p = Some a).
Proof.
  revert p; induction l1 as [|b l1 IH]; intros p; cbn [app sq_chain].
  - intros (-> & nd & ? & ?). by exists nd.
  - intros (-> & bd & _ & H). destruct (IH _ H) as (nd & ? & ? & _). by exists nd.
Qed.

Lemma sq_chain_head st p l : sq_chain st p l -> p = head l.
Proof. destruct l; [done|]. by intros [-> _]. Qed.

(** The link of an item after the next one was taken out. *)
Lemma sq_chain_unlink st p l1 c a l2 nd cd :
  NoDup (l1 ++ c :: a :: l2) -> sq_chain st p (l1 ++ c :: a :: l2) ->
  st !! a = Some nd -> st !! c = Some cd ->
  sq_chain (delete a (<[c := mk_sq_node (sq_val cd) (sq_next nd)]> st)) p (l1 ++ c :: l2).
Proof.
  revert p; induction l1 as [|b l1 IH]; intros p Hd Hc Ha Hcd; cbn [app sq_chain] in *.
  - destruct Hc as (-> & cd' & _ & _ & nd' & Hnd' & Hc). simplify_eq.
    apply NoDup_cons in Hd as [Hd1 [Hd2 Hd]%NoDup_cons]. split; [done|]. eexists.
    rewrite lookup_delete_ne, lookup_insert_eq by set_solver. split; [done|].
    eapply sq_chain_agree, Hc. intros x Hx.
    rewrite lookup_delete_ne, lookup_insert_ne by set_solver. done.
  - destruct Hc as (-> & bd & Hb & Hc). apply NoDup_cons in Hd as [Hd1 Hd]. split; [done|].
    exists bd. rewrite lookup_delete_ne, lookup_insert_ne by set_solver.
    split; [done|]. by apply IH.
Qed.

(** ** What the macros do *)

Lemma sq_rep_init st : sq_rep VTM_SQUEUE_INIT st [].
Proof. split; [apply NoDup_nil_2|]. done. Qed.

(** The items of two stores hold the same values. *)
Definition same_vals (st st' : sq_store) : Prop :=
  forall a, sq_val <$> (st' !! a) = sq_val <$> (st !! a).

Lemma set_next_vals p n st st' : set_next p n st = Some st' -> same_vals st st'.
Proof.
  unfold set_next. destruct (st !! p) as [nd|] eqn:E; [|done]. intros [= <-] a.
  destruct (decide (a = p)) as [->|]; [rewrite lookup_insert_eq, E; done|].
  by rewrite lookup_insert_ne.
Qed.

Lemma sq_add q st l a :
  sq_rep q st l -> a ∉ l -> is_Some (st !! a) ->
  exists q' st', VTM_SQUEUE_ADD q a st = Some (q', st') /\ sq_rep q' st' (l ++ [a]) /\
    same_vals st st'.
Proof.
  intros (Hd & Hc & Ht) Hn [nd Ha]. unfold VTM_SQUEUE_ADD.
  destruct (set_next a None st) as [st1|] eqn:E1; [|unfold set_next in E1; by rewrite Ha in E1].
  assert (same_vals st st1) as V1 by eauto using set_next_vals. cbn [mbind option_bind].
  assert (NoDup (l ++ [a])) as Hd' by (apply NoDup_app; set_solver by eauto using NoDup_singleton).
  unfold set_next in E1. rewrite Ha in E1. injection E1 as <-.
  destruct (sq_chain_snoc (<[a := mk_sq_node (sq_val nd) None]> st) (sq_head q) l a
              (mk_sq_node (sq_val nd) None)) as (st2 & H2); [done| |by rewrite lookup_insert_eq|done|].
  { eapply sq_chain_agree, Hc. intros b Hb. rewrite lookup_insert_ne by set_solver. done. }
  rewrite Ht. destruct (last l) as [t|] eqn:El.
  - destruct H2 as [H2 Hc2]. rewrite H2. cbn [mbind option_bind]. eexists _, _.
    split; [done|]. split; [|intros x; rewrite (set_next_vals _ _ _ _ H2); apply V1].
    split; [done|]. cbn. rewrite last_snoc. split; [|done].
    rewrite (sq_chain_head _ _ _ Hc) in *. destruct l; [done|]. exact Hc2.
  - apply last_None in El as ->. destruct H2 as [-> Hc2]. cbn [mbind option_bind].
    cbn in Hc. rewrite Hc. eexists _, _. split; [done|]. split; [|done]. by split.
Qed.

Lemma sq_poll q st l :
  sq_rep q st l -> exists q', VTM_SQUEUE_POLL q st = Some (head l, q') /\ sq_rep q' st (tail l).
Proof.
  intros (Hd & Hc & Ht). unfold VTM_SQUEUE_POLL. rewrite (sq_chain_head _ _ _ Hc).
  destruct l as [|a l]; cbn [head tail].
  { exists q. split; [done|]. by repeat split. }
  destruct Hc as (_ & nd & Ha & Hc). unfold get_next. rewrite Ha. cbn [mbind option_bind].
  eexists. split; [done|]. apply NoDup_cons in Hd as [Hn Hd]. split; [done|]. split; [done|].
  cbn [sq_tail]. rewrite Ht. destruct l as [|b l]; [by rewrite decide_True by done|].
  change (last (a :: b :: l)) with (last (b :: l)). rewrite decide_False; [done|].
  intros E%last_Some_elem_of. done.
Qed.

Lemma sq_remove q st l1 a l2 :
  sq_rep q st (l1 ++ a :: l2) ->
  exists q' st', VTM_SQUEUE_REMOVE q a (last l1) sq_free st = Some (q', st') /\
    sq_rep q' st' (l1 ++ l2) /\ same_vals (delete a st) st'.
Proof.
  intros (Hd & Hc & Ht). destruct (sq_chain_mid _ _ _ _ _ Hc) as (nd & Ha & Hc2 & Hp).
  unfold VTM_SQUEUE_REMOVE, get_next. rewrite Ha. cbn [mbind option_bind].
  assert (a ∉ l1 ++ l2 /\ NoDup (l1 ++ l2)) as [Hn Hd'].
  { rewrite <- (Permutation_middle l1 l2 a) in Hd. by apply NoDup_cons in Hd. }
  destruct (last l1) as [c|] eqn:El.
  - apply last_Some in El as [l0 ->]. rewrite <- (app_assoc l0 [c]) in *. cbn [app] in *.
    destruct (sq_chain_mid _ _ _ _ _ Hc) as (cd & Hcd & _).
    unfold set_next. rewrite Hcd. cbn [mbind option_bind]. unfold sq_free.
    rewrite lookup_insert_ne, Ha by set_solver. cbn [mbind option_bind]. eexists _, _.
    split; [done|]. split.
    + split; [done|]. split; [by apply sq_chain_unlink|]. cbn [sq_tail]. rewrite Ht.
      change (l0 ++ c :: a :: l2) with (l0 ++ [c; a] ++ l2). rewrite (app_assoc l0).
      destruct (last l2) as [z|] eqn:Ez.
      * pose proof (last_Some_elem_of _ _ Ez). rewrite last_app, Ez, decide_False by set_solver.
        destruct l2 as [|z' l2]; [done|]. by rewrite last_app, last_cons_cons, Ez.
      * apply last_None in Ez as ->. rewrite app_nil_r, last_app. cbn [last].
        by rewrite decide_True, last_snoc by done.
    + intros x. destruct (decide (x = a)) as [->|]; [by rewrite !lookup_delete_eq|].
      rewrite !lookup_delete_ne by done. destruct (decide (x = c)) as [->|].
      * by rewrite lookup_insert_eq, Hcd.
      * by rewrite lookup_insert_ne.
  - apply last_None in El as ->. cbn [app mbind option_bind] in *.
    unfold sq_free at 1. rewrite Ha. cbn [mbind option_bind].
    eexists _, _. split; [done|]. split; [|done]. split; [done|]. split.
    + eapply sq_chain_agree, Hc2. intros x Hx. by rewrite lookup_delete_ne by set_solver.
    + cbn [sq_tail]. rewrite Ht. destruct l2 as [|b l2]; [by rewrite decide_True by done|].
      change (last (a :: b :: l2)) with (last (b :: l2)). rewrite decide_False; [done|].
      intros E%last_Some_elem_of. done.
Qed.

(** ** The loops *)

Lemma sq_chain_fuel st p l : NoDup l -> sq_chain st p l -> (length l < sq_fuel st)%nat.
Proof.
  intros Hd Hc. unfold sq_fuel. rewrite <- (size_list_to_set (C := gset Z) l Hd).
  apply Nat.lt_succ_r. rewrite <- (size_dom (D := gset Z)). apply subseteq_size. intros a Ha.
  apply elem_of_dom. eapply sq_chain_live; [done|]. by apply elem_of_list_to_set in Ha.
Qed.

Lemma sq_for_each_chain fuel st p l :
  sq_chain st p l -> (length l < fuel)%nat -> sq_for_each fuel p st = Some l.
Proof.
  revert fuel p; induction l as [|a l IH]; intros fuel p; cbn [sq_chain length].
  { intros -> ?. by destruct fuel. }
  intros (-> & nd & Ha & Hc) Hf. destruct fuel as [|fuel]; [lia|]. cbn [sq_for_each].
  unfold get_next. rewrite Ha. cbn [mbind option_bind]. by rewrite (IH fuel) by (done || lia).
Qed.

Lemma sq_chain_next st p l : sq_chain st p l -> next_or_null p st = Some (head (tail l)).
Proof.
  destruct l as [|a l]; [by intros ->|]. intros (-> & nd & Ha & Hc). cbn. unfold get_next.
  rewrite Ha. cbn. by rewrite (sq_chain_head _ _ _ Hc).
Qed.

Lemma sq_clear_loop fuel q st p l prev :
  NoDup l -> sq_chain st p l -> (length l < fuel)%nat ->
  exists st',
    sq_for_each_mod fuel (fun a _ '(q, st) => st ← sq_free a st; Some (q, st))
      p prev (head (tail l)) (q, st) = Some (q, st') /\
    forall a, st' !! a = if decide (a ∈ l) then None else st !! a.
Proof.
  revert fuel st p prev; induction l as [|a l IH]; intros fuel st p prev Hd Hc Hf.
  { cbn in Hc. rewrite Hc. exists st. split; [by destruct fuel|]. intros a.
    by rewrite decide_False by set_solver. }
  destruct Hc as (-> & nd & Ha & Hc). apply NoDup_cons in Hd as [Hn Hd].
  cbn [length] in Hf. destruct fuel as [|fuel]; [lia|]. cbn [sq_for_each_mod tail]. unfold sq_free.
  rewrite Ha. cbn [mbind option_bind snd].
  assert (sq_chain (delete a st) (head l) l) as Hc'.
  { rewrite <- (sq_chain_head _ _ _ Hc). eapply sq_chain_agree, Hc. intros b Hb.
    rewrite lookup_delete_ne by set_solver. done. }
  rewrite (sq_chain_next _ _ _ Hc'). cbn [mbind option_bind].
  destruct (IH fuel (delete a st) (head l) (Some a) Hd Hc') as (st' & E & H); [lia|].
  exists st'. split; [exact E|]. intros b. rewrite H.
  destruct (decide (b = a)) as [->|Hne].
  - by rewrite lookup_delete_eq, decide_False, decide_True by set_solver.
  - rewrite lookup_delete_ne by done. repeat case_decide; set_solver.
Qed.

Lemma sq_clear q st l :
  sq_rep q st l ->
  exists st', VTM_SQUEUE_CLEAR q sq_free st = Some (VTM_SQUEUE_INIT, st') /\
    forall a, st' !! a = if decide (a ∈ l) then None else st !! a.
Proof.
  intros (Hd & Hc & Ht). unfold VTM_SQUEUE_CLEAR. rewrite (sq_chain_next _ _ _ Hc).
  cbn [mbind option_bind].
  destruct (sq_clear_loop (sq_fuel st) q st _ l None Hd Hc) as (st' & E & H);
    [by eapply sq_chain_fuel|].
  rewrite E. by exists st'.
Qed.

(** Items that are selected never follow each other. *)
Fixpoint no_adjacent {B} (Q : B -> bool) (l : list B) : bool :=
  match l with
  | a :: (b :: _) as l' => negb (Q a && Q b) && no_adjacent Q l'
  | _ => true
  end.

Lemma no_adjacent_cons {B} (Q : B -> bool) a l :
  no_adjacent Q (a :: l) = true ->
  no_adjacent Q l = true /\ forall b, head l = Some b -> Q a = true -> Q b = false.
Proof.
  destruct l as [|b l]; [done|]. cbn [no_adjacent]. intros [H1 H2]%andb_prop. split; [done|].
  cbn. intros ? [= <-] Ha. rewrite Ha in H1. by destruct (Q b).
Qed.

Section RemoveIf.
Context (P : A -> bool) (Q : Z -> bool).

(** [Q] is [P] of the values of the items. *)
Definition selects (st : sq_store) (l : list Z) : Prop :=
  forall a nd, a ∈ l -> st !! a = Some nd -> P (sq_val nd) = Q a.

Abbreviation remove_body :=
  (fun a prev '(q, st) =>
     nd ← st !! a;
     if P (sq_val nd) then VTM_SQUEUE_REMOVE q a prev sq_free st else Some (q, st)).

Abbreviation kept l := (filter (fun a => Q a = false) l).

Lemma selects_vals st st' l a :
  a ∉ l -> same_vals (delete a st) st' -> selects st l -> selects st' l.
Proof.
  intros Ha Hv Hs b nd Hb E. specialize (Hv b). rewrite E, lookup_delete_ne in Hv by set_solver.
  destruct (st !! b) as [nd'|] eqn:E'; [|done]. cbn in Hv. injection Hv as Hv. rewrite Hv. eauto.
Qed.

Lemma sq_remove_loop fuel q st k l p prev :
  sq_rep q st (k ++ l) -> sq_chain st p l -> selects st l -> no_adjacent Q l = true ->
  (forall a, head l = Some a -> Q a = true -> prev = last k) -> (length l < fuel)%nat ->
  exists q' st',
    sq_for_each_mod fuel remove_body p prev (head (tail l)) (q, st) = Some (q', st') /\
    sq_rep q' st' (k ++ kept l) /\
    forall a, sq_val <$> st' !! a
              = if decide (a ∈ l /\ Q a = true) then None else sq_val <$> st !! a.
Proof.
  revert fuel q st k p prev; induction l as [|a l IH]; intros fuel q st k p prev Hr Hc Hs Hn Hp Hf.
  { cbn in Hc. rewrite Hc. exists q, st. split; [by destruct fuel|]. split; [done|].
    intros a. by rewrite decide_False by set_solver. }
  pose proof (no_adjacent_cons _ _ _ Hn) as [Hn' Hadj]. pose proof Hc as Hc0.
  destruct Hc as (-> & nd & Ha & Hc). cbn [length] in Hf. destruct fuel as [|fuel]; [lia|].
  assert (a ∉ k ++ l) as Hak.
  { destruct Hr as (Hd & _). rewrite <- (Permutation_middle k l a) in Hd.
    by apply NoDup_cons in Hd as [? _]. }
  cbn [sq_for_each_mod tail]. rewrite Ha. cbn [mbind option_bind].
  rewrite (Hs a nd) by (set_solver || done). destruct (Q a) eqn:Ea.
  - rewrite (Hp a eq_refl Ea). destruct (sq_remove q st k a l Hr) as (q1 & st1 & -> & Hr1 & Hv).
    cbn [mbind option_bind snd].
    assert (sq_chain st1 (head l) l) as Hc1.
    { pose proof Hr1 as (_ & Hc1 & _). destruct l as [|b l]; [done|].
      destruct (sq_chain_mid _ _ _ _ _ Hc1) as (bd & Hb & Hcb & _). cbn. split; [done|].
      by exists bd. }
    rewrite (sq_chain_next _ _ _ Hc1). cbn [mbind option_bind].
    destruct (IH fuel q1 st1 k (head l) (Some a) Hr1 Hc1) as (q' & st' & E & Hr' & Hv'); try done.
    + eapply (selects_vals st _ _ a); [set_solver|done|]. intros b bd Hb. apply Hs. set_solver.
    + intros b Hb Hqb. by rewrite (Hadj b Hb eq_refl) in Hqb.
    + lia.
    + exists q', st'. split; [exact E|]. rewrite filter_cons_False by congruence.
      split; [done|]. intros b. rewrite Hv'. specialize (Hv b).
      destruct (decide (b = a)) as [->|Hne].
      * rewrite (decide_True (P := a ∈ a :: l /\ _)) by set_solver.
        rewrite decide_False by set_solver. by rewrite Hv, lookup_delete_eq.
      * rewrite lookup_delete_ne in Hv by done. rewrite Hv. apply decide_ext.
        rewrite elem_of_cons. tauto.
  - cbn [mbind option_bind snd]. rewrite <- (sq_chain_head _ _ _ Hc).
    rewrite (sq_chain_next _ _ _ Hc). cbn [mbind option_bind].
    destruct (IH fuel q st (k ++ [a]) (sq_next nd) (Some a)) as (q' & st' & E & Hr' & Hv'); try done.
    + by rewrite <- app_assoc.
    + intros b bd Hb. apply Hs. set_solver.
    + intros. by rewrite last_snoc.
    + lia.
    + exists q', st'. split; [exact E|]. rewrite filter_cons_True by done.
      rewrite <- app_assoc in Hr'. split; [exact Hr'|]. intros b. rewrite Hv'.
      apply decide_ext. rewrite elem_of_cons. split; [tauto|].
      intros [[->|?] ?]; [congruence|tauto].
Qed.
(** Two selected items that follow each other: PREV_PTR points to the first one,
    which was just released. *)
Lemma sq_remove_loop_dangles fuel q st k l p prev :
  sq_rep q st (k ++ l) -> sq_chain st p l -> selects st l -> no_adjacent Q l = false ->
  (forall a, head l = Some a -> Q a = true -> prev = last k) -> (length l < fuel)%nat ->
  sq_for_each_mod fuel remove_body p prev (head (tail l)) (q, st) = None.
Proof.
  revert fuel q st k p prev; induction l as [|a l IH]; intros fuel q st k p prev Hr Hc Hs Hn Hp Hf; [done|].
  destruct Hc as (-> & nd & Ha & Hc). cbn [length] in Hf. destruct fuel as [|fuel]; [lia|].
  assert (a ∉ k ++ l) as Hak.
  { destruct Hr as (Hd & _). rewrite <- (Permutation_middle k l a) in Hd. by apply NoDup_cons in Hd as [? _]. }
  cbn [sq_for_each_mod tail]. rewrite Ha. cbn [mbind option_bind].
  rewrite (Hs a nd) by (set_solver || done). destruct l as [|b l]; [done|]. destruct (Q a) eqn:Ea.
  - rewrite (Hp a eq_refl Ea). destruct (sq_remove q st k a (b :: l) Hr) as (q1 & st1 & -> & Hr1 & Hv).
    cbn [mbind option_bind snd]. pose proof Hr1 as (_ & Hc1 & _).
    destruct (sq_chain_mid _ _ _ _ _ Hc1) as (bd & Hb & Hcb & _).
    assert (sq_chain st1 (Some b) (b :: l)) as Hcb' by (split; [done|]; by exists bd).
    assert (selects st1 (b :: l)) as Hs1.
    { eapply (selects_vals st _ _ a); [set_solver|done|]. intros c cd Hc'. apply Hs. set_solver. }
    cbn [head]. rewrite (sq_chain_next _ _ _ Hcb'). cbn [mbind option_bind]. destruct (Q b) eqn:Eb.
    + destruct fuel as [|fuel]; [cbn in Hf; lia|]. cbn [sq_for_each_mod]. rewrite Hb. cbn [mbind option_bind].
      rewrite (Hs1 b bd), Eb by (set_solver || done). unfold VTM_SQUEUE_REMOVE, get_next, set_next. rewrite Hb.
      cbn [mbind option_bind]. specialize (Hv a). rewrite lookup_delete_eq in Hv. by destruct (st1 !! a).
    + apply (IH fuel q1 st1 k); try done.
      * change (negb (Q a && Q b) && no_adjacent Q (b :: l) = false) in Hn. by rewrite Ea, Eb in Hn.
      * intros c [= <-] Hq. congruence.
      * cbn in *. lia.
  - cbn [mbind option_bind snd]. rewrite <- (sq_chain_head _ _ _ Hc).
    rewrite (sq_chain_next _ _ _ Hc). cbn [mbind option_bind]. apply (IH fuel q st (k ++ [a])); try done.
    + by rewrite <- app_assoc.
    + intros c cd Hc'. apply Hs. set_solver.
    + change (negb (Q a && Q b) && no_adjacent Q (b :: l) = false) in Hn. by rewrite Ea in Hn.
    + intros. by rewrite last_snoc.
    + cbn in *. lia.
Qed.
End RemoveIf.

Lemma sq_remove_if_kept P q st l :
  sq_rep q st l -> no_adjacent (fun a => default false (P ∘ sq_val <$> st !! a)) l = true ->
  exists q' st', sq_remove_if P q st = Some (q', st') /\
    sq_rep q' st' (filter (fun a => default false (P ∘ sq_val <$> st !! a) = false) l) /\
    forall a, sq_val <$> st' !! a
      = if decide (a ∈ l /\ default false (P ∘ sq_val <$> st !! a) = true) then None
        else sq_val <$> st !! a.
Proof.
  intros Hr Hn. pose proof Hr as (Hd & Hc & _). unfold sq_remove_if.
  rewrite (sq_chain_next _ _ _ Hc). cbn [mbind option_bind].
  destruct (sq_remove_loop P (fun a => default false (P ∘ sq_val <$> st !! a))
              (sq_fuel st) q st [] l (sq_head q) None) as (q' & st' & E & H); try done.
  - intros a nd _ Ha. by rewrite Ha.
  - by eapply sq_chain_fuel.
  - by exists q', st'.
Qed.

Lemma sq_remove_if_dangles P q st l :
  sq_rep q st l -> no_adjacent (fun a => default false (P ∘ sq_val <$> st !! a)) l = false ->
  sq_remove_if P q st = None.
Proof.
  intros Hr Hn. pose proof Hr as (Hd & Hc & _). unfold sq_remove_if.
  rewrite (sq_chain_next _ _ _ Hc). cbn [mbind option_bind].
  apply (sq_remove_loop_dangles P (fun a => default false (P ∘ sq_val <$> st !! a)) (sq_fuel st) q st [] l (sq_head q) None);
    try done.
  - intros a nd _ Ha. by rewrite Ha.
  - by eapply sq_chain_fuel.
Qed.

(** ** Queues of values *)

(** What a client does: append a new item, take the first, list the items,
    remove and free some of them, empty the queue. *)
Inductive sq_op :=
| SqAdd (v : A) (garbage : option Z)
| SqPoll
| SqEach
| SqRemoveIf (P : A -> bool)
| SqClear.

Definition sq_step (op : sq_op) (s : squeue * sq_store) : option (list A * (squeue * sq_store)) :=
  let '(q, st) := s in
  match op with
  | SqAdd v garbage =>
      let a := fresh (dom st) in
      s ← VTM_SQUEUE_ADD q a (<[a := mk_sq_node v garbage]> st); Some ([], s)
  | SqPoll =>
      '(r, q) ← VTM_SQUEUE_POLL q st;
      match r with
      | None => Some ([], (q, st))
      | Some a => nd ← st !! a; st ← sq_free a st; Some ([sq_val nd], (q, st))
      end
  | SqEach =>
      l ← sq_for_each (sq_fuel st) (sq_head q) st;
      vs ← mapM (fun a => sq_val <$> st !! a) l; Some (vs, (q, st))
  | SqRemoveIf P => s ← sq_remove_if P q st; Some ([], s)
  | SqClear => s ← VTM_SQUEUE_CLEAR q sq_free st; Some ([], s)
  end.

Fixpoint sq_run (ops : list sq_op) (s : squeue * sq_store)
    : option (list (list A) * (squeue * sq_store)) :=
  match ops with
  | [] => Some ([], s)
  | op :: ops' =>
      '(o, s) ← sq_step op s; '(os, s) ← sq_run ops' s; Some (o :: os, s)
  end.

(** The same on the list of values.  Removing while iterating has a result if no
    two of the items follow each other; this is the only operation without one. *)
Definition fifo_step (op : sq_op) (vs : list A) : option (list A * list A) :=
  match op with
  | SqAdd v _ => Some ([], vs ++ [v])
  | SqPoll => match vs with [] => Some ([], []) | v :: vs' => Some ([v], vs') end
  | SqEach => Some (vs, vs)
  | SqRemoveIf P =>
      if no_adjacent P vs then Some ([], filter (fun v => P v = false) vs) else None
  | SqClear => Some ([], [])
  end.

Fixpoint fifo_run (ops : list sq_op) (vs : list A) : option (list (list A) * list A) :=
  match ops with
  | [] => Some ([], vs)
  | op :: ops' => '(o, vs) ← fifo_step op vs; '(os, vs) ← fifo_run ops' vs; Some (o :: os, vs)
  end.

(** The live items are those of the queue, and they hold [vs]. *)
Definition sq_holds (s : squeue * sq_store) (vs : list A) : Prop :=
  exists l, sq_rep s.1 s.2 l /\ (forall a, is_Some (s.2 !! a) -> a ∈ l) /\
    Forall2 (fun a v => sq_val <$> s.2 !! a = Some v) l vs.

Lemma fmap_Some_iff {X Y} (f : X -> Y) (o : option X) : is_Some (f <$> o) <-> is_Some o.
Proof. by rewrite fmap_is_Some. Qed.

Lemma sq_vals_agree (st st' : sq_store) l vs :
  (forall a, a ∈ l -> sq_val <$> st' !! a = sq_val <$> st !! a) ->
  Forall2 (fun a v => sq_val <$> st !! a = Some v) l vs ->
  Forall2 (fun a v => sq_val <$> st' !! a = Some v) l vs.
Proof.
  intros H HF. induction HF as [|a v l vs Ha HF IH]; constructor.
  - by rewrite H by set_solver.
  - apply IH. intros b Hb. apply H. set_solver.
Qed.

Lemma sq_holds_add s vs v g :
  sq_holds s vs -> exists s', sq_step (SqAdd v g) s = Some ([], s') /\ sq_holds s' (vs ++ [v]).
Proof.
  destruct s as [q st]. intros (l & Hr & Hl & Hv). cbn [fst snd] in *. cbn [sq_step].
  set (a := fresh (dom st)). assert (st !! a = None) as Ha.
  { apply not_elem_of_dom. apply is_fresh. }
  assert (a ∉ l) as Hn.
  { intros Hin. destruct Hr as (_ & Hc & _). destruct (sq_chain_live _ _ _ _ Hc Hin).
    congruence. }
  destruct (sq_add q (<[a := mk_sq_node v g]> st) l a) as (q' & st' & -> & Hr' & Hvs).
  - destruct Hr as (? & Hc & ?). split; [done|]. split; [|done].
    eapply sq_chain_agree, Hc. intros b Hb. by rewrite lookup_insert_ne by set_solver.
  - done.
  - rewrite lookup_insert_eq. by eexists.
  - cbn [mbind option_bind]. eexists. split; [done|]. exists (l ++ [a]). split; [done|].
    cbn [fst snd]. split.
    + intros b Hb. apply (fmap_Some_iff sq_val) in Hb. rewrite Hvs in Hb.
      apply fmap_Some_iff in Hb. destruct (decide (b = a)) as [->|]; [set_solver|].
      rewrite lookup_insert_ne in Hb by done. apply elem_of_app. left. by apply Hl.
    + apply Forall2_app; [|constructor; [|constructor]].
      * eapply sq_vals_agree, Hv. intros b Hb. rewrite Hvs, lookup_insert_ne by set_solver. done.
      * by rewrite Hvs, lookup_insert_eq.
Qed.

Lemma sq_holds_poll s vs :
  sq_holds s vs ->
  exists s', sq_step SqPoll s = Some (take 1 vs, s') /\ sq_holds s' (drop 1 vs).
Proof.
  destruct s as [q st]. intros (l & Hr & Hl & Hv). cbn [fst snd sq_step] in *.
  destruct (sq_poll q st l Hr) as (q' & -> & Hr'). cbn [mbind option_bind].
  destruct Hv as [|a v l vs Ha Hv]; cbn [head tail take drop] in *.
  { eexists. split; [done|]. exists []. split; [done|]. split; [done|]. constructor. }
  destruct (st !! a) as [nd|] eqn:E; [|done]. cbn in Ha. injection Ha as <-.
  cbn [mbind option_bind]. unfold sq_free. rewrite E. cbn [mbind option_bind]. eexists.
  split; [by rewrite take_0|]. pose proof Hr as (Hd & _). apply NoDup_cons in Hd as [Hn Hd].
  exists l. cbn [fst snd]. split; [|split].
  - destruct Hr' as (? & Hc & ?). split; [done|]. split; [|done].
    eapply sq_chain_agree, Hc. intros b Hb. by rewrite lookup_delete_ne by set_solver.
  - intros b Hb. destruct (decide (b = a)) as [->|]; [rewrite lookup_delete_eq in Hb; by destruct Hb|].
    rewrite lookup_delete_ne in Hb by done. apply Hl in Hb. set_solver.
  - rewrite drop_0. eapply sq_vals_agree, Hv. intros b Hb.
    by rewrite lookup_delete_ne by set_solver.
Qed.

Lemma sq_holds_each s vs : sq_holds s vs -> sq_step SqEach s = Some (vs, s).
Proof.
  destruct s as [q st]. intros (l & (Hd & Hc & _) & _ & Hv). cbn [fst snd sq_step] in *.
  rewrite (sq_for_each_chain _ _ _ l Hc) by (by eapply sq_chain_fuel). cbn [mbind option_bind].
  enough (mapM (fun a => sq_val <$> st !! a) l = Some vs) as -> by done.
  by apply mapM_Some.
Qed.

Lemma sq_holds_clear s vs :
  sq_holds s vs -> exists s', sq_step SqClear s = Some ([], s') /\ sq_holds s' [].
Proof.
  destruct s as [q st]. intros (l & Hr & Hl & Hv). cbn [fst snd sq_step] in *.
  destruct (sq_clear q st l Hr) as (st' & -> & H). cbn [mbind option_bind]. eexists.
  split; [done|]. exists []. split; [apply sq_rep_init|]. split; [|constructor].
  cbn [fst snd]. intros a [nd Ha]. rewrite H in Ha. case_decide as Hin; [done|].
  exfalso. apply Hin, Hl. eauto.
Qed.

Lemma sq_vals_filter (P : A -> bool) (st : sq_store) l vs :
  Forall2 (fun a v => sq_val <$> st !! a = Some v) l vs ->
  let Q a := default false (P ∘ sq_val <$> st !! a) in
  no_adjacent Q l = no_adjacent P vs /\
  Forall2 (fun a v => sq_val <$> st !! a = Some v)
    (filter (fun a => Q a = false) l) (filter (fun v => P v = false) vs) /\
  Forall2 (fun a v => Q a = P v) l vs.
Proof.
  intros HF Q. assert (Forall2 (fun a v => Q a = P v) l vs) as HQ.
  { eapply Forall2_impl; [exact HF|]. intros a v H. unfold Q. cbn in H.
    destruct (st !! a); [|done]. cbn in *. by injection H as ->. }
  split; [|split; [|done]].
  - clear HF. induction HQ as [|a v l vs Ha HQ IH]; [done|].
    destruct HQ as [|b w l vs Hb HQ]; [done|]. 
    change (negb (Q a && Q b) && no_adjacent Q (b :: l)
            = negb (P v && P w) && no_adjacent P (w :: vs)).
    by rewrite Ha, Hb, IH.
  - induction HF as [|a v l vs Ha HF IH]; [constructor|]. inversion HQ as [|? ? ? ? E HQ']; subst.
    destruct (P v) eqn:Ev.
    + rewrite !filter_cons_False by congruence. by apply IH.
    + rewrite !filter_cons_True by congruence. constructor; [done|]. by apply IH.
Qed.

Lemma sq_holds_remove_if P s vs :
  sq_holds s vs -> no_adjacent P vs = true ->
  exists s', sq_step (SqRemoveIf P) s = Some ([], s') /\
    sq_holds s' (filter (fun v => P v = false) vs).
Proof.
  destruct s as [q st]. intros (l & Hr & Hl & Hv) Hn. cbn [fst snd sq_step] in *.
  destruct (sq_vals_filter P st l vs Hv) as (E & Hf & HQ). rewrite <- E in Hn.
  destruct (sq_remove_if_kept P q st l Hr Hn) as (q' & st' & -> & Hr' & H).
  cbn [mbind option_bind]. eexists. split; [done|]. eexists. split; [exact Hr'|].
  cbn [fst snd]. split.
  - intros a Ha. apply (fmap_Some_iff sq_val) in Ha. rewrite H in Ha. case_decide as Hd; [by destruct Ha|].
    apply fmap_Some_iff, Hl in Ha. apply list_elem_of_filter. split; [|done].
    destruct (default false (P ∘ sq_val <$> st !! a)) eqn:Eq; [|done]. exfalso. by apply Hd.
  - eapply sq_vals_agree, Hf. intros a [Ha _]%list_elem_of_filter. rewrite H.
    rewrite decide_False; [done|]. intros [_ Hq]. congruence.
Qed.

Lemma sq_holds_step op s vs :
  sq_holds s vs ->
  match fifo_step op vs with
  | Some (o, vs') => exists s', sq_step op s = Some (o, s') /\ sq_holds s' vs'
  | None => sq_step op s = None
  end.
Proof.
  intros Hs. destruct op as [v g| | |P|]; cbn [fifo_step].
  - by apply sq_holds_add.
  - destruct (sq_holds_poll s vs Hs) as (s' & E' & H). destruct vs; exists s'; by rewrite ?take_0, ?drop_0 in *.
  - exists s. split; [by apply sq_holds_each|done].
  - destruct (no_adjacent P vs) eqn:En; [by apply sq_holds_remove_if|].
    destruct s as [q st]. destruct Hs as (l & Hr & _ & Hv). cbn [fst snd sq_step] in *.
    destruct (sq_vals_filter P st l vs Hv) as (E & _ & _). rewrite <- E in En.
    by rewrite (sq_remove_if_dangles P q st l Hr En).
  - by apply (sq_holds_clear s vs).
Qed.

(** C28: the queue of squeue.h refines a first-in first-out list, for every
    sequence of additions, polls, traversals, removals while iterating and
    clears (core/squeue.h), started on a queue that holds the values [vs].  If no
    removal picks two items that follow each other, the queue runs without
    following a dangling pointer, answers what the list answers, and leaves
    exactly the items of the resulting list alive, so none is leaked.  If one
    does, in its turn, the queue writes through a released item. *)
Theorem squeue_refines_fifo ops s vs :
  sq_holds s vs ->
  match fifo_run ops vs with
  | Some (os, vs') => exists s', sq_run ops s = Some (os, s') /\ sq_holds s' vs'
  | None => sq_run ops s = None
  end.
Proof.
  revert s vs; induction ops as [|op ops IH]; intros s vs Hs; cbn [fifo_run sq_run]; [by exists s|].
  pose proof (sq_holds_step op s vs Hs) as H.
  destruct (fifo_step op vs) as [[o vs1]|]; cbn [mbind option_bind]; [|by rewrite H].
  destruct H as (s1 & -> & Hs1). cbn [mbind option_bind]. specialize (IH s1 vs1 Hs1).
  destruct (fifo_run ops vs1) as [[os1 vs2]|]; cbn [mbind option_bind]; [|by rewrite IH].
  destruct IH as (s2 & -> & Hs2). by exists s2.
Qed.

(** removing two items that follow each other while iterating with
    VTM_SQUEUE_FOR_EACH_MOD (core/squeue.h, the documented use) writes through
    the predecessor that was already released: the loop keeps the removed item
    as PREV_PTR. *)
Theorem squeue_remove_adjacent_dangles P q st l1 a b l2
    (Hr : sq_rep q st (l1 ++ a :: b :: l2))
    (H1 : forall x nd, x ∈ l1 -> st !! x = Some nd -> P (sq_val nd) = false)
    (Ha : forall nd, st !! a = Some nd -> P (sq_val nd) = true)
    (Hb : forall nd, st !! b = Some nd -> P (sq_val nd) = true) :
  sq_remove_if P q st = None.
Proof.
  apply (sq_remove_if_dangles P q st _ Hr). pose proof Hr as (_ & Hc & _).
  assert (forall x, is_Some (st !! x) -> x = a \/ x = b -> default false (P ∘ sq_val <$> st !! x) = true) as Hsel.
  { intros x [nd E] [-> | ->]; rewrite E; cbn; eauto. }
  assert (is_Some (st !! a) /\ is_Some (st !! b)) as [Hla Hlb].
  { clear -Hc. revert Hc. generalize (sq_head q). induction l1 as [|x l1 IH]; intros p Hc; cbn in Hc.
    - by destruct Hc as (_ & nd & -> & _ & nd' & -> & _).
    - destruct Hc as (_ & nd & _ & Hc). by apply (IH (sq_next nd)). }
  clear -Hsel Hla Hlb. induction l1 as [|x l1 IH]; cbn [app no_adjacent].
  - by rewrite !Hsel by auto.
  - destruct (l1 ++ a :: b :: l2); [done|]. by rewrite IH, andb_false_r.
Qed.
End Squeue.

Definition demo_squeue_ops : list sq_op :=
  [SqAdd 1 None; SqAdd 2 (Some 7); SqAdd 3 None; SqPoll; SqRemoveIf (fun v => v =? 3); SqEach;
   SqAdd 4 None; SqClear; SqPoll].

Lemma squeue_refines_fifo_witness :
  exists s', sq_run demo_squeue_ops (VTM_SQUEUE_INIT, ∅)
             = Some ([[]; []; []; [1]; []; [2]; []; []; []], s') /\ sq_holds s' [].
Proof.
  apply (squeue_refines_fifo demo_squeue_ops (VTM_SQUEUE_INIT, ∅) []).
  exists []. split; [apply sq_rep_init|]. split; [|constructor]. intros a Ha. by destruct Ha.
Defined.

Definition demo_adjacent : gmap Z (sq_node (A := Z)) :=
  <[1 := mk_sq_node 5 (Some 2)]> (<[2 := mk_sq_node 7 None]> ∅).

Lemma squeue_remove_adjacent_dangles_witness :
  sq_rep (mk_sq (Some 1) (Some 2)) demo_adjacent [1; 2] /\
  sq_remove_if Z.odd (mk_sq (Some 1) (Some 2)) demo_adjacent = None.
Proof.
  assert (sq_rep (mk_sq (Some 1) (Some 2)) demo_adjacent [1; 2]) as H.
  { split; [apply (bool_decide_unpack (NoDup [1; 2])); vm_compute; exact I|]. split; [|reflexivity].
    split; [reflexivity|]. eexists. split; [reflexivity|]. split; [reflexivity|].
    eexists. split; reflexivity. }
  split; [exact H|].
  apply (squeue_remove_adjacent_dangles Z.odd _ _ [] 1 2 [] H).
  - intros x nd Hx. by apply elem_of_nil in Hx.
  - intros nd E. vm_compute in E. by injection E as <-.
  - intros nd E. vm_compute in E. by injection E as <-.
Defined.
