(* ===== verification/Socket.v ===== *)
(** * Socket: sockets and the plain implementation of their operations

    [vtm_socket] is the struct of net/socket_intl.h.  The operations of
    net/socket.c check and keep the state flags and call the implementation
    through the table of functions [vtm_socket_vtable], which is an argument
    here; [plain_*] are the functions of the table of unencrypted sockets,
    sys/base/net/socket_plain.c.  The system calls are the record [sys_net] over
    a state of the operating system; its laws for send() are [SendLaws].  The
    mutex of a socket makes an operation one step, so lock and unlock do not
    show; [s_mtx] says whether there is one.  [None] is a failed VTM_ASSERT. *)

From S2P Require Import Prelude Base.

(** ** Flags, net/socket.h *)

(** net/socket.h:25-39 *)
Definition VTM_SOCK_STAT_DEFAULT : Z := 0.
Definition VTM_SOCK_STAT_ERR : Z := 2 ^ 0.
Definition VTM_SOCK_STAT_CLOSED : Z := 2 ^ 1.
Definition VTM_SOCK_STAT_HUP : Z := 2 ^ 2.
Definition VTM_SOCK_STAT_READ_AGAIN : Z := 2 ^ 3.
Definition VTM_SOCK_STAT_READ_AGAIN_WHEN_WRITEABLE : Z := 2 ^ 4.
Definition VTM_SOCK_STAT_WRITE_AGAIN : Z := 2 ^ 5.
Definition VTM_SOCK_STAT_WRITE_AGAIN_WHEN_READABLE : Z := 2 ^ 6.
Definition VTM_SOCK_STAT_READ_LOCKED : Z := 2 ^ 7.
Definition VTM_SOCK_STAT_WRITE_LOCKED : Z := 2 ^ 8.
Definition VTM_SOCK_STAT_FREE_ON_UNREF : Z := 2 ^ 9.
Definition VTM_SOCK_STAT_NONBLOCKING : Z := 2 ^ 10.
Definition VTM_SOCK_STAT_NBL_READ : Z := 2 ^ 11.
Definition VTM_SOCK_STAT_NBL_WRITE : Z := 2 ^ 12.
Definition VTM_SOCK_STAT_NBL_AUTO : Z := 2 ^ 13.

Definition VTM_SOCK_SHUT_RD : Z := 1.
Definition VTM_SOCK_SHUT_WR : Z := 2.
Definition VTM_SOCK_OPT_NONBLOCKING : Z := 2.

(** core/flag.h:20 *)
Definition vtm_flag_set (val flag : Z) : Z := Z.lor val flag.
(** core/flag.h:28.  The value is an [unsigned int]. *)
Definition vtm_flag_unset (val flag : Z) : Z := Z.land val (Z.lxor UINT_MAX flag).
(** core/flag.h:36 *)
Definition vtm_flag_is_set (val flag : Z) : bool := Z.land val flag =? flag.
(** A non-zero [val & flag]. *)
Definition flag_any (val flag : Z) : bool := negb (Z.land val flag =? 0).

(** ** The struct, net/socket_intl.h *)

(** net/socket_intl.h:50-67 [struct vtm_socket].  The private data and the link
    to a stream server are those of the implementation and the server. *)
Record vtm_socket := mk_sock {
  s_fd : Z;
  s_family : Z;
  s_type : Z;
  s_mtx : bool;
  s_state : Z;
  s_refcount : Z;
  s_usr_data : Z
}.

Definition sock_with_state (st : Z) (s : vtm_socket) : vtm_socket :=
  mk_sock (s_fd s) (s_family s) (s_type s) (s_mtx s) st (s_refcount s) (s_usr_data s).
Definition sock_with_ref (n : Z) (s : vtm_socket) : vtm_socket :=
  mk_sock (s_fd s) (s_family s) (s_type s) (s_mtx s) (s_state s) n (s_usr_data s).

(** net/socket_intl.h:23 *)
Definition vtm_socket_set_state_intl (s : vtm_socket) (flags : Z) : vtm_socket :=
  sock_with_state (vtm_flag_set (s_state s) flags) s.

(** net/socket.c:15-23.  The rest of the struct is the caller's. *)
Definition vtm_socket_base_init (s : vtm_socket) : vtm_socket :=
  mk_sock (s_fd s) (s_family s) (s_type s) false VTM_SOCK_STAT_DEFAULT 0 0.

(** net/socket.c:34-44.  [ok] is the answer of vtm_mutex_new(). *)
Definition vtm_socket_make_threadsafe (ok : bool) (s : vtm_socket) : vtm_socket * Z :=
  if s_mtx s then (s, VTM_E_INVALID_STATE)
  else if negb ok then (s, VTM_E_MALLOC)
  else (mk_sock (s_fd s) (s_family s) (s_type s) true (s_state s) (s_refcount s) (s_usr_data s),
        VTM_OK).

(** net/socket.c:46-51 *)
Definition vtm_socket_set_usr_data (s : vtm_socket) (data : Z) : vtm_socket :=
  mk_sock (s_fd s) (s_family s) (s_type s) (s_mtx s) (s_state s) (s_refcount s) data.
(** net/socket.c:53-62 *)
Definition vtm_socket_get_usr_data (s : vtm_socket) : Z := s_usr_data s.
(** net/socket.c:64-67 *)
Definition vtm_socket_get_family (s : vtm_socket) : Z := s_family s.
(** net/socket.c:69-72 *)
Definition vtm_socket_get_type (s : vtm_socket) : Z := s_type s.

(** net/socket.c:12-13 *)
Definition VTM_SOCKET_IS_CLOSED (s : vtm_socket) : bool :=
  vtm_flag_is_set (s_state s) VTM_SOCK_STAT_CLOSED.

(** net/socket.c:258-263 *)
Definition vtm_socket_set_state (s : vtm_socket) (flags : Z) : vtm_socket :=
  sock_with_state (vtm_flag_set (s_state s) flags) s.
(** net/socket.c:265-270 *)
Definition vtm_socket_unset_state (s : vtm_socket) (flags : Z) : vtm_socket :=
  sock_with_state (vtm_flag_unset (s_state s) flags) s.
(** net/socket.c:272-281 *)
Definition vtm_socket_get_state (s : vtm_socket) : Z := s_state s.

(** ** Reference counting *)

(** net/socket.c:361-367 *)
Definition vtm_socket_ref (s : vtm_socket) : option vtm_socket :=
  if s_refcount s =? UCHAR_MAX then None else Some (sock_with_ref (u8 (s_refcount s + 1)) s).

(** net/socket.c:369-381.  The inner [None]: the socket is freed. *)
Definition vtm_socket_unref (s : vtm_socket) : option (option vtm_socket) :=
  if 0 <? s_refcount s then
    let s := sock_with_ref (u8 (s_refcount s - 1)) s in
    let release := (s_refcount s =? 0) && flag_any (s_state s) VTM_SOCK_STAT_FREE_ON_UNREF in
    Some (if release then None else Some s)
  else None.

(** net/socket.c:383-394.  [None]: the socket is freed. *)
Definition vtm_socket_enable_free_on_unref (s : vtm_socket) : option vtm_socket :=
  let s := sock_with_state (Z.lor (s_state s) VTM_SOCK_STAT_FREE_ON_UNREF) s in
  if s_refcount s =? 0 then None else Some s.

(** ** The operating system *)

(** What the program calls: a result is a count or the number of an error. *)
Record sys_net (OS : Type) := mk_sys {
  sys_send : Z -> bytes -> OS -> (Z + Z) * OS;
  sys_recv : Z -> Z -> OS -> (bytes + Z) * OS;
  sys_accept : Z -> OS -> (Z + Z) * OS;
  sys_shutdown : Z -> Z -> OS -> option Z * OS;
  sys_close : Z -> OS -> OS
}.
Arguments mk_sys {OS}.
Arguments sys_send {OS}.
Arguments sys_recv {OS}.
Arguments sys_accept {OS}.
Arguments sys_shutdown {OS}.
Arguments sys_close {OS}.

(** The numbers of errors (Linux). *)
Definition EPERM : Z := 1.
Definition EINTR : Z := 4.
Definition EAGAIN : Z := 11.
Definition ENOMEM : Z := 12.
Definition ENFILE : Z := 23.
Definition EMFILE : Z := 24.
Definition EPROTO : Z := 71.
Definition ECONNABORTED : Z := 103.
Definition ENOBUFS : Z := 105.

(** sys/base/net/socket_util.c:360-430.  The state flag to set, and the code. *)
Definition vtm_socket_util_error_code (err : Z) : Z * Z :=
  if err =? EAGAIN then (0, VTM_E_IO_AGAIN)
  else if err =? ECONNABORTED then (0, VTM_E_IO_CANCELED)
  else if err =? EINTR then (0, VTM_E_INTERRUPTED)
  else if (err =? ENFILE) || (err =? EMFILE) then (0, VTM_E_MAX_REACHED)
  else if (err =? ENOMEM) || (err =? ENOBUFS) then (0, VTM_E_MEMORY)
  else if err =? EPROTO then (VTM_SOCK_STAT_ERR, VTM_E_IO_PROTOCOL)
  else if err =? EPERM then (0, VTM_E_PERMISSION)
  else (VTM_SOCK_STAT_ERR, VTM_E_IO_UNKNOWN).

(** sys/base/net/socket_util.c:424-429.  With a socket the flag is set. *)
Definition vtm_socket_util_error (err : Z) (s : vtm_socket) : vtm_socket * Z :=
  let '(state, rc) := vtm_socket_util_error_code err in
  (if 0 <? state then vtm_socket_set_state_intl s state else s, rc).

(** sys/base/net/socket_util.c:432-442 *)
Definition vtm_socket_util_read_error (err : Z) (s : vtm_socket) : vtm_socket * Z :=
  let '(s, rc) := vtm_socket_util_error err s in
  (if rc =? VTM_E_IO_AGAIN then vtm_socket_set_state_intl s VTM_SOCK_STAT_READ_AGAIN else s, rc).

(** sys/base/net/socket_util.c:444-454 *)
Definition vtm_socket_util_write_error (err : Z) (s : vtm_socket) : vtm_socket * Z :=
  let '(s, rc) := vtm_socket_util_error err s in
  (if rc =? VTM_E_IO_AGAIN then vtm_socket_set_state_intl s VTM_SOCK_STAT_WRITE_AGAIN else s, rc).

(** ** The table of functions *)

(** net/socket_intl.h:26-48 [struct vtm_socket_vtable].  [vtm_socket_free] only
    releases memory.  [SA] is [struct vtm_socket_saddr].  The value of an option
    is passed by a pointer: [None] is NULL. *)
Record vtm_socket_vtable (OS SA : Type) := mk_vtable {
  vt_bind : bytes -> Z -> vtm_socket -> OS -> Z * vtm_socket * OS;
  vt_listen : Z -> vtm_socket -> OS -> Z * vtm_socket * OS;
  vt_accept : vtm_socket -> OS -> (Z * option vtm_socket) * vtm_socket * OS;
  vt_connect : bytes -> Z -> vtm_socket -> OS -> Z * vtm_socket * OS;
  vt_shutdown : Z -> vtm_socket -> OS -> Z * vtm_socket * OS;
  vt_close : vtm_socket -> OS -> Z * vtm_socket * OS;
  vt_write : bytes -> vtm_socket -> OS -> option ((Z * Z) * vtm_socket * OS);
  vt_read : Z -> vtm_socket -> OS -> (Z * bytes) * vtm_socket * OS;
  vt_dgram_recv : Z -> vtm_socket -> OS -> (Z * bytes * SA) * vtm_socket * OS;
  vt_dgram_send : bytes -> SA -> vtm_socket -> OS -> (Z * Z) * vtm_socket * OS;
  vt_set_opt : Z -> option Z -> vtm_socket -> OS -> Z * vtm_socket * OS;
  vt_get_opt : Z -> vtm_socket -> OS -> (Z * Z) * vtm_socket * OS;
  vt_get_remote_addr : vtm_socket -> OS -> (Z * SA) * vtm_socket * OS
}.
Arguments mk_vtable {OS SA}.
Arguments vt_bind {OS SA}.
Arguments vt_listen {OS SA}.
Arguments vt_accept {OS SA}.
Arguments vt_connect {OS SA}.
Arguments vt_shutdown {OS SA}.
Arguments vt_close {OS SA}.
Arguments vt_write {OS SA}.
Arguments vt_read {OS SA}.
Arguments vt_dgram_recv {OS SA}.
Arguments vt_dgram_send {OS SA}.
Arguments vt_set_opt {OS SA}.
Arguments vt_get_opt {OS SA}.
Arguments vt_get_remote_addr {OS SA}.

(** ** Operations, net/socket.c *)

Section Operations.
Context {OS SA : Type} (vt : vtm_socket_vtable OS SA).
Implicit Types (s : vtm_socket) (os : OS).

(** net/socket.c:74-86 *)
Definition vtm_socket_bind (addr : bytes) (port : Z) s os : Z * vtm_socket * OS :=
  if VTM_SOCKET_IS_CLOSED s then (VTM_E_IO_CLOSED, s, os) else vt_bind vt addr port s os.

(** net/socket.c:88-100 *)
Definition vtm_socket_listen (backlog : Z) s os : Z * vtm_socket * OS :=
  if VTM_SOCKET_IS_CLOSED s then (VTM_E_IO_CLOSED, s, os) else vt_listen vt backlog s os.

(** net/socket.c:102-117.  [*client] is only assigned by the implementation. *)
Definition vtm_socket_accept s os : (Z * option vtm_socket) * vtm_socket * OS :=
  if VTM_SOCKET_IS_CLOSED s then (VTM_E_IO_CLOSED, None, s, os)
  else vt_accept vt (vtm_socket_unset_state s VTM_SOCK_STAT_READ_AGAIN) os.

(** net/socket.c:119-134 *)
Definition vtm_socket_connect (host : bytes) (port : Z) s os : Z * vtm_socket * OS :=
  if VTM_SOCKET_IS_CLOSED s then (VTM_E_IO_CLOSED, s, os)
  else vt_connect vt host port (vtm_socket_unset_state s VTM_SOCK_STAT_READ_AGAIN) os.

(** net/socket.c:136-148 *)
Definition vtm_socket_shutdown (dir : Z) s os : Z * vtm_socket * OS :=
  if VTM_SOCKET_IS_CLOSED s then (VTM_E_IO_CLOSED, s, os) else vt_shutdown vt dir s os.

(** net/socket.c:150-166 *)
Definition vtm_socket_close s os : Z * vtm_socket * OS :=
  if VTM_SOCKET_IS_CLOSED s then (VTM_OK, s, os)
  else
    let '(rc, s, os) := vt_close vt s os in
    (rc, if rc =? VTM_OK then vtm_socket_set_state s VTM_SOCK_STAT_CLOSED else s, os).

(** net/socket.c:183-194.  The hints for the listener. *)
Definition write_nbl_hints s : vtm_socket :=
  let st := s_state s in
  if flag_any st VTM_SOCK_STAT_NBL_AUTO then
    if flag_any st (Z.lor VTM_SOCK_STAT_WRITE_AGAIN VTM_SOCK_STAT_READ_AGAIN_WHEN_WRITEABLE) then
      vtm_socket_set_state (vtm_socket_unset_state s VTM_SOCK_STAT_NBL_READ) VTM_SOCK_STAT_NBL_WRITE
    else
      vtm_socket_set_state (vtm_socket_unset_state s VTM_SOCK_STAT_NBL_WRITE) VTM_SOCK_STAT_NBL_READ
  else s.

(** net/socket.c:168-200.  The result code and the bytes written. *)
Definition vtm_socket_write (src : bytes) s os : option ((Z * Z) * vtm_socket * OS) :=
  if VTM_SOCKET_IS_CLOSED s then Some (VTM_E_IO_CLOSED, 0, s, os)
  else
    let s := vtm_socket_unset_state s
      (Z.lor VTM_SOCK_STAT_WRITE_AGAIN VTM_SOCK_STAT_WRITE_AGAIN_WHEN_READABLE) in
    '(r, s, os) ← vt_write vt src s os;
    Some (r, write_nbl_hints s, os).

(** net/socket.c:202-228 *)
Definition vtm_socket_read (len : Z) s os : (Z * bytes) * vtm_socket * OS :=
  if VTM_SOCKET_IS_CLOSED s then (VTM_E_IO_CLOSED, [], s, os)
  else
    let s := vtm_socket_unset_state s
      (Z.lor VTM_SOCK_STAT_READ_AGAIN VTM_SOCK_STAT_READ_AGAIN_WHEN_WRITEABLE) in
    let '(r, s, os) := vt_read vt len s os in
    let s :=
      if flag_any (s_state s) VTM_SOCK_STAT_NBL_AUTO
         && flag_any (s_state s) VTM_SOCK_STAT_READ_AGAIN_WHEN_WRITEABLE then
        vtm_socket_set_state (vtm_socket_unset_state s VTM_SOCK_STAT_NBL_READ)
          VTM_SOCK_STAT_NBL_WRITE
      else s in
    (r, s, os).

(** net/socket.c:230-242.  On a closed socket nothing is stored. *)
Definition vtm_socket_dgram_recv (maxlen : Z) s os : (Z * option (bytes * SA)) * vtm_socket * OS :=
  if VTM_SOCKET_IS_CLOSED s then (VTM_E_IO_CLOSED, None, s, os)
  else
    let '(rc, data, from, s, os) := vt_dgram_recv vt maxlen s os in
    (rc, Some (data, from), s, os).

(** net/socket.c:244-256 *)
Definition vtm_socket_dgram_send (buf : bytes) (saddr : SA) s os
    : (Z * option Z) * vtm_socket * OS :=
  if VTM_SOCKET_IS_CLOSED s then (VTM_E_IO_CLOSED, None, s, os)
  else
    let '(rc, sent, s, os) := vt_dgram_send vt buf saddr s os in (rc, Some sent, s, os).

(** net/socket.c:283-308.  The pointer is tested, not the value. *)
Definition vtm_socket_set_opt (opt : Z) (val : option Z) s os : Z * vtm_socket * OS :=
  let '(rc, s, os) := vt_set_opt vt opt val s os in
  if negb (rc =? VTM_OK) then (rc, s, os)
  else if opt =? VTM_SOCK_OPT_NONBLOCKING then
    (rc, match val with
         | Some _ => vtm_socket_set_state s VTM_SOCK_STAT_NONBLOCKING
         | None => vtm_socket_unset_state s VTM_SOCK_STAT_NONBLOCKING
         end, os)
  else (rc, s, os).

(** net/socket.c:310-336.  [len] is the size of the variable for the value. *)
Definition vtm_socket_get_opt (opt len : Z) s os : (Z * option Z) * vtm_socket * OS :=
  if opt =? VTM_SOCK_OPT_NONBLOCKING then
    if negb (len =? 1) then (VTM_E_INVALID_ARG, None, s, os)
    else (VTM_OK, Some (Z.b2z (flag_any (s_state s) VTM_SOCK_STAT_NONBLOCKING)), s, os)
  else
    let '(rc, v, s, os) := vt_get_opt vt opt s os in (rc, Some v, s, os).

(** net/socket.c:338-347 *)
Definition vtm_socket_get_remote_addr s os : (Z * SA) * vtm_socket * OS :=
  vt_get_remote_addr vt s os.
End Operations.

(** ** Plain sockets, sys/base/net/socket_plain.c *)

Section Plain.
Context {OS : Type} (sys : sys_net OS).
Implicit Types (s : vtm_socket) (os : OS).

(** sys/base/net/socket_plain.c:107-129.  [ok] is the answer of the allocator. *)
Definition vtm_socket_plain_alloc (ok : bool) (fam type fd : Z) : option vtm_socket :=
  if negb ok then None
  else Some (mk_sock fd fam type false VTM_SOCK_STAT_DEFAULT 0 0).

(** sys/base/net/socket_plain.c:136-176, outside BSD *)
Definition vtm_socket_plain_accept (ok : bool) s os : (Z * option vtm_socket) * vtm_socket * OS :=
  let '(r, os) := sys_accept sys (s_fd s) os in
  match r with
  | inr err =>
      let rc := snd (vtm_socket_util_error_code err) in
      (rc, None, if rc =? VTM_E_IO_AGAIN then vtm_socket_set_state_intl s VTM_SOCK_STAT_READ_AGAIN
                 else s, os)
  | inl fd =>
      match vtm_socket_plain_alloc ok (s_family s) (s_type s) fd with
      | None => (VTM_ERROR, None, s, sys_close sys fd os)
      | Some c => (VTM_OK, Some c, s, os)
      end
  end.

(** sys/base/net/socket_plain.c:178-197 *)
Definition vtm_socket_plain_shutdown (dir : Z) s os : Z * vtm_socket * OS :=
  let how := if vtm_flag_is_set dir (Z.lor VTM_SOCK_SHUT_RD VTM_SOCK_SHUT_WR) then Some 2
             else if vtm_flag_is_set dir VTM_SOCK_SHUT_RD then Some 0
             else if vtm_flag_is_set dir VTM_SOCK_SHUT_WR then Some 1 else None in
  match how with
  | None => (VTM_E_INVALID_ARG, s, os)
  | Some how =>
      let '(r, os) := sys_shutdown sys (s_fd s) how os in
      match r with
      | Some err => let '(s, rc) := vtm_socket_util_error err s in (rc, s, os)
      | None => (VTM_OK, s, os)
      end
  end.

(** sys/base/net/socket_plain.c:199-204 *)
Definition vtm_socket_plain_close s os : Z * vtm_socket * OS :=
  (VTM_OK, s, sys_close sys (s_fd s) os).

(** sys/base/net/socket_plain.c:220-229.  The loop over the rest [src] of the
    data; [None] if it does not end. *)
Fixpoint plain_write_loop (fuel : nat) (src : bytes) (written : Z) s os
    : option ((Z * Z) * vtm_socket * OS) :=
  match src, fuel with
  | [], _ => Some (VTM_OK, written, s, os)
  | _, O => None
  | _, S fuel' =>
      let '(r, os) := sys_send sys (s_fd s) src os in
      match r with
      | inl num => plain_write_loop fuel' (zdrop num src) (written + num) s os
      | inr err =>
          let '(s, rc) := vtm_socket_util_error err s in
          Some (rc, written,
                if rc =? VTM_E_IO_AGAIN then vtm_socket_set_state_intl s VTM_SOCK_STAT_WRITE_AGAIN
                else s, os)
      end
  end.

(** sys/base/net/socket_plain.c:206-234.  Every round sends a byte or ends. *)
Definition vtm_socket_plain_write (src : bytes) s os : option ((Z * Z) * vtm_socket * OS) :=
  plain_write_loop (length src) src 0 s os.

(** sys/base/net/socket_plain.c:236-266 *)
Definition vtm_socket_plain_read (len : Z) s os : (Z * bytes) * vtm_socket * OS :=
  let '(r, os) := sys_recv sys (s_fd s) len os in
  let '(rc, state, data) :=
    match r with
    | inr err =>
        let rc := snd (vtm_socket_util_error_code err) in
        (rc, if rc =? VTM_E_IO_AGAIN then VTM_SOCK_STAT_READ_AGAIN else VTM_SOCK_STAT_ERR, [])
    | inl [] => (VTM_E_IO_EOF, VTM_SOCK_STAT_HUP, [])
    | inl data => (VTM_OK, 0, data)
    end in
  (rc, data, vtm_socket_set_state_intl s state, os).
End Plain.

(** sys/base/net/socket_plain.c:55-70 [vtm_socket_plain_vtable].  The functions of
    socket_util.c are those of [rest]. *)
Definition vtm_socket_plain_vtable {OS SA} (sys : sys_net OS) (alloc_ok : bool)
    (rest : vtm_socket_vtable OS SA) : vtm_socket_vtable OS SA :=
  mk_vtable (vt_bind rest) (vt_listen rest) (vtm_socket_plain_accept sys alloc_ok)
    (vt_connect rest) (vtm_socket_plain_shutdown sys) (vtm_socket_plain_close sys)
    (vtm_socket_plain_write sys) (vtm_socket_plain_read sys) (vt_dgram_recv rest)
    (vt_dgram_send rest) (vt_set_opt rest) (vt_get_opt rest) (vt_get_remote_addr rest).

(** ** Lemmas: flags *)

Lemma flag_any_bit st k : 0 <= k -> flag_any st (2 ^ k) = Z.testbit st k.
Proof.
  intros Hk. unfold flag_any. destruct (Z.testbit st k) eqn:E.
  - destruct (Z.eqb_spec (Z.land st (2 ^ k)) 0) as [H|]; [|done].
    apply (f_equal (fun x => Z.testbit x k)) in H.
    rewrite Z.land_spec, E, Z.pow2_bits_true, Z.bits_0 in H by lia. done.
  - enough (Z.land st (2 ^ k) = 0) as -> by done. apply Z.bits_inj_0. intros i.
    rewrite Z.land_spec. destruct (decide (i = k)) as [->|].
    + by rewrite E.
    + by rewrite Z.pow2_bits_false, andb_false_r by lia.
Qed.

Lemma flag_set_bit st f i : Z.testbit (vtm_flag_set st f) i = Z.testbit st i || Z.testbit f i.
Proof. apply Z.lor_spec. Qed.

Lemma flag_unset_bit st f i :
  0 <= i < 32 -> Z.testbit (vtm_flag_unset st f) i = Z.testbit st i && negb (Z.testbit f i).
Proof.
  intros Hi. unfold vtm_flag_unset. rewrite Z.land_spec, Z.lxor_spec.
  replace UINT_MAX with (Z.ones 32) by reflexivity.
  by rewrite Z.ones_spec_low by lia.
Qed.

Lemma is_closed_bit s : VTM_SOCKET_IS_CLOSED s = Z.testbit (s_state s) 1.
Proof.
  unfold VTM_SOCKET_IS_CLOSED, vtm_flag_is_set, VTM_SOCK_STAT_CLOSED.
  destruct (Z.testbit (s_state s) 1) eqn:E.
  - apply Z.eqb_eq. apply Z.bits_inj. intros i. rewrite Z.land_spec.
    destruct (decide (i = 1)) as [->|]; [by rewrite E|].
    by rewrite Z.pow2_bits_false, andb_false_r by lia.
  - apply Z.eqb_neq. intros H. apply (f_equal (fun x => Z.testbit x 1)) in H.
    rewrite Z.land_spec, E in H. done.
Qed.

(** ** Lemmas: writing *)

(** What POSIX says of send(): it takes at least one and at most all of the
    bytes, in order, or fails and takes none. *)
Class SendLaws {OS} (sys : sys_net OS) (sent : Z -> OS -> bytes) := {
  send_some fd src os n os' :
    src <> [] -> sys_send sys fd src os = (inl n, os') ->
    0 < n <= zlen src /\ sent fd os' = sent fd os ++ ztake n src;
  send_none fd src os e os' : sys_send sys fd src os = (inr e, os') -> sent fd os' = sent fd os
}.

(** The code and the state that the failure [err] of a write leaves. *)
Definition write_failure (s s' : vtm_socket) (rc : Z) : Prop :=
  rc <> VTM_OK /\ s_fd s' = s_fd s /\ s_refcount s' = s_refcount s /\
  (rc = VTM_E_IO_AGAIN -> Z.testbit (s_state s') 5 = true).

Lemma write_failure_error s err s' rc :
  vtm_socket_util_error err s = (s', rc) ->
  write_failure s (if rc =? VTM_E_IO_AGAIN then vtm_socket_set_state_intl s' VTM_SOCK_STAT_WRITE_AGAIN
                   else s') rc.
Proof.
  unfold vtm_socket_util_error.
  assert (snd (vtm_socket_util_error_code err) <> VTM_OK) as Hne.
  { unfold vtm_socket_util_error_code. repeat case_match; done. }
  destruct (vtm_socket_util_error_code err) as [state rc0] eqn:E. cbn in Hne.
  intros [= <- <-]. unfold write_failure, vtm_socket_set_state_intl.
  destruct (0 <? state), (rc0 =? VTM_E_IO_AGAIN) eqn:Er; bsplit; repeat split; try done;
    intros; cbn [s_state sock_with_state]; rewrite flag_set_bit; by rewrite orb_true_r.
Qed.

Section WriteLaws.
Context {OS : Type} (sys : sys_net OS) (sent : Z -> OS -> bytes) `{!SendLaws sys sent}.

Lemma plain_write_loop_ok fuel src w s os :
  (length src <= fuel)%nat ->
  exists rc n s' os', plain_write_loop sys fuel src w s os = Some (rc, w + n, s', os') /\
    0 <= n <= zlen src /\ sent (s_fd s) os' = sent (s_fd s) os ++ ztake n src /\
    (rc = VTM_OK /\ n = zlen src /\ s' = s \/ n < zlen src /\ write_failure s s' rc).
Proof.
  revert src w os; induction fuel as [|fuel IH]; intros src w os Hf.
  - destruct src; [|cbn in Hf; lia]. exists VTM_OK, 0, s, os. cbn [plain_write_loop].
    rewrite Z.add_0_r, app_nil_r. repeat split; [done| |left; done]. unfold zlen. cbn. lia.
  - destruct src as [|c src0]; [exists VTM_OK, 0, s, os; cbn [plain_write_loop];
      rewrite Z.add_0_r, app_nil_r; repeat split; [done|unfold zlen; cbn; lia|left; done]|].
    set (src := c :: src0) in *. cbn [plain_write_loop]. fold src.
    destruct (sys_send sys (s_fd s) src os) as [[n|err] os1] eqn:E.
    + destruct (send_some _ _ _ _ _ (ltac:(done) : src <> []) E) as [Hn Hs].
      destruct (IH (zdrop n src) (w + n) os1) as (rc & m & s' & os' & Hr & Hm & Hs' & Hrc).
      { unfold zdrop. rewrite length_drop. unfold zlen in Hn. lia. }
      assert (zlen (zdrop n src) = zlen src - n) as El.
      { unfold zlen, zdrop in *. rewrite length_drop. lia. }
      rewrite El in Hm, Hrc. exists rc, (n + m), s', os'. rewrite Hr, Z.add_assoc. split; [done|].
      split; [lia|]. split; cycle 1.
      { destruct Hrc as [(? & ? & ?)|[? ?]]; [left|right].
        - split; [done|]. split; [lia|done].
        - split; [lia|done]. }
      rewrite Hs', Hs, <- app_assoc. f_equal. unfold ztake, zdrop.
      rewrite (Z2Nat.inj_add n m) by lia. by rewrite <- take_take_drop.
    + destruct (vtm_socket_util_error err s) as [s1 rc] eqn:Ee.
      exists rc, 0. eexists _, os1. rewrite Z.add_0_r. split; [done|].
      split; [unfold zlen; lia|]. split; [rewrite (send_none _ _ _ _ _ E), app_nil_r; done|].
      right. split; [unfold src, zlen; cbn; lia|]. by eapply write_failure_error.
Qed.
End WriteLaws.

(** Unfolds a test of a bit of a flag word the operations compute. *)
Ltac flag_bits :=
  unfold vtm_socket_set_state, vtm_socket_unset_state, vtm_socket_set_state_intl;
  cbn [s_state sock_with_state];
  repeat (rewrite flag_set_bit || rewrite flag_unset_bit by lia).

Lemma flag_any_two st j k :
  0 <= j -> 0 <= k -> flag_any st (Z.lor (2 ^ j) (2 ^ k)) = Z.testbit st j || Z.testbit st k.
Proof.
  intros Hj Hk. rewrite <- !flag_any_bit by done. unfold flag_any. rewrite Z.land_lor_distr_r.
  destruct (Z.eqb_spec (Z.land st (2 ^ j)) 0) as [->|H1]; [by rewrite Z.lor_0_l|].
  destruct (Z.eqb_spec (Z.lor (Z.land st (2 ^ j)) (Z.land st (2 ^ k))) 0) as [H|]; [|done].
  apply Z.lor_eq_0_iff in H. tauto.
Qed.

(** With the automatic mode the listener waits either for input or for output. *)
Lemma write_nbl_hints_bits s :
  s_fd (write_nbl_hints s) = s_fd s /\ s_refcount (write_nbl_hints s) = s_refcount s /\
  (forall i, 0 <= i < 11 -> Z.testbit (s_state (write_nbl_hints s)) i = Z.testbit (s_state s) i) /\
  Z.testbit (s_state (write_nbl_hints s)) 13 = Z.testbit (s_state s) 13 /\
  (Z.testbit (s_state s) 13 = true ->
   let wait := (Z.testbit (s_state s) 5 || Z.testbit (s_state s) 4)%bool in
   Z.testbit (s_state (write_nbl_hints s)) 12 = wait /\
  Z.testbit (s_state (write_nbl_hints s)) 11 = negb wait).
Proof.
  unfold write_nbl_hints.
  unfold VTM_SOCK_STAT_NBL_AUTO, VTM_SOCK_STAT_WRITE_AGAIN, VTM_SOCK_STAT_READ_AGAIN_WHEN_WRITEABLE.
  rewrite flag_any_bit, flag_any_two by lia.
  assert (forall k i, 0 <= k -> 0 <= i -> Z.testbit (2 ^ k) i = bool_decide (i = k)) as Hp.
  { intros k i Hk Hi. case_bool_decide as E; [subst; by apply Z.pow2_bits_true|].
    apply Z.pow2_bits_false. lia. }
  destruct (Z.testbit (s_state s) 13) eqn:E13; [|done].
  destruct (Z.testbit (s_state s) 5 || Z.testbit (s_state s) 4) eqn:Ew; repeat split;
    intros; flag_bits; unfold VTM_SOCK_STAT_NBL_READ, VTM_SOCK_STAT_NBL_WRITE;
    rewrite ?Hp by lia; repeat case_bool_decide; try lia; rewrite ?E13; cbn;
    by rewrite ?andb_true_r, ?orb_false_r, ?orb_true_r, ?andb_false_r.
Qed.

(** What writing to an open plain socket does. *)
Lemma plain_socket_write_ok {OS SA} (sys : sys_net OS) (sent : Z -> OS -> bytes) ok
    (rest : vtm_socket_vtable OS SA) src s os
    (Hsend : SendLaws sys sent) (Hopen : VTM_SOCKET_IS_CLOSED s = false) :
  exists rc n s' os',
    vtm_socket_write (vtm_socket_plain_vtable sys ok rest) src s os = Some (rc, n, s', os') /\
    0 <= n <= zlen src /\ sent (s_fd s) os' = sent (s_fd s) os ++ ztake n src /\
    (rc = VTM_OK <-> n = zlen src) /\ s_fd s' = s_fd s /\ s_refcount s' = s_refcount s /\
    (rc = VTM_E_IO_AGAIN -> Z.testbit (s_state s') 5 = true) /\
    (Z.testbit (s_state s') 13 = true ->
     Z.testbit (s_state s') 12 = (Z.testbit (s_state s') 5 || Z.testbit (s_state s') 4)%bool /\
     Z.testbit (s_state s') 11 = negb (Z.testbit (s_state s') 12)).
Proof.
  unfold vtm_socket_write. rewrite Hopen. cbn [vt_write vtm_socket_plain_vtable].
  set (s0 := vtm_socket_unset_state s _).
  destruct (plain_write_loop_ok sys sent (length src) src 0 s0 os) as
    (rc & n & s1 & os1 & E & Hn & Hs & Hrc); [done|].
  unfold vtm_socket_plain_write. rewrite E. cbn [mbind option_bind].
  destruct (write_nbl_hints_bits s1) as (Hfd & Href & Hbits & H13 & Hauto).
  exists rc, n, (write_nbl_hints s1), os1. rewrite Z.add_0_l, Hfd, Href, H13, (Hbits 5), (Hbits 4) by lia.
  split; [done|]. split; [done|]. split; [exact Hs|].
  assert (s_fd s1 = s_fd s /\ s_refcount s1 = s_refcount s /\ (rc = VTM_OK <-> n = zlen src) /\
    (rc = VTM_E_IO_AGAIN -> Z.testbit (s_state s1) 5 = true)) as (H1 & H2 & H3 & H4).
  { destruct Hrc as [(-> & -> & ->)|[Hlt (Hne & ? & ? & ?)]]; [done|].
    repeat split; try done. intros ->. lia. }
  split; [done|]. split; [done|]. split; [done|]. split; [done|].
  intros Ha. destruct (Hauto Ha) as [H12 H11]. by rewrite H11, H12.
Qed.

(** ** Theorems *)

(** writing to a plain socket (net/socket.c, vtm_socket_write, over
    sys/base/net/socket_plain.c, vtm_socket_plain_write) always ends, and the
    peer is sent exactly the reported number of bytes, a prefix of the data:
    all of it if and only if the answer is VTM_OK.  An answer VTM_E_IO_AGAIN
    leaves the flag WRITE_AGAIN, and in automatic mode the listener then waits
    for output, otherwise for input. *)
Theorem socket_write_prefix {OS SA} (sys : sys_net OS) (sent : Z -> OS -> bytes) ok
    (rest : vtm_socket_vtable OS SA) src s os
    (Hsend : SendLaws sys sent) (Hopen : VTM_SOCKET_IS_CLOSED s = false) :
  exists rc n s' os',
    vtm_socket_write (vtm_socket_plain_vtable sys ok rest) src s os = Some (rc, n, s', os') /\
    0 <= n <= zlen src /\ sent (s_fd s) os' = sent (s_fd s) os ++ ztake n src /\
    (rc = VTM_OK <-> n = zlen src) /\ s_fd s' = s_fd s /\ s_refcount s' = s_refcount s /\
    (rc = VTM_E_IO_AGAIN -> Z.testbit (s_state s') 5 = true) /\
    (Z.testbit (s_state s') 13 = true ->
     Z.testbit (s_state s') 12 = (Z.testbit (s_state s') 5 || Z.testbit (s_state s') 4)%bool /\
     Z.testbit (s_state s') 11 = negb (Z.testbit (s_state s') 12)).
Proof. by apply plain_socket_write_ok. Qed.

(** a closed socket is inert (net/socket.c): every operation on it answers
    VTM_E_IO_CLOSED, does not call the implementation and changes neither the
    socket nor the system; closing it again succeeds. *)
Theorem socket_closed_inert {OS SA} (vt : vtm_socket_vtable OS SA) s os addr port backlog src len dir
    saddr (Hclosed : VTM_SOCKET_IS_CLOSED s = true) :
  vtm_socket_bind vt addr port s os = (VTM_E_IO_CLOSED, s, os) /\
  vtm_socket_listen vt backlog s os = (VTM_E_IO_CLOSED, s, os) /\
  vtm_socket_accept vt s os = (VTM_E_IO_CLOSED, None, s, os) /\
  vtm_socket_connect vt addr port s os = (VTM_E_IO_CLOSED, s, os) /\
  vtm_socket_shutdown vt dir s os = (VTM_E_IO_CLOSED, s, os) /\
  vtm_socket_write vt src s os = Some (VTM_E_IO_CLOSED, 0, s, os) /\
  vtm_socket_read vt len s os = (VTM_E_IO_CLOSED, [], s, os) /\
  vtm_socket_dgram_recv vt len s os = (VTM_E_IO_CLOSED, None, s, os) /\
  vtm_socket_dgram_send vt src saddr s os = (VTM_E_IO_CLOSED, None, s, os) /\
  vtm_socket_close vt s os = (VTM_OK, s, os).
Proof.
  unfold vtm_socket_bind, vtm_socket_listen, vtm_socket_accept, vtm_socket_connect,
    vtm_socket_shutdown, vtm_socket_write, vtm_socket_read, vtm_socket_dgram_recv,
    vtm_socket_dgram_send, vtm_socket_close. by rewrite Hclosed.
Qed.

(** vtm_socket_set_opt (net/socket.c) tests the pointer to the value
    instead of the value: switching the non-blocking mode off leaves the socket
    marked as non-blocking, and vtm_socket_get_opt goes on reporting it. *)
Theorem socket_nonblocking_stays {OS SA} (vt : vtm_socket_vtable OS SA) s os s1 os1
    (Hset : vt_set_opt vt VTM_SOCK_OPT_NONBLOCKING (Some 0) s os = (VTM_OK, s1, os1)) :
  exists s', vtm_socket_set_opt vt VTM_SOCK_OPT_NONBLOCKING (Some 0) s os = (VTM_OK, s', os1) /\
    vtm_socket_get_opt vt VTM_SOCK_OPT_NONBLOCKING 1 s' os1 = (VTM_OK, Some 1, s', os1).
Proof.
  unfold vtm_socket_set_opt. rewrite Hset. cbn [negb Z.eqb VTM_OK]. eexists. split; [done|].
  unfold vtm_socket_get_opt. cbn [negb Z.eqb Pos.eqb]. unfold VTM_SOCK_STAT_NONBLOCKING.
  rewrite flag_any_bit by lia. flag_bits. rewrite Z.pow2_bits_true by lia.
  by rewrite orb_true_r.
Qed.

(** *** Reference counts *)

Inductive ref_op := RefOp | UnrefOp | EnableOp.

(** One operation on a socket that is not freed. *)
Definition ref_step (op : ref_op) (s : vtm_socket) : option (option vtm_socket) :=
  match op with
  | RefOp => s ← vtm_socket_ref s; Some (Some s)
  | UnrefOp => vtm_socket_unref s
  | EnableOp => Some (vtm_socket_enable_free_on_unref s)
  end.

Fixpoint ref_run (ops : list ref_op) (s : vtm_socket) : option (option vtm_socket) :=
  match ops with
  | [] => Some (Some s)
  | op :: ops' =>
      r ← ref_step op s;
      match r with
      | Some s => ref_run ops' s
      | None => if decide (ops' = []) then Some None else None
      end
  end.

Instance ref_op_eq_dec : EqDecision ref_op.
Proof. solve_decision. Defined.

(** References taken less references given back. *)
Fixpoint refs (ops : list ref_op) : Z :=
  match ops with
  | [] => 0
  | RefOp :: ops' => 1 + refs ops'
  | UnrefOp :: ops' => refs ops' - 1
  | EnableOp :: ops' => refs ops'
  end.

(** No more than 255 references at a time, none given back that was not taken,
    and nothing done once the last one is gone and freeing is enabled. *)
Fixpoint refs_ok (n : Z) (enabled : bool) (ops : list ref_op) : Prop :=
  match ops with
  | [] => True
  | op :: ops' =>
      let n' := n + refs [op] in
      let e' := enabled || bool_decide (op = EnableOp) in
      0 <= n' <= 255 /\ (e' = true -> n' = 0 -> ops' = []) /\ refs_ok n' e' ops'
  end.

Lemma ref_step_ok op s :
  0 <= s_refcount s <= 255 -> 0 <= s_refcount s + refs [op] <= 255 ->
  exists r, ref_step op s = Some r /\
    let e' := Z.testbit (s_state s) 9 || bool_decide (op = EnableOp) in
    match r with
    | Some s' => s_refcount s' = s_refcount s + refs [op] /\ Z.testbit (s_state s') 9 = e' /\
        (op <> RefOp -> ~ (e' = true /\ s_refcount s' = 0))
    | None => e' = true /\ s_refcount s + refs [op] = 0
    end.
Proof.
  intros Hn Hn'. destruct op; cbn [refs ref_step] in *.
  - unfold vtm_socket_ref, UCHAR_MAX. rewrite (proj2 (Z.eqb_neq _ _)) by lia.
    cbn [mbind option_bind]. eexists. split; [done|]. cbn.
    unfold u8, wrap. rewrite Z.mod_small by lia. rewrite orb_false_r. repeat split; lia || done.
  - unfold vtm_socket_unref. rewrite (proj2 (Z.ltb_lt _ _)) by lia. eexists. split; [done|].
    cbn [s_refcount s_state sock_with_ref]. unfold VTM_SOCK_STAT_FREE_ON_UNREF.
    rewrite flag_any_bit by lia. unfold u8, wrap. rewrite Z.mod_small by lia.
    rewrite bool_decide_eq_false_2 by done. rewrite orb_false_r.
    destruct (s_refcount s - 1 =? 0) eqn:E, (Z.testbit (s_state s) 9) eqn:E9; bsplit;
      cbn [andb s_refcount s_state sock_with_ref]; rewrite ?E9; repeat split; try lia; intros; lia || (intros [? ?]; (done || lia)).
  - unfold vtm_socket_enable_free_on_unref. eexists. split; [done|].
    cbn [s_refcount s_state sock_with_state]. rewrite orb_true_r.
    destruct (s_refcount s =? 0) eqn:E; bsplit; [split; [done|lia]|].
    cbn [s_refcount s_state sock_with_state]. rewrite Z.lor_spec. unfold VTM_SOCK_STAT_FREE_ON_UNREF.
    rewrite Z.pow2_bits_true, orb_true_r by lia. repeat split; [lia|]. intros _ [_ ?]. lia.
Qed.

(** a socket is freed exactly when freeing was enabled and every reference
    was given back (net/socket.c, vtm_socket_ref, vtm_socket_unref and
    vtm_socket_enable_free_on_unref), whatever the order of the calls: under
    the counting discipline no assertion fails, and the last call frees. *)
Theorem socket_freed_when_unreferenced ops s
    (Hs : 0 <= s_refcount s <= 255) (Hlive : Z.testbit (s_state s) 9 = true -> s_refcount s <> 0)
    (Hok : refs_ok (s_refcount s) (Z.testbit (s_state s) 9) ops) :
  exists r, ref_run ops s = Some r /\
    (r = None <->
     ops <> [] /\ (Z.testbit (s_state s) 9 = true \/ EnableOp ∈ ops) /\ s_refcount s + refs ops = 0).
Proof.
  revert s Hs Hlive Hok; induction ops as [|op ops IH]; intros s Hs Hlive Hok.
  { eexists. split; [done|]. split; [done|]. by intros []. }
  destruct Hok as (Hn & Hend & Hok). cbn [ref_run].
  destruct (ref_step_ok op s Hs Hn) as (r & -> & Hr). cbn [mbind option_bind].
  assert (refs (op :: ops) = refs [op] + refs ops) as Eref by (destruct op; cbn; lia).
  assert (forall b, bool_decide (op = EnableOp) = b -> (EnableOp ∈ op :: ops <-> b = true \/ EnableOp ∈ ops)) as Hin.
  { intros b <-. rewrite elem_of_cons, bool_decide_eq_true. naive_solver. }
  destruct r as [s'|].
  - destruct Hr as (Hc & He & Hz). rewrite <- Hc, <- He in Hok.
    assert (Z.testbit (s_state s') 9 = true -> s_refcount s' <> 0) as Hlive'.
    { rewrite He. intros Ht Hz'. destruct (decide (op = RefOp)) as [->|Hop]; [cbn in Hc; lia|].
      by apply Hz. }
    destruct (IH s') as (r & -> & Hr); [lia|done|done|]. exists r. split; [done|].
    rewrite Hr, Eref, Hin, He, orb_true_iff by done. rewrite Hc, <- Z.add_assoc.
    split; [intros (? & ? & ?); repeat split; [done|tauto|lia]|].
    intros (_ & He' & Hsum). split; [|split; [tauto|lia]].
    intros ->. apply Hlive'; [|change (refs []) with 0 in Hsum; lia].
    rewrite He. apply orb_true_iff. destruct He' as [|[|He']]; [by left|by right|].
    by apply elem_of_nil in He'.
  - destruct Hr as [He Hz]. pose proof (Hend He Hz) as ->. rewrite decide_True by done.
    eexists. split; [done|]. split; [|done]. intros _. split; [done|].
    apply orb_true_iff in He. rewrite Hin by done. change (refs []) with 0 in Eref.
    split; [tauto|lia].
Qed.

(** *** A system that follows a script *)

(** The peer takes at most [k] bytes for every [k] of the script, and is full
    when the script is over. *)
Record script_os := mk_script { script : list Z; wire : bytes }.

Definition script_send (fd : Z) (src : bytes) (os : script_os) : (Z + Z) * script_os :=
  match script os with
  | [] => (inr EAGAIN, os)
  | k :: ks =>
      let n := Z.max 1 (Z.min k (zlen src)) in
      (inl n, mk_script ks (wire os ++ ztake n src))
  end.

Definition script_sys : sys_net script_os :=
  mk_sys script_send (fun _ _ os => (inr EAGAIN, os)) (fun _ os => (inr EAGAIN, os))
    (fun _ _ os => (None, os)) (fun _ os => os).

#[export] Instance script_laws : SendLaws script_sys (fun _ os => wire os).
Proof.
  split; intros fd src os r os'; cbn [sys_send script_sys]; unfold script_send;
    destruct (script os) as [|k ks]; try done.
  - intros Hsrc [= <- <-]. split; [|done]. destruct src; [done|]. unfold zlen. cbn [length]. lia.
  - by intros [= <- <-].
Qed.

Definition demo_vtable : vtm_socket_vtable script_os Z :=
  let r s (os : script_os) := (VTM_OK, s, os) in
  mk_vtable (fun _ _ => r) (fun _ => r) (fun s os => (VTM_OK, None, s, os)) (fun _ _ => r)
    (fun _ => r) r (fun src s os => Some (VTM_OK, zlen src, s, os)) (fun _ s os => (VTM_OK, [], s, os))
    (fun _ s os => (VTM_OK, [], 0, s, os)) (fun src _ s os => (VTM_OK, zlen src, s, os))
    (fun _ _ => r) (fun _ s os => (VTM_OK, 0, s, os)) (fun s os => (VTM_OK, 0, s, os)).

(** A socket in automatic mode. *)
Definition demo_sock : vtm_socket :=
  mk_sock 3 0 1 false (vtm_flag_set VTM_SOCK_STAT_NBL_AUTO VTM_SOCK_STAT_NBL_READ) 0 0.

Lemma socket_write_prefix_witness :
  exists s' os', vtm_socket_write (vtm_socket_plain_vtable script_sys true demo_vtable) [1; 2; 3; 4; 5]
      demo_sock (mk_script [2; 1] []) = Some (VTM_E_IO_AGAIN, 3, s', os') /\
    wire os' = [1; 2; 3] /\ Z.testbit (s_state s') 12 = true.
Proof.
  destruct (socket_write_prefix script_sys (fun _ os => wire os) true demo_vtable [1; 2; 3; 4; 5]
    demo_sock (mk_script [2; 1] []) script_laws eq_refl) as (rc & n & s' & os' & E & _ & Hs & _).
  pose proof E as E'. vm_compute in E'. injection E' as <- <- <- <-.
  eexists _, _. split; [exact E|]. split; [exact Hs|]. reflexivity.
Defined.

Definition demo_closed : vtm_socket := vtm_socket_set_state demo_sock VTM_SOCK_STAT_CLOSED.

Lemma socket_closed_inert_witness :
  vtm_socket_write (vtm_socket_plain_vtable script_sys true demo_vtable) [1] demo_closed
    (mk_script [5] []) = Some (VTM_E_IO_CLOSED, 0, demo_closed, mk_script [5] []).
Proof.
  apply (socket_closed_inert (vtm_socket_plain_vtable script_sys true demo_vtable) demo_closed
           (mk_script [5] []) [] 0 0 [1] 0 0 0 eq_refl).
Defined.

Lemma socket_nonblocking_stays_witness :
  exists s', vtm_socket_set_opt demo_vtable VTM_SOCK_OPT_NONBLOCKING (Some 0) demo_sock
      (mk_script [] []) = (VTM_OK, s', mk_script [] []) /\
    vtm_socket_get_opt demo_vtable VTM_SOCK_OPT_NONBLOCKING 1 s' (mk_script [] [])
      = (VTM_OK, Some 1, s', mk_script [] []).
Proof. apply (socket_nonblocking_stays demo_vtable _ _ demo_sock). reflexivity. Defined.

Lemma socket_freed_when_unreferenced_witness :
  ref_run [RefOp; RefOp; UnrefOp; EnableOp; UnrefOp] demo_sock = Some None.
Proof.
  destruct (socket_freed_when_unreferenced [RefOp; RefOp; UnrefOp; EnableOp; UnrefOp] demo_sock)
    as (r & E & Hr).
  - cbn. lia.
  - intros H. vm_compute in H. discriminate.
  - vm_compute. repeat split; intros; discriminate.
  - rewrite E. f_equal. apply Hr. split; [discriminate|]. split; [|reflexivity]. right.
    apply (bool_decide_unpack (EnableOp ∈ [RefOp; RefOp; UnrefOp; EnableOp; UnrefOp])).
    vm_compute. exact I.
Defined.
