(* ===== verification/Emitter.v ===== *)
(** * Emitter: output on sockets, net/socket_emitter.c and net/socket_writer.c

    An emitter sends a piece of memory, the contents of a buffer or a file; a
    chain of emitters is the list in the order of the links, all on one socket.
    Sending may stop because the peer is full (VTM_E_IO_AGAIN) and is resumed by
    a later call.  [emt_pending] is what an emitter still has to send.  The
    writer collects small pieces in an array of 1024 bytes.  Releasing emitters
    is observed as the list of the released ones. *)

From S2P Require Import Prelude Base Socket.

(** ** Files of the C library *)

(** The bytes of a file, the position and the end-of-file indicator. *)
Record c_file := mk_file { f_data : bytes; f_pos : Z; f_eof : bool }.

Definition f_rest (fp : c_file) : bytes := zdrop (f_pos fp) (f_data fp).

(** fread() of [n] bytes from a regular file *)
Definition c_fread (n : Z) (fp : c_file) : bytes * c_file :=
  if n =? 0 then ([], fp)
  else
    let l := ztake n (f_rest fp) in
    (l, mk_file (f_data fp) (f_pos fp + zlen l) (f_eof fp || (zlen l <? n))).

(** fs/file.c:12-21.  The position is the begin again; fseek() clears the
    indicator. *)
Definition vtm_file_get_fsize (fp : c_file) : Z * c_file :=
  (u64 (zlen (f_data fp)), mk_file (f_data fp) 0 false).

(** ** Emitters *)

(** net/socket_emitter.c:11 *)
Definition VTM_EMT_FILE_BUF_SIZE : Z := 4096.

(** net/socket_emitter.h:24-29 *)
Inductive vtm_socket_emitter_result :=
| VTM_SOCK_EMIT_AGAIN
| VTM_SOCK_EMIT_COMPLETE
| VTM_SOCK_EMIT_ERROR.

(** net/socket_emitter.c:13-33 [vtm_emt_raw, vtm_emt_buf, vtm_emt_file].  The
    memory a raw emitter points to, with its position; [owned] says that the
    buffer is released with the emitter.  The array of a file emitter is not
    initialised. *)
Inductive vtm_emt :=
| EmtRaw (src : bytes) (buf_pos : Z)
| EmtBuf (src : bytes) (buf_pos : Z) (owned : bool)
| EmtFile (buf : bytes) (buf_used buf_written : Z) (fp : c_file).

(** net/socket_emitter.h:31-47 [struct vtm_socket_emitter] *)
Record vtm_socket_emitter := mk_emitter { se_length : Z; se_emt : vtm_emt }.

(** net/socket_emitter.c:60-85.  [ok] is the answer of the allocator. *)
Definition vtm_socket_emitter_for_raw (ok : bool) (src : bytes) : option vtm_socket_emitter :=
  if negb ok then None else Some (mk_emitter (zlen src) (EmtRaw src 0)).

(** net/socket_emitter.c:87-109.  [src] are the used bytes of the buffer. *)
Definition vtm_socket_emitter_for_buffer (ok : bool) (src : bytes) (fr : bool)
    : option vtm_socket_emitter :=
  if negb ok then None else Some (mk_emitter (zlen src) (EmtBuf src 0 fr)).

(** net/socket_emitter.c:111-132.  [garbage] is what the array holds. *)
Definition vtm_socket_emitter_for_file (ok : bool) (garbage : bytes) (fp : c_file)
    : option vtm_socket_emitter :=
  if negb ok then None
  else let '(n, fp) := vtm_file_get_fsize fp in Some (mk_emitter n (EmtFile garbage 0 0 fp)).

Section Emitters.
Context {OS SA : Type} (vt : vtm_socket_vtable OS SA).
Implicit Types (s : vtm_socket) (os : OS).

(** net/socket_emitter.c:134-160.  The position moves only if the peer is
    full. *)
Definition vtm_socket_emitter_write_raw (length : Z) (src : bytes) (buf_pos : Z) s os
    : option (vtm_socket_emitter_result * Z * vtm_socket * OS) :=
  let len := u64 (length - buf_pos) in
  if decide (0 <= buf_pos /\ buf_pos + len <= zlen src) then
    '(rc, written, s, os) ← vtm_socket_write vt (ztake len (zdrop buf_pos src)) s os;
    Some (if rc =? VTM_E_IO_AGAIN then (VTM_SOCK_EMIT_AGAIN, buf_pos +sz written, s, os)
          else if (rc =? VTM_OK) && (buf_pos +sz written =? length)
          then (VTM_SOCK_EMIT_COMPLETE, buf_pos, s, os)
          else (VTM_SOCK_EMIT_ERROR, buf_pos, s, os))
  else None.

(** net/socket_emitter.c:162-205.  The loop; [None] if a range leaves the array
    or the loop does not end. *)
Fixpoint vtm_socket_emitter_write_file (fuel : nat) (buf : bytes) (buf_used buf_written : Z)
    (fp : c_file) s os : option (vtm_socket_emitter_result * vtm_emt * vtm_socket * OS) :=
  match fuel with
  | O => None
  | S fuel' =>
      let '(l, fp) := c_fread (VTM_EMT_FILE_BUF_SIZE - buf_used) fp in
      let rcount := zlen l in
      let buf := splice buf_used l buf in
      if rcount <=? 0 then
        Some (if f_eof fp then VTM_SOCK_EMIT_COMPLETE else VTM_SOCK_EMIT_ERROR,
              EmtFile buf buf_used buf_written fp, s, os)
      else
        let buf_used := buf_used +sz rcount in
        '(rc, wcount, s, os) ← vtm_socket_write vt
           (ztake (buf_used - buf_written) (zdrop buf_written buf)) s os;
        if negb ((rc =? VTM_OK) || (rc =? VTM_E_IO_AGAIN)) then
          Some (VTM_SOCK_EMIT_ERROR, EmtFile buf buf_used buf_written fp, s, os)
        else
          let diff := u64 (VTM_EMT_FILE_BUF_SIZE - (buf_written + wcount)) in
          let buf := if 0 <? diff
                     then splice 0 (ztake diff (zdrop (buf_written + wcount) buf)) buf else buf in
          if rc =? VTM_E_IO_AGAIN then Some (VTM_SOCK_EMIT_AGAIN, EmtFile buf diff 0 fp, s, os)
          else vtm_socket_emitter_write_file fuel' buf diff 0 fp s os
  end.

(** Every round reads a byte or ends. *)
Definition file_fuel (fp : c_file) : nat := S (length (f_rest fp)).

(** The member [vtm_sock_emt_write] of an emitter. *)
Definition vtm_sock_emt_write (se : vtm_socket_emitter) s os
    : option (vtm_socket_emitter_result * vtm_socket_emitter * vtm_socket * OS) :=
  match se_emt se with
  | EmtRaw src pos =>
      '(r, pos, s, os) ← vtm_socket_emitter_write_raw (se_length se) src pos s os;
      Some (r, mk_emitter (se_length se) (EmtRaw src pos), s, os)
  | EmtBuf src pos owned =>
      '(r, pos, s, os) ← vtm_socket_emitter_write_raw (se_length se) src pos s os;
      Some (r, mk_emitter (se_length se) (EmtBuf src pos owned), s, os)
  | EmtFile buf used written fp =>
      '(r, e, s, os) ← vtm_socket_emitter_write_file (file_fuel fp) buf used written fp s os;
      Some (r, mk_emitter (se_length se) e, s, os)
  end.

(** net/socket_emitter.c:217-251.  The code, the rest of the chain, the released
    emitters.  An empty chain is a NULL pointer. *)
Fixpoint vtm_socket_emitter_try_write (chain : list vtm_socket_emitter) s os
    : option (Z * list vtm_socket_emitter * list vtm_socket_emitter * vtm_socket * OS) :=
  match chain with
  | [] => None
  | cur :: next =>
      '(res, cur, s, os) ← vtm_sock_emt_write cur s os;
      match res with
      | VTM_SOCK_EMIT_ERROR => Some (VTM_ERROR, cur :: next, [], s, os)
      | VTM_SOCK_EMIT_AGAIN => Some (VTM_E_IO_AGAIN, cur :: next, [], s, os)
      | VTM_SOCK_EMIT_COMPLETE =>
          match next with
          | [] => Some (VTM_OK, [], [cur], s, os)
          | _ =>
              '(rc, chain, freed, s, os) ← vtm_socket_emitter_try_write next s os;
              Some (rc, chain, cur :: freed, s, os)
          end
      end
  end.

(** A client that calls again while the peer is full, at most [n] times;
    [env] is what happens to the system before a call. *)
Fixpoint emit_retry (env : OS -> OS) (n : nat) (chain : list vtm_socket_emitter) s os
    : option (Z * list vtm_socket_emitter * list vtm_socket_emitter * vtm_socket * OS) :=
  '(rc, chain, freed, s, os) ← vtm_socket_emitter_try_write chain s (env os);
  if rc =? VTM_E_IO_AGAIN then
    match n with
    | O => Some (rc, chain, freed, s, os)
    | S n' =>
        '(rc, chain, freed', s, os) ← emit_retry env n' chain s os;
        Some (rc, chain, freed ++ freed', s, os)
    end
  else Some (rc, chain, freed, s, os).
End Emitters.

(** net/socket_emitter.c:253-267 *)
Fixpoint chain_lensum_loop (chain : list vtm_socket_emitter) (sum : Z) : Z * option Z :=
  match chain with
  | [] => (VTM_OK, Some sum)
  | se :: next =>
      let sum := sum +sz se_length se in
      if sum <? se_length se then (VTM_E_OVERFLOW, None) else chain_lensum_loop next sum
  end.
(** net/socket_emitter.c:253-267 [vtm_socket_emitter_get_chain_lensum] *)
Definition vtm_socket_emitter_get_chain_lensum (chain : list vtm_socket_emitter) : Z * option Z :=
  chain_lensum_loop chain 0.

(** ** The socket writer, net/socket_writer.c *)

(** net/socket_writer.h:21-27 [struct vtm_socket_writer].  [sw_buf] holds the
    bytes in front of [index]. *)
Record vtm_socket_writer := mk_writer { sw_buf : bytes; sw_lrc : Z }.

Definition SW_BUF_SIZE : Z := 1024.

(** net/socket_writer.c:13-17 *)
Definition vtm_socket_writer_reset (sw : vtm_socket_writer) : vtm_socket_writer :=
  mk_writer [] VTM_OK.

Section Writer.
Context {OS SA : Type} (vt : vtm_socket_vtable OS SA).
Implicit Types (s : vtm_socket) (os : OS).

(** net/socket_writer.c:53-72 *)
Definition vtm_socket_writer_flush (sw : vtm_socket_writer) s os
    : option (Z * vtm_socket_writer * vtm_socket * OS) :=
  if negb (sw_lrc sw =? VTM_OK) then Some (sw_lrc sw, sw, s, os)
  else
    '(rc, written, s, os) ← vtm_socket_write vt (sw_buf sw) s os;
    if negb (rc =? VTM_OK) then Some (rc, mk_writer (sw_buf sw) rc, s, os)
    else if negb (written =? zlen (sw_buf sw)) then
      Some (VTM_E_IO_UNKNOWN, mk_writer (sw_buf sw) VTM_E_IO_UNKNOWN, s, os)
    else Some (VTM_OK, mk_writer [] VTM_OK, s, os).

(** net/socket_writer.c:74-80.  The caller stores the code in [lrc]. *)
Definition vtm_socket_writer_ensure_space (sw : vtm_socket_writer) (len : Z) s os
    : option (Z * vtm_socket_writer * vtm_socket * OS) :=
  '(rc, sw, s, os) ← (if SW_BUF_SIZE <=? zlen (sw_buf sw) +sz len
                      then vtm_socket_writer_flush sw s os else Some (VTM_OK, sw, s, os));
  Some (rc, mk_writer (sw_buf sw) rc, s, os).

(** net/socket_writer.c:19-32.  [None]: memcpy() writes behind the array. *)
Definition vtm_socket_writer_putm (sw : vtm_socket_writer) (src : bytes) s os
    : option (Z * vtm_socket_writer * vtm_socket * OS) :=
  if negb (sw_lrc sw =? VTM_OK) then Some (sw_lrc sw, sw, s, os)
  else
    '(rc, sw, s, os) ← vtm_socket_writer_ensure_space sw (zlen src) s os;
    if negb (rc =? VTM_OK) then Some (rc, sw, s, os)
    else if SW_BUF_SIZE <? zlen (sw_buf sw) + zlen src then None
    else Some (VTM_OK, mk_writer (sw_buf sw ++ src) VTM_OK, s, os).

(** net/socket_writer.c:34-37 *)
Definition vtm_socket_writer_puts (sw : vtm_socket_writer) (str : bytes) s os
    : option (Z * vtm_socket_writer * vtm_socket * OS) := vtm_socket_writer_putm sw str s os.

(** net/socket_writer.c:39-51 *)
Definition vtm_socket_writer_putc (sw : vtm_socket_writer) (c : Z) s os
    : option (Z * vtm_socket_writer * vtm_socket * OS) :=
  if negb (sw_lrc sw =? VTM_OK) then Some (sw_lrc sw, sw, s, os)
  else
    '(rc, sw, s, os) ← vtm_socket_writer_ensure_space sw 1 s os;
    if negb (rc =? VTM_OK) then Some (rc, sw, s, os)
    else if SW_BUF_SIZE <? zlen (sw_buf sw) + 1 then None
    else Some (VTM_OK, mk_writer (sw_buf sw ++ [c]) VTM_OK, s, os).
End Writer.

(** ** Lemmas: chains of memory *)

(** An emitter that sends memory, with the position inside. *)
Definition mem_emitter (se : vtm_socket_emitter) : Prop :=
  match se_emt se with
  | EmtRaw src pos | EmtBuf src pos _ =>
      se_length se = zlen src /\ 0 <= pos <= zlen src /\ zlen src <= SIZE_MAX
  | EmtFile _ _ _ _ => False
  end.

(** What is still to be sent. *)
Definition emt_pending (se : vtm_socket_emitter) : bytes :=
  match se_emt se with
  | EmtRaw src pos | EmtBuf src pos _ => zdrop pos src
  | EmtFile buf used written fp => ztake (used - written) (zdrop written buf) ++ f_rest fp
  end.

Definition chain_pending (chain : list vtm_socket_emitter) : bytes := concat (map emt_pending chain).

(** The emitter, apart from its position. *)
Definition emt_same (a b : vtm_socket_emitter) : Prop :=
  match se_emt a, se_emt b with
  | EmtRaw src _, EmtRaw src' _ => src = src'
  | EmtBuf src _ o, EmtBuf src' _ o' => src = src' /\ o = o'
  | EmtFile _ _ _ _, EmtFile _ _ _ _ => True
  | _, _ => False
  end.

Lemma zdrop_add {A} m n (l : list A) : 0 <= m -> 0 <= n -> zdrop n (zdrop m l) = zdrop (m + n) l.
Proof. intros. unfold zdrop. rewrite drop_drop. f_equal. lia. Qed.

Section Chains.
Context {OS SA : Type} (sys : sys_net OS) (sent : Z -> OS -> bytes) `{!SendLaws sys sent}.
Context (ok : bool) (rest : vtm_socket_vtable OS SA).
Abbreviation vt := (vtm_socket_plain_vtable sys ok rest).

(** Every call on an open socket leaves it open or closed by none but its
    owner: the flag is not touched. *)
Lemma write_loop_closed fuel src w s os r s' os' :
  plain_write_loop sys fuel src w s os = Some (r, s', os') ->
  VTM_SOCKET_IS_CLOSED s' = VTM_SOCKET_IS_CLOSED s.
Proof.
  revert src w os; induction fuel as [|fuel IH]; intros src w os;
    (destruct src; cbn [plain_write_loop]; [by intros [= <- <- <-]|]); [done|].
  destruct (sys_send sys (s_fd s) (z :: src) os) as [[n|err] os1]; [apply IH|].
  destruct (vtm_socket_util_error err s) as [s1 rc] eqn:E. intros [= <- <- <-].
  rewrite !is_closed_bit. unfold vtm_socket_util_error in E.
  destruct (vtm_socket_util_error_code err) as [st rc0] eqn:Ec. injection E as <- <-.
  assert (st = 0 \/ st = VTM_SOCK_STAT_ERR) as Hst.
  { unfold vtm_socket_util_error_code in Ec. repeat case_match; simplify_eq; auto. }
  destruct Hst as [->| ->]; change (0 <? 0) with false; change (0 <? VTM_SOCK_STAT_ERR) with true;
    destruct (rc0 =? VTM_E_IO_AGAIN); flag_bits;
    change (Z.testbit VTM_SOCK_STAT_ERR 1) with false;
    change (Z.testbit VTM_SOCK_STAT_WRITE_AGAIN 1) with false; by rewrite ?orb_false_r.
Qed.

Lemma socket_write_stays_open src s os rc n s' os' :
  VTM_SOCKET_IS_CLOSED s = false ->
  vtm_socket_write vt src s os = Some (rc, n, s', os') -> VTM_SOCKET_IS_CLOSED s' = false.
Proof.
  intros Hopen. unfold vtm_socket_write. rewrite Hopen. cbn [vt_write vtm_socket_plain_vtable].
  unfold vtm_socket_plain_write. set (s0 := vtm_socket_unset_state s _).
  destruct (plain_write_loop sys (length src) src 0 s0 os) as [[[[rc1 n1] s1] os1]|] eqn:E; [|done].
  cbn [mbind option_bind]. intros [= <- <- <- <-].
  apply write_loop_closed in E. rewrite !is_closed_bit in *.
  destruct (write_nbl_hints_bits s1) as (_ & _ & Hb & _). rewrite Hb, E by lia.
  unfold s0. flag_bits. by rewrite Hopen.
Qed.

(** The peer takes something of the next write. *)
Definition peer_ready (fd : Z) (os : OS) : Prop :=
  forall src, src <> [] -> exists k os', sys_send sys fd src os = (inl k, os').

Lemma socket_write_progress src s os rc n s' os' :
  VTM_SOCKET_IS_CLOSED s = false -> peer_ready (s_fd s) os ->
  vtm_socket_write vt src s os = Some (rc, n, s', os') ->
  if decide (src = []) then os' = os /\ s_fd s' = s_fd s else 0 < n.
Proof.
  intros Hopen Hpeer. unfold vtm_socket_write. rewrite Hopen.
  cbn [vt_write vtm_socket_plain_vtable]. set (s0 := vtm_socket_unset_state s _).
  unfold vtm_socket_plain_write. case_decide as Hsrc.
  - subst src. cbn [plain_write_loop length mbind option_bind]. intros [= <- <- <- <-].
    split; [done|]. by destruct (write_nbl_hints_bits s0) as (-> & _).
  - destruct (Hpeer src Hsrc) as (k & os1 & E). destruct src as [|c src]; [done|].
    change (s_fd s) with (s_fd s0) in E. destruct (send_some _ _ _ _ _ Hsrc E) as [Hk _].
    cbn [length plain_write_loop]. rewrite E.
    destruct (plain_write_loop_ok sys sent (length src) (zdrop k (c :: src)) (0 + k) s0 os1)
      as (rc1 & m & s1 & os2 & -> & Hm & _).
    { unfold zdrop. rewrite length_drop. cbn [length]. lia. }
    cbn [mbind option_bind]. intros [= <- <- <- <-]. lia.
Qed.

(** What one call of a memory emitter does. *)
Lemma mem_emitter_write se s os :
  mem_emitter se -> VTM_SOCKET_IS_CLOSED s = false ->
  exists r se' s' os' n, vtm_sock_emt_write vt se s os = Some (r, se', s', os') /\
    mem_emitter se' /\ emt_same se se' /\ VTM_SOCKET_IS_CLOSED s' = false /\
    s_fd s' = s_fd s /\ 0 <= n <= zlen (emt_pending se) /\
    sent (s_fd s) os' = sent (s_fd s) os ++ ztake n (emt_pending se) /\
    (peer_ready (s_fd s) os -> if decide (emt_pending se = []) then os' = os else 0 < n) /\
    match r with
    | VTM_SOCK_EMIT_COMPLETE => n = zlen (emt_pending se)
    | VTM_SOCK_EMIT_AGAIN => emt_pending se' = zdrop n (emt_pending se) /\ n < zlen (emt_pending se)
    | VTM_SOCK_EMIT_ERROR => emt_pending se' = emt_pending se /\ n < zlen (emt_pending se)
    end.
Proof.
  intros Hm Hopen. destruct se as [len e].
  assert (forall src pos,
    len = zlen src /\ 0 <= pos <= zlen src /\ zlen src <= SIZE_MAX ->
    exists r pos' s' os' n, vtm_socket_emitter_write_raw vt len src pos s os = Some (r, pos', s', os') /\
      0 <= pos' <= zlen src /\ VTM_SOCKET_IS_CLOSED s' = false /\ s_fd s' = s_fd s /\
      0 <= n <= zlen src - pos /\ sent (s_fd s) os' = sent (s_fd s) os ++ ztake n (zdrop pos src) /\
      (peer_ready (s_fd s) os -> if decide (zdrop pos src = []) then os' = os else 0 < n) /\
      match r with
      | VTM_SOCK_EMIT_COMPLETE => n = zlen src - pos
      | VTM_SOCK_EMIT_AGAIN => pos' = pos + n /\ n < zlen src - pos
      | VTM_SOCK_EMIT_ERROR => pos' = pos /\ n < zlen src - pos
      end) as Hraw.
  { intros src pos (-> & Hp & Hmax). unfold vtm_socket_emitter_write_raw.
    assert (u64 (zlen src - pos) = zlen src - pos) as -> by (apply wrap_small; zlia).
    rewrite decide_True by lia. rewrite ztake_all by (rewrite zlen_zdrop; lia).
    destruct (plain_socket_write_ok sys sent ok rest (zdrop pos src) s os _ Hopen)
      as (rc & n & s' & os' & E & Hn & Hs & Hrc & Hfd & _). rewrite E. cbn [mbind option_bind].
    rewrite zlen_zdrop in Hn, Hrc by lia.
    assert (u64 (pos + n) = pos + n) as -> by (apply wrap_small; zlia).
    pose proof (socket_write_stays_open _ _ _ _ _ _ _ Hopen E) as Ho.
    assert (peer_ready (s_fd s) os -> if decide (zdrop pos src = []) then os' = os else 0 < n) as Hpr.
    { intros Hpeer. pose proof (socket_write_progress _ _ _ _ _ _ _ Hopen Hpeer E) as Hw.
      case_decide; tauto. }
    destruct (rc =? VTM_E_IO_AGAIN) eqn:Ea; bsplit.
    - eexists _, _, s', os', n. split; [done|]. repeat (split; [done || lia|]).
      rewrite Ea in Hrc. destruct (decide (n = zlen src - pos)) as [Hx|]; [|lia]. apply Hrc in Hx. done.
    - destruct (rc =? VTM_OK) eqn:Eo; bsplit; cbn [andb].
      + rewrite (proj2 (Z.eqb_eq _ _)) by (apply proj1 in Hrc; specialize (Hrc Eo); lia).
        eexists _, _, s', os', n. split; [done|]. repeat (split; [done || lia|]). tauto.
      + eexists _, _, s', os', n. split; [done|]. repeat (split; [done || lia|]).
        destruct (decide (n = zlen src - pos)) as [Hx|]; [|lia]. by apply Hrc in Hx. }
  destruct e as [src pos|src pos o|]; [| |done]; unfold vtm_sock_emt_write; cbn [se_emt se_length];
    unfold mem_emitter in Hm; cbn in Hm;
    destruct (Hraw src pos Hm) as (r & pos' & s' & os' & n & -> & Hp' & Ho & Hfd & Hn & Hs & Hpr & Hr);
    cbn [mbind option_bind]; eexists r, _, s', os', n; (split; [done|]);
    unfold emt_pending; cbn [se_emt]; rewrite zlen_zdrop by lia;
    (split; [unfold mem_emitter; cbn; tauto|]); (split; [done|]); (split; [done|]); (split; [done|]);
    (split; [done|]); (split; [done|]); (split; [done|]); destruct r; try done;
    destruct Hr as [-> ?]; split; try done; rewrite zdrop_add; done || lia.
Qed.

(** What one call of the chain does. *)
Definition chain_answer (chain chain' freed : list vtm_socket_emitter) (rc : Z) : Prop :=
  (rc = VTM_OK /\ chain' = [] \/ rc <> VTM_OK /\ chain' <> []) /\
  Forall2 emt_same chain (freed ++ chain').

Lemma chain_try_write chain s os :
  chain <> [] -> Forall mem_emitter chain -> VTM_SOCKET_IS_CLOSED s = false ->
  exists rc chain' freed s' os' n,
    vtm_socket_emitter_try_write vt chain s os = Some (rc, chain', freed, s', os') /\
    chain_answer chain chain' freed rc /\ Forall mem_emitter chain' /\
    VTM_SOCKET_IS_CLOSED s' = false /\ s_fd s' = s_fd s /\
    sent (s_fd s) os' = sent (s_fd s) os ++ ztake n (chain_pending chain) /\
    (rc = VTM_OK -> n = zlen (chain_pending chain)) /\
    (rc = VTM_E_IO_AGAIN ->
     chain_pending chain' = zdrop n (chain_pending chain) /\ 0 <= n < zlen (chain_pending chain)) /\
    (rc <> VTM_OK -> rc <> VTM_E_IO_AGAIN ->
     rc = VTM_ERROR /\ 0 <= n < zlen (chain_pending chain)).
Proof.
  intros Hne Hall; revert s os; induction Hall as [|se next Hse Hall IH]; intros s os Hopen; [done|].
  clear Hne. cbn [vtm_socket_emitter_try_write].
  destruct (mem_emitter_write se s os Hse Hopen)
    as (r & se' & s1 & os1 & n & -> & Hse' & Hsame & Ho1 & Hfd1 & Hn & Hs1 & _ & Hr).
  cbn [mbind option_bind].
  assert (Forall2 emt_same next next) as Hrefl.
  { clear. induction next as [|x l IHl]; constructor; [|done]. unfold emt_same. by destruct (se_emt x). }
  assert (chain_pending (se :: next) = emt_pending se ++ chain_pending next) as Ep by done.
  assert (zlen (emt_pending se ++ chain_pending next)
          = zlen (emt_pending se) + zlen (chain_pending next)) as El.
  { unfold zlen. rewrite length_app. lia. }
  assert (0 <= zlen (chain_pending next)) as Hpos by (unfold zlen; lia).
  assert (forall k, k <= zlen (emt_pending se) ->
    ztake k (emt_pending se ++ chain_pending next) = ztake k (emt_pending se)) as Htk.
  { intros k Hk. unfold ztake, zlen in *. apply take_app_le. lia. }
  destruct r.
  - (* the peer is full *)
    exists VTM_E_IO_AGAIN, (se' :: next), [], s1, os1, n. destruct Hr as [Hp Hlt].
    split; [done|]. split; [split; [right; done|by constructor]|]. split; [by constructor|].
    split; [done|]. split; [done|]. rewrite Ep, Htk by lia. split; [done|]. split; [done|].
    split; [|done]. intros _. rewrite El. change (chain_pending (se' :: next))
      with (emt_pending se' ++ chain_pending next).
    rewrite Hp. unfold zdrop at 2. rewrite drop_app_le by (unfold zlen in Hn; lia).
    split; [done|lia].
  - destruct next as [|nx next].
    + exists VTM_OK, [], [se'], s1, os1, n. split; [done|].
      split; [split; [by left|by repeat constructor]|]. split; [done|]. split; [done|].
      split; [done|]. rewrite Ep, Htk by lia. cbn [chain_pending map concat]. rewrite app_nil_r.
      split; [done|]. split; [done|]. split; done.
    + destruct (IH ltac:(done) s1 os1 Ho1)
        as (rc & chain' & freed & s2 & os2 & m & E2 & Ha & Hm & Ho2 & Hfd2 & Hs2 & Hok & Hag & Her).
      rewrite E2. cbn [mbind option_bind].
      exists rc, chain', (se' :: freed), s2, os2.
      assert (forall m, 0 <= m -> ztake (n + m) (emt_pending se ++ chain_pending (nx :: next))
        = emt_pending se ++ ztake m (chain_pending (nx :: next))) as Htk2.
      { intros m' Hm'. unfold ztake. rewrite take_app. f_equal; [|f_equal]; [apply take_ge|];
          unfold zlen in *; lia. }
      assert (0 <= m) as Hm0.
      { destruct (decide (rc = VTM_OK)) as [Hx|]; [rewrite (Hok Hx); unfold zlen; lia|].
        destruct (decide (rc = VTM_E_IO_AGAIN)) as [Hx|]; [destruct (Hag Hx); lia|].
        destruct Her as [_ Her]; [done|done|lia]. }
      exists (n + m). split; [done|]. destruct Ha as [Ha1 Ha2].
      split; [split; [done|by constructor]|]. split; [done|]. split; [done|].
      split; [congruence|]. rewrite Ep, Htk2 by done. rewrite El.
      split; [|split; [|split]].
      * rewrite Hfd1 in Hs2. rewrite Hs2, Hs1, <- app_assoc. do 2 f_equal.
        apply ztake_all. lia.
      * intros Hx. rewrite (Hok Hx). lia.
      * intros Hx. destruct (Hag Hx) as [-> Hlt]. split; [|lia].
        unfold zdrop. rewrite drop_app. rewrite (drop_ge (emt_pending se)) by (unfold zlen in *; lia).
        cbn [app]. f_equal. unfold zlen in *. lia.
      * intros Hx Hy. destruct (Her Hx Hy) as [-> ?]. split; [done|lia].
  - exists VTM_ERROR, (se' :: next), [], s1, os1, n. destruct Hr as [Hp Hlt].
    split; [done|]. split; [split; [right; done|by constructor]|]. split; [by constructor|].
    split; [done|]. split; [done|]. rewrite Ep, Htk by lia. split; [done|]. split; [done|].
    split; [done|]. intros. split; [done|]. rewrite El. lia.
Qed.

(** A call of a ready peer sends something, if there is anything to send. *)
Lemma chain_progress chain s os rc chain' freed s' os' :
  Forall mem_emitter chain -> VTM_SOCKET_IS_CLOSED s = false -> peer_ready (s_fd s) os ->
  vtm_socket_emitter_try_write vt chain s os = Some (rc, chain', freed, s', os') ->
  chain_pending chain <> [] -> zlen (sent (s_fd s) os) < zlen (sent (s_fd s) os').
Proof.
  intros Hall; revert s os rc chain' freed s' os'.
  induction Hall as [|se next Hse Hall IH]; intros s os rc chain' freed s' os' Hopen Hpeer; [done|].
  cbn [vtm_socket_emitter_try_write].
  destruct (mem_emitter_write se s os Hse Hopen)
    as (r & se' & s1 & os1 & n & -> & Hse' & _ & Ho1 & Hfd1 & Hn & Hs1 & Hpr & Hr).
  cbn [mbind option_bind]. specialize (Hpr Hpeer).
  change (chain_pending (se :: next)) with (emt_pending se ++ chain_pending next).
  case_decide as Hnil.
  - subst os1. rewrite Hnil in *. cbn [app]. intros E Hne.
    destruct r; [unfold zlen in *; cbn in *; lia| |unfold zlen in *; cbn in *; lia].
    destruct next as [|nx next]; [done|].
    destruct (vtm_socket_emitter_try_write vt (nx :: next) s1 os) as [[[[[? ?] ?] ?] ?]|] eqn:E2; [|done].
    cbn [mbind option_bind] in E. injection E as <- <- <- <- <-. rewrite <- Hfd1 in *. by eapply IH.
  - intros E _.
    enough (exists l, sent (s_fd s) os' = sent (s_fd s) os1 ++ l) as (l & ->).
    { rewrite Hs1. unfold zlen, ztake in *. rewrite !length_app, length_take. lia. }
    destruct r; [by simplify_eq; exists []; rewrite app_nil_r| |
      by simplify_eq; exists []; rewrite app_nil_r].
    destruct next as [|nx next]; [by simplify_eq; exists []; rewrite app_nil_r|].
    destruct (chain_try_write (nx :: next) s1 os1)
      as (rc2 & c2 & f2 & s2 & os2 & m & E2 & _ & _ & _ & _ & Hs2 & _); [done|done|done|].
    rewrite E2 in E. cbn [mbind option_bind] in E. injection E as <- <- <- <- <-.
    rewrite Hfd1 in Hs2. eexists. exact Hs2.
Qed.

Lemma emt_same_trans a b c : emt_same a b -> emt_same b c -> emt_same a c.
Proof.
  unfold emt_same. destruct (se_emt a), (se_emt b), (se_emt c); naive_solver congruence.
Qed.

Lemma forall2_emt_same_trans l1 l2 l3 :
  Forall2 emt_same l1 l2 -> Forall2 emt_same l2 l3 -> Forall2 emt_same l1 l3.
Proof.
  intros H. revert l3. induction H; intros l3 H'; inversion H'; subst; constructor;
    eauto using emt_same_trans.
Qed.

Lemma forall2_emt_same_refl l : Forall2 emt_same l l.
Proof. induction l as [|x l IH]; constructor; [|done]. unfold emt_same. by destruct (se_emt x). Qed.

Lemma zdrop_zdrop_split {A} m n (l : list A) :
  0 <= m -> 0 <= n -> m <= zlen l -> ztake m l ++ ztake n (zdrop m l) = ztake (m + n) l.
Proof.
  intros. unfold ztake, zdrop, zlen in *. rewrite Z2Nat.inj_add by lia.
  by rewrite take_take_drop.
Qed.

(** Repeated calls; the system [env] leaves what was sent alone. *)
Lemma emit_retry_ok (env : OS -> OS) n chain s os :
  (forall fd os, sent fd (env os) = sent fd os) ->
  chain <> [] -> Forall mem_emitter chain -> VTM_SOCKET_IS_CLOSED s = false ->
  exists rc chain' freed s' os' m,
    emit_retry vt env n chain s os = Some (rc, chain', freed, s', os') /\
    chain_answer chain chain' freed rc /\ 0 <= m <= zlen (chain_pending chain) /\
    sent (s_fd s) os' = sent (s_fd s) os ++ ztake m (chain_pending chain) /\
    (rc = VTM_OK -> m = zlen (chain_pending chain)) /\
    (rc = VTM_E_IO_AGAIN -> chain_pending chain' = zdrop m (chain_pending chain)) /\
    ((forall os, peer_ready (s_fd s) (env os)) -> zlen (chain_pending chain) <= Z.of_nat n ->
     rc <> VTM_E_IO_AGAIN).
Proof.
  intros Henv. revert chain s os; induction n as [|n IH]; intros chain s os Hne Hall Hopen;
    destruct (chain_try_write chain s (env os) Hne Hall Hopen)
      as (rc & c1 & f1 & s1 & os1 & m & E1 & Ha & Hm1 & Ho1 & Hfd1 & Hs1 & Hok & Hag & Her);
    cbn [emit_retry]; rewrite E1; cbn [mbind option_bind]; rewrite Henv in Hs1.
  - assert (0 <= m <= zlen (chain_pending chain)) as Hm.
    { destruct (decide (rc = VTM_OK)); [rewrite Hok by done; unfold zlen; lia|].
      destruct (decide (rc = VTM_E_IO_AGAIN)); [destruct Hag; [done|lia]|].
      destruct Her; [done|done|lia]. }
    exists rc, c1, f1, s1, os1, m. split; [by destruct (rc =? VTM_E_IO_AGAIN)|].
    split; [done|]. split; [done|]. split; [done|]. split; [done|].
    split; [intros; by destruct Hag|]. intros _ Hle Hx. destruct (Hag Hx). lia.
  - destruct (rc =? VTM_E_IO_AGAIN) eqn:Ea; bsplit.
    + destruct (Hag Ea) as [Hp Hm]. destruct Ha as [[[-> _]|[_ Hne1]] Hf1]; [done|].
      destruct (IH c1 s1 os1 Hne1 Hm1 Ho1)
        as (rc2 & c2 & f2 & s2 & os2 & m2 & -> & [Ha2 Hf2] & Hm2 & Hs2 & Hok2 & Hag2 & Hlive).
      cbn [mbind option_bind]. rewrite Hp in *. rewrite Hfd1 in *.
      rewrite zlen_zdrop in * by lia.
      exists rc2, c2, (f1 ++ f2), s2, os2, (m + m2). split; [done|]. split.
      { split; [done|]. rewrite <- app_assoc. eapply forall2_emt_same_trans; [exact Hf1|].
        apply Forall2_app; [apply forall2_emt_same_refl|done]. }
      split; [lia|]. split.
      { rewrite Hs2, Hs1, <- app_assoc. by rewrite zdrop_zdrop_split by lia. }
      split; [intros Hx; rewrite Hok2 by done; lia|].
      split; [intros Hx; rewrite Hag2 by done; apply zdrop_add; lia|].
      intros Hr Hle. apply Hlive; [done|].
      assert (chain_pending chain <> []) as Hnil.
      { intros Hx. rewrite Hx in Hm. unfold zlen in Hm. cbn in Hm. lia. }
      pose proof (chain_progress _ _ _ _ _ _ _ _ Hall Hopen (Hr os) E1 Hnil) as Hpr.
      rewrite Henv, Hs1 in Hpr. unfold zlen, ztake in *. rewrite length_app, length_take in Hpr. lia.
    + assert (0 <= m <= zlen (chain_pending chain)) as Hm.
      { destruct (decide (rc = VTM_OK)); [rewrite Hok by done; unfold zlen; lia|].
        destruct Her; [done|done|lia]. }
      exists rc, c1, f1, s1, os1, m. by repeat (split; [done|]).
Qed.
End Chains.

(** ** Lemmas: files *)

Lemma fread_rest n fp :
  0 < n -> c_fread n fp
  = (ztake n (f_rest fp),
     mk_file (f_data fp) (f_pos fp + zlen (ztake n (f_rest fp)))
       (f_eof fp || (zlen (ztake n (f_rest fp)) <? n))).
Proof. intros. unfold c_fread. by rewrite (proj2 (Z.eqb_neq _ _)) by lia. Qed.

Lemma f_rest_advance d p n e :
  0 <= p -> 0 <= n -> f_rest (mk_file d (p + n) e) = zdrop n (f_rest (mk_file d p e)).
Proof. intros. unfold f_rest. cbn [f_pos f_data]. by rewrite zdrop_add. Qed.

Lemma zlen_ztake_min {A} n (l : list A) : 0 <= n -> zlen (ztake n l) = Z.min n (zlen l).
Proof. intros. unfold zlen, ztake. rewrite length_take. lia. Qed.

Lemma splice_at_zero (src dst : bytes) :
  zlen src <= zlen dst -> ztake (zlen src) (splice 0 src dst) = src.
Proof.
  intros. unfold splice, ztake, zlen in *. rewrite take_0. cbn [app].
  by rewrite Nat2Z.id, take_app_length.
Qed.

(** What is sent before the loop gets to the end of the file, or is told that
    the peer is full.  The first round of a new emitter. *)
Section FileRound.
Context {OS SA : Type} (vt : vtm_socket_vtable OS SA).

Lemma file_first_round fuel buf fp s os rc w s' os' :
  let l := ztake VTM_EMT_FILE_BUF_SIZE (f_rest fp) in
  zlen buf = VTM_EMT_FILE_BUF_SIZE -> l <> [] ->
  vtm_socket_write vt l s os = Some (rc, w, s', os') -> 0 <= w <= zlen l ->
  rc = VTM_OK \/ rc = VTM_E_IO_AGAIN ->
  exists buf', zlen buf' = VTM_EMT_FILE_BUF_SIZE /\
    let fp' := mk_file (f_data fp) (f_pos fp + zlen l)
                 (f_eof fp || (zlen l <? VTM_EMT_FILE_BUF_SIZE)) in
    vtm_socket_emitter_write_file vt (S fuel) buf 0 0 fp s os =
    if rc =? VTM_E_IO_AGAIN
    then Some (VTM_SOCK_EMIT_AGAIN, EmtFile buf' (VTM_EMT_FILE_BUF_SIZE - w) 0 fp', s', os')
    else vtm_socket_emitter_write_file vt fuel buf' (VTM_EMT_FILE_BUF_SIZE - w) 0 fp' s' os'.
Proof.
  intros l Hbuf Hl Hw Hn Hrc.
  assert (0 < zlen l) as Hl0 by (destruct l; [done|unfold zlen; cbn; lia]).
  assert (zlen l <= VTM_EMT_FILE_BUF_SIZE) as Hl1.
  { unfold l. rewrite zlen_ztake_min by (unfold VTM_EMT_FILE_BUF_SIZE; lia). lia. }
  cbn [vtm_socket_emitter_write_file]. rewrite Z.sub_0_r, fread_rest by (unfold VTM_EMT_FILE_BUF_SIZE; lia).
  fold l. rewrite (proj2 (Z.leb_gt _ _)) by lia.
  assert (u64 (0 + zlen l) = zlen l) as ->
    by (apply wrap_small; unfold VTM_EMT_FILE_BUF_SIZE in *; lia).
  rewrite Z.sub_0_r. change (zdrop 0 (splice 0 l buf)) with (splice 0 l buf).
  rewrite splice_at_zero by lia. rewrite Hw. cbn [mbind option_bind].
  assert (((rc =? VTM_OK) || (rc =? VTM_E_IO_AGAIN))%bool = true) as ->
    by (destruct Hrc as [->| ->]; done).
  cbn [negb]. rewrite Z.add_0_l.
  assert (u64 (VTM_EMT_FILE_BUF_SIZE - w) = VTM_EMT_FILE_BUF_SIZE - w) as ->
    by (apply wrap_small; unfold VTM_EMT_FILE_BUF_SIZE in *; lia).
  eexists. split; [|by destruct (rc =? VTM_E_IO_AGAIN)].
  destruct (0 <? VTM_EMT_FILE_BUF_SIZE - w); rewrite ?zlen_splice; rewrite ?zlen_ztake_min, ?zlen_zdrop;
    rewrite ?zlen_splice; lia.
Qed.

(** A round that finds nothing to read. *)
Lemma file_last_round fuel buf used fp s os :
  f_rest fp = [] -> used <= VTM_EMT_FILE_BUF_SIZE ->
  (used < VTM_EMT_FILE_BUF_SIZE \/ f_eof fp = true) ->
  exists e, vtm_socket_emitter_write_file vt (S fuel) buf used 0 fp s os
            = Some (VTM_SOCK_EMIT_COMPLETE, e, s, os).
Proof.
  intros Hr Hu He. cbn [vtm_socket_emitter_write_file].
  destruct (decide (used = VTM_EMT_FILE_BUF_SIZE)) as [->|Hne].
  - rewrite Z.sub_diag. cbn. destruct He as [?|He]; [lia|]. rewrite He. by eexists.
  - rewrite fread_rest by lia. rewrite Hr. unfold ztake. rewrite take_nil.
    change (zlen (@nil Z)) with 0. rewrite (proj2 (Z.ltb_lt 0 (VTM_EMT_FILE_BUF_SIZE - used))) by lia.
    rewrite orb_true_r. by eexists.
Qed.
End FileRound.

Section FileAll.
Context {OS SA : Type} (sys : sys_net OS) (sent : Z -> OS -> bytes) `{!SendLaws sys sent}.
Context (ok : bool) (rest : vtm_socket_vtable OS SA).
Context (Hall : forall fd src os, src <> [] ->
  exists os', sys_send sys fd src os = (inl (zlen src), os')).
Abbreviation vt := (vtm_socket_plain_vtable sys ok rest).

Lemma socket_write_all src s os :
  VTM_SOCKET_IS_CLOSED s = false -> src <> [] ->
  exists s' os', vtm_socket_write vt src s os = Some (VTM_OK, zlen src, s', os') /\
    VTM_SOCKET_IS_CLOSED s' = false /\ s_fd s' = s_fd s /\
    sent (s_fd s) os' = sent (s_fd s) os ++ src.
Proof.
  intros Hopen Hsrc. destruct (plain_socket_write_ok sys sent ok rest src s os _ Hopen)
    as (rc & n & s' & os' & E & Hn & Hs & Hrc & Hfd & _).
  pose proof (socket_write_stays_open sys ok rest _ _ _ _ _ _ _ Hopen E) as Ho.
  enough (n = zlen src) as ->.
  { rewrite (proj2 Hrc eq_refl) in E. exists s', os'. split; [done|]. split; [done|]. split; [done|].
    by rewrite ztake_all in Hs by lia. }
  revert E. unfold vtm_socket_write. rewrite Hopen. cbn [vt_write vtm_socket_plain_vtable].
  unfold vtm_socket_plain_write. set (s0 := vtm_socket_unset_state s _).
  destruct (Hall (s_fd s0) src os Hsrc) as (os1 & E1). destruct src as [|c src]; [done|].
  cbn [length plain_write_loop]. rewrite E1, zdrop_all by done.
  assert (forall f w, plain_write_loop sys f [] w s0 os1 = Some (VTM_OK, w, s0, os1)) as Hnil
    by (intros []; done).
  rewrite Hnil. cbn [mbind option_bind]. by intros [= <- <- <- <-].
Qed.

Lemma file_send_loop fuel buf fp s os :
  (length (f_rest fp) < fuel)%nat -> 0 <= f_pos fp -> zlen buf = VTM_EMT_FILE_BUF_SIZE ->
  VTM_SOCKET_IS_CLOSED s = false ->
  exists e s' os', vtm_socket_emitter_write_file vt fuel buf 0 0 fp s os
      = Some (VTM_SOCK_EMIT_COMPLETE, e, s', os') /\
    sent (s_fd s) os' = sent (s_fd s) os ++ f_rest fp.
Proof.
  revert buf fp s os; induction fuel as [|fuel IH]; intros buf fp s os Hf Hp Hb Hopen; [lia|].
  destruct (decide (f_rest fp = [])) as [Hr|Hr].
  { destruct (file_last_round vt fuel buf 0 fp s os) as (e & ->);
      [done|unfold VTM_EMT_FILE_BUF_SIZE; lia|left; unfold VTM_EMT_FILE_BUF_SIZE; lia|].
    exists e, s, os. split; [done|]. by rewrite Hr, app_nil_r. }
  set (l := ztake VTM_EMT_FILE_BUF_SIZE (f_rest fp)).
  assert (0 < zlen (f_rest fp)) as Hr0 by (destruct (f_rest fp); [done|unfold zlen; cbn; lia]).
  assert (zlen l = Z.min VTM_EMT_FILE_BUF_SIZE (zlen (f_rest fp))) as Hl
    by (apply zlen_ztake_min; unfold VTM_EMT_FILE_BUF_SIZE; lia).
  assert (l <> []) as Hne.
  { intros E. rewrite E in Hl. change (zlen (@nil Z)) with 0 in Hl.
    unfold VTM_EMT_FILE_BUF_SIZE in Hl. lia. }
  destruct (socket_write_all l s os Hopen Hne) as (s1 & os1 & Ew & Ho1 & Hfd1 & Hs1).
  destruct (file_first_round vt fuel buf fp s os VTM_OK (zlen l) s1 os1 Hb Hne Ew)
    as (buf' & Hb' & ->); [fold l; unfold zlen; lia|by left|].
  change (VTM_OK =? VTM_E_IO_AGAIN) with false. cbv iota. fold l.
  set (fp' := mk_file _ _ _).
  assert (f_rest fp' = zdrop (zlen l) (f_rest fp)) as Hr'.
  { unfold fp'. rewrite f_rest_advance by (unfold zlen; lia). done. }
  assert (zlen (f_rest fp') = zlen (f_rest fp) - zlen l) as Hl'
    by (rewrite Hr'; apply zlen_zdrop; unfold zlen, VTM_EMT_FILE_BUF_SIZE in *; lia).
  destruct (decide (zlen l = VTM_EMT_FILE_BUF_SIZE)) as [Hfull|Hpart].
  - rewrite Hfull, Z.sub_diag.
    destruct (IH buf' fp' s1 os1) as (e & s2 & os2 & E & Hs2); try done.
    + unfold zlen, VTM_EMT_FILE_BUF_SIZE in *. lia.
    + unfold fp'. cbn [f_pos]. unfold zlen. lia.
    + exists e, s2, os2. split; [exact E|]. rewrite Hfd1 in Hs2. rewrite Hs2, Hs1, Hr', Hfull, <- app_assoc.
      f_equal. apply ztake_zdrop.
  - assert (f_rest fp' = []) as Hnil.
    { apply length_zero_iff_nil. unfold zlen in *. lia. }
    assert (l = f_rest fp) as Hall_l by (apply ztake_all; unfold zlen in *; lia).
    destruct fuel as [|fuel]; [unfold zlen in *; lia|].
    destruct (file_last_round vt fuel buf' (VTM_EMT_FILE_BUF_SIZE - zlen l) fp' s1 os1) as (e & ->);
      [done|unfold zlen; lia|left; unfold zlen, VTM_EMT_FILE_BUF_SIZE in *; lia|].
    exists e, s1, os1. split; [done|]. by rewrite Hs1, <- Hall_l.
Qed.
End FileAll.

(** ** Lemmas: the writer *)

(** A client that writes the pieces and flushes, and looks at the last code. *)
Fixpoint writer_puts {OS SA} (vt : vtm_socket_vtable OS SA) (pieces : list bytes)
    (sw : vtm_socket_writer) (s : vtm_socket) (os : OS)
    : option (vtm_socket_writer * vtm_socket * OS) :=
  match pieces with
  | [] => '(_, sw, s, os) ← vtm_socket_writer_flush vt sw s os; Some (sw, s, os)
  | p :: pieces' =>
      '(_, sw, s, os) ← vtm_socket_writer_putm vt sw p s os; writer_puts vt pieces' sw s os
  end.

Section WriterLemmas.
Context {OS SA : Type} (sys : sys_net OS) (sent : Z -> OS -> bytes) `{!SendLaws sys sent}.
Context (ok : bool) (rest : vtm_socket_vtable OS SA).
Abbreviation vt := (vtm_socket_plain_vtable sys ok rest).

Lemma writer_flush_ok sw s os :
  sw_lrc sw = VTM_OK -> VTM_SOCKET_IS_CLOSED s = false ->
  exists rc sw' s' os', vtm_socket_writer_flush vt sw s os = Some (rc, sw', s', os') /\
    sw_lrc sw' = rc /\ VTM_SOCKET_IS_CLOSED s' = false /\ s_fd s' = s_fd s /\
    (rc = VTM_OK -> sw_buf sw' = [] /\ sent (s_fd s) os' = sent (s_fd s) os ++ sw_buf sw) /\
    (rc <> VTM_OK -> sw_buf sw' = sw_buf sw /\
     sent (s_fd s) os' `prefix_of` sent (s_fd s) os ++ sw_buf sw).
Proof.
  intros Hl Hopen. unfold vtm_socket_writer_flush. rewrite Hl. cbn [Z.eqb VTM_OK negb].
  destruct (plain_socket_write_ok sys sent ok rest (sw_buf sw) s os _ Hopen)
    as (rc & n & s' & os' & E & Hn & Hs & Hrc & Hfd & _).
  pose proof (socket_write_stays_open sys ok rest _ _ _ _ _ _ _ Hopen E) as Ho.
  rewrite E. cbn [mbind option_bind]. destruct (rc =? VTM_OK) eqn:Eo; bsplit; cbn [negb].
  - apply proj1 in Hrc. specialize (Hrc Eo). rewrite Hrc, Z.eqb_refl. cbn [negb].
    eexists _, _, s', os'. split; [done|]. repeat (split; [done|]). split; [|done].
    intros _. split; [done|]. rewrite Hs, Hrc, ztake_all by lia. done.
  - eexists _, _, s', os'. split; [done|]. do 4 (split; [done|]).
    intros _. split; [done|]. rewrite Hs. apply prefix_app. exists (zdrop n (sw_buf sw)); by
      rewrite ztake_zdrop.
Qed.

Lemma writer_putm_ok sw src s os :
  sw_lrc sw = VTM_OK -> zlen src <= SW_BUF_SIZE -> zlen (sw_buf sw) <= SW_BUF_SIZE ->
  VTM_SOCKET_IS_CLOSED s = false ->
  exists rc sw' s' os', vtm_socket_writer_putm vt sw src s os = Some (rc, sw', s', os') /\
    sw_lrc sw' = rc /\ zlen (sw_buf sw') <= SW_BUF_SIZE /\
    VTM_SOCKET_IS_CLOSED s' = false /\ s_fd s' = s_fd s /\
    (rc = VTM_OK ->
     sent (s_fd s) os' ++ sw_buf sw' = sent (s_fd s) os ++ sw_buf sw ++ src) /\
    (rc <> VTM_OK ->
     sent (s_fd s) os' `prefix_of` sent (s_fd s) os ++ sw_buf sw).
Proof.
  intros Hl Hlen Hbuf Hopen. unfold vtm_socket_writer_putm, vtm_socket_writer_ensure_space.
  rewrite Hl. cbn [Z.eqb VTM_OK negb].
  assert (u64 (zlen (sw_buf sw) + zlen src) = zlen (sw_buf sw) + zlen src) as ->.
  { apply wrap_small. unfold zlen, SW_BUF_SIZE in *. lia. }
  destruct (SW_BUF_SIZE <=? zlen (sw_buf sw) + zlen src) eqn:Ef; bsplit.
  - destruct (writer_flush_ok sw s os Hl Hopen)
      as (rc & sw' & s' & os' & -> & Hl' & Ho & Hfd & Hok & Hno). cbn [mbind option_bind].
    destruct (rc =? VTM_OK) eqn:Er; bsplit; cbn [negb].
    + destruct (Hok Er) as [-> Hs]. cbn [sw_buf]. rewrite (proj2 (Z.ltb_ge _ _)) by (unfold zlen; cbn [length]; unfold zlen in Hlen; lia).
      eexists _, _, s', os'. split; [done|]. repeat (split; [done|]). split; [|done].
      intros _. cbn. by rewrite Hs, <- app_assoc.
    + destruct (Hno Er) as [-> Hs]. eexists _, _, s', os'. split; [done|].
      cbn [sw_lrc sw_buf]. by repeat (split; [done|]).
  - cbn [mbind option_bind negb Z.eqb VTM_OK sw_buf].
    rewrite (proj2 (Z.ltb_ge _ _)) by lia. eexists _, _, s, os. split; [done|].
    cbn [sw_lrc sw_buf]. split; [done|]. split; [|by repeat (split; [done|])].
    unfold zlen in *. rewrite length_app. lia.
Qed.

Lemma writer_puts_ok pieces all sw s os :
  (sw_lrc sw = VTM_OK /\ sent (s_fd s) os ++ sw_buf sw = all \/
   sw_lrc sw <> VTM_OK /\ sent (s_fd s) os `prefix_of` all) ->
  Forall (fun p => zlen p <= SW_BUF_SIZE) pieces -> zlen (sw_buf sw) <= SW_BUF_SIZE ->
  VTM_SOCKET_IS_CLOSED s = false ->
  exists sw' s' os', writer_puts vt pieces sw s os = Some (sw', s', os') /\
    sent (s_fd s) os' `prefix_of` all ++ concat pieces /\
    (sw_lrc sw' = VTM_OK -> sent (s_fd s) os' = all ++ concat pieces).
Proof.
  intros Hinv Hp; revert all sw s os Hinv.
  induction Hp as [|p pieces Hp1 Hp IH]; intros all sw s os Hinv Hbuf Hopen; cbn [writer_puts concat];
    destruct Hinv as [[Hl Hs]|[Hl Hs]].
  - rewrite app_nil_r. destruct (writer_flush_ok sw s os Hl Hopen)
      as (rc & sw' & s' & os' & -> & Hl' & Ho & Hfd & Hok & Hno). cbn [mbind option_bind].
    exists sw', s', os'. split; [done|]. rewrite Hl'. destruct (decide (rc = VTM_OK)) as [Er|Er].
    + destruct (Hok Er) as [_ ->]. by rewrite Hs.
    + destruct (Hno Er) as [_ Hm]. by rewrite Hs in Hm.
  - rewrite app_nil_r. unfold vtm_socket_writer_flush. rewrite (proj2 (Z.eqb_neq _ _)) by done.
    cbn [negb mbind option_bind]. exists sw, s, os. by split.
  - destruct (writer_putm_ok sw p s os Hl Hp1 Hbuf Hopen)
      as (rc & sw' & s' & os' & -> & Hl' & Hb' & Ho & Hfd & Hok & Hno). cbn [mbind option_bind].
    destruct (IH (all ++ p) sw' s' os') as (sw2 & s2 & os2 & E & Hpre & Hlast); try done.
    + rewrite Hfd. destruct (decide (rc = VTM_OK)) as [Er|Er]; [left|right]; (split; [congruence|]).
      * by rewrite Hok, <- Hs, <- app_assoc.
      * specialize (Hno Er). rewrite Hs in Hno. by apply prefix_app_r.
    + exists sw2, s2, os2. rewrite Hfd, <- app_assoc in *. done.
  - unfold vtm_socket_writer_putm. rewrite (proj2 (Z.eqb_neq _ _)) by done.
    cbn [negb mbind option_bind].
    destruct (IH (all ++ p) sw s os) as (sw2 & s2 & os2 & E & Hpre & Hlast); try done.
    + right. split; [done|]. by apply prefix_app_r.
    + exists sw2, s2, os2. rewrite <- app_assoc in *. done.
Qed.
End WriterLemmas.

(** ** Theorems *)

(** C40: a chain of emitters for memory and buffers (net/socket_emitter.c,
    vtm_socket_emitter_try_write) survives interruption at any byte: however
    often the peer is full and the call is repeated, what was sent is a prefix
    of the concatenated contents in the order of the chain, the chain that is
    left holds exactly the rest, every finished emitter is released once and
    none of the others, and VTM_OK means that everything was sent. *)
Theorem emitter_chain_resumes {OS SA} (sys : sys_net OS) (sent : Z -> OS -> bytes) ok
    (rest : vtm_socket_vtable OS SA) env n chain s os
    (Hsend : SendLaws sys sent) (Henv : forall fd os, sent fd (env os) = sent fd os)
    (Hne : chain <> []) (Hall : Forall mem_emitter chain) (Hopen : VTM_SOCKET_IS_CLOSED s = false) :
  exists rc chain' freed s' os' m,
    emit_retry (vtm_socket_plain_vtable sys ok rest) env n chain s os
      = Some (rc, chain', freed, s', os') /\
    Forall2 emt_same chain (freed ++ chain') /\ (rc = VTM_OK <-> chain' = []) /\
    sent (s_fd s) os' = sent (s_fd s) os ++ ztake m (chain_pending chain) /\
    (rc = VTM_OK -> ztake m (chain_pending chain) = chain_pending chain) /\
    (rc = VTM_E_IO_AGAIN ->
     sent (s_fd s) os' ++ chain_pending chain' = sent (s_fd s) os ++ chain_pending chain).
Proof.
  destruct (emit_retry_ok sys sent ok rest env n chain s os Henv Hne Hall Hopen)
    as (rc & c & f & s' & os' & m & E & [Ha Hf] & Hm & Hs & Hok & Hag & _).
  exists rc, c, f, s', os', m. split; [done|]. split; [done|]. split; [tauto|]. split; [done|]. split.
  - intros Hx. apply ztake_all. rewrite Hok by done. lia.
  - intros Hx. rewrite Hs, Hag, <- app_assoc by done. f_equal. apply ztake_zdrop.
Qed.

(** if the peer is ready to take something before every call, repeating the
    call as often as there are bytes to send is enough: the chain does not stay
    unfinished (net/socket_emitter.c, vtm_socket_emitter_try_write). *)
Theorem emitter_chain_finishes {OS SA} (sys : sys_net OS) (sent : Z -> OS -> bytes) ok
    (rest : vtm_socket_vtable OS SA) env n chain s os
    (Hsend : SendLaws sys sent) (Henv : forall fd os, sent fd (env os) = sent fd os)
    (Hready : forall os, peer_ready sys (s_fd s) (env os))
    (Hne : chain <> []) (Hall : Forall mem_emitter chain) (Hopen : VTM_SOCKET_IS_CLOSED s = false)
    (Hn : zlen (chain_pending chain) <= Z.of_nat n) :
  exists rc chain' freed s' os',
    emit_retry (vtm_socket_plain_vtable sys ok rest) env n chain s os
      = Some (rc, chain', freed, s', os') /\
    (rc = VTM_OK /\ chain' = [] \/ rc <> VTM_OK /\ rc <> VTM_E_IO_AGAIN).
Proof.
  destruct (emit_retry_ok sys sent ok rest env n chain s os Henv Hne Hall Hopen)
    as (rc & c & f & s' & os' & m & E & [Ha _] & _ & _ & _ & _ & Hlive).
  exists rc, c, f, s', os'. split; [done|]. specialize (Hlive Hready Hn). tauto.
Qed.

(** a file that fits into the array of its emitter is cut off when the peer
    becomes full in the middle (net/socket_emitter.c,
    vtm_socket_emitter_write_file): the call says that there is more to send,
    but the bytes left in the array are forgotten, and the next call reports
    that the file is complete without sending anything. *)
Theorem file_emitter_truncates {OS SA} (vt : vtm_socket_vtable OS SA) garbage data eof s os w s1 os1
    (Hg : zlen garbage = VTM_EMT_FILE_BUF_SIZE)
    (Hlen : 0 < zlen data <= VTM_EMT_FILE_BUF_SIZE) (Hw : 0 <= w < zlen data)
    (Hfull : zlen data < VTM_EMT_FILE_BUF_SIZE \/ 0 < w)
    (Hwrite : vtm_socket_write vt data s os = Some (VTM_E_IO_AGAIN, w, s1, os1)) :
  exists se se', vtm_socket_emitter_for_file true garbage (mk_file data 0 eof) = Some se /\
    vtm_sock_emt_write vt se s os = Some (VTM_SOCK_EMIT_AGAIN, se', s1, os1) /\
    forall s2 os2, exists se'',
      vtm_sock_emt_write vt se' s2 os2 = Some (VTM_SOCK_EMIT_COMPLETE, se'', s2, os2).
Proof.
  set (fp := mk_file data 0 false).
  assert (ztake VTM_EMT_FILE_BUF_SIZE (f_rest fp) = data) as El by (apply ztake_all; cbn; lia).
  destruct (file_first_round vt (length (f_rest fp)) garbage fp s os VTM_E_IO_AGAIN w s1 os1)
    as (buf' & Hb & E); rewrite ?El; [done| | |lia|by right|].
  { intros ->. unfold zlen in Hlen. cbn in Hlen. lia. }
  { done. }
  rewrite El in E. exists (mk_emitter (u64 (zlen data)) (EmtFile garbage 0 0 fp)). eexists.
  split; [done|]. split.
  { unfold vtm_sock_emt_write. cbn [se_emt]. unfold file_fuel. rewrite E. done. }
  intros s2 os2. unfold vtm_sock_emt_write. cbn [se_emt se_length f_eof f_pos f_data fp].
  set (fp' := mk_file _ _ _). unfold file_fuel.
  destruct (file_last_round vt (length (f_rest fp')) buf' (VTM_EMT_FILE_BUF_SIZE - w) fp' s2 os2)
    as (e & ->); [|lia| |by eexists].
  - unfold fp', f_rest. cbn [f_pos f_data]. by apply zdrop_all.
  - destruct Hfull as [H|H]; [right|left; lia]. unfold fp'. cbn [f_eof].
    rewrite (proj2 (Z.ltb_lt _ _)) by lia. done.
Qed.

(** if the peer takes everything it is offered, a file of any size is sent
    completely and in order by one call (net/socket_emitter.c,
    vtm_socket_emitter_write_file), in pieces of 4096 bytes. *)
Theorem file_emitter_sends_all {OS SA} (sys : sys_net OS) (sent : Z -> OS -> bytes) ok
    (rest : vtm_socket_vtable OS SA) garbage data eof s os
    (Hsend : SendLaws sys sent)
    (Hall : forall fd src os, src <> [] -> exists os', sys_send sys fd src os = (inl (zlen src), os'))
    (Hg : zlen garbage = VTM_EMT_FILE_BUF_SIZE) (Hopen : VTM_SOCKET_IS_CLOSED s = false) :
  exists se se' s' os', vtm_socket_emitter_for_file true garbage (mk_file data 0 eof) = Some se /\
    vtm_sock_emt_write (vtm_socket_plain_vtable sys ok rest) se s os
      = Some (VTM_SOCK_EMIT_COMPLETE, se', s', os') /\
    sent (s_fd s) os' = sent (s_fd s) os ++ data.
Proof.
  destruct (file_send_loop sys sent ok rest Hall (file_fuel (mk_file data 0 false)) garbage
              (mk_file data 0 false) s os) as (e & s' & os' & E & Hs);
    [unfold file_fuel; lia|cbn; lia|done|done|].
  exists (mk_emitter (u64 (zlen data)) (EmtFile garbage 0 0 (mk_file data 0 false))). eexists _, s', os'.
  split; [done|]. split; [|exact Hs].
  unfold vtm_sock_emt_write. cbn [se_emt]. rewrite E. done.
Qed.

(** the socket writer (net/socket_writer.c) delivers the stream it was
    given: pieces of at most 1024 bytes, put and finally flushed, arrive in
    order and without gaps or repetitions; what arrived is always a prefix, and
    it is everything if the last code is VTM_OK.  After a failure nothing more
    is sent. *)
Theorem socket_writer_stream {OS SA} (sys : sys_net OS) (sent : Z -> OS -> bytes) ok
    (rest : vtm_socket_vtable OS SA) pieces sw s os
    (Hsend : SendLaws sys sent) (Hopen : VTM_SOCKET_IS_CLOSED s = false)
    (Hpieces : Forall (fun p => zlen p <= SW_BUF_SIZE) pieces) :
  exists sw' s' os',
    writer_puts (vtm_socket_plain_vtable sys ok rest) pieces (vtm_socket_writer_reset sw) s os
      = Some (sw', s', os') /\
    sent (s_fd s) os' `prefix_of` sent (s_fd s) os ++ concat pieces /\
    (sw_lrc sw' = VTM_OK -> sent (s_fd s) os' = sent (s_fd s) os ++ concat pieces).
Proof.
  apply writer_puts_ok; try done. left. by rewrite app_nil_r.
Qed.

(** a piece of more than 1024 bytes is copied over the end of the array of
    the writer (net/socket_writer.c, vtm_socket_writer_putm): flushing makes
    room for 1024 bytes only, and the length is not compared with the size. *)
Theorem socket_writer_overflow {OS SA} (sys : sys_net OS) (sent : Z -> OS -> bytes) ok
    (rest : vtm_socket_vtable OS SA) src sw s os
    (Hsend : SendLaws sys sent) (Hopen : VTM_SOCKET_IS_CLOSED s = false)
    (Hlen : SW_BUF_SIZE < zlen src) :
  vtm_socket_writer_putm (vtm_socket_plain_vtable sys ok rest) (vtm_socket_writer_reset sw) src s os
    = None.
Proof.
  unfold vtm_socket_writer_putm, vtm_socket_writer_ensure_space, vtm_socket_writer_reset.
  cbn [sw_lrc sw_buf negb Z.eqb VTM_OK].
  destruct (SW_BUF_SIZE <=? u64 (zlen [] + zlen src)).
  - destruct (writer_flush_ok sys sent ok rest (mk_writer [] VTM_OK) s os eq_refl Hopen)
      as (rc & sw' & s' & os' & E & Hl & _ & _ & Hok & Hno).
    assert (rc = VTM_OK) as ->.
    { unfold vtm_socket_writer_flush in E. cbn [sw_lrc sw_buf negb Z.eqb VTM_OK] in E.
      destruct (plain_socket_write_ok sys sent ok rest [] s os _ Hopen)
        as (rc0 & n & s0 & os0 & E0 & Hn & _ & Hrc & _).
      rewrite E0 in E. cbn [mbind option_bind] in E.
      assert (rc0 = VTM_OK) as -> by (apply Hrc; unfold zlen in *; cbn in *; lia).
      assert (n = 0) as -> by (unfold zlen in *; cbn in *; lia).
      cbn in E. by injection E as <-. }
    rewrite E. cbn [mbind option_bind]. destruct (Hok eq_refl) as [-> _].
    cbn [negb Z.eqb VTM_OK sw_buf]. rewrite (proj2 (Z.ltb_lt _ _)); [done|]. unfold zlen in *. cbn. lia.
  - cbn [mbind option_bind negb Z.eqb VTM_OK sw_buf]. rewrite (proj2 (Z.ltb_lt _ _)); [done|].
    unfold zlen in *. cbn. lia.
Qed.

(** ** Witnesses *)

(** The peer of [script_sys] takes two bytes in each call. *)
Definition demo_env (os : script_os) : script_os := mk_script [2] (wire os).

Definition demo_chain : list vtm_socket_emitter :=
  [mk_emitter 3 (EmtRaw [1; 2; 3] 0); mk_emitter 0 (EmtBuf [] 0 true);
   mk_emitter 2 (EmtBuf [4; 5] 0 true)].

Lemma demo_chain_mem : Forall mem_emitter demo_chain.
Proof. repeat constructor; vm_compute; intros; discriminate. Qed.

Lemma emitter_chain_resumes_witness :
  exists chain' freed s' os',
    emit_retry (vtm_socket_plain_vtable script_sys true demo_vtable) demo_env 1 demo_chain demo_sock
      (mk_script [] []) = Some (VTM_E_IO_AGAIN, chain', freed, s', os') /\
    wire os' ++ chain_pending chain' = [1; 2; 3; 4; 5] /\ length freed = 2%nat.
Proof.
  destruct (emitter_chain_resumes script_sys (fun _ os => wire os) true demo_vtable demo_env 1
    demo_chain demo_sock (mk_script [] []) script_laws (fun _ _ => eq_refl) ltac:(discriminate)
    demo_chain_mem eq_refl) as (rc & c & f & s' & os' & m & E & _ & _ & _ & _ & Hag).
  assert (rc = VTM_E_IO_AGAIN /\ length f = 2%nat) as [Hrc Hf].
  { pose proof E as E'. vm_compute in E'. injection E' as <- _ <- _ _. split; reflexivity. }
  subst rc. exists c, f, s', os'. split; [exact E|]. split; [exact (Hag eq_refl)|exact Hf].
Defined.

Lemma demo_ready os : peer_ready script_sys 3 (demo_env os).
Proof. intros src Hsrc. eexists _, _. reflexivity. Qed.

Lemma emitter_chain_finishes_witness :
  exists freed s' os',
    emit_retry (vtm_socket_plain_vtable script_sys true demo_vtable) demo_env 5 demo_chain demo_sock
      (mk_script [] []) = Some (VTM_OK, [], freed, s', os').
Proof.
  destruct (emitter_chain_finishes script_sys (fun _ os => wire os) true demo_vtable demo_env 5
    demo_chain demo_sock (mk_script [] []) script_laws (fun _ _ => eq_refl) demo_ready
    ltac:(discriminate) demo_chain_mem eq_refl) as (rc & c & f & s' & os' & E & Hrc).
  - vm_compute. discriminate.
  - destruct Hrc as [[-> ->]|[Hne _]]; [by exists f, s', os'|].
    exfalso. apply Hne. pose proof E as E'. vm_compute in E'. by injection E' as <- _ _ _ _.
Defined.

Definition demo_garbage : bytes := replicate 4096 170.

Lemma file_emitter_truncates_witness :
  exists se se', vtm_socket_emitter_for_file true demo_garbage (mk_file [1; 2; 3; 4; 5] 0 false) = Some se /\
    exists s1, vtm_sock_emt_write (vtm_socket_plain_vtable script_sys true demo_vtable) se demo_sock
        (mk_script [2] []) = Some (VTM_SOCK_EMIT_AGAIN, se', s1, mk_script [] [1; 2]) /\
      forall s2 os2, exists se'',
        vtm_sock_emt_write (vtm_socket_plain_vtable script_sys true demo_vtable) se' s2 os2
          = Some (VTM_SOCK_EMIT_COMPLETE, se'', s2, os2).
Proof.
  destruct (file_emitter_truncates (vtm_socket_plain_vtable script_sys true demo_vtable) demo_garbage
    [1; 2; 3; 4; 5] false demo_sock (mk_script [2] []) 2
    (vtm_socket_set_state (vtm_socket_unset_state
       (vtm_socket_set_state demo_sock VTM_SOCK_STAT_WRITE_AGAIN) VTM_SOCK_STAT_NBL_READ)
       VTM_SOCK_STAT_NBL_WRITE) (mk_script [] [1; 2])) as (se & se' & H1 & H2 & H3).
  - reflexivity.
  - split; [reflexivity|vm_compute; discriminate].
  - split; [discriminate|reflexivity].
  - left. reflexivity.
  - reflexivity.
  - exists se, se'. split; [exact H1|]. eexists. split; [exact H2|exact H3].
Defined.

(** A peer that takes everything. *)
Definition full_sys : sys_net bytes :=
  mk_sys (fun _ src os => (inl (zlen src), os ++ src)) (fun _ _ os => (inr EAGAIN, os))
    (fun _ os => (inr EAGAIN, os)) (fun _ _ os => (None, os)) (fun _ os => os).

#[export] Instance full_laws : SendLaws full_sys (fun _ os => os).
Proof.
  split; intros fd src os r os'; cbn; [|done]. intros Hsrc [= <- <-].
  rewrite ztake_all by lia. split; [|done]. destruct src; [done|]. unfold zlen. cbn [length]. lia.
Qed.

Definition demo_vtable_full : vtm_socket_vtable bytes Z :=
  let r s (os : bytes) := (VTM_OK, s, os) in
  mk_vtable (fun _ _ => r) (fun _ => r) (fun s os => (VTM_OK, None, s, os)) (fun _ _ => r)
    (fun _ => r) r (fun src s os => Some (VTM_OK, zlen src, s, os)) (fun _ s os => (VTM_OK, [], s, os))
    (fun _ s os => (VTM_OK, [], 0, s, os)) (fun src _ s os => (VTM_OK, zlen src, s, os))
    (fun _ _ => r) (fun _ s os => (VTM_OK, 0, s, os)) (fun s os => (VTM_OK, 0, s, os)).

Lemma file_emitter_sends_all_witness :
  exists se se' s' os', vtm_socket_emitter_for_file true demo_garbage (mk_file [7; 8; 9] 2 true) = Some se /\
    vtm_sock_emt_write (vtm_socket_plain_vtable full_sys true demo_vtable_full) se demo_sock []
      = Some (VTM_SOCK_EMIT_COMPLETE, se', s', os') /\ os' = [7; 8; 9].
Proof.
  apply (file_emitter_sends_all full_sys (fun _ os => os) true demo_vtable_full demo_garbage [7; 8; 9]
           true demo_sock [] full_laws).
  - intros fd src os _. eexists. reflexivity.
  - reflexivity.
  - reflexivity.
Defined.

Lemma socket_writer_stream_witness :
  exists sw' s' os',
    writer_puts (vtm_socket_plain_vtable full_sys true demo_vtable_full) [[1; 2]; []; [3]]
      (vtm_socket_writer_reset (mk_writer [9] VTM_ERROR)) demo_sock [] = Some (sw', s', os') /\
    os' = [1; 2; 3].
Proof.
  destruct (socket_writer_stream full_sys (fun _ os => os) true demo_vtable_full [[1; 2]; []; [3]]
    (mk_writer [9] VTM_ERROR) demo_sock [] full_laws eq_refl) as (sw' & s' & os' & E & _ & Hok).
  - repeat constructor; vm_compute; discriminate.
  - exists sw', s', os'. split; [exact E|]. apply Hok.
    pose proof E as E'. vm_compute in E'. by injection E' as <- _ _.
Defined.

Lemma socket_writer_overflow_witness :
  vtm_socket_writer_putm (vtm_socket_plain_vtable full_sys true demo_vtable_full)
    (vtm_socket_writer_reset (mk_writer [] VTM_OK)) (replicate 1025 65) demo_sock [] = None.
Proof.
  apply (socket_writer_overflow full_sys (fun _ os => os) true demo_vtable_full (replicate 1025 65)
           (mk_writer [] VTM_OK) demo_sock [] full_laws eq_refl).
  vm_compute. reflexivity.
Defined.
