(* ===== verification/StreamServer.v ===== *)
(** * StreamServer: the connections of a stream server, net/socket_stream_server.c

    The state of a server and what it does with the events of a listener when
    it has no worker threads; StreamWorkers.v has the threads.  Sockets are
    addresses; the store holds the live ones, and touching a freed one is
    undefined behaviour ([None]).  The listener is the set of the registered
    sockets.  What comes from outside is a record [srv_env] of answers over a
    state of its own: the system calls that can fail and the callbacks of the
    application.  A callback acts on sockets by [usr_act]: it changes flags by
    reading and writing, closes a socket, or tells the server that another
    socket has changed (vtm_socket_update_srv). *)

From stdpp Require Import gmap.
From S2P Require Import Prelude Base Socket.

(** ** Data *)

(** net/socket_stream_server.c:28-35 *)
Inductive vtm_socket_stream_srv_entry_type :=
| VTM_SOCK_SRV_ACCEPTED
| VTM_SOCK_SRV_READ
| VTM_SOCK_SRV_WRITE
| VTM_SOCK_SRV_CLOSED
| VTM_SOCK_SRV_ERROR.

#[global] Instance entry_type_eq_dec : EqDecision vtm_socket_stream_srv_entry_type.
Proof. solve_decision. Defined.

(** net/socket_stream_server.c:37-43 [struct vtm_socket_stream_srv_entry] *)
Record srv_entry := mk_entry { en_sock : Z; en_type : vtm_socket_stream_srv_entry_type }.

(** net/socket_event.h:22-25 *)
Definition VTM_SOCK_EVT_READ : Z := 1.
Definition VTM_SOCK_EVT_WRITE : Z := 2.
Definition VTM_SOCK_EVT_CLOSED : Z := 4.
Definition VTM_SOCK_EVT_ERROR : Z := 8.

(** net/socket_event.h:27-31 [struct vtm_socket_event] *)
Record vtm_socket_event := mk_event { ev_sock : Z; ev_events : Z }.

(** net/socket_stream_server.c:22 *)
Definition VTM_STREAM_SRV_ACCEPT_MAX_ERRORS : Z := 100.

(** The callbacks of the application. *)
Inductive srv_cb := CbConnected | CbDisconnected | CbCanRead | CbCanWrite | CbError.

#[global] Instance srv_cb_eq_dec : EqDecision srv_cb.
Proof. solve_decision. Defined.

(** What a callback does with a socket. *)
Inductive usr_act :=
| UsrFlags (sock set unset : Z)
| UsrClose (sock : Z)
| UsrUpdate (sock : Z).

(** The answers from outside: whether a socket can be made non-blocking, the
    codes of the listener, what accept() gives, the allocator, the callbacks. *)
Record srv_env (E : Type) := mk_srv_env {
  env_nonblocking : Z -> E -> Z * E;
  env_listener_add : Z -> E -> Z * E;
  env_rearm : Z -> E -> Z * E;
  env_accept : E -> Z * E;
  env_malloc : E -> bool * E;
  env_callback : srv_cb -> Z -> E -> list usr_act * E
}.
Arguments mk_srv_env {E}.
Arguments env_nonblocking {E}.
Arguments env_listener_add {E}.
Arguments env_rearm {E}.
Arguments env_accept {E}.
Arguments env_malloc {E}.
Arguments env_callback {E}.

(** net/socket_stream_server.c:45-68 [struct vtm_socket_stream_srv].
    [sv_socks] are the live sockets, [sv_reg] those registered with the
    listener, [sv_next] the address of the next socket; [sv_cur] is the thread's
    [worker_current_socket]; [sv_log] are the callbacks made, last first. *)
Record vtm_socket_stream_srv (E : Type) := mk_srv {
  sv_socket : Z;
  sv_thread_count : Z;
  sv_socks : gmap Z vtm_socket;
  sv_next : Z;
  sv_cons : gset Z;
  sv_reg : gset Z;
  sv_events : list srv_entry;
  sv_release_socks : list Z;
  sv_relay_events : list srv_entry;
  sv_cur : option Z;
  sv_log : list (srv_cb * Z);
  sv_env : E
}.
Arguments mk_srv {E}.
Arguments sv_socket {E}.
Arguments sv_thread_count {E}.
Arguments sv_socks {E}.
Arguments sv_next {E}.
Arguments sv_cons {E}.
Arguments sv_reg {E}.
Arguments sv_events {E}.
Arguments sv_release_socks {E}.
Arguments sv_relay_events {E}.
Arguments sv_cur {E}.
Arguments sv_log {E}.
Arguments sv_env {E}.

(** What ends or feeds a turn of the main loop: the listener fails, or it has events. *)
Inductive turn := TurnFail (rc : Z) | TurnEvents (events : list vtm_socket_event).

Section Server.
Context {E : Type} (env : srv_env E).
Abbreviation srv := (vtm_socket_stream_srv E).

(** ** Updates *)

Definition srv_socks (x : gmap Z vtm_socket) (v : srv) : srv :=
  mk_srv (sv_socket v) (sv_thread_count v) x (sv_next v) (sv_cons v) (sv_reg v) (sv_events v)
    (sv_release_socks v) (sv_relay_events v) (sv_cur v) (sv_log v) (sv_env v).
Definition srv_cons (x : gset Z) (v : srv) : srv :=
  mk_srv (sv_socket v) (sv_thread_count v) (sv_socks v) (sv_next v) x (sv_reg v) (sv_events v)
    (sv_release_socks v) (sv_relay_events v) (sv_cur v) (sv_log v) (sv_env v).
Definition srv_reg (x : gset Z) (v : srv) : srv :=
  mk_srv (sv_socket v) (sv_thread_count v) (sv_socks v) (sv_next v) (sv_cons v) x (sv_events v)
    (sv_release_socks v) (sv_relay_events v) (sv_cur v) (sv_log v) (sv_env v).
Definition srv_queues (evs : list srv_entry) (rel : list Z) (relay : list srv_entry) (v : srv) : srv :=
  mk_srv (sv_socket v) (sv_thread_count v) (sv_socks v) (sv_next v) (sv_cons v) (sv_reg v) evs
    rel relay (sv_cur v) (sv_log v) (sv_env v).
Definition srv_cur (x : option Z) (v : srv) : srv :=
  mk_srv (sv_socket v) (sv_thread_count v) (sv_socks v) (sv_next v) (sv_cons v) (sv_reg v)
    (sv_events v) (sv_release_socks v) (sv_relay_events v) x (sv_log v) (sv_env v).
Definition srv_log (x : srv_cb * Z) (v : srv) : srv :=
  mk_srv (sv_socket v) (sv_thread_count v) (sv_socks v) (sv_next v) (sv_cons v) (sv_reg v)
    (sv_events v) (sv_release_socks v) (sv_relay_events v) (sv_cur v) (x :: sv_log v) (sv_env v).
Definition srv_env_to (x : E) (v : srv) : srv :=
  mk_srv (sv_socket v) (sv_thread_count v) (sv_socks v) (sv_next v) (sv_cons v) (sv_reg v)
    (sv_events v) (sv_release_socks v) (sv_relay_events v) (sv_cur v) (sv_log v) x.
(** A new socket. *)
Definition srv_new_sock (s : vtm_socket) (v : srv) : srv :=
  mk_srv (sv_socket v) (sv_thread_count v) (<[sv_next v := s]> (sv_socks v)) (sv_next v + 1)
    (sv_cons v) (sv_reg v) (sv_events v) (sv_release_socks v) (sv_relay_events v) (sv_cur v)
    (sv_log v) (sv_env v).

(** An answer of the environment. *)
Definition ask {A} (f : E -> A * E) (v : srv) : A * srv :=
  let '(a, e) := f (sv_env v) in (a, srv_env_to e v).

(** A change of a live socket. *)
Definition with_sock (sock : Z) (f : vtm_socket -> option vtm_socket) (v : srv) : option srv :=
  s ← sv_socks v !! sock; s ← f s; Some (srv_socks (<[sock := s]> (sv_socks v)) v).

(** ** Sockets of the server *)

(** net/socket.c:272-281 [vtm_socket_get_state] *)
Definition sock_state (sock : Z) (v : srv) : option Z :=
  s ← sv_socks v !! sock; Some (vtm_socket_get_state s).

(** net/socket.c:150-166 [vtm_socket_close].  The descriptor of a plain socket
    is closed, which takes it out of the listener. *)
Definition sock_close (sock : Z) (v : srv) : option srv :=
  s ← sv_socks v !! sock;
  if VTM_SOCKET_IS_CLOSED s then Some v
  else Some (srv_reg (sv_reg v ∖ {[sock]})
               (srv_socks (<[sock := vtm_socket_set_state s VTM_SOCK_STAT_CLOSED]> (sv_socks v)) v)).

(** sys/unix/net/socket_listener_epoll.c:113-130 [vtm_socket_listener_remove].  A
    closed socket is already out. *)
Definition listener_remove (sock : Z) (v : srv) : option srv :=
  s ← sv_socks v !! sock;
  if flag_any (s_state s) VTM_SOCK_STAT_CLOSED then Some v
  else Some (srv_reg (sv_reg v ∖ {[sock]}) v).

(** sys/unix/net/socket_listener_epoll.c:108-111 [vtm_socket_listener_add] *)
Definition listener_add (sock : Z) (v : srv) : option (Z * srv) :=
  _ ← sv_socks v !! sock;
  let '(rc, v) := ask (env_listener_add env sock) v in
  Some (rc, if rc =? VTM_OK then srv_reg ({[sock]} ∪ sv_reg v) v else v).

(** sys/unix/net/socket_listener_epoll.c:132-135 [vtm_socket_listener_rearm] *)
Definition listener_rearm (sock : Z) (v : srv) : option (Z * srv) :=
  _ ← sv_socks v !! sock; Some (ask (env_rearm env sock) v).

(** net/socket_stream_server.c:1033-1047.  Interrupting the listener only makes
    the main thread run. *)
Definition vtm_socket_stream_srv_sock_free (sock : Z) (v : srv) : option srv :=
  if sv_thread_count v =? 0 then
    _ ← sv_socks v !! sock; Some (srv_socks (delete sock (sv_socks v)) v)
  else
    v ← with_sock sock vtm_socket_ref v;
    Some (srv_queues (sv_events v) (sv_release_socks v ++ [sock]) (sv_relay_events v) v).

(** net/socket_stream_server.c:651-673.  A list that cannot grow is not
    considered. *)
Definition vtm_socket_stream_srv_create_relay_event (type : vtm_socket_stream_srv_entry_type)
    (sock : Z) (v : srv) : Z * srv :=
  let '(ok, v) := ask (env_malloc env) v in
  if negb ok then (VTM_E_MALLOC, v)
  else (VTM_OK, srv_queues (sv_events v) (sv_release_socks v)
                  (sv_relay_events v ++ [mk_entry sock type]) v).

(** net/socket_stream_server.c:1055-1092.  The code is not looked at. *)
Definition vtm_socket_stream_srv_sock_cb_update (sock : Z) (v : srv) : option srv :=
  if decide (sv_cur v = Some sock) then Some v
  else
    st ← sock_state sock v;
    let relay type v := snd (vtm_socket_stream_srv_create_relay_event type sock v) in
    if flag_any st VTM_SOCK_STAT_ERR then
      v ← with_sock sock vtm_socket_ref v; Some (relay VTM_SOCK_SRV_ERROR v)
    else if flag_any st VTM_SOCK_STAT_CLOSED then
      v ← with_sock sock vtm_socket_ref v; Some (relay VTM_SOCK_SRV_CLOSED v)
    else if flag_any st VTM_SOCK_STAT_HUP then
      v ← with_sock sock vtm_socket_ref v; v ← sock_close sock v; Some (relay VTM_SOCK_SRV_CLOSED v)
    else if flag_any st (Z.lor (Z.lor VTM_SOCK_STAT_READ_AGAIN VTM_SOCK_STAT_READ_AGAIN_WHEN_WRITEABLE)
                           (Z.lor VTM_SOCK_STAT_WRITE_AGAIN VTM_SOCK_STAT_WRITE_AGAIN_WHEN_READABLE)) then
      '(_, v) ← listener_rearm sock v; Some v
    else Some v.

(** ** Callbacks *)

Definition usr_step (a : usr_act) (v : srv) : option srv :=
  match a with
  | UsrFlags sock set unset =>
      with_sock sock (fun s => Some (vtm_socket_unset_state (vtm_socket_set_state s set) unset)) v
  | UsrClose sock => sock_close sock v
  | UsrUpdate sock => vtm_socket_stream_srv_sock_cb_update sock v
  end.

Fixpoint usr_steps (l : list usr_act) (v : srv) : option srv :=
  match l with [] => Some v | a :: l' => v ← usr_step a v; usr_steps l' v end.

(** A callback for a live socket. *)
Definition callback (cb : srv_cb) (sock : Z) (v : srv) : option srv :=
  _ ← sv_socks v !! sock;
  let '(acts, v) := ask (env_callback env cb sock) v in usr_steps acts (srv_log (cb, sock) v).

(** ** Handlers *)

(** net/socket_stream_server.c:1005-1022 *)
Definition vtm_socket_stream_srv_sock_closed (sock : Z) (v : srv) : option srv :=
  if decide (sock ∈ sv_cons v) then
    let v := srv_cons (sv_cons v ∖ {[sock]}) v in
    v ← listener_remove sock v;
    v ← callback CbDisconnected sock v;
    vtm_socket_stream_srv_sock_free sock v
  else Some v.

(** net/socket_stream_server.c:1024-1031 *)
Definition vtm_socket_stream_srv_sock_error (sock : Z) (v : srv) : option srv :=
  v ← callback CbError sock v; v ← sock_close sock v; vtm_socket_stream_srv_sock_closed sock v.

(** net/socket_stream_server.c:920-933.  [None] as code: nothing is wrong. *)
Definition sock_check_eval (sock : Z) (v : srv) : option (option Z * srv) :=
  st ← sock_state sock v;
  if flag_any st VTM_SOCK_STAT_ERR then
    v ← vtm_socket_stream_srv_sock_error sock v; Some (Some VTM_E_IO_UNKNOWN, v)
  else if flag_any st VTM_SOCK_STAT_CLOSED then
    v ← vtm_socket_stream_srv_sock_closed sock v; Some (Some VTM_E_IO_CLOSED, v)
  else if flag_any st VTM_SOCK_STAT_HUP then
    v ← sock_close sock v; v ← vtm_socket_stream_srv_sock_closed sock v;
    Some (Some VTM_E_IO_CLOSED, v)
  else Some (None, v).

(** net/socket_stream_server.c:914-944.  A socket that cannot be rearmed is
    closed, so that the second evaluation ends. *)
Definition vtm_socket_stream_srv_sock_check (sock : Z) (rearm : bool) (v : srv) : option (Z * srv) :=
  '(r, v) ← sock_check_eval sock v;
  match r with
  | Some rc => Some (rc, v)
  | None =>
      if rearm then
        '(rc, v) ← listener_rearm sock v;
        if rc =? VTM_OK then Some (VTM_OK, v)
        else
          v ← sock_close sock v;
          '(r, v) ← sock_check_eval sock v;
          match r with Some rc => Some (rc, v) | None => None end
      else Some (VTM_OK, v)
  end.

(** net/socket_stream_server.c:946-987.  The code of vtm_map_put_va() is not
    looked at: without memory the socket is registered and no connection. *)
Definition vtm_socket_stream_srv_sock_accepted (sock : Z) (v : srv) : option srv :=
  _ ← sv_socks v !! sock;
  let '(rc, v) := ask (env_nonblocking env sock) v in
  if negb (rc =? VTM_OK) then
    v ← sock_close sock v; vtm_socket_stream_srv_sock_free sock v
  else
    v ← with_sock sock (fun s => Some (vtm_socket_set_state s VTM_SOCK_STAT_NONBLOCKING)) v;
    v ← callback CbConnected sock v;
    '(rc, v) ← vtm_socket_stream_srv_sock_check sock false v;
    if negb (rc =? VTM_OK) then Some v
    else
      v ← with_sock sock (fun s => Some (vtm_socket_set_state s VTM_SOCK_STAT_NBL_READ)) v;
      '(rc, v) ← listener_add sock v;
      if rc =? VTM_OK then
        let '(ok, v) := ask (env_malloc env) v in
        Some (if ok : bool then srv_cons ({[sock]} ∪ sv_cons v) v else v)
      else
        v ← sock_close sock v;
        v ← callback CbDisconnected sock v;
        vtm_socket_stream_srv_sock_free sock v.

(** net/socket_stream_server.c:989-995 *)
Definition vtm_socket_stream_srv_sock_can_read (sock : Z) (v : srv) : option srv :=
  v ← callback CbCanRead sock v;
  '(_, v) ← vtm_socket_stream_srv_sock_check sock true v; Some v.

(** net/socket_stream_server.c:997-1003 *)
Definition vtm_socket_stream_srv_sock_can_write (sock : Z) (v : srv) : option srv :=
  v ← callback CbCanWrite sock v;
  '(_, v) ← vtm_socket_stream_srv_sock_check sock true v; Some v.

(** ** Accepting *)

(** net/socket.c:102-117 [vtm_socket_accept].  The code, and the new socket. *)
Definition srv_accept (v : srv) : option (Z * option Z * srv) :=
  s ← sv_socks v !! sv_socket v;
  if VTM_SOCKET_IS_CLOSED s then Some (VTM_E_IO_CLOSED, None, v)
  else
    let v := srv_socks (<[sv_socket v := vtm_socket_unset_state s VTM_SOCK_STAT_READ_AGAIN]>
                          (sv_socks v)) v in
    let '(rc, v) := ask (env_accept env) v in
    if rc =? VTM_OK then
      let client := sv_next v in
      Some (VTM_OK, Some client,
            srv_new_sock (mk_sock client (s_family s) (s_type s) false VTM_SOCK_STAT_DEFAULT 0 0) v)
    else if rc =? VTM_E_IO_AGAIN then
      v ← with_sock (sv_socket v)
            (fun s => Some (vtm_socket_set_state_intl s VTM_SOCK_STAT_READ_AGAIN)) v;
      Some (rc, None, v)
    else Some (rc, None, v).

(** net/socket_stream_server.c:642-649 *)
Definition vtm_socket_stream_srv_add_event (event : srv_entry) (v : srv) : option srv :=
  v ← with_sock (en_sock event) vtm_socket_ref v;
  Some (srv_queues (sv_events v ++ [event]) (sv_release_socks v) (sv_relay_events v) v).

(** net/socket_stream_server.c:683-715.  [None] after [fuel] answers: the loop
    goes on as long as there are connections to accept. *)
Fixpoint accept_loop (fuel : nat) (direct : bool) (errc : Z) (v : srv) : option (Z * srv) :=
  match fuel with
  | O => None
  | S fuel' =>
      '(rc, client, v) ← srv_accept v;
      match client with
      | Some client =>
          if direct then
            v ← vtm_socket_stream_srv_sock_accepted client v; accept_loop fuel' direct 0 v
          else
            let '(ok, v) := ask (env_malloc env) v in
            if negb ok then Some (VTM_E_MALLOC, v)
            else
              v ← with_sock client (fun s => Some (fst (vtm_socket_make_threadsafe true s))) v;
              v ← vtm_socket_stream_srv_add_event (mk_entry client VTM_SOCK_SRV_ACCEPTED) v;
              accept_loop fuel' direct 0 v
      | None =>
          if rc =? VTM_E_IO_AGAIN then listener_rearm (sv_socket v) v
          else if errc + 1 <? VTM_STREAM_SRV_ACCEPT_MAX_ERRORS then
            accept_loop fuel' direct (errc + 1) v
          else listener_rearm (sv_socket v) v
      end
  end.

(** net/socket_stream_server.c:675-719 *)
Definition vtm_socket_stream_srv_accept (fuel : nat) (direct : bool) (v : srv) : option (Z * srv) :=
  accept_loop fuel direct 0 v.

(** ** Without threads *)

(** net/socket_stream_server.c:387-405.  One relay event. *)
Definition relay_direct (event : srv_entry) (v : srv) : option srv :=
  let v := srv_cur (Some (en_sock event)) v in
  v ← match en_type event with
      | VTM_SOCK_SRV_CLOSED => vtm_socket_stream_srv_sock_closed (en_sock event) v
      | VTM_SOCK_SRV_ERROR => vtm_socket_stream_srv_sock_error (en_sock event) v
      | _ => Some v
      end;
  Some (srv_queues (sv_events v) (sv_release_socks v) (tail (sv_relay_events v)) (srv_cur None v)).

(** net/socket_stream_server.c:387-405.  Until there are no more. *)
Fixpoint relay_loop (fuel : nat) (v : srv) : option srv :=
  match sv_relay_events v, fuel with
  | [], _ => Some v
  | _, O => None
  | event :: _, S fuel' => v ← relay_direct event v; relay_loop fuel' v
  end.

(** net/socket_stream_server.c:409-445.  One event of the listener; the code is
    that of accepting. *)
Definition event_direct (fuel : nat) (e : vtm_socket_event) (v : srv) : option (Z * srv) :=
  let sock := ev_sock e in
  let v := srv_cur (Some sock) v in
  if flag_any (ev_events e) VTM_SOCK_EVT_CLOSED then
    v ← sock_close sock v; v ← vtm_socket_stream_srv_sock_closed sock v; Some (VTM_OK, v)
  else if flag_any (ev_events e) VTM_SOCK_EVT_ERROR then
    v ← vtm_socket_stream_srv_sock_error sock v; Some (VTM_OK, v)
  else if flag_any (ev_events e) VTM_SOCK_EVT_READ && (sock =? sv_socket v) then
    '(rc, v) ← vtm_socket_stream_srv_accept fuel true v;
    Some (rc, if rc =? VTM_OK then v else srv_cur None v)
  else
    v ← (if flag_any (ev_events e) VTM_SOCK_EVT_READ then
           st ← sock_state sock v;
           if flag_any st VTM_SOCK_STAT_WRITE_AGAIN_WHEN_READABLE
           then vtm_socket_stream_srv_sock_can_write sock v
           else vtm_socket_stream_srv_sock_can_read sock v
         else Some v);
    v ← (if flag_any (ev_events e) VTM_SOCK_EVT_WRITE then
           st ← sock_state sock v;
           if flag_any st VTM_SOCK_STAT_READ_AGAIN_WHEN_WRITEABLE
           then vtm_socket_stream_srv_sock_can_read sock v
           else vtm_socket_stream_srv_sock_can_write sock v
         else Some v);
    Some (VTM_OK, v).

(** net/socket_stream_server.c:408-449 *)
Fixpoint events_direct (fuel : nat) (events : list vtm_socket_event) (v : srv) : option (Z * srv) :=
  match events with
  | [] => Some (VTM_OK, srv_cur None v)
  | e :: events' =>
      '(rc, v) ← event_direct fuel e v;
      if rc =? VTM_OK then events_direct fuel events' v else Some (rc, v)
  end.

(** net/socket_stream_server.c:379-450.  [fuel] bounds the relay events and the
    connections of one call. *)
Definition vtm_socket_stream_srv_handle_direct (fuel : nat) (events : list vtm_socket_event) (v : srv)
    : option (Z * srv) :=
  v ← relay_loop fuel v; events_direct fuel events v.

(** net/socket_stream_server.c:567-574 *)
Fixpoint drain_loop (socks : list Z) (v : srv) : option srv :=
  match socks with
  | [] => Some v
  | sock :: socks' =>
      v ← sock_close sock v; v ← vtm_socket_stream_srv_sock_closed sock v; drain_loop socks' v
  end.

(** net/socket_stream_server.c:556-577.  The order of the entries is that of the
    map; without memory for their list nothing is done. *)
Definition vtm_socket_stream_srv_drain_direct (v : srv) : option srv :=
  let '(ok, v) := ask (env_malloc env) v in
  if negb ok then Some v else drain_loop (elements (sv_cons v)) v.

(** ** The loop of the main thread *)

(** net/socket_stream_server.c:348-361.  The list ends where [running] is found
    unset.  The code is [None] as long as the variable has no value. *)
Fixpoint main_loop (fuel : nat) (turns : list turn) (rc : option Z) (v : srv)
    : option (option Z * srv) :=
  match turns with
  | [] => Some (rc, v)
  | TurnFail rc :: _ => Some (Some rc, v)
  | TurnEvents events :: turns' =>
      '(rc, v) ← vtm_socket_stream_srv_handle_direct fuel events v;
      if rc =? VTM_OK then main_loop fuel turns' (Some rc) v else Some (Some rc, v)
  end.

(** net/socket_stream_server.c:328-377.  Without threads.  The dataset of the
    thread comes first; without memory for it nothing is drained.  The callbacks
    worker_init and worker_end, which are handed this dataset and no socket, are
    left out. *)
Definition vtm_socket_stream_srv_main_run (fuel : nat) (turns : list turn) (v : srv)
    : option (option Z * srv) :=
  let '(ok, v) := ask (env_malloc env) v in
  if negb ok then Some (Some VTM_E_MALLOC, v)
  else
    '(rc, v) ← main_loop fuel turns None v;
    v ← vtm_socket_stream_srv_drain_direct v;
    Some (rc, v).

(** ** With threads: what the main thread and the workers do *)

(** net/socket_stream_server.c:623-640 *)
Definition vtm_socket_stream_srv_create_event (type : vtm_socket_stream_srv_entry_type) (sock : Z)
    (v : srv) : option (Z * srv) :=
  let '(ok, v) := ask (env_malloc env) v in
  if negb ok then Some (VTM_E_MALLOC, v)
  else
    v ← with_sock sock vtm_socket_ref v;
    Some (VTM_OK, srv_queues (sv_events v ++ [mk_entry sock type]) (sv_release_socks v)
                    (sv_relay_events v) v).

(** net/socket.c:369-381 [vtm_socket_unref].  The last reference may free. *)
Definition sock_unref (sock : Z) (v : srv) : option srv :=
  s ← sv_socks v !! sock; r ← vtm_socket_unref s;
  Some (srv_socks (match r with
                   | Some s => <[sock := s]> (sv_socks v)
                   | None => delete sock (sv_socks v)
                   end) v).

(** net/socket.c:383-394 [vtm_socket_enable_free_on_unref] *)
Definition sock_enable_free (sock : Z) (v : srv) : option srv :=
  s ← sv_socks v !! sock;
  Some (srv_socks (match vtm_socket_enable_free_on_unref s with
                   | Some s => <[sock := s]> (sv_socks v)
                   | None => delete sock (sv_socks v)
                   end) v).

(** net/socket_stream_server.c:465-472 *)
Fixpoint release_loop (socks : list Z) (v : srv) : option srv :=
  match socks with
  | [] => Some (srv_queues (sv_events v) [] (sv_relay_events v) v)
  | sock :: socks' =>
      v ← sock_enable_free sock v; v ← sock_unref sock v; release_loop socks' v
  end.

(** net/socket_stream_server.c:482-539.  The events of the listener; the
    boolean says whether the server socket is readable, the code whether an
    event could not be created. *)
Fixpoint events_queued (events : list vtm_socket_event) (acc : bool) (v : srv)
    : option (Z * bool * srv) :=
  match events with
  | [] => Some (VTM_OK, acc, v)
  | e :: events' =>
      let sock := ev_sock e in
      let create type (k : srv -> option (Z * bool * srv)) (v : srv) :=
        '(rc, v) ← vtm_socket_stream_srv_create_event type sock v;
        if rc =? VTM_OK then k v else Some (VTM_ERROR, acc, v) in
      if flag_any (ev_events e) VTM_SOCK_EVT_CLOSED then
        v ← sock_close sock v; create VTM_SOCK_SRV_CLOSED (events_queued events' acc) v
      else if flag_any (ev_events e) VTM_SOCK_EVT_ERROR then
        create VTM_SOCK_SRV_ERROR (events_queued events' acc) v
      else if flag_any (ev_events e) VTM_SOCK_EVT_READ && (sock =? sv_socket v) then
        events_queued events' true v
      else
        let write v :=
          if flag_any (ev_events e) VTM_SOCK_EVT_WRITE then
            st ← sock_state sock v;
            create (if flag_any st VTM_SOCK_STAT_READ_AGAIN_WHEN_WRITEABLE
                    then VTM_SOCK_SRV_READ else VTM_SOCK_SRV_WRITE) (events_queued events' acc) v
          else events_queued events' acc v in
        if flag_any (ev_events e) VTM_SOCK_EVT_READ then
          st ← sock_state sock v;
          create (if flag_any st VTM_SOCK_STAT_WRITE_AGAIN_WHEN_READABLE
                  then VTM_SOCK_SRV_WRITE else VTM_SOCK_SRV_READ) write v
        else write v
  end.

(** net/socket_stream_server.c:452-554 *)
Definition vtm_socket_stream_srv_handle_queued (fuel : nat) (events : list vtm_socket_event) (v : srv)
    : option (Z * srv) :=
  v ← release_loop (sv_release_socks v) v;
  let v := srv_queues (sv_events v ++ sv_relay_events v) (sv_release_socks v) [] v in
  '(rc, acc, v) ← events_queued events false v;
  if negb (rc =? VTM_OK) then Some (rc, v)
  else if (acc : bool) then vtm_socket_stream_srv_accept fuel false v
  else Some (VTM_OK, v).

(** net/socket_stream_server.c:1094-1109 *)
Definition vtm_socket_stream_srv_sock_trylock (sock flags : Z) (v : srv) : option (bool * srv) :=
  s ← sv_socks v !! sock;
  if flag_any (s_state s) flags then Some (false, v)
  else Some (true, srv_socks (<[sock := sock_with_state (Z.lor (s_state s) flags) s]> (sv_socks v)) v).

(** net/socket_stream_server.c:1111-1116 *)
Definition vtm_socket_stream_srv_sock_unlock (sock flags : Z) (v : srv) : option srv :=
  with_sock sock (fun s => Some (sock_with_state (vtm_flag_unset (s_state s) flags) s)) v.

Definition SOCK_BOTH_LOCKED : Z := Z.lor VTM_SOCK_STAT_READ_LOCKED VTM_SOCK_STAT_WRITE_LOCKED.

(** net/socket_stream_server.c:858-912.  The boolean says that the event is done
    with. *)
Definition vtm_socket_stream_srv_sock_event (event : srv_entry) (v : srv) : option (bool * srv) :=
  let sock := en_sock event in
  let locked flags (busy : srv -> option (bool * srv)) (handler : Z -> srv -> option srv) (v : srv) :=
    '(ok, v) ← vtm_socket_stream_srv_sock_trylock sock flags v;
    if negb ok then busy v
    else v ← handler sock v; v ← vtm_socket_stream_srv_sock_unlock sock flags v; Some (true, v) in
  let unless_closed (k : srv -> option (bool * srv)) (v : srv) :=
    st ← sock_state sock v; if flag_any st VTM_SOCK_STAT_CLOSED then Some (true, v) else k v in
  match en_type event with
  | VTM_SOCK_SRV_ACCEPTED =>
      locked VTM_SOCK_STAT_READ_LOCKED (fun _ => None) (vtm_socket_stream_srv_sock_accepted) v
  | VTM_SOCK_SRV_CLOSED =>
      locked SOCK_BOTH_LOCKED (fun v => Some (false, v)) (vtm_socket_stream_srv_sock_closed) v
  | VTM_SOCK_SRV_ERROR =>
      locked SOCK_BOTH_LOCKED (fun v => Some (false, v)) (vtm_socket_stream_srv_sock_error) v
  | VTM_SOCK_SRV_READ =>
      unless_closed (locked VTM_SOCK_STAT_READ_LOCKED (fun v => Some (true, v))
                       (vtm_socket_stream_srv_sock_can_read)) v
  | VTM_SOCK_SRV_WRITE =>
      unless_closed (locked VTM_SOCK_STAT_WRITE_LOCKED (fun v => Some (true, v))
                       (vtm_socket_stream_srv_sock_can_write)) v
  end.

(** net/socket_stream_server.c:839-856 *)
Definition vtm_socket_stream_srv_worker_event (event : srv_entry) (v : srv) : option srv :=
  let sock := en_sock event in
  '(processed, v) ← vtm_socket_stream_srv_sock_event event (srv_cur (Some sock) v);
  let v := srv_cur None v in
  v ← (if (processed : bool) then Some v else vtm_socket_stream_srv_add_event event v);
  sock_unref sock v.

(** net/socket_stream_server.c:596-612.  The queue is emptied and a close event
    made for every connection. *)
Fixpoint drain_queued_loop (socks : list Z) (v : srv) : option srv :=
  match socks with
  | [] => Some v
  | sock :: socks' =>
      v ← sock_close sock v;
      '(rc, v) ← vtm_socket_stream_srv_create_event VTM_SOCK_SRV_CLOSED sock v;
      if rc =? VTM_OK then drain_queued_loop socks' v else Some v
  end.
(** net/socket_stream_server.c:596-598 *)
Fixpoint unref_events (events : list srv_entry) (v : srv) : option srv :=
  match events with
  | [] => Some (srv_queues [] (sv_release_socks v) (sv_relay_events v) v)
  | e :: events' => v ← sock_unref (en_sock e) v; unref_events events' v
  end.
(** net/socket_stream_server.c:592-617.  The section between the latches. *)
Definition vtm_socket_stream_srv_drain_queued (v : srv) : option srv :=
  v ← unref_events (sv_events v) v;
  let '(ok, v) := ask (env_malloc env) v in
  if negb ok then Some v else drain_queued_loop (elements (sv_cons v)) v.

(** net/socket_stream_server.c:1134-1136 *)
Fixpoint free_loop (socks : list Z) (v : srv) : option srv :=
  match socks with
  | [] => Some v
  | sock :: socks' => _ ← sv_socks v !! sock; free_loop socks' (srv_socks (delete sock (sv_socks v)) v)
  end.
(** net/socket_stream_server.c:1130-1137 *)
Definition vtm_socket_stream_srv_free_sockets (v : srv) : option srv :=
  free_loop (sv_release_socks v) v.
End Server.
