(* ===== verification/ServerProps.v ===== *)
(** * ServerProps: a stream server without threads

    The invariant of the connections of a server that handles its events in the
    main thread (StreamServer.v), kept by every call of the event loop, for
    applications whose callbacks act on the socket they are given; and what
    happens outside these limits: sockets that are leaked and sockets that are
    used after they were freed. *)

From stdpp Require Import gmap relations.
From S2P Require Import Prelude Base Socket StreamServer.

Section Direct.
Context {E : Type} (env : srv_env E) (pending : E -> nat).
Abbreviation srv := (vtm_socket_stream_srv E).

(** ** The application and the system *)

(** An act on the socket [sock]; only closing it sets the flag CLOSED. *)
Definition own_act (sock : Z) (a : usr_act) : Prop :=
  match a with
  | UsrFlags s set unset => s = sock /\ Z.testbit set 1 = false /\ Z.testbit unset 1 = false
  | UsrClose s => s = sock
  | UsrUpdate _ => False
  end.

(** Callbacks act on the socket they are given; [pending] is the number of
    connections that wait to be accepted, which only accepting changes. *)
Class EnvLaws := {
  callback_own cb sock e : Forall (own_act sock) (fst (env_callback env cb sock e));
  pending_callback cb sock e : (pending (snd (env_callback env cb sock e)) <= pending e)%nat;
  pending_nonblocking sock e : (pending (snd (env_nonblocking env sock e)) <= pending e)%nat;
  pending_add sock e : (pending (snd (env_listener_add env sock e)) <= pending e)%nat;
  pending_malloc e : (pending (snd (env_malloc env e)) <= pending e)%nat;
  pending_rearm sock e : (pending (snd (env_rearm env sock e)) <= pending e)%nat;
  pending_accept e : (pending (snd (env_accept env e)) <= pending e)%nat;
  pending_accept_ok e :
    fst (env_accept env e) = VTM_OK -> (pending (snd (env_accept env e)) < pending e)%nat
}.

(** ** What an operation on one socket leaves alone *)

(** A closed socket is not registered. *)
Definition closed_out (sock : Z) (v : srv) : Prop :=
  forall s, sv_socks v !! sock = Some s -> Z.testbit (s_state s) 1 = true -> sock ∉ sv_reg v.

(** Only the socket [sock] changes, which stays live, and the log grows by
    [l]. *)
Record touches (sock : Z) (l : list (srv_cb * Z)) (v v' : srv) : Prop := {
  t_socket : sv_socket v' = sv_socket v;
  t_count : sv_thread_count v' = sv_thread_count v;
  t_next : sv_next v' = sv_next v;
  t_cons : sv_cons v' = sv_cons v;
  t_relay : sv_relay_events v' = sv_relay_events v;
  t_log : sv_log v' = l ++ sv_log v;
  t_socks : exists s, sv_socks v' = <[sock := s]> (sv_socks v);
  t_reg : sv_reg v' = sv_reg v \/ sv_reg v' = sv_reg v ∖ {[sock]};
  t_open : closed_out sock v -> closed_out sock v';
  t_pending : (pending (sv_env v') <= pending (sv_env v))%nat
}.

Lemma touches_refl sock v s : sv_socks v !! sock = Some s -> touches sock [] v v.
Proof. intros H. split; try done; [|by left]. exists s. by rewrite insert_id. Qed.

Lemma touches_trans sock l1 l2 v1 v2 v3 :
  touches sock l1 v1 v2 -> touches sock l2 v2 v3 -> touches sock (l2 ++ l1) v1 v3.
Proof.
  intros [] []. split; try congruence; [| | |auto|lia].
  - rewrite t_log1, t_log0. by rewrite app_assoc.
  - destruct t_socks0 as [s1 E1], t_socks1 as [s2 E2]. exists s2. rewrite E2, E1.
    by rewrite insert_insert_eq.
  - destruct t_reg0 as [E1|E1], t_reg1 as [E2|E2]; rewrite E1 in E2; auto.
    right. rewrite E2. set_solver.
Qed.

Lemma touches_live sock l v v' : touches sock l v v' -> is_Some (sv_socks v' !! sock).
Proof. intros []. destruct t_socks0 as [s ->]. rewrite lookup_insert_eq. by eexists. Qed.

Lemma touches_with_sock sock f v s s' :
  sv_socks v !! sock = Some s -> f s = Some s' ->
  (Z.testbit (s_state s') 1 = true -> Z.testbit (s_state s) 1 = true) ->
  exists v', with_sock sock f v = Some v' /\ touches sock [] v v' /\ sv_socks v' !! sock = Some s' /\
    sv_reg v' = sv_reg v.
Proof.
  intros Hs Hf Hb. unfold with_sock. rewrite Hs. cbn [mbind option_bind]. rewrite Hf.
  cbn [mbind option_bind]. eexists. split; [done|]. cbn [sv_socks srv_socks sv_reg].
  rewrite lookup_insert_eq. split; [|done]. split; try done; [by eexists|by left|].
  intros Ho s0. cbn [sv_socks srv_socks sv_reg]. rewrite lookup_insert_eq. intros [= <-] Ht.
  eapply Ho; eauto.
Qed.

Lemma touches_ask {A} (f : E -> A * E) sock v s :
  sv_socks v !! sock = Some s -> (forall e, (pending (snd (f e)) <= pending e)%nat) ->
  exists a v', ask f v = (a, v') /\ touches sock [] v v' /\ sv_socks v' = sv_socks v /\
    sv_reg v' = sv_reg v.
Proof.
  intros Hs Hf. unfold ask. specialize (Hf (sv_env v)). destruct (f (sv_env v)) as [a e] eqn:Ef.
  exists a. eexists. split; [done|]. split; [|done]. split; try done; [|by left].
  exists s. by rewrite insert_id.
Qed.

(** Closing: the socket is closed and out of the listener. *)
Lemma touches_close sock v s :
  sv_socks v !! sock = Some s ->
  exists v' s', sock_close sock v = Some v' /\ touches sock [] v v' /\
    sv_socks v' !! sock = Some s' /\ Z.testbit (s_state s') 1 = true /\
    (sv_reg v' = sv_reg v ∖ {[sock]} \/ Z.testbit (s_state s) 1 = true).
Proof.
  intros Hs. unfold sock_close. rewrite Hs. cbn [mbind option_bind].
  rewrite is_closed_bit. destruct (Z.testbit (s_state s) 1) eqn:Ec.
  - exists v, s. split; [done|]. split; [by eapply touches_refl|]. split; [done|]. split; [done|].
    by right.
  - eexists _, _. split; [done|]. cbn [sv_socks srv_reg srv_socks]. rewrite lookup_insert_eq.
    split; [|split; [done|]].
    + split; try done; [by eexists|by right|]. intros _ s0. cbn. set_solver.
    + split; [|by left]. flag_bits. change (Z.testbit VTM_SOCK_STAT_CLOSED 1) with true.
      by rewrite orb_true_r.
Qed.

Lemma touches_usr_steps sock l v s :
  sv_socks v !! sock = Some s -> Forall (own_act sock) l ->
  exists v', usr_steps env l v = Some v' /\ touches sock [] v v'.
Proof.
  intros Hs Hl. revert v s Hs. induction Hl as [|a l Ha Hl IH]; intros v s Hs.
  { exists v. split; [done|]. by eapply touches_refl. }
  cbn [usr_steps]. destruct a as [x set unset|x|x]; cbn [own_act] in Ha; try done;
    [destruct Ha as [-> Ha]|subst x]; cbn [usr_step].
  - destruct (touches_with_sock sock
      (fun s => Some (vtm_socket_unset_state (vtm_socket_set_state s set) unset)) v s _ Hs eq_refl)
      as (v1 & -> & Ht & Hs1 & _).
    { flag_bits. destruct Ha as (-> & ->). by rewrite orb_false_r, andb_true_r. }
    cbn [mbind option_bind].
    destruct (IH v1 _ Hs1) as (v2 & -> & Ht2). exists v2. split; [done|].
    exact (touches_trans _ _ _ _ _ _ Ht Ht2).
  - destruct (touches_close sock v s Hs) as (v1 & s1 & -> & Ht & Hs1 & _). cbn [mbind option_bind].
    destruct (IH v1 _ Hs1) as (v2 & -> & Ht2). exists v2. split; [done|].
    exact (touches_trans _ _ _ _ _ _ Ht Ht2).
Qed.

Context {HE : EnvLaws}.

Lemma touches_callback cb sock v s :
  sv_socks v !! sock = Some s ->
  exists v', callback env cb sock v = Some v' /\ touches sock [(cb, sock)] v v'.
Proof.
  intros Hs. unfold callback. rewrite Hs. cbn [mbind option_bind].
  unfold ask. pose proof (callback_own cb sock (sv_env v)) as Ho.
  pose proof (pending_callback cb sock (sv_env v)) as Hp.
  destruct (env_callback env cb sock (sv_env v)) as [acts e]. cbn [fst snd] in *.
  destruct (touches_usr_steps sock acts (srv_log (cb, sock) (srv_env_to e v)) s Hs Ho)
    as (v' & -> & Ht). exists v'. split; [done|]. destruct Ht.
  split; try done. etransitivity; [exact t_pending0|exact Hp].
Qed.

(** ** The invariant *)

(** The callbacks made for every socket, last first: nothing before the
    connection is announced, which happens once, and nothing after the
    disconnection. *)
Fixpoint log_ok (log : list (srv_cb * Z)) : Prop :=
  match log with
  | [] => True
  | (cb, c) :: log' =>
      (CbDisconnected, c) ∉ log' /\
      (if decide (cb = CbConnected) then forall cb', (cb', c) ∉ log' else (CbConnected, c) ∈ log') /\
      log_ok log'
  end.

(** Between two events: the connections are live and announced, only announced
    sockets and the server socket are registered, no live socket was reported as
    disconnected, and every freed one was, if it was announced. *)
Record core (v : srv) : Prop := {
  c_count : sv_thread_count v = 0;
  c_relay : sv_relay_events v = [];
  c_socket : is_Some (sv_socks v !! sv_socket v);
  c_socket_cons : sv_socket v ∉ sv_cons v;
  c_cons : forall c, c ∈ sv_cons v -> is_Some (sv_socks v !! c);
  c_next : forall c, is_Some (sv_socks v !! c) -> c < sv_next v;
  c_reg : forall c, c ∈ sv_reg v ->
    c = sv_socket v \/ (is_Some (sv_socks v !! c) /\ (CbConnected, c) ∈ sv_log v);
  c_open : forall c, closed_out c v;
  c_log : log_ok (sv_log v);
  c_log_next : forall cb c, (cb, c) ∈ sv_log v -> c < sv_next v /\ c <> sv_socket v;
  c_live : forall c, is_Some (sv_socks v !! c) -> (CbDisconnected, c) ∉ sv_log v;
  c_conn : forall c, c ∈ sv_cons v -> (CbConnected, c) ∈ sv_log v;
  c_gone : forall cb c, (cb, c) ∈ sv_log v -> sv_socks v !! c = None -> (CbDisconnected, c) ∈ sv_log v
}.

(** The socket of a connection that is handled. *)
Definition handled (sock : Z) (v : srv) : Prop :=
  is_Some (sv_socks v !! sock) /\ sock <> sv_socket v /\ (CbConnected, sock) ∈ sv_log v.

Lemma core_handled sock v : core v -> sock ∈ sv_cons v -> handled sock v.
Proof.
  intros Hc Hs. split; [by apply (c_cons v Hc)|]. split; [|by apply (c_conn v Hc)].
  intros ->. by apply (c_socket_cons v Hc).
Qed.

(** A change of one live socket, with callbacks that are in order. *)
Lemma core_touches sock l v v' :
  core v -> is_Some (sv_socks v !! sock) -> sock <> sv_socket v ->
  Forall (fun x => snd x = sock /\ fst x <> CbDisconnected) l -> log_ok (l ++ sv_log v) ->
  touches sock l v v' -> core v'.
Proof.
  intros [] Hs Hne Hl Hlog []. destruct t_socks0 as [s Es].
  assert (forall c, is_Some (sv_socks v' !! c) <-> is_Some (sv_socks v !! c)) as Hdom.
  { intros c. rewrite Es. destruct (decide (c = sock)) as [->|].
    - rewrite lookup_insert_eq. split; [done|by eexists].
    - by rewrite lookup_insert_ne. }
  assert (forall cb c, (cb, c) ∈ l -> c = sock /\ cb <> CbDisconnected) as Hin.
  { intros cb c Hc. rewrite Forall_forall in Hl. by apply (Hl (cb, c)). }
  split.
  - congruence.
  - congruence.
  - rewrite t_socket0. by apply Hdom.
  - by rewrite t_cons0, t_socket0.
  - intros c. rewrite t_cons0, Hdom. apply c_cons0.
  - intros c. rewrite Hdom, t_next0. apply c_next0.
  - intros c Hc. assert (c ∈ sv_reg v) as Hc' by (destruct t_reg0 as [E1|E1]; rewrite E1 in Hc; set_solver).
    rewrite t_socket0, t_log0, Hdom. destruct (c_reg0 c Hc') as [|[? ?]]; [by left|right]. split; [done|set_solver].
  - intros c. destruct (decide (c = sock)) as [->|Hcs]; [by apply t_open0|]. intros s0.
    rewrite Es, lookup_insert_ne by done. intros H1 H2. specialize (c_open0 c s0 H1 H2).
    destruct t_reg0 as [->| ->]; set_solver.
  - by rewrite t_log0.
  - intros cb c. rewrite t_log0, t_next0, t_socket0, elem_of_app. intros [H|H]; [|eauto].
    apply Hin in H as [-> _]. split; [by apply c_next0|done].
  - intros c Hc. rewrite Hdom in Hc. rewrite t_log0, elem_of_app.
    intros [H|H]; [by apply Hin in H as [_ ?]|by apply (c_live0 c)].
  - intros c. rewrite t_cons0, t_log0, elem_of_app. intros Hc. right. by apply c_conn0.
  - intros cb c. rewrite t_log0, !elem_of_app. intros [H|H] Hn; right.
    + apply Hin in H as [-> _]. assert (is_Some (sv_socks v' !! sock)) as [? Hx] by by apply Hdom.
      congruence.
    + apply (c_gone0 cb c H). destruct (sv_socks v !! c) eqn:Ec; [|done].
      assert (is_Some (sv_socks v' !! c)) as [? Hx] by (apply Hdom; by eexists). congruence.
Qed.

(** The rest of the sockets and of the server. *)
Record after (sock : Z) (v v' : srv) : Prop := {
  a_socket : sv_socket v' = sv_socket v;
  a_next : sv_next v' = sv_next v;
  a_socks : forall c, c <> sock -> sv_socks v' !! c = sv_socks v !! c;
  a_cons : forall c, c <> sock -> c ∈ sv_cons v' <-> c ∈ sv_cons v;
  a_log : sv_log v ⊆ sv_log v';
  a_pending : (pending (sv_env v') <= pending (sv_env v))%nat
}.

Lemma touches_after sock l v v' : touches sock l v v' -> after sock v v'.
Proof.
  intros []. split; try done; [|by rewrite t_cons0|rewrite t_log0; set_solver].
  destruct t_socks0 as [s ->]. intros c Hc. by rewrite lookup_insert_ne.
Qed.

Lemma after_trans sock v1 v2 v3 : after sock v1 v2 -> after sock v2 v3 -> after sock v1 v3.
Proof.
  intros [] []. split; try congruence; [| |set_solver|lia].
  - intros c Hc. rewrite a_socks1, a_socks0; done.
  - intros c Hc. rewrite a_cons1, a_cons0; done.
Qed.

Lemma after_refl sock v : after sock v v.
Proof. by split. Qed.

(** The socket is freed, and the application was told. *)
Definition gone (sock : Z) (v v' : srv) : Prop :=
  sv_socks v' !! sock = None /\ sock ∉ sv_cons v' /\ (CbDisconnected, sock) ∈ sv_log v'.

Lemma handled_touches sock l v v' :
  handled sock v -> touches sock l v v' -> handled sock v'.
Proof.
  intros (H1 & H2 & H3) Ht. split; [by eapply touches_live|]. destruct Ht.
  split; [congruence|]. rewrite t_log0. set_solver.
Qed.

(** Changes of a connection without a callback, or with one for an event. *)
Lemma core_quiet sock v v' : core v -> handled sock v -> touches sock [] v v' -> core v'.
Proof.
  intros Hc (? & ? & ?) Ht. eapply (core_touches sock []); try done. apply (c_log v Hc).
Qed.

Lemma core_event cb sock v v' :
  core v -> handled sock v -> cb <> CbConnected -> cb <> CbDisconnected ->
  touches sock [(cb, sock)] v v' -> core v'.
Proof.
  intros Hc (? & ? & ?) Hne1 Hne2 Ht. eapply (core_touches sock [(cb, sock)]); try done.
  - by constructor.
  - cbn. split; [by apply (c_live v Hc)|]. rewrite decide_False by done.
    split; [done|]. apply (c_log v Hc).
Qed.

(** ** Handlers *)

(** The last callback of a connection, and its end. *)
Lemma core_end sock v v1 :
  core v -> handled sock v -> touches sock [(CbDisconnected, sock)] (srv_cons (sv_cons v ∖ {[sock]}) v) v1 ->
  sock ∉ sv_reg v1 ->
  exists v2, vtm_socket_stream_srv_sock_free sock v1 = Some v2 /\
    core v2 /\ after sock v v2 /\ gone sock v v2.
Proof.
  intros [] (Hl & Hne & Hconn) Ht Hreg. destruct (touches_live _ _ _ _ Ht) as [s1 Hs1].
  unfold vtm_socket_stream_srv_sock_free. pose proof Ht as []. cbn in t_count0.
  rewrite t_count0, c_count0, Hs1. cbn [Z.eqb mbind option_bind]. eexists. split; [done|].
  cbn in *. destruct t_socks0 as [s Es].
  assert (forall c, c <> sock -> delete sock (sv_socks v1) !! c = sv_socks v !! c) as Hother.
  { intros c Hc. rewrite lookup_delete_ne by done. rewrite Es. by rewrite lookup_insert_ne. }
  split; [|split].
  - split; cbn; rewrite ?t_count0, ?t_relay0, ?t_socket0, ?t_cons0, ?t_next0, ?t_log0; try done.
    + by rewrite Hother by done.
    + set_solver.
    + intros c Hc. rewrite Hother by set_solver. apply c_cons0. set_solver.
    + intros c Hc. destruct (decide (c = sock)) as [->|]; [rewrite lookup_delete_eq in Hc; by destruct Hc|].
      rewrite Hother in Hc by done. by apply c_next0.
    + intros c Hc. assert (c <> sock) as Hcs by (by intros ->).
      assert (c ∈ sv_reg v) as Hc' by (destruct t_reg0 as [E1|E1]; rewrite E1 in Hc; set_solver).
      rewrite Hother by done. destruct (c_reg0 c Hc') as [|[? ?]]; [by left|right]. split; [done|set_solver].
    + intros c s0 Hc Hcl. cbn in Hc. destruct (decide (c = sock)) as [->|]; [by rewrite lookup_delete_eq in Hc|].
      rewrite Hother in Hc by done. specialize (c_open0 c s0 Hc Hcl). cbn.
      destruct t_reg0 as [E1| E1]; rewrite E1; set_solver.
    + split; [by apply c_live0|]. done.
    + intros cb c [[= -> ->]|Hc]%elem_of_cons; [|eauto]. split; [by apply c_next0|done].
    + intros c Hc [[= ->]|Hin]%elem_of_cons; [rewrite lookup_delete_eq in Hc; by destruct Hc|].
      destruct (decide (c = sock)) as [->|]; [rewrite lookup_delete_eq in Hc; by destruct Hc|].
      rewrite Hother in Hc by done. by apply (c_live0 c).
    + intros c Hc. right. apply c_conn0. set_solver.
    + intros cb c [[= -> ->]|Hc]%elem_of_cons Hn; [by left|].
      destruct (decide (c = sock)) as [->|]; [by left|]. right.
      rewrite Hother in Hn by done. eauto.
  - split; cbn; try congruence; [done| |rewrite t_log0; set_solver]. intros c Hc. rewrite t_cons0.
    set_solver.
  - unfold gone. cbn [sv_socks srv_socks sv_cons sv_log]. rewrite lookup_delete_eq. split; [done|]. rewrite t_cons0, t_log0. set_solver.
Qed.

Lemma closed_ok sock v :
  core v -> sock ∈ sv_cons v ->
  exists v', vtm_socket_stream_srv_sock_closed env sock v = Some v' /\
    core v' /\ after sock v v' /\ gone sock v v'.
Proof.
  intros Hc Hs. pose proof (core_handled sock v Hc Hs) as Hh. pose proof Hh as ([s Hl] & _).
  unfold vtm_socket_stream_srv_sock_closed. rewrite decide_True by done.
  set (v1 := srv_cons _ v). unfold listener_remove. cbn [sv_socks v1 srv_cons]. rewrite Hl.
  cbn [mbind option_bind].
  assert (exists v2, (if flag_any (s_state s) VTM_SOCK_STAT_CLOSED then Some v1
     else Some (srv_reg (sv_reg v1 ∖ {[sock]}) v1)) = Some v2 /\ touches sock [] v1 v2 /\
     sock ∉ sv_reg v2) as (v2 & -> & Ht2 & Hr2).
  { unfold VTM_SOCK_STAT_CLOSED. rewrite flag_any_bit by lia.
    destruct (Z.testbit (s_state s) 1) eqn:Ecl; eexists; (split; [done|]).
    - split; [by eapply touches_refl|]. by apply (c_open v Hc sock s).
    - split; [|cbn; set_solver]. split; try done; [exists s; by rewrite insert_id|by right|].
      intros Ho s0 H1 H2. cbn. set_solver. }
  cbn [mbind option_bind]. destruct (touches_live _ _ _ _ Ht2) as [s2 Hs2].
  destruct (touches_callback CbDisconnected sock v2 s2 Hs2) as (v3 & -> & Ht3).
  cbn [mbind option_bind]. pose proof (touches_trans _ _ _ _ _ _ Ht2 Ht3) as Ht.
  apply (core_end sock v v3 Hc Hh Ht). destruct Ht3. destruct t_reg0 as [->| ->]; set_solver.
Qed.

Lemma error_ok sock v :
  core v -> handled sock v ->
  exists v', vtm_socket_stream_srv_sock_error env sock v = Some v' /\ core v' /\ after sock v v' /\
    (if decide (sock ∈ sv_cons v) then gone sock v v' else handled sock v' /\ sock ∉ sv_cons v').
Proof.
  intros Hc Hh. pose proof Hh as ([s Hs] & _). unfold vtm_socket_stream_srv_sock_error.
  destruct (touches_callback CbError sock v s Hs) as (v1 & -> & Ht1). cbn [mbind option_bind].
  destruct (touches_live _ _ _ _ Ht1) as [s1 Hs1].
  destruct (touches_close sock v1 s1 Hs1) as (v2 & s2 & -> & Ht2 & Hs2 & _). cbn [mbind option_bind].
  pose proof (core_event CbError sock v v1 Hc Hh ltac:(done) ltac:(done) Ht1) as Hc1.
  pose proof (handled_touches _ _ _ _ Hh Ht1) as Hh1.
  pose proof (core_quiet sock v1 v2 Hc1 Hh1 Ht2) as Hc2.
  pose proof (handled_touches _ _ _ _ Hh1 Ht2) as Hh2.
  pose proof (after_trans _ _ _ _ (touches_after _ _ _ _ Ht1) (touches_after _ _ _ _ Ht2)) as Ha.
  assert (sv_cons v2 = sv_cons v) as Econs by (destruct Ht1, Ht2; congruence).
  case_decide as Hin.
  - rewrite <- Econs in Hin. destruct (closed_ok sock v2 Hc2 Hin) as (v3 & -> & Hc3 & Ha3 & Hg).
    exists v3. split; [done|]. split; [done|]. split; [by eapply after_trans|done].
  - unfold vtm_socket_stream_srv_sock_closed. rewrite <- Econs in Hin. rewrite decide_False by done.
    by exists v2.
Qed.

(** How the evaluation of a socket ends. *)
Definition ended (sock : Z) (v v' : srv) : Prop :=
  if decide (sock ∈ sv_cons v) then gone sock v v' else handled sock v' /\ sock ∉ sv_cons v'.

Lemma closed_or_not sock v :
  core v -> handled sock v ->
  exists v', vtm_socket_stream_srv_sock_closed env sock v = Some v' /\ core v' /\ after sock v v' /\
    ended sock v v'.
Proof.
  intros Hc Hh. unfold ended. case_decide as Hin; [by apply closed_ok|].
  unfold vtm_socket_stream_srv_sock_closed. rewrite decide_False by done.
  exists v. split; [done|]. split; [done|]. split; [apply after_refl|done].
Qed.

Lemma ended_touches sock l v v1 v2 :
  touches sock l v v1 -> ended sock v1 v2 -> ended sock v v2.
Proof. intros []. unfold ended. by rewrite t_cons0. Qed.

Lemma eval_ok sock v s :
  core v -> handled sock v -> sv_socks v !! sock = Some s ->
  exists r v', sock_check_eval env sock v = Some (r, v') /\ core v' /\ after sock v v' /\
    match r with
    | Some rc => rc <> VTM_OK /\ ended sock v v'
    | None => v' = v /\ Z.testbit (s_state s) 1 = false
    end.
Proof.
  intros Hc Hh Hs. unfold sock_check_eval, sock_state. rewrite Hs. cbn [mbind option_bind].
  unfold vtm_socket_get_state, VTM_SOCK_STAT_ERR, VTM_SOCK_STAT_CLOSED, VTM_SOCK_STAT_HUP.
  rewrite !flag_any_bit by lia.
  destruct (Z.testbit (s_state s) 0).
  { destruct (error_ok sock v Hc Hh) as (v' & -> & ? & ? & ?). cbn [mbind option_bind].
    by eexists _, v'. }
  destruct (Z.testbit (s_state s) 1) eqn:E1.
  { destruct (closed_or_not sock v Hc Hh) as (v' & -> & ? & ? & ?). cbn [mbind option_bind].
    by eexists _, v'. }
  destruct (Z.testbit (s_state s) 2); cycle 1.
  { exists None, v. split; [done|]. split; [done|]. split; [apply after_refl|done]. }
  destruct (touches_close sock v s Hs) as (v1 & s1 & -> & Ht & _). cbn [mbind option_bind].
  destruct (closed_or_not sock v1) as (v' & -> & Hc' & Ha & He);
    [by eapply core_quiet|by eapply handled_touches|].
  cbn [mbind option_bind]. eexists _, v'. split; [done|]. split; [done|].
  split; [eapply after_trans; [by eapply touches_after|done]|]. split; [done|].
  by eapply ended_touches.
Qed.

Lemma check_ok sock rearm v :
  core v -> handled sock v ->
  exists rc v', vtm_socket_stream_srv_sock_check env sock rearm v = Some (rc, v') /\ core v' /\
    after sock v v' /\
    (rc = VTM_OK -> touches sock [] v v' /\ (rearm = false -> v' = v)) /\
    (rc <> VTM_OK -> ended sock v v').
Proof.
  intros Hc Hh. pose proof Hh as ([s Hs] & _). unfold vtm_socket_stream_srv_sock_check.
  destruct (eval_ok sock v s Hc Hh Hs) as (r & v1 & -> & Hc1 & Ha1 & Hr). cbn [mbind option_bind].
  destruct r as [rc|].
  { destruct Hr as [Hne He]. exists rc, v1. split; [done|]. split; [done|]. split; [done|]. split; done. }
  destruct Hr as [-> _]. destruct rearm; cycle 1.
  { exists VTM_OK, v. split; [done|]. split; [done|]. split; [done|]. split; [|done].
    split; [by eapply touches_refl|done]. }
  unfold listener_rearm. rewrite Hs. cbn [mbind option_bind].
  destruct (touches_ask (env_rearm env sock) sock v s Hs (pending_rearm sock))
    as (rc & v2 & -> & Ht2 & Es2 & _). cbn [mbind option_bind].
  pose proof (core_quiet sock v v2 Hc Hh Ht2) as Hc2. pose proof (handled_touches _ _ _ _ Hh Ht2) as Hh2.
  destruct (rc =? VTM_OK) eqn:Er; bsplit.
  { exists VTM_OK, v2. split; [done|]. split; [done|]. split; [by eapply touches_after|].
    by split. }
  rewrite <- Es2 in Hs. destruct (touches_close sock v2 s Hs) as (v3 & s3 & -> & Ht3 & Hs3 & Hcl & _).
  cbn [mbind option_bind].
  destruct (eval_ok sock v3 s3) as (r & v4 & -> & Hc4 & Ha4 & Hr);
    [by eapply core_quiet|by eapply handled_touches|done|].
  cbn [mbind option_bind]. destruct r as [rc4|]; [|destruct Hr as [_ Hr]; congruence].
  destruct Hr as [Hne He]. exists rc4, v4. split; [done|]. split; [done|]. split.
  { eapply after_trans; [by eapply touches_after|]. eapply after_trans; [by eapply touches_after|done]. }
  split; [done|]. intros _. eapply ended_touches; [done|]. by eapply ended_touches.
Qed.

(** A callback for an event of a connection, and what follows. *)
Lemma can_io_ok cb sock v :
  cb = CbCanRead \/ cb = CbCanWrite -> core v -> handled sock v ->
  exists v', (v ← callback env cb sock v;
              '(_, v) ← vtm_socket_stream_srv_sock_check env sock true v; Some v) = Some v' /\
    core v' /\ after sock v v'.
Proof.
  intros Hcb Hc Hh. pose proof Hh as ([s Hs] & _).
  destruct (touches_callback cb sock v s Hs) as (v1 & -> & Ht1). cbn [mbind option_bind].
  destruct (check_ok sock true v1) as (rc & v2 & -> & Hc2 & Ha2 & _).
  - eapply core_event; [done|done| | |exact Ht1]; by destruct Hcb as [->| ->].
  - by eapply handled_touches.
  - cbn [mbind option_bind]. exists v2. split; [done|]. split; [done|].
    eapply after_trans; [by eapply touches_after|done].
Qed.

(** ** New connections *)

(** A live socket that nobody was told about. *)
Definition fresh_sock (sock : Z) (v : srv) : Prop :=
  is_Some (sv_socks v !! sock) /\ sock <> sv_socket v /\ sock ∉ sv_cons v /\
  forall cb, (cb, sock) ∉ sv_log v.

Lemma core_fresh sock v v' :
  core v -> fresh_sock sock v -> touches sock [] v v' -> core v' /\ fresh_sock sock v'.
Proof.
  intros Hc (H1 & H2 & H3 & H4) Ht. split.
  - eapply (core_touches sock []); try done. apply (c_log v Hc).
  - split; [by eapply touches_live|]. destruct Ht. rewrite t_socket0, t_cons0, t_log0. done.
Qed.

Lemma not_registered sock v : core v -> fresh_sock sock v -> sock ∉ sv_reg v.
Proof.
  intros Hc (_ & Hne & _ & Hlog) Hin. destruct (c_reg v Hc sock Hin) as [|[_ Hx]]; [done|]. by apply Hlog in Hx.
Qed.

Lemma free_unannounced sock v :
  core v -> fresh_sock sock v ->
  exists v', vtm_socket_stream_srv_sock_free sock v = Some v' /\ core v' /\ after sock v v'.
Proof.
  intros Hc Hf. pose proof (not_registered sock v Hc Hf) as Hreg. destruct Hf as (Hl & Hne & Hnc & Hlog).
  unfold vtm_socket_stream_srv_sock_free. destruct Hl as [s Hs].
  pose proof Hc as []. rewrite c_count0, Hs. cbn [Z.eqb mbind option_bind]. eexists. split; [done|].
  assert (forall c, is_Some (delete sock (sv_socks v) !! c) <-> c <> sock /\ is_Some (sv_socks v !! c)) as Hd.
  { intros c. destruct (decide (c = sock)) as [->|].
    - rewrite lookup_delete_eq. split; [by intros []|by intros []].
    - rewrite lookup_delete_ne by done. tauto. }
  split; split; cbn [sv_socks sv_socket sv_thread_count sv_relay_events sv_cons sv_next sv_reg sv_log
                     sv_env srv_socks]; try done.
  - apply Hd. done.
  - intros c Hc'. apply Hd. split; [by intros ->|by apply c_cons0].
  - intros c [_ Hc']%Hd. by apply c_next0.
  - intros c Hc'. destruct (c_reg0 c Hc') as [|[? ?]]; [by left|right]. split; [|done]. apply Hd.
    split; [by intros ->|done].
  - intros c s0. cbn [sv_socks srv_socks sv_reg]. destruct (decide (c = sock)) as [->|];
      [by rewrite lookup_delete_eq|]. rewrite lookup_delete_ne by done. apply c_open0.
  - intros c [_ Hc']%Hd. by apply c_live0.
  - intros cb c Hin. destruct (decide (c = sock)) as [->|]; [by apply Hlog in Hin|].
    rewrite lookup_delete_ne by done. eauto.
  - intros c Hc'. by rewrite lookup_delete_ne.
Qed.

(** A socket that the application knows and the listener watches. *)
Lemma core_registered sock v :
  core v -> handled sock v ->
  (forall s, sv_socks v !! sock = Some s -> Z.testbit (s_state s) 1 = false) ->
  core (srv_reg ({[sock]} ∪ sv_reg v) v).
Proof.
  intros Hc (Hl & Hne & Hconn) Hopen. destruct Hc.
  split; cbn [sv_socks sv_socket sv_thread_count sv_relay_events sv_cons sv_next sv_reg sv_log
              sv_env srv_socks srv_cons srv_reg]; try done.
  - intros c [Hx|Hx]%elem_of_union; [|by apply c_reg0]. apply elem_of_singleton in Hx as ->. by right.
  - intros c s0. cbn [sv_socks srv_socks sv_reg srv_cons srv_reg]. intros Hs Ht.
    destruct (decide (c = sock)) as [->|]; [by rewrite (Hopen s0 Hs) in Ht|].
    specialize (c_open0 c s0 Hs Ht). set_solver.
Qed.

(** A connection. *)
Lemma core_connected sock v :
  core v -> handled sock v -> core (srv_cons ({[sock]} ∪ sv_cons v) v).
Proof.
  intros Hc (Hl & Hne & Hconn). destruct Hc.
  split; cbn [sv_socks sv_socket sv_thread_count sv_relay_events sv_cons sv_next sv_reg sv_log
              sv_env srv_socks srv_cons srv_reg]; try done.
  - set_solver.
  - intros c [Hx|Hx]%elem_of_union; [|by apply c_cons0]. apply elem_of_singleton in Hx as ->. done.
  - intros c [Hx|Hx]%elem_of_union; [|by apply c_conn0]. apply elem_of_singleton in Hx as ->. done.
Qed.

(** The connection is announced. *)
Lemma announce_ok sock v1 :
  core v1 -> fresh_sock sock v1 ->
  exists v2 v3, with_sock sock (fun s => Some (vtm_socket_set_state s VTM_SOCK_STAT_NONBLOCKING)) v1 = Some v2 /\
    sv_env v2 = sv_env v1 /\ callback env CbConnected sock v2 = Some v3 /\
    core v3 /\ handled sock v3 /\ sock ∉ sv_cons v3 /\ after sock v1 v3.
Proof.
  intros Hc1 Hf1. pose proof Hf1 as ([s Hs] & _).
  destruct (touches_with_sock sock (fun s => Some (vtm_socket_set_state s VTM_SOCK_STAT_NONBLOCKING))
    v1 s _ Hs eq_refl) as (v2 & E2 & Ht2 & Hs2 & _).
  { flag_bits. change (Z.testbit VTM_SOCK_STAT_NONBLOCKING 1) with false. by rewrite orb_false_r. }
  destruct (core_fresh sock v1 v2 Hc1 Hf1 Ht2) as [Hc2 Hf2].
  destruct (touches_callback CbConnected sock v2 _ Hs2) as (v3 & E3 & Ht3).
  exists v2, v3. split; [done|]. split.
  { unfold with_sock in E2. rewrite Hs in E2. by injection E2 as <-. }
  split; [done|]. split.
  { apply (core_touches sock [(CbConnected, sock)] v2 v3 Hc2 (proj1 Hf2) (proj1 (proj2 Hf2)));
      [by repeat constructor| |exact Ht3].
    cbn. destruct Hf2 as (_ & _ & _ & Hl2). split; [apply Hl2|]. rewrite decide_True by done.
    split; [done|apply (c_log v2 Hc2)]. }
  split.
  { split; [by eapply touches_live|]. destruct Ht3. rewrite t_socket0, t_log0. split; [apply Hf2|].
    set_solver. }
  split; [destruct Ht3; rewrite t_cons0; apply Hf2|].
  eapply after_trans; by eapply touches_after.
Qed.

Lemma accepted_ok sock v :
  core v -> fresh_sock sock v ->
  exists v', vtm_socket_stream_srv_sock_accepted env sock v = Some v' /\ core v' /\ after sock v v'.
Proof.
  intros Hc Hf. pose proof Hf as ([s Hs] & Hne & Hnc & Hlog).
  unfold vtm_socket_stream_srv_sock_accepted. rewrite Hs. cbn [mbind option_bind].
  destruct (touches_ask (env_nonblocking env sock) sock v s Hs (pending_nonblocking sock))
    as (rc & v1 & -> & Ht1 & Es1 & _). destruct (core_fresh sock v v1 Hc Hf Ht1) as [Hc1 Hf1].
  pose proof (touches_after _ _ _ _ Ht1) as Ha1. rewrite <- Es1 in Hs.
  destruct (rc =? VTM_OK); cbn [negb]; cycle 1.
  { destruct (touches_close sock v1 s Hs) as (v2 & s2 & -> & Ht2 & _). cbn [mbind option_bind].
    destruct (core_fresh sock v1 v2 Hc1 Hf1 Ht2) as [Hc2 Hf2].
    destruct (free_unannounced sock v2 Hc2 Hf2) as (v3 & -> & Hc3 & Ha3). exists v3. split; [done|].
    split; [done|]. eapply after_trans; [done|]. eapply after_trans; [by eapply touches_after|done]. }
  destruct (announce_ok sock v1 Hc1 Hf1) as (v2 & v3 & -> & _ & Hcb & Hc3 & Hh3 & Hnc3 & Ha13).
  cbn [mbind option_bind]. rewrite Hcb. cbn [mbind option_bind].
  pose proof (after_trans _ _ _ _ Ha1 Ha13) as Ha3.
  pose proof Hh3 as ([s3 Hs3] & _).
  unfold vtm_socket_stream_srv_sock_check.
  destruct (eval_ok sock v3 s3 Hc3 Hh3 Hs3) as (r & v4 & -> & Hc4 & Ha4 & Hr). cbn [mbind option_bind].
  destruct r as [rc4|]; cbn [mbind option_bind].
  { destruct Hr as [Hne4 _]. rewrite (proj2 (Z.eqb_neq _ _)) by done. cbn [negb].
    exists v4. split; [done|]. split; [done|]. by eapply after_trans. }
  destruct Hr as [-> Hopen]. change (VTM_OK =? VTM_OK) with true. cbn [negb].
  destruct (touches_with_sock sock (fun s => Some (vtm_socket_set_state s VTM_SOCK_STAT_NBL_READ))
    v3 s3 _ Hs3 eq_refl) as (v5 & -> & Ht5 & Hs5 & _).
  { flag_bits. change (Z.testbit VTM_SOCK_STAT_NBL_READ 1) with false. by rewrite orb_false_r. }
  cbn [mbind option_bind].
  pose proof (core_quiet sock v3 v5 Hc3 Hh3 Ht5) as Hc5. pose proof (handled_touches _ _ _ _ Hh3 Ht5) as Hh5.
  unfold listener_add. rewrite Hs5. cbn [mbind option_bind].
  destruct (touches_ask (env_listener_add env sock) sock v5 _ Hs5 (pending_add sock))
    as (rc6 & v6 & -> & Ht6 & Es6 & _).
  pose proof (core_quiet sock v5 v6 Hc5 Hh5 Ht6) as Hc6. pose proof (handled_touches _ _ _ _ Hh5 Ht6) as Hh6.
  assert (after sock v v6) as Ha6.
  { eapply after_trans; [exact Ha3|]. eapply after_trans; [by eapply touches_after|]. by eapply touches_after. }
  assert (sock ∉ sv_cons v6) as Hnc6 by (destruct Ht5, Ht6; congruence).
  rewrite <- Es6 in Hs5. cbn [mbind option_bind]. destruct (rc6 =? VTM_OK).
  { set (v7 := srv_reg _ v6). assert (core v7) as Hc7.
    { apply (core_registered sock v6 Hc6 Hh6). intros s6 Hs6. rewrite Hs5 in Hs6. injection Hs6 as <-.
      flag_bits. change (Z.testbit VTM_SOCK_STAT_NBL_READ 1) with false. by rewrite Hopen. }
    assert (handled sock v7) as Hh7 by exact Hh6.
    destruct (touches_ask (env_malloc env) sock v7 _ Hs5 pending_malloc) as (ok & v8 & -> & Ht8 & _).
    pose proof (core_quiet sock v7 v8 Hc7 Hh7 Ht8) as Hc8. pose proof (handled_touches _ _ _ _ Hh7 Ht8) as Hh8.
    assert (after sock v v8) as Ha8.
    { eapply after_trans; [exact Ha6|]. eapply after_trans; [|by eapply touches_after]. by split. }
    destruct ok; eexists; (split; [done|]); [|done]. split; [by apply core_connected|].
    destruct Ha8. split; cbn [sv_socks sv_socket sv_cons sv_next sv_env srv_cons]; try done.
    intros c Hcs. rewrite elem_of_union, elem_of_singleton, <- (a_cons0 c Hcs). tauto. }
  destruct (touches_close sock v6 _ Hs5) as (v7 & s7 & -> & Ht7 & Hs7 & _ & Hr7). cbn [mbind option_bind].
  pose proof (core_quiet sock v6 v7 Hc6 Hh6 Ht7) as Hc7. pose proof (handled_touches _ _ _ _ Hh6 Ht7) as Hh7.
  destruct (touches_callback CbDisconnected sock v7 s7 Hs7) as (v8 & -> & Ht8). cbn [mbind option_bind].
  assert (sock ∉ sv_cons v7) as Hnc7 by (destruct Ht7; congruence).
  destruct (core_end sock v7 v8 Hc7 Hh7) as (v9 & -> & Hc9 & Ha9 & _).
  - replace (srv_cons (sv_cons v7 ∖ {[sock]}) v7) with v7; [done|].
    destruct v7. unfold srv_cons. cbn in *. f_equal. set_solver.
  - assert (sock ∉ sv_reg v7).
    { destruct Hr7 as [->|Hr7]; [set_solver|]. exfalso. revert Hr7. flag_bits.
      change (Z.testbit VTM_SOCK_STAT_NBL_READ 1) with false. by rewrite Hopen. }
    destruct Ht8. destruct t_reg0 as [->| ->]; set_solver.
  - exists v9. split; [done|]. split; [done|]. eapply after_trans; [done|].
    eapply after_trans; [by eapply touches_after|done].
Qed.

(** ** Accepting *)

(** Only new sockets are added. *)
Record grows (v v' : srv) : Prop := {
  g_socket : sv_socket v' = sv_socket v;
  g_next : sv_next v <= sv_next v';
  g_socks : forall c, c < sv_next v -> c <> sv_socket v -> sv_socks v' !! c = sv_socks v !! c;
  g_cons : forall c, c < sv_next v -> c ∈ sv_cons v' <-> c ∈ sv_cons v;
  g_log : sv_log v ⊆ sv_log v';
  g_pending : (pending (sv_env v') <= pending (sv_env v))%nat
}.

Lemma grows_trans v1 v2 v3 : grows v1 v2 -> grows v2 v3 -> grows v1 v3.
Proof.
  intros [] []. split; [congruence|lia| | |set_solver|lia].
  - intros c Hc Hne. rewrite g_socks1, g_socks0; [done|done|done|lia|congruence].
  - intros c Hc. rewrite g_cons1, g_cons0; [done|done|lia].
Qed.

Lemma after_grows sock v0 v v' : sv_next v0 <= sock -> grows v0 v -> after sock v v' -> grows v0 v'.
Proof.
  intros Hs [] []. split; [congruence|lia| | |set_solver|lia].
  - intros c Hc Hne. rewrite a_socks0, g_socks0; [done|done|done|lia].
  - intros c Hc. rewrite a_cons0, g_cons0; [done|done|lia].
Qed.

Lemma core_server_sock v s s0 :
  core v -> sv_socks v !! sv_socket v = Some s0 ->
  (Z.testbit (s_state s) 1 = true -> Z.testbit (s_state s0) 1 = true) ->
  let v' := srv_socks (<[sv_socket v := s]> (sv_socks v)) v in core v' /\ grows v v'.
Proof.
  intros Hc Hs Hb. pose proof Hc as [].
  assert (forall c, is_Some (<[sv_socket v := s]> (sv_socks v) !! c) <-> is_Some (sv_socks v !! c)) as Hd.
  { intros c. destruct (decide (c = sv_socket v)) as [->|].
    - rewrite lookup_insert_eq. split; [done|by eexists].
    - by rewrite lookup_insert_ne. }
  split; split; cbn [sv_socks sv_socket sv_thread_count sv_relay_events sv_cons sv_next sv_reg sv_log
                     sv_env srv_socks]; try done; try lia.
  - by apply Hd.
  - intros c Hc'. by apply Hd, c_cons0.
  - intros c Hc'%Hd. by apply c_next0.
  - intros c Hc'. destruct (c_reg0 c Hc') as [|[? ?]]; [by left|right]. split; [by apply Hd|done].
  - intros c s1. cbn [sv_socks srv_socks sv_reg]. destruct (decide (c = sv_socket v)) as [->|].
    + rewrite lookup_insert_eq. intros [= <-] Ht. eapply c_open0; eauto.
    + rewrite lookup_insert_ne by done. apply c_open0.
  - intros c Hc'%Hd. by apply c_live0.
  - intros cb c Hin. destruct (decide (c = sv_socket v)) as [->|];
      [by destruct (c_log_next0 _ _ Hin)|]. rewrite lookup_insert_ne by done. eauto.
  - intros c Hlt Hne. by rewrite lookup_insert_ne.
Qed.

Lemma core_new_sock v s :
  core v -> Z.testbit (s_state s) 1 = false ->
  core (srv_new_sock s v) /\ fresh_sock (sv_next v) (srv_new_sock s v) /\ grows v (srv_new_sock s v).
Proof.
  intros Hc Hb. pose proof Hc as [].
  assert (sv_socks v !! sv_next v = None) as Hn.
  { destruct (sv_socks v !! sv_next v) eqn:En; [|done].
    assert (sv_next v < sv_next v); [apply c_next0; by eexists|lia]. }
  assert (forall c, is_Some (<[sv_next v := s]> (sv_socks v) !! c)
                    <-> c = sv_next v \/ is_Some (sv_socks v !! c)) as Hd.
  { intros c. destruct (decide (c = sv_next v)) as [->|].
    - rewrite lookup_insert_eq. split; [by left|by eexists].
    - rewrite lookup_insert_ne by done. tauto. }
  assert (forall cb, (cb, sv_next v) ∉ sv_log v) as Hl.
  { intros cb Hin. apply c_log_next0 in Hin as [? _]. lia. }
  assert (sv_next v <> sv_socket v) as Hne.
  { intros E1. rewrite <- E1 in c_socket0. by rewrite Hn in c_socket0; destruct c_socket0. }
  assert (sv_next v ∉ sv_cons v) as Hnc.
  { intros Hin. apply c_cons0 in Hin. by rewrite Hn in Hin; destruct Hin. }
  split; [|split; [|split]]; cbn [sv_socks sv_socket sv_thread_count sv_relay_events sv_cons sv_next sv_reg
                             sv_log sv_env srv_new_sock]; try done; try lia.
  - split; cbn [sv_socks sv_socket sv_thread_count sv_relay_events sv_cons sv_next sv_reg sv_log
                sv_env srv_new_sock]; try done.
    + apply Hd. by right.
    + intros c Hc'. apply Hd. right. by apply c_cons0.
    + intros c [->|Hc']%Hd; [lia|]. specialize (c_next0 c Hc'). lia.
    + intros c Hc'. destruct (c_reg0 c Hc') as [|[? ?]]; [by left|right]. split; [|done]. apply Hd. by right.
    + intros c s1. cbn [sv_socks srv_new_sock sv_reg]. destruct (decide (c = sv_next v)) as [->|].
      * rewrite lookup_insert_eq. intros [= <-]. congruence.
      * rewrite lookup_insert_ne by done. apply c_open0.
    + intros cb c Hin. destruct (c_log_next0 _ _ Hin). split; [lia|done].
    + intros c [->|Hc']%Hd; [apply Hl|]. by apply c_live0.
    + intros cb c Hin. destruct (decide (c = sv_next v)) as [->|]; [by apply Hl in Hin|].
      rewrite lookup_insert_ne by done. eauto.
  - split; [|done]. cbn. rewrite lookup_insert_eq. by eexists.
  - intros c Hlt Hns. rewrite lookup_insert_ne; [done|lia].
Qed.

Lemma core_env e v :
  core v -> (pending e <= pending (sv_env v))%nat ->
  core (srv_env_to e v) /\ grows v (srv_env_to e v).
Proof. intros [] ?. split; by split. Qed.

Lemma srv_accept_ok v :
  core v ->
  exists rc client v', srv_accept env v = Some (rc, client, v') /\ core v' /\ grows v v' /\
    match client with
    | Some c => c = sv_next v /\ fresh_sock c v' /\ (pending (sv_env v') < pending (sv_env v))%nat
    | None => True
    end.
Proof.
  intros Hc. pose proof (c_socket v Hc) as [s Hs]. unfold srv_accept. rewrite Hs.
  cbn [mbind option_bind]. destruct (VTM_SOCKET_IS_CLOSED s) eqn:Ecl.
  { eexists _, _, v. split; [done|]. split; [done|]. split; [|done]. by split. }
  destruct (core_server_sock v (vtm_socket_unset_state s VTM_SOCK_STAT_READ_AGAIN) s Hc Hs) as [Hc1 Hg1].
  { flag_bits. change (Z.testbit VTM_SOCK_STAT_READ_AGAIN 1) with false. by rewrite andb_true_r. }
  set (v1 := srv_socks _ v) in *. unfold ask.
  pose proof (pending_accept (sv_env v1)) as Hp. pose proof (pending_accept_ok (sv_env v1)) as Hpo.
  destruct (env_accept env (sv_env v1)) as [rc e]. cbn [fst snd] in *.
  destruct (core_env e v1 Hc1 Hp) as [Hc2 Hg2]. set (v2 := srv_env_to e v1) in *.
  pose proof (grows_trans _ _ _ Hg1 Hg2) as Hg.
  destruct (rc =? VTM_OK) eqn:Eok; bsplit.
  - specialize (Hpo Eok).
    destruct (core_new_sock v2 (mk_sock (sv_next v2) (s_family s) (s_type s) false
      VTM_SOCK_STAT_DEFAULT 0 0) Hc2 eq_refl) as (Hc3 & Hf3 & Hg3).
    eexists _, (Some (sv_next v2)), _. split; [done|]. split; [exact Hc3|].
    split; [by eapply grows_trans|]. done.
  - destruct (rc =? VTM_E_IO_AGAIN).
    + unfold with_sock. change (sv_socks v2) with (<[sv_socket v := vtm_socket_unset_state s VTM_SOCK_STAT_READ_AGAIN]> (sv_socks v)).
      change (sv_socket v2) with (sv_socket v). rewrite lookup_insert_eq. cbn [mbind option_bind].
      destruct (core_server_sock v2 (vtm_socket_set_state_intl
        (vtm_socket_unset_state s VTM_SOCK_STAT_READ_AGAIN) VTM_SOCK_STAT_READ_AGAIN)
        (vtm_socket_unset_state s VTM_SOCK_STAT_READ_AGAIN) Hc2) as [Hc3 Hg3].
      { apply lookup_insert_eq. }
      { flag_bits. change (Z.testbit VTM_SOCK_STAT_READ_AGAIN 1) with false.
        by rewrite orb_false_r. }
      eexists _, None, _. split; [done|]. split; [exact Hc3|]. split; [by eapply grows_trans|done].
    + by exists rc, None, v2.
Qed.

Lemma rearm_server_ok v :
  core v -> exists rc v', listener_rearm env (sv_socket v) v = Some (rc, v') /\ core v' /\ grows v v'.
Proof.
  intros Hc. pose proof (c_socket v Hc) as [s Hs]. unfold listener_rearm. rewrite Hs.
  cbn [mbind option_bind]. unfold ask. pose proof (pending_rearm (sv_socket v) (sv_env v)) as Hp.
  destruct (env_rearm env (sv_socket v) (sv_env v)) as [rc e]. cbn in Hp.
  destruct (core_env e v Hc Hp). by exists rc, (srv_env_to e v).
Qed.

Lemma accept_loop_ok fuel errc v :
  core v -> 0 <= errc < 100 -> (100 * pending (sv_env v) + (100 - Z.to_nat errc) <= fuel)%nat ->
  exists rc v', accept_loop env fuel true errc v = Some (rc, v') /\ core v' /\ grows v v'.
Proof.
  revert errc v; induction fuel as [|fuel IH]; intros errc v Hc He Hf; [lia|]. cbn [accept_loop].
  destruct (srv_accept_ok v Hc) as (rc & client & v1 & -> & Hc1 & Hg1 & Hcl). cbn [mbind option_bind].
  destruct client as [c|].
  - destruct Hcl as (-> & Hf1 & Hp1). destruct (accepted_ok _ v1 Hc1 Hf1) as (v2 & -> & Hc2 & Ha2).
    cbn [mbind option_bind]. pose proof (after_grows _ _ _ _ (Z.le_refl _) Hg1 Ha2) as Hg2.
    destruct (IH 0 v2 Hc2) as (rc3 & v3 & -> & Hc3 & Hg3); [lia|destruct Ha2; lia|].
    exists rc3, v3. split; [done|]. split; [done|]. by eapply grows_trans.
  - assert (forall v2, core v2 -> grows v v2 -> (exists rc v', listener_rearm env (sv_socket v2) v2 = Some (rc, v')
      /\ core v' /\ grows v v')) as Hre.
    { intros v2 Hc2 Hg2. destruct (rearm_server_ok v2 Hc2) as (rc2 & v3 & -> & Hc3 & Hg3).
      exists rc2, v3. split; [done|]. split; [done|]. by eapply grows_trans. }
    destruct (rc =? VTM_E_IO_AGAIN); [by apply Hre|].
    unfold VTM_STREAM_SRV_ACCEPT_MAX_ERRORS. destruct (errc + 1 <? 100) eqn:Elt; bsplit; [|by apply Hre].
    destruct (IH (errc + 1) v1 Hc1) as (rc3 & v3 & -> & Hc3 & Hg3); [lia|destruct Hg1; lia|].
    exists rc3, v3. split; [done|]. split; [done|]. by eapply grows_trans.
Qed.

(** ** Events *)

(** Enough for the connections that wait, with 100 failures after each. *)
Definition accept_fuel (v : srv) : nat := 100 * pending (sv_env v) + 100.

(** What a listener reports: readability for the server socket; for another
    live socket that was announced, as all registered ones are, an end, an error,
    or readability or writability but not both, as the automatic mode of sockets
    asks for. *)
Definition event_ok (v : srv) (e : vtm_socket_event) : Prop :=
  let has := flag_any (ev_events e) in
  if decide (ev_sock e = sv_socket v) then
    has VTM_SOCK_EVT_READ = true /\ has VTM_SOCK_EVT_WRITE = false /\
    has VTM_SOCK_EVT_CLOSED = false /\ has VTM_SOCK_EVT_ERROR = false
  else handled (ev_sock e) v /\ (has VTM_SOCK_EVT_READ && has VTM_SOCK_EVT_WRITE)%bool = false.

Definition batch_ok (v : srv) (events : list vtm_socket_event) : Prop :=
  NoDup (map ev_sock events) /\ Forall (event_ok v) events.

Lemma core_cur x v : core v -> core (srv_cur x v).
Proof. by intros []. Qed.

(** An event leaves the other connections alone. *)
Definition others (sock : Z) (v v' : srv) : Prop :=
  sv_socket v' = sv_socket v /\ sv_next v <= sv_next v' /\
  (pending (sv_env v') <= pending (sv_env v))%nat /\
  forall c, c <> sock -> handled c v -> handled c v'.

Lemma after_others sock v v' : after sock v v' -> others sock v v'.
Proof.
  intros []. split; [done|]. split; [lia|]. split; [done|]. intros c Hc (Hl & Hne & Hlog).
  split; [by rewrite a_socks0|]. split; [congruence|]. by apply a_log0.
Qed.

(** Reading and writing after a report that the socket is readable ([b]) or
    writable. *)
Lemma io_ok (b : bool) sock v :
  core v -> handled sock v ->
  exists v', (st ← sock_state sock v;
    if flag_any st (if b then VTM_SOCK_STAT_WRITE_AGAIN_WHEN_READABLE
                    else VTM_SOCK_STAT_READ_AGAIN_WHEN_WRITEABLE)
    then (if b then vtm_socket_stream_srv_sock_can_write env sock v
          else vtm_socket_stream_srv_sock_can_read env sock v)
    else (if b then vtm_socket_stream_srv_sock_can_read env sock v
          else vtm_socket_stream_srv_sock_can_write env sock v)) = Some v' /\
    core v' /\ others sock v v'.
Proof.
  intros Hc Hin. pose proof Hin as ([s Hs] & _).
  unfold sock_state. rewrite Hs. cbn [mbind option_bind].
  destruct (can_io_ok CbCanRead sock v (or_introl eq_refl) Hc Hin) as (vr & Er & Hcr & Har).
  destruct (can_io_ok CbCanWrite sock v (or_intror eq_refl) Hc Hin) as (vw & Ew & Hcw & Haw).
  unfold vtm_socket_stream_srv_sock_can_write, vtm_socket_stream_srv_sock_can_read.
  rewrite Er, Ew. apply after_others in Har, Haw.
  destruct b, (flag_any (vtm_socket_get_state s) _); [exists vw|exists vr|exists vr|exists vw]; done.
Qed.

Lemma event_direct_ok fuel e v :
  core v -> event_ok v e -> (accept_fuel v <= fuel)%nat ->
  exists rc v', event_direct env fuel e v = Some (rc, v') /\ core v' /\ others (ev_sock e) v v'.
Proof.
  intros Hc He Hf. unfold event_direct, event_ok in *. set (v0 := srv_cur _ v).
  assert (core v0) as Hc0 by by apply core_cur.
  assert (forall v', others (ev_sock e) v0 v' -> others (ev_sock e) v v') as Ho0 by done.
  case_decide as Hsrv.
  - destruct He as (-> & -> & -> & ->). change (sv_socket v0) with (sv_socket v).
    rewrite Hsrv, Z.eqb_refl. cbn [andb].
    destruct (accept_loop_ok fuel 0 v0 Hc0) as (rc & v1 & E1 & Hc1 & Hg1); [lia|exact Hf|].
    unfold vtm_socket_stream_srv_accept. rewrite E1. cbn [mbind option_bind].
    eexists rc, _. split; [done|]. split; [destruct (rc =? VTM_OK); [done|by apply core_cur]|].
    assert (others (sv_socket v) v v1) as Ho.
    { destruct Hg1. split; [done|]. split; [done|]. split; [done|]. intros c _ (Hl & Hne & Hlog).
      split; [rewrite g_socks0; [done|by apply (c_next v Hc)|done]|]. split; [by rewrite g_socket0|]. by apply g_log0. }
    by destruct (rc =? VTM_OK).
  - destruct He as [Hin Hrw]. set (sock := ev_sock e) in *.
    assert (handled sock v0) as Hh0 by exact Hin. pose proof Hh0 as ([s Hs] & _).
    destruct (flag_any (ev_events e) VTM_SOCK_EVT_CLOSED).
    { destruct (touches_close sock v0 s Hs) as (v1 & s1 & -> & Ht1 & _). cbn [mbind option_bind].
      destruct (closed_or_not sock v1) as (v2 & -> & Hc2 & Ha2 & _);
        [by eapply core_quiet|by eapply handled_touches|].
      cbn [mbind option_bind]. eexists _, v2. split; [done|]. split; [done|].
      apply Ho0, after_others. eapply after_trans; [by eapply touches_after|done]. }
    destruct (flag_any (ev_events e) VTM_SOCK_EVT_ERROR).
    { destruct (error_ok sock v0 Hc0 Hh0) as (v1 & -> & Hc1 & Ha1 & _). cbn [mbind option_bind].
      eexists _, v1. split; [done|]. split; [done|]. by apply Ho0, after_others. }
    change (sv_socket v0) with (sv_socket v). rewrite (proj2 (Z.eqb_neq sock (sv_socket v))) by done.
    rewrite andb_false_r.
    destruct (flag_any (ev_events e) VTM_SOCK_EVT_READ).
    + cbn [andb] in Hrw. rewrite Hrw. destruct (io_ok true sock v0 Hc0 Hh0) as (v1 & E1 & Hc1 & Ho1).
      cbv iota in E1. rewrite E1.
      cbn [mbind option_bind]. eexists _, v1. split; [done|]. split; [done|]. by apply Ho0.
    + cbn [mbind option_bind]. destruct (flag_any (ev_events e) VTM_SOCK_EVT_WRITE).
      * destruct (io_ok false sock v0 Hc0 Hh0) as (v1 & E1 & Hc1 & Ho1).
        cbv iota in E1. rewrite E1. cbn [mbind option_bind].
        eexists _, v1. split; [done|]. split; [done|]. by apply Ho0.
      * cbn [mbind option_bind]. eexists _, v0. split; [done|]. split; [done|].
        apply Ho0. split; [done|]. split; [lia|]. by split.
Qed.

Lemma events_direct_ok fuel events v :
  core v -> batch_ok v events -> (accept_fuel v <= fuel)%nat ->
  exists rc v', events_direct env fuel events v = Some (rc, v') /\ core v' /\
    (pending (sv_env v') <= pending (sv_env v))%nat.
Proof.
  revert v; induction events as [|e events IH]; intros v Hc [Hd Hb] Hf; cbn [events_direct].
  { eexists _, _. split; [done|]. split; [by apply core_cur|done]. }
  cbn [map] in Hd. apply NoDup_cons in Hd as [Hn Hd]. apply Forall_cons in Hb as [He Hb].
  destruct (event_direct_ok fuel e v Hc He Hf) as (rc & v1 & -> & Hc1 & Hs & Hnx & Hp & Ho).
  cbn [mbind option_bind]. destruct (rc =? VTM_OK); [|by exists rc, v1].
  destruct (IH v1) as (rc2 & v2 & -> & Hc2 & Hp2); [done| |unfold accept_fuel in *; lia|
    exists rc2, v2; split; [done|]; split; [done|]; lia].
  split; [done|].
  apply Forall_forall. intros e' He'. rewrite Forall_forall in Hb. specialize (Hb e' He').
  unfold event_ok in *. rewrite Hs. case_decide; [done|]. destruct Hb as [Hin ?]. split; [|done].
  apply Ho; [|done]. intros E1. apply Hn. rewrite <- E1. by apply (list_elem_of_fmap_2 ev_sock).
Qed.

Lemma handle_direct_ok fuel events v :
  core v -> batch_ok v events -> (accept_fuel v <= fuel)%nat ->
  exists rc v', vtm_socket_stream_srv_handle_direct env fuel events v = Some (rc, v') /\ core v' /\
    (pending (sv_env v') <= pending (sv_env v))%nat.
Proof.
  intros Hc Hb Hf. unfold vtm_socket_stream_srv_handle_direct.
  assert (relay_loop env fuel v = Some v) as ->.
  { destruct fuel; cbn [relay_loop]; by rewrite (c_relay v Hc). }
  by apply events_direct_ok.
Qed.

(** ** The end *)

Lemma drain_loop_ok socks v :
  core v -> NoDup socks -> (forall c, c ∈ socks -> c ∈ sv_cons v) ->
  exists v', drain_loop env socks v = Some v' /\ core v' /\
    (forall c, c ∈ sv_cons v' <-> c ∈ sv_cons v /\ c ∉ socks) /\
    sv_log v ⊆ sv_log v' /\ forall c, c ∈ socks -> gone c v v'.
Proof.
  revert v; induction socks as [|sock socks IH]; intros v Hc Hd Hin; cbn [drain_loop].
  { exists v. split; [done|]. split; [done|]. set_solver. }
  apply NoDup_cons in Hd as [Hn Hd]. assert (sock ∈ sv_cons v) as Hs by (apply Hin; set_solver).
  pose proof (core_handled sock v Hc Hs) as Hh. pose proof Hh as ([s Hl] & _).
  destruct (touches_close sock v s Hl) as (v1 & s1 & -> & Ht1 & _). cbn [mbind option_bind].
  destruct (closed_ok sock v1) as (v2 & -> & Hc2 & Ha2 & Hg2);
    [by eapply core_quiet|by destruct Ht1; rewrite t_cons0|].
  pose proof (after_trans _ _ _ _ (touches_after _ _ _ _ Ht1) Ha2) as Ha. cbn [mbind option_bind].
  assert (forall c, c ∈ sv_cons v2 <-> c ∈ sv_cons v /\ c <> sock) as Hcons.
  { intros c. destruct (decide (c = sock)) as [->|Hne]; [destruct Hg2 as (_ & ? & _); tauto|].
    rewrite (a_cons _ _ _ Ha c Hne). tauto. }
  destruct (IH v2 Hc2 Hd) as (v3 & -> & Hc3 & Hcons3 & Hlog3 & Hg3).
  { intros c Hc'. apply Hcons. split; [apply Hin; set_solver|]. by intros ->. }
  exists v3. split; [done|]. split; [done|].
  assert (sv_log v ⊆ sv_log v3) by (pose proof (a_log _ _ _ Ha); set_solver).
  split; [|split; [done|]].
  { intros c. rewrite Hcons3, Hcons, not_elem_of_cons. tauto. }
  intros c [->|Hc']%elem_of_cons; [|destruct (Hg3 c Hc') as (? & ? & ?); done].
  destruct Hg2 as (Hg2 & Hnc2 & Hdis). assert (sock ∉ sv_cons v3) by (rewrite Hcons3; tauto).
  split; [|split; [done|set_solver]].
  destruct (sv_socks v3 !! sock) eqn:E3; [|done].
  exfalso. eapply (c_live v3 Hc3); [by eexists|]. apply Hlog3, Hdis.
Qed.

(** One call for the events of the listener. *)
Definition handles (v v' : srv) : Prop :=
  exists events rc, batch_ok v events /\
    vtm_socket_stream_srv_handle_direct env (accept_fuel v) events v = Some (rc, v').

Lemma handles_core v v' : core v -> rtc handles v v' -> core v'.
Proof.
  intros Hc H. induction H as [v|v v1 v' (events & rc & Hb & Hr) H IH]; [done|].
  apply IH. destruct (handle_direct_ok _ _ _ Hc Hb (le_n _)) as (rc1 & v2 & E2 & Hc2 & _). congruence.
Qed.

(** The turns of the main loop, each with events that are in order when it
    comes. *)
Fixpoint turns_ok (fuel : nat) (turns : list turn) (v : srv) : Prop :=
  match turns with
  | [] | TurnFail _ :: _ => True
  | TurnEvents events :: turns' =>
      batch_ok v events /\
      forall v', vtm_socket_stream_srv_handle_direct env fuel events v = Some (VTM_OK, v') ->
                 turns_ok fuel turns' v'
  end.

Lemma main_loop_ok fuel turns rc v :
  core v -> turns_ok fuel turns v -> (accept_fuel v <= fuel)%nat ->
  exists rc' v', main_loop env fuel turns rc v = Some (rc', v') /\ core v'.
Proof.
  revert rc v; induction turns as [|[rc0|events] turns IH]; intros rc v Hc Ht Hf; cbn [main_loop];
    [by exists rc, v|by exists (Some rc0), v|]. destruct Ht as [Hb Ht].
  destruct (handle_direct_ok fuel events v Hc Hb Hf) as (rc1 & v1 & E1 & Hc1 & Hp).
  rewrite E1 in Ht |- *. cbn [mbind option_bind]. destruct (rc1 =? VTM_OK) eqn:Erc; bsplit.
  - subst rc1. apply IH; [done|by apply Ht|unfold accept_fuel in *; lia].
  - by exists (Some rc1), v1.
Qed.

(** ** A new server *)

(** net/socket_stream_server.c:142-190.  The server socket listens and is
    registered; there is no connection. *)
Definition srv_start (sock : vtm_socket) (e : E) : srv :=
  mk_srv 0 0 {[0 := vtm_socket_set_state sock VTM_SOCK_STAT_NBL_READ]} 1 ∅ {[0]} [] [] [] None [] e.

Lemma core_start sock e :
  Z.testbit (s_state sock) 1 = false -> core (srv_start sock e).
Proof.
  intros Hs. split; cbn; try done; try set_solver.
  - intros c [s Hc]. apply lookup_singleton_Some in Hc as [<- _]. lia.
  - intros c s Hc Ht. unfold srv_start, sv_socks in Hc. apply lookup_singleton_Some in Hc as [_ <-].
    exfalso. revert Ht. flag_bits. change (Z.testbit VTM_SOCK_STAT_NBL_READ 1) with false.
    by rewrite Hs.
Qed.

(** C15: between two rounds of events, a stream server without threads whose
    application acts on the socket a callback is about keeps its invariant:
    every connection is a live, announced socket, only announced sockets and the
    server socket are registered, a freed socket that was announced was
    reported as disconnected, and no socket was reported before it was announced
    or after its end.  It can handle every next round without touching a freed
    socket, if the listener reports no socket as readable and writable at once
    ([batch_ok]; for a round that does, [read_write_use_after_free] shows a use
    after free).  Every allocation may fail. *)
Theorem direct_server_invariant sock e v :
  Z.testbit (s_state sock) 1 = false -> rtc handles (srv_start sock e) v ->
  core v /\
  forall events, batch_ok v events -> exists rc v',
    vtm_socket_stream_srv_handle_direct env (accept_fuel v) events v = Some (rc, v').
Proof.
  intros Hs H. assert (core v) as Hc by (eapply handles_core; [by apply core_start|done]).
  split; [done|]. intros events Hb.
  destruct (handle_direct_ok _ _ _ Hc Hb (le_n _)) as (rc & v' & Hr & _). by exists rc, v'.
Qed.

(** C18: how a stream server without threads ends, whose application acts on the
    socket a callback is about and whose listener reports no socket as readable
    and writable at once ([turns_ok]).  Nothing is used after it was freed.  When
    the main loop ends, because the server was stopped, the listener failed or
    accepting did, every connection is closed, the application is told about each
    one's end and its socket is freed, if there is memory for the list of the
    connections; without it not one of them is closed.  Without memory for the
    dataset of the thread the loop is not entered. *)
Theorem main_run_drains fuel turns sock e :
  let start := srv_start sock (env_malloc env e).2 in
  Z.testbit (s_state sock) 1 = false ->
  turns_ok fuel turns start -> (accept_fuel start <= fuel)%nat ->
  exists rc v', vtm_socket_stream_srv_main_run env fuel turns (srv_start sock e) = Some (rc, v') /\ core v' /\
    if (env_malloc env e).1 then
      exists v1, main_loop env fuel turns None start = Some (rc, v1) /\
        if (env_malloc env (sv_env v1)).1 then
          sv_cons v' = ∅ /\
          forall c, c ∈ sv_cons v1 -> sv_socks v' !! c = None /\ (CbDisconnected, c) ∈ sv_log v'
        else sv_cons v' = sv_cons v1 /\ sv_socks v' = sv_socks v1 /\ sv_log v' = sv_log v1
    else rc = Some VTM_E_MALLOC /\ v' = start.
Proof.
  intros start Hs Ht Hf. unfold vtm_socket_stream_srv_main_run, ask. change (sv_env (srv_start sock e)) with e.
  subst start. destruct (env_malloc env e) as [[] e0]; cbn [fst snd negb] in *;
    change (srv_env_to e0 (srv_start sock e)) with (srv_start sock e0).
  2: { do 2 eexists. split; [done|]. split; [by apply core_start|done]. }
  destruct (main_loop_ok fuel turns None _ (core_start _ _ Hs) Ht Hf) as (rc & v1 & -> & Hc1).
  cbn [mbind option_bind]. unfold vtm_socket_stream_srv_drain_direct, ask.
  destruct (core_env (env_malloc env (sv_env v1)).2 v1 Hc1 (pending_malloc _)) as [Hc1' _].
  destruct (env_malloc env (sv_env v1)) as [[] e1] eqn:Em; cbn [fst snd negb] in *.
  2: { do 2 eexists. split; [done|]. split; [done|]. exists v1. by rewrite Em. }
  destruct (drain_loop_ok (elements (sv_cons v1)) (srv_env_to e1 v1) Hc1' (NoDup_elements _)) as
    (v2 & E2 & Hc2 & Hcons & _ & Hg); [intros c; by rewrite elem_of_elements|].
  change (sv_cons (srv_env_to e1 v1)) with (sv_cons v1) in *. rewrite E2.
  cbn [mbind option_bind]. do 2 eexists. split; [done|]. split; [done|]. exists v1. split; [done|]. rewrite Em. split.
  - apply set_eq. intros c. rewrite Hcons, elem_of_elements. set_solver.
  - intros c Hin. destruct (Hg c) as (? & _ & ?); [by rewrite elem_of_elements|done].
Qed.

(** ** Limits *)

(** a connection that the application closes in the callback that announces
    it is lost: its socket stays allocated, it is no connection of the server,
    and its end is never reported. *)
Theorem accepted_close_leaks sock v v' e1 e2 :
  core v -> fresh_sock sock v ->
  env_nonblocking env sock (sv_env v) = (VTM_OK, e1) ->
  env_callback env CbConnected sock e1 = ([UsrClose sock], e2) ->
  vtm_socket_stream_srv_sock_accepted env sock v = Some v' ->
  is_Some (sv_socks v' !! sock) /\ sock ∉ sv_cons v' /\
  (CbConnected, sock) ∈ sv_log v' /\ (CbDisconnected, sock) ∉ sv_log v'.
Proof.
  intros Hc Hf En Ecb. pose proof Hf as ([s Hs] & _). unfold vtm_socket_stream_srv_sock_accepted.
  rewrite Hs. cbn [mbind option_bind].
  destruct (touches_ask (env_nonblocking env sock) sock v s Hs (pending_nonblocking sock))
    as (rc & v1 & E1 & Ht1 & _). rewrite E1. destruct (core_fresh sock v v1 Hc Hf Ht1) as [Hc1 Hf1].
  assert (rc = VTM_OK /\ sv_env v1 = e1) as [-> He1].
  { unfold ask in E1. rewrite En in E1. by injection E1 as <- <-. }
  change (negb (VTM_OK =? VTM_OK)) with false. cbv iota.
  destruct (announce_ok sock v1 Hc1 Hf1) as (v2 & v3 & -> & He2 & Hcb & Hc3 & Hh3 & Hnc3 & _).
  cbn [mbind option_bind]. rewrite Hcb. cbn [mbind option_bind].
  assert (exists s3, sv_socks v3 !! sock = Some s3 /\ Z.testbit (s_state s3) 1 = true) as (s3 & Hs3 & Hcl).
  { revert Hcb. unfold callback. destruct (sv_socks v2 !! sock) as [s2|] eqn:Es2; [|done].
    cbn [mbind option_bind]. unfold ask. rewrite He2, He1, Ecb. cbn [usr_steps usr_step].
    destruct (touches_close sock (srv_log (CbConnected, sock) (srv_env_to e2 v2)) s2 Es2)
      as (v3' & s3 & -> & _ & Hs3 & Hcl & _). intros [= <-]. by exists s3. }
  unfold vtm_socket_stream_srv_sock_check.
  destruct (eval_ok sock v3 s3 Hc3 Hh3 Hs3) as (r & v4 & -> & Hc4 & _ & Hr). cbn [mbind option_bind].
  destruct r as [rc4|]; cbn [mbind option_bind]; [|destruct Hr; congruence].
  destruct Hr as [Hne He]. rewrite (proj2 (Z.eqb_neq _ _)) by done. cbn [negb]. intros [= <-].
  unfold ended in He. rewrite decide_False in He by done. destruct He as [Hh4 Hnc4].
  split; [apply Hh4|]. split; [done|]. split; [apply Hh4|]. apply (c_live v4 Hc4), Hh4.
Qed.
(** a listener that reports a socket as readable and writable at once, which
    an application can ask for, makes the server use the socket after it was
    freed when the application closes it while reading. *)
Theorem read_write_use_after_free fuel sock v s e :
  core v -> sock ∈ sv_cons v -> sock <> sv_socket v ->
  sv_socks v !! sock = Some s -> flag_any (s_state s) VTM_SOCK_STAT_WRITE_AGAIN_WHEN_READABLE = false ->
  env_callback env CbCanRead sock (sv_env v) = ([UsrClose sock], e) ->
  event_direct env fuel (mk_event sock (Z.lor VTM_SOCK_EVT_READ VTM_SOCK_EVT_WRITE)) v = None.
Proof.
  intros Hc Hin Hne Hs Hst Ecb. unfold event_direct. cbn [ev_sock ev_events].
  set (v0 := srv_cur (Some sock) v). assert (core v0) as Hc0 by by apply core_cur.
  change (sv_cons v) with (sv_cons v0) in Hin. change (sv_socks v) with (sv_socks v0) in Hs.
  pose proof (core_handled sock v0 Hc0 Hin) as Hh0.
  change (flag_any (Z.lor VTM_SOCK_EVT_READ VTM_SOCK_EVT_WRITE) VTM_SOCK_EVT_CLOSED) with false.
  change (flag_any (Z.lor VTM_SOCK_EVT_READ VTM_SOCK_EVT_WRITE) VTM_SOCK_EVT_ERROR) with false.
  change (flag_any (Z.lor VTM_SOCK_EVT_READ VTM_SOCK_EVT_WRITE) VTM_SOCK_EVT_READ) with true.
  change (flag_any (Z.lor VTM_SOCK_EVT_READ VTM_SOCK_EVT_WRITE) VTM_SOCK_EVT_WRITE) with true.
  change (sv_socket v0) with (sv_socket v). rewrite (proj2 (Z.eqb_neq _ _)) by done. cbn [andb].
  assert (sock_state sock v0 = Some (s_state s)) as -> by (unfold sock_state; by rewrite Hs).
  cbn [mbind option_bind]. rewrite Hst. unfold vtm_socket_stream_srv_sock_can_read.
  destruct (touches_callback CbCanRead sock v0 s Hs) as (v1 & E1 & Ht1). rewrite E1.
  assert (exists s1, sv_socks v1 !! sock = Some s1 /\ Z.testbit (s_state s1) 1 = true) as (s1 & Hs1 & Hcl).
  { revert E1. unfold callback. rewrite Hs. cbn [mbind option_bind]. unfold ask.
    change (sv_env v0) with (sv_env v). rewrite Ecb. cbn [usr_steps usr_step].
    destruct (touches_close sock (srv_log (CbCanRead, sock) (srv_env_to e v0)) s Hs)
      as (v2 & s2 & -> & _ & Hs2 & Hcl & _). intros [= <-]. by exists s2. }
  pose proof (core_event CbCanRead sock v0 v1 Hc0 Hh0 ltac:(done) ltac:(done) Ht1) as Hc1.
  pose proof (handled_touches _ _ _ _ Hh0 Ht1) as Hh1.
  cbn [mbind option_bind]. unfold vtm_socket_stream_srv_sock_check.
  destruct (eval_ok sock v1 s1 Hc1 Hh1 Hs1) as (r & v2 & -> & _ & _ & Hr).
  destruct r as [rc|]; cbn [mbind option_bind]; [|destruct Hr; congruence]. destruct Hr as [_ He].
  unfold ended in He. destruct Ht1. rewrite t_cons0, decide_True in He by done.
  destruct He as (Hn & _). unfold sock_state. by rewrite Hn.
Qed.
End Direct.


(** ** An application that closes what it reads *)

(** Two connections wait; the application closes a connection when it can be
    read. *)
Definition demo_env : srv_env nat :=
  mk_srv_env (fun _ n => (VTM_OK, n)) (fun _ n => (VTM_OK, n)) (fun _ n => (VTM_OK, n))
    (fun n => match n with O => (VTM_E_IO_AGAIN, O) | S n => (VTM_OK, n) end)
    (fun n => (true, n))
    (fun cb sock n => (match cb with CbCanRead => [UsrClose sock] | _ => [] end, n)).

#[global] Instance demo_env_laws : EnvLaws demo_env (fun n => n).
Proof.
  split; cbn; try done; try lia.
  - intros [] sock n; cbn; repeat constructor.
  - intros []; cbn; lia.
  - intros []; cbn; [done|lia].
Qed.

Definition listening : vtm_socket := mk_sock 3 0 1 false 0 0 0.

Definition demo_start : vtm_socket_stream_srv nat := srv_start listening 2%nat.

Lemma demo_batch : batch_ok demo_start [mk_event 0 VTM_SOCK_EVT_READ].
Proof. split; [repeat constructor; set_solver|]. by repeat constructor. Qed.

(** The server with its two connections. *)
Definition demo_accepted : vtm_socket_stream_srv nat :=
  match vtm_socket_stream_srv_handle_direct demo_env 300 [mk_event 0 VTM_SOCK_EVT_READ] demo_start with
  | Some (_, v) => v
  | None => demo_start
  end.

Lemma direct_server_invariant_witness :
  rtc (handles demo_env (fun n => n)) demo_start demo_accepted /\ core demo_accepted.
Proof.
  assert (rtc (handles demo_env (fun n => n)) demo_start demo_accepted) as H.
  { eapply rtc_once. exists [mk_event 0 VTM_SOCK_EVT_READ], VTM_OK. split; [apply demo_batch|].
    by vm_compute. }
  split; [exact H|].
  exact (proj1 (direct_server_invariant demo_env (fun n => n) listening 2%nat demo_accepted eq_refl H)).
Defined.

Lemma main_run_drains_witness :
  exists rc v1 v', main_loop demo_env 300 [TurnEvents [mk_event 0 VTM_SOCK_EVT_READ]] None demo_start
      = Some (rc, v1) /\ sv_cons v1 = {[1; 2]} /\
    vtm_socket_stream_srv_main_run demo_env 300 [TurnEvents [mk_event 0 VTM_SOCK_EVT_READ]] demo_start
      = Some (rc, v') /\ sv_cons v' = ∅ /\ sv_socks v' !! 1 = None.
Proof.
  destruct (main_run_drains demo_env (fun n => n) 300 [TurnEvents [mk_event 0 VTM_SOCK_EVT_READ]]
    listening 2%nat eq_refl) as (rc & v' & E' & _ & v1 & E1 & Hcons & Hgone).
  - cbn [turns_ok]. split; [apply demo_batch|done].
  - vm_compute. lia.
  - exists rc, v1, v'. split; [exact E1|].
    assert (sv_cons v1 = {[1; 2]}) as Hv1.
    { revert E1. vm_compute. intros [= <- <-]. reflexivity. }
    split; [exact Hv1|]. split; [exact E'|]. split; [exact Hcons|].
    apply Hgone. rewrite Hv1. set_solver.
Defined.

(** A connection that nobody was told about. *)
Definition demo_fresh : vtm_socket_stream_srv nat := srv_new_sock listening demo_start.

Definition closing_env : srv_env nat :=
  mk_srv_env (env_nonblocking demo_env) (env_listener_add demo_env) (env_rearm demo_env)
    (env_accept demo_env) (env_malloc demo_env)
    (fun cb sock n => (match cb with CbConnected => [UsrClose sock] | _ => [] end, n)).

#[global] Instance closing_env_laws : EnvLaws closing_env (fun n => n).
Proof.
  split; cbn; try done; try lia.
  - intros [] sock n; cbn; repeat constructor.
  - intros []; cbn; lia.
  - intros []; cbn; [done|lia].
Qed.

Lemma accepted_close_leaks_witness :
  exists v', vtm_socket_stream_srv_sock_accepted closing_env 1 demo_fresh = Some v' /\
    is_Some (sv_socks v' !! 1) /\ 1 ∉ sv_cons v'.
Proof.
  destruct (core_new_sock (fun n => n) demo_start listening (core_start demo_env (fun n => n) listening 2%nat eq_refl) eq_refl)
    as (Hc & Hf & _).
  destruct (vtm_socket_stream_srv_sock_accepted closing_env 1 demo_fresh) as [v'|] eqn:E1;
    [|by vm_compute in E1].
  destruct (accepted_close_leaks closing_env (fun n => n) 1 demo_fresh v' 2%nat 2%nat
    Hc Hf eq_refl eq_refl E1) as (Hl & Hn & _).
  exists v'. split; [reflexivity|]. split; [exact Hl|exact Hn].
Defined.

Lemma demo_accepted_core : core demo_accepted.
Proof.
  assert (core demo_start) as Hs by exact (core_start demo_env (fun n => n) listening 2%nat eq_refl).
  assert (accept_fuel (fun n => n) demo_start <= 300)%nat as Hf by (apply Nat.leb_le; by vm_compute).
  pose proof (handle_direct_ok demo_env (fun n => n) 300 _ demo_start Hs demo_batch Hf) as H.
  unfold demo_accepted. destruct H as (rc & v' & E & Hc & _). rewrite E. exact Hc.
Qed.

Lemma read_write_use_after_free_witness :
  1 ∈ sv_cons demo_accepted /\
  event_direct demo_env 10 (mk_event 1 (Z.lor VTM_SOCK_EVT_READ VTM_SOCK_EVT_WRITE)) demo_accepted = None.
Proof.
  assert (1 ∈ sv_cons demo_accepted) as Hin by by apply (bool_decide_unpack _); vm_compute.
  split; [exact Hin|].
  assert (1 <> sv_socket demo_accepted) as Hne by by vm_compute.
  assert (env_callback demo_env CbCanRead 1 (sv_env demo_accepted) = ([UsrClose 1], 0%nat)) as Hcb
    by by vm_compute.
  destruct (sv_socks demo_accepted !! 1) as [s|] eqn:Es; [|by vm_compute in Es].
  assert (flag_any (s_state s) VTM_SOCK_STAT_WRITE_AGAIN_WHEN_READABLE = false) as Hst.
  { revert Es. vm_compute. by intros [= <-]. }
  exact (read_write_use_after_free demo_env (fun n => n) 10 1 demo_accepted s 0%nat
    demo_accepted_core Hin Hne Es Hst Hcb).
Defined.

(** A connection whose error is announced by another one's callback, and which
    the listener reports as closed in the same round: the relayed error finds
    the socket freed. *)
Definition relay_env : srv_env nat :=
  mk_srv_env (env_nonblocking demo_env) (env_listener_add demo_env) (env_rearm demo_env)
    (env_accept demo_env) (env_malloc demo_env)
    (fun cb sock n => (match cb with CbCanRead => [UsrFlags 2 VTM_SOCK_STAT_ERR 0; UsrUpdate 2] | _ => [] end, n)).

Lemma relay_error_use_after_free :
  match vtm_socket_stream_srv_handle_direct relay_env 300
      [mk_event 1 VTM_SOCK_EVT_READ; mk_event 2 VTM_SOCK_EVT_CLOSED] demo_accepted with
  | Some (rc, v') => rc = VTM_OK /\ vtm_socket_stream_srv_handle_direct relay_env 300 [] v' = None
  | None => False
  end.
Proof. by vm_compute. Qed.

(** As [demo_env], with an allocator that follows a list of answers. *)
Definition poor_env : srv_env (nat * list bool) :=
  mk_srv_env (fun _ e => (VTM_OK, e)) (fun _ e => (VTM_OK, e)) (fun _ e => (VTM_OK, e))
    (fun e => match e with (O, l) => (VTM_E_IO_AGAIN, (O, l)) | (S n, l) => (VTM_OK, (n, l)) end)
    (fun e => match e with (n, b :: l) => (b, (n, l)) | _ => (true, e) end)
    (fun cb sock e => ([], e)).

(** Defect.  The code of vtm_map_put_va is not looked at
    (socket_stream_server.c:976): a connection for which the map of connections
    has no memory is announced and registered, but it is no connection of the
    server; at the end it is neither closed nor reported. *)
Lemma accepted_put_lost :
  match vtm_socket_stream_srv_main_run poor_env 300 [TurnEvents [mk_event 0 VTM_SOCK_EVT_READ]]
    (srv_start listening (1%nat, [true; false])) with
  | Some (rc, v') => rc = Some VTM_OK /\ sv_cons v' = ∅ /\ sv_log v' = [(CbConnected, 1)] /\
      bool_decide (1 ∈ sv_reg v') = true /\
      match sv_socks v' !! 1 with Some s => VTM_SOCKET_IS_CLOSED s = false | None => False end
  | None => False
  end.
Proof. by vm_compute. Qed.
