(* ===== verification/Sync.v ===== *)
(** * Sync: the spinlock and the latch, util/spinlock.c and util/latch.c

    Threads are numbered; the state of a thread is where it is in the code.
    One step of a thread is one access to shared memory, or the part of a
    critical section that nobody else can see.  A mutex is the thread that owns
    it; a condition variable is the set of threads that sleep on it.  A step is
    a function of the thread and the state ([None]: the thread is blocked), a
    run is any interleaving. *)

From stdpp Require Import list relations.
From S2P Require Import Prelude.

(** ** Interleaving *)

Section Interleave.
Context {S L : Type} (step : L -> S -> option S).

(** A step of any thread. *)
Definition any_step (s s' : S) : Prop := exists l, step l s = Some s'.

(** The steps of a schedule. *)
Fixpoint run_steps (ls : list L) (s : S) : option S :=
  match ls with [] => Some s | l :: ls' => s ← step l s; run_steps ls' s end.

Lemma run_steps_reach ls s s' : run_steps ls s = Some s' -> rtc any_step s s'.
Proof.
  revert s; induction ls as [|l ls IH]; intros s; cbn [run_steps]; [by intros [= <-]|].
  destruct (step l s) as [s1|] eqn:E; [|done]. cbn [mbind option_bind]. intros H.
  eapply rtc_l; [by exists l|by apply IH].
Qed.

(** An invariant of every step is one of every run. *)
Lemma invariant_reach (I : S -> Prop) s s' :
  (forall l x x', I x -> step l x = Some x' -> I x') -> I s -> rtc any_step s s' -> I s'.
Proof. intros HI Hs H. induction H as [|x y z [l E] H IH]; [done|]. apply IH. by eapply HI. Qed.
End Interleave.

(** ** Lists of threads *)

(** A sum over the threads. *)
Fixpoint total {A} (f : A -> nat) (l : list A) : nat :=
  match l with [] => 0 | x :: l' => f x + total f l' end%nat.

(** How many threads satisfy [P]. *)
Definition count {A} (P : A -> bool) : list A -> nat := total (fun x => if P x then 1 else 0)%nat.

Lemma total_insert {A} (f : A -> nat) l i (x y : A) :
  l !! i = Some x -> (total f (<[i := y]> l) + f x = total f l + f y)%nat.
Proof.
  revert i; induction l as [|a l IH]; intros [|i] H; try done.
  - injection H as ->. cbn. lia.
  - specialize (IH i H). change (<[S i:=y]> (a :: l)) with (a :: <[i:=y]> l). cbn [total]. lia.
Qed.

Lemma total_map {A} (f : A -> nat) (g : A -> A) l :
  (forall x, f (g x) = f x) -> total f (map g l) = total f l.
Proof. intros H. induction l as [|a l IH]; cbn; [done|]. by rewrite H, IH. Qed.

Lemma total_zero {A} (f : A -> nat) l : Forall (fun x => f x = 0%nat) l -> total f l = 0%nat.
Proof. induction 1 as [|x l Hx _ IH]; cbn; [done|]. by rewrite Hx, IH. Qed.

Lemma total_at {A} (f : A -> nat) l i x : l !! i = Some x -> (f x <= total f l)%nat.
Proof.
  revert i; induction l as [|a l IH]; intros [|i] H; try done; cbn.
  - injection H as ->. lia.
  - specialize (IH i H). lia.
Qed.

Lemma count_insert {A} (P : A -> bool) l i (x y : A) :
  l !! i = Some x ->
  (count P (<[i := y]> l) + (if P x then 1 else 0) = count P l + (if P y then 1 else 0))%nat.
Proof. intros H. exact (total_insert _ _ _ _ y H). Qed.

Lemma count_zero {A} (P : A -> bool) l : count P l = 0%nat <-> Forall (fun x => P x = false) l.
Proof.
  unfold count. induction l as [|a l IH]; cbn [total]; [done|]. rewrite Forall_cons, <- IH.
  destruct (P a); cbn; split; [done|by intros []|by split|by intros []].
Qed.

Lemma count_pos {A} (P : A -> bool) l : (0 < count P l)%nat -> exists i x, l !! i = Some x /\ P x = true.
Proof.
  unfold count. induction l as [|a l IH]; cbn [total]; [lia|]. destruct (P a) eqn:E.
  - intros _. by exists 0%nat, a.
  - intros H. destruct (IH H) as (i & x & Hi & Hx). by exists (S i), x.
Qed.

Lemma count_at {A} (P : A -> bool) l i x :
  l !! i = Some x -> P x = true -> (0 < count P l)%nat.
Proof.
  intros Hi HP. destruct (count P l) eqn:E; [|lia]. apply count_zero in E.
  rewrite Forall_lookup in E. specialize (E _ _ Hi). congruence.
Qed.

(** The state of another thread after a change of thread [i]. *)
Lemma lookup_other {A} (l : list A) i j (x y : A) :
  <[i := x]> l !! j = Some y -> j = i /\ y = x \/ j <> i /\ l !! j = Some y.
Proof.
  intros H. destruct (decide (j = i)) as [->|Hne].
  - left. split; [done|]. apply list_lookup_insert_Some in H as [(_ & ? & _)|[? _]]; done.
  - right. rewrite list_lookup_insert_ne in H by done. done.
Qed.

(** ** Mutexes *)

(** The owner of a mutex is the thread that is between locking and unlocking. *)
Section Mutex.
Context {T : Type} (owns : T -> bool).

Definition mtx_ok (m : option nat) (l : list T) : Prop :=
  (forall i x, l !! i = Some x -> owns x = true <-> m = Some i) /\
  (forall i, m = Some i -> is_Some (l !! i)).

Lemma mtx_exclusive m l i j x y :
  mtx_ok m l -> l !! i = Some x -> l !! j = Some y -> owns x = true -> owns y = true -> i = j.
Proof. intros [H _] Hi Hj Hx%(H i x Hi) Hy%(H j y Hj). congruence. Qed.

Lemma mtx_keep m l i x y :
  mtx_ok m l -> l !! i = Some x -> owns y = owns x -> mtx_ok m (<[i := y]> l).
Proof.
  intros [H1 H2] Hi Hy. split.
  - intros j z [[-> ->]|[Hne Hj]]%lookup_other; [rewrite Hy|]; eauto.
  - intros j Hj. apply lookup_lt_is_Some. rewrite length_insert. apply lookup_lt_is_Some. eauto.
Qed.

Lemma mtx_take l i x y :
  mtx_ok None l -> l !! i = Some x -> owns y = true -> mtx_ok (Some i) (<[i := y]> l).
Proof.
  intros [H1 H2] Hi Hy. split.
  - intros j z [[-> ->]|[Hne Hj]]%lookup_other; [done|]. rewrite (H1 j z Hj). naive_solver.
  - intros j [= <-]. apply lookup_lt_is_Some. rewrite length_insert. by eapply lookup_lt_Some.
Qed.

Lemma mtx_drop m l i x y :
  mtx_ok m l -> l !! i = Some x -> owns x = true -> owns y = false -> mtx_ok None (<[i := y]> l).
Proof.
  intros Hm Hi Hx Hy. split; [|done].
  intros j z [[-> ->]|[Hne Hj]]%lookup_other; [by rewrite Hy|]. split; [|done].
  intros Hz. destruct Hne. by eapply (mtx_exclusive m l j i).
Qed.

Lemma mtx_map g m l : mtx_ok m l -> (forall x, owns (g x) = owns x) -> mtx_ok m (map g l).
Proof.
  intros [H1 H2] Hg. split.
  - intros i x. rewrite list_lookup_fmap. destruct (l !! i) as [y|] eqn:E; [|done].
    intros [= <-]. rewrite Hg. by apply H1.
  - intros i Hi. rewrite list_lookup_fmap, fmap_is_Some. by apply H2.
Qed.
End Mutex.

(** ** The spinlock *)

Module Spinlock.

(** Outside, in the loop that waits for the lock, behind it. *)
Inductive spin_pc := SpOut | SpTry | SpIn.

Record spin_state := mk_spin { sp_locked : Z; sp_pcs : list spin_pc }.

(** util/atomic.h:68 [VTM_ATOMIC_CAS_INT32].  The old value and the new one. *)
Definition VTM_ATOMIC_CAS_INT32 (mem old val : Z) : Z * Z :=
  (mem, if mem =? old then val else mem).

(** util/atomic.h:80 [VTM_ATOMIC_ZERO_INT32] *)
Definition VTM_ATOMIC_ZERO_INT32 (mem : Z) : Z := Z.land mem 0.

(** util/spinlock.c:21-24 *)
Definition vtm_spinlock_init (n : nat) : spin_state := mk_spin 0 (replicate n SpOut).

(** util/spinlock.c:26-36 [vtm_spinlock_lock].  A thread calls
    vtm_spinlock_lock, tries once, or calls vtm_spinlock_unlock. *)
Definition spin_step (i : nat) (s : spin_state) : option spin_state :=
  pc ← sp_pcs s !! i;
  match pc with
  | SpOut => Some (mk_spin (sp_locked s) (<[i := SpTry]> (sp_pcs s)))
  | SpTry =>
      let '(old, mem) := VTM_ATOMIC_CAS_INT32 (sp_locked s) 0 1 in
      Some (mk_spin mem (if negb (old =? 0) then sp_pcs s else <[i := SpIn]> (sp_pcs s)))
  | SpIn => Some (mk_spin (VTM_ATOMIC_ZERO_INT32 (sp_locked s)) (<[i := SpOut]> (sp_pcs s)))
  end.

Definition is_in (pc : spin_pc) : bool := match pc with SpIn => true | _ => false end.

(** The flag says how many threads hold the lock. *)
Definition spin_inv (s : spin_state) : Prop :=
  sp_locked s = Z.of_nat (count is_in (sp_pcs s)) /\ sp_locked s <= 1.

Lemma spin_step_inv i s s' : spin_inv s -> spin_step i s = Some s' -> spin_inv s'.
Proof.
  unfold spin_inv, spin_step. intros [Hc Hl]. destruct (sp_pcs s !! i) as [pc|] eqn:Ei; [|done].
  cbn [mbind option_bind].
  destruct pc; unfold VTM_ATOMIC_CAS_INT32, VTM_ATOMIC_ZERO_INT32; rewrite ?Z.land_0_r;
    [intros [= <-]| |intros [= <-]]; cbn [sp_locked sp_pcs].
  - pose proof (count_insert is_in _ _ _ SpTry Ei). cbn in *. lia.
  - destruct (sp_locked s =? 0) eqn:E0; bsplit; intros [= <-]; cbn [sp_locked sp_pcs negb]; [|done].
    pose proof (count_insert is_in _ _ _ SpIn Ei). cbn in *. lia.
  - pose proof (count_insert is_in _ _ _ SpOut Ei). cbn in *. lia.
Qed.

(** the spinlock (util/spinlock.c) excludes: in every interleaving of any
    number of threads at most one is behind vtm_spinlock_lock; and it is not
    lost: when nobody holds it, the next thread that tries gets it. *)
Theorem spinlock_mutual_exclusion n s
    (Hr : rtc (any_step spin_step) (vtm_spinlock_init n) s) :
  (forall i j, sp_pcs s !! i = Some SpIn -> sp_pcs s !! j = Some SpIn -> i = j) /\
  (Forall (fun pc => pc <> SpIn) (sp_pcs s) -> forall i, sp_pcs s !! i = Some SpTry ->
   exists s', spin_step i s = Some s' /\ sp_pcs s' !! i = Some SpIn).
Proof.
  assert (spin_inv s) as [Hc Hl].
  { eapply invariant_reach; [apply spin_step_inv| |done]. unfold spin_inv, vtm_spinlock_init. cbn.
    assert (count is_in (replicate n SpOut) = 0%nat) as -> by (by apply count_zero, Forall_replicate).
    done. }
  split.
  - intros i j Hi Hj. destruct (decide (i = j)) as [|Hne]; [done|].
    pose proof (count_insert is_in _ _ _ SpOut Hi) as H1. cbn in H1.
    assert (0 < count is_in (<[i := SpOut]> (sp_pcs s)))%nat; [|lia].
    apply (count_at _ _ j SpIn); [|done]. by rewrite list_lookup_insert_ne.
  - intros Hn i Hi. unfold spin_step. rewrite Hi. cbn [mbind option_bind].
    assert (count is_in (sp_pcs s) = 0%nat) as E0.
    { apply count_zero. eapply Forall_impl; [exact Hn|]. by intros []. }
    rewrite E0 in Hc. rewrite Hc. cbn. eexists. split; [done|].
    cbn [sp_pcs]. apply list_lookup_insert_eq. by eapply lookup_lt_Some.
Qed.

Lemma spinlock_mutual_exclusion_witness :
  exists s, rtc (any_step spin_step) (vtm_spinlock_init 2) s /\ sp_pcs s = [SpTry; SpIn] /\
    forall i j, sp_pcs s !! i = Some SpIn -> sp_pcs s !! j = Some SpIn -> i = j.
Proof.
  assert (rtc (any_step spin_step) (vtm_spinlock_init 2) (mk_spin 1 [SpTry; SpIn])) as H.
  { apply (run_steps_reach spin_step [0; 1; 1; 0]%nat). reflexivity. }
  exists (mk_spin 1 [SpTry; SpIn]). split; [exact H|]. split; [reflexivity|].
  exact (proj1 (spinlock_mutual_exclusion 2 _ H)).
Defined.
End Spinlock.

(** ** The latch *)

Module Latch.

(** A thread calls vtm_latch_count or vtm_latch_await. *)
Inductive latch_call := LaCount | LaAwait.

(** Outside; in vtm_latch_count: in front of the mutex, in front of the
    decrement, of the signal, of the unlocking; in vtm_latch_await: in front of
    the mutex (also after being woken), in front of the test, asleep, in front
    of the unlocking. *)
Inductive latch_pc := LaOut | CLock | CDec | CSignal | CUnlock | ALock | ATest | ASleep | AUnlock.

(** util/latch.h:21-26 [struct vtm_latch].  The threads with the calls they have
    still to make; [la_abort]: the assertion failed. *)
Record latch := mk_latch {
  la_count : Z;
  la_mtx : option nat;
  la_threads : list (latch_pc * list latch_call);
  la_abort : bool
}.

(** util/latch.c:9-25.  The allocations succeed. *)
Definition vtm_latch_init (n : Z) (progs : list (list latch_call)) : option latch :=
  if n =? 0 then None else Some (mk_latch n None (map (fun p => (LaOut, p)) progs) false).

Definition wake (th : latch_pc * list latch_call) : latch_pc * list latch_call :=
  match th with (ASleep, p) => (ALock, p) | _ => th end.

(** util/latch.c:36-44 [vtm_latch_count] *)
Definition count_step (i : nat) (pc : latch_pc) (p : list latch_call) (s : latch) : option latch :=
  let goto pc' := <[i := (pc', p)]> (la_threads s) in
  match pc with
  | CLock => if decide (la_mtx s = None) then Some (mk_latch (la_count s) (Some i) (goto CDec) false)
             else None
  | CDec =>
      if 0 <? la_count s then
        let c := u32 (la_count s - 1) in
        Some (mk_latch c (la_mtx s) (goto (if c =? 0 then CSignal else CUnlock)) false)
      else Some (mk_latch (la_count s) (la_mtx s) (la_threads s) true)
  | CSignal => Some (mk_latch (la_count s) (la_mtx s) (map wake (goto CUnlock)) false)
  | CUnlock => Some (mk_latch (la_count s) None (goto LaOut) false)
  | _ => None
  end.

(** util/latch.c:46-52 [vtm_latch_await] *)
Definition await_step (i : nat) (pc : latch_pc) (p : list latch_call) (s : latch) : option latch :=
  let goto pc' := <[i := (pc', p)]> (la_threads s) in
  match pc with
  | ALock => if decide (la_mtx s = None) then Some (mk_latch (la_count s) (Some i) (goto ATest) false)
             else None
  | ATest =>
      if 0 <? la_count s then Some (mk_latch (la_count s) None (goto ASleep) false)
      else Some (mk_latch (la_count s) (la_mtx s) (goto AUnlock) false)
  | AUnlock => Some (mk_latch (la_count s) None (goto LaOut) false)
  | _ => None
  end.

(** A step of a thread. *)
Definition latch_step (i : nat) (s : latch) : option latch :=
  if la_abort s then None
  else
    '(pc, p) ← la_threads s !! i;
    match pc with
    | LaOut =>
        match p with
        | [] => None
        | LaCount :: p => Some (mk_latch (la_count s) (la_mtx s) (<[i := (CLock, p)]> (la_threads s)) false)
        | LaAwait :: p => Some (mk_latch (la_count s) (la_mtx s) (<[i := (ALock, p)]> (la_threads s)) false)
        end
    | CLock | CDec | CSignal | CUnlock => count_step i pc p s
    | ALock | ATest | ASleep | AUnlock => await_step i pc p s
    end.

(** The condition variable may also wake a thread without a signal. *)
Inductive latch_label := LaStep (i : nat) | LaSpurious (i : nat).

Definition latch_lstep (l : latch_label) (s : latch) : option latch :=
  match l with
  | LaStep i => latch_step i s
  | LaSpurious i =>
      '(pc, p) ← la_threads s !! i;
      match pc with
      | ASleep => Some (mk_latch (la_count s) (la_mtx s) (<[i := (ALock, p)]> (la_threads s)) (la_abort s))
      | _ => None
      end
  end.

(** *** The invariant *)

Definition latch_owns (th : latch_pc * list latch_call) : bool :=
  match fst th with CDec | CSignal | CUnlock | ATest | AUnlock => true | _ => false end.

(** The decrements a thread has still to make. *)
Definition latch_due (th : latch_pc * list latch_call) : nat :=
  (length (List.filter (fun c => match c with LaCount => true | _ => false end) (snd th)) +
   match fst th with CLock | CDec => 1 | _ => 0 end)%nat.

Record latch_inv (slack : Z) (s : latch) : Prop := {
  li_abort : la_abort s = false;
  li_slack : 0 <= slack;
  li_count : la_count s = Z.of_nat (total latch_due (la_threads s)) + slack;
  li_max : la_count s < 2 ^ 32;
  li_mtx : mtx_ok latch_owns (la_mtx s) (la_threads s);
  li_signal : forall i p, la_threads s !! i = Some (CSignal, p) -> la_count s = 0;
  li_pass : forall i p, la_threads s !! i = Some (AUnlock, p) -> la_count s = 0;
  li_sleep : forall i p, la_threads s !! i = Some (ASleep, p) ->
    0 < la_count s \/ exists j q, la_threads s !! j = Some (CSignal, q)
}.

(** A step that changes only where thread [i] is, and maybe the mutex. *)
Lemma latch_inv_goto k s i th th' m :
  latch_inv k s -> la_threads s !! i = Some th ->
  latch_due th' = latch_due th -> fst th <> CSignal -> fst th' <> CSignal ->
  (fst th' = AUnlock -> la_count s = 0) -> (fst th' = ASleep -> 0 < la_count s) ->
  mtx_ok latch_owns m (<[i := th']> (la_threads s)) ->
  latch_inv k (mk_latch (la_count s) m (<[i := th']> (la_threads s)) false).
Proof.
  intros [] Hi Hd Hn Hn' Hp Hs Hm. split; cbn [la_count la_mtx la_threads la_abort]; try done.
  - pose proof (total_insert latch_due _ _ _ th' Hi). lia.
  - intros j p [[-> <-]|[_ Hj]]%lookup_other; [done|eauto].
  - intros j p [[-> <-]|[_ Hj]]%lookup_other; [by apply Hp|eauto].
  - intros j p [[-> <-]|[_ Hj]]%lookup_other; [left; by apply Hs|].
    destruct (li_sleep0 _ _ Hj) as [?|(a & q & Ha)]; [by left|]. right. exists a, q.
    rewrite list_lookup_insert_ne; [done|]. intros <-. rewrite Hi in Ha. by injection Ha as ->.
Qed.

Lemma wake_owns th : latch_owns (wake th) = latch_owns th.
Proof. by destruct th as [[] p]. Qed.
Lemma wake_due th : latch_due (wake th) = latch_due th.
Proof. by destruct th as [[] p]. Qed.
Lemma wake_lookup l i th : map wake l !! i = Some th -> exists th0, l !! i = Some th0 /\ th = wake th0.
Proof. rewrite list_lookup_fmap. destruct (l !! i) as [t0|]; [|done]. intros [= <-]. by exists t0. Qed.

Lemma latch_inv_dec k s i p :
  latch_inv k s -> la_threads s !! i = Some (CDec, p) ->
  0 < la_count s /\
  let c := u32 (la_count s - 1) in
  latch_inv k (mk_latch c (la_mtx s) (<[i := (if c =? 0 then CSignal else CUnlock, p)]> (la_threads s)) false).
Proof.
  intros [] Hi. pose proof (total_at latch_due _ _ _ Hi) as Ht. unfold latch_due at 1 in Ht. cbn in Ht.
  assert (0 < la_count s) as Hpos by lia. split; [done|]. cbv zeta.
  assert (u32 (la_count s - 1) = la_count s - 1) as -> by (unfold u32, wrap; apply Z.mod_small; lia).
  set (th' := (if la_count s - 1 =? 0 then CSignal else CUnlock, p)).
  assert (latch_due th' + 1 = latch_due (CDec, p))%nat as Hd
    by (unfold latch_due, th'; cbn; destruct (_ =? 0); lia).
  pose proof (total_insert latch_due _ _ _ th' Hi) as Hsum.
  split; cbn [la_count la_mtx la_threads la_abort]; try done; try lia.
  - eapply mtx_keep; [done|done|]. unfold th'. by destruct (_ =? 0).
  - intros j q [[-> [=]]|[_ Hj]]%lookup_other.
    + destruct (la_count s - 1 =? 0) eqn:E; bsplit; [lia|done].
    + rewrite (li_signal0 _ _ Hj) in Hpos. lia.
  - intros j q [[-> [=]]|[_ Hj]]%lookup_other.
    + by destruct (la_count s - 1 =? 0).
    + rewrite (li_pass0 _ _ Hj) in Hpos. lia.
  - intros j q Hj. unfold th'. destruct (la_count s - 1 =? 0) eqn:E; bsplit; [|left; lia].
    right. exists i, p. apply list_lookup_insert_eq. by eapply lookup_lt_Some.
Qed.

Lemma latch_inv_wake k s i p :
  latch_inv k s -> la_threads s !! i = Some (CSignal, p) ->
  latch_inv k (mk_latch (la_count s) (la_mtx s) (map wake (<[i := (CUnlock, p)]> (la_threads s))) false).
Proof.
  intros [] Hi. pose proof (li_signal0 _ _ Hi) as Hz.
  split; cbn [la_count la_mtx la_threads la_abort]; try done.
  - rewrite (total_map latch_due wake) by apply wake_due.
    pose proof (total_insert latch_due _ _ _ (CUnlock, p) Hi) as H. cbn in H. lia.
  - apply mtx_map; [|apply wake_owns]. by eapply mtx_keep.
  - intros j q ([[] r] & _ & [=])%wake_lookup.
Qed.

Lemma latch_lstep_inv k l s s' : latch_inv k s -> latch_lstep l s = Some s' -> latch_inv k s'.
Proof.
  intros HI. pose proof HI as []. destruct l as [i|i]; cbn [latch_lstep].
  - unfold latch_step. rewrite li_abort0. destruct (la_threads s !! i) as [[pc p]|] eqn:Hi; [|done].
    cbn [mbind option_bind].
    assert (forall pc', mtx_ok latch_owns None (la_threads s) -> latch_owns (pc', p) = true ->
              mtx_ok latch_owns (Some i) (<[i := (pc', p)]> (la_threads s))) as Htake
      by (intros pc' H1 H2; by eapply mtx_take).
    destruct pc; cbn [count_step await_step].
    + destruct p as [|[] p]; [done| |]; intros [= <-]; (eapply latch_inv_goto; [done|done| |done|done|done|done|]);
        [unfold latch_due; cbn; lia|by eapply mtx_keep|done|by eapply mtx_keep].
    + case_decide as Em; [|done]. intros [= <-]. eapply latch_inv_goto; try done. apply Htake; [|done].
      by rewrite <- Em.
    + destruct (latch_inv_dec k s i p HI Hi) as [Hpos H]. rewrite (proj2 (Z.ltb_lt _ _)) by done.
      by intros [= <-].
    + intros [= <-]. by apply latch_inv_wake.
    + intros [= <-]. eapply latch_inv_goto; try done. by eapply mtx_drop.
    + case_decide as Em; [|done]. intros [= <-]. eapply latch_inv_goto; try done. apply Htake; [|done].
      by rewrite <- Em.
    + destruct (0 <? la_count s) eqn:E0; bsplit; intros [= <-].
      * eapply latch_inv_goto; try done. by eapply mtx_drop.
      * eapply latch_inv_goto; try done; [intros _; lia|]. by eapply mtx_keep.
    + done.
    + intros [= <-]. eapply latch_inv_goto; try done. by eapply mtx_drop.
  - destruct (la_threads s !! i) as [[pc p]|] eqn:Hi; [|done]. cbn [mbind option_bind].
    destruct pc; try done. rewrite li_abort0. intros [= <-]. eapply latch_inv_goto; try done.
    by eapply mtx_keep.
Qed.

Definition prog_due (p : list latch_call) : nat := latch_due (LaOut, p).

Lemma latch_init_inv n progs s :
  0 <= n < 2 ^ 32 -> Z.of_nat (total prog_due progs) <= n -> vtm_latch_init n progs = Some s ->
  latch_inv (n - Z.of_nat (total prog_due progs)) s.
Proof.
  intros Hn Hd. unfold vtm_latch_init. destruct (n =? 0); [done|]. intros [= <-].
  assert (forall i th, map (fun p => (LaOut, p)) progs !! i = Some th -> fst th = LaOut) as Hout.
  { intros i th. rewrite list_lookup_fmap. destruct (progs !! i); [|done]. by intros [= <-]. }
  split; cbn [la_count la_mtx la_threads la_abort]; try done; try lia.
  - assert (total latch_due (map (fun p => (LaOut, p)) progs) = total prog_due progs) as ->; [|lia].
    clear. induction progs as [|p l IH]; [done|]. cbn [map total]. by rewrite IH.
  - split; [|done]. intros i th Hi. apply Hout in Hi. unfold latch_owns. by rewrite Hi.
  - by intros i p Hi%Hout.
  - by intros i p Hi%Hout.
  - by intros i p Hi%Hout.
Qed.

(** Where a thread is when it cannot go on. *)
Lemma latch_blocked k s i th :
  latch_inv k s -> la_threads s !! i = Some th -> latch_step i s = None ->
  th = (LaOut, []) \/ fst th = ASleep \/
  (fst th = CLock \/ fst th = ALock) /\ exists j, la_mtx s = Some j.
Proof.
  intros [] Hi. unfold latch_step. rewrite li_abort0, Hi. cbn [mbind option_bind].
  destruct th as [[] p]; cbn [count_step await_step fst]; try done.
  - destruct p as [|[] p]; [by left|done|done].
  - case_decide as Em; [done|]. intros _. right; right. split; [by left|].
    destruct (la_mtx s) as [j|]; [by exists j|done].
  - by destruct (0 <? la_count s).
  - case_decide as Em; [done|]. intros _. right; right. split; [by right|].
    destruct (la_mtx s) as [j|]; [by exists j|done].
  - by destruct (0 <? la_count s).
  - intros _. by right; left.
Qed.

(** A thread that awaits the latch makes its decrements before. *)
Fixpoint counts_first (p : list latch_call) : Prop :=
  match p with
  | [] => True
  | LaCount :: p' => counts_first p'
  | LaAwait :: p' => prog_due p' = 0%nat /\ counts_first p'
  end.

Definition in_order (th : latch_pc * list latch_call) : Prop :=
  counts_first (snd th) /\
  match fst th with ALock | ATest | ASleep | AUnlock => prog_due (snd th) = 0%nat | _ => True end.

Lemma wake_in_order th : in_order th -> in_order (wake th).
Proof. by destruct th as [[] p]. Qed.

Lemma latch_lstep_order l s s' :
  Forall in_order (la_threads s) -> latch_lstep l s = Some s' -> Forall in_order (la_threads s').
Proof.
  intros HF. assert (forall i th th', la_threads s !! i = Some th -> (in_order th -> in_order th') ->
    Forall in_order (<[i := th']> (la_threads s))) as Hgo.
  { intros i th th' Hi Ho. apply Forall_insert; [done|]. apply Ho. by eapply Forall_lookup_1. }
  destruct l as [i|i]; cbn [latch_lstep].
  - unfold latch_step. destruct (la_abort s); [done|].
    destruct (la_threads s !! i) as [[pc p]|] eqn:Hi; [|done]. cbn [mbind option_bind].
    destruct pc; cbn [count_step await_step]; repeat case_match; intros E; simplify_eq;
      cbn [la_threads]; try done; try (eapply Hgo; [done|unfold in_order; cbn; tauto]).
    apply Forall_fmap. eapply Forall_impl; [eapply Hgo; [done|]|intros th; apply wake_in_order].
    unfold in_order; cbn; tauto.
  - destruct (la_threads s !! i) as [[pc p]|] eqn:Hi; [|done]. cbn [mbind option_bind].
    destruct pc; try done. intros [= <-]. cbn [la_threads]. by eapply Hgo.
Qed.

(** the latch (util/latch.c, vtm_latch_count and vtm_latch_await over a mutex
    and a condition variable) works in every interleaving of any number of
    threads, with spurious wake-ups: as long as there are not more decrements
    than the count and no thread decrements it after it awaited it, no assertion
    fails; vtm_latch_await only returns when the
    count is zero; and no wake-up is lost: if the threads make all the
    decrements together, a state in which no thread can go on is one in which
    every call has returned. *)
Theorem latch_await_returns n progs s0 s
    (Hn : 0 <= n < 2 ^ 32) (Hd : Z.of_nat (total prog_due progs) <= n)
    (Hc : Forall counts_first progs) (Hs0 : vtm_latch_init n progs = Some s0)
    (Hr : rtc (any_step latch_lstep) s0 s) :
  la_abort s = false /\
  (forall i p, la_threads s !! i = Some (AUnlock, p) -> la_count s = 0) /\
  (Z.of_nat (total prog_due progs) = n -> (forall i, latch_step i s = None) ->
   la_count s = 0 /\ Forall (fun th => th = (LaOut, [])) (la_threads s)).
Proof.
  pose proof (invariant_reach latch_lstep _ _ _ (latch_lstep_inv _) (latch_init_inv _ _ _ Hn Hd Hs0) Hr) as HI.
  assert (Forall in_order (la_threads s)) as HO.
  { eapply (invariant_reach latch_lstep (fun s => Forall in_order (la_threads s)));
      [intros l x x'; apply latch_lstep_order| |exact Hr].
    revert Hs0. unfold vtm_latch_init. destruct (n =? 0); [done|]. intros [= <-]. cbn.
    apply Forall_fmap. eapply Forall_impl; [exact Hc|]. intros p Hp. by split. }
  pose proof HI as []. split; [done|]. split; [done|]. intros Hall Hstuck.
  assert (la_mtx s = None) as Hm.
  { destruct (la_mtx s) as [j|] eqn:Em; [|done]. destruct li_mtx0 as [Hm1 Hm2].
    destruct (Hm2 j eq_refl) as [th Hj]. pose proof (proj2 (Hm1 j th Hj) eq_refl) as Ho.
    destruct (latch_blocked _ _ _ _ HI Hj (Hstuck j)) as [->|[E|[[E|E] _]]]; unfold latch_owns in Ho;
      [done|rewrite E in Ho; done..]. }
  assert (forall i th, la_threads s !! i = Some th -> th = (LaOut, []) \/ fst th = ASleep) as Hb.
  { intros i th Hi. destruct (latch_blocked _ _ _ _ HI Hi (Hstuck i)) as [?|[?|[_ [j Hj]]]];
      [by left|by right|congruence]. }
  assert (forall i p, la_threads s !! i = Some (ASleep, p) -> prog_due p = 0%nat) as Ho.
  { intros i p Hi. apply (Forall_lookup_1 _ _ _ _ HO Hi). }
  assert (total latch_due (la_threads s) = 0%nat) as Ht.
  { apply total_zero, Forall_lookup. intros i th Hi.
    destruct (Hb i th Hi) as [->|E]; [done|]. destruct th as [pc p]. cbn in E. subst pc.
    pose proof (Ho i p Hi) as Hp. unfold prog_due, latch_due in *. cbn in *. lia. }
  assert (la_count s = 0) as Hz by lia. split; [done|]. apply Forall_lookup. intros i th Hi.
  destruct (Hb i th Hi) as [|E]; [done|]. destruct th as [pc p]. cbn in E. subst pc. exfalso.
  destruct (li_sleep0 i p Hi) as [?|(j & q & Hj)]; [lia|].
  by destruct (Hb j _ Hj) as [[=]|[=]].
Qed.

(** Two threads count and await, a third awaits. *)
Definition demo_progs : list (list latch_call) := [[LaCount; LaAwait]; [LaCount]; [LaAwait]].

Definition demo_latch : latch := mk_latch 2 None (map (fun p => (LaOut, p)) demo_progs) false.
Definition demo_schedule : list latch_label :=
  map LaStep [2; 2; 2; 0; 0; 0; 0; 0; 0; 0; 1; 1; 1; 1; 1; 2; 2; 2; 0; 0; 0]%nat.
Definition demo_done : latch := mk_latch 0 None [(LaOut, []); (LaOut, []); (LaOut, [])] false.

Lemma latch_await_returns_witness :
  run_steps latch_lstep demo_schedule demo_latch = Some demo_done /\
  la_count demo_done = 0 /\ Forall (fun th => th = (LaOut, [])) (la_threads demo_done).
Proof.
  assert (run_steps latch_lstep demo_schedule demo_latch = Some demo_done) as E by reflexivity.
  split; [exact E|].
  apply (latch_await_returns 2 demo_progs demo_latch demo_done).
  - lia.
  - cbn. lia.
  - repeat constructor.
  - reflexivity.
  - exact (run_steps_reach latch_lstep _ _ _ E).
  - reflexivity.
  - intros i. do 3 (destruct i as [|i]; [reflexivity|]). reflexivity.
Defined.
End Latch.
