(* ===== verification/StreamWorkers.v ===== *)
(** * StreamWorkers: the threads of a stream server, net/socket_stream_server.c

    The main thread, the workers, the queue of events with its mutex and its
    condition variable, and the two latches that order the end (Sync.v), as
    steps of threads in any interleaving.  What a worker does with an event is
    StreamServer.v; here it processes it, puts it back, or hands its socket over
    to be released.  The events that come from the listener, the connections
    that are accepted and the outcome of allocations are choices of a label. *)

From stdpp Require Import list gmap relations.
From S2P Require Import Prelude Base Socket Sync StreamServer.

(** ** Threads *)

(** Where a worker is.  [WStart]: before it has its dataset; [WGone]: it got none
    and has returned, without counting a latch.  The boolean tells the loop that
    drains the queue at the end from the normal one.  Behind a lock: [WTest], [WWait], [WQuit],
    [WPolled], [WAdded], [WFreed], [WPoll], [WLeave]. *)
Inductive worker_pc :=
| WStart
| WGone
| WLoop
| WLock
| WTest
| WWait
| WSleep
| WQuit
| WPolled (drain : bool) (e : srv_entry)
| WEvent (drain : bool) (e : srv_entry)
| WAdd (drain : bool) (e : srv_entry)
| WAdded (drain : bool)
| WFree (drain : bool) (e : srv_entry)
| WFreed (drain : bool) (e : srv_entry)
| WCount
| WAwait
| WDrain
| WPoll
| WLeave
| WEnd.

(** Where the main thread is.  Behind a lock: [MHandled], [MAccepted],
    [MFilled]. *)
Inductive main_pc :=
| MLoop
| MListen
| MHandled (clients : list srv_entry) (ok : bool)
| MAccept (clients : list srv_entry)
| MAccepted (clients : list srv_entry)
| MFinish
| MSignal
| MPrepare
| MDrain
| MFilled
| MCount
| MInterrupt
| MJoin
| MDone.

Inductive tid := TMain | TWorker (i : nat).

#[global] Instance tid_eq_dec : EqDecision tid.
Proof. solve_decision. Defined.

(** ** The shared state *)

(** The queue, the mutex and the flag of the server; the counts of the latches;
    the threads; and for the account: the events that were ever added, that were
    processed, that were dropped when the server was stopped. *)
Record threads := mk_threads {
  w_running : bool;
  w_events : list srv_entry;
  w_release : list Z;
  w_mtx : option tid;
  w_prepare : Z;
  w_run : Z;
  w_pcs : list worker_pc;
  w_main : main_pc;
  w_added : list srv_entry;
  w_done : list srv_entry;
  w_dropped : list srv_entry
}.

(** net/socket_stream_server.c:189-226.  [n] workers. *)
Definition threads_init (n : nat) : threads :=
  mk_threads true [] [] None (Z.of_nat n) 1 (replicate n WStart) MLoop [] [] [].

(** Changes of the shared state; the threads are set apart. *)
Definition set_mtx (m : option tid) (s : threads) : threads :=
  mk_threads (w_running s) (w_events s) (w_release s) m (w_prepare s) (w_run s) (w_pcs s) (w_main s)
    (w_added s) (w_done s) (w_dropped s).
Definition set_pcs (l : list worker_pc) (s : threads) : threads :=
  mk_threads (w_running s) (w_events s) (w_release s) (w_mtx s) (w_prepare s) (w_run s) l (w_main s)
    (w_added s) (w_done s) (w_dropped s).
Definition set_pc (i : nat) (pc : worker_pc) (s : threads) : threads :=
  set_pcs (<[i := pc]> (w_pcs s)) s.
Definition set_main (pc : main_pc) (s : threads) : threads :=
  mk_threads (w_running s) (w_events s) (w_release s) (w_mtx s) (w_prepare s) (w_run s) (w_pcs s) pc
    (w_added s) (w_done s) (w_dropped s).
Definition set_running (b : bool) (s : threads) : threads :=
  mk_threads b (w_events s) (w_release s) (w_mtx s) (w_prepare s) (w_run s) (w_pcs s) (w_main s)
    (w_added s) (w_done s) (w_dropped s).
Definition set_latches (prepare run : Z) (s : threads) : threads :=
  mk_threads (w_running s) (w_events s) (w_release s) (w_mtx s) prepare run (w_pcs s) (w_main s)
    (w_added s) (w_done s) (w_dropped s).
Definition set_release (l : list Z) (s : threads) : threads :=
  mk_threads (w_running s) (w_events s) l (w_mtx s) (w_prepare s) (w_run s) (w_pcs s) (w_main s)
    (w_added s) (w_done s) (w_dropped s).
Definition set_events (events added done dropped : list srv_entry) (s : threads) : threads :=
  mk_threads (w_running s) events (w_release s) (w_mtx s) (w_prepare s) (w_run s) (w_pcs s) (w_main s)
    added done dropped.

(** ** Synchronisation *)

(** Taking the mutex, if it is free. *)
Definition mtx_lock (t : tid) (s : threads) : option threads :=
  if decide (w_mtx s = None) then Some (set_mtx (Some t) s) else None.

(** A woken worker waits for the mutex. *)
Definition wake_worker (pc : worker_pc) : worker_pc :=
  match pc with WSleep => WLock | _ => pc end.

(** sys/unix/util/mutex.c:110-114 [vtm_cond_signal_all].  Every worker that
    sleeps. *)
Definition vtm_cond_signal_all (s : threads) : threads := set_pcs (map wake_worker (w_pcs s)) s.

Definition asleep (pc : worker_pc) : bool := match pc with WSleep => true | _ => false end.

(** sys/unix/util/mutex.c:104-108 [vtm_cond_signal].  One of the workers that
    sleep, if there is one. *)
Definition vtm_cond_signal (who : option nat) (s : threads) : option threads :=
  match who with
  | Some i =>
      pc ← w_pcs s !! i; if asleep pc then Some (set_pc i WLock s) else None
  | None => if forallb (fun pc => negb (asleep pc)) (w_pcs s) then Some s else None
  end.

(** ** Workers *)

(** What comes of an event: it was processed, it has to be put back because its
    socket is locked, or its socket is released on the way. *)
Inductive outcome := EvDone | EvAgain | EvRelease.

(** The head of the loop that a worker is in. *)
Definition loop_head (drain : bool) : worker_pc := if drain then WDrain else WLoop.

(** net/socket_stream_server.c:839-856 [vtm_socket_stream_srv_worker_event], with
    642-649 and 1033-1047. *)
Definition event_step (i : nat) (oc : outcome) (who : option nat) (pc : worker_pc) (s : threads)
    : option threads :=
  match pc with
  | WEvent d e =>
      match oc with
      | EvDone => Some (set_pc i (loop_head d)
                          (set_events (w_events s) (w_added s) (e :: w_done s) (w_dropped s) s))
      | EvAgain => Some (set_pc i (WAdd d e) s)
      | EvRelease => Some (set_pc i (WFree d e) s)
      end
  | WAdd d e =>
      s ← mtx_lock (TWorker i) s;
      let s := set_pc i (WAdded d) (set_events (w_events s ++ [e]) (w_added s) (w_done s) (w_dropped s) s) in
      vtm_cond_signal who s
  | WAdded d => Some (set_mtx None (set_pc i (loop_head d) s))
  | WFree d e =>
      s ← mtx_lock (TWorker i) s;
      Some (set_pc i (WFreed d e) (set_release (w_release s ++ [en_sock e]) s))
  | WFreed d e => Some (set_mtx None (set_pc i (WEvent d e) s))
  | _ => None
  end.

(** core/squeue.h:69-77.  The first event, which the worker then has. *)
Definition poll_step (i : nat) (drain : bool) (e : srv_entry) (rest : list srv_entry) (s : threads)
    : threads :=
  set_pc i (WPolled drain e) (set_events rest (w_added s) (w_done s) (w_dropped s) s).

(** net/socket_stream_server.c:780-837 [vtm_socket_stream_srv_worker_run].  [ok]:
    the answer of the allocator for the dataset of the worker. *)
Definition worker_step (i : nat) (ok : bool) (oc : outcome) (who : option nat) (s : threads) : option threads :=
  pc ← w_pcs s !! i;
  match pc with
  | WStart => Some (set_pc i (if ok then WLoop else WGone) s)
  | WGone => None
  | WLoop => Some (set_pc i (if w_running s then WLock else WCount) s)
  | WLock => s ← mtx_lock (TWorker i) s; Some (set_pc i WTest s)
  | WTest =>
      match w_events s with
      | e :: rest => Some (poll_step i false e rest s)
      | [] => Some (set_pc i (if w_running s then WWait else WQuit) s)
      end
  | WWait => Some (set_mtx None (set_pc i WSleep s))
  | WSleep => None
  | WQuit => Some (set_mtx None (set_pc i WCount s))
  | WPolled d e => Some (set_mtx None (set_pc i (WEvent d e) s))
  | WEvent _ _ | WAdd _ _ | WAdded _ | WFree _ _ | WFreed _ _ => event_step i oc who pc s
  | WCount => Some (set_pc i WAwait (set_latches (w_prepare s - 1) (w_run s) s))
  | WAwait => if w_run s =? 0 then Some (set_pc i WDrain s) else None
  | WDrain => s ← mtx_lock (TWorker i) s; Some (set_pc i WPoll s)
  | WPoll =>
      match w_events s with
      | e :: rest => Some (poll_step i true e rest s)
      | [] => Some (set_pc i WLeave s)
      end
  | WLeave => Some (set_mtx None (set_pc i WEnd s))
  | WEnd => None
  end.

(** ** The main thread *)

(** What the listener gives: a failure, or events with the connections to accept
    and whether all could be allocated. *)
Inductive listened := LiFail | LiEvents (events clients : list srv_entry) (ok : bool).

(** The thread has returned. *)
Definition is_end (pc : worker_pc) : bool := match pc with WEnd | WGone => true | _ => false end.

(** Adding events to the queue. *)
Definition add_events (events : list srv_entry) (s : threads) : threads :=
  set_events (w_events s ++ events) (w_added s ++ events) (w_done s) (w_dropped s) s.

(** net/socket_stream_server.c:328-377 and 452-617.  [closes]: the close
    events of the end. *)
Definition main_step (li : listened) (who : option nat) (closes : list srv_entry) (s : threads)
    : option threads :=
  match w_main s with
  | MLoop => Some (set_main (if w_running s then MListen else MFinish) s)
  | MListen =>
      match li with
      | LiFail => Some (set_main MFinish s)
      | LiEvents events clients ok =>
          s ← mtx_lock TMain s;
          Some (vtm_cond_signal_all (set_main (MHandled clients ok) (add_events events (set_release [] s))))
      end
  | MHandled clients ok => Some (set_mtx None (set_main (if ok then MAccept clients else MFinish) s))
  | MAccept [] => Some (set_main MLoop s)
  | MAccept (e :: clients) =>
      match li with
      | LiFail => Some (set_main MFinish s)
      | LiEvents _ _ _ =>
          s ← mtx_lock TMain s;
          vtm_cond_signal who (set_main (MAccepted clients) (add_events [e] s))
      end
  | MAccepted clients => Some (set_mtx None (set_main (MAccept clients) s))
  | MFinish => Some (set_main MSignal (set_running false s))
  | MSignal => Some (set_main MPrepare (vtm_cond_signal_all s))
  | MPrepare => if w_prepare s =? 0 then Some (set_main MDrain s) else None
  | MDrain =>
      s ← mtx_lock TMain s;
      Some (set_main MFilled
              (set_events closes (w_added s ++ closes) (w_done s) (w_dropped s ++ w_events s) s))
  | MFilled => Some (set_mtx None (set_main MCount s))
  | MCount => Some (set_main MInterrupt (set_latches (w_prepare s) (w_run s - 1) s))
  | MInterrupt => Some (set_main MJoin (vtm_cond_signal_all s))
  | MJoin => if forallb is_end (w_pcs s) then Some (set_main MDone s) else None
  | MDone => None
  end.

(** ** Steps *)

(** A step of a thread; the server is stopped by another thread
    (net/socket_stream_server.c, vtm_socket_stream_srv_stop); a wake-up without a
    signal. *)
Inductive label :=
| LWorker (i : nat) (ok : bool) (oc : outcome) (who : option nat)
| LMain (li : listened) (who : option nat) (closes : list srv_entry)
| LStop
| LSpurious (i : nat).

Definition threads_step (l : label) (s : threads) : option threads :=
  match l with
  | LWorker i ok oc who => worker_step i ok oc who s
  | LMain li who closes => main_step li who closes s
  | LStop => Some (set_running false s)
  | LSpurious i => pc ← w_pcs s !! i; if asleep pc then Some (set_pc i WLock s) else None
  end.

(** ** The invariant *)

Definition worker_owns (pc : worker_pc) : bool :=
  match pc with
  | WTest | WWait | WQuit | WPolled _ _ | WAdded _ | WFreed _ _ | WPoll | WLeave => true
  | _ => false
  end.

Definition main_owns (pc : main_pc) : bool :=
  match pc with MHandled _ _ | MAccepted _ | MFilled => true | _ => false end.

(** The worker that owns the mutex. *)
Definition owner (m : option tid) : option nat :=
  match m with Some (TWorker i) => Some i | _ => None end.

(** Has not counted the first latch. *)
Definition working (pc : worker_pc) : bool :=
  match pc with
  | WStart | WGone | WLoop | WLock | WTest | WWait | WSleep | WQuit | WCount => true
  | WPolled d _ | WEvent d _ | WAdd d _ | WAdded d | WFree d _ | WFreed d _ => negb d
  | WAwait | WDrain | WPoll | WLeave | WEnd => false
  end.

(** Behind the second latch. *)
Definition draining (pc : worker_pc) : bool := negb (working pc) && match pc with WAwait => false | _ => true end.

(** Has seen that the queue is empty at the end. *)
Definition leaving (pc : worker_pc) : bool := match pc with WLeave | WEnd => true | _ => false end.

(** Has seen that the server was stopped. *)
Definition stopping (pc : worker_pc) : bool :=
  match pc with WQuit | WCount => true | _ => negb (working pc) end.

(** Behind the first latch; behind the second. *)
Definition main_prepared (pc : main_pc) : bool :=
  match pc with MDrain | MFilled | MCount | MInterrupt | MJoin | MDone => true | _ => false end.
Definition main_counted (pc : main_pc) : bool :=
  match pc with MInterrupt | MJoin | MDone => true | _ => false end.
Definition main_stopped (pc : main_pc) : bool :=
  match pc with MSignal | MPrepare => true | _ => main_prepared pc end.

(** The event a worker has. *)
Definition held (pc : worker_pc) : list srv_entry :=
  match pc with
  | WPolled _ e | WEvent _ e | WAdd _ e | WFree _ e | WFreed _ e => [e]
  | _ => []
  end.

(** At work. *)
Definition up (pc : worker_pc) : bool := match pc with WSleep | WStart | WGone => false | _ => true end.

(** No worker sleeps while events wait, unless another one is at work. *)
Definition awake_ok (s : threads) : Prop :=
  w_running s = true -> w_events s <> [] -> (exists i, w_pcs s !! i = Some WSleep) ->
  exists i pc, w_pcs s !! i = Some pc /\ up pc = true.

Record threads_base (n : nat) (s : threads) : Prop := {
  wi_len : length (w_pcs s) = n;
  wi_mtx : mtx_ok worker_owns (owner (w_mtx s)) (w_pcs s);
  wi_main : main_owns (w_main s) = true <-> w_mtx s = Some TMain;
  wi_prepare : w_prepare s = Z.of_nat (count working (w_pcs s));
  wi_run : w_run s = if main_counted (w_main s) then 0 else 1;
  wi_prepared : main_prepared (w_main s) = true -> w_prepare s = 0;
  wi_draining : forall i pc, w_pcs s !! i = Some pc -> draining pc = true -> main_counted (w_main s) = true;
  wi_stopping : w_running s = true -> Forall (fun pc => stopping pc = false) (w_pcs s);
  wi_stopped : main_stopped (w_main s) = true -> w_running s = false;
  wi_wait : forall i, w_pcs s !! i = Some WWait -> w_events s = [];
  wi_leave : main_counted (w_main s) = true -> Forall (fun pc => leaving pc = true) (w_pcs s) -> w_events s = [];
  wi_account : w_added s ≡ₚ w_events s ++ concat (map held (w_pcs s)) ++ w_done s ++ w_dropped s
}.

Definition threads_inv (n : nat) (s : threads) : Prop := threads_base n s /\ awake_ok s.

(** *** Workers *)

Lemma held_insert l i (x y : worker_pc) :
  l !! i = Some x -> concat (map held (<[i := y]> l)) ++ held x ≡ₚ concat (map held l) ++ held y.
Proof.
  revert i; induction l as [|a l IH]; intros [|i] H; try done.
  - injection H as ->. change (<[0%nat:=y]> (x :: l)) with (y :: l). cbn [map concat].
    rewrite <- !app_assoc. rewrite (Permutation_app_comm (held y)), (Permutation_app_comm (held x)).
    rewrite <- !app_assoc. apply Permutation_app_head, Permutation_app_comm.
  - change (<[S i:=y]> (a :: l)) with (a :: <[i:=y]> l). cbn [map concat].
    rewrite <- !app_assoc. apply Permutation_app_head. by apply IH.
Qed.

Lemma wake_worker_owns pc : worker_owns (wake_worker pc) = worker_owns pc.
Proof. by destruct pc. Qed.
Lemma wake_working pc : working (wake_worker pc) = working pc.
Proof. by destruct pc. Qed.
Lemma wake_draining pc : draining (wake_worker pc) = draining pc.
Proof. by destruct pc. Qed.
Lemma wake_stopping pc : stopping (wake_worker pc) = stopping pc.
Proof. by destruct pc. Qed.
Lemma wake_leaving pc : leaving (wake_worker pc) = leaving pc.
Proof. by destruct pc. Qed.
Lemma wake_held pc : held (wake_worker pc) = held pc.
Proof. by destruct pc. Qed.

(** A worker moves from [x] to [y]; it may take events out of the queue or put
    some in, and change the mutex. *)
Record moves (s : threads) (i : nat) (x y : worker_pc) (m : option tid) (ev done : list srv_entry) : Prop := {
  mv_mtx : mtx_ok worker_owns (owner m) (<[i := y]> (w_pcs s));
  mv_main : m = Some TMain <-> w_mtx s = Some TMain;
  mv_working : working y = true -> working x = true;
  mv_draining : draining y = true -> draining x = true \/ w_run s = 0;
  mv_stopping : stopping y = true -> stopping x = true \/ w_running s = false;
  mv_wait : y = WWait -> ev = [];
  mv_others : ev <> [] -> w_events s <> [] \/ owner m = Some i;
  mv_leave : leaving y = true -> leaving x = true /\ ev = w_events s \/ ev = [];
  mv_account : ev ++ held y ++ done ≡ₚ w_events s ++ held x ++ w_done s
}.

Lemma worker_move n s i x y m ev rel done :
  threads_base n s -> w_pcs s !! i = Some x -> moves s i x y m ev done ->
  threads_base n (mk_threads (w_running s) ev rel m
    (w_prepare s - (if working x && negb (working y) then 1 else 0)) (w_run s)
    (<[i := y]> (w_pcs s)) (w_main s) (w_added s) done (w_dropped s)).
Proof.
  intros [] Hi [].
  assert (w_pcs s !! i = Some x -> forall P : worker_pc -> Prop, (P y -> P x) ->
    Forall P (<[i := y]> (w_pcs s)) -> Forall P (w_pcs s)) as Hback.
  { intros _ P HP HF. apply Forall_lookup. intros j z Hj. destruct (decide (j = i)) as [->|Hne].
    - rewrite Hi in Hj. injection Hj as <-. apply HP. eapply Forall_lookup_1; [done|].
      apply list_lookup_insert_eq. by eapply lookup_lt_Some.
    - eapply Forall_lookup_1; [done|]. by rewrite list_lookup_insert_ne by done. }
  pose proof (count_insert working _ _ _ y Hi) as Hcount.
  assert (y = y) as _ by done.
  split; cbn [w_running w_events w_release w_mtx w_prepare w_run w_pcs w_main w_added w_done w_dropped]; try done.
  - by rewrite length_insert.
  - by rewrite mv_main0.
  - rewrite wi_prepare0. destruct (working x), (working y); cbn [andb negb] in *; lia.
  - intros Hm. specialize (wi_prepared0 Hm).
    assert (working x = false) as ->; [|cbn; lia]. rewrite wi_prepare0 in wi_prepared0.
    assert (count working (w_pcs s) = 0%nat) as Hz%count_zero by lia.
    exact (Forall_lookup_1 _ _ _ _ Hz Hi).
  - intros j pc [[-> ->]|[_ Hj]]%lookup_other Hd; [|by eapply wi_draining0].
    destruct (mv_draining0 Hd) as [H|H]; [by eapply wi_draining0|]. rewrite wi_run0 in H.
    by destruct (main_counted (w_main s)).
  - intros Hr. apply Forall_insert; [by apply wi_stopping0|].
    destruct (stopping y) eqn:E; [|done]. destruct (mv_stopping0 eq_refl) as [H|H]; [|congruence].
    pose proof (Forall_lookup_1 _ _ _ _ (wi_stopping0 Hr) Hi) as H'. cbv beta in H'. congruence.
  - intros j [[-> E]|[Hne Hj]]%lookup_other; [by apply mv_wait0|].
    destruct (decide (ev = [])) as [|He]; [done|]. destruct (mv_others0 He) as [H|H].
    + destruct H. by eapply wi_wait0.
    + exfalso. destruct mv_mtx0 as [Hm _].
      assert (worker_owns WWait = true <-> owner m = Some j) as Hw.
      { apply Hm. by rewrite list_lookup_insert_ne by done. }
      rewrite H in Hw. destruct Hw as [Hw _]. specialize (Hw eq_refl). congruence.
  - intros Hm HF. assert (leaving y = true) as Hy.
    { eapply (Forall_lookup_1 _ _ i y HF). apply list_lookup_insert_eq. by eapply lookup_lt_Some. }
    destruct (mv_leave0 Hy) as [[Hx ->]| ->]; [|done]. apply wi_leave0; [done|].
    apply Hback; [done| |done]. by intros _.
  - pose proof (held_insert _ _ _ y Hi) as Hh. rewrite wi_account0.
    apply (Permutation_app_inv_r (held x)).
    trans (w_events s ++ (held x ++ w_done s) ++ concat (map held (w_pcs s)) ++ w_dropped s).
    { solve_Permutation. }
    trans (ev ++ (concat (map held (<[i:=y]> (w_pcs s))) ++ held x) ++ done ++ w_dropped s).
    { rewrite Hh. trans ((ev ++ held y ++ done) ++ concat (map held (w_pcs s)) ++ w_dropped s);
        [rewrite mv_account0|]; solve_Permutation. }
    solve_Permutation.
Qed.

Lemma owner_worker n s i pc :
  threads_base n s -> w_pcs s !! i = Some pc -> worker_owns pc = true -> w_mtx s = Some (TWorker i).
Proof.
  intros [] Hi Ho. apply (proj1 wi_mtx0 i pc Hi) in Ho. destruct (w_mtx s) as [[|j]|]; try done.
  by injection Ho as ->.
Qed.

(** What a move must respect that leaves the latch and the release of the mutex
    aside. *)
Definition move_ok (s : threads) (x y : worker_pc) (ev done : list srv_entry) : Prop :=
  working y = working x /\
  (draining y = true -> draining x = true \/ w_run s = 0) /\
  (stopping y = true -> stopping x = true \/ w_running s = false) /\
  (y = WWait -> ev = []) /\
  (leaving y = true -> leaving x = true /\ ev = w_events s \/ ev = []) /\
  ev ++ held y ++ done ≡ₚ w_events s ++ held x ++ w_done s.

Lemma worker_move_same n s i x y m ev rel done :
  threads_base n s -> w_pcs s !! i = Some x -> working y = working x -> moves s i x y m ev done ->
  threads_base n (mk_threads (w_running s) ev rel m (w_prepare s) (w_run s)
    (<[i := y]> (w_pcs s)) (w_main s) (w_added s) done (w_dropped s)).
Proof.
  intros HB Hi Hw Hm. pose proof (worker_move n s i x y m ev rel done HB Hi Hm) as H.
  rewrite Hw, andb_negb_r, Z.sub_0_r in H. exact H.
Qed.

(** A worker keeps, takes or releases the mutex. *)
Lemma step_keep n s i x y ev rel done :
  threads_base n s -> w_pcs s !! i = Some x -> worker_owns y = worker_owns x ->
  (ev <> [] -> w_events s <> []) -> move_ok s x y ev done ->
  threads_base n (mk_threads (w_running s) ev rel (w_mtx s) (w_prepare s) (w_run s)
    (<[i := y]> (w_pcs s)) (w_main s) (w_added s) done (w_dropped s)).
Proof.
  intros HB Hi Hy He (? & ? & ? & ? & ? & ?). eapply worker_move_same; try done. destruct HB.
  split; try done; try congruence; [by eapply mtx_keep|auto].
Qed.

Lemma step_take n s i x y ev rel done :
  threads_base n s -> w_pcs s !! i = Some x -> w_mtx s = None -> worker_owns y = true ->
  move_ok s x y ev done ->
  threads_base n (mk_threads (w_running s) ev rel (Some (TWorker i)) (w_prepare s) (w_run s)
    (<[i := y]> (w_pcs s)) (w_main s) (w_added s) done (w_dropped s)).
Proof.
  intros HB Hi Hm Hy (? & ? & ? & ? & ? & ?). eapply worker_move_same; try done. destruct HB.
  rewrite Hm in wi_mtx0. split; try done; try congruence; [by eapply mtx_take|by rewrite Hm|by right].
Qed.

Lemma step_drop n s i x y rel :
  threads_base n s -> w_pcs s !! i = Some x -> worker_owns x = true -> worker_owns y = false ->
  held y = held x -> move_ok s x y (w_events s) (w_done s) ->
  threads_base n (mk_threads (w_running s) (w_events s) rel None (w_prepare s) (w_run s)
    (<[i := y]> (w_pcs s)) (w_main s) (w_added s) (w_done s) (w_dropped s)).
Proof.
  intros HB Hi Hx Hy Hh (? & ? & ? & ? & ? & ?). eapply worker_move_same; try done.
  pose proof (owner_worker _ _ _ _ HB Hi Hx) as Hm. destruct HB.
  split; try done; try congruence; [by eapply mtx_drop|by rewrite Hm|by left].
Qed.

Lemma awake_here s i y :
  w_pcs s !! i = Some y -> up y = true -> awake_ok s.
Proof. intros Hi Hy _ _ _. by exists i, y. Qed.

Lemma lookup_set (l : list worker_pc) i (x y : worker_pc) : l !! i = Some x -> <[i := y]> l !! i = Some y.
Proof. intros H. apply list_lookup_insert_eq. by eapply lookup_lt_Some. Qed.

(** A waiting worker that is woken. *)
Lemma wake_one n s i :
  threads_base n s -> w_pcs s !! i = Some WSleep -> threads_base n (set_pc i WLock s).
Proof. intros HB Hi. eapply step_keep; try done. Qed.

Lemma signal_inv n s who s' :
  threads_base n s -> vtm_cond_signal who s = Some s' -> threads_base n s'.
Proof.
  intros HB. unfold vtm_cond_signal. destruct who as [i|].
  - destruct (w_pcs s !! i) as [pc|] eqn:Hi; [|done]. cbn [mbind option_bind].
    destruct pc; try done. intros [= <-]. by apply wake_one.
  - destruct (forallb _ _); [|done]. by intros [= <-].
Qed.

(** After a signal nobody sleeps, or somebody was woken. *)
Lemma signal_awake s who s' : vtm_cond_signal who s = Some s' -> awake_ok s'.
Proof.
  unfold vtm_cond_signal. destruct who as [i|].
  - destruct (w_pcs s !! i) as [pc|] eqn:Hi; [|done]. cbn [mbind option_bind].
    destruct (asleep pc); [|done]. intros [= <-]. eapply awake_here; [by eapply lookup_set|done].
  - destruct (forallb _ _) eqn:E; [|done]. intros [= <-]. rewrite forallb_forall in E.
    intros _ _ [i Hi]. assert (In WSleep (w_pcs s)) as Hin by (apply list_elem_of_In, list_elem_of_lookup; by exists i).
    by specialize (E _ Hin).
Qed.

(** A worker that leaves at the beginning looked after nothing. *)
Lemma gone_awake s i : w_pcs s !! i = Some WStart -> awake_ok s -> awake_ok (set_pc i WGone s).
Proof.
  intros Hi HA Hr He [j Hj]. cbn [w_pcs set_pc set_pcs] in *. apply lookup_other in Hj as [[_ Hx]|[_ Hj]]; [done|].
  destruct (HA Hr He (ex_intro _ j Hj)) as (k & pc & Hk & Hup). exists k, pc. split; [|done].
  rewrite list_lookup_insert_ne; [done|]. intros ->. rewrite Hi in Hk. by injection Hk as <-.
Qed.

Ltac solve_move := unfold move_ok; split_and?; cbn; try done; auto.

Lemma event_step_inv n s i oc who pc s' :
  (0 < n)%nat -> threads_inv n s -> w_pcs s !! i = Some pc -> event_step i oc who pc s = Some s' ->
  threads_inv n s'.
Proof.
  intros Hn [HB HA] Hi. unfold event_step, mtx_lock.
  destruct pc as [| | | | | | | |d e|d e|d e|d|d e|d e| | | | | |]; try done.
  - destruct oc; intros [= <-]; (split; [|eapply awake_here; [by eapply lookup_set|by destruct d]]).
    + eapply (step_keep n s i); [done|done|by destruct d|done|]. destruct d; solve_move.
    + eapply (step_keep n s i); [done|done|by destruct d|done|]. destruct d; solve_move.
    + eapply (step_keep n s i); [done|done|by destruct d|done|]. destruct d; solve_move.
  - case_decide as Hm; [|done]. cbn [mbind option_bind]. intros Hs. split.
    + eapply signal_inv; [|done]. eapply (step_take n s i); [done|done|done|done|].
      destruct d; solve_move; by rewrite <- app_assoc.
    + by eapply signal_awake.
  - intros [= <-]. split; [|eapply awake_here; [by eapply lookup_set|by destruct d]].
    eapply (step_drop n s i); [done|done|done|by destruct d|by destruct d|]. destruct d; solve_move.
  - case_decide as Hm; [|done]. cbn [mbind option_bind]. intros [= <-].
    split; [|eapply awake_here; [by eapply lookup_set|done]].
    eapply (step_take n s i); [done|done|done|done|]. destruct d; solve_move.
  - intros [= <-]. split; [|eapply awake_here; [by eapply lookup_set|done]].
    eapply (step_drop n s i); [done|done|done|done|done|]. destruct d; solve_move.
Qed.

(** Leaving normal operation, through the first latch. *)
Lemma count_latch_inv n s i :
  threads_base n s -> w_pcs s !! i = Some WCount ->
  threads_base n (set_pc i WAwait (set_latches (w_prepare s - 1) (w_run s) s)).
Proof.
  intros HB Hi. apply (worker_move n s i WCount WAwait (w_mtx s) (w_events s) (w_release s) (w_done s) HB Hi).
  destruct HB. split; try done; [by eapply mtx_keep|by left|by left].
Qed.

Lemma worker_step_inv n s i ok oc who s' :
  (0 < n)%nat -> threads_inv n s -> worker_step i ok oc who s = Some s' -> threads_inv n s'.
Proof.
  intros Hn HI. pose proof HI as [HB HA]. unfold worker_step.
  destruct (w_pcs s !! i) as [pc|] eqn:Hi; [|done]. cbn [mbind option_bind].
  destruct pc as [| | | | | | | |d e|d e|d e|d|d e|d e| | | | | |]; try done; unfold mtx_lock.
  - destruct ok; intros [= <-]; (split; [|first [by apply gone_awake|eapply awake_here; [by eapply lookup_set|done]]]);
      (eapply (step_keep n s i); [done|done|done|done|solve_move]).
  - destruct (w_running s) eqn:Er; intros [= <-]; (split; [|eapply awake_here; [by eapply lookup_set|done]]);
      (eapply (step_keep n s i); [done|done|done|done|solve_move]).
  - case_decide as Hm; [|done]. cbn [mbind option_bind]. intros [= <-].
    split; [|eapply awake_here; [by eapply lookup_set|done]].
    eapply (step_take n s i); [done|done|done|done|solve_move].
  - destruct (w_events s) as [|e rest] eqn:Ev.
    + destruct (w_running s) eqn:Er; intros [= <-]; (split; [|eapply awake_here; [by eapply lookup_set|done]]);
        (eapply (step_keep n s i); [done|done|done|done|solve_move]).
    + intros [= <-]. split; [|eapply awake_here; [by eapply lookup_set|done]].
      eapply (step_keep n s i); [done|done|done|congruence|]. solve_move.
      rewrite Ev. cbn. by rewrite Permutation_middle.
  - intros [= <-]. pose proof (wi_wait _ _ HB _ Hi) as Hw. split; [|intros _ H; done].
    eapply (step_drop n s i); [done|done|done|done|done|solve_move].
  - intros [= <-]. split; [|eapply awake_here; [by eapply lookup_set|done]].
    eapply (step_drop n s i); [done|done|done|done|done|solve_move].
  - intros [= <-]. split; [|eapply awake_here; [by eapply lookup_set|done]].
    eapply (step_drop n s i); [done|done|done|done|done|]. destruct d; solve_move.
  - by apply event_step_inv.
  - by apply event_step_inv.
  - by apply event_step_inv.
  - by apply event_step_inv.
  - by apply event_step_inv.
  - intros [= <-]. split; [|eapply awake_here; [by eapply lookup_set|done]]. by apply count_latch_inv.
  - destruct (w_run s =? 0) eqn:E; [|done]. bsplit. intros [= <-].
    split; [|eapply awake_here; [by eapply lookup_set|done]].
    eapply (step_keep n s i); [done|done|done|done|solve_move].
  - case_decide as Hm; [|done]. cbn [mbind option_bind]. intros [= <-].
    split; [|eapply awake_here; [by eapply lookup_set|done]].
    eapply (step_take n s i); [done|done|done|done|solve_move].
  - destruct (w_events s) as [|e rest] eqn:Ev; intros [= <-];
      (split; [|eapply awake_here; [by eapply lookup_set|done]]).
    + eapply (step_keep n s i); [done|done|done|done|solve_move].
    + eapply (step_keep n s i); [done|done|done|congruence|]. solve_move.
      rewrite Ev. cbn. by rewrite Permutation_middle.
  - intros [= <-]. split; [|eapply awake_here; [by eapply lookup_set|done]].
    eapply (step_drop n s i); [done|done|done|done|done|solve_move].
Qed.

(** *** The main thread *)

(** What the main thread changes when it goes on from its position. *)
Lemma signal_all_inv n s : threads_base n s -> threads_base n (vtm_cond_signal_all s).
Proof.
  intros []. unfold vtm_cond_signal_all.
  assert (forall P : worker_pc -> bool, (forall pc, P (wake_worker pc) = P pc) -> forall b,
    Forall (fun pc => P pc = b) (map wake_worker (w_pcs s)) <-> Forall (fun pc => P pc = b) (w_pcs s)) as HF.
  { intros P HP b. rewrite Forall_fmap. apply Forall_iff. intros pc. cbn. by rewrite HP. }
  split; cbn [w_running w_events w_release w_mtx w_prepare w_run w_pcs w_main w_added w_done w_dropped set_pcs]; try done.
  - by rewrite length_map.
  - apply mtx_map; [done|apply wake_worker_owns].
  - unfold count in *. rewrite total_map; [done|]. intros pc. by rewrite wake_working.
  - intros i pc. rewrite list_lookup_fmap. destruct (w_pcs s !! i) as [pc0|] eqn:Hi; [|done].
    intros [= <-]. rewrite wake_draining. by apply wi_draining0 with i.
  - intros Hr. apply (HF stopping wake_stopping), wi_stopping0, Hr.
  - intros i. rewrite list_lookup_fmap. destruct (w_pcs s !! i) as [pc0|] eqn:Hi; [|done].
    intros [= E]. apply (wi_wait0 i). rewrite Hi. by destruct pc0.
  - intros Hm H. apply wi_leave0; [done|]. by apply (HF leaving wake_leaving).
  - rewrite map_map. rewrite (map_ext (fun x => held (wake_worker x)) held) by apply wake_held. done.
Qed.

Lemma signal_all_awake s : awake_ok (vtm_cond_signal_all s).
Proof.
  intros _ _ [i Hi]. cbn [vtm_cond_signal_all w_pcs set_pcs] in Hi. rewrite list_lookup_fmap in Hi.
  destruct (w_pcs s !! i) as [[]|]; done.
Qed.

(** The main thread goes on to [y] without the mutex changing hands. *)
Lemma main_keep n s y :
  threads_base n s -> main_owns y = main_owns (w_main s) -> main_counted y = main_counted (w_main s) ->
  (main_prepared y = true -> main_prepared (w_main s) = true \/ w_prepare s = 0) ->
  (main_stopped y = true -> main_stopped (w_main s) = true \/ w_running s = false) ->
  threads_base n (set_main y s).
Proof.
  intros [] Ho Hc Hp Hs.
  split; cbn [w_running w_events w_release w_mtx w_prepare w_run w_pcs w_main w_added w_done w_dropped set_main];
    try done; [by rewrite Ho|by rewrite Hc|naive_solver|by rewrite Hc|naive_solver|by rewrite Hc].
Qed.

(** It takes the mutex and changes the queue. *)
Lemma main_take n s y ev rel added dropped :
  threads_base n s -> w_mtx s = None -> main_owns y = true -> main_counted y = false ->
  main_counted (w_main s) = false ->
  (main_prepared y = true -> main_prepared (w_main s) = true) ->
  (main_stopped y = true -> main_stopped (w_main s) = true) ->
  added ++ w_events s ++ w_dropped s ≡ₚ w_added s ++ ev ++ dropped ->
  threads_base n (mk_threads (w_running s) ev rel (Some TMain) (w_prepare s) (w_run s) (w_pcs s) y added
    (w_done s) dropped).
Proof.
  intros [] Hm Ho Hc Hc' Hp Hs Ha.
  split; cbn [w_running w_events w_release w_mtx w_prepare w_run w_pcs w_main w_added w_done w_dropped];
    try done; try auto.
  - by rewrite Hm in wi_mtx0.
  - by rewrite Hc, wi_run0, Hc'.
  - intros i pc Hi Hd. specialize (wi_draining0 i pc Hi Hd). congruence.
  - intros i Hi. rewrite Hm in wi_mtx0. by pose proof (proj1 (proj1 wi_mtx0 i WWait Hi) eq_refl).
  - congruence.
  - apply (Permutation_app_inv_l (w_events s ++ w_dropped s)).
    trans (added ++ w_events s ++ w_dropped s); [solve_Permutation|]. rewrite Ha, wi_account0.
    solve_Permutation.
Qed.

(** It releases the mutex. *)
Lemma main_drop n s y :
  threads_base n s -> main_owns (w_main s) = true -> main_owns y = false ->
  main_counted y = main_counted (w_main s) ->
  (main_prepared y = true -> main_prepared (w_main s) = true) ->
  (main_stopped y = true -> main_stopped (w_main s) = true) ->
  threads_base n (set_mtx None (set_main y s)).
Proof.
  intros [] Ho Ho' Hc Hp Hs. pose proof (proj1 wi_main0 Ho) as Hm. rewrite Hm in wi_mtx0.
  split; cbn [w_running w_events w_release w_mtx w_prepare w_run w_pcs w_main w_added w_done w_dropped set_main set_mtx];
    try done; try auto; try (by rewrite Hc). by rewrite Ho'.
Qed.

Lemma working_all n s :
  threads_base n s -> main_counted (w_main s) = false -> w_prepare s = 0 ->
  Forall (fun pc => pc = WAwait) (w_pcs s).
Proof.
  intros [] Hc Hp. rewrite wi_prepare0 in Hp.
  assert (count working (w_pcs s) = 0%nat) as Hz%count_zero by lia.
  apply Forall_lookup. intros i pc Hi. pose proof (Forall_lookup_1 _ _ _ _ Hz Hi) as Hw. cbn in Hw.
  destruct (draining pc) eqn:Hd; [specialize (wi_draining0 i pc Hi Hd); congruence|].
  unfold draining in Hd. rewrite Hw in Hd. by destruct pc.
Qed.

(** The second latch opens: every worker still waits at it. *)
Lemma main_count n s :
  (0 < n)%nat -> threads_base n s -> w_main s = MCount ->
  threads_base n (set_main MInterrupt (set_latches (w_prepare s) (w_run s - 1) s)).
Proof.
  intros Hn HB Hm. pose proof HB as []. rewrite Hm in *.
  pose proof (working_all n s HB ltac:(by rewrite Hm) (wi_prepared0 eq_refl)) as Hall.
  split; cbn [w_running w_events w_release w_mtx w_prepare w_run w_pcs w_main w_added w_done w_dropped set_main set_latches];
    try done; try auto.
  - by rewrite wi_run0.
  - intros _ Hl. destruct (w_pcs s) as [|pc l]; [cbn in wi_len0; lia|].
    apply Forall_cons in Hall as [-> _]. by apply Forall_cons in Hl as [? _].
Qed.

Lemma set_running_base n s : threads_base n s -> threads_base n (set_running false s).
Proof. by intros []. Qed.

Lemma main_step_inv n s li who closes s' :
  (0 < n)%nat -> threads_inv n s -> main_step li who closes s = Some s' -> threads_inv n s'.
Proof.
  intros Hn [HB HA]. unfold main_step, mtx_lock.
  assert (0 < length (w_pcs s))%nat as Hl by by rewrite (wi_len _ _ HB).
  pose proof (wi_stopped _ _ HB) as Hst. pose proof (wi_prepared _ _ HB) as Hpr.
  destruct (w_main s) as [| |clients ok|clients|clients| | | | | | | | |] eqn:Em; cbn in Hst, Hpr.
  - intros [= <-]. split; [|done]. apply main_keep; [done|..]; rewrite Em; by destruct (w_running s).
  - destruct li as [|events clients ok]; [intros [= <-]; split; [|done]; apply main_keep; by rewrite ?Em|].
    case_decide as Hm; [|done]. cbn [mbind option_bind]. intros [= <-].
    split; [|by apply signal_all_awake]. apply signal_all_inv.
    apply (main_take n s (MHandled clients ok) (w_events s ++ events) [] (w_added s ++ events) (w_dropped s));
      rewrite ?Em; try done. solve_Permutation.
  - intros [= <-]. split; [|done]. apply main_drop; rewrite ?Em; try done; by destruct ok.
  - destruct clients as [|e clients]; [intros [= <-]; split; [|done]; apply main_keep; by rewrite ?Em|].
    destruct li as [|events clients' ok]; [intros [= <-]; split; [|done]; apply main_keep; by rewrite ?Em|].
    case_decide as Hm; [|done]. cbn [mbind option_bind]. intros Hs.
    split; [|by eapply signal_awake]. eapply signal_inv; [|done].
    apply (main_take n s (MAccepted clients) (w_events s ++ [e]) (w_release s) (w_added s ++ [e]) (w_dropped s));
      rewrite ?Em; try done. solve_Permutation.
  - intros [= <-]. split; [|done]. apply main_drop; by rewrite ?Em.
  - intros [= <-]. split; [|done]. apply set_running_base in HB.
    apply (main_keep n (set_running false s) MSignal HB); cbn; rewrite ?Em; try done. by right.
  - intros [= <-]. split; [|by apply signal_all_awake].
    apply (main_keep n (vtm_cond_signal_all s)); cbn; rewrite ?Em; try done; [by apply signal_all_inv|by left].
  - destruct (w_prepare s =? 0) eqn:E; [|done]. bsplit. intros [= <-]. split; [|done].
    apply main_keep; rewrite ?Em; try done; [by right|by left].
  - case_decide as Hm; [|done]. cbn [mbind option_bind]. intros [= <-].
    split; [|intros Hr; cbn in Hr; by rewrite Hst in Hr].
    apply (main_take n s MFilled closes (w_release s) (w_added s ++ closes) (w_dropped s ++ w_events s));
      rewrite ?Em; try done. solve_Permutation.
  - intros [= <-]. split; [|done]. apply main_drop; by rewrite ?Em.
  - intros [= <-]. split; [|done]. by apply main_count.
  - intros [= <-]. split; [|by apply signal_all_awake].
    apply (main_keep n (vtm_cond_signal_all s)); cbn; rewrite ?Em; try done; [by apply signal_all_inv|by left|by left].
  - destruct (forallb is_end (w_pcs s)); [|done]. intros [= <-]. split; [|done].
    apply main_keep; rewrite ?Em; try done; by left.
  - done.
Qed.

Lemma threads_step_inv n l s s' :
  (0 < n)%nat -> threads_inv n s -> threads_step l s = Some s' -> threads_inv n s'.
Proof.
  intros Hn HI. destruct l as [i ok oc who|li who closes| |i]; cbn [threads_step].
  - by apply worker_step_inv.
  - by apply main_step_inv.
  - intros [= <-]. destruct HI as [HB HA]. split; [by apply set_running_base|done].
  - destruct (w_pcs s !! i) as [pc|] eqn:Hi; [|done]. cbn [mbind option_bind].
    destruct pc; try done. intros [= <-]. destruct HI as [HB HA].
    split; [by apply wake_one|eapply awake_here; [by eapply lookup_set|done]].
Qed.

Lemma threads_init_inv n : threads_inv n (threads_init n).
Proof.
  assert (forall (P : worker_pc -> Prop), P WStart -> forall i pc, replicate n WStart !! i = Some pc -> P pc) as HR.
  { intros P HP i pc [-> _]%lookup_replicate. done. }
  split; [|by intros _ H; destruct H]. split; cbn; try done.
  - by rewrite length_replicate.
  - split; [|done]. intros i pc Hi. by apply lookup_replicate in Hi as [-> _].
  - f_equal. clear HR. induction n as [|n IH]; [done|]. unfold count in *. cbn. by rewrite <- IH.
  - intros i pc Hi. by apply lookup_replicate in Hi as [-> _].
  - intros _. by apply Forall_replicate.
  - clear HR. by induction n.
Qed.

Lemma threads_reach_inv n s :
  (0 < n)%nat -> rtc (any_step threads_step) (threads_init n) s -> threads_inv n s.
Proof.
  intros Hn. apply invariant_reach; [|apply threads_init_inv]. intros l x x'. by apply threads_step_inv.
Qed.

(** ** Theorems *)

(** C16: the threads of a stream server (net/socket_stream_server.c,
    vtm_socket_stream_srv_worker_run, vtm_socket_stream_srv_main_run and what
    they call), in every interleaving and whether or not the workers get memory
    for their datasets: the queue is touched by one thread at a time; while the
    server runs no worker sleeps with events in the queue, unless another one is
    at work; when the main thread makes the close events of the end, every worker
    waits at the second latch, so that none is at work on an event and none has
    left for want of its dataset; every event that was ever added is in the queue,
    with exactly one worker, processed, or dropped when the server was stopped;
    and when all workers have come to the end of their work (a worker without a
    dataset does not), the queue is empty. *)
Theorem workers_safe n s (Hn : (0 < n)%nat) (Hr : rtc (any_step threads_step) (threads_init n) s) :
  (forall i j x y, w_pcs s !! i = Some x -> w_pcs s !! j = Some y ->
     worker_owns x = true -> worker_owns y = true -> i = j /\ main_owns (w_main s) = false) /\
  (w_running s = true -> w_events s <> [] -> (exists i, w_pcs s !! i = Some WSleep) ->
     exists i pc, w_pcs s !! i = Some pc /\ up pc = true) /\
  (main_prepared (w_main s) = true -> main_counted (w_main s) = false ->
     Forall (fun pc => pc = WAwait) (w_pcs s)) /\
  w_added s ≡ₚ w_events s ++ concat (map held (w_pcs s)) ++ w_done s ++ w_dropped s /\
  (Forall (fun pc => pc = WEnd) (w_pcs s) -> w_events s = [] /\ w_added s ≡ₚ w_done s ++ w_dropped s).
Proof.
  destruct (threads_reach_inv n s Hn Hr) as [HB HA]. pose proof HB as [].
  split; [|split; [exact HA|split; [|split; [done|]]]].
  - intros i j x y Hi Hj Hx Hy. split; [by eapply mtx_exclusive|].
    apply not_true_iff_false. intros Hm%wi_main0.
    pose proof (owner_worker _ _ _ _ HB Hi Hx). congruence.
  - intros Hp Hc. apply (working_all n); auto.
  - intros HF. assert (w_events s = []) as He.
    { apply wi_leave0.
      - destruct (w_pcs s) as [|pc l] eqn:El; [cbn in wi_len0; lia|].
        apply (wi_draining0 0%nat pc eq_refl). by apply Forall_cons in HF as [-> _].
      - eapply Forall_impl; [exact HF|]. by intros pc ->. }
    split; [done|]. rewrite wi_account0, He. cbn [app].
    assert (concat (map held (w_pcs s)) = []) as ->; [|done].
    clear -HF. induction HF as [|pc l -> _ IH]; cbn; done.
Qed.

(** A signal can always be given. *)
Lemma signal_some s : exists who s', vtm_cond_signal who s = Some s'.
Proof.
  destruct (forallb (fun pc => negb (asleep pc)) (w_pcs s)) eqn:E.
  - exists None, s. cbn. by rewrite E.
  - assert (exists j x, w_pcs s !! j = Some x /\ asleep x = true) as (j & x & Hj & Hx).
    { clear -E. induction (w_pcs s) as [|x l IH]; [done|]. cbn in E. destruct (asleep x) eqn:Ex.
      - by exists 0%nat, x.
      - destruct (IH E) as (j & y & ? & ?). by exists (S j), y. }
    exists (Some j), (set_pc j WLock s). cbn. rewrite Hj. cbn. by rewrite Hx.
Qed.

(** What can stop a worker. *)
Lemma worker_blocked s i pc :
  w_pcs s !! i = Some pc -> (forall ok oc who, worker_step i ok oc who s = None) ->
  pc = WSleep \/ is_end pc = true \/ (pc = WAwait /\ w_run s <> 0) \/
  (worker_owns pc = false /\ w_mtx s <> None).
Proof.
  intros Hi Hb. assert (forall ok oc who, worker_step i ok oc who s = None) as Hb' by done.
  destruct (decide (w_mtx s = None)) as [Hm|Hm].
  - destruct (signal_some (set_pc i (WAdded match pc with WAdd d _ => d | _ => true end)
      (set_events (w_events s ++ held pc) (w_added s) (w_done s) (w_dropped s) (set_mtx (Some (TWorker i)) s))))
      as (who & s' & Hw).
    specialize (Hb true EvDone who). unfold worker_step, mtx_lock in Hb. rewrite Hi in Hb.
    cbn [mbind option_bind] in Hb.
    destruct pc; cbn [event_step] in Hb; unfold mtx_lock in Hb; rewrite ?decide_True in Hb by done;
      try done; auto.
    + by destruct (w_events s).
    + cbn [mbind option_bind held] in *. unfold set_mtx, set_events, set_pc, set_pcs in *. cbn in *. congruence.
    + right; right; left. split; [done|]. intros Hz. by rewrite Hz in Hb.
    + by destruct (w_events s).
  - destruct (worker_owns pc) eqn:Ho; [|by auto]. exfalso.
    specialize (Hb true EvDone None). unfold worker_step in Hb. rewrite Hi in Hb. cbn [mbind option_bind] in Hb.
    destruct pc; try done; by destruct (w_events s).
Qed.

(** The mutex is never held by a thread that is blocked. *)
Lemma mutex_free n s :
  threads_base n s -> (forall i ok oc who, worker_step i ok oc who s = None) ->
  (forall li who closes, main_step li who closes s = None) -> w_mtx s = None.
Proof.
  intros HB Hw Hm. destruct (w_mtx s) as [[|i]|] eqn:Em; [| |done]; exfalso.
  - apply (wi_main _ _ HB) in Em. specialize (Hm LiFail None []). unfold main_step in Hm.
    by destruct (w_main s).
  - destruct (wi_mtx _ _ HB) as [H1 H2]. rewrite Em in H1, H2. destruct (H2 i eq_refl) as [pc Hi].
    pose proof (proj2 (H1 i pc Hi) eq_refl) as Ho.
    destruct (worker_blocked s i pc Hi (Hw i)) as [->|[He|[[-> _]|[H _]]]]; [done|by destruct pc|done|congruence].
Qed.

(** C19: how the threads of a stream server get stuck on the mutex of the queue,
    its condition variable and the two latches; the locks of connections and
    sockets are left aside ([lock_order_deadlock] has a deadlock with them).  If no
    thread can go on, the server has ended, or it was stopped and the main thread
    waits at the first latch, for a worker that sleeps on the condition variable or
    for one that got no memory for its dataset and has returned without counting
    the latch.  In particular these do not get stuck while the server runs.  The
    first of the two happens ([lost_state]), and so does the second
    ([gone_state]). *)
Theorem workers_only_deadlock n s
    (Hn : (0 < n)%nat) (Hr : rtc (any_step threads_step) (threads_init n) s)
    (Hw : forall i ok oc who, worker_step i ok oc who s = None)
    (Hm : forall li who closes, main_step li who closes s = None) :
  w_main s = MDone \/
  (w_main s = MPrepare /\ w_running s = false /\
   exists i, w_pcs s !! i = Some WSleep \/ w_pcs s !! i = Some WGone).
Proof.
  destruct (threads_reach_inv n s Hn Hr) as [HB HA]. pose proof HB as [].
  pose proof (mutex_free n s HB Hw Hm) as Hmtx.
  assert (forall i pc, w_pcs s !! i = Some pc -> pc = WSleep \/ is_end pc = true \/ (pc = WAwait /\ w_run s <> 0)) as Hb.
  { intros i pc Hi. destruct (worker_blocked s i pc Hi (Hw i)) as [?|[?|[?|[_ ?]]]]; [auto..|done]. }
  destruct (signal_some (set_main (MAccepted match w_main s with MAccept (_ :: l) => l | _ => [] end)
    (add_events match w_main s with MAccept (e :: _) => [e] | _ => [] end (set_mtx (Some TMain) s))))
    as (who & s' & Hs).
  pose proof (Hm (LiEvents [] [] true) who []) as Hm'. unfold main_step, mtx_lock in Hm'.
  destruct (w_main s) as [| |clients ok|clients|clients| | | | | | | | |] eqn:Em; try done;
    rewrite ?decide_True in Hm' by done; try done.
  - destruct clients as [|e clients]; [done|]. cbn [mbind option_bind] in Hm'. congruence.
  - right. split; [done|]. split; [by apply wi_stopped0|].
    destruct (w_prepare s =? 0) eqn:E; [done|]. bsplit. rewrite wi_prepare0 in E.
    destruct (count_pos working (w_pcs s)) as (i & pc & Hi & Hpc); [lia|]. exists i. rewrite Hi.
    destruct (Hb i pc Hi) as [->|[Hend|[-> _]]]; [by left| |done]. right. by destruct pc.
  - exfalso. destruct (forallb is_end (w_pcs s)) eqn:E; [done|].
    assert (forallb is_end (w_pcs s) = true); [|congruence]. apply forallb_forall.
    intros pc Hin. apply list_elem_of_In, list_elem_of_lookup in Hin as [i Hi].
    destruct (Hb i pc Hi) as [->|[Hend|[_ Hrun]]]; [|done|by rewrite wi_run0 in Hrun].
    assert (w_prepare s = 0) as Hp by by apply wi_prepared0. rewrite wi_prepare0 in Hp.
    assert (count working (w_pcs s) = 0%nat) as Hz%count_zero by lia.
    by pose proof (Forall_lookup_1 _ _ _ _ Hz Hi).
  - by left.
Qed.

(** A worker between its test of [running] and its wait, while the server is
    stopped. *)
Definition lost_schedule : list label :=
  [LWorker 0 true EvDone None; LWorker 0 true EvDone None; LWorker 0 true EvDone None; LWorker 0 true EvDone None;
   LStop; LMain LiFail None []; LMain LiFail None []; LMain LiFail None [];
   LWorker 0 true EvDone None].

Definition lost_state : threads :=
  mk_threads false [] [] None 1 1 [WSleep] MPrepare [] [] [].

(** A worker that has returned, and a server that was stopped. *)
Definition gone_state : threads :=
  mk_threads false [] [] None 1 1 [WGone] MPrepare [] [] [].

(** Defect.  A worker without memory for its dataset returns and counts no latch;
    a server that is stopped then never ends
    (net/socket_stream_server.c, 787-789 against 590). *)
Lemma worker_gone_hangs :
  rtc (any_step threads_step) (threads_init 1) gone_state /\
  (forall i ok oc who, worker_step i ok oc who gone_state = None) /\
  (forall li who closes, main_step li who closes gone_state = None) /\
  w_main gone_state <> MDone.
Proof.
  split; [|split; [|by split]].
  - by apply (run_steps_reach threads_step [LWorker 0 false EvDone None; LStop; LMain LiFail None [];
      LMain LiFail None []; LMain LiFail None []]).
  - intros [|i] ok oc who; [done|]. unfold worker_step. cbn. by destruct i.
Qed.

(** A stream server with worker threads may never end: running is unset and
    the workers are signalled without holding the mutex of the queue, so a worker
    that has just seen that the server runs goes to sleep after the last signal,
    and the main thread waits for it (net/socket_stream_server.c, 361 and 589
    against 788-796). *)
Theorem workers_lost_wakeup :
  rtc (any_step threads_step) (threads_init 1) lost_state /\
  (forall i ok oc who, worker_step i ok oc who lost_state = None) /\
  (forall li who closes, main_step li who closes lost_state = None) /\
  w_main lost_state <> MDone.
Proof.
  split; [by apply (run_steps_reach threads_step lost_schedule)|]. split; [|by split].
  intros [|i] ok oc who; [done|]. unfold worker_step. cbn. by destruct i.
Qed.

(** One event, processed by one of two workers, and the end. *)
Definition demo_entry : srv_entry := mk_entry 5 VTM_SOCK_SRV_READ.
Definition demo_schedule : list label :=
  [LMain LiFail None []; LMain (LiEvents [demo_entry] [] true) None []; LMain LiFail None [];
   LWorker 0 true EvDone None; LWorker 1 true EvDone None; LWorker 0 true EvDone None; LWorker 0 true EvDone None;
   LWorker 0 true EvDone None; LWorker 0 true EvDone None; LWorker 0 true EvDone None].
Definition demo_threads : threads :=
  mk_threads true [] [] None 2 1 [WLoop; WLoop] (MAccept []) [demo_entry] [demo_entry] [].

Lemma workers_safe_witness :
  rtc (any_step threads_step) (threads_init 2) demo_threads /\
  w_added demo_threads ≡ₚ w_events demo_threads ++ concat (map held (w_pcs demo_threads)) ++
    w_done demo_threads ++ w_dropped demo_threads.
Proof.
  assert (rtc (any_step threads_step) (threads_init 2) demo_threads) as H.
  { apply (run_steps_reach threads_step demo_schedule). reflexivity. }
  split; [exact H|].
  destruct (workers_safe 2 demo_threads ltac:(lia) H) as (_ & _ & _ & Ha & _). exact Ha.
Defined.

Lemma workers_only_deadlock_witness :
  w_main lost_state = MDone \/
  (w_main lost_state = MPrepare /\ w_running lost_state = false /\
   exists i, w_pcs lost_state !! i = Some WSleep \/ w_pcs lost_state !! i = Some WGone).
Proof.
  apply (workers_only_deadlock 1 lost_state).
  - lia.
  - apply (run_steps_reach threads_step lost_schedule). reflexivity.
  - intros [|i] ok oc who; [reflexivity|]. unfold worker_step. cbn. destruct i; reflexivity.
  - intros li who closes. reflexivity.
Defined.

(** ** Events of a socket that is busy *)

(** an event that says that a socket can be read is thrown away when another
    worker is still in the read handler of the socket: it counts as processed,
    the application is not called, and the one-shot registration with the
    listener, which the event used up, is not renewed
    (net/socket_stream_server.c, vtm_socket_stream_srv_worker_event).  The handler
    renews the registration before it gives the lock of the socket back, so such
    an event can arrive. *)
Theorem read_event_dropped {E} (env : srv_env E) sock s v
    (Hs : sv_socks v !! sock = Some s)
    (Hlocked : flag_any (s_state s) VTM_SOCK_STAT_READ_LOCKED = true)
    (Href : 0 < s_refcount s) (Hfree : flag_any (s_state s) VTM_SOCK_STAT_FREE_ON_UNREF = false) :
  exists v' s', vtm_socket_stream_srv_worker_event env (mk_entry sock VTM_SOCK_SRV_READ) v = Some v' /\
    sv_log v' = sv_log v /\ sv_env v' = sv_env v /\ sv_events v' = sv_events v /\
    sv_socks v' !! sock = Some s' /\ s_state s' = s_state s.
Proof.
  unfold vtm_socket_stream_srv_worker_event, vtm_socket_stream_srv_sock_event. cbn [en_sock en_type].
  unfold sock_state. cbn [sv_socks srv_cur]. rewrite Hs. cbn [mbind option_bind].
  set (s' := sock_with_ref (u8 (s_refcount s - 1)) s).
  assert (vtm_socket_unref s = Some (Some s')) as Hu.
  { unfold vtm_socket_unref. rewrite (proj2 (Z.ltb_lt _ _)) by done. cbn [s_state sock_with_ref].
    by rewrite Hfree, andb_false_r. }
  assert (forall v0 : vtm_socket_stream_srv E, sv_socks v0 = sv_socks v ->
    sock_unref sock v0 = Some (srv_socks (<[sock := s']> (sv_socks v)) v0)) as Hun.
  { intros v0 E0. unfold sock_unref. rewrite E0, Hs. cbn [mbind option_bind]. rewrite Hu. done. }
  destruct (flag_any (vtm_socket_get_state s) VTM_SOCK_STAT_CLOSED); cbn [mbind option_bind];
    [|unfold vtm_socket_stream_srv_sock_trylock; cbn [sv_socks srv_cur]; rewrite Hs; cbn [mbind option_bind];
      rewrite Hlocked; cbn [mbind option_bind negb]];
    (rewrite Hun by done; eexists _, s'; split; [done|]; cbn [sv_log sv_env sv_events sv_socks srv_socks];
     rewrite lookup_insert_eq; by repeat split).
Qed.

(** *** A server that shows it *)

(** The state of the listener: whether the socket is armed, and how often it was
    reported.  A report disarms the socket. *)
Definition armed_env : srv_env bool :=
  mk_srv_env (fun _ b => (VTM_OK, b)) (fun _ _ => (VTM_OK, true)) (fun _ _ => (VTM_OK, true))
    (fun b => (VTM_E_IO_AGAIN, b)) (fun b => (true, b)) (fun _ _ b => ([], b)).

Definition busy_sock : vtm_socket := mk_sock 7 0 1 true VTM_SOCK_STAT_READ_LOCKED 2 0.
Definition busy_srv : vtm_socket_stream_srv bool :=
  mk_srv 0 2 {[7 := busy_sock]} 8 {[7]} {[7]} [] [] [] None [] true.

Lemma read_event_dropped_witness :
  exists v' s', vtm_socket_stream_srv_worker_event armed_env (mk_entry 7 VTM_SOCK_SRV_READ) busy_srv = Some v' /\
    sv_log v' = [] /\ sv_env v' = true /\ sv_events v' = [] /\
    sv_socks v' !! 7 = Some s' /\ s_state s' = s_state busy_sock.
Proof.
  apply (read_event_dropped armed_env 7 busy_sock busy_srv); reflexivity.
Defined.

(** One worker reads; before it gives its lock back, the listener reports the
    socket again and another worker takes this event; then the first one is
    done.  The socket is not armed, and no event is left. *)
Definition stall_run : option (vtm_socket_stream_srv bool) :=
  let v := srv_socks {[7 := mk_sock 7 0 1 true VTM_SOCK_STAT_NBL_READ 1 0]} (srv_env_to false busy_srv) in
  '(_, v) ← vtm_socket_stream_srv_sock_trylock 7 VTM_SOCK_STAT_READ_LOCKED v;
  v ← vtm_socket_stream_srv_sock_can_read armed_env 7 v;
  '(_, v) ← vtm_socket_stream_srv_create_event armed_env VTM_SOCK_SRV_READ 7 (srv_env_to false v);
  v ← vtm_socket_stream_srv_worker_event armed_env (mk_entry 7 VTM_SOCK_SRV_READ)
        (srv_queues [] (sv_release_socks v) (sv_relay_events v) v);
  v ← vtm_socket_stream_srv_sock_unlock 7 VTM_SOCK_STAT_READ_LOCKED v;
  sock_unref 7 v.

Lemma stall_run_stalls :
  match stall_run with
  | Some v => sv_env v = false /\ sv_events v = [] /\ sv_log v = [(CbCanRead, 7)] /\ 7 ∈ sv_reg v
  | None => False
  end.
Proof. vm_compute. repeat split; by apply (bool_decide_unpack _). Qed.

(** ** The order of locks *)

(** The mutex of the queue and those of sockets, which a thread may lock again
    while it has them. *)
Inductive lock := LockEvents | LockSock (sock : Z).
#[global] Instance lock_eq_dec : EqDecision lock.
Proof. solve_decision. Defined.

Inductive lock_op := Acquire (l : lock) | Release (l : lock).

(** net/socket_stream_server.c:474-480 and 623-640, net/socket.c:150-166 and
    361-367.  What the main thread locks for a socket that was closed. *)
Definition handle_queued_locks (sock : Z) : list lock_op :=
  [Acquire LockEvents;
   Acquire (LockSock sock); Release (LockSock sock);
   Acquire (LockSock sock); Release (LockSock sock);
   Release LockEvents].

(** net/socket_stream_server.c:1064-1070 and 651-673, net/socket.c:361-367.  What
    another thread locks that tells the server of an error of the socket. *)
Definition cb_update_locks (sock : Z) : list lock_op :=
  [Acquire (LockSock sock);
   Acquire (LockSock sock); Release (LockSock sock);
   Acquire LockEvents; Release LockEvents;
   Release (LockSock sock)].

(** The locks with their owner and how often it took them; what the threads have
    still to do. *)
Record lock_state := mk_locks { lk_held : list (lock * nat * nat); lk_todo : list (list lock_op) }.

Definition lock_find (l : lock) (held : list (lock * nat * nat)) : option (nat * nat) :=
  match List.find (fun x => bool_decide (fst (fst x) = l)) held with
  | Some (_, t, n) => Some (t, n)
  | None => None
  end.
Definition lock_drop (l : lock) (held : list (lock * nat * nat)) : list (lock * nat * nat) :=
  List.filter (fun x => negb (bool_decide (fst (fst x) = l))) held.

(** sys/unix/util/mutex.c:63-73.  The mutexes are recursive. *)
Definition lock_step (t : nat) (s : lock_state) : option lock_state :=
  ops ← lk_todo s !! t;
  match ops with
  | [] => None
  | op :: ops' =>
      let go held := Some (mk_locks held (<[t := ops']> (lk_todo s))) in
      match op with
      | Acquire l =>
          match lock_find l (lk_held s) with
          | None => go ((l, t, 1%nat) :: lk_held s)
          | Some (t', n) => if decide (t' = t) then go ((l, t, S n) :: lock_drop l (lk_held s)) else None
          end
      | Release l =>
          match lock_find l (lk_held s) with
          | Some (_, S (S n)) => go ((l, t, S n) :: lock_drop l (lk_held s))
          | _ => go (lock_drop l (lk_held s))
          end
      end
  end.

(** the main thread takes the mutex of the queue and then that of a socket, a
    thread that reports an error of the socket takes them in the opposite order:
    both can wait for each other (net/socket_stream_server.c,
    vtm_socket_stream_srv_handle_queued and vtm_socket_stream_srv_sock_cb_update). *)
Theorem lock_order_deadlock sock :
  exists s, rtc (any_step lock_step) (mk_locks [] [handle_queued_locks sock; cb_update_locks sock]) s /\
    (forall t, lock_step t s = None) /\ Forall (fun ops => ops <> []) (lk_todo s).
Proof.
  exists (mk_locks [(LockEvents, 0%nat, 1%nat); (LockSock sock, 1%nat, 1%nat)]
            [tail (handle_queued_locks sock); drop 3 (cb_update_locks sock)]).
  split; [|split].
  - apply (run_steps_reach lock_step [1; 1; 1; 0]%nat). unfold run_steps, lock_step, lock_find, lock_drop.
    cbn. repeat (rewrite ?bool_decide_eq_true_2, ?bool_decide_eq_false_2 by done; cbn;
                 rewrite ?decide_True by done; cbn). done.
  - intros [|[|t]]; unfold lock_step, lock_find; cbn; [| |by destruct t];
      repeat (rewrite ?bool_decide_eq_true_2, ?bool_decide_eq_false_2 by done; cbn;
              rewrite ?decide_False by done; cbn); done.
  - by repeat constructor.
Qed.
