(* ===== verification/HttpResponse.v ===== *)
(** * HttpResponse: dates, requests and responses of a server

    util/time.c, net/http/http_format.c, http_request.c and http_response.c.  A
    response collects its head in one buffer and, in the mode FIXED, its body in
    another one; [vtm_http_res_end] completes the text and hands it to an
    emitter.  The stage of a response says which calls it accepts.  The
    allocator of the buffers is [malloc_ok]; the chain of emitters that the
    application gives for the body is [BodySe], one that was released while the
    response still points to it is [BodyFreed]. *)

From S2P Require Import Prelude Base Buffer Format Str Elem Hash Heap Table Smap.
From S2P Require Import Dataset Http Socket Emitter.

(** ** Dates *)

(** struct tm of the C library, the broken-down UTC time of gmtime() *)
Record c_tm := mk_tm {
  tm_year : Z; tm_mon : Z; tm_mday : Z; tm_wday : Z; tm_yday : Z;
  tm_hour : Z; tm_min : Z; tm_sec : Z
}.

(** util/time.h:22-35 [struct vtm_date] *)
Record vtm_date := mk_date {
  d_year : Z; d_month : Z; d_day_of_week : Z; d_day_of_month : Z; d_day_of_year : Z;
  d_hour : Z; d_minute : Z; d_second : Z; d_ts : Z
}.

(** util/time.c:10-39.  [time_now] is the result of time(), [now] what gmtime()
    makes of it. *)
Definition vtm_date_now_utc (time_now : Z) (now : c_tm) : Z * vtm_date :=
  (VTM_OK,
   mk_date (i32 (1900 + tm_year now)) (u32 (tm_mon now))
     (u32 (if tm_wday now =? 0 then 6 else tm_wday now - 1))
     (u32 (tm_mday now)) (u32 (tm_yday now))
     (u8 (tm_hour now)) (u8 (tm_min now)) (u8 (tm_sec now)) (u64 time_now)).

(** net/http/http_format.c:10-13 *)
Definition VTM_HTTP_MONTH : list bytes :=
  map cstr_of ["Jan"; "Feb"; "Mar"; "Apr"; "May"; "Jun";
               "Jul"; "Aug"; "Sep"; "Oct"; "Nov"; "Dec"]%string.
(** net/http/http_format.c:15-17 *)
Definition VTM_HTTP_DAY : list bytes :=
  map cstr_of ["Mon"; "Tue"; "Wed"; "Thu"; "Fri"; "Sat"; "Sun"]%string.

(** printf() with "%0<w>d" *)
Definition printf_0d (w : nat) (v : Z) : bytes :=
  let digits := printf_d (Z.abs v) in
  let sign := if v <? 0 then [45] else [] in
  sign ++ replicate (w - length sign - length digits) 48 ++ digits.

(** net/http/http_format.h:20 *)
Definition VTM_HTTP_DATE_LEN : Z := 30.

(** net/http/http_format.c:19-37.  The text of snprintf() before it is cut; a
    day or a month outside of the tables is undefined. *)
Definition vtm_http_fmt_date (max_len : Z) (date : vtm_date) : option (Z * bytes) :=
  day ← VTM_HTTP_DAY !! Z.to_nat (d_day_of_week date);
  month ← VTM_HTTP_MONTH !! Z.to_nat (d_month date);
  let text := ztake 3 day ++ [44; 32] ++ printf_d (i32 (d_day_of_month date)) ++ [32] ++
    ztake 3 month ++ [32] ++ printf_0d 4 (d_year date) ++ [32] ++
    printf_0d 2 (d_hour date) ++ [58] ++ printf_0d 2 (d_minute date) ++ [58] ++
    printf_0d 2 (d_second date) ++ cstr_of " GMT"%string in
  let rc := zlen text in
  Some (if (rc <=? 0) || (max_len <=? rc) then VTM_ERROR else VTM_OK, ztake (max_len - 1) text).

(** ** Names and values of headers *)

(** net/http/http.c:167 *)
Definition VTM_HTTP_HEADER_CONNECTION : bytes := cstr_of "Connection"%string.
(** net/http/http.c:170 *)
Definition VTM_HTTP_HEADER_DATE : bytes := cstr_of "Date"%string.
(** net/http/http.c:172 *)
Definition VTM_HTTP_HEADER_HOST : bytes := cstr_of "Host"%string.
(** net/http/http.c:173 *)
Definition VTM_HTTP_HEADER_SERVER : bytes := cstr_of "Server"%string.
(** net/http/http.c:187 *)
Definition VTM_HTTP_VALUE_CLOSE : bytes := cstr_of "close"%string.
(** net/http/http.c:189 *)
Definition VTM_HTTP_VALUE_KEEP_ALIVE : bytes := cstr_of "keep-alive"%string.
(** core/version.h:18-28 *)
Definition VTM_BUILD_VERSION : bytes := cstr_of "ventanium/0.1.0"%string.

(** ** Requests *)

(** net/http/http_request.h:26-36 [struct vtm_http_req].  The path as the string
    that the pointer leads to, the connection by its number. *)
Record vtm_http_req := mk_req {
  rq_method : vtm_http_method;
  rq_version : vtm_http_version;
  rq_path : option bytes;
  rq_headers : option vtm_dataset;
  rq_params : option vtm_dataset;
  rq_con : Z
}.

(** net/http/http_request.c:11-15 *)
Definition vtm_http_req_release (req : vtm_http_req) (h : heap) : option heap :=
  h ← vtm_dataset_free (rq_headers req) h; vtm_dataset_free (rq_params req) h.

Section Response.
Context (malloc_ok : Z -> bool) (printf_g : Z -> bytes).

(** net/http/http_request.c:22-28 *)
Definition vtm_http_req_get_header_str (req : vtm_http_req) (name : bytes)
    : option (option bytes * vtm_http_req) :=
  match rq_headers req with
  | None => Some (None, req)
  | Some ds =>
      '(val, ds) ← vtm_dataset_get_string malloc_ok printf_g ds (mk_ptr 1 name);
      Some (val, mk_req (rq_method req) (rq_version req) (rq_path req) (Some ds) (rq_params req)
                   (rq_con req))
  end.

(** net/http/http_request.c:17-20 *)
Definition vtm_http_req_get_host (req : vtm_http_req) : option (option bytes * vtm_http_req) :=
  vtm_http_req_get_header_str req VTM_HTTP_HEADER_HOST.

(** net/http/http_request.c:30-36 *)
Definition vtm_http_req_get_query_str (req : vtm_http_req) (name : bytes)
    : option (option bytes * vtm_http_req) :=
  match rq_params req with
  | None => Some (None, req)
  | Some ds =>
      '(val, ds) ← vtm_dataset_get_string malloc_ok printf_g ds (mk_ptr 1 name);
      Some (val, mk_req (rq_method req) (rq_version req) (rq_path req) (rq_headers req) (Some ds)
                   (rq_con req))
  end.

(** ** Responses *)

(** net/http/http_response.h:24-28 [enum vtm_http_res_mode] *)
Inductive vtm_http_res_mode := VTM_HTTP_RES_MODE_FIXED | VTM_HTTP_RES_MODE_CHUNKED.

(** net/http/http_response.h:30-35 [enum vtm_http_res_act] *)
Inductive vtm_http_res_act :=
| VTM_HTTP_RES_ACT_CLOSE_CON
| VTM_HTTP_RES_ACT_KEEP_CON
| VTM_HTTP_RES_ACT_UPGRADE_WS.

(** net/http/http_response.c:18-25 [enum vtm_http_res_stage] *)
Inductive vtm_http_res_stage :=
| VTM_HTTP_RES_STAGE_UNINITIALZED
| VTM_HTTP_RES_STAGE_HEADER_OR_BODY
| VTM_HTTP_RES_STAGE_HEADER
| VTM_HTTP_RES_STAGE_BODY
| VTM_HTTP_RES_STAGE_COMPLETED.

#[local] Instance vtm_http_res_stage_eq_dec : EqDecision vtm_http_res_stage.
Proof. solve_decision. Defined.

(** [stage >= VTM_HTTP_RES_STAGE_BODY] *)
Definition stage_from_body (st : vtm_http_res_stage) : bool :=
  match st with VTM_HTTP_RES_STAGE_BODY | VTM_HTTP_RES_STAGE_COMPLETED => true | _ => false end.

(** The pointer to the chain of emitters for the body. *)
Inductive body_se := BodyNull | BodySe (chain : list vtm_socket_emitter) | BodyFreed.

(** net/http/http_response.c:27-40 [struct vtm_http_res].  [act_data] and the
    connection by their addresses. *)
Record vtm_http_res := mk_res {
  res_con : Z;
  res_version : vtm_http_version;
  res_mode : vtm_http_res_mode;
  res_stage : vtm_http_res_stage;
  res_act : vtm_http_res_act;
  res_act_data : Z;
  res_buf : vtm_buf;
  res_body_buf : vtm_buf;
  res_body_se : body_se
}.

(** Field updates. *)
Definition res_with_stage st (r : vtm_http_res) := mk_res (res_con r) (res_version r) (res_mode r)
  st (res_act r) (res_act_data r) (res_buf r) (res_body_buf r) (res_body_se r).
Definition res_with_buf b (r : vtm_http_res) := mk_res (res_con r) (res_version r) (res_mode r)
  (res_stage r) (res_act r) (res_act_data r) b (res_body_buf r) (res_body_se r).
Definition res_with_body b (r : vtm_http_res) := mk_res (res_con r) (res_version r) (res_mode r)
  (res_stage r) (res_act r) (res_act_data r) (res_buf r) b (res_body_se r).
Definition res_with_se se (r : vtm_http_res) := mk_res (res_con r) (res_version r) (res_mode r)
  (res_stage r) (res_act r) (res_act_data r) (res_buf r) (res_body_buf r) se.
Definition res_with_mode m (r : vtm_http_res) := mk_res (res_con r) (res_version r) m
  (res_stage r) (res_act r) (res_act_data r) (res_buf r) (res_body_buf r) (res_body_se r).
Definition res_with_act a data (r : vtm_http_res) := mk_res (res_con r) (res_version r) (res_mode r)
  (res_stage r) a data (res_buf r) (res_body_buf r) (res_body_se r).

(** net/http/http_response.c:46-69.  [order] is the byte order of the host,
    [garbage] what the pointer [act_data] holds. *)
Definition vtm_http_res_new (ok : bool) (order : vtm_byteorder) (garbage : Z) : option vtm_http_res :=
  if negb ok then None
  else Some (mk_res 0 VTM_HTTP_VER_1_0 VTM_HTTP_RES_MODE_FIXED VTM_HTTP_RES_STAGE_UNINITIALZED
               VTM_HTTP_RES_ACT_CLOSE_CON garbage (vtm_buf_init order) (vtm_buf_init order) BodyNull).

(** net/http/http_response.c:78-107 *)
Definition vtm_http_res_prepare (r : vtm_http_res) (req : vtm_http_req)
    : option (vtm_http_res * vtm_http_req) :=
  '(act, req) ← match rq_version req with
    | VTM_HTTP_VER_1_0 => Some (VTM_HTTP_RES_ACT_CLOSE_CON, req)
    | VTM_HTTP_VER_1_1 =>
        '(val, req) ← vtm_http_req_get_header_str req VTM_HTTP_HEADER_CONNECTION;
        Some (match val with
              | Some val => if vtm_str_casecmp val VTM_HTTP_VALUE_CLOSE =? 0
                            then VTM_HTTP_RES_ACT_CLOSE_CON else VTM_HTTP_RES_ACT_KEEP_CON
              | None => VTM_HTTP_RES_ACT_KEEP_CON
              end, req)
    end;
  Some (mk_res (rq_con req) (rq_version req) VTM_HTTP_RES_MODE_FIXED VTM_HTTP_RES_STAGE_UNINITIALZED
          act 0 (vtm_buf_clear (res_buf r)) (vtm_buf_clear (res_body_buf r)) BodyNull, req).

(** A sequence of calls of vtm_buf_puts() on the buffer of the head. *)
Definition res_puts (r : vtm_http_res) (texts : list bytes) : vtm_http_res :=
  res_with_buf (fold_left (fun b t => (vtm_buf_puts malloc_ok b t).1) texts (res_buf r)) r.

Definition CRLF : bytes := [13; 10].

(** net/http/http_response.c:158-172 *)
Definition vtm_http_res_header (r : vtm_http_res) (name value : bytes) : vtm_http_res * Z :=
  match res_stage r with
  | VTM_HTTP_RES_STAGE_HEADER_OR_BODY | VTM_HTTP_RES_STAGE_HEADER =>
      let r := res_puts (res_with_stage VTM_HTTP_RES_STAGE_HEADER r) [name; [58; 32]; value; CRLF] in
      (r, buf_err (res_buf r))
  | _ => (r, VTM_ERROR)
  end.

(** net/http/http_response.c:366-381 *)
Definition vtm_http_res_set_date (r : vtm_http_res) (time_now : Z) (now : c_tm)
    : option (vtm_http_res * Z) :=
  let '(rc, date) := vtm_date_now_utc time_now now in
  if negb (rc =? VTM_OK) then Some (r, rc)
  else
    '(rc, buf) ← vtm_http_fmt_date VTM_HTTP_DATE_LEN date;
    if negb (rc =? VTM_OK) then Some (r, rc) else Some (vtm_http_res_header r VTM_HTTP_HEADER_DATE buf).

(** net/http/http_response.c:109-156 *)
Definition vtm_http_res_begin (r : vtm_http_res) (mode : vtm_http_res_mode) (status : Z)
    (time_now : Z) (now : c_tm) : option (vtm_http_res * Z) :=
  match res_stage r with
  | VTM_HTTP_RES_STAGE_UNINITIALZED =>
      let r := res_with_mode mode (res_with_stage VTM_HTTP_RES_STAGE_HEADER_OR_BODY r) in
      version ← vtm_http_get_version_string (res_version r);
      '(_, status_str) ← vtm_fmt_int true status;
      let r := res_puts r [version; [32]; status_str; [32]; vtm_http_get_status_phrase status; CRLF] in
      if negb (buf_err (res_buf r) =? VTM_OK) then Some (r, VTM_ERROR)
      else
        let '(r, rc) := vtm_http_res_header r VTM_HTTP_HEADER_SERVER VTM_BUILD_VERSION in
        if negb (rc =? VTM_OK) then Some (r, rc)
        else
          '(r, rc) ← vtm_http_res_set_date r time_now now;
          if negb (rc =? VTM_OK) then Some (r, rc)
          else
            match mode with
            | VTM_HTTP_RES_MODE_CHUNKED =>
                Some (vtm_http_res_header r VTM_HTTP_HEADER_TRANSFER_ENCODING VTM_HTTP_VALUE_CHUNKED)
            | _ => Some (r, rc)
            end
  | _ => Some (r, VTM_ERROR)
  end.

(** net/http/http_response.c:174-190 *)
Definition vtm_http_res_close_headers (r : vtm_http_res) : vtm_http_res * Z :=
  let r := match res_act r with
           | VTM_HTTP_RES_ACT_CLOSE_CON =>
               (vtm_http_res_header r VTM_HTTP_HEADER_CONNECTION VTM_HTTP_VALUE_CLOSE).1
           | VTM_HTTP_RES_ACT_KEEP_CON =>
               (vtm_http_res_header r VTM_HTTP_HEADER_CONNECTION VTM_HTTP_VALUE_KEEP_ALIVE).1
           | _ => r
           end in
  let '(b, rc) := vtm_buf_puts malloc_ok (res_buf r) CRLF in (res_with_buf b r, rc).

(** net/http/http_response.c:233-251 *)
Definition vtm_http_res_write_chunked (r : vtm_http_res) (src : bytes) : vtm_http_res * Z :=
  let '(hex_len, _) := vtm_fmt_hex_size false (zlen src) in
  let '(b, rc) := vtm_buf_ensure malloc_ok (res_buf r) hex_len in
  if negb (rc =? VTM_OK) then (res_with_buf b r, rc)
  else
    let '(_, digits) := vtm_fmt_hex_size true (zlen src) in
    let r := res_puts (res_with_buf (VTM_BUF_PUT_INC b digits) r) [CRLF; src; CRLF] in
    (r, buf_err (res_buf r)).

(** net/http/http_response.c:197-221 *)
Definition vtm_http_res_body_raw (r : vtm_http_res) (src : bytes) : vtm_http_res * Z :=
  match res_stage r with
  | VTM_HTTP_RES_STAGE_UNINITIALZED | VTM_HTTP_RES_STAGE_COMPLETED => (r, VTM_ERROR)
  | _ =>
      match res_mode r with
      | VTM_HTTP_RES_MODE_FIXED =>
          let '(b, rc) := vtm_buf_putm malloc_ok (res_body_buf r) src in (res_with_body b r, rc)
      | VTM_HTTP_RES_MODE_CHUNKED =>
          if decide (res_stage r = VTM_HTTP_RES_STAGE_BODY) then vtm_http_res_write_chunked r src
          else
            let '(r, rc) := vtm_http_res_close_headers r in
            let r := res_with_stage VTM_HTTP_RES_STAGE_BODY r in
            if negb (rc =? VTM_OK) then (r, rc) else vtm_http_res_write_chunked r src
      end
  end.

(** net/http/http_response.c:192-195.  [data] without its NUL. *)
Definition vtm_http_res_body_str (r : vtm_http_res) (data : bytes) : vtm_http_res * Z :=
  vtm_http_res_body_raw r data.

(** net/http/http_response.c:223-231 *)
Definition vtm_http_res_body_emt (r : vtm_http_res) (se : list vtm_socket_emitter) : vtm_http_res * Z :=
  match res_body_se r with
  | BodyNull => (res_with_se (BodySe se) r, VTM_OK)
  | _ => (r, VTM_ERROR)
  end.

(** net/http/http_response.c:253-262 *)
Definition vtm_http_res_set_action (r : vtm_http_res) (act : vtm_http_res_act) (data : Z)
    : vtm_http_res * Z :=
  if stage_from_body (res_stage r) then (r, VTM_E_INVALID_STATE) else (res_with_act act data r, VTM_OK).

(** net/http/http_response.c:264-267 *)
Definition vtm_http_res_get_action (r : vtm_http_res) : vtm_http_res_act := res_act r.
(** net/http/http_response.c:269-272 *)
Definition vtm_http_res_get_action_data (r : vtm_http_res) : Z := res_act_data r.

(** net/http/http_response.c:383-386 *)
Definition vtm_http_res_was_started (r : vtm_http_res) : bool :=
  match res_stage r with VTM_HTTP_RES_STAGE_UNINITIALZED => false | _ => true end.
(** net/http/http_response.c:388-391 *)
Definition vtm_http_res_was_sent (r : vtm_http_res) : bool :=
  match res_stage r with VTM_HTTP_RES_STAGE_COMPLETED => true | _ => false end.
(** net/http/http_response.c:393-396 *)
Definition vtm_http_res_get_version (r : vtm_http_res) : vtm_http_version := res_version r.

(** ** The end of a response *)

Section Send.
Context {OS SA : Type} (vt : vtm_socket_vtable OS SA).
Implicit Types (s : vtm_socket) (os : OS).

(** net/http/http_response.c:331-364.  [ok] is the answer of the allocator for
    the emitter.  The code, the response, and what the connection keeps as
    emitter if the peer is full; no result if the contents of the buffer were
    lost for want of memory. *)
Definition vtm_http_res_send (ok : bool) (r : vtm_http_res) s os
    : option (Z * vtm_http_res * option (list vtm_socket_emitter) * vtm_socket * OS) :=
  match vtm_socket_emitter_for_buffer ok (ztake (buf_used (res_buf r)) (buf_data (res_buf r))) false with
  | None => Some (VTM_E_MALLOC, r, None, s, os)
  | Some se =>
      _ ← buf_bytes (res_buf r);
      next ← match res_body_se r with
             | BodyNull => Some []
             | BodySe chain => Some chain
             | BodyFreed => None
             end;
      '(rc, se, _, s, os) ← vtm_socket_emitter_try_write vt (se :: next) s os;
      let freed := match res_body_se r with BodyNull => BodyNull | _ => BodyFreed end in
      if rc =? VTM_OK then
        Some (VTM_OK, res_with_se freed (res_with_stage VTM_HTTP_RES_STAGE_COMPLETED r), None, s, os)
      else if rc =? VTM_E_IO_AGAIN then
        Some (VTM_OK, res_with_stage VTM_HTTP_RES_STAGE_COMPLETED r, Some se, s, os)
      else Some (rc, res_with_se freed r, None, s, os)
  end.

(** net/http/http_response.c:290-316.  The head and the body of the mode FIXED.
    [ok] is the answer of the allocator for the text of the length; the copy of
    the body into the buffer of the head is not checked.  No result if the
    contents of the body were lost for want of memory. *)
Definition vtm_http_res_end_fixed (ok : bool) (r : vtm_http_res) : option (vtm_http_res * Z) :=
  let len := buf_used (res_body_buf r) in
  '(rc, len) ← match res_body_se r with
               | BodyNull => Some (VTM_OK, len)
               | BodySe chain =>
                   Some match vtm_socket_emitter_get_chain_lensum chain with
                        | (rc, Some chain_len) => (rc, len +sz chain_len)
                        | (rc, None) => (rc, len)
                        end
               | BodyFreed => None
               end;
  if negb (rc =? VTM_OK) then Some (r, rc)
  else if negb ok then None
  else
    let '(r, rc) := vtm_http_res_header r VTM_HTTP_HEADER_CONTENT_LENGTH (printf_d len) in
    if negb (rc =? VTM_OK) then Some (r, rc)
    else
      let '(r, rc) := vtm_http_res_close_headers r in
      if negb (rc =? VTM_OK) then Some (r, rc)
      else
        if 0 <? buf_used (res_body_buf r) then
          body ← buf_bytes (res_body_buf r);
          Some (res_with_buf (vtm_buf_putm malloc_ok (res_buf r) body).1 r, VTM_OK)
        else Some (r, VTM_OK).

(** net/http/http_response.c:318-325.  The last chunk of the mode CHUNKED. *)
Definition vtm_http_res_end_chunked (r : vtm_http_res) : vtm_http_res * Z :=
  let '(r, rc) := match res_stage r with
                  | VTM_HTTP_RES_STAGE_HEADER_OR_BODY | VTM_HTTP_RES_STAGE_HEADER =>
                      vtm_http_res_close_headers r
                  | _ => (r, VTM_OK)
                  end in
  if negb (rc =? VTM_OK) then (r, rc) else vtm_http_res_write_chunked r [].

(** net/http/http_response.c:274-329.  [ok_len] and [ok_se] are the answers of
    the allocator. *)
Definition vtm_http_res_end (ok_len ok_se : bool) (r : vtm_http_res) s os
    : option (Z * vtm_http_res * option (list vtm_socket_emitter) * vtm_socket * OS) :=
  match res_stage r with
  | VTM_HTTP_RES_STAGE_UNINITIALZED | VTM_HTTP_RES_STAGE_COMPLETED => Some (VTM_ERROR, r, None, s, os)
  | _ =>
      '(r, rc) ← match res_mode r with
                 | VTM_HTTP_RES_MODE_FIXED => vtm_http_res_end_fixed ok_len r
                 | VTM_HTTP_RES_MODE_CHUNKED => Some (vtm_http_res_end_chunked r)
                 end;
      if negb (rc =? VTM_OK) then Some (rc, r, None, s, os) else vtm_http_res_send ok_se r s os
  end.
End Send.
End Response.
