(* ===== verification/ResponseProps.v ===== *)
(** * ResponseProps: what a response sends

    The text that an application describes by its calls ([answer]), and the proof
    that the calls of net/http/http_response.c, in any order, produce it. *)

From S2P Require Import Prelude Base Buffer Format Str Elem Hash Heap Table Smap.
From S2P Require Import Dataset Http Socket Emitter HttpResponse.

(** ** Texts that can be put into a buffer *)

Definition is_text (l : bytes) : Prop := Forall is_byte l /\ zlen l <= SIZE_MAX.

#[global] Instance is_text_dec l : Decision (is_text l).
Proof. unfold is_text. apply _. Defined.

(** Long after any text that the code itself composes. *)
Definition is_line (l : bytes) : Prop := Forall is_byte l /\ (length l <= 1000)%nat.

#[global] Instance is_line_dec l : Decision (is_line l).
Proof. unfold is_line. apply _. Defined.

Lemma line_text l : is_line l -> is_text l.
Proof. intros [? H]. split; [done|]. unfold zlen, SIZE_MAX. lia. Qed.

Ltac line := apply line_text; (vm_compute; split; [repeat constructor; discriminate | lia]).

Lemma digits_text fuel v tail :
  0 <= v -> exists ds, dec_digits fuel v tail = ds ++ tail /\
    Forall (fun c => 48 <= c < 58) ds /\ (length ds <= fuel)%nat.
Proof.
  revert v tail. induction fuel as [|fuel IH]; intros v tail Hv; cbn [dec_digits].
  - exists []. by repeat split.
  - destruct (Z.ltb_spec v 10).
    + exists [48 + v]. split; [done|]. split; [repeat constructor; lia|cbn; lia].
    + destruct (IH (v / 10) ((48 + v mod 10) :: tail)) as (ds & -> & Hds & Hl); [dlia|].
      exists (ds ++ [48 + v mod 10]). rewrite <- app_assoc. split; [done|]. split.
      * apply Forall_app. split; [done|]. repeat constructor; dlia.
      * rewrite length_app. cbn [length]. lia.
Qed.

Lemma printf_d_line v : is_line (printf_d v).
Proof.
  assert (forall w, 0 <= w -> is_line (dec_digits 20 w [])) as H.
  { intros w Hw. destruct (digits_text 20 w [] Hw) as (ds & -> & Hds & Hl). rewrite app_nil_r.
    split; [|lia]. eapply Forall_impl; [exact Hds|]. unfold is_byte. lia. }
  unfold printf_d. destruct (Z.ltb_spec v 0); [|by apply H].
  destruct (digits_text 20 (- v) [] ltac:(lia)) as (ds & -> & Hds & Hl). rewrite app_nil_r.
  split; [|cbn [length]; lia]. constructor; [unfold is_byte; lia|].
  eapply Forall_impl; [exact Hds|]. unfold is_byte. lia.
Qed.

Lemma cstr_of_bytes s : Forall is_byte (cstr_of s).
Proof.
  induction s as [|a s IH]; constructor; [|done]. unfold is_byte.
  pose proof (Ascii.N_ascii_bounded a). lia.
Qed.

Lemma phrase_text status : is_text (vtm_http_get_status_phrase status).
Proof.
  unfold vtm_http_get_status_phrase. destruct (find _ status_phrases) as [[c p]|] eqn:E; [|line].
  apply find_some in E as [Hin _]. apply line_text.
  assert (Forall (fun x => is_line (cstr_of x.2)) status_phrases) as H
    by (apply (bool_decide_unpack _); vm_compute; reflexivity).
  rewrite Forall_forall in H. apply (H (c, p)). by apply list_elem_of_In.
Qed.

Ltac texts :=
  repeat (apply Forall_cons_2; [first [assumption | apply phrase_text | line] |]); apply Forall_nil_2.

(** ** Sequences of puts *)

(** [b'] is [b] after [l] was put, unless the memory was exhausted. *)
Definition appended (b b' : vtm_buf) (l : bytes) : Prop :=
  buf_err b' = VTM_OK -> buf_err b = VTM_OK /\ buf_content b' = buf_content b ++ l.

Section puts.
Context (malloc_ok : Z -> bool).

(** A buffer whose first unread byte is the first one of its block; its contents
    may be lost if the memory is short. *)
Definition fresh_read (b : vtm_buf) : Prop :=
  buf_live b /\ buf_read b = 0 /\ (buf_lost b -> refused malloc_ok).

Lemma fresh_ok b : buf_ok b -> buf_read b = 0 -> fresh_read b.
Proof. intros Hb Hr. unfold fresh_read. split_and!; [by left|done|]. intros Hl. exfalso. by eapply buf_ok_lost. Qed.

Lemma putm_rep b t :
  fresh_read b -> is_text t ->
  let r := vtm_buf_putm malloc_ok b t in
  fresh_read r.1 /\ appended b r.1 t /\ r.2 = buf_err r.1 /\
  (buf_err r.1 = VTM_OK -> buf_used r.1 = buf_used b + zlen t) /\
  (buf_err r.1 <> VTM_OK -> buf_used r.1 = buf_used b /\ (buf_ok r.1 -> buf_ok b /\ buf_content r.1 = buf_content b)).
Proof.
  intros (Hb & Hr & Hl) [Ht Hlen]. assert (is_size (zlen t)) as Hs by (split; [apply zlen_nonneg|done]). cbn zeta.
  pose proof (putm_ext malloc_ok b t Hb Ht Hs) as [(Hb' & Ho & Ha) E].
  pose proof (puto_read malloc_ok b t (buf_order b)) as R. fold (vtm_buf_putm malloc_ok b t) in R.
  assert (buf_lost (vtm_buf_putm malloc_ok b t).1 -> refused malloc_ok) as Hl'.
  { destruct Hb as [Hb|Hb]; [by apply puto_refused|]. intros _. by apply Hl. }
  unfold fresh_read. split_and!; [done|congruence|done| |done| |].
  - intros He. by destruct (Ha He) as (? & ? & ?).
  - intros He. destruct (Ha He) as (He0 & Hc & _).
    pose proof (buf_content_len _ (buf_live_ok _ Hb' He)) as E1. pose proof (buf_content_len _ (buf_live_ok _ Hb He0)) as E0.
    rewrite Hc, zlen_app in E1. lia.
  - intros He. destruct Hb as [Hb|Hb].
    + destruct (make_room malloc_ok b (zlen t) Hb Hs) as (_ & _ & Hu & Hroom).
      unfold vtm_buf_putm, vtm_buf_puto in *. set (b1 := if VTM_BUF_PUT_AVAIL _ _ then _ else _) in *.
      destruct (Z.eqb_spec (buf_err b1) VTM_OK) as [Ee|Ee]; cbn [negb fst] in *.
      * exfalso. apply He. unfold buf_stored. destruct Hroom as [(Hok & _)|(Hlost & _)].
        -- by rewrite decide_False by apply Hok.
        -- by destruct (lost_not_ok _ Hlost).
      * split; [done|]. intros Hok. split; [done|]. destruct Hroom as [(_ & Hc & _)|(Hlost & _)]; [done|].
        exfalso. by eapply buf_ok_lost.
    + pose proof (put_outcome_sticky malloc_ok b t (buf_order b) (lost_not_ok _ Hb)) as Es.
      fold (vtm_buf_putm malloc_ok b t) in Es. rewrite Es. cbn [fst]. split; [done|]. intros Hok. exfalso. by eapply buf_ok_lost.
Qed.

Lemma puts_spec texts : forall b,
  fresh_read b -> Forall is_text texts ->
  let b' := fold_left (fun b t => (vtm_buf_puts malloc_ok b t).1) texts b in
  fresh_read b' /\ appended b b' (concat texts).
Proof.
  induction texts as [|t texts IH]; intros b Hf Ht; cbn [fold_left concat].
  - split; [done|]. intros He. by rewrite app_nil_r.
  - apply Forall_cons in Ht as [Ht Hts].
    destruct (putm_rep b t Hf Ht) as (Hf1 & Ha & _). unfold vtm_buf_puts in IH |- *.
    destruct (IH _ Hf1 Hts) as [Hf2 Ha2].
    split; [done|]. intros He. destruct (Ha2 He) as [He1 ->]. destruct (Ha He1) as [He0 ->].
    by rewrite app_assoc.
Qed.

(** The text of a buffer that is all unread. *)
Lemma content_used b : buf_read b = 0 -> buf_content b = ztake (buf_used b) (buf_data b).
Proof. intros Hr. unfold buf_content. by rewrite Hr, zdrop_0. Qed.

Lemma content_used_len b : buf_ok b -> buf_read b = 0 -> zlen (buf_content b) = buf_used b.
Proof. intros Hb Hr. rewrite buf_content_len by done. lia. Qed.
End puts.

(** ** The calls of an application and the text that they describe *)

Inductive res_call :=
| CHeader (name value : bytes)
| CBody (data : bytes)
| CAct (act : vtm_http_res_act) (data : Z)
| CEmt (se : list vtm_socket_emitter).

Definition res_do (malloc_ok : Z -> bool) (c : res_call) (r : vtm_http_res) : vtm_http_res * Z :=
  match c with
  | CHeader name value => vtm_http_res_header malloc_ok r name value
  | CBody data => vtm_http_res_body_raw malloc_ok r data
  | CAct act data => vtm_http_res_set_action r act data
  | CEmt se => vtm_http_res_body_emt r se
  end.

(** The calls in their order, with the code of each. *)
Fixpoint res_run malloc_ok (calls : list res_call) (r : vtm_http_res) : vtm_http_res * list Z :=
  match calls with
  | [] => (r, [])
  | c :: calls =>
      let '(r, rc) := res_do malloc_ok c r in
      let '(r, codes) := res_run malloc_ok calls r in (r, rc :: codes)
  end.

(** The response as its parts. *)
Record answer := mk_answer {
  an_version : vtm_http_version;
  an_mode : vtm_http_res_mode;
  an_status : Z;
  an_date : bytes;
  an_act : vtm_http_res_act;
  an_fields : list (bytes * bytes);
  an_body : list bytes;
  an_emt : option (list vtm_socket_emitter)
}.

Definition is_chunked (p : answer) : bool :=
  match an_mode p with VTM_HTTP_RES_MODE_CHUNKED => true | _ => false end.

(** With the first chunk the head is closed. *)
Definition an_closed (p : answer) : bool := is_chunked p && negb (bool_decide (an_body p = [])).

Definition an_add_field nv (p : answer) : answer :=
  mk_answer (an_version p) (an_mode p) (an_status p) (an_date p) (an_act p)
    (an_fields p ++ [nv]) (an_body p) (an_emt p).
Definition an_add_body d (p : answer) : answer :=
  mk_answer (an_version p) (an_mode p) (an_status p) (an_date p) (an_act p)
    (an_fields p) (an_body p ++ [d]) (an_emt p).
Definition an_set_act a (p : answer) : answer :=
  mk_answer (an_version p) (an_mode p) (an_status p) (an_date p) a (an_fields p) (an_body p) (an_emt p).
Definition an_set_emt se (p : answer) : answer :=
  mk_answer (an_version p) (an_mode p) (an_status p) (an_date p) (an_act p)
    (an_fields p) (an_body p) (Some se).

(** What a call adds, and the code if there is enough memory. *)
Definition answer_call (c : res_call) (p : answer) : answer * Z :=
  match c with
  | CHeader n v => if an_closed p then (p, VTM_ERROR) else (an_add_field (n, v) p, VTM_OK)
  | CBody d => (an_add_body d p, VTM_OK)
  | CAct a _ => if an_closed p then (p, VTM_E_INVALID_STATE) else (an_set_act a p, VTM_OK)
  | CEmt se => match an_emt p with Some _ => (p, VTM_ERROR) | None => (an_set_emt se p, VTM_OK) end
  end.

(** The accepted calls, in their order. *)
Fixpoint answer_run (calls : list res_call) (codes : list Z) (p : answer) : answer :=
  match calls, codes with
  | c :: calls, rc :: codes =>
      answer_run calls codes (if rc =? VTM_OK then (answer_call c p).1 else p)
  | _, _ => p
  end.

Definition header_line (nv : bytes * bytes) : bytes := nv.1 ++ [58; 32] ++ nv.2 ++ CRLF.

Definition status_text (status : Z) : bytes := default [] (snd <$> vtm_fmt_int true status).

Definition status_line (p : answer) : bytes :=
  default [] (vtm_http_get_version_string (an_version p)) ++ [32] ++ status_text (an_status p) ++
  [32] ++ vtm_http_get_status_phrase (an_status p) ++ CRLF.

(** The headers of every response. *)
Definition std_fields (p : answer) : list (bytes * bytes) :=
  [(VTM_HTTP_HEADER_SERVER, VTM_BUILD_VERSION); (VTM_HTTP_HEADER_DATE, an_date p)] ++
  if is_chunked p then [(VTM_HTTP_HEADER_TRANSFER_ENCODING, VTM_HTTP_VALUE_CHUNKED)] else [].

Definition con_fields (a : vtm_http_res_act) : list (bytes * bytes) :=
  match a with
  | VTM_HTTP_RES_ACT_CLOSE_CON => [(VTM_HTTP_HEADER_CONNECTION, VTM_HTTP_VALUE_CLOSE)]
  | VTM_HTTP_RES_ACT_KEEP_CON => [(VTM_HTTP_HEADER_CONNECTION, VTM_HTTP_VALUE_KEEP_ALIVE)]
  | VTM_HTTP_RES_ACT_UPGRADE_WS => []
  end.

Definition lines (fs : list (bytes * bytes)) : bytes := concat (map header_line fs).

Definition hex_text (n : Z) : bytes := (vtm_fmt_hex_size true n).2.

Definition chunk_text (d : bytes) : bytes := hex_text (zlen d) ++ CRLF ++ d ++ CRLF.

Definition an_head (p : answer) : bytes := status_line p ++ lines (std_fields p ++ an_fields p).

(** The number of bytes that the header Content-Length announces. *)
Definition an_length (p : answer) : Z :=
  let n := zlen (concat (an_body p)) in
  match an_emt p with
  | Some se => n +sz default 0 (vtm_socket_emitter_get_chain_lensum se).2
  | None => n
  end.

Definition answer_text (p : answer) : bytes :=
  if is_chunked p then
    an_head p ++ lines (con_fields (an_act p)) ++ CRLF ++ concat (map chunk_text (an_body p)) ++
    chunk_text []
  else
    an_head p ++ lines [(VTM_HTTP_HEADER_CONTENT_LENGTH, printf_d (an_length p))] ++
    lines (con_fields (an_act p)) ++ CRLF ++ concat (an_body p).

(** The part of the text that is in the buffer before the end. *)
Definition an_begun (p : answer) : bytes :=
  an_head p ++ (if an_closed p then
    lines (con_fields (an_act p)) ++ CRLF ++ concat (map chunk_text (an_body p)) else []).

Definition call_ok (c : res_call) : Prop :=
  match c with
  | CHeader n v => is_text n /\ is_text v
  | CBody d => is_text d
  | CAct _ _ => True
  | CEmt se => se <> [] /\ Forall mem_emitter se
  end.

Lemma write_hex_bytes n v acc : Forall is_byte acc -> 0 <= v -> Forall is_byte (write_hex n v acc).
Proof.
  revert v acc. induction n as [|n IH]; intros v acc Ha Hv; [done|]. cbn [write_hex].
  apply IH; [|by apply Z.shiftr_nonneg]. constructor; [|done].
  assert (Z.land v 15 = v mod 16) as -> by apply (Z.land_ones v 4 ltac:(lia)).
  assert (Forall (fun i => is_byte (hexchar VTM_HEX_CHARS i)) (seqZ 0 16)) as H
    by (apply (bool_decide_unpack _); vm_compute; reflexivity).
  rewrite Forall_forall in H. apply H, elem_of_seqZ. dlia.
Qed.

Lemma hex_size_spec n :
  0 <= n < 2 ^ 64 ->
  (vtm_fmt_hex_size false n).1 = zlen (hex_text n) /\ 1 <= zlen (hex_text n) <= 20 /\
  Forall is_byte (hex_text n).
Proof.
  intros Hn. unfold hex_text, vtm_fmt_hex_size. cbn [negb fst snd].
  destruct (count_hex_spec fmt_fuel n 1) as (k & E & Hk & Hlt & Hge); [unfold fmt_fuel; lia|].
  rewrite E. assert (k <= 19).
  { destruct Hge as [-> | Hge]; [lia|]. apply Z.lt_succ_r. apply (Z.pow_lt_mono_r_iff 16); lia. }
  assert (zlen (write_hex (Z.to_nat (1 + k)) n []) = 1 + k) as Hl.
  { destruct (write_hex_spec (Z.to_nat (1 + k)) n []) as (ds & -> & Hl & _).
    { rewrite Z2Nat.id by lia. replace (1 + k) with (k + 1) by lia. lia. }
    rewrite app_nil_r. unfold zlen. lia. }
  rewrite Hl. split_and!; [done|lia|lia|apply write_hex_bytes; [constructor|lia]].
Qed.

(** ** The operations *)

Section ops.
Context (malloc_ok : Z -> bool).
Abbreviation fresh_read := (fresh_read malloc_ok).

(** The response holds the text of its answer; the pieces of a body whose
    contents were lost are counted still. *)
Record res_rep (r : vtm_http_res) (p : answer) : Prop := {
  rr_mode : res_mode r = an_mode p;
  rr_act : res_act r = an_act p;
  rr_stage : res_stage r = VTM_HTTP_RES_STAGE_HEADER \/
    res_stage r = VTM_HTTP_RES_STAGE_BODY /\ is_chunked p = true;
  rr_buf : fresh_read (res_buf r);
  rr_body : fresh_read (res_body_buf r);
  rr_content : if is_chunked p then True else
    buf_used (res_body_buf r) = zlen (concat (an_body p)) /\
    (buf_ok (res_body_buf r) -> buf_content (res_body_buf r) = concat (an_body p));
  rr_se : res_body_se r = match an_emt p with Some se => BodySe se | None => BodyNull end;
  rr_emt : match an_emt p with Some se => se <> [] /\ Forall mem_emitter se | None => True end;
  rr_text : buf_err (res_buf r) = VTM_OK ->
    buf_content (res_buf r) = an_begun p /\
    (res_stage r = VTM_HTTP_RES_STAGE_BODY -> an_closed p = true);
  rr_closed : an_closed p = true -> res_stage r = VTM_HTTP_RES_STAGE_BODY
}.

Lemma res_puts_spec r texts :
  fresh_read (res_buf r) -> Forall is_text texts ->
  exists b, res_puts malloc_ok r texts = res_with_buf b r /\ fresh_read b /\
    appended (res_buf r) b (concat texts).
Proof. intros Hb Ht. destruct (puts_spec malloc_ok texts (res_buf r) Hb Ht). eexists. by split_and!. Qed.

Lemma res_stage_id r : res_with_stage (res_stage r) r = r.
Proof. by destruct r. Qed.

(** A header line. *)
Lemma header_line_spec r n v :
  fresh_read (res_buf r) -> is_text n -> is_text v ->
  res_stage r = VTM_HTTP_RES_STAGE_HEADER_OR_BODY \/ res_stage r = VTM_HTTP_RES_STAGE_HEADER ->
  exists b, vtm_http_res_header malloc_ok r n v
      = (res_with_buf b (res_with_stage VTM_HTTP_RES_STAGE_HEADER r), buf_err b) /\
    fresh_read b /\ appended (res_buf r) b (header_line (n, v)).
Proof.
  intros Hb Hn Hv Hst. set (r0 := res_with_stage VTM_HTTP_RES_STAGE_HEADER r).
  destruct (res_puts_spec r0 [n; [58; 32]; v; CRLF]) as (b & E & Hf & Ha); [done|texts|].
  exists b. split; [|split; [done|]].
  - unfold vtm_http_res_header. by destruct Hst as [-> | ->]; fold r0; rewrite E.
  - unfold header_line. cbn [fst snd concat app] in *. by rewrite app_nil_r in Ha.
Qed.

Lemma header_spec r n v :
  fresh_read (res_buf r) -> is_text n -> is_text v -> res_stage r = VTM_HTTP_RES_STAGE_HEADER ->
  exists b, vtm_http_res_header malloc_ok r n v = (res_with_buf b r, buf_err b) /\
    fresh_read b /\ appended (res_buf r) b (header_line (n, v)).
Proof.
  intros Hb Hn Hv Hst. destruct (header_line_spec r n v Hb Hn Hv (or_intror Hst)) as (b & E & H).
  exists b. by rewrite <- Hst, res_stage_id in E.
Qed.

Lemma appended_trans b0 b1 b2 l1 l2 : appended b0 b1 l1 -> appended b1 b2 l2 -> appended b0 b2 (l1 ++ l2).
Proof.
  intros H1 H2 He. destruct (H2 He) as [He1 ->]. destruct (H1 He1) as [He0 ->].
  by rewrite app_assoc.
Qed.

Lemma appended_refl b : appended b b [].
Proof. intros He. by rewrite app_nil_r. Qed.

(** The end of the head. *)
Lemma close_headers_spec r :
  fresh_read (res_buf r) -> res_stage r = VTM_HTTP_RES_STAGE_HEADER ->
  exists b, vtm_http_res_close_headers malloc_ok r = (res_with_buf b r, buf_err b) /\ fresh_read b /\
    appended (res_buf r) b (lines (con_fields (res_act r)) ++ CRLF).
Proof.
  intros Hb Hst. unfold vtm_http_res_close_headers.
  assert (exists b, match res_act r with
    | VTM_HTTP_RES_ACT_CLOSE_CON =>
        (vtm_http_res_header malloc_ok r VTM_HTTP_HEADER_CONNECTION VTM_HTTP_VALUE_CLOSE).1
    | VTM_HTTP_RES_ACT_KEEP_CON =>
        (vtm_http_res_header malloc_ok r VTM_HTTP_HEADER_CONNECTION VTM_HTTP_VALUE_KEEP_ALIVE).1
    | _ => r end = res_with_buf b r /\ fresh_read b /\
    appended (res_buf r) b (lines (con_fields (res_act r)))) as (b & -> & Hf & Ha).
  { unfold lines. destruct (res_act r); cbn [con_fields map concat].
    - destruct (header_spec r VTM_HTTP_HEADER_CONNECTION VTM_HTTP_VALUE_CLOSE) as (b & -> & ? & ?);
        [done|line|line|done|]. exists b. by rewrite app_nil_r.
    - destruct (header_spec r VTM_HTTP_HEADER_CONNECTION VTM_HTTP_VALUE_KEEP_ALIVE) as (b & -> & ? & ?);
        [done|line|line|done|]. exists b. by rewrite app_nil_r.
    - exists (res_buf r). split; [by destruct r|]. split; [done|apply appended_refl]. }
  destruct (putm_rep malloc_ok b CRLF Hf) as (Hf2 & Ha2 & E2 & _); [line|].
  unfold vtm_buf_puts. cbn [res_with_buf res_buf].
  destruct (vtm_buf_putm malloc_ok b CRLF) as [b2 rc]. cbn [fst snd] in *.
  exists b2. split; [by rewrite E2|]. split; [done|]. by eapply appended_trans.
Qed.

(** A chunk. *)
Lemma write_chunked_spec r src :
  fresh_read (res_buf r) -> is_text src ->
  exists b, vtm_http_res_write_chunked malloc_ok r src = (res_with_buf b r, buf_err b) /\
    fresh_read b /\ appended (res_buf r) b (chunk_text src).
Proof.
  intros (Hb & Hr & Hl0) Hs. destruct (hex_size_spec (zlen src)) as (E1 & Hl & Hh).
  { split; [apply zlen_nonneg|]. destruct Hs as [_ Hs]. unfold SIZE_MAX in Hs. lia. }
  unfold vtm_http_res_write_chunked, vtm_buf_ensure.
  destruct (vtm_fmt_hex_size false (zlen src)) as [k t]. cbn [fst] in E1. subst k. cbv zeta.
  destruct Hb as [Hb|Hb].
  2: { rewrite (room_sticky malloc_ok _ _ (lost_not_ok _ Hb)), (lost_err _ Hb). cbn [negb Z.eqb VTM_E_MALLOC VTM_OK].
       change (negb (VTM_E_MALLOC =? VTM_OK)) with true. cbn iota.
       exists (res_buf r). rewrite (lost_err _ Hb). split; [done|]. split; [by split; [right|]|].
       intros He. by destruct (lost_not_ok _ Hb). }
  destruct (make_room malloc_ok (res_buf r) (zlen (hex_text (zlen src))) Hb)
    as (Ho1 & Hr1 & Hu1 & Hroom1); [unfold is_size, SIZE_MAX; lia|].
  set (b1 := if VTM_BUF_PUT_AVAIL _ _ then _ else _) in *.
  destruct Hroom1 as [(Hb1 & Hc1 & He1)|(Hlost & _ & _ & l & _ & Hm)].
  2: { rewrite (lost_err _ Hlost). change (negb (VTM_E_MALLOC =? VTM_OK)) with true. cbn iota.
       exists b1. rewrite (lost_err _ Hlost). split; [done|].
       split; [split_and!; [by right|congruence|intros _; by exists l]|]. intros He. by destruct (lost_not_ok _ Hlost). }
  destruct (Z.eqb_spec (buf_err b1) VTM_OK) as [Ee|Ee]; cbn [negb].
  2: { exists b1. split; [done|]. split; [apply fresh_ok; [done|congruence]|]. intros He. done. }
  destruct (He1 Ee) as [Hroom He0].
  unfold hex_text in *. destruct (vtm_fmt_hex_size true (zlen src)) as [k h] eqn:Eh. cbn [snd] in *.
  destruct (buf_store_spec b1 h (buf_used b1 + zlen h) Hb1 Hh) as (Es & Hb2 & Hc2); [lia|done|].
  assert (VTM_BUF_PUT_INC b1 h
    = buf_with_data b1 (splice (buf_used b1) h (buf_data b1)) (buf_used b1 + zlen h)) as Ei.
  { unfold VTM_BUF_PUT_INC. rewrite u64_small by (buf_sizes; zlia). exact Es. }
  rewrite Es in Hb2, Hc2. rewrite Ei. set (b2 := buf_with_data _ _ _) in *.
  destruct (res_puts_spec (res_with_buf b2 r) [CRLF; src; CRLF]) as (b3 & E3 & Hf3 & Ha3).
  { apply fresh_ok; [done|]. cbn. congruence. }
  { texts. }
  rewrite E3. cbv zeta. exists b3. split; [done|]. split; [done|]. intros He.
  destruct (Ha3 He) as [Hx Hy]. cbn [res_with_buf res_buf] in Hx, Hy.
  split; [done|]. rewrite Hy, Hc2, Hc1. unfold chunk_text, hex_text. rewrite Eh. cbn [snd concat].
  by rewrite app_nil_r, <- app_assoc.
Qed.

Lemma lines_app a b : lines (a ++ b) = lines a ++ lines b.
Proof. unfold lines. by rewrite map_app, concat_app. Qed.

Lemma lines_one nv : lines [nv] = header_line nv.
Proof. unfold lines. cbn [map concat]. apply app_nil_r. Qed.

Lemma chunks_snoc l d : concat (map chunk_text (l ++ [d])) = concat (map chunk_text l) ++ chunk_text d.
Proof. rewrite map_app, concat_app. cbn [map concat]. by rewrite app_nil_r. Qed.

Lemma begun_field p nv : an_closed p = false -> an_begun (an_add_field nv p) = an_begun p ++ header_line nv.
Proof.
  intros Hc. unfold an_begun. change (an_closed (an_add_field nv p)) with (an_closed p). rewrite Hc, !app_nil_r.
  unfold an_head. change (status_line (an_add_field nv p)) with (status_line p).
  change (std_fields (an_add_field nv p)) with (std_fields p). cbn [an_fields an_add_field].
  by rewrite !lines_app, lines_one, !app_assoc.
Qed.

Lemma closed_body p d : is_chunked p = true -> an_closed (an_add_body d p) = true.
Proof.
  intros Hc. unfold an_closed. change (is_chunked (an_add_body d p)) with (is_chunked p). rewrite Hc.
  cbn [an_body an_add_body]. rewrite bool_decide_eq_false_2; [done|]. by destruct (an_body p).
Qed.

Lemma begun_body p d :
  is_chunked p = true ->
  an_begun (an_add_body d p) = an_begun p ++
    (if an_closed p then [] else lines (con_fields (an_act p)) ++ CRLF) ++ chunk_text d.
Proof.
  intros Hc. unfold an_begun. change (an_head (an_add_body d p)) with (an_head p).
  assert (an_closed (an_add_body d p) = true) as ->.
  { unfold an_closed. change (is_chunked (an_add_body d p)) with (is_chunked p). rewrite Hc.
    cbn [an_body an_add_body]. rewrite bool_decide_eq_false_2; [done|]. by destruct (an_body p). }
  change (an_act (an_add_body d p)) with (an_act p). cbn [an_body an_add_body]. rewrite chunks_snoc.
  unfold an_closed. rewrite Hc. cbn [andb].
  destruct (bool_decide_reflect (an_body p = [])) as [->|]; cbn [negb].
  - cbn [map concat app]. by rewrite app_nil_r, <- !app_assoc.
  - cbn [app]. by rewrite <- !app_assoc.
Qed.

(** A call leads from one answer to the next. *)
Definition call_post (c : res_call) (p : answer) (out : vtm_http_res * Z) : Prop :=
  res_rep out.1 (if out.2 =? VTM_OK then (answer_call c p).1 else p) /\
  (buf_err (res_buf out.1) = VTM_OK -> buf_err (res_body_buf out.1) = VTM_OK ->
   out.2 = (answer_call c p).2).

Ltac rep := constructor; cbn [res_with_buf res_with_body res_with_stage res_with_act res_with_se
  res_buf res_body_buf res_stage res_mode res_act res_body_se an_add_field an_add_body an_set_act
  an_set_emt an_mode an_act an_emt an_body]; auto.

Lemma header_rep r p n v :
  res_rep r p -> call_ok (CHeader n v) -> call_post (CHeader n v) p (vtm_http_res_header malloc_ok r n v).
Proof.
  intros [Hm Ha Hst Hb Hbb Hc Hse Hemt Ht Hcl] [Hn Hv]. unfold call_post. cbn [answer_call].
  destruct Hst as [Hst|[Hst Hch]].
  - destruct (header_spec r n v Hb Hn Hv Hst) as (b & -> & Hf & Happ).
    cbn [fst snd res_with_buf res_buf res_body_buf].
    destruct (Z.eqb_spec (buf_err b) VTM_OK) as [Ee|Ee]; [|split; [rep; done|done]].
    destruct (Happ Ee) as [He0 Hcont]. destruct (Ht He0) as [Hbeg Hcl2].
    assert (an_closed p = false) as Hop.
    { apply not_true_is_false. intros Hx. apply Hcl in Hx. congruence. }
    rewrite Hop. split; [|done]. cbn [fst]. rep. intros _. split; [by rewrite begun_field, Hcont, Hbeg|done].
  - unfold vtm_http_res_header. rewrite Hst. cbn [fst snd]. split; [by rep|].
    intros He _. destruct (Ht He) as [_ Hcl2]. by rewrite Hcl2.
Qed.

Lemma body_rep r p d :
  res_rep r p -> call_ok (CBody d) -> call_post (CBody d) p (vtm_http_res_body_raw malloc_ok r d).
Proof.
  intros [Hm Ha Hst Hb Hbb Hc Hse Hemt Ht Hcl] Hd. unfold call_post. cbn [answer_call fst snd].
  unfold vtm_http_res_body_raw. rewrite Hm. unfold is_chunked in Hc, Hst.
  destruct (an_mode p) eqn:Em.
  - assert (res_stage r = VTM_HTTP_RES_STAGE_HEADER) as Hs by by destruct Hst as [|[]]. rewrite Hs.
    destruct Hc as [Hus Hc]. destruct (putm_rep malloc_ok (res_body_buf r) d Hbb Hd) as (Hf & Happ & E & Hou & Hx).
    destruct (vtm_buf_putm malloc_ok (res_body_buf r) d) as [b rc]. cbn [fst snd] in *. subst rc.
    assert (an_closed p = false /\ an_closed (an_add_body d p) = false) as [Hop Hop2].
    { unfold an_closed, is_chunked. cbn. by rewrite Em. }
    assert (an_begun (an_add_body d p) = an_begun p) as Hbg.
    { unfold an_begun. by rewrite Hop, Hop2. }
    destruct (Z.eqb_spec (buf_err b) VTM_OK) as [Ee|Ee]; split; try done; rep;
      unfold is_chunked; cbn [an_mode an_add_body]; rewrite ?Em; try done; try (intros; congruence).
    + destruct (Happ Ee) as [He0 Hcb]. rewrite concat_app. cbn [concat]. rewrite app_nil_r, zlen_app.
      split; [rewrite Hou by done; lia|]. intros _. by rewrite Hcb, Hc by (apply buf_live_ok; [apply Hbb|done]).
    + by rewrite Hbg, Hop2, <- Hop.
    + destruct (Hx Ee) as [Hu' Hx']. split; [congruence|]. intros Hok. destruct (Hx' Hok) as [Hok0 ->]. by apply Hc.
  - assert (is_chunked p = true) as Hch by (unfold is_chunked; by rewrite Em).
    destruct Hst as [Hst|[Hst _]]; rewrite Hst.
    + rewrite decide_False by done.
      destruct (close_headers_spec r Hb Hst) as (b & -> & Hf & Happ).
      destruct (Z.eqb_spec (buf_err b) VTM_OK) as [Ee|Ee]; cbn [negb].
      * destruct (write_chunked_spec (res_with_stage VTM_HTTP_RES_STAGE_BODY (res_with_buf b r)) d)
          as (b2 & -> & Hf2 & Happ2); [done|done|]. cbn [fst snd res_with_buf res_with_stage res_buf] in *.
        destruct (Z.eqb_spec (buf_err b2) VTM_OK) as [Ee2|Ee2].
        2: { split; [|done]. rep; unfold is_chunked; rewrite ?Em; try done; by right. }
        destruct (appended_trans _ _ _ _ _ Happ Happ2 Ee2) as [He0 Hcont]. destruct (Ht He0) as [Hbeg Hcl2].
        assert (an_closed p = false) as Hop.
        { apply not_true_is_false. intros Hx. apply Hcl in Hx. congruence. }
        split; [|done]. rep; unfold is_chunked; cbn [an_mode an_add_body]; rewrite ?Em; try done; try by right.
        intros _. rewrite begun_body, Hop, Hcont, Hbeg, Ha, <- !app_assoc by done. split; [done|].
        intros _. by apply closed_body.
      * cbn [fst snd res_with_stage res_with_buf res_buf].
        destruct (Z.eqb_spec (buf_err b) VTM_OK); [done|]. split; [|done].
        rep; unfold is_chunked; rewrite ?Em; try done; by right.
    + rewrite decide_True by done.
      destruct (write_chunked_spec r d Hb Hd) as (b & -> & Hf & Happ).
      cbn [fst snd res_with_buf res_buf] in *.
      destruct (Z.eqb_spec (buf_err b) VTM_OK) as [Ee|Ee].
      2: { split; [|done]. rep; unfold is_chunked; rewrite ?Em; try done; by right. }
      destruct (Happ Ee) as [He0 Hcont]. destruct (Ht He0) as [Hbeg Hcl2].
      assert (an_closed p = true) as Hop by by apply Hcl2.
      split; [|done]. rep; unfold is_chunked; cbn [an_mode an_add_body]; rewrite ?Em; try done; try by right.
      intros _. rewrite begun_body, Hop, Hcont, Hbeg by done. split; [done|].
      intros _. by apply closed_body.
Qed.

Lemma call_rep r p c : res_rep r p -> call_ok c -> call_post c p (res_do malloc_ok c r).
Proof.
  destruct c as [n v|d|a data|se]; intros Hr Hc; cbn [res_do]; [by apply header_rep|by apply body_rep| |].
  - destruct Hr as [Hm Ha Hst Hb Hbb Hcont Hse Hemt Ht Hcl]. unfold call_post, vtm_http_res_set_action.
    cbn [answer_call]. destruct Hst as [Hst|[Hst Hch]]; rewrite Hst; cbn [stage_from_body fst snd].
    + assert (an_closed p = false) as Hop.
      { apply not_true_is_false. intros Hx. apply Hcl in Hx. congruence. }
      rewrite Hop. split; [|done]. rewrite Z.eqb_refl. cbn [fst snd]. rep. intros He. destruct (Ht He) as [E E2].
      split; [|done]. rewrite E. unfold an_begun. change (an_closed (an_set_act a p)) with (an_closed p).
      by rewrite Hop.
    + split; [by rep|]. intros He _. destruct (Ht He) as [_ Hcl2]. by rewrite Hcl2.
  - destruct Hr as [Hm Ha Hst Hb Hbb Hcont Hse Hemt Ht Hcl]. unfold call_post, vtm_http_res_body_emt.
    cbn [answer_call]. rewrite Hse. destruct (an_emt p) eqn:Ee; cbn [fst snd]; (split; [|done]).
    + change (VTM_ERROR =? VTM_OK) with false. rep; by rewrite Ee.
    + rewrite Z.eqb_refl. by rep.
Qed.

Lemma run_rep calls : forall r p,
  res_rep r p -> Forall call_ok calls ->
  res_rep (res_run malloc_ok calls r).1 (answer_run calls (res_run malloc_ok calls r).2 p).
Proof.
  induction calls as [|c calls IH]; intros r p Hr Hc; [done|]. apply Forall_cons in Hc as [Hc Hcs].
  cbn [res_run]. destruct (call_rep r p c Hr Hc) as [Hr1 _].
  destruct (res_do malloc_ok c r) as [r1 rc]. cbn [fst snd] in Hr1. specialize (IH r1 _ Hr1 Hcs).
  destruct (res_run malloc_ok calls r1) as [r2 codes]. exact IH.
Qed.

(** ** The beginning *)

Definition buf_fresh (b : vtm_buf) : Prop := buf_ok b /\ buf_read b = 0 /\ buf_content b = [].

(** A response that was prepared for a request. *)
Record res_fresh (r : vtm_http_res) : Prop := {
  rf_stage : res_stage r = VTM_HTTP_RES_STAGE_UNINITIALZED;
  rf_buf : buf_fresh (res_buf r);
  rf_body : buf_fresh (res_body_buf r);
  rf_se : res_body_se r = BodyNull
}.

Lemma clear_fresh b : buf_ok b -> buf_fresh (vtm_buf_clear b).
Proof. intros Hb. split; [by apply buf_clear_ok|done]. Qed.

Lemma prepare_fresh printf_g r0 req r req' :
  buf_ok (res_buf r0) -> buf_ok (res_body_buf r0) ->
  vtm_http_res_prepare malloc_ok printf_g r0 req = Some (r, req') ->
  res_fresh r /\ res_version r = rq_version req.
Proof.
  intros Hb Hbb Hprep. unfold vtm_http_res_prepare in Hprep. apply bind_Some in Hprep as ([act q] & Hq & Hprep).
  assert (rq_version q = rq_version req) as Hv.
  { destruct (rq_version req) eqn:Ev; [by injection Hq as _ <-|].
    apply bind_Some in Hq as ([val q'] & Hq & Hq'). injection Hq' as _ <-.
    unfold vtm_http_req_get_header_str in Hq. destruct (rq_headers req); [|by injection Hq as _ <-].
    apply bind_Some in Hq as ([x ds] & _ & Hq). by injection Hq as _ <-. }
  injection Hprep as <- _. split; [|done]. constructor; try done; by apply clear_fresh.
Qed.

Lemma status_text_line status : 100 <= status < 1000 ->
  is_text (status_text status) /\ exists n, vtm_fmt_int true status = Some (n, status_text status).
Proof.
  intros Hs. assert (Forall (fun s => is_line (status_text s) /\ is_Some (vtm_fmt_int true s)) (seqZ 100 900)) as H
    by (apply (bool_decide_unpack _); vm_compute; reflexivity).
  rewrite Forall_forall in H. destruct (H status) as [Hl [[n t] Et]]; [apply elem_of_seqZ; lia|].
  split; [by apply line_text|]. exists n. unfold status_text. by rewrite Et.
Qed.

Lemma rep_intro r p :
  res_mode r = an_mode p -> res_act r = an_act p -> res_stage r = VTM_HTTP_RES_STAGE_HEADER ->
  res_body_se r = BodyNull -> an_body p = [] -> an_emt p = None -> fresh_read (res_buf r) ->
  buf_fresh (res_body_buf r) ->
  (buf_err (res_buf r) = VTM_OK -> buf_content (res_buf r) = an_begun p) -> res_rep r p.
Proof.
  intros Hm Ha Hst Hse Hbody Hemt Hb (Hbb & Hrb & Hc) Ht. constructor; auto.
  - by apply fresh_ok.
  - rewrite Hbody. destruct (is_chunked p); [done|]. split; [|done].
    by rewrite <- content_used_len, Hc by done.
  - by rewrite Hemt.
  - by rewrite Hemt.
  - intros He. split; [by apply Ht|]. by rewrite Hst.
  - unfold an_closed. rewrite bool_decide_eq_true_2, andb_false_r by done. done.
Qed.

Lemma begin_spec r mode status time_now now dt :
  res_fresh r -> 100 <= status < 1000 -> is_text dt ->
  vtm_http_fmt_date VTM_HTTP_DATE_LEN (vtm_date_now_utc time_now now).2 = Some (VTM_OK, dt) ->
  exists r1 rc, vtm_http_res_begin malloc_ok r mode status time_now now = Some (r1, rc) /\
    vtm_http_res_was_started r1 = true /\
    (rc = VTM_OK -> res_rep r1 (mk_answer (res_version r) mode status dt (res_act r) [] [] None) /\
                    buf_err (res_buf r1) = VTM_OK).
Proof.
  intros [Hst (Hb & Hrb & Hc) (Hbb & Hrbb & Hbc) Hse] Hs Hdt Hdate. unfold vtm_http_res_begin. rewrite Hst.
  destruct (status_text_line status Hs) as (Hst2 & n & ->).
  assert (exists v, vtm_http_get_version_string (res_version r) = Some v /\ is_text v) as (v & Ev & Hv).
  { destruct (res_version r); eexists; (split; [reflexivity|line]). }
  change (res_version (res_with_mode _ _)) with (res_version r). rewrite Ev. cbn [mbind option_bind].
  set (r0 := res_with_mode mode _).
  destruct (res_puts_spec r0 [v; [32]; status_text status; [32]; vtm_http_get_status_phrase status; CRLF])
    as (b1 & E1 & Hf1 & Ha1); [by apply fresh_ok|texts|].
  rewrite E1. clear E1. set (p0 := mk_answer (res_version r) mode status dt (res_act r) [] [] None).
  assert (buf_err b1 = VTM_OK -> buf_content b1 = status_line p0) as Hc1.
  { intros He. destruct (Ha1 He) as [_ ->]. change (res_buf r0) with (res_buf r). rewrite Hc.
    unfold status_line. cbn [an_version an_status p0 concat app]. by rewrite Ev, app_nil_r. }
  clear Ha1. cbv zeta. set (r1 := res_with_buf b1 r0). change (res_buf r1) with b1.
  destruct (Z.eqb_spec (buf_err b1) VTM_OK) as [He1|He1]; cbn [negb].
  2: { by exists r1, VTM_ERROR. }
  destruct (header_line_spec r1 VTM_HTTP_HEADER_SERVER VTM_BUILD_VERSION Hf1) as (b2 & -> & Hf2 & Ha2);
    [line|line|by left|].
  set (r2 := res_with_buf b2 _). assert (forall b, vtm_http_res_was_started (res_with_buf b r2) = true) as Hws by done.
  destruct (Z.eqb_spec (buf_err b2) VTM_OK) as [He2|He2]; cbn [negb].
  2: { by exists r2, (buf_err b2). }
  unfold vtm_http_res_set_date. destruct (vtm_date_now_utc time_now now) as [rcd d] eqn:Ed.
  assert (rcd = VTM_OK) as -> by (unfold vtm_date_now_utc in Ed; congruence). cbn [snd negb] in Hdate |- *.
  rewrite Z.eqb_refl. cbn [negb]. rewrite Hdate. cbn [mbind option_bind]. rewrite Z.eqb_refl. cbn [negb].
  destruct (header_spec r2 VTM_HTTP_HEADER_DATE dt) as (b3 & -> & Hf3 & Ha3); [done|line|done|done|].
  cbn [mbind option_bind]. change (res_with_buf b3 r2) with (res_with_buf b3 r2).
  destruct (Z.eqb_spec (buf_err b3) VTM_OK) as [He3|He3]; cbn [negb].
  2: { by exists (res_with_buf b3 r2), (buf_err b3). }
  pose proof (appended_trans _ _ _ _ _ Ha2 Ha3) as Ha23. change (res_buf r2) with b2 in Ha3.
  assert (forall b l, appended b3 b l -> buf_err b = VTM_OK ->
    buf_content b = status_line p0 ++ (header_line (VTM_HTTP_HEADER_SERVER, VTM_BUILD_VERSION) ++
      header_line (VTM_HTTP_HEADER_DATE, dt)) ++ l) as Hfin.
  { intros b l Hal He. destruct (appended_trans _ _ _ _ _ Ha23 Hal He) as [_ ->].
    change (buf_content (res_buf r1)) with (buf_content b1). by rewrite (Hc1 He1). }
  assert (forall b l, fresh_read b -> appended b3 b l -> buf_err b = VTM_OK ->
    an_begun p0 = status_line p0 ++ (header_line (VTM_HTTP_HEADER_SERVER, VTM_BUILD_VERSION) ++
      header_line (VTM_HTTP_HEADER_DATE, dt)) ++ l -> res_rep (res_with_buf b r2) p0) as Hrep.
  { intros b l Hf Hal He Hbg. apply rep_intro; try done. intros _. rewrite Hbg. by apply Hfin. }
  assert (an_begun p0 = status_line p0 ++ lines (std_fields p0)) as Hb0.
  { unfold an_begun, an_closed, an_head. cbn [p0 an_body an_fields].
    rewrite bool_decide_eq_true_2 by done. by rewrite andb_false_r, !app_nil_r. }
  destruct mode.
  - exists (res_with_buf b3 r2), (buf_err b3). split; [done|]. split; [done|]. intros _. split; [|done].
    apply (Hrep b3 []); [done|apply appended_refl|done|].
    rewrite Hb0. unfold std_fields, is_chunked, lines. cbn [p0 an_mode an_date map concat app]. by rewrite <- ?app_assoc.
  - destruct (header_spec (res_with_buf b3 r2) VTM_HTTP_HEADER_TRANSFER_ENCODING VTM_HTTP_VALUE_CHUNKED)
      as (b4 & -> & Hf4 & Ha4); [done|line|line|done|].
    exists (res_with_buf b4 r2), (buf_err b4). split; [done|]. split; [done|]. intros He4.
    split; [|done]. apply (Hrep b4 (header_line (VTM_HTTP_HEADER_TRANSFER_ENCODING, VTM_HTTP_VALUE_CHUNKED)));
      [done|done|done|].
    rewrite Hb0. unfold std_fields, is_chunked, lines. cbn [p0 an_mode an_date map concat app].
    by rewrite <- ?app_assoc, app_nil_r.
Qed.

(** ** The end *)

Lemma end_fixed_spec r p :
  res_rep r p -> is_chunked p = false ->
  match vtm_http_res_end_fixed malloc_ok true r with
  | Some (r', rc) => rc = VTM_OK -> fresh_read (res_buf r') /\ res_body_se r' = res_body_se r /\
       (buf_err (res_buf r') = VTM_OK -> buf_content (res_buf r') = answer_text p)
  | None => refused malloc_ok
  end.
Proof.
  intros [Hm Ha Hst Hb Hbb Hcont Hse Hemt Ht Hcl] Hch. rewrite Hch in Hcont. destruct Hcont as [Hus Hcont].
  destruct Hst as [Hst|[_ Hx]]; [|congruence]. unfold vtm_http_res_end_fixed. rewrite Hse.
  assert (exists rc len, match match an_emt p with Some se => BodySe se | None => BodyNull end with
    | BodyNull => Some (VTM_OK, buf_used (res_body_buf r))
    | BodySe chain => Some match vtm_socket_emitter_get_chain_lensum chain with
        | (rc, Some chain_len) => (rc, buf_used (res_body_buf r) +sz chain_len)
        | (rc, None) => (rc, buf_used (res_body_buf r)) end
    | BodyFreed => None end = Some (rc, len) /\ (rc = VTM_OK -> len = an_length p)) as (rc & len & -> & Hlen).
  { unfold an_length. rewrite <- Hus. destruct (an_emt p) as [se|]; [|by do 2 eexists].
    unfold vtm_socket_emitter_get_chain_lensum. destruct (chain_lensum_loop se 0) as [rc [n|]] eqn:El.
    - by do 2 eexists.
    - exists rc, (buf_used (res_body_buf r)). split; [done|]. intros ->.
      assert (forall c sum, chain_lensum_loop c sum <> (VTM_OK, None)) as Hn; [|by apply Hn in El].
      clear. induction c; intros sum; cbn [chain_lensum_loop]; [done|]. cbv zeta. by case_match. }
  cbn [mbind option_bind]. destruct (Z.eqb_spec rc VTM_OK) as [Hrc|Hrc]; cbn [negb]; [|done].
  specialize (Hlen Hrc). subst len.
  destruct (header_spec r VTM_HTTP_HEADER_CONTENT_LENGTH (printf_d (an_length p)) Hb) as (b1 & -> & Hf1 & Ha1);
    [line|apply line_text, printf_d_line|done|].
  destruct (Z.eqb_spec (buf_err b1) VTM_OK) as [He1|He1]; cbn [negb]; [|done].
  destruct (close_headers_spec (res_with_buf b1 r)) as (b2 & -> & Hf2 & Ha2); [done|done|].
  cbn [res_with_buf res_buf res_act res_body_buf] in *. rewrite Ha in Ha2.
  destruct (Z.eqb_spec (buf_err b2) VTM_OK) as [He2|He2]; cbn [negb]; [|done].
  pose proof (appended_trans _ _ _ _ _ Ha1 Ha2) as Ha12.
  assert (an_closed p = false) as Hop by (unfold an_closed; by rewrite Hch).
  assert (forall b, appended (res_buf r) b ((header_line (VTM_HTTP_HEADER_CONTENT_LENGTH, printf_d (an_length p)) ++
    lines (con_fields (an_act p)) ++ CRLF) ++ concat (an_body p)) -> buf_err b = VTM_OK ->
    buf_content b = answer_text p) as Hfin.
  { intros b Hal He. destruct (Hal He) as [He0 ->]. destruct (Ht He0) as [-> _].
    unfold an_begun, answer_text. rewrite Hop, Hch, app_nil_r, lines_one. by rewrite <- !app_assoc. }
  destruct Hbb as (Hbb & Hr0 & Hlost).
  destruct (Z.ltb_spec 0 (buf_used (res_body_buf r))) as [Hu|Hu].
  - unfold buf_bytes. destruct Hbb as [Hbb|Hbb].
    2: { rewrite decide_True by apply Hbb. by apply Hlost. }
    rewrite decide_False by apply Hbb. cbn [mbind option_bind]. rewrite <- content_used, Hcont by done.
    destruct (putm_rep malloc_ok b2 (concat (an_body p)) Hf2) as (Hf3 & Ha3 & _).
    { rewrite <- Hcont by done. split; [by apply buf_content_bytes|].
      rewrite buf_content_len by done. buf_sizes. unfold SIZE_MAX. lia. }
    intros _. split; [done|]. split; [by rewrite <- Hse|].
    apply Hfin. by eapply appended_trans.
  - intros _. split; [done|]. split; [by rewrite <- Hse|].
    cbn [res_with_buf res_buf]. apply Hfin.
    assert (concat (an_body p) = []) as ->.
    { apply length_zero_iff_nil. unfold zlen in Hus. lia. }
    by rewrite app_nil_r.
Qed.

Lemma end_chunked_spec r p :
  res_rep r p -> is_chunked p = true ->
  exists r' rc, vtm_http_res_end_chunked malloc_ok r = (r', rc) /\
    (rc = VTM_OK -> fresh_read (res_buf r') /\ res_body_se r' = res_body_se r /\ buf_err (res_buf r') = VTM_OK /\
       (buf_err (res_buf r') = VTM_OK -> buf_content (res_buf r') = answer_text p)).
Proof.
  intros [Hm Ha Hst Hb Hbb Hcont Hse Hemt Ht Hcl] Hch. unfold vtm_http_res_end_chunked.
  assert (is_text []) as Hnil by line.
  destruct Hst as [Hst|[Hst _]]; rewrite Hst.
  - destruct (close_headers_spec r Hb Hst) as (b1 & -> & Hf1 & Ha1). rewrite Ha in Ha1.
    destruct (Z.eqb_spec (buf_err b1) VTM_OK) as [He1|He1]; cbn [negb]; [|by do 2 eexists].
    destruct (write_chunked_spec (res_with_buf b1 r) []) as (b2 & -> & Hf2 & Ha2); [done|done|].
    do 2 eexists. split; [done|]. intros Hrc. cbn [res_with_buf res_buf res_body_se] in *. split; [done|].
    split; [done|]. split; [done|]. intros He. destruct (appended_trans _ _ _ _ _ Ha1 Ha2 He) as [He0 ->].
    destruct (Ht He0) as [-> Hcl2].
    assert (an_closed p = false) as Hop.
    { apply not_true_is_false. intros Hx. apply Hcl in Hx. congruence. }
    unfold an_begun, answer_text. rewrite Hop, Hch. unfold an_closed in Hop. rewrite Hch in Hop.
    cbn [andb] in Hop. apply negb_false_iff, bool_decide_eq_true in Hop. rewrite Hop.
    cbn [map concat app]. by rewrite app_nil_r, <- !app_assoc.
  - rewrite Z.eqb_refl. cbn [negb].
    destruct (write_chunked_spec r [] Hb Hnil) as (b2 & -> & Hf2 & Ha2).
    do 2 eexists. split; [done|]. intros Hrc. cbn [res_with_buf res_buf res_body_se] in *. split; [done|].
    split; [done|]. split; [done|]. intros He. destruct (Ha2 He) as [He0 ->]. destruct (Ht He0) as [-> Hcl2].
    unfold an_begun, answer_text. rewrite Hch, Hcl2 by done. by rewrite <- !app_assoc.
Qed.

End ops.

(** ** Sending *)

Section sending.
Context {OS SA : Type} (sys : sys_net OS) (sent : Z -> OS -> bytes) `{!SendLaws sys sent}.
Context (ok : bool) (rest : vtm_socket_vtable OS SA).
Abbreviation vt := (vtm_socket_plain_vtable sys ok rest).

Lemma res_send_spec r p s os :
  buf_ok (res_buf r) -> buf_read (res_buf r) = 0 ->
  res_body_se r = match an_emt p with Some se => BodySe se | None => BodyNull end ->
  match an_emt p with Some se => se <> [] /\ Forall mem_emitter se | None => True end ->
  VTM_SOCKET_IS_CLOSED s = false ->
  exists rc r' se s' os', vtm_http_res_send vt true r s os = Some (rc, r', se, s', os') /\
    res_buf r' = res_buf r /\ VTM_SOCKET_IS_CLOSED s' = false /\ s_fd s' = s_fd s /\
    Forall mem_emitter (default [] se) /\ (se = None \/ chain_pending (default [] se) <> []) /\
    (rc = VTM_OK -> vtm_http_res_was_sent r' = true /\
       sent (s_fd s) os' ++ chain_pending (default [] se)
       = sent (s_fd s) os ++ buf_content (res_buf r) ++ chain_pending (default [] (an_emt p))).
Proof.
  intros Hb Hr0 Hse Hemt Hopen. unfold vtm_http_res_send, vtm_socket_emitter_for_buffer. cbn [negb].
  unfold buf_bytes. rewrite decide_False by apply Hb. cbn [mbind option_bind]. rewrite <- content_used by done.
  set (c := buf_content (res_buf r)). set (h := mk_emitter (zlen c) (EmtBuf c 0 false)).
  assert (mem_emitter h) as Hh.
  { unfold mem_emitter, h, c. cbn [se_emt se_length]. split; [done|].
    rewrite buf_content_len by done. buf_sizes. unfold SIZE_MAX. lia. }
  assert (match res_body_se r with BodyNull => Some [] | BodySe chain => Some chain | BodyFreed => None end
          = Some (default [] (an_emt p))) as ->.
  { rewrite Hse. by destruct (an_emt p). }
  assert (Forall mem_emitter (h :: default [] (an_emt p))) as Hall.
  { constructor; [done|]. destruct (an_emt p); [apply Hemt|constructor]. }
  destruct (chain_try_write sys sent ok rest (h :: default [] (an_emt p)) s os ltac:(done) Hall Hopen)
    as (rc & chain' & freed & s' & os' & n & E & [[[Hrc Hc']|[Hrc Hc']] _] & Hm & Ho' & Hfd & Hsent & Hok & Hag & Her);
    cbn [mbind option_bind]; rewrite E; cbn [mbind option_bind].
  - subst rc. rewrite Z.eqb_refl. do 5 eexists. split; [reflexivity|]. cbn [default from_option id].
    split; [done|]. split; [done|]. split; [done|]. split; [done|]. split; [by left|]. intros _.
    split; [done|]. rewrite Hsent, ztake_all by (rewrite Hok; lia || done).
    cbn [chain_pending map concat]. by rewrite app_nil_r.
  - rewrite (proj2 (Z.eqb_neq rc VTM_OK)) by done.
    destruct (Z.eqb_spec rc VTM_E_IO_AGAIN) as [Ea|Ea].
    + do 5 eexists. split; [reflexivity|]. cbn [default from_option id].
      split; [done|]. split; [done|]. split; [done|]. split; [done|].
      destruct (Hag Ea) as [Hp Hn]. split.
      { right. intros Hx. rewrite Hx in Hp. apply (f_equal zlen) in Hp.
        rewrite zlen_zdrop in Hp by lia. change (zlen (A:=Z) []) with 0 in Hp. lia. }
      intros _. split; [done|]. rewrite Hsent, Hp, <- app_assoc, ztake_zdrop. done.
    + do 5 eexists. split; [reflexivity|]. cbn [default from_option id].
      split; [done|]. split; [done|]. split; [done|]. split; [constructor|]. split; [by left|].
      intros Hx. done.
Qed.

(** The end of a response. *)
Lemma res_end_spec malloc_ok r p s os :
  res_rep malloc_ok r p -> VTM_SOCKET_IS_CLOSED s = false ->
  match vtm_http_res_end malloc_ok vt true true r s os with
  | Some (rc, r3, se, s', os') =>
      rc = VTM_OK -> vtm_http_res_was_sent r3 = true /\
        (an_mode p = VTM_HTTP_RES_MODE_CHUNKED \/ buf_err (res_buf r3) = VTM_OK ->
         sent (s_fd s) os' ++ chain_pending (default [] se)
         = sent (s_fd s) os ++ answer_text p ++ chain_pending (default [] (an_emt p)))
  | None => an_mode p = VTM_HTTP_RES_MODE_FIXED /\ refused malloc_ok
  end.
Proof.
  intros Hr Hopen. pose proof Hr as [Hm _ Hst _ _ _ Hse Hemt _ _]. unfold vtm_http_res_end. rewrite Hm.
  assert (match match an_mode p with
      | VTM_HTTP_RES_MODE_FIXED => vtm_http_res_end_fixed malloc_ok true r
      | VTM_HTTP_RES_MODE_CHUNKED => Some (vtm_http_res_end_chunked malloc_ok r) end with
    | Some (r3, rc) => rc = VTM_OK -> fresh_read malloc_ok (res_buf r3) /\ res_body_se r3 = res_body_se r /\
        (an_mode p = VTM_HTTP_RES_MODE_CHUNKED -> buf_err (res_buf r3) = VTM_OK) /\
        (buf_err (res_buf r3) = VTM_OK -> buf_content (res_buf r3) = answer_text p)
    | None => an_mode p = VTM_HTTP_RES_MODE_FIXED /\ refused malloc_ok end) as H3.
  { destruct (an_mode p) eqn:Em.
    - pose proof (end_fixed_spec malloc_ok r p Hr ltac:(unfold is_chunked; by rewrite Em)) as H.
      destruct (vtm_http_res_end_fixed malloc_ok true r) as [[r3 rc]|]; [|done].
      intros Hrc. by destruct (H Hrc) as (? & ? & ?).
    - destruct (end_chunked_spec malloc_ok r p Hr ltac:(unfold is_chunked; by rewrite Em)) as (r3 & rc & -> & H).
      intros Hrc. by destruct (H Hrc) as (? & ? & ? & ?). }
  destruct (match an_mode p with VTM_HTTP_RES_MODE_FIXED => _ | _ => _ end) as [[r3 rc]|];
    [|by destruct Hst as [-> | [-> _]]].
  assert (res_stage r <> VTM_HTTP_RES_STAGE_UNINITIALZED /\ res_stage r <> VTM_HTTP_RES_STAGE_COMPLETED) as [Hs1 Hs2]
    by (by destruct Hst as [-> | [-> _]]).
  destruct (res_stage r); try done; cbn [mbind option_bind]; clear Hst Hs1 Hs2;
    (destruct (Z.eqb_spec rc VTM_OK) as [Hrc|Hrc]; cbn [negb]; [|done]);
    destruct (H3 Hrc) as ((Hlive & Hr0 & Hlost) & Hse3 & Hck & Ht3); rewrite Hse in Hse3;
    (destruct Hlive as [Hb|Hb];
     [|unfold vtm_http_res_send, buf_bytes; cbn [vtm_socket_emitter_for_buffer negb];
       rewrite decide_True by apply Hb; split; [|by apply Hlost];
       destruct (an_mode p); [done|by destruct (lost_not_ok _ Hb); apply Hck]]);
    destruct (res_send_spec r3 p s os Hb Hr0 Hse3 Hemt Hopen)
      as (rc4 & r4 & se & s' & os' & -> & Hb4 & _ & _ & _ & _ & H4);
    intros Hrc4; destruct (H4 Hrc4) as [Hw ->];
    (split; [done|]); rewrite Hb4; (intros [He|He]; [apply Hck in He|]); by rewrite (Ht3 He).
Qed.

Lemma answer_run_mode calls : forall codes p, an_mode (answer_run calls codes p) = an_mode p.
Proof.
  induction calls as [|c calls IH]; intros [|rc codes] p; try done. cbn [answer_run]. rewrite IH.
  destruct (rc =? VTM_OK); [|done]. destruct c; cbn [answer_call]; by repeat case_match.
Qed.

End sending.

(** ** A response, and the date *)

Definition demo_tm : c_tm := mk_tm 118 10 4 0 307 9 5 7.
Definition demo_date : bytes := cstr_of "Sun, 4 Nov 2018 09:05:07 GMT"%string.

Lemma demo_date_text :
  vtm_http_fmt_date VTM_HTTP_DATE_LEN (vtm_date_now_utc 1541322307 demo_tm).2 = Some (VTM_OK, demo_date).
Proof. by vm_compute. Qed.

Definition demo_new : vtm_http_res :=
  mk_res 0 VTM_HTTP_VER_1_0 VTM_HTTP_RES_MODE_FIXED VTM_HTTP_RES_STAGE_UNINITIALZED
    VTM_HTTP_RES_ACT_CLOSE_CON 0 (vtm_buf_init VTM_BYTEORDER_LE) (vtm_buf_init VTM_BYTEORDER_LE) BodyNull.
Definition demo_req : vtm_http_req := mk_req VTM_HTTP_METHOD_GET VTM_HTTP_VER_1_1 None None None 7.
Definition demo_prepared : vtm_http_res :=
  mk_res 7 VTM_HTTP_VER_1_1 VTM_HTTP_RES_MODE_FIXED VTM_HTTP_RES_STAGE_UNINITIALZED
    VTM_HTTP_RES_ACT_KEEP_CON 0 (vtm_buf_init VTM_BYTEORDER_LE) (vtm_buf_init VTM_BYTEORDER_LE) BodyNull.

Definition demo_calls : list res_call :=
  [CHeader (cstr_of "Content-Type"%string) (cstr_of "text/plain"%string);
   CBody (cstr_of "Hello"%string); CBody (cstr_of " you"%string);
   CHeader (cstr_of "X"%string) (cstr_of "y"%string)].

(** The second header is refused when the first chunk was written. *)
Definition demo_answer mode : answer :=
  mk_answer VTM_HTTP_VER_1_1 mode 200 demo_date VTM_HTTP_RES_ACT_KEEP_CON
    ([(cstr_of "Content-Type"%string, cstr_of "text/plain"%string)] ++
     match mode with VTM_HTTP_RES_MODE_FIXED => [(cstr_of "X"%string, cstr_of "y"%string)] | _ => [] end)
    [cstr_of "Hello"%string; cstr_of " you"%string] None.

Definition demo_run mode : option (Z * list Z * Z * bytes) :=
  '(r1, rc1) ← vtm_http_res_begin (fun _ => true) demo_prepared mode 200 1541322307 demo_tm;
  let '(r2, codes) := res_run (fun _ => true) demo_calls r1 in
  '(rc, r3, se, s, os) ← vtm_http_res_end (fun _ => true) (vtm_socket_plain_vtable script_sys true demo_vtable)
     true true r2 demo_sock (mk_script [100] []);
  Some (rc1, codes, rc, wire os ++ chain_pending (default [] se)).

(** The peer takes a hundred bytes, the rest stays with the connection. *)
Example demo_run_fixed :
  demo_run VTM_HTTP_RES_MODE_FIXED
  = Some (VTM_OK, [VTM_OK; VTM_OK; VTM_OK; VTM_OK], VTM_OK, answer_text (demo_answer VTM_HTTP_RES_MODE_FIXED)).
Proof. by vm_compute. Qed.

Example demo_run_chunked :
  demo_run VTM_HTTP_RES_MODE_CHUNKED
  = Some (VTM_OK, [VTM_OK; VTM_OK; VTM_OK; VTM_ERROR], VTM_OK, answer_text (demo_answer VTM_HTTP_RES_MODE_CHUNKED)).
Proof. by vm_compute. Qed.


(** Defect.  A body of 900 bytes, and no memory for anything beyond the arrays:
    every call of the application returns VTM_OK.  vtm_http_res_end does not look
    at the code of the copy of the body behind the head (http_response.c:310-311),
    for which the buffer of the head has to grow; it goes on to send from NULL. *)
Theorem response_oom_null :
  exists r1 r2, vtm_http_res_begin (fun _ => false) demo_prepared VTM_HTTP_RES_MODE_FIXED 200 1541322307 demo_tm
      = Some (r1, VTM_OK) /\
    res_run (fun _ => false) [CBody (repeat 65 900)] r1 = (r2, [VTM_OK]) /\
    vtm_http_res_end (fun _ => false) (vtm_socket_plain_vtable script_sys true demo_vtable)
      true true r2 demo_sock (mk_script [100] []) = None.
Proof. do 2 eexists. split; [by vm_compute|]. split; [by vm_compute|]. by vm_compute. Qed.
