(* ===== verification/ResponseRoom.v ===== *)
(** * ResponseRoom: with enough memory no call for a response fails

    ResponseProps.v describes what a response holds when its calls succeed.  Here
    the allocator gives what it is asked for and the text is far below the
    largest size: then every call succeeds that the stage of the response
    allows (net/http/http_response.c). *)

From S2P Require Import Prelude Base Buffer Format Str Elem Hash Heap Table Smap.
From S2P Require Import Dataset Http Socket Emitter HttpResponse ResponseProps.

(** The largest text of which we speak. *)
Definition ROOM : Z := 2 ^ 61.

(** A buffer without an error, with at most [n] bytes. *)
Definition room (b : vtm_buf) (n : Z) : Prop := buf_ok b /\ buf_err b = VTM_OK /\ buf_used b <= n.

Definition res_room (r : vtm_http_res) (n : Z) : Prop := room (res_buf r) n /\ room (res_body_buf r) n.

Lemma room_le b n m : room b n -> n <= m -> room b m.
Proof. intros (? & ? & ?) ?. split_and!; try done. lia. Qed.

Lemma res_room_le r n m : res_room r n -> n <= m -> res_room r m.
Proof. intros [? ?] ?. split; by eapply room_le. Qed.

Lemma room_with_buf r b n : room b n -> res_room r n -> res_room (res_with_buf b r) n.
Proof. intros Hb [_ Hbb]. by split. Qed.

Section Room.
Context (malloc_ok : Z -> bool) (Hmalloc : forall n, malloc_ok n = true).

Lemma make_room_ok b n k :
  room b n -> 0 <= k -> n + k <= ROOM ->
  let b' := if VTM_BUF_PUT_AVAIL b k then b else vtm_buf_grow malloc_ok b k in
  room b' n /\ buf_used b' = buf_used b /\ buf_used b + k <= buf_len b'.
Proof.
  intros (Hb & He & Hu) Hk Hn b'. unfold ROOM in Hn.
  assert (is_size k) as Hs by (buf_sizes; unfold is_size, SIZE_MAX; lia).
  destruct (make_room_kept malloc_ok Hmalloc b k Hb Hs) as (Hb' & _ & _ & Hu' & _ & Hr). fold b' in Hb', Hu', Hr.
  assert (buf_err b' = VTM_OK) as He'.
  { subst b'. pose proof (put_avail_spec b k Hb Hs) as Ha. destruct (VTM_BUF_PUT_AVAIL b k); [done|].
    assert (buf_len b < 2 ^ 61) as Hlen.
    { destruct (Z.leb_spec (buf_used b + k) (buf_len b)); [by apply Ha in H|]. lia. }
    destruct (vtm_buf_grow_spec malloc_ok b k Hb Hs); cbn [buf_with_block buf_with_err buf_lose buf_err]; try done.
    1,2: by rewrite Hmalloc in *.
    - buf_sizes. lia. }
  destruct (Hr He') as [Hroom _]. split_and!; [split_and!|..]; try done; lia.
Qed.

Lemma putm_room b n src :
  room b n -> is_text src -> n + zlen src <= ROOM ->
  room (vtm_buf_putm malloc_ok b src).1 (n + zlen src) /\ (vtm_buf_putm malloc_ok b src).2 = VTM_OK.
Proof.
  intros Hb [Hs Hl] Hn. pose proof (zlen_nonneg src).
  destruct (make_room_ok b n (zlen src) Hb ltac:(lia) Hn) as ((Hb1 & He1 & Hu1) & Hu & Hroom).
  unfold vtm_buf_putm, vtm_buf_puto. set (b1 := if VTM_BUF_PUT_AVAIL _ _ then _ else _) in *.
  rewrite He1, Z.eqb_refl. cbn [negb fst snd].
  pose proof (putm_kept malloc_ok Hmalloc b src (proj1 Hb) Hs ltac:(split; [lia|done])) as P.
  unfold vtm_buf_putm, vtm_buf_puto in P. fold b1 in P. rewrite He1, Z.eqb_refl in P. cbn [negb fst] in P.
  unfold buf_stored in *. rewrite decide_False in P |- * by apply Hb1. cbn [fst buf_with_data buf_err].
  assert (buf_used b1 +sz zlen src = buf_used b1 + zlen src) as Ez.
  { apply u64_small. buf_sizes. zlia. }
  split; [|done]. split_and!; [done|done|]. cbn [buf_with_data buf_used]. rewrite Ez, Hu.
  destruct Hb as (_ & _ & Hx). lia.
Qed.

Fixpoint texts_len (l : list bytes) : Z := match l with [] => 0 | t :: l => zlen t + texts_len l end.

Lemma puts_room texts : forall b n,
  room b n -> Forall is_text texts -> n + texts_len texts <= ROOM ->
  room (fold_left (fun b t => (vtm_buf_puts malloc_ok b t).1) texts b) (n + texts_len texts).
Proof.
  induction texts as [|t texts IH]; intros b n Hb Ht Hn; cbn [fold_left texts_len] in *.
  - by rewrite Z.add_0_r.
  - apply Forall_cons in Ht as [Ht Hts].
    assert (forall l, 0 <= texts_len l) as Hp.
    { induction l as [|x l IHl]; cbn [texts_len]; [lia|]. pose proof (zlen_nonneg x). lia. }
    pose proof (Hp texts). pose proof (zlen_nonneg t). rewrite Z.add_assoc.
    apply IH; [|done|lia]. by apply putm_room; [..|lia].
Qed.

Lemma res_puts_room r n texts :
  res_room r n -> Forall is_text texts -> n + texts_len texts <= ROOM -> 0 <= texts_len texts ->
  res_room (res_puts malloc_ok r texts) (n + texts_len texts).
Proof.
  intros [Hb Hbb] Ht Hn Hp. split; [by apply puts_room|]. eapply room_le; [exact Hbb|lia].
Qed.

Lemma room_err r n : res_room r n -> buf_err (res_buf r) = VTM_OK.
Proof. by intros [(_ & He & _) _]. Qed.

(** A header, if the head is still open. *)
Lemma header_room r n name v :
  res_room r n -> is_text name -> is_text v -> n + zlen name + zlen v + 4 <= ROOM ->
  res_room (vtm_http_res_header malloc_ok r name v).1 (n + zlen name + zlen v + 4) /\
  (res_stage r = VTM_HTTP_RES_STAGE_HEADER_OR_BODY \/ res_stage r = VTM_HTTP_RES_STAGE_HEADER ->
   (vtm_http_res_header malloc_ok r name v).2 = VTM_OK).
Proof.
  intros Hr Hn Hv Hl. pose proof (zlen_nonneg name). pose proof (zlen_nonneg v). unfold vtm_http_res_header.
  assert (res_room (res_puts malloc_ok (res_with_stage VTM_HTTP_RES_STAGE_HEADER r) [name; [58; 32]; v; CRLF])
    (n + zlen name + zlen v + 4)) as Hr'.
  { replace (n + zlen name + zlen v + 4) with (n + texts_len [name; [58; 32]; v; CRLF])
      by (cbn [texts_len]; change (zlen [58; 32]) with 2; change (zlen CRLF) with 2; lia).
    apply res_puts_room; [exact Hr|texts| |]; cbn [texts_len]; change (zlen [58; 32]) with 2;
      change (zlen CRLF) with 2; lia. }
  destruct (res_stage r) eqn:Es; cbn [fst snd];
    (split; [|intros [?|?]; try done; by eapply room_err]); try done; (eapply res_room_le; [exact Hr|lia]).
Qed.

Lemma close_room r n :
  res_room r n -> n + 100 <= ROOM ->
  res_room (vtm_http_res_close_headers malloc_ok r).1 (n + 100) /\
  (vtm_http_res_close_headers malloc_ok r).2 = VTM_OK.
Proof.
  intros Hr Hn. unfold vtm_http_res_close_headers.
  assert (forall r', res_room r' (n + 98) ->
    let '(b, rc) := vtm_buf_puts malloc_ok (res_buf r') CRLF in
    res_room (res_with_buf b r') (n + 100) /\ rc = VTM_OK) as Hend.
  { intros r' [Hb Hbb]. destruct (putm_room (res_buf r') (n + 98) CRLF Hb) as [Hb' Hrc]; [line|change (zlen CRLF) with 2; lia|].
    unfold vtm_buf_puts. destruct (vtm_buf_putm malloc_ok (res_buf r') CRLF) as [b rc]. cbn [fst snd] in *.
    change (zlen CRLF) with 2 in Hb'. split; [|done].
    split; [|eapply room_le; [exact Hbb|lia]]. cbn [res_with_buf res_buf]. eapply room_le; [exact Hb'|lia]. }
  assert (forall v, is_text v -> zlen v <= 20 ->
    res_room (vtm_http_res_header malloc_ok r VTM_HTTP_HEADER_CONNECTION v).1 (n + 98)) as Hh.
  { intros v Hv Hl. destruct (header_room r n VTM_HTTP_HEADER_CONNECTION v Hr) as [H _]; [line|done| |].
    - change (zlen VTM_HTTP_HEADER_CONNECTION) with 10. lia.
    - change (zlen VTM_HTTP_HEADER_CONNECTION) with 10 in H. eapply res_room_le; [exact H|lia]. }
  assert (res_room r (n + 98)) as Hr0 by (eapply res_room_le; [exact Hr|lia]).
  destruct (res_act r); match goal with |- context [vtm_buf_puts _ (res_buf ?r') _] => specialize (Hend r') end;
    destruct (vtm_buf_puts malloc_ok _ CRLF) as [b rc]; apply Hend; try done; apply Hh; (line || by vm_compute).
Qed.

Lemma chunk_room r n src :
  res_room r n -> is_text src -> n + zlen src + 30 <= ROOM ->
  res_room (vtm_http_res_write_chunked malloc_ok r src).1 (n + zlen src + 30) /\
  (vtm_http_res_write_chunked malloc_ok r src).2 = VTM_OK.
Proof.
  intros [Hb Hbb] Hs Hn. pose proof (zlen_nonneg src). destruct (hex_size_spec (zlen src)) as (E1 & Hl & Hh).
  { destruct Hb as (Hb & _ & Hu). buf_sizes. unfold ROOM in Hn. lia. }
  unfold vtm_http_res_write_chunked, vtm_buf_ensure. unfold hex_text in *.
  destruct (vtm_fmt_hex_size false (zlen src)) as [k t]. cbn [fst] in E1. subst k.
  destruct (vtm_fmt_hex_size true (zlen src)) as [k hx]. cbn [snd] in *.
  destruct (make_room_ok (res_buf r) n (zlen hx) Hb) as ((Hb1 & He1 & Hu1) & Hu & Hroom); [lia|lia|].
  set (b1 := if VTM_BUF_PUT_AVAIL _ _ then _ else _) in *. cbv zeta. rewrite He1, Z.eqb_refl. cbn [negb].
  destruct (buf_store_spec b1 hx (buf_used b1 + zlen hx) Hb1 Hh) as (Es & Hb2 & _); [lia|done|].
  assert (VTM_BUF_PUT_INC b1 hx
    = buf_with_data b1 (splice (buf_used b1) hx (buf_data b1)) (buf_used b1 + zlen hx)) as ->.
  { unfold VTM_BUF_PUT_INC. rewrite u64_small by (buf_sizes; zlia). exact Es. }
  rewrite Es in Hb2. set (b2 := buf_with_data _ _ _) in *.
  assert (res_room (res_puts malloc_ok (res_with_buf b2 r) [CRLF; src; CRLF]) (n + zlen src + 30)) as Hr'.
  { apply (res_room_le _ (n + 20 + texts_len [CRLF; src; CRLF])).
    - apply res_puts_room; [|texts| |]; cbn [texts_len]; change (zlen CRLF) with 2; try lia.
      split; [|eapply room_le; [exact Hbb|lia]]. split_and!; [done|done|].
      cbn [b2 buf_with_data buf_used res_with_buf res_buf]. lia.
    - cbn [texts_len]. change (zlen CRLF) with 2. lia. }
  cbn [fst snd]. split; [done|]. by eapply room_err.
Qed.

(** What a call adds at most. *)
Definition call_size (c : res_call) : Z :=
  match c with
  | CHeader n v => zlen n + zlen v + 4
  | CBody d => zlen d + 130
  | CAct _ _ | CEmt _ => 0
  end.

Lemma call_size_nonneg c : 0 <= call_size c.
Proof.
  destruct c as [n v|d| |]; cbn [call_size]; try lia.
  - pose proof (zlen_nonneg n). pose proof (zlen_nonneg v). lia.
  - pose proof (zlen_nonneg d). lia.
Qed.

Lemma body_room r n d :
  res_room r n -> is_text d -> n + zlen d + 130 <= ROOM ->
  res_room (vtm_http_res_body_raw malloc_ok r d).1 (n + zlen d + 130).
Proof.
  intros Hr Hd Hn. pose proof (zlen_nonneg d). unfold vtm_http_res_body_raw.
  assert (res_room r (n + zlen d + 130)) as Hr0 by (eapply res_room_le; [exact Hr|lia]).
  assert (res_room (let '(b, rc) := vtm_buf_putm malloc_ok (res_body_buf r) d in (res_with_body b r, rc)).1
    (n + zlen d + 130)) as Hf.
  { destruct Hr as [Hb Hbb]. destruct (putm_room (res_body_buf r) n d Hbb Hd) as [Hb' _]; [lia|].
    destruct (vtm_buf_putm malloc_ok (res_body_buf r) d) as [b rc]. cbn [fst snd] in *. split; [apply Hr0|].
    cbn [res_with_body res_body_buf]. eapply room_le; [exact Hb'|lia]. }
  assert (res_room (vtm_http_res_write_chunked malloc_ok r d).1 (n + zlen d + 130)) as Hw.
  { destruct (chunk_room r n d Hr Hd) as [H' _]; [lia|]. eapply res_room_le; [exact H'|lia]. }
  assert (res_room (let '(r, rc) := vtm_http_res_close_headers malloc_ok r in
    let r := res_with_stage VTM_HTTP_RES_STAGE_BODY r in
    if negb (rc =? VTM_OK) then (r, rc) else vtm_http_res_write_chunked malloc_ok r d).1 (n + zlen d + 130)) as Hc.
  { destruct (close_room r n Hr) as [Hr1 Hrc]; [lia|].
    destruct (vtm_http_res_close_headers malloc_ok r) as [r1 rc]. cbn [fst snd] in *. subst rc.
    rewrite Z.eqb_refl. cbn [negb].
    destruct (chunk_room (res_with_stage VTM_HTTP_RES_STAGE_BODY r1) (n + 100) d) as [H' _]; [exact Hr1|done|lia|].
    eapply res_room_le; [exact H'|lia]. }
  destruct (res_stage r), (res_mode r); try done; case_decide; done.
Qed.

Lemma do_room r n c :
  res_room r n -> call_ok c -> n + call_size c <= ROOM -> res_room (res_do malloc_ok c r).1 (n + call_size c).
Proof.
  destruct c as [name v|d|act data|se]; cbn [call_ok call_size res_do]; intros Hr Hc Hn.
  - destruct Hc as [Hx Hy]. destruct (header_room r n name v Hr Hx Hy) as [H _]; [lia|].
    eapply res_room_le; [exact H|lia].
  - rewrite Z.add_assoc. apply body_room; [done|done|lia].
  - unfold vtm_http_res_set_action. rewrite Z.add_0_r. by destruct (stage_from_body _).
  - unfold vtm_http_res_body_emt. rewrite Z.add_0_r. by destruct (res_body_se r).
Qed.

Fixpoint calls_size (calls : list res_call) : Z :=
  match calls with [] => 0 | c :: calls => call_size c + calls_size calls end.

Lemma calls_size_nonneg calls : 0 <= calls_size calls.
Proof. induction calls as [|c calls IH]; cbn [calls_size]; [lia|]. pose proof (call_size_nonneg c). lia. Qed.

(** The answer that a sequence of calls describes. *)
Definition answer_of (calls : list res_call) (p : answer) : answer :=
  fold_left (fun p c => (answer_call c p).1) calls p.

(** Every call returns the code that the stage demands, and the response holds
    what the calls describe. *)
Lemma run_room calls : forall r p n,
  res_rep malloc_ok r p -> res_room r n -> Forall call_ok calls -> n + calls_size calls <= ROOM ->
  let r' := (res_run malloc_ok calls r).1 in
  res_room r' (n + calls_size calls) /\ res_rep malloc_ok r' (answer_of calls p).
Proof.
  induction calls as [|c calls IH]; intros r p n Hr Hroom Hc Hn; cbn [res_run calls_size answer_of fold_left] in *.
  - by rewrite Z.add_0_r.
  - apply Forall_cons in Hc as [Hc Hcs]. pose proof (calls_size_nonneg calls). pose proof (call_size_nonneg c).
    destruct (call_rep malloc_ok r p c Hr Hc) as [Hr1 Hcode].
    pose proof (do_room r n c Hroom Hc ltac:(lia)) as Hroom1.
    destruct (res_do malloc_ok c r) as [r1 rc]. cbn [fst snd] in *.
    assert (rc = (answer_call c p).2) as -> by (apply Hcode; apply Hroom1).
    assert (res_rep malloc_ok r1 (answer_call c p).1) as Hr1'.
    { destruct (Z.eqb_spec (answer_call c p).2 VTM_OK) as [|Hne]; [done|].
      assert ((answer_call c p).1 = p) as -> by (destruct c; cbn [answer_call] in *; by repeat case_match).
      done. }
    destruct (IH r1 _ (n + call_size c) Hr1' Hroom1 Hcs) as [H1 H2]; [lia|].
    destruct (res_run malloc_ok calls r1) as [r2 codes]. cbn [fst] in *. rewrite Z.add_assoc. by split.
Qed.

(** ** The beginning and the end *)

Lemma line_len l : is_line l -> zlen l <= 1000.
Proof. intros [_ H]. unfold zlen. lia. Qed.

Lemma phrase_len status : zlen (vtm_http_get_status_phrase status) <= 1000.
Proof.
  unfold vtm_http_get_status_phrase. destruct (find _ status_phrases) as [[c p]|] eqn:E; [|by vm_compute].
  apply find_some in E as [Hin _].
  assert (Forall (fun x => zlen (cstr_of x.2) <= 1000) status_phrases) as H
    by (apply (bool_decide_unpack _); vm_compute; reflexivity).
  rewrite Forall_forall in H. apply (H (c, p)). by apply list_elem_of_In.
Qed.

Lemma status_len status : 100 <= status < 1000 -> zlen (status_text status) <= 1000.
Proof.
  intros Hs. assert (Forall (fun s => zlen (status_text s) <= 1000) (seqZ 100 900)) as H
    by (apply (bool_decide_unpack _); vm_compute; reflexivity).
  rewrite Forall_forall in H. apply H, elem_of_seqZ. lia.
Qed.

Lemma res_puts_stage r l : res_stage (res_puts malloc_ok r l) = res_stage r.
Proof. done. Qed.

(** A header of at most 1100 bytes while the head is open. *)
Lemma open_header_room r m name val :
  res_room r m -> m <= 9000 -> is_text name -> is_text val -> zlen name + zlen val <= 1100 ->
  res_stage r = VTM_HTTP_RES_STAGE_HEADER_OR_BODY \/ res_stage r = VTM_HTTP_RES_STAGE_HEADER ->
  exists r', vtm_http_res_header malloc_ok r name val = (r', VTM_OK) /\ res_room r' (m + 1200) /\
    res_stage r' = VTM_HTTP_RES_STAGE_HEADER.
Proof.
  intros Hr Hm Hn Hv Hlen Hst.
  destruct (header_room r m name val Hr Hn Hv) as [H1 H2]; [unfold ROOM; lia|]. specialize (H2 Hst).
  exists (vtm_http_res_header malloc_ok r name val).1.
  split; [|split; [eapply res_room_le; [exact H1|lia]|]].
  - rewrite <- H2. apply surjective_pairing.
  - unfold vtm_http_res_header. by destruct Hst as [-> | ->].
Qed.

Lemma begin_room r mode status time_now now dt :
  res_fresh r -> res_room r 0 -> 100 <= status < 1000 -> is_line dt ->
  vtm_http_fmt_date VTM_HTTP_DATE_LEN (vtm_date_now_utc time_now now).2 = Some (VTM_OK, dt) ->
  exists r1, vtm_http_res_begin malloc_ok r mode status time_now now = Some (r1, VTM_OK) /\
    res_room r1 10000 /\
    res_rep malloc_ok r1 (mk_answer (res_version r) mode status dt (res_act r) [] [] None).
Proof.
  intros Hf Hroom Hs Hdt Hdate.
  destruct (begin_spec malloc_ok r mode status time_now now dt Hf Hs (line_text _ Hdt) Hdate) as (r1 & rc & E & _ & H).
  assert (rc = VTM_OK /\ res_room r1 10000) as [-> Hr1]; [|exists r1; split; [done|]; split; [done|by apply H]].
  revert E. unfold vtm_http_res_begin. rewrite (rf_stage _ Hf).
  destruct (status_text_line status Hs) as (Hst & n & En). rewrite En.
  assert (exists v, vtm_http_get_version_string (res_version r) = Some v /\ is_text v /\ zlen v <= 1000) as (v & Ev & Hv & Hvl).
  { destruct (res_version r); eexists; (split; [reflexivity|]); split; (line || by vm_compute). }
  change (res_version (res_with_mode _ _)) with (res_version r). rewrite Ev. cbn [mbind option_bind].
  set (r0 := res_with_mode mode _).
  set (l := [v; [32]; status_text status; [32]; vtm_http_get_status_phrase status; CRLF]).
  pose proof (status_len status Hs) as Hsl. pose proof (phrase_len status) as Hpl.
  pose proof (zlen_nonneg v). pose proof (zlen_nonneg (status_text status)).
  pose proof (zlen_nonneg (vtm_http_get_status_phrase status)).
  assert (0 <= texts_len l <= 4000) as Hl.
  { unfold l. cbn [texts_len]. change (zlen CRLF) with 2. change (zlen [32]) with 1. lia. }
  assert (res_room (res_puts malloc_ok r0 l) 4000) as Hr0.
  { eapply res_room_le; [apply (res_puts_room r0 0)|]; [exact Hroom|unfold l; texts|unfold ROOM; lia|lia|lia]. }
  rewrite (room_err _ _ Hr0), Z.eqb_refl. cbn [negb].
  destruct (open_header_room (res_puts malloc_ok r0 l) 4000 VTM_HTTP_HEADER_SERVER VTM_BUILD_VERSION) as (r2 & E2 & Hr2 & Hs2);
    [done|lia|line|line|by vm_compute|left; by rewrite res_puts_stage|]. rewrite E2, Z.eqb_refl. cbn [negb].
  unfold vtm_http_res_set_date. destruct (vtm_date_now_utc time_now now) as [drc date] eqn:Ed. cbn [snd] in Hdate.
  assert (drc = VTM_OK) as -> by (unfold vtm_date_now_utc in Ed; by injection Ed as <- _).
  rewrite Z.eqb_refl. cbn [negb]. rewrite Hdate. cbn [mbind option_bind]. rewrite Z.eqb_refl. cbn [negb].
  destruct (open_header_room r2 5200 VTM_HTTP_HEADER_DATE dt) as (r3 & E3 & Hr3 & Hs3); [done|lia|line|by apply line_text| |by right|].
  { pose proof (line_len _ Hdt). change (zlen VTM_HTTP_HEADER_DATE) with 4. lia. }
  rewrite E3. cbn [mbind option_bind]. rewrite Z.eqb_refl. cbn [negb].
  destruct mode.
  - intros [= <- <-]. split; [done|]. eapply res_room_le; [exact Hr3|lia].
  - destruct (open_header_room r3 6400 VTM_HTTP_HEADER_TRANSFER_ENCODING VTM_HTTP_VALUE_CHUNKED) as (r4 & E4 & Hr4 & Hs4);
      [done|lia|line|line|by vm_compute|by right|]. rewrite E4. intros [= <- <-]. split; [done|].
    eapply res_room_le; [exact Hr4|lia].
Qed.

(** The calls that end a response do not change what is to be done then. *)
Lemma header_act r name v : res_act (vtm_http_res_header malloc_ok r name v).1 = res_act r.
Proof. unfold vtm_http_res_header. by destruct (res_stage r). Qed.

Lemma close_act r : res_act (vtm_http_res_close_headers malloc_ok r).1 = res_act r.
Proof.
  unfold vtm_http_res_close_headers. destruct (vtm_buf_puts _ _ _) as [b rc]. cbn [fst res_with_buf res_act].
  destruct (res_act r) eqn:E; rewrite ?header_act; done.
Qed.

Lemma chunk_act r src : res_act (vtm_http_res_write_chunked malloc_ok r src).1 = res_act r.
Proof.
  unfold vtm_http_res_write_chunked. destruct (vtm_fmt_hex_size false _), (vtm_buf_ensure _ _ _) as [b rc].
  destruct (negb (rc =? VTM_OK)); [done|]. by destruct (vtm_fmt_hex_size true _).
Qed.

Lemma end_fixed_room r n :
  res_room r n -> res_stage r = VTM_HTTP_RES_STAGE_HEADER -> res_body_se r = BodyNull -> 2 * n + 4000 <= ROOM ->
  exists r', vtm_http_res_end_fixed malloc_ok true r = Some (r', VTM_OK) /\ res_room r' (2 * n + 4000) /\
    res_act r' = res_act r.
Proof.
  intros Hr Hst Hse Hn. assert (0 <= n) as Hn0 by (destruct Hr as [(Hb & _ & Hu) _]; buf_sizes; lia).
  unfold vtm_http_res_end_fixed. rewrite Hse. cbn [mbind option_bind].
  rewrite Z.eqb_refl. cbn [negb]. set (v := printf_d _).
  assert (is_line v) as Hv by apply printf_d_line. pose proof (line_len v Hv) as Hl. pose proof (zlen_nonneg v).
  destruct (header_room r n VTM_HTTP_HEADER_CONTENT_LENGTH v Hr) as [Hr1 Hrc1];
    [line|by apply line_text|change (zlen VTM_HTTP_HEADER_CONTENT_LENGTH) with 14; lia|].
  specialize (Hrc1 (or_intror Hst)). pose proof (header_act r VTM_HTTP_HEADER_CONTENT_LENGTH v) as Ha1.
  change (zlen VTM_HTTP_HEADER_CONTENT_LENGTH) with 14 in Hr1.
  destruct (vtm_http_res_header malloc_ok r VTM_HTTP_HEADER_CONTENT_LENGTH v) as [r1 rc1]. cbn [fst snd] in *.
  rewrite Hrc1, Z.eqb_refl. cbn [negb]. destruct (close_room r1 _ Hr1) as [Hr2 Hrc2]; [lia|].
  pose proof (close_act r1) as Ha2.
  destruct (vtm_http_res_close_headers malloc_ok r1) as [r2 rc2]. cbn [fst snd] in *.
  rewrite Hrc2, Z.eqb_refl. cbn [negb]. unfold buf_bytes. rewrite decide_False by apply Hr2.
  cbn [mbind option_bind]. set (body := ztake _ _).
  destruct (Z.ltb_spec 0 (buf_used (res_body_buf r2))) as [Hu|Hu].
  - destruct Hr2 as [Hb2 Hbb2]. assert (is_text body /\ zlen body <= n + 14 + zlen v + 4 + 100) as [Hbt Hbl].
    { destruct Hbb2 as (Hbb & _ & Hux). subst body. split; [split|].
      - apply Forall_take. by destruct Hbb.
      - buf_sizes. rewrite zlen_ztake; unfold SIZE_MAX; lia.
      - buf_sizes. rewrite zlen_ztake; lia. }
    destruct (putm_room (res_buf r2) _ body Hb2 Hbt) as [Hb3 _]; [lia|].
    eexists. split; [done|]. split; [|cbn [res_with_buf res_act]; congruence].
    split; cbn [res_with_buf res_buf res_body_buf]; (eapply room_le; [eassumption|lia]).
  - eexists. split; [done|]. split; [eapply res_room_le; [exact Hr2|lia]|congruence].
Qed.

Lemma end_chunked_room r n :
  res_room r n -> n + 200 <= ROOM ->
  exists r', vtm_http_res_end_chunked malloc_ok r = (r', VTM_OK) /\ res_room r' (n + 200) /\ res_act r' = res_act r.
Proof.
  intros Hr Hn. assert (is_text []) as Hnil by line. unfold vtm_http_res_end_chunked.
  assert (forall r1, res_room r1 (n + 100) -> res_act r1 = res_act r ->
    exists r', vtm_http_res_write_chunked malloc_ok r1 [] = (r', VTM_OK) /\ res_room r' (n + 200) /\
      res_act r' = res_act r) as Hlast.
  { intros r1 Hr1 Ha1. destruct (chunk_room r1 _ [] Hr1 Hnil) as [H1 H2]; [change (zlen (A:=Z) []) with 0; lia|].
    exists (vtm_http_res_write_chunked malloc_ok r1 []).1. change (zlen (A:=Z) []) with 0 in H1.
    split; [rewrite <- H2; apply surjective_pairing|]. split; [eapply res_room_le; [exact H1|lia]|].
    by rewrite chunk_act. }
  destruct (close_room r n Hr) as [Hr1 Hrc1]; [lia|]. pose proof (close_act r) as Ha1.
  destruct (vtm_http_res_close_headers malloc_ok r) as [r1 rc1]. cbn [fst snd] in *. subst rc1.
  assert (res_room r (n + 100)) as Hr0 by (eapply res_room_le; [exact Hr|lia]).
  destruct (res_stage r); change (negb (VTM_OK =? VTM_OK)) with false; cbn iota; by apply Hlast.
Qed.
End Room.
