(* ===== verification/ResponseWire.v ===== *)
(** * ResponseWire: a response and the parser that reads it

    What net/http/http_parser.c makes, in the mode RESPONSE, of the text that
    net/http/http_response.c sends: the lemmas on the status line and on chunks,
    and the round trip. *)

From stdpp Require Import gmap fin_sets.
From S2P Require Import Prelude Base Buffer Format Str Ws Elem Hash Heap Table.
From S2P Require Import Smap Dataset Http HttpParser HttpRequest Socket Emitter HttpResponse ResponseProps.

Ltac zl := autorewrite with vtm_len in *; lia.
(** The switch on a state that is known, and the parts of an environment. *)
Ltac sw := cbn [http_switch HttpRequest.at_byte e_par state].
Ltac atb := cbn [HttpRequest.at_byte e_par e_buf e_heap state_chars msg shared intl mode buf_read buf_data].
#[local] Hint Rewrite zlen_nil : vtm_len.

Section run.
Context (malloc_ok : Z -> bool) (printf_g : Z -> bytes) (mh mb : Z).
Context (ord : vtm_byteorder) (stc : buf_home) (len used err : Z).
Abbreviation RUN := (RUN malloc_ok printf_g VTM_HTTP_PM_RESPONSE mh mb ord stc len used err).
Abbreviation EV := (EV malloc_ok printf_g VTM_HTTP_PM_RESPONSE mh mb ord stc len used err).
Abbreviation at_byte := (at_byte VTM_HTTP_PM_RESPONSE mh mb ord stc len used err).
Abbreviation switch := (http_switch malloc_ok printf_g all_ok).
Abbreviation in_limits := (in_limits mh mb).

(** ** The status line *)

Lemma RUN_response_begin m sh i l h :
  in_limits [] ->
  RUN VTM_HTTP_PARSE_BEGIN 0 m sh i [] (72 :: l) h = RUN VTM_HTTP_PARSE_VERSION_H 0 m sh i [] (72 :: l) h.
Proof.
  intros Hlim. eapply (RUN_goto malloc_ok printf_g VTM_HTTP_PM_RESPONSE mh mb ord stc len used err
    VTM_HTTP_PARSE_BEGIN 0 m sh i [] 72 l h VTM_HTTP_PARSE_VERSION_H 1 m sh i h HNext); try done; lia.
Qed.

Lemma RUN_version_response m sh i v pre l h :
  version_major i = 0 -> version_minor i = 0 -> l <> [] -> in_limits (pre ++ version_text v ++ [32]) ->
  RUN VTM_HTTP_PARSE_VERSION_H 0 m sh i pre (version_text v ++ 32 :: l) h
  = RUN VTM_HTTP_PARSE_RES_STATUS_CODE 0 m (sh_version v sh) (in_version 1 (ver_minor v) i)
      (pre ++ version_text v ++ [32]) l h.
Proof.
  intros Hma Hmi Hl Hlim. rewrite app_assoc in Hlim |- *. pose proof (in_limits_app _ _ _ _ Hlim) as Hlim1.
  rewrite RUN_version_number by done.
  rewrite (RUN_next malloc_ok printf_g VTM_HTTP_PM_RESPONSE mh mb ord stc len used err
    _ _ _ _ _ _ _ _ _ VTM_HTTP_PARSE_RES_STATUS_CODE 2 m (sh_version v sh) (in_version 1 (ver_minor v) i) 32 h);
    [done | lia | done | done | by destruct v].
Qed.

(** A digit of the status code. *)
Lemma RUN_status_digit m sh i k d pre l h :
  0 <= k < 3 -> 48 <= d <= 57 -> 0 <= res_status_code m < 1000 -> l <> [] -> in_limits (pre ++ [d]) ->
  RUN VTM_HTTP_PARSE_RES_STATUS_CODE k m sh i pre (d :: l) h
  = RUN VTM_HTTP_PARSE_RES_STATUS_CODE (k + 1) (msg_code (res_status_code m * 10 + (d - 48)) m) sh i
      (pre ++ [d]) l h.
Proof.
  intros Hk Hd Hc Hl Hlim.
  rewrite (RUN_next malloc_ok printf_g VTM_HTTP_PM_RESPONSE mh mb ord stc len used err
    _ _ _ _ _ _ _ _ _ VTM_HTTP_PARSE_RES_STATUS_CODE (k + 1)
    (msg_code (res_status_code m * 10 + (d - 48)) m) sh i d h); [done | lia | done | done |].
  sw. unfold http_status_code. atb.
  rewrite (proj2 (Z.leb_le (k + 1) 3)) by lia. rewrite i8_small by lia.
  assert (isdigit d = true) as -> by (unfold isdigit; apply andb_true_intro; split; apply Z.leb_le; lia).
  cbn [negb]. assert (i32 (res_status_code m * 10 + (d - 48)) = res_status_code m * 10 + (d - 48)) as ->; [|done].
  apply swrap_small; lia.
Qed.

Lemma RUN_status m sh i d1 d2 d3 pre l h :
  48 <= d1 <= 57 -> 48 <= d2 <= 57 -> 48 <= d3 <= 57 -> res_status_code m = 0 -> l <> [] ->
  in_limits (pre ++ [d1; d2; d3; 32]) ->
  RUN VTM_HTTP_PARSE_RES_STATUS_CODE 0 m sh i pre (d1 :: d2 :: d3 :: 32 :: l) h
  = RUN VTM_HTTP_PARSE_RES_STATUS_MSG_CR 0
      (msg_code (((d1 - 48) * 10 + (d2 - 48)) * 10 + (d3 - 48)) m) sh (in_status (zlen pre + 4) i)
      (pre ++ [d1; d2; d3; 32]) l h.
Proof.
  intros H1 H2 H3 Hm Hl Hlim.
  assert (forall p, zlen p <= zlen pre + 4 -> in_limits p) as Hin
    by (intros p Hp; eapply in_limits_le; [|exact Hlim]; zl).
  destruct (in_limits_2_63 _ _ _ Hlim) as [_ Hb]. pose proof (zlen_nonneg pre).
  rewrite RUN_status_digit by (done || lia || (rewrite Hm; lia) || (apply Hin; zl)).
  rewrite RUN_status_digit by (done || lia || (cbn; rewrite Hm; lia) || (apply Hin; zl)).
  rewrite RUN_status_digit by (done || lia || (cbn; rewrite Hm; lia) || (apply Hin; zl)).
  set (m3 := msg_code _ _). rewrite <- !app_assoc. cbn [app].
  rewrite (RUN_next malloc_ok printf_g VTM_HTTP_PM_RESPONSE mh mb ord stc len used err
    _ _ _ _ _ _ _ _ _ VTM_HTTP_PARSE_RES_STATUS_MSG_CR 4 m3 sh (in_status (zlen pre + 4) i) 32 h);
    [| lia | apply Hin; zl | done |].
  - rewrite <- app_assoc. cbn [app]. f_equal. unfold m3. cbn. rewrite Hm. done.
  - sw. unfold http_status_code.
    atb. change (0 + 1 + 1 + 1 + 1 <=? 3) with false. change (i8 32 =? 32) with true.
    cbn [negb]. replace (zlen (pre ++ [d1; d2; d3]) + 1) with (zlen pre + 4) by zl. done.
Qed.

(** The status message. *)
Lemma RUN_phrase m sh i text pre l h :
  Forall (none_of [13]) text -> l <> [] -> in_limits (pre ++ text ++ [13; 10]) ->
  RUN VTM_HTTP_PARSE_RES_STATUS_MSG_CR 0 m sh i pre (text ++ 13 :: 10 :: l) h
  = RUN VTM_HTTP_PARSE_HEADER_LINE_BEGIN 0 (msg_status (Some (status_msg_begin i)) m) sh
      (in_header (zlen pre + zlen text + 2) (header_value_begin i) i) (pre ++ text ++ [0; 10]) l h.
Proof.
  intros Ht Hl Hlim.
  assert (forall p, zlen p <= zlen pre + zlen text + 2 -> in_limits p) as Hin
    by (intros p Hp; eapply in_limits_le; [|exact Hlim]; zl).
  destruct (in_limits_2_63 _ _ _ Hlim) as [_ Hb]. pose proof (zlen_nonneg pre). pose proof (zlen_nonneg text).
  rewrite (RUN_skip malloc_ok printf_g VTM_HTTP_PM_RESPONSE mh mb ord stc len used err
    VTM_HTTP_PARSE_RES_STATUS_MSG_CR (none_of [13])); [| | done | done | apply Hin; zl | lia].
  2: { intros k p0 c l0 Hc. sw. unfold http_status_msg_cr.
       by rewrite !(none_of_eqb [13]) by (done || lia || set_solver). }
  rewrite (RUN_next malloc_ok printf_g VTM_HTTP_PM_RESPONSE mh mb ord stc len used err
    _ _ _ _ _ _ _ _ _ VTM_HTTP_PARSE_RES_STATUS_MSG_LF (0 + zlen text + 1)
    (msg_status (Some (status_msg_begin i)) m) sh i 0 h); [| zl | apply Hin; zl | done |].
  2: { sw. unfold http_status_msg_cr. change (i8 13 =? 13) with true.
       cbn [negb]. change (mk_env _ _ _) with
         (at_byte VTM_HTTP_PARSE_RES_STATUS_MSG_CR (0 + zlen text + 1) m sh i (pre ++ text) 13 (10 :: l) h).
       by rewrite nul_here_at. }
  unfold nrm at 1. rewrite decide_True by done.
  rewrite (RUN_next malloc_ok printf_g VTM_HTTP_PM_RESPONSE mh mb ord stc len used err
    _ _ _ _ _ _ _ _ _ VTM_HTTP_PARSE_HEADER_LINE_BEGIN 1 (msg_status (Some (status_msg_begin i)) m) sh
    (in_header (zlen pre + zlen text + 2) (header_value_begin i) i) 10 h); [| lia | apply Hin; zl | done |].
  - rewrite <- !app_assoc. done.
  - sw. unfold http_status_msg_lf. change (i8 10 =? 10) with true.
    cbn [negb]. atb.
    replace (zlen ((pre ++ text) ++ [0]) + 1) with (zlen pre + zlen text + 2) by zl. done.
Qed.
(** ** Chunks *)

Lemma hex_value_hexval c v : 0 <= c < 128 -> hexval c = Some v -> hex_value c = Some v.
Proof.
  intros _. unfold hexval, hex_value, isdigit. destruct ((48 <=? c) && (c <=? 57)); [done|].
  destruct ((65 <=? c) && (c <=? 70)); [by intros [= <-]; f_equal; lia|].
  destruct ((97 <=? c) && (c <=? 102)); [by intros [= <-]; f_equal; lia|done].
Qed.

Lemma hexval_range c v : hexval c = Some v -> 0 <= v < 16 /\ 48 <= c < 128 /\ c <> 13.
Proof.
  unfold hexval, isdigit. intros H. destruct (Z.leb_spec 48 c); destruct (Z.leb_spec c 57); cbn in H;
    try (injection H as <-; lia); destruct (Z.leb_spec 65 c); destruct (Z.leb_spec c 70); cbn in H;
    try (injection H as <-; lia); destruct (Z.leb_spec 97 c); destruct (Z.leb_spec c 102); cbn in H;
    try (injection H as <-; lia); done.
Qed.

Lemma num_val_grows ds : forall a v, num_val 16 a ds = Some v -> 0 <= a -> a <= v.
Proof.
  induction ds as [|d ds IH]; intros a v H Ha; cbn [num_val] in H; [injection H as <-; lia|].
  destruct (hexval d) as [x|] eqn:E; [|done]. cbn [mbind option_bind] in H.
  apply hexval_range in E as (Hx & _). destruct (x <? 16); [|done].
  specialize (IH _ _ H ltac:(lia)). lia.
Qed.

(** The size of a chunk. *)
Lemma RUN_chunk_size ds : forall a v k m sh i pre l h,
  num_val 16 a ds = Some v -> 0 <= a -> v < 2 ^ 64 -> chunk_size i = a -> 0 <= k <= zlen pre -> l <> [] ->
  in_limits (pre ++ ds ++ [13]) ->
  RUN VTM_HTTP_PARSE_BODY_CHUNK_SIZE k m sh i pre (ds ++ 13 :: l) h
  = RUN VTM_HTTP_PARSE_BODY_CHUNK_SIZE_LF 0 m sh (in_chunk (chunk_dst i) (chunk_begin i) v i)
      (pre ++ ds ++ [13]) l h.
Proof.
  induction ds as [|d ds IH]; intros a v k m sh i pre l h Hv Ha Hlt Hi Hk Hl Hlim.
  - destruct (in_limits_2_63 _ _ _ Hlim) as [_ Hb].
    injection Hv as <-. cbn [app] in *.
    rewrite (RUN_next malloc_ok printf_g VTM_HTTP_PM_RESPONSE mh mb ord stc len used err
      _ _ _ _ _ _ _ _ _ VTM_HTTP_PARSE_BODY_CHUNK_SIZE_LF (k + 1) m sh i 13 h); [| zl | done | done | done].
    subst a. by destruct i.
  - cbn [num_val] in Hv. destruct (hexval d) as [x|] eqn:Ex; [|done]. cbn [mbind option_bind] in Hv.
    destruct (hexval_range d x Ex) as (Hx & Hd & Hd13). destruct (x <? 16); [|done].
    pose proof (num_val_grows ds _ _ Hv ltac:(lia)) as Hg.
    change (pre ++ (d :: ds) ++ [13]) with (pre ++ [d] ++ (ds ++ [13])) in *. rewrite (app_assoc pre [d]) in *.
    pose proof (in_limits_app _ _ _ _ Hlim) as Hlim1. destruct (in_limits_2_63 _ _ _ Hlim1) as [_ Hb].
    set (i1 := in_chunk (chunk_dst i) (chunk_begin i) (a * 16 + x) i).
    change ((d :: ds) ++ 13 :: l) with (d :: (ds ++ 13 :: l)).
    rewrite (RUN_next malloc_ok printf_g VTM_HTTP_PM_RESPONSE mh mb ord stc len used err
      _ _ _ _ _ _ _ _ _ VTM_HTTP_PARSE_BODY_CHUNK_SIZE (k + 1) m sh i1 d h);
      [| zl | done | by destruct ds |].
    + unfold nrm. rewrite decide_False by tauto.
      rewrite (IH (a * 16 + x) v (k + 1) m sh i1 (pre ++ [d]) l h); try done; [lia|zl].
    + sw. unfold http_chunk_size. atb. rewrite i8_small by lia.
      rewrite (proj2 (Z.eqb_neq d 13)) by done. rewrite (hex_value_hexval d x) by (done || lia).
      assert (u64 (Z.shiftl (chunk_size i) 4) +sz x = a * 16 + x) as ->; [|done].
      rewrite Hi, Z.shiftl_mul_pow2 by lia. change (2 ^ 4) with 16.
      rewrite (u64_small (a * 16)) by (unfold is_size, SIZE_MAX; lia).
      apply u64_small. unfold is_size, SIZE_MAX. lia.
Qed.

(** The content of a chunk, up to the carriage return behind it. *)
Lemma RUN_chunk_content d : forall k m sh i pre l h,
  chunk_size i = k + zlen d -> 0 <= k <= zlen pre -> l <> [] -> in_limits (pre ++ d ++ [13]) ->
  RUN VTM_HTTP_PARSE_BODY_CHUNK_CONTENT k m sh i pre (d ++ 13 :: l) h
  = RUN VTM_HTTP_PARSE_BODY_CHUNK_END_LF 0 m sh i (pre ++ d ++ [13]) l h.
Proof.
  induction d as [|c d IH]; intros k m sh i pre l h Hi Hk Hl Hlim.
  - destruct (in_limits_2_63 _ _ _ Hlim) as [_ Hb]. cbn [app] in *. change (zlen (A:=Z) []) with 0 in Hi.
    rewrite (RUN_next malloc_ok printf_g VTM_HTTP_PM_RESPONSE mh mb ord stc len used err
      _ _ _ _ _ _ _ _ _ VTM_HTTP_PARSE_BODY_CHUNK_END_LF (k + 1) m sh i 13 h); [done | zl | done | done |].
    sw. unfold http_chunk_content. atb. rewrite (proj2 (Z.leb_gt (k + 1) (chunk_size i))) by lia. done.
  - change (pre ++ (c :: d) ++ [13]) with (pre ++ [c] ++ (d ++ [13])) in *. rewrite (app_assoc pre [c]) in *.
    pose proof (in_limits_app _ _ _ _ Hlim) as Hlim1. destruct (in_limits_2_63 _ _ _ Hlim1) as [_ Hb].
    rewrite zlen_cons in Hi. pose proof (zlen_nonneg d).
    change ((c :: d) ++ 13 :: l) with (c :: (d ++ 13 :: l)).
    rewrite (RUN_next malloc_ok printf_g VTM_HTTP_PM_RESPONSE mh mb ord stc len used err
      _ _ _ _ _ _ _ _ _ VTM_HTTP_PARSE_BODY_CHUNK_CONTENT (k + 1) m sh i c h);
      [| zl | done | by destruct d |].
    + unfold nrm. rewrite decide_False by tauto. apply IH; try done; [lia|zl].
    + sw. unfold http_chunk_content. atb. by rewrite (proj2 (Z.leb_le (k + 1) (chunk_size i))) by lia.
Qed.

(** The end of a chunk with content, which moves it behind those before. *)
Lemma RUN_chunk_end m sh i A J d l h :
  chunk_dst i = zlen A -> chunk_begin i = zlen (A ++ J) -> chunk_size i = zlen d -> 0 < zlen d ->
  0 <= body_len sh -> body_len sh + zlen d < 2 ^ 63 -> l <> [] ->
  in_limits (A ++ J ++ d ++ [13; 10]) ->
  exists J', zlen J' = zlen J + 2 /\
    RUN VTM_HTTP_PARSE_BODY_CHUNK_END_LF 0 m sh i (A ++ J ++ d ++ [13]) (10 :: l) h
    = RUN VTM_HTTP_PARSE_BODY_CHUNKED 0 m (sh_body_len (body_len sh + zlen d) sh)
        (in_chunk (zlen (A ++ d)) (chunk_begin i) (chunk_size i) i) (A ++ d ++ J') l h.
Proof.
  intros Hdst Hbeg Hsz Hd Hb0 Hb1 Hl Hlim.
  destruct (in_limits_2_63 _ _ _ Hlim) as [_ Hb]. pose proof (zlen_nonneg A). pose proof (zlen_nonneg J).
  set (R := J ++ d ++ [13]). set (J1 := zdrop (zlen d) R).
  assert (zlen R = zlen J + zlen d + 1) as HR by (subst R; zl).
  assert (zlen J1 = zlen J + 1) as HJ1 by (subst J1; rewrite zlen_zdrop by lia; lia).
  assert (R = ztake (zlen d) R ++ J1) as ER by (subst J1; by rewrite ztake_zdrop).
  exists (J1 ++ [10]). split; [zl|].
  rewrite (RUN_next_gen malloc_ok printf_g VTM_HTTP_PM_RESPONSE mh mb ord stc len used err
    _ _ _ _ _ _ _ _ _ VTM_HTTP_PARSE_BODY_CHUNKED 1 m (sh_body_len (body_len sh + zlen d) sh)
    (in_chunk (zlen (A ++ d)) (chunk_begin i) (chunk_size i) i) (A ++ d ++ J1) 10 h).
  - unfold nrm. rewrite decide_True by done. by rewrite <- !app_assoc.
  - lia.
  - subst R. rewrite <- !app_assoc. done.
  - done.
  - subst R. zl.
  - sw. unfold http_chunk_end_lf. atb. change (i8 10 =? 10) with true. cbn [negb].
    rewrite Hsz, (proj2 (Z.eqb_neq (zlen d) 0)) by lia. unfold buf_move. cbn [buf_data buf_used].
    rewrite Hdst, Hbeg.
    assert (zlen ((A ++ R) ++ 10 :: l) = zlen A + zlen R + 1 + zlen l) as HL by zl.
    pose proof (zlen_nonneg l).
    rewrite HL. repeat match goal with |- context [?x <=? ?y] => rewrite (proj2 (Z.leb_le x y)) by zl end.
    cbn [andb mbind option_bind].
    assert (ztake (zlen d) (zdrop (zlen (A ++ J)) ((A ++ R) ++ 10 :: l)) = d) as ->.
    { subst R. rewrite <- !app_assoc, (app_assoc A). rewrite zdrop_app_exact by done.
      by rewrite ztake_app_exact. }
    assert (splice (zlen A) d ((A ++ R) ++ 10 :: l) = (A ++ d ++ J1) ++ 10 :: l) as ->.
    { rewrite ER, <- !app_assoc. apply splice_at. rewrite zlen_ztake by lia. done. }
    unfold buf_with_data. cbn [buf_order buf_place buf_len buf_read buf_err shared set_intl].
    rewrite !u64_small by (unfold is_size, SIZE_MAX; zl).
    replace (zlen (A ++ R) + 1) with (zlen (A ++ d ++ J1) + 1) by zl.
    by rewrite (zlen_app A d).
Qed.

(** The last chunk. *)
Lemma RUN_last_chunk_end m sh i pre rest h :
  chunk_size i = 0 -> in_limits (pre ++ [10]) ->
  RUN VTM_HTTP_PARSE_BODY_CHUNK_END_LF 0 m sh i pre (10 :: rest) h
  = Some (VTM_NET_RECV_STAT_COMPLETE, HttpRequest.env VTM_HTTP_PM_RESPONSE mh mb ord stc len used err
      VTM_HTTP_PARSE_COMPLETE 1 m (if 0 <? body_len sh then sh_body (Some (body_begin i)) sh else sh) i
      (pre ++ [10]) rest h).
Proof.
  intros Hi Hlim. pose proof (in_limits_app _ _ _ _ Hlim) as Hlim1.
  rewrite RUN_EV by done. unfold http_eval_fuel.
  rewrite (EV_goto malloc_ok printf_g VTM_HTTP_PM_RESPONSE mh mb ord stc len used err
    4 VTM_HTTP_PARSE_BODY_CHUNK_END_LF 0 m sh i pre 10 rest h ltac:(lia)
    VTM_HTTP_PARSE_COMPLETE 1 m sh i h); [| done |].
  - unfold nrm. rewrite decide_True by done. by rewrite EV_complete_any.
  - sw. unfold http_chunk_end_lf. atb. by rewrite Hi.
Qed.

(** The head of a chunk: the destination of its content and its size. *)
Lemma RUN_chunk_head m sh i n pre l h :
  0 <= n < 2 ^ 64 -> l <> [] -> 0 < body_begin i ->
  in_limits (pre ++ hex_text n ++ [13; 10]) ->
  RUN VTM_HTTP_PARSE_BODY_CHUNKED 0 m sh i pre (hex_text n ++ 13 :: 10 :: l) h
  = RUN VTM_HTTP_PARSE_BODY_CHUNK_CONTENT 0 m sh
      (in_chunk (if chunk_dst i =? 0 then body_begin i else chunk_dst i) (zlen (pre ++ hex_text n ++ [13; 10])) n i)
      (pre ++ hex_text n ++ [13; 10]) l h.
Proof.
  intros Hn Hl Hbb Hlim. destruct (in_limits_2_63 _ _ _ Hlim) as [_ Hb].
  pose proof (zlen_nonneg pre). destruct (hex_size_spec n Hn) as (_ & Hlen & _).
  assert (exists c ds, hex_text n = c :: ds /\ num_val 16 0 (c :: ds) = Some n) as (c & ds & Eh & Hv).
  { unfold hex_text, vtm_fmt_hex_size in *. cbn [negb snd] in *.
    destruct (count_hex_spec fmt_fuel n 1) as (k & E & Hk & Hlt & Hge); [unfold fmt_fuel; lia|].
    rewrite E in *.
    destruct (write_hex_spec (Z.to_nat (1 + k)) n []) as (ds & E2 & Hl2 & Hval).
    { rewrite Z2Nat.id by lia. replace (1 + k) with (k + 1) by lia. lia. }
    rewrite app_nil_r in E2. rewrite E2 in *. destruct ds as [|c ds]; [unfold zlen in Hlen; cbn in Hlen; lia|].
    exists c, ds. split; [done|]. by rewrite Hval. }
  rewrite Eh in *. set (i0 := in_chunk (if chunk_dst i =? 0 then body_begin i else chunk_dst i) (chunk_begin i) 0 i).
  assert (exists x, hexval c = Some x) as [x Ex].
  { cbn [num_val] in Hv. destruct (hexval c) as [x|]; [by exists x|done]. }
  destruct (hexval_range c x Ex) as (Hx & Hc & Hc13).
  assert (forall p, zlen p <= zlen pre + zlen (c :: ds) + 2 -> in_limits p) as Hin
    by (intros p Hp; eapply in_limits_le; [|exact Hlim]; zl).
  change ((c :: ds) ++ 13 :: 10 :: l) with (c :: (ds ++ 13 :: 10 :: l)).
  pose proof (zlen_nonneg ds).
  rewrite (RUN_goto malloc_ok printf_g VTM_HTTP_PM_RESPONSE mh mb ord stc len used err
    VTM_HTTP_PARSE_BODY_CHUNKED 0 m sh i pre c (ds ++ 13 :: 10 :: l) h VTM_HTTP_PARSE_BODY_CHUNK_SIZE 1 m sh i0 h HNext
    (at_byte VTM_HTTP_PARSE_BODY_CHUNK_SIZE 1 m sh (in_chunk (chunk_dst i0) (chunk_begin i0) x i0) pre c (ds ++ 13 :: 10 :: l) h));
    [| lia | apply Hin; zl | done | done | | done].
  2: { sw. unfold http_chunk_size. atb. rewrite i8_small by lia.
       rewrite (proj2 (Z.eqb_neq c 13)) by done. rewrite (hex_value_hexval c x) by (done || lia).
       cbn [i0 in_chunk chunk_size chunk_dst chunk_begin]. change (u64 (Z.shiftl 0 4)) with 0.
       rewrite u64_small by (unfold is_size, SIZE_MAX; lia). done. }
  change (c :: ds ++ 13 :: 10 :: l) with ((c :: ds) ++ 13 :: 10 :: l).
  rewrite (RUN_chunk_size (c :: ds) 0 n 0 m sh i0 pre (10 :: l) h); try done; try lia.
  2: { apply Hin. zl. }
  set (i1 := in_chunk (chunk_dst i0) (chunk_begin i0) n i0).
  rewrite (RUN_next malloc_ok printf_g VTM_HTTP_PM_RESPONSE mh mb ord stc len used err
    _ _ _ _ _ _ _ _ _ VTM_HTTP_PARSE_BODY_CHUNK_CONTENT 1 m sh
    (in_chunk (chunk_dst i1) (zlen (pre ++ (c :: ds) ++ [13; 10])) n i1) 10 h);
    [| lia | apply Hin; zl | done |].
  - unfold nrm. rewrite decide_True by done. rewrite <- !app_assoc. by destruct i.
  - sw. unfold http_chunk_size_lf. atb. change (i8 10 =? 10) with true. cbn [negb].
    replace (zlen (pre ++ (c :: ds) ++ [13]) + 1) with (zlen (pre ++ (c :: ds) ++ [13; 10])) by zl. done.
Qed.

Lemma chunk_text_eq d l : chunk_text d ++ l = hex_text (zlen d) ++ 13 :: 10 :: (d ++ 13 :: 10 :: l).
Proof. unfold chunk_text, CRLF. rewrite <- !app_assoc. done. Qed.

Lemma chunk_text_len d : zlen (chunk_text d) = zlen (hex_text (zlen d)) + zlen d + 4.
Proof. unfold chunk_text, CRLF. zl. Qed.

(** The end of a body: what was announced or collected becomes visible. *)
Definition body_done (sh : http_shared) (i : http_internal) (n : Z) : http_shared :=
  let sh := sh_body_len n sh in if 0 <? n then sh_body (Some (body_begin i)) sh else sh.

Lemma RUN_chunks ds : forall m sh i A J rest h,
  (if chunk_dst i =? 0 then body_begin i else chunk_dst i) = zlen A -> 0 < body_begin i ->
  zlen A = body_begin i + body_len sh -> 0 <= body_len sh -> Forall (fun d => d <> []) ds ->
  in_limits (A ++ J ++ concat (map chunk_text ds) ++ chunk_text []) ->
  exists J' i',
    RUN VTM_HTTP_PARSE_BODY_CHUNKED 0 m sh i (A ++ J) (concat (map chunk_text ds) ++ chunk_text [] ++ rest) h
    = Some (VTM_NET_RECV_STAT_COMPLETE, HttpRequest.env VTM_HTTP_PM_RESPONSE mh mb ord stc len used err
        VTM_HTTP_PARSE_COMPLETE 1 m (body_done sh i (body_len sh + zlen (concat ds))) i'
        (A ++ concat ds ++ J') rest h) /\
    zlen (A ++ concat ds ++ J') = zlen (A ++ J ++ concat (map chunk_text ds) ++ chunk_text []).
Proof.
  induction ds as [|d ds IH]; intros m sh i A J rest h Hdst Hbb HA Hbl Hds Hlim.
  - cbn [map concat app] in *. destruct (in_limits_2_63 _ _ _ Hlim) as [_ Hb].
    pose proof (chunk_text_len []) as Hcl. rewrite zlen_nil in Hcl.
    assert (forall p, zlen p <= zlen A + zlen J + zlen (chunk_text []) -> in_limits p) as Hin
      by (intros p Hp; eapply in_limits_le; [|exact Hlim]; zl).
    rewrite (chunk_text_eq [] rest). rewrite zlen_nil.
    rewrite RUN_chunk_head; [| lia | done | done | apply Hin; zl].
    set (i1 := in_chunk _ _ 0 i). set (p1 := (A ++ J) ++ hex_text 0 ++ [13; 10]).
    assert (zlen p1 = zlen A + zlen J + zlen (chunk_text []) - 2) as Hp1 by (subst p1; zl).
    rewrite (RUN_chunk_content [] 0 m sh i1 p1 (10 :: rest) h); [| done | split; [lia|apply zlen_nonneg] | done | apply Hin; zl].
    rewrite RUN_last_chunk_end; [| done | apply Hin; zl].
    exists (J ++ hex_text 0 ++ [13; 10; 13; 10]), i1. subst p1. split.
    + do 2 f_equal. unfold body_done. change (zlen (A:=Z) []) with 0. rewrite Z.add_0_r.
      change (body_begin i1) with (body_begin i).
      replace (sh_body_len (body_len sh) sh) with sh by by destruct sh.
      cbn [app]. rewrite <- !app_assoc. done.
    + zl.
  - apply Forall_cons in Hds as [Hd Hds]. cbn [map concat] in Hlim |- *.
    destruct (in_limits_2_63 _ _ _ Hlim) as [_ Hb].
    pose proof (chunk_text_len d) as Hcl. pose proof (zlen_nonneg d).
    pose proof (zlen_nonneg (concat (map chunk_text ds))). pose proof (zlen_nonneg (chunk_text [])).
    pose proof (zlen_nonneg A). pose proof (zlen_nonneg J). pose proof (zlen_nonneg (hex_text (zlen d))).
    assert (0 < zlen d) as Hd0 by (destruct d; [done|]; rewrite zlen_cons; pose proof (zlen_nonneg d); lia).
    assert (forall p, zlen p <= zlen A + zlen J + zlen (chunk_text d) + zlen (concat (map chunk_text ds)) +
      zlen (chunk_text []) -> in_limits p) as Hin
      by (intros p Hp; eapply in_limits_le; [|exact Hlim]; zl).
    rewrite <- app_assoc, (chunk_text_eq d). set (tail := concat (map chunk_text ds) ++ chunk_text [] ++ rest).
    assert (tail <> []) as Htail.
    { subst tail. intros Hx. apply (f_equal zlen) in Hx. rewrite !zlen_app, (chunk_text_len []) in Hx.
      pose proof (zlen_nonneg rest). pose proof (zlen_nonneg (hex_text (zlen (A:=Z) []))).
      pose proof (zlen_nonneg (A:=Z) []). rewrite zlen_nil in *. lia. }
    rewrite RUN_chunk_head; [| unfold zlen in *; zl | by destruct d | done | apply Hin; zl].
    set (i1 := in_chunk _ _ (zlen d) i). set (p1 := (A ++ J) ++ hex_text (zlen d) ++ [13; 10]).
    assert (zlen p1 = zlen A + zlen J + zlen (hex_text (zlen d)) + 2) as Hp1 by (subst p1; zl).
    rewrite (RUN_chunk_content d 0 m sh i1 p1 (10 :: tail) h); [| done | split; [lia|apply zlen_nonneg] | done | apply Hin; zl].
    set (J1 := J ++ hex_text (zlen d) ++ [13; 10]).
    assert (p1 ++ d ++ [13] = A ++ J1 ++ d ++ [13]) as -> by (subst p1 J1; by rewrite <- !app_assoc).
    destruct (RUN_chunk_end m sh i1 A J1 d tail h) as (J2 & HJ2 & ->); try done.
    { cbn [i1 in_chunk chunk_begin]. subst J1. by rewrite <- app_assoc. }
    { zl. }
    { apply Hin. subst J1. zl. }
    rewrite (app_assoc A d J2). unfold tail.
    destruct (IH m (sh_body_len (body_len sh + zlen d) sh) (in_chunk (zlen (A ++ d)) (chunk_begin i1) (chunk_size i1) i1)
      (A ++ d) J2 rest h) as (J' & i' & -> & Hlen); try done.
    { cbn [in_chunk chunk_dst body_begin i1]. rewrite (proj2 (Z.eqb_neq (zlen (A ++ d)) 0)) by zl. done. }
    { cbn [in_chunk body_begin i1 body_len sh_body_len]. zl. }
    { cbn [body_len sh_body_len]. lia. }
    { apply Hin. subst J1. zl. }
    exists J', i'. rewrite <- !app_assoc in Hlen |- *. split; [|rewrite Hlen; subst J1; zl].
    do 2 f_equal. unfold body_done. cbn [body_len sh_body_len in_chunk body_begin i1].
    by rewrite zlen_app, Z.add_assoc.
Qed.

End run.

(** ** The whole response *)

Definition as_field (nv : bytes * bytes) : http_field := mk_field nv.1 [32] nv.2.

(** All headers, in the order in which they are sent. *)
Definition answer_fields (p : answer) : list (bytes * bytes) :=
  std_fields p ++ an_fields p ++
  (if is_chunked p then [] else [(VTM_HTTP_HEADER_CONTENT_LENGTH, printf_d (an_length p))]) ++
  con_fields (an_act p).

Definition body_text (p : answer) : bytes :=
  if is_chunked p then concat (map chunk_text (an_body p)) ++ chunk_text [] else concat (an_body p).

Definition answer_headers (p : answer) : gmap bytes bytes := hdr_map (map as_field (answer_fields p)) ∅.

(** The headers that the code writes itself. *)
Definition reserved (n : bytes) : Prop :=
  map tolower n = map tolower VTM_HTTP_HEADER_TRANSFER_ENCODING \/
  map tolower n = map tolower VTM_HTTP_HEADER_CONTENT_LENGTH.

(** What the application may do with a response: names and values that are
    header fields, none of the two that describe the body, no empty chunk. *)
Record answer_ok (p : answer) : Prop := {
  ao_status : 100 <= an_status p < 1000;
  ao_date : field_ok (as_field (VTM_HTTP_HEADER_DATE, an_date p));
  ao_fields : Forall (fun nv => field_ok (as_field nv) /\ ~ reserved nv.1) (an_fields p);
  ao_body : is_chunked p = true -> Forall (fun d => d <> []) (an_body p);
  ao_emt : an_emt p = None
}.

Lemma lines_fields fs : lines fs = fields_text (map as_field fs).
Proof.
  induction fs as [|[n v] fs IH]; [done|].
  change (lines ((n, v) :: fs)) with (header_line (n, v) ++ lines fs). rewrite IH.
  change (fields_text (map as_field ((n, v) :: fs))) with (field_text (as_field (n, v)) ++ fields_text (map as_field fs)).
  unfold header_line, field_text, as_field, CRLF. cbn [fst snd f_name f_ws f_value].
  rewrite <- !app_assoc. done.
Qed.

Lemma answer_text_eq p :
  answer_text p = status_line p ++ fields_text (map as_field (answer_fields p)) ++ 13 :: 10 :: body_text p.
Proof.
  rewrite <- lines_fields. unfold answer_text, answer_fields, body_text, an_head, CRLF.
  destruct (is_chunked p); rewrite !lines_app, <- !app_assoc; done.
Qed.

Lemma status_digits status : 100 <= status < 1000 ->
  exists d1 d2 d3, status_text status = [d1; d2; d3] /\ 48 <= d1 <= 57 /\ 48 <= d2 <= 57 /\ 48 <= d3 <= 57 /\
    ((d1 - 48) * 10 + (d2 - 48)) * 10 + (d3 - 48) = status.
Proof.
  intros Hs. assert (Forall (fun s => match status_text s with
    | [d1; d2; d3] => 48 <= d1 <= 57 /\ 48 <= d2 <= 57 /\ 48 <= d3 <= 57 /\
        ((d1 - 48) * 10 + (d2 - 48)) * 10 + (d3 - 48) = s
    | _ => False end) (seqZ 100 900)) as H.
  { assert (forallb (fun s => match status_text s with
      | [d1; d2; d3] => (48 <=? d1) && (d1 <=? 57) && (48 <=? d2) && (d2 <=? 57) && (48 <=? d3) && (d3 <=? 57) &&
        (((d1 - 48) * 10 + (d2 - 48)) * 10 + (d3 - 48) =? s)
      | _ => false end) (seqZ 100 900) = true) as H by by vm_compute.
    rewrite Forall_forall. intros s Hin. rewrite forallb_forall in H.
    specialize (H s ltac:(by apply list_elem_of_In)).
    destruct (status_text s) as [|d1 [|d2 [|d3 [|]]]]; try done. repeat bsplit; lia. }
  rewrite Forall_forall in H. specialize (H status ltac:(apply elem_of_seqZ; lia)).
  destruct (status_text status) as [|d1 [|d2 [|d3 [|]]]]; try done. by exists d1, d2, d3.
Qed.

Lemma phrase_ok status : Forall (none_of [13]) (vtm_http_get_status_phrase status).
Proof.
  assert (forall t, forallb (fun c => (0 <? c) && (c <? 256) && negb (c =? 13)) t = true ->
    Forall (none_of [13]) t) as Hb.
  { intros t H. rewrite Forall_forall. intros c Hin. rewrite forallb_forall in H.
    specialize (H c ltac:(by apply list_elem_of_In)). unfold none_of. repeat bsplit. split; [lia|].
    intros Hx. apply list_elem_of_singleton in Hx. lia. }
  apply Hb. unfold vtm_http_get_status_phrase. destruct (find _ status_phrases) as [[c p]|] eqn:E; [|done].
  apply find_some in E as [Hin _].
  assert (forallb (fun x => forallb (fun c => (0 <? c) && (c <? 256) && negb (c =? 13)) (cstr_of x.2)) status_phrases
    = true) as H by by vm_compute.
  rewrite forallb_forall in H. by apply (H (c, p)).
Qed.

(** ** Headers by name *)

Lemma hdr_map_other fs k : forall g,
  Forall (fun f => map tolower (f_name f) <> k) fs -> hdr_map fs g !! k = g !! k.
Proof.
  induction fs as [|f fs IH]; intros g Hk; [done|]. apply Forall_cons in Hk as [Hf Hk].
  change (hdr_map (f :: fs) g) with (hdr_map fs (hdr_add g f)). rewrite IH by done.
  unfold hdr_add. by rewrite lookup_insert_ne.
Qed.

Lemma hdr_map_app a b g : hdr_map (a ++ b) g = hdr_map b (hdr_map a g).
Proof. apply fold_left_app. Qed.

Lemma hdr_map_set l1 l2 f k g :
  k = map tolower (f_name f) -> g !! k = None ->
  Forall (fun f => map tolower (f_name f) <> k) l1 -> Forall (fun f => map tolower (f_name f) <> k) l2 ->
  hdr_map (l1 ++ f :: l2) g !! k = Some (f_value f).
Proof.
  intros -> Hg H1 H2. rewrite hdr_map_app. change (f :: l2) with ([f] ++ l2). rewrite hdr_map_app.
  rewrite hdr_map_other by done. change (hdr_map [f] (hdr_map l1 g)) with (hdr_add (hdr_map l1 g) f).
  unfold hdr_add. rewrite lookup_insert_eq, hdr_map_other by done. by rewrite Hg.
Qed.

Lemma digits_fields ds : Forall (fun c => 48 <= c < 58) ds -> Forall (none_of [10; 13]) ds.
Proof.
  intros H. eapply Forall_impl; [exact H|]. intros c [Hc1 Hc2]. split; [lia|].
  intros Hx. rewrite !elem_of_cons, elem_of_nil in Hx. lia.
Qed.

Lemma printf_d_field n v : 0 <= v < 10 ^ 20 -> n <> [] -> Forall (none_of [10; 13; 32; 58]) n ->
  field_ok (as_field (n, printf_d v)).
Proof.
  intros Hv Hn Hnn. unfold field_ok, as_field. cbn [fst snd f_name f_ws f_value]. split; [done|]. split; [done|].
  split; [by repeat constructor|]. unfold printf_d. rewrite (proj2 (Z.ltb_ge v 0)) by lia.
  destruct (dec_digits_scan 20 v 0 [] ltac:(lia)) as (_ & _ & (c & s & E & _)); [done|].
  destruct (digits_text 20 v [] ltac:(lia)) as (ds & E2 & Hds & _). rewrite app_nil_r in E2.
  rewrite E2. split; [by apply digits_fields|]. rewrite <- E2, E. rewrite E2 in E. subst ds.
  apply Forall_cons in Hds as [Hc _]. split; [lia|].
  intros Hx. rewrite !elem_of_cons, elem_of_nil in Hx. lia.
Qed.

Definition const_field (nv : bytes * bytes) : bool :=
  match nv with
  | (n, c0 :: v) => negb (bool_decide (n = [])) &&
      forallb (fun c => (0 <? c) && (c <? 256) && negb (bool_decide (c ∈ [10; 13; 32; 58]))) n &&
      forallb (fun c => (0 <? c) && (c <? 256) && negb (bool_decide (c ∈ [10; 13]))) (c0 :: v) &&
      negb (bool_decide (c0 ∈ [9; 10; 13; 32]))
  | _ => false
  end.

Lemma forallb_none (l s : list Z) :
  forallb (fun c => (0 <? c) && (c <? 256) && negb (bool_decide (c ∈ l))) s = true -> Forall (none_of l) s.
Proof.
  intros H. rewrite Forall_forall. intros c Hin. rewrite forallb_forall in H.
  specialize (H c ltac:(by apply list_elem_of_In)). unfold none_of.
  apply andb_prop in H as [H H3]. apply negb_true_iff, bool_decide_eq_false in H3. repeat bsplit.
  split; [lia|done].
Qed.

Lemma const_field_ok nv : const_field nv = true -> field_ok (as_field nv).
Proof.
  destruct nv as [n [|c0 v]]; [done|]. unfold const_field, field_ok, as_field.
  cbn [fst snd f_name f_ws f_value]. intros H. apply andb_prop in H as [H H4]. apply andb_prop in H as [H H3].
  apply andb_prop in H as [H1 H2]. apply negb_true_iff, bool_decide_eq_false in H1, H4.
  apply forallb_none in H2, H3. split; [done|]. split; [done|]. split; [by repeat constructor; left|].
  split; [done|]. apply Forall_cons in H3 as [[Hc _] _]. by split.
Qed.

Lemma answer_fields_ok p : answer_ok p -> 0 <= an_length p < 2 ^ 64 ->
  Forall field_ok (map as_field (answer_fields p)).
Proof.
  intros [_ Hd Hf _ _] Hl. unfold answer_fields, std_fields, con_fields.
  assert (Forall field_ok (map as_field (an_fields p))) as Hfs.
  { apply Forall_fmap. eapply Forall_impl; [exact Hf|]. by intros nv [H _]. }
  rewrite !map_app, !Forall_app. split; [split|split; [done|split]].
  - constructor; [by apply const_field_ok|]. constructor; [done|]. constructor.
  - destruct (is_chunked p); [|constructor]. constructor; [by apply const_field_ok|constructor].
  - destruct (is_chunked p); [constructor|]. constructor; [|constructor].
    apply printf_d_field; [lia|done|by apply forallb_none].
  - destruct (an_act p); [| |constructor]; (constructor; [by apply const_field_ok|constructor]).
Qed.

(** ** The headers that describe the body *)

Lemma lookup_te p : answer_ok p ->
  answer_headers p !! map tolower VTM_HTTP_HEADER_TRANSFER_ENCODING
  = if is_chunked p then Some VTM_HTTP_VALUE_CHUNKED else None.
Proof.
  intros [_ _ Hf _ _]. unfold answer_headers, answer_fields, std_fields.
  set (k := map tolower VTM_HTTP_HEADER_TRANSFER_ENCODING).
  assert (Forall (fun f => map tolower (f_name f) <> k) (map as_field (an_fields p))) as Hu.
  { apply Forall_fmap. eapply Forall_impl; [exact Hf|]. intros nv [_ H] Hx. apply H. by left. }
  assert (Forall (fun f => map tolower (f_name f) <> k) (map as_field (con_fields (an_act p)))) as Hc.
  { destruct (an_act p); repeat constructor; discriminate. }
  destruct (is_chunked p).
  - rewrite !map_app, <- !app_assoc. cbn [map app].
    refine (hdr_map_set [as_field (VTM_HTTP_HEADER_SERVER, VTM_BUILD_VERSION); as_field (VTM_HTTP_HEADER_DATE, an_date p)]
      _ (as_field (VTM_HTTP_HEADER_TRANSFER_ENCODING, VTM_HTTP_VALUE_CHUNKED)) k ∅ _ _ _ _); try done.
    + repeat constructor; discriminate.
    + by apply Forall_app.
  - rewrite !map_app. rewrite hdr_map_other; [done|]. rewrite !Forall_app.
    split; [split; [|constructor]|split; [done|split; [|done]]]; repeat constructor; discriminate.
Qed.

Lemma lookup_cl p : answer_ok p ->
  answer_headers p !! map tolower VTM_HTTP_HEADER_CONTENT_LENGTH
  = if is_chunked p then None else Some (printf_d (an_length p)).
Proof.
  intros [_ _ Hf _ _]. unfold answer_headers, answer_fields, std_fields.
  set (k := map tolower VTM_HTTP_HEADER_CONTENT_LENGTH).
  assert (Forall (fun f => map tolower (f_name f) <> k) (map as_field (an_fields p))) as Hu.
  { apply Forall_fmap. eapply Forall_impl; [exact Hf|]. intros nv [_ H] Hx. apply H. by right. }
  assert (Forall (fun f => map tolower (f_name f) <> k) (map as_field (con_fields (an_act p)))) as Hc.
  { destruct (an_act p); repeat constructor; discriminate. }
  destruct (is_chunked p).
  - rewrite !map_app. rewrite hdr_map_other; [done|]. rewrite !Forall_app.
    split; [split; [|]|split; [done|split; [|done]]]; repeat constructor; discriminate.
  - rewrite !map_app. cbn [map app].
    refine (hdr_map_set ([as_field (VTM_HTTP_HEADER_SERVER, VTM_BUILD_VERSION); as_field (VTM_HTTP_HEADER_DATE, an_date p)]
      ++ map as_field (an_fields p)) _ (as_field (VTM_HTTP_HEADER_CONTENT_LENGTH, printf_d (an_length p))) k ∅ _ _ _ _);
      try done. apply Forall_app. split; [repeat constructor; discriminate|done].
Qed.

Lemma answer_length p : answer_ok p -> 0 <= zlen (concat (an_body p)) < 2 ^ 63 ->
  0 <= an_length p < 2 ^ 63 /\ an_length p = zlen (concat (an_body p)).
Proof. intros [_ _ _ _ He] Hl. unfold an_length. by rewrite He. Qed.

Lemma answer_hdr_length p : answer_ok p -> 0 <= zlen (concat (an_body p)) < 2 ^ 63 -> is_chunked p = false ->
  hdr_length (answer_headers p) = Some (zlen (concat (an_body p))).
Proof.
  intros Hp Hl Hch. destruct (answer_length p Hp Hl) as [Hl2 El]. unfold hdr_length.
  rewrite lookup_cl, Hch, El by done. cbn [mbind option_bind]. f_equal.
  rewrite strtoll_printf by (unfold int_range; lia). unfold cast_int.
  rewrite (swrap_small 64) by lia. apply u64_small. unfold is_size, SIZE_MAX. lia.
Qed.

(** ** From the head to the body *)

Section response.
Context (malloc_ok : Z -> bool) (printf_g : Z -> bytes) (mh mb : Z).
Context (ord : vtm_byteorder) (stc : buf_home) (len used err : Z).
Abbreviation RUN := (RUN malloc_ok printf_g VTM_HTTP_PM_RESPONSE mh mb ord stc len used err).
Abbreviation env := (env VTM_HTTP_PM_RESPONSE mh mb ord stc len used err).
Abbreviation at_byte := (at_byte VTM_HTTP_PM_RESPONSE mh mb ord stc len used err).
Abbreviation switch := (http_switch malloc_ok printf_g all_ok).
Abbreviation in_limits := (in_limits mh mb).
Abbreviation sh_hdr_ok := (sh_hdr_ok malloc_ok printf_g).

Lemma switch_chunked k m sh i pre c l h F g :
  sh_hdr_ok sh g F h ->
  g !! map tolower VTM_HTTP_HEADER_TRANSFER_ENCODING = Some VTM_HTTP_VALUE_CHUNKED ->
  exists o fr, sh_hdr_ok (sh_headers o fr sh) g F h /\
    switch (at_byte VTM_HTTP_PARSE_BODY k m sh i pre c l h) (i8 c)
    = Some (HNext, at_byte VTM_HTTP_PARSE_BODY_CHUNKED k m (sh_headers o fr sh) (in_body (zlen pre + 1) i) pre c l h).
Proof.
  intros Hsh Hg. sw. unfold http_body.
  cbn [HttpRequest.at_byte e_par e_buf buf_read with_par set_intl shared].
  destruct Hsh as [(E & -> & Ho) | (ds & E & Ef & Hds & Ho)]; [by rewrite lookup_empty in Hg|].
  rewrite E. destruct (hdr_get_string malloc_ok printf_g F ds g VTM_HTTP_HEADER_TRANSFER_ENCODING h Hds)
    as (ds' & Eg & Hds' & Ho'); [repeat constructor; lia | done |].
  unfold str_const. rewrite Eg. cbn [mbind option_bind].
  exists (Some ds'), true. split; [right; by exists ds' |]. rewrite Hg.
  assert (vtm_str_list_contains VTM_HTTP_VALUE_CHUNKED [44] VTM_HTTP_VALUE_CHUNKED true = Some true) as ->
    by by vm_compute.
  cbn [mbind option_bind]. by rewrite Ef.
Qed.

Lemma RUN_body_chunked m sh i pre l h F g :
  sh_hdr_ok sh g F h ->
  g !! map tolower VTM_HTTP_HEADER_TRANSFER_ENCODING = Some VTM_HTTP_VALUE_CHUNKED ->
  l <> [] -> in_limits (pre ++ [10]) ->
  exists o fr, sh_hdr_ok (sh_headers o fr sh) g F h /\
    RUN VTM_HTTP_PARSE_HEADERS_END_LF 0 m sh i pre (10 :: l) h
    = RUN VTM_HTTP_PARSE_BODY_CHUNKED 0 m (sh_headers o fr sh) (in_body (zlen pre + 1) i) (pre ++ [10]) l h.
Proof.
  intros Hsh Hg Hl Hlim. pose proof (in_limits_app _ _ _ _ Hlim) as Hlim1.
  destruct (switch_chunked 1 m sh i pre 10 l h F g Hsh Hg) as (o & fr & Hok & Esw).
  exists o, fr. split; [exact Hok|]. rewrite RUN_EV by done. unfold http_eval_fuel.
  rewrite (EV_goto malloc_ok printf_g VTM_HTTP_PM_RESPONSE mh mb ord stc len used err
    4 VTM_HTTP_PARSE_HEADERS_END_LF 0 m sh i pre 10 l h ltac:(lia) VTM_HTTP_PARSE_BODY 1 m sh i h) by done.
  unfold nrm. rewrite decide_True by done.
  rewrite (EV_next malloc_ok printf_g VTM_HTTP_PM_RESPONSE mh mb ord stc len used err
    3 VTM_HTTP_PARSE_BODY 0 m sh i pre 10 l h ltac:(lia) VTM_HTTP_PARSE_BODY_CHUNKED 1 m
    (sh_headers o fr sh) (in_body (zlen pre + 1) i) 10 h); [done | done | done | exact Esw].
Qed.

(** The status line and the headers, up to the line feed that ends the head. *)
Lemma RUN_response_head v status fs l h :
  100 <= status < 1000 -> Forall field_ok fs ->
  in_limits (version_text v ++ [32] ++ status_text status ++ [32] ++ vtm_http_get_status_phrase status ++
    [13; 10] ++ fields_text fs ++ [13; 10]) ->
  exists m sh i pre h' F off,
    RUN VTM_HTTP_PARSE_BEGIN 0 reset_msg reset_shared reset_intl []
      (version_text v ++ 32 :: status_text status ++ 32 :: vtm_http_get_status_phrase status ++
       13 :: 10 :: (fields_text fs ++ 13 :: 10 :: l)) h
    = RUN VTM_HTTP_PARSE_HEADERS_END_LF 0 m sh i pre (10 :: l) h' /\
    zlen pre + 1 = zlen (version_text v ++ [32] ++ status_text status ++ [32] ++ vtm_http_get_status_phrase status ++
      [13; 10] ++ fields_text fs ++ [13; 10]) /\
    sh_hdr_ok sh (hdr_map fs ∅) F h' /\ h ⊆ F /\ (distinct_fields fs -> F = h) /\
    version sh = v /\ body sh = None /\ body_len sh = 0 /\ chunk_dst i = 0 /\
    res_status_code m = status /\ res_status_msg m = Some off /\ 0 <= off /\
    (forall t, c_string (zdrop off (pre ++ t)) = Some (vtm_http_get_status_phrase status)).
Proof.
  intros Hs Hfs Hlim. destruct (status_digits status Hs) as (d1 & d2 & d3 & Es & H1 & H2 & H3 & Hsum).
  rewrite Es in *. set (ph := vtm_http_get_status_phrase status) in *.
  assert (zlen (version_text v) = 8) as Hv by by destruct v.
  pose proof (zlen_nonneg ph). pose proof (zlen_nonneg (fields_text fs)).
  assert (forall p, zlen p <= 8 + 1 + 3 + 1 + zlen ph + 2 + zlen (fields_text fs) + 2 -> in_limits p) as Hin
    by (intros p Hp; eapply in_limits_le; [|exact Hlim]; zl).
  set (tail := fields_text fs ++ 13 :: 10 :: l).
  set (p2 := ((version_text v ++ [32]) ++ [d1; d2; d3; 32])). assert (zlen p2 = 13) as Hp2 by (subst p2; zl).
  set (p3 := p2 ++ ph ++ [0; 10]). assert (zlen p3 = 13 + zlen ph + 2) as Hp3 by (subst p3; zl).
  set (m3 := msg_status (Some 13) (msg_code status reset_msg)). set (sh3 := sh_version v reset_shared).
  set (i2 := in_status 13 (in_version 1 (ver_minor v) reset_intl)). set (i3 := in_header (zlen p3) 0 i2).
  assert (RUN VTM_HTTP_PARSE_BEGIN 0 reset_msg reset_shared reset_intl []
      (version_text v ++ 32 :: d1 :: d2 :: d3 :: 32 :: ph ++ 13 :: 10 :: tail) h
    = RUN VTM_HTTP_PARSE_HEADER_LINE_BEGIN 0 m3 sh3 i3 p3 tail h) as E0.
  { transitivity (RUN VTM_HTTP_PARSE_VERSION_H 0 reset_msg reset_shared reset_intl []
      (version_text v ++ 32 :: d1 :: d2 :: d3 :: 32 :: ph ++ 13 :: 10 :: tail) h).
    { assert (version_text v = 72 :: drop 1 (version_text v)) as -> by by destruct v.
      apply RUN_response_begin, Hin. change (zlen (A:=Z) []) with 0. lia. }
    rewrite RUN_version_response by (done || (apply Hin; zl)). cbn [app].
    rewrite RUN_status by (done || apply app_cons_ne || (apply Hin; zl)). rewrite Hsum. fold p2.
    replace (zlen (version_text v ++ [32]) + 4) with 13 by zl.
    rewrite RUN_phrase; [| apply phrase_ok | subst tail; by destruct (fields_text fs) | apply Hin; zl].
    unfold i3. rewrite Hp3. do 2 f_equal; lia. }
  destruct (RUN_fields malloc_ok printf_g VTM_HTTP_PM_RESPONSE mh mb ord stc len used err fs m3 sh3 i3 p3
    (13 :: 10 :: l) h h ∅) as (o & fr & h' & F' & nb & vb & txt & E & Ht & HF & HF' & Hsh); try done.
  { lia. }
  { apply Hin. zl. }
  { left. split_and!; try done. apply heap_ok_nil. }
  unfold tail in E0. rewrite RUN_headers_end in E by (done || apply Hin; zl).
  exists m3, (sh_headers o fr sh3), (in_header (zlen (p3 ++ txt)) 0 (in_header nb vb i3)), ((p3 ++ txt) ++ [13]), h', F', 13.
  split; [exact (eq_trans E0 E)|]. split; [zl|]. split; [done|]. split; [done|].
  split; [intros Hd; apply HF'; [done|]; by apply Forall_forall|]. split_and!; try done.
  intros t. subst p3. rewrite <- !app_assoc, zdrop_app_exact by done. cbn [app].
    apply c_string_app. eapply none_of_cstr, phrase_ok.
Qed.

(** The body that the parser hands over: its bytes at an offset of the buffer. *)
Definition body_is (data : bytes) (e : http_env) : Prop :=
  body_len (shared (e_par e)) = zlen data /\
  if 0 <? zlen data then
    exists off, body (shared (e_par e)) = Some off /\ ztake (zlen data) (zdrop off (buf_data (e_buf e))) = data
  else body (shared (e_par e)) = None.

Record response_parsed (p : answer) (e : http_env) : Prop := {
  rs_code : res_status_code (msg (e_par e)) = an_status p;
  rs_message : exists off, res_status_msg (msg (e_par e)) = Some off /\
    buf_str (e_buf e) off = Some (mk_ptr 1 (vtm_http_get_status_phrase (an_status p)));
  rs_version : version (shared (e_par e)) = an_version p;
  rs_headers : match headers (shared (e_par e)) with
               | None => answer_headers p = ∅
               | Some ds => hdr_ds malloc_ok printf_g ds (answer_headers p)
               end;
  rs_body : body_is (concat (an_body p)) e
}.

(** The bytes of the text that are left in the buffer. *)
Definition unread (p : answer) : Z :=
  if is_chunked p then 0 else Z.min 1 (zlen (concat (an_body p))).

Definition leftover (p : answer) : bytes :=
  if is_chunked p then [] else zdrop (zlen (concat (an_body p)) - 1) (concat (an_body p)).

Lemma leftover_len p : zlen (leftover p) = unread p.
Proof.
  unfold leftover, unread. destruct (is_chunked p); [done|]. unfold zlen, zdrop. rewrite length_drop. lia.
Qed.

(** The last line feed of the head and the body. *)
Lemma RUN_response_body p more m sh i pre h F :
  answer_ok p -> sh_hdr_ok sh (answer_headers p) F h -> body sh = None -> body_len sh = 0 -> chunk_dst i = 0 ->
  in_limits (pre ++ 10 :: body_text p) ->
  exists sh' i' pre',
    RUN VTM_HTTP_PARSE_HEADERS_END_LF 0 m sh i pre (10 :: body_text p ++ more) h
    = Some (VTM_NET_RECV_STAT_COMPLETE, env VTM_HTTP_PARSE_COMPLETE 1 m sh' i' (pre ++ pre') (leftover p ++ more) h) /\
    sh_hdr_ok sh' (answer_headers p) F h /\ version sh' = version sh /\
    body_is (concat (an_body p)) (env VTM_HTTP_PARSE_COMPLETE 1 m sh' i' (pre ++ pre') (leftover p ++ more) h) /\
    zlen pre' + unread p = 1 + zlen (body_text p).
Proof.
  intros Hp Hsh Hb Hbl Hcd Hlim. set (data := concat (an_body p)).
  pose proof (zlen_nonneg pre). pose proof (zlen_nonneg data).
  destruct (in_limits_2_63 _ _ _ Hlim) as [_ Hmax].
  assert (forall q, zlen q <= zlen pre + 1 + zlen (body_text p) -> in_limits q) as Hin
    by (intros q Hq; eapply in_limits_le; [|exact Hlim]; zl).
  destruct (is_chunked p) eqn:Hch.
  - assert (body_text p ++ more = concat (map chunk_text (an_body p)) ++ chunk_text [] ++ more) as Ebt
      by (unfold body_text; by rewrite Hch, <- app_assoc).
    assert (zlen (body_text p) = zlen (concat (map chunk_text (an_body p)) ++ chunk_text [])) as Elen
      by (unfold body_text; by rewrite Hch).
    pose proof (lookup_te p Hp) as Hte. rewrite Hch in Hte.
    destruct (RUN_body_chunked m sh i pre (body_text p ++ more) h F (answer_headers p) Hsh Hte) as (o & fr & Hok & E).
    { rewrite Ebt. intros Hx. apply app_eq_nil in Hx as [_ Hx]. discriminate Hx. }
    { apply Hin. pose proof (zlen_nonneg (body_text p)). zl. }
    destruct (RUN_chunks malloc_ok printf_g mh mb ord stc len used err (an_body p) m (sh_headers o fr sh)
      (in_body (zlen pre + 1) i) (pre ++ [10]) [] more h) as (J' & i' & E2 & Hlen).
    { cbn [in_body chunk_dst body_begin]. rewrite Hcd. change (0 =? 0) with true. cbn iota. zl. }
    { cbn [in_body body_begin]. lia. }
    { cbn [in_body body_begin sh_headers body_len]. rewrite Hbl. zl. }
    { cbn [sh_headers body_len]. lia. }
    { by apply ao_body. }
    { apply Hin. rewrite Elen. zl. }
    rewrite app_nil_r in E2.
    exists (body_done (sh_headers o fr sh) (in_body (zlen pre + 1) i) (zlen data)), i', (10 :: data ++ J').
    unfold leftover. rewrite Hch.
    rewrite E. rewrite Ebt, E2. cbn [sh_headers body_len app].
    assert (forall q : bytes, (pre ++ [10]) ++ q = pre ++ 10 :: q) as Hass by (intros q; by rewrite <- app_assoc).
    fold data. rewrite Hbl, Z.add_0_l. rewrite Hass. split; [done|].
    unfold body_done. split; [by destruct (0 <? _)|]. split; [by destruct (0 <? _)|]. split.
    + unfold body_is. cbn [HttpRequest.env e_par shared e_buf buf_data].
      destruct (0 <? zlen data); [|by split]. split; [done|]. eexists. split; [done|].
      cbn [in_body body_begin].
      replace ((pre ++ 10 :: data ++ J') ++ more) with ((pre ++ [10]) ++ data ++ (J' ++ more)) by (rewrite <- !app_assoc; cbn [app]; by rewrite <- !app_assoc).
      rewrite zdrop_app_exact by zl. by rewrite ztake_app_exact.
    + unfold unread. rewrite Hch. fold data in Hlen. zl.
  - pose proof (answer_hdr_length p Hp) as Hl. specialize (Hl ltac:(split; [done|]; unfold body_text in Hmax; rewrite Hch in Hmax; zl) Hch).
    fold data in Hl. assert (body_text p = data) as Ebt by (unfold body_text; by rewrite Hch).
    rewrite Ebt in *.
    set (bd := ztake (zlen data - 1) data). set (rest := zdrop (zlen data - 1) data).
    assert (data = bd ++ rest) as Edata by (symmetry; apply ztake_zdrop).
    assert (zlen bd = Z.max 0 (zlen data - 1)) as Hbd.
    { subst bd. unfold ztake, zlen. rewrite length_take. lia. }
    destruct (RUN_body malloc_ok printf_g VTM_HTTP_PM_RESPONSE mh mb ord stc len used err m sh i pre bd (rest ++ more) h F
      (answer_headers p)) as (o & fr & Hok & E); try done.
    { right. by rewrite Hl. }
    { unfold not_chunked. by rewrite lookup_te, Hch. }
    { unfold body_awaited. by rewrite Hl. }
    { apply Hin. zl. }
    rewrite Hl in E. exists (mark_body (Some (zlen data)) (in_body (zlen pre + 1) i) (sh_headers o fr sh)),
      (in_body (zlen pre + 1) i), (10 :: bd).
    unfold leftover. rewrite Hch. fold data rest.
    assert ((pre ++ [10]) ++ bd = pre ++ 10 :: bd) as Hass by by rewrite <- app_assoc.
    rewrite Hass, app_assoc, <- Edata in E. split; [exact E|]. cbn [mark_body].
    split; [by destruct (0 <? _)|]. split; [by destruct (0 <? _)|]. split.
    + unfold body_is. cbn [HttpRequest.env e_par shared e_buf buf_data].
      destruct (0 <? zlen data); [|by split]. split; [done|]. eexists. split; [done|].
      cbn [in_body body_begin].
      replace ((pre ++ 10 :: bd) ++ rest ++ more) with ((pre ++ [10]) ++ data ++ more) by (rewrite Edata at 1; by rewrite <- !app_assoc).
      rewrite zdrop_app_exact by zl. by apply ztake_app_exact.
    + unfold unread. rewrite Hch. fold data. zl.
Qed.
End response.

(** The text of a response, with more behind it. *)
Lemma run_response malloc_ok printf_g p more par ord stc len err h :
  mode par = VTM_HTTP_PM_RESPONSE -> answer_ok p ->
  in_limits (max_header_size par) (max_body_size par) (answer_text p) ->
  zlen (answer_text p ++ more) < 2 ^ 63 ->
  exists e, vtm_http_parser_run malloc_ok printf_g all_ok
      (mk_env (vtm_http_parser_reset par) (received ord stc (answer_text p ++ more) len err) h)
      = Some (VTM_NET_RECV_STAT_COMPLETE, e) /\
    response_parsed malloc_ok printf_g p e /\
    buf_read (e_buf e) = zlen (answer_text p) - unread p /\
    (exists F, h ⊆ F /\ (distinct_fields (map as_field (answer_fields p)) -> F = h) /\
       sh_hdr_ok malloc_ok printf_g (shared (e_par e)) (answer_headers p) F (e_heap e)) /\
    buf_content (e_buf e) = leftover p ++ more /\
    mode (e_par e) = mode par /\ max_header_size (e_par e) = max_header_size par /\
    max_body_size (e_par e) = max_body_size par.
Proof.
  intros Hmode Hp Hlim Hmore.
  set (mh := max_header_size par) in *. set (mb := max_body_size par) in *.
  pose proof (answer_text_eq p) as Et. destruct (in_limits_2_63 _ _ _ Hlim) as [_ Hmax].
  set (v := an_version p). set (fs := map as_field (answer_fields p)) in *.
  assert (status_line p = version_text v ++ [32] ++ status_text (an_status p) ++ [32] ++
    vtm_http_get_status_phrase (an_status p) ++ [13; 10]) as Esl by done.
  pose proof (zlen_nonneg (concat (an_body p))). pose proof (zlen_nonneg (fields_text fs)).
  pose proof (zlen_nonneg (status_line p)). pose proof (zlen_nonneg (body_text p)).
  assert (zlen (answer_text p) = zlen (status_line p) + zlen (fields_text fs) + 2 + zlen (body_text p)) as Hlen
    by (rewrite Et; zl).
  assert (0 <= an_length p < 2 ^ 63) as Hal.
  { unfold an_length. rewrite (ao_emt p Hp). split; [done|].
    destruct (is_chunked p) eqn:Hch.
    - assert (zlen (concat (an_body p)) <= zlen (concat (map chunk_text (an_body p)))) as Hc.
      { generalize (an_body p). clear. induction l as [|d l IH]; [done|]. cbn [map concat].
        rewrite !zlen_app, chunk_text_len. pose proof (zlen_nonneg (hex_text (zlen d))). lia. }
      unfold body_text in Hlen. rewrite Hch, zlen_app in Hlen. pose proof (zlen_nonneg (chunk_text [])). lia.
    - unfold body_text in Hlen. rewrite Hch in Hlen. lia. }
  assert (Forall field_ok fs) as Hfs by (apply answer_fields_ok; [done|lia]).
  rewrite run_received; [|done|rewrite Et; unfold status_line; by destruct (an_version p)].
  rewrite Hmode. fold mh mb. set (used := zlen (answer_text p ++ more)).
  destruct (RUN_response_head malloc_ok printf_g mh mb ord stc len used err v (an_status p) fs (body_text p ++ more) h
    (ao_status p Hp) Hfs) as (m & sh & i & pre & h' & F & off & E & Hpre & Hsh & HF & HF' & Hv & Hb & Hbl & Hcd & Hcode & Hmsg & Ho & Hstr).
  { eapply in_limits_le; [|exact Hlim]. rewrite Hlen, Esl. zl. }
  assert (zlen pre + 1 = zlen (status_line p) + zlen (fields_text fs) + 2) as Hpl by (rewrite Hpre, Esl; zl).
  destruct (RUN_response_body malloc_ok printf_g mh mb ord stc len used err p more m sh i pre h' F)
    as (sh' & i' & pre' & E2 & Hok & Hv2 & Hbody & Hread); try done.
  { eapply in_limits_le; [|exact Hlim]. rewrite Hlen. zl. }
  rewrite E2 in E. rewrite Et, Esl, <- !app_assoc. cbn [app]. eexists. split; [exact E|]. split.
  - constructor.
    + done.
    + exists off. split; [done|]. unfold buf_str. cbn [HttpRequest.env e_buf buf_data].
      rewrite (proj2 (Z.ltb_ge off 0)) by done. by rewrite <- app_assoc, Hstr.
    + cbn [HttpRequest.env e_par shared]. exact (eq_trans Hv2 Hv).
    + cbn [HttpRequest.env e_par shared]. exact (sh_hdr_parsed _ _ _ _ _ _ Hok).
    + exact Hbody.
  - split; [cbn [HttpRequest.env e_buf buf_read]; rewrite Esl in Hlen, Hpl; zl|]. split; [by exists F|].
    split; [|done]. unfold buf_content. cbn [HttpRequest.env e_buf buf_read buf_used buf_data].
    assert (zlen ((pre ++ pre') ++ leftover p ++ more) = used) as Hu.
    { subst used. rewrite !zlen_app, leftover_len, Hlen. lia. }
    rewrite ztake_all by lia. by rewrite zdrop_app_exact.
Qed.

(** C30: a response survives the wire (net/http/http_response.c and
    http_parser.c in the mode RESPONSE).  The text of every response without
    emitters, whose headers are header fields other than Content-Length and
    Transfer-Encoding and whose chunks are not empty, followed by anything, is
    parsed to its parts: the run ends with COMPLETE and hands over the status
    code, the phrase, the version, all headers by name and the body, which for
    the mode CHUNKED was put together in the buffer; what follows is not touched.
    The text is shorter than the limits that the parser was given, and memory
    suffices for the objects that it makes.  In the mode FIXED the last byte of the body is not consumed. *)
Theorem http_response_parsed malloc_ok printf_g p more par ord stc len err h
    (Hmode : mode par = VTM_HTTP_PM_RESPONSE) (Hp : answer_ok p)
    (Hlim : in_limits (max_header_size par) (max_body_size par) (answer_text p))
    (Hmore : zlen (answer_text p ++ more) < 2 ^ 63) :
  exists e, vtm_http_parser_run malloc_ok printf_g all_ok
      (mk_env (vtm_http_parser_reset par) (received ord stc (answer_text p ++ more) len err) h)
      = Some (VTM_NET_RECV_STAT_COMPLETE, e) /\
    response_parsed malloc_ok printf_g p e /\
    buf_read (e_buf e) = zlen (answer_text p) - unread p.
Proof.
  destruct (run_response malloc_ok printf_g p more par ord stc len err h Hmode Hp Hlim Hmore) as (e & E & Hpar & Hrd & _).
  by exists e.
Qed.

(** an empty piece of the body ends a chunked response
    (net/http/http_response.c, vtm_http_res_body_raw): the chunk of length zero
    that is written for it is the mark of the end, so the peer's parser takes
    the body for complete and leaves all later pieces in the buffer. *)
Theorem empty_chunk_truncates malloc_ok printf_g p ds par ord stc len err h
    (Hmode : mode par = VTM_HTTP_PM_RESPONSE) (Hp : answer_ok p) (Hch : is_chunked p = true)
    (Hlim : in_limits (max_header_size par) (max_body_size par) (answer_text p))
    (Hmore : zlen (answer_text (fold_left (fun p d => an_add_body d p) ([] :: ds) p)) < 2 ^ 63) :
  exists e, vtm_http_parser_run malloc_ok printf_g all_ok
      (mk_env (vtm_http_parser_reset par)
        (received ord stc (answer_text (fold_left (fun p d => an_add_body d p) ([] :: ds) p)) len err) h)
      = Some (VTM_NET_RECV_STAT_COMPLETE, e) /\
    body_is (concat (an_body p)) e /\
    buf_read (e_buf e) = zlen (answer_text p).
Proof.
  assert (answer_text (fold_left (fun p d => an_add_body d p) ([] :: ds) p)
    = answer_text p ++ concat (map chunk_text ds) ++ chunk_text []) as E.
  { assert (forall l q, is_chunked q = true -> fold_left (fun p d => an_add_body d p) l q
      = mk_answer (an_version q) (an_mode q) (an_status q) (an_date q) (an_act q) (an_fields q)
          (an_body q ++ l) (an_emt q)) as Hf.
    { induction l as [|d l IH]; intros q Hq; cbn [fold_left]; [rewrite app_nil_r; by destruct q|].
      rewrite IH by done. cbn [an_add_body an_version an_mode an_status an_date an_act an_fields an_body an_emt].
      by rewrite <- app_assoc. }
    rewrite Hf by done. set (q := mk_answer _ _ _ _ _ _ _ _). unfold answer_text.
    change (is_chunked q) with (is_chunked p). rewrite Hch. change (an_head q) with (an_head p).
    cbn [q an_act an_body]. rewrite map_app, concat_app. cbn [map concat]. by rewrite <- !app_assoc. }
  rewrite E in Hmore |- *.
  destruct (run_response malloc_ok printf_g p _ par ord stc len err h Hmode Hp Hlim Hmore) as (e & Er & Hpar & Hrd & _).
  exists e. split; [exact Er|]. split; [exact (rs_body _ _ _ _ Hpar)|]. rewrite Hrd. unfold unread. rewrite Hch. lia.
Qed.

(** ** Concrete responses *)

Definition res_parser : vtm_http_parser :=
  vtm_http_parser_init (mk_parser VTM_HTTP_PM_RESPONSE VTM_HTTP_PARSE_BEGIN 0 0 0 reset_msg reset_shared reset_intl)
    VTM_HTTP_PM_RESPONSE.

Lemma demo_answer_ok mode : answer_ok (demo_answer mode).
Proof.
  assert (forall nv, const_field nv = true -> ~ reserved nv.1 ->
    field_ok (as_field nv) /\ ~ reserved nv.1) as H by (intros; split; [by apply const_field_ok|done]).
  constructor.
  - cbn. lia.
  - apply const_field_ok. by vm_compute.
  - destruct mode; cbn [demo_answer an_fields app]; repeat (apply Forall_cons_2; [apply H; [by vm_compute|] |]);
      try apply Forall_nil_2; intros [Hx|Hx]; discriminate Hx.
  - intros _. repeat constructor; discriminate.
  - done.
Qed.

Lemma http_response_parsed_witness :
  exists e, vtm_http_parser_run (fun _ => true) (fun _ => []) all_ok
      (mk_env (vtm_http_parser_reset res_parser)
        (received VTM_BYTEORDER_LE InArray (answer_text (demo_answer VTM_HTTP_RES_MODE_CHUNKED) ++ [88]) 1024 0) ∅)
      = Some (VTM_NET_RECV_STAT_COMPLETE, e) /\
    res_status_code (msg (e_par e)) = 200 /\ body_is (cstr_of "Hello you"%string) e.
Proof.
  destruct (http_response_parsed (fun _ => true) (fun _ => []) (demo_answer VTM_HTTP_RES_MODE_CHUNKED) [88] res_parser
    VTM_BYTEORDER_LE InArray 1024 0 ∅) as (e & E & Hp & _).
  - reflexivity.
  - apply demo_answer_ok.
  - unfold in_limits. vm_compute. repeat split; discriminate.
  - vm_compute. reflexivity.
  - exists e. split; [exact E|]. destruct Hp as [Hc _ _ _ Hb]. split; [exact Hc|exact Hb].
Defined.

Lemma empty_chunk_truncates_witness :
  exists e, vtm_http_parser_run (fun _ => true) (fun _ => []) all_ok
      (mk_env (vtm_http_parser_reset res_parser)
        (received VTM_BYTEORDER_LE InArray
          (answer_text (fold_left (fun p d => an_add_body d p) [[]; cstr_of "lost"%string]
             (demo_answer VTM_HTTP_RES_MODE_CHUNKED))) 1024 0) ∅)
      = Some (VTM_NET_RECV_STAT_COMPLETE, e) /\
    body_is (cstr_of "Hello you"%string) e.
Proof.
  destruct (empty_chunk_truncates (fun _ => true) (fun _ => []) (demo_answer VTM_HTTP_RES_MODE_CHUNKED)
    [cstr_of "lost"%string] res_parser VTM_BYTEORDER_LE InArray 1024 0 ∅) as (e & E & Hb & _).
  - reflexivity.
  - apply demo_answer_ok.
  - reflexivity.
  - unfold in_limits. vm_compute. repeat split; discriminate.
  - vm_compute. reflexivity.
  - exists e. split; [exact E|exact Hb].
Defined.
