(* ===== verification/HttpFrame.v ===== *)
(** * HttpFrame: what lies behind the received bytes

    The block of a receive buffer still holds bytes of earlier messages behind
    the ones that were received last.  The parser of net/http/http_parser.c
    does not see them: a run on the block without them is a run with them. *)
From stdpp Require Import gmap fin_sets.
From S2P Require Import Prelude Base Buffer Str Ws Elem Hash Heap Table Smap Dataset.
From S2P Require Import Http HttpParser HttpRequest.

Lemma ztake_nonpos n (l : bytes) : n <= 0 -> ztake n l = [].
Proof. intros H. unfold ztake. by rewrite Z2Nat.nonpos by lia. Qed.

Lemma splice_nil i (l : bytes) : splice i [] l = l.
Proof. unfold splice. change (zlen (A:=Z) []) with 0. rewrite Z.add_0_r. cbn [app]. apply ztake_zdrop. Qed.

Section frame.
Context (malloc_ok : Z -> bool) (printf_g : Z -> bytes) (a : http_alloc) (t : bytes).

(** More initialised bytes behind the ones of the block. *)
Definition buf_tail (b : vtm_buf) : vtm_buf :=
  mk_buf (buf_order b) (buf_place b) (buf_data b ++ t) (buf_len b) (buf_used b) (buf_read b) (buf_err b).
Definition env_tail (e : http_env) : http_env := mk_env (e_par e) (buf_tail (e_buf e)) (e_heap e).

Lemma c_string_tail l s : c_string l = Some s -> c_string (l ++ t) = Some s.
Proof.
  revert s. induction l as [|c l IH]; intros s; [done|]. cbn [c_string app]. destruct (c =? 0); [done|].
  intros (s' & E & [= <-])%bind_Some. by rewrite (IH _ E).
Qed.

Lemma buf_str_tail b off p : buf_str b off = Some p -> buf_str (buf_tail b) off = Some p.
Proof.
  unfold buf_str. destruct (Z.ltb_spec off 0); [done|]. intros (s & E & [= <-])%bind_Some.
  cbn [buf_tail buf_data]. destruct (Z.leb_spec off (zlen (buf_data b))).
  - by rewrite zdrop_app_le, (c_string_tail _ _ E) by lia.
  - unfold zdrop in E. rewrite drop_ge in E by (unfold zlen in *; lia). done.
Qed.

Lemma buf_nul_tail b i b' : buf_nul b i = Some b' -> buf_nul (buf_tail b) i = Some (buf_tail b').
Proof.
  unfold buf_nul. cbn [buf_tail buf_data]. destruct (Z.leb_spec 0 i), (Z.ltb_spec i (zlen (buf_data b))); try done.
  intros [= <-]. pose proof (zlen_nonneg t). rewrite zlen_app, (proj2 (Z.ltb_lt _ _)) by lia. cbn [andb].
  unfold buf_with_data, zput. cbn [buf_tail buf_order buf_place buf_len buf_used buf_read buf_err buf_data].
  by rewrite splice_app by (change (zlen [0]) with 1; lia).
Qed.

Lemma nul_here_tail e e' : nul_here e = Some e' -> nul_here (env_tail e) = Some (env_tail e').
Proof.
  unfold nul_here. intros (b & E & [= <-])%bind_Some. cbn [env_tail e_buf buf_tail buf_read].
  change (buf_nul _ _) with (buf_nul (buf_tail (e_buf e)) (buf_read (e_buf e) - 1)). by rewrite (buf_nul_tail _ _ _ E).
Qed.

Lemma znth_tail (l : bytes) i c : znth l i = Some c -> znth (l ++ t) i = Some c.
Proof. unfold znth. destruct (i <? 0); [done|]. apply lookup_app_l_Some. Qed.

Lemma len_tail (l : bytes) : (length l <= length (l ++ t))%nat.
Proof. rewrite length_app. lia. Qed.

Lemma value_end_tail fuel fuel' data j k :
  (fuel <= fuel')%nat -> header_value_end fuel data j = Some k -> header_value_end fuel' (data ++ t) j = Some k.
Proof.
  revert fuel' j. induction fuel as [|fuel IH]; intros [|fuel'] j Hf; try done; [lia|]. cbn [header_value_end].
  intros (c & E & H)%bind_Some. rewrite (znth_tail _ _ _ E). cbn [mbind option_bind].
  destruct (vtm_http_parser_isspace c); [|done]. apply IH; [lia|done].
Qed.

Lemma buf_move_tail b d s n b' : buf_move b d s n = Some b' -> buf_move (buf_tail b) d s n = Some (buf_tail b').
Proof.
  unfold buf_move. cbn [buf_tail buf_data]. pose proof (zlen_nonneg t). rewrite !zlen_app.
  destruct (Z.leb_spec 0 d), (Z.leb_spec 0 s), (Z.leb_spec (d + n) (zlen (buf_data b))),
    (Z.leb_spec (s + n) (zlen (buf_data b))); try done. intros [= <-].
  rewrite !(proj2 (Z.leb_le _ _)) by lia. cbn [andb]. unfold buf_with_data.
  cbn [buf_tail buf_order buf_place buf_len buf_used buf_read buf_err buf_data].
  destruct (Z.leb_spec n 0).
  { by rewrite !ztake_nonpos, !splice_nil by lia. }
  rewrite zdrop_app_le by lia. rewrite ztake_app_le by (rewrite zlen_zdrop; lia).
  by rewrite splice_app by (rewrite ?zlen_ztake; rewrite ?zlen_zdrop; lia).
Qed.

Lemma getc_tail b c b' : VTM_BUF_GETC b = Some (c, b') -> VTM_BUF_GETC (buf_tail b) = Some (c, buf_tail b').
Proof.
  unfold VTM_BUF_GETC. cbn [buf_tail buf_data buf_read]. intros (x & E & [= <- <-])%bind_Some.
  by rewrite (znth_tail _ _ _ E).
Qed.

Lemma par_tail e : e_par (env_tail e) = e_par e. Proof. done. Qed.
Lemma heap_tail e : e_heap (env_tail e) = e_heap e. Proof. done. Qed.
Lemma ebuf_tail e : e_buf (env_tail e) = buf_tail (e_buf e). Proof. done. Qed.
Lemma read_tail b : buf_read (buf_tail b) = buf_read b. Proof. done. Qed.
Lemma used_tail b : buf_used (buf_tail b) = buf_used b. Proof. done. Qed.
Lemma with_par_tail e p : with_par (env_tail e) p = env_tail (with_par e p). Proof. done. Qed.
Lemma to_state_tail e s : to_state (env_tail e) s = env_tail (to_state e s). Proof. done. Qed.
Lemma invalid_tail e : invalid (env_tail e) = Some (HReturn VTM_NET_RECV_STAT_INVALID, env_tail e).
Proof. done. Qed.
Lemma expect_tail e c w s : expect (env_tail e) c w s = (if c =? w then Some (HNext, env_tail (to_state e s))
  else Some (HReturn VTM_NET_RECV_STAT_INVALID, env_tail e)).
Proof. done. Qed.

(** The steps of a state: both sides take the same way. *)
Ltac tail_norm := rewrite ?with_par_tail, ?to_state_tail, ?invalid_tail, ?expect_tail, ?par_tail, ?heap_tail,
  ?ebuf_tail, ?read_tail, ?used_tail.
Ltac tail_step := match goal with
  | H : Some _ = Some _ |- _ => injection H as H; subst
  | H : mbind _ _ = Some _ |- _ => let E := fresh "E" in apply bind_Some in H as (? & E & H)
  | H : nul_here ?e = Some _ |- context [nul_here (env_tail ?e)] => rewrite (nul_here_tail _ _ H)
  | H : buf_str _ _ = Some _ |- context [buf_str (buf_tail _) _] => rewrite (buf_str_tail _ _ _ H)
  | H : buf_nul _ _ = Some _ |- context [buf_nul (buf_tail _) _] => rewrite (buf_nul_tail _ _ _ H)
  | H : buf_move _ _ _ _ = Some _ |- context [buf_move (buf_tail _) _ _ _] => rewrite (buf_move_tail _ _ _ _ _ H)
  | H : ?x = Some _ |- context [?x] => rewrite H
  | H : ?x = None |- context [?x] => rewrite H
  | H : header_value_end _ _ _ = Some _ |- context [header_value_end ?n _ _] =>
      rewrite (value_end_tail _ n _ _ _ (len_tail _) H)
  | H : context [match ?x with _ => _ end] |- _ =>
      lazymatch x with context [match _ with _ => _ end] => fail | _ => idtac end;
      revert H; destruct x eqn:?; intros H
  end; cbn [mbind option_bind buf_tail buf_data]; tail_norm.

Lemma switch_tail e c ctl e' :
  http_switch malloc_ok printf_g a e c = Some (ctl, e') ->
  http_switch malloc_ok printf_g a (env_tail e) c = Some (ctl, env_tail e').
Proof.
  unfold http_switch. rewrite par_tail.
  destruct (state (e_par e)) eqn:Es; intros H.
  all: unfold http_begin, http_req_method, http_req_path, http_param_begin, http_param_name, http_param_value,
    http_req_line_lf, http_status_code, http_status_msg_cr, http_status_msg_lf, http_version_literal,
    http_version_major, http_version_minor, http_header_line_begin, http_header_name, http_header_value,
    http_header_line_lf, http_header_line_complete, http_headers_end_lf, http_body, http_body_readall,
    http_body_fixedlength, http_body_chunked, http_chunk_size, http_chunk_size_lf, http_chunk_content,
    http_chunk_end_lf, http_complete, http_body_default, vtm_http_parser_save_header, expect, invalid in *; tail_norm.
  all: cbv zeta in *; try (repeat tail_step; done).
  revert H. cbn [e_par e_buf]. change (buf_read (VTM_BUF_PROCESS_ALL (buf_tail (e_buf e))))
    with (buf_read (VTM_BUF_PROCESS_ALL (e_buf e))). destruct (_ <? _); by intros [= <- <-].
Qed.

Lemma eval_tail fuel : forall old e c r e',
  http_eval malloc_ok printf_g a fuel old e c = Some (r, e') ->
  http_eval malloc_ok printf_g a fuel old (env_tail e) c = Some (r, env_tail e').
Proof.
  induction fuel as [|fuel IH]; intros old e c r e'; [done|]. cbn [http_eval]. rewrite par_tail.
  intros ([ctl e1] & E & H)%bind_Some. rewrite with_par_tail, (switch_tail _ _ _ _ E). cbn [mbind option_bind].
  destruct ctl; [by injection H as <- <-|by apply IH|by injection H as <- <-].
Qed.

Lemma run_loop_tail n : forall old e s e',
  http_run_loop malloc_ok printf_g a n old e = Some (s, e') ->
  http_run_loop malloc_ok printf_g a n old (env_tail e) = Some (s, env_tail e').
Proof.
  induction n as [|n IH]; intros old e s e'; cbn [http_run_loop]; [by intros [= <- <-]|].
  change (http_over_limit (env_tail e)) with (http_over_limit e).
  destruct (http_over_limit e); [by intros [= <- <-]|]. rewrite ebuf_tail.
  intros ([c b] & E & ([r e1] & E1 & H)%bind_Some)%bind_Some. rewrite (getc_tail _ _ _ E). cbn [mbind option_bind].
  change (mk_env (e_par (env_tail e)) (buf_tail b) (e_heap (env_tail e)))
    with (env_tail (mk_env (e_par e) b (e_heap e))).
  rewrite (eval_tail _ _ _ _ _ _ E1). cbn [mbind option_bind]. destruct r; [by injection H as <- <-|by apply IH].
Qed.

(** The parser does not look behind the bytes that were received: what the block
    holds there makes no difference. *)
Lemma parser_run_tail e s e' :
  vtm_http_parser_run malloc_ok printf_g a e = Some (s, e') ->
  vtm_http_parser_run malloc_ok printf_g a (env_tail e) = Some (s, env_tail e').
Proof.
  unfold vtm_http_parser_run. change (VTM_BUF_GET_AVAIL_TOTAL (e_buf (env_tail e))) with (VTM_BUF_GET_AVAIL_TOTAL (e_buf e)).
  rewrite par_tail. destruct (_ =? 0); [|apply run_loop_tail].
  destruct (state (e_par e)); by intros [= <- <-].
Qed.
End frame.

(** ** What a run keeps of the buffer *)

Section keep.
Context (malloc_ok : Z -> bool) (printf_g : Z -> bytes) (a : http_alloc).

(** The same block with the same number of bytes, other contents. *)
Definition same_block (b b' : vtm_buf) : Prop :=
  buf_order b' = buf_order b /\ buf_place b' = buf_place b /\ buf_len b' = buf_len b /\
  buf_used b' = buf_used b /\ buf_err b' = buf_err b /\ zlen (buf_data b') = zlen (buf_data b) /\
  (Forall is_byte (buf_data b) -> Forall is_byte (buf_data b')).

(** Nothing more was read. *)
Definition keeps (b b' : vtm_buf) : Prop := same_block b b' /\ buf_read b' = buf_read b.

(** A state that returns may skip what is left. *)
Definition keeps_or_all (returns : Prop) (b b' : vtm_buf) : Prop :=
  keeps b b' \/ (returns /\ same_block b b' /\ buf_read b' = buf_used b).

Lemma keeps_refl b : keeps b b.
Proof. split; [by split_and!|done]. Qed.

Lemma same_block_trans b1 b2 b3 : same_block b1 b2 -> same_block b2 b3 -> same_block b1 b3.
Proof.
  intros (O1 & S1 & L1 & U1 & E1 & D1 & B1) (O2 & S2 & L2 & U2 & E2 & D2 & B2).
  split_and!; congruence || auto.
Qed.

Lemma buf_nul_keeps b i b' : buf_nul b i = Some b' -> keeps b b'.
Proof.
  unfold buf_nul. destruct (Z.leb_spec 0 i), (Z.ltb_spec i (zlen (buf_data b))); try done.
  intros [= <-]. split; [|done]. split_and!; try done; cbn [buf_with_data buf_data]; unfold zput.
  - rewrite zlen_splice by lia. change (zlen [0]) with 1. lia.
  - intros Hb. apply splice_bytes; [|done]. apply Forall_singleton. unfold is_byte. lia.
Qed.

Lemma nul_here_keeps e e' : nul_here e = Some e' -> keeps (e_buf e) (e_buf e').
Proof. unfold nul_here. intros (b & E & [= <-])%bind_Some. by apply buf_nul_keeps in E. Qed.

Lemma buf_move_keeps b d s n b' : buf_move b d s n = Some b' -> keeps b b'.
Proof.
  unfold buf_move. destruct (Z.leb_spec 0 d), (Z.leb_spec 0 s), (Z.leb_spec (d + n) (zlen (buf_data b))),
    (Z.leb_spec (s + n) (zlen (buf_data b))); try done. intros [= <-].
  split; [|done]. split_and!; try done; cbn [buf_with_data buf_data].
  - destruct (Z.leb_spec n 0).
    + rewrite ztake_nonpos, splice_nil by lia. done.
    + rewrite zlen_splice by lia. rewrite zlen_ztake; rewrite ?zlen_zdrop; lia.
  - intros Hb. apply splice_bytes; [|done]. by apply Forall_take, Forall_drop.
Qed.

Ltac keep_step := match goal with
  | |- keeps ?b ?b => apply keeps_refl
  | H : Some _ = Some _ |- _ => injection H as H; subst
  | H : mbind _ _ = Some _ |- _ => let E := fresh "E" in apply bind_Some in H as (? & E & H)
  | H : nul_here ?e = Some _ |- _ => apply nul_here_keeps in H
  | H : buf_nul ?e _ = Some _ |- _ => apply buf_nul_keeps in H
  | H : buf_move _ _ _ _ = Some _ |- _ => apply buf_move_keeps in H
  | H : context [match ?x with _ => _ end] |- _ =>
      lazymatch x with context [match _ with _ => _ end] => fail | _ => idtac end;
      revert H; destruct x eqn:?; intros H
  end; cbn [e_buf e_par e_heap with_par to_state] in *; try discriminate.

Lemma readall_keeps e ctl e' :
  http_body_readall e = Some (ctl, e') -> keeps_or_all (exists s, ctl = HReturn s) (e_buf e) (e_buf e').
Proof.
  unfold http_body_readall. cbv zeta. destruct (_ <? _); intros [= <- <-]; right; (split; [by eexists|]);
    (split; [by split_and!|done]).
Qed.

Lemma switch_keeps e c ctl e' :
  http_switch malloc_ok printf_g a e c = Some (ctl, e') ->
  keeps_or_all (exists s, ctl = HReturn s) (e_buf e) (e_buf e').
Proof.
  unfold http_switch. destruct (state (e_par e)) eqn:Es; intros H; try (by apply readall_keeps); left.
  all: unfold http_begin, http_req_method, http_req_path, http_param_begin, http_param_name, http_param_value,
    http_req_line_lf, http_status_code, http_status_msg_cr, http_status_msg_lf, http_version_literal,
    http_version_major, http_version_minor, http_header_line_begin, http_header_name, http_header_value,
    http_header_line_lf, http_header_line_complete, http_headers_end_lf, http_body,
    http_body_fixedlength, http_body_chunked, http_chunk_size, http_chunk_size_lf, http_chunk_content,
    http_chunk_end_lf, http_complete, http_body_default, expect, invalid in *.
  all: cbv zeta in *; repeat keep_step; try (by apply keeps_refl); done.
Qed.

Lemma eval_keeps fuel : forall old e c r e',
  http_eval malloc_ok printf_g a fuel old e c = Some (r, e') ->
  keeps_or_all (exists s, r = inl s) (e_buf e) (e_buf e').
Proof.
  induction fuel as [|fuel IH]; intros old e c r e'; [done|]. cbn [http_eval].
  intros ([ctl e1] & E%switch_keeps & H)%bind_Some. destruct ctl.
  - injection H as <- <-. destruct E as [E|([? ?] & _)]; [by left|done].
  - destruct E as [[E1 R1]|([? ?] & _)]; [|done]. cbn [e_buf with_par] in *.
    destruct (IH _ _ _ _ _ H) as [[E2 R2]|(Hs & E2 & R2)].
    + left. split; [by eapply same_block_trans|congruence].
    + right. split; [done|]. split; [by eapply same_block_trans|].
      pose proof E1 as (_ & _ & _ & Hu & _). congruence.
  - injection H as <- <-. destruct E as [E|(_ & E)]; [by left|right]. split; [by eexists|done].
Qed.

Lemma same_block_getc b c b' :
  VTM_BUF_GETC b = Some (c, b') -> buf_read b < SIZE_MAX -> 0 <= buf_read b ->
  same_block b b' /\ buf_read b' = buf_read b + 1.
Proof.
  unfold VTM_BUF_GETC. intros (x & _ & [= _ <-])%bind_Some H1 H2. split; [by split_and!|].
  cbn [buf_with_read buf_read]. apply u64_small. unfold is_size. lia.
Qed.

Lemma run_loop_keeps n : forall old e s e',
  http_run_loop malloc_ok printf_g a n old e = Some (s, e') ->
  0 <= buf_read (e_buf e) -> buf_read (e_buf e) + Z.of_nat n <= buf_used (e_buf e) ->
  buf_used (e_buf e) < SIZE_MAX ->
  same_block (e_buf e) (e_buf e') /\ buf_read (e_buf e) <= buf_read (e_buf e') <= buf_used (e_buf e).
Proof.
  induction n as [|n IH]; intros old e s e' H Hr Hn Hs; cbn [http_run_loop] in H.
  { injection H as <- <-. split; [by split_and!|lia]. }
  destruct (http_over_limit e); [injection H as <- <-; split; [by split_and!|lia]|].
  apply bind_Some in H as ([c b] & E & H). apply bind_Some in H as ([r e1] & E1 & H).
  destruct (same_block_getc _ _ _ E) as [Hb Er]; [lia|lia|]. pose proof Hb as (_ & _ & _ & Hu & _).
  apply eval_keeps in E1 as [[Hb1 Hr1]|([s1 ->] & Hb1 & Hr1)]; cbn [e_buf] in *;
    pose proof (same_block_trans _ _ _ Hb Hb1) as Hb2; pose proof Hb2 as (_ & _ & _ & Hu2 & _).
  - destruct r as [s1|old1]; [injection H as <- <-; split; [done|lia]|].
    destruct (IH _ _ _ _ H) as [Hb3 Hr3]; [lia..|]. split; [by eapply same_block_trans|lia].
  - injection H as <- <-. split; [done|lia].
Qed.

(** Whatever was received: the parser keeps the buffer well formed, and it reads
    at most what was received. *)
Lemma parser_run_keeps e s e' :
  buf_ok (e_buf e) -> vtm_http_parser_run malloc_ok printf_g a e = Some (s, e') ->
  buf_ok (e_buf e') /\ same_block (e_buf e) (e_buf e') /\ buf_read (e_buf e) <= buf_read (e_buf e').
Proof.
  intros Hb H. assert (same_block (e_buf e) (e_buf e') /\ buf_read (e_buf e) <= buf_read (e_buf e') <= buf_used (e_buf e))
    as [Hs Hr].
  { unfold vtm_http_parser_run, VTM_BUF_GET_AVAIL_TOTAL in H. buf_sizes.
    rewrite u64_small in H by (unfold is_size, SIZE_MAX; lia). destruct (Z.eqb_spec (buf_used (e_buf e) - buf_read (e_buf e)) 0).
    - split; [|destruct (state (e_par e)); injection H as <- <-; cbn [e_buf with_par]; lia].
      by destruct (state (e_par e)); injection H as <- <-; split_and!.
    - eapply run_loop_keeps; [exact H|lia|rewrite Z2Nat.id; lia|unfold SIZE_MAX; lia]. }
  split; [|split; [done|lia]]. destruct Hs as (_ & Est & El & Eu & Ee & Ed & Hby).
  destruct Hb as [Hp Hrd Hud Hld Hpl Hst Hbs Hdef]. constructor; rewrite ?Est, ?El, ?Eu, ?Ed, ?Ee; auto; lia.
Qed.
End keep.
