(* ===== verification/HttpCon.v ===== *)
(** * HttpCon: connections of the HTTP server

    net/socket_connection.c, net/http/http_connection.c and
    net/http/ws_connection.c.  The socket of a connection is state of the
    caller.  Two pointers of a connection lead into blocks of others and are
    modelled with what they lead to: the path of the parsed request lies in the
    receive buffer ([path_home]), and an emitter that waits for the peer lies
    over the buffer of the response object ([pe_block]). *)

From S2P Require Import Prelude Base Buffer Format Str Ws Elem Hash Heap Table.
From S2P Require Import Smap Dataset Http HttpParser Socket Emitter HttpResponse.

(** ** Stream connections, net/socket_connection.c *)

(** net/socket_connection.h:24-34 [struct vtm_socket_con].  Without the socket
    and the pointer of the user; the mutex is free whenever a function is
    entered. *)
Record vtm_socket_con := mk_scon { sc_recvbuf : vtm_buf; sc_sendbuf : vtm_buf; sc_writing : bool }.

Definition scon_with_recv b (con : vtm_socket_con) := mk_scon b (sc_sendbuf con) (sc_writing con).
Definition scon_with_send b (con : vtm_socket_con) := mk_scon (sc_recvbuf con) b (sc_writing con).
Definition scon_with_writing w (con : vtm_socket_con) := mk_scon (sc_recvbuf con) (sc_sendbuf con) w.

(** net/socket_connection.c:37-51.  [ok] is the answer of vtm_mutex_new(). *)
Definition vtm_socket_con_init (ok : bool) : option vtm_socket_con :=
  if negb ok then None
  else Some (mk_scon (vtm_buf_init VTM_BYTEORDER_BE) (vtm_buf_init VTM_BYTEORDER_BE) false).

Section SocketCon.
Context {OS SA : Type} (vt : vtm_socket_vtable OS SA).
Implicit Types (s : vtm_socket) (os : OS).

(** The bytes that are not yet sent; none behind NULL. *)
Definition buf_unsent (b : vtm_buf) : option bytes :=
  if decide (buf_place b = Nowhere /\ buf_read b <> buf_used b) then None else Some (buf_content b).

(** net/socket_connection.c:103-120.  What is left of the send buffer is offered
    to the socket; no result if it was lost for want of memory.  That the stream server is told to look at the socket again
    concerns its registration only. *)
Definition vtm_socket_con_write_internal (con : vtm_socket_con) s os
    : option (Z * vtm_socket_con * vtm_socket * OS) :=
  let b := sc_sendbuf con in
  data ← buf_unsent b;
  '(rc, written, s, os) ← vtm_socket_write vt data s os;
  let b := vtm_buf_discard_processed (buf_with_read b (buf_read b +sz written)) in
  let con := scon_with_send b con in
  Some (rc, if rc =? VTM_OK then scon_with_writing false con else con, s, os).

(** net/socket_connection.c:83-90 *)
Definition vtm_socket_con_write_start (con : vtm_socket_con) s os
    : option (Z * vtm_socket_con * vtm_socket * OS) :=
  if sc_writing con then Some (VTM_OK, con, s, os)
  else vtm_socket_con_write_internal (scon_with_writing true con) s os.

(** net/socket_connection.c:92-101 *)
Definition vtm_socket_con_write (con : vtm_socket_con) s os
    : option (Z * vtm_socket_con * vtm_socket * OS) :=
  vtm_socket_con_write_internal con s os.

(** net/socket_connection.c:122-131 *)
Definition vtm_socket_con_close s os : Z * vtm_socket * OS := vtm_socket_close vt s os.
End SocketCon.

(** ** HTTP connections, net/http/http_connection.c *)

(** Where the pointer to the path of the request leads: into the receive buffer;
    into the array inside of the struct of the buffer, which the contents have
    left since; or into a block that realloc() has taken back. *)
Inductive path_home := HomeBuf | HomeArray (path : option bytes) | HomeFreed.

(** A chain of emitters that waits until the peer is ready.  [pe_block]: its
    head lies over the block of the response's buffer that had this size. *)
Record pending := mk_pending { pe_chain : list vtm_socket_emitter; pe_block : option Z }.

(** net/http/http_connection.c:12-19 [struct vtm_http_con] *)
Record vtm_http_con := mk_con {
  c_recvbuf : vtm_buf;
  c_parser : vtm_http_parser;
  c_home : path_home;
  c_emitter : option pending;
  c_clear : bool
}.

Definition con_with_recv b (c : vtm_http_con) := mk_con b (c_parser c) (c_home c) (c_emitter c) (c_clear c).
Definition con_with_emitter e (c : vtm_http_con) := mk_con (c_recvbuf c) (c_parser c) (c_home c) e (c_clear c).

(** net/http/http_connection.c:25-49.  NULL if [ok] is false; [junk] is the
    uninitialised parser. *)
Definition vtm_http_con_new (ok : bool) (junk : vtm_http_parser) : option vtm_http_con :=
  if negb ok then None
  else Some (mk_con (vtm_buf_init VTM_BYTEORDER_LE) (vtm_http_parser_init junk VTM_HTTP_PM_REQUEST)
               HomeBuf None false).

(** net/http/http_connection.c:51-56.  The emitter is not released. *)
Definition vtm_http_con_free (c : vtm_http_con) (h : heap) : option heap :=
  vtm_http_parser_release (c_parser c) h.

(** The string of the path; [None] if the pointer dangles. *)
Definition con_path (c : vtm_http_con) : option (option bytes) :=
  match req_path (msg (c_parser c)) with
  | None => Some None
  | Some off =>
      match c_home c with
      | HomeBuf => p ← buf_str (c_recvbuf c) off; Some (Some (p_text p))
      | HomeArray path => path ← path; Some (Some path)
      | HomeFreed => None
      end
  end.

(** net/http/http_connection.c:63-79.  The path is read when the request is
    handed over. *)
Definition vtm_http_con_get_request (id : Z) (c : vtm_http_con)
    : option (Z * option vtm_http_req * vtm_http_con) :=
  if negb (bool_decide (state (c_parser c) = VTM_HTTP_PARSE_COMPLETE)) then Some (VTM_ERROR, None, c)
  else
    path ← con_path c;
    let p := c_parser c in
    Some (VTM_OK, Some (mk_req (req_method (msg p)) (version (shared p)) path (headers (shared p))
                          (req_params (msg p)) id),
          mk_con (c_recvbuf c) (vtm_http_parser_reset p) HomeBuf (c_emitter c) true).

(** net/http/http_connection.c:81-84 *)
Definition vtm_http_con_set_emitter (c : vtm_http_con) (se : option pending) : vtm_http_con :=
  con_with_emitter se c.

(** The contents of the receive buffer move to [b]: the pointer to the path
    stays behind if the block is another one. *)
Definition con_moved (b : vtm_buf) (c : vtm_http_con) : vtm_http_con :=
  let home :=
    if (buf_len b =? buf_len (c_recvbuf c)) && bool_decide (buf_place b <> Nowhere) then c_home c
    else match req_path (msg (c_parser c)), c_home c with
         | Some off, HomeBuf =>
             match buf_place (c_recvbuf c) with
             | InArray => HomeArray (p_text <$> buf_str (c_recvbuf c) off)
             | _ => HomeFreed
             end
         | _, home => home
         end in
  mk_con b (c_parser c) home (c_emitter c) (c_clear c).

(** The chain as it is now, [rb] being the buffer of the response; [None] if its
    head lies over a block that the buffer has left. *)
Definition pending_chain (rb : vtm_buf) (p : pending) : option (list vtm_socket_emitter) :=
  match pe_block p, pe_chain p with
  | Some len, mk_emitter n (EmtBuf _ pos owned) :: rest =>
      if (len =? buf_len rb) && (n <=? zlen (buf_data rb))
      then Some (mk_emitter n (EmtBuf (ztake n (buf_data rb)) pos owned) :: rest) else None
  | _, chain => Some chain
  end.

(** [chain] is what is left of [n] emitters: its head is still the same if none
    has gone. *)
Definition pending_rest (block : option Z) (n : nat) (chain : list vtm_socket_emitter) : pending :=
  mk_pending chain (if (length chain =? n)%nat then block else None).

Section HttpCon.
Context (malloc_ok : Z -> bool) (printf_g : Z -> bytes) (a : http_alloc).
Context {OS SA : Type} (vt : vtm_socket_vtable OS SA).
Implicit Types (s : vtm_socket) (os : OS).

(** net/http/http_connection.c:86-115 *)
Definition vtm_http_con_read (c : vtm_http_con) s os (h : heap)
    : option (vtm_net_recv_stat * vtm_http_con * vtm_socket * OS * heap) :=
  let c := if c_clear c
           then mk_con (vtm_buf_discard_processed (c_recvbuf c)) (c_parser c) (c_home c) (c_emitter c) false
           else c in
  let '(b, rc) := vtm_buf_ensure malloc_ok (c_recvbuf c) 512 in
  let c := con_moved b c in
  if negb (rc =? VTM_OK) then Some (VTM_NET_RECV_STAT_ERROR, c, s, os, h)
  else
    let '(rc, data, s, os) := vtm_socket_read vt (VTM_BUF_PUT_AVAIL_TOTAL b) s os in
    let c := con_with_recv (VTM_BUF_PUT_INC b data) c in
    if negb ((rc =? VTM_OK) || (rc =? VTM_E_IO_AGAIN)) then Some (VTM_NET_RECV_STAT_ERROR, c, s, os, h)
    else
      '(stat, e) ← vtm_http_parser_run malloc_ok printf_g a (mk_env (c_parser c) (c_recvbuf c) h);
      Some (stat, mk_con (e_buf e) (e_par e) (c_home c) (c_emitter c) (c_clear c), s, os, e_heap e).

(** net/http/http_connection.c:117-136.  [rb] is the buffer of the response that
    the emitter lies over; [None] is the failed assertion. *)
Definition vtm_http_con_write (rb : vtm_buf) (c : vtm_http_con) s os
    : option (Z * vtm_http_con * vtm_socket * OS) :=
  p ← c_emitter c;
  chain ← pending_chain rb p;
  '(rc, rest, _, s, os) ← vtm_socket_emitter_try_write vt chain s os;
  let se := if rc =? VTM_E_IO_AGAIN then Some (pending_rest (pe_block p) (length chain) rest) else None in
  Some (rc, con_with_emitter se c, s, os).
End HttpCon.

(** ** WebSocket connections, net/http/ws_connection.c *)

(** net/http/ws_connection.c:16-21 [struct vtm_ws_con] *)
Record vtm_ws_con := mk_wscon { wc_sock_con : vtm_socket_con; wc_parser : vtm_ws_parser }.

Section WsCon.
Context (malloc_ok : Z -> bool) {OS SA : Type} (vt : vtm_socket_vtable OS SA).
Implicit Types (s : vtm_socket) (os : OS).

(** net/http/ws_connection.c:27-54.  [ok] and [ok_mtx] are the answers for the
    struct and its mutex, [junk] the uninitialised parser. *)
Definition vtm_ws_con_new (ok ok_mtx : bool) (junk : vtm_ws_parser) (m : vtm_ws_mode) : option vtm_ws_con :=
  if negb ok then None
  else
    sc ← vtm_socket_con_init ok_mtx;
    match vtm_ws_parser_init malloc_ok junk m with
    | (rc, Some p) => if rc =? VTM_OK then Some (mk_wscon sc p) else None
    | _ => None
    end.

(** net/http/ws_connection.c:63-87 *)
Definition vtm_ws_con_read (w : vtm_ws_con) s os
    : option (vtm_net_recv_stat * vtm_ws_con * vtm_socket * OS) :=
  let '(b, rc) := vtm_buf_ensure malloc_ok (sc_recvbuf (wc_sock_con w)) 512 in
  if negb (rc =? VTM_OK)
  then Some (VTM_NET_RECV_STAT_ERROR, mk_wscon (scon_with_recv b (wc_sock_con w)) (wc_parser w), s, os)
  else
    let '(rc, data, s, os) := vtm_socket_read vt (VTM_BUF_PUT_AVAIL_TOTAL b) s os in
    let b := VTM_BUF_PUT_INC b data in
    if negb ((rc =? VTM_OK) || (rc =? VTM_E_IO_AGAIN))
    then Some (VTM_NET_RECV_STAT_ERROR, mk_wscon (scon_with_recv b (wc_sock_con w)) (wc_parser w), s, os)
    else
      r ← vtm_ws_parser_run malloc_ok (wc_parser w) b;
      match r with
      | WStop stat _ p b => Some (stat, mk_wscon (scon_with_recv b (wc_sock_con w)) p, s, os)
      | _ => None
      end.

(** net/http/ws_connection.c:89-96 *)
Definition vtm_ws_con_write (w : vtm_ws_con) s os : option (Z * vtm_ws_con * vtm_socket * OS) :=
  '(rc, sc, s, os) ← vtm_socket_con_write vt (wc_sock_con w) s os;
  Some (rc, mk_wscon sc (wc_parser w), s, os).

(** net/http/ws_connection.c:98-106 *)
Definition vtm_ws_con_get_msg (w : vtm_ws_con) : option (Z * vtm_ws_msg * vtm_ws_con) :=
  '(rc, m, p) ← vtm_ws_parser_get_msg malloc_ok (wc_parser w);
  Some (rc, m, mk_wscon (wc_sock_con w) p).

(** net/http/ws_connection.c:108-136 [vtm_ws_con_send_msg].  The message is put into the send buffer
    ([vtm_ws_con_send_msg] of Ws.v) and sending is started. *)
Definition ws_con_send (w : vtm_ws_con) (type : vtm_ws_msg_type) (data : bytes) s os
    : option (Z * vtm_ws_con * vtm_socket * OS) :=
  let '(b, rc) := vtm_ws_con_send_msg malloc_ok (sc_sendbuf (wc_sock_con w)) type data in
  let sc := scon_with_send b (wc_sock_con w) in
  if negb (rc =? VTM_OK) then Some (rc, mk_wscon sc (wc_parser w), s, os)
  else
    '(rc, sc, s, os) ← vtm_socket_con_write_start vt sc s os;
    Some (if rc =? VTM_E_IO_AGAIN then VTM_OK else rc, mk_wscon sc (wc_parser w), s, os).
End WsCon.
