(* ===== verification/HttpServer.v ===== *)
(** * HttpServer: requests, routes and upgrades

    net/http/http_server.c, http_router.c, http_static_route.c and
    http_upgrade.c.  What an application does with a request is a program over
    the operations of a response ([res_prog]), what it does with a WebSocket
    connection one over the sending of messages ([ws_prog]).  [http_io] is what
    a worker works on while it handles an event of one connection: the socket,
    the connection, the response object of the worker and the heap.  [None] is
    undefined behaviour, a failed assertion, or a loop that does not end. *)

From S2P Require Import Prelude Base Buffer Format Base64 Str Ws Elem Hash Heap.
From S2P Require Import Table Smap Dataset Http HttpParser Socket Emitter HttpResponse ResponseProps HttpCon.

(** ** What an application does *)

(** The calls that a callback makes for a response, each with what follows its
    code; [PRet] is the result of the callback. *)
Inductive res_prog :=
| PRet (rc : Z)
| PUndef
| PBegin (mode : vtm_http_res_mode) (status : Z) (k : Z -> res_prog)
| PDate (k : Z -> res_prog)
| PCall (c : res_call) (k : Z -> res_prog)
| PEnd (k : Z -> res_prog).

Fixpoint prog_bind (p : res_prog) (f : Z -> res_prog) : res_prog :=
  match p with
  | PRet rc => f rc
  | PUndef => PUndef
  | PBegin mode status k => PBegin mode status (fun rc => prog_bind (k rc) f)
  | PDate k => PDate (fun rc => prog_bind (k rc) f)
  | PCall c k => PCall c (fun rc => prog_bind (k rc) f)
  | PEnd k => PEnd (fun rc => prog_bind (k rc) f)
  end.

(** The messages that a callback sends over a WebSocket connection. *)
Inductive ws_prog := WsDone | WsSend (type : vtm_ws_msg_type) (data : bytes) (k : Z -> ws_prog).

(** net/http/http_server.h:44-110 [struct vtm_http_srv_cbs].  The callbacks that
    handle requests and messages; [None] is NULL.  What they make of the
    context is theirs. *)
Record vtm_http_srv_cbs := mk_cbs {
  cb_http_request : vtm_http_req -> res_prog;
  cb_ws_connect : option ws_prog;
  cb_ws_message : option (vtm_ws_msg -> ws_prog);
  cb_ws_close : option ws_prog
}.

(** ** Routes, net/http/http_router.c and http_static_route.c *)

(** net/http/http_route.h:24-29 [struct vtm_http_route] with the function of
    http_static_route.c; the handler of a static route. *)
Record vtm_http_route := mk_route { url_path : bytes; fn_rt_handle : vtm_http_req -> res_prog }.

(** net/http/http_router.c:14-17 [struct vtm_http_router] *)
Definition vtm_http_router := list vtm_http_route.

(** net/http/http_router.c:53-57.  The list has room. *)
Definition vtm_http_router_add_rt (rtr : vtm_http_router) (path : bytes) (rt : vtm_http_route) : vtm_http_router :=
  rtr ++ [mk_route path (fn_rt_handle rt)].

(** net/http/http_static_route.c:20-36.  NULL if [ok] is false.  The path is set
    when the route is added. *)
Definition vtm_http_static_rt_new (ok : bool) (url : bytes) (fn : vtm_http_req -> res_prog)
    : option vtm_http_route :=
  if negb ok then None else Some (mk_route [] fn).

(** net/http/http_static_route.c:38-41 *)
Definition vtm_http_static_rt_handle (rt : vtm_http_route) (req : vtm_http_req) : res_prog := fn_rt_handle rt req.

(** net/http/http_router.c:59-68.  The code and the router. *)
Definition vtm_http_router_static_rt (ok : bool) (rtr : vtm_http_router) (path : bytes)
    (fn : vtm_http_req -> res_prog) : Z * vtm_http_router :=
  match vtm_http_static_rt_new ok path fn with
  | None => (VTM_E_MALLOC, rtr)
  | Some rt => (VTM_OK, vtm_http_router_add_rt rtr path rt)
  end.

(** net/http/http_router.c:101-124.  [last] is the character in front of both
    pointers, if there is one. *)
Fixpoint vtm_http_router_matches (path rt_path : bytes) (last : option Z) : bool :=
  match path, rt_path with
  | [], [] => true
  | c :: path', d :: rt_path' => if c =? d then vtm_http_router_matches path' rt_path' (Some c) else false
  | _ :: _, [] => match last with Some c => c =? 47 | None => false end
  | [], _ :: _ => false
  end.

(** net/http/http_router.c:70-90 *)
Fixpoint vtm_http_router_handle (rtr : vtm_http_router) (req : vtm_http_req) : res_prog :=
  match rtr with
  | [] => PRet VTM_E_NOT_HANDLED
  | rt :: rtr =>
      match rq_path req with
      | None => PUndef
      | Some path =>
          if negb (vtm_http_router_matches path (url_path rt) None) then vtm_http_router_handle rtr req
          else
            prog_bind (vtm_http_static_rt_handle rt req) (fun rc =>
              if negb (rc =? VTM_E_NOT_HANDLED) then PRet rc else vtm_http_router_handle rtr req)
      end
  end.

(** ** The upgrade to WebSocket, net/http/http_upgrade.c *)

(** net/http/http.c:175 *)
Definition VTM_HTTP_HEADER_UPGRADE : bytes := cstr_of "Upgrade"%string.
(** net/http/http.c:179 *)
Definition VTM_HTTP_HEADER_SEC_WEBSOCKET_ACCEPT : bytes := cstr_of "Sec-WebSocket-Accept"%string.
(** net/http/http.c:180 *)
Definition VTM_HTTP_HEADER_SEC_WEBSOCKET_KEY : bytes := cstr_of "Sec-WebSocket-Key"%string.
(** net/http/http.c:181 *)
Definition VTM_HTTP_HEADER_SEC_WEBSOCKET_PROTOCOL : bytes := cstr_of "Sec-WebSocket-Protocol"%string.
(** net/http/http.c:182 *)
Definition VTM_HTTP_HEADER_SEC_WEBSOCKET_VERSION : bytes := cstr_of "Sec-WebSocket-Version"%string.
(** net/http/http.c:190 *)
Definition VTM_HTTP_VALUE_UPGRADE : bytes := cstr_of "Upgrade"%string.
(** net/http/http.c:191 *)
Definition VTM_HTTP_VALUE_WEBSOCKET : bytes := cstr_of "websocket"%string.
(** net/http/http_upgrade.c:13 *)
Definition VTM_HTTP_WS_VERSION : bytes := cstr_of "13"%string.
(** net/http/http_upgrade.c:14 *)
Definition VTM_HTTP_WS_GUID : bytes := cstr_of "258EAFA5-E914-47DA-95CA-C5AB0DC85B11"%string.
(** net/http/http_upgrade.c:15 *)
Definition VTM_HTTP_WS_MAX_KEY_LEN : Z := 128.
(** crypto/hash.h:22 *)
Definition VTM_CRYPTO_SHA1_LEN : Z := 20.

Section Upgrade.
Context (malloc_ok : Z -> bool) (printf_g : Z -> bytes).
Context (sha1 : bytes -> Z * bytes).

(** net/http/http_upgrade.c:17-38.  A header that is missing is a null pointer
    for the functions of strings, but for the key. *)
Definition vtm_http_is_ws_request (req : vtm_http_req) : option (bool * vtm_http_req) :=
  '(field, req) ← vtm_http_req_get_header_str malloc_ok printf_g req VTM_HTTP_HEADER_CONNECTION;
  field ← field;
  up ← vtm_str_list_contains field [44] VTM_HTTP_VALUE_UPGRADE true;
  if negb up then Some (false, req)
  else
    '(field, req) ← vtm_http_req_get_header_str malloc_ok printf_g req VTM_HTTP_HEADER_UPGRADE;
    field ← field;
    if negb (bool_decide (field = VTM_HTTP_VALUE_WEBSOCKET)) then Some (false, req)
    else
      '(field, req) ← vtm_http_req_get_header_str malloc_ok printf_g req VTM_HTTP_HEADER_SEC_WEBSOCKET_VERSION;
      field ← field;
      if negb (bool_decide (field = VTM_HTTP_WS_VERSION)) then Some (false, req)
      else
        '(field, req) ← vtm_http_req_get_header_str malloc_ok printf_g req VTM_HTTP_HEADER_SEC_WEBSOCKET_KEY;
        match field with
        | Some (_ :: _) => Some (true, req)
        | _ => Some (false, req)
        end.

(** net/http/http_upgrade.c:40-55.  The tokens and their number.  Without the
    header the pointer of the caller keeps what it held, [old]. *)
Definition vtm_http_get_ws_protocols (req : vtm_http_req) (old : option (list bytes))
    : option (option (list bytes) * Z * vtm_http_req) :=
  '(line, req) ← vtm_http_req_get_header_str malloc_ok printf_g req VTM_HTTP_HEADER_SEC_WEBSOCKET_PROTOCOL;
  match line with
  | None => Some (old, 0, req)
  | Some line => '(_, protos) ← vtm_str_split_ex line [44]; Some (Some protos, zlen protos, req)
  end.

(** net/http/http_upgrade.c:57-112.  [ok] is the answer of the allocator, [data]
    the address of the copy of the protocol's name.  The codes of the calls for
    the response are not looked at. *)
Definition vtm_http_upgrade_to_ws (ok : bool) (data : Z) (req : vtm_http_req) (proto : option bytes) : res_prog :=
  match vtm_http_req_get_header_str malloc_ok printf_g req VTM_HTTP_HEADER_SEC_WEBSOCKET_KEY with
  | None => PUndef
  | Some (None, _) => PRet VTM_ERROR
  | Some (Some req_key, _) =>
      if VTM_HTTP_WS_MAX_KEY_LEN <? zlen req_key then PRet VTM_ERROR
      else if negb ok then PRet VTM_ERROR
      else
        let '(rc, hash) := sha1 (req_key ++ VTM_HTTP_WS_GUID) in
        if negb (rc =? VTM_OK) then PRet rc
        else
          let '(rc, base64) := vtm_base64_encode hash (VTM_BASE64_ENC_BUF_LEN VTM_CRYPTO_SHA1_LEN) in
          if negb (rc =? VTM_OK) then PRet rc
          else
            PBegin VTM_HTTP_RES_MODE_FIXED 101 (fun _ =>
            PCall (CHeader VTM_HTTP_HEADER_CONNECTION VTM_HTTP_VALUE_UPGRADE) (fun _ =>
            PCall (CHeader VTM_HTTP_HEADER_UPGRADE VTM_HTTP_VALUE_WEBSOCKET) (fun _ =>
            PCall (CHeader VTM_HTTP_HEADER_SEC_WEBSOCKET_ACCEPT (until_nul base64)) (fun _ =>
            let finish :=
              PCall (CAct VTM_HTTP_RES_ACT_UPGRADE_WS (match proto with Some _ => data | None => 0 end)) (fun _ =>
              PEnd (fun _ => PRet rc)) in
            match proto with
            | Some proto => PCall (CHeader VTM_HTTP_HEADER_SEC_WEBSOCKET_PROTOCOL proto) (fun _ => finish)
            | None => finish
            end))))
  end.
End Upgrade.

(** ** The server, net/http/http_server.c *)

(** net/socket.h:53 *)
Definition VTM_SOCK_OPT_TCP_NODELAY : Z := 8.

(** What the pointer of the user of a socket leads to,
    net/http/http_connection_base_intl.h: one of the two kinds of connections. *)
Inductive http_any_con := ConH1 (c : vtm_http_con) | ConWs (w : vtm_ws_con).

(** What a worker works on during an event: the socket, its connection (NULL if
    there is none), the response of the worker (NULL if it could not be
    allocated), the heap. *)
Record http_io (OS : Type) := mk_io {
  io_sock : vtm_socket;
  io_os : OS;
  io_con : option http_any_con;
  io_res : option vtm_http_res;
  io_heap : heap
}.
Arguments mk_io {OS}.
Arguments io_sock {OS}.
Arguments io_os {OS}.
Arguments io_con {OS}.
Arguments io_res {OS}.
Arguments io_heap {OS}.

(** The answers of the allocator: for the buffers, the parser, the text of the
    length, the emitter, a WebSocket connection and its mutex. *)
Record http_allocs := mk_allocs {
  al_malloc : Z -> bool;
  al_parser : http_alloc;
  al_len : bool;
  al_emt : bool;
  al_ws : bool;
  al_mtx : bool
}.

Section Server.
Context (al : http_allocs) (printf_g : Z -> bytes) (cbs : vtm_http_srv_cbs).
Context (time_now : Z) (now : c_tm) (junk_http : vtm_http_parser) (junk_ws : vtm_ws_parser).
Context {OS SA : Type} (vt : vtm_socket_vtable OS SA).
Implicit Types (s : vtm_socket) (os : OS) (w : http_io OS).

(** A callback that works on a response; [se] is the emitter of the connection. *)
Fixpoint prog_run (p : res_prog) (r : vtm_http_res) (se : option pending) s os
    : option (Z * vtm_http_res * option pending * vtm_socket * OS) :=
  match p with
  | PRet rc => Some (rc, r, se, s, os)
  | PUndef => None
  | PBegin mode status k =>
      '(r, rc) ← vtm_http_res_begin (al_malloc al) r mode status time_now now; prog_run (k rc) r se s os
  | PDate k => '(r, rc) ← vtm_http_res_set_date (al_malloc al) r time_now now; prog_run (k rc) r se s os
  | PCall c k => let '(r, rc) := res_do (al_malloc al) c r in prog_run (k rc) r se s os
  | PEnd k =>
      let n := S (length match res_body_se r with BodySe chain => chain | _ => [] end) in
      '(rc, r, chain, s, os) ← vtm_http_res_end (al_malloc al) vt (al_len al) (al_emt al) r s os;
      let se := match chain with
                | Some chain => Some (pending_rest (Some (buf_len (res_buf r))) n chain)
                | None => se
                end in
      prog_run (k rc) r se s os
  end.

(** A callback that sends messages over a connection. *)
Fixpoint ws_prog_run (p : ws_prog) (c : vtm_ws_con) s os : option (vtm_ws_con * vtm_socket * OS) :=
  match p with
  | WsDone => Some (c, s, os)
  | WsSend type data k =>
      '(rc, c, s, os) ← ws_con_send (al_malloc al) vt c type data s os; ws_prog_run (k rc) c s os
  end.
Definition ws_cb_run (p : option ws_prog) (c : vtm_ws_con) s os : option (vtm_ws_con * vtm_socket * OS) :=
  match p with Some p => ws_prog_run p c s os | None => Some (c, s, os) end.

(** net/http/http_server.c:169-181.  [ok] is the answer of the allocator. *)
Definition vtm_http_srv_con_create (ok : bool) w : Z * http_io OS :=
  match vtm_http_con_new ok junk_http with
  | None => (VTM_ERROR, w)
  | Some c => (VTM_OK, mk_io (io_sock w) (io_os w) (Some (ConH1 c)) (io_res w) (io_heap w))
  end.

(** net/http/http_server.c:183-193.  The code and the connection. *)
Definition vtm_http_srv_ws_con_create : Z * option vtm_ws_con :=
  match vtm_ws_con_new (al_malloc al) (al_ws al) (al_mtx al) junk_ws VTM_WS_MODE_SERVER with
  | None => (VTM_E_MALLOC, None)
  | Some c => (VTM_OK, Some c)
  end.

(** net/http/http_server.c:222-238.  [ok] is the answer of the allocator,
    [garbage] what the new object holds.  NULL is no value of the dataset of
    the worker: a response that could not be allocated is missing later. *)
Definition vtm_http_srv_worker_init (ok : bool) (order : vtm_byteorder) (garbage : Z) : option vtm_http_res :=
  vtm_http_res_new ok order garbage.

(** net/http/http_server.c:258-267.  [ok] is the answer of the allocator; the
    code is not looked at. *)
Definition vtm_http_srv_sock_connected (ok : bool) w : http_io OS :=
  let '(_, s, os) := vtm_socket_set_opt vt VTM_SOCK_OPT_TCP_NODELAY (Some 1) (io_sock w) (io_os w) in
  let s := vtm_socket_set_state s (Z.lor VTM_SOCK_STAT_NBL_AUTO VTM_SOCK_STAT_NBL_READ) in
  (vtm_http_srv_con_create ok (mk_io s os (io_con w) (io_res w) (io_heap w))).2.

(** The function [con_can_read] of a connection. *)
Definition con_can_read w : option (vtm_net_recv_stat * http_io OS) :=
  match io_con w with
  | None => None
  | Some (ConH1 c) =>
      '(stat, c, s, os, h) ← vtm_http_con_read (al_malloc al) printf_g (al_parser al) vt c (io_sock w) (io_os w) (io_heap w);
      Some (stat, mk_io s os (Some (ConH1 c)) (io_res w) h)
  | Some (ConWs c) =>
      '(stat, c, s, os) ← vtm_ws_con_read (al_malloc al) vt c (io_sock w) (io_os w);
      Some (stat, mk_io s os (Some (ConWs c)) (io_res w) (io_heap w))
  end.

Definition io_close w : http_io OS :=
  let '(_, s, os) := vtm_socket_close vt (io_sock w) (io_os w) in mk_io s os (io_con w) (io_res w) (io_heap w).

(** net/http/http_server.c:393-415 *)
Definition vtm_http_srv_http_con_upgrade_ws (c : vtm_http_con) w : option (http_io OS) :=
  h ← vtm_http_con_free c (io_heap w);
  match vtm_http_srv_ws_con_create with
  | (_, None) => Some (io_close (mk_io (io_sock w) (io_os w) None (io_res w) h))
  | (_, Some c) =>
      '(c, s, os) ← ws_cb_run (cb_ws_connect cbs) c (io_sock w) (io_os w);
      Some (mk_io s os (Some (ConWs c)) (io_res w) h)
  end.

(** net/http/http_server.c:352-391.  Whether the loop of the caller goes on. *)
Definition vtm_http_srv_http_handle_request (c : vtm_http_con) w : option (bool * http_io OS) :=
  '(rc, req, c) ← vtm_http_con_get_request (s_fd (io_sock w)) c;
  match req with
  | None => Some (false, mk_io (io_sock w) (io_os w) (Some (ConH1 c)) (io_res w) (io_heap w))
  | Some req =>
      r ← io_res w;
      '(r, req) ← vtm_http_res_prepare (al_malloc al) printf_g r req;
      '(_, r, se, s, os) ← prog_run (cb_http_request cbs req) r (c_emitter c) (io_sock w) (io_os w);
      let c := vtm_http_con_set_emitter c se in
      h ← vtm_http_req_release req (io_heap w);
      let w := mk_io s os (Some (ConH1 c)) (Some r) h in
      match (if vtm_http_res_was_sent r then vtm_http_res_get_action r else VTM_HTTP_RES_ACT_CLOSE_CON) with
      | VTM_HTTP_RES_ACT_CLOSE_CON => Some (false, io_close w)
      | VTM_HTTP_RES_ACT_KEEP_CON => Some (true, w)
      | VTM_HTTP_RES_ACT_UPGRADE_WS => w ← vtm_http_srv_http_con_upgrade_ws c w; Some (false, w)
      end
  end.

(** net/http/http_server.c:417-435.  The callback gets a context that was not
    initialised. *)
Definition vtm_http_srv_ws_handle_request (c : vtm_ws_con) w : option (bool * http_io OS) :=
  '(rc, m, c) ← vtm_ws_con_get_msg (al_malloc al) c;
  if negb (rc =? VTM_OK) then Some (false, mk_io (io_sock w) (io_os w) (Some (ConWs c)) (io_res w) (io_heap w))
  else
    '(c, s, os) ← ws_cb_run ((fun f => f m) <$> cb_ws_message cbs) c (io_sock w) (io_os w);
    Some (true, mk_io s os (Some (ConWs c)) (io_res w) (io_heap w)).

(** The function [con_handle_req] of a connection. *)
Definition con_handle_req w : option (bool * http_io OS) :=
  match io_con w with
  | None => None
  | Some (ConH1 c) => vtm_http_srv_http_handle_request c w
  | Some (ConWs c) => vtm_http_srv_ws_handle_request c w
  end.

(** net/http/http_server.c:269-300.  The loop ends when the connection has no
    complete message any more. *)
Fixpoint vtm_http_srv_sock_can_read (fuel : nat) w : option (http_io OS) :=
  match fuel with
  | O => None
  | S fuel =>
      '(stat, w) ← con_can_read w;
      match stat with
      | VTM_NET_RECV_STAT_ERROR | VTM_NET_RECV_STAT_INVALID | VTM_NET_RECV_STAT_CLOSED => Some (io_close w)
      | VTM_NET_RECV_STAT_AGAIN => Some w
      | VTM_NET_RECV_STAT_COMPLETE =>
          '(loop, w) ← con_handle_req w;
          if loop : bool then vtm_http_srv_sock_can_read fuel w else Some w
      end
  end.

(** net/http/http_server.c:302-313.  The function [con_can_write] of a
    connection inside. *)
Definition vtm_http_srv_sock_can_write w : option (http_io OS) :=
  '(rc, w) ← match io_con w with
             | None => None
             | Some (ConH1 c) =>
                 r ← io_res w;
                 '(rc, c, s, os) ← vtm_http_con_write vt (res_buf r) c (io_sock w) (io_os w);
                 Some (rc, mk_io s os (Some (ConH1 c)) (io_res w) (io_heap w))
             | Some (ConWs c) =>
                 '(rc, c, s, os) ← vtm_ws_con_write vt c (io_sock w) (io_os w);
                 Some (rc, mk_io s os (Some (ConWs c)) (io_res w) (io_heap w))
             end;
  Some (if (rc =? VTM_OK) || (rc =? VTM_E_IO_AGAIN) then w else io_close w).

(** net/http/http_server.c:324-350.  Also vtm_http_srv_sock_closed; the
    connection is gone. *)
Definition vtm_http_srv_sock_unregister w : option (http_io OS) :=
  match io_con w with
  | None => Some w
  | Some (ConH1 c) =>
      h ← vtm_http_con_free c (io_heap w); Some (mk_io (io_sock w) (io_os w) None (io_res w) h)
  | Some (ConWs c) =>
      '(_, s, os) ← ws_cb_run (cb_ws_close cbs) c (io_sock w) (io_os w);
      Some (mk_io s os None (io_res w) (io_heap w))
  end.
End Server.

(** net/socket_spec.h:27-31 [enum vtm_socket_family] *)
Inductive vtm_socket_family := VTM_SOCK_FAM_IN4 | VTM_SOCK_FAM_IN6.

(** net/http/http_server.c:142-167.  Only digits and points: IPv4. *)
Fixpoint vtm_http_srv_determine_sock_family (addr : bytes) : vtm_socket_family :=
  match addr with
  | [] => VTM_SOCK_FAM_IN4
  | c :: addr => if (c =? 46) || isdigit c then vtm_http_srv_determine_sock_family addr else VTM_SOCK_FAM_IN6
  end.
