(* ===== verification/HttpPeer.v ===== *)
(** * HttpPeer: a connection of the HTTP server and its peer

    What reading, sending and the parser make of a peer that sends whole
    requests and takes what it is sent (net/http/http_connection.c over
    net/socket.c), and what a parsed request holds.  HttpServerProps.v builds on
    this. *)

From stdpp Require Import gmap fin_sets.
From S2P Require Import Prelude Base Buffer Format Str Ws Elem Hash Heap Table.
From S2P Require Import Smap Dataset Http HttpParser HttpRequest Socket Emitter HttpResponse ResponseProps.
From S2P Require Import ResponseRoom HttpFrame HttpCon HttpServer.

(** ** The peer

    A client that sends whole requests: [inbox] are the bytes that it has sent
    and the server has not received yet.  A recv() with room for them takes them
    all; without any it reports that it would block. *)
Class RecvLaws {OS} (sys : sys_net OS) (sent inbox : Z -> OS -> bytes) := {
  recv_all fd len os :
    inbox fd os <> [] -> zlen (inbox fd os) <= len ->
    exists os', sys_recv sys fd len os = (inl (inbox fd os), os') /\ inbox fd os' = [] /\ sent fd os' = sent fd os;
  recv_none fd len os :
    inbox fd os = [] ->
    exists os', sys_recv sys fd len os = (inr EAGAIN, os') /\ inbox fd os' = [] /\ sent fd os' = sent fd os;
  close_sent fd os : sent fd (sys_close sys fd os) = sent fd os
}.

(** One that also takes everything that it is sent. *)
Class PeerLaws {OS} (sys : sys_net OS) (sent inbox : Z -> OS -> bytes) := {
  peer_recv :: RecvLaws sys sent inbox;
  send_all fd src os :
    src <> [] -> exists os', sys_send sys fd src os = (inl (zlen src), os') /\
      sent fd os' = sent fd os ++ src /\ inbox fd os' = inbox fd os
}.

(** The network after a recv() with room for everything. *)
Definition after_recv {OS} (sys : sys_net OS) (inbox : Z -> OS -> bytes) fd (os os' : OS) : Prop :=
  exists len, zlen (inbox fd os) <= len /\ os' = (sys_recv sys fd len os).2.

Section Peer.
Context {OS SA : Type} (sys : sys_net OS) (sent inbox : Z -> OS -> bytes) `{!RecvLaws sys sent inbox}.
Context (ok : bool) (rest : vtm_socket_vtable OS SA).
Abbreviation vt := (vtm_socket_plain_vtable sys ok rest).
Implicit Types (s : vtm_socket) (os : OS).

(** What an operation leaves of the socket and the network. *)
Definition net_after s os s' os' (out inb : bytes) : Prop :=
  VTM_SOCKET_IS_CLOSED s' = false /\ s_fd s' = s_fd s /\
  sent (s_fd s) os' = sent (s_fd s) os ++ out /\ inbox (s_fd s) os' = inb.

(** A read takes everything; what it answers. *)
Lemma peer_read_rc s os len :
  VTM_SOCKET_IS_CLOSED s = false -> zlen (inbox (s_fd s) os) <= len ->
  exists rc s' os', vtm_socket_read vt len s os = (rc, inbox (s_fd s) os, s', os') /\
    rc = (if decide (inbox (s_fd s) os = []) then VTM_E_IO_AGAIN else VTM_OK) /\
    net_after s os s' os' [] [] /\ after_recv sys inbox (s_fd s) os os'.
Proof.
  intros Hopen Hlen. unfold vtm_socket_read. rewrite Hopen. cbn [vt_read vtm_socket_plain_vtable].
  set (s0 := vtm_socket_unset_state s _).
  assert (exists rc st os1, vtm_socket_plain_read sys len s0 os
      = (rc, inbox (s_fd s) os, vtm_socket_set_state_intl s0 st, os1) /\
    rc = (if decide (inbox (s_fd s) os = []) then VTM_E_IO_AGAIN else VTM_OK) /\ Z.testbit st 1 = false /\
    inbox (s_fd s) os1 = [] /\ sent (s_fd s) os1 = sent (s_fd s) os /\ os1 = (sys_recv sys (s_fd s) len os).2)
    as (rc & st & os1 & -> & Hrc & Hst & Hin & Hs & Ho).
  { unfold vtm_socket_plain_read. change (s_fd s0) with (s_fd s).
    destruct (decide (inbox (s_fd s) os = [])) as [Hi|Hi].
    - destruct (recv_none (s_fd s) len os Hi) as (os1 & E & Hin & Hs); rewrite E. rewrite Hi.
      eexists _, _, os1. split; [reflexivity|]. split; [done|]. by split_and!.
    - destruct (recv_all (s_fd s) len os Hi Hlen) as (os1 & E & Hin & Hs). rewrite E.
      destruct (inbox (s_fd s) os) as [|c l]; [done|]. eexists _, _, os1. split; [reflexivity|].
      split; [done|]. by split_and!. }
  cbn iota beta. set (s1 := vtm_socket_set_state_intl s0 st).
  assert (VTM_SOCKET_IS_CLOSED s1 = false /\ s_fd s1 = s_fd s) as [Hc Hfd].
  { split; [|done]. rewrite is_closed_bit in Hopen |- *. unfold s1, s0. flag_bits. by rewrite Hst, orb_false_r, Hopen. }
  eexists rc, _, os1. split; [reflexivity|]. split; [done|]. split; [|by exists len]. unfold net_after. rewrite app_nil_r.
  destruct (flag_any _ _ && flag_any _ _); split_and!; try done.
  rewrite is_closed_bit in Hc |- *. flag_bits. by rewrite Hc.
Qed.

Lemma peer_read s os len :
  VTM_SOCKET_IS_CLOSED s = false -> zlen (inbox (s_fd s) os) <= len ->
  exists rc s' os', vtm_socket_read vt len s os = (rc, inbox (s_fd s) os, s', os') /\
    (rc = VTM_OK \/ rc = VTM_E_IO_AGAIN) /\ net_after s os s' os' [] [] /\ after_recv sys inbox (s_fd s) os os'.
Proof.
  intros Hopen Hlen. destruct (peer_read_rc s os len Hopen Hlen) as (rc & s' & os' & E & Hrc & H).
  exists rc, s', os'. split; [done|]. split; [|done]. rewrite Hrc. case_decide; auto.
Qed.

Lemma answer_text_ne p : answer_text p <> [].
Proof.
  assert (an_head p <> []) as H.
  { unfold an_head, status_line. intros E. apply app_eq_nil in E as [E _]. apply app_eq_nil in E as [_ E]. done. }
  unfold answer_text. intros E. apply H. by destruct (is_chunked p); apply app_eq_nil in E as [-> _].
Qed.

(** The end of a response without an emitter puts its text together and sends it. *)
Lemma end_ready malloc_ok r p n :
  (forall n, malloc_ok n = true) -> res_rep malloc_ok r p -> res_room r n -> an_emt p = None -> 2 * n + 4000 <= ROOM ->
  exists r2, (forall s os, vtm_http_res_end malloc_ok vt true true r s os = vtm_http_res_send vt true r2 s os) /\
    res_room r2 (2 * n + 4000) /\ res_act r2 = an_act p /\ res_body_se r2 = BodyNull /\
    ztake (buf_used (res_buf r2)) (buf_data (res_buf r2)) = answer_text p.
Proof.
  intros Hm Hr Hroom Hemt Hn. pose proof Hr as [Hmode Hact Hst _ _ _ Hse _ _ _]. rewrite Hemt in Hse.
  assert (0 <= n) as Hn0 by (destruct Hroom as [(Hb & _ & Hu) _]; buf_sizes; lia).
  assert (exists r2, (match res_mode r with
      | VTM_HTTP_RES_MODE_FIXED => vtm_http_res_end_fixed malloc_ok true r
      | VTM_HTTP_RES_MODE_CHUNKED => Some (vtm_http_res_end_chunked malloc_ok r) end) = Some (r2, VTM_OK) /\
    res_room r2 (2 * n + 4000) /\ res_act r2 = res_act r /\ fresh_read malloc_ok (res_buf r2) /\ res_body_se r2 = BodyNull /\
    buf_content (res_buf r2) = answer_text p) as (r2 & E & Hr2 & Ha2 & Hf2 & Hse2 & Hc2).
  { rewrite Hmode. destruct (an_mode p) eqn:Em.
    - assert (is_chunked p = false) as Hch by (unfold is_chunked; by rewrite Em).
      pose proof (end_fixed_spec malloc_ok r p Hr Hch) as H.
      destruct (end_fixed_room malloc_ok Hm r n Hroom) as (r2' & E' & Hr2 & Ha2); [|done|done|].
      { by destruct Hst as [|[_ Hx]]; [|congruence]. }
      rewrite E' in H. destruct (H eq_refl) as (Hf & Hs & Ht). exists r2'.
      split; [done|]. split_and!; try done; [congruence|]. apply Ht. by eapply room_err.
    - assert (is_chunked p = true) as Hch by (unfold is_chunked; by rewrite Em).
      destruct (end_chunked_spec malloc_ok r p Hr Hch) as (r2 & rc & E & H).
      destruct (end_chunked_room malloc_ok Hm r n Hroom) as (r2' & E' & Hr2 & Ha2); [lia|].
      rewrite E' in E. injection E as <- <-. destruct (H eq_refl) as (Hf & Hs & _ & Ht). exists r2'.
      split; [by rewrite E'|]. split; [eapply res_room_le; [exact Hr2|lia]|]. split; [done|]. split; [done|].
      split; [congruence|].
      apply Ht. by eapply room_err. }
  exists r2. split; [|split; [done|split; [congruence|split; [done|]]]].
  - intros s os. unfold vtm_http_res_end. rewrite E. by destruct Hst as [-> | [-> _]].
  - rewrite <- content_used, Hc2 by apply Hf2. done.
Qed.
End Peer.

(** A send() that takes everything. *)
Lemma write_once {OS SA} (sys : sys_net OS) ok (rest : vtm_socket_vtable OS SA) s os src os' :
  VTM_SOCKET_IS_CLOSED s = false -> src <> [] -> sys_send sys (s_fd s) src os = (inl (zlen src), os') ->
  exists s', vtm_socket_write (vtm_socket_plain_vtable sys ok rest) src s os = Some (VTM_OK, zlen src, s', os') /\
    s_fd s' = s_fd s /\ VTM_SOCKET_IS_CLOSED s' = false.
Proof.
  intros Hopen Hsrc E.
  assert (exists s', vtm_socket_write (vtm_socket_plain_vtable sys ok rest) src s os = Some (VTM_OK, zlen src, s', os') /\
    s_fd s' = s_fd s) as (s' & Ew & Hfd).
  { unfold vtm_socket_write. rewrite Hopen. cbn [vt_write vtm_socket_plain_vtable].
    unfold vtm_socket_plain_write. set (s0 := vtm_socket_unset_state s _). change (s_fd s) with (s_fd s0) in E.
    destruct src as [|c src]; [done|]. cbn [length plain_write_loop]. rewrite E, zdrop_all by done.
    assert (forall f w, plain_write_loop sys f [] w s0 os' = Some (VTM_OK, w, s0, os')) as -> by (intros []; done).
    cbn [mbind option_bind]. eexists. split; [reflexivity|]. by destruct (write_nbl_hints_bits s0) as (-> & _). }
  exists s'. split; [done|]. split; [done|]. by eapply socket_write_stays_open.
Qed.

(** A recv() that gives something. *)
Lemma read_once {OS SA} (sys : sys_net OS) ok (rest : vtm_socket_vtable OS SA) s os n data os' :
  VTM_SOCKET_IS_CLOSED s = false -> data <> [] -> sys_recv sys (s_fd s) n os = (inl data, os') ->
  exists s', vtm_socket_read (vtm_socket_plain_vtable sys ok rest) n s os = (VTM_OK, data, s', os') /\
    VTM_SOCKET_IS_CLOSED s' = false /\ s_fd s' = s_fd s.
Proof.
  intros Hopen Hne Er. unfold vtm_socket_read. rewrite Hopen. cbn [vt_read vtm_socket_plain_vtable].
  unfold vtm_socket_plain_read. set (s0 := vtm_socket_unset_state s _). change (s_fd s0) with (s_fd s). rewrite Er.
  destruct data as [|c l]; [done|]. eexists. split; [reflexivity|].
  rewrite is_closed_bit in Hopen. set (s1 := vtm_socket_set_state_intl s0 0).
  assert (Z.testbit (s_state s1) 1 = false) as H1 by (unfold s1, s0; flag_bits; by rewrite Hopen).
  destruct (flag_any _ _ && flag_any _ _); rewrite is_closed_bit; (split; [|done]); [flag_bits; by rewrite H1|done].
Qed.

(** A peer that takes everything. *)
Section Sending.
Context {OS SA : Type} (sys : sys_net OS) (sent inbox : Z -> OS -> bytes) `{!PeerLaws sys sent inbox}.
Context (ok : bool) (rest : vtm_socket_vtable OS SA).
Abbreviation vt := (vtm_socket_plain_vtable sys ok rest).
Implicit Types (s : vtm_socket) (os : OS).

Lemma peer_write s os src :
  VTM_SOCKET_IS_CLOSED s = false -> src <> [] ->
  exists s' os', vtm_socket_write vt src s os = Some (VTM_OK, zlen src, s', os') /\
    net_after sent inbox s os s' os' src (inbox (s_fd s) os).
Proof.
  intros Hopen Hsrc. destruct (send_all (s_fd s) src os Hsrc) as (os1 & E & Hs & Hin).
  destruct (write_once sys ok rest s os src os1 Hopen Hsrc E) as (s' & Ew & Hfd & Hop). by exists s', os1.
Qed.

Lemma peer_emit s os c :
  VTM_SOCKET_IS_CLOSED s = false -> c <> [] -> zlen c <= SIZE_MAX ->
  exists s' os', vtm_socket_emitter_try_write vt [mk_emitter (zlen c) (EmtBuf c 0 false)] s os
      = Some (VTM_OK, [], [mk_emitter (zlen c) (EmtBuf c 0 false)], s', os') /\
    net_after sent inbox s os s' os' c (inbox (s_fd s) os).
Proof.
  intros Hopen Hc Hl. pose proof (zlen_nonneg c). destruct (peer_write s os c Hopen Hc) as (s' & os' & E & Hn).
  exists s', os'. split; [|done]. cbn [vtm_socket_emitter_try_write]. unfold vtm_sock_emt_write.
  cbn [se_emt se_length]. unfold vtm_socket_emitter_write_raw. rewrite Z.sub_0_r, u64_small by done.
  rewrite decide_True by lia. rewrite zdrop_0, ztake_all, E by lia. cbn [mbind option_bind].
  rewrite Z.add_0_l, u64_small by done. rewrite !Z.eqb_refl. done.
Qed.

(** Sending a response of which the peer takes everything. *)
Lemma peer_send r text s os :
  VTM_SOCKET_IS_CLOSED s = false -> buf_ok (res_buf r) -> res_body_se r = BodyNull ->
  ztake (buf_used (res_buf r)) (buf_data (res_buf r)) = text -> text <> [] ->
  exists r' s' os', vtm_http_res_send vt true r s os = Some (VTM_OK, r', None, s', os') /\
    net_after sent inbox s os s' os' text (inbox (s_fd s) os) /\
    vtm_http_res_was_sent r' = true /\ res_act r' = res_act r /\ res_buf r' = res_buf r /\
    res_body_buf r' = res_body_buf r.
Proof.
  intros Hopen Hb Hse Ht Hne. unfold vtm_http_res_send, vtm_socket_emitter_for_buffer, buf_bytes.
  rewrite decide_False by apply Hb. rewrite Ht, Hse. cbn [negb mbind option_bind].
  destruct (peer_emit s os text Hopen Hne) as (s' & os' & -> & Hnet).
  { rewrite <- Ht. buf_sizes. rewrite zlen_ztake by lia. unfold SIZE_MAX. lia. }
  cbn [mbind option_bind]. rewrite Z.eqb_refl. by eexists _, s', os'.
Qed.
End Sending.

(** ** The receiving side of a connection *)

(** Enough memory for the parser and the buffers. *)
Definition rich : http_allocs := mk_allocs (fun _ => true) all_ok true true true true.

(** A connection between two requests: [u] is what was received behind the last
    one, [se] what of the last answer the peer has not taken. *)
Record con_idle (se : option pending) (c : vtm_http_con) (u : bytes) : Prop := {
  cw_buf : buf_ok (c_recvbuf c);
  cw_err : buf_err (c_recvbuf c) = VTM_OK;
  cw_content : buf_content (c_recvbuf c) = u;
  cw_len : buf_len (c_recvbuf c) <= 2048;
  cw_read : c_clear c = false -> buf_read (c_recvbuf c) = 0;
  cw_parser : exists p, c_parser c = vtm_http_parser_reset p /\ mode p = VTM_HTTP_PM_REQUEST /\
    max_header_size p = VTM_HTTP_DEF_MAX_HEADER_SIZE /\ max_body_size p = VTM_HTTP_DEF_MAX_BODY_SIZE;
  cw_home : c_home c = HomeBuf;
  cw_emitter : c_emitter c = se
}.
Abbreviation con_waits := (con_idle None).

Lemma con_new_waits junk c : vtm_http_con_new true junk = Some c -> con_waits c [].
Proof.
  intros [= <-]. constructor; cbn [c_recvbuf c_parser c_home c_emitter]; try done; [apply buf_init_ok|].
  eexists. split; [reflexivity|]. done.
Qed.

(** Making room for 512 more bytes. *)
Lemma ensure_512 b :
  buf_ok b -> buf_err b = VTM_OK -> buf_read b = 0 -> buf_used b <= 1024 -> buf_len b <= 2048 ->
  exists b', vtm_buf_ensure (fun _ => true) b 512 = (b', VTM_OK) /\ buf_ok b' /\ buf_err b' = VTM_OK /\
    buf_read b' = 0 /\ buf_used b' = buf_used b /\ buf_content b' = buf_content b /\ buf_len b' <= 2048.
Proof.
  intros Hb He Hr Hu Hl. assert (is_size 512) as Hs by (unfold is_size, SIZE_MAX; lia).
  destruct (make_room_ok (fun _ => true) (fun _ => eq_refl) b (buf_used b) 512) as ((Hb' & He' & _) & Hu' & Hroom);
    [split_and!; try done; lia|lia|unfold ROOM; lia|].
  destruct (make_room_kept (fun _ => true) (fun _ => eq_refl) b 512 Hb Hs) as (_ & _ & Hr' & _ & Hc' & _).
  unfold vtm_buf_ensure. set (b' := if VTM_BUF_PUT_AVAIL b 512 then _ else _) in *.
  exists b'. rewrite He'. split; [done|]. split_and!; try done; [congruence|].
  subst b'. pose proof (put_avail_spec b 512 Hb Hs) as Ha. destruct (VTM_BUF_PUT_AVAIL b 512); [done|].
  destruct (vtm_buf_grow_spec (fun _ => true) b 512 Hb Hs); cbn [buf_with_block buf_with_err buf_lose buf_len]; try done.
  destruct (Z.leb_spec (buf_used b + 512) (buf_len b)) as [Hx|Hx]; [by apply Ha in Hx|].
  assert (k <= 11 \/ 12 <= k) as [Hk|Hk] by lia.
  - change 2048 with (2 ^ 11). apply Z.pow_le_mono_r; lia.
  - assert (2 ^ 12 <= 2 ^ k) by (apply Z.pow_le_mono_r; lia). lia.
Qed.

(** A buffer with everything unread, as the parser finds it. *)
Lemma received_form b :
  buf_ok b -> buf_read b = 0 ->
  exists g, b = buf_tail g (received (buf_order b) (buf_place b) (buf_content b) (buf_len b) (buf_err b)).
Proof.
  intros Hb Hr. exists (zdrop (buf_used b) (buf_data b)). unfold buf_tail, received.
  cbn [buf_order buf_place buf_data buf_len buf_used buf_read buf_err].
  rewrite content_used, ztake_zdrop by done.
  assert (zlen (ztake (buf_used b) (buf_data b)) = buf_used b) as -> by (buf_sizes; rewrite zlen_ztake; lia).
  destruct b; cbn in *. by rewrite Hr.
Qed.

Section Receive.
Context {OS SA : Type} (sys : sys_net OS) (sent inbox : Z -> OS -> bytes) `{!RecvLaws sys sent inbox}.
Context (ok : bool) (rest : vtm_socket_vtable OS SA) (printf_g : Z -> bytes).
Abbreviation vt := (vtm_socket_plain_vtable sys ok rest).
Implicit Types (s : vtm_socket) (os : OS).

(** A read takes what the peer has sent and runs the parser on what is there. *)
Lemma con_receive se c u s os h :
  con_idle se c u -> VTM_SOCKET_IS_CLOSED s = false -> zlen (u ++ inbox (s_fd s) os) <= 1024 ->
  Forall is_byte (inbox (s_fd s) os) ->
  exists g ord stc len s' os', len <= 2048 /\ net_after sent inbox s os s' os' [] [] /\
    after_recv sys inbox (s_fd s) os os' /\
    let b := buf_tail g (received ord stc (u ++ inbox (s_fd s) os) len VTM_OK) in
    buf_ok b /\
    vtm_http_con_read (fun _ => true) printf_g all_ok vt c s os h =
      '(stat, e) ← vtm_http_parser_run (fun _ => true) printf_g all_ok (mk_env (c_parser c) b h);
      Some (stat, mk_con (e_buf e) (e_par e) HomeBuf se false, s', os', e_heap e).
Proof.
  intros [Hb He Hc Hlen Hr (p & Hp & _) Hhome Hemt] Hopen Hsz Hby. pose proof (zlen_nonneg (inbox (s_fd s) os)).
  pose proof (zlen_nonneg u). rewrite zlen_app in Hsz.
  set (c1 := if c_clear c then mk_con (vtm_buf_discard_processed (c_recvbuf c)) (c_parser c) (c_home c)
    (c_emitter c) false else c).
  assert (buf_ok (c_recvbuf c1) /\ buf_content (c_recvbuf c1) = u /\ buf_read (c_recvbuf c1) = 0 /\
    buf_err (c_recvbuf c1) = VTM_OK /\ buf_len (c_recvbuf c1) <= 2048 /\ c_parser c1 = c_parser c /\
    c_home c1 = HomeBuf /\ c_emitter c1 = se /\ c_clear c1 = false) as (Hb1 & Hc1 & Hr1 & He1 & Hl1 & Hp1 & Hh1 & Hm1 & Hcl1).
  { subst c1. destruct (c_clear c) eqn:Ec; [|by split_and!; auto].
    cbn [c_recvbuf c_parser c_home c_emitter c_clear].
    destruct (vtm_buf_discard_processed_spec _ Hb) as (? & ? & ? & ? & ? & ?). split_and!; try done; congruence. }
  assert (buf_used (c_recvbuf c1) = zlen u) as Hu1 by (rewrite <- Hc1; symmetry; by apply content_used_len).
  destruct (ensure_512 (c_recvbuf c1)) as (b2 & E2 & Hb2 & He2 & Hr2 & Hu2 & Hc2 & Hl2); try done; [lia|].
  destruct (peer_read sys sent inbox ok rest s os (VTM_BUF_PUT_AVAIL_TOTAL b2) Hopen) as (rc & s' & os' & E3 & Hrc & Hnet & Haft).
  { unfold VTM_BUF_PUT_AVAIL_TOTAL. rewrite u64_small by (buf_sizes; unfold is_size, SIZE_MAX; lia). buf_sizes. lia. }
  set (x := inbox (s_fd s) os) in *.
  destruct (put_inc_spec b2 x Hb2 Hby) as (Ei & Hb3 & Hc3); [buf_sizes; lia|].
  set (b3 := buf_with_data _ _ _) in *. destruct (received_form b3 Hb3 Hr2) as (g & Eg).
  rewrite Hc3, Hc2, Hc1 in Eg. change (buf_err b3) with (buf_err b2) in Eg. rewrite He2 in Eg.
  exists g, (buf_order b3), (buf_place b3), (buf_len b3), s', os'. split; [done|]. split; [done|]. split; [done|].
  cbv zeta. rewrite <- Eg. split; [done|].
  unfold vtm_http_con_read. fold c1. rewrite E2. change (negb (VTM_OK =? VTM_OK)) with false. cbn iota.
  rewrite E3, Ei. assert ((rc =? VTM_OK) || (rc =? VTM_E_IO_AGAIN) = true) as -> by (by destruct Hrc as [-> | ->]).
  cbn [negb].
  assert (c_home (con_moved b2 c1) = HomeBuf) as Hhm.
  { unfold con_moved. cbn [c_home]. rewrite Hh1. destruct ((buf_len b2 =? _) && _); [done|].
    rewrite Hp1, Hp. done. }
  cbn [con_with_recv c_parser c_recvbuf c_home c_emitter c_clear].
  rewrite Hhm. unfold con_moved. cbn [c_parser c_emitter c_clear]. by rewrite Hp1, Hm1, Hcl1.
Qed.
End Receive.

(** ** Requests *)

(** More foreign blocks. *)
Lemma heap_ok_widen h l h1 F : heap_ok h l h1 -> h1 ⊆ F -> heap_ok (F ∖ list_to_set l) l F.
Proof.
  intros (Hnd & Hf & ->) Hsub. split_and!; [done|set_solver|]. apply set_eq. intros x.
  rewrite elem_of_union, elem_of_difference. destruct (decide (x ∈ (list_to_set l : heap))); set_solver.
Qed.

(** What an application finds in a request. *)
Definition view_of (ds : option vtm_dataset) (m : gmap bytes vtm_variant) : Prop :=
  match ds with None => m = ∅ | Some ds => ds_abs ds = m end.
Record req_view (r : http_request) (req : vtm_http_req) : Prop := {
  rv_method : rq_method req = r_method r;
  rv_version : rq_version req = r_version r;
  rv_path : rq_path req = Some (r_path r);
  rv_headers : view_of (rq_headers req) (str_variant <$> hdr_map (r_fields r) ∅);
  rv_params : view_of (rq_params req) (params_map (r_params r) ∅)
}.

Section Requests.
Context (printf_g : Z -> bytes).
Abbreviation many := (fun _ : Z => true).

(** The blocks that a request holds, over the ones [h] of others. *)
Definition req_owns (r : http_request) (h : heap) (req : vtm_http_req) (hr : heap) : Prop :=
  exists h1 F, params_owned many printf_g h h1 (rq_params req) /\ h1 ⊆ F /\
    (distinct_fields (r_fields r) -> F = h1) /\
    match rq_headers req with
    | None => hr = F
    | Some ds => hdr_ds many printf_g ds (hdr_map (r_fields r) ∅) /\ heap_ok F (ds_owned ds) hr
    end.

(** Releasing the request frees what it holds; the blocks of replaced values of
    headers stay. *)
Lemma req_release_ok r h req hr :
  req_owns r h req hr ->
  exists h', vtm_http_req_release req hr = Some h' /\ h ⊆ h' /\ (distinct_fields (r_fields r) -> h' = h).
Proof.
  intros (h1 & F & Hp & Hsub & Hd & Hh). unfold vtm_http_req_release.
  assert (vtm_dataset_free (rq_headers req) hr = Some F) as ->.
  { unfold vtm_dataset_free, vtm_dataset_release. destruct (rq_headers req) as [ds|]; [|by subst].
    destruct Hh as [(Hw & _) Ho]. destruct (ds_clear_ok many printf_g F ds hr Hw Ho) as (ds' & -> & _). done. }
  cbn [mbind option_bind]. unfold vtm_dataset_free, vtm_dataset_release, params_owned in *.
  destruct (rq_params req) as [ps|]; [|subst h1; by exists F].
  destruct Hp as (Hw & _ & Ho). pose proof (heap_ok_widen _ _ _ _ Ho Hsub) as Ho'.
  destruct (ds_clear_ok many printf_g _ ps F Hw Ho') as (ds' & -> & _). cbn [mbind option_bind].
  eexists. split; [done|]. destruct Ho as (_ & Hf & ->). split; [set_solver|].
  intros ->%Hd. set_solver.
Qed.

(** What the version and the header Connection of a request demand. *)
Definition init_act (r : http_request) : vtm_http_res_act :=
  match r_version r with
  | VTM_HTTP_VER_1_0 => VTM_HTTP_RES_ACT_CLOSE_CON
  | VTM_HTTP_VER_1_1 =>
      match hdr_map (r_fields r) ∅ !! map tolower VTM_HTTP_HEADER_CONNECTION with
      | Some v => if vtm_str_casecmp v VTM_HTTP_VALUE_CLOSE =? 0
                  then VTM_HTTP_RES_ACT_CLOSE_CON else VTM_HTTP_RES_ACT_KEEP_CON
      | None => VTM_HTTP_RES_ACT_KEEP_CON
      end
  end.

Lemma prepare_ok r req hr h r0 :
  req_view r req -> req_owns r h req hr -> buf_ok (res_buf r0) -> buf_ok (res_body_buf r0) ->
  exists r1 req1, vtm_http_res_prepare many printf_g r0 req = Some (r1, req1) /\
    res_fresh r1 /\ res_room r1 0 /\ res_version r1 = r_version r /\ res_act r1 = init_act r /\
    req_view r req1 /\ req_owns r h req1 hr.
Proof.
  intros Hv Ho Hb Hbb.
  assert (exists r1 req1, vtm_http_res_prepare many printf_g r0 req = Some (r1, req1) /\ res_act r1 = init_act r /\
    res_room r1 0 /\ req_view r req1 /\ req_owns r h req1 hr) as (r1 & req1 & E & Ha & Hr & Hv1 & Ho1).
  { assert (room (vtm_buf_clear (res_buf r0)) 0 /\ room (vtm_buf_clear (res_body_buf r0)) 0) as [? ?].
    { split; (split_and!; [by apply buf_clear_ok|by apply buf_clear_err|cbn; lia]). }
    unfold vtm_http_res_prepare, init_act. rewrite (rv_version _ _ Hv). destruct (r_version r).
    { eexists _, req. split; [reflexivity|]. by split_and!. }
    unfold vtm_http_req_get_header_str. destruct Hv as [Vm Vv Vp Vh Vps].
    destruct Ho as (h1 & F & Hp & Hsub & Hd & Hh). destruct (rq_headers req) as [ds|] eqn:Eh; cbn [view_of] in Vh.
    - destruct Hh as [Hds Ho].
      destruct (hdr_get_string many printf_g F ds _ VTM_HTTP_HEADER_CONNECTION hr Hds) as (ds' & -> & Hds' & Ho'); [|done|].
      { by apply (bool_decide_unpack _). }
      cbn [mbind option_bind]. eexists _, _. split; [reflexivity|]. split; [done|]. split; [done|]. split.
      + constructor; try done. apply Hds'.
      + by exists h1, F.
    - assert (hdr_map (r_fields r) ∅ = ∅) as ->.
      { apply map_eq. intros k. rewrite lookup_empty. apply (f_equal (lookup k)) in Vh.
        rewrite lookup_fmap, lookup_empty in Vh. by destruct (_ !! k). }
      cbn [mbind option_bind]. rewrite lookup_empty. eexists _, req. split; [reflexivity|]. split_and!; try done.
      + constructor; try done. by rewrite Eh.
      + exists h1, F. by rewrite Eh. }
  exists r1, req1. destruct (prepare_fresh many printf_g r0 req r1 req1 Hb Hbb E) as [Hf Hver].
  split_and!; try done. rewrite Hver. apply Hv.
Qed.
End Requests.

(** A request without a body. *)
Definition bodyless (r : http_request) : Prop :=
  request_ok r /\ not_chunked (hdr_map (r_fields r) ∅) /\ hdr_length (hdr_map (r_fields r) ∅) = None.

Section ReceiveRequest.
Context {OS SA : Type} (sys : sys_net OS) (sent inbox : Z -> OS -> bytes) `{!RecvLaws sys sent inbox}.
Context (ok : bool) (rest : vtm_socket_vtable OS SA) (printf_g : Z -> bytes).
Abbreviation vt := (vtm_socket_plain_vtable sys ok rest).
Abbreviation many := (fun _ : Z => true).
Implicit Types (s : vtm_socket) (os : OS).

(** The parser on a buffer with a request and what follows it. *)
Lemma run_request_rest p ord stc len err g r rest0 h :
  mode p = VTM_HTTP_PM_REQUEST -> max_header_size p = VTM_HTTP_DEF_MAX_HEADER_SIZE ->
  max_body_size p = VTM_HTTP_DEF_MAX_BODY_SIZE -> bodyless r -> zlen (request_text r ++ rest0) <= 1024 ->
  let b := buf_tail g (received ord stc (request_text r ++ rest0) len err) in
  buf_ok b ->
  exists e, vtm_http_parser_run many printf_g all_ok (mk_env (vtm_http_parser_reset p) b h)
      = Some (VTM_NET_RECV_STAT_COMPLETE, e) /\
    request_parsed many printf_g r e /\ request_owned many printf_g r h e /\
    buf_ok (e_buf e) /\ buf_len (e_buf e) = len /\ buf_err (e_buf e) = err /\ buf_content (e_buf e) = rest0 /\
    exists m sh i, e_par e = mk_parser VTM_HTTP_PM_REQUEST VTM_HTTP_PARSE_COMPLETE 1 VTM_HTTP_DEF_MAX_HEADER_SIZE
      VTM_HTTP_DEF_MAX_BODY_SIZE m sh i.
Proof.
  intros Hm Hh Hbd (Hr & Hnc & Hnl) Hlen b Hb. pose proof (zlen_nonneg rest0). rewrite zlen_app in Hlen.
  destruct (RUN_request_rest many printf_g VTM_HTTP_PM_REQUEST VTM_HTTP_DEF_MAX_HEADER_SIZE VTM_HTTP_DEF_MAX_BODY_SIZE
    ord stc len (zlen (request_text r ++ rest0)) err r [] rest0 h eq_refl Hr Hnc)
    as (e & don & E & Hp & Ho & Eb & Hd & (m & sh & i & Ep) & _ & _).
  { unfold body_awaited. by rewrite Hnl. }
  { rewrite app_nil_r. unfold in_limits, VTM_HTTP_DEF_MAX_HEADER_SIZE, VTM_HTTP_DEF_MAX_BODY_SIZE. lia. }
  cbn [app] in E. rewrite app_nil_r in Hd.
  assert (vtm_http_parser_run many printf_g all_ok (mk_env (vtm_http_parser_reset p) b h)
    = Some (VTM_NET_RECV_STAT_COMPLETE, env_tail g e)) as Erun.
  { apply (parser_run_tail many printf_g all_ok g
      (mk_env (vtm_http_parser_reset p) (received ord stc (request_text r ++ rest0) len err) h)).
    rewrite run_received; [by rewrite Hm, Hh, Hbd| rewrite zlen_app; lia|].
    intros Hx. apply app_eq_nil in Hx as [Hx _]. pose proof (request_text_ne r []) as Hne. by rewrite app_nil_r in Hne. }
  exists (env_tail g e). split; [exact Erun|].
  destruct (parser_run_keeps many printf_g all_ok (mk_env (vtm_http_parser_reset p) b h) _ _ Hb Erun) as (Hb' & _ & _).
  split; [|split; [|split; [done|]]].
  - destruct Hp as [P1 (off & P2 & P2') P3 P4 P5]. constructor; rewrite ?par_tail; try done.
    exists off. split; [done|]. by apply buf_str_tail.
  - destruct Ho as (h1 & F & Ho). by exists h1, F.
  - change (e_buf (env_tail g e)) with (buf_tail g (e_buf e)) in Hb' |- *.
    change (e_par (env_tail g e)) with (e_par e). rewrite Eb in Hb' |- *. split; [done|]. split; [done|]. split.
    + unfold buf_content. cbn [buf_tail buf_data buf_used buf_read].
      rewrite ztake_app_le, ztake_all, zdrop_app_exact by (rewrite ?zlen_app; lia). done.
    + by eexists _, _, _.
Qed.

Lemma con_read_request c u s os h id r rest0 :
  con_waits c u -> VTM_SOCKET_IS_CLOSED s = false -> u ++ inbox (s_fd s) os = request_text r ++ rest0 ->
  zlen (request_text r ++ rest0) <= 1024 -> Forall is_byte (inbox (s_fd s) os) -> bodyless r ->
  exists c1 s' os' hr req c2,
    vtm_http_con_read many printf_g all_ok vt c s os h = Some (VTM_NET_RECV_STAT_COMPLETE, c1, s', os', hr) /\
    net_after sent inbox s os s' os' [] [] /\ after_recv sys inbox (s_fd s) os os' /\
    vtm_http_con_get_request id c1 = Some (VTM_OK, Some req, c2) /\ con_waits c2 rest0 /\
    req_view r req /\ req_owns printf_g r h req hr.
Proof.
  intros Hc Hopen Et Hlen Hby Hr.
  destruct (con_receive sys sent inbox ok rest printf_g _ c u s os h Hc Hopen ltac:(by rewrite Et) Hby)
    as (g & ord & stc & len & s' & os' & Hl & Hnet & Haft & Hb & ->).
  destruct Hc as [_ _ _ _ _ (p & -> & Hm & Hh & Hbd) _ _]. rewrite Et in Hb |- *.
  destruct (run_request_rest p ord stc len VTM_OK g r rest0 h Hm Hh Hbd Hr Hlen Hb)
    as (e & -> & [P1 (off & P2 & P2') P3 P4 P5] & (h1 & F & O1 & O2 & O3 & O4) & Hb' & El & Ee & Ec & (m & sh & i & Ep)).
  cbn [mbind option_bind].
  set (c1 := mk_con (e_buf e) (e_par e) HomeBuf None false).
  assert (con_path c1 = Some (Some (r_path r))) as Epath.
  { unfold con_path. cbn [c1 c_parser c_home c_recvbuf]. by rewrite P2, P2'. }
  eexists c1, s', os', (e_heap e), _, _. split; [reflexivity|]. split; [done|]. split; [done|].
  assert (state (e_par e) = VTM_HTTP_PARSE_COMPLETE /\ mode (e_par e) = VTM_HTTP_PM_REQUEST /\
    max_header_size (e_par e) = VTM_HTTP_DEF_MAX_HEADER_SIZE /\
    max_body_size (e_par e) = VTM_HTTP_DEF_MAX_BODY_SIZE) as (Est & Ems) by (by rewrite Ep). clear Ep m sh i.
  split. { unfold vtm_http_con_get_request. rewrite Epath. cbn [c1 c_parser]. rewrite Est. reflexivity. }
  split; [|split].
  - constructor; cbn [c1 c_recvbuf c_parser c_home c_emitter c_clear]; try done; [by rewrite El|].
    by exists (e_par e).
  - constructor; cbn [rq_method rq_version rq_path rq_headers rq_params c1 c_parser]; try done.
    + destruct (headers (shared (e_par e))); cbn [view_of]; [apply P5|]. by rewrite P5, fmap_empty.
    + destruct (r_params r); [by rewrite P3|]. destruct P3 as (ds & -> & E). exact E.
  - exists h1, F. cbn [rq_headers rq_params c1 c_parser]. split_and!; try done.
    destruct O4 as [(-> & _ & (_ & _ & E))|(ds & -> & _ & Hds & Ho)]; [|done]. cbn [list_to_set] in E. set_solver.
Qed.

Lemma con_read_nothing se c u s os h :
  con_idle se c u -> VTM_SOCKET_IS_CLOSED s = false -> u ++ inbox (s_fd s) os = [] ->
  exists c' s' os', vtm_http_con_read many printf_g all_ok vt c s os h
      = Some (VTM_NET_RECV_STAT_AGAIN, c', s', os', h) /\
    net_after sent inbox s os s' os' [] [] /\ con_idle se c' [].
Proof.
  intros Hc Hopen Et. pose proof Et as [_ Ei]%app_eq_nil.
  destruct (con_receive sys sent inbox ok rest printf_g _ c u s os h Hc Hopen)
    as (g & ord & stc & len & s' & os' & Hl & Hnet & Haft & Hb & ->); [by rewrite Et|by rewrite Ei|].
  destruct Hc as [_ _ _ _ _ (p & Hp & Hm) _ _]. rewrite Et in Hb |- *. rewrite Hp.
  set (b := buf_tail _ _) in *. eexists _, s', os'. split; [reflexivity|]. split; [done|].
  constructor; cbn [c_recvbuf c_parser c_home c_emitter c_clear]; try done.
  by exists p.
Qed.
End ReceiveRequest.

