(* ===== verification/HttpServerProps.v ===== *)
(** * HttpServerProps: what a connection of the HTTP server does

    The specification of a connection, [serve_spec], and the proof that the
    handler of an event of http_server.c implements it. *)

From stdpp Require Import gmap fin_sets.
From S2P Require Import Prelude Base Buffer Format Str Ws Elem Hash Heap Table.
From S2P Require Import Smap Dataset Http HttpParser HttpRequest Socket Emitter HttpResponse ResponseProps.
From S2P Require Import ResponseRoom HttpFrame HttpCon HttpServer HttpPeer.

(** ** Serving *)

(** A reply that an application makes: it begins the response, makes some calls
    for it and ends it. *)
Record reply := mk_reply { rp_mode : vtm_http_res_mode; rp_status : Z; rp_calls : list res_call }.

Fixpoint prog_calls (calls : list res_call) (k : res_prog) : res_prog :=
  match calls with [] => k | c :: calls => PCall c (fun _ => prog_calls calls k) end.
Definition prog_reply_ret (p : reply) (result : Z -> Z) : res_prog :=
  PBegin (rp_mode p) (rp_status p) (fun _ => prog_calls (rp_calls p) (PEnd (fun rc => PRet (result rc)))).
Definition prog_reply (p : reply) : res_prog := prog_reply_ret p id.

(** Headers, pieces of the body, and what to do with the connection. *)
Definition text_call (c : res_call) : Prop := match c with CEmt _ => False | _ => True end.
Definition reply_fine (p : reply) : Prop :=
  100 <= rp_status p < 1000 /\ Forall call_ok (rp_calls p) /\ Forall text_call (rp_calls p) /\
  calls_size (rp_calls p) <= 2 ^ 59.

(** No upgrade of the connection. *)
Definition plain_call (c : res_call) : Prop :=
  match c with CAct act _ => act <> VTM_HTTP_RES_ACT_UPGRADE_WS | _ => True end.
Definition reply_ok (p : reply) : Prop := reply_fine p /\ Forall plain_call (rp_calls p).

(** The answer that a reply to a request describes; [dt] is the date. *)
Definition reply_answer (dt : bytes) (r : http_request) (p : reply) : answer :=
  answer_of (rp_calls p) (mk_answer (r_version r) (rp_mode p) (rp_status p) dt (init_act r) [] [] None).

Lemma text_answer calls : forall p, Forall text_call calls -> an_emt p = None -> an_emt (answer_of calls p) = None.
Proof.
  induction calls as [|c calls IH]; intros p Hc He; cbn [answer_of fold_left]; [done|].
  apply Forall_cons in Hc as [Hc Hcs]. apply IH; [done|]. destruct c; cbn [answer_call text_call] in *; try done;
    by destruct (an_closed p).
Qed.

Lemma plain_answer calls : forall p,
  Forall plain_call calls -> an_act p <> VTM_HTTP_RES_ACT_UPGRADE_WS ->
  an_act (answer_of calls p) <> VTM_HTTP_RES_ACT_UPGRADE_WS.
Proof.
  induction calls as [|c calls IH]; intros p Hc Ha; cbn [answer_of fold_left]; [done|].
  apply Forall_cons in Hc as [Hc Hcs]. apply IH; [done|]. destruct c; cbn [answer_call plain_call] in *; try done;
    (by destruct (an_closed p)) || by destruct (an_emt p).
Qed.

Lemma init_act_plain r : init_act r <> VTM_HTTP_RES_ACT_UPGRADE_WS.
Proof. unfold init_act. destruct (r_version r); [done|]. destruct (_ !! _); [|done]. by destruct (_ =? 0). Qed.

Lemma reply_act_plain dt r p : reply_ok p -> an_act (reply_answer dt r p) <> VTM_HTTP_RES_ACT_UPGRADE_WS.
Proof.
  intros [_ Hp]. unfold reply_answer. apply (plain_answer (rp_calls p) _ Hp), init_act_plain.
Qed.

(** The specification of a connection: the requests are answered in their order;
    after an answer that closes the connection nothing follows.  The text that
    is sent, and whether the connection is closed. *)
Fixpoint serve_spec (answers : list answer) : bytes * bool :=
  match answers with
  | [] => ([], false)
  | p :: answers =>
      match an_act p with
      | VTM_HTTP_RES_ACT_KEEP_CON => let '(text, closed) := serve_spec answers in (answer_text p ++ text, closed)
      | _ => (answer_text p, true)
      end
  end.

(** What the connection keeps of the emitters that sending leaves. *)
Definition kept (r : vtm_http_res) (chain : option (list vtm_socket_emitter)) : option pending :=
  match chain with Some chain => Some (pending_rest (Some (buf_len (res_buf r))) 1 chain) | None => None end.

Section Handling.
Context {OS SA : Type} (sys : sys_net OS) (sent inbox : Z -> OS -> bytes) `{!RecvLaws sys sent inbox}.
Context (ok : bool) (rest : vtm_socket_vtable OS SA) (printf_g : Z -> bytes) (cbs : vtm_http_srv_cbs).
Context (time_now : Z) (now : c_tm) (dt : bytes) (junk_ws : vtm_ws_parser).
Hypothesis Hdt : is_line dt.
Hypothesis Hdate : vtm_http_fmt_date VTM_HTTP_DATE_LEN (vtm_date_now_utc time_now now).2 = Some (VTM_OK, dt).
Abbreviation vt := (vtm_socket_plain_vtable sys ok rest).
Abbreviation many := (fun _ : Z => true).
Abbreviation handle := (vtm_http_srv_http_handle_request rich printf_g cbs time_now now junk_ws vt).
Abbreviation can_read := (vtm_http_srv_sock_can_read rich printf_g cbs time_now now junk_ws vt).
Implicit Types (s : vtm_socket) (os : OS) (w : http_io OS).

Lemma prog_run_calls calls k : forall r se s os,
  prog_run rich time_now now vt (prog_calls calls k) r se s os
  = prog_run rich time_now now vt k (res_run many calls r).1 se s os.
Proof.
  induction calls as [|c calls IH]; intros r se s os; cbn [prog_calls prog_run res_run]; [done|].
  change (al_malloc rich) with many. destruct (res_do many c r) as [r1 rc]. rewrite IH.
  by destruct (res_run many calls r1).
Qed.

(** The callback puts the text of the answer together, then it sends it. *)
Lemma reply_ready p f r1 version act :
  reply_fine p -> res_fresh r1 -> res_room r1 0 -> res_version r1 = version -> res_act r1 = act ->
  let an := answer_of (rp_calls p) (mk_answer version (rp_mode p) (rp_status p) dt act [] [] None) in
  exists r2, (forall s os, prog_run rich time_now now vt (prog_reply_ret p f) r1 None s os
      = '(rc, r, chain, s, os) ← vtm_http_res_send vt true r2 s os;
        Some (f rc, r, kept r chain, s, os)) /\
    res_act r2 = an_act an /\ buf_ok (res_buf r2) /\ buf_ok (res_body_buf r2) /\ res_body_se r2 = BodyNull /\
    ztake (buf_used (res_buf r2)) (buf_data (res_buf r2)) = answer_text an.
Proof.
  intros (Hst & Hok & Htext & Hsize) Hf Hroom <- <- an. unfold prog_reply_ret. cbn [prog_run].
  change (al_malloc rich) with many.
  destruct (begin_room many (fun _ => eq_refl) r1 (rp_mode p) (rp_status p) time_now now dt Hf Hroom Hst Hdt Hdate)
    as (r2 & -> & Hr2 & Hrep). cbn [mbind option_bind].
  destruct (run_room many (fun _ => eq_refl) (rp_calls p) r2 _ 10000 Hrep Hr2 Hok) as [Hr3 Hrep3]; [unfold ROOM; lia|].
  fold an in Hrep3.
  pose proof (text_answer (rp_calls p) (mk_answer (res_version r1) (rp_mode p) (rp_status p) dt (res_act r1) [] [] None) Htext eq_refl)
    as Hemt. fold an in Hemt.
  destruct (end_ready sys ok rest many _ an (10000 + calls_size (rp_calls p)) (fun _ => eq_refl) Hrep3 Hr3 Hemt)
    as (r4 & E & Hr4 & Ha4 & Hse4 & Ht4); [unfold ROOM; lia|].
  exists r4. split; [|split; [done|split; [apply Hr4|split; [apply Hr4|done]]]].
  intros s os. rewrite prog_run_calls. cbn [prog_run].
  change (al_malloc rich) with many. change (al_len rich) with true. change (al_emt rich) with true.
  rewrite E. destruct Hrep3 as [_ _ _ _ _ _ Hse _ _ _]. rewrite Hemt in Hse. rewrite Hse. cbn [length].
  destruct (vtm_http_res_send vt true r4 s os) as [[[[[rc r] [chain|]] s1] os1]|]; done.
Qed.

(** A worker that serves a connection: the socket is open, the connection waits
    for a request, [u] was received already. *)
Definition io_serving w (u : bytes) : Prop :=
  VTM_SOCKET_IS_CLOSED (io_sock w) = false /\
  (exists c, io_con w = Some (ConH1 c) /\ con_waits c u) /\
  exists r, io_res w = Some r /\ buf_ok (res_buf r) /\ buf_ok (res_body_buf r).

Lemma close_ok w :
  VTM_SOCKET_IS_CLOSED (io_sock w) = false ->
  VTM_SOCKET_IS_CLOSED (io_sock (io_close vt w)) = true /\ io_heap (io_close vt w) = io_heap w /\
  s_fd (io_sock (io_close vt w)) = s_fd (io_sock w) /\
  sent (s_fd (io_sock w)) (io_os (io_close vt w)) = sent (s_fd (io_sock w)) (io_os w).
Proof.
  intros Hopen. unfold io_close, vtm_socket_close. rewrite Hopen. cbn [vt_close vtm_socket_plain_vtable].
  unfold vtm_socket_plain_close. rewrite Z.eqb_refl. cbn [io_sock io_os io_heap].
  split; [|split; [done|split; [done|apply close_sent]]]. rewrite is_closed_bit. flag_bits.
  unfold VTM_SOCK_STAT_CLOSED. by rewrite Z.pow2_bits_true, orb_true_r.
Qed.

(** The handler of a request up to the point where the answer is sent: [r2] holds
    its text; then the action of the response is done. *)
Lemma handle_ready p f c1 c2 req r u w h :
  (exists r0, io_res w = Some r0 /\ buf_ok (res_buf r0) /\ buf_ok (res_body_buf r0)) ->
  vtm_http_con_get_request (s_fd (io_sock w)) c1 = Some (VTM_OK, Some req, c2) -> con_waits c2 u ->
  req_view r req -> req_owns printf_g r h req (io_heap w) -> reply_fine p ->
  (forall req, req_view r req -> req_owns printf_g r h req (io_heap w) ->
     cb_http_request cbs req = prog_reply_ret p f) ->
  exists r2 h', res_act r2 = an_act (reply_answer dt r p) /\ buf_ok (res_buf r2) /\
    buf_ok (res_body_buf r2) /\ res_body_se r2 = BodyNull /\
    ztake (buf_used (res_buf r2)) (buf_data (res_buf r2)) = answer_text (reply_answer dt r p) /\
    h ⊆ h' /\ (distinct_fields (r_fields r) -> h' = h) /\
    forall rc r3 chain s' os',
      vtm_http_res_send vt true r2 (io_sock w) (io_os w) = Some (rc, r3, chain, s', os') ->
      vtm_http_res_was_sent r3 = true -> res_act r3 = res_act r2 ->
      let c3 := vtm_http_con_set_emitter c2 (kept r3 chain) in
      let w' := mk_io s' os' (Some (ConH1 c3)) (Some r3) h' in
      handle c1 w = match res_act r2 with
                    | VTM_HTTP_RES_ACT_KEEP_CON => Some (true, w')
                    | VTM_HTTP_RES_ACT_CLOSE_CON => Some (false, io_close vt w')
                    | VTM_HTTP_RES_ACT_UPGRADE_WS =>
                        w'' ← vtm_http_srv_http_con_upgrade_ws rich cbs junk_ws vt c3 w'; Some (false, w'')
                    end.
Proof.
  intros (r0 & Er & Hb & Hbb) Hget Hc2 Hv Ho Hrep Hreply.
  destruct (prepare_ok printf_g r req (io_heap w) h r0 Hv Ho Hb Hbb)
    as (r1 & req1 & Eprep & Hf & Hroom & Hver & Hact & Hv1 & Ho1).
  destruct (reply_ready p f r1 _ _ Hrep Hf Hroom Hver Hact)
    as (r2 & Erun & Hact2 & Hb2 & Hbb2 & Hse2 & Ht2).
  destruct (req_release_ok printf_g r h req1 (io_heap w) Ho1) as (h' & Erel & Hsub & Hd).
  exists r2, h'. split; [done|]. split; [done|]. split; [done|]. split; [done|]. split; [done|]. split; [done|].
  split; [done|]. intros rc r3 chain s' os' Esend Hws Hact3 c3 w'. unfold vtm_http_srv_http_handle_request.
  rewrite Hget. cbn [mbind option_bind]. rewrite Er. cbn [mbind option_bind]. change (al_malloc rich) with many.
  rewrite Eprep. cbn [mbind option_bind]. rewrite (Hreply _ Hv1 Ho1), (cw_emitter _ _ _ Hc2), Erun, Esend.
  cbn [mbind option_bind]. rewrite Erel. cbn [mbind option_bind]. rewrite Hws. unfold vtm_http_res_get_action.
  by rewrite Hact3.
Qed.

(** A round of the loop reads a request and calls the handler. *)
Lemma round_ready fuel w u r rest0 :
  io_serving w u -> u ++ inbox (s_fd (io_sock w)) (io_os w) = request_text r ++ rest0 ->
  zlen (request_text r ++ rest0) <= 1024 -> Forall is_byte (inbox (s_fd (io_sock w)) (io_os w)) -> bodyless r ->
  exists w1 c1 c2 req, can_read (S fuel) w
      = ('(loop, w) ← handle c1 w1; if loop : bool then can_read fuel w else Some w) /\
    VTM_SOCKET_IS_CLOSED (io_sock w1) = false /\ s_fd (io_sock w1) = s_fd (io_sock w) /\
    sent (s_fd (io_sock w)) (io_os w1) = sent (s_fd (io_sock w)) (io_os w) /\
    inbox (s_fd (io_sock w)) (io_os w1) = [] /\
    after_recv sys inbox (s_fd (io_sock w)) (io_os w) (io_os w1) /\ io_res w1 = io_res w /\
    vtm_http_con_get_request (s_fd (io_sock w1)) c1 = Some (VTM_OK, Some req, c2) /\ con_waits c2 rest0 /\
    req_view r req /\ req_owns printf_g r (io_heap w) req (io_heap w1).
Proof.
  intros (Hopen & (c & Ec & Hc) & Hres) Et Hlen Hby Hr. cbn [vtm_http_srv_sock_can_read].
  unfold con_can_read at 1. rewrite Ec.
  destruct (con_read_request sys sent inbox ok rest printf_g c u (io_sock w) (io_os w) (io_heap w) (s_fd (io_sock w))
    r rest0 Hc Hopen Et Hlen Hby Hr) as (c1 & s1 & os1 & hr & req & c2 & E & (Hop1 & Hfd1 & Hs1 & Hi1) & Haft & Hget & Hc2 & Hv & Ho).
  change (al_malloc rich) with many. change (al_parser rich) with all_ok. rewrite E. cbn [mbind option_bind].
  rewrite app_nil_r in Hs1. exists (mk_io s1 os1 (Some (ConH1 c1)) (io_res w) hr), c1, c2, req.
  cbn [io_sock io_os io_res io_heap]. rewrite Hfd1. unfold con_handle_req. by cbn [io_con].
Qed.
End Handling.

Section Serve.
Context {OS SA : Type} (sys : sys_net OS) (sent inbox : Z -> OS -> bytes) `{!PeerLaws sys sent inbox}.
Context (ok : bool) (rest : vtm_socket_vtable OS SA) (printf_g : Z -> bytes) (cbs : vtm_http_srv_cbs).
Context (time_now : Z) (now : c_tm) (dt : bytes) (junk_ws : vtm_ws_parser).
Context (reply_to : http_request -> reply).
Hypothesis Hdt : is_line dt.
Hypothesis Hdate : vtm_http_fmt_date VTM_HTTP_DATE_LEN (vtm_date_now_utc time_now now).2 = Some (VTM_OK, dt).
Hypothesis Hreply : forall r req, req_view r req -> cb_http_request cbs req = prog_reply (reply_to r).
Abbreviation vt := (vtm_socket_plain_vtable sys ok rest).
Abbreviation many := (fun _ : Z => true).
Abbreviation answer_to r := (reply_answer dt r (reply_to r)).
Abbreviation handle := (vtm_http_srv_http_handle_request rich printf_g cbs time_now now junk_ws vt).
Abbreviation can_read := (vtm_http_srv_sock_can_read rich printf_g cbs time_now now junk_ws vt).
Implicit Types (s : vtm_socket) (os : OS).

(** One round of the loop, with a request at the front: it is answered. *)
Lemma serve_step fuel w u r rest0 :
  io_serving w u -> u ++ inbox (s_fd (io_sock w)) (io_os w) = request_text r ++ rest0 ->
  zlen (request_text r ++ rest0) <= 1024 -> Forall is_byte (inbox (s_fd (io_sock w)) (io_os w)) ->
  bodyless r -> reply_ok (reply_to r) ->
  exists w' (loop : bool), can_read (S fuel) w = (if loop : bool then can_read fuel w' else Some w') /\
    loop = match an_act (answer_to r) with VTM_HTTP_RES_ACT_KEEP_CON => true | _ => false end /\
    s_fd (io_sock w') = s_fd (io_sock w) /\
    sent (s_fd (io_sock w)) (io_os w') = sent (s_fd (io_sock w)) (io_os w) ++ answer_text (answer_to r) /\
    io_heap w ⊆ io_heap w' /\ (distinct_fields (r_fields r) -> io_heap w' = io_heap w) /\
    if loop : bool then io_serving w' rest0 /\ inbox (s_fd (io_sock w)) (io_os w') = []
    else VTM_SOCKET_IS_CLOSED (io_sock w') = true.
Proof.
  intros Hw Et Hlen Hby Hr Hrep. pose proof Hw as (_ & _ & Hres).
  destruct (round_ready sys sent inbox ok rest printf_g cbs time_now now junk_ws fuel w u r rest0 Hw Et Hlen Hby Hr)
    as (w1 & c1 & c2 & req & -> & Hopen & Hfd & Hs & Hi & _ & Er & Hget & Hc2 & Hv & Ho).
  destruct (handle_ready sys ok rest printf_g cbs time_now now dt junk_ws Hdt Hdate (reply_to r) id
    c1 c2 req r rest0 w1 (io_heap w)) as (r2 & h' & Ha & Hb & Hbb & Hse & Ht & Hsub & Hd & Hh); try done.
  { by rewrite Er. }
  { apply Hrep. }
  { intros req1 Hv1 _. by apply Hreply. }
  destruct (peer_send sys sent inbox ok rest r2 (answer_text (answer_to r)) (io_sock w1) (io_os w1) Hopen Hb Hse Ht
    (answer_text_ne _)) as (r3 & s' & os' & Esend & (Hop' & Hfd' & Hs' & Hi') & Hws & Ha3 & Eb & Ebb).
  rewrite (Hh _ _ _ _ _ Esend Hws Ha3). cbn [kept mbind option_bind].
  assert (vtm_http_con_set_emitter c2 None = c2) as ->.
  { destruct c2. unfold vtm_http_con_set_emitter, con_with_emitter. cbn. f_equal. symmetry. apply (cw_emitter _ _ _ Hc2). }
  set (w2 := mk_io s' os' (Some (ConH1 c2)) (Some r3) h'). rewrite Ha, <- Hfd.
  rewrite Hfd in Hs', Hi' |- *. rewrite Hs, Hi in *. pose proof (reply_act_plain dt r (reply_to r) Hrep) as Hne.
  destruct (an_act (answer_to r)); [| |done].
  - destruct (close_ok sys sent inbox ok rest w2 Hop') as (Hcl & Hh2 & Hf2 & Hs2). exists (io_close vt w2), false.
    change (s_fd (io_sock w2)) with (s_fd s') in *. change (io_os w2) with os' in Hs2. rewrite Hfd', Hfd in *.
    split; [done|]. split; [done|]. split; [done|]. split; [by rewrite Hs2|]. by rewrite Hh2.
  - exists w2, true. change (s_fd (io_sock w2)) with (s_fd s'). rewrite Hfd'.
    split; [done|]. split; [done|]. split; [done|]. split; [done|]. split; [done|]. split; [done|].
    split; [|done]. split; [done|]. split; [by exists c2|]. exists r3. by rewrite Eb, Ebb.
Qed.

(** All requests. *)
Lemma serve_all rs : forall fuel w u,
  io_serving w u -> u ++ inbox (s_fd (io_sock w)) (io_os w) = concat (map request_text rs) ->
  zlen (concat (map request_text rs)) <= 1024 -> Forall is_byte (inbox (s_fd (io_sock w)) (io_os w)) ->
  Forall (fun r => bodyless r /\ reply_ok (reply_to r)) rs -> (length rs < fuel)%nat ->
  let spec := serve_spec (map (fun r => answer_to r) rs) in
  exists w', can_read fuel w = Some w' /\
    sent (s_fd (io_sock w)) (io_os w') = sent (s_fd (io_sock w)) (io_os w) ++ spec.1 /\
    VTM_SOCKET_IS_CLOSED (io_sock w') = spec.2 /\
    (spec.2 = false -> io_serving w' [] /\ inbox (s_fd (io_sock w)) (io_os w') = []) /\
    io_heap w ⊆ io_heap w' /\
    (Forall (fun r => distinct_fields (r_fields r)) rs -> io_heap w' = io_heap w).
Proof.
  induction rs as [|r rs IH]; intros fuel w u Hw Et Hlen Hby Hrs Hf; (destruct fuel as [|fuel]; [lia|]);
    cbn [map concat serve_spec] in *.
  - destruct Hw as (Hopen & (c & Ec & Hc) & Hres). cbn [vtm_http_srv_sock_can_read]. unfold con_can_read at 1. rewrite Ec.
    destruct (con_read_nothing sys sent inbox ok rest printf_g None c u (io_sock w) (io_os w) (io_heap w) Hc Hopen Et)
      as (c' & s1 & os1 & E & (Hop1 & Hfd1 & Hs1 & Hi1) & Hc').
    change (al_malloc rich) with many. change (al_parser rich) with all_ok. rewrite E. cbn [mbind option_bind].
    eexists. split; [reflexivity|]. cbn [io_os io_sock io_heap]. split; [done|]. split; [done|].
    split; [|done]. intros _. split; [|done]. split; [done|]. split; [by eexists|done].
  - apply Forall_cons in Hrs as [[Hr Hrep] Hrs].
    destruct (serve_step fuel w u r _ Hw Et Hlen Hby Hr Hrep) as (w1 & loop & -> & -> & Hfd & Hs & Hsub & Hd & Hend).
    pose proof (zlen_nonneg (request_text r)). rewrite zlen_app in Hlen. cbn [length] in Hf.
    destruct (an_act (answer_to r)).
    1,3: exists w1; split; [done|]; cbn [fst snd]; (split; [done|]); (split; [done|]); (split; [done|]);
      split; [done|]; intros [Hds _]%Forall_cons; by apply Hd.
    destruct Hend as [Hw1 Hi1]. rewrite <- Hfd in Hi1.
    destruct (IH fuel w1 _ Hw1) as (w' & E & Hs' & Hcl & Hserv & Hsub' & Hd'); try done;
      [by rewrite Hi1, app_nil_r|lia|by rewrite Hi1|lia|].
    exists w'. split; [done|]. rewrite Hfd in Hs'. destruct (serve_spec _) as [text closed]. cbn [fst snd] in *.
    split; [by rewrite Hs', Hs, <- app_assoc|]. split; [done|]. split; [by rewrite <- Hfd|]. split; [by etrans|].
    intros [Hd1 Hd2]%Forall_cons. rewrite Hd' by done. by apply Hd.
Qed.

(** C2: a worker of the HTTP server implements the specification of a connection
    (net/http/http_server.c, vtm_http_srv_sock_can_read with the whole way of a
    request below it: http_connection.c, http_parser.c, http_response.c,
    socket_emitter.c, socket.c).  A connection waits between two requests, with
    [u] received already; [u] and what the peer has sent since are the texts of
    well-formed requests without bodies, 1024 bytes at most; the application
    replies by a sequence of calls that depends on what the request says; memory
    does not run out and the peer takes what it is sent.  Then the handler of
    the event returns; the peer has received the answers, in the order of the
    requests and each of them whole, up to the first that closes the connection;
    the socket is closed if and only if there is one, and otherwise the
    connection waits again with nothing left over.  Every block that was live is
    still live, and if no request repeats the name of a header none was added. *)
Theorem http_server_serves rs fuel w u
    (Hw : io_serving w u)
    (Htext : u ++ inbox (s_fd (io_sock w)) (io_os w) = concat (map request_text rs))
    (Hlen : zlen (concat (map request_text rs)) <= 1024)
    (Hbytes : Forall is_byte (inbox (s_fd (io_sock w)) (io_os w)))
    (Hrs : Forall (fun r => bodyless r /\ reply_ok (reply_to r)) rs)
    (Hfuel : (length rs < fuel)%nat) :
  let spec := serve_spec (map (fun r => answer_to r) rs) in
  exists w', can_read fuel w = Some w' /\
    sent (s_fd (io_sock w)) (io_os w') = sent (s_fd (io_sock w)) (io_os w) ++ spec.1 /\
    VTM_SOCKET_IS_CLOSED (io_sock w') = spec.2 /\
    (spec.2 = false -> io_serving w' [] /\ inbox (s_fd (io_sock w)) (io_os w') = []) /\
    io_heap w ⊆ io_heap w' /\
    (Forall (fun r => distinct_fields (r_fields r)) rs -> io_heap w' = io_heap w).
Proof. by apply (serve_all rs fuel w u). Qed.
End Serve.

(** ** A concrete peer *)

Record mailbox := mk_mailbox { mb_inbox : bytes; mb_wire : bytes }.

Definition mailbox_sys : sys_net mailbox :=
  mk_sys (fun fd src os => (inl (zlen src), mk_mailbox (mb_inbox os) (mb_wire os ++ src)))
    (fun fd len os => match mb_inbox os with
                      | [] => (inr EAGAIN, os)
                      | inb => (inl (ztake len inb), mk_mailbox (zdrop len inb) (mb_wire os))
                      end)
    (fun fd os => (inr EAGAIN, os)) (fun fd dir os => (None, os)) (fun fd os => os).

#[export] Instance mailbox_laws : PeerLaws mailbox_sys (fun _ os => mb_wire os) (fun _ os => mb_inbox os).
Proof.
  constructor; [constructor; try done|].
  - intros fd len [inb out] Hne Hlen. cbn [mb_inbox mb_wire mailbox_sys sys_recv] in *.
    destruct inb as [|c l] eqn:E; [done|]. rewrite ztake_all by done. eexists. split; [done|].
    rewrite zdrop_all by done. done.
  - intros fd len [inb out] E. cbn [mb_inbox mb_wire mailbox_sys sys_recv] in *. subst inb. by eexists.
  - intros fd src os _. by eexists.
Qed.

Definition mailbox_vtable : vtm_socket_vtable mailbox unit :=
  let r s (os : mailbox) := (VTM_OK, s, os) in
  mk_vtable (fun _ _ => r) (fun _ => r) (fun s os => (VTM_OK, None, s, os)) (fun _ _ => r)
    (fun _ => r) r (fun src s os => Some (VTM_OK, zlen src, s, os)) (fun _ s os => (VTM_OK, [], s, os))
    (fun _ s os => (VTM_OK, [], tt, s, os)) (fun src _ s os => (VTM_OK, zlen src, s, os))
    (fun _ _ => r) (fun _ s os => (VTM_OK, 0, s, os)) (fun s os => (VTM_OK, tt, s, os)).

(** An application that sends the path back, and says farewell to one path. *)
Definition bye_path : bytes := cstr_of "/bye"%string.
Definition echo_reply (path : bytes) : reply :=
  if decide (path = bye_path)
  then mk_reply VTM_HTTP_RES_MODE_FIXED 410
         [CAct VTM_HTTP_RES_ACT_CLOSE_CON 0; CHeader (cstr_of "X"%string) (cstr_of "y"%string); CBody (cstr_of "Bye"%string)]
  else mk_reply VTM_HTTP_RES_MODE_CHUNKED 200 [CBody path; CBody (cstr_of "!"%string)].
Definition echo_cbs : vtm_http_srv_cbs :=
  mk_cbs (fun req => prog_reply (echo_reply (default [] (rq_path req)))) None None None.

Definition bye_request : http_request :=
  mk_request (cstr_of "GET"%string) VTM_HTTP_METHOD_GET bye_path [] VTM_HTTP_VER_1_1 [].

Definition junk_http : vtm_http_parser :=
  mk_parser VTM_HTTP_PM_RESPONSE VTM_HTTP_PARSE_BODY 7 0 0 reset_msg reset_shared reset_intl.

Definition junk_ws : vtm_ws_parser :=
  mk_par VTM_WS_MODE_CLIENT VTM_WS_PARSE_ERROR false false false false 0 false 0 0 0 None 0 0 0 VTM_WS_MSG_TEXT None.

(** A connection that was just accepted, with three requests on their way. *)
Definition echo_requests : list http_request := [test_request; bye_request; test_request].
Definition echo_io : http_io mailbox :=
  (vtm_http_srv_con_create junk_http true
     (mk_io demo_sock (mk_mailbox (concat (map request_text echo_requests)) []) None
        (vtm_http_srv_worker_init true VTM_BYTEORDER_LE 0) ∅)).2.

Lemma echo_reply_ok path : is_line path -> reply_ok (echo_reply path).
Proof.
  intros Hp. pose proof (line_text _ Hp) as Hpt. pose proof (line_len _ Hp).
  assert (is_text (cstr_of "!"%string) /\ is_text (cstr_of "X"%string) /\ is_text (cstr_of "y"%string) /\
    is_text (cstr_of "Bye"%string)) as (H1 & H2 & H3 & H4) by (split_and!; line).
  unfold echo_reply. case_decide.
  - split; [split; [cbn; lia|split; [|split; [|by vm_compute]]]|];
      repeat (apply Forall_cons_2; [done|]); apply Forall_nil_2.
  - split; [split; [cbn; lia|split; [|split]]|]; try (repeat (apply Forall_cons_2; [done|]); apply Forall_nil_2).
    cbn [rp_calls calls_size call_size]. change (zlen (cstr_of "!"%string)) with 1. lia.
Qed.

Lemma echo_serving : io_serving echo_io [].
Proof.
  split; [done|]. split; [|eexists; split; [reflexivity|]; split; apply buf_init_ok].
  eexists. split; [reflexivity|]. by apply (con_new_waits junk_http).
Qed.

Lemma bodyless_test : bodyless test_request.
Proof. split; [apply test_request_ok|]. by split; vm_compute. Qed.

Lemma bodyless_bye : bodyless bye_request.
Proof.
  split; [|by split; vm_compute].
  split_and!; [by left | | |]; repeat constructor; cbn; try lia; try done;
    try (intros H; repeat (apply elem_of_cons in H as [H|H]; [discriminate H |]); by apply not_elem_of_nil in H).
Qed.

(** Two of the three requests are answered, then the connection is closed. *)
Lemma http_server_serves_witness :
  exists w', vtm_http_srv_sock_can_read rich (fun _ => []) echo_cbs 1541322307 demo_tm junk_ws
      (vtm_socket_plain_vtable mailbox_sys true mailbox_vtable) 4 echo_io = Some w' /\
    mb_wire (io_os w')
      = answer_text (reply_answer demo_date test_request (echo_reply (r_path test_request))) ++
        answer_text (reply_answer demo_date bye_request (echo_reply bye_path)) /\
    VTM_SOCKET_IS_CLOSED (io_sock w') = true /\ io_heap w' = ∅.
Proof.
  destruct (http_server_serves mailbox_sys (fun _ os => mb_wire os) (fun _ os => mb_inbox os) true mailbox_vtable
    (fun _ => []) echo_cbs 1541322307 demo_tm demo_date junk_ws (fun r => echo_reply (r_path r)))
    with (rs := echo_requests) (fuel := 4%nat) (w := echo_io) (u := @nil Z) as (w' & E & Hs & Hc & _ & _ & Hh).
  - apply (bool_decide_unpack _). by vm_compute.
  - exact demo_date_text.
  - intros r req Hv. unfold echo_cbs. cbn [cb_http_request]. by rewrite (rv_path _ _ Hv).
  - apply echo_serving.
  - reflexivity.
  - vm_compute. discriminate.
  - apply (bool_decide_unpack _). by vm_compute.
  - assert (is_line (r_path test_request) /\ is_line bye_path) as [Ht Hb].
    { split; apply (bool_decide_unpack _); by vm_compute. }
    repeat (apply Forall_cons_2; [split; [apply bodyless_test || apply bodyless_bye|by apply echo_reply_ok]|]).
    apply Forall_nil_2.
  - cbn. lia.
  - exists w'. split; [exact E|]. split; [exact Hs|]. split; [exact Hc|].
    apply Hh. repeat (apply Forall_cons_2; [unfold distinct_fields; cbn; apply (bool_decide_unpack _); reflexivity|]).
    apply Forall_nil_2.
Defined.
