(* ===== verification/HttpWindow.v ===== *)
(** * HttpWindow: answers that the peer does not take at once

    The peer takes [n] bytes of an answer and then blocks.  The rest of the
    answer is an emitter that the connection keeps (net/http/http_connection.c,
    http_response.c); it lies over the buffer of the response, of which a worker
    has one for all of its connections (net/http/http_server.c). *)

From stdpp Require Import gmap fin_sets.
From S2P Require Import Prelude Base Buffer Format Str Ws Elem Hash Heap Table.
From S2P Require Import Smap Dataset Http HttpParser HttpRequest Socket Emitter HttpResponse ResponseProps.
From S2P Require Import ResponseRoom HttpFrame HttpCon HttpServer HttpPeer HttpServerProps.

(** ** The emitter over the buffer of the response *)

Section Over.
Context {OS SA : Type} (sys : sys_net OS) (sent : Z -> OS -> bytes) `{!SendLaws sys sent}.
Context (ok : bool) (rest : vtm_socket_vtable OS SA).
Abbreviation vt := (vtm_socket_plain_vtable sys ok rest).
Implicit Types (s : vtm_socket) (os : OS).

(** A chain with one emitter, of which [k] of [n] bytes were sent. *)
Definition waiting (n k : Z) (text : bytes) (len : Z) : pending :=
  mk_pending [mk_emitter n (EmtBuf text k false)] (Some len).

Lemma con_write_over rb c n k text s os :
  c_emitter c = Some (waiting n k text (buf_len rb)) -> buf_ok rb -> 0 <= k <= n -> n <= zlen (buf_data rb) ->
  VTM_SOCKET_IS_CLOSED s = false ->
  exists rc c' s' os' m, vtm_http_con_write vt rb c s os = Some (rc, c', s', os') /\
    sent (s_fd s) os' = sent (s_fd s) os ++ ztake m (zdrop k (ztake n (buf_data rb))) /\
    (rc = VTM_OK -> m = n - k) /\ s_fd s' = s_fd s /\ VTM_SOCKET_IS_CLOSED s' = false /\
    (rc = VTM_OK -> c' = con_with_emitter None c).
Proof.
  intros He Hb Hk Hn Hopen. buf_sizes. set (d := ztake n (buf_data rb)).
  assert (zlen d = n) as Hd by (subst d; rewrite zlen_ztake; lia).
  set (chain := [mk_emitter n (EmtBuf d k false)]).
  assert (Forall mem_emitter chain) as Hmem.
  { apply Forall_singleton. unfold mem_emitter. cbn [se_emt se_length]. rewrite Hd.
    split; [done|]. split; [lia|]. unfold SIZE_MAX. lia. }
  assert (chain_pending chain = zdrop k d) as Hp.
  { unfold chain_pending. cbn [chain map concat emt_pending se_emt]. by rewrite app_nil_r. }
  destruct (chain_try_write sys sent ok rest chain s os) as
    (rc & chain' & freed & s' & os' & m & E & _ & _ & Hopen' & Hfd & Hs & Hok & _); [done..|].
  rewrite Hp in Hs, Hok.
  exists rc. unfold vtm_http_con_write. rewrite He. cbn [mbind option_bind]. unfold pending_chain, waiting.
  cbn [pe_block pe_chain]. rewrite Z.eqb_refl, (proj2 (Z.leb_le n _)) by lia. cbn [andb]. fold d. fold chain.
  cbn [mbind option_bind]. rewrite E. cbn [mbind option_bind].
  eexists _, s', os', m. split; [reflexivity|]. split; [done|]. split.
  - intros ->. rewrite Hok, zlen_zdrop by (done || lia). lia.
  - split; [done|]. split; [done|]. by intros ->.
Qed.

(** Defect.  An answer that waits for its peer is not kept: the emitter that
    vtm_http_res_send leaves with the connection (net/http/http_response.c)
    points into the buffer of the response object, which the worker clears and
    fills for the next request of any of its clients (net/http/http_server.c).
    When the peer is ready again, vtm_http_con_write sends from that buffer
    whatever it holds by then: the bytes of the other client's answer instead of
    the rest of the text [text] of this one; and when the buffer had to grow
    meanwhile, the block that the emitter points into has been freed. *)
Theorem waiting_answer_overwritten rb c n k text len s os
    (Hsend : SendLaws sys sent) (Hrb : buf_ok rb) (Hopen : VTM_SOCKET_IS_CLOSED s = false)
    (Hwait : c_emitter c = Some (waiting n k text len)) (Hk : 0 <= k <= n) (Hn : n <= zlen (buf_data rb)) :
  (len = buf_len rb ->
   exists rc c' s' os' m, vtm_http_con_write vt rb c s os = Some (rc, c', s', os') /\
     sent (s_fd s) os' = sent (s_fd s) os ++ ztake m (zdrop k (ztake n (buf_data rb))) /\
     (rc = VTM_OK -> m = n - k)) /\
  (len <> buf_len rb -> vtm_http_con_write vt rb c s os = None).
Proof.
  split.
  - intros ->. destruct (con_write_over rb c n k text s os Hwait Hrb Hk Hn Hopen)
      as (rc & c' & s' & os' & m & E & Hs & Hm & _). by exists rc, c', s', os', m.
  - intros Hne. unfold vtm_http_con_write. rewrite Hwait. cbn [mbind option_bind]. unfold pending_chain, waiting.
    cbn [pe_block pe_chain]. by rewrite (proj2 (Z.eqb_neq _ _) Hne).
Qed.
End Over.

(** The rest of a text in the buffer, taken at once. *)
Lemma write_over {OS SA} (sys : sys_net OS) ok (rest : vtm_socket_vtable OS SA) rb c n k text0 text s os os' :
  c_emitter c = Some (waiting n k text0 (buf_len rb)) -> buf_ok rb -> n = zlen text -> ztake n (buf_data rb) = text ->
  0 <= k < n -> VTM_SOCKET_IS_CLOSED s = false ->
  sys_send sys (s_fd s) (zdrop k text) os = (inl (zlen (zdrop k text)), os') ->
  exists s', vtm_http_con_write (vtm_socket_plain_vtable sys ok rest) rb c s os
      = Some (VTM_OK, con_with_emitter None c, s', os') /\ s_fd s' = s_fd s /\ VTM_SOCKET_IS_CLOSED s' = false.
Proof.
  intros He Hb -> Ht Hk Hopen E. assert (zlen text <= zlen (buf_data rb)) as Hle.
  { rewrite <- Ht. rewrite zlen_ztake_min by lia. lia. }
  assert (zlen (zdrop k text) = zlen text - k) as Hl by (rewrite zlen_zdrop; lia).
  assert (zlen text <= SIZE_MAX) as Hmax by (buf_sizes; unfold SIZE_MAX; lia).
  destruct (write_once sys ok rest s os (zdrop k text) os' Hopen) as (s' & Ew & Hfd & Hop); [|done|].
  { intros Hx. rewrite Hx in Hl. change (zlen (A:=Z) []) with 0 in Hl. lia. }
  exists s'. split; [|done]. unfold vtm_http_con_write. rewrite He. cbn [mbind option_bind]. unfold pending_chain, waiting.
  cbn [pe_block pe_chain]. rewrite Z.eqb_refl, (proj2 (Z.leb_le _ _)) by lia. cbn [andb]. rewrite Ht.
  cbn [mbind option_bind vtm_socket_emitter_try_write]. unfold vtm_sock_emt_write.
  cbn [se_emt se_length]. unfold vtm_socket_emitter_write_raw. rewrite u64_small by (split; lia).
  rewrite decide_True by lia. rewrite <- Hl, ztake_all, Ew by lia. cbn [mbind option_bind].
  rewrite Hl. replace (k + (zlen text - k)) with (zlen text) by lia. rewrite u64_small by (split; lia).
  by rewrite !Z.eqb_refl.
Qed.

(** ** The window of the peer *)

(** The peer takes [n] bytes of [text], then the system reports that it would
    block. *)
Definition window {OS} (sys : sys_net OS) (sent inbox : Z -> OS -> bytes) fd (text : bytes) n (os os' : OS) : Prop :=
  0 < n < zlen text /\
  (exists os1, sys_send sys fd text os = (inl n, os1) /\ sys_send sys fd (zdrop n text) os1 = (inr EAGAIN, os')) /\
  sent fd os' = sent fd os ++ ztake n text /\ inbox fd os' = inbox fd os.

Section Window.
Context {OS SA : Type} (sys : sys_net OS) (sent inbox : Z -> OS -> bytes).
Context (ok : bool) (rest : vtm_socket_vtable OS SA).
Abbreviation vt := (vtm_socket_plain_vtable sys ok rest).
Implicit Types (s : vtm_socket) (os : OS).

Lemma window_write s os os' text n :
  VTM_SOCKET_IS_CLOSED s = false -> window sys sent inbox (s_fd s) text n os os' ->
  exists s', vtm_socket_write vt text s os = Some (VTM_E_IO_AGAIN, n, s', os') /\
    s_fd s' = s_fd s /\ VTM_SOCKET_IS_CLOSED s' = false.
Proof.
  intros Hopen (Hn & (os1 & E1 & E2) & _).
  assert (exists s', vtm_socket_write vt text s os = Some (VTM_E_IO_AGAIN, n, s', os') /\ s_fd s' = s_fd s) as (s' & E & Hfd).
  { unfold vtm_socket_write. rewrite Hopen. cbn [vt_write vtm_socket_plain_vtable].
    unfold vtm_socket_plain_write. set (s0 := vtm_socket_unset_state s _). change (s_fd s) with (s_fd s0) in *.
    assert (exists c1 c2 l, text = c1 :: c2 :: l) as (c1 & c2 & l & ->).
    { destruct text as [|c1 [|c2 l]]; [| |by eexists _, _, _]; unfold zlen in Hn; cbn [length] in Hn; lia. }
    cbn [length plain_write_loop]. rewrite E1.
    assert (exists d l', zdrop n (c1 :: c2 :: l) = d :: l') as (d & l' & Hd).
    { destruct (zdrop n (c1 :: c2 :: l)) as [|d l'] eqn:Ed; [|by eexists _, _].
      apply (f_equal zlen) in Ed. rewrite zlen_zdrop in Ed by lia. change (zlen (A:=Z) []) with 0 in Ed. lia. }
    rewrite Hd in E2 |- *. cbn [plain_write_loop]. rewrite E2. cbn [mbind option_bind].
    eexists. split; [reflexivity|]. match goal with |- context [write_nbl_hints ?x] =>
      destruct (write_nbl_hints_bits x) as (-> & _) end. done. }
  exists s'. split; [done|]. split; [done|]. by eapply socket_write_stays_open.
Qed.

(** Sending a response of which the peer takes [n] bytes. *)
Lemma window_send r text n s os os' :
  VTM_SOCKET_IS_CLOSED s = false -> buf_ok (res_buf r) -> res_body_se r = BodyNull ->
  ztake (buf_used (res_buf r)) (buf_data (res_buf r)) = text -> window sys sent inbox (s_fd s) text n os os' ->
  exists r' s', vtm_http_res_send vt true r s os
      = Some (VTM_OK, r', Some [mk_emitter (zlen text) (EmtBuf text n false)], s', os') /\
    s_fd s' = s_fd s /\ VTM_SOCKET_IS_CLOSED s' = false /\
    vtm_http_res_was_sent r' = true /\ res_act r' = res_act r /\ res_buf r' = res_buf r /\
    res_body_buf r' = res_body_buf r.
Proof.
  intros Hopen Hb Hse Ht Hw. pose proof Hw as (Hn & _).
  assert (zlen text <= SIZE_MAX) as Hl.
  { rewrite <- Ht. buf_sizes. rewrite zlen_ztake by lia. unfold SIZE_MAX. lia. }
  unfold vtm_http_res_send, vtm_socket_emitter_for_buffer, buf_bytes. rewrite decide_False by apply Hb.
  rewrite Ht, Hse. cbn [negb mbind option_bind].
  destruct (window_write s os os' text n Hopen Hw) as (s' & E & Hfd & Hop').
  cbn [vtm_socket_emitter_try_write]. unfold vtm_sock_emt_write.
  cbn [se_emt se_length]. unfold vtm_socket_emitter_write_raw. rewrite Z.sub_0_r, u64_small by (split; lia).
  rewrite decide_True by lia. rewrite zdrop_0, ztake_all, E by lia. cbn [mbind option_bind].
  rewrite Z.add_0_l, u64_small by (split; lia).
  change (VTM_E_IO_AGAIN =? VTM_OK) with false. cbn [mbind option_bind].
  change (VTM_E_IO_AGAIN =? VTM_E_IO_AGAIN) with true. change (VTM_E_IO_AGAIN =? VTM_OK) with false.
  by eexists _, s'.
Qed.
End Window.

(** ** One request *)

Section Answer.
Context {OS SA : Type} (sys : sys_net OS) (sent inbox : Z -> OS -> bytes) `{!RecvLaws sys sent inbox}.
Context (ok : bool) (rest : vtm_socket_vtable OS SA) (printf_g : Z -> bytes) (cbs : vtm_http_srv_cbs).
Context (time_now : Z) (now : c_tm) (dt : bytes) (junk_ws : vtm_ws_parser).
Context (reply_to : http_request -> reply).
Hypothesis Hdt : is_line dt.
Hypothesis Hdate : vtm_http_fmt_date VTM_HTTP_DATE_LEN (vtm_date_now_utc time_now now).2 = Some (VTM_OK, dt).
Hypothesis Hreply : forall r req, req_view r req -> cb_http_request cbs req = prog_reply (reply_to r).
Abbreviation vt := (vtm_socket_plain_vtable sys ok rest).
Abbreviation can_read := (vtm_http_srv_sock_can_read rich printf_g cbs time_now now junk_ws vt).
Abbreviation can_write := (vtm_http_srv_sock_can_write vt).
Implicit Types (s : vtm_socket) (os : OS).

(** What happens until the handler of the request returns. *)
Lemma window_round fuel w u r n os1 :
  io_serving w u -> u ++ inbox (s_fd (io_sock w)) (io_os w) = request_text r ->
  zlen (request_text r) <= 1024 -> Forall is_byte (inbox (s_fd (io_sock w)) (io_os w)) ->
  bodyless r -> reply_ok (reply_to r) ->
  let text := answer_text (reply_answer dt r (reply_to r)) in
  (forall os, after_recv sys inbox (s_fd (io_sock w)) (io_os w) os ->
     window sys sent inbox (s_fd (io_sock w)) text n os os1) ->
  exists w1 c1 r1, VTM_SOCKET_IS_CLOSED (io_sock w1) = false /\ s_fd (io_sock w1) = s_fd (io_sock w) /\
    io_os w1 = os1 /\ sent (s_fd (io_sock w)) os1 = sent (s_fd (io_sock w)) (io_os w) ++ ztake n text /\
    inbox (s_fd (io_sock w)) os1 = [] /\
    io_con w1 = Some (ConH1 c1) /\ con_idle (Some (waiting (zlen text) n text (buf_len (res_buf r1)))) c1 [] /\
    io_res w1 = Some r1 /\ buf_ok (res_buf r1) /\ buf_ok (res_body_buf r1) /\ ztake (zlen text) (buf_data (res_buf r1)) = text /\
    0 < n < zlen text /\
    can_read (S fuel) w = match an_act (reply_answer dt r (reply_to r)) with
                          | VTM_HTTP_RES_ACT_KEEP_CON => can_read fuel w1
                          | _ => Some (io_close vt w1)
                          end.
Proof.
  intros Hw Et Hlen Hby Hr Hrep text Hwin. pose proof Hw as (_ & _ & Hres). rewrite <- (app_nil_r (request_text r)) in Et, Hlen.
  destruct (round_ready sys sent inbox ok rest printf_g cbs time_now now junk_ws fuel w u r [] Hw Et Hlen Hby Hr)
    as (w1 & c1 & c2 & req & -> & Hopen & Hfd & Hs & Hi & Haft & Er & Hget & Hc2 & Hv & Ho).
  destruct (handle_ready sys ok rest printf_g cbs time_now now dt junk_ws Hdt Hdate (reply_to r) id
    c1 c2 req r [] w1 (io_heap w)) as (r2 & h' & Ha & Hb & Hbb & Hse & Ht & Hsub & Hd & Hh); try done.
  { by rewrite Er. }
  { apply Hrep. }
  { intros req1 Hv1 _. by apply Hreply. }
  pose proof (Hwin (io_os w1) Haft) as Hwin1. rewrite <- Hfd in Hwin1.
  destruct (window_send sys sent inbox ok rest r2 text n (io_sock w1) (io_os w1) os1 Hopen Hb Hse Ht Hwin1)
    as (r3 & s' & Esend & Hfd' & Hop' & Hws & Ha3 & Eb & Ebb).
  rewrite (Hh _ _ _ _ _ Esend Hws Ha3). cbn [kept mbind option_bind pending_rest length].
  change ((1 =? 1)%nat) with true. cbn iota. rewrite Ha.
  set (c3 := vtm_http_con_set_emitter c2 _). set (w2 := mk_io s' os1 (Some (ConH1 c3)) (Some r3) h').
  destruct Hwin1 as (Hn & _ & Hs1 & Hi1). rewrite Hfd in Hs1, Hi1. rewrite Hs in Hs1. rewrite Hi in Hi1.
  exists w2, c3, r3. cbn [w2 io_sock io_os io_con io_res]. rewrite Hfd', Eb, Ebb.
  split; [done|]. split; [done|]. split; [done|]. split; [done|]. split; [done|]. split; [done|].
  split. { destruct Hc2. constructor; try done. unfold c3, vtm_http_con_set_emitter, con_with_emitter, waiting.
    cbn [c_emitter]. by rewrite Eb. }
  split; [done|]. split; [done|]. split; [done|]. split.
  - pose proof (buf_ok_sizes _ Hb). assert (zlen text = buf_used (res_buf r2)) as ->; [|exact Ht].
    apply (f_equal zlen) in Ht. rewrite zlen_ztake in Ht by lia. by symmetry.
  - split; [done|]. pose proof (reply_act_plain dt r (reply_to r) Hrep). by destruct (an_act _).
Qed.

(** Defect.  An answer that closes the connection (to every request of
    HTTP/1.0, and where the client or the application asks for it) reaches the
    peer only as far as it takes it at once.  If the peer takes [n] bytes and
    then blocks, http_response.c leaves the rest with the connection, but
    vtm_http_srv_http_handle_request (net/http/http_server.c) closes the socket
    right away: the peer gets the first [n] bytes of the answer, of which its
    head announced the whole length, and nothing else. *)
Theorem closing_answer_cut fuel w u r n os1
    (Hw : io_serving w u) (Htext : u ++ inbox (s_fd (io_sock w)) (io_os w) = request_text r)
    (Hlen : zlen (request_text r) <= 1024) (Hbytes : Forall is_byte (inbox (s_fd (io_sock w)) (io_os w)))
    (Hr : bodyless r) (Hrep : reply_ok (reply_to r))
    (Hact : an_act (reply_answer dt r (reply_to r)) = VTM_HTTP_RES_ACT_CLOSE_CON)
    (Hwin : forall os, after_recv sys inbox (s_fd (io_sock w)) (io_os w) os ->
       window sys sent inbox (s_fd (io_sock w)) (answer_text (reply_answer dt r (reply_to r))) n os os1) :
  exists w', can_read (S fuel) w = Some w' /\ VTM_SOCKET_IS_CLOSED (io_sock w') = true /\
    sent (s_fd (io_sock w)) (io_os w')
    = sent (s_fd (io_sock w)) (io_os w) ++ ztake n (answer_text (reply_answer dt r (reply_to r))).
Proof.
  destruct (window_round fuel w u r n os1 Hw Htext Hlen Hbytes Hr Hrep Hwin)
    as (w1 & c1 & r1 & Hopen & Hfd & <- & Hs & _ & _ & _ & _ & _ & _ & _ & _ & ->).
  rewrite Hact. eexists. split; [done|]. destruct (close_ok sys sent inbox ok rest w1 Hopen) as (Hcl & _ & _ & Hsc).
  split; [done|]. rewrite Hfd in Hsc. by rewrite Hsc.
Qed.

(** C36: an answer that keeps the connection survives a full peer, if the worker
    has no other request in between (net/http/http_server.c).  The request has no
    body and 1024 bytes at most, and the peer takes the first [n] bytes of the
    answer, but not all, before it is full.  Then the connection
    stays, and when the peer takes the rest, vtm_http_srv_sock_can_write sends
    exactly the bytes that were missing, the whole answer has arrived, and the
    connection waits for the next request with no emitter left. *)
Theorem waiting_answer_finishes fuel w u r n os1
    (Hw : io_serving w u) (Htext : u ++ inbox (s_fd (io_sock w)) (io_os w) = request_text r)
    (Hlen : zlen (request_text r) <= 1024) (Hbytes : Forall is_byte (inbox (s_fd (io_sock w)) (io_os w)))
    (Hr : bodyless r) (Hrep : reply_ok (reply_to r))
    (Hact : an_act (reply_answer dt r (reply_to r)) = VTM_HTTP_RES_ACT_KEEP_CON)
    (Hwin : forall os, after_recv sys inbox (s_fd (io_sock w)) (io_os w) os ->
       window sys sent inbox (s_fd (io_sock w)) (answer_text (reply_answer dt r (reply_to r))) n os os1) :
  let fd := s_fd (io_sock w) in
  let text := answer_text (reply_answer dt r (reply_to r)) in
  exists w', can_read (S (S fuel)) w = Some w' /\ VTM_SOCKET_IS_CLOSED (io_sock w') = false /\
    sent fd (io_os w') = sent fd (io_os w) ++ ztake n text /\
    forall os2 os3, sent fd os2 = sent fd (io_os w') ->
      sys_send sys fd (zdrop n text) os2 = (inl (zlen (zdrop n text)), os3) ->
      sent fd os3 = sent fd os2 ++ zdrop n text ->
      exists w'', can_write (mk_io (io_sock w') os2 (io_con w') (io_res w') (io_heap w')) = Some w'' /\
        io_serving w'' [] /\ sent fd (io_os w'') = sent fd (io_os w) ++ text.
Proof.
  intros fd text.
  destruct (window_round (S fuel) w u r n os1 Hw Htext Hlen Hbytes Hr Hrep Hwin)
    as (w1 & c1 & r1 & Hopen & Hfd & <- & Hs & Hi & Ec & Hc & Er & Hb & Hbb & Ht & Hn & ->). fold text in Hs, Hc, Ht, Hn.
  rewrite Hact. cbn [vtm_http_srv_sock_can_read]. unfold con_can_read. rewrite Ec.
  destruct (con_read_nothing sys sent inbox ok rest printf_g _ c1 [] (io_sock w1) (io_os w1) (io_heap w1) Hc Hopen)
    as (c' & s2 & os2 & E & (Hop2 & Hfd2 & Hs2 & Hi2) & Hc'); [by rewrite Hfd, Hi|].
  change (al_malloc rich) with (fun _ : Z => true). change (al_parser rich) with all_ok. rewrite E. cbn [mbind option_bind].
  rewrite Hfd, app_nil_r in *. eexists. split; [reflexivity|]. cbn [io_sock io_os io_con io_res io_heap].
  split; [done|]. split; [unfold fd; by rewrite Hs2, Hs|]. intros os3 os4 Hs3 Esend Hs4.
  unfold vtm_http_srv_sock_can_write. cbn [io_con io_res io_sock io_os io_heap]. rewrite Er. cbn [mbind option_bind].
  destruct (write_over sys ok rest (res_buf r1) c' (zlen text) n text text s2 os3 os4) as (s4 & Ew & Hfd4 & Hop4); try done.
  { apply Hc'. }
  { lia. }
  { by rewrite Hfd2. }
  rewrite Ew. cbn [mbind option_bind]. change ((VTM_OK =? VTM_OK) || (VTM_OK =? VTM_E_IO_AGAIN)) with true. cbn iota.
  eexists. split; [reflexivity|]. cbn [io_os io_sock]. split.
  - split; [done|]. split; [|by exists r1]. eexists. split; [reflexivity|].
    destruct Hc'. by constructor.
  - rewrite Hs4, Hs3. unfold fd. by rewrite Hs2, Hs, <- app_assoc, ztake_zdrop.
Qed.
End Answer.

(** ** Concrete peers *)

(** A peer with room for [vb_room] more bytes. *)
Record valve := mk_valve { vb_inbox : bytes; vb_wire : bytes; vb_room : Z }.

Definition valve_sys : sys_net valve :=
  mk_sys (fun fd src os =>
      if vb_room os <=? 0 then (inr EAGAIN, os)
      else let n := Z.min (vb_room os) (zlen src) in
           (inl n, mk_valve (vb_inbox os) (vb_wire os ++ ztake n src) (vb_room os - n)))
    (fun fd len os => match vb_inbox os with
                      | [] => (inr EAGAIN, os)
                      | inb => (inl (ztake len inb), mk_valve (zdrop len inb) (vb_wire os) (vb_room os))
                      end)
    (fun fd os => (inr EAGAIN, os)) (fun fd dir os => (None, os)) (fun fd os => os).

#[local] Instance valve_recv : RecvLaws valve_sys (fun _ os => vb_wire os) (fun _ os => vb_inbox os).
Proof.
  constructor; try done.
  - intros fd len [inb out k] Hne Hlen. cbn [vb_inbox vb_wire valve_sys sys_recv] in *.
    destruct inb as [|c l] eqn:E; [done|]. rewrite ztake_all by done. eexists. split; [done|].
    rewrite zdrop_all by done. done.
  - intros fd len [inb out k] E. cbn [vb_inbox vb_wire valve_sys sys_recv] in *. subst inb. by eexists.
Qed.

#[local] Instance valve_send : SendLaws valve_sys (fun _ os => vb_wire os).
Proof.
  constructor; intros fd src [inb out k]; cbn [valve_sys sys_send vb_room vb_wire vb_inbox].
  - intros n os' Hne. assert (0 < zlen src) by (destruct src; [done|rewrite zlen_cons; pose proof (zlen_nonneg src); lia]).
    destruct (Z.leb_spec k 0); [done|]. intros [= <- <-]. split; [lia|done].
  - intros e os'. destruct (Z.leb_spec k 0); [|done]. by intros [= _ <-].
Qed.

Definition valve_vtable : vtm_socket_vtable valve unit :=
  let r s (os : valve) := (VTM_OK, s, os) in
  mk_vtable (fun _ _ => r) (fun _ => r) (fun s os => (VTM_OK, None, s, os)) (fun _ _ => r)
    (fun _ => r) r (fun src s os => Some (VTM_OK, zlen src, s, os)) (fun _ s os => (VTM_OK, [], s, os))
    (fun _ s os => (VTM_OK, [], tt, s, os)) (fun src _ s os => (VTM_OK, zlen src, s, os))
    (fun _ _ => r) (fun _ s os => (VTM_OK, 0, s, os)) (fun s os => (VTM_OK, tt, s, os)).
Abbreviation valve_vt := (vtm_socket_plain_vtable valve_sys true valve_vtable).

(** A connection with a request on its way, and a response object. *)
Definition valve_io (r : http_request) (room : Z) (res : option vtm_http_res) : http_io valve :=
  (vtm_http_srv_con_create junk_http true (mk_io demo_sock (mk_valve (request_text r) [] room) None res ∅)).2.
Definition valve_res : option vtm_http_res := vtm_http_srv_worker_init true VTM_BYTEORDER_LE 0.
Definition echo_text (r : http_request) : bytes := answer_text (reply_answer demo_date r (echo_reply (r_path r))).
Abbreviation valve_read := (vtm_http_srv_sock_can_read rich (fun _ => []) echo_cbs 1541322307 demo_tm junk_ws valve_vt 4).

Lemma valve_serving r room : io_serving (valve_io r room valve_res) [].
Proof.
  split; [done|]. split; [|eexists; split; [reflexivity|]; split; apply buf_init_ok].
  eexists. split; [reflexivity|]. by apply (con_new_waits junk_http).
Qed.

Lemma valve_window r n :
  request_text r <> [] -> 0 < n < zlen (echo_text r) ->
  forall os, after_recv valve_sys (fun _ os => vb_inbox os) 3 (mk_valve (request_text r) [] n) os ->
  window valve_sys (fun _ os => vb_wire os) (fun _ os => vb_inbox os) 3 (echo_text r) n os
    (mk_valve [] (ztake n (echo_text r)) 0).
Proof.
  intros Hne Hn os (len & Hlen & ->). cbn [vb_inbox valve_sys sys_recv] in *.
  destruct (request_text r) as [|c l]; [done|]. cbn [snd]. rewrite zdrop_all by done.
  split; [done|]. split; [|done]. cbn [vb_wire vb_inbox vb_room].
  eexists. split.
  - cbn [valve_sys sys_send vb_room vb_wire vb_inbox]. rewrite (proj2 (Z.leb_gt n 0)), Z.min_l by lia. reflexivity.
  - cbn [valve_sys sys_send vb_room]. by rewrite Z.sub_diag.
Qed.

Lemma echo_line r : is_line (r_path r) -> reply_ok (echo_reply (r_path r)).
Proof. apply echo_reply_ok. Qed.

Lemma echo_cbs_reply r req : req_view r req -> cb_http_request echo_cbs req = prog_reply (echo_reply (r_path r)).
Proof. intros Hv. unfold echo_cbs. cbn [cb_http_request]. by rewrite (rv_path _ _ Hv). Qed.

(** The peer of the farewell takes 40 bytes. *)
Lemma closing_answer_cut_witness :
  exists w', valve_read (valve_io bye_request 40 valve_res) = Some w' /\
    VTM_SOCKET_IS_CLOSED (io_sock w') = true /\ vb_wire (io_os w') = ztake 40 (echo_text bye_request) /\
    40 < zlen (echo_text bye_request).
Proof.
  destruct (closing_answer_cut valve_sys (fun _ os => vb_wire os) (fun _ os => vb_inbox os) true valve_vtable
    (fun _ => []) echo_cbs 1541322307 demo_tm demo_date junk_ws (fun r => echo_reply (r_path r)))
    with (fuel := 3%nat) (w := valve_io bye_request 40 valve_res) (u := @nil Z) (r := bye_request) (n := 40)
      (os1 := mk_valve [] (ztake 40 (echo_text bye_request)) 0) as (w' & E & Hc & Hs).
  - apply (bool_decide_unpack _). by vm_compute.
  - exact demo_date_text.
  - exact echo_cbs_reply.
  - apply valve_serving.
  - reflexivity.
  - vm_compute. discriminate.
  - apply (bool_decide_unpack _). by vm_compute.
  - apply bodyless_bye.
  - apply echo_reply_ok. apply (bool_decide_unpack _). by vm_compute.
  - reflexivity.
  - apply (valve_window bye_request 40); [discriminate|by vm_compute].
  - exists w'. split; [exact E|]. split; [exact Hc|]. split; [exact Hs|by vm_compute].
Defined.

(** The rest of the answer goes out when there is room for it. *)
Lemma waiting_answer_finishes_witness :
  exists w' w'', valve_read (valve_io test_request 40 valve_res) = Some w' /\
    vb_wire (io_os w') = ztake 40 (echo_text test_request) /\
    vtm_http_srv_sock_can_write valve_vt (mk_io (io_sock w') (mk_valve [] (ztake 40 (echo_text test_request)) 1000)
      (io_con w') (io_res w') (io_heap w')) = Some w'' /\
    io_serving w'' [] /\ vb_wire (io_os w'') = echo_text test_request.
Proof.
  destruct (waiting_answer_finishes valve_sys (fun _ os => vb_wire os) (fun _ os => vb_inbox os) true valve_vtable
    (fun _ => []) echo_cbs 1541322307 demo_tm demo_date junk_ws (fun r => echo_reply (r_path r)))
    with (fuel := 2%nat) (w := valve_io test_request 40 valve_res) (u := @nil Z) (r := test_request) (n := 40)
      (os1 := mk_valve [] (ztake 40 (echo_text test_request)) 0) as (w' & E & _ & Hs & Hrest).
  - apply (bool_decide_unpack _). by vm_compute.
  - exact demo_date_text.
  - exact echo_cbs_reply.
  - apply valve_serving.
  - reflexivity.
  - vm_compute. discriminate.
  - apply (bool_decide_unpack _). by vm_compute.
  - apply bodyless_test.
  - apply echo_reply_ok. apply (bool_decide_unpack _). by vm_compute.
  - reflexivity.
  - apply (valve_window test_request 40); [discriminate|by vm_compute].
  - destruct (Hrest (mk_valve [] (ztake 40 (echo_text test_request)) 1000)
      (mk_valve [] (echo_text test_request) (1000 - zlen (zdrop 40 (echo_text test_request))))) as (w'' & E2 & Hw & Hs2).
    + rewrite Hs. reflexivity.
    + by vm_compute.
    + by vm_compute.
    + exists w', w''. split; [exact E|]. split; [exact Hs|]. split; [exact E2|]. split; [exact Hw|exact Hs2].
Defined.

(** Another client of the same worker asks for its token while the first one
    still waits. *)
Definition token_request : http_request :=
  mk_request (cstr_of "GET"%string) VTM_HTTP_METHOD_GET (cstr_of "/my-secret-token"%string) [] VTM_HTTP_VER_1_1 [].

Definition first_client : option (http_io valve) := valve_read (valve_io test_request 40 valve_res).
Definition second_client : option (http_io valve) :=
  w ← first_client; valve_read (valve_io token_request 1000 (io_res w)).
Definition first_con : option vtm_http_con :=
  w ← first_client; match io_con w with Some (ConH1 c) => Some c | _ => None end.

(** What the two left, as one test; [t1] and [t2] are their answers. *)
Definition leak_check (first : option vtm_http_con) (second : option (http_io valve)) (t1 t2 : bytes) : bool :=
  match first, second with
  | Some c, Some w2 =>
      match c_emitter c, io_res w2 with
      | Some (mk_pending [mk_emitter n (EmtBuf t k false)] (Some len)), Some r2 =>
          (n =? zlen t1) && bool_decide (t = t1) && (k =? 40) && (len =? 1024) &&
          bool_decide (vb_wire (io_os w2) = t2) &&
          (buf_len (res_buf r2) =? 1024) && (buf_read (res_buf r2) =? 0) &&
          (0 <=? buf_used (res_buf r2)) && (buf_used (res_buf r2) <=? zlen (buf_data (res_buf r2))) &&
          (zlen (buf_data (res_buf r2)) <=? 1024) && bool_decide (Forall is_byte (buf_data (res_buf r2))) &&
          (n <=? zlen (buf_data (res_buf r2))) && bool_decide (ztake n (buf_data (res_buf r2)) = ztake n t2) &&
          bool_decide (buf_place (res_buf r2) = InArray) && (buf_err (res_buf r2) =? VTM_OK)
      | _, _ => false
      end
  | _, _ => false
  end.

Lemma leak_facts first second t1 t2 : leak_check first second t1 t2 = true ->
  exists c w2 r2, first = Some c /\ second = Some w2 /\ io_res w2 = Some r2 /\
    c_emitter c = Some (waiting (zlen t1) 40 t1 1024) /\
    vb_wire (io_os w2) = t2 /\ buf_ok (res_buf r2) /\ buf_len (res_buf r2) = 1024 /\
    zlen t1 <= zlen (buf_data (res_buf r2)) /\ ztake (zlen t1) (buf_data (res_buf r2)) = ztake (zlen t1) t2.
Proof.
  unfold leak_check. intros H. destruct first as [c|]; [|done]. destruct second as [w2|]; [|done].
  destruct (c_emitter c) as [[[|[n [|t k [|]|]] [|]] [len|]]|] eqn:Ee; try done.
  destruct (io_res w2) as [r2|] eqn:Er; [|done]. rewrite !andb_true_iff, !bool_decide_eq_true, !Z.eqb_eq, !Z.leb_le in H.
  destruct H as ((((((((((((((-> & ->) & ->) & ->) & Hw) & Hl) & Hr) & Hu) & Hud) & Hd) & Hby) & Hn) & Ht) & Hpl) & Herr).
  exists c, w2, r2. do 5 (split; [done|]). split; [|done].
  constructor; rewrite ?Hl, ?Hr, ?Hpl, ?Herr; try lia; try done. exists 10. split; [lia|done].
Qed.

Lemma waiting_answer_overwritten_witness :
  exists c w2 r2 rc c' s' os' m, first_con = Some c /\ second_client = Some w2 /\ io_res w2 = Some r2 /\
    vb_wire (io_os w2) = echo_text token_request /\
    vtm_http_con_write valve_vt (res_buf r2) c demo_sock (mk_valve [] (ztake 40 (echo_text test_request)) 1000)
      = Some (rc, c', s', os') /\
    vb_wire os' = ztake 40 (echo_text test_request)
      ++ ztake m (zdrop 40 (ztake (zlen (echo_text test_request)) (echo_text token_request))).
Proof.
  destruct (leak_facts first_con second_client (echo_text test_request) (echo_text token_request)) as (c & w2 & r2 & Ec & E2 & Er & He & Hw & Hb & Hl & Hn & Hd);
    [vm_compute; reflexivity|].
  destruct (waiting_answer_overwritten valve_sys (fun _ os => vb_wire os) true valve_vtable (res_buf r2) c
    (zlen (echo_text test_request)) 40 (echo_text test_request) 1024 demo_sock
    (mk_valve [] (ztake 40 (echo_text test_request)) 1000) valve_send Hb) as [H _];
    [reflexivity|exact He|vm_compute; split; discriminate|exact Hn|].
  destruct (H (eq_sym Hl)) as (rc & c' & s' & os' & m & E & Hs & _). rewrite Hd in Hs.
  exists c, w2, r2, rc, c', s', os', m. split; [exact Ec|]. split; [exact E2|]. split; [exact Er|].
  split; [exact Hw|]. split; [exact E|exact Hs].
Defined.
