(* ===== verification/HttpRoutes.v ===== *)
(** * HttpRoutes: routing and the upgrade to WebSocket

    Which route handles a request (net/http/http_router.c), and what becomes of
    a connection whose request asks for the WebSocket protocol
    (net/http/http_upgrade.c under net/http/http_server.c). *)

From stdpp Require Import gmap fin_sets.
From S2P Require Import Prelude Base Buffer Format Base64 Str Ws Elem Hash Heap Table.
From S2P Require Import Smap Dataset Http HttpParser HttpRequest Socket Emitter HttpResponse ResponseProps.
From S2P Require Import ResponseRoom HttpFrame HttpCon HttpServer HttpPeer HttpServerProps.

(** ** Routes *)

Definition is_slash (c : option Z) : bool := match c with Some c => c =? 47 | None => false end.

(** A route covers its own path, and if that ends with a slash every path that
    continues it. *)
Definition covers (path rt_path : bytes) : bool :=
  bool_decide (path = rt_path) || (bool_decide (rt_path `prefix_of` path) && is_slash (last rt_path)).

Lemma matches_covers path : forall rt l,
  vtm_http_router_matches path rt l =
  bool_decide (path = rt) ||
  (bool_decide (rt `prefix_of` path) && is_slash (match last rt with Some c => Some c | None => l end)).
Proof.
  induction path as [|c path IH]; intros [|d rt] l; cbn [vtm_http_router_matches].
  - done.
  - rewrite bool_decide_eq_false_2 by done. rewrite (bool_decide_eq_false_2 (d :: rt `prefix_of` [])); [done|].
    intros [k E]. done.
  - rewrite bool_decide_eq_false_2 by done. by rewrite bool_decide_eq_true_2 by apply prefix_nil.
  - destruct (Z.eqb_spec c d) as [->|Hne].
    + rewrite IH. f_equal; [apply bool_decide_ext; split; congruence|]. f_equal.
      * apply bool_decide_ext. split; [by apply prefix_cons|by apply prefix_cons_inv_2].
      * rewrite last_cons. by destruct (last rt).
    + rewrite bool_decide_eq_false_2 by congruence. cbn [orb].
      rewrite bool_decide_eq_false_2; [done|]. intros H%prefix_cons_inv_1. congruence.
Qed.

Section Route.
Context (al : http_allocs) (time_now : Z) (now : c_tm).
Context {OS SA : Type} (vt : vtm_socket_vtable OS SA).
Implicit Types (s : vtm_socket) (os : OS).
Abbreviation run := (prog_run al time_now now vt).

Lemma prog_run_bind f : forall p r se s os,
  run (prog_bind p f) r se s os = '(rc, r, se, s, os) ← run p r se s os; run (f rc) r se s os.
Proof.
  induction p as [rc| |mode status k IH|k IH|c k IH|k IH]; intros r se s os; cbn [prog_bind prog_run]; try done.
  - destruct (vtm_http_res_begin _ _ _ _ _ _) as [[r1 rc]|]; [apply IH|done].
  - destruct (vtm_http_res_set_date _ _ _ _) as [[r1 rc]|]; [apply IH|done].
  - destruct (res_do _ _ _) as [r1 rc]. apply IH.
  - destruct (vtm_http_res_end _ _ _ _ _ _ _) as [[[[[rc r1] chain] s1] os1]|]; [apply IH|done].
Qed.

(** The handlers of the routes in their order, until one has handled the request. *)
Fixpoint first_handled (rts : list vtm_http_route) (req : vtm_http_req) r se s os
    : option (Z * vtm_http_res * option pending * vtm_socket * OS) :=
  match rts with
  | [] => Some (VTM_E_NOT_HANDLED, r, se, s, os)
  | rt :: rts =>
      '(rc, r, se, s, os) ← run (fn_rt_handle rt req) r se s os;
      if rc =? VTM_E_NOT_HANDLED then first_handled rts req r se s os else Some (rc, r, se, s, os)
  end.

(** C6: the router (net/http/http_router.c) hands a request to the routes that
    cover its path, in the order in which they were added, until one of their
    handlers answers anything but VTM_E_NOT_HANDLED; the others see nothing of
    it.  A route covers exactly its own path, and, if that ends with a slash,
    the paths that continue it (not "/a" of "/ab"). *)
Theorem router_dispatch rtr req path r se s os (Hpath : rq_path req = Some path) :
  run (vtm_http_router_handle rtr req) r se s os
  = first_handled (List.filter (fun rt => covers path (url_path rt)) rtr) req r se s os.
Proof.
  revert r se s os. induction rtr as [|rt rtr IH]; intros r se s os; cbn [vtm_http_router_handle List.filter]; [done|].
  rewrite Hpath, matches_covers.
  replace (match last (url_path rt) with Some c => Some c | None => None end) with (last (url_path rt))
    by (by destruct (last (url_path rt))).
  fold (covers path (url_path rt)). destruct (covers path (url_path rt)); cbn [negb]; [|apply IH].
  rewrite prog_run_bind. cbn [first_handled]. unfold vtm_http_static_rt_handle.
  destruct (run (fn_rt_handle rt req) r se s os) as [[[[[rc r1] se1] s1] os1]|]; [|done]. cbn [mbind option_bind].
  destruct (rc =? VTM_E_NOT_HANDLED); cbn [negb]; [apply IH|done].
Qed.
End Route.

Lemma router_dispatch_witness :
  let route path rc := mk_route (cstr_of path) (fun _ => PRet rc) in
  let req := mk_req VTM_HTTP_METHOD_GET VTM_HTTP_VER_1_1 (Some (cstr_of "/a/x"%string)) None None 3 in
  prog_run rich 0 demo_tm (vtm_socket_plain_vtable script_sys true demo_vtable)
    (vtm_http_router_handle
       [route "/a/"%string VTM_E_NOT_HANDLED; route "/a"%string 5; route "/a/x"%string 7; route "/"%string 9] req)
    demo_new None demo_sock (mk_script [] [])
  = Some (7, demo_new, None, demo_sock, mk_script [] []).
Proof.
  intros route req.
  rewrite (router_dispatch rich 0 demo_tm (vtm_socket_plain_vtable script_sys true demo_vtable)
    [route "/a/"%string VTM_E_NOT_HANDLED; route "/a"%string 5; route "/a/x"%string 7; route "/"%string 9] req
    (cstr_of "/a/x"%string) demo_new None demo_sock (mk_script [] []) eq_refl).
  reflexivity.
Defined.

(** ** The upgrade *)

(** A header of a request that was parsed. *)
Lemma req_header_str printf_g r h req hr name :
  req_view r req -> req_owns printf_g r h req hr -> is_cstr name ->
  exists req', vtm_http_req_get_header_str (fun _ => true) printf_g req name
    = Some (hdr_map (r_fields r) ∅ !! map tolower name, req').
Proof.
  intros [_ _ _ Vh _] (h1 & F & _ & _ & _ & Hh) Hn. unfold vtm_http_req_get_header_str.
  destruct (rq_headers req) as [ds|]; cbn [view_of] in Vh.
  - destruct Hh as [Hds Ho]. destruct (hdr_get_string (fun _ => true) printf_g F ds _ name hr Hds Hn Ho) as (ds' & -> & _).
    by eexists.
  - exists req. f_equal. f_equal. apply (f_equal (lookup (map tolower name))) in Vh.
    rewrite lookup_fmap, lookup_empty in Vh. by destruct (_ !! _).
Qed.

(** The reply that accepts the upgrade; [digest] is the hash of the key. *)
Definition upgrade_fields (digest : bytes) (proto : option bytes) : list (bytes * bytes) :=
  [(VTM_HTTP_HEADER_CONNECTION, VTM_HTTP_VALUE_UPGRADE); (VTM_HTTP_HEADER_UPGRADE, VTM_HTTP_VALUE_WEBSOCKET);
   (VTM_HTTP_HEADER_SEC_WEBSOCKET_ACCEPT, b64_text digest)] ++
  match proto with Some proto => [(VTM_HTTP_HEADER_SEC_WEBSOCKET_PROTOCOL, proto)] | None => [] end.
Definition upgrade_reply (data : Z) (digest : bytes) (proto : option bytes) : reply :=
  mk_reply VTM_HTTP_RES_MODE_FIXED 101
    (map (fun nv => CHeader nv.1 nv.2) (upgrade_fields digest proto) ++
     [CAct VTM_HTTP_RES_ACT_UPGRADE_WS match proto with Some _ => data | None => 0 end]).

Lemma b64_text_cstr l : is_cstr (b64_text l).
Proof.
  assert (forall c k, 0 < enc_char (sextet c k) < 256) as H by (intros; apply enc_char_range, sextet_range).
  induction l as [|a|a b|a b d l IH] using group_ind; cbn [b64_text]; [constructor| | |].
  3: apply Forall_app_2; [unfold enc4|done].
  all: repeat (apply Forall_cons_2; [apply H || done|]); apply Forall_nil_2.
Qed.

Lemma until_nul_app l : is_cstr l -> until_nul (l ++ [0]) = l.
Proof.
  induction 1 as [|c l Hc Hl IH]; [done|]. cbn [app until_nul].
  rewrite (proj2 (Z.eqb_neq c 0)) by lia. by rewrite IH.
Qed.

Lemma upgrade_prog printf_g sha1 data r h req hr key digest proto :
  req_view r req -> req_owns printf_g r h req hr ->
  hdr_map (r_fields r) ∅ !! map tolower VTM_HTTP_HEADER_SEC_WEBSOCKET_KEY = Some key ->
  zlen key <= 128 -> sha1 (key ++ VTM_HTTP_WS_GUID) = (VTM_OK, digest) -> zlen digest = 20 -> Forall is_byte digest ->
  vtm_http_upgrade_to_ws (fun _ => true) printf_g sha1 true data req proto
  = prog_reply_ret (upgrade_reply data digest proto) (fun _ => VTM_OK).
Proof.
  intros Hv Ho Hkey Hlen Hsha Hdig Hbytes. unfold vtm_http_upgrade_to_ws.
  destruct (req_header_str printf_g r h req hr VTM_HTTP_HEADER_SEC_WEBSOCKET_KEY Hv Ho) as (req' & ->).
  { by apply (bool_decide_unpack _). }
  rewrite Hkey. unfold VTM_HTTP_WS_MAX_KEY_LEN. rewrite (proj2 (Z.ltb_ge 128 (zlen key))) by lia. cbn [negb].
  rewrite Hsha. change (negb (VTM_OK =? VTM_OK)) with false. cbn iota.
  assert (vtm_base64_encode digest (VTM_BASE64_ENC_BUF_LEN VTM_CRYPTO_SHA1_LEN) = (VTM_OK, b64_text digest ++ [0])) as ->.
  { unfold vtm_base64_encode. rewrite Hdig. change VTM_CRYPTO_SHA1_LEN with 20. rewrite Z.ltb_irrefl.
    by rewrite encode_loop_text. }
  change (negb (VTM_OK =? VTM_OK)) with false. cbn iota.
  assert (until_nul (b64_text digest ++ [0]) = b64_text digest) as ->.
  { apply until_nul_app, b64_text_cstr. }
  unfold prog_reply_ret, upgrade_reply, upgrade_fields. by destruct proto.
Qed.

Lemma upgrade_reply_fine data digest proto :
  zlen digest = 20 -> match proto with Some proto => is_line proto | None => True end ->
  reply_fine (upgrade_reply data digest proto).
Proof.
  intros Hd Hp. assert (is_line (b64_text digest)) as Hb.
  { split; [apply (Forall_impl _ _ _ (b64_text_cstr digest)); unfold is_byte; lia|].
    pose proof (b64_text_len digest) as Hl. rewrite Hd in Hl. unfold zlen in Hl. change ((20 + 2) / 3) with 7 in Hl. lia. }
  pose proof (line_text _ Hb) as Hbt. pose proof (line_len _ Hb).
  assert (is_text VTM_HTTP_HEADER_CONNECTION /\ is_text VTM_HTTP_VALUE_UPGRADE /\ is_text VTM_HTTP_HEADER_UPGRADE /\
    is_text VTM_HTTP_VALUE_WEBSOCKET /\ is_text VTM_HTTP_HEADER_SEC_WEBSOCKET_ACCEPT /\
    is_text VTM_HTTP_HEADER_SEC_WEBSOCKET_PROTOCOL) as (H1 & H2 & H3 & H4 & H5 & H6) by (split_and!; line).
  split; [cbn; lia|]. split; [|split].
  - unfold upgrade_reply, upgrade_fields. destruct proto as [pr|]; cbn [map app rp_calls];
      repeat (apply Forall_cons_2; [split; [done|done || by apply line_text] || exact I|]); apply Forall_nil_2.
  - unfold upgrade_reply, upgrade_fields. destruct proto as [pr|]; cbn [map app rp_calls];
      repeat (apply Forall_cons_2; [exact I|]); apply Forall_nil_2.
  - unfold upgrade_reply, upgrade_fields. destruct proto as [pr|]; cbn [map app rp_calls calls_size call_size fst snd];
      [pose proof (line_len _ Hp)|];
      change (zlen VTM_HTTP_HEADER_CONNECTION) with 10; change (zlen VTM_HTTP_VALUE_UPGRADE) with 7;
      change (zlen VTM_HTTP_HEADER_UPGRADE) with 7; change (zlen VTM_HTTP_VALUE_WEBSOCKET) with 9;
      change (zlen VTM_HTTP_HEADER_SEC_WEBSOCKET_ACCEPT) with 20;
      change (zlen VTM_HTTP_HEADER_SEC_WEBSOCKET_PROTOCOL) with 22; lia.
Qed.

(** The answer that accepts the upgrade of a request. *)
Definition upgrade_answer (dt : bytes) (r : http_request) (digest : bytes) (proto : option bytes) : answer :=
  mk_answer (r_version r) VTM_HTTP_RES_MODE_FIXED 101 dt VTM_HTTP_RES_ACT_UPGRADE_WS (upgrade_fields digest proto) [] None.

Lemma upgrade_reply_answer dt r data digest proto :
  reply_answer dt r (upgrade_reply data digest proto) = upgrade_answer dt r digest proto.
Proof. unfold reply_answer, upgrade_reply, upgrade_fields. by destruct proto. Qed.

Section Upgrade.
Context {OS SA : Type} (sys : sys_net OS) (sent inbox : Z -> OS -> bytes) `{!PeerLaws sys sent inbox}.
Context (ok : bool) (rest : vtm_socket_vtable OS SA) (printf_g : Z -> bytes).
Context (time_now : Z) (now : c_tm) (dt : bytes) (junk_ws : vtm_ws_parser) (sha1 : bytes -> Z * bytes).
Hypothesis Hdt : is_line dt.
Hypothesis Hdate : vtm_http_fmt_date VTM_HTTP_DATE_LEN (vtm_date_now_utc time_now now).2 = Some (VTM_OK, dt).
Abbreviation vt := (vtm_socket_plain_vtable sys ok rest).

(** An application that accepts every upgrade. *)
Definition upgrade_cbs (data : Z) (proto : option bytes) : vtm_http_srv_cbs :=
  mk_cbs (fun req => vtm_http_upgrade_to_ws (fun _ => true) printf_g sha1 true data req proto) None None None.

(** C4: the handshake of the WebSocket protocol (net/http/http_upgrade.c,
    vtm_http_upgrade_to_ws, under vtm_http_srv_sock_can_read of
    net/http/http_server.c).  To a request without a body, of 1024 bytes at most
    with what follows it, with the header Sec-WebSocket-Key of 128 bytes at most,
    the server answers 101 with Connection and Upgrade, and
    with the Base64 text of SHA-1(key ++ GUID) as Sec-WebSocket-Accept; then the
    handler returns, the connection for HTTP is freed with everything that the
    request held, and the socket has a fresh WebSocket connection in the mode of
    a server: its parser at the beginning, both of its buffers empty. *)
Theorem websocket_handshake fuel w u r rest0 key digest data proto
    (Hw : io_serving w u) (Htext : u ++ inbox (s_fd (io_sock w)) (io_os w) = request_text r ++ rest0)
    (Hlen : zlen (request_text r ++ rest0) <= 1024) (Hbytes : Forall is_byte (inbox (s_fd (io_sock w)) (io_os w)))
    (Hr : bodyless r)
    (Hkey : hdr_map (r_fields r) ∅ !! map tolower VTM_HTTP_HEADER_SEC_WEBSOCKET_KEY = Some key) (Hkl : zlen key <= 128)
    (Hsha : sha1 (key ++ VTM_HTTP_WS_GUID) = (VTM_OK, digest)) (Hdig : zlen digest = 20) (Hdb : Forall is_byte digest)
    (Hproto : match proto with Some proto => is_line proto | None => True end) :
  exists w' p, vtm_http_srv_sock_can_read rich printf_g (upgrade_cbs data proto) time_now now junk_ws vt (S fuel) w = Some w' /\
    VTM_SOCKET_IS_CLOSED (io_sock w') = false /\
    sent (s_fd (io_sock w)) (io_os w')
      = sent (s_fd (io_sock w)) (io_os w) ++ answer_text (upgrade_answer dt r digest proto) /\
    io_con w' = Some (ConWs (mk_wscon (mk_scon (vtm_buf_init VTM_BYTEORDER_BE) (vtm_buf_init VTM_BYTEORDER_BE) false) p)) /\
    vtm_ws_parser_init (fun _ => true) junk_ws VTM_WS_MODE_SERVER = (VTM_OK, Some p) /\
    io_heap w ⊆ io_heap w' /\ (distinct_fields (r_fields r) -> io_heap w' = io_heap w).
Proof.
  pose proof Hw as (_ & _ & Hres).
  destruct (round_ready sys sent inbox ok rest printf_g (upgrade_cbs data proto) time_now now junk_ws fuel w u r rest0 Hw Htext Hlen
    Hbytes Hr) as (w1 & c1 & c2 & req & -> & Hopen & Hfd & Hs & Hi & _ & Er & Hget & Hc2 & Hv & Ho).
  destruct (handle_ready sys ok rest printf_g (upgrade_cbs data proto) time_now now dt junk_ws Hdt Hdate
    (upgrade_reply data digest proto) (fun _ => VTM_OK) c1 c2 req r rest0 w1 (io_heap w))
    as (r2 & h' & Ha & Hb & Hbb & Hse & Ht & Hsub & Hd & Hh); try done.
  { by rewrite Er. }
  { by apply upgrade_reply_fine. }
  { intros req1 Hv1 Ho1. by apply (upgrade_prog printf_g sha1 data r (io_heap w) req1 (io_heap w1) key). }
  rewrite upgrade_reply_answer in Ha, Ht.
  destruct (peer_send sys sent inbox ok rest r2 _ (io_sock w1) (io_os w1) Hopen Hb Hse Ht
    (answer_text_ne _)) as (r3 & s' & os' & Esend & (Hop' & Hfd' & Hs' & Hi') & Hws & Ha3 & Eb & Ebb).
  rewrite (Hh _ _ _ _ _ Esend Hws Ha3), Ha. cbn [kept upgrade_answer an_act].
  unfold vtm_http_srv_http_con_upgrade_ws.
  assert (vtm_http_con_free (vtm_http_con_set_emitter c2 None) h' = Some h') as Efree.
  { destruct Hc2 as [_ _ _ _ _ (p & Hp & _) _ _]. unfold vtm_http_con_free. cbn [vtm_http_con_set_emitter con_with_emitter c_parser].
    by rewrite Hp. }
  cbn [io_heap]. rewrite Efree. cbn [mbind option_bind].
  unfold vtm_http_srv_ws_con_create, vtm_ws_con_new. change (al_ws rich) with true. change (al_mtx rich) with true.
  change (al_malloc rich) with (fun _ : Z => true). cbn [negb mbind option_bind vtm_socket_con_init].
  destruct (vtm_ws_parser_init (fun _ => true) junk_ws VTM_WS_MODE_SERVER) as [rc [p|]] eqn:Ep; [|by vm_compute in Ep].
  assert (rc = VTM_OK) as -> by (by injection Ep). rewrite Z.eqb_refl. cbn [ws_cb_run upgrade_cbs cb_ws_connect mbind option_bind].
  eexists _, p. split; [reflexivity|]. cbn [io_sock io_os io_con io_heap]. rewrite Hfd in Hs'. rewrite Hs', Hs. done.
Qed.
End Upgrade.

(** The example of RFC 6455: the key, its hash, and the header of the answer. *)
Definition sample_key : bytes := cstr_of "dGhlIHNhbXBsZSBub25jZQ=="%string.
Definition sample_digest : bytes :=
  [179; 122; 79; 44; 192; 98; 79; 22; 144; 246; 70; 6; 207; 56; 89; 69; 178; 190; 196; 234].
Definition sample_sha1 (text : bytes) : Z * bytes :=
  if decide (text = sample_key ++ VTM_HTTP_WS_GUID) then (VTM_OK, sample_digest) else (VTM_ERROR, []).
Definition upgrade_request : http_request :=
  mk_request (cstr_of "GET"%string) VTM_HTTP_METHOD_GET (cstr_of "/chat"%string) [] VTM_HTTP_VER_1_1
    [mk_field (cstr_of "Upgrade"%string) [32] (cstr_of "websocket"%string);
     mk_field (cstr_of "Connection"%string) [32] (cstr_of "Upgrade"%string);
     mk_field (cstr_of "Sec-WebSocket-Key"%string) [32] sample_key;
     mk_field (cstr_of "Sec-WebSocket-Version"%string) [32] (cstr_of "13"%string)].

Definition upgrade_io : http_io mailbox :=
  (vtm_http_srv_con_create junk_http true
     (mk_io demo_sock (mk_mailbox (request_text upgrade_request) []) None
        (vtm_http_srv_worker_init true VTM_BYTEORDER_LE 0) ∅)).2.

Lemma upgrade_serving : io_serving upgrade_io [].
Proof.
  split; [done|]. split; [|eexists; split; [reflexivity|]; split; apply buf_init_ok].
  eexists. split; [reflexivity|]. by apply (con_new_waits junk_http).
Qed.

Lemma bodyless_upgrade : bodyless upgrade_request.
Proof.
  split; [|by split; vm_compute].
  split_and!; [by left | | |]; repeat constructor; cbn; try lia; try done;
    try (intros H; repeat (apply elem_of_cons in H as [H|H]; [discriminate H |]); by apply not_elem_of_nil in H).
Qed.

Example sample_accept : b64_text sample_digest = cstr_of "s3pPLMBiTxaQ9kYGzzhZRbK+xOo="%string.
Proof. by vm_compute. Qed.

Lemma websocket_handshake_witness :
  exists w' p, vtm_http_srv_sock_can_read rich (fun _ => []) (upgrade_cbs (fun _ => []) sample_sha1 0 None) 1541322307
      demo_tm junk_ws (vtm_socket_plain_vtable mailbox_sys true mailbox_vtable) 1 upgrade_io = Some w' /\
    mb_wire (io_os w') = answer_text (upgrade_answer demo_date upgrade_request sample_digest None) /\
    io_con w' = Some (ConWs (mk_wscon (mk_scon (vtm_buf_init VTM_BYTEORDER_BE) (vtm_buf_init VTM_BYTEORDER_BE) false) p)) /\
    io_heap w' = ∅.
Proof.
  destruct (websocket_handshake mailbox_sys (fun _ os => mb_wire os) (fun _ os => mb_inbox os) true mailbox_vtable
    (fun _ => []) 1541322307 demo_tm demo_date junk_ws sample_sha1) with (fuel := 0%nat) (w := upgrade_io) (u := @nil Z)
      (r := upgrade_request) (rest0 := @nil Z) (key := sample_key) (digest := sample_digest) (data := 0) (proto := @None bytes)
    as (w' & p & E & _ & Hs & Hc & _ & _ & Hh).
  - apply (bool_decide_unpack _). by vm_compute.
  - exact demo_date_text.
  - apply upgrade_serving.
  - by rewrite app_nil_r.
  - vm_compute. discriminate.
  - apply (bool_decide_unpack _). by vm_compute.
  - apply bodyless_upgrade.
  - by vm_compute.
  - vm_compute. discriminate.
  - unfold sample_sha1. by rewrite decide_True.
  - reflexivity.
  - apply (bool_decide_unpack _). by vm_compute.
  - exact I.
  - exists w', p. split; [exact E|]. split; [exact Hs|]. split; [exact Hc|]. apply Hh.
    unfold distinct_fields. apply (bool_decide_unpack _). by vm_compute.
Defined.
