(* ===== verification/HttpClient.v ===== *)
(** * HttpClient: the HTTP client and the WebSocket client

    net/http/http_client.c and net/http/ws_client.c over sockets, URLs, the
    buffered writer, the parser and datasets.  A client keeps its socket with
    the scheme of the URL that it was made for, which chooses the table of
    functions; the sockets of the system are the parameters [vt] and [sock_new].
    The pointers of a response lead into the receive buffer of the client: they
    are offsets.  [None] is undefined behaviour, a failed assertion, or a loop
    that does not end. *)

From S2P Require Import Prelude Base Buffer Format Base64 Str Ws Elem Hash Heap.
From S2P Require Import Table Smap Dataset Http HttpParser Socket Emitter HttpResponse HttpServer Url.

(** net/socket.h:48 *)
Definition VTM_SOCK_OPT_RECV_TIMEOUT : Z := 3.
(** net/http/http_client.h:25 *)
Definition VTM_HTTP_CL_OPT_NO_CERT_CHECK : Z := 1.
(** net/http/http_client.h:26 *)
Definition VTM_HTTP_CL_OPT_TIMEOUT : Z := 2.
(** net/http/http_client.c:18 *)
Definition VTM_HTTP_CL_HINT_NO_CERT_CHECK : Z := 1.
(** net/http/ws_client.h:25 *)
Definition VTM_WS_CL_OPT_NO_CERT_CHECK : Z := 1.

(** net/http/http_client.h:29-38 [struct vtm_http_client_req] *)
Record vtm_http_client_req := mk_creq {
  cq_method : vtm_http_method;
  cq_version : vtm_http_version;
  cq_fam : Z;
  cq_url : bytes;
  cq_headers : option vtm_dataset;
  cq_body : option bytes
}.

(** net/http/http_client.h:41-49 [struct vtm_http_client_res].  The pointers to
    the phrase and the body are offsets in the receive buffer. *)
Record vtm_http_client_res := mk_cres {
  cr_version : vtm_http_version;
  cr_status_code : Z;
  cr_status_msg : option Z;
  cr_headers : option vtm_dataset;
  cr_body : option Z;
  cr_body_len : Z
}.

(** net/http/http_client.c:20-30 [struct vtm_http_client] *)
Record vtm_http_client := mk_hcl {
  hc_sock : option (vtm_url_scheme * vtm_socket);
  hc_writer : vtm_socket_writer;
  hc_recvbuf : vtm_buf;
  hc_parser : vtm_http_parser;
  hc_con_host : option bytes;
  hc_con_port : Z;
  hc_hints : Z;
  hc_opt_timeout : Z
}.

Definition hcl_con (sock : option (vtm_url_scheme * vtm_socket)) (host : option bytes) (port : Z) cl :=
  mk_hcl sock (hc_writer cl) (hc_recvbuf cl) (hc_parser cl) host port (hc_hints cl) (hc_opt_timeout cl).
Definition hcl_recv (b : vtm_buf) (p : vtm_http_parser) cl :=
  mk_hcl (hc_sock cl) (hc_writer cl) b p (hc_con_host cl) (hc_con_port cl) (hc_hints cl) (hc_opt_timeout cl).
Definition hcl_writer (sw : vtm_socket_writer) cl :=
  mk_hcl (hc_sock cl) sw (hc_recvbuf cl) (hc_parser cl) (hc_con_host cl) (hc_con_port cl) (hc_hints cl)
    (hc_opt_timeout cl).

(** net/http/http_client.c:39-59.  NULL if [ok] is false; the writer and the
    parser are not initialised before. *)
Definition vtm_http_client_new (ok : bool) (junk_writer : vtm_socket_writer) (junk : vtm_http_parser)
    : option vtm_http_client :=
  if negb ok then None
  else Some (mk_hcl None junk_writer (vtm_buf_init VTM_BYTEORDER_LE)
               (vtm_http_parser_init junk VTM_HTTP_PM_RESPONSE) None 0 0 0).

(** net/http/http_client.c:73-87.  The socket is the caller's then. *)
Definition vtm_http_client_take_socket (cl : vtm_http_client)
    : Z * option (vtm_url_scheme * vtm_socket) * vtm_http_client :=
  match hc_sock cl with
  | None => (VTM_E_INVALID_STATE, None, cl)
  | Some sock => (VTM_OK, Some sock, hcl_con None None 0 cl)
  end.

(** net/http/http_client.c:89-112.  The value has the size [len] and is read as
    a number. *)
Definition vtm_http_client_set_opt (cl : vtm_http_client) (opt val len : Z) : vtm_http_client * Z :=
  let with_opts hints timeout :=
    mk_hcl (hc_sock cl) (hc_writer cl) (hc_recvbuf cl) (hc_parser cl) (hc_con_host cl) (hc_con_port cl) hints timeout in
  if opt =? VTM_HTTP_CL_OPT_NO_CERT_CHECK then
    if negb (len =? 1) then (cl, VTM_E_INVALID_ARG)
    else (with_opts (if negb (val =? 0) then vtm_flag_set (hc_hints cl) VTM_HTTP_CL_HINT_NO_CERT_CHECK
                     else vtm_flag_unset (hc_hints cl) VTM_HTTP_CL_HINT_NO_CERT_CHECK) (hc_opt_timeout cl), VTM_OK)
  else if opt =? VTM_HTTP_CL_OPT_TIMEOUT then
    if negb (len =? 8) then (cl, VTM_E_INVALID_ARG)
    else (with_opts (hc_hints cl) val, VTM_OK)
  else (cl, VTM_E_NOT_SUPPORTED).

(** net/common.h:23-30 [enum vtm_net_recv_stat].  The values of the enumerators;
    the first is that of VTM_OK. *)
Definition recv_stat_value (stat : vtm_net_recv_stat) : Z :=
  match stat with
  | VTM_NET_RECV_STAT_ERROR => 0
  | VTM_NET_RECV_STAT_CLOSED => 1
  | VTM_NET_RECV_STAT_INVALID => 2
  | VTM_NET_RECV_STAT_AGAIN => 3
  | VTM_NET_RECV_STAT_COMPLETE => 4
  end.

(** The value of an enumerator of [enum vtm_http_method]. *)
Fixpoint method_index (m : vtm_http_method) (l : list vtm_http_method) : nat :=
  match l with
  | [] => O
  | m' :: l => if decide (m = m') then O else S (method_index m l)
  end.

(** The text for a method; [None] behind the array or at its NULL. *)
Definition method_string (m : vtm_http_method) : option bytes :=
  s ← VTM_HTTP_METHODS !! method_index m all_methods; s.

Section Client.
Context (malloc_ok : Z -> bool) (printf_g : Z -> bytes) (a : http_alloc).
Context {OS SA : Type} (vt : vtm_url_scheme -> vtm_socket_vtable OS SA).
Context (sock_new : vtm_url_scheme -> bool -> Z -> OS -> (vtm_socket + Z) * OS).
Implicit Types (os : OS).

(** net/http/http_client.c:222-234.  The codes are not looked at. *)
Definition vtm_http_client_con_close (cl : vtm_http_client) os : vtm_http_client * OS :=
  let os :=
    match hc_sock cl with
    | Some (k, s) =>
        let '(_, s, os) := vtm_socket_shutdown (vt k) (Z.lor VTM_SOCK_SHUT_RD VTM_SOCK_SHUT_WR) s os in
        let '(_, _, os) := vtm_socket_close (vt k) s os in os
    | None => os
    end in
  (hcl_con None None 0 cl, os).

(** net/http/http_client.c:61-71 *)
Definition vtm_http_client_free (cl : vtm_http_client) os (h : heap) : option (OS * heap) :=
  h ← vtm_http_parser_release (hc_parser cl) h;
  Some ((vtm_http_client_con_close cl os).2, h).

(** net/http/http_client.c:157-199.  The code, the URL if it could be parsed, and
    the client.  A connection to the same host and port is used again, whatever
    the scheme; [None] is strcmp() of NULL.  The code of a socket that cannot be
    made is the one that was recorded. *)
Definition vtm_http_client_con_open (cl : vtm_http_client) (req : vtm_http_client_req) os
    : option (Z * option vtm_url * vtm_http_client * OS) :=
  match vtm_url_parse (cq_url req) with
  | (rc, None) => Some (rc, None, cl, os)
  | (rc, Some url) =>
      if negb (rc =? VTM_OK) then Some (rc, Some url, cl, os)
      else
        same ← match hc_sock cl with
               | None => Some false
               | Some _ =>
                   if hc_con_port cl =? url_port url then
                     host ← hc_con_host cl; uhost ← url_host url; Some (strcmp_eq host uhost)
                   else Some false
               end;
        if same : bool then Some (VTM_OK, Some url, cl, os)
        else
          let '(cl, os) := match hc_sock cl with
                           | Some _ => vtm_http_client_con_close cl os
                           | None => (cl, os)
                           end in
          let k := url_scheme url in
          let no_check := flag_any (hc_hints cl) VTM_HTTP_CL_HINT_NO_CERT_CHECK in
          let '(r, os) := sock_new k no_check (cq_fam req) os in
          match r with
          | inr err => Some (err, Some url, cl, os)
          | inl s =>
              let '(rc, s, os) :=
                if 0 <? hc_opt_timeout cl
                then vtm_socket_set_opt (vt k) VTM_SOCK_OPT_RECV_TIMEOUT (Some (hc_opt_timeout cl)) s os
                else (VTM_OK, s, os) in
              let cl' s := hcl_con (Some (k, s)) (hc_con_host cl) (hc_con_port cl) cl in
              if negb (rc =? VTM_OK) then Some (rc, Some url, cl' s, os)
              else
                host ← url_host url;
                let '(rc, s, os) := vtm_socket_connect (vt k) host (url_port url) s os in
                Some (rc, Some url, cl' s, os)
          end
  end.

(** net/http/http_client.c:201-220.  The text of the header is cached in the
    response. *)
Definition vtm_http_client_con_must_close (cl : vtm_http_client) (req : vtm_http_client_req)
    (res : vtm_http_client_res) : option (bool * vtm_http_client_res) :=
  '(_, s) ← hc_sock cl;
  if flag_any (vtm_socket_get_state s) VTM_SOCK_STAT_CLOSED then Some (true, res)
  else
    '(val, res) ← match cr_headers res with
                  | None => Some (None, res)
                  | Some ds =>
                      '(val, ds) ← vtm_dataset_get_string malloc_ok printf_g ds (str_const VTM_HTTP_HEADER_CONNECTION);
                      Some (val, mk_cres (cr_version res) (cr_status_code res) (cr_status_msg res) (Some ds)
                                   (cr_body res) (cr_body_len res))
                  end;
    let val_is (s : bytes) := match val with Some v => vtm_str_casecmp v s =? 0 | None => false end in
    if val_is VTM_HTTP_VALUE_CLOSE then Some (true, res)
    else Some (bool_decide (cq_version req = VTM_HTTP_VER_1_0) && negb (val_is VTM_HTTP_VALUE_KEEP_ALIVE), res).

(** The names and values of a dataset, in the order of its tables; the text of a
    value is cached.  [None] is strlen() of NULL. *)
Definition ds_texts (ds : vtm_dataset) : option (list (bytes * bytes)) :=
  mapM (fun n => name ← elem_pointer (dn_key_data n);
                 '(val, _) ← vtm_variant_as_str malloc_ok printf_g (dn_value n); val ← val;
                 Some (p_text name, val)) (VTM_SMAP_FOR_EACH (vars ds)).
Definition ds_cached (ds : vtm_dataset) : vtm_dataset :=
  mk_ds (hints ds)
    (map (map (fun n => ds_set_value n (default (dn_value n) (snd <$> vtm_variant_as_str malloc_ok printf_g (dn_value n)))))
       (vars ds)).

(** The calls of the writer for the fields of a header. *)
Definition field_pieces (fs : list (bytes * bytes)) : list bytes :=
  concat (map (fun f => [f.1; [58; 32]; f.2; [13; 10]]) fs).

(** net/http/http_client.c:236-303.  The codes of the writer are not looked at
    but for the last.  [None] as in [vtm_socket_writer_putm], and for a method
    without a name, a URL without a path and a list that cannot be allocated. *)
Definition vtm_http_client_send (cl : vtm_http_client) (req : vtm_http_client_req) (url : vtm_url) os
    : option (Z * vtm_http_client * vtm_http_client_req * OS) :=
  '(k, s) ← hc_sock cl;
  method ← method_string (cq_method req);
  version ← vtm_http_get_version_string (cq_version req);
  path ← url_path url;
  host ← url_host url;
  fields ← match cq_headers req with
           | None => Some []
           | Some ds => _ ← vtm_dataset_entryset (malloc_ok 0) (Some ds); ds_texts ds
           end;
  let ds := ds_cached <$> cq_headers req in
  let body := default [] (cq_body req) in
  need ← (if 0 <? zlen body then
            match ds with
            | None => Some true
            | Some ds =>
                cl ← vtm_dataset_contains ds (str_const VTM_HTTP_HEADER_CONTENT_LENGTH);
                te ← vtm_dataset_contains ds (str_const VTM_HTTP_HEADER_TRANSFER_ENCODING);
                Some (negb cl && negb te)
            end
          else Some false);
  let len := if need : bool
             then field_pieces [(VTM_HTTP_HEADER_CONTENT_LENGTH, (vtm_fmt_uint64 true (u64 (zlen body))).2)] else [] in
  let pieces :=
    [method; [32]; path; [32]; version; [13; 10]] ++ [cstr_of "Host: "%string; host; [13; 10]] ++
    field_pieces fields ++ len ++ [[13; 10]] ++ (if 0 <? zlen body then [body] else []) in
  '(sw, s, os) ← writer_puts (vt k) pieces (vtm_socket_writer_reset (hc_writer cl)) s os;
  Some (sw_lrc sw, hcl_writer sw (hcl_con (Some (k, s)) (hc_con_host cl) (hc_con_port cl) cl),
        mk_creq (cq_method req) (cq_version req) (cq_fam req) (cq_url req) ds (cq_body req), os).

(** net/http/http_client.c:317-350.  The loop: [parse] says that the buffer is
    looked at before anything is read. *)
Fixpoint client_recv_loop (fuel : nat) (parse : bool) (cl : vtm_http_client) os (h : heap)
    : option (Z * option vtm_http_client_res * vtm_http_client * OS * heap) :=
  match fuel with
  | O => None
  | S fuel =>
      '(k, s) ← hc_sock cl;
      let '(stop, cl, os) :=
        if parse then (None, cl, os)
        else
          let '(b, rc) := vtm_buf_ensure malloc_ok (hc_recvbuf cl) 512 in
          if negb (rc =? VTM_OK) then (Some (recv_stat_value VTM_NET_RECV_STAT_ERROR), hcl_recv b (hc_parser cl) cl, os)
          else
            let '(rc, data, s, os) := vtm_socket_read (vt k) (VTM_BUF_PUT_AVAIL_TOTAL b) s os in
            let cl := hcl_con (Some (k, s)) (hc_con_host cl) (hc_con_port cl)
                        (hcl_recv (VTM_BUF_PUT_INC b data) (hc_parser cl) cl) in
            (if negb (rc =? VTM_OK) then Some rc else None, cl, os) in
      match stop with
      | Some rc => Some (rc, None, cl, os, h)
      | None =>
          '(stat, e) ← vtm_http_parser_run malloc_ok printf_g a (mk_env (hc_parser cl) (hc_recvbuf cl) h);
          let cl := hcl_recv (e_buf e) (e_par e) cl in
          match stat with
          | VTM_NET_RECV_STAT_AGAIN => client_recv_loop fuel false cl os (e_heap e)
          | VTM_NET_RECV_STAT_COMPLETE =>
              let p := hc_parser cl in
              Some (VTM_OK,
                Some (mk_cres (version (shared p)) (res_status_code (msg p)) (res_status_msg (msg p))
                        (headers (shared p)) (body (shared p)) (body_len (shared p))),
                hcl_recv (hc_recvbuf cl) (vtm_http_parser_reset p) cl, os, e_heap e)
          | _ => Some (VTM_ERROR, None, cl, os, e_heap e)
          end
      end
  end.

(** net/http/http_client.c:305-354 *)
Definition vtm_http_client_recv (fuel : nat) (cl : vtm_http_client) os (h : heap)
    : option (Z * option vtm_http_client_res * vtm_http_client * OS * heap) :=
  let b := vtm_buf_discard_processed (hc_recvbuf cl) in
  client_recv_loop fuel (0 <? VTM_BUF_GET_AVAIL_TOTAL b) (hcl_recv b (vtm_http_parser_reset (hc_parser cl)) cl) os h.

(** net/http/http_client.c:114-155.  The code, the response as far as it was
    stored, the client and the request.  [None] if a response is looked at that
    was not stored. *)
Definition vtm_http_client_request (fuel : nat) (cl : vtm_http_client) (req : vtm_http_client_req) os (h : heap)
    : option (Z * option vtm_http_client_res * vtm_http_client * vtm_http_client_req * OS * heap) :=
  '(rc, url, cl, os) ← vtm_http_client_con_open cl req os;
  if negb (rc =? VTM_OK) then
    let '(cl, os) := vtm_http_client_con_close cl os in Some (rc, None, cl, req, os, h)
  else
    url ← url;
    '(rc, cl, req, os) ← vtm_http_client_send cl req url os;
    if negb (rc =? VTM_OK) then
      let '(cl, os) := vtm_http_client_con_close cl os in Some (rc, None, cl, req, os, h)
    else
      '(rc, res, cl, os, h) ← vtm_http_client_recv fuel cl os h;
      '(close, res) ← (if rc =? VTM_OK then
                         res ← res; '(close, res) ← vtm_http_client_con_must_close cl req res; Some (close, Some res)
                       else Some (true, res));
      if close : bool then
        let '(cl, os) := vtm_http_client_con_close cl os in Some (rc, res, cl, req, os, h)
      else
        let cl := match hc_con_host cl with
                  | None => hcl_con (hc_sock cl) (url_host url) (url_port url) cl
                  | Some _ => cl
                  end in
        Some (rc, res, cl, req, os, h).

(** net/http/http_client.c:356-359 *)
Definition vtm_http_client_res_release (res : vtm_http_client_res) (h : heap) : option heap :=
  vtm_dataset_free (cr_headers res) h.
End Client.

(** ** The WebSocket client *)

(** net/http/ws_client.c:24-31 [struct vtm_ws_client] *)
Record vtm_ws_client := mk_wcl {
  wl_sock : option (vtm_url_scheme * vtm_socket);
  wl_recvbuf : vtm_buf;
  wl_parser : vtm_ws_parser;
  wl_hints : Z;
  wl_opt_timeout : Z
}.

Definition wcl_recv (b : vtm_buf) (p : vtm_ws_parser) cl :=
  mk_wcl (wl_sock cl) b p (wl_hints cl) (wl_opt_timeout cl).
Definition wcl_sock (sock : option (vtm_url_scheme * vtm_socket)) cl :=
  mk_wcl sock (wl_recvbuf cl) (wl_parser cl) (wl_hints cl) (wl_opt_timeout cl).

(** net/http/ws_client.c:33-55.  NULL if the allocator refuses; the parser is not
    initialised before. *)
Definition vtm_ws_client_new (malloc_ok : Z -> bool) (ok : bool) (junk : vtm_ws_parser) : option vtm_ws_client :=
  if negb ok then None
  else match vtm_ws_parser_init malloc_ok junk VTM_WS_MODE_CLIENT with
       | (rc, Some p) => if rc =? VTM_OK then Some (mk_wcl None (vtm_buf_init VTM_BYTEORDER_BE) p 0 0) else None
       | _ => None
       end.

(** net/http/ws_client.c:73-96.  The option for the timeout is tested by the
    macro of the HTTP client. *)
Definition vtm_ws_client_set_opt (cl : vtm_ws_client) (opt val len : Z) : vtm_ws_client * Z :=
  let with_opts hints timeout := mk_wcl (wl_sock cl) (wl_recvbuf cl) (wl_parser cl) hints timeout in
  if opt =? VTM_WS_CL_OPT_NO_CERT_CHECK then
    if negb (len =? 1) then (cl, VTM_E_INVALID_ARG)
    else (with_opts (if negb (val =? 0) then vtm_flag_set (wl_hints cl) VTM_HTTP_CL_HINT_NO_CERT_CHECK
                     else vtm_flag_unset (wl_hints cl) VTM_HTTP_CL_HINT_NO_CERT_CHECK) (wl_opt_timeout cl), VTM_OK)
  else if opt =? VTM_HTTP_CL_OPT_TIMEOUT then
    if negb (len =? 8) then (cl, VTM_E_INVALID_ARG)
    else (with_opts (wl_hints cl) (i64 val), VTM_OK)
  else (cl, VTM_E_NOT_SUPPORTED).

Section WsClient.
Context (malloc_ok : Z -> bool) (printf_g : Z -> bytes) (a : http_alloc).
Context {OS SA : Type} (vt : vtm_url_scheme -> vtm_socket_vtable OS SA).
Context (sock_new : vtm_url_scheme -> bool -> Z -> OS -> (vtm_socket + Z) * OS).
Implicit Types (os : OS).

(** net/http/ws_client.c:57-71.  What remains is the memory of the parser and
    the buffer, which is released. *)
Definition vtm_ws_client_free (cl : vtm_ws_client) os : OS :=
  match wl_sock cl with
  | Some (k, s) => (vtm_socket_close (vt k) s os).2
  | None => os
  end.

(** net/http/ws_client.c:140-143.  The headers of the handshake; [None] as in
    [VTM_DATASET_SETX]. *)
Definition ws_handshake_headers (ds : vtm_dataset) (key : bytes) (h : heap) : option (vtm_dataset * heap) :=
  let set name val r :=
    '(ds, h) ← r; vtm_dataset_set_string (ok_entry a) ds (str_const name) (str_const val) h in
  set VTM_HTTP_HEADER_SEC_WEBSOCKET_VERSION (cstr_of "13"%string)
    (set VTM_HTTP_HEADER_SEC_WEBSOCKET_KEY key
       (set VTM_HTTP_HEADER_CONNECTION VTM_HTTP_VALUE_UPGRADE
          (set VTM_HTTP_HEADER_UPGRADE VTM_HTTP_VALUE_WEBSOCKET (Some (ds, h))))).

(** net/http/ws_client.c:98-177.  [ok] is the answer of the allocator for the
    HTTP client, [time] the time in microseconds, [junk] what the new object
    holds.  The dataset of the headers is never freed. *)
Definition vtm_ws_client_connect (fuel : nat) (ok : bool) (junk_writer : vtm_socket_writer) (junk : vtm_http_parser)
    (time : Z) (cl : vtm_ws_client) (fam : Z) (url : bytes) os (h : heap)
    : option (Z * vtm_ws_client * OS * heap) :=
  match vtm_http_client_new ok junk_writer junk with
  | None => Some (VTM_E_MALLOC, cl, os, h)
  | Some http_cl =>
      let finish rc cl http_cl os h :=
        '(os, h) ← vtm_http_client_free vt http_cl os h; Some (rc, cl, os, h) in
      let '(http_cl, rc) :=
        if flag_any (wl_hints cl) VTM_HTTP_CL_HINT_NO_CERT_CHECK
        then vtm_http_client_set_opt http_cl VTM_HTTP_CL_OPT_NO_CERT_CHECK 1 1 else (http_cl, VTM_OK) in
      if negb (rc =? VTM_OK) then finish rc cl http_cl os h
      else
        let '(http_cl, rc) :=
          if 0 <? wl_opt_timeout cl
          then vtm_http_client_set_opt http_cl VTM_HTTP_CL_OPT_TIMEOUT (wl_opt_timeout cl) 8 else (http_cl, VTM_OK) in
        if negb (rc =? VTM_OK) then finish rc cl http_cl os h
        else
          let '(rc, key) := vtm_base64_encode (le_bytes 8 time) (VTM_BASE64_ENC_BUF_LEN 8) in
          if negb (rc =? VTM_OK) then finish rc cl http_cl os h
          else
          match vtm_dataset_new (ok_ds a) with
          | None => finish VTM_E_MALLOC cl http_cl os h
          | Some ds =>
            '(ds, h) ← ws_handshake_headers ds (until_nul key) h;
            let req := mk_creq VTM_HTTP_METHOD_GET VTM_HTTP_VER_1_1 fam url (Some ds) None in
            '(rc, res, http_cl, _, os, h) ← vtm_http_client_request malloc_ok printf_g a vt sock_new fuel http_cl req os h;
            if negb (rc =? VTM_OK) then finish rc cl http_cl os h
            else
              res ← res;
              h ← vtm_http_client_res_release res h;
              if negb (cr_status_code res =? 101) then finish VTM_E_IO_UNKNOWN cl http_cl os h
              else
                let cl := wcl_recv (vtm_buf_clear (wl_recvbuf cl)) (vtm_ws_parser_reset (wl_parser cl)) cl in
                let '(rc, sock, http_cl) := vtm_http_client_take_socket http_cl in
                let cl := match sock with Some _ => wcl_sock sock cl | None => cl end in
                finish rc cl http_cl os h
          end
  end.

(** net/http/ws_client.c:179-185 *)
Definition vtm_ws_client_close (cl : vtm_ws_client) os : Z * vtm_ws_client * OS :=
  match wl_sock cl with
  | None => (VTM_E_INVALID_STATE, cl, os)
  | Some (k, s) => let '(rc, s, os) := vtm_socket_close (vt k) s os in (rc, wcl_sock (Some (k, s)) cl, os)
  end.

(** net/http/ws_client.c:187-223 [vtm_ws_client_send].  The frame is put together
    ([vtm_ws_client_send] of Ws.v) and written. *)
Definition ws_client_send (time : Z) (cl : vtm_ws_client) (type : vtm_ws_msg_type) (src : bytes) os
    : option (Z * vtm_ws_client * OS) :=
  match wl_sock cl with
  | None => Some (VTM_E_INVALID_STATE, cl, os)
  | Some (k, s) =>
      '(b, rc) ← vtm_ws_client_send malloc_ok type (vtm_hash_unum time) src;
      if negb (rc =? VTM_OK) then Some (rc, cl, os)
      else
        '(rc, written, s, os) ← vtm_socket_write (vt k) (ztake (buf_used b) (buf_data b)) s os;
        Some (if (rc =? VTM_OK) && negb (written =? buf_used b) then VTM_E_IO_UNKNOWN else rc,
              wcl_sock (Some (k, s)) cl, os)
  end.

(** net/http/ws_client.c:237-269.  The loop: [parse] says that the buffer is
    looked at before anything is read.  The message is what the caller finds at
    its pointer afterwards, if it was stored. *)
Fixpoint ws_client_recv_loop (fuel : nat) (parse : bool) (cl : vtm_ws_client) os
    : option (Z * option vtm_ws_msg * vtm_ws_client * OS) :=
  match fuel with
  | O => None
  | S fuel =>
      '(k, s) ← wl_sock cl;
      let '(stop, cl, os) :=
        if parse then (None, cl, os)
        else
          let '(b, rc) := vtm_buf_ensure malloc_ok (wl_recvbuf cl) 512 in
          if negb (rc =? VTM_OK)
          then (Some (recv_stat_value VTM_NET_RECV_STAT_ERROR), wcl_recv b (wl_parser cl) cl, os)
          else
            let '(rc, data, s, os) := vtm_socket_read (vt k) (VTM_BUF_PUT_AVAIL_TOTAL b) s os in
            let cl := wcl_sock (Some (k, s)) (wcl_recv (VTM_BUF_PUT_INC b data) (wl_parser cl) cl) in
            (if negb ((rc =? VTM_OK) || (rc =? VTM_E_IO_AGAIN))
             then Some (recv_stat_value VTM_NET_RECV_STAT_ERROR) else None, cl, os) in
      match stop with
      | Some rc => Some (rc, None, cl, os)
      | None =>
          r ← vtm_ws_parser_run malloc_ok (wl_parser cl) (wl_recvbuf cl);
          match r with
          | WStop stat _ p b =>
              let cl := wcl_recv b p cl in
              match stat with
              | VTM_NET_RECV_STAT_COMPLETE =>
                  '(rc, m, p) ← vtm_ws_parser_get_msg malloc_ok p; Some (rc, Some m, wcl_recv b p cl, os)
              | VTM_NET_RECV_STAT_AGAIN => ws_client_recv_loop fuel false cl os
              | VTM_NET_RECV_STAT_CLOSED => Some (VTM_E_IO_CLOSED, None, wcl_sock None cl, os)
              | VTM_NET_RECV_STAT_INVALID | VTM_NET_RECV_STAT_ERROR => Some (VTM_E_IO_UNKNOWN, None, cl, os)
              end
          | _ => None
          end
      end
  end.

(** net/http/ws_client.c:225-273 *)
Definition vtm_ws_client_recv (fuel : nat) (cl : vtm_ws_client) os
    : option (Z * option vtm_ws_msg * vtm_ws_client * OS) :=
  match wl_sock cl with
  | None => Some (VTM_E_INVALID_STATE, None, cl, os)
  | Some _ => ws_client_recv_loop fuel (0 <? VTM_BUF_GET_AVAIL_TOTAL (wl_recvbuf cl)) cl os
  end.
End WsClient.
