(* ===== verification/HttpClientProps.v ===== *)
(** * HttpClientProps: an exchange between client and server

    What a request of net/http/http_client.c sends, what it makes of the answer
    of a peer, and the HTTP server of this library as that peer. *)

From stdpp Require Import gmap fin_sets.
From S2P Require Import Prelude Base Buffer Format Str Ws Elem Hash Heap Table.
From S2P Require Import Smap Dataset Http HttpParser HttpRequest Socket Emitter HttpResponse ResponseProps ResponseWire.
From S2P Require Import ResponseRoom HttpFrame HttpCon HttpServer HttpPeer HttpServerProps Url HttpClient.

(** ** Sending *)

(** A peer that takes everything that it is sent. *)
Class TakesAll {OS} (sys : sys_net OS) :=
  takes_all fd src os : src <> [] -> (sys_send sys fd src os).1 = inl (zlen src).

(** The network after some calls of send(). *)
Definition sends {OS} (sys : sys_net OS) (fd : Z) (chunks : list bytes) (os : OS) : OS :=
  fold_left (fun os p => (sys_send sys fd p os).2) chunks os.

Section Sending.
Context {OS SA : Type} (sys : sys_net OS) `{!TakesAll sys} (ok : bool) (rest : vtm_socket_vtable OS SA).
Abbreviation vt := (vtm_socket_plain_vtable sys ok rest).
Implicit Types (s : vtm_socket) (os : OS) (sw : vtm_socket_writer).

Lemma flush_sends sw s os :
  sw_lrc sw = VTM_OK -> VTM_SOCKET_IS_CLOSED s = false ->
  exists s' chunks, vtm_socket_writer_flush vt sw s os
      = Some (VTM_OK, mk_writer [] VTM_OK, s', sends sys (s_fd s) chunks os) /\
    concat chunks = sw_buf sw /\ Forall (fun p => p <> []) chunks /\
    s_fd s' = s_fd s /\ VTM_SOCKET_IS_CLOSED s' = false.
Proof.
  intros Hl Hopen. unfold vtm_socket_writer_flush. rewrite Hl. change (negb (VTM_OK =? VTM_OK)) with false. cbn iota.
  destruct (decide (sw_buf sw = [])) as [E|E].
  - assert (exists s', vtm_socket_write vt [] s os = Some (VTM_OK, 0, s', os) /\ s_fd s' = s_fd s) as (s' & Ew & Hfd).
    { unfold vtm_socket_write. rewrite Hopen. cbn [vt_write vtm_socket_plain_vtable]. unfold vtm_socket_plain_write.
      cbn [length plain_write_loop mbind option_bind]. eexists. split; [reflexivity|].
      match goal with |- context [write_nbl_hints ?x] => by destruct (write_nbl_hints_bits x) as (-> & _) end. }
    rewrite E, Ew. cbn [mbind option_bind]. change (negb (0 =? zlen (A:=Z) [])) with false.
    exists s', []. split; [done|]. split; [done|]. split; [constructor|]. split; [done|]. by eapply socket_write_stays_open.
  - destruct (sys_send sys (s_fd s) (sw_buf sw) os) as [r os'] eqn:Es.
    pose proof (takes_all (s_fd s) (sw_buf sw) os E) as Hr. rewrite Es in Hr. cbn [fst] in Hr. subst r.
    destruct (write_once sys ok rest s os _ os' Hopen E Es) as (s' & Ew & Hfd & Hop). rewrite Ew.
    cbn [mbind option_bind]. change (negb (VTM_OK =? VTM_OK)) with false. rewrite Z.eqb_refl. cbn [negb].
    exists s', [sw_buf sw]. unfold sends. cbn [fold_left concat]. rewrite Es, app_nil_r. split; [done|]. split; [done|].
    split; [|done]. by repeat constructor.
Qed.

Lemma putm_sends sw src s os :
  sw_lrc sw = VTM_OK -> zlen src <= SW_BUF_SIZE -> zlen (sw_buf sw) <= SW_BUF_SIZE -> VTM_SOCKET_IS_CLOSED s = false ->
  exists buf s' chunks, vtm_socket_writer_putm vt sw src s os
      = Some (VTM_OK, mk_writer buf VTM_OK, s', sends sys (s_fd s) chunks os) /\
    concat chunks ++ buf = sw_buf sw ++ src /\ zlen buf <= SW_BUF_SIZE /\ Forall (fun p => p <> []) chunks /\
    s_fd s' = s_fd s /\ VTM_SOCKET_IS_CLOSED s' = false.
Proof.
  intros Hl Hlen Hbuf Hopen. unfold vtm_socket_writer_putm, vtm_socket_writer_ensure_space. rewrite Hl.
  change (negb (VTM_OK =? VTM_OK)) with false. cbn iota. pose proof (zlen_nonneg src). pose proof (zlen_nonneg (sw_buf sw)).
  unfold SW_BUF_SIZE in *. rewrite u64_small by (unfold is_size, SIZE_MAX; lia).
  destruct (1024 <=? zlen (sw_buf sw) + zlen src) eqn:Ef; bsplit.
  - destruct (flush_sends sw s os Hl Hopen) as (s' & chunks & -> & Hc & Hne & Hfd & Ho). cbn [mbind option_bind sw_buf].
    change (negb (VTM_OK =? VTM_OK)) with false. cbn iota. change (zlen (A:=Z) []) with 0.
    rewrite (proj2 (Z.ltb_ge _ _)) by lia. exists src, s', chunks. cbn [app]. split; [done|]. by rewrite Hc.
  - cbn [mbind option_bind sw_buf]. change (negb (VTM_OK =? VTM_OK)) with false. cbn iota.
    rewrite (proj2 (Z.ltb_ge _ _)) by lia. exists (sw_buf sw ++ src), s, []. split; [done|]. split; [done|].
    split; [rewrite zlen_app; lia|]. by repeat constructor.
Qed.

Lemma puts_sends pieces : forall sw s os,
  sw_lrc sw = VTM_OK -> Forall (fun p => zlen p <= SW_BUF_SIZE) pieces -> zlen (sw_buf sw) <= SW_BUF_SIZE ->
  VTM_SOCKET_IS_CLOSED s = false ->
  exists s' chunks, writer_puts vt pieces sw s os = Some (mk_writer [] VTM_OK, s', sends sys (s_fd s) chunks os) /\
    concat chunks = sw_buf sw ++ concat pieces /\ Forall (fun p => p <> []) chunks /\
    s_fd s' = s_fd s /\ VTM_SOCKET_IS_CLOSED s' = false.
Proof.
  induction pieces as [|p pieces IH]; intros sw s os Hl Hp Hb Hopen; cbn [writer_puts concat].
  - destruct (flush_sends sw s os Hl Hopen) as (s' & chunks & -> & Hc & Hrest). cbn [mbind option_bind].
    exists s', chunks. by rewrite app_nil_r.
  - apply Forall_cons in Hp as [Hp Hps].
    destruct (putm_sends sw p s os Hl Hp Hb Hopen) as (buf & s1 & c1 & -> & Hc1 & Hb1 & Hne1 & Hfd1 & Ho1).
    cbn [mbind option_bind].
    destruct (IH (mk_writer buf VTM_OK) s1 (sends sys (s_fd s) c1 os)) as (s' & c2 & -> & Hc2 & Hne2 & Hfd2 & Ho2); try done.
    exists s', (c1 ++ c2). rewrite Hfd1. split; [unfold sends; by rewrite fold_left_app|].
    split; [|split; [by apply Forall_app|by rewrite Hfd2]].
    rewrite concat_app, Hc2. cbn [sw_buf]. by rewrite app_assoc, Hc1, <- app_assoc.
Qed.
End Sending.

(** ** The text of a request *)

Lemma field_pieces_text fs : concat (field_pieces fs) = fields_text (map as_field fs).
Proof.
  induction fs as [|[n v] fs IH]; [done|].
  change (field_pieces ((n, v) :: fs)) with ([n; [58; 32]; v; [13; 10]] ++ field_pieces fs).
  rewrite concat_app, IH.
  change (fields_text (map as_field ((n, v) :: fs))) with (field_text (as_field (n, v)) ++ fields_text (map as_field fs)).
  cbn [concat]. unfold as_field at 2, field_text. cbn [f_name f_ws f_value fst snd].
  change [58; 32] with ([58] ++ [32]). by rewrite app_nil_r, <- !app_assoc.
Qed.

(** The request [r] as text is what the client sends for [req]: without a body,
    with every piece no longer than the array of the writer. *)
Record sends_request (printf_g : Z -> bytes) (req : vtm_http_client_req) (url : vtm_url) (r : http_request) : Prop := {
  sr_name : method_string (cq_method req) = Some (r_name r);
  sr_path : url_path url = Some (r_path r ++ query_text (r_params r));
  sr_version : cq_version req = r_version r;
  sr_fields : exists host fs, url_host url = Some host /\
    match cq_headers req with None => Some [] | Some ds => ds_texts (fun _ => true) printf_g ds end = Some fs /\
    r_fields r = map as_field ((cstr_of "Host"%string, host) :: fs);
  sr_body : cq_body req = None;
  sr_small : zlen (request_text r) <= SW_BUF_SIZE
}.

(** The pieces of a text are no longer than the text. *)
Lemma pieces_small (pieces : list bytes) n : zlen (concat pieces) <= n -> Forall (fun p => zlen p <= n) pieces.
Proof.
  revert n. induction pieces as [|p pieces IH]; intros n Hn; [constructor|]. cbn [concat] in Hn. rewrite zlen_app in Hn.
  pose proof (zlen_nonneg p). pose proof (zlen_nonneg (concat pieces)).
  constructor; [lia|]. apply IH. lia.
Qed.

(** ** The exchange *)

(** A client between two requests; [u] is what lies in its buffer. *)
Record client_idle (cl : vtm_http_client) (u : bytes) : Prop := {
  ci_buf : buf_ok (hc_recvbuf cl);
  ci_err : buf_err (hc_recvbuf cl) = VTM_OK;
  ci_content : buf_content (hc_recvbuf cl) = u;
  ci_len : buf_len (hc_recvbuf cl) <= 2048;
  ci_parser : mode (hc_parser cl) = VTM_HTTP_PM_RESPONSE /\
    max_header_size (hc_parser cl) = VTM_HTTP_DEF_MAX_HEADER_SIZE /\
    max_body_size (hc_parser cl) = VTM_HTTP_DEF_MAX_BODY_SIZE
}.

Lemma client_new_idle junk_w junk cl : vtm_http_client_new true junk_w junk = Some cl -> client_idle cl [].
Proof. intros [= <-]. constructor; try done. apply buf_init_ok. Qed.

(** What a response says: the version, the code, the phrase, the headers by name
    and the body, the pointers leading into the buffer [b]. *)
Record response_is (malloc_ok : Z -> bool) (printf_g : Z -> bytes) (p : answer) (b : vtm_buf)
    (res : vtm_http_client_res) : Prop := {
  ri_version : cr_version res = an_version p;
  ri_code : cr_status_code res = an_status p;
  ri_phrase : exists off, cr_status_msg res = Some off /\
    buf_str b off = Some (mk_ptr 1 (vtm_http_get_status_phrase (an_status p)));
  ri_headers : match cr_headers res with
               | None => answer_headers p = ∅
               | Some ds => hdr_ds malloc_ok printf_g ds (answer_headers p)
               end;
  ri_body : cr_body_len res = zlen (concat (an_body p)) /\
    if 0 <? zlen (concat (an_body p)) then
      exists off, cr_body res = Some off /\
        ztake (zlen (concat (an_body p))) (zdrop off (buf_data b)) = concat (an_body p)
    else cr_body res = None
}.

(** Whether the client closes the connection: the server has announced that it
    does, or has not announced that an old connection stays. *)
Definition client_closes (version : vtm_http_version) (con : option bytes) : bool :=
  let val_is (s : bytes) := match con with Some v => vtm_str_casecmp v s =? 0 | None => false end in
  val_is VTM_HTTP_VALUE_CLOSE || bool_decide (version = VTM_HTTP_VER_1_0) && negb (val_is VTM_HTTP_VALUE_KEEP_ALIVE).
Abbreviation con_header p := (answer_headers p !! map tolower VTM_HTTP_HEADER_CONNECTION).

Section Exchange.
Context {OS SA : Type} (sys : sys_net OS) `{!TakesAll sys} (ok : bool) (rest : vtm_socket_vtable OS SA).
Context (vts : vtm_url_scheme -> vtm_socket_vtable OS SA).
Context (sock_new : vtm_url_scheme -> bool -> Z -> OS -> (vtm_socket + Z) * OS) (printf_g : Z -> bytes).
Abbreviation vt := (vtm_socket_plain_vtable sys ok rest).
Abbreviation many := (fun _ : Z => true).
Implicit Types (s : vtm_socket) (os : OS) (cl : vtm_http_client).

(** Opening a connection does not touch the buffer and the parser. *)
Lemma con_open_keeps cl req os rc url cl1 os1 :
  vtm_http_client_con_open vts sock_new cl req os = Some (rc, url, cl1, os1) ->
  hc_recvbuf cl1 = hc_recvbuf cl /\ hc_parser cl1 = hc_parser cl.
Proof.
  unfold vtm_http_client_con_open. destruct (vtm_url_parse (cq_url req)) as [rc0 [u|]]; [|by intros [= <- <- <- <-]].
  destruct (negb (rc0 =? VTM_OK)); [by intros [= <- <- <- <-]|].
  intros (same & _ & H)%bind_Some. destruct same; [by simplify_eq|].
  assert (exists cl2 os2, (match hc_sock cl with Some _ => vtm_http_client_con_close vts cl os | None => (cl, os) end)
    = (cl2, os2) /\ hc_recvbuf cl2 = hc_recvbuf cl /\ hc_parser cl2 = hc_parser cl) as (cl2 & os2 & E & <- & <-).
  { destruct (hc_sock cl) as [[k s]|] eqn:Es; [|by exists cl, os]. unfold vtm_http_client_con_close. by eexists _, _. }
  rewrite E in H. destruct (sock_new _ _ _ os2) as [[s|err] os3]; [|by simplify_eq].
  destruct (if 0 <? hc_opt_timeout cl2 then _ else _) as [[rc1 s1] os4].
  destruct (negb (rc1 =? VTM_OK)); [by simplify_eq|].
  apply bind_Some in H as (host & _ & H). destruct (vtm_socket_connect _ _ _ _ _) as [[rc2 s2] os5]. by simplify_eq.
Qed.

Lemma client_send_ok cl req url r s os k :
  hc_sock cl = Some (k, s) -> vts k = vt -> VTM_SOCKET_IS_CLOSED s = false -> sends_request printf_g req url r ->
  exists sw s' chunks, vtm_http_client_send many printf_g vts cl req url os
      = Some (VTM_OK, hcl_writer sw (hcl_con (Some (k, s')) (hc_con_host cl) (hc_con_port cl) cl),
          mk_creq (cq_method req) (cq_version req) (cq_fam req) (cq_url req)
            (ds_cached many printf_g <$> cq_headers req) None, sends sys (s_fd s) chunks os) /\
    concat chunks = request_text r /\ Forall (fun p => p <> []) chunks /\
    s_fd s' = s_fd s /\ VTM_SOCKET_IS_CLOSED s' = false.
Proof.
  intros Hs Hvt Hopen [Hname Hpath Hver (host & fs & Hhost & Hds & Hfs) Hbody Hsmall].
  unfold vtm_http_client_send. rewrite Hs, Hname, Hver, Hpath, Hhost, Hbody. cbn [mbind option_bind].
  rewrite Hvt.
  assert (vtm_http_get_version_string (r_version r) = Some (version_text (r_version r))) as -> by by destruct (r_version r).
  cbn [mbind option_bind].
  assert ((match cq_headers req with
           | Some ds => _ ← vtm_dataset_entryset (many 0) (Some ds); ds_texts many printf_g ds
           | None => Some []
           end) = Some fs) as ->.
  { destruct (cq_headers req); done. }
  cbn [mbind option_bind default]. change (0 <? zlen (A:=Z) []) with false. cbn iota. cbn [mbind option_bind].
  set (pieces := _ ++ _ ++ _ ++ _ ++ _ ++ _).
  assert (concat pieces = request_text r) as Et.
  { subst pieces. rewrite !concat_app, field_pieces_text. unfold request_text. rewrite Hfs. cbn [concat map].
    change (fields_text (as_field (cstr_of "Host"%string, host) :: map as_field fs))
      with (field_text (as_field (cstr_of "Host"%string, host)) ++ fields_text (map as_field fs)).
    unfold as_field at 1, field_text. cbn [f_name f_ws f_value fst snd].
    change (cstr_of "Host: "%string) with (cstr_of "Host"%string ++ [58] ++ [32]).
    by rewrite !app_nil_r, <- !app_assoc. }
  destruct (puts_sends sys ok rest pieces (vtm_socket_writer_reset (hc_writer cl)) s os eq_refl)
    as (s' & chunks & -> & Hc & Hne & Hfd & Ho); [apply pieces_small; by rewrite Et|done|done|].
  cbn [mbind option_bind sw_lrc]. cbn [vtm_socket_writer_reset sw_buf app] in Hc.
  eexists _, s', chunks. split; [reflexivity|]. by rewrite Hc.
Qed.

(** What follows the text of an answer in the buffer. *)
Lemma body_is_tail data g e : body_is data e -> body_is data (env_tail g e).
Proof.
  intros [Hl H]. split; [done|]. destruct (0 <? zlen data) eqn:E0; [|done]. bsplit.
  destruct H as (off & Ho & H). exists off. split; [done|].
  cbn [env_tail e_buf buf_tail buf_data]. set (d := buf_data (e_buf e)) in *.
  assert (zlen data <= zlen (zdrop off d)) as Hle.
  { rewrite <- H at 1. unfold ztake, zlen. rewrite length_take. lia. }
  destruct (decide (Z.to_nat off <= length d)%nat) as [Ho2|Ho2].
  - unfold zdrop in *. rewrite drop_app_le by done. by rewrite ztake_app_le.
  - unfold zdrop, zlen in Hle. rewrite drop_ge in Hle by lia. cbn [length] in Hle. unfold zlen in E0. lia.
Qed.

Definition res_of (e : http_env) : vtm_http_client_res :=
  mk_cres (version (shared (e_par e))) (res_status_code (msg (e_par e))) (res_status_msg (msg (e_par e)))
    (headers (shared (e_par e))) (body (shared (e_par e))) (body_len (shared (e_par e))).

(** A response in the buffer, parsed. *)
Lemma run_response_tail par ord stc len g p h :
  mode par = VTM_HTTP_PM_RESPONSE -> max_header_size par = VTM_HTTP_DEF_MAX_HEADER_SIZE ->
  max_body_size par = VTM_HTTP_DEF_MAX_BODY_SIZE -> answer_ok p -> zlen (answer_text p) <= 1024 ->
  let b := buf_tail g (received ord stc (answer_text p) len VTM_OK) in
  buf_ok b ->
  exists e, vtm_http_parser_run many printf_g all_ok (mk_env (vtm_http_parser_reset par) b h)
      = Some (VTM_NET_RECV_STAT_COMPLETE, e) /\
    response_is many printf_g p (e_buf e) (res_of e) /\
    (exists F, h ⊆ F /\ (distinct_fields (map as_field (answer_fields p)) -> F = h) /\
       sh_hdr_ok many printf_g (shared (e_par e)) (answer_headers p) F (e_heap e)) /\
    buf_ok (e_buf e) /\ buf_len (e_buf e) = len /\ buf_err (e_buf e) = VTM_OK /\
    buf_content (e_buf e) = leftover p /\ mode (e_par e) = VTM_HTTP_PM_RESPONSE /\
    max_header_size (e_par e) = VTM_HTTP_DEF_MAX_HEADER_SIZE /\ max_body_size (e_par e) = VTM_HTTP_DEF_MAX_BODY_SIZE.
Proof.
  intros Hm Hh Hbd Hp Hlen b Hb. pose proof (zlen_nonneg (answer_text p)).
  destruct (run_response many printf_g p [] par ord stc len VTM_OK h Hm Hp) as (e & E & Hpar & _ & HF & Hc & Hmo & Hmx & Hmy).
  { rewrite Hh, Hbd. unfold in_limits, VTM_HTTP_DEF_MAX_HEADER_SIZE, VTM_HTTP_DEF_MAX_BODY_SIZE. lia. }
  { rewrite app_nil_r. lia. }
  rewrite app_nil_r in E, Hc.
  pose proof (parser_run_tail many printf_g all_ok g _ _ _ E) as Erun.
  destruct (parser_run_keeps many printf_g all_ok (mk_env (vtm_http_parser_reset par) b h) _ _ Hb Erun)
    as (Hb' & (Ho & Hst & Hl & Hu & He & Hd & _) & _).
  exists (env_tail g e). split; [exact Erun|]. destruct Hpar as [P1 (off & P2 & P2') P3 P4 P5].
  split; [|split; [exact HF|split; [exact Hb'|]]].
  - constructor; try done. exists off. split; [done|]. by apply buf_str_tail.
    destruct (body_is_tail _ g _ P5) as [Q1 Q2]. by split.
  - cbn [env_tail e_buf] in *. split; [by rewrite Hl|]. split; [by rewrite He|].
    change (e_par (env_tail g e)) with (e_par e). rewrite Hmo, Hmx, Hmy. split; [|done]. rewrite <- Hc.
    unfold buf_content. cbn [buf_tail buf_data buf_used buf_read]. rewrite ztake_app_le; [done|].
    unfold b in Hd, Hu. cbn [env_tail e_buf buf_tail received buf_data buf_used] in Hd, Hu.
    rewrite !zlen_app in Hd. lia.
Qed.
(** The blocks of a response: those of its headers; without repeated names
    nothing else was allocated. *)
Definition response_owns (p : answer) (h : heap) (res : vtm_http_client_res) (h' : heap) : Prop :=
  exists F, h ⊆ F /\ (distinct_fields (map as_field (answer_fields p)) -> F = h) /\
    match cr_headers res with
    | None => answer_headers p = ∅ /\ heap_ok F [] h'
    | Some ds => hdr_ds many printf_g ds (answer_headers p) /\ heap_ok F (ds_owned ds) h'
    end.

(** A recv() of the text of an answer, with room for it. *)
Lemma client_recv_ok fuel cl k s p os h :
  client_idle cl [] -> hc_sock cl = Some (k, s) -> vts k = vt -> VTM_SOCKET_IS_CLOSED s = false ->
  answer_ok p -> zlen (answer_text p) <= 512 -> Forall is_byte (answer_text p) ->
  (forall len, 512 <= len -> exists os', sys_recv sys (s_fd s) len os = (inl (answer_text p), os')) ->
  exists res cl' s' os' h', vtm_http_client_recv many printf_g all_ok vts (S fuel) cl os h
      = Some (VTM_OK, Some res, cl', os', h') /\
    hc_sock cl' = Some (k, s') /\ VTM_SOCKET_IS_CLOSED s' = false /\ s_fd s' = s_fd s /\
    (exists len, 512 <= len /\ os' = (sys_recv sys (s_fd s) len os).2) /\
    client_idle cl' (leftover p) /\ hc_con_host cl' = hc_con_host cl /\ hc_con_port cl' = hc_con_port cl /\
    response_is many printf_g p (hc_recvbuf cl') res /\ response_owns p h res h'.
Proof.
  intros [Hb He Hc Hlen (Hm & Hmh & Hmb)] Hs Hvt Hopen Hp Hsz Hby Hrecv. pose proof (zlen_nonneg (answer_text p)).
  unfold vtm_http_client_recv.
  destruct (vtm_buf_discard_processed_spec _ Hb) as (Hb1 & Hc1 & Hr1 & _ & He1 & Hl1). set (b1 := vtm_buf_discard_processed _) in *.
  assert (buf_used b1 = 0) as Hu1 by (rewrite <- (content_used_len b1) by done; by rewrite Hc1, Hc).
  assert (VTM_BUF_GET_AVAIL_TOTAL b1 = 0) as -> by (unfold VTM_BUF_GET_AVAIL_TOTAL; by rewrite Hu1, Hr1).
  change (0 <? 0) with false. cbn [client_recv_loop]. cbn [hcl_recv hc_sock hc_recvbuf hc_parser]. rewrite Hs.
  cbn [mbind option_bind].
  destruct (ensure_512 b1) as (b2 & -> & Hb2 & He2 & Hr2 & Hu2 & Hc2 & Hl2); try done; [congruence|lia|lia|].
  change (negb (VTM_OK =? VTM_OK)) with false. cbn iota. rewrite Hvt.
  set (n := VTM_BUF_PUT_AVAIL_TOTAL b2).
  assert (512 <= n) as Hn.
  { subst n. unfold VTM_BUF_PUT_AVAIL_TOTAL. rewrite u64_small by (buf_sizes; unfold is_size, SIZE_MAX; lia). buf_sizes. lia. }
  assert (answer_text p <> []) as Hne by apply answer_text_ne.
  destruct (Hrecv n Hn) as (os' & Er).
  destruct (read_once sys ok rest s os n (answer_text p) os' Hopen Hne Er) as (s' & -> & Ho' & Hfd).
  change (negb (VTM_OK =? VTM_OK)) with false. cbn iota. set (x := answer_text p) in *.
  destruct (put_inc_spec b2 x Hb2 Hby) as (Ei & Hb3 & Hc3); [buf_sizes; lia|].
  rewrite Ei. set (b3 := buf_with_data _ _ _) in *. destruct (received_form b3 Hb3 Hr2) as (g & Eg).
  rewrite Hc3, Hc2, Hc1, Hc in Eg. change (buf_err b3) with (buf_err b2) in Eg. rewrite He2 in Eg. cbn [app] in Eg.
  cbn [hcl_con hcl_recv hc_recvbuf hc_parser]. rewrite Eg. rewrite Eg in Hb3.
  assert (zlen (answer_text p) <= 1024) as Hsz' by (unfold x in *; lia). subst x.
  destruct (run_response_tail (hc_parser cl) (buf_order b3) (buf_place b3) (buf_len b3) g p h Hm Hmh Hmb Hp
    Hsz' Hb3) as (e & -> & Hres & (F & HF & HFd & Hsh) & Hbe & Hle & Hee & Hce & Hmo).
  cbn [mbind option_bind hcl_recv hc_recvbuf hc_parser].
  exists (res_of e). eexists _, s', os', (e_heap e). split; [reflexivity|].
  cbn [hcl_recv hc_recvbuf hc_parser hc_sock hc_con_host hc_con_port]. split; [done|]. split; [done|]. split; [done|].
  split; [exists n; by rewrite Er|]. split.
  { constructor; cbn [hcl_recv hc_recvbuf hc_parser]; try done. by rewrite Hle. }
  split; [done|]. split; [done|]. split; [done|]. exists F. split; [done|]. split; [done|].
  destruct Hsh as [(E1 & E2 & E3)|(ds & E1 & _ & E2 & E3)]; cbn [res_of cr_headers]; rewrite E1; by split.
Qed.

Lemma must_close_ok cl k s req p b res h h' :
  hc_sock cl = Some (k, s) -> VTM_SOCKET_IS_CLOSED s = false ->
  response_is many printf_g p b res -> response_owns p h res h' ->
  exists res', vtm_http_client_con_must_close many printf_g cl req res
      = Some (client_closes (cq_version req) (con_header p), res') /\
    response_is many printf_g p b res' /\ response_owns p h res' h'.
Proof.
  intros Hs Hopen [R1 R2 R3 R4 R5] (F & HF & HFd & Ho). unfold vtm_http_client_con_must_close. rewrite Hs.
  cbn [mbind option_bind].
  assert (flag_any (vtm_socket_get_state s) VTM_SOCK_STAT_CLOSED = false) as ->.
  { unfold VTM_SOCK_STAT_CLOSED, vtm_socket_get_state. rewrite flag_any_bit by done. by rewrite <- is_closed_bit. }
  destruct (cr_headers res) as [ds|] eqn:Eh.
  - destruct Ho as [Hds Ho].
    destruct (hdr_get_string many printf_g F ds _ VTM_HTTP_HEADER_CONNECTION h' Hds) as (ds' & E & Hds' & Ho');
      [repeat constructor; lia|done|].
    unfold str_const. rewrite E. cbn [mbind option_bind]. eexists. split.
    { unfold client_closes. destruct (con_header p) as [v|]; cbn [negb]; [|done].
      destruct (vtm_str_casecmp v VTM_HTTP_VALUE_CLOSE =? 0); reflexivity. }
    split; [by constructor|]. by exists F.
  - destruct Ho as [Ha Ho]. cbn [mbind option_bind]. rewrite Ha, lookup_empty. exists res. split; [done|].
    split; [constructor; rewrite ?Eh; done|]. exists F. by rewrite Eh.
Qed.

(** Closing ends the connection. *)
Lemma con_close_none cl os : exists os', vtm_http_client_con_close vts cl os = (hcl_con None None 0 cl, os').
Proof. by eexists. Qed.

(** A whole exchange, once the connection is open. *)
Lemma exchange_ok fuel cl req url r p cl1 k s os os1 h :
  client_idle cl [] -> vtm_http_client_con_open vts sock_new cl req os = Some (VTM_OK, Some url, cl1, os1) ->
  hc_sock cl1 = Some (k, s) -> vts k = vt -> VTM_SOCKET_IS_CLOSED s = false ->
  sends_request printf_g req url r -> answer_ok p -> zlen (answer_text p) <= 512 -> Forall is_byte (answer_text p) ->
  (forall chunks len, concat chunks = request_text r -> Forall (fun c => c <> []) chunks -> 512 <= len ->
     exists os', sys_recv sys (s_fd s) len (sends sys (s_fd s) chunks os1) = (inl (answer_text p), os')) ->
  exists res cl' req' os' h', vtm_http_client_request many printf_g all_ok vts sock_new (S fuel) cl req os h
      = Some (VTM_OK, Some res, cl', req', os', h') /\
    client_idle cl' (leftover p) /\ response_is many printf_g p (hc_recvbuf cl') res /\ response_owns p h res h' /\
    (if client_closes (cq_version req) (con_header p) then hc_sock cl' = None /\ hc_con_host cl' = None
     else exists s', hc_sock cl' = Some (k, s') /\ VTM_SOCKET_IS_CLOSED s' = false /\ s_fd s' = s_fd s /\
       hc_con_host cl' = match hc_con_host cl1 with Some x => Some x | None => url_host url end /\
       hc_con_port cl' = match hc_con_host cl1 with Some _ => hc_con_port cl1 | None => url_port url end /\
       exists chunks len, concat chunks = request_text r /\ Forall (fun c => c <> []) chunks /\ 512 <= len /\
         os' = (sys_recv sys (s_fd s) len (sends sys (s_fd s) chunks os1)).2).
Proof.
  intros Hcl Hopen Hs Hvt Ho Hreq Hp Hsz Hby Hans. unfold vtm_http_client_request. rewrite Hopen.
  cbn [mbind option_bind]. change (negb (VTM_OK =? VTM_OK)) with false. cbn iota.
  destruct (con_open_keeps _ _ _ _ _ _ _ Hopen) as [Eb Ep].
  destruct (client_send_ok cl1 req url r s os1 k Hs Hvt Ho Hreq) as (sw & s1 & chunks & -> & Hc & Hne & Hfd1 & Ho1).
  cbn [mbind option_bind]. change (negb (VTM_OK =? VTM_OK)) with false. cbn iota.
  set (cl2 := hcl_writer _ _).
  assert (client_idle cl2 []) as Hcl2 by (destruct Hcl; constructor; cbn; by rewrite ?Eb, ?Ep).
  destruct (client_recv_ok fuel cl2 k s1 p (sends sys (s_fd s) chunks os1) h Hcl2 eq_refl Hvt Ho1 Hp Hsz Hby)
    as (res & cl3 & s2 & os3 & h3 & -> & Hs3 & Ho3 & Hfd3 & (len & Hlen & Eos) & Hi3 & Eh3 & Ept3 & Hr3 & How3).
  { intros len Hlen. rewrite Hfd1. by apply Hans. }
  cbn [mbind option_bind]. change (VTM_OK =? VTM_OK) with true. cbn iota.
  set (req' := mk_creq _ _ _ _ _ _).
  destruct (must_close_ok cl3 k s2 req' p (hc_recvbuf cl3) res h h3 Hs3 Ho3 Hr3 How3) as (res' & -> & Hr' & How').
  cbn [mbind option_bind]. change (cq_version req') with (cq_version req).
  change (hc_con_host cl2) with (hc_con_host cl1) in Eh3. change (hc_con_port cl2) with (hc_con_port cl1) in Ept3.
  destruct (client_closes (cq_version req) (con_header p)).
  - destruct (con_close_none cl3 os3) as (os4 & ->). eexists res', _, req', os4, h3. split; [reflexivity|].
    split; [by destruct Hi3; constructor|]. by split.
  - eexists res', _, req', os3, h3. split; [reflexivity|]. rewrite Hfd1 in Hfd3.
    assert (exists s', hc_sock cl3 = Some (k, s') /\ VTM_SOCKET_IS_CLOSED s' = false /\ s_fd s' = s_fd s) as Hx by by exists s2.
    destruct Hx as (s' & Hs' & Ho' & Hfd'). rewrite Eh3.
    destruct (hc_con_host cl1) eqn:Ec; (split; [by destruct Hi3; constructor|]; split; [done|]; split; [done|];
      exists s'; cbn [hcl_con hc_sock hc_con_host hc_con_port]; split; [done|]; split; [done|]; split; [done|];
      rewrite ?Eh3, ?Ept3; split; [done|]; split; [done|];
      exists chunks, len; rewrite Eos, Hfd1; done).
Qed.

(** What does not begin with the letter H is no response. *)
Lemma run_no_response par ord stc c l len err g h :
  mode par = VTM_HTTP_PM_RESPONSE -> max_header_size par = VTM_HTTP_DEF_MAX_HEADER_SIZE ->
  max_body_size par = VTM_HTTP_DEF_MAX_BODY_SIZE -> is_byte c -> c <> 72 -> zlen (c :: l) < 2 ^ 63 ->
  exists e, vtm_http_parser_run many printf_g all_ok
      (mk_env (vtm_http_parser_reset par) (buf_tail g (received ord stc (c :: l) len err)) h)
    = Some (VTM_NET_RECV_STAT_INVALID, e).
Proof.
  intros Hm Hh Hb Hc Hne Hl. eexists.
  apply (parser_run_tail many printf_g all_ok g (mk_env (vtm_http_parser_reset par) (received ord stc (c :: l) len err) h)).
  rewrite run_received by done. rewrite Hm, Hh, Hb.
  assert (in_limits VTM_HTTP_DEF_MAX_HEADER_SIZE VTM_HTTP_DEF_MAX_BODY_SIZE []) as Hlim by done.
  rewrite RUN_EV by done. unfold http_eval_fuel.
  rewrite (EV_goto many printf_g VTM_HTTP_PM_RESPONSE _ _ ord stc len _ err 4 VTM_HTTP_PARSE_BEGIN 0 reset_msg reset_shared
    reset_intl [] c l h ltac:(lia) VTM_HTTP_PARSE_VERSION_H 1 reset_msg reset_shared reset_intl h) by done.
  unfold nrm. rewrite decide_True by done.
  eapply (EV_return many printf_g VTM_HTTP_PM_RESPONSE _ _ ord stc len _ err 3 VTM_HTTP_PARSE_VERSION_H 0 reset_msg reset_shared
    reset_intl [] c l h ltac:(lia)).
  assert (i8 c <> 72) as Hi.
  { unfold is_byte, i8, swrap in *. change (2 ^ (8 - 1)) with 128. change (2 ^ 8) with 256.
    destruct (decide (c < 128)); [rewrite Z.mod_small by lia; lia|].
    replace (c + 128) with (c - 128 + 1 * 256) by lia. rewrite Z.mod_add, Z.mod_small by lia. lia. }
  sw. unfold http_version_literal, expect. atb. rewrite (proj2 (Z.eqb_neq (i8 c) 72)) by done. reflexivity.
Qed.

(** A request with a byte left in the buffer. *)
Lemma recv_leftover fuel cl k s c os h :
  client_idle cl [c] -> hc_sock cl = Some (k, s) -> is_byte c -> c <> 72 ->
  exists cl' h', vtm_http_client_recv many printf_g all_ok vts (S fuel) cl os h
      = Some (VTM_ERROR, None, cl', os, h') /\ hc_sock cl' = Some (k, s).
Proof.
  intros [Hb He Hc Hlen (Hm & Hmh & Hmb)] Hs Hby Hne. unfold vtm_http_client_recv.
  destruct (vtm_buf_discard_processed_spec _ Hb) as (Hb1 & Hc1 & Hr1 & _ & He1 & Hl1). set (b1 := vtm_buf_discard_processed _) in *.
  assert (buf_used b1 = 1) as Hu1 by (rewrite <- (content_used_len b1) by done; by rewrite Hc1, Hc).
  assert (VTM_BUF_GET_AVAIL_TOTAL b1 = 1) as -> by (unfold VTM_BUF_GET_AVAIL_TOTAL; by rewrite Hu1, Hr1).
  change (0 <? 1) with true. cbn [client_recv_loop hcl_recv hc_sock hc_recvbuf hc_parser]. rewrite Hs.
  cbn [mbind option_bind]. destruct (received_form b1 Hb1 Hr1) as (g & Eg). rewrite Hc1, Hc in Eg. rewrite Eg.
  cbn [hcl_recv hc_recvbuf hc_parser].
  destruct (run_no_response (hc_parser cl) (buf_order b1) (buf_place b1) c [] (buf_len b1) (buf_err b1) g h Hm Hmh Hmb
    Hby Hne ltac:(done)) as (e & ->). cbn [mbind option_bind]. by eexists _, _.
Qed.

(** Defect.  The last byte of a body of announced length stays in the buffer
    of the client (see [http_client_served]); if the connection is kept, the
    next request over it is sent, and then this byte is taken for the beginning
    of its response.  Unless it is the letter H, the request ends with
    VTM_ERROR, whatever the server answers: nothing is received and the
    connection is closed (net/http/http_client.c, vtm_http_client_recv). *)
Theorem http_client_next_fails fuel cl k s req url r c os h
    (Hcl : client_idle cl [c]) (Hbyte : is_byte c) (Hc : c <> 72)
    (Hs : hc_sock cl = Some (k, s)) (Hvt : vts k = vt) (Hopen : VTM_SOCKET_IS_CLOSED s = false)
    (Hurl : vtm_url_parse (cq_url req) = (VTM_OK, Some url))
    (Hhost : hc_con_host cl = url_host url) (Hport : hc_con_port cl = url_port url)
    (Hreq : sends_request printf_g req url r) :
  exists cl' req' os' h', vtm_http_client_request many printf_g all_ok vts sock_new (S fuel) cl req os h
      = Some (VTM_ERROR, None, cl', req', os', h') /\ hc_sock cl' = None.
Proof.
  destruct (sr_fields _ _ _ _ Hreq) as (host & fs & Eh & _).
  assert (vtm_http_client_con_open vts sock_new cl req os = Some (VTM_OK, Some url, cl, os)) as Eo.
  { unfold vtm_http_client_con_open. rewrite Hurl. change (negb (VTM_OK =? VTM_OK)) with false. cbn iota.
    rewrite Hs, Hport, Z.eqb_refl, Hhost, Eh. cbn [mbind option_bind].
    assert (strcmp_eq host host = true) as -> by by apply bool_decide_eq_true. done. }
  unfold vtm_http_client_request. rewrite Eo. cbn [mbind option_bind].
  change (negb (VTM_OK =? VTM_OK)) with false. cbn iota.
  destruct (client_send_ok cl req url r s os k Hs Hvt Hopen Hreq) as (sw & s1 & chunks & -> & _ & _ & _ & Ho1).
  cbn [mbind option_bind]. change (negb (VTM_OK =? VTM_OK)) with false. cbn iota.
  set (cl2 := hcl_writer _ _).
  assert (client_idle cl2 [c]) as Hcl2 by (destruct Hcl; by constructor).
  destruct (recv_leftover fuel cl2 k s1 c (sends sys (s_fd s) chunks os) h Hcl2 eq_refl Hbyte Hc) as (cl3 & h3 & -> & _).
  cbn [mbind option_bind]. change (VTM_ERROR =? VTM_OK) with false. cbn iota. cbn [mbind option_bind].
  destruct (con_close_none cl3 (sends sys (s_fd s) chunks os)) as (os4 & ->).
  eexists _, _, os4, h3. split; [reflexivity|]. done.
Qed.

(** Pieces that fit, then one that does not. *)
Lemma puts_overflow bd post : forall pre sw s os,
  sw_lrc sw = VTM_OK -> Forall (fun p => zlen p <= SW_BUF_SIZE) pre -> zlen (sw_buf sw) <= SW_BUF_SIZE ->
  VTM_SOCKET_IS_CLOSED s = false -> SW_BUF_SIZE < zlen bd < 2 ^ 63 ->
  writer_puts vt (pre ++ bd :: post) sw s os = None.
Proof.
  induction pre as [|p pre IH]; intros sw s os Hl Hp Hb Hopen Hbd; cbn [app writer_puts].
  - unfold vtm_socket_writer_putm, vtm_socket_writer_ensure_space. rewrite Hl.
    change (negb (VTM_OK =? VTM_OK)) with false. cbn iota. pose proof (zlen_nonneg (sw_buf sw)). unfold SW_BUF_SIZE in *.
    rewrite u64_small by (unfold is_size, SIZE_MAX; lia). rewrite (proj2 (Z.leb_le 1024 _)) by lia.
    destruct (flush_sends sys ok rest sw s os Hl Hopen) as (s' & chunks & -> & _). cbn [mbind option_bind sw_buf].
    change (negb (VTM_OK =? VTM_OK)) with false. cbn iota. change (zlen (A:=Z) []) with 0.
    by rewrite (proj2 (Z.ltb_lt _ _)) by lia.
  - apply Forall_cons in Hp as [Hp Hps].
    destruct (putm_sends sys ok rest sw p s os Hl Hp Hb Hopen) as (buf & s1 & c1 & -> & _ & Hb1 & _ & _ & Ho1).
    cbn [mbind option_bind]. by apply IH.
Qed.

Lemma uint64_digits v : 0 <= v < 2 ^ 64 -> zlen (vtm_fmt_uint64 true v).2 <= 20.
Proof.
  intros Hv. unfold vtm_fmt_uint64. cbn [negb snd].
  destruct (count_dec_spec fmt_fuel v 1) as (k & -> & Hk & Hlt & Hge); [unfold fmt_fuel; lia|].
  assert (k <= 19) as Hk19.
  { destruct Hge as [->|Hge]; [lia|]. destruct (decide (k <= 19)); [done|].
    assert (10 ^ 20 <= 10 ^ k) by (apply Z.pow_le_mono_r; lia). lia. }
  destruct (write_dec_spec (Z.to_nat (1 + k)) v []) as (ds & -> & Hl & _).
  { rewrite Z2Nat.id by lia. replace (1 + k) with (k + 1) by lia. lia. }
  rewrite app_nil_r. unfold zlen. lia.
Qed.

(** Defect.  A body that does not fit into the array of the writer is copied
    over its end (net/http/http_client.c, vtm_http_client_send; net/socket_writer.c):
    on an open connection whose peer takes what it is sent, a request whose head
    fits and whose body has more than 1024 bytes has no defined behaviour. *)
Theorem http_client_body_overflow cl req url s k os method path host
    (Hs : hc_sock cl = Some (k, s)) (Hvt : vts k = vt) (Hopen : VTM_SOCKET_IS_CLOSED s = false)
    (Hm : method_string (cq_method req) = Some method) (Hpath : url_path url = Some path)
    (Hhost : url_host url = Some host) (Hhd : cq_headers req = None)
    (Hsmall : zlen method <= SW_BUF_SIZE /\ zlen path <= SW_BUF_SIZE /\ zlen host <= SW_BUF_SIZE)
    (Hbody : SW_BUF_SIZE < zlen (default [] (cq_body req)) < 2 ^ 63) :
  vtm_http_client_send many printf_g vts cl req url os = None.
Proof.
  unfold vtm_http_client_send. rewrite Hs, Hm, Hpath, Hhost, Hhd. cbn [mbind option_bind]. rewrite Hvt.
  assert (vtm_http_get_version_string (cq_version req) = Some (version_text (cq_version req))) as -> by by destruct (cq_version req).
  cbn [mbind option_bind fmap option_fmap option_map]. set (bd := default [] _) in *. unfold SW_BUF_SIZE in *.
  rewrite (proj2 (Z.ltb_lt 0 (zlen bd))) by lia. cbn [mbind option_bind field_pieces map concat app].
  set (n := vtm_fmt_uint64 true _). assert (zlen n.2 <= 20) as Hn.
  { subst n. rewrite u64_small by (unfold is_size, SIZE_MAX; lia). apply uint64_digits. lia. }
  match goal with |- context [writer_puts vt ?l _ _ _] => set (pieces := l) end.
  destruct Hsmall as (H1 & H2 & H3).
  assert (exists pre, pieces = pre ++ bd :: [] /\ Forall (fun p => zlen p <= 1024) pre) as (pre & -> & Hpre).
  { exists (take 14 pieces). split; [done|]. unfold pieces. cbn [take].
    repeat (apply Forall_cons_2; [first [done|exact H1|exact H2|exact H3|by destruct (cq_version req)|cbn [fst snd]; lia|by vm_compute]|]).
    apply Forall_nil_2. }
  by rewrite (puts_overflow bd [] pre (vtm_socket_writer_reset (hc_writer cl)) s os eq_refl Hpre).
Qed.
End Exchange.

(** ** The server as the peer

    The network of a client whose peer is a worker of the HTTP server: what the
    client sends waits for the server, and when the client receives, the worker
    handles the event and the client gets what it has sent. *)

Section Served.
Context (printf_g : Z -> bytes) (cbs : vtm_http_srv_cbs) (time_now : Z) (now : c_tm) (junk_ws : vtm_ws_parser).
Abbreviation world := (http_io mailbox).
Abbreviation many := (fun _ : Z => true).
Abbreviation srv_vt := (vtm_socket_plain_vtable mailbox_sys true mailbox_vtable).
Abbreviation can_read := (vtm_http_srv_sock_can_read rich printf_g cbs time_now now junk_ws srv_vt).
Implicit Types (w : world) (cl : vtm_http_client).

Definition with_mailbox (m : mailbox) w : world := mk_io (io_sock w) m (io_con w) (io_res w) (io_heap w).

(** Two rounds of the loop: a request, and the one that finds nothing more. *)
Definition world_sys : sys_net world :=
  mk_sys (fun fd src w => (inl (zlen src), with_mailbox (mk_mailbox (mb_inbox (io_os w) ++ src) (mb_wire (io_os w))) w))
    (fun fd len w =>
       match can_read 2 w with
       | None => (inr EPROTO, w)
       | Some w =>
           match mb_wire (io_os w) with
           | [] => (inr EAGAIN, w)
           | wire => (inl (ztake len wire), with_mailbox (mk_mailbox (mb_inbox (io_os w)) (zdrop len wire)) w)
           end
       end)
    (fun fd w => (inr EAGAIN, w)) (fun fd dir w => (None, w)) (fun fd w => w).

#[export] Instance world_takes : TakesAll world_sys.
Proof. done. Qed.

Definition world_rest : vtm_socket_vtable world unit :=
  let r s (w : world) := (VTM_OK, s, w) in
  mk_vtable (fun _ _ => r) (fun _ => r) (fun s w => (VTM_OK, None, s, w)) (fun _ _ => r)
    (fun _ => r) r (fun src s w => Some (VTM_OK, zlen src, s, w)) (fun _ s w => (VTM_OK, [], s, w))
    (fun _ s w => (VTM_OK, [], tt, s, w)) (fun src _ s w => (VTM_OK, zlen src, s, w))
    (fun _ _ => r) (fun _ s w => (VTM_OK, 0, s, w)) (fun s w => (VTM_OK, tt, s, w)).
Definition world_vt (k : vtm_url_scheme) : vtm_socket_vtable world unit :=
  vtm_socket_plain_vtable world_sys true world_rest.

(** A new socket, connected to the worker. *)
Definition world_new (k : vtm_url_scheme) (no_check : bool) (fam : Z) w : (vtm_socket + Z) * world :=
  (inl (mk_sock 5 fam 0 false VTM_SOCK_STAT_DEFAULT 0 0), w).

Lemma world_sends fd chunks : forall w,
  sends world_sys fd chunks w
  = with_mailbox (mk_mailbox (mb_inbox (io_os w) ++ concat chunks) (mb_wire (io_os w))) w.
Proof.
  induction chunks as [|c chunks IH]; intros w; unfold sends; cbn [fold_left concat].
  - rewrite app_nil_r. destruct w as [s [i o] c r h]. done.
  - change (fold_left _ chunks ?x) with (sends world_sys fd chunks x). rewrite IH. cbn. by rewrite <- app_assoc.
Qed.

Context (reply_to : http_request -> reply) (dt : bytes).
Hypothesis Hdt : is_line dt.
Hypothesis Hdate : vtm_http_fmt_date VTM_HTTP_DATE_LEN (vtm_date_now_utc time_now now).2 = Some (VTM_OK, dt).
Hypothesis Hreply : forall r req, req_view r req -> cb_http_request cbs req = prog_reply (reply_to r).
Abbreviation answer_to r := (reply_answer dt r (reply_to r)).

(** The server between two requests, with nothing on the way. *)
Definition server_idle w : Prop := io_serving w [] /\ mb_inbox (io_os w) = [] /\ mb_wire (io_os w) = [].

(** What became of the server when it has answered [r]. *)
Definition server_after (r : http_request) w w' : Prop :=
  match an_act (answer_to r) with
  | VTM_HTTP_RES_ACT_KEEP_CON => server_idle w'
  | _ => VTM_SOCKET_IS_CLOSED (io_sock w') = true
  end /\ io_heap w ⊆ io_heap w' /\ (distinct_fields (r_fields r) -> io_heap w' = io_heap w).

Lemma world_recv r w fd chunks len :
  server_idle w -> bodyless r -> reply_ok (reply_to r) -> zlen (request_text r) <= 1024 ->
  Forall is_byte (request_text r) -> zlen (answer_text (answer_to r)) <= len -> concat chunks = request_text r ->
  exists w', sys_recv world_sys fd len (sends world_sys fd chunks w) = (inl (answer_text (answer_to r)), w') /\
    server_after r w w'.
Proof.
  intros (Hw & Hin & Hwire) Hr Hrep Hlen Hby Hans Hc. rewrite world_sends, Hc, Hin, Hwire. cbn [app].
  set (w0 := with_mailbox _ w).
  assert (io_serving w0 []) as Hw0 by exact Hw.
  destruct (serve_all mailbox_sys (fun _ os => mb_wire os) (fun _ os => mb_inbox os) true mailbox_vtable printf_g cbs
    time_now now dt junk_ws reply_to Hdt Hdate Hreply [r] 2 w0 [] Hw0)
    as (w1 & E & Hs & Hcl & Hserv & Hsub & Hd).
  { cbn [map concat app]. by rewrite app_nil_r. }
  { cbn [map concat app]. by rewrite app_nil_r. }
  { exact Hby. }
  { by apply Forall_cons_2. }
  { cbn. lia. }
  cbn [sys_recv world_sys]. rewrite E.
  assert ((serve_spec (map (fun r => answer_to r) [r])).1 = answer_text (answer_to r) /\
    (serve_spec (map (fun r => answer_to r) [r])).2
    = match an_act (answer_to r) with VTM_HTTP_RES_ACT_KEEP_CON => false | _ => true end) as [E1 E2].
  { cbn [map serve_spec]. destruct (an_act (answer_to r)); try done. cbn [fst snd]. by rewrite app_nil_r. }
  rewrite E1 in Hs. rewrite E2 in Hcl, Hserv. cbn in Hs. rewrite Hs.
  destruct (answer_text (answer_to r)) as [|c l] eqn:Et; [by apply answer_text_ne in Et|]. rewrite ztake_all by done.
  eexists. split; [reflexivity|]. split; [|split; [exact Hsub|intros Hdf; apply Hd; by apply Forall_cons_2]].
  destruct (an_act (answer_to r)); try exact Hcl.
  destruct (Hserv eq_refl) as [Hs1 Hi1]. split; [exact Hs1|]. split; [exact Hi1|]. by apply zdrop_all.
Qed.

(** A client without a connection, or with one to the host of the URL. *)
Definition client_links cl (url : vtm_url) : Prop :=
  match hc_sock cl with
  | None => hc_con_host cl = None
  | Some (k, s) => VTM_SOCKET_IS_CLOSED s = false /\ hc_con_host cl = url_host url /\ hc_con_port cl = url_port url
  end.

Lemma world_open cl req url host w :
  vtm_url_parse (cq_url req) = (VTM_OK, Some url) -> url_host url = Some host -> client_links cl url ->
  exists cl1 k s, vtm_http_client_con_open world_vt world_new cl req w = Some (VTM_OK, Some url, cl1, w) /\
    hc_sock cl1 = Some (k, s) /\ VTM_SOCKET_IS_CLOSED s = false /\
    (hc_con_host cl1 = None \/ hc_con_host cl1 = url_host url /\ hc_con_port cl1 = url_port url).
Proof.
  intros Hurl Hhost Hl. unfold vtm_http_client_con_open. rewrite Hurl.
  change (negb (VTM_OK =? VTM_OK)) with false. cbn iota. unfold client_links in Hl.
  destruct (hc_sock cl) as [[k s]|] eqn:Es.
  - destruct Hl as (Ho & Eh & Ep). rewrite Ep, Z.eqb_refl, Eh, Hhost. cbn [mbind option_bind].
    assert (strcmp_eq host host = true) as -> by by apply bool_decide_eq_true. cbn iota. rewrite <- Hhost, <- Eh.
    exists cl, k, s. split; [done|]. split; [done|]. split; [done|]. right. by rewrite Eh.
  - cbn [mbind option_bind]. unfold world_new at 1. set (s := mk_sock 5 _ _ _ _ _ _).
    assert ((if 0 <? hc_opt_timeout cl
      then vtm_socket_set_opt (world_vt (url_scheme url)) VTM_SOCK_OPT_RECV_TIMEOUT (Some (hc_opt_timeout cl)) s w
      else (VTM_OK, s, w)) = (VTM_OK, s, w)) as -> by by destruct (0 <? hc_opt_timeout cl).
    change (negb (VTM_OK =? VTM_OK)) with false. cbn iota. rewrite Hhost. cbn [mbind option_bind].
    eexists _, _, _. split; [reflexivity|]. cbn [hcl_con hc_sock hc_con_host]. split; [done|]. split; [done|]. by left.
Qed.

(** C3: client and server of the library understand each other
    (net/http/http_client.c, vtm_http_client_request, and
    net/http/http_server.c, vtm_http_srv_sock_can_read, with everything below:
    URL, writer, parser, response, emitter, sockets).  The peer of the client is
    a worker of the server, which handles its event when the client receives.
    The request [r] is the one that the client was asked for, without a body;
    the application of the server replies to it with a sequence of calls; what
    goes over the wire fits into one read on each side; the client has no
    connection, or one to the host of the URL.  Then the request ends with
    VTM_OK and the response says exactly what the application of the server
    said: version, status, phrase, headers, body.  What the headers own can be
    released.  The server is ready for the next request or has closed; the
    client has closed its connection if the answer or the version say so, and
    otherwise keeps it for its next request.  Only the last byte of the body of
    a response with fixed length stays in its buffer. *)
Theorem http_client_served fuel cl req url r w h
    (Hcl : client_idle cl []) (Hlinks : client_links cl url)
    (Hurl : vtm_url_parse (cq_url req) = (VTM_OK, Some url))
    (Hreq : sends_request printf_g req url r) (Hsrv : server_idle w)
    (Hr : bodyless r) (Hrep : reply_ok (reply_to r)) (Hok : answer_ok (answer_to r))
    (Hlen : zlen (request_text r) <= 1024) (Hby : Forall is_byte (request_text r))
    (Halen : zlen (answer_text (answer_to r)) <= 512) (Haby : Forall is_byte (answer_text (answer_to r))) :
  exists res cl' req' w' h',
    vtm_http_client_request many printf_g all_ok world_vt world_new (S fuel) cl req w h
      = Some (VTM_OK, Some res, cl', req', w', h') /\
    response_is many printf_g (answer_to r) (hc_recvbuf cl') res /\
    (exists F, vtm_http_client_res_release res h' = Some F /\ h ⊆ F /\
       (distinct_fields (map as_field (answer_fields (answer_to r))) -> F = h)) /\
    client_idle cl' (leftover (answer_to r)) /\ client_links cl' url /\
    if client_closes (cq_version req) (con_header (answer_to r)) then hc_sock cl' = None
    else server_after r w w'.
Proof.
  destruct (sr_fields _ _ _ _ Hreq) as (host & fs & Hhost & _).
  destruct (world_open cl req url host w Hurl Hhost Hlinks) as (cl1 & k & s & Hopen & Hs & Ho & Hh).
  destruct (exchange_ok world_sys true world_rest world_vt world_new printf_g fuel cl req url r (answer_to r) cl1 k s w w h
    Hcl Hopen Hs eq_refl Ho Hreq Hok Halen Haby) as (res & cl' & req' & w' & h' & E & Hi & Hres & Hown & Hend).
  { intros chunks len Hc _ Hl. destruct (world_recv r w (s_fd s) chunks len) as (w' & Er & _); try done; [lia|].
    by exists w'. }
  exists res, cl', req', w', h'. split; [exact E|]. split; [done|]. split; [|split; [done|]].
  { destruct Hown as (F & HF & HFd & Ho'). exists F. split; [|done]. unfold vtm_http_client_res_release.
    destruct (cr_headers res) as [ds|].
    - destruct Ho' as [(Hw & _) Ho']. unfold vtm_dataset_free, vtm_dataset_release.
      by destruct (ds_clear_ok many printf_g F ds h' Hw Ho') as (ds' & -> & _).
    - destruct Ho' as [_ (_ & _ & ->)]. cbn. f_equal. set_solver. }
  destruct (client_closes (cq_version req) (con_header (answer_to r))).
  - destruct Hend as [E1 E2]. unfold client_links. by rewrite E1.
  - destruct Hend as (s' & E1 & E2 & E3 & E4 & E5 & chunks & len & Hc & _ & Hl & ->). split.
    + unfold client_links. rewrite E1. split; [done|]. rewrite E4, E5.
      destruct Hh as [-> | [Eh Ep]]; [done|]. rewrite Eh, Hhost. by rewrite Ep.
    + destruct (world_recv r w (s_fd s) chunks len) as (w2 & Er & Haft); try done; [lia|]. by rewrite Er.
Qed.
End Served.

(** ** A concrete exchange *)

Definition echo_url : bytes := cstr_of "http://h.org/idx?a=1"%string.
Definition echo_client_req : vtm_http_client_req :=
  mk_creq VTM_HTTP_METHOD_GET VTM_HTTP_VER_1_1 0 echo_url None None.
Definition echo_client : vtm_http_client :=
  mk_hcl None (mk_writer [] 0) (vtm_buf_init VTM_BYTEORDER_LE) (vtm_http_parser_init junk_http VTM_HTTP_PM_RESPONSE)
    None 0 0 0.
Definition echo_world : http_io mailbox :=
  (vtm_http_srv_con_create junk_http true
     (mk_io demo_sock (mk_mailbox [] []) None (vtm_http_srv_worker_init true VTM_BYTEORDER_LE 0) ∅)).2.
Definition echo_answer : answer := reply_answer demo_date test_request (echo_reply (r_path test_request)).

Lemma echo_answer_ok : answer_ok echo_answer.
Proof.
  constructor; [split; by vm_compute| | | |done].
  - apply const_field_ok. by vm_compute.
  - constructor.
  - intros _. repeat constructor; discriminate.
Qed.

Lemma echo_sends : sends_request (fun _ => []) echo_client_req
    (mk_url VTM_URL_SCHEME_HTTP (Some (cstr_of "h.org"%string)) (Some (cstr_of "/idx?a=1"%string)) 80) test_request.
Proof.
  constructor; try done.
  exists (cstr_of "h.org"%string), []. done.
Qed.

Lemma http_client_served_witness :
  exists res cl' req' w' h',
    vtm_http_client_request (fun _ => true) (fun _ => []) all_ok
      (world_vt (fun _ => []) echo_cbs 1541322307 demo_tm junk_ws) world_new 1 echo_client echo_client_req echo_world ∅
      = Some (VTM_OK, Some res, cl', req', w', h') /\
    cr_status_code res = 200 /\ cr_body_len res = 5 /\ io_heap w' = ∅.
Proof.
  destruct (http_client_served (fun _ => []) echo_cbs 1541322307 demo_tm junk_ws (fun r => echo_reply (r_path r)) demo_date)
    with (fuel := 0%nat) (cl := echo_client) (req := echo_client_req) (r := test_request) (w := echo_world) (h := (∅ : heap))
      (url := mk_url VTM_URL_SCHEME_HTTP (Some (cstr_of "h.org"%string)) (Some (cstr_of "/idx?a=1"%string)) 80)
    as (res & cl' & req' & w' & h' & E & Hres & _ & _ & _ & Hend).
  - apply (bool_decide_unpack _). by vm_compute.
  - exact demo_date_text.
  - intros r req Hv. unfold echo_cbs. cbn [cb_http_request]. by rewrite (rv_path _ _ Hv).
  - by apply (client_new_idle (mk_writer [] 0) junk_http).
  - reflexivity.
  - by vm_compute.
  - exact echo_sends.
  - split; [|done]. split; [done|]. split; [|eexists; split; [reflexivity|]; split; apply buf_init_ok].
    eexists. split; [reflexivity|]. by apply (con_new_waits junk_http).
  - apply bodyless_test.
  - apply echo_reply_ok, (bool_decide_unpack _). by vm_compute.
  - exact echo_answer_ok.
  - by vm_compute.
  - apply (bool_decide_unpack _). by vm_compute.
  - by vm_compute.
  - apply (bool_decide_unpack _). by vm_compute.
  - exists res, cl', req', w', h'. split; [exact E|]. split; [exact (ri_code _ _ _ _ _ Hres)|].
    split; [apply (proj1 (ri_body _ _ _ _ _ Hres))|].
    assert (client_closes (cq_version echo_client_req)
      (answer_headers (reply_answer demo_date test_request (echo_reply (r_path test_request)))
         !! map tolower VTM_HTTP_HEADER_CONNECTION) = false) as Hc by by vm_compute.
    rewrite Hc in Hend. apply (proj2 (proj2 Hend)). apply (bool_decide_unpack _). by vm_compute.
Defined.

(** A client that has got a fixed body before: its last byte is left. *)
Definition leftover_client : vtm_http_client :=
  mk_hcl (Some (VTM_URL_SCHEME_HTTP, demo_sock)) (mk_writer [] 0)
    (mk_buf VTM_BYTEORDER_LE InArray [33] 1024 1 0 VTM_OK) (vtm_http_parser_init junk_http VTM_HTTP_PM_RESPONSE)
    (Some (cstr_of "h.org"%string)) 80 0 0.

#[local] Instance mailbox_takes : TakesAll mailbox_sys.
Proof. done. Qed.

Lemma http_client_next_fails_witness :
  exists cl' req' os' h', vtm_http_client_request (fun _ => true) (fun _ => []) all_ok
      (fun _ => vtm_socket_plain_vtable mailbox_sys true mailbox_vtable) (fun _ _ _ os => (inr VTM_ERROR, os)) 1
      leftover_client echo_client_req (mk_mailbox (answer_text echo_answer) []) ∅
    = Some (VTM_ERROR, None, cl', req', os', h') /\ hc_sock cl' = None.
Proof.
  apply (http_client_next_fails mailbox_sys true mailbox_vtable
    (fun _ => vtm_socket_plain_vtable mailbox_sys true mailbox_vtable) (fun _ _ _ os => (inr VTM_ERROR, os)) (fun _ => [])
    0 leftover_client VTM_URL_SCHEME_HTTP demo_sock echo_client_req
    (mk_url VTM_URL_SCHEME_HTTP (Some (cstr_of "h.org"%string)) (Some (cstr_of "/idx?a=1"%string)) 80) test_request 33);
    try reflexivity.
  - constructor; try done. constructor; cbn; try done; try lia. exists 10. by split. by repeat constructor.
  - unfold is_byte. lia.
  - discriminate.
  - exact echo_sends.
Defined.

Lemma http_client_body_overflow_witness :
  vtm_http_client_send (fun _ => true) (fun _ => []) (fun _ => vtm_socket_plain_vtable mailbox_sys true mailbox_vtable)
    leftover_client (mk_creq VTM_HTTP_METHOD_POST VTM_HTTP_VER_1_1 0 echo_url None (Some (replicate 1025 120)))
    (mk_url VTM_URL_SCHEME_HTTP (Some (cstr_of "h.org"%string)) (Some (cstr_of "/idx"%string)) 80) (mk_mailbox [] []) = None.
Proof.
  apply (http_client_body_overflow mailbox_sys true mailbox_vtable
    (fun _ => vtm_socket_plain_vtable mailbox_sys true mailbox_vtable) (fun _ => []) leftover_client)
    with (s := demo_sock) (k := VTM_URL_SCHEME_HTTP) (method := cstr_of "POST"%string) (path := cstr_of "/idx"%string)
      (host := cstr_of "h.org"%string); try reflexivity.
  - split; [|split]; vm_compute; discriminate.
  - split; vm_compute; reflexivity.
Defined.

(** ** The WebSocket client at the end of a stream *)

(** C37: Defect.  The enumerator VTM_NET_RECV_STAT_ERROR, which the WebSocket
    client returns when it cannot read, has the value of VTM_OK
    (net/http/ws_client.c, vtm_ws_client_recv; net/common.h).  So when the peer
    ends the connection, or reading fails in another way, the call reports
    success, although no message was stored: the caller looks at a message that
    was never written. *)
Theorem ws_client_error_is_ok {OS SA} (vt : vtm_url_scheme -> vtm_socket_vtable OS SA) fuel cl k s s' os os' rc
    (Hs : wl_sock cl = Some (k, s)) (Hb : buf_ok (wl_recvbuf cl)) (He : buf_err (wl_recvbuf cl) = VTM_OK)
    (Hc : buf_content (wl_recvbuf cl) = []) (Hr : buf_read (wl_recvbuf cl) = 0) (Hl : buf_len (wl_recvbuf cl) <= 2048)
    (Hread : forall len, vtm_socket_read (vt k) len s os = (rc, [], s', os'))
    (Hrc : rc <> VTM_OK) (Hag : rc <> VTM_E_IO_AGAIN) :
  exists cl', vtm_ws_client_recv (fun _ => true) vt (S fuel) cl os = Some (VTM_OK, None, cl', os').
Proof.
  unfold vtm_ws_client_recv. rewrite Hs.
  assert (buf_used (wl_recvbuf cl) = 0) as Hu by (rewrite <- content_used_len by done; by rewrite Hc).
  assert (VTM_BUF_GET_AVAIL_TOTAL (wl_recvbuf cl) = 0) as -> by (unfold VTM_BUF_GET_AVAIL_TOTAL; by rewrite Hu, Hr).
  change (0 <? 0) with false. cbn [ws_client_recv_loop]. rewrite Hs. cbn [mbind option_bind].
  destruct (ensure_512 (wl_recvbuf cl)) as (b2 & -> & _); try done; [lia|].
  change (negb (VTM_OK =? VTM_OK)) with false. cbn iota. rewrite Hread.
  rewrite (proj2 (Z.eqb_neq _ _) Hrc), (proj2 (Z.eqb_neq _ _) Hag). cbn [orb negb]. by eexists.
Qed.

Definition eof_sys : sys_net unit :=
  mk_sys (fun fd src os => (inl (zlen src), os)) (fun fd len os => (inl [], os)) (fun fd os => (inr EAGAIN, os))
    (fun fd dir os => (None, os)) (fun fd os => os).
Definition eof_vtable : vtm_socket_vtable unit unit :=
  let r s (os : unit) := (VTM_OK, s, os) in
  vtm_socket_plain_vtable eof_sys true
    (mk_vtable (fun _ _ => r) (fun _ => r) (fun s os => (VTM_OK, None, s, os)) (fun _ _ => r)
      (fun _ => r) r (fun src s os => Some (VTM_OK, zlen src, s, os)) (fun _ s os => (VTM_OK, [], s, os))
      (fun _ s os => (VTM_OK, [], tt, s, os)) (fun src _ s os => (VTM_OK, zlen src, s, os))
      (fun _ _ => r) (fun _ s os => (VTM_OK, 0, s, os)) (fun s os => (VTM_OK, tt, s, os))).
Definition eof_client : vtm_ws_client :=
  mk_wcl (Some (VTM_URL_SCHEME_HTTP, demo_sock)) (vtm_buf_init VTM_BYTEORDER_BE) junk_ws 0 0.

Lemma ws_client_error_is_ok_witness :
  exists cl', vtm_ws_client_recv (fun _ => true) (fun _ => eof_vtable) 1 eof_client tt = Some (VTM_OK, None, cl', tt).
Proof.
  eapply (ws_client_error_is_ok (fun _ => eof_vtable) 0 eof_client VTM_URL_SCHEME_HTTP demo_sock _ tt tt VTM_E_IO_EOF);
    try reflexivity; try discriminate.
  - apply buf_init_ok.
Defined.
