(* ===== verification/DgramServer.v ===== *)
(** * DgramServer: the datagram server, net/socket_dgram_server.c

    Its life as one call after the other, with the blocks that it holds, and its
    threads: the main thread puts the datagrams that it receives into a bounded
    queue, the workers take them out, as steps of threads in any interleaving.
    Without workers the main thread handles the datagrams itself. *)

From stdpp Require Import list gmap relations fin_sets.
From S2P Require Import Prelude Base Elem Heap Socket Sync StreamServer StreamWorkers.

(** ** Threads *)

Section Threads.
(** A received datagram, net/socket_dgram_server.h:27-31. *)
Context {D : Type}.

(** Where a worker is.  Behind a lock: [DTest], [DWait], [DQuit], [DPolled]. *)
Inductive dworker_pc :=
| DLoop
| DLock
| DTest
| DWait
| DSleep
| DQuit
| DPolled (d : D)
| DProcess (d : D)
| DEnd.

(** Where the main thread is.  Behind a lock: [MdFull], [MdWait], [MdAdded],
    [MdDrop]. *)
Inductive dmain_pc :=
| MdStart
| MdLoop
| MdListen
| MdLock (d : D)
| MdFull (d : D)
| MdWait (d : D)
| MdSleep (d : D)
| MdAdded
| MdDrop
| MdAlloc
| MdFinish
| MdSignal
| MdJoin
| MdDone.

(** The flag, the queue with its counter and limit, the mutex, the threads; and
    for the account: the datagrams that were received, taken out of the queue,
    processed, and those whose entry was lost. *)
Record dthreads := mk_dt {
  dt_running : bool;
  dt_queue : list D;
  dt_count : Z;
  dt_limit : Z;
  dt_mtx : option tid;
  dt_pcs : list dworker_pc;
  dt_main : dmain_pc;
  dt_received : list D;
  dt_polled : list D;
  dt_done : list D;
  dt_lost : list D
}.

(** net/socket_dgram_server.c:127-150.  [n] workers; [count] is what an earlier
    run has left in the counter.  The flag is set before the threads start. *)
Definition dgram_init (n : nat) (limit count : Z) : dthreads :=
  mk_dt true [] count limit None (replicate n DLoop) MdStart [] [] [] [].

Definition dt_set_mtx m (s : dthreads) : dthreads :=
  mk_dt (dt_running s) (dt_queue s) (dt_count s) (dt_limit s) m (dt_pcs s) (dt_main s)
    (dt_received s) (dt_polled s) (dt_done s) (dt_lost s).
Definition dt_set_pcs l (s : dthreads) : dthreads :=
  mk_dt (dt_running s) (dt_queue s) (dt_count s) (dt_limit s) (dt_mtx s) l (dt_main s)
    (dt_received s) (dt_polled s) (dt_done s) (dt_lost s).
Definition dt_set_main pc (s : dthreads) : dthreads :=
  mk_dt (dt_running s) (dt_queue s) (dt_count s) (dt_limit s) (dt_mtx s) (dt_pcs s) pc
    (dt_received s) (dt_polled s) (dt_done s) (dt_lost s).
Definition dt_set_running b (s : dthreads) : dthreads :=
  mk_dt b (dt_queue s) (dt_count s) (dt_limit s) (dt_mtx s) (dt_pcs s) (dt_main s)
    (dt_received s) (dt_polled s) (dt_done s) (dt_lost s).
Definition dt_set_queue q count (s : dthreads) : dthreads :=
  mk_dt (dt_running s) q count (dt_limit s) (dt_mtx s) (dt_pcs s) (dt_main s)
    (dt_received s) (dt_polled s) (dt_done s) (dt_lost s).
Definition dt_set_account received polled done lost (s : dthreads) : dthreads :=
  mk_dt (dt_running s) (dt_queue s) (dt_count s) (dt_limit s) (dt_mtx s) (dt_pcs s) (dt_main s)
    received polled done lost.
Definition dt_go i pc (s : dthreads) : dthreads := dt_set_pcs (<[i := pc]> (dt_pcs s)) s.

(** Taking the mutex, if it is free. *)
Definition dt_lock (t : tid) (s : dthreads) : option dthreads :=
  if decide (dt_mtx s = None) then Some (dt_set_mtx (Some t) s) else None.

(** Signals to all who wait for one of the two conditions; who is woken has to
    get the mutex. *)
Definition dwake (pc : dworker_pc) : dworker_pc := match pc with DSleep => DLock | _ => pc end.
Definition signal_not_empty (s : dthreads) : dthreads := dt_set_pcs (map dwake (dt_pcs s)) s.
Definition dwake_main (pc : dmain_pc) : dmain_pc := match pc with MdSleep d => MdLock d | _ => pc end.
Definition signal_not_full (s : dthreads) : dthreads := dt_set_main (dwake_main (dt_main s)) s.

(** net/socket_dgram_server.c:378-419 [vtm_socket_dgram_srv_worker_run], with
    vtm_socket_dgram_srv_process_dgram. *)
Definition dgram_worker_step (i : nat) (s : dthreads) : option dthreads :=
  pc ← dt_pcs s !! i;
  match pc with
  | DLoop => Some (dt_go i (if dt_running s then DLock else DEnd) s)
  | DLock => s ← dt_lock (TWorker i) s; Some (dt_go i DTest s)
  | DTest =>
      match dt_queue s with
      | [] => Some (dt_go i (if dt_running s then DWait else DQuit) s)
      | d :: q =>
          Some (signal_not_full (dt_go i (DPolled d) (dt_set_queue q (u32 (dt_count s - 1))
                 (dt_set_account (dt_received s) (dt_polled s ++ [d]) (dt_done s) (dt_lost s) s))))
      end
  | DWait => Some (dt_set_mtx None (dt_go i DSleep s))
  | DSleep => None
  | DQuit => Some (dt_set_mtx None (dt_go i DEnd s))
  | DPolled d => Some (dt_set_mtx None (dt_go i (DProcess d) s))
  | DProcess d =>
      Some (dt_go i DLoop (dt_set_account (dt_received s) (dt_polled s) (dt_done s ++ [d]) (dt_lost s) s))
  | DEnd => None
  end.

(** What the main thread is told: memory for the entry and the dataset, or by the
    listener and the socket that nothing has happened, that something failed, or
    a datagram. *)
Inductive dgram_answer := DgMalloc (entry wd : bool) | DgNone | DgFail | DgRecv (d : D).

Definition is_dend (pc : dworker_pc) : bool := match pc with DEnd => true | _ => false end.
Definition dt_receive d (s : dthreads) : dthreads :=
  dt_set_account (dt_received s ++ [d]) (dt_polled s) (dt_done s) (dt_lost s) s.

(** net/socket_dgram_server.c:302-315 [vtm_socket_dgram_srv_enqueue_dgram].
    Left through [unlock] the entry is in no list any more. *)
Definition enqueue_step (pc : dmain_pc) (s : dthreads) : option dthreads :=
  match pc with
  | MdLock d => s ← dt_lock TMain s; Some (dt_set_main (MdFull d) s)
  | MdFull d =>
      if dt_limit s <=? dt_count s then
        if dt_running s then Some (dt_set_main (MdWait d) s)
        else Some (dt_set_main MdDrop (dt_set_account (dt_received s) (dt_polled s) (dt_done s) (d :: dt_lost s) s))
      else Some (signal_not_empty (dt_set_main MdAdded (dt_set_queue (dt_queue s ++ [d]) (u32 (dt_count s + 1)) s)))
  | MdWait d => Some (dt_set_mtx None (dt_set_main (MdSleep d) s))
  | MdAdded | MdDrop => Some (dt_set_mtx None (dt_set_main MdAlloc s))
  | _ => None
  end.

(** net/socket_dgram_server.c:227-300 [vtm_socket_dgram_srv_main_run], then
    161-166 and 340-360 of vtm_socket_dgram_srv_run. *)
Definition dgram_main_step (a : dgram_answer) (s : dthreads) : option dthreads :=
  match dt_main s with
  | MdStart =>
      match a with
      | DgMalloc entry wd =>
          Some (dt_set_main (if entry && (wd || negb (length (dt_pcs s) =? 0)%nat) then MdLoop else MdSignal) s)
      | _ => None
      end
  | MdLoop => Some (dt_set_main (if dt_running s then MdListen else MdFinish) s)
  | MdListen =>
      match a with
      | DgMalloc _ _ => None
      | DgNone => Some (dt_set_main MdLoop s)
      | DgFail => Some (dt_set_main MdFinish s)
      | DgRecv d =>
          if (length (dt_pcs s) =? 0)%nat
          then Some (dt_set_main MdLoop (dt_set_account (dt_received s ++ [d]) (dt_polled s ++ [d])
                                           (dt_done s ++ [d]) (dt_lost s) s))
          else Some (dt_set_main (MdLock d) (dt_receive d s))
      end
  | MdAlloc =>
      match a with
      | DgMalloc entry _ => Some (dt_set_main (if entry then MdLoop else MdFinish) s)
      | _ => None
      end
  | MdFinish => Some (dt_set_main MdSignal (dt_set_running false s))
  | MdSignal => Some (signal_not_empty (dt_set_main MdJoin s))
  | MdJoin => if forallb is_dend (dt_pcs s) then Some (dt_set_main MdDone s) else None
  | MdSleep _ | MdDone => None
  | pc => enqueue_step pc s
  end.

(** A step of a thread, another thread that stops the server, a wake-up without a
    signal. *)
Inductive dgram_label := DgWorker (i : nat) | DgMain (a : dgram_answer) | DgStop | DgSpurious (i : nat) | DgSpuriousMain.

Definition dgram_step (l : dgram_label) (s : dthreads) : option dthreads :=
  match l with
  | DgWorker i => dgram_worker_step i s
  | DgMain a => dgram_main_step a s
  | DgStop => Some (dt_set_running false s)
  | DgSpurious i => pc ← dt_pcs s !! i; match pc with DSleep => Some (dt_go i DLock s) | _ => None end
  | DgSpuriousMain => match dt_main s with MdSleep d => Some (dt_set_main (MdLock d) s) | _ => None end
  end.

(** *** The invariant *)

Definition dworker_owns (pc : dworker_pc) : bool :=
  match pc with DTest | DWait | DQuit | DPolled _ => true | _ => false end.
Definition dmain_owns (pc : dmain_pc) : bool :=
  match pc with MdFull _ | MdWait _ | MdAdded | MdDrop => true | _ => false end.
Definition dheld (pc : dworker_pc) : list D := match pc with DPolled d | DProcess d => [d] | _ => [] end.
Definition dmain_held (pc : dmain_pc) : list D :=
  match pc with MdLock d | MdFull d | MdWait d | MdSleep d => [d] | _ => [] end.

(** Waits, or is about to, for a datagram; for room. *)
Definition didle (pc : dworker_pc) : bool := match pc with DWait | DSleep => true | _ => false end.
Definition dmain_waits (pc : dmain_pc) : bool := match pc with MdWait _ | MdSleep _ => true | _ => false end.

(** Has seen that the server was stopped. *)
Definition dleaving (pc : dworker_pc) : bool := match pc with DQuit | DEnd => true | _ => false end.

(** Receives nothing any more once the server was stopped. *)
Definition dmain_past (pc : dmain_pc) : bool :=
  match pc with MdDrop | MdAlloc | MdLoop | MdFinish | MdSignal | MdJoin | MdDone => true | _ => false end.

Record dgram_inv (n : nat) (limit : Z) (s : dthreads) : Prop := {
  di_len : length (dt_pcs s) = n;
  di_limit : dt_limit s = limit;
  di_mtx : mtx_ok dworker_owns (owner (dt_mtx s)) (dt_pcs s);
  di_main : dmain_owns (dt_main s) = true <-> dt_mtx s = Some TMain;
  di_count : dt_count s = zlen (dt_queue s) /\ zlen (dt_queue s) <= limit;
  di_fifo : dt_received s = dt_polled s ++ dt_queue s ++ dmain_held (dt_main s) ++ dt_lost s;
  di_lost : dt_lost s <> [] -> dt_running s = false /\ dmain_past (dt_main s) = true;
  di_account : dt_polled s ≡ₚ dt_done s ++ concat (map dheld (dt_pcs s));
  di_idle : forall i pc, dt_pcs s !! i = Some pc -> didle pc = true -> dt_queue s = [];
  di_waits : dmain_waits (dt_main s) = true -> limit <= zlen (dt_queue s);
  di_running : dt_running s = true -> Forall (fun pc => dleaving pc = false) (dt_pcs s);
  di_done : dt_main s = MdDone -> Forall (fun pc => is_dend pc = true) (dt_pcs s);
  di_none : n = 0%nat -> dt_main s <> MdAlloc /\ dmain_held (dt_main s) = [] /\ dmain_owns (dt_main s) = false /\
    dt_queue s = []
}.
End Threads.
Arguments dworker_pc : clear implicits.
Arguments dmain_pc : clear implicits.
Arguments dthreads : clear implicits.
Arguments dgram_answer : clear implicits.
Arguments dgram_label : clear implicits.

(** *** The steps keep it *)

Section Steps.
Context {D : Type}.
Implicit Types (s : dthreads D).

Lemma dheld_insert (l : list (dworker_pc D)) i x y :
  l !! i = Some x -> concat (map dheld (<[i := y]> l)) ++ dheld x ≡ₚ concat (map dheld l) ++ dheld y.
Proof.
  revert i; induction l as [|a l IH]; intros [|i] H; try done.
  - injection H as ->. change (<[0%nat:=y]> (x :: l)) with (y :: l). cbn [map concat]. solve_Permutation.
  - change (<[S i:=y]> (a :: l)) with (a :: <[i:=y]> l). cbn [map concat].
    rewrite <- !app_assoc. apply Permutation_app_head. by apply IH.
Qed.

Lemma dwake_lookup (l : list (dworker_pc D)) i pc :
  map dwake l !! i = Some pc -> exists pc0, l !! i = Some pc0 /\ pc = dwake pc0.
Proof. rewrite list_lookup_fmap. destruct (l !! i); [|done]. intros [= <-]. eauto. Qed.

(** What a worker that moves from [x] to [y] must respect; [e] are the datagrams
    that it takes out of the queue, [f] the ones that it is done with. *)
Record dmoves s i (x y : dworker_pc D) (m : option tid) (q e f : list D) : Prop := {
  dm_mtx : mtx_ok dworker_owns (owner m) (<[i := y]> (dt_pcs s));
  dm_main : m = Some TMain <-> dt_mtx s = Some TMain;
  dm_queue : dt_queue s = e ++ q;
  dm_idle : didle y = true -> q = [];
  dm_leave : dleaving y = true -> dleaving x = true \/ dt_running s = false;
  dm_held : e ++ dheld x ≡ₚ f ++ dheld y;
  dm_end : x <> DEnd
}.

Lemma dworker_move n limit s i x y m q e f main :
  dgram_inv n limit s -> dt_pcs s !! i = Some x -> dmoves s i x y m q e f ->
  (main = dt_main s \/ main = dwake_main (dt_main s)) ->
  (e = [] \/ main = dwake_main (dt_main s) /\ dworker_owns x = true) ->
  dgram_inv n limit (mk_dt (dt_running s) q (zlen q) (dt_limit s) m (<[i := y]> (dt_pcs s)) main
    (dt_received s) (dt_polled s ++ e) (dt_done s ++ f) (dt_lost s)).
Proof.
  intros [] Hi [] Hmain Hq.
  assert (dmain_owns main = dmain_owns (dt_main s) /\ dmain_held main = dmain_held (dt_main s) /\
    (dmain_past (dt_main s) = true -> dmain_past main = true)) as (Ho & Hh & Hp).
  { destruct Hmain as [-> | ->]; [done|]. by destruct (dt_main s). }
  assert ((main = MdDone <-> dt_main s = MdDone) /\ (main = MdAlloc <-> dt_main s = MdAlloc)) as [Hd Hal]
    by (destruct Hmain as [-> | ->]; [done|by destruct (dt_main s)]).
  destruct di_count0 as [Hc Hle]. pose proof (zlen_nonneg e). rewrite dm_queue0, zlen_app in Hle.
  split; cbn [dt_running dt_queue dt_count dt_limit dt_mtx dt_pcs dt_main dt_received dt_polled dt_done dt_lost]; try done.
  - by rewrite length_insert.
  - by rewrite Ho, dm_main0.
  - split; [done|lia].
  - rewrite Hh, di_fifo0, dm_queue0. by rewrite <- !app_assoc.
  - intros Hl. destruct (di_lost0 Hl). auto.
  - pose proof (dheld_insert _ _ _ y Hi) as Hx. apply (Permutation_app_inv_r (dheld x)).
    rewrite <- !app_assoc, Hx, dm_held0, di_account0. solve_Permutation.
  - intros j pc [[-> ->]|[_ Hj]]%lookup_other Hd'; [auto|]. specialize (di_idle0 j pc Hj Hd').
    rewrite dm_queue0 in di_idle0. by apply app_eq_nil in di_idle0 as [_ ->].
  - destruct Hq as [-> | [-> Hx]].
    + cbn [app] in dm_queue0. rewrite <- dm_queue0. intros Hw. apply di_waits0. destruct Hmain as [-> | ->]; [done|].
      by destruct (dt_main s).
    + apply (proj1 di_mtx0 i x Hi) in Hx.
      destruct (dt_main s) eqn:Em; try done. pose proof (proj1 di_main0 eq_refl) as Ht. by rewrite Ht in Hx.
  - intros Hr. apply Forall_insert; [auto|]. destruct (dleaving y) eqn:E; [|done].
    destruct (dm_leave0 eq_refl) as [Hl|Hl]; [|congruence].
    pose proof (Forall_lookup_1 _ _ _ _ (di_running0 Hr) Hi) as Hx. cbv beta in Hx. congruence.
  - intros Hm%Hd. pose proof (Forall_lookup_1 _ _ _ _ (di_done0 Hm) Hi) as Hx. cbv beta in Hx. by destruct x.
  - intros ->. destruct (dt_pcs s); done.
Qed.

(** A move that takes nothing and is done with nothing. *)
Lemma dworker_stay n limit s i x y m :
  dgram_inv n limit s -> dt_pcs s !! i = Some x ->
  mtx_ok dworker_owns (owner m) (<[i := y]> (dt_pcs s)) -> (m = Some TMain <-> dt_mtx s = Some TMain) ->
  (didle y = true -> dt_queue s = []) -> (dleaving y = true -> dleaving x = true \/ dt_running s = false) ->
  dheld y = dheld x -> x <> DEnd -> dgram_inv n limit (dt_set_mtx m (dt_go i y s)).
Proof.
  intros HI Hi Hm Ht Hq Hl Hh He.
  pose proof (dworker_move n limit s i x y m (dt_queue s) [] [] (dt_main s) HI Hi) as H.
  rewrite !app_nil_r, <- (proj1 (di_count _ _ _ HI)) in H. apply H; [|by left|by left].
  split; try done. by rewrite Hh.
Qed.

Lemma dstep_keep n limit s i x y :
  dgram_inv n limit s -> dt_pcs s !! i = Some x -> dworker_owns y = dworker_owns x ->
  (didle y = true -> dt_queue s = []) -> (dleaving y = true -> dleaving x = true \/ dt_running s = false) ->
  dheld y = dheld x -> x <> DEnd -> dgram_inv n limit (dt_go i y s).
Proof.
  intros HI Hi Hy Hq Hl Hh He.
  assert (dt_go i y s = dt_set_mtx (dt_mtx s) (dt_go i y s)) as -> by done.
  eapply dworker_stay; try done. eapply mtx_keep; [apply HI|done|done].
Qed.

Lemma dstep_take n limit s i x y :
  dgram_inv n limit s -> dt_pcs s !! i = Some x -> dt_mtx s = None -> dworker_owns y = true ->
  didle y = false -> dleaving y = false -> dheld y = dheld x -> x <> DEnd ->
  dgram_inv n limit (dt_go i y (dt_set_mtx (Some (TWorker i)) s)).
Proof.
  intros HI Hi Hm Hy Hd Hl Hh He. eapply (dworker_stay n limit s i x y); try done; try congruence.
  - pose proof (di_mtx _ _ _ HI) as Ho. rewrite Hm in Ho. by eapply mtx_take.
  - by rewrite Hm.
Qed.

Lemma downer n limit s i x :
  dgram_inv n limit s -> dt_pcs s !! i = Some x -> dworker_owns x = true -> dt_mtx s = Some (TWorker i).
Proof.
  intros HI Hi Hx. apply (proj1 (di_mtx _ _ _ HI) i x Hi) in Hx. destruct (dt_mtx s) as [[|j]|]; try done.
  by injection Hx as ->.
Qed.

Lemma dstep_drop n limit s i x y :
  dgram_inv n limit s -> dt_pcs s !! i = Some x -> dworker_owns x = true -> dworker_owns y = false ->
  (didle y = true -> didle x = true) -> (dleaving y = true -> dleaving x = true) -> dheld y = dheld x -> x <> DEnd ->
  dgram_inv n limit (dt_set_mtx None (dt_go i y s)).
Proof.
  intros HI Hi Hx Hy Hd Hl Hh He. eapply (dworker_stay n limit s i x y); try done.
  - eapply mtx_drop; [apply HI|done|done|done].
  - by rewrite (downer n limit s i x HI Hi Hx).
  - intros H. eapply (di_idle _ _ _ HI); eauto.
  - auto.
Qed.

Lemma dgram_worker_inv n limit s i s' :
  limit <= UINT_MAX -> dgram_inv n limit s -> dgram_worker_step i s = Some s' -> dgram_inv n limit s'.
Proof.
  intros Hlim HI. unfold dgram_worker_step, dt_lock. destruct (dt_pcs s !! i) as [pc|] eqn:Hi; [|done].
  cbn [mbind option_bind]. destruct pc as [| | | | | |d|d|]; try done.
  - destruct (dt_running s) eqn:Er; intros [= <-]; (eapply dstep_keep; [done|done|done|done|by auto|done|done]).
  - case_decide as Hm; [|done]. cbn [mbind option_bind]. intros [= <-]. by eapply dstep_take.
  - destruct (dt_queue s) as [|d q] eqn:Eq.
    + destruct (dt_running s) eqn:Er; intros [= <-]; (eapply dstep_keep; [done|done|done|done|by auto|done|done]).
    + intros [= <-].
      pose proof (dworker_move n limit s i DTest (DPolled d) (dt_mtx s) q [d] [] (dwake_main (dt_main s)) HI Hi) as H.
      destruct (di_count _ _ _ HI) as [Hc Hle]. rewrite Eq, zlen_cons in Hc, Hle. pose proof (zlen_nonneg q).
      unfold signal_not_full, dt_go, dt_set_main, dt_set_pcs, dt_set_queue, dt_set_account.
      cbn [dt_running dt_queue dt_count dt_limit dt_mtx dt_pcs dt_main dt_received dt_polled dt_done dt_lost].
      assert (u32 (dt_count s - 1) = zlen q) as ->.
      { unfold u32. rewrite wrap_small; [lia|]. unfold UINT_MAX in Hlim. lia. }
      rewrite app_nil_r in H. apply H; [|by right|by right]. split; try done.
      eapply mtx_keep; [apply HI|done|done].
  - intros [= <-]. by eapply dstep_drop.
  - intros [= <-]. by eapply dstep_drop.
  - intros [= <-]. by eapply dstep_drop.
  - intros [= <-].
    pose proof (dworker_move n limit s i (DProcess d) DLoop (dt_mtx s) (dt_queue s) [] [d] (dt_main s) HI Hi) as H.
    rewrite app_nil_r, <- (proj1 (di_count _ _ _ HI)) in H. apply H; [|by left|by left].
    split; try done. eapply mtx_keep; [apply HI|done|done].
Qed.

(** Who waits for a datagram is woken. *)
Lemma signal_empty_inv n limit s : dgram_inv n limit s -> dgram_inv n limit (signal_not_empty s).
Proof.
  intros [].
  assert (forall P : dworker_pc D -> bool, (forall pc, P (dwake pc) = P pc) -> forall b,
    Forall (fun pc => P pc = b) (map dwake (dt_pcs s)) <-> Forall (fun pc => P pc = b) (dt_pcs s)) as HF.
  { intros P HP b. rewrite Forall_fmap. apply Forall_iff. intros pc. cbn. by rewrite HP. }
  split; cbn [signal_not_empty dt_set_pcs dt_running dt_queue dt_count dt_limit dt_mtx dt_pcs dt_main dt_received
    dt_polled dt_done dt_lost]; try done.
  - by rewrite length_map.
  - apply mtx_map; [done|by intros []].
  - rewrite map_map. rewrite (map_ext (fun x => dheld (dwake x)) dheld); [done|by intros []].
  - intros i pc (pc0 & Hi & ->)%dwake_lookup Hd. apply (di_idle0 i pc0 Hi). by destruct pc0.
  - intros Hr. apply (HF dleaving); [by intros []|auto].
  - intros Hm. apply (HF is_dend); [by intros []|auto].
Qed.

(** Nobody sleeps behind a signal. *)
Lemma signal_empty_awake s i pc :
  mtx_ok dworker_owns None (dt_pcs s) -> map dwake (dt_pcs s) !! i = Some pc -> didle pc = false.
Proof.
  intros [Hm _] (pc0 & Hi & ->)%dwake_lookup. destruct pc0; try done. by pose proof (proj1 (Hm i _ Hi) eq_refl).
Qed.


(** The main thread moves to [y]; [q] is added to the queue, [l] lost, [r]
    received. *)
Record dmain_moves s (y : dmain_pc D) (m : option tid) (q l r : list D) : Prop := {
  dn_mtx : mtx_ok dworker_owns (owner m) (dt_pcs s);
  dn_main : dmain_owns y = true <-> m = Some TMain;
  dn_held : dmain_held (dt_main s) ++ r = q ++ dmain_held y ++ l;
  dn_lost : dt_lost s <> [] -> dmain_past y = true /\ q = [];
  dn_new : l <> [] -> dt_running s = false /\ dmain_past y = true;
  dn_idle : q <> [] -> Forall (fun pc => didle pc = false) (dt_pcs s);
  dn_waits : dmain_waits y = true -> dt_limit s <= zlen (dt_queue s);
  dn_done : y = MdDone -> Forall (fun pc => is_dend pc = true) (dt_pcs s);
  dn_none : dt_pcs s = [] -> y <> MdAlloc /\ dmain_held y = [] /\ dmain_owns y = false /\ q = []
}.

Lemma dmain_move n limit s y m q l r :
  dgram_inv n limit s -> dmain_moves s y m q l r -> zlen (dt_queue s ++ q) <= limit ->
  (dt_lost s <> [] -> r = []) ->
  dgram_inv n limit (mk_dt (dt_running s) (dt_queue s ++ q) (zlen (dt_queue s ++ q)) (dt_limit s) m (dt_pcs s) y
    (dt_received s ++ r) (dt_polled s) (dt_done s) (l ++ dt_lost s)).
Proof.
  intros [] [] Hle Hr.
  split; cbn [dt_running dt_queue dt_count dt_limit dt_mtx dt_pcs dt_main dt_received dt_polled dt_done dt_lost]; try done.
  - rewrite di_fifo0, <- !app_assoc. do 2 f_equal. rewrite !app_assoc. destruct (dt_lost s) as [|x lost].
    + rewrite !app_nil_r, dn_held0. by rewrite app_assoc.
    + destruct (dn_lost0 ltac:(done)) as [_ ->]. specialize (Hr ltac:(done)). subst r.
      rewrite !app_nil_r in *. cbn [app] in dn_held0. by rewrite dn_held0.
  - intros Hl. destruct l as [|x l]; [|by apply dn_new0]. destruct (di_lost0 Hl), (dn_lost0 Hl). done.
  - intros i pc Hi Hd. specialize (di_idle0 i pc Hi Hd). rewrite di_idle0. destruct q as [|x q]; [done|].
    pose proof (Forall_lookup_1 _ _ _ _ (dn_idle0 ltac:(done)) Hi) as Hx. cbv beta in Hx. congruence.
  - intros Hw. rewrite zlen_app. pose proof (zlen_nonneg q). specialize (dn_waits0 Hw). lia.
  - intros Hn. destruct dn_none0 as (? & ? & ? & ->); [destruct (dt_pcs s); [done|by rewrite <- di_len0 in Hn]|].
    rewrite app_nil_r. by destruct (di_none0 Hn) as (_ & _ & _ & ->).
Qed.

(** It goes on without touching the queue. *)
Lemma dmain_stay n limit s y m :
  dgram_inv n limit s -> mtx_ok dworker_owns (owner m) (dt_pcs s) -> (dmain_owns y = true <-> m = Some TMain) ->
  dmain_held y = dmain_held (dt_main s) -> (dt_lost s <> [] -> dmain_past y = true) ->
  (dmain_waits y = true -> limit <= zlen (dt_queue s)) ->
  (y = MdDone -> Forall (fun pc => is_dend pc = true) (dt_pcs s)) ->
  (dt_pcs s = [] -> y <> MdAlloc /\ dmain_held y = [] /\ dmain_owns y = false) ->
  dgram_inv n limit (dt_set_mtx m (dt_set_main y s)).
Proof.
  intros HI Hm Hy Hh Hl Hw Hd Hn. destruct (di_count _ _ _ HI) as [Hc Hle].
  pose proof (dmain_move n limit s y m [] [] [] HI) as H. rewrite !app_nil_r, <- Hc in H. apply H; [|by rewrite Hc|done].
  split; try done; [by rewrite !app_nil_r|auto|by rewrite (di_limit _ _ _ HI)|]. intros Hp. by destruct (Hn Hp) as (? & ? & ?).
Qed.

Lemma dmain_free n limit s : dgram_inv n limit s -> dmain_owns (dt_main s) = true -> mtx_ok dworker_owns None (dt_pcs s).
Proof. intros [] H%di_main0. by rewrite H in di_mtx0. Qed.

Lemma dmain_keep n limit s y :
  dgram_inv n limit s -> dmain_owns y = dmain_owns (dt_main s) ->
  dmain_held y = dmain_held (dt_main s) -> (dmain_past (dt_main s) = true -> dmain_past y = true) ->
  (dmain_waits y = true -> limit <= zlen (dt_queue s)) ->
  (y = MdDone -> Forall (fun pc => is_dend pc = true) (dt_pcs s)) -> y <> MdAlloc ->
  dgram_inv n limit (dt_set_main y s).
Proof.
  intros HI Ho Hh Hp Hw Hd Ha. assert (dt_set_main y s = dt_set_mtx (dt_mtx s) (dt_set_main y s)) as -> by done.
  apply (dmain_stay n limit s y (dt_mtx s) HI); try done; try apply HI.
  - by rewrite Ho, (di_main _ _ _ HI).
  - intros Hl. apply Hp, (di_lost _ _ _ HI Hl).
  - intros Hn. rewrite Ho, Hh. split; [done|].
    by destruct (di_none _ _ _ HI) as (_ & ? & ? & _); [by rewrite <- (di_len _ _ _ HI), Hn|].
Qed.

(** The flag is taken back. *)
Lemma dstop_inv n limit s : dgram_inv n limit s -> dgram_inv n limit (dt_set_running false s).
Proof. intros []. split; try done. intros H. by destruct (di_lost0 H). Qed.

Lemma enqueue_inv n limit s pc s' :
  0 <= limit <= UINT_MAX -> dgram_inv n limit s -> dt_main s = pc -> enqueue_step pc s = Some s' -> dgram_inv n limit s'.
Proof.
  intros Hlim HI Hm. unfold enqueue_step, dt_lock. destruct (di_count _ _ _ HI) as [Hc Hle].
  assert (dmain_held pc <> [] \/ dmain_owns pc = true -> dt_pcs s <> []) as Hne.
  { rewrite <- Hm. intros H E. assert (n = 0%nat) as Hn by by rewrite <- (di_len _ _ _ HI), E.
    destruct (di_none _ _ _ HI Hn) as (_ & H1 & H2 & _). rewrite H1, H2 in H. by destruct H. }
  destruct pc as [| | |d|d|d|d| | | | | | |]; try done.
  - case_decide as Hf; [|done]. cbn [mbind option_bind]. intros [= <-].
    pose proof (di_mtx _ _ _ HI) as Ho. rewrite Hf in Ho.
    apply (dmain_stay n limit s (MdFull d) (Some TMain) HI); try done.
    + by rewrite Hm.
    + intros Hl. destruct (di_lost _ _ _ HI Hl) as [_ Hx]. by rewrite Hm in Hx.
    + intros Hx. destruct Hne; [by left|done].
  - assert (dmain_owns (dt_main s) = true) as Hown by by rewrite Hm.
    assert (dt_lost s = []) as Hlost.
    { destruct (dt_lost s) eqn:El; [done|]. destruct (di_lost _ _ _ HI) as [_ Hx]; [by rewrite El|]. by rewrite Hm in Hx. }
    rewrite (di_limit _ _ _ HI). destruct (limit <=? dt_count s) eqn:El; bsplit.
    + destruct (dt_running s) eqn:Er; intros [= <-].
      * apply (dmain_keep n limit s (MdWait d) HI); rewrite ?Hm; try done. lia.
      * pose proof (dmain_move n limit s MdDrop (dt_mtx s) [] [d] [] HI) as H.
        rewrite !app_nil_r, <- Hc in H. apply H; [|lia|done]. split; try done; try apply HI.
        -- rewrite <- (di_main _ _ _ HI), Hown. done.
        -- by rewrite Hm.
        -- intros Hx. destruct Hne; [by right|done].
    + intros [= <-].
      pose proof (dmain_move n limit (signal_not_empty s) MdAdded (dt_mtx s) [d] [] []
        (signal_empty_inv _ _ _ HI)) as H.
      assert (zlen (dt_queue s ++ [d]) = dt_count s + 1) as Hz by (rewrite zlen_app, Hc; done).
      rewrite !app_nil_r in H. cbn [signal_not_empty dt_set_pcs dt_queue] in H. rewrite Hz in H.
      assert (u32 (dt_count s + 1) = dt_count s + 1) as Hu.
      { unfold u32. rewrite wrap_small; [done|]. unfold UINT_MAX in Hlim. pose proof (zlen_nonneg (dt_queue s)). lia. }
      assert (dgram_inv n limit (signal_not_empty (dt_set_main MdAdded (dt_set_queue (dt_queue s ++ [d])
        (u32 (dt_count s + 1)) s)))) as Hgoal; [|exact Hgoal].
      rewrite Hu. apply H; [|lia|done].
      split; cbn [signal_not_empty dt_set_pcs dt_pcs dt_main dt_lost dt_running dt_queue dt_limit]; try done.
      * apply (signal_empty_inv _ _ _ HI).
      * rewrite <- (di_main _ _ _ HI), Hown. done.
      * by rewrite Hm.
      * intros _. apply Forall_lookup. intros i pc. apply signal_empty_awake. by eapply dmain_free.
      * intros Hx. destruct Hne; [by right|]. by destruct (dt_pcs s).
  - intros [= <-]. apply (dmain_stay n limit s (MdSleep d) None HI); try done.
    + eapply dmain_free; [done|]. by rewrite Hm.
    + by rewrite Hm.
    + intros Hl. destruct (di_lost _ _ _ HI Hl) as [_ Hx]. by rewrite Hm in Hx.
    + intros _. apply (di_waits _ _ _ HI). by rewrite Hm.
    + intros Hx. destruct Hne; [by right|done].
  - intros [= <-]. apply (dmain_stay n limit s MdAlloc None HI); try done.
    + eapply dmain_free; [done|]. by rewrite Hm.
    + by rewrite Hm.
    + intros Hx. destruct Hne; [by right|done].
  - intros [= <-]. apply (dmain_stay n limit s MdAlloc None HI); try done.
    + eapply dmain_free; [done|]. by rewrite Hm.
    + by rewrite Hm.
    + intros Hx. destruct Hne; [by right|done].
Qed.


Lemma dgram_main_inv n limit s a s' :
  0 <= limit <= UINT_MAX -> dgram_inv n limit s -> dgram_main_step a s = Some s' -> dgram_inv n limit s'.
Proof.
  intros Hlim HI. unfold dgram_main_step. destruct (dt_main s) as [| | |d|d|d|d| | | | | | |] eqn:Em; try done.
  - destruct a as [entry wd| | |]; try done. intros [= <-].
    destruct (entry && _); eapply dmain_keep; rewrite ?Em; done.
  - intros [= <-]. destruct (dt_running s) eqn:Er; [|by eapply dmain_keep; rewrite ?Em].
    assert (dt_set_main MdListen s = dt_set_mtx (dt_mtx s) (dt_set_main MdListen s)) as -> by done.
    apply (dmain_stay n limit s MdListen (dt_mtx s) HI); rewrite ?Em; try done; try apply HI.
    + rewrite <- (di_main _ _ _ HI). by rewrite Em.
    + intros Hl. destruct (di_lost _ _ _ HI Hl) as [Hx _]. congruence.
  - assert (dt_lost s = []) as Hlost.
    { destruct (dt_lost s) eqn:El; [done|]. destruct (di_lost _ _ _ HI) as [_ Hx]; [by rewrite El|]. by rewrite Em in Hx. }
    destruct a as [| | |d]; try done; [intros [= <-]; by eapply dmain_keep; rewrite ?Em..|].
    destruct (Nat.eqb_spec (length (dt_pcs s)) 0) as [E|E]; intros [= <-].
    + assert (dt_pcs s = []) as Ep by by destruct (dt_pcs s).
      destruct HI. destruct di_none0 as (_ & _ & Ho & Hq); [by rewrite <- di_len0|].
      rewrite Em, Hlost, Hq in di_fifo0. cbn [dmain_held app] in di_fifo0. rewrite app_nil_r in di_fifo0.
      rewrite Em in Ho, di_main0.
      split; cbn [dt_set_main dt_set_account dt_running dt_queue dt_count dt_limit dt_mtx dt_pcs dt_main dt_received
        dt_polled dt_done dt_lost]; try done.
      * rewrite Hq, Hlost. cbn [app dmain_held]. by rewrite app_nil_r, di_fifo0.
      * rewrite Ep. cbn [map concat]. rewrite app_nil_r. apply Permutation_app_tail. rewrite di_account0, Ep.
        cbn [map concat]. by rewrite app_nil_r.
    + destruct (di_count _ _ _ HI) as [Hc Hle].
      pose proof (dmain_move n limit s (MdLock d) (dt_mtx s) [] [] [d] HI) as H. rewrite !app_nil_r, <- Hc in H.
      apply H; [|lia|congruence]. split; try done; try apply HI.
      * rewrite <- (di_main _ _ _ HI). by rewrite Em.
      * by rewrite Em.
      * intros Hx. by rewrite Hx in E.
  - by apply (enqueue_inv n limit s (MdLock d)).
  - by apply (enqueue_inv n limit s (MdFull d)).
  - by apply (enqueue_inv n limit s (MdWait d)).
  - by apply (enqueue_inv n limit s MdAdded).
  - by apply (enqueue_inv n limit s MdDrop).
  - destruct a as [entry wd| | |]; try done. intros [= <-].
    destruct entry; eapply dmain_keep; by rewrite ?Em.
  - intros [= <-]. pose proof (dstop_inv n limit s HI) as HI'.
    apply (dmain_keep n limit (dt_set_running false s) MdSignal HI'); cbn; by rewrite ?Em.
  - intros [= <-]. apply signal_empty_inv. by eapply dmain_keep; rewrite ?Em.
  - destruct (forallb _ _) eqn:E; [|done]. intros [= <-]. eapply dmain_keep; rewrite ?Em; try done.
    intros _. apply Forall_forall. intros pc Hp. rewrite forallb_forall in E. by apply E, list_elem_of_In.
Qed.


Lemma dgram_step_inv n limit l s s' :
  0 <= limit <= UINT_MAX -> dgram_inv n limit s -> dgram_step l s = Some s' -> dgram_inv n limit s'.
Proof.
  intros Hlim HI. destruct l as [i|a| |i|]; cbn [dgram_step].
  - apply dgram_worker_inv; [lia|done].
  - by apply dgram_main_inv.
  - intros [= <-]. by apply dstop_inv.
  - destruct (dt_pcs s !! i) as [pc|] eqn:Hi; [|done]. cbn [mbind option_bind]. destruct pc; try done.
    intros [= <-]. by eapply (dstep_keep n limit s i DSleep DLock).
  - destruct (dt_main s) as [| | | | | |d| | | | | | |] eqn:Em; try done. intros [= <-].
    by eapply (dmain_keep n limit s (MdLock d)); rewrite ?Em.
Qed.

Lemma dgram_init_inv n limit : 0 <= limit -> dgram_inv (D := D) n limit (dgram_init n limit 0).
Proof.
  intros Hl. assert (forall i pc, replicate n (@DLoop D) !! i = Some pc -> pc = DLoop) as Hr.
  { intros i pc H. by apply lookup_replicate_1 in H as [-> _]. }
  split; cbn [dgram_init dt_running dt_queue dt_count dt_limit dt_mtx dt_pcs dt_main dt_received dt_polled dt_done dt_lost];
    try done.
  - apply length_replicate.
  - split; [|done]. by intros i pc ->%Hr.
  - assert (concat (map dheld (replicate n (@DLoop D))) = []) as ->; [|done]. clear. by induction n.
  - intros _. apply Forall_lookup. by intros i pc ->%Hr.
Qed.

Lemma dgram_reach_inv n limit s :
  0 <= limit <= UINT_MAX -> rtc (any_step dgram_step) (dgram_init n limit 0) s -> dgram_inv n limit s.
Proof.
  intros Hlim. apply (invariant_reach dgram_step (dgram_inv n limit)).
  - intros l s1 s2 H1 H2. by apply (dgram_step_inv n limit l s1 s2).
  - apply dgram_init_inv. lia.
Qed.

(** Who cannot go on. *)
Lemma dworker_blocked n limit s i pc :
  dgram_inv n limit s -> dt_pcs s !! i = Some pc -> dgram_worker_step i s = None ->
  pc = DSleep \/ pc = DEnd \/ pc = DLock /\ dt_mtx s <> None.
Proof.
  intros HI Hi. unfold dgram_worker_step, dt_lock. rewrite Hi. cbn [mbind option_bind].
  destruct pc; try done; [|destruct (dt_queue s); done|by left|by right; left].
  case_decide as Hm; [done|]. intros _. by right; right.
Qed.

Lemma dmain_blocked s :
  (forall a, dgram_main_step a s = None) ->
  dt_main s = MdDone \/ (exists d, dt_main s = MdSleep d) \/
  (dt_main s = MdJoin /\ exists i pc, dt_pcs s !! i = Some pc /\ pc <> DEnd) \/
  (exists d, dt_main s = MdLock d) /\ dt_mtx s <> None.
Proof.
  unfold dgram_main_step. intros H. destruct (dt_main s) as [| | |d|d|d|d| | | | | | |];
    try (by specialize (H (DgMalloc true true))); try (by specialize (H DgNone)); try (by left); try (by right; left; eauto).
  - specialize (H DgNone). unfold enqueue_step, dt_lock in H. case_decide; [done|]. do 3 right. eauto.
  - specialize (H DgNone). cbn in H. destruct (_ <=? _); [|done]. by destruct (dt_running s).
  - specialize (H DgNone). cbn in H. destruct (forallb _ _) eqn:E; [done|]. do 2 right. left. split; [done|].
    assert (exists pc, pc ∈ dt_pcs s /\ is_dend pc = false) as (pc & Hin & Hpc).
    { clear H. induction (dt_pcs s) as [|pc l IH]; [done|]. cbn [forallb] in E. destruct (is_dend pc) eqn:Ep.
      - destruct IH as (pc' & ? & ?); [done|]. exists pc'. split; [by right|done].
      - exists pc. split; [by left|done]. }
    apply list_elem_of_lookup in Hin as [i Hi]. exists i, pc. split; [done|]. by intros ->.
Qed.

(** Nobody holds the mutex for good. *)
Lemma dmtx_free n limit s :
  dgram_inv n limit s -> (forall i, dgram_worker_step i s = None) -> (forall a, dgram_main_step a s = None) ->
  dt_mtx s = None.
Proof.
  intros HI Hw Hm. destruct (dt_mtx s) as [[|i]|] eqn:E; [| |done]; exfalso.
  - apply (di_main _ _ _ HI) in E.
    destruct (dmain_blocked s Hm) as [H|[[d H]|[[H _]|[[d H] _]]]]; by rewrite H in E.
  - pose proof (di_mtx _ _ _ HI) as [H1 H2]. rewrite E in H1, H2. destruct (H2 i eq_refl) as [pc Hi].
    pose proof (proj2 (H1 i pc Hi) eq_refl) as Ho.
    destruct (dworker_blocked n limit s i pc HI Hi (Hw i)) as [-> | [-> | [-> _]]]; done.
Qed.
End Steps.

(** ** Properties of the threads *)

Abbreviation dgram_reach n limit := (rtc (any_step dgram_step) (dgram_init n limit 0)).

(** C17: Invariant of the threads of a datagram server in its first run (the counter
    of the queue is zero when it starts), for any number of workers and any
    interleaving, with stops and spurious wake-ups.  The queue never
    holds more than its limit; at most one thread is inside of the mutex; the
    datagrams leave the queue in the order in which they were received, none
    doubled; each that a worker took out was processed or is in the hands of one
    worker; an entry is lost only after the server was stopped; and when the main
    thread has ended every worker has, so that no thread uses what is freed next,
    and every received datagram was processed, is in the queue, or was lost. *)
Theorem dgram_threads_safe {D} n limit (s : dthreads D)
    (Hlim : 0 <= limit <= UINT_MAX) (Hs : dgram_reach n limit s) :
  zlen (dt_queue s) <= limit /\
  (forall i j x y, dt_pcs s !! i = Some x -> dt_pcs s !! j = Some y ->
     dworker_owns x = true -> dworker_owns y = true -> i = j /\ dmain_owns (dt_main s) = false) /\
  dt_received s = dt_polled s ++ dt_queue s ++ dmain_held (dt_main s) ++ dt_lost s /\
  dt_polled s ≡ₚ dt_done s ++ concat (map dheld (dt_pcs s)) /\
  (dt_lost s <> [] -> dt_running s = false) /\
  (dt_main s = MdDone -> Forall (fun pc => is_dend pc = true) (dt_pcs s) /\
     dt_received s ≡ₚ dt_done s ++ dt_queue s ++ dt_lost s).
Proof.
  pose proof (dgram_reach_inv n limit s Hlim Hs) as HI. split; [apply HI|].
  split; [|split; [apply HI|split; [apply HI|split; [by intros H; apply (di_lost _ _ _ HI)|]]]].
  - intros i j x y Hi Hj Hx Hy. split; [by eapply (mtx_exclusive dworker_owns); first apply HI|].
    pose proof (downer n limit s i x HI Hi Hx) as Hm. pose proof (di_main _ _ _ HI) as Hd.
    destruct (dmain_owns (dt_main s)); [|done]. rewrite Hm in Hd. by destruct Hd as [Hd _]; specialize (Hd eq_refl).
  - intros Hm. pose proof (di_done _ _ _ HI Hm) as He. split; [done|].
    rewrite (di_fifo _ _ _ HI), Hm, (di_account _ _ _ HI).
    assert (concat (map dheld (dt_pcs s)) = []) as ->; [|by rewrite app_nil_r].
    clear -He. induction He as [|pc l Hpc _ IH]; [done|]. cbn [map concat]. rewrite IH. by destruct pc.
Qed.

Definition dg_run (ls : list (dgram_label Z)) n limit count : dthreads Z :=
  default (dgram_init 0 0 0) (run_steps dgram_step ls (dgram_init n limit count)).

(** One worker; two datagrams arrive and are processed; the server is stopped. *)
Definition demo_dgram_labels : list (dgram_label Z) :=
  let m a := DgMain a in let w := DgWorker 0 in
  [m (DgMalloc true true); m DgNone; m (DgRecv 5); m DgNone; m DgNone; m DgNone; m (DgMalloc true true);
   w; w; w; w; m DgNone; m (DgRecv 6); m DgNone; m DgNone; m DgNone; m (DgMalloc true true); w; w; w; w; w; w;
   DgStop; m DgNone; m DgNone; m DgNone; w; m DgNone].
Definition demo_dgram : dthreads Z := dg_run demo_dgram_labels 1 2 0.

Lemma dgram_threads_safe_witness :
  dt_main demo_dgram = MdDone /\ dt_done demo_dgram = [5; 6] /\
  zlen (dt_queue demo_dgram) <= 2 /\
  (forall i j x y, dt_pcs demo_dgram !! i = Some x -> dt_pcs demo_dgram !! j = Some y ->
     dworker_owns x = true -> dworker_owns y = true -> i = j /\ dmain_owns (dt_main demo_dgram) = false) /\
  dt_received demo_dgram = dt_polled demo_dgram ++ dt_queue demo_dgram ++ dmain_held (dt_main demo_dgram) ++ dt_lost demo_dgram /\
  dt_polled demo_dgram ≡ₚ dt_done demo_dgram ++ concat (map dheld (dt_pcs demo_dgram)) /\
  (dt_lost demo_dgram <> [] -> dt_running demo_dgram = false) /\
  (dt_main demo_dgram = MdDone -> Forall (fun pc => is_dend pc = true) (dt_pcs demo_dgram) /\
     dt_received demo_dgram ≡ₚ dt_done demo_dgram ++ dt_queue demo_dgram ++ dt_lost demo_dgram).
Proof.
  split; [vm_compute; reflexivity|]. split; [vm_compute; reflexivity|].
  apply (dgram_threads_safe 1 2); [done|]. apply (run_steps_reach dgram_step demo_dgram_labels). vm_compute. reflexivity.
Defined.

(** C23: The only ways in which the threads can hang in the first run of a server,
    where the counter of the queue is zero at the start (a server that is run again
    may have a counter that is not, and hangs in another way:
    [dgram_restart_stuck]).  With room for a datagram in the queue, if no thread can go on by itself, then either all have ended as
    they should; or the server was stopped while the main thread waited for room
    in the full queue, and the workers have left without emptying it; or the main
    thread waits for the end of workers of which at least one sleeps, waiting for
    a signal that was given too early. *)
Theorem dgram_only_deadlocks {D} n limit (s : dthreads D)
    (Hlim : 1 <= limit <= UINT_MAX) (Hs : dgram_reach n limit s)
    (Hw : forall i, dgram_worker_step i s = None) (Hm : forall a, dgram_main_step a s = None) :
  Forall (fun pc => pc = DEnd \/ pc = DSleep) (dt_pcs s) /\
  (dt_main s = MdDone /\ Forall (fun pc => is_dend pc = true) (dt_pcs s) \/
   (exists d, dt_main s = MdSleep d) /\ dt_running s = false /\ zlen (dt_queue s) = limit /\
     Forall (fun pc => is_dend pc = true) (dt_pcs s) \/
   dt_main s = MdJoin /\ (exists i, dt_pcs s !! i = Some DSleep) /\ dt_queue s = []).
Proof.
  pose proof (dgram_reach_inv n limit s ltac:(lia) Hs) as HI. pose proof (dmtx_free n limit s HI Hw Hm) as Hf.
  assert (Forall (fun pc => pc = DEnd \/ pc = DSleep) (dt_pcs s)) as Hpcs.
  { apply Forall_lookup. intros i pc Hi.
    destruct (dworker_blocked n limit s i pc HI Hi (Hw i)) as [-> | [-> | [_ H]]]; [by right|by left|done]. }
  split; [done|]. destruct (dmain_blocked s Hm) as [H|[[d H]|[[H (i & pc & Hi & Hp)]|[_ H]]]]; [| | |done].
  - left. split; [done|]. by apply (di_done _ _ _ HI).
  - right. left. split; [eauto|]. destruct (di_count _ _ _ HI) as [_ Hle].
    pose proof (di_waits _ _ _ HI) as Hq. rewrite H in Hq. specialize (Hq eq_refl).
    assert (Forall (fun pc => is_dend pc = true) (dt_pcs s)) as He.
    { apply Forall_lookup. intros i pc Hi. destruct (Forall_lookup_1 _ _ _ _ Hpcs Hi) as [-> | ->]; [done|].
      pose proof (di_idle _ _ _ HI i _ Hi eq_refl) as Hx. rewrite Hx in Hq. change (zlen []) with 0 in Hq. lia. }
    split; [|split; [lia|done]]. destruct (dt_running s) eqn:Er; [|done].
    destruct (dt_pcs s) as [|pc l] eqn:Ep.
    + destruct (di_none _ _ _ HI) as (_ & Hx & _); [by rewrite <- (di_len _ _ _ HI), Ep|]. by rewrite H in Hx.
    + pose proof (di_running _ _ _ HI Er) as Hr. rewrite Ep in Hr. apply Forall_cons in Hr as [Hr _].
      apply Forall_cons in He as [He _]. by destruct pc.
  - right. right. split; [done|]. destruct (Forall_lookup_1 _ _ _ _ Hpcs Hi) as [-> | ->]; [done|].
    split; [eauto|]. by apply (di_idle _ _ _ HI i _ Hi).
Qed.

(** The worker has not got the first datagram yet when two more arrive; the server
    is stopped while the worker processes. *)
Definition full_labels : list (dgram_label Z) :=
  let m a := DgMain a in let w := DgWorker 0 in
  let add d := [m (DgRecv d); m DgNone; m DgNone] in
  [m (DgMalloc true true); m DgNone] ++ add 5 ++ [m DgNone; m (DgMalloc true true); w; w; w; w] ++
  [m DgNone] ++ add 6 ++ [m DgNone; m (DgMalloc true true); m DgNone] ++ add 7 ++ [m DgNone; DgStop; w; w].
Definition full_dgram : dthreads Z := dg_run full_labels 1 1 0.

(** The worker looks at the flag, then the server is stopped and signals, then
    the worker goes to sleep. *)
Definition early_labels : list (dgram_label Z) :=
  let m a := DgMain a in let w := DgWorker 0 in
  [w; w; w; m (DgMalloc true true); m DgNone; DgStop; m DgNone; m DgNone; m DgNone; m DgNone; w].

(** The main thread gets no memory. *)
Definition broke_labels : list (dgram_label Z) :=
  [DgWorker 0; DgWorker 0; DgWorker 0; DgMain (DgMalloc false true); DgMain DgNone; DgWorker 0].

Definition hangs (s : dthreads Z) : Prop :=
  (forall i, dgram_worker_step i s = None) /\ (forall a, dgram_main_step a s = None) /\ dt_main s <> MdDone.

Lemma dgram_only_deadlocks_witness :
  let s := full_dgram in
  Forall (fun pc => pc = DEnd \/ pc = DSleep) (dt_pcs s) /\
  (dt_main s = MdDone /\ Forall (fun pc => is_dend pc = true) (dt_pcs s) \/
   (exists d, dt_main s = MdSleep d) /\ dt_running s = false /\ zlen (dt_queue s) = 1 /\
     Forall (fun pc => is_dend pc = true) (dt_pcs s) \/
   dt_main s = MdJoin /\ (exists i, dt_pcs s !! i = Some DSleep) /\ dt_queue s = []).
Proof.
  apply (dgram_only_deadlocks 1 1); [done| | |].
  - apply (run_steps_reach dgram_step full_labels). vm_compute. reflexivity.
  - by intros [|i].
  - by intros [].
Defined.

(** Stopping a datagram server can hang.  From the start of a server with one
    worker: the server is stopped while the queue is full and the main thread
    waits for room, which nobody makes any more; or the worker misses the only
    signal that tells it to end; and when the main thread gets no memory at the
    start it waits for a worker that nobody tells to end. *)
Theorem dgram_stop_hangs :
  (dgram_reach 1 1 full_dgram /\ hangs full_dgram /\ dt_main full_dgram = MdSleep 7 /\ dt_queue full_dgram = [6]) /\
  (let s := dg_run early_labels 1 1 0 in dgram_reach 1 1 s /\ hangs s /\ dt_running s = false) /\
  (let s := dg_run broke_labels 1 1 0 in dgram_reach 1 1 s /\ hangs s /\ dt_running s = true).
Proof.
  assert (forall (ls : list (dgram_label Z)) n limit s, run_steps dgram_step ls (dgram_init n limit 0) = Some s ->
    dgram_reach n limit s) as Hreach by (intros ls n limit s; apply run_steps_reach).
  assert (forall (s : dthreads Z) i0, length (dt_pcs s) = 1%nat -> dgram_worker_step 0 s = None -> dgram_worker_step i0 s = None) as Hone.
  { intros s [|i] Hl H; [done|]. unfold dgram_worker_step. rewrite lookup_ge_None_2; [done|lia]. }
  split; [|split].
  - split; [by apply (Hreach full_labels); vm_compute|]. split; [|split; vm_compute; reflexivity].
    split; [intros i; apply Hone; vm_compute; reflexivity|]. split; [intros []; vm_compute; reflexivity|].
    vm_compute. discriminate.
  - intros s. split; [by apply (Hreach early_labels); vm_compute|]. split; [|vm_compute; reflexivity].
    split; [intros i; apply Hone; vm_compute; reflexivity|]. split; [intros []; vm_compute; reflexivity|].
    vm_compute. discriminate.
  - intros s. split; [by apply (Hreach broke_labels); vm_compute|]. split; [|vm_compute; reflexivity].
    split; [intros i; apply Hone; vm_compute; reflexivity|]. split; [intros []; vm_compute; reflexivity|].
    vm_compute. discriminate.
Qed.

(** The counter of the queue survives the server's run.  The queue is emptied
    when a server ends, its counter is not set back: a server that was stopped
    with a full queue and is run again with the same limit never processes a
    datagram, however it is scheduled. *)
Theorem dgram_restart_stuck {D} n limit count (s : dthreads D)
    (Hn : (0 < n)%nat) (Hc : limit <= count)
    (Hs : rtc (any_step dgram_step) (dgram_init n limit count) s) :
  dt_done s = [] /\ dt_queue s = [] /\ dt_count s = count.
Proof.
  set (I (s : dthreads D) := dt_count s = count /\ dt_limit s = limit /\ dt_queue s = [] /\ dt_done s = [] /\ length (dt_pcs s) = n /\
    Forall (fun pc => dheld pc = []) (dt_pcs s) : Prop).
  assert (I s) as (? & ? & ? & ? & _); [|done].
  apply (invariant_reach dgram_step I (dgram_init n limit count)); [|split_and!; try done|done].
  - intros l s1 s2 (H1 & H2 & H3 & H4 & H5 & H6). unfold dgram_step, dgram_worker_step, dt_lock, dgram_main_step, enqueue_step, dt_lock.
    destruct l as [i|a| |i|].
    + destruct (dt_pcs s1 !! i) as [pc|] eqn:Hi; [|done]. cbn [mbind option_bind].
      pose proof (Forall_lookup_1 _ _ _ _ H6 Hi) as Hp. cbv beta in Hp.
      rewrite H3. assert (forall pc' : dworker_pc D, dheld pc' = [] -> length (<[i:=pc']> (dt_pcs s1)) = n /\
        Forall (fun pc => dheld pc = []) (<[i:=pc']> (dt_pcs s1))) as Hins.
      { intros pc' Hpc. split; [by rewrite length_insert|by apply Forall_insert]. }
      destruct pc; try done; try case_decide; try done; intros [= <-]; unfold I; cbn; split_and!; try done;
        try (by apply Hins; destruct (dt_running s1)).
    + intros Hs2. assert (forall pc q, I (dt_set_main pc s1) /\ I (dt_set_mtx q (dt_set_main pc s1))) as Hgo by done.
      assert ((length (dt_pcs s1) =? 0)%nat = false) as Hz by (apply Nat.eqb_neq; lia).
      assert (limit <=? count = true) as Hle by lia.
      assert (I (signal_not_empty s1)) as Hsig.
      { unfold I. cbn. rewrite length_map, Forall_map. split_and!; try done.
        eapply Forall_impl; [exact H6|]. by intros []. }
      destruct (dt_main s1); try done; try destruct a; try done; rewrite ?Hz, ?H1, ?H2, ?Hle in Hs2;
        repeat (case_match || case_decide); simplify_eq/=; done.
    + by intros [= <-].
    + destruct (dt_pcs s1 !! i) as [pc|] eqn:Hi; [|done]. cbn [mbind option_bind]. destruct pc; try done.
      intros [= <-]. unfold I. cbn. rewrite length_insert. split_and!; try done. by apply Forall_insert.
    + destruct (dt_main s1); try done. by intros [= <-].
  - apply length_replicate.
  - cbn. apply Forall_lookup. by intros i pc [-> _]%lookup_replicate_1.
Qed.

Lemma dgram_restart_stuck_witness :
  dt_count full_dgram = 1 /\
  let s := dg_run (take 6 full_labels) 1 1 (dt_count full_dgram) in dt_done s = [] /\ dt_queue s = [] /\ dt_count s = 1.
Proof.
  split; [vm_compute; reflexivity|]. apply (dgram_restart_stuck 1 1 1); [lia|done|].
  replace (dt_count full_dgram) with 1 by (vm_compute; reflexivity).
  apply (run_steps_reach dgram_step (take 6 full_labels)). vm_compute. reflexivity.
Defined.
