(* ===== verification/DgramLife.v ===== *)
(** * DgramLife: the life of a datagram server, net/socket_dgram_server.c

    The calls of its owner, one after the other, with the blocks that they
    allocate and free.  What the threads do between the start and the end of a
    run is DgramServer.v; a run takes the state in which they have ended. *)

From stdpp Require Import list gmap fin_sets.
From S2P Require Import Prelude Base Buffer Elem Heap Socket Sync StreamServer StreamWorkers DgramServer.

(** net/socket_dgram_server.c:25-46 [struct vtm_socket_dgram_srv].  Without the
    callbacks; the locks are free whenever a function is entered, and the queue
    is empty. *)
Record vtm_socket_dgram_srv := mk_dgs {
  dgs_socket : cptr;
  dgs_listener : cptr;
  dgs_usr_data : Z;
  dgs_running : bool;
  dgs_threads : cptr;
  dgs_workers : list cptr;
  dgs_thread_count : Z;
  dgs_mtx : cptr;
  dgs_not_full : cptr;
  dgs_not_empty : cptr;
  dgs_count : Z;
  dgs_limit : Z
}.
Implicit Types (srv : vtm_socket_dgram_srv) (h : heap).

Definition dgs_set_socket p srv :=
  mk_dgs p (dgs_listener srv) (dgs_usr_data srv) (dgs_running srv) (dgs_threads srv) (dgs_workers srv)
    (dgs_thread_count srv) (dgs_mtx srv) (dgs_not_full srv) (dgs_not_empty srv) (dgs_count srv) (dgs_limit srv).
Definition dgs_set_listener p srv :=
  mk_dgs (dgs_socket srv) p (dgs_usr_data srv) (dgs_running srv) (dgs_threads srv) (dgs_workers srv)
    (dgs_thread_count srv) (dgs_mtx srv) (dgs_not_full srv) (dgs_not_empty srv) (dgs_count srv) (dgs_limit srv).
Definition dgs_set_running b srv :=
  mk_dgs (dgs_socket srv) (dgs_listener srv) (dgs_usr_data srv) b (dgs_threads srv) (dgs_workers srv)
    (dgs_thread_count srv) (dgs_mtx srv) (dgs_not_full srv) (dgs_not_empty srv) (dgs_count srv) (dgs_limit srv).
Definition dgs_set_threads p workers n srv :=
  mk_dgs (dgs_socket srv) (dgs_listener srv) (dgs_usr_data srv) (dgs_running srv) p workers
    n (dgs_mtx srv) (dgs_not_full srv) (dgs_not_empty srv) (dgs_count srv) (dgs_limit srv).
Definition dgs_set_sync mtx nf ne srv :=
  mk_dgs (dgs_socket srv) (dgs_listener srv) (dgs_usr_data srv) (dgs_running srv) (dgs_threads srv) (dgs_workers srv)
    (dgs_thread_count srv) mtx nf ne (dgs_count srv) (dgs_limit srv).
Definition dgs_set_counts count limit srv :=
  mk_dgs (dgs_socket srv) (dgs_listener srv) (dgs_usr_data srv) (dgs_running srv) (dgs_threads srv) (dgs_workers srv)
    (dgs_thread_count srv) (dgs_mtx srv) (dgs_not_full srv) (dgs_not_empty srv) count limit.

(** net/socket_dgram_server.c:55-69.  NULL if [ok] is false. *)
Definition vtm_socket_dgram_srv_new (ok : bool) : option vtm_socket_dgram_srv :=
  if negb ok then None
  else Some (mk_dgs NULL NULL 0 false NULL [] 0 NULL NULL NULL 0 0).

(** net/socket_dgram_server.c:76-79 *)
Definition vtm_socket_dgram_srv_get_usr_data srv : Z := dgs_usr_data srv.

(** net/socket_dgram_server.c:81-84 *)
Definition vtm_socket_dgram_srv_set_usr_data srv (data : Z) : vtm_socket_dgram_srv :=
  mk_dgs (dgs_socket srv) (dgs_listener srv) data (dgs_running srv) (dgs_threads srv) (dgs_workers srv)
    (dgs_thread_count srv) (dgs_mtx srv) (dgs_not_full srv) (dgs_not_empty srv) (dgs_count srv) (dgs_limit srv).

(** The codes of the calls that set a server up, VTM_OK or an error; how many
    threads can be started. *)
Record dgram_setup := mk_setup {
  su_socket : Z; su_bind : Z; su_nonblocking : Z; su_listener : Z; su_add : Z;
  su_mtx : Z; su_not_empty : Z; su_not_full : Z; su_array : Z; su_threads : nat
}.

(** An object that is created with the code [rc]. *)
Definition obj_new (rc : Z) h : cptr * heap := c_malloc (rc =? VTM_OK) [] h.

(** net/socket_dgram_server.c:328-338.  The loop that starts threads: [n] are
    wanted, [m] can be started. *)
Fixpoint span_loop (n m : nat) h : bool * list cptr * heap :=
  match n, m with
  | O, _ => (true, [], h)
  | S _, O => (false, [NULL], h)
  | S n, S m =>
      let '(th, h) := c_malloc true [] h in
      let '(ok, ths, h) := span_loop n m h in (ok, th :: ths, h)
  end.

(** net/socket_dgram_server.c:317-338 *)
Definition vtm_socket_dgram_srv_workers_span (u : dgram_setup) (threads : Z) srv h
    : Z * vtm_socket_dgram_srv * heap :=
  let srv := dgs_set_threads (dgs_threads srv) (dgs_workers srv) threads srv in
  if threads =? 0 then (VTM_OK, srv, h)
  else
    let '(p, h) := obj_new (su_array u) h in
    let srv := dgs_set_threads p [] threads srv in
    if is_null p then (su_array u, srv, h)
    else
      let '(ok, ths, h) := span_loop (Z.to_nat threads) (su_threads u) h in
      (if ok then VTM_OK else VTM_ERROR, dgs_set_threads p ths threads srv, h).

(** net/socket_dgram_server.c:340-346.  [None] if the condition variable is not
    live. *)
Definition vtm_socket_dgram_srv_workers_interrupt srv h : option unit :=
  if is_null (dgs_not_empty srv) then Some tt
  else if decide (p_addr (dgs_not_empty srv) ∈ h) then Some tt else None.

(** net/socket_dgram_server.c:370-373.  The loop that frees threads. *)
Fixpoint free_all (ps : list cptr) h : option heap :=
  match ps with [] => Some h | p :: ps => h ← c_free p h; free_all ps h end.

(** net/socket_dgram_server.c:362-376 *)
Definition vtm_socket_dgram_srv_workers_free srv h : option heap :=
  if dgs_thread_count srv =? 0 then Some h
  else h ← free_all (dgs_workers srv) h; c_free (dgs_threads srv) h.

(** net/socket_dgram_server.c:185-187 [clean_socket] *)
Definition dgram_clean_socket (rc : Z) srv h : option (Z * vtm_socket_dgram_srv * heap) :=
  h ← c_free (dgs_socket srv) h; Some (rc, srv, h).

(** net/socket_dgram_server.c:180-187 [clean_listener] *)
Definition dgram_clean_listener (rc : Z) srv h : option (Z * vtm_socket_dgram_srv * heap) :=
  h ← c_free (dgs_listener srv) h;
  dgram_clean_socket rc (dgs_set_listener NULL srv) h.

(** net/socket_dgram_server.c:172-187 [clean] *)
Definition dgram_clean (rc : Z) srv h : option (Z * vtm_socket_dgram_srv * heap) :=
  h ← c_free (dgs_not_empty srv) h;
  h ← c_free (dgs_not_full srv) h;
  h ← c_free (dgs_mtx srv) h;
  dgram_clean_listener rc srv h.

Section Run.
Context {D : Type}.

(** net/socket_dgram_server.c:148-178.  Behind the queue: the threads are
    started, work, and have ended in the state [t]. *)
Definition dgram_run_threads (u : dgram_setup) (threads : Z) (t : dthreads D) srv h
    : option (Z * vtm_socket_dgram_srv * heap) :=
  let '(rc, srv, h) := vtm_socket_dgram_srv_workers_span u threads (dgs_set_running true srv) h in
  if negb (rc =? VTM_OK) then dgram_clean rc srv h
  else
    let srv := dgs_set_running (dt_running t) (dgs_set_counts (dt_count t) (dgs_limit srv) srv) in
    _ ← vtm_socket_dgram_srv_workers_interrupt srv h;
    h ← vtm_socket_dgram_srv_workers_free srv h;
    dgram_clean rc srv h.

(** net/socket_dgram_server.c:86-193 *)
Definition vtm_socket_dgram_srv_run (u : dgram_setup) (queue_limit threads : Z) (t : dthreads D) srv h
    : option (Z * vtm_socket_dgram_srv * heap) :=
  let '(p, h) := obj_new (su_socket u) h in
  let srv := dgs_set_socket p srv in
  if is_null p then Some (su_socket u, srv, h)
  else if negb (su_bind u =? VTM_OK) then dgram_clean_socket (su_bind u) srv h
  else if negb (su_nonblocking u =? VTM_OK) then dgram_clean_socket (su_nonblocking u) srv h
  else
    let '(p, h) := obj_new (su_listener u) h in
    let srv := dgs_set_listener p srv in
    if is_null p then dgram_clean_socket (su_listener u) srv h
    else if negb (su_add u =? VTM_OK) then dgram_clean_listener (su_add u) srv h
    else if negb (0 <? threads) then dgram_run_threads u threads t srv h
    else
      let '(mtx, h) := obj_new (su_mtx u) h in
      let srv := dgs_set_sync mtx (dgs_not_full srv) (dgs_not_empty srv) srv in
      if is_null mtx then dgram_clean (su_mtx u) srv h
      else
        let '(ne, h) := obj_new (su_not_empty u) h in
        let '(nf, h) := obj_new (su_not_full u) h in
        let srv := dgs_set_sync mtx nf ne srv in
        if is_null ne || is_null nf
        then dgram_clean (if is_null nf then su_not_full u else su_not_empty u) srv h
        else
          let limit := if queue_limit =? 0 then u32 (threads * 2) else queue_limit in
          dgram_run_threads u threads t (dgs_set_counts (dgs_count srv) limit srv) h.
End Run.

(** net/socket_dgram_server.c:195-210.  [rc] is the code of
    vtm_socket_listener_interrupt(). *)
Definition vtm_socket_dgram_srv_stop (rc : Z) srv : Z * vtm_socket_dgram_srv :=
  (if is_null (dgs_listener srv) then VTM_E_INVALID_STATE else rc, dgs_set_running false srv).

(** net/socket_dgram_server.c:212-225.  [s] is the socket; [None] if it is not
    live. *)
Definition vtm_socket_dgram_srv_send {OS SA} (vt : vtm_socket_vtable OS SA) srv (buf : bytes) (saddr : SA)
    (s : vtm_socket) (os : OS) h : option (Z * vtm_socket * OS) :=
  if is_null (dgs_socket srv) || negb (bool_decide (p_addr (dgs_socket srv) ∈ h)) then None
  else
    let '(rc, sent, s, os) := vtm_socket_dgram_send vt buf saddr s os in
    Some (if negb (rc =? VTM_OK) then rc
          else match sent with
               | Some n => if n =? zlen buf then VTM_OK else VTM_E_IO_UNKNOWN
               | None => VTM_E_IO_UNKNOWN
               end, s, os).

(** ** What a run frees *)

Definition blk (p : cptr) : list Z := if is_null p then [] else [p_addr p].

Lemma obj_new_ok F l h rc :
  heap_ok F l h -> exists p h', obj_new rc h = (p, h') /\ heap_ok F (blk p ++ l) h' /\ is_null p = negb (rc =? VTM_OK).
Proof.
  intros Ho. unfold obj_new. destruct (rc =? VTM_OK); [|by eexists _, _].
  destruct (heap_ok_malloc F l h [] Ho) as (p & h' & E & _ & Hp & Ho'). exists p, h'. split; [done|].
  unfold blk. by rewrite Hp.
Qed.

Lemma c_free_blk F l h p : heap_ok F (blk p ++ l) h -> exists h', c_free p h = Some h' /\ heap_ok F l h'.
Proof.
  unfold blk. destruct (is_null p) eqn:Hp; intros Ho; [|by apply heap_ok_free].
  exists h. split; [|done]. unfold c_free. by rewrite Hp.
Qed.

Lemma clean_socket_ok F l h rc srv :
  heap_ok F (blk (dgs_socket srv) ++ l) h ->
  exists h', dgram_clean_socket rc srv h = Some (rc, srv, h') /\ heap_ok F l h'.
Proof. intros (h' & E & Ho)%c_free_blk. exists h'. unfold dgram_clean_socket. by rewrite E. Qed.

Lemma clean_listener_ok F l h rc srv :
  heap_ok F (blk (dgs_listener srv) ++ blk (dgs_socket srv) ++ l) h ->
  exists h', dgram_clean_listener rc srv h = Some (rc, dgs_set_listener NULL srv, h') /\ heap_ok F l h'.
Proof.
  intros (h1 & E & Ho)%c_free_blk. unfold dgram_clean_listener. rewrite E. cbn [mbind option_bind].
  by apply (clean_socket_ok F l h1 rc (dgs_set_listener NULL srv)).
Qed.

(** The blocks of a server that is set up. *)
Definition dgs_blocks srv : list Z :=
  blk (dgs_not_empty srv) ++ blk (dgs_not_full srv) ++ blk (dgs_mtx srv) ++
  blk (dgs_listener srv) ++ blk (dgs_socket srv).

Lemma clean_ok F l h rc srv :
  heap_ok F (dgs_blocks srv ++ l) h ->
  exists h', dgram_clean rc srv h = Some (rc, dgs_set_listener NULL srv, h') /\ heap_ok F l h'.
Proof.
  unfold dgs_blocks. rewrite <- !app_assoc. intros (h1 & E1 & Ho1)%c_free_blk.
  apply c_free_blk in Ho1 as (h2 & E2 & Ho2). apply c_free_blk in Ho2 as (h3 & E3 & Ho3).
  unfold dgram_clean. rewrite E1. cbn [mbind option_bind]. rewrite E2. cbn [mbind option_bind]. rewrite E3.
  cbn [mbind option_bind]. by apply clean_listener_ok.
Qed.

Lemma span_loop_ok F n : forall m l h,
  heap_ok F l h -> exists ok ths h', span_loop n m h = (ok, ths, h') /\ heap_ok F (concat (map blk ths) ++ l) h' /\
    ok = (n <=? m)%nat.
Proof.
  induction n as [|n IH]; intros m l h Ho; [by exists true, [], h|].
  destruct m as [|m]; cbn [span_loop]; [by eexists _, _, _|].
  destruct (obj_new_ok F l h VTM_OK Ho) as (p & h1 & E & Ho1 & _). unfold obj_new in E. rewrite Z.eqb_refl in E. rewrite E.
  destruct (IH m _ h1 Ho1) as (ok & ths & h' & E2 & Ho2 & ->). rewrite E2. eexists _, (p :: ths), h'. split; [done|].
  split; [|done]. cbn [map concat]. eapply heap_ok_perm; [|exact Ho2]. solve_Permutation.
Qed.

Lemma free_all_ok F ps : forall l h,
  heap_ok F (concat (map blk ps) ++ l) h -> exists h', free_all ps h = Some h' /\ heap_ok F l h'.
Proof.
  induction ps as [|p ps IH]; intros l h Ho; [by exists h|]. cbn [map concat free_all] in *.
  rewrite <- app_assoc in Ho. apply c_free_blk in Ho as (h1 & -> & Ho). cbn [mbind option_bind]. by apply IH.
Qed.

Lemma blk_live F l h p : heap_ok F l h -> is_null p = false -> p_addr p ∈ l -> p_addr p ∈ h.
Proof. intros (_ & _ & ->) _ Hl. set_solver. Qed.

Lemma heap_ok_sub F l h : heap_ok F l h -> F ⊆ h.
Proof. intros (_ & _ & ->). set_solver. Qed.

(** The last call of a run. *)
Ltac clean_up Hclean l Ho E Eh :=
  match goal with |- context [dgram_clean ?rc ?srv ?h] =>
    destruct (Hclean srv h rc l eq_refl Ho) as (? & E & Eh); rewrite E; clear E
  end.

Section RunProps.
Context {D : Type}.

Lemma run_threads_ok F h u threads (t : dthreads D) srv :
  heap_ok F (dgs_blocks srv) h -> 0 <= threads ->
  exists rc srv' h', dgram_run_threads u threads t srv h = Some (rc, srv', h') /\
    dgs_listener srv' = NULL /\ dgs_not_empty srv' = dgs_not_empty srv /\ F ⊆ h' /\
    ((Z.to_nat threads <= su_threads u)%nat -> h' = F /\
      (threads = 0 \/ su_array u = VTM_OK -> rc = VTM_OK /\ dgs_count srv' = dt_count t)).
Proof.
  intros Ho Hth. unfold dgram_run_threads, vtm_socket_dgram_srv_workers_span.
  assert (forall srv1 h1 rc l, dgs_blocks srv1 = dgs_blocks srv -> heap_ok F (dgs_blocks srv ++ l) h1 ->
    exists h', dgram_clean rc srv1 h1 = Some (rc, dgs_set_listener NULL srv1, h') /\ heap_ok F l h') as Hclean.
  { intros srv1 h1 rc l <-. apply clean_ok. }
  assert (forall srv1 h1 l, dgs_not_empty srv1 = dgs_not_empty srv -> heap_ok F (dgs_blocks srv ++ l) h1 ->
    vtm_socket_dgram_srv_workers_interrupt srv1 h1 = Some tt) as Hint.
  { intros srv1 h1 l E Ho1. unfold vtm_socket_dgram_srv_workers_interrupt. rewrite E.
    destruct (is_null (dgs_not_empty srv)) eqn:En; [done|]. rewrite decide_True; [done|].
    eapply blk_live; [done|done|]. unfold dgs_blocks, blk. rewrite En. by left. }
  assert (heap_ok F (dgs_blocks srv ++ []) h) as Ho0 by by rewrite app_nil_r.
  destruct (Z.eqb_spec threads 0) as [->|Hne].
  - change (negb (VTM_OK =? VTM_OK)) with false. cbn iota.
    erewrite Hint; [|done|exact Ho0]. cbn [mbind option_bind]. unfold vtm_socket_dgram_srv_workers_free.
    cbn [dgs_thread_count dgs_set_threads dgs_set_counts dgs_set_running Z.eqb mbind option_bind].
    clean_up Hclean (@nil Z) Ho0 E Eh. destruct Eh as (_ & _ & Eh).
    cbn [list_to_set] in Eh. rewrite (right_id_L ∅ (∪)) in Eh. subst. by eexists _, _, F.
  - destruct (obj_new_ok F _ h (su_array u) Ho0) as (p & h1 & E1 & Ho1 & Hp). rewrite E1, Hp.
    destruct (Z.eqb_spec (su_array u) VTM_OK) as [Ea|Ea]; cbn [negb].
    2:{ rewrite ?(proj2 (Z.eqb_neq _ _) Ea). cbn [negb]. unfold blk at 1 in Ho1. rewrite Hp in Ho1. cbn [negb app] in Ho1.
        clean_up Hclean (@nil Z) Ho1 E Eh. destruct Eh as (_ & _ & Eh).
        cbn [list_to_set] in Eh. rewrite (right_id_L ∅ (∪)) in Eh. subst. eexists _, _, F. split; [done|].
        split_and!; try done. intros _. split; [done|]. by intros [?|?]. }
    destruct (span_loop_ok F (Z.to_nat threads) (su_threads u) _ h1 Ho1) as (ok & ths & h2 & E2 & Ho2 & ->). rewrite E2.
    assert (heap_ok F (dgs_blocks srv ++ (concat (map blk ths) ++ blk p)) h2) as Ho2'.
    { eapply heap_ok_perm; [|exact Ho2]. rewrite app_nil_r. solve_Permutation. }
    destruct (Nat.leb_spec (Z.to_nat threads) (su_threads u)) as [Hle|Hlt].
    + change (negb (VTM_OK =? VTM_OK)) with false. cbn iota.
      erewrite Hint; [|done|exact Ho2']. cbn [mbind option_bind]. unfold vtm_socket_dgram_srv_workers_free.
      cbn [dgs_thread_count dgs_set_threads dgs_set_counts dgs_set_running dgs_workers dgs_threads].
      rewrite (proj2 (Z.eqb_neq _ _) Hne).
      assert (heap_ok F (concat (map blk ths) ++ blk p ++ dgs_blocks srv) h2) as Ho3.
      { eapply heap_ok_perm; [|exact Ho2']. solve_Permutation. }
      destruct (free_all_ok F ths _ h2 Ho3) as (h3 & -> & Ho4). cbn [mbind option_bind].
      apply c_free_blk in Ho4 as (h4 & -> & Ho5). cbn [mbind option_bind]. rewrite <- (app_nil_r (dgs_blocks srv)) in Ho5.
      clean_up Hclean (@nil Z) Ho5 E Eh. destruct Eh as (_ & _ & Eh).
      cbn [list_to_set] in Eh. rewrite (right_id_L ∅ (∪)) in Eh. subst. by eexists _, _, F.
    + change (negb (VTM_ERROR =? VTM_OK)) with true. cbn iota.
      clean_up Hclean (concat (map blk ths) ++ blk p) Ho2' E Ho'.
      eexists _, _, _. split; [done|]. split_and!; try done; [by eapply heap_ok_sub|lia].
Qed.

(** A server as it is before its first run. *)
Definition dgs_fresh srv : Prop :=
  dgs_listener srv = NULL /\ dgs_mtx srv = NULL /\ dgs_not_full srv = NULL /\ dgs_not_empty srv = NULL.

Definition setup_ok (u : dgram_setup) (threads : Z) : Prop :=
  su_socket u = VTM_OK /\ su_bind u = VTM_OK /\ su_nonblocking u = VTM_OK /\ su_listener u = VTM_OK /\
  su_add u = VTM_OK /\ su_mtx u = VTM_OK /\ su_not_empty u = VTM_OK /\ su_not_full u = VTM_OK /\
  su_array u = VTM_OK /\ (Z.to_nat threads <= su_threads u)%nat.

Lemma heap_nil F h : heap_ok F [] h -> h = F.
Proof. intros (_ & _ & ->). cbn [list_to_set]. by rewrite (right_id_L ∅ (∪)). Qed.

(** The condition variable that a run has left was not among the first two blocks
    of the run. *)
Definition dangles h srv : Prop :=
  is_null (dgs_not_empty srv) = false /\
  forall p h1 q h2, obj_new VTM_OK h = (p, h1) -> obj_new VTM_OK h1 = (q, h2) -> p_addr (dgs_not_empty srv) ∉ h2.

(** The outcome of a run that began with the blocks [h]. *)
Definition run_result (u : dgram_setup) (threads : Z) (t : dthreads D) h
    (r : option (Z * vtm_socket_dgram_srv * heap)) : Prop :=
  exists rc srv' h', r = Some (rc, srv', h') /\ dgs_listener srv' = NULL /\ h ⊆ h' /\
    ((Z.to_nat threads <= su_threads u)%nat -> h' = h) /\
    (setup_ok u threads -> rc = VTM_OK /\ dgs_count srv' = dt_count t /\ (0 < threads -> dangles h srv')).

Lemma run_ok u limit threads (t : dthreads D) srv h :
  dgs_fresh srv -> 0 <= threads -> run_result u threads t h (vtm_socket_dgram_srv_run u limit threads t srv h).
Proof.
  intros (Hli & Hmtx & Hnf & Hne) Hth. unfold vtm_socket_dgram_srv_run.
  pose proof (heap_ok_nil h) as H0.
  assert (forall r srv' rc, r = Some (rc, srv', h) -> dgs_listener srv' = NULL -> (setup_ok u threads -> False) ->
    run_result u threads t h r) as Hbad.
  { intros r srv' rc -> Hl Hs. exists rc, srv', h. split_and!; try done; by intros ?%Hs. }
  destruct (obj_new_ok h [] h (su_socket u) H0) as (p & h1 & E1 & H1 & Hp). rewrite E1. rewrite Hp.
  destruct (Z.eqb_spec (su_socket u) VTM_OK) as [Es|Es]; cbn [negb] in Hp |- *.
  2:{ eapply (Hbad _ (dgs_set_socket p srv)); [|exact Hli|by intros (? & _)]. unfold blk in H1. rewrite Hp in H1. by rewrite (heap_nil h h1 H1). }
  assert (forall rc srv1, dgs_socket srv1 = p -> dgram_clean_socket rc srv1 h1 = Some (rc, srv1, h)) as Hcs.
  { intros rc srv1 <-. destruct (clean_socket_ok h [] h1 rc srv1 H1) as (h' & E & Eh%heap_nil). by subst h'. }
  destruct (Z.eqb_spec (su_bind u) VTM_OK) as [Eb|Eb]; cbn [negb].
  2:{ eapply Hbad; [by apply (Hcs (su_bind u) (dgs_set_socket p srv))|exact Hli|by intros (_ & ? & _)]. }
  destruct (Z.eqb_spec (su_nonblocking u) VTM_OK) as [En|En]; cbn [negb].
  2:{ eapply Hbad; [by apply (Hcs (su_nonblocking u) (dgs_set_socket p srv))|exact Hli|by intros (_ & _ & ? & _)]. }
  destruct (obj_new_ok h _ h1 (su_listener u) H1) as (q & h2 & E2 & H2 & Hq). rewrite E2, Hq.
  destruct (Z.eqb_spec (su_listener u) VTM_OK) as [El|El]; cbn [negb] in Hq |- *.
  2:{ unfold blk at 1 in H2. rewrite Hq in H2. cbn [app] in H2.
      destruct (clean_socket_ok h [] h2 (su_listener u) (dgs_set_listener q (dgs_set_socket p srv)) H2) as (h' & E & Eh%heap_nil).
      subst h'. eapply Hbad; [exact E| |by intros (_ & _ & _ & ? & _)]. cbn [dgs_set_listener dgs_listener].
      unfold obj_new, c_malloc in E2. rewrite (proj2 (Z.eqb_neq _ _) El) in E2. cbn [negb] in E2. by injection E2 as <-. }
  destruct (Z.eqb_spec (su_add u) VTM_OK) as [Ea|Ea]; cbn [negb].
  2:{ destruct (clean_listener_ok h [] h2 (su_add u) (dgs_set_listener q (dgs_set_socket p srv)) H2) as (h' & E & Eh%heap_nil).
      subst h'. eapply Hbad; [exact E|done|by intros (_ & _ & _ & _ & ? & _)]. }
  assert (forall srv1 h3, heap_ok h (dgs_blocks srv1) h3 -> (0 < threads -> dangles h srv1) ->
    run_result u threads t h (dgram_run_threads u threads t srv1 h3)) as Hrun.
  { intros srv1 h3 H3 Hd. destruct (run_threads_ok h h3 u threads t srv1 H3 Hth) as (rc & srv' & h' & E & Hl & Hne' & Hsub & Hok).
    exists rc, srv', h'. split_and!; try done; [by intros [? _]%Hok|].
    intros (_ & _ & _ & _ & _ & _ & _ & _ & Harr & Hs). destruct (Hok Hs) as [_ H]. destruct H as [-> ?]; [by right|].
    split_and!; try done. unfold dangles. by rewrite Hne'. }
  destruct (Z.ltb_spec 0 threads) as [Hpos|Hz]; cbn [negb].
  2:{ apply Hrun; [|lia]. unfold dgs_blocks.
      cbn [dgs_set_listener dgs_set_socket dgs_not_empty dgs_not_full dgs_mtx dgs_listener dgs_socket].
      rewrite Hmtx, Hnf, Hne. rewrite app_nil_r in H2. exact H2. }
  destruct (obj_new_ok h _ h2 (su_mtx u) H2) as (m & h3 & E3 & H3 & Hm). rewrite E3, Hm.
  assert (forall rc srv1 h4, heap_ok h (dgs_blocks srv1) h4 -> (setup_ok u threads -> False) ->
    run_result u threads t h (dgram_clean rc srv1 h4)) as Hclean.
  { intros rc srv1 h4 H4 Hs. rewrite <- (app_nil_r (dgs_blocks srv1)) in H4.
    destruct (clean_ok h [] h4 rc srv1 H4) as (h' & E & Eh%heap_nil). subst h'. by eapply Hbad. }
  destruct (Z.eqb_spec (su_mtx u) VTM_OK) as [Em|Em]; cbn [negb] in Hm |- *.
  2:{ eapply (Hclean _ _ h3); [|by intros (_ & _ & _ & _ & _ & ? & _)]. unfold dgs_blocks.
      cbn [dgs_set_sync dgs_set_listener dgs_set_socket dgs_not_empty dgs_not_full dgs_mtx dgs_listener dgs_socket].
      rewrite Hnf, Hne. rewrite app_nil_r in H3. exact H3. }
  destruct (obj_new_ok h _ h3 (su_not_empty u) H3) as (ne & h4 & E4 & H4 & Hne'). rewrite E4.
  destruct (obj_new_ok h _ h4 (su_not_full u) H4) as (nf & h5 & E5 & H5 & Hnf'). rewrite E5.
  assert (heap_ok h (dgs_blocks (dgs_set_sync m nf ne (dgs_set_listener q (dgs_set_socket p srv)))) h5) as H6.
  { eapply heap_ok_perm; [|exact H5]. unfold dgs_blocks. cbn. rewrite app_nil_r. solve_Permutation. }
  destruct (is_null ne || is_null nf) eqn:Enull.
  - eapply (Hclean _ _ h5); [exact H6|]. intros (_ & _ & _ & _ & _ & _ & Hx & Hy & _).
    rewrite Hne', Hnf', Hx, Hy in Enull. done.
  - apply Hrun; [exact H6|]. intros _. apply orb_false_iff in Enull as [Hn _]. split; [exact Hn|].
    cbn [dgs_not_empty dgs_set_counts dgs_set_sync]. intros p' h1' q' h2' Ep Eq.
    rewrite <- Es in Ep. rewrite E1 in Ep. injection Ep as <- <-. rewrite <- El in Eq. rewrite E2 in Eq.
    injection Eq as <- <-. destruct H2 as (_ & _ & ->). destruct H4 as (Hnd & Hf & _).
    assert (blk ne = [p_addr ne]) as Eb' by (unfold blk; by rewrite Hn). rewrite Eb' in Hnd, Hf. cbn [app] in Hnd, Hf. apply NoDup_cons in Hnd as [Hnd _].
    specialize (Hf (p_addr ne) (list_elem_of_here _ _)). set_solver.
Qed.

(** A run without workers on a server whose condition variable is gone. *)
Lemma rerun_none u limit (t : dthreads D) srv h : setup_ok u 0 -> dangles h srv ->
  vtm_socket_dgram_srv_run u limit 0 t srv h = None.
Proof.
  intros (Hs & Hb & Hn & Hl & Ha & _) [Hnull Hd]. unfold vtm_socket_dgram_srv_run. rewrite Hs.
  destruct (obj_new VTM_OK h) as [p h1] eqn:E1. specialize (Hd p h1).
  assert (is_null p = false) as Hp.
  { destruct (obj_new_ok h [] h VTM_OK (heap_ok_nil h)) as (p' & h' & E & _ & Hp'). rewrite E1 in E. by injection E as -> _. }
  rewrite Hp, Hb, Hn, Hl. change (negb (VTM_OK =? VTM_OK)) with false. cbn iota.
  destruct (obj_new VTM_OK h1) as [q h2] eqn:E2. specialize (Hd q h2 eq_refl eq_refl).
  assert (is_null q = false) as Hq.
  { destruct (obj_new_ok h1 [] h1 VTM_OK (heap_ok_nil h1)) as (q' & h' & E & _ & Hq'). rewrite E2 in E. by injection E as -> _. }
  rewrite Hq, Ha. change (negb (VTM_OK =? VTM_OK)) with false. change (negb (0 <? 0)) with true. cbn iota.
  unfold dgram_run_threads. cbn [vtm_socket_dgram_srv_workers_span Z.eqb].
  change (negb (VTM_OK =? VTM_OK)) with false. cbn iota.
  unfold vtm_socket_dgram_srv_workers_interrupt.
  cbn [dgs_not_empty dgs_set_running dgs_set_counts dgs_set_threads dgs_set_listener dgs_set_socket].
  by rewrite Hnull, decide_False.
Qed.
End RunProps.

(** ** Properties *)

(** A run of a datagram server gives back what it takes.  From a server that
    has not run yet, whichever of the calls that set it up fail, as long as all
    wanted threads can be started: the run touches no dead block, frees each
    block that it has allocated, and leaves a server that can only be told to
    run again; with a setup that works it reports success. *)
Theorem dgram_run_frees {D} u limit threads (t : dthreads D) srv h rc_stop
    (Hsrv : vtm_socket_dgram_srv_new true = Some srv) (Hth : 0 <= threads)
    (Hstart : (Z.to_nat threads <= su_threads u)%nat) :
  exists rc srv', vtm_socket_dgram_srv_run u limit threads t srv h = Some (rc, srv', h) /\
    (setup_ok u threads -> rc = VTM_OK) /\
    (vtm_socket_dgram_srv_stop rc_stop srv').1 = VTM_E_INVALID_STATE.
Proof.
  injection Hsrv as <-.
  destruct (run_ok u limit threads t (mk_dgs NULL NULL 0 false NULL [] 0 NULL NULL NULL 0 0) h)
    as (rc & srv' & h' & E & Hl & _ & Hh & Hs); [done|done|].
  rewrite (Hh Hstart) in E. exists rc, srv'. split; [done|]. split; [by intros [? _]%Hs|].
  unfold vtm_socket_dgram_srv_stop. by rewrite Hl.
Qed.

Definition demo_setup : dgram_setup := mk_setup 0 0 0 0 0 0 0 0 0 4.
Definition demo_dgs : vtm_socket_dgram_srv := mk_dgs NULL NULL 0 false NULL [] 0 NULL NULL NULL 0 0.

Lemma dgram_run_frees_witness :
  exists rc srv', vtm_socket_dgram_srv_run demo_setup 2 1 demo_dgram demo_dgs ∅ = Some (rc, srv', ∅) /\
    (setup_ok demo_setup 1 -> rc = VTM_OK) /\ (vtm_socket_dgram_srv_stop 0 srv').1 = VTM_E_INVALID_STATE.
Proof. apply (dgram_run_frees demo_setup 2 1 demo_dgram demo_dgs ∅ 0); [reflexivity|lia|cbn; lia]. Defined.

(** A datagram server cannot be run again without workers.  A run with workers
    frees its condition variables but keeps the pointers to them: the next run,
    with no workers, signals one of them, which is undefined behaviour.  And the
    counter of the queue keeps the value that the first run has left in it. *)
Theorem dgram_rerun_dangles {D} u limit threads (t t2 : dthreads D) h
    (Hth : 0 < threads) (Hu : setup_ok u threads) :
  exists srv', vtm_socket_dgram_srv_run u limit threads t demo_dgs h = Some (VTM_OK, srv', h) /\
    dgs_count srv' = dt_count t /\ vtm_socket_dgram_srv_run u limit 0 t2 srv' h = None.
Proof.
  destruct (run_ok u limit threads t demo_dgs h) as (rc & srv' & h' & E & Hl & _ & Hh & Hs); [done|lia|].
  destruct (Hs Hu) as (-> & Hc & Hd). destruct Hu as (? & ? & ? & ? & ? & ? & ? & ? & ? & Hn).
  rewrite (Hh Hn) in E. exists srv'. split; [done|]. split; [done|]. apply rerun_none; [|by apply Hd].
  split_and!; try done. lia.
Qed.

Lemma dgram_rerun_dangles_witness :
  exists srv', vtm_socket_dgram_srv_run demo_setup 1 1 full_dgram demo_dgs ∅ = Some (VTM_OK, srv', ∅) /\
    dgs_count srv' = dt_count full_dgram /\ vtm_socket_dgram_srv_run demo_setup 1 0 demo_dgram srv' ∅ = None.
Proof. apply (dgram_rerun_dangles demo_setup 1 1 full_dgram demo_dgram ∅); [done|]. split_and!; try done. cbn. lia. Defined.
