(* ===== verification/StreamLife.v ===== *)
(** * StreamLife: the life of a stream server, net/socket_stream_server.c

    The calls of its owner, one after the other, with the objects that a run
    creates and frees.  What happens between the start and the end of a run is
    StreamServer.v and StreamWorkers.v; how runs and stops of several threads
    interleave is ServerLife.v. *)

From stdpp Require Import list gmap fin_sets.
From S2P Require Import Prelude Base Elem Heap DgramLife.

(** net/socket_stream_server.c:45-68 [struct vtm_socket_stream_srv].  The objects
    that a run creates; an object is one block.  [sls_release] are the sockets in
    the list release_socks.  The locks are free whenever a function is entered. *)
Record stream_life := mk_sls {
  sls_socket : cptr;
  sls_listener : cptr;
  sls_usr_data : Z;
  sls_running : bool;
  sls_prepare_mtx : cptr;
  sls_prepare_cond : cptr;
  sls_run_mtx : cptr;
  sls_run_cond : cptr;
  sls_threads : cptr;
  sls_workers : list cptr;
  sls_thread_count : Z;
  sls_events_mtx : cptr;
  sls_events_cond : cptr;
  sls_release_socks : cptr;
  sls_release : list cptr;
  sls_relay_events : cptr;
  sls_cons : cptr;
  sls_cons_mtx : cptr
}.
Implicit Types (srv : stream_life) (h : heap).

Definition sls_set_socket p srv :=
  mk_sls p (sls_listener srv) (sls_usr_data srv) (sls_running srv) (sls_prepare_mtx srv) (sls_prepare_cond srv)
    (sls_run_mtx srv) (sls_run_cond srv) (sls_threads srv) (sls_workers srv) (sls_thread_count srv) (sls_events_mtx srv)
    (sls_events_cond srv) (sls_release_socks srv) (sls_release srv) (sls_relay_events srv) (sls_cons srv) (sls_cons_mtx srv).
Definition sls_set_listener p srv :=
  mk_sls (sls_socket srv) p (sls_usr_data srv) (sls_running srv) (sls_prepare_mtx srv) (sls_prepare_cond srv)
    (sls_run_mtx srv) (sls_run_cond srv) (sls_threads srv) (sls_workers srv) (sls_thread_count srv) (sls_events_mtx srv)
    (sls_events_cond srv) (sls_release_socks srv) (sls_release srv) (sls_relay_events srv) (sls_cons srv) (sls_cons_mtx srv).
Definition sls_set_running b srv :=
  mk_sls (sls_socket srv) (sls_listener srv) (sls_usr_data srv) b (sls_prepare_mtx srv) (sls_prepare_cond srv)
    (sls_run_mtx srv) (sls_run_cond srv) (sls_threads srv) (sls_workers srv) (sls_thread_count srv) (sls_events_mtx srv)
    (sls_events_cond srv) (sls_release_socks srv) (sls_release srv) (sls_relay_events srv) (sls_cons srv) (sls_cons_mtx srv).
Definition sls_set_latches pm pc rm rc srv :=
  mk_sls (sls_socket srv) (sls_listener srv) (sls_usr_data srv) (sls_running srv) pm pc
    rm rc (sls_threads srv) (sls_workers srv) (sls_thread_count srv) (sls_events_mtx srv)
    (sls_events_cond srv) (sls_release_socks srv) (sls_release srv) (sls_relay_events srv) (sls_cons srv) (sls_cons_mtx srv).
Definition sls_set_threads p ws n srv :=
  mk_sls (sls_socket srv) (sls_listener srv) (sls_usr_data srv) (sls_running srv) (sls_prepare_mtx srv) (sls_prepare_cond srv)
    (sls_run_mtx srv) (sls_run_cond srv) p ws n (sls_events_mtx srv)
    (sls_events_cond srv) (sls_release_socks srv) (sls_release srv) (sls_relay_events srv) (sls_cons srv) (sls_cons_mtx srv).
Definition sls_set_events mtx cond srv :=
  mk_sls (sls_socket srv) (sls_listener srv) (sls_usr_data srv) (sls_running srv) (sls_prepare_mtx srv) (sls_prepare_cond srv)
    (sls_run_mtx srv) (sls_run_cond srv) (sls_threads srv) (sls_workers srv) (sls_thread_count srv) mtx
    cond (sls_release_socks srv) (sls_release srv) (sls_relay_events srv) (sls_cons srv) (sls_cons_mtx srv).
Definition sls_set_release p l srv :=
  mk_sls (sls_socket srv) (sls_listener srv) (sls_usr_data srv) (sls_running srv) (sls_prepare_mtx srv) (sls_prepare_cond srv)
    (sls_run_mtx srv) (sls_run_cond srv) (sls_threads srv) (sls_workers srv) (sls_thread_count srv) (sls_events_mtx srv)
    (sls_events_cond srv) p l (sls_relay_events srv) (sls_cons srv) (sls_cons_mtx srv).
Definition sls_set_relay p srv :=
  mk_sls (sls_socket srv) (sls_listener srv) (sls_usr_data srv) (sls_running srv) (sls_prepare_mtx srv) (sls_prepare_cond srv)
    (sls_run_mtx srv) (sls_run_cond srv) (sls_threads srv) (sls_workers srv) (sls_thread_count srv) (sls_events_mtx srv)
    (sls_events_cond srv) (sls_release_socks srv) (sls_release srv) p (sls_cons srv) (sls_cons_mtx srv).
Definition sls_set_cons p srv :=
  mk_sls (sls_socket srv) (sls_listener srv) (sls_usr_data srv) (sls_running srv) (sls_prepare_mtx srv) (sls_prepare_cond srv)
    (sls_run_mtx srv) (sls_run_cond srv) (sls_threads srv) (sls_workers srv) (sls_thread_count srv) (sls_events_mtx srv)
    (sls_events_cond srv) (sls_release_socks srv) (sls_release srv) (sls_relay_events srv) p (sls_cons_mtx srv).
Definition sls_set_cons_mtx p srv :=
  mk_sls (sls_socket srv) (sls_listener srv) (sls_usr_data srv) (sls_running srv) (sls_prepare_mtx srv) (sls_prepare_cond srv)
    (sls_run_mtx srv) (sls_run_cond srv) (sls_threads srv) (sls_workers srv) (sls_thread_count srv) (sls_events_mtx srv)
    (sls_events_cond srv) (sls_release_socks srv) (sls_release srv) (sls_relay_events srv) (sls_cons srv) p.

(** net/socket_stream_server.c:108-122 [vtm_socket_stream_srv_new].  NULL if [ok]
    is false. *)
Definition stream_life_new (ok : bool) : option stream_life :=
  if negb ok then None
  else Some (mk_sls NULL NULL 0 false NULL NULL NULL NULL NULL [] 0 NULL NULL NULL [] NULL NULL NULL).

(** net/socket_stream_server.c:129-132 *)
Definition vtm_socket_stream_srv_get_usr_data srv : Z := sls_usr_data srv.

(** net/socket_stream_server.c:134-137 *)
Definition vtm_socket_stream_srv_set_usr_data srv (data : Z) : stream_life :=
  mk_sls (sls_socket srv) (sls_listener srv) data (sls_running srv) (sls_prepare_mtx srv) (sls_prepare_cond srv)
    (sls_run_mtx srv) (sls_run_cond srv) (sls_threads srv) (sls_workers srv) (sls_thread_count srv) (sls_events_mtx srv)
    (sls_events_cond srv) (sls_release_socks srv) (sls_release srv) (sls_relay_events srv) (sls_cons srv) (sls_cons_mtx srv).

(** The answers while a server is set up: codes for calls, whether an object is
    created, how many threads can be started; [se_err] is vtm_err_get_code() when
    one is not. *)
Record stream_setup := mk_ssetup {
  se_socket : bool; se_nonblocking : Z; se_bind : Z; se_listen : Z; se_listener : bool; se_add : Z;
  se_cons : bool; se_relay : bool;
  se_prepare_mtx : bool; se_prepare_cond : bool; se_run_mtx : bool; se_run_cond : bool;
  se_cons_mtx : bool; se_events_mtx : bool; se_events_cond : bool; se_release : bool;
  se_array : bool; se_threads : nat; se_err : Z
}.

(** How the main loop ends: its code, the flag, the sockets that wait to be
    released. *)
Record stream_end := mk_send { sn_rc : Z; sn_running : bool; sn_release : nat }.

(** An object that is created if [ok]. *)
Definition new_obj (ok : bool) h : cptr * heap := c_malloc ok [] h.

(** net/socket_stream_server.c:288-307 *)
Definition vtm_socket_stream_srv_create_socket (u : stream_setup) srv h : Z * stream_life * heap :=
  let '(p, h) := new_obj (se_socket u) h in
  let srv := sls_set_socket p srv in
  if is_null p then (VTM_ERROR, srv, h) else (VTM_OK, srv, h).

(** net/socket_stream_server.c:309-326 *)
Definition vtm_socket_stream_srv_prepare_socket (u : stream_setup) : Z :=
  if negb (se_nonblocking u =? VTM_OK) then se_nonblocking u
  else if negb (se_bind u =? VTM_OK) then se_bind u
  else se_listen u.

(** util/latch.c:9-25 [vtm_latch_init].  The mutex and the condition of a latch
    that is initialised again; the caller does not look at the code. *)
Definition latch_objs (ok_mtx ok_cond : bool) (cond : cptr) h : cptr * cptr * heap :=
  let '(m, h) := new_obj ok_mtx h in
  if is_null m then (m, cond, h)
  else let '(c, h) := new_obj ok_cond h in (m, c, h).

(** net/socket_stream_server.c:721-740.  [None] if not all threads can be started:
    those that were started use what is freed next. *)
Definition vtm_socket_stream_srv_workers_span (u : stream_setup) (threads : Z) srv h
    : option (Z * stream_life * heap) :=
  let srv := sls_set_threads (sls_threads srv) (sls_workers srv) threads srv in
  if threads =? 0 then Some (VTM_OK, srv, h)
  else
    let '(p, h) := new_obj (se_array u) h in
    let srv := sls_set_threads p [] threads srv in
    if is_null p then Some (VTM_ERROR, srv, h)
    else
      match span_loop (Z.to_nat threads) (se_threads u) h, se_threads u with
      | (true, ths, h), _ => Some (VTM_OK, sls_set_threads p ths threads srv, h)
      | (false, ths, h), O => Some (VTM_ERROR, sls_set_threads p ths threads srv, h)
      | (false, _, _), S _ => None
      end.

(** An object that may be used. *)
Definition usable (p : cptr) h : bool := negb (is_null p) && bool_decide (p_addr p ∈ h).

(** net/socket_stream_server.c:742-748.  [None] if the condition variable is not
    live. *)
Definition vtm_socket_stream_srv_workers_interrupt srv h : option unit :=
  if is_null (sls_events_cond srv) then Some tt
  else if usable (sls_events_cond srv) h then Some tt else None.

(** net/socket_stream_server.c:764-778 *)
Definition vtm_socket_stream_srv_workers_free srv h : option heap :=
  if sls_thread_count srv =? 0 then Some h
  else h ← free_all (sls_workers srv) h; c_free (sls_threads srv) h.

(** net/socket_stream_server.c:1130-1137 [vtm_socket_stream_srv_free_sockets].  [None] if there is no list. *)
Definition stream_free_sockets srv h : option heap :=
  if usable (sls_release_socks srv) h then free_all (sls_release srv) h else None.

(** net/socket_stream_server.c:261-268 [clean_socket] *)
Definition stream_clean_socket (rc : Z) srv h : option (Z * stream_life * heap) :=
  h ← c_free (sls_socket srv) h; Some (rc, srv, h).

(** net/socket_stream_server.c:256-268 [clean_listener] *)
Definition stream_clean_listener (rc : Z) srv h : option (Z * stream_life * heap) :=
  h ← c_free (sls_listener srv) h; stream_clean_socket rc (sls_set_listener NULL srv) h.

(** net/socket_stream_server.c:241-268 [clean] *)
Definition stream_clean (threads rc : Z) srv h : option (Z * stream_life * heap) :=
  h ← (if 0 <? threads then
         h ← stream_free_sockets srv h;
         free_all [sls_events_cond srv; sls_events_mtx srv; sls_cons_mtx srv; sls_release_socks srv;
                   sls_prepare_cond srv; sls_prepare_mtx srv; sls_run_cond srv; sls_run_mtx srv] h
       else Some h);
  h ← free_all [sls_relay_events srv; sls_cons srv] h;
  stream_clean_listener rc srv h.

(** net/socket_stream_server.c:328-377 [vtm_socket_stream_srv_main_run].  What it
    needs of the objects: with workers both latches, without workers no mutex, or a
    live one, for the connections. *)
Definition stream_main (n : stream_end) srv h : option (Z * stream_life * heap) :=
  if sls_thread_count srv =? 0 then
    if negb (is_null (sls_cons_mtx srv)) && negb (usable (sls_cons_mtx srv) h) then None
    else Some (sn_rc n, sls_set_running (sn_running n) srv, h)
  else if usable (sls_prepare_mtx srv) h && usable (sls_prepare_cond srv) h
          && usable (sls_run_mtx srv) h && usable (sls_run_cond srv) h then
    let '(_, socks, h) := span_loop (sn_release n) (sn_release n) h in
    Some (sn_rc n, sls_set_release (sls_release_socks srv) socks (sls_set_running (sn_running n) srv), h)
  else None.

(** net/socket_stream_server.c:217-268.  Behind the objects: the threads are
    started, work, and have ended with [n]. *)
Definition stream_run_threads (u : stream_setup) (threads : Z) (n : stream_end) srv h
    : option (Z * stream_life * heap) :=
  '(rc, srv, h) ← vtm_socket_stream_srv_workers_span u threads (sls_set_running true srv) h;
  if negb (rc =? VTM_OK) then stream_clean threads rc srv h
  else
    '(rc, srv, h) ← stream_main n srv h;
    _ ← vtm_socket_stream_srv_workers_interrupt srv h;
    h ← vtm_socket_stream_srv_workers_free srv h;
    stream_clean threads rc srv h.

(** net/socket_stream_server.c:187-215.  The objects that workers need.  The code
    for the mutex of the connections is forgotten. *)
Definition stream_run_sync (u : stream_setup) (threads : Z) (n : stream_end) srv h
    : option (Z * stream_life * heap) :=
  let '(pm, pc, h) := latch_objs (se_prepare_mtx u) (se_prepare_cond u) (sls_prepare_cond srv) h in
  let '(rm, rc, h) := latch_objs (se_run_mtx u) (se_run_cond u) (sls_run_cond srv) h in
  let srv := sls_set_latches pm pc rm rc srv in
  let '(p, h) := new_obj (se_cons_mtx u) h in
  let srv := sls_set_cons_mtx p srv in
  if is_null p then stream_clean threads VTM_OK srv h
  else
    let '(m, h) := new_obj (se_events_mtx u) h in
    let srv := sls_set_events m (sls_events_cond srv) srv in
    if is_null m then stream_clean threads (se_err u) srv h
    else
      let '(c, h) := new_obj (se_events_cond u) h in
      let srv := sls_set_events m c srv in
      if is_null c then stream_clean threads (se_err u) srv h
      else
        let '(l, h) := new_obj (se_release u) h in
        let srv := sls_set_release l [] srv in
        if is_null l then stream_clean threads (se_err u) srv h
        else stream_run_threads u threads n srv h.

(** net/socket_stream_server.c:139-269 *)
Definition vtm_socket_stream_srv_run (u : stream_setup) (threads : Z) (n : stream_end) srv h
    : option (Z * stream_life * heap) :=
  let '(rc, srv, h) := vtm_socket_stream_srv_create_socket u srv h in
  if negb (rc =? VTM_OK) then Some (rc, srv, h)
  else
    let rc := vtm_socket_stream_srv_prepare_socket u in
    if negb (rc =? VTM_OK) then stream_clean_socket rc srv h
    else
      let '(p, h) := new_obj (se_listener u) h in
      let srv := sls_set_listener p srv in
      if is_null p then stream_clean_socket (se_err u) srv h
      else if negb (se_add u =? VTM_OK) then stream_clean_listener (se_add u) srv h
      else
        let '(p, h) := new_obj (se_cons u) h in
        let srv := sls_set_cons p srv in
        if is_null p then stream_clean_listener (se_err u) srv h
        else
          let '(p, h) := new_obj (se_relay u) h in
          let srv := sls_set_relay p srv in
          if is_null p then stream_clean threads (se_err u) srv h
          else if 0 <? threads then stream_run_sync u threads n srv h
          else stream_run_threads u threads n srv h.

(** net/socket_stream_server.c:271-286.  [rc] is the code of
    vtm_socket_listener_interrupt(). *)
Definition vtm_socket_stream_srv_stop (rc : Z) srv : Z * stream_life :=
  (if is_null (sls_listener srv) then VTM_E_INVALID_STATE else rc, sls_set_running false srv).

(** ** What a run frees *)

(** The objects of workers, those of every run; in the order in which they are
    freed. *)
Definition sls_sync srv : list cptr :=
  [sls_events_cond srv; sls_events_mtx srv; sls_cons_mtx srv; sls_release_socks srv;
   sls_prepare_cond srv; sls_prepare_mtx srv; sls_run_cond srv; sls_run_mtx srv].
Definition sls_base srv : list cptr := [sls_relay_events srv; sls_cons srv; sls_listener srv; sls_socket srv].

Definition blks (ps : list cptr) : list Z := concat (map blk ps).

Lemma blks_app ps qs : blks (ps ++ qs) = blks ps ++ blks qs.
Proof. unfold blks. by rewrite map_app, concat_app. Qed.

Lemma new_obj_ok F l h ok :
  heap_ok F l h -> exists p h', new_obj ok h = (p, h') /\ heap_ok F (blk p ++ l) h' /\ is_null p = negb ok.
Proof.
  intros Ho. destruct (obj_new_ok F l h (if ok then VTM_OK else VTM_ERROR) Ho) as (p & h' & E & H1 & H2).
  exists p, h'. by destruct ok.
Qed.

Lemma usable_live F l h p : heap_ok F l h -> is_null p = false -> p_addr p ∈ l -> usable p h = true.
Proof.
  intros Ho Hp Hl. unfold usable. rewrite Hp, bool_decide_true; [done|]. by eapply blk_live.
Qed.

Lemma blk_in p ps : is_null p = false -> p ∈ ps -> p_addr p ∈ blks ps.
Proof.
  intros Hp Hin. unfold blks. apply list_elem_of_In, in_concat. exists (blk p). split.
  - apply in_map. by apply list_elem_of_In.
  - unfold blk. rewrite Hp. by left.
Qed.

Lemma stream_clean_socket_ok F l h rc srv :
  heap_ok F (blks [sls_socket srv] ++ l) h ->
  exists h', stream_clean_socket rc srv h = Some (rc, srv, h') /\ heap_ok F l h'.
Proof.
  unfold blks. cbn [map concat]. rewrite app_nil_r. intros (h' & E & Ho)%c_free_blk. exists h'.
  unfold stream_clean_socket. by rewrite E.
Qed.

Lemma stream_clean_listener_ok F l h rc srv :
  heap_ok F (blks [sls_listener srv; sls_socket srv] ++ l) h ->
  exists h', stream_clean_listener rc srv h = Some (rc, sls_set_listener NULL srv, h') /\ heap_ok F l h'.
Proof.
  change [sls_listener srv; sls_socket srv] with ([sls_listener srv] ++ [sls_socket srv]).
  rewrite blks_app, <- app_assoc. unfold blks at 1. cbn [map concat]. rewrite app_nil_r.
  intros (h1 & E & Ho)%c_free_blk. unfold stream_clean_listener. rewrite E. cbn [mbind option_bind].
  by apply (stream_clean_socket_ok F l h1 rc (sls_set_listener NULL srv)).
Qed.

(** What [stream_clean] frees. *)
Definition sls_blocks (threads : Z) srv : list Z :=
  (if 0 <? threads then blks (sls_release srv) ++ blks (sls_sync srv) else []) ++ blks (sls_base srv).

Lemma stream_clean_ok F l h threads rc srv :
  heap_ok F (sls_blocks threads srv ++ l) h -> (0 < threads -> is_null (sls_release_socks srv) = false) ->
  exists h', stream_clean threads rc srv h = Some (rc, sls_set_listener NULL srv, h') /\ heap_ok F l h'.
Proof.
  unfold sls_blocks, stream_clean. intros Ho Hr.
  assert (exists h1, (if 0 <? threads then
      h ← stream_free_sockets srv h; free_all (sls_sync srv) h else Some h) = Some h1 /\
      heap_ok F (blks (sls_base srv) ++ l) h1) as (h1 & E1 & H1).
  { destruct (Z.ltb_spec 0 threads) as [Hpos|]; [|by exists h]. rewrite <- !app_assoc in Ho.
    unfold stream_free_sockets. erewrite usable_live; [|exact Ho|by apply Hr|].
    2:{ apply elem_of_app. right. apply elem_of_app. left. apply blk_in; [by apply Hr|]. unfold sls_sync.
        do 3 right. by left. }
    apply free_all_ok in Ho as (h0 & E0 & Ho). rewrite E0. cbn [mbind option_bind].
    apply free_all_ok in Ho as (h1 & E1 & Ho). by exists h1. }
  change (free_all [_; _; _; _; _; _; _; _]) with (free_all (sls_sync srv)). rewrite E1. cbn [mbind option_bind].
  change (sls_base srv) with ([sls_relay_events srv; sls_cons srv] ++ [sls_listener srv; sls_socket srv]) in H1.
  rewrite blks_app, <- app_assoc in H1. apply free_all_ok in H1 as (h2 & E2 & H2). rewrite E2. cbn [mbind option_bind].
  by apply stream_clean_listener_ok.
Qed.

(** Fields of a server that is set up. *)
Ltac sls_cbn :=
  cbn [sls_set_socket sls_set_listener sls_set_running sls_set_latches sls_set_threads sls_set_events sls_set_release
       sls_set_relay sls_set_cons sls_set_cons_mtx sls_socket sls_listener sls_usr_data sls_running sls_prepare_mtx
       sls_prepare_cond sls_run_mtx sls_run_cond sls_threads sls_workers sls_thread_count sls_events_mtx sls_events_cond
       sls_release_socks sls_release sls_relay_events sls_cons sls_cons_mtx].

(** A server whose objects are there, for a number of threads. *)
Definition sls_ready (threads : Z) srv : Prop :=
  if 0 <? threads then Forall (fun p => is_null p = false) (sls_sync srv) /\ sls_release srv = []
  else is_null (sls_events_cond srv) = true /\ is_null (sls_cons_mtx srv) = true.

Lemma sls_sync_usable F l h srv p :
  heap_ok F l h -> Forall (fun p => is_null p = false) (sls_sync srv) -> p ∈ sls_sync srv ->
  (forall a, a ∈ blks (sls_sync srv) -> a ∈ l) -> usable p h = true.
Proof.
  intros Ho Hn Hp Hl. rewrite Forall_forall in Hn. eapply usable_live; [exact Ho|by apply Hn|].
  apply Hl, blk_in; [by apply Hn|done].
Qed.

(** The end of a run that was set up. *)
Lemma stream_clean_ready h0 h threads rc srv srv1 :
  heap_ok h0 (sls_blocks threads srv) h -> sls_ready threads srv ->
  sls_blocks threads srv1 = sls_blocks threads srv -> sls_release_socks srv1 = sls_release_socks srv ->
  stream_clean threads rc srv1 h = Some (rc, sls_set_listener NULL srv1, h0).
Proof.
  intros H1 Hr Eb Er. rewrite <- Eb, <- (app_nil_r (sls_blocks _ _)) in H1.
  destruct (stream_clean_ok h0 [] h threads rc srv1 H1) as (h' & -> & Eh%heap_nil); [|by subst].
  intros Hpos. rewrite Er. unfold sls_ready in Hr. rewrite (proj2 (Z.ltb_lt _ _) Hpos) in Hr. destruct Hr as [Hr _].
  rewrite Forall_forall in Hr. apply Hr. unfold sls_sync. do 3 right. by left.
Qed.

(** A run without workers. *)
Lemma stream_run_direct_ok h0 h u n srv :
  heap_ok h0 (sls_blocks 0 srv) h -> sls_ready 0 srv ->
  exists srv', stream_run_threads u 0 n srv h = Some (sn_rc n, srv', h0) /\ sls_listener srv' = NULL /\
    sls_events_cond srv' = sls_events_cond srv /\ sls_cons_mtx srv' = sls_cons_mtx srv.
Proof.
  intros Ho Hr. pose proof Hr as [Hc Hm]. unfold stream_run_threads, vtm_socket_stream_srv_workers_span.
  change (0 =? 0) with true. cbn [mbind option_bind]. change (negb (VTM_OK =? VTM_OK)) with false. cbn iota.
  unfold stream_main. sls_cbn. rewrite Hm. change (0 =? 0) with true. cbn [negb andb mbind option_bind].
  unfold vtm_socket_stream_srv_workers_interrupt. sls_cbn. rewrite Hc. cbn [mbind option_bind].
  unfold vtm_socket_stream_srv_workers_free. sls_cbn. change (0 =? 0) with true. cbn [mbind option_bind].
  erewrite stream_clean_ready; [|exact Ho|exact Hr|done|done]. by eexists.
Qed.

(** The main loop and the end of workers; [ths] are the threads, [p] their
    array. *)
Lemma stream_run_workers_ok h0 h threads n srv p ths :
  heap_ok h0 (blks ths ++ blk p ++ sls_blocks threads srv) h -> 0 < threads -> sls_ready threads srv ->
  sls_threads srv = p -> sls_workers srv = ths -> sls_thread_count srv = threads ->
  exists srv',
    ('(rc, srv, h) ← stream_main n srv h; _ ← vtm_socket_stream_srv_workers_interrupt srv h;
     h ← vtm_socket_stream_srv_workers_free srv h; stream_clean threads rc srv h) = Some (sn_rc n, srv', h0) /\
    sls_listener srv' = NULL.
Proof.
  intros Ho Hpos Hr Hp Hths Hcount. unfold sls_ready in Hr. rewrite (proj2 (Z.ltb_lt 0 threads)) in Hr by lia.
  destruct Hr as [Hs Hrel].
  assert (forall l h1 q, heap_ok h0 (l ++ blks ths ++ blk p ++ sls_blocks threads srv) h1 -> q ∈ sls_sync srv ->
    usable q h1 = true) as Hus.
  { intros l h1 q H1 Hq. eapply sls_sync_usable; [exact H1|exact Hs|exact Hq|]. intros a Ha.
    unfold sls_blocks. rewrite (proj2 (Z.ltb_lt 0 threads)) by lia. rewrite !elem_of_app. tauto. }
  unfold stream_main. rewrite Hcount, (proj2 (Z.eqb_neq threads 0)) by lia.
  rewrite !(Hus [] h) by (done || unfold sls_sync; rewrite !elem_of_cons; tauto). cbn [andb].
  destruct (span_loop_ok h0 (sn_release n) (sn_release n) _ h Ho) as (ok & socks & h3 & E3 & H3 & _). rewrite E3.
  fold (blks socks) in H3. cbn [mbind option_bind]. set (srv3 := sls_set_release _ _ _).
  assert (vtm_socket_stream_srv_workers_interrupt srv3 h3 = Some tt) as ->.
  { unfold vtm_socket_stream_srv_workers_interrupt. change (sls_events_cond srv3) with (sls_events_cond srv).
    rewrite (Hus _ h3 _ H3) by (by left). by destruct (is_null _). }
  cbn [mbind option_bind]. unfold vtm_socket_stream_srv_workers_free.
  change (sls_thread_count srv3) with (sls_thread_count srv). change (sls_workers srv3) with (sls_workers srv).
  change (sls_threads srv3) with (sls_threads srv).
  rewrite Hcount, Hths, Hp, (proj2 (Z.eqb_neq threads 0)) by lia.
  assert (heap_ok h0 (blks ths ++ blk p ++ blks socks ++ sls_blocks threads srv) h3) as H4
    by (eapply heap_ok_perm; [|exact H3]; solve_Permutation).
  apply free_all_ok in H4 as (h4 & E4 & H4). rewrite E4. cbn [mbind option_bind].
  apply c_free_blk in H4 as (h5 & E5 & H5). rewrite E5. cbn [mbind option_bind].
  assert (blks socks ++ sls_blocks threads srv = sls_blocks threads srv3) as Eb.
  { unfold sls_blocks. rewrite (proj2 (Z.ltb_lt 0 threads)) by lia. rewrite Hrel. cbn [blks map concat app].
    by rewrite <- !app_assoc. }
  rewrite Eb, <- (app_nil_r (sls_blocks _ _)) in H5.
  destruct (stream_clean_ok h0 [] h5 threads (sn_rc n) srv3 H5) as (h' & E & Eh%heap_nil).
  { intros _. rewrite Forall_forall in Hs. apply Hs. unfold sls_sync. do 3 right. by left. }
  rewrite E, Eh. by eexists.
Qed.

Lemma stream_run_threads_ok h0 h u threads n srv :
  heap_ok h0 (sls_blocks threads srv) h -> 0 <= threads -> (Z.to_nat threads <= se_threads u)%nat ->
  sls_ready threads srv ->
  exists rc srv', stream_run_threads u threads n srv h = Some (rc, srv', h0) /\ sls_listener srv' = NULL /\
    (threads = 0 \/ se_array u = true -> rc = sn_rc n).
Proof.
  intros Ho Hth Hst Hr. destruct (Z.eq_dec threads 0) as [->|Hne].
  { destruct (stream_run_direct_ok h0 h u n srv Ho Hr) as (srv' & -> & Hl & _). by eexists _, _. }
  unfold stream_run_threads, vtm_socket_stream_srv_workers_span. rewrite (proj2 (Z.eqb_neq threads 0)) by lia.
  destruct (new_obj_ok h0 _ h (se_array u) Ho) as (p & h1 & E1 & H1 & Hp). rewrite E1, Hp.
  destruct (se_array u); cbn [negb mbind option_bind].
  2:{ change (negb (VTM_ERROR =? VTM_OK)) with true. cbn iota. unfold blk at 1 in H1. rewrite Hp in H1. cbn [app negb] in H1.
      erewrite stream_clean_ready; [|exact H1|exact Hr|done|done]. eexists _, _. split; [reflexivity|].
      split; [done|]. intros []; [lia|done]. }
  destruct (span_loop_ok h0 (Z.to_nat threads) (se_threads u) _ h1 H1) as (ok & ths & h2 & E2 & H2 & ->).
  rewrite E2, (proj2 (Nat.leb_le _ _) Hst). cbn [mbind option_bind]. change (negb (VTM_OK =? VTM_OK)) with false. cbn iota.
  destruct (stream_run_workers_ok h0 h2 threads n (sls_set_threads p ths threads
    (sls_set_threads p [] threads (sls_set_threads (sls_threads (sls_set_running true srv))
      (sls_workers (sls_set_running true srv)) threads (sls_set_running true srv)))) p ths) as (srv' & E & Hl);
    [exact H2|lia|exact Hr|done|done|done|].
  exists (sn_rc n), srv'. split; [exact E|]. by split.
Qed.

(** The objects of workers can be created. *)
Definition sync_setup (u : stream_setup) : Prop :=
  se_relay u = true /\ se_prepare_mtx u = true /\ se_prepare_cond u = true /\ se_run_mtx u = true /\ se_run_cond u = true /\
  se_cons_mtx u = true /\ se_events_mtx u = true /\ se_events_cond u = true /\ se_release u = true.

Lemma stream_run_sync_ok h0 h u threads n srv :
  heap_ok h0 (blks (sls_base srv)) h -> 0 < threads -> (Z.to_nat threads <= se_threads u)%nat -> sync_setup u ->
  exists rc srv', stream_run_sync u threads n srv h = Some (rc, srv', h0) /\ sls_listener srv' = NULL /\
    (se_array u = true -> rc = sn_rc n).
Proof.
  intros Ho Hpos Hst Hu. unfold stream_run_sync, latch_objs. destruct Hu as (_ & -> & -> & -> & -> & -> & -> & -> & ->).
  destruct (new_obj_ok h0 _ h true Ho) as (pm & h1 & E1 & H1 & N1). rewrite E1, N1. cbn [negb].
  destruct (new_obj_ok h0 _ h1 true H1) as (pc & h2 & E2 & H2 & N2). rewrite E2.
  destruct (new_obj_ok h0 _ h2 true H2) as (rm & h3 & E3 & H3 & N3). rewrite E3, N3. cbn [negb].
  destruct (new_obj_ok h0 _ h3 true H3) as (rc & h4 & E4 & H4 & N4). rewrite E4.
  destruct (new_obj_ok h0 _ h4 true H4) as (cm & h5 & E5 & H5 & N5). rewrite E5, N5. cbn [negb].
  destruct (new_obj_ok h0 _ h5 true H5) as (em & h6 & E6 & H6 & N6). rewrite E6, N6. cbn [negb].
  destruct (new_obj_ok h0 _ h6 true H6) as (ec & h7 & E7 & H7 & N7). rewrite E7, N7. cbn [negb].
  destruct (new_obj_ok h0 _ h7 true H7) as (rl & h8 & E8 & H8 & N8). rewrite E8, N8. cbn [negb].
  match goal with |- context [stream_run_threads u threads n ?s h8] =>
    destruct (stream_run_threads_ok h0 h8 u threads n s) as (r & srv' & E & Hl & Hr) end.
  - unfold sls_blocks. rewrite (proj2 (Z.ltb_lt 0 threads)) by lia. eapply heap_ok_perm; [|exact H8].
    unfold sls_sync, sls_base, blks. sls_cbn. cbn [map concat app]. rewrite !app_nil_r. solve_Permutation.
  - lia.
  - done.
  - unfold sls_ready. rewrite (proj2 (Z.ltb_lt 0 threads)) by lia. split; [|done]. unfold sls_sync. sls_cbn.
    repeat constructor; done.
  - exists r, srv'. split; [exact E|]. split; [done|]. intros. apply Hr. by right.
Qed.

(** The calls in front succeed. *)
Definition base_setup (u : stream_setup) : Prop :=
  se_socket u = true /\ se_nonblocking u = VTM_OK /\ se_bind u = VTM_OK /\ se_listen u = VTM_OK /\ se_listener u = true /\
  se_add u = VTM_OK /\ se_cons u = true.

(** A server that can be run with a number of threads: its listener is gone; if
    there are no workers, it had none in an earlier run. *)
Definition sls_idle (threads : Z) srv : Prop :=
  sls_listener srv = NULL /\
  (threads = 0 -> is_null (sls_events_cond srv) = true /\ is_null (sls_cons_mtx srv) = true).

Lemma prepare_ok_setup u : vtm_socket_stream_srv_prepare_socket u <> VTM_OK -> base_setup u -> False.
Proof. intros H (_ & E1 & E2 & E3 & _). apply H. unfold vtm_socket_stream_srv_prepare_socket. by rewrite E1, E2. Qed.

Ltac blks_from H :=
  unfold blks; cbn [map concat sls_base]; rewrite !app_nil_r; rewrite ?app_nil_r in H; exact H.

Lemma stream_run_ok u threads n srv h :
  0 <= threads -> (Z.to_nat threads <= se_threads u)%nat -> (0 < threads -> sync_setup u) -> sls_idle threads srv ->
  exists rc srv', vtm_socket_stream_srv_run u threads n srv h = Some (rc, srv', h) /\ sls_idle threads srv' /\
    (base_setup u -> se_relay u = true -> threads = 0 \/ se_array u = true -> rc = sn_rc n).
Proof.
  intros Hth Hst Hsync [Hli Hidle]. unfold vtm_socket_stream_srv_run, vtm_socket_stream_srv_create_socket.
  destruct (new_obj_ok h [] h (se_socket u) (heap_ok_nil h)) as (p & h1 & E1 & H1 & Hp). rewrite E1, Hp.
  destruct (se_socket u) eqn:Es; cbn [negb] in Hp |- *.
  2:{ unfold blk in H1. rewrite Hp in H1. apply heap_nil in H1 as ->. change (negb (VTM_ERROR =? VTM_OK)) with true. cbn iota.
      eexists _, _. split; [reflexivity|]. split; [by split|]. intros (? & _). congruence. }
  change (negb (VTM_OK =? VTM_OK)) with false. cbn iota. set (srv1 := sls_set_socket p srv).
  assert (forall rc srv2, sls_socket srv2 = p -> stream_clean_socket rc srv2 h1 = Some (rc, srv2, h)) as Hcs.
  { intros rc srv2 <-. destruct (stream_clean_socket_ok h [] h1 rc srv2) as (h' & E & Eh%heap_nil); [|by subst].
    blks_from H1. }
  destruct (Z.eqb_spec (vtm_socket_stream_srv_prepare_socket u) VTM_OK) as [Ep|Ep]; cbn [negb].
  2:{ rewrite Hcs by done. eexists _, _. split; [reflexivity|]. split; [by split|]. intros Hb. by destruct (prepare_ok_setup u Ep Hb). }
  destruct (new_obj_ok h _ h1 (se_listener u) H1) as (q & h2 & E2 & H2 & Hq). rewrite E2, Hq.
  destruct (se_listener u) eqn:El; cbn [negb] in Hq |- *.
  2:{ unfold blk at 1 in H2. rewrite Hq in H2. cbn [app] in H2.
      destruct (stream_clean_socket_ok h [] h2 (se_err u) (sls_set_listener q srv1)) as (h' & E & Eh%heap_nil).
      { blks_from H2. }
      subst h'. eexists _, _. split; [exact E|]. split; [|intros (_ & _ & _ & _ & ? & _); congruence]. split; [|exact Hidle].
      unfold new_obj, c_malloc in E2. cbn [negb] in E2. by injection E2 as <-. }
  assert (forall rc srv3, sls_socket srv3 = p -> sls_listener srv3 = q ->
    (threads = 0 -> is_null (sls_events_cond srv3) = true /\ is_null (sls_cons_mtx srv3) = true) ->
    exists srv', stream_clean_listener rc srv3 h2 = Some (rc, srv', h) /\ sls_idle threads srv') as Hcl.
  { intros rc srv3 <- <- Hi. destruct (stream_clean_listener_ok h [] h2 rc srv3) as (h' & E & Eh%heap_nil).
    - blks_from H2.
    - subst h'. by eexists. }
  destruct (Z.eqb_spec (se_add u) VTM_OK) as [Ea|Ea]; cbn [negb].
  2:{ edestruct Hcl as (srv' & -> & Hl); [reflexivity|reflexivity|exact Hidle|]. eexists _, _. split; [reflexivity|]. split; [exact Hl|].
      intros (_ & _ & _ & _ & _ & ? & _). congruence. }
  destruct (new_obj_ok h _ h2 (se_cons u) H2) as (c & h3 & E3 & H3 & Hc). rewrite E3, Hc.
  destruct (se_cons u) eqn:Ec; cbn [negb] in Hc |- *.
  2:{ unfold blk at 1 in H3. rewrite Hc in H3. cbn [app] in H3.
      assert (h3 = h2) as -> by (destruct H2 as (_ & _ & ->), H3 as (_ & _ & ->); done).
      edestruct Hcl as (srv' & -> & Hl); [reflexivity|reflexivity|exact Hidle|]. eexists _, _. split; [reflexivity|]. split; [exact Hl|].
      intros (_ & _ & _ & _ & _ & _ & ?). congruence. }
  destruct (new_obj_ok h _ h3 (se_relay u) H3) as (r & h4 & E4 & H4 & Hr). rewrite E4, Hr.
  set (srv4 := sls_set_relay r _).
  assert (heap_ok h (blks (sls_base srv4)) h4) as H5.
  { blks_from H4. }
  destruct (Z.ltb_spec 0 threads) as [Hpos|Hz].
  - pose proof (Hsync Hpos) as (Hrel & _). rewrite Hrel. cbn [negb].
    destruct (stream_run_sync_ok h h4 u threads n srv4 H5 Hpos Hst (Hsync Hpos)) as (rc & srv' & E & Hl & Hrc).
    exists rc, srv'. split; [exact E|]. split; [by split; [|lia]|]. intros _ _ [?|?]; [lia|by apply Hrc].
  - assert (threads = 0) as -> by lia. destruct (Hidle eq_refl) as [Hic Him].
    assert (sls_ready 0 srv4) as Hready by by split.
    destruct (se_relay u) eqn:Er; cbn [negb].
    + destruct (stream_run_direct_ok h h4 u n srv4 H5 Hready) as (srv' & E & Hl & Ec' & Em).
      exists (sn_rc n), srv'. split; [exact E|]. split; [|done]. split; [exact Hl|]. by rewrite Ec', Em.
    + destruct (stream_clean_ok h [] h4 0 (se_err u) srv4) as (h' & E & Eh%heap_nil); [by rewrite app_nil_r|lia|].
      subst h'. eexists _, _. split; [exact E|]. split; [by split|]. intros _ ?. congruence.
Qed.

(** Runs of a server, one after the other, with their codes. *)
Fixpoint stream_runs (runs : list (stream_setup * Z * stream_end)) srv h : option (list Z * stream_life * heap) :=
  match runs with
  | [] => Some ([], srv, h)
  | (u, threads, n) :: runs =>
      '(rc, srv, h) ← vtm_socket_stream_srv_run u threads n srv h;
      '(rcs, srv, h) ← stream_runs runs srv h;
      Some (rc :: rcs, srv, h)
  end.

(** A run with [threads] workers can start all of them and gets the objects they
    need. *)
Definition run_fits (workers : bool) (r : stream_setup * Z * stream_end) : Prop :=
  let '(u, threads, _) := r in
  (if workers then 0 < threads /\ sync_setup u else threads = 0) /\ (Z.to_nat threads <= se_threads u)%nat.

Definition run_code (r : stream_setup * Z * stream_end) (rc : Z) : Prop :=
  let '(u, threads, n) := r in base_setup u -> se_relay u = true -> threads = 0 \/ se_array u = true -> rc = sn_rc n.

Lemma stream_runs_ok workers runs : forall srv h,
  Forall (run_fits workers) runs -> sls_idle (if workers then 1 else 0) srv ->
  exists rcs srv', stream_runs runs srv h = Some (rcs, srv', h) /\ sls_idle (if workers then 1 else 0) srv' /\
    Forall2 run_code runs rcs.
Proof.
  induction runs as [|[[u threads] n] runs IH]; intros srv h Hf Hi; [by exists [], srv|].
  apply Forall_cons in Hf as [[Hk Hst] Hf].
  assert (sls_idle threads srv /\ 0 <= threads /\ (0 < threads -> sync_setup u) /\
    forall srv', sls_idle threads srv' -> sls_idle (if workers then 1 else 0) srv') as (Hi1 & Hth & Hs & Hback).
  { destruct workers.
    - destruct Hk as [Hpos Hs], Hi as [Hi _]. split; [split; [done|lia]|]. split; [lia|]. split; [done|].
      intros srv' [? _]. split; [done|lia].
    - subst threads. split; [done|]. split; [lia|]. split; [lia|done]. }
  destruct (stream_run_ok u threads n srv h Hth Hst Hs Hi1) as (rc & srv1 & E & Hi2 & Hrc).
  destruct (IH srv1 h Hf (Hback _ Hi2)) as (rcs & srv' & E' & Hi' & Hrcs).
  exists (rc :: rcs), srv'. cbn [stream_runs]. rewrite E. cbn [mbind option_bind]. rewrite E'. cbn [mbind option_bind].
  split; [done|]. split; [done|]. by constructor.
Qed.

(** C22: The runs of a stream server give back what they take (net/socket_stream_server.c,
    vtm_socket_stream_srv_run).  On a new server, any sequence of runs, all of them
    with workers or all of them without, whichever of the calls in front of the
    workers' objects fail (with workers, the list of relayed events counts as one
    of these objects, and all threads start): no run touches an object that is not alive; behind them
    each object is freed that was created; a run whose setup succeeds returns the
    code of the main loop; and the server can only be told that it does not run. *)
Theorem stream_runs_free workers runs srv h rc_stop
    (Hnew : stream_life_new true = Some srv) (Hruns : Forall (run_fits workers) runs) :
  exists rcs srv', stream_runs runs srv h = Some (rcs, srv', h) /\ Forall2 run_code runs rcs /\
    (vtm_socket_stream_srv_stop rc_stop srv').1 = VTM_E_INVALID_STATE.
Proof.
  destruct (stream_runs_ok workers runs srv h Hruns) as (rcs & srv' & E & [Hl _] & Hc).
  - injection Hnew as <-. by split.
  - exists rcs, srv'. split; [exact E|]. split; [exact Hc|]. unfold vtm_socket_stream_srv_stop. by rewrite Hl.
Qed.

Definition demo_stream_setup : stream_setup :=
  mk_ssetup true 0 0 0 true 0 true true true true true true true true true true true 4 0.

(** A server that cannot be bound, then one that runs with three workers. *)
Definition demo_stream_runs : list (stream_setup * Z * stream_end) :=
  [(mk_ssetup true 0 7 0 true 0 true true true true true true true true true true true 4 0, 2, mk_send 0 false 0);
   (demo_stream_setup, 3, mk_send 0 false 2)].

Lemma stream_runs_free_witness :
  exists rcs srv', stream_runs demo_stream_runs (default (mk_sls NULL NULL 0 false NULL NULL NULL NULL NULL [] 0 NULL NULL NULL [] NULL NULL NULL)
      (stream_life_new true)) ∅ = Some (rcs, srv', ∅) /\ Forall2 run_code demo_stream_runs rcs /\
    (vtm_socket_stream_srv_stop 0 srv').1 = VTM_E_INVALID_STATE.
Proof.
  apply (stream_runs_free true demo_stream_runs _ ∅ 0); [reflexivity|].
  repeat constructor; try reflexivity; cbn; lia.
Defined.

Lemma stream_clean_no_list threads rc srv h :
  0 < threads -> is_null (sls_release_socks srv) = true -> stream_clean threads rc srv h = None.
Proof.
  intros Hpos Hn. unfold stream_clean, stream_free_sockets, usable. rewrite (proj2 (Z.ltb_lt _ _) Hpos), Hn. done.
Qed.

Lemma new_obj_fails h p h' : new_obj false h = (p, h') -> is_null p = true.
Proof. intros E. unfold new_obj, c_malloc in E. cbn [negb] in E. by injection E as <- <-. Qed.

Lemma new_obj_null h ok : exists p h', new_obj ok h = (p, h') /\ is_null p = negb ok.
Proof. destruct (new_obj_ok h [] h ok (heap_ok_nil h)) as (p & h' & E & _ & H). by exists p, h'. Qed.

(** A latch without its mutex or its condition. *)
Lemma stream_threads_no_latch u threads n srv h :
  0 < threads -> (Z.to_nat threads <= se_threads u)%nat -> se_array u = true ->
  is_null (sls_prepare_mtx srv) || is_null (sls_prepare_cond srv) || is_null (sls_run_mtx srv) || is_null (sls_run_cond srv) = true ->
  stream_run_threads u threads n srv h = None.
Proof.
  intros Hpos Hst Ha Hl. unfold stream_run_threads, vtm_socket_stream_srv_workers_span.
  rewrite (proj2 (Z.eqb_neq threads 0)), Ha by lia.
  destruct (new_obj_null h true) as (p & h1 & -> & ->). cbn [negb].
  destruct (span_loop_ok h1 (Z.to_nat threads) (se_threads u) [] h1 (heap_ok_nil h1)) as (ok & ths & h2 & E2 & _ & ->).
  rewrite E2, (proj2 (Nat.leb_le _ _) Hst). cbn [mbind option_bind]. change (negb (VTM_OK =? VTM_OK)) with false. cbn iota.
  unfold stream_main. sls_cbn. rewrite (proj2 (Z.eqb_neq threads 0)) by lia. unfold usable.
  destruct (is_null (sls_prepare_mtx srv)); [done|]. destruct (is_null (sls_prepare_cond srv)); [by rewrite andb_false_r|].
  destruct (is_null (sls_run_mtx srv)); [by rewrite andb_false_r|]. cbn [orb] in Hl. rewrite Hl. cbn [negb andb].
  by rewrite andb_false_r.
Qed.

(** C39: A stream server with workers does not survive a failing allocation behind
    its map of connections (net/socket_stream_server.c, vtm_socket_stream_srv_run).
    If the list of relayed events, a mutex, a condition, a part of a latch or the
    list of sockets cannot be created, the first run of the server ends in
    undefined behaviour or with a failing assertion: the cleanup walks the list of
    sockets, which is not there, or the workers use a latch that was not
    initialised. *)
Theorem stream_setup_crashes u threads n srv h
    (Hnew : stream_life_new true = Some srv) (Hth : 0 < threads) (Hst : (Z.to_nat threads <= se_threads u)%nat)
    (Hbase : base_setup u) (Harr : se_array u = true) (Hfail : ~ sync_setup u) :
  vtm_socket_stream_srv_run u threads n srv h = None.
Proof.
  injection Hnew as <-. destruct Hbase as (H1 & H2 & H3 & H4 & H5 & H6 & H7).
  unfold vtm_socket_stream_srv_run, vtm_socket_stream_srv_create_socket, vtm_socket_stream_srv_prepare_socket.
  rewrite H1, H2, H3, H4, H5, H6, H7. change (negb (VTM_OK =? VTM_OK)) with false.
  destruct (new_obj_null h true) as (p & h1 & -> & ->). change (negb (VTM_OK =? VTM_OK)) with false. cbn [negb].
  destruct (new_obj_null h1 true) as (q & h2 & -> & ->). change (negb (VTM_OK =? VTM_OK)) with false. cbn [negb].
  destruct (new_obj_null h2 true) as (c & h3 & -> & ->). cbn [negb].
  destruct (new_obj_null h3 (se_relay u)) as (r & h4 & -> & ->).
  destruct (se_relay u) eqn:Er; cbn [negb]; [|by apply stream_clean_no_list].
  rewrite (proj2 (Z.ltb_lt _ _) Hth). unfold stream_run_sync, latch_objs. sls_cbn.
  destruct (new_obj_null h4 (se_prepare_mtx u)) as (pm & h5 & -> & Npm).
  assert (exists pc h6, (if is_null pm then (pm, NULL, h5) else let '(c, h) := new_obj (se_prepare_cond u) h5 in (pm, c, h))
    = (pm, pc, h6) /\ is_null pm || is_null pc = negb (se_prepare_mtx u && se_prepare_cond u)) as (pc & h6 & -> & Np).
  { rewrite Npm. destruct (se_prepare_mtx u); cbn [negb andb orb]; [|by eexists _, _].
    destruct (new_obj_null h5 (se_prepare_cond u)) as (pc & h6 & -> & N). by eexists _, _. }
  destruct (new_obj_null h6 (se_run_mtx u)) as (rm & h7 & -> & Nrm).
  assert (exists rc h8, (if is_null rm then (rm, NULL, h7) else let '(c, h) := new_obj (se_run_cond u) h7 in (rm, c, h))
    = (rm, rc, h8) /\ is_null rm || is_null rc = negb (se_run_mtx u && se_run_cond u)) as (rc & h8 & -> & Nr).
  { rewrite Nrm. destruct (se_run_mtx u); cbn [negb andb orb]; [|by eexists _, _].
    destruct (new_obj_null h7 (se_run_cond u)) as (rc & h8 & -> & N). by eexists _, _. }
  destruct (new_obj_null h8 (se_cons_mtx u)) as (cm & h9 & -> & ->).
  destruct (se_cons_mtx u) eqn:E1; cbn [negb]; [|by apply stream_clean_no_list].
  destruct (new_obj_null h9 (se_events_mtx u)) as (em & h10 & -> & ->).
  destruct (se_events_mtx u) eqn:E2; cbn [negb]; [|by apply stream_clean_no_list].
  destruct (new_obj_null h10 (se_events_cond u)) as (ec & h11 & -> & ->).
  destruct (se_events_cond u) eqn:E3; cbn [negb]; [|by apply stream_clean_no_list].
  destruct (new_obj_null h11 (se_release u)) as (rl & h12 & -> & Nrl). rewrite Nrl.
  destruct (se_release u) eqn:E4; cbn [negb]; [|by apply stream_clean_no_list].
  apply stream_threads_no_latch; [done|done|done|]. sls_cbn. rewrite <- orb_assoc, Np, Nr.
  destruct (se_prepare_mtx u) eqn:E5, (se_prepare_cond u) eqn:E6, (se_run_mtx u) eqn:E7, (se_run_cond u) eqn:E8; try done.
  destruct Hfail. by repeat split.
Qed.

Lemma stream_setup_crashes_witness :
  vtm_socket_stream_srv_run (mk_ssetup true 0 0 0 true 0 true true true true true true false true true true true 4 12) 2 (mk_send 0 false 0)
    (default (mk_sls NULL NULL 0 false NULL NULL NULL NULL NULL [] 0 NULL NULL NULL [] NULL NULL NULL) (stream_life_new true)) ∅ = None.
Proof.
  apply stream_setup_crashes; [reflexivity|lia|cbn; lia|by repeat split|reflexivity|].
  intros (_ & _ & _ & _ & _ & H & _). discriminate H.
Defined.
