(* ===== verification/NmSend.v ===== *)
(** * NmSend: messages that can be sent

    When writing a message succeeds (net/nm/nm_protocol.c): the entries of the
    dataset have names and values that the protocol knows, the floating point
    numbers can be packed, and there is room. *)

From stdpp Require Import gmap fin_sets.
From S2P Require Import Prelude Base Buffer Str Ws Elem Hash Heap Table Smap Dataset Serialization.
From S2P Require Import ResponseProps ResponseRoom Nm NmProps NmWire.

Abbreviation many := (fun _ : Z => true).

(** ** Room for a message *)

Lemma puto_room b n src o :
  room b n -> is_text src -> n + zlen src <= ROOM -> room (vtm_buf_puto many b src o).1 (n + zlen src).
Proof.
  intros Hb [Hs Hl] Hn. pose proof (zlen_nonneg src).
  destruct (make_room_ok many (fun _ => eq_refl) b n (zlen src) Hb ltac:(lia) Hn) as ((Hb1 & He1 & Hu1) & Hu & Hroom).
  pose proof (vtm_buf_puto_spec many b src o (proj1 Hb) Hs ltac:(split; [lia|done])) as P.
  unfold vtm_buf_puto in *. set (b1 := if VTM_BUF_PUT_AVAIL _ _ then _ else _) in *.
  rewrite He1, Z.eqb_refl in *. unfold buf_stored in *. rewrite decide_False in * by apply Hb1. cbn [negb fst snd] in *.
  assert (buf_used b1 +sz zlen src = buf_used b1 + zlen src) as Ez.
  { apply u64_small. buf_sizes. zlia. }
  inversion P as [| |? Hlost]; subst; [|done|by destruct (lost_not_ok _ Hlost)]. split_and!; [done|done|]. cbn [buf_with_data buf_used]. rewrite Ez, Hu.
  destruct Hb as (_ & _ & Hx). lia.
Qed.

Lemma putc_room b n c : room b n -> 0 <= c < 256 -> n + 1 <= ROOM -> room (vtm_buf_putc many b c).1 (n + 1).
Proof.
  intros Hb Hc Hn.
  destruct (make_room_ok many (fun _ => eq_refl) b n 1 Hb ltac:(lia) Hn) as ((Hb1 & He1 & Hu1) & Hu & Hroom).
  pose proof (vtm_buf_putc_spec many b c (proj1 Hb)) as P. unfold vtm_buf_putc in *.
  set (b1 := if VTM_BUF_PUT_AVAIL _ _ then _ else _) in *. rewrite He1, Z.eqb_refl in *.
  unfold buf_stored in *. rewrite decide_False in * by apply Hb1. cbn [negb fst snd] in *.
  assert (buf_used b1 +sz 1 = buf_used b1 + 1) as Ez by (apply u64_small; buf_sizes; zlia).
  inversion P as [| |? Hlost]; subst; [|done|by destruct (lost_not_ok _ Hlost)]. split_and!; [done|done|]. cbn [buf_with_data buf_used]. rewrite Ez, Hu.
  destruct Hb as (_ & _ & Hx). lia.
Qed.

Lemma nm_puto_room b n k v :
  room b n -> 0 <= k <= 8 -> n + k <= ROOM -> room (nm_puto many b k v) (n + k).
Proof.
  intros Hb Hk Hn. unfold nm_puto.
  assert (zlen (ord_bytes host (Z.to_nat k) v) = k) as Hz by (rewrite zlen_ord_bytes; lia).
  rewrite <- Hz at 2. apply puto_room; [done| |by rewrite Hz].
  split; [auto with vtm|]. rewrite Hz. unfold SIZE_MAX. lia.
Qed.

Lemma putm_room_text b n s :
  room b n -> Forall is_byte s -> zlen s <= UINT32_MAX -> n + zlen s <= ROOM ->
  room (vtm_buf_putm many b s).1 (n + zlen s).
Proof.
  intros Hb Hs Hl Hn. apply putm_room; [done|done| |done]. split; [done|]. unfold UINT32_MAX, SIZE_MAX in *. lia.
Qed.

(** ** Values, fields, messages *)

Definition nm_packs (var : vtm_variant) : Prop :=
  match v_type var with
  | VTM_ELEM_FLOAT => exists v, vtm_pack_float (elem_float (v_data var)) = Some (VTM_OK, v)
  | VTM_ELEM_DOUBLE => exists v, vtm_pack_double (elem_double (v_data var)) = Some (VTM_OK, v)
  | _ => True
  end.

Lemma nm_put_value_room var b n o :
  room b n -> nm_sendable var -> vtm_nm_type_to_num (v_type var) <> None -> nm_packs var ->
  n + zlen (nm_value_wire o (nm_view var)) <= ROOM ->
  exists b', nm_put_value many var b = Some (VTM_OK, b') /\ room b' (n + zlen (nm_value_wire o (nm_view var))).
Proof.
  intros Hb Hs Ht Hp Hn. unfold nm_put_value, nm_sendable, nm_view, nm_packs in *.
  destruct (is_ref_type (v_type var)) eqn:Er.
  - destruct Hs as (p & Ed & Hnull & Hlen & _ & Hby). rewrite Ed in *. cbn [nm_value_wire elem_pointer mbind option_bind] in *.
    rewrite zlen_app, zlen_ord_bytes in *. change (Z.of_nat 4) with 4 in *. pose proof (zlen_nonneg (p_text p)).
    assert (room (vtm_buf_putm many (nm_puto many b 4 (zlen (p_text p))) (p_text p)).1 (n + (4 + zlen (p_text p)))) as Hr.
    { rewrite Z.add_assoc. apply putm_room_text; [apply nm_puto_room; [done|lia|lia]|done|done|lia]. }
    assert (vtm_blob_size p = zlen (p_text p)) as Ebs by (apply wrap_small; unfold UINT32_MAX in *; lia).
    apply bool_decide_eq_true in Er as [Et | Et]; rewrite Et, Hnull, ?Ebs; rewrite (proj2 (Z.ltb_ge UINT32_MAX _)) by exact Hlen;
      eexists; (split; [reflexivity|]); [done|by rewrite ztake_all by lia].
  - assert (forall k v, 0 <= k <= 8 -> n + k <= ROOM -> exists b', Some (VTM_OK, nm_puto many b k v) = Some (VTM_OK, b') /\
      room b' (n + k)) as Hgo by (intros; eexists; split; [reflexivity|by apply nm_puto_room]).
    assert (forall k v, zlen (ord_bytes o k v) = Z.of_nat k) as Hz by apply zlen_ord_bytes.
    destruct (v_type var) eqn:Et; try done; cbn [nm_value_wire vtm_elem_size] in *; rewrite ?Hz in *;
      try (destruct Hp as [v ->]; cbn [mbind option_bind]; rewrite Z.eqb_refl); apply Hgo; cbn in *; lia.
Qed.

(** An entry that can be sent. *)
Definition nm_entry_can (en : option cptr * vtm_variant) : Prop :=
  entry_ok en /\ vtm_nm_type_to_num (v_type en.2) <> None /\ zlen (entry_field en).1 <= 255 /\ nm_packs en.2.

Lemma nm_put_field_room en b n o :
  room b n -> nm_entry_can en -> n + zlen (nm_field_wire o (entry_field en)) <= ROOM ->
  exists b', nm_put_field many en b = Some (VTM_OK, b') /\ room b' (n + zlen (nm_field_wire o (entry_field en))).
Proof.
  intros Hb ([(name & En & Hnull & Hcs & Hne) Hs] & Ht & Hlen & Hp) Hn.
  unfold nm_put_field, entry_field, nm_field_wire in *. rewrite En in *. cbn [mbind option_bind fst snd] in *.
  rewrite Hnull. unfold UCHAR_MAX. rewrite (proj2 (Z.ltb_ge _ _)) by lia.
  destruct (vtm_nm_type_to_num (v_type en.2)) as [c|] eqn:Ec; [|done]. destruct (nm_type_supported _ _ Ec) as [_ Hc].
  rewrite !zlen_app in *. change (zlen [_]) with 1 in *. pose proof (zlen_nonneg (p_text name)).
  pose proof (zlen_nonneg (nm_value_wire o (nm_view en.2))).
  assert (Forall is_byte (p_text name)) as Hby by (eapply Forall_impl; [exact Hcs|]; intros x; unfold is_byte; lia).
  destruct (nm_put_value_room en.2
    (vtm_buf_putc many (vtm_buf_puts many (vtm_buf_putc many b (zlen (p_text name))).1 (p_text name)).1 c).1
    (n + 1 + zlen (p_text name) + 1) o) as (b' & -> & Hr); try done.
  - apply putc_room; [|lia|lia]. apply putm_room_text; [apply putc_room; [done|lia|lia]|done|unfold UINT32_MAX; lia|lia].
  - by rewrite Ec.
  - lia.
  - exists b'. split; [done|]. eapply room_le; [exact Hr|lia].
Qed.

Lemma nm_put_fields_room o entries : forall rc b n,
  room b n -> Forall nm_entry_can entries -> entries <> [] ->
  n + zlen ((entry_field <$> entries) ≫= nm_field_wire o) <= ROOM ->
  exists b', nm_put_fields many entries rc b = Some (false, VTM_OK, b') /\
    room b' (n + zlen ((entry_field <$> entries) ≫= nm_field_wire o)).
Proof.
  induction entries as [|en entries IH]; intros rc b n Hb Hok Hne Hn; [done|]. apply Forall_cons in Hok as [Hen Hok].
  cbn [nm_put_fields]. change ((entry_field <$> en :: entries) ≫= nm_field_wire o)
    with (nm_field_wire o (entry_field en) ++ ((entry_field <$> entries) ≫= nm_field_wire o)) in *.
  rewrite zlen_app in *. pose proof (zlen_nonneg ((entry_field <$> entries) ≫= nm_field_wire o)).
  destruct (nm_put_field_room en b n o Hb Hen) as (b1 & -> & Hr); [lia|]. cbn [mbind option_bind]. rewrite Z.eqb_refl.
  destruct (decide (entries = [])) as [->|Hne'].
  - exists b1. split; [done|]. eapply room_le; [exact Hr|]. lia.
  - destruct (IH VTM_OK b1 _ Hr Hok Hne') as (b' & -> & Hr'); [lia|]. exists b'. split; [done|].
    eapply room_le; [exact Hr'|lia].
Qed.

(** A dataset that can be sent, and its text on the wire. *)
Definition nm_can_send (ds : vtm_dataset) : Prop :=
  Forall nm_entry_can (nm_entries ds) /\ nm_entries ds <> [] /\ zlen (nm_entries ds) <= UINT16_MAX.

Definition nm_fields (ds : vtm_dataset) : list (bytes * nm_val) := entry_field <$> nm_entries ds.
Definition nm_text (ds : vtm_dataset) : bytes := nm_wire VTM_BYTEORDER_BE (nm_fields ds).

Lemma nm_send_ok rc0 ds b :
  nm_can_send ds -> buf_ok b -> buf_err b = VTM_OK -> buf_order b = VTM_BYTEORDER_BE ->
  buf_used b + zlen (nm_text ds) <= ROOM ->
  exists b', vtm_nm_msg_to_buf many true rc0 (Some ds) b = Some (VTM_OK, b') /\ buf_ok b' /\ buf_err b' = VTM_OK /\
    buf_order b' = VTM_BYTEORDER_BE /\ buf_content b' = buf_content b ++ nm_text ds /\ buf_read b' = buf_read b /\ Forall nm_field_ok (nm_fields ds).
Proof.
  intros (Hok & Hne & Hlen) Hb He Ho Hr.
  assert (zlen (nm_text ds) = 4 + zlen (nm_fields ds ≫= nm_field_wire VTM_BYTEORDER_BE)) as Ez.
  { unfold nm_text, nm_wire. rewrite !zlen_app, zlen_ord_bytes. change (zlen [_; _]) with 2. lia. }
  pose proof (zlen_nonneg (nm_fields ds ≫= nm_field_wire VTM_BYTEORDER_BE)). pose proof (zlen_nonneg (nm_entries ds)).
  assert (room b (buf_used b)) as Hb0 by (split_and!; try done; lia).
  pose proof (putc_room b (buf_used b) VTM_NM_PROTO_MAGIC Hb0 ltac:(unfold VTM_NM_PROTO_MAGIC; lia) ltac:(lia)) as H1.
  pose proof (putc_room _ _ VTM_NM_PROTO_VER_1 H1 ltac:(unfold VTM_NM_PROTO_VER_1; lia) ltac:(lia)) as H2.
  pose proof (nm_puto_room _ _ 2 (zlen (nm_entries ds)) H2 ltac:(lia) ltac:(lia)) as H3.
  destruct (nm_put_fields_room VTM_BYTEORDER_BE (nm_entries ds) rc0 _ _ H3 Hok Hne) as (b' & E & Hr').
  { fold (nm_fields ds). lia. }
  assert (vtm_nm_msg_to_buf many true rc0 (Some ds) b = Some (VTM_OK, b')) as Emsg.
  { unfold vtm_nm_msg_to_buf. unfold nm_entries in E, Hlen. change (vtm_dataset_entryset true (Some ds))
      with (Some (default [] (vtm_dataset_entryset true (Some ds)))).
    cbv iota zeta. rewrite (proj2 (Z.ltb_ge UINT16_MAX _)) by exact Hlen. rewrite E. cbn [mbind option_bind negb andb].
    destruct Hr' as (_ & -> & _). done. }
  exists b'. split; [exact Emsg|].
  assert (Forall entry_ok (default [] (vtm_dataset_entryset true (Some ds)))) as Hok'.
  { eapply Forall_impl; [exact Hok|]. by intros en (? & _). }
  destruct (nm_msg_to_buf_wire many rc0 ds b b' Hb Hok' Emsg) as (Hb' & Ho' & Hc' & Hf & _ & Hrd).
  split; [done|]. split; [apply Hr'|]. split; [congruence|]. split; [by rewrite Hc', Ho|]. by split.
Qed.

Lemma nm_can_send_msg_ok malloc_ok printf_g ds :
  ds_wf malloc_ok printf_g ds -> hints ds = VTM_DS_HINT_DEFAULT -> nm_can_send ds -> Forall nm_field_ok (nm_fields ds) ->
  nm_fields ds <> [] /\ NoDup (nm_fields ds).*1 /\ zlen (nm_fields ds) <= UINT16_MAX /\
  list_to_map (nm_fields ds) = nm_view <$> ds_abs ds.
Proof.
  intros Hw Hh (Hok & Hne & Hlen) Hf.
  destruct (nm_fields_abs malloc_ok printf_g ds Hw Hh) as [Hnd Hmap].
  { eapply Forall_impl; [exact Hok|]. by intros en (? & _). }
  split_and!; try done.
  - unfold nm_fields. by destruct (nm_entries ds).
  - unfold nm_fields, zlen. by rewrite length_fmap.
Qed.
