(* ===== verification/NmServer.v ===== *)
(** * NmServer: servers and clients of the message protocol

    net/nm/nm_stream_connection.c, nm_stream_server.c, nm_stream_client.c,
    nm_dgram_client.c and nm_dgram_server.c, over the parser and the writer of
    Nm.v, the connections of net/socket_connection.c and the datagram server.
    What an application does with a message is a program that sends messages,
    closes the connection and changes the application's state.  [None] is
    undefined behaviour, a failed assertion, or a loop that does not end. *)

From stdpp Require Import gmap fin_sets.
From S2P Require Import Prelude Base Buffer Str Ws Elem Hash Heap Table Smap Dataset Serialization Nm.
From S2P Require Import Socket HttpCon HttpClient DgramLife.

(** ** Stream connections, net/nm/nm_stream_connection.c *)

(** net/nm/nm_stream_connection.c:13-17 [struct vtm_nm_stream_con] *)
Record vtm_nm_stream_con := mk_nmcon { nc_sock_con : vtm_socket_con; nc_parser : vtm_nm_parser }.

(** net/nm/nm_stream_connection.c:20-38.  [ok] and [ok_mtx] are the answers for
    the struct and its mutex, [junk] the uninitialised parser. *)
Definition vtm_nm_stream_con_new (ok ok_mtx : bool) (junk : vtm_nm_parser) : option vtm_nm_stream_con :=
  if negb ok then None
  else sc ← vtm_socket_con_init ok_mtx; Some (mk_nmcon sc (vtm_nm_parser_init junk)).

(** net/nm/nm_stream_connection.c:40-49.  NULL is accepted. *)
Definition vtm_nm_stream_con_free (c : option vtm_nm_stream_con) (h : heap) : option heap :=
  match c with None => Some h | Some c => vtm_nm_parser_release (nc_parser c) h end.

(** net/nm/nm_stream_connection.c:147-155 *)
Definition vtm_nm_stream_con_get_msg (c : vtm_nm_stream_con) : option vtm_dataset * vtm_nm_stream_con :=
  let '(msg, p) := vtm_nm_parser_get_msg (nc_parser c) in
  let sc := nc_sock_con c in
  (msg, mk_nmcon (scon_with_recv (vtm_buf_discard_processed (sc_recvbuf sc)) sc) p).

Section Stream.
Context (malloc_ok : Z -> bool) (ds_ok : bool) (a : ds_alloc).
Context {OS SA : Type} (vt : vtm_socket_vtable OS SA).
Implicit Types (s : vtm_socket) (os : OS) (c : vtm_nm_stream_con) (h : heap).

(** net/nm/nm_stream_connection.c:61-77.  [rc0] is what the uninitialised
    variable of vtm_nm_msg_to_buf() holds. *)
Definition vtm_nm_stream_con_send (ok_entries : bool) (rc0 : Z) c (msg : option vtm_dataset) s os
    : option (Z * vtm_nm_stream_con * vtm_socket * OS) :=
  '(rc, b) ← vtm_nm_msg_to_buf malloc_ok ok_entries rc0 msg (sc_sendbuf (nc_sock_con c));
  let sc := scon_with_send b (nc_sock_con c) in
  '(rc, sc, s, os) ← (if rc =? VTM_OK then vtm_socket_con_write_start vt sc s os else Some (rc, sc, s, os));
  Some (if rc =? VTM_E_IO_AGAIN then VTM_OK else rc, mk_nmcon sc (nc_parser c), s, os).

(** net/nm/nm_stream_connection.c:79-82 *)
Definition vtm_nm_stream_con_close s os : Z * vtm_socket * OS := vtm_socket_con_close vt s os.

(** net/nm/nm_stream_connection.c:84-87 *)
Definition vtm_nm_stream_con_set_opt (opt : Z) (val : option Z) s os : Z * vtm_socket * OS :=
  vtm_socket_set_opt vt opt val s os.

(** net/nm/nm_stream_connection.c:89-92 *)
Definition vtm_nm_stream_con_get_opt (opt len : Z) s os : (Z * option Z) * vtm_socket * OS :=
  vtm_socket_get_opt vt opt len s os.

(** net/nm/nm_stream_connection.c:94-140.  The loop goes on while the socket has
    bytes and they make no message. *)
Fixpoint vtm_nm_stream_con_read (fuel : nat) c s os h
    : option (vtm_net_recv_stat * vtm_nm_stream_con * vtm_socket * OS * heap) :=
  match fuel with
  | O => None
  | S fuel =>
      let sc := nc_sock_con c in
      let '(b, rc) := vtm_buf_ensure malloc_ok (sc_recvbuf sc) 1024 in
      let c := mk_nmcon (scon_with_recv b sc) (nc_parser c) in
      if negb (rc =? VTM_OK) then Some (VTM_NET_RECV_STAT_ERROR, c, s, os, h)
      else
        let '(rc, data, s, os) := vtm_socket_read vt (VTM_BUF_PUT_AVAIL_TOTAL b) s os in
        if negb ((rc =? VTM_OK) || (rc =? VTM_E_IO_AGAIN)) then Some (VTM_NET_RECV_STAT_ERROR, c, s, os, h)
        else
          let b := if rc =? VTM_OK then VTM_BUF_PUT_INC b data else b in
          if (rc =? VTM_E_IO_AGAIN) && (VTM_BUF_GET_AVAIL_TOTAL b =? 0)
          then Some (VTM_NET_RECV_STAT_AGAIN, c, s, os, h)
          else
            '(stat, e) ← vtm_nm_parser_run malloc_ok ds_ok a (mk_nm_env (nc_parser c) b h);
            let c := mk_nmcon (scon_with_recv (nm_buf e) sc) (nm_par e) in
            match stat with
            | VTM_NET_RECV_STAT_AGAIN =>
                if rc =? VTM_E_IO_AGAIN then Some (stat, c, s, os, nm_heap e)
                else vtm_nm_stream_con_read fuel c s os (nm_heap e)
            | _ => Some (stat, c, s, os, nm_heap e)
            end
  end.

(** net/nm/nm_stream_connection.c:142-145 *)
Definition vtm_nm_stream_con_write c s os : option (Z * vtm_nm_stream_con * vtm_socket * OS) :=
  '(rc, sc, s, os) ← vtm_socket_con_write vt (nc_sock_con c) s os; Some (rc, mk_nmcon sc (nc_parser c), s, os).
End Stream.

(** ** The stream server, net/nm/nm_stream_server.c *)

(** What a callback does with the connection, and the state that it leaves. *)
Inductive nm_prog (A : Type) :=
| NmRet (x : A)
| NmSend (msg : option vtm_dataset) (k : Z -> nm_prog A)
| NmClose (k : nm_prog A).
Arguments NmRet {A}.
Arguments NmSend {A}.
Arguments NmClose {A}.

(** net/nm/nm_stream_server.h:38-100 [struct vtm_nm_stream_srv_cbs].  The
    callbacks for connections and messages; [None] is NULL. *)
Record vtm_nm_stream_srv_cbs (A : Type) := mk_nmcbs {
  ncb_connect : option (A -> nm_prog A);
  ncb_disconnect : option (A -> nm_prog A);
  ncb_msg : option (vtm_dataset -> A -> nm_prog A)
}.
Arguments mk_nmcbs {A}.
Arguments ncb_connect {A}.
Arguments ncb_disconnect {A}.
Arguments ncb_msg {A}.

(** What a worker works on: the socket with the connection that is its user data
    ([None] is NULL), the state of the application, and the heap. *)
Record nm_io (OS A : Type) := mk_nmio {
  ni_sock : vtm_socket;
  ni_os : OS;
  ni_con : option vtm_nm_stream_con;
  ni_app : A;
  ni_blocks : heap
}.
Arguments mk_nmio {OS A}.
Arguments ni_sock {OS A}.
Arguments ni_os {OS A}.
Arguments ni_con {OS A}.
Arguments ni_app {OS A}.
Arguments ni_blocks {OS A}.

Section Server.
Context (malloc_ok : Z -> bool) (ds_ok : bool) (a : ds_alloc) (ok_entries : bool) (rc0 : Z).
Context {OS SA A : Type} (vt : vtm_socket_vtable OS SA) (cbs : vtm_nm_stream_srv_cbs A).
Implicit Types (w : nm_io OS A).

(** Running a callback. *)
Fixpoint nm_cb_run (p : nm_prog A) (c : vtm_nm_stream_con) (s : vtm_socket) (os : OS)
    : option (A * vtm_nm_stream_con * vtm_socket * OS) :=
  match p with
  | NmRet x => Some (x, c, s, os)
  | NmSend msg k =>
      '(rc, c, s, os) ← vtm_nm_stream_con_send malloc_ok vt ok_entries rc0 c msg s os; nm_cb_run (k rc) c s os
  | NmClose k => let '(_, s, os) := vtm_nm_stream_con_close vt s os in nm_cb_run k c s os
  end.

Definition nm_cb_on (cb : option (A -> nm_prog A)) (c : vtm_nm_stream_con) w : option (nm_io OS A) :=
  match cb with
  | None => Some (mk_nmio (ni_sock w) (ni_os w) (Some c) (ni_app w) (ni_blocks w))
  | Some f =>
      '(x, c, s, os) ← nm_cb_run (f (ni_app w)) c (ni_sock w) (ni_os w);
      Some (mk_nmio s os (Some c) x (ni_blocks w))
  end.

Definition nm_io_close w : nm_io OS A :=
  let '(_, s, os) := vtm_socket_close vt (ni_sock w) (ni_os w) in
  mk_nmio s os (ni_con w) (ni_app w) (ni_blocks w).

(** net/nm/nm_stream_server.c:162-181.  [ok], [ok_mtx]: the answers of the
    allocator. *)
Definition vtm_nm_stream_srv_sock_connected (ok ok_mtx : bool) (junk : vtm_nm_parser) w : option (nm_io OS A) :=
  match vtm_nm_stream_con_new ok ok_mtx junk with
  | None => Some (nm_io_close w)
  | Some c =>
      let s := vtm_socket_set_state (ni_sock w) (Z.lor VTM_SOCK_STAT_NBL_AUTO VTM_SOCK_STAT_NBL_READ) in
      nm_cb_on (ncb_connect cbs) c (mk_nmio s (ni_os w) (Some c) (ni_app w) (ni_blocks w))
  end.

(** net/nm/nm_stream_server.c:183-197 *)
Definition vtm_nm_stream_srv_sock_disconnected w : option (nm_io OS A) :=
  w ← match ni_con w with Some c => nm_cb_on (ncb_disconnect cbs) c w | None => Some w end;
  h ← vtm_nm_stream_con_free (ni_con w) (ni_blocks w);
  Some (mk_nmio (ni_sock w) (ni_os w) None (ni_app w) h).

(** net/nm/nm_stream_server.c:199-237.  [fuel] for the messages, [rfuel] for
    each call of the reading loop. *)
Fixpoint vtm_nm_stream_srv_sock_can_read (rfuel fuel : nat) w : option (nm_io OS A) :=
  match fuel with
  | O => None
  | S fuel =>
      c ← ni_con w;
      '(stat, c, s, os, h) ← vtm_nm_stream_con_read malloc_ok ds_ok a vt rfuel c (ni_sock w) (ni_os w) (ni_blocks w);
      let w := mk_nmio s os (Some c) (ni_app w) h in
      match stat with
      | VTM_NET_RECV_STAT_ERROR | VTM_NET_RECV_STAT_INVALID => Some (nm_io_close w)
      | VTM_NET_RECV_STAT_COMPLETE =>
          let '(msg, c) := vtm_nm_stream_con_get_msg c in
          let w := mk_nmio s os (Some c) (ni_app w) h in
          match msg with
          | None => Some (nm_io_close w)
          | Some ds =>
              w ← nm_cb_on ((fun f => f ds) <$> ncb_msg cbs) c w;
              h ← vtm_dataset_free (Some ds) (ni_blocks w);
              vtm_nm_stream_srv_sock_can_read rfuel fuel (mk_nmio (ni_sock w) (ni_os w) (ni_con w) (ni_app w) h)
          end
      | _ => Some w
      end
  end.

(** net/nm/nm_stream_server.c:239-257 *)
Definition vtm_nm_stream_srv_sock_can_write w : option (nm_io OS A) :=
  c ← ni_con w;
  '(rc, c, s, os) ← vtm_nm_stream_con_write vt c (ni_sock w) (ni_os w);
  let w := mk_nmio s os (Some c) (ni_app w) (ni_blocks w) in
  Some (if (rc =? VTM_OK) || (rc =? VTM_E_IO_AGAIN) then w else nm_io_close w).
End Server.

(** ** The stream client, net/nm/nm_stream_client.c *)

(** net/nm/nm_stream_client.c:14-20 [struct vtm_nm_stream_client].  The parser
    shares the dataset of its caller while a message is received. *)
Record vtm_nm_stream_client := mk_nmcl {
  nl_sock : option vtm_socket;
  nl_buf : vtm_buf;
  nl_parser : vtm_nm_parser;
  nl_opt_recv_timeout : Z
}.

Definition nl_with_sock s cl := mk_nmcl s (nl_buf cl) (nl_parser cl) (nl_opt_recv_timeout cl).
Definition nl_with_recv b p cl := mk_nmcl (nl_sock cl) b p (nl_opt_recv_timeout cl).

(** net/nm/nm_stream_client.h:24-24 *)
Definition VTM_NM_STREAM_CL_OPT_RECV_TIMEOUT : Z := 1.

(** net/nm/nm_stream_client.c:22-39 *)
Definition vtm_nm_stream_client_new (ok : bool) (junk : vtm_nm_parser) : option vtm_nm_stream_client :=
  if negb ok then None
  else Some (mk_nmcl None (vtm_buf_init VTM_BYTEORDER_BE) (vtm_nm_parser_init junk) 0).

(** net/nm/nm_stream_client.c:41-53.  What the parser still has of a message is
    freed. *)
Definition vtm_nm_stream_client_free (cl : option vtm_nm_stream_client) (h : heap) : option heap :=
  match cl with None => Some h | Some cl => vtm_nm_parser_release (nl_parser cl) h end.

(** net/nm/nm_stream_client.c:55-69.  [len] is the size of the value. *)
Definition vtm_nm_stream_client_set_opt (cl : vtm_nm_stream_client) (opt val len : Z) : Z * vtm_nm_stream_client :=
  if opt =? VTM_NM_STREAM_CL_OPT_RECV_TIMEOUT then
    if negb (len =? 8) then (VTM_E_INVALID_ARG, cl)
    else (VTM_OK, mk_nmcl (nl_sock cl) (nl_buf cl) (nl_parser cl) val)
  else (VTM_E_NOT_SUPPORTED, cl).

Section Client.
Context (malloc_ok : Z -> bool) (ds_ok : bool) (a : ds_alloc).
Context {OS SA : Type} (vt : vtm_socket_vtable OS SA).
Implicit Types (os : OS) (cl : vtm_nm_stream_client) (h : heap).

(** net/nm/nm_stream_client.c:71-108.  [sock_new] creates a socket, with TLS or
    without, or gives the code of the failure. *)
Definition vtm_nm_stream_client_connect (sock_new : OS -> (vtm_socket + Z) * OS) (host : bytes) (port : Z) cl os
    : Z * vtm_nm_stream_client * OS :=
  match nl_sock cl with
  | Some _ => (VTM_E_INVALID_STATE, cl, os)
  | None =>
      match sock_new os with
      | (inr err, os) => (err, cl, os)
      | (inl s, os) =>
          let '(rc, s, os) :=
            if 0 <? nl_opt_recv_timeout cl
            then vtm_socket_set_opt vt VTM_SOCK_OPT_RECV_TIMEOUT (Some (nl_opt_recv_timeout cl)) s os
            else (VTM_OK, s, os) in
          if negb (rc =? VTM_OK) then (rc, nl_with_sock (Some s) cl, os)
          else
            let '(rc, s, os) := vtm_socket_connect vt host port s os in
            (rc, nl_with_sock (if rc =? VTM_OK then Some s else None) cl, os)
      end
  end.

(** net/nm/nm_stream_client.c:110-120 *)
Definition vtm_nm_stream_client_close cl os : Z * vtm_nm_stream_client * OS :=
  match nl_sock cl with
  | None => (VTM_E_INVALID_STATE, cl, os)
  | Some s => let '(_, _, os) := vtm_socket_close vt s os in (VTM_OK, nl_with_sock None cl, os)
  end.

(** net/nm/nm_stream_client.c:122-145.  [None]: not connected. *)
Definition vtm_nm_stream_client_send (ok_entries : bool) (rc0 : Z) cl (msg : option vtm_dataset) os
    : option (Z * vtm_nm_stream_client * OS) :=
  '(rc, b) ← vtm_nm_msg_to_buf malloc_ok ok_entries rc0 msg (vtm_buf_init VTM_BYTEORDER_BE);
  if negb (rc =? VTM_OK) then Some (rc, cl, os)
  else
    s ← nl_sock cl;
    '(rc, written, s, os) ← vtm_socket_write vt (ztake (buf_used b) (buf_data b)) s os;
    let cl := nl_with_sock (Some s) cl in
    Some (if negb (rc =? VTM_OK) then rc else if written =? buf_used b then VTM_OK else VTM_E_IO_PARTIAL, cl, os).

(** net/nm/nm_stream_client.c:158-185.  The loop; [parse]: it is entered behind
    the reading.  The result, and whether the end of the function is reached, where
    the parser gives the message back. *)
Fixpoint nm_client_recv_loop (fuel : nat) (parse : bool) cl os h
    : option (Z * bool * vtm_nm_stream_client * OS * heap) :=
  match fuel with
  | O => None
  | S fuel =>
      '(stop, cl, os) ←
        (if parse then Some (None, cl, os)
         else
           let '(b, rc) := vtm_buf_ensure malloc_ok (nl_buf cl) 512 in
           if negb (rc =? VTM_OK) then
             Some (Some (recv_stat_value VTM_NET_RECV_STAT_ERROR, false), nl_with_recv b (nl_parser cl) cl, os)
           else
             s ← nl_sock cl;
             let '(rc, data, s, os) := vtm_socket_read vt (VTM_BUF_PUT_AVAIL_TOTAL b) s os in
             let cl := nl_with_recv (VTM_BUF_PUT_INC b data) (nl_parser cl) (nl_with_sock (Some s) cl) in
             Some (if negb (rc =? VTM_OK) then Some (rc, true) else None, cl, os));
      match stop with
      | Some (rc, at_end) => Some (rc, at_end, cl, os, h)
      | None =>
          '(stat, e) ← vtm_nm_parser_run malloc_ok ds_ok a (mk_nm_env (nl_parser cl) (nl_buf cl) h);
          let cl := nl_with_recv (nm_buf e) (nm_par e) cl in
          match stat with
          | VTM_NET_RECV_STAT_AGAIN => nm_client_recv_loop fuel false cl os (nm_heap e)
          | VTM_NET_RECV_STAT_COMPLETE =>
              Some (VTM_OK, true, nl_with_recv (vtm_buf_discard_processed (nl_buf cl)) (nl_parser cl) cl, os, nm_heap e)
          | _ => Some (VTM_ERROR, true, cl, os, nm_heap e)
          end
      end
  end.

(** net/nm/nm_stream_client.c:147-191.  The dataset of the caller as it is
    afterwards.  Where the buffer cannot grow the parser keeps it, and the value
    that is returned is VTM_NET_RECV_STAT_ERROR, that of VTM_OK. *)
Definition vtm_nm_stream_client_recv (fuel : nat) cl (msg : vtm_dataset) os h
    : option (Z * option vtm_dataset * vtm_nm_stream_client * OS * heap) :=
  '(p, h) ← vtm_nm_parser_reset (nl_parser cl) h;
  let cl := nl_with_recv (nl_buf cl) (nm_set_msg (Some msg) p) cl in
  '(rc, at_end, cl, os, h) ← nm_client_recv_loop fuel (0 <? VTM_BUF_GET_AVAIL_TOTAL (nl_buf cl)) cl os h;
  let ds := nm_msg (nl_parser cl) in
  Some (rc, ds, if at_end : bool then nl_with_recv (nl_buf cl) (nm_set_msg None (nl_parser cl)) cl else cl, os, h).
End Client.

(** ** Datagrams, net/nm/nm_dgram_client.c and nm_dgram_server.c *)

(** net/socket_spec.h:21-21 *)
Definition VTM_SOCK_TYPE_DGRAM : Z := 2.

(** net/nm/nm_dgram_client.h:23-23 *)
Definition VTM_NM_DGRAM_CL_OPT_RECV_TIMEOUT : Z := 1.

Section Dgram.
Context (malloc_ok : Z -> bool) (ds_ok : bool) (a : ds_alloc).
Context {OS SA : Type} (vt : vtm_socket_vtable OS SA).
Implicit Types (s : vtm_socket) (os : OS) (h : heap).

(** net/nm/nm_dgram_client.c:17-34 [vtm_nm_dgram_client_new].  The client is its socket; [sock_new] creates
    one of a family and a type.  NULL if [ok], the answer for the struct, is
    false. *)
Definition vtm_nm_dgram_client_new (ok : bool) (sock_new : Z -> Z -> OS -> (vtm_socket + Z) * OS) (fam : Z) os
    : option vtm_socket * OS :=
  if negb ok then (None, os)
  else match sock_new fam VTM_SOCK_TYPE_DGRAM os with
       | (inl s, os) => (Some s, os)
       | (inr _, os) => (None, os)
       end.

(** net/nm/nm_dgram_client.c:45-56 *)
Definition vtm_nm_dgram_client_set_opt (opt : Z) (val : option Z) s os : Z * vtm_socket * OS :=
  if opt =? VTM_NM_DGRAM_CL_OPT_RECV_TIMEOUT
  then vtm_socket_set_opt vt VTM_SOCK_OPT_RECV_TIMEOUT val s os
  else (VTM_E_NOT_SUPPORTED, s, os).

(** net/nm/nm_dgram_client.c:58-81 *)
Definition vtm_nm_dgram_client_send (ok_entries : bool) (rc0 : Z) (msg : option vtm_dataset) (saddr : SA) s os
    : option (Z * vtm_socket * OS) :=
  '(rc, b) ← vtm_nm_msg_to_buf malloc_ok ok_entries rc0 msg (vtm_buf_init VTM_BYTEORDER_BE);
  if negb (rc =? VTM_OK) then Some (rc, s, os)
  else
    let '(rc, sent, s, os) := vtm_socket_dgram_send vt (ztake (buf_used b) (buf_data b)) saddr s os in
    Some (if negb (rc =? VTM_OK) then rc
          else match sent with
               | Some n => if buf_used b =? n then VTM_OK else VTM_E_IO_PARTIAL
               | None => VTM_E_IO_PARTIAL
               end, s, os).

(** A buffer that a datagram was received into: its array, of VTM_BUF_SDATA_LEN
    bytes. *)
Definition dgram_buf (data : bytes) : vtm_buf :=
  let b := vtm_buf_init VTM_BYTEORDER_BE in buf_with_data b data (zlen data).

(** net/nm/nm_dgram_client.c:83-100.  The code, the dataset, the address of the
    sender. *)
Definition vtm_nm_dgram_client_recv (junk : vtm_nm_parser) (msg : vtm_dataset) s os h
    : option (Z * option vtm_dataset * option SA * vtm_socket * OS * heap) :=
  let '(rc, got, s, os) := vtm_socket_dgram_recv vt VTM_BUF_SDATA_LEN s os in
  match got with
  | Some (data, from) =>
      if negb (rc =? VTM_OK) then Some (rc, Some msg, Some from, s, os, h)
      else
        '(rc, ds, _, h) ← vtm_nm_msg_from_buf malloc_ok ds_ok a junk msg (dgram_buf data) h;
        Some (rc, ds, Some from, s, os, h)
  | None => Some (rc, Some msg, None, s, os, h)
  end.

(** net/nm/nm_dgram_server.c:110-127 *)
Definition vtm_nm_dgram_srv_send (srv : vtm_socket_dgram_srv) (ok_entries : bool) (rc0 : Z)
    (msg : option vtm_dataset) (saddr : SA) s os h : option (Z * vtm_socket * OS) :=
  '(rc, b) ← vtm_nm_msg_to_buf malloc_ok ok_entries rc0 msg (vtm_buf_init VTM_BYTEORDER_BE);
  if negb (rc =? VTM_OK) then Some (rc, s, os)
  else vtm_socket_dgram_srv_send vt srv (ztake (buf_used b) (buf_data b)) saddr s os h.

(** net/nm/nm_dgram_server.c:174-196.  [cb] is the callback msg_recv on the state
    of the application. *)
Definition vtm_nm_dgram_srv_dgram_recv {A} (cb : option (vtm_dataset -> SA -> A -> A)) (junk : vtm_nm_parser)
    (data : bytes) (from : SA) (x : A) h : option (A * heap) :=
  match cb with
  | None => Some (x, h)
  | Some f =>
      match vtm_dataset_new ds_ok with
      | None => Some (x, h)
      | Some ds =>
          '(rc, ds, _, h) ← vtm_nm_msg_from_buf malloc_ok ds_ok a junk ds (dgram_buf data) h;
          let x := match ds with Some ds => if rc =? VTM_OK then f ds from x else x | None => x end in
          h ← vtm_dataset_free ds h; Some (x, h)
      end
  end.
End Dgram.
