(* ===== verification/NmServerProps.v ===== *)
(** * NmServerProps: what servers and clients of the message protocol do

    The handler of a connection hands the messages of its peer to the
    application, one after the other, and sends what the application sends;
    client and server of the library understand each other. *)

From stdpp Require Import gmap fin_sets relations.
From S2P Require Import Prelude Base Buffer Str Ws Elem Hash Heap Table Smap Dataset Serialization.
From S2P Require Import Socket HttpResponse ResponseProps ResponseRoom HttpCon HttpServer HttpPeer HttpClient HttpClientProps DgramLife Nm NmProps NmWire NmSend NmServer.

#[export] Instance nm_parser_state_eq_dec : EqDecision vtm_nm_parser_state.
Proof. solve_decision. Defined.

(** ** The parser with what follows a message *)

(** Only the read position moves. *)
Definition read_on (b b' : vtm_buf) : Prop := exists r, b' = buf_with_read b r.

Lemma read_on_refl b : read_on b b.
Proof. exists (buf_read b). by destruct b. Qed.
Lemma read_on_trans b b1 b2 : read_on b b1 -> read_on b1 b2 -> read_on b b2.
Proof. intros [r1 ->] [r2 ->]. by exists r2. Qed.
Lemma geto_read_on b n o l b' : vtm_buf_geto b n o = Some (l, b') -> read_on b b'.
Proof. unfold vtm_buf_geto. destruct (_ && _); [|done]. intros [= <- <-]. by eexists. Qed.
Lemma getm_read_on b n l b' : vtm_buf_getm b n = Some (l, b') -> read_on b b'.
Proof. apply geto_read_on. Qed.
Lemma getc_read_on b c b' : VTM_BUF_GETC b = Some (c, b') -> read_on b b'.
Proof. unfold VTM_BUF_GETC. intros (x & _ & [= <- <-])%bind_Some. by eexists. Qed.

Section Parser.
Context (malloc_ok : Z -> bool) (ds_ok : bool) (a : ds_alloc).
Implicit Types (e : nm_env).

Ltac reads :=
  repeat (case_match || match goal with
    | H : (_ ≫= _) = Some _ |- _ => apply bind_Some in H as (? & ? & ?)
    | H : (_, _) = _ |- _ => injection H as ? ?; subst
    | H : Some _ = Some _ |- _ => injection H as ?; subst
    end); subst; cbn [nm_buf] in *;
  eauto using read_on_refl, geto_read_on, getm_read_on, getc_read_on; try done.

Lemma nm_switch_read_on e ctl e' : nm_switch malloc_ok ds_ok a e = Some (ctl, e') -> read_on (nm_buf e) (nm_buf e').
Proof.
  unfold nm_switch, nm_expect, nm_parse_field_count, nm_parse_name_len, nm_parse_name, nm_parse_value_type,
    nm_parse_value_len, nm_parse_value, nm_parse_field_complete, nm_again, nm_fail, nm_loop. intros H.
  destruct (nm_state (nm_par e)); [reads|reads|reads|reads|reads|reads|reads|reads|reads| |reads|reads].
  destruct (negb (VTM_BUF_GET_AVAIL _ _)); [reads|]. destruct (nm_value_type (nm_par e)); reads.
Qed.

Lemma nm_run_read_on fuel : forall e s e',
  nm_run_loop malloc_ok ds_ok a fuel e = Some (s, e') -> read_on (nm_buf e) (nm_buf e').
Proof.
  induction fuel as [|fuel IH]; intros e s e' H; [done|]. cbn [nm_run_loop] in H.
  apply bind_Some in H as ([ctl e1] & H1%nm_switch_read_on & H). destruct ctl; [|by injection H as <- <-].
  eapply read_on_trans; [exact H1|eauto].
Qed.

(** The outcomes of the first step of a sequence. *)
Ltac bind_cases :=
  match goal with
  | |- context [mbind _ ?x] => lazymatch x with mbind _ _ => fail | _ => destruct x as [[? ?]|] eqn:? end
  end.

(** The same without a dataset. *)
Definition blank e : nm_env := mk_nm_env (nm_set_msg None (nm_par e)) (nm_buf e) (nm_heap e).

Lemma nm_blank_switch e :
  nm_state (nm_par e) <> VTM_NM_PARSE_FIELD_COMPLETE ->
  nm_switch malloc_ok ds_ok a (blank e) = '(ctl, e') ← nm_switch malloc_ok ds_ok a e; Some (ctl, blank e').
Proof.
  destruct e as [[o st msg fc fp nl nm vt vl v] b h]. unfold blank, nm_set_msg.
  unfold nm_switch, nm_expect, nm_parse_field_count, nm_parse_name_len, nm_parse_name, nm_parse_value_type,
    nm_parse_value_len, nm_parse_value, nm_again, nm_fail, nm_loop.
  cbn [nm_par nm_buf nm_heap nm_state nm_order nm_msg nm_field_count nm_fields_parsed nm_name_len nm_name
    nm_value_type nm_value_len nm_value nm_to nm_set_counts nm_set_name nm_set_type nm_set_value].
  intros Hst. destruct st; try done; repeat (first [case_match | bind_cases]; try done; cbn [mbind option_bind nm_par
    nm_buf nm_heap nm_state nm_order nm_msg nm_field_count nm_fields_parsed nm_name_len nm_name nm_value_type
    nm_value_len nm_value nm_to nm_set_counts nm_set_name nm_set_type nm_set_value]); simplify_eq; try done.
Qed.

Lemma nm_switch_msg e ctl e' :
  nm_state (nm_par e) <> VTM_NM_PARSE_FIELD_COMPLETE -> nm_switch malloc_ok ds_ok a e = Some (ctl, e') ->
  nm_msg (nm_par e') = nm_msg (nm_par e).
Proof.
  intros Hst. unfold nm_switch, nm_expect, nm_parse_field_count, nm_parse_name_len, nm_parse_name, nm_parse_value_type,
    nm_parse_value_len, nm_parse_value, nm_again, nm_fail, nm_loop. intros H.
  destruct (nm_state (nm_par e)); [reads|reads|reads|reads|reads|reads|reads|reads|reads| |done|reads].
  destruct (negb (VTM_BUF_GET_AVAIL _ _)); [reads|]. destruct (nm_value_type (nm_par e)); reads.
Qed.

Lemma nm_blank_complete e :
  ds_ok = true -> nm_state (nm_par e) = VTM_NM_PARSE_FIELD_COMPLETE ->
  nm_msg (nm_par e) = Some (vtm_dataset_init VTM_DS_HINT_DEFAULT) ->
  nm_switch malloc_ok ds_ok a (blank e) = nm_switch malloc_ok ds_ok a e.
Proof.
  intros -> Hst Hm. unfold nm_switch, nm_parse_field_complete, blank. cbn [nm_par nm_set_msg nm_state nm_buf nm_heap].
  by rewrite Hst, Hm.
Qed.
End Parser.

Section Messages.
Context (printf_g : Z -> bytes).
Abbreviation many := (fun _ : Z => true).
Abbreviation step := (nm_step many true).
Abbreviation ds0 := (vtm_dataset_init VTM_DS_HINT_DEFAULT).
Implicit Types (e : nm_env).

(** A parser that has no dataset yet makes one when the first field is complete. *)
Lemma nm_blank_steps e e' :
  rtc step e e' -> nm_msg (nm_par e) = Some ds0 ->
  rtc step (blank e) (blank e') /\ nm_msg (nm_par e') = Some ds0 \/ rtc step (blank e) e'.
Proof.
  induction 1 as [e|e e1 e' H1 H2 IH]; intros Hm; [by left|].
  destruct (decide (nm_state (nm_par e) = VTM_NM_PARSE_FIELD_COMPLETE)) as [Hs|Hs].
  - right. eapply rtc_l; [|exact H2]. unfold nm_step. by rewrite nm_blank_complete.
  - assert (step (blank e) (blank e1)) as H1' by (unfold nm_step in *; by rewrite nm_blank_switch, H1).
    destruct IH as [[IH Hm']|IH]; [by rewrite (nm_switch_msg many true alloc_ok e _ e1 Hs H1)| |].
    + left. split; [by eapply rtc_l|done].
    + right. by eapply rtc_l.
Qed.

(** A parser between two messages. *)
Definition nm_idle (p : vtm_nm_parser) : Prop :=
  nm_state p = VTM_NM_PARSE_MSG_BEGIN /\ nm_order p = host /\ nm_msg p = None /\ nm_name p = None.

(** The fields of a message that can be sent and is not empty. *)
Definition nm_msg_ok (fs : list (bytes * nm_val)) : Prop :=
  fs <> [] /\ Forall nm_field_ok fs /\ NoDup fs.*1 /\ zlen fs <= UINT16_MAX.

(** What is received for fields. *)
Definition nm_received (fs : list (bytes * nm_val)) : gmap bytes nm_val := nm_sent <$> list_to_map fs.
Definition ds_view (ds : vtm_dataset) : gmap bytes nm_val := nm_view <$> ds_abs ds.

(** A dataset that was received for [fs]. *)
Definition ds_received (fs : list (bytes * nm_val)) (ds : vtm_dataset) : Prop :=
  ds_wf many printf_g ds /\ ds_view ds = nm_received fs.

Lemma nm_wire_len o fs rest : zlen (fs ≫= nm_field_wire o) + zlen rest <= zlen (nm_wire o fs ++ rest).
Proof. unfold nm_wire. rewrite !zlen_app. pose proof (zlen_nonneg (ord_bytes o 2 (zlen fs))). change (zlen [_; _]) with 2. lia. Qed.

Lemma nm_wire_pos o fs : 2 <= zlen (nm_wire o fs).
Proof.
  unfold nm_wire. cbn [app]. rewrite !zlen_cons. pose proof (zlen_nonneg (ord_bytes o 2 (zlen fs) ++ (fs ≫= nm_field_wire o))).
  lia.
Qed.

(** From a message at the front of the buffer to the dataset, for a parser that
    has a dataset already; everything else but the name is arbitrary. *)
Lemma nm_message_steps p b h fs rest :
  nm_state p = VTM_NM_PARSE_MSG_BEGIN -> nm_order p = host -> nm_msg p = Some ds0 -> nm_name p = None ->
  nm_msg_ok fs -> buf_ok b -> buf_content b = nm_wire (buf_order b) fs ++ rest ->
  zlen (buf_content b) < UINT32_MAX ->
  exists e ds, rtc step (mk_nm_env p b h) e /\ nm_state (nm_par e) = VTM_NM_PARSE_MSG_COMPLETE /\
    nm_order (nm_par e) = host /\ nm_msg (nm_par e) = Some ds /\ nm_name (nm_par e) = None /\
    ds_received fs ds /\ heap_ok h (ds_owned ds) (nm_heap e) /\
    buf_ok (nm_buf e) /\ buf_content (nm_buf e) = rest.
Proof.
  intros Es Eo Em En (Hne & Hok & Hnd & Hlen) Hb Hc Hsz.
  assert (ds_wf many printf_g ds0) as Hw0 by (split; [apply smap_wf_empty; cbn; lia | cbn; lia]).
  destruct (nm_head_steps many printf_g true p b h ds0 (buf_order b) fs rest Es Eo Em En Hw0 Hb eq_refl Hc Hlen h
    (heap_ok_nil h)) as (e1 & S1 & H1).
  pose proof (nm_wire_len (buf_order b) fs rest) as Hwl. rewrite <- Hc in Hwl. pose proof (zlen_nonneg rest).
  destruct (nm_fields_steps many printf_g true (fun _ => eq_refl) h (zlen fs) (buf_order b) rest fs 0 ds0 e1 H1 Hok eq_refl)
    as (e2 & ds & S2 & H2 & Ha); [lia|lia|exact Hlen|lia|].
  destruct H2 as [Hs2 Ho2 Hm2 Hn2 [Hcnt Hpar] Hw2 Hh2 (Hb2 & Hc2 & _)].
  exists (mk_nm_env (nm_to VTM_NM_PARSE_MSG_COMPLETE (nm_par e2)) (nm_buf e2) (nm_heap e2)), ds.
  split; [|split_and!; try done].
  - etransitivity; [exact S1|]. etransitivity; [exact S2|]. apply rtc_once. unfold nm_step, nm_switch.
    rewrite Hs2, Hcnt, Hpar, Z.eqb_refl. done.
  - split; [done|]. unfold ds_view, nm_received. rewrite Ha.
    change (nm_view <$> ds_abs ds0) with (nm_view <$> (∅ : gmap bytes vtm_variant)). rewrite fmap_empty.
    rewrite fold_insert_list_to_map; [|exact Hnd|by intros; apply lookup_empty]. apply (right_id_L ∅ (∪)).
Qed.

Lemma received_ne fs ds : fs <> [] -> ds_received fs ds -> ds_abs ds <> ∅.
Proof.
  intros Hne [_ Hv] E. unfold ds_view, nm_received in Hv. rewrite E, fmap_empty in Hv. destruct fs as [|[k x] fs]; [done|].
  apply (f_equal (lookup k)) in Hv. cbn [list_to_map foldr] in Hv.
  by rewrite lookup_empty, lookup_fmap, lookup_insert_eq in Hv.
Qed.

(** The same for a parser between two messages: it makes the dataset. *)
Lemma nm_run_message p b h fs rest :
  nm_idle p -> nm_msg_ok fs -> buf_ok b -> buf_content b = nm_wire (buf_order b) fs ++ rest ->
  zlen (buf_content b) < UINT32_MAX ->
  exists e ds, vtm_nm_parser_run many true alloc_ok (mk_nm_env p b h) = Some (VTM_NET_RECV_STAT_COMPLETE, e) /\
    nm_state (nm_par e) = VTM_NM_PARSE_MSG_COMPLETE /\
    nm_order (nm_par e) = host /\ nm_msg (nm_par e) = Some ds /\ nm_name (nm_par e) = None /\
    ds_received fs ds /\ heap_ok h (ds_owned ds) (nm_heap e) /\
    buf_ok (nm_buf e) /\ buf_content (nm_buf e) = rest /\ read_on b (nm_buf e).
Proof.
  intros (Es & Eo & Em & En) Hfs Hb Hc Hsz.
  set (p0 := nm_set_msg (Some ds0) p).
  destruct (nm_message_steps p0 b h fs rest Es Eo eq_refl En Hfs Hb Hc Hsz)
    as (e & ds & S & Hs & Ho & Hm & Hn & Hr & Hh & Hb' & Hc').
  assert (rtc step (mk_nm_env p b h) e) as S'.
  { assert (blank (mk_nm_env p0 b h) = mk_nm_env p b h) as Eb.
    { unfold blank, p0. cbn [nm_par nm_set_msg nm_buf nm_heap]. f_equal. unfold nm_set_msg. cbn. rewrite <- Em. by destruct p. }
    destruct (nm_blank_steps _ _ S eq_refl) as [[_ Hm']|S']; [|by rewrite Eb in S'].
    exfalso. assert (ds = ds0) as Ed by congruence. apply (received_ne fs ds); [apply Hfs|done|]. by rewrite Ed. }
  destruct (nm_steps_run many true _ e VTM_NET_RECV_STAT_COMPLETE e S') as [fuel Hf].
  { unfold nm_switch. by rewrite Hs. }
  destruct (nm_run_safe many printf_g true h (mk_nm_env p b h)) as (s & e4 & Hrun & _).
  { split; cbn [nm_buf nm_par nm_heap]; try done; [|by rewrite Em|].
    - unfold nm_state_ok. by rewrite Es.
    - unfold nm_owned. rewrite Es, Em, En. apply (heap_ok_nil h). }
  pose proof (nm_run_loop_det many true _ _ _ _ _ Hf Hrun) as E. injection E as <- <-.
  exists e, ds. split; [exact Hrun|]. split_and!; try done. by apply (nm_run_read_on many true alloc_ok _ _ _ _ Hrun).
Qed.
End Messages.


(** ** Receiving *)

(** A connection between two messages of its peer; [u] was received already. *)
Record nm_con_idle (c : vtm_nm_stream_con) (u : bytes) : Prop := {
  ci_buf : buf_ok (sc_recvbuf (nc_sock_con c));
  ci_err : buf_err (sc_recvbuf (nc_sock_con c)) = VTM_OK;
  ci_order : buf_order (sc_recvbuf (nc_sock_con c)) = VTM_BYTEORDER_BE;
  ci_read : buf_read (sc_recvbuf (nc_sock_con c)) = 0;
  ci_content : buf_content (sc_recvbuf (nc_sock_con c)) = u;
  ci_parser : nm_idle (nc_parser c)
}.

(** Nothing waits to be sent. *)
Record nm_con_quiet (c : vtm_nm_stream_con) : Prop := {
  cq_buf : buf_ok (sc_sendbuf (nc_sock_con c));
  cq_err : buf_err (sc_sendbuf (nc_sock_con c)) = VTM_OK;
  cq_order : buf_order (sc_sendbuf (nc_sock_con c)) = VTM_BYTEORDER_BE;
  cq_read : buf_read (sc_sendbuf (nc_sock_con c)) = 0;
  cq_content : buf_content (sc_sendbuf (nc_sock_con c)) = [];
  cq_writing : sc_writing (nc_sock_con c) = false
}.

Lemma nm_con_new_idle junk c : vtm_nm_stream_con_new true true junk = Some c -> nm_con_idle c [] /\ nm_con_quiet c.
Proof. intros [= <-]. split; split; try done; apply buf_init_ok. Qed.

(** Room for [k] more bytes. *)
Lemma ensure_more b k :
  buf_ok b -> buf_err b = VTM_OK -> 0 <= k -> buf_used b + k <= ROOM ->
  exists b', vtm_buf_ensure (fun _ => true) b k = (b', VTM_OK) /\ buf_ok b' /\ buf_err b' = VTM_OK /\
    buf_order b' = buf_order b /\ buf_read b' = buf_read b /\ buf_used b' = buf_used b /\
    buf_content b' = buf_content b /\ buf_used b + k <= buf_len b'.
Proof.
  intros Hb He Hk Hr.
  assert (is_size k) as Hs by (buf_sizes; unfold is_size, SIZE_MAX, ROOM in *; lia).
  destruct (make_room_ok (fun _ => true) (fun _ => eq_refl) b (buf_used b) k) as ((Hb' & He' & _) & Hu' & Hroom);
    [split_and!; try done; lia|done|lia|].
  destruct (make_room_kept (fun _ => true) (fun _ => eq_refl) b k Hb Hs) as (_ & Ho & Hrd & _ & Hc & _).
  unfold vtm_buf_ensure. set (b' := if VTM_BUF_PUT_AVAIL b k then _ else _) in *.
  exists b'. rewrite He'. by split_and!.
Qed.

Section Receiving.
Context (printf_g : Z -> bytes) {OS SA : Type} (vt : vtm_socket_vtable OS SA).
Abbreviation many := (fun _ : Z => true).
Abbreviation con_read := (vtm_nm_stream_con_read many true alloc_ok vt).
Implicit Types (s : vtm_socket) (os : OS) (c : vtm_nm_stream_con) (h : heap).

(** What a read of the socket gives, whatever the room for it is. *)
Definition reads_as (rc : Z) (data : bytes) s os (P : vtm_socket -> OS -> Prop) : Prop :=
  (forall n, 1024 <= n -> exists s' os', vtm_socket_read vt n s os = (rc, data, s', os') /\ P s' os') /\
  (rc = VTM_OK \/ rc = VTM_E_IO_AGAIN /\ data = []) /\ Forall is_byte data /\ zlen data <= 1024.

(** The buffer after a read. *)
Lemma read_buf c u rc data s os P :
  nm_con_idle c u -> reads_as rc data s os P -> zlen u <= 4096 ->
  exists b b' s' os', vtm_buf_ensure many (sc_recvbuf (nc_sock_con c)) 1024 = (b, VTM_OK) /\
    b' = (if rc =? VTM_OK then VTM_BUF_PUT_INC b data else b) /\
    vtm_socket_read vt (VTM_BUF_PUT_AVAIL_TOTAL b) s os = (rc, data, s', os') /\ P s' os' /\
    buf_ok b' /\ buf_err b' = VTM_OK /\ buf_order b' = VTM_BYTEORDER_BE /\ buf_read b' = 0 /\
    buf_content b' = u ++ data.
Proof.
  intros [Hb He Ho Hr Hc _] (Hread & Hrc & Hby & Hlen) Hu. pose proof (zlen_nonneg data).
  set (b0 := sc_recvbuf (nc_sock_con c)) in *.
  assert (buf_used b0 = zlen u) as Eu by (rewrite <- Hc; symmetry; apply content_used_len; done).
  destruct (ensure_more b0 1024 Hb He) as (b & E & Hb1 & He1 & Ho1 & Hr1 & Hu1 & Hc1 & Hroom); [lia|unfold ROOM; lia|].
  destruct (Hread (VTM_BUF_PUT_AVAIL_TOTAL b)) as (s' & os' & E2 & HP).
  { unfold VTM_BUF_PUT_AVAIL_TOTAL. rewrite u64_small by (buf_sizes; unfold is_size, SIZE_MAX; lia). lia. }
  exists b, (if rc =? VTM_OK then VTM_BUF_PUT_INC b data else b), s', os'. do 4 (split; [done|]).
  - destruct Hrc as [-> | [-> ->]].
    + rewrite Z.eqb_refl. destruct (put_inc_spec b data Hb1 Hby) as (-> & Hb3 & Hc3); [lia|].
      split_and!; try done; [by rewrite <- Ho, <- Ho1|by rewrite <- Hr|by rewrite Hc3, Hc1, Hc].
    + change (VTM_E_IO_AGAIN =? VTM_OK) with false. rewrite app_nil_r. split_and!; try done; congruence.
Qed.

Lemma con_read_msg fuel c u rc data s os P fs rest h :
  nm_con_idle c u -> reads_as rc data s os P -> u ++ data = nm_wire VTM_BYTEORDER_BE fs ++ rest ->
  zlen (u ++ data) <= 4096 -> nm_msg_ok fs ->
  exists c1 ds h1 s' os', con_read (S fuel) c s os h = Some (VTM_NET_RECV_STAT_COMPLETE, c1, s', os', h1) /\ P s' os' /\
    ds_received printf_g fs ds /\ heap_ok h (ds_owned ds) h1 /\
    exists c2, vtm_nm_stream_con_get_msg c1 = (Some ds, c2) /\ nm_con_idle c2 rest /\
      (nm_con_quiet c -> nm_con_quiet c2).
Proof.
  intros Hc Hread Et Hlen Hfs. pose proof (zlen_nonneg data). pose proof (zlen_nonneg u).
  destruct (read_buf c u rc data s os P Hc Hread) as (b & b' & s' & os' & E1 & Eb & E2 & HP & Hb & He & Ho & Hr & Hcon);
    [rewrite zlen_app in Hlen; lia|].
  pose proof Hread as (_ & Hrc & _). rewrite Et in Hcon, Hlen. rewrite <- Ho in Hcon.
  destruct (nm_run_message printf_g (nc_parser c) b' h fs rest (ci_parser _ _ Hc) Hfs Hb Hcon) as
    (e & ds & Erun & Hs & Hor & Hm & Hn & Hrec & Hh & Hbe & Hce & Hon).
  { rewrite Hcon, Ho. unfold UINT32_MAX. lia. }
  set (c1 := mk_nmcon (scon_with_recv (nm_buf e) (nc_sock_con c)) (nm_par e)).
  exists c1, ds, (nm_heap e), s', os'. split; [|split; [done|split; [done|split; [done|]]]].
  - cbn [vtm_nm_stream_con_read]. rewrite E1. change (negb (VTM_OK =? VTM_OK)) with false. cbn iota. rewrite E2.
    assert ((rc =? VTM_OK) || (rc =? VTM_E_IO_AGAIN) = true) as -> by (by destruct Hrc as [-> | [-> _]]). cbn [negb].
    rewrite <- Eb.
    assert (VTM_BUF_GET_AVAIL_TOTAL b' =? 0 = false) as ->.
    { rewrite get_avail_total by done. apply Z.eqb_neq. rewrite Hcon, zlen_app.
      apply Z.neq_sym, Z.lt_neq. eapply Z.lt_le_trans; [|apply Z.add_le_mono; [apply nm_wire_pos|apply zlen_nonneg]]. done. }
    rewrite andb_false_r. cbn [nc_parser]. rewrite Erun. reflexivity.
  - unfold vtm_nm_stream_con_get_msg, vtm_nm_parser_get_msg. cbn [c1 nc_parser nc_sock_con]. rewrite Hs, Hm.
    eexists. split; [reflexivity|]. destruct (vtm_buf_discard_processed_spec _ Hbe) as (? & ? & ? & ? & ? & _).
    destruct Hon as [r Er].
    split; [|intros []; by split]. split; cbn [nc_sock_con scon_with_recv sc_recvbuf nc_parser]; try done.
    + rewrite H5, Er. done.
    + rewrite H4, Er. done.
    + by rewrite H2.
Qed.

(** Nothing there and nothing received. *)
Lemma con_read_none fuel c s os P h :
  nm_con_idle c [] -> reads_as VTM_E_IO_AGAIN [] s os P ->
  exists c' s' os', con_read (S fuel) c s os h = Some (VTM_NET_RECV_STAT_AGAIN, c', s', os', h) /\ P s' os' /\ nm_con_idle c' [] /\
    (nm_con_quiet c -> nm_con_quiet c').
Proof.
  intros Hc Hread. destruct (read_buf c [] _ [] s os P Hc Hread) as (b & b' & s' & os' & E1 & -> & E2 & HP & Hb & He & Ho & Hr & Hcon);
    [done|]. change (VTM_E_IO_AGAIN =? VTM_OK) with false in *. cbn iota in *.
  eexists _, s', os'. cbn [vtm_nm_stream_con_read]. rewrite E1. change (negb (VTM_OK =? VTM_OK)) with false. cbn iota. rewrite E2.
  change (negb _) with false. change (VTM_E_IO_AGAIN =? VTM_OK) with false. cbn iota.
  rewrite get_avail_total by done. rewrite Hcon. change (zlen ([] ++ [])) with 0. change (_ && _) with true. cbn iota.
  split; [reflexivity|]. split; [done|]. split; [|intros []; by split]. split; try done. apply Hc.
Qed.

(** The socket has failed, or the peer has closed it: what was received is not
    looked at. *)
Lemma con_read_failed fuel c u s os rc s' os' h :
  nm_con_idle c u -> zlen u <= 4096 -> (forall n, vtm_socket_read vt n s os = (rc, [], s', os')) ->
  rc <> VTM_OK -> rc <> VTM_E_IO_AGAIN ->
  exists c', con_read (S fuel) c s os h = Some (VTM_NET_RECV_STAT_ERROR, c', s', os', h).
Proof.
  intros [Hb He Ho Hr Hc _] Hu Hread Hrc Hrc'.
  assert (buf_used (sc_recvbuf (nc_sock_con c)) = zlen u) as Eu by (rewrite <- Hc; symmetry; apply content_used_len; done).
  pose proof (zlen_nonneg u).
  destruct (ensure_more (sc_recvbuf (nc_sock_con c)) 1024 Hb He) as (b & E & _); [lia|unfold ROOM; lia|].
  eexists. cbn [vtm_nm_stream_con_read]. rewrite E. change (negb (VTM_OK =? VTM_OK)) with false. cbn iota.
  rewrite Hread, (proj2 (Z.eqb_neq _ _) Hrc), (proj2 (Z.eqb_neq _ _) Hrc'). reflexivity.
Qed.
End Receiving.

(** ** Serving *)

(** A callback that sends some messages and returns. *)
Fixpoint prog_sends {A} (ms : list vtm_dataset) (x : A) : nm_prog A :=
  match ms with [] => NmRet x | m :: ms => NmSend (Some m) (fun _ => prog_sends ms x) end.

(** What an application makes of the messages that it gets: the messages that it
    answers with, and its last state. *)
Fixpoint nm_serve_spec {A M} (app : M -> A -> list vtm_dataset * A) (msgs : list M) (x : A) : bytes * A :=
  match msgs with
  | [] => ([], x)
  | m :: msgs =>
      let '(ms, x) := app m x in
      let '(text, x) := nm_serve_spec app msgs x in ((ms ≫= nm_text) ++ text, x)
  end.

Section Serving.
Context (printf_g : Z -> bytes) {OS SA A : Type} (sys : sys_net OS) (sent inbox : Z -> OS -> bytes) `{!PeerLaws sys sent inbox}.
Context (ok : bool) (rest : vtm_socket_vtable OS SA) (rc0 : Z).
Context (reply : gmap bytes nm_val -> A -> list vtm_dataset * A).
Abbreviation vt := (vtm_socket_plain_vtable sys ok rest).
Implicit Types (s : vtm_socket) (os : OS) (c : vtm_nm_stream_con) (h : heap) (w : nm_io OS A).

(** The application looks at the fields of a message and answers with messages
    that can be sent. *)
Definition nm_app_cbs : vtm_nm_stream_srv_cbs A :=
  mk_nmcbs None None (Some (fun ds x => let '(ms, x) := reply (ds_view ds) x in prog_sends ms x)).
Definition app_sends : Prop := forall g x, Forall (fun m => nm_can_send m /\ zlen (nm_text m) <= UINT32_MAX) (reply g x).1.
Abbreviation can_read := (vtm_nm_stream_srv_sock_can_read many true alloc_ok true rc0 vt nm_app_cbs).

Lemma nm_text_pos m : 2 <= zlen (nm_text m).
Proof. apply nm_wire_pos. Qed.

Lemma con_send_ok c m s os u :
  nm_con_quiet c -> nm_con_idle c u -> nm_can_send m -> zlen (nm_text m) <= UINT32_MAX -> VTM_SOCKET_IS_CLOSED s = false ->
  exists c' s' os', vtm_nm_stream_con_send many vt true rc0 c (Some m) s os = Some (VTM_OK, c', s', os') /\
    nm_con_quiet c' /\ nm_con_idle c' u /\ net_after sent inbox s os s' os' (nm_text m) (inbox (s_fd s) os).
Proof.
  intros [Hb He Ho Hr Hc Hw] Hidle Hm Hlen Hopen.
  assert (buf_used (sc_sendbuf (nc_sock_con c)) = 0) as Hu by (rewrite <- (content_used_len (sc_sendbuf (nc_sock_con c))) by done; by rewrite Hc).
  destruct (nm_send_ok rc0 m _ Hm Hb He Ho) as (b & E & Hb1 & He1 & Ho1 & Hc1 & _ & _).
  { rewrite Hu. unfold ROOM, UINT32_MAX in *. lia. }
  unfold vtm_nm_stream_con_send. rewrite E. cbn [mbind option_bind]. rewrite Z.eqb_refl.
  unfold vtm_socket_con_write_start, vtm_socket_con_write_internal.
  cbn [scon_with_send sc_writing scon_with_writing sc_sendbuf]. rewrite Hw. unfold buf_unsent.
  rewrite decide_False by (intros [Hx _]; by apply (buf_ok_place b Hb1)). cbn [mbind option_bind]. rewrite Hc1, Hc. cbn [app].
  pose proof (nm_text_pos m) as Hpos.
  destruct (peer_write sys sent inbox ok rest s os (nm_text m) Hopen) as (s' & os' & Ew & Hnet).
  { intros Ht. rewrite Ht in Hpos. by change (zlen []) with 0 in Hpos. }
  rewrite Ew. cbn [mbind option_bind]. rewrite Z.eqb_refl. change (VTM_OK =? VTM_E_IO_AGAIN) with false. cbn iota.
  set (b1 := buf_with_read b (buf_read b +sz zlen (nm_text m))).
  assert (buf_ok b1 /\ buf_content b1 = []) as [Hb2 Hc2].
  { pose proof (buf_content_len b Hb1) as Hl. rewrite Hc1, Hc in Hl. cbn [app] in Hl.
    assert (buf_read b +sz zlen (nm_text m) = buf_used b) as Er.
    { rewrite u64_small; [lia|]. buf_sizes. unfold is_size, SIZE_MAX. lia. }
    unfold b1. rewrite Er. split.
    - destruct Hb1. split; cbn [buf_with_read buf_len buf_read buf_used buf_data buf_place buf_err]; try done. lia.
    - unfold buf_content. cbn [buf_with_read buf_read buf_used buf_data]. apply zdrop_all. buf_sizes.
      rewrite zlen_ztake by lia. lia. }
  destruct (vtm_buf_discard_processed_spec b1 Hb2) as (Hb3 & Hc3 & Hr3 & Ho3 & He3 & _).
  eexists _, s', os'. split; [reflexivity|]. split; [|split; [|done]].
  - split; cbn [nc_sock_con scon_with_writing scon_with_send sc_sendbuf sc_writing]; try done.
    + by rewrite He3.
    + by rewrite Ho3.
    + by rewrite Hc3.
  - destruct Hidle. by split.
Qed.

(** Sending several messages. *)
Lemma prog_sends_ok ms : forall (x : A) c s os u,
  nm_con_quiet c -> nm_con_idle c u -> Forall (fun m => nm_can_send m /\ zlen (nm_text m) <= UINT32_MAX) ms ->
  VTM_SOCKET_IS_CLOSED s = false ->
  exists c' s' os', nm_cb_run many true rc0 vt (prog_sends ms x) c s os = Some (x, c', s', os') /\
    nm_con_quiet c' /\ nm_con_idle c' u /\ net_after sent inbox s os s' os' (ms ≫= nm_text) (inbox (s_fd s) os).
Proof.
  induction ms as [|m ms IH]; intros x c s os u Hq Hi Hms Hopen; cbn [prog_sends nm_cb_run].
  - exists c, s, os. do 3 (split; [done|]). change ([] ≫= nm_text) with (@nil Z). unfold net_after.
    rewrite app_nil_r. by split_and!.
  - apply Forall_cons in Hms as [[Hm Hl] Hms].
    destruct (con_send_ok c m s os u Hq Hi Hm Hl Hopen) as (c1 & s1 & os1 & -> & Hq1 & Hi1 & Hop1 & Hfd1 & Hs1 & Hin1).
    cbn [mbind option_bind].
    destruct (IH x c1 s1 os1 u Hq1 Hi1 Hms Hop1) as (c2 & s2 & os2 & -> & Hq2 & Hi2 & Hop2 & Hfd2 & Hs2 & Hin2).
    exists c2, s2, os2. split; [done|]. split; [done|]. split; [done|]. rewrite Hfd1 in *.
    split_and!; try done; [|by rewrite Hin2, Hin1]. rewrite Hs2, Hs1, <- app_assoc. done.
Qed.

(** A worker that serves a connection of which [u] was received already. *)
Definition nm_serving w (u : bytes) : Prop :=
  VTM_SOCKET_IS_CLOSED (ni_sock w) = false /\
  exists c, ni_con w = Some c /\ nm_con_idle c u /\ nm_con_quiet c.

Lemma peer_reads s os :
  VTM_SOCKET_IS_CLOSED s = false -> zlen (inbox (s_fd s) os) <= 1024 -> Forall is_byte (inbox (s_fd s) os) ->
  reads_as vt (if decide (inbox (s_fd s) os = []) then VTM_E_IO_AGAIN else VTM_OK) (inbox (s_fd s) os) s os
    (fun s' os' => net_after sent inbox s os s' os' [] []).
Proof.
  intros Hopen Hlen Hby. split; [|split; [case_decide; auto|done]]. intros n Hn.
  destruct (peer_read_rc sys sent inbox ok rest s os n Hopen) as (rc & s' & os' & E & -> & Hnet & _); [lia|].
  by exists s', os'.
Qed.

Lemma nm_free_received h ds h1 fs :
  ds_received printf_g fs ds -> heap_ok h (ds_owned ds) h1 -> vtm_dataset_free (Some ds) h1 = Some h.
Proof.
  intros [Hw _] Ho. unfold vtm_dataset_free, vtm_dataset_release.
  by destruct (ds_clear_ok many printf_g h ds h1 Hw Ho) as (ds' & -> & _).
Qed.

(** Handling an event: all messages that are there. *)
Lemma nm_serve_all rfuel fss : forall fuel w u,
  app_sends -> nm_serving w u -> Forall nm_msg_ok fss ->
  u ++ inbox (s_fd (ni_sock w)) (ni_os w) = fss ≫= nm_wire VTM_BYTEORDER_BE ->
  zlen (u ++ inbox (s_fd (ni_sock w)) (ni_os w)) <= 1024 -> Forall is_byte (inbox (s_fd (ni_sock w)) (ni_os w)) ->
  (length fss < fuel)%nat ->
  let '(text, x) := nm_serve_spec reply (nm_received <$> fss) (ni_app w) in
  exists w', can_read (S rfuel) fuel w = Some w' /\ ni_app w' = x /\ nm_serving w' [] /\ ni_blocks w' = ni_blocks w /\
    s_fd (ni_sock w') = s_fd (ni_sock w) /\
    sent (s_fd (ni_sock w)) (ni_os w') = sent (s_fd (ni_sock w)) (ni_os w) ++ text /\
    inbox (s_fd (ni_sock w)) (ni_os w') = [].
Proof.
  induction fss as [|fs fss IH]; intros fuel w u Happ (Hopen & c & Hcon & Hi & Hq) Hok Et Hlen Hby Hf;
    (destruct fuel as [|fuel]; [cbn [length] in Hf; lia|]); cbn [fmap list_fmap nm_serve_spec vtm_nm_stream_srv_sock_can_read];
    rewrite Hcon; cbn [mbind option_bind]; pose proof (zlen_nonneg u) as Hu0;
    pose proof (zlen_nonneg (inbox (s_fd (ni_sock w)) (ni_os w))) as Hin0; rewrite zlen_app in Hlen;
    pose proof (peer_reads (ni_sock w) (ni_os w) Hopen ltac:(lia) Hby) as Hread.
  - pose proof Et as [-> Ei]%app_eq_nil. rewrite Ei in Hread. rewrite decide_True in Hread by done.
    destruct (con_read_none vt rfuel c (ni_sock w) (ni_os w) _ (ni_blocks w) Hi Hread)
      as (c' & s' & os' & -> & (Hop' & Hfd' & Hs' & Hin') & Hi' & Hq'). cbn [mbind option_bind].
    eexists. split; [reflexivity|]. cbn [ni_app ni_sock ni_os ni_blocks]. split_and!; try done.
    split; [done|]. exists c'. split_and!; [done|done|by apply Hq'].
  - apply Forall_cons in Hok as [Hfs Hok]. cbn [mbind list_bind] in Et.
    destruct (con_read_msg printf_g vt rfuel c u _ _ (ni_sock w) (ni_os w) _ fs (fss ≫= nm_wire VTM_BYTEORDER_BE)
      (ni_blocks w) Hi Hread Et ltac:(rewrite zlen_app; lia) Hfs)
      as (c1 & ds & h1 & s1 & os1 & -> & (Hop1 & Hfd1 & Hs1 & Hin1) & Hrec & Hh & c2 & Eget & Hi2 & Hq2).
    cbn [mbind option_bind]. rewrite Eget.
    pose proof (Happ (nm_received fs) (ni_app w)) as Hms. destruct (reply (nm_received fs) (ni_app w)) as [ms x] eqn:Ea.
    cbn [fst] in Hms. unfold nm_cb_on at 1. cbn [nm_app_cbs ncb_msg fmap option_fmap option_map ni_app ni_sock ni_os].
    pose proof (proj2 Hrec) as Hv. rewrite Hv, Ea.
    destruct (prog_sends_ok ms x c2 s1 os1 _ (Hq2 Hq) Hi2 Hms Hop1) as (c3 & s3 & os3 & -> & Hq3 & Hi3 & Hop3 & Hfd3 & Hs3 & Hin3).
    cbn [mbind option_bind ni_blocks]. rewrite (nm_free_received (ni_blocks w) ds h1 fs Hrec Hh). cbn [mbind option_bind].
    rewrite Hfd1 in *. cbn [ni_sock ni_os ni_con ni_app ni_blocks]. set (w3 := mk_nmio s3 os3 _ _ _).
    assert (inbox (s_fd (ni_sock w3)) (ni_os w3) = []) as Ein.
    { cbn [w3 ni_sock ni_os]. rewrite Hfd3. congruence. }
    specialize (IH fuel w3 (fss ≫= nm_wire VTM_BYTEORDER_BE) Happ). cbn [w3 ni_app] in IH.
    destruct (nm_serve_spec reply (nm_received <$> fss) x) as [text x'] eqn:Espec.
    destruct IH as (w' & E & Hx & Hserv & Hbl & Hfd & Hs & Hin).
    + split; [done|]. by exists c3.
    + done.
    + rewrite Ein. by rewrite app_nil_r.
    + rewrite Ein, app_nil_r. assert (zlen (u ++ inbox (s_fd (ni_sock w)) (ni_os w)) = zlen (nm_wire VTM_BYTEORDER_BE fs
        ++ (fss ≫= nm_wire VTM_BYTEORDER_BE))) as Ez by (f_equal; exact Et). rewrite !zlen_app in Ez.
      pose proof (zlen_nonneg (nm_wire VTM_BYTEORDER_BE fs)). lia.
    + rewrite Ein. constructor.
    + cbn [length] in Hf. lia.
    + exists w'. cbn [w3 ni_sock ni_os ni_blocks] in *. rewrite Hfd3 in *. split; [exact E|]. split_and!; try done.
      rewrite Hs, Hs3, Hs1, app_nil_r. by rewrite <- app_assoc.
Qed.
End Serving.
