(* ===== verification/NmExchange.v ===== *)
(** * NmExchange: messages between clients and servers of the protocol

    The properties of NmServer.v: what the handler of a stream connection does
    with the messages of its peer, a client with a worker of the server as its
    peer, and datagrams (net/nm/nm_stream_server.c, nm_stream_client.c,
    nm_dgram_client.c, nm_dgram_server.c). *)

From stdpp Require Import gmap fin_sets relations.
From S2P Require Import Prelude Base Buffer Str Ws Elem Hash Heap Table Smap Dataset Serialization.
From S2P Require Import Socket HttpResponse ResponseProps ResponseRoom HttpCon HttpServer HttpPeer HttpServerProps HttpClient HttpClientProps.
From S2P Require Import DgramLife Nm NmProps NmWire NmSend NmServer NmServerProps.

Abbreviation ds0 := (vtm_dataset_init VTM_DS_HINT_DEFAULT).

Section Given.
Context (printf_g : Z -> bytes).

(** A dataset that its owner sends: case-sensitive names of 1 to 255 bytes, at
    least one field, values that can be written. *)
Definition nm_message (m : vtm_dataset) : Prop :=
  ds_wf many printf_g m /\ hints m = VTM_DS_HINT_DEFAULT /\ nm_can_send m.

Lemma nm_message_fields m : nm_message m -> Forall nm_field_ok (nm_fields m).
Proof.
  intros (_ & _ & (Hok & _)). unfold nm_fields. apply Forall_fmap. eapply Forall_impl; [exact Hok|].
  intros en (Hen & Ht & Hl & _). cbn. destruct (vtm_nm_type_to_num (v_type en.2)) as [c|] eqn:Ec; [|done].
  by apply (nm_field_wf en c).
Qed.

Lemma nm_message_ok m : nm_message m -> nm_msg_ok (nm_fields m).
Proof.
  intros Hm. pose proof (nm_message_fields m Hm) as Hf. destruct Hm as (Hw & Hh & Hc).
  by destruct (nm_can_send_msg_ok many printf_g m Hw Hh Hc Hf) as (? & ? & ? & _).
Qed.

Lemma nm_message_received m : nm_message m -> nm_received (nm_fields m) = nm_sent <$> ds_view m.
Proof.
  intros Hm. pose proof (nm_message_fields m Hm) as Hf. destruct Hm as (Hw & Hh & Hc).
  destruct (nm_can_send_msg_ok many printf_g m Hw Hh Hc Hf) as (_ & _ & _ & E).
  unfold nm_received, ds_view. by rewrite <- E.
Qed.

(** A parser that was given a dataset. *)
Lemma nm_run_given p b h fs rest :
  nm_state p = VTM_NM_PARSE_MSG_BEGIN -> nm_order p = host -> nm_msg p = Some ds0 -> nm_name p = None ->
  nm_msg_ok fs -> buf_ok b -> buf_content b = nm_wire (buf_order b) fs ++ rest ->
  zlen (buf_content b) < UINT32_MAX ->
  exists e ds, vtm_nm_parser_run many true alloc_ok (mk_nm_env p b h) = Some (VTM_NET_RECV_STAT_COMPLETE, e) /\
    nm_msg (nm_par e) = Some ds /\ nm_name (nm_par e) = None /\
    ds_received printf_g fs ds /\ heap_ok h (ds_owned ds) (nm_heap e) /\
    buf_ok (nm_buf e) /\ buf_content (nm_buf e) = rest /\ read_on b (nm_buf e).
Proof.
  intros Es Eo Em En Hfs Hb Hc Hsz.
  destruct (nm_message_steps printf_g p b h fs rest Es Eo Em En Hfs Hb Hc Hsz)
    as (e & ds & S & Hs & Ho & Hm & Hn & Hr & Hh & Hb' & Hc').
  destruct (nm_steps_run many true _ e VTM_NET_RECV_STAT_COMPLETE e S) as [fuel Hf].
  { unfold nm_switch. by rewrite Hs. }
  destruct (nm_run_safe many printf_g true h (mk_nm_env p b h)) as (s & e4 & Hrun & _).
  { split; cbn [nm_buf nm_par nm_heap]; try done; [by unfold nm_state_ok; rewrite Es|rewrite Em|].
    - split; [apply smap_wf_empty; cbn; lia|cbn; lia].
    - unfold nm_owned. rewrite Es, Em, En. apply (heap_ok_nil h). }
  pose proof (nm_run_loop_det many true _ _ _ _ _ Hf Hrun) as E. injection E as <- <-.
  exists e, ds. split; [exact Hrun|]. split_and!; try done. by apply (nm_run_read_on many true alloc_ok _ _ _ _ Hrun).
Qed.

Lemma msg_from_buf_ok junk b h fs rest :
  nm_msg_ok fs -> buf_ok b -> buf_content b = nm_wire (buf_order b) fs ++ rest ->
  zlen (buf_content b) < UINT32_MAX ->
  exists ds b' h', vtm_nm_msg_from_buf many true alloc_ok junk ds0 b h = Some (VTM_OK, Some ds, b', h') /\
    ds_received printf_g fs ds /\ heap_ok h (ds_owned ds) h'.
Proof.
  intros Hfs Hb Hc Hsz.
  destruct (nm_run_given (nm_set_msg (Some ds0) (vtm_nm_parser_init junk)) b h fs rest) as
    (e & ds & Hrun & Hm & Hn & Hr & Hh & _); try done.
  unfold vtm_nm_msg_from_buf. rewrite Hrun. cbn [mbind option_bind]. unfold vtm_nm_parser_release.
  cbn [nm_set_msg nm_msg nm_name vtm_dataset_free mbind option_bind]. rewrite Hn, Hm. cbn [mbind option_bind].
  by exists ds, (nm_buf e), (nm_heap e).
Qed.

(** The buffer of a datagram. *)
Lemma dgram_buf_ok data :
  Forall is_byte data -> zlen data <= VTM_BUF_SDATA_LEN ->
  buf_ok (dgram_buf data) /\ buf_content (dgram_buf data) = data /\ buf_order (dgram_buf data) = VTM_BYTEORDER_BE.
Proof.
  intros Hby Hlen. destruct (buf_store_spec (vtm_buf_init VTM_BYTEORDER_BE) data (zlen data)) as (Ed & Hb & Hc);
    [apply buf_init_ok|done|done|done|].
  assert (splice 0 data [] = data) as Es by (unfold splice; cbn [Z.to_nat ztake take app]; unfold zdrop; rewrite drop_nil; apply app_nil_r).
  rewrite Ed in Hb, Hc. cbn [vtm_buf_init buf_used buf_data] in Hb, Hc. rewrite Es in Hb, Hc. by split_and!.
Qed.

(** The bytes of a message. *)
Lemma nm_text_bytes m : nm_can_send m -> zlen (nm_text m) <= ROOM -> Forall is_byte (nm_text m).
Proof.
  intros Hm Hl. destruct (nm_send_ok 0 m (vtm_buf_init VTM_BYTEORDER_BE) Hm (buf_init_ok _) eq_refl eq_refl)
    as (b & _ & Hb & _ & _ & Hc & _); [cbn [vtm_buf_init buf_used]; lia|].
  change (buf_content (vtm_buf_init VTM_BYTEORDER_BE)) with (@nil Z) in Hc. cbn [app] in Hc. rewrite <- Hc.
  unfold buf_content. by apply Forall_drop, Forall_take, Hb.
Qed.

Lemma nm_texts_bytes ms :
  Forall nm_message ms -> zlen (ms ≫= nm_text) <= ROOM -> Forall is_byte (ms ≫= nm_text).
Proof.
  intros Hms Hlen. induction Hms as [|m ms Hm Hms IH]; cbn [mbind list_bind] in *; [constructor|].
  rewrite zlen_app in Hlen. pose proof (zlen_nonneg (nm_text m)). pose proof (zlen_nonneg (ms ≫= nm_text)).
  apply Forall_app. split; [apply nm_text_bytes; [apply Hm|lia]|apply IH; lia].
Qed.

(** Receiving the datagram of a message. *)
Lemma dgram_receive junk m h :
  nm_message m -> zlen (nm_text m) <= VTM_BUF_SDATA_LEN ->
  exists ds b h', vtm_nm_msg_from_buf many true alloc_ok junk ds0 (dgram_buf (nm_text m)) h = Some (VTM_OK, Some ds, b, h') /\
    ds_received printf_g (nm_fields m) ds /\ heap_ok h (ds_owned ds) h'.
Proof.
  intros Hm Hl. assert (zlen (nm_text m) <= 1024) as Hl' by exact Hl.
  pose proof (nm_text_bytes m (proj2 (proj2 Hm)) ltac:(unfold ROOM; lia)) as Hby.
  destruct (dgram_buf_ok (nm_text m) Hby Hl) as (Hb & Hc & Ho).
  apply (msg_from_buf_ok junk (dgram_buf (nm_text m)) h (nm_fields m) []); [by apply nm_message_ok|done| |].
  - rewrite Hc, Ho, app_nil_r. done.
  - rewrite Hc. unfold UINT32_MAX. lia.
Qed.
End Given.

(** ** The server and its peer *)

Section Peers.
Context (printf_g : Z -> bytes) {OS SA A : Type} (sys : sys_net OS) (sent inbox : Z -> OS -> bytes) `{!PeerLaws sys sent inbox}.
Context (ok : bool) (rest : vtm_socket_vtable OS SA) (rc0 : Z).
Context (reply : gmap bytes nm_val -> A -> list vtm_dataset * A).
Implicit Types (w : nm_io OS A).

(** C5: a worker of the server serves its connection
    (net/nm/nm_stream_server.c, vtm_nm_stream_srv_sock_can_read, with
    nm_stream_connection.c, nm_parser.c and nm_protocol.c below).  The peer has
    sent the messages [ms] in one piece, of 1024 bytes together at most (one read)
    and none of them empty: for a message without fields the code closes the
    connection.  A message is a dataset with case-sensitive names of 1 to 255
    bytes whose values can be written.  Memory does not run out, and the peer takes
    what it is sent.  The application answers each with messages of its own, which
    may depend on its state.  Then handling one event gives the application the
    messages, in the order of their arrival, each with the fields of the sender
    ([nm_sent]: numbers as their packing leaves them); what the peer gets are its
    answers, whole and in order; the datasets of the messages are freed; and the
    connection waits for the next
    message. *)
Theorem nm_server_serves rfuel fuel ms w
    (Happ : app_sends reply) (Hw : nm_serving w []) (Hms : Forall (nm_message printf_g) ms)
    (Hin : inbox (s_fd (ni_sock w)) (ni_os w) = ms ≫= nm_text)
    (Hlen : zlen (inbox (s_fd (ni_sock w)) (ni_os w)) <= 1024) (Hfuel : (length ms < fuel)%nat) :
  let '(text, x) := nm_serve_spec reply ((fun m => nm_sent <$> ds_view m) <$> ms) (ni_app w) in
  exists w', vtm_nm_stream_srv_sock_can_read many true alloc_ok true rc0 (vtm_socket_plain_vtable sys ok rest)
      (nm_app_cbs reply) (S rfuel) fuel w = Some w' /\ ni_app w' = x /\ nm_serving w' [] /\ ni_blocks w' = ni_blocks w /\
    s_fd (ni_sock w') = s_fd (ni_sock w) /\
    sent (s_fd (ni_sock w)) (ni_os w') = sent (s_fd (ni_sock w)) (ni_os w) ++ text /\
    inbox (s_fd (ni_sock w)) (ni_os w') = [].
Proof.
  assert (((fun m => nm_sent <$> ds_view m) <$> ms) = nm_received <$> (nm_fields <$> ms)) as ->.
  { rewrite <- list_fmap_compose. apply list_fmap_ext. intros i m Hi.
    symmetry. apply (nm_message_received printf_g). by eapply Forall_lookup_1. }
  assert (ms ≫= nm_text = (nm_fields <$> ms) ≫= nm_wire VTM_BYTEORDER_BE) as Et.
  { clear. induction ms as [|m ms IH]; [done|]. cbn [mbind list_bind fmap list_fmap]. by rewrite IH. }
  apply (nm_serve_all printf_g sys sent inbox ok rest rc0 reply rfuel (nm_fields <$> ms) fuel w []); try done.
  - apply Forall_fmap. eapply Forall_impl; [exact Hms|]. intros m Hm. by apply (nm_message_ok printf_g).
  - cbn [app]. by rewrite Hin.
  - rewrite Hin in Hlen |- *. apply (nm_texts_bytes printf_g); [done|unfold ROOM; lia].
  - by rewrite length_fmap.
Qed.
End Peers.

(** ** The end of a stream *)

Section Closing.
Context (printf_g : Z -> bytes) {OS SA A : Type} (vt : vtm_socket_vtable OS SA) (rc0 : Z).
Implicit Types (w : nm_io OS A).

(** An application that looks at the messages and sends nothing. *)
Definition nm_sink (f : gmap bytes nm_val -> A -> A) : vtm_nm_stream_srv_cbs A :=
  mk_nmcbs None None (Some (fun ds x => NmRet (f (ds_view ds) x))).

(** C38: messages are lost when the peer closes its side after sending
    (net/nm/nm_stream_connection.c, vtm_nm_stream_con_read, called from
    vtm_nm_stream_srv_sock_can_read).  The peer has sent the message [m] and any
    number of whole messages [ms] behind it, 1024 bytes together at most and none
    of them empty, and has closed; one read gives all of it.  The application,
    which sends nothing itself, gets [m] only: the messages that are complete in
    the buffer of the connection are looked at after the next read of the socket,
    which fails, and the connection is closed: socket and system are left as these
    two reads and the closing of the socket leave them. *)
Theorem nm_last_messages_lost f rfuel fuel m ms c w
    (Hcon : ni_con w = Some c) (Hidle : nm_con_idle c []) (Hms : Forall (nm_message printf_g) (m :: ms))
    (Hlen : zlen ((m :: ms) ≫= nm_text) <= 1024)
    (Hread : forall n, 1024 <= n -> exists s1 os1,
       vtm_socket_read vt n (ni_sock w) (ni_os w) = (VTM_OK, (m :: ms) ≫= nm_text, s1, os1) /\
       exists s2 os2, forall n, vtm_socket_read vt n s1 os1 = (VTM_E_IO_EOF, [], s2, os2)) :
  exists w', vtm_nm_stream_srv_sock_can_read many true alloc_ok true rc0 vt (nm_sink f) (S rfuel) (S (S fuel)) w = Some w' /\
    ni_app w' = f (nm_sent <$> ds_view m) (ni_app w) /\ ni_blocks w' = ni_blocks w /\
    exists n s1 os1 n' s2 os2,
      vtm_socket_read vt n (ni_sock w) (ni_os w) = (VTM_OK, (m :: ms) ≫= nm_text, s1, os1) /\
      vtm_socket_read vt n' s1 os1 = (VTM_E_IO_EOF, [], s2, os2) /\
      (vtm_socket_close vt s2 os2).1.2 = ni_sock w' /\ (vtm_socket_close vt s2 os2).2 = ni_os w'.
Proof.
  assert (Forall is_byte ((m :: ms) ≫= nm_text)) as Hby by (apply (nm_texts_bytes printf_g); [done|unfold ROOM; lia]).
  apply Forall_cons in Hms as [Hm Hms]. cbn [mbind list_bind] in *.
  rewrite zlen_app in Hlen. pose proof (zlen_nonneg (nm_text m)). pose proof (zlen_nonneg (ms ≫= nm_text)).
  destruct (con_read_msg printf_g vt rfuel c [] VTM_OK (nm_text m ++ (ms ≫= nm_text)) (ni_sock w) (ni_os w)
    (fun s1 os1 => (exists n, vtm_socket_read vt n (ni_sock w) (ni_os w) = (VTM_OK, (m :: ms) ≫= nm_text, s1, os1)) /\
       exists s2 os2, forall n, vtm_socket_read vt n s1 os1 = (VTM_E_IO_EOF, [], s2, os2))
    (nm_fields m) (ms ≫= nm_text) (ni_blocks w) Hidle) as
    (c1 & ds & h1 & s1 & os1 & E1 & ((n & Hfirst) & s2 & os2 & Hnext) & Hrec & Hh & c2 & Eget & Hi2 & _).
  { split; [|split; [by left|split; [exact Hby|rewrite zlen_app; lia]]].
    intros n Hn. destruct (Hread n Hn) as (s1 & os1 & E & Hx). exists s1, os1. by eauto. }
  { done. }
  { cbn [app]. rewrite zlen_app. lia. }
  { by apply (nm_message_ok printf_g). }
  destruct (con_read_failed vt rfuel c2 _ s1 os1 VTM_E_IO_EOF s2 os2 (ni_blocks w) Hi2 ltac:(lia) Hnext) as (c3 & E3); [done|done|].
  cbn [vtm_nm_stream_srv_sock_can_read]. rewrite Hcon. cbn [mbind option_bind]. rewrite E1. cbn [mbind option_bind].
  rewrite Eget. unfold nm_cb_on. cbn [nm_sink ncb_msg fmap option_fmap option_map nm_cb_run ni_app ni_sock ni_os ni_blocks mbind option_bind].
  rewrite (nm_free_received printf_g (ni_blocks w) ds h1 (nm_fields m) Hrec Hh). cbn [mbind option_bind ni_con ni_sock ni_os ni_blocks].
  rewrite E3. cbn [mbind option_bind]. unfold nm_io_close. cbn [ni_sock ni_os ni_con ni_app ni_blocks].
  destruct (vtm_socket_close vt s2 os2) as [[rc s4] os4] eqn:Ec.
  eexists. split; [reflexivity|]. cbn [ni_app ni_blocks ni_sock ni_os].
  split; [by rewrite (proj2 Hrec), (nm_message_received printf_g m Hm)|]. split; [done|].
  exists n, s1, os1, 0, s2, os2. by rewrite Ec.
Qed.
End Closing.

(** ** Datagrams *)

Section Datagrams.
Context (printf_g : Z -> bytes) {OS SA A : Type} (vt : vtm_socket_vtable OS SA).

(** Writing into a new buffer. *)
Lemma msg_to_new_buf rc0 m :
  nm_can_send m -> zlen (nm_text m) <= 1024 ->
  exists b, vtm_nm_msg_to_buf many true rc0 (Some m) (vtm_buf_init VTM_BYTEORDER_BE) = Some (VTM_OK, b) /\
    ztake (buf_used b) (buf_data b) = nm_text m /\ buf_used b = zlen (nm_text m).
Proof.
  intros Hm Hl. destruct (nm_send_ok rc0 m (vtm_buf_init VTM_BYTEORDER_BE) Hm (buf_init_ok _) eq_refl eq_refl)
    as (b & E & Hb & _ & _ & Hc & Hr & _); [cbn [vtm_buf_init buf_used]; unfold ROOM; lia|].
  change (buf_content (vtm_buf_init VTM_BYTEORDER_BE)) with (@nil Z) in Hc. cbn [app] in Hc.
  change (buf_read (vtm_buf_init VTM_BYTEORDER_BE)) with 0 in Hr.
  exists b. split; [done|]. split; [by rewrite <- content_used|]. rewrite <- Hc. symmetry. by apply content_used_len.
Qed.

(** C10: a message travels in one datagram (net/nm/nm_dgram_client.c,
    vtm_nm_dgram_client_send and vtm_nm_dgram_client_recv; net/nm/nm_dgram_server.c,
    vtm_nm_dgram_srv_dgram_recv).  For a message [m] of at most 1024 bytes: the
    client hands the whole text of [m] to the socket and reports what the socket
    says; the server that got this text calls the application once with the
    fields of the sender and the address, and frees the dataset that it made;
    a client that receives the text fills the dataset of its caller with the
    same fields, and allocates nothing else. *)
Theorem nm_dgram_exchange m (Hm : nm_message printf_g m) (Hlen : zlen (nm_text m) <= VTM_BUF_SDATA_LEN) :
  (forall rc0 saddr s os s' os',
     vtm_socket_dgram_send vt (nm_text m) saddr s os = (VTM_OK, Some (zlen (nm_text m)), s', os') ->
     vtm_nm_dgram_client_send many vt true rc0 (Some m) saddr s os = Some (VTM_OK, s', os')) /\
  (forall (f : gmap bytes nm_val -> SA -> A -> A) junk from x h,
     vtm_nm_dgram_srv_dgram_recv many true alloc_ok (Some (fun ds => f (ds_view ds))) junk (nm_text m) from x h
       = Some (f (nm_sent <$> ds_view m) from x, h)) /\
  (forall junk from s os s' os' h,
     vtm_socket_dgram_recv vt VTM_BUF_SDATA_LEN s os = (VTM_OK, Some (nm_text m, from), s', os') ->
     exists ds h', vtm_nm_dgram_client_recv many true alloc_ok vt junk ds0 s os h
         = Some (VTM_OK, Some ds, Some from, s', os', h') /\
       ds_wf many printf_g ds /\ ds_view ds = nm_sent <$> ds_view m /\ heap_ok h (ds_owned ds) h').
Proof.
  split; [|split].
  - intros rc0 saddr s os s' os' E. unfold vtm_nm_dgram_client_send.
    destruct (msg_to_new_buf rc0 m (proj2 (proj2 Hm)) Hlen) as (b & -> & Et & Eu). cbn [mbind option_bind].
    change (negb (VTM_OK =? VTM_OK)) with false. cbn iota. by rewrite Et, E, Eu, !Z.eqb_refl.
  - intros f junk from x h. destruct (dgram_receive printf_g junk m h Hm Hlen) as (ds & b & h' & E & Hrec & Hh).
    unfold vtm_nm_dgram_srv_dgram_recv. change (vtm_dataset_new true) with (Some ds0). cbn iota. rewrite E. cbn [mbind option_bind].
    rewrite (nm_free_received printf_g h ds h' _ Hrec Hh). cbn [mbind option_bind]. rewrite Z.eqb_refl.
    by rewrite (proj2 Hrec), (nm_message_received printf_g m Hm).
  - intros junk from s os s' os' h E. destruct (dgram_receive printf_g junk m h Hm Hlen) as (ds & b & h' & E' & Hrec & Hh).
    exists ds, h'. unfold vtm_nm_dgram_client_recv. rewrite E. change (negb (VTM_OK =? VTM_OK)) with false. cbn iota.
    rewrite E'. cbn [mbind option_bind]. split; [done|]. destruct Hrec as [Hw Hv]. split; [done|]. split; [|done].
    by rewrite Hv, (nm_message_received printf_g m Hm).
Qed.
End Datagrams.

(** ** A client with the server as its peer *)

Section Exchange.
Context (printf_g : Z -> bytes) {A : Type} (rc0 : Z) (reply : gmap bytes nm_val -> A -> list vtm_dataset * A).
Abbreviation nm_world := (nm_io mailbox A).
Abbreviation srv_vt := (vtm_socket_plain_vtable mailbox_sys true mailbox_vtable).
Abbreviation can_read := (vtm_nm_stream_srv_sock_can_read many true alloc_ok true rc0 srv_vt (nm_app_cbs reply)).
Implicit Types (w : nm_world) (cl : vtm_nm_stream_client).

Definition with_post (m : mailbox) w : nm_world := mk_nmio (ni_sock w) m (ni_con w) (ni_app w) (ni_blocks w).

(** What the client sends waits for the server; when the client receives, a
    worker handles the event and the client gets what it has sent.  Two rounds of
    the loop: a message, and the one that finds nothing more. *)
Definition nm_world_sys : sys_net nm_world :=
  mk_sys (fun fd src w => (inl (zlen src), with_post (mk_mailbox (mb_inbox (ni_os w) ++ src) (mb_wire (ni_os w))) w))
    (fun fd len w =>
       match can_read 1 2 w with
       | None => (inr EPROTO, w)
       | Some w =>
           match mb_wire (ni_os w) with
           | [] => (inr EAGAIN, w)
           | wire => (inl (ztake len wire), with_post (mk_mailbox (mb_inbox (ni_os w)) (zdrop len wire)) w)
           end
       end)
    (fun fd w => (inr EAGAIN, w)) (fun fd dir w => (None, w)) (fun fd w => w).
Definition nm_world_rest : vtm_socket_vtable nm_world unit :=
  let r s (w : nm_world) := (VTM_OK, s, w) in
  mk_vtable (fun _ _ => r) (fun _ => r) (fun s w => (VTM_OK, None, s, w)) (fun _ _ => r)
    (fun _ => r) r (fun src s w => Some (VTM_OK, zlen src, s, w)) (fun _ s w => (VTM_OK, [], s, w))
    (fun _ s w => (VTM_OK, [], tt, s, w)) (fun src _ s w => (VTM_OK, zlen src, s, w))
    (fun _ _ => r) (fun _ s w => (VTM_OK, 0, s, w)) (fun s w => (VTM_OK, tt, s, w)).
Abbreviation cl_vt := (vtm_socket_plain_vtable nm_world_sys true nm_world_rest).

(** The server between two messages, with nothing on the way. *)
Definition nm_server_idle w : Prop := nm_serving w [] /\ mb_inbox (ni_os w) = [] /\ mb_wire (ni_os w) = [].

(** A connected client between two messages. *)
Record nm_client_idle cl s : Prop := {
  nli_sock : nl_sock cl = Some s;
  nli_open : VTM_SOCKET_IS_CLOSED s = false;
  nli_buf : buf_ok (nl_buf cl);
  nli_err : buf_err (nl_buf cl) = VTM_OK;
  nli_order : buf_order (nl_buf cl) = VTM_BYTEORDER_BE;
  nli_read : buf_read (nl_buf cl) = 0;
  nli_content : buf_content (nl_buf cl) = [];
  nli_msg : nm_msg (nl_parser cl) = None;
  nli_name : nm_name (nl_parser cl) = None
}.

(** A recv() of the client behind a message that it has sent. *)
Lemma nm_world_recv m m' x w fd len
    (Happ : app_sends reply) (Hm : nm_message printf_g m) (Hlen : zlen (nm_text m) <= 1024)
    (Hreply : reply (nm_sent <$> ds_view m) (ni_app w) = ([m'], x)) (Hsrv : nm_server_idle w)
    (Hlen' : zlen (nm_text m') <= len) :
  exists w', sys_recv nm_world_sys fd len (with_post (mk_mailbox (nm_text m) []) w) = (inl (nm_text m'), w') /\
    ni_app w' = x /\ nm_server_idle w' /\ ni_blocks w' = ni_blocks w.
Proof.
  destruct Hsrv as (Hserv & Hi & Ho). set (w0 := with_post _ w).
  pose proof (nm_server_serves printf_g mailbox_sys (fun _ os => mb_wire os) (fun _ os => mb_inbox os) true mailbox_vtable
    rc0 reply 0 2 [m] w0 Happ Hserv) as H. cbn [fmap list_fmap nm_serve_spec] in H.
  change (ni_app w0) with (ni_app w) in H. rewrite Hreply in H. destruct H as (w' & E & Hx & Hs & Hb & _ & Hw & Hin).
  - by apply Forall_singleton.
  - cbn. by rewrite app_nil_r.
  - exact Hlen.
  - cbn. lia.
  - cbn [sys_recv nm_world_sys]. rewrite E. cbn [w0 with_post ni_os mb_wire mbind list_bind app] in Hw.
    rewrite !app_nil_r in Hw. rewrite Hw. pose proof (nm_text_pos m') as Hpos.
    destruct (nm_text m') as [|c l] eqn:Et; [by change (zlen []) with 0 in Hpos|]. rewrite ztake_all by done.
    eexists. split; [reflexivity|]. split; [done|]. split; [|done]. split; [done|]. split; [done|]. by apply zdrop_all.
Qed.

(** Receiving a message into the dataset of the caller. *)
Lemma nm_client_recv_ok fuel cl s m' w h
    (Hcl : nm_client_idle cl s) (Hm : nm_message printf_g m') (Hlen : zlen (nm_text m') <= 512)
    (Hrecv : forall len, 512 <= len -> exists w', sys_recv nm_world_sys (s_fd s) len w = (inl (nm_text m'), w')) :
  exists ds cl' s' w' h', vtm_nm_stream_client_recv many true alloc_ok cl_vt (S fuel) cl ds0 w h
      = Some (VTM_OK, Some ds, cl', w', h') /\
    ds_received printf_g (nm_fields m') ds /\ heap_ok h (ds_owned ds) h' /\ nm_client_idle cl' s' /\
    s_fd s' = s_fd s /\ exists len, 512 <= len /\ w' = (sys_recv nm_world_sys (s_fd s) len w).2.
Proof.
  destruct Hcl as [Hs Hopen Hb He Ho Hr Hc Hmsg Hname]. pose proof (nm_text_pos m') as Hpos.
  assert (buf_used (nl_buf cl) = 0) as Hu by (rewrite <- (content_used_len (nl_buf cl)) by done; by rewrite Hc).
  destruct (ensure_more (nl_buf cl) 512 Hb He) as (b & E & Hb1 & He1 & Ho1 & Hr1 & Hu1 & Hc1 & Hroom); [lia|unfold ROOM; lia|].
  set (n := VTM_BUF_PUT_AVAIL_TOTAL b).
  assert (512 <= n) as Hn.
  { subst n. unfold VTM_BUF_PUT_AVAIL_TOTAL. rewrite u64_small by (buf_sizes; unfold is_size, SIZE_MAX; lia). lia. }
  destruct (Hrecv n Hn) as (w' & Er).
  destruct (read_once nm_world_sys true nm_world_rest s w n (nm_text m') w' Hopen) as (s' & Erd & Hopen' & Hfd);
    [by intros Et; rewrite Et in Hpos; change (zlen []) with 0 in Hpos|exact Er|].
  pose proof (nm_text_bytes m' (proj2 (proj2 Hm)) ltac:(unfold ROOM; lia)) as Hby.
  destruct (put_inc_spec b (nm_text m') Hb1 Hby) as (Ei & Hb3 & Hc3); [lia|].
  set (b3 := buf_with_data _ _ _) in *. rewrite Hc1, Hc in Hc3. cbn [app] in Hc3.
  assert (buf_order b3 = VTM_BYTEORDER_BE) as Ho3 by (change (buf_order b3) with (buf_order b); congruence).
  set (p0 := nm_set_msg (Some ds0) (vtm_nm_parser_init (nl_parser cl))).
  destruct (nm_run_given printf_g p0 b3 h (nm_fields m') []) as (e & ds & Erun & Hme & Hne & Hrec & Hh & Hbe & Hce & rd & Hon);
    try done; [by apply (nm_message_ok printf_g)|rewrite Hc3, Ho3, app_nil_r; done|rewrite Hc3; unfold UINT32_MAX; lia|].
  destruct (vtm_buf_discard_processed_spec _ Hbe) as (Hb4 & Hc4 & Hr4 & Ho4 & He4 & _).
  eexists ds, _, s', w', (nm_heap e). split; [|split; [done|split; [done|split]]].
  - unfold vtm_nm_stream_client_recv, vtm_nm_parser_reset, vtm_nm_parser_release. rewrite Hmsg, Hname.
    cbn [vtm_dataset_free mbind option_bind nl_with_recv nl_buf nl_parser].
    assert (VTM_BUF_GET_AVAIL_TOTAL (nl_buf cl) = 0) as -> by (rewrite get_avail_total by done; by rewrite Hc).
    change (0 <? 0) with false. cbn [nm_client_recv_loop]. cbn [nl_with_recv nl_buf nl_parser nl_sock]. rewrite E.
    change (negb (VTM_OK =? VTM_OK)) with false. cbn iota. rewrite Hs. cbn [mbind option_bind]. fold n. rewrite Erd.
    change (negb (VTM_OK =? VTM_OK)) with false. cbn iota. cbn [mbind option_bind nl_with_recv nl_with_sock nl_buf nl_parser nl_sock].
    rewrite Ei. fold p0. rewrite Erun. cbn [mbind option_bind nl_with_recv nl_with_sock nl_buf nl_parser nl_sock]. rewrite Hme. reflexivity.
  - split; cbn [nl_with_recv nl_with_sock nl_buf nl_parser nl_sock nm_set_msg nm_msg nm_name]; try done.
    + rewrite He4, Hon. done.
    + rewrite Ho4, Hon. done.
    + by rewrite Hc4.
  - split; [done|]. exists n. by rewrite Er.
Qed.

(** C8: client and server of the message protocol understand each other
    (net/nm/nm_stream_client.c, vtm_nm_stream_client_send and
    vtm_nm_stream_client_recv; net/nm/nm_stream_server.c,
    vtm_nm_stream_srv_sock_can_read, with everything below).  The peer of the
    client is a worker of the server, which handles its event when the client
    receives.  The client sends [m]; the application of the server, which gets
    the fields of [m], answers with [m'].  Then both operations of the client
    end with VTM_OK, the dataset that it gave has the fields of [m'] and owns
    exactly what was allocated, the server has the state that its application
    left and holds no memory, and both sides are ready for the next exchange.  The
    limits: [m] has 1024 bytes at most and [m'] 512, so that each comes with one
    read, neither is a message without fields, the names of both are case-sensitive
    and have 1 to 255 bytes, and memory does not run out. *)
Theorem nm_exchange fuel cl s m m' x w h
    (Hcl : nm_client_idle cl s) (Hsrv : nm_server_idle w) (Happ : app_sends reply)
    (Hm : nm_message printf_g m) (Hm' : nm_message printf_g m')
    (Hreply : reply (nm_sent <$> ds_view m) (ni_app w) = ([m'], x))
    (Hlen : zlen (nm_text m) <= 1024) (Hlen' : zlen (nm_text m') <= 512) :
  exists cl1 w1, vtm_nm_stream_client_send many cl_vt true rc0 cl (Some m) w = Some (VTM_OK, cl1, w1) /\
  exists ds cl2 s2 w2 h', vtm_nm_stream_client_recv many true alloc_ok cl_vt (S fuel) cl1 ds0 w1 h
      = Some (VTM_OK, Some ds, cl2, w2, h') /\
    ds_wf many printf_g ds /\ ds_view ds = nm_sent <$> ds_view m' /\ heap_ok h (ds_owned ds) h' /\
    nm_client_idle cl2 s2 /\ nm_server_idle w2 /\ ni_app w2 = x /\ ni_blocks w2 = ni_blocks w.
Proof.
  pose proof (nm_text_pos m) as Hpos. pose proof Hsrv as (_ & Hin & Hout).
  destruct (msg_to_new_buf rc0 m (proj2 (proj2 Hm)) Hlen) as (b & Eb & Et & Eu).
  destruct (write_once nm_world_sys true nm_world_rest s w (nm_text m) (with_post (mk_mailbox (nm_text m) []) w)) as
    (s1 & Ew & Hfd & Hopen1); [apply Hcl|by intros Em; rewrite Em in Hpos; change (zlen []) with 0 in Hpos| |].
  { cbn [sys_send nm_world_sys]. by rewrite Hin, Hout. }
  exists (nl_with_sock (Some s1) cl), (with_post (mk_mailbox (nm_text m) []) w). split.
  { unfold vtm_nm_stream_client_send. rewrite Eb. cbn [mbind option_bind]. change (negb (VTM_OK =? VTM_OK)) with false.
    cbn iota. rewrite (nli_sock _ _ Hcl). cbn [mbind option_bind]. rewrite Et, Ew. cbn [mbind option_bind].
    by rewrite Eu, !Z.eqb_refl. }
  assert (nm_client_idle (nl_with_sock (Some s1) cl) s1) as Hcl1 by (destruct Hcl; by split).
  destruct (nm_client_recv_ok fuel _ s1 m' (with_post (mk_mailbox (nm_text m) []) w) h Hcl1 Hm' Hlen') as
    (ds & cl2 & s2 & w2 & h' & E & [Hw Hv] & Hh & Hi2 & _ & len & Hl & E2).
  { intros len Hl. destruct (nm_world_recv m m' x w (s_fd s1) len Happ Hm Hlen Hreply Hsrv ltac:(lia)) as (w' & Er & _).
    by exists w'. }
  destruct (nm_world_recv m m' x w (s_fd s1) len Happ Hm Hlen Hreply Hsrv ltac:(lia)) as (w3 & Er & Hx & Hs3 & Hbl).
  rewrite Er in E2. cbn [snd] in E2. subst w3.
  exists ds, cl2, s2, w2, h'. split; [exact E|]. split; [done|]. split; [|done].
  by rewrite Hv, (nm_message_received printf_g m' Hm').
Qed.
End Exchange.

(** ** Concrete exchanges *)

(** A message with a number and a text, and an application that counts the
    messages and answers each with it. *)
Lemma test_message : nm_message (fun _ => []) test_ds.
Proof.
  split; [apply test_ds_wf|]. split; [reflexivity|].
  assert (nm_entries test_ds = [(Some (mk_ptr 1 (cstr_of "id"%string)), mk_variant (ElemWord 65534) VTM_ELEM_INT16 None);
    (Some (mk_ptr 2 (cstr_of "text"%string)), vtm_variant_from_str (mk_ptr 3 (cstr_of "hello"%string)))]) as E
    by (vm_compute; reflexivity).
  unfold nm_can_send. rewrite E. split; [|by split].
  repeat apply Forall_cons_2; [| |apply Forall_nil_2];
    (split; [split; [eexists; split; [reflexivity|]; split; [done|]; split; [|done]; repeat constructor; done|]|]);
    [done|by split_and!| |by split_and!].
  eexists. split; [reflexivity|]. split; [done|]. split; [done|]. split; repeat constructor; done.
Qed.

Definition count_reply (g : gmap bytes nm_val) (n : nat) : list vtm_dataset * nat := ([test_ds], S n).

Lemma test_text_len : zlen (nm_text test_ds) = 25.
Proof. by vm_compute. Qed.

Lemma count_sends : app_sends count_reply.
Proof.
  intros g n. cbn [count_reply fst]. apply Forall_cons_2; [|apply Forall_nil_2].
  split; [apply test_message|]. rewrite test_text_len. unfold UINT32_MAX. lia.
Qed.

(** A connection that was just accepted, with the bytes [l] on their way. *)
Definition nm_accepted (l : bytes) : nm_io mailbox nat :=
  mk_nmio demo_sock (mk_mailbox l []) (vtm_nm_stream_con_new true true nm_junk) 0%nat ∅.

Lemma nm_accepted_serving l : nm_serving (nm_accepted l) [].
Proof.
  split; [done|]. eexists. split; [reflexivity|]. by apply (nm_con_new_idle nm_junk).
Qed.

Lemma nm_server_serves_witness :
  let '(text, x) := nm_serve_spec count_reply ((fun m => nm_sent <$> ds_view m) <$> [test_ds; test_ds]) 0%nat in
  text = nm_text test_ds ++ nm_text test_ds /\ x = 2%nat /\
  exists w', vtm_nm_stream_srv_sock_can_read many true alloc_ok true 7 (vtm_socket_plain_vtable mailbox_sys true mailbox_vtable)
      (nm_app_cbs count_reply) 1 3 (nm_accepted ([test_ds; test_ds] ≫= nm_text)) = Some w' /\
    ni_app w' = x /\ mb_wire (ni_os w') = text.
Proof.
  pose proof (nm_server_serves (fun _ => []) mailbox_sys (fun _ os => mb_wire os) (fun _ os => mb_inbox os) true mailbox_vtable
    7 count_reply 0 3 [test_ds; test_ds] (nm_accepted ([test_ds; test_ds] ≫= nm_text)) count_sends
    (nm_accepted_serving _)) as H.
  change (ni_app (nm_accepted ([test_ds; test_ds] ≫= nm_text))) with 0%nat in H.
  change (s_fd (ni_sock (nm_accepted ([test_ds; test_ds] ≫= nm_text)))) with (s_fd demo_sock) in H.
  change (ni_os (nm_accepted ([test_ds; test_ds] ≫= nm_text))) with (mk_mailbox ([test_ds; test_ds] ≫= nm_text) []) in H.
  cbn [fmap list_fmap nm_serve_spec count_reply mb_wire mb_inbox app] in H |- *.
  destruct H as (w' & E & Hx & _ & _ & _ & Hs & _).
  - repeat apply Forall_cons_2; [apply test_message|apply test_message|apply Forall_nil_2].
  - reflexivity.
  - by vm_compute.
  - cbn. lia.
  - split; [cbn [mbind list_bind]; by rewrite !app_nil_r|]. split; [done|]. exists w'. split; [exact E|]. split; [exact Hx|exact Hs].
Defined.

(** A peer that has closed: what it has sent, then the end of the stream. *)
Definition closing_sys : sys_net mailbox :=
  mk_sys (fun fd src os => (inl (zlen src), os))
    (fun fd len os => (inl (ztake len (mb_inbox os)), mk_mailbox (zdrop len (mb_inbox os)) (mb_wire os)))
    (fun fd os => (inr EAGAIN, os)) (fun fd dir os => (None, os)) (fun fd os => os).

Lemma nm_last_messages_lost_witness :
  exists w', vtm_nm_stream_srv_sock_can_read many true alloc_ok true 7 (vtm_socket_plain_vtable closing_sys true mailbox_vtable)
      (nm_sink (fun _ => S)) 1 2 (nm_accepted ([test_ds; test_ds] ≫= nm_text)) = Some w' /\
    ni_app w' = 1%nat /\ ni_blocks w' = ∅ /\ VTM_SOCKET_IS_CLOSED (ni_sock w') = true.
Proof.
  destruct (nm_last_messages_lost (fun _ => []) (vtm_socket_plain_vtable closing_sys true mailbox_vtable) 7 (fun _ => S) 0 0
    test_ds [test_ds] (mk_nmcon (mk_scon (vtm_buf_init VTM_BYTEORDER_BE) (vtm_buf_init VTM_BYTEORDER_BE) false) (vtm_nm_parser_init nm_junk)) (nm_accepted ([test_ds; test_ds] ≫= nm_text)))
    as (w' & E & Ha & Hb & n & s1 & os1 & n' & s2 & os2 & _ & _ & Hs & _).
  - reflexivity.
  - by apply (nm_con_new_idle nm_junk).
  - repeat apply Forall_cons_2; [apply test_message|apply test_message|apply Forall_nil_2].
  - by vm_compute.
  - intros n Hn. set (l := [test_ds; test_ds] ≫= nm_text).
    assert (sys_recv closing_sys (s_fd demo_sock) n (mk_mailbox l []) = (inl l, mk_mailbox [] [])) as Er.
    { assert (zlen l = 50) as El by (vm_compute; reflexivity). assert (zlen l <= n) by lia.
      cbn [sys_recv closing_sys mb_inbox mb_wire]. by rewrite ztake_all, zdrop_all. }
    destruct (read_once closing_sys true mailbox_vtable demo_sock (mk_mailbox l []) n l (mk_mailbox [] [])) as
      (s1 & E & Hopen & _); [reflexivity|intros El; vm_compute in El; discriminate El|exact Er|].
    exists s1, (mk_mailbox [] []). split; [exact E|].
    unfold vtm_socket_read. rewrite Hopen. cbn [vt_read vtm_socket_plain_vtable]. unfold vtm_socket_plain_read.
    cbn [sys_recv closing_sys mb_inbox mb_wire]. unfold ztake, zdrop.
    eexists _, _. intros n'. rewrite take_nil, drop_nil. reflexivity.
  - exists w'. split; [exact E|]. split; [exact Ha|]. split; [exact Hb|]. rewrite <- Hs. unfold vtm_socket_close.
    destruct (VTM_SOCKET_IS_CLOSED s2) eqn:Ec; [exact Ec|]. cbn [vt_close vtm_socket_plain_vtable].
    unfold vtm_socket_plain_close. rewrite Z.eqb_refl. cbn [fst snd].
    rewrite is_closed_bit. cbn [vtm_socket_set_state sock_with_state s_state]. unfold vtm_flag_set. rewrite Z.lor_spec.
    by rewrite orb_true_r.
Defined.

Lemma nm_dgram_exchange_witness :
  vtm_nm_dgram_srv_dgram_recv many true alloc_ok (Some (fun ds (from : unit) x => size (ds_view ds) + x)%nat) nm_junk
    (nm_text test_ds) tt 5%nat ∅ = Some (7%nat, ∅).
Proof.
  destruct (nm_dgram_exchange (A := nat) (fun _ => []) mailbox_vtable test_ds test_message) as (_ & H & _).
  { rewrite test_text_len. unfold VTM_BUF_SDATA_LEN. lia. }
  rewrite (H (fun g from x => size g + x)%nat nm_junk tt 5%nat ∅). vm_compute. reflexivity.
Defined.

Definition nm_demo_client : vtm_nm_stream_client :=
  mk_nmcl (Some demo_sock) (vtm_buf_init VTM_BYTEORDER_BE) (vtm_nm_parser_init nm_junk) 0.

Lemma nm_exchange_witness :
  exists ds cl1 w1 cl2 w2 h',
    vtm_nm_stream_client_send many (vtm_socket_plain_vtable (nm_world_sys 7 count_reply) true nm_world_rest) true 7
      nm_demo_client (Some test_ds) (nm_accepted []) = Some (VTM_OK, cl1, w1) /\
    vtm_nm_stream_client_recv many true alloc_ok (vtm_socket_plain_vtable (nm_world_sys 7 count_reply) true nm_world_rest) 1
      cl1 ds0 w1 ∅ = Some (VTM_OK, Some ds, cl2, w2, h') /\
    ds_view ds = nm_sent <$> ds_view test_ds /\ ni_app w2 = 1%nat.
Proof.
  destruct (nm_exchange (fun _ => []) 7 count_reply 0 nm_demo_client demo_sock test_ds test_ds 1%nat (nm_accepted []) ∅)
    as (cl1 & w1 & E1 & ds & cl2 & s2 & w2 & h' & E2 & _ & Hv & _ & _ & _ & Hx & _).
  - split; try reflexivity. apply buf_init_ok.
  - split; [apply nm_accepted_serving|]. split; reflexivity.
  - apply count_sends.
  - apply test_message.
  - apply test_message.
  - reflexivity.
  - rewrite test_text_len. lia.
  - rewrite test_text_len. lia.
  - exists ds, cl1, w1, cl2, w2, h'. split; [exact E1|]. split; [exact E2|]. split; [exact Hv|exact Hx].
Defined.
