(* ===== verification/ServerLife.v ===== *)
(** * ServerLife: starting and stopping the servers of the protocols

    The HTTP server, the stream server and the datagram server of the message
    protocol (net/http/http_server.c, net/nm/nm_stream_server.c,
    net/nm/nm_dgram_server.c) run and stop in the same way: a socket server is
    created for each run, and the spinlock [stop_lock] keeps the threads that stop
    the server away from it while it is set up and freed.  The socket server below
    (net/socket_stream_server.c, net/socket_dgram_server.c) has a second lock of
    the same name.  One thread runs the server, again and again; any number of
    threads stop it; their steps interleave. *)

From stdpp Require Import list relations.
From S2P Require Import Prelude Base Sync StreamWorkers.

(** ** Threads *)

Inductive srv_kind := HttpSrv | NmStreamSrv | NmDgramSrv.
#[export] Instance srv_kind_eq_dec : EqDecision srv_kind.
Proof. solve_decision. Defined.

(** Where the thread is that runs the server.  [RInner] to [RLeave] are inside of
    the run of the socket server: [RMain] is in its main loop and in the draining
    behind it, [RJoin] waits for the workers to end. *)
Inductive run_pc :=
| RIdle
| RLock
| RNew
| RInner
| RSetup
| RReady
| RBegin
| RMain
| RJoin (rc : Z)
| RClean (rc : Z)
| RCleanup (rc : Z)
| RLeave (rc : Z)
| RRelock (rc : Z)
| RFree (rc : Z)
| RUnlock (rc : Z).

(** Where a thread is that stops the server; [k] is the socket server that it has
    found, [SDone] its last result. *)
Inductive stop_pc :=
| SIdle
| SLock
| SRead
| SInner (k : nat)
| SFlag (k : nat)
| SInt (k : nat)
| SLeave (k : nat) (rc : Z)
| SUnlock (k : option nat) (rc : Z)
| SDone (k : option nat) (rc : Z).

(** A call with NULL, a socket server that was freed. *)
Inductive abort_cause := ANull | ADead.

(** The outer lock, the pointer to the socket server (sock_srv, [None] is NULL);
    the socket server that is alive, by its number, with its lock, its flag, and
    whether its listener is there; the threads; the undefined behaviour that was
    reached. *)
Record life := mk_life {
  lf_outer : option tid;
  lf_srv : option nat;
  lf_live : option nat;
  lf_next : nat;
  lf_inner : option tid;
  lf_running : bool;
  lf_listener : bool;
  lf_run : run_pc;
  lf_stops : list stop_pc;
  lf_abort : option abort_cause
}.

(** net/nm/nm_stream_server.c:32-46 [vtm_nm_stream_srv_new].  A new server and
    [n] threads that may stop it. *)
Definition life_init (n : nat) : life :=
  mk_life None None None 0 None false false RIdle (replicate n SIdle) None.

Definition lf_set_outer o s :=
  mk_life o (lf_srv s) (lf_live s) (lf_next s) (lf_inner s) (lf_running s) (lf_listener s) (lf_run s) (lf_stops s) (lf_abort s).
Definition lf_set_inner o s :=
  mk_life (lf_outer s) (lf_srv s) (lf_live s) (lf_next s) o (lf_running s) (lf_listener s) (lf_run s) (lf_stops s) (lf_abort s).
Definition lf_set_running b s :=
  mk_life (lf_outer s) (lf_srv s) (lf_live s) (lf_next s) (lf_inner s) b (lf_listener s) (lf_run s) (lf_stops s) (lf_abort s).
Definition lf_set_listener b s :=
  mk_life (lf_outer s) (lf_srv s) (lf_live s) (lf_next s) (lf_inner s) (lf_running s) b (lf_run s) (lf_stops s) (lf_abort s).
Definition lf_set_run pc s :=
  mk_life (lf_outer s) (lf_srv s) (lf_live s) (lf_next s) (lf_inner s) (lf_running s) (lf_listener s) pc (lf_stops s) (lf_abort s).
Definition lf_go i pc s :=
  mk_life (lf_outer s) (lf_srv s) (lf_live s) (lf_next s) (lf_inner s) (lf_running s) (lf_listener s) (lf_run s)
    (<[i := pc]> (lf_stops s)) (lf_abort s).
Definition lf_fail c s :=
  mk_life (lf_outer s) (lf_srv s) (lf_live s) (lf_next s) (lf_inner s) (lf_running s) (lf_listener s) (lf_run s)
    (lf_stops s) (Some c).

(** A socket server that was just created: all zero. *)
Definition lf_create s :=
  mk_life (lf_outer s) (Some (lf_next s)) (Some (lf_next s)) (S (lf_next s)) None false false (lf_run s) (lf_stops s) (lf_abort s).
Definition lf_destroy s :=
  mk_life (lf_outer s) None None (lf_next s) (lf_inner s) (lf_running s) (lf_listener s) (lf_run s) (lf_stops s) (lf_abort s).

(** Taking a lock; a thread that does not get it goes on trying. *)
Definition take_outer t s : option life := if decide (lf_outer s = None) then Some (lf_set_outer (Some t) s) else None.
Definition take_inner t s : option life := if decide (lf_inner s = None) then Some (lf_set_inner (Some t) s) else None.

(** What the running thread is told: the options of the call (NULL or not);
    memory for the socket server; that its setup has failed with a code; how the
    main loop ends, or that it was not entered for want of memory; that all workers
    have ended.  The last two answers may never come: the main loop waits for
    events, the draining and the joining wait for threads (StreamWorkers.v,
    DgramServer.v). *)
Inductive run_answer :=
| RunStart (opts : bool)
| RunNew (ok : bool)
| RunSetup (failed : option Z)
| RunEnd (early : bool) (rc : Z)
| RunJoined.

(** Where the running thread waits for something that is not a lock, maybe for
    ever: for a call, in the main loop, for the workers. *)
Definition run_waits (pc : run_pc) : bool := match pc with RIdle | RMain | RJoin _ => true | _ => false end.

Section Kind.
Context (kind : srv_kind).

(** net/socket_stream_server.c:217-269 [vtm_socket_stream_srv_run].  The setup in
    front (StreamLife.v) runs behind the lock and is one step; it ends with the call
    of server_ready, which unlocks the outer lock, or with a code.  The main loop
    (vtm_socket_stream_srv_main_run) and the workers are models of their own
    (StreamServer.v, StreamWorkers.v); here they are over when the answer says so,
    and a run that hangs in them gets no such answer.
    net/socket_dgram_server.c:86-193 (DgramLife.v) differs in that the code of the
    main loop is not looked at. *)
Definition inner_run_step (a : run_answer) (s : life) : option life :=
  match lf_run s with
  | RInner => s ← take_inner TMain s; Some (lf_set_run RSetup s)
  | RSetup =>
      match a with
      | RunSetup None => Some (lf_set_run RReady (lf_set_listener true (lf_set_running true s)))
      | RunSetup (Some rc) => Some (lf_set_run (RLeave rc) s)
      | _ => None
      end
  | RBegin => Some (lf_set_run RMain (lf_set_inner None s))
  | RMain =>
      match a with
      | RunEnd early rc =>
          if (early || lf_running s) && (rc =? VTM_OK) then None
          else Some (lf_set_run (RJoin (match kind with NmDgramSrv => VTM_OK | _ => rc end))
                       (lf_set_running (early && lf_running s) s))
      | _ => None
      end
  | RJoin rc => match a with RunJoined => Some (lf_set_run (RClean rc) s) | _ => None end
  | RClean rc => s ← take_inner TMain s; Some (lf_set_run (RCleanup rc) s)
  | RCleanup rc => Some (lf_set_run (RLeave rc) (lf_set_listener false s))
  | RLeave rc => Some (lf_set_run (if rc =? VTM_OK then RRelock rc else RFree rc) (lf_set_inner None s))
  | _ => None
  end.

(** net/nm/nm_stream_server.c:127-138 [vtm_nm_stream_srv_server_ready] *)
Definition server_ready_step (s : life) : option life :=
  match lf_run s with
  | RReady => Some (lf_set_run RBegin (lf_set_outer None s))
  | _ => None
  end.

(** net/nm/nm_stream_server.c:56-97 [vtm_nm_stream_srv_run].  The HTTP server
    looks at its options first (net/http/http_server.c:81). *)
Definition run_step (a : run_answer) (s : life) : option life :=
  match lf_run s with
  | RIdle =>
      match a with
      | RunStart opts =>
          Some (lf_set_run (match kind with HttpSrv => if opts then RLock else RIdle | _ => RLock end) s)
      | _ => None
      end
  | RLock => s ← take_outer TMain s; Some (lf_set_run RNew s)
  | RNew =>
      match a with
      | RunNew true => Some (lf_set_run RInner (lf_create s))
      | RunNew false => Some (lf_set_run (RUnlock VTM_E_MALLOC) s)
      | _ => None
      end
  | RReady => server_ready_step s
  | RRelock rc => s ← take_outer TMain s; Some (lf_set_run (RFree rc) s)
  | RFree rc => Some (lf_set_run (RUnlock rc) (lf_destroy s))
  | RUnlock rc => Some (lf_set_run RIdle (lf_set_outer None s))
  | _ => inner_run_step a s
  end.

(** A step inside of the socket server [k]. *)
Definition inside (k : nat) (s : life) (f : option life) : option life :=
  if decide (lf_live s = Some k) then f else Some (lf_fail ADead s).

(** net/socket_stream_server.c:271-286 [vtm_socket_stream_srv_stop].  [rc] is the
    code of vtm_socket_listener_interrupt(). *)
Definition inner_stop_step (i : nat) (rc : Z) (s : life) : option life :=
  pc ← lf_stops s !! i;
  match pc with
  | SInner k => inside k s (s ← take_inner (TWorker i) s; Some (lf_go i (SFlag k) s))
  | SFlag k => inside k s (Some (lf_go i (SInt k) (lf_set_running false s)))
  | SInt k => inside k s (Some (lf_go i (SLeave k (if lf_listener s then rc else VTM_E_INVALID_STATE)) s))
  | SLeave k rc => inside k s (Some (lf_go i (SUnlock (Some k) rc) (lf_set_inner None s)))
  | _ => None
  end.

(** net/http/http_server.c:126-140 [vtm_http_srv_stop].  The pointer to the HTTP
    server is tested, that to the socket server is not; the other servers test
    it (net/nm/nm_stream_server.c:99-113, net/nm/nm_dgram_server.c:94-108). *)
Definition stop_step (i : nat) (rc : Z) (s : life) : option life :=
  pc ← lf_stops s !! i;
  match pc with
  | SIdle | SDone _ _ => Some (lf_go i SLock s)
  | SLock => s ← take_outer (TWorker i) s; Some (lf_go i SRead s)
  | SRead =>
      match lf_srv s with
      | Some k => Some (lf_go i (SInner k) s)
      | None =>
          match kind with
          | HttpSrv => Some (lf_fail ANull s)
          | _ => Some (lf_go i (SUnlock None VTM_E_INVALID_STATE) s)
          end
      end
  | SUnlock k rc => Some (lf_go i (SDone k rc) (lf_set_outer None s))
  | _ => inner_stop_step i rc s
  end.

(** A step of one of the threads; undefined behaviour ends everything. *)
Inductive life_label := LRun (a : run_answer) | LStop (i : nat) (rc : Z).

Definition life_step (l : life_label) (s : life) : option life :=
  match lf_abort s with
  | Some _ => None
  | None => match l with LRun a => run_step a s | LStop i rc => stop_step i rc s end
  end.

(** The steps of socket servers that report VTM_OK exactly if they got ready: an
    error of the setup has a code, and the main loop ends without an error, which
    the datagram server reports anyway. *)
Definition good (l : life_label) : bool :=
  match l with
  | LRun (RunSetup (Some rc)) => negb (rc =? VTM_OK)
  | LRun (RunEnd _ rc) => bool_decide (kind = NmDgramSrv) || (rc =? VTM_OK)
  | _ => true
  end.
Definition good_step (l : life_label) (s : life) : option life := if good l then life_step l s else None.

(** ** The invariant *)

Definition run_outer (pc : run_pc) : bool :=
  match pc with
  | RNew | RInner | RSetup | RReady | RFree _ | RUnlock _ => true
  | RLeave rc => negb (rc =? VTM_OK)
  | _ => false
  end.
Definition run_inner (pc : run_pc) : bool :=
  match pc with RSetup | RReady | RBegin | RCleanup _ | RLeave _ => true | _ => false end.
Definition run_block (pc : run_pc) : bool :=
  match pc with RIdle | RLock | RNew | RUnlock _ => false | _ => true end.
(** The socket server has got ready. *)
Definition run_started (pc : run_pc) : bool :=
  match pc with
  | RReady | RBegin | RMain | RJoin _ | RClean _ | RCleanup _ | RRelock _ | RFree _ => true
  | RLeave rc => rc =? VTM_OK
  | _ => false
  end.
(** Codes that are not looked at any more are those of a good run. *)
Definition run_good (pc : run_pc) : bool :=
  match pc with RJoin rc | RClean rc | RCleanup rc | RRelock rc => rc =? VTM_OK | _ => true end.

Definition stop_outer (pc : stop_pc) : bool :=
  match pc with SIdle | SLock | SDone _ _ => false | _ => true end.
Definition stop_inner (pc : stop_pc) : bool := match pc with SFlag _ | SInt _ | SLeave _ _ => true | _ => false end.
Definition stop_ptr (pc : stop_pc) : option nat :=
  match pc with SInner k | SFlag k | SInt k | SLeave k _ => Some k | _ => None end.
(** The socket server that was told to end. *)
Definition stop_told (pc : stop_pc) : option nat :=
  match pc with SInt k | SLeave k _ => Some k | SUnlock k _ | SDone k _ => k | _ => None end.

Record life_inv (n : nat) (s : life) : Prop := {
  lv_len : length (lf_stops s) = n;
  lv_outer : mtx_ok stop_outer (owner (lf_outer s)) (lf_stops s);
  lv_outer_run : run_outer (lf_run s) = true <-> lf_outer s = Some TMain;
  lv_inner : mtx_ok stop_inner (owner (lf_inner s)) (lf_stops s);
  lv_inner_run : run_inner (lf_run s) = true <-> lf_inner s = Some TMain;
  lv_block : if run_block (lf_run s) then exists k, lf_live s = Some k /\ lf_srv s = Some k /\ (k < lf_next s)%nat
    else lf_live s = None /\ lf_srv s = None /\ lf_inner s = None;
  lv_good : run_good (lf_run s) = true;
  lv_ptr : forall i pc k, lf_stops s !! i = Some pc -> stop_ptr pc = Some k -> lf_live s = Some k;
  lv_told : forall i pc k, lf_stops s !! i = Some pc -> stop_told pc = Some k ->
    (k < lf_next s)%nat /\ (lf_live s = Some k -> lf_running s = false /\ run_started (lf_run s) = true)
}.
End Kind.

Section Steps.
Context (kind : srv_kind) (n : nat).
Implicit Types (s : life).

Lemma life_init_inv : life_inv n (life_init n).
Proof.
  assert (forall i pc, replicate n SIdle !! i = Some pc -> pc = SIdle) as Hi by (intros i pc [-> _]%lookup_replicate; done).
  split; cbn [life_init lf_stops lf_outer lf_inner lf_run lf_live lf_srv lf_next lf_running]; try done.
  - apply length_replicate.
  - split; [|done]. intros i pc ->%Hi. done.
  - split; [|done]. intros i pc ->%Hi. done.
  - intros i pc k ->%Hi. done.
  - intros i pc k ->%Hi. done.
Qed.

(** A thread that has found the socket server keeps the other out. *)
Lemma ptr_outer pc k : stop_ptr pc = Some k -> stop_outer pc = true.
Proof. by destruct pc. Qed.
Lemma inner_ptr pc : stop_inner pc = true -> exists k, stop_ptr pc = Some k.
Proof. destruct pc; try done; eauto. Qed.

Lemma outer_holder s i pc :
  life_inv n s -> lf_stops s !! i = Some pc -> stop_outer pc = true -> lf_outer s = Some (TWorker i).
Proof.
  intros HI Hi Ho. apply (proj1 (lv_outer _ _ HI) i pc Hi) in Ho. destruct (lf_outer s) as [[|j]|]; try done.
  by injection Ho as ->.
Qed.
Lemma inner_holder s i pc :
  life_inv n s -> lf_stops s !! i = Some pc -> stop_inner pc = true -> lf_inner s = Some (TWorker i).
Proof.
  intros HI Hi Ho. apply (proj1 (lv_inner _ _ HI) i pc Hi) in Ho. destruct (lf_inner s) as [[|j]|]; try done.
  by injection Ho as ->.
Qed.

(** While the running thread holds the outer lock nobody is inside. *)
Lemma alone s i pc : life_inv n s -> lf_outer s = Some TMain -> lf_stops s !! i = Some pc -> stop_outer pc = false.
Proof.
  intros HI Ho Hi. destruct (stop_outer pc) eqn:E; [|done]. by rewrite (outer_holder s i pc HI Hi E) in Ho.
Qed.

Lemma no_inner s : life_inv n s -> lf_outer s = Some TMain -> run_inner (lf_run s) = false -> lf_inner s = None.
Proof.
  intros HI Ho Hr. destruct (lf_inner s) as [[|i]|] eqn:E; [|exfalso|done].
  - pose proof (proj2 (lv_inner_run _ _ HI) E). congruence.
  - destruct (proj2 (lv_inner _ _ HI) i) as [pc Hi]; [by rewrite E|].
    assert (stop_inner pc = true) as Hin by (apply (proj1 (lv_inner _ _ HI) i pc Hi); by rewrite E).
    destruct (inner_ptr pc Hin) as [k Hk]. pose proof (alone s i pc HI Ho Hi). by rewrite (ptr_outer pc k Hk) in H.
Qed.

(** What a step of the running thread to [pc] must respect. *)
Lemma run_move s o m srv live next running listener pc :
  life_inv n s ->
  (o = lf_outer s \/ owner o = None /\ owner (lf_outer s) = None) -> (run_outer pc = true <-> o = Some TMain) ->
  (m = lf_inner s \/ owner m = None /\ owner (lf_inner s) = None) -> (run_inner pc = true <-> m = Some TMain) ->
  (if run_block pc then exists k, live = Some k /\ srv = Some k /\ (k < next)%nat
   else live = None /\ srv = None /\ m = None) ->
  run_good pc = true ->
  (live = lf_live s \/ lf_outer s = Some TMain) -> (lf_next s <= next)%nat ->
  (forall k, (k < lf_next s)%nat -> live = Some k -> lf_live s = Some k) ->
  (forall k, live = Some k -> lf_live s = Some k -> lf_running s = false /\ run_started (lf_run s) = true -> running = false /\ run_started pc = true) ->
  life_inv n (mk_life o srv live next m running listener pc (lf_stops s) (lf_abort s)).
Proof.
  intros HI Ho Hor Hm Hmr Hb Hg Hl Hn Hold Hk. pose proof HI as [].
  split; cbn [lf_stops lf_outer lf_inner lf_run lf_live lf_srv lf_next lf_running]; try done.
  - destruct Ho as [-> | [-> Eo]]; [done|]. by rewrite Eo in lv_outer0.
  - destruct Hm as [-> | [-> Em]]; [done|]. by rewrite Em in lv_inner0.
  - intros i pc' k Hi Hp. destruct Hl as [-> | Hl]; [by eapply lv_ptr0|].
    pose proof (alone s i pc' HI Hl Hi) as Hx. by rewrite (ptr_outer pc' k Hp) in Hx.
  - intros i pc' k Hi Ht. destruct (lv_told0 i pc' k Hi Ht) as [Hlt Hx]. split; [lia|]. intros Hlv.
    apply (Hk k Hlv); eauto.
Qed.

Lemma run_step_inv a s s' :
  life_inv n s -> good kind (LRun a) = true -> run_step kind a s = Some s' -> life_inv n s' /\ lf_abort s' = lf_abort s.
Proof.
  intros HI Hgood E. pose proof (lv_block _ _ HI) as Hb. pose proof (lv_outer_run _ _ HI) as Ho.
  pose proof (lv_inner_run _ _ HI) as Hm. pose proof (lv_good _ _ HI) as Hg. pose proof (no_inner s HI) as Hno.
  unfold run_step, server_ready_step, inner_run_step, take_outer, take_inner in E.
  destruct (lf_run s) eqn:Er; cbn [run_block run_outer run_inner run_good run_started] in *;
    repeat (case_match; try done); try (destruct (decide _) as [Hfree|]; [|done]); cbn [mbind option_bind] in E;
    repeat (case_match; try done); injection E as <-; (split; [|done]);
    unfold lf_set_run, lf_set_outer, lf_set_inner, lf_set_running, lf_set_listener, lf_create, lf_destroy;
    cbn [lf_outer lf_srv lf_live lf_next lf_inner lf_running lf_listener lf_stops lf_abort]; simplify_eq.
  all: apply run_move; try done; try (by auto); cbn [run_block run_outer run_inner run_good run_started]; try (by auto).
  all: try (intros k _ _ [-> _]; by rewrite andb_false_r).
  all: try (intros k; rewrite ?Er; cbn [run_started]; naive_solver lia).
  all: try (right; split; [done|]; first [by rewrite Hfree | by rewrite (proj1 Ho eq_refl) | by rewrite (proj1 Hm eq_refl)]).
  all: try (by right; apply Ho).
  - left. symmetry. apply Hb.
  - exists (lf_next s). split; [done|]. split; [done|lia].
  - cbn [good] in Hgood. by rewrite Hgood.
  - by rewrite Hg.
  - split; [done|]. split; [done|]. apply Hno; [by apply Ho|done].
Qed.

(** What a step of the stopping thread [i] from [x] to [y] must respect. *)
Lemma stop_move s i x y o m running :
  life_inv n s -> lf_stops s !! i = Some x ->
  mtx_ok stop_outer (owner o) (<[i := y]> (lf_stops s)) -> (o = Some TMain <-> lf_outer s = Some TMain) ->
  mtx_ok stop_inner (owner m) (<[i := y]> (lf_stops s)) -> (m = Some TMain <-> lf_inner s = Some TMain) ->
  (run_block (lf_run s) = false -> m = None) ->
  (forall k, stop_ptr y = Some k -> lf_live s = Some k) ->
  (running = lf_running s \/ running = false) ->
  (forall k, stop_told y = Some k -> stop_told x = Some k \/
     (k < lf_next s)%nat /\ (lf_live s = Some k -> running = false /\ run_started (lf_run s) = true)) ->
  life_inv n (mk_life o (lf_srv s) (lf_live s) (lf_next s) m running (lf_listener s) (lf_run s) (<[i := y]> (lf_stops s)) (lf_abort s)).
Proof.
  intros [] Hi Ho Ho' Hm Hm' Hb Hp Hr Ht.
  split; cbn [lf_stops lf_outer lf_inner lf_run lf_live lf_srv lf_next lf_running]; try done.
  - by rewrite length_insert.
  - by rewrite Ho', lv_outer_run0.
  - by rewrite Hm', lv_inner_run0.
  - destruct (run_block (lf_run s)); [done|]. destruct lv_block0 as (? & ? & _). split_and!; auto.
  - intros j pc k [[-> ->]|[_ Hj]]%lookup_other Hk; eauto.
  - assert (forall j pc k, lf_stops s !! j = Some pc -> stop_told pc = Some k ->
      (k < lf_next s)%nat /\ (lf_live s = Some k -> running = false /\ run_started (lf_run s) = true)) as Hold.
    { intros j pc k Hj Hk. destruct (lv_told0 j pc k Hj Hk) as [? Hx]. split; [done|]. intros Hl. destruct (Hx Hl).
      split; [|done]. by destruct Hr as [-> | ->]. }
    intros j pc k [[-> ->]|[_ Hj]]%lookup_other Hk; [|eauto].
    destruct (Ht k Hk) as [?|?]; [eauto|done].
Qed.

(** The running thread is past its start when another is inside of the socket
    server. *)
Lemma inside_started s i x k :
  life_inv n s -> lf_stops s !! i = Some x -> stop_inner x = true -> stop_ptr x = Some k ->
  (k < lf_next s)%nat /\ run_started (lf_run s) = true.
Proof.
  intros HI Hi Hin Hk. pose proof (lv_ptr _ _ HI i x k Hi Hk) as Hl. pose proof (lv_block _ _ HI) as Hb.
  pose proof (outer_holder s i x HI Hi (ptr_outer x k Hk)) as Ho. pose proof (lv_outer_run _ _ HI) as Hr.
  pose proof (inner_holder s i x HI Hi Hin) as Hh. pose proof (lv_inner_run _ _ HI) as Hm.
  rewrite Ho in Hr. rewrite Hh in Hm.
  destruct (lf_run s); cbn [run_block run_started run_outer run_inner] in *; try (destruct Hb; congruence);
    try (destruct Hb as (k' & ? & _ & ?)); simplify_eq; try done;
    try (by destruct Hr as [Hr _]; specialize (Hr eq_refl)); try (by destruct Hm as [Hm _]; specialize (Hm eq_refl)).
Qed.

Lemma stop_step_inv i rc s s' :
  life_inv n s -> stop_step kind i rc s = Some s' ->
  life_inv n s' /\ lf_abort s' = lf_abort s \/ lf_abort s' = Some ANull /\ kind = HttpSrv.
Proof.
  intros HI E. unfold stop_step in E. destruct (lf_stops s !! i) as [x|] eqn:Ei; [|done]. cbn [mbind option_bind] in E.
  pose proof (lv_outer _ _ HI) as Ho. pose proof (lv_inner _ _ HI) as Hm. pose proof (lv_block _ _ HI) as Hb.
  assert (forall k, stop_ptr x = Some k -> run_block (lf_run s) = true) as Hblk.
  { intros k Hk. pose proof (lv_ptr _ _ HI i x k Ei Hk) as Hl. destruct (run_block (lf_run s)); [done|].
    destruct Hb. congruence. }
  assert (run_block (lf_run s) = false -> lf_inner s = None) as Hnone.
  { intros Hx. rewrite Hx in Hb. apply Hb. }
  assert (forall k, lf_srv s = Some k -> lf_live s = Some k) as Hsrv.
  { intros k Hk. destruct (run_block (lf_run s)); [destruct Hb as (k' & ? & ? & _)|destruct Hb as (? & ? & _)]; congruence. }
  clear Hb.
  assert (forall y, stop_outer y = stop_outer x -> mtx_ok stop_outer (owner (lf_outer s)) (<[i := y]> (lf_stops s))) as Hko
    by (intros; by eapply mtx_keep).
  assert (forall y, stop_inner y = stop_inner x -> mtx_ok stop_inner (owner (lf_inner s)) (<[i := y]> (lf_stops s))) as Hki
    by (intros; by eapply mtx_keep).
  pose proof (fun k => inside_started s i x k HI Ei) as Hst. pose proof (outer_holder s i x HI Ei) as Hoh.
  pose proof (inner_holder s i x HI Ei) as Hih. pose proof (fun k => lv_ptr _ _ HI i x k Ei) as Hptr.
  unfold inner_stop_step, inside, take_outer, take_inner in E. rewrite Ei in E. cbn [mbind option_bind] in E.
  destruct x; cbn [stop_ptr stop_inner stop_outer] in *; try (rewrite decide_True in E by auto);
    try (destruct (decide _) as [Hfree|]; [|done]); cbn [mbind option_bind] in E;
    repeat (case_match; try done); injection E as <-; try (by right);
    (left; split; [|done]); unfold lf_go, lf_set_outer, lf_set_inner, lf_set_running;
    cbn [lf_outer lf_srv lf_live lf_next lf_inner lf_running lf_listener lf_run lf_stops lf_abort];
    eapply (stop_move s i _ _ _ _ _ HI Ei); auto; cbn [stop_ptr stop_told]; try done.
  all: try (by eapply mtx_keep).
  all: try (by rewrite Hfree in *; eapply mtx_take).
  all: try (by eapply mtx_drop).
  all: try (by rewrite Hfree).
  all: try (by rewrite Hoh).
  all: try (by rewrite Hih).
  all: try (intros k' [= <-]; by auto).
  all: try (intros Hx; exfalso; rewrite (Hblk _ eq_refl) in Hx; done).
  intros k' [= <-]. right. destruct (Hst k eq_refl eq_refl). by split.
Qed.
End Steps.

(** ** Properties *)

Abbreviation life_reach kind n := (rtc (any_step (good_step kind)) (life_init n)).

Definition life_ok (kind : srv_kind) (n : nat) (s : life) : Prop :=
  lf_abort s = None /\ life_inv n s \/ lf_abort s = Some ANull /\ kind = HttpSrv.

Lemma life_reach_ok kind n s : life_reach kind n s -> life_ok kind n s.
Proof.
  apply invariant_reach; [|left; split; [done|apply life_init_inv]].
  intros l x x' Hx E. unfold good_step in E. destruct (good kind l) eqn:Hg; [|done]. unfold life_step in E.
  destruct Hx as [[Ha HI]|[Ha _]]; rewrite Ha in E; [|done]. destruct l as [a|i rc].
  - destruct (run_step_inv kind n a x x' HI Hg E) as [HI' Ha']. left. split; [congruence|done].
  - destruct (stop_step_inv kind n i rc x x' HI E) as [[HI' Ha']|?]; [|by right]. left. split; [congruence|done].
Qed.

(** C20: Starting and stopping a server is safe, in any interleaving of a thread
    that runs it again and again with any number of threads that stop it, as long
    as the run of the socket server reports VTM_OK exactly if it got ready.  No
    thread touches a socket server that was freed, and only the HTTP server is
    left with a NULL pointer; at most one thread is behind the outer lock; no stop
    is lost: a socket server that was told to end does not run any more; and
    between two runs there is no socket server. *)
Theorem server_stop_safe kind n s (Hs : life_reach kind n s) :
  lf_abort s <> Some ADead /\ (lf_abort s = Some ANull -> kind = HttpSrv) /\
  (lf_abort s = None ->
    (forall i j x y, lf_stops s !! i = Some x -> lf_stops s !! j = Some y -> stop_outer x = true -> stop_outer y = true ->
       i = j /\ run_outer (lf_run s) = false) /\
    (forall i x k, lf_stops s !! i = Some x -> stop_ptr x = Some k -> lf_live s = Some k) /\
    (forall i x k, lf_stops s !! i = Some x -> stop_told x = Some k -> lf_live s = Some k -> lf_running s = false) /\
    (lf_run s = RIdle -> lf_live s = None /\ lf_srv s = None)).
Proof.
  destruct (life_reach_ok kind n s Hs) as [[Ha HI]|[Ha Hk]]; rewrite Ha; [|by split_and!].
  split; [done|]. split; [done|]. intros _. split; [|split; [|split]].
  - intros i j x y Hi Hj Hx Hy. split; [by eapply (mtx_exclusive stop_outer); first apply HI|].
    pose proof (outer_holder n s i x HI Hi Hx) as Ho. pose proof (lv_outer_run _ _ HI) as Hr.
    destruct (run_outer (lf_run s)); [|done]. rewrite Ho in Hr. by destruct Hr as [Hr _]; specialize (Hr eq_refl).
  - apply HI.
  - intros i x k Hi Ht Hl. by apply (lv_told _ _ HI i x k Hi Ht).
  - intros Hr. pose proof (lv_block _ _ HI) as Hb. rewrite Hr in Hb. split; apply Hb.
Qed.

(** A thread that is behind the outer lock goes on if the running thread is not
    behind the inner one. *)
Lemma stopper_steps kind n s i x :
  life_inv n s -> run_inner (lf_run s) = false -> lf_stops s !! i = Some x -> stop_outer x = true ->
  exists s', stop_step kind i VTM_OK s = Some s'.
Proof.
  intros HI Hr Hi Hx. pose proof (fun k => lv_ptr _ _ HI i x k Hi) as Hp.
  unfold stop_step, inner_stop_step, inside. rewrite Hi. cbn [mbind option_bind].
  destruct x; cbn [stop_ptr] in Hp; try done; rewrite ?(decide_True _ _ (Hp _ eq_refl)); eauto.
  - destruct (lf_srv s); [|destruct kind]; eauto.
  - unfold take_inner. rewrite decide_True; [by eexists|].
    destruct (lf_inner s) as [[|j]|] eqn:E; [exfalso|exfalso|done].
    + pose proof (proj2 (lv_inner_run _ _ HI) E). congruence.
    + destruct (proj2 (lv_inner _ _ HI) j) as [y Hj]; [by rewrite E|].
      assert (stop_inner y = true) as Hin by (apply (proj1 (lv_inner _ _ HI) j y Hj); by rewrite E).
      destruct (inner_ptr y Hin) as [k' Hk']. 
      assert (i = j) as <- by (eapply (mtx_exclusive stop_outer); [apply HI|exact Hi|exact Hj|done|by eapply ptr_outer]).
      rewrite Hi in Hj. by injection Hj as <-.
Qed.

Definition stop_idle (pc : stop_pc) : bool := match pc with SIdle | SDone _ _ => true | _ => false end.



(** ** Where it goes wrong *)

Definition life_run (kind : srv_kind) (n : nat) (ls : list life_label) : life :=
  default (life_init 0) (run_steps (life_step kind) ls (life_init n)).

(** A server that gets into its main loop. *)
Definition get_ready : list life_label :=
  [LRun (RunStart true); LRun (RunNew true); LRun (RunNew true); LRun (RunNew true); LRun (RunSetup None);
   LRun (RunNew true); LRun (RunNew true)].

(** A thread has found the socket server when the main loop fails. *)
Definition failing_labels : list life_label :=
  get_ready ++ [LStop 0 0; LStop 0 0; LStop 0 0] ++
  [LRun (RunEnd false VTM_ERROR); LRun RunJoined; LRun (RunNew true); LRun (RunNew true); LRun (RunNew true); LRun (RunNew true); LStop 0 0].

(** The setup fails, with VTM_OK: the listener sets no error code when epoll_create1
    or eventfd fail (sys/unix/net/socket_listener_epoll.c:46), and the server returns
    the last one that was set (net/socket_stream_server.c:162). *)
Definition silent_labels : list life_label :=
  [LRun (RunStart true); LRun (RunNew true); LRun (RunNew true); LRun (RunNew true); LRun (RunSetup (Some VTM_OK));
   LRun (RunNew true)].

(** What the assumption of [server_stop_safe] is for.  When the main loop of
    the socket server ends with an error, the HTTP server and the stream server of
    the message protocol free it without the lock, while a thread that stops them
    is inside of it.  When the setup fails with the code VTM_OK, because the
    listener sets none when the system gives it no descriptor, the server waits for a lock that it holds, for ever, and
    so does everyone who stops it.  And a HTTP server must not be stopped when it
    does not run: it calls the socket server NULL. *)
Theorem server_stop_fails :
  (forall kind, kind = HttpSrv \/ kind = NmStreamSrv ->
     exists s, run_steps (life_step kind) failing_labels (life_init 1) = Some s /\ lf_abort s = Some ADead) /\
  (forall kind n s s', run_steps (life_step kind) silent_labels (life_init n) = Some s ->
     rtc (any_step (life_step kind)) s s' ->
     lf_run s' = RRelock VTM_OK /\ Forall (fun x => x = SIdle \/ x = SLock) (lf_stops s')) /\
  (exists s, run_steps (life_step HttpSrv) [LStop 0 0; LStop 0 0; LStop 0 0] (life_init 1) = Some s /\
     lf_abort s = Some ANull).
Proof.
  split; [|split].
  - intros kind [-> | ->]; (eexists; split; [vm_compute; reflexivity|reflexivity]).
  - intros kind n s s' E Hr.
    assert (lf_run s' = RRelock VTM_OK /\ lf_outer s' = Some TMain /\ Forall (fun x => x = SIdle \/ x = SLock) (lf_stops s'))
      as (H1 & _ & H3); [|done].
    revert Hr. apply (invariant_reach (life_step kind) (fun s => lf_run s = RRelock VTM_OK /\ lf_outer s = Some TMain /\
      Forall (fun x => x = SIdle \/ x = SLock) (lf_stops s))).
    + intros [a|i rc] x x' (Hx & Ho & Hf) Hs; unfold life_step in Hs; destruct (lf_abort x); try done.
      * unfold run_step, take_outer in Hs. rewrite Hx, decide_False in Hs by congruence. done.
      * unfold stop_step, take_outer in Hs. destruct (lf_stops x !! i) as [y|] eqn:Ey; [|done]. cbn [mbind option_bind] in Hs.
        destruct (Forall_lookup_1 _ _ _ _ Hf Ey) as [-> | ->].
        -- injection Hs as <-. split; [done|]. split; [done|]. apply Forall_insert; [done|by right].
        -- rewrite decide_False in Hs by congruence. done.
    + assert (run_steps (life_step kind) silent_labels (life_init n)
        = Some (lf_set_run (RRelock VTM_OK) (lf_set_inner None (lf_set_outer (Some TMain) (lf_create (life_init n)))))) as E'
        by (destruct kind; reflexivity).
      rewrite E' in E. injection E as <-. split; [reflexivity|]. split; [reflexivity|].
      cbn [lf_set_run lf_set_inner lf_set_outer lf_create life_init lf_stops]. apply Forall_replicate. by left.
  - eexists. split; [vm_compute; reflexivity|reflexivity].
Qed.

(** ** A concrete run *)

(** A stream server runs; one thread stops it, another one does when it has
    ended. *)
Definition stopped_labels : list life_label :=
  get_ready ++ [LStop 0 0; LStop 0 0; LStop 0 0; LStop 0 0; LStop 0 0; LStop 0 0; LStop 0 0; LStop 0 0] ++
  [LRun (RunEnd false VTM_OK); LRun RunJoined; LRun (RunNew true); LRun (RunNew true); LRun (RunNew true); LRun (RunNew true);
   LRun (RunNew true); LRun (RunNew true)] ++ [LStop 1 0; LStop 1 0; LStop 1 0; LStop 1 0].
Definition stopped_life : life := default (life_init 0) (run_steps (good_step NmStreamSrv) stopped_labels (life_init 2)).

Lemma stopped_reach : life_reach NmStreamSrv 2 stopped_life.
Proof. apply (run_steps_reach (good_step NmStreamSrv) stopped_labels). vm_compute. reflexivity. Qed.

Lemma server_stop_safe_witness :
  lf_stops stopped_life = [SDone (Some 0%nat) VTM_OK; SDone None VTM_E_INVALID_STATE] /\ lf_abort stopped_life = None /\
  lf_live stopped_life = None /\ lf_srv stopped_life = None.
Proof.
  split; [vm_compute; reflexivity|]. split; [vm_compute; reflexivity|].
  destruct (server_stop_safe NmStreamSrv 2 stopped_life stopped_reach) as (_ & _ & H).
  apply H; vm_compute; reflexivity.
Defined.

(** Two threads stop a stream server whose workers never end. *)
Definition joining_labels : list life_label :=
  get_ready ++ replicate 8 (LStop 0 0) ++ [LRun (RunEnd false VTM_OK)] ++ replicate 8 (LStop 1 0).
Definition joining_life : life := default (life_init 0) (run_steps (good_step NmStreamSrv) joining_labels (life_init 2)).

Lemma joining_reach : life_reach NmStreamSrv 2 joining_life.
Proof. apply (run_steps_reach (good_step NmStreamSrv) joining_labels). vm_compute. reflexivity. Qed.

