(* ===== verification/Config.v ===== *)
(** * Config: files of settings, types of files

    fs/file.c, fs/config.c and fs/mime.c.  A file that is open for reading is the
    list of the bytes that are still to be read.  The text of a line is what its
    buffer holds in front of the terminating character. *)

From stdpp Require Import gmap fin_sets.
From S2P Require Import Prelude Base Str Elem Hash Heap Table Smap Dataset HttpRequest.

(** ** Files, fs/file.c *)

(** fs/file.c:10 *)
Definition VTM_FILE_BUF_SIZE : Z := 256.

Section Getline.
(** The answers of realloc() for a size. *)
Context (realloc_ok : Z -> bool).

(** fs/file.c:38-73.  [line] is what was stored so far.  The result: the code, the
    text, the size of the buffer ([None]: it was lost), what is still to be
    read. *)
Fixpoint getline_loop (fp line : bytes) (buf_len : Z) : Z * bytes * option Z * bytes :=
  match fp with
  | [] => match line with [] => (VTM_E_IO_EOF, [], Some buf_len, []) | _ => (VTM_OK, line, Some buf_len, []) end
  | c :: fp =>
      if c =? 13 then getline_loop fp line buf_len
      else if c =? 10 then (VTM_OK, line, Some buf_len, fp)
      else
        let line := line ++ [c] in
        if zlen line =? buf_len then
          let len := u64 (buf_len * 2) in
          if realloc_ok len then getline_loop fp line len else (VTM_E_MALLOC, [], None, fp)
        else getline_loop fp line buf_len
  end.

(** fs/file.c:23-76.  [buf_len]: the size of the buffer, 0 if there is none yet;
    [ok]: the answer for a first one. *)
Definition vtm_file_getline (ok : bool) (fp : bytes) (buf_len : option Z) : Z * bytes * option Z * bytes :=
  match buf_len with
  | Some len => getline_loop fp [] len
  | None => if ok then getline_loop fp [] VTM_FILE_BUF_SIZE else (VTM_E_MALLOC, [], None, fp)
  end.
End Getline.

(** The position of the last point; [last] is the one found so far. *)
Fixpoint ext_loop (s : bytes) (i last : nat) : nat :=
  match s with [] => last | c :: s => ext_loop s (S i) (if c =? 46 then i else last) end.

(** fs/file.c:78-93.  A point at the beginning does not count. *)
Definition vtm_file_get_ext (filename : bytes) : option bytes :=
  match ext_loop filename 0 0 with O => None | last => Some (drop (S last) filename) end.

(** ** Types, fs/mime.c *)

(** fs/mime.h:20-27 [VTM_MIME_TEXT_PLAIN] *)
Definition VTM_MIME_TEXT_PLAIN : bytes := cstr_of "text/plain"%string.
Definition VTM_MIME_TEXT_HTML : bytes := cstr_of "text/html"%string.
Definition VTM_MIME_IMAGE_JPEG : bytes := cstr_of "image/jpeg"%string.
Definition VTM_MIME_IMAGE_PNG : bytes := cstr_of "image/png"%string.
Definition VTM_MIME_APP_JAVASCRIPT : bytes := cstr_of "application/javascript"%string.
Definition VTM_MIME_APP_JSON : bytes := cstr_of "application/json"%string.

(** vtm_str_casecmp(ext, name) == 0 *)
Definition ext_is (ext : bytes) (name : string) : bool := vtm_str_casecmp ext (cstr_of name) =? 0.

(** fs/mime.c:21-57.  The first character, in lower case, chooses what is
    compared. *)
Definition vtm_mime_type_for_ext (ext : option bytes) : option bytes :=
  match ext with
  | None => None
  | Some ext =>
      let c := tolower (default 0 (head ext)) in
      if c =? 104 then if ext_is ext "html" then Some VTM_MIME_TEXT_HTML else None
      else if c =? 106 then
        if ext_is ext "jpg" || ext_is ext "jpeg" then Some VTM_MIME_IMAGE_JPEG
        else if ext_is ext "json" then Some VTM_MIME_APP_JSON
        else if ext_is ext "js" then Some VTM_MIME_APP_JAVASCRIPT else None
      else if c =? 112 then if ext_is ext "png" then Some VTM_MIME_IMAGE_PNG else None
      else if c =? 116 then if ext_is ext "txt" then Some VTM_MIME_TEXT_PLAIN else None
      else None
  end.

(** fs/mime.c:12-19 *)
Definition vtm_mime_type_for_name (filename : bytes) : option bytes :=
  vtm_mime_type_for_ext (vtm_file_get_ext filename).

(** ** Settings, fs/config.c *)

Section Config.
Context (realloc_ok : Z -> bool) (a : ds_alloc).
(** Where the two tokens of a line lie while they are copied. *)
Context (at_key at_val : Z).
Implicit Types (ds : vtm_dataset) (h : heap).

(** Begins a comment. *)
Definition is_comment (c : Z) : bool := (c =? 35) || (c =? 59).

(** fs/config.c:42-81.  [line] is the content of the buffer: the string in it ends
    at its first NUL. *)
Definition vtm_config_file_parse_line (line : bytes) ds h : option (vtm_dataset * heap) :=
  let line := take_until is_comment (take_until (fun c => c =? 0) line) in
  let line := vtm_str_trim line in
  if zlen line =? 0 then Some (ds, h)
  else
    split ← vtm_str_split line [61] 1;
    match split with
    | [key; val] =>
        vtm_dataset_set_string a ds (mk_ptr at_key (vtm_str_trim key)) (mk_ptr at_val (vtm_str_trim val)) h
    | _ => Some (ds, h)
    end.

(** fs/config.c:34-36.  The loop over the lines; each takes at least a byte. *)
Fixpoint config_loop (fuel : nat) (ok : bool) (fp : bytes) (buf_len : option Z) ds h : option (vtm_dataset * heap) :=
  match fuel with
  | O => None
  | S fuel =>
      let '(rc, line, buf_len, fp) := vtm_file_getline realloc_ok ok fp buf_len in
      if rc =? VTM_OK then
        '(ds, h) ← vtm_config_file_parse_line line ds h;
        config_loop fuel ok fp buf_len ds h
      else Some (ds, h)
  end.

(** fs/config.c:16-40.  [file]: what fopen() opens, if it does; [ok]: the answer
    for the buffer.  NULL if there is no file. *)
Definition vtm_config_file_read (ok : bool) (file : option bytes) h : option (option vtm_dataset * heap) :=
  match file with
  | None => Some (None, h)
  | Some fp =>
      '(ds, h) ← config_loop (S (length fp)) ok fp None (vtm_dataset_init VTM_DS_HINT_DEFAULT) h;
      Some (Some ds, h)
  end.
End Config.

(** ** Lines *)

Definition plain (c : Z) : bool := negb ((c =? 13) || (c =? 10) || (c =? 0)).

(** The end of a line, as systems write it. *)
Definition is_eol (e : bytes) : Prop := e = [10] \/ e = [13; 10].

Lemma getline_loop_line realloc_ok e rest l : forall line len,
  (forall n, realloc_ok n = true) -> is_eol e -> Forall (fun c => plain c = true) l ->
  exists len', getline_loop realloc_ok (l ++ e ++ rest) line len = (VTM_OK, line ++ l, Some len', rest).
Proof.
  intros line len Hr He Hl. revert line len. induction Hl as [|c l Hc Hl IH]; intros line len.
  - exists len. rewrite app_nil_r. by destruct He as [-> | ->].
  - cbn [app getline_loop]. unfold plain in Hc. bsplit.
    rewrite (proj2 (Z.eqb_neq c 13)), (proj2 (Z.eqb_neq c 10)) by done.
    assert (line ++ c :: l = (line ++ [c]) ++ l) as -> by (by rewrite <- app_assoc).
    destruct (_ =? _); [rewrite Hr|]; apply IH.
Qed.

(** Text between two pieces of white space. *)
Definition blanks (w : bytes) : Prop := Forall (fun c => isspace c = true) w.
Definition trimmed (s : bytes) : Prop :=
  s <> [] /\ from_option isspace true (head s) = false /\ from_option isspace true (last s) = false.

Lemma skip_while_blanks w s : blanks w -> skip_while isspace (w ++ s) = skip_while isspace s.
Proof. induction 1 as [|c w Hc _ IH]; [done|]. cbn [app skip_while]. by rewrite Hc. Qed.

Lemma trim_end_blanks w : blanks w -> trim_end w = [].
Proof. induction 1 as [|c w Hc _ IH]; [done|]. cbn [trim_end]. by rewrite IH, Hc. Qed.

Lemma trim_end_app s w : blanks w -> s <> [] -> from_option isspace true (last s) = false -> trim_end (s ++ w) = s.
Proof.
  intros Hw. induction s as [|c s IH]; [done|]. intros _ Hl. cbn [app trim_end].
  destruct s as [|d s].
  - cbn [app]. rewrite trim_end_blanks by done. cbn in Hl. by rewrite Hl.
  - rewrite IH; [done|done|]. by rewrite last_cons_cons in Hl.
Qed.

Lemma trim_between w1 s w2 : blanks w1 -> trimmed s -> blanks w2 -> vtm_str_trim (w1 ++ s ++ w2) = s.
Proof.
  intros H1 (Hne & Hh & Hl) H2. unfold vtm_str_trim. rewrite skip_while_blanks by done.
  destruct s as [|c s]; [done|]. cbn in Hh. cbn [app skip_while]. rewrite Hh.
  change (c :: s ++ w2) with ((c :: s) ++ w2). by apply trim_end_app.
Qed.

Lemma trim_blanks w : blanks w -> vtm_str_trim w = w.
Proof. intros H. unfold vtm_str_trim. rewrite <- (app_nil_r w), skip_while_blanks by done. cbn. by rewrite app_nil_r. Qed.

Lemma take_until_app p s t :
  Forall (fun c => p c = false) s -> take_until p (s ++ t) = s ++ take_until p t.
Proof. induction 1 as [|c s Hc _ IH]; [done|]. cbn [app take_until]. by rewrite Hc, IH. Qed.

Lemma take_until_all p s : Forall (fun c => p c = false) s -> take_until p s = s.
Proof. intros H. rewrite <- (app_nil_r s) at 1. rewrite take_until_app by done. cbn. by rewrite app_nil_r. Qed.

(** ** What a file of settings says *)

(** A line: a setting with white space around its parts, or nothing; and a
    comment, whose mark belongs to it. *)
Record conf_line := mk_line {
  cl_setting : option (bytes * bytes);
  cl_ws : bytes * bytes * bytes * bytes;
  cl_comment : bytes;
  cl_eol : bytes
}.

Definition line_body (l : conf_line) : bytes :=
  let '(w1, w2, w3, w4) := cl_ws l in
  match cl_setting l with
  | Some (k, v) => w1 ++ (k ++ w2 ++ [61] ++ w3 ++ v) ++ w4
  | None => w1
  end.
Definition line_text (l : conf_line) : bytes := (line_body l ++ cl_comment l) ++ cl_eol l.

(** Characters of a setting. *)
Definition setting_char (c : Z) : Prop := 0 < c < 256 /\ plain c = true /\ is_comment c = false.

Definition line_ok (l : conf_line) : Prop :=
  (let '(w1, w2, w3, w4) := cl_ws l in
   Forall (fun w => blanks w /\ Forall setting_char w) [w1; w2; w3; w4] /\
   match cl_setting l with
   | Some (k, v) => trimmed k /\ 61 ∉ k /\ Forall setting_char k /\ trimmed v /\ Forall setting_char v
   | None => True
   end) /\
  from_option is_comment true (head (cl_comment l)) = true /\
  Forall (fun c => plain c = true) (cl_comment l) /\ is_eol (cl_eol l).

#[global] Instance line_ok_dec l : Decision (line_ok l).
Proof.
  unfold line_ok, blanks, setting_char, trimmed, is_eol. destruct (cl_ws l) as [[[w1 w2] w3] w4].
  destruct (cl_setting l) as [[k v]|]; apply _.
Defined.

(** The settings: of several with the same name the last one. *)
Definition conf_map (ls : list conf_line) (m : gmap bytes bytes) : gmap bytes bytes :=
  fold_left (fun m l => match cl_setting l with Some (k, v) => <[k := v]> m | None => m end) ls m.

Lemma setting_plain s : Forall setting_char s -> Forall (fun c => plain c = true) s.
Proof. intros H. eapply Forall_impl; [exact H|]. by intros c (_ & ? & _). Qed.
Lemma setting_cstr s : Forall setting_char s -> is_cstr s.
Proof. intros H. eapply Forall_impl; [exact H|]. by intros c (? & _). Qed.

(** The text of a line, without its comment. *)
Lemma line_body_ok l : line_ok l -> Forall setting_char (line_body l).
Proof.
  intros [H _]. unfold line_body. destruct (cl_ws l) as [[[w1 w2] w3] w4]. destruct H as [Hw Hs].
  rewrite !Forall_cons in Hw. destruct Hw as ([_ H1] & [_ H2] & [_ H3] & [_ H4] & _).
  destruct (cl_setting l) as [[k v]|]; [|done]. destruct Hs as (_ & _ & Hk & _ & Hv).
  rewrite !Forall_app. split_and!; try done. apply Forall_singleton. split_and!; done.
Qed.

Lemma line_cut l :
  line_ok l -> take_until is_comment (take_until (fun c => c =? 0) (line_body l ++ cl_comment l)) = line_body l.
Proof.
  intros Hl. pose proof (line_body_ok l Hl) as Hb. destruct Hl as (_ & Hc & Hp & _).
  rewrite (take_until_all (fun c => c =? 0)).
  - rewrite take_until_app; [|eapply Forall_impl; [exact Hb|by intros c (_ & _ & ?)]].
    destruct (cl_comment l) as [|c t]; cbn [take_until]; [by rewrite app_nil_r|]. cbn in Hc. by rewrite Hc, app_nil_r.
  - apply Forall_app. split; [eapply Forall_impl; [exact Hb|]|eapply Forall_impl; [exact Hp|]]; intros c; cbv beta.
    + intros (? & _). by apply Z.eqb_neq; lia.
    + unfold plain. intros H. bsplit. by apply Z.eqb_neq.
Qed.

(** Ends of a text in two parts. *)
Lemma trimmed_app k m v : trimmed k -> trimmed v -> trimmed (k ++ m ++ v).
Proof.
  intros (Hk & Hh & _) (Hv & _ & Hl). split; [by destruct k|]. split; [by destruct k|].
  rewrite app_assoc, last_app. destruct (last v) eqn:E; [done|]. by apply last_None in E.
Qed.

(** A text without the delimiter. *)
Lemma split_one s d : s <> [] -> d ∉ s -> vtm_str_split s [d] 1 = Some [s].
Proof.
  intros Hne Hd.
  assert (Forall (fun c => in_set [d] c = false) s) as Hs.
  { apply Forall_forall. intros c Hc. rewrite in_set_single. apply Z.eqb_neq. by intros ->. }
  assert (strtok_r s [d] = Some (s, [])) as E.
  { unfold strtok_r. assert (skip_while (in_set [d]) s = s) as ->.
    { destruct Hs as [|c s Hc _]; [done|]. cbn [skip_while]. by rewrite Hc. }
    rewrite bool_decide_eq_false_2 by done. rewrite take_until_all by done. by rewrite drop_ge by lia. }
  unfold vtm_str_split. destruct s as [|c s]; [done|]. cbn [length split_loop]. rewrite E.
  cbn [split_loop]. unfold strtok_r at 1. cbn [skip_while]. rewrite bool_decide_eq_true_2 by done. done.
Qed.

Section Reading.
Context (printf_g : Z -> bytes) (at_key at_val : Z).
Hypothesis Hkey : at_key <> 0.
Hypothesis Hval : at_val <> 0.
Abbreviation many := (fun _ : Z => true).
Abbreviation wf := (ds_wf many printf_g).
Abbreviation parse_line := (vtm_config_file_parse_line alloc_ok at_key at_val).

(** One line. *)
Lemma parse_line_ok F l ds h m :
  line_ok l -> wf ds -> hints ds = VTM_DS_HINT_DEFAULT -> heap_ok F (ds_owned ds) h -> ds_abs ds = str_variant <$> m ->
  exists ds' h', parse_line (line_body l ++ cl_comment l) ds h = Some (ds', h') /\ wf ds' /\
    hints ds' = VTM_DS_HINT_DEFAULT /\ heap_ok F (ds_owned ds') h' /\ ds_abs ds' = str_variant <$> conf_map [l] m.
Proof.
  intros Hl Hw Hh Ho Ha. unfold vtm_config_file_parse_line. rewrite line_cut by done. destruct Hl as [Hl _].
  unfold line_body, conf_map. destruct (cl_ws l) as [[[w1 w2] w3] w4]. destruct Hl as [Hws Hs].
  rewrite !Forall_cons in Hws. destruct Hws as ([B1 S1] & [B2 S2] & [B3 S3] & [B4 S4] & _).
  cbn [fold_left]. destruct (cl_setting l) as [[k v]|].
  - destruct Hs as (Hk & Hneq & Sk & Hv & Sv).
    assert (trimmed (k ++ (w2 ++ [61] ++ w3) ++ v)) as Ht by by apply trimmed_app.
    assert (k ++ w2 ++ [61] ++ w3 ++ v = k ++ (w2 ++ [61] ++ w3) ++ v) as -> by (by rewrite <- !app_assoc).
    rewrite trim_between by done.
    assert (zlen (k ++ (w2 ++ [61] ++ w3) ++ v) =? 0 = false) as ->.
    { apply Z.eqb_neq. destruct Ht as [Hne _]. destruct (k ++ _) as [|c s]; [done|]. rewrite zlen_cons. pose proof (zlen_nonneg s). lia. }
    destruct (split_limit_one (k ++ (w2 ++ [61] ++ w3) ++ v) 61 (k ++ w2) (w3 ++ v)) as [-> _].
    + apply Forall_app. split; by apply setting_cstr.
    + destruct Hk as [Hk _]. by destruct k.
    + intros [?|H61]%elem_of_app; [done|]. eapply Forall_forall in B2; [|exact H61]. done.
    + destruct Hv as [Hv _]. intros [_ ->]%app_eq_nil. done.
    + by rewrite <- !app_assoc.
    + cbn [mbind option_bind].
      assert (vtm_str_trim (k ++ w2) = k) as -> by (apply (trim_between [] k w2); [constructor|done|done]).
      assert (vtm_str_trim (w3 ++ v) = v) as -> by (rewrite <- (app_nil_r v) at 1; apply trim_between; [done|done|constructor]).
      destruct (ds_set_ok many printf_g F ds (mk_ptr at_key k) (SetString (mk_ptr at_val v)) h
        (<[ds_canon (hints ds) k := str_variant v]> (ds_abs ds), F) Hw) as (ds' & h' & E & Hw' & Hh' & Ho' & Ha').
      * unfold name_ok, is_null. cbn [p_addr p_text]. rewrite (proj2 (Z.eqb_neq _ _) Hkey).
        apply bool_decide_eq_true. by apply setting_cstr.
      * done.
      * cbn [spec_set p_text]. unfold is_null. cbn [p_addr]. by rewrite (proj2 (Z.eqb_neq _ _) Hval).
      * exists ds', h'. split; [exact E|]. split; [done|]. split; [congruence|]. split; [done|].
        rewrite Ha'. cbn [fst]. rewrite Hh, Ha, fmap_insert. done.
  - rewrite trim_blanks by done.
    destruct (Z.eqb_spec (zlen w1) 0) as [_|Hne]; [by exists ds, h|].
    rewrite split_one; [|by intros ->|intros H61; eapply Forall_forall in B1; [|exact H61]; done].
    cbn [mbind option_bind]. by exists ds, h.
Qed.

(** The lines of a file, one after the other. *)
Lemma config_loop_ok realloc_ok F ls : forall fuel buf ds h m,
  (forall n, realloc_ok n = true) -> Forall line_ok ls -> wf ds -> hints ds = VTM_DS_HINT_DEFAULT ->
  heap_ok F (ds_owned ds) h -> ds_abs ds = str_variant <$> m -> (length ls < fuel)%nat ->
  exists ds' h', config_loop realloc_ok alloc_ok at_key at_val fuel true (concat (map line_text ls)) buf ds h
      = Some (ds', h') /\
    wf ds' /\ heap_ok F (ds_owned ds') h' /\ ds_abs ds' = str_variant <$> conf_map ls m.
Proof.
  induction ls as [|l ls IH]; intros fuel buf ds h m Hr Hls Hw Hh Ho Ha Hf; (destruct fuel as [|fuel]; [cbn in Hf; lia|]);
    cbn [config_loop map concat].
  - exists ds, h. by destruct buf.
  - apply Forall_cons in Hls as [Hl Hls].
    assert (exists len', vtm_file_getline realloc_ok true (line_text l ++ concat (map line_text ls)) buf
      = (VTM_OK, line_body l ++ cl_comment l, Some len', concat (map line_text ls))) as [len' ->].
    { assert (Forall (fun c => plain c = true) (line_body l ++ cl_comment l)) as Hp.
      { apply Forall_app. split; [by apply setting_plain, line_body_ok|apply Hl]. }
      unfold line_text. rewrite <- app_assoc. unfold vtm_file_getline.
      destruct Hl as (_ & _ & _ & He).
      destruct buf as [len|]; by apply (getline_loop_line realloc_ok (cl_eol l) _ (line_body l ++ cl_comment l) []). }
    rewrite Z.eqb_refl.
    destruct (parse_line_ok F l ds h m Hl Hw Hh Ho Ha) as (ds1 & h1 & -> & Hw1 & Hh1 & Ho1 & Ha1).
    cbn [mbind option_bind]. cbn [length] in Hf.
    destruct (IH fuel (Some len') ds1 h1 _ Hr Hls Hw1 Hh1 Ho1 Ha1 ltac:(lia)) as (ds' & h' & E & H).
    exists ds', h'. split; [exact E|exact H].
Qed.

(** C32: Reading a file of settings (fs/config.c, vtm_config_file_read, with
    vtm_file_getline of fs/file.c).  For a file of lines that set something, are
    empty, or hold a comment, with white space around names and values, the line
    endings of any system, and lines of any length: the dataset holds exactly the
    settings, the last one for each name, and owns exactly what was allocated. *)
Theorem config_file_reads realloc_ok ls h
    (Hr : forall n, realloc_ok n = true) (Hls : Forall line_ok ls) :
  exists ds h', vtm_config_file_read realloc_ok alloc_ok at_key at_val true (Some (concat (map line_text ls))) h
      = Some (Some ds, h') /\
    wf ds /\ ds_abs ds = str_variant <$> conf_map ls ∅ /\ heap_ok h (ds_owned ds) h'.
Proof.
  unfold vtm_config_file_read.
  destruct (config_loop_ok realloc_ok h ls (S (length (concat (map line_text ls)))) None
    (vtm_dataset_init VTM_DS_HINT_DEFAULT) h ∅ Hr Hls) as (ds & h' & -> & Hw & Ho & Ha).
  - split; [apply smap_wf_empty; cbn; lia|cbn; lia].
  - done.
  - apply (heap_ok_nil h).
  - by rewrite fmap_empty.
  - clear -Hls. induction Hls as [|l ls (_ & _ & _ & He) _ IH]; [cbn; lia|]. cbn [map concat length].
    unfold line_text at 1. rewrite !length_app. destruct He as [-> | ->]; cbn [length]; lia.
  - exists ds, h'. by split_and!.
Qed.
End Reading.

(** A file with three lines: a setting with white space and a comment, an empty
    line, and a setting whose value has the sign in it. *)
Definition demo_lines : list conf_line :=
  [mk_line (Some (cstr_of "port"%string, cstr_of "80 81"%string)) ([32], [9], [32; 32], [32]) (cstr_of "# of the server = 2"%string) [13; 10];
   mk_line None ([9; 32], [], [], []) [] [10];
   mk_line (Some (cstr_of "opt"%string, cstr_of "a=b"%string)) ([], [], [], []) (cstr_of ";"%string) [10]].

Lemma config_file_reads_witness :
  concat (map line_text demo_lines)
    = cstr_of " port"%string ++ [9] ++ cstr_of "=  80 81 # of the server = 2"%string ++ [13; 10; 9; 32; 10] ++
      cstr_of "opt=a=b;"%string ++ [10] /\
  exists ds h', vtm_config_file_read (fun _ => true) alloc_ok 16 32 true (Some (concat (map line_text demo_lines))) ∅
      = Some (Some ds, h') /\
    ds_wf (fun _ => true) (fun _ => []) ds /\ ds_abs ds = str_variant <$> conf_map demo_lines ∅ /\ heap_ok ∅ (ds_owned ds) h'.
Proof.
  split; [reflexivity|].
  apply (config_file_reads (fun _ => []) 16 32 ltac:(lia) ltac:(lia) (fun _ => true) demo_lines ∅ (fun _ => eq_refl)).
  apply (bool_decide_unpack _). vm_compute. exact I.
Defined.

(** ** Types of files *)

(** The endings that have a type. *)
Definition mime_table : list (bytes * bytes) :=
  [(cstr_of "html"%string, VTM_MIME_TEXT_HTML); (cstr_of "jpg"%string, VTM_MIME_IMAGE_JPEG);
   (cstr_of "jpeg"%string, VTM_MIME_IMAGE_JPEG); (cstr_of "json"%string, VTM_MIME_APP_JSON);
   (cstr_of "js"%string, VTM_MIME_APP_JAVASCRIPT); (cstr_of "png"%string, VTM_MIME_IMAGE_PNG);
   (cstr_of "txt"%string, VTM_MIME_TEXT_PLAIN)].

Lemma ext_is_lower ext name :
  is_cstr ext -> is_cstr (cstr_of name) -> ext_is ext name = bool_decide (map tolower ext = map tolower (cstr_of name)).
Proof.
  intros He Hn. unfold ext_is. pose proof (vtm_str_casecmp_spec ext (cstr_of name) He Hn) as H.
  destruct (Z.eqb_spec (vtm_str_casecmp ext (cstr_of name)) 0) as [E|E]; symmetry.
  - apply bool_decide_eq_true. by apply H.
  - apply bool_decide_eq_false. intros E'. by apply E, H.
Qed.

Lemma ext_loop_app b e : forall i last, ext_loop (b ++ 46 :: e) i last = ext_loop e (S (i + length b)) (i + length b).
Proof.
  induction b as [|c b IH]; intros i last; cbn [app ext_loop length]; [by rewrite Nat.add_0_r|].
  rewrite IH. f_equal; lia.
Qed.

Lemma ext_loop_none e : 46 ∉ e -> forall i last, ext_loop e i last = last.
Proof.
  induction e as [|c e IH]; intros He i last; cbn [ext_loop]; [done|]. apply not_elem_of_cons in He as [Hc He].
  rewrite (proj2 (Z.eqb_neq c 46)) by congruence. by apply IH.
Qed.

(** The type of a file is that of its ending in the table, whatever the case of
    the letters. *)
Theorem mime_by_ending b ext :
  b <> [] -> is_cstr ext -> 46 ∉ ext ->
  vtm_mime_type_for_name (b ++ 46 :: ext) = (list_to_map mime_table : gmap bytes bytes) !! map tolower ext.
Proof.
  intros Hb He Hp. unfold vtm_mime_type_for_name, vtm_file_get_ext. rewrite ext_loop_app, ext_loop_none by done.
  cbn [Nat.add]. destruct (length b) as [|n] eqn:En; [by destruct b|].
  assert (drop (S (S n)) (b ++ 46 :: ext) = ext) as ->.
  { rewrite <- En. replace (S (length b)) with (length (b ++ [46])) by (rewrite length_app; cbn; lia).
    assert (b ++ 46 :: ext = (b ++ [46]) ++ ext) as -> by (by rewrite <- app_assoc). apply drop_app_length. }
  unfold vtm_mime_type_for_ext. rewrite !ext_is_lower by (done || by apply (bool_decide_unpack _)).
  assert (tolower (default 0 (head ext)) = default 0 (head (map tolower ext))) as -> by (by destruct ext).
  generalize (map tolower ext) as s. intros s.
  destruct (decide (s ∈ mime_table.*1)) as [Hin|Hout].
  - repeat (apply elem_of_cons in Hin as [-> |Hin]; [by vm_compute|]). by apply elem_of_nil in Hin.
  - rewrite not_elem_of_list_to_map_1 by done. cbn [mime_table fmap list_fmap fst] in Hout.
    rewrite !not_elem_of_cons in Hout. destruct Hout as (H1 & H2 & H3 & H4 & H5 & H6 & H7 & _).
    rewrite !bool_decide_eq_false_2 by (intros ->; first [by apply H1 | by apply H2 | by apply H3 | by apply H4 | by apply H5 | by apply H6 | by apply H7]).
    by repeat case_match.
Qed.

Lemma mime_by_ending_witness :
  vtm_mime_type_for_name (cstr_of "a.b/index.HTML"%string) = Some VTM_MIME_TEXT_HTML.
Proof.
  etransitivity; [apply (mime_by_ending (cstr_of "a.b/index"%string) (cstr_of "HTML"%string))|vm_compute; reflexivity].
  - done.
  - apply (bool_decide_unpack _). vm_compute. exact I.
  - apply (bool_decide_unpack _). vm_compute. exact I.
Defined.

(** A point in a directory counts for a file without an ending. *)
Example ext_of_directory : vtm_file_get_ext (cstr_of "v1.html/readme"%string) = Some (cstr_of "html/readme"%string).
Proof. reflexivity. Qed.
