(* ===== verification/HttpAuth.v ===== *)
(** * HttpAuth: the basic authentication of HTTP, net/http/http_util.c

    What a server demands, and how it reads the answer of a client, with the
    Base64 decoder and the splitting of strings. *)

From stdpp Require Import list gmap.
From S2P Require Import Prelude Base Buffer Str Base64 Elem Heap Dataset Http HttpResponse.

(** net/http/http.c:166 *)
Definition VTM_HTTP_HEADER_AUTHORIZATION : bytes := cstr_of "Authorization"%string.
(** net/http/http.c:177 *)
Definition VTM_HTTP_HEADER_WWW_AUTHENTICATE : bytes := cstr_of "WWW-Authenticate"%string.

(** The character that quotes. *)
Definition quote : Z := 34.

(** net/http/http_util.c:16-20.  What the array of 128 bytes holds in front of its
    terminating character; [None] if it is left. *)
Definition basic_auth_buf (realm : bytes) : option bytes :=
  let buf := cstr_of "Basic realm="%string ++ [quote] in
  let buf := buf ++ ztake (128 - zlen buf - 2) realm in
  let buf := buf ++ [quote] in
  if zlen buf <? 128 then Some buf else None.

(** net/http/http_util.c:12-21 *)
Definition vtm_http_basic_auth_require (malloc_ok : Z -> bool) (r : vtm_http_res) (realm : bytes)
    : option (vtm_http_res * Z) :=
  buf ← basic_auth_buf realm; Some (vtm_http_res_header malloc_ok r VTM_HTTP_HEADER_WWW_AUTHENTICATE buf).

(** The word in front of the credentials. *)
Definition basic_word : bytes := cstr_of "Basic "%string.

(** net/http/http_util.c:40-67.  Behind the word; [ok]: the answer for the block.
    The code, the user and the password, if they are set; [None] if the
    terminating character is stored behind the block. *)
Definition basic_auth_decode (ok : bool) (field : bytes) : option (Z * option (bytes * bytes)) :=
  let size := VTM_BASE64_DEC_BUF_LEN (zlen field) in
  if negb ok then Some (VTM_ERROR, None)
  else
    '(rc, decoded, decoded_len) ← vtm_base64_decode field size;
    if negb (rc =? VTM_OK) then Some (VTM_ERROR, None)
    else if negb (decoded_len <? size) then None
    else
      let text := take_until (fun c => c =? 0) (ztake decoded_len decoded) in
      '(rc, tokens) ← vtm_str_split_ex text [58];
      if negb (rc =? VTM_OK) then Some (rc, None)
      else match tokens with
           | [user; pass] => Some (rc, Some (user, pass))
           | _ => Some (VTM_ERROR, None)
           end.

(** net/http/http_util.c:23-68 *)
Definition vtm_http_basic_auth_read (malloc_ok : Z -> bool) (printf_g : Z -> bytes) (ok : bool) (req : vtm_http_req)
    : option (Z * option (bytes * bytes) * vtm_http_req) :=
  '(field, req) ← vtm_http_req_get_header_str malloc_ok printf_g req VTM_HTTP_HEADER_AUTHORIZATION;
  match field with
  | None => Some (VTM_ERROR, None, req)
  | Some field =>
      if negb (strcmp_eq basic_word (take (length basic_word) field)) then Some (VTM_ERROR, None, req)
      else '(rc, up) ← basic_auth_decode ok (drop (length basic_word) field); Some (rc, up, req)
  end.

(** ** Properties *)

(** The demand fits into the array, whatever the name of the realm is: it is cut
    off. *)
Lemma basic_auth_buf_fits realm :
  basic_auth_buf realm = Some (cstr_of "Basic realm="%string ++ [quote] ++ ztake 113 realm ++ [quote]).
Proof.
  unfold basic_auth_buf. assert (128 - zlen (cstr_of "Basic realm="%string ++ [quote]) - 2 = 113) as -> by reflexivity.
  rewrite <- !app_assoc.
  assert (zlen (cstr_of "Basic realm="%string ++ [quote] ++ ztake 113 realm ++ [quote]) <? 128 = true) as ->; [|done].
  apply Z.ltb_lt. rewrite !zlen_app. change (zlen (cstr_of "Basic realm="%string)) with 12. change (zlen [quote]) with 1.
  assert (zlen (ztake 113 realm) <= 113); [|lia]. unfold zlen, ztake. rewrite length_take. lia.
Qed.

(** A name or a password that can be sent: without colon and white space. *)
Definition cred_char (c : Z) : Prop := 0 < c < 256 /\ c <> 58 /\ isspace c = false.
Definition cred_ok (s : bytes) : Prop := s <> [] /\ Forall cred_char s.
#[global] Instance cred_ok_dec s : Decision (cred_ok s).
Proof. unfold cred_ok, cred_char. apply _. Defined.

Lemma cred_fields s : Forall cred_char s -> fields 58 s = [s].
Proof.
  induction 1 as [|c s (_ & Hc & _) _ IH]; [done|]. cbn [fields]. by rewrite (proj2 (Z.eqb_neq c 58) Hc), IH.
Qed.

Lemma cred_fields_app s t : Forall cred_char s -> fields 58 (s ++ 58 :: t) = s :: fields 58 t.
Proof.
  induction 1 as [|c s (_ & Hc & _) _ IH]; [done|]. cbn [app fields]. by rewrite (proj2 (Z.eqb_neq c 58) Hc), IH.
Qed.

Lemma cred_norm s : cred_ok s -> norm_token s = s /\ skip_while isspace s = s.
Proof.
  intros [Hne Hs]. assert (skip_while isspace s = s) as E.
  { destruct Hs as [|c s (_ & _ & Hc) _]; [done|]. cbn [skip_while]. by rewrite Hc. }
  split; [|done]. unfold norm_token. rewrite E. clear Hne E.
  induction Hs as [|c s (_ & _ & Hc) _ IH]; [done|]. cbn [take_until]. by rewrite Hc, IH.
Qed.

Lemma cred_split user pass :
  cred_ok user -> cred_ok pass -> zlen (user ++ 58 :: pass) < SIZE_MAX ->
  vtm_str_split_ex (user ++ 58 :: pass) [58] = Some (VTM_OK, [user; pass]).
Proof.
  intros Hu Hp Hlen. destruct (cred_norm user Hu) as [Nu Su]. destruct (cred_norm pass Hp) as [Np Sp].
  destruct Hu as [Hu Cu]. destruct Hp as [Hp Cp].
  rewrite split_ex_single_delimiter by done. rewrite cred_fields_app, cred_fields by done.
  rewrite (filter_cons_True (fun f => skip_while isspace f <> [])) by (by rewrite Su).
  rewrite (filter_cons_True (fun f => skip_while isspace f <> [])) by (by rewrite Sp).
  rewrite filter_nil. cbn [fmap list_fmap]. by rewrite Nu, Np.
Qed.

Lemma no_nul s : Forall (fun c => 0 < c < 256) s -> take_until (fun c => c =? 0) s = s.
Proof.
  induction 1 as [|c s Hc _ IH]; [done|]. cbn [take_until]. rewrite (proj2 (Z.eqb_neq c 0)) by lia. by rewrite IH.
Qed.

(** C33: Basic authentication (net/http/http_util.c, vtm_http_basic_auth_read, over
    util/base64.c and core/string.c).  A client sends the name [user] and the
    password [pass] in Base64, with a colon between.  Both are not empty and hold
    neither colons nor white space ([cred_ok]; RFC 7617 allows both in passwords,
    but the server splits the text at each colon and cuts off white space), and
    memory suffices.  If the length of the text is not a multiple of three the server gets
    exactly the name and the password.  If it is one, the server stores a zero
    behind the block that it has allocated for the text. *)
Theorem basic_auth_reads malloc_ok printf_g req req' user pass
    (Hu : cred_ok user) (Hp : cred_ok pass) (Hlen : zlen (user ++ 58 :: pass) <= 2 ^ 61)
    (Hget : vtm_http_req_get_header_str malloc_ok printf_g req VTM_HTTP_HEADER_AUTHORIZATION
      = Some (Some (basic_word ++ b64_text (user ++ 58 :: pass)), req')) :
  vtm_http_basic_auth_read malloc_ok printf_g true req =
    if zlen (user ++ 58 :: pass) mod 3 =? 0 then None else Some (VTM_OK, Some (user, pass), req').
Proof.
  set (text := user ++ 58 :: pass) in *. pose proof (zlen_nonneg text).
  assert (Forall (fun c => 0 < c < 256) text) as Hc.
  { apply Forall_app. split; [|apply Forall_cons; split; [lia|]]; eapply Forall_impl; try apply Hu; try apply Hp;
      by intros c (? & _). }
  unfold vtm_http_basic_auth_read. rewrite Hget. cbn [mbind option_bind].
  rewrite take_app_length. unfold strcmp_eq at 1. rewrite bool_decide_eq_true_2 by done. cbn [negb].
  rewrite drop_app_length. unfold basic_auth_decode. cbn [negb].
  destruct (base64_roundtrip text) as (_ & _ & ->); [|by destruct user|done|].
  { eapply Forall_impl; [exact Hc|]. intros c; unfold is_byte; lia. }
  cbn [mbind option_bind]. rewrite Z.eqb_refl. cbn [negb].
  assert (VTM_BASE64_DEC_BUF_LEN (zlen (b64_text text)) = 3 * ((zlen text + 2) / 3)) as ->.
  { rewrite b64_text_len, dec_buf_len by (unfold SIZE_MAX; dlia). rewrite (Z.mul_comm 4), Z.div_mul by done. lia. }
  destruct (Z.eqb_spec (zlen text mod 3) 0) as [E|E].
  - rewrite (proj2 (Z.ltb_ge _ _)) by dlia. done.
  - rewrite (proj2 (Z.ltb_lt _ _)) by dlia. cbn [negb]. rewrite ztake_all by lia. rewrite no_nul by done.
    unfold text. rewrite cred_split by (done || (unfold text, SIZE_MAX in *; lia)). done.
Qed.

(** A request of a user with a password. *)
Definition auth_request (user pass : bytes) : vtm_http_req :=
  mk_req VTM_HTTP_METHOD_GET VTM_HTTP_VER_1_1 (Some [47])
    (fst <$> vtm_dataset_set_string alloc_ok (vtm_dataset_init VTM_DS_HINT_IGNORE_CASE)
               (mk_ptr 16 VTM_HTTP_HEADER_AUTHORIZATION) (mk_ptr 32 (basic_word ++ b64_text (user ++ 58 :: pass))) ∅)
    None 0.

Lemma basic_auth_reads_witness :
  (exists req', vtm_http_basic_auth_read (fun _ => true) (fun _ => []) true
     (auth_request (cstr_of "Aladdin"%string) (cstr_of "sesame"%string)) =
     Some (VTM_OK, Some (cstr_of "Aladdin"%string, cstr_of "sesame"%string), req')) /\
  vtm_http_basic_auth_read (fun _ => true) (fun _ => []) true
     (auth_request (cstr_of "Aladdin"%string) (cstr_of "sesames"%string)) = None.
Proof.
  assert (forall pass, bool_decide (cred_ok pass) = true -> cred_ok pass) as Hok.
  { intros pass. apply bool_decide_eq_true. }
  assert (exists req', vtm_http_req_get_header_str (fun _ => true) (fun _ => [])
    (auth_request (cstr_of "Aladdin"%string) (cstr_of "sesame"%string)) VTM_HTTP_HEADER_AUTHORIZATION
    = Some (Some (basic_word ++ b64_text (cstr_of "Aladdin"%string ++ 58 :: cstr_of "sesame"%string)), req')) as [r1 E1].
  { eexists. vm_compute. reflexivity. }
  assert (exists req', vtm_http_req_get_header_str (fun _ => true) (fun _ => [])
    (auth_request (cstr_of "Aladdin"%string) (cstr_of "sesames"%string)) VTM_HTTP_HEADER_AUTHORIZATION
    = Some (Some (basic_word ++ b64_text (cstr_of "Aladdin"%string ++ 58 :: cstr_of "sesames"%string)), req')) as [r2 E2].
  { eexists. vm_compute. reflexivity. }
  split.
  - exists r1. rewrite (basic_auth_reads _ _ _ r1 (cstr_of "Aladdin"%string) (cstr_of "sesame"%string)); [reflexivity|..|exact E1].
    + apply Hok. vm_compute. reflexivity.
    + apply Hok. vm_compute. reflexivity.
    + vm_compute. discriminate.
  - rewrite (basic_auth_reads _ _ _ r2 (cstr_of "Aladdin"%string) (cstr_of "sesames"%string)); [reflexivity|..|exact E2].
    + apply Hok. vm_compute. reflexivity.
    + apply Hok. vm_compute. reflexivity.
    + vm_compute. discriminate.
Defined.
