(* ===== verification/Json.v ===== *)
(** * Json: datasets as JSON, util/json.c

    The text that the encoder puts into a buffer, and what it does not say: names
    and strings are written as they are. *)

From stdpp Require Import list gmap fin_sets.
From S2P Require Import Prelude Base Buffer Str Elem Hash Heap Table Smap Dataset NmWire.

(** Characters of the text: braces, comma, colon, quote. *)
Definition jchar (s : string) : Z := default 0 (head (cstr_of s)).
Definition jquote : Z := 34.

Section Json.
Context (malloc_ok : Z -> bool) (printf_g : Z -> bytes).

(** An entry: its name, the text of its value, whether that is a string. *)
Definition json_entry : Type := bytes * bytes * bool.

Definition put_c (c : Z) (b : vtm_buf) : vtm_buf := (vtm_buf_putc malloc_ok b c).1.
Definition put_s (s : bytes) (b : vtm_buf) : vtm_buf := (vtm_buf_puts malloc_ok b s).1.

(** util/json.c:24-42.  The loop over the entries; [i] is the index of the
    first. *)
Fixpoint json_entries (i : nat) (es : list json_entry) (b : vtm_buf) : vtm_buf :=
  match es with
  | [] => b
  | (name, text, quotes) :: es =>
      let b := if (0 <? i)%nat then put_c (jchar ",") b else b in
      let b := put_c (jchar ":") (put_c jquote (put_s name (put_c jquote b))) in
      let b := if quotes : bool then put_c jquote b else b in
      let b := put_s text b in
      let b := if quotes then put_c jquote b else b in
      json_entries (S i) es b
  end.

(** The entries of a dataset.  [None] for a name or a value that is NULL. *)
Definition ds_entries (ds : vtm_dataset) : option (list json_entry) :=
  mapM (fun n => name ← elem_pointer (dn_key_data n);
                 '(text, _) ← vtm_variant_as_str malloc_ok printf_g (dn_value n); text ← text;
                 Some (p_text name, text, bool_decide (v_type (dn_value n) = VTM_ELEM_STRING)))
    (VTM_SMAP_FOR_EACH (vars ds)).
Definition ds_texted (ds : vtm_dataset) : vtm_dataset :=
  mk_ds (hints ds)
    (map (map (fun n => ds_set_value n (default (dn_value n) (snd <$> vtm_variant_as_str malloc_ok printf_g (dn_value n)))))
       (vars ds)).

(** util/json.c:9-49.  [ok]: the answer for the list of the entries.  The values
    keep their texts. *)
Definition vtm_json_encode_ds (ok : bool) (ds : vtm_dataset) (b : vtm_buf) : option (Z * vtm_dataset * vtm_buf) :=
  match vtm_dataset_entryset ok (Some ds) with
  | None => Some (VTM_E_MALLOC, ds, b)
  | Some _ =>
      es ← ds_entries ds;
      let b := put_c (jchar "}") (json_entries 0 es (put_c (jchar "{") b)) in
      Some (buf_err b, ds_texted ds, b)
  end.
End Json.

(** ** The text *)

Definition entry_text (e : json_entry) : bytes :=
  let '(name, text, quotes) := e in
  [jquote] ++ name ++ [jquote; jchar ":"] ++ (if quotes : bool then [jquote] ++ text ++ [jquote] else text).

Fixpoint entries_text (es : list json_entry) : bytes :=
  match es with
  | [] => []
  | [e] => entry_text e
  | e :: es => entry_text e ++ [jchar ","] ++ entries_text es
  end.

Definition json_text (es : list json_entry) : bytes := [jchar "{"] ++ entries_text es ++ [jchar "}"].

Definition entry_small (e : json_entry) : Prop :=
  Forall is_byte e.1.1 /\ Forall is_byte e.1.2 /\ zlen e.1.1 <= UINT32_MAX /\ zlen e.1.2 <= UINT32_MAX.

#[export] Instance entry_small_dec e : Decision (entry_small e).
Proof. unfold entry_small. apply _. Defined.

Section Text.
Context (malloc_ok : Z -> bool) (printf_g : Z -> bytes).

Lemma put_c_ext c b l b0 : puts_ext b0 l b -> 0 <= c < 256 -> puts_ext b0 (l ++ [c]) (put_c malloc_ok c b).
Proof. intros H Hc. eapply puts_ext_trans; [exact H|]. apply nm_putc_ext; [apply H|done]. Qed.

Lemma put_s_ext s b l b0 :
  puts_ext b0 l b -> Forall is_byte s -> zlen s <= UINT32_MAX -> puts_ext b0 (l ++ s) (put_s malloc_ok s b).
Proof. intros H Hs Hl. eapply puts_ext_trans; [exact H|]. apply nm_putm_ext; [apply H|done|done]. Qed.

Lemma json_entries_ext es : forall i b l b0,
  puts_ext b0 l b -> Forall entry_small es ->
  puts_ext b0 (l ++ (match es, i with [], _ | _, O => [] | _, _ => [jchar ","] end) ++ entries_text es)
    (json_entries malloc_ok i es b).
Proof.
  induction es as [|[[name text] quotes] es IH]; intros i b l b0 H Hes; cbn [json_entries].
  - cbn [entries_text app]. by rewrite app_nil_r.
  - apply Forall_cons in Hes as [(Hn & Ht & Hln & Hlt) Hes]. cbn [fst snd] in *.
    assert (puts_ext b0 (l ++ (match i with O => [] | _ => [jchar ","] end) ++ entry_text (name, text, quotes))
      (let b := if (0 <? i)%nat then put_c malloc_ok (jchar ",") b else b in
       let b := put_c malloc_ok (jchar ":") (put_c malloc_ok jquote (put_s malloc_ok name (put_c malloc_ok jquote b))) in
       let b := if quotes then put_c malloc_ok jquote b else b in
       let b := put_s malloc_ok text b in if quotes then put_c malloc_ok jquote b else b)) as H'.
    { set (l1 := l ++ match i with O => [] | _ => [jchar ","] end).
      assert (puts_ext b0 l1 (if (0 <? i)%nat then put_c malloc_ok (jchar ",") b else b)) as H1.
      { subst l1. destruct i; cbn; [by rewrite app_nil_r|]. by apply put_c_ext. }
      set (b1 := if (0 <? i)%nat then _ else _) in *. rewrite app_assoc. fold l1. cbv zeta.
      assert (puts_ext b0 ((((l1 ++ [jquote]) ++ name) ++ [jquote]) ++ [jchar ":"])
        (put_c malloc_ok (jchar ":") (put_c malloc_ok jquote (put_s malloc_ok name (put_c malloc_ok jquote b1))))) as H2.
      { apply put_c_ext; [|done]. apply put_c_ext; [|done]. apply put_s_ext; [|done|done]. by apply put_c_ext. }
      set (b2 := put_c malloc_ok (jchar ":") _) in *.
      assert (((((l1 ++ [jquote]) ++ name) ++ [jquote]) ++ [jchar ":"])
        ++ (if quotes then [jquote] ++ text ++ [jquote] else text) = l1 ++ entry_text (name, text, quotes)) as <-.
      { unfold entry_text. by rewrite <- !app_assoc. }
      destruct quotes.
      - rewrite !app_assoc. apply put_c_ext; [|done]. apply put_s_ext; [|done|done]. by apply put_c_ext.
      - by apply put_s_ext. }
    cbv zeta in H'. specialize (IH (S i) _ _ _ H' Hes). cbv zeta. destruct es as [|e es].
    + cbn [entries_text app] in IH |- *. rewrite app_nil_r in IH. exact IH.
    + change (entries_text ((name, text, quotes) :: e :: es))
        with (entry_text (name, text, quotes) ++ [jchar ","] ++ entries_text (e :: es)).
      rewrite <- !app_assoc in IH. exact IH.
Qed.

(** Datasets as JSON (util/json.c, vtm_json_encode_ds).  If it reports success
    the text of an object was put behind what was in the buffer: the entries of
    the dataset in the order of its table, strings between quotes, other values as
    they are printed. *)
Theorem json_encodes ds b es
    (Hes : ds_entries malloc_ok printf_g ds = Some es) (Hsm : Forall entry_small es) (Hb : buf_ok b) :
  exists rc ds' b', vtm_json_encode_ds malloc_ok printf_g true ds b = Some (rc, ds', b') /\
    (rc = VTM_OK -> buf_content b' = buf_content b ++ json_text es).
Proof.
  unfold vtm_json_encode_ds. cbn [vtm_dataset_entryset]. rewrite Hes. cbn [mbind option_bind].
  eexists _, _, _. split; [reflexivity|]. intros He.
  assert (puts_ext b (json_text es) (put_c malloc_ok (jchar "}") (json_entries malloc_ok 0 es (put_c malloc_ok (jchar "{") b)))) as H.
  { unfold json_text. rewrite app_assoc. apply put_c_ext; [|done].
    pose proof (json_entries_ext es 0 (put_c malloc_ok (jchar "{") b) [jchar "{"] b) as H. destruct es as [|e es];
      (apply H; [by apply (put_c_ext _ b [] b (puts_ext_refl b (or_introl Hb)))|done]). }
  by apply H.
Qed.
End Text.

Definition demo_json_entries : list json_entry :=
  default [] (ds_entries (fun _ => true) (fun _ => []) test_ds).

Lemma json_encodes_witness :
  ds_entries (fun _ => true) (fun _ => []) test_ds = Some demo_json_entries /\
  exists rc ds' b', vtm_json_encode_ds (fun _ => true) (fun _ => []) true test_ds (vtm_buf_init VTM_BYTEORDER_LE) = Some (rc, ds', b') /\
    (rc = VTM_OK -> buf_content b' = buf_content (vtm_buf_init VTM_BYTEORDER_LE) ++ json_text demo_json_entries).
Proof.
  split; [vm_compute; reflexivity|].
  apply (json_encodes (fun _ => true) (fun _ => []) test_ds (vtm_buf_init VTM_BYTEORDER_LE)).
  - vm_compute. reflexivity.
  - apply (bool_decide_unpack _). vm_compute. exact I.
  - apply buf_init_ok.
Defined.

(** The encoder does not escape: an entry whose text holds a quote reads as
    something else.  Two different lists of entries have the same text. *)
Theorem json_ambiguous :
  json_text [(cstr_of "name"%string, cstr_of "x"%string ++ [jquote] ++ cstr_of ","%string ++ [jquote] ++
                cstr_of "admin"%string ++ [jquote] ++ cstr_of ":"%string ++ [jquote] ++ cstr_of "true"%string, true)]
  = json_text [(cstr_of "name"%string, cstr_of "x"%string, true); (cstr_of "admin"%string, cstr_of "true"%string, true)].
Proof. reflexivity. Qed.
