(* ===== verification/Log.v ===== *)
(** * Log: log files and their rotation, fs/log.c

    The files are a map from names to the lines that were written; times and the
    answers of the allocator and of fopen() come with each call.  Every call that
    writes is inside of the mutex of the log.  vtm_log_writef only formats its
    message first, with the C library. *)

From stdpp Require Import list gmap.
From S2P Require Import Prelude Base Format Str Config.

(** fs/log.h:23-30 [enum vtm_log_level] *)
Inductive vtm_log_level := VTM_LOG_ERROR | VTM_LOG_WARN | VTM_LOG_INFO | VTM_LOG_VERBOSE | VTM_LOG_DEBUG.

Definition log_num (l : vtm_log_level) : Z :=
  match l with VTM_LOG_ERROR => 0 | VTM_LOG_WARN => 1 | VTM_LOG_INFO => 2 | VTM_LOG_VERBOSE => 3 | VTM_LOG_DEBUG => 4 end.

(** fs/log.c:29-35 *)
Definition VTM_LOG_LABEL (l : vtm_log_level) : bytes :=
  match l with
  | VTM_LOG_ERROR => cstr_of "ERROR"%string
  | VTM_LOG_WARN => cstr_of "WARN"%string
  | VTM_LOG_INFO => cstr_of "INFO"%string
  | VTM_LOG_VERBOSE => cstr_of "VERBOSE"%string
  | VTM_LOG_DEBUG => cstr_of "DEBUG"%string
  end.

(** fs/log.h:20 *)
Definition VTM_LOG_HINT_CONSOLE : Z := 1.
(** fs/log.h:21 *)
Definition VTM_LOG_HINT_FILE : Z := 2.
(** fs/log.c:19 *)
Definition VTM_LOG_DEFAULT_MAX_LINES : Z := 100000.

(** fs/log.c:37-51 [struct vtm_log].  Whether the file is open; its name is empty
    if there is none. *)
Record vtm_log := mk_log {
  lg_level : vtm_log_level;
  lg_hints : Z;
  lg_fp : bool;
  lg_file : bytes;
  lg_max_lines : Z;
  lg_cur_lines : Z;
  lg_pid : bytes;
  lg_ts_rotate : Z;
  lg_cnt_rotate : Z
}.

(** The files, and what was written to the console: whether to stderr, the
    line. *)
Record log_world := mk_world { lw_files : gmap bytes (list bytes); lw_console : list (bool * bytes) }.

(** fopen(name, "a") *)
Definition fopen_append (name : bytes) (w : log_world) : log_world :=
  mk_world (<[name := default [] (lw_files w !! name)]> (lw_files w)) (lw_console w).
(** rename(old, new): what had the new name is gone. *)
Definition rename_file (old new : bytes) (w : log_world) : log_world :=
  mk_world match lw_files w !! old with
           | Some lines => <[new := lines]> (delete old (lw_files w))
           | None => lw_files w
           end (lw_console w).
Definition write_line (name line : bytes) (w : log_world) : log_world :=
  mk_world (<[name := default [] (lw_files w !! name) ++ [line]]> (lw_files w)) (lw_console w).

Definition log_set_fp (fp : bool) (l : vtm_log) : vtm_log :=
  mk_log (lg_level l) (lg_hints l) fp (lg_file l) (lg_max_lines l) (lg_cur_lines l) (lg_pid l) (lg_ts_rotate l) (lg_cnt_rotate l).
Definition log_set_cur (n : Z) (l : vtm_log) : vtm_log :=
  mk_log (lg_level l) (lg_hints l) (lg_fp l) (lg_file l) (lg_max_lines l) n (lg_pid l) (lg_ts_rotate l) (lg_cnt_rotate l).
Definition log_set_rotate (ts cnt : Z) (l : vtm_log) : vtm_log :=
  mk_log (lg_level l) (lg_hints l) (lg_fp l) (lg_file l) (lg_max_lines l) (lg_cur_lines l) (lg_pid l) ts cnt.

(** fs/log.c:53-102.  [ok], [ok_mtx], [ok_file]: the answers of the allocator;
    [ok_open]: whether the file can be opened. *)
Definition vtm_log_open (ok ok_mtx ok_file ok_open : bool) (pid path name : bytes) (hints : Z) (w : log_world)
    : option vtm_log * log_world :=
  if negb (ok && ok_mtx) then (None, w)
  else
    let l := mk_log VTM_LOG_INFO hints false [] VTM_LOG_DEFAULT_MAX_LINES 0 pid 0 0 in
    if Z.land hints VTM_LOG_HINT_FILE =? 0 then (Some l, w)
    else if negb (ok_file && ok_open) then (None, w)
    else
      let file := path ++ [47] ++ name ++ cstr_of ".log"%string in
      (Some (mk_log VTM_LOG_INFO hints true file VTM_LOG_DEFAULT_MAX_LINES 0 pid 0 0), fopen_append file w).

(** fs/log.c:112-115 *)
Definition vtm_log_set_level (l : vtm_log) (level : vtm_log_level) : vtm_log :=
  mk_log level (lg_hints l) (lg_fp l) (lg_file l) (lg_max_lines l) (lg_cur_lines l) (lg_pid l) (lg_ts_rotate l) (lg_cnt_rotate l).

(** fs/log.c:117-120 *)
Definition vtm_log_set_max_lines (l : vtm_log) (lines : Z) : vtm_log :=
  mk_log (lg_level l) (lg_hints l) (lg_fp l) (lg_file l) lines (lg_cur_lines l) (lg_pid l) (lg_ts_rotate l) (lg_cnt_rotate l).

(** What a call finds: the time as text and in milliseconds, the answers of
    malloc() and fopen() when the file is rotated. *)
Record log_now := mk_now { ln_stamp : bytes; ln_millis : Z; ln_malloc : bool; ln_open : bool }.

Definition fmt_num (n : Z) : bytes := (vtm_fmt_uint64 true n).2.

(** fs/log.c:203-216.  The new name of the file; with a counter if it was rotated
    in the same millisecond before. *)
Definition rotated_name (file : bytes) (millis cnt : Z) : bytes :=
  file ++ [46] ++ fmt_num millis ++ (if cnt =? 0 then [] else [46] ++ fmt_num cnt).

(** fs/log.c:187-227 *)
Definition vtm_log_rotate (now : log_now) (l : vtm_log) (w : log_world) : vtm_log * log_world :=
  if negb (ln_malloc now) then (log_set_fp false l, w)
  else
    let millis := ln_millis now in
    let cnt := if millis =? lg_ts_rotate l then u64 (lg_cnt_rotate l + 1) else 0 in
    let old :=
      if millis =? lg_ts_rotate l
      then lg_file l ++ [46] ++ fmt_num millis ++ [46] ++ fmt_num cnt
      else lg_file l ++ [46] ++ fmt_num millis in
    let l := log_set_cur 0 (log_set_rotate millis cnt l) in
    let w := rename_file (lg_file l) old w in
    if ln_open now then (log_set_fp true l, fopen_append (lg_file l) w) else (log_set_fp false l, w).

(** fs/log.c:179-185 *)
Definition vtm_log_check_size (now : log_now) (l : vtm_log) (w : log_world) : vtm_log * log_world :=
  let l := log_set_cur (u64 (lg_cur_lines l + 1)) l in
  if lg_cur_lines l <? lg_max_lines l then (l, w) else vtm_log_rotate now l w.

(** fs/log.c:167-173.  A line, as it is printed. *)
Definition log_line (l : vtm_log) (now : log_now) (level : vtm_log_level) (msg : bytes) : bytes :=
  ln_stamp now ++ cstr_of " ["%string ++ lg_pid l ++ cstr_of "] "%string ++ VTM_LOG_LABEL level ++ cstr_of ": "%string ++ msg ++ [10].

(** fs/log.c:148-177 *)
Definition vtm_log_write_internal (now : log_now) (l : vtm_log) (level : vtm_log_level) (msg : bytes) (w : log_world)
    : vtm_log * log_world :=
  let line := log_line l now level msg in
  let w := if Z.land (lg_hints l) VTM_LOG_HINT_CONSOLE =? 0 then w
           else mk_world (lw_files w) (lw_console w ++ [(match level with VTM_LOG_ERROR => true | _ => false end, line)]) in
  if lg_fp l then vtm_log_check_size now l (write_line (lg_file l) line w) else (l, w).

(** fs/log.c:122-130 *)
Definition vtm_log_write (now : log_now) (l : vtm_log) (level : vtm_log_level) (msg : bytes) (w : log_world)
    : vtm_log * log_world :=
  if log_num (lg_level l) <? log_num level then (l, w) else vtm_log_write_internal now l level msg w.

(** fs/log.c:104-110.  [None]: fclose() of NULL. *)
Definition vtm_log_close (l : vtm_log) : option unit := if lg_fp l then Some tt else None.

(** A sequence of calls. *)
Fixpoint log_run (calls : list (log_now * vtm_log_level * bytes)) (l : vtm_log) (w : log_world) : vtm_log * log_world :=
  match calls with
  | [] => (l, w)
  | (now, level, msg) :: calls => let '(l, w) := vtm_log_write now l level msg w in log_run calls l w
  end.

(** ** Names *)

Lemma num_digits s : forall acc v, num_val 10 acc s = Some v -> Forall (fun c => (c =? 46) = false) s.
Proof.
  induction s as [|c s IH]; intros acc v H; [constructor|]. cbn [num_val] in H.
  destruct (hexval c) as [d|] eqn:E; [|done]. cbn [mbind option_bind] in H. destruct (d <? 10); [|done].
  constructor; [|by eapply IH]. apply Z.eqb_neq. intros ->. by vm_compute in E.
Qed.

Lemma fmt_num_ok v : 0 <= v < 2 ^ 64 ->
  Forall (fun c => (c =? 46) = false) (fmt_num v) /\ num_val 10 0 (fmt_num v) = Some v.
Proof.
  intros Hv. destruct (fmt_dec_spec v Hv) as (_ & _ & Hn & _). unfold fmt_num, vtm_fmt_uint64. cbn [snd negb].
  split; [by eapply num_digits|done].
Qed.

Lemma fmt_num_inj v v' : 0 <= v < 2 ^ 64 -> 0 <= v' < 2 ^ 64 -> fmt_num v = fmt_num v' -> v = v'.
Proof.
  intros Hv Hv' E. destruct (fmt_num_ok v Hv) as [_ H]. destruct (fmt_num_ok v' Hv') as [_ H']. congruence.
Qed.

(** Rotated files have names of their own. *)
Lemma rotated_name_inj file m c m' c' :
  0 <= m < 2 ^ 64 -> 0 <= c < 2 ^ 64 -> 0 <= m' < 2 ^ 64 -> 0 <= c' < 2 ^ 64 ->
  rotated_name file m c = rotated_name file m' c' -> m = m' /\ c = c'.
Proof.
  intros Hm Hc Hm' Hc' E. unfold rotated_name in E. apply app_inv_head in E. injection E as E.
  assert (forall c, take_until (fun x => x =? 46) (if c =? 0 then [] else [46] ++ fmt_num c) = []) as Ht
    by (intros x; by destruct (x =? 0)).
  assert (m = m') as ->.
  { apply fmt_num_inj; [done|done|]. pose proof (f_equal (take_until (fun x => x =? 46)) E) as E'.
    rewrite !take_until_app, !Ht, !app_nil_r in E'; [done|by apply fmt_num_ok|by apply fmt_num_ok]. }
  split; [done|]. apply app_inv_head in E.
  destruct (Z.eqb_spec c 0) as [->|Hn], (Z.eqb_spec c' 0) as [->|Hn']; try done.
  injection E as E. by apply fmt_num_inj.
Qed.

Lemma rotated_name_ne file m c : rotated_name file m c <> file.
Proof.
  unfold rotated_name. intros E. apply (f_equal length) in E. rewrite !length_app in E. cbn in E. lia.
Qed.

(** ** No line is lost *)

(** A rotated file: the time and the counter of its name, its lines. *)
Definition rotated : Type := Z * Z * list bytes.

Definition rot_files (file : bytes) (rot : list rotated) (others : gmap bytes (list bytes)) : gmap bytes (list bytes) :=
  foldr (fun r m => <[rotated_name file r.1.1 r.1.2 := r.2]> m) others rot.

(** The names of rotations come in the order of time and counter. *)
Definition rot_before (ts cnt : Z) (r : rotated) : Prop :=
  0 <= r.1.1 < 2 ^ 64 /\ 0 <= r.1.2 < 2 ^ 64 /\ (r.1.1 < ts \/ r.1.1 = ts /\ r.1.2 <= cnt).

(** A log of [max] lines per file behind a sequence of writes: [rot] are the files
    that were put aside, the last one first; [cur] are the lines of the open
    one. *)
Record log_ok (max : Z) (others : gmap bytes (list bytes)) (lines : list bytes)
    (rot : list rotated) (cur : list bytes) (l : vtm_log) (w : log_world) : Prop := {
  lo_fp : lg_fp l = true;
  lo_max : lg_max_lines l = max;
  lo_cur : lg_cur_lines l = zlen cur;
  lo_ts : 0 <= lg_ts_rotate l < 2 ^ 64;
  lo_cnt : 0 <= lg_cnt_rotate l <= zlen rot;
  lo_files : lw_files w = <[lg_file l := cur]> (rot_files (lg_file l) rot others);
  lo_rot : Forall (rot_before (lg_ts_rotate l) (lg_cnt_rotate l)) rot;
  lo_nodup : NoDup (map fst rot);
  lo_full : Forall (fun r : rotated => zlen r.2 = max) rot;
  lo_room : zlen cur < max;
  lo_lines : concat (map snd (reverse rot)) ++ cur = lines
}.

(** Names that no file has when the log is opened. *)
Definition names_free (file : bytes) (others : gmap bytes (list bytes)) : Prop :=
  others !! file = None /\ forall m c, others !! rotated_name file m c = None.

Lemma rot_files_cur file rot others : others !! file = None -> rot_files file rot others !! file = None.
Proof.
  intros H. induction rot as [|r rot IH]; [done|]. cbn [rot_files foldr].
  rewrite lookup_insert_ne by (apply rotated_name_ne). exact IH.
Qed.

(** The next name of a rotation is behind the others. *)
Lemma rot_before_next ts cnt rot m c :
  Forall (rot_before ts cnt) rot -> 0 <= m < 2 ^ 64 -> 0 <= c < 2 ^ 64 ->
  ts < m \/ ts = m /\ cnt < c ->
  Forall (rot_before m c) rot /\ (m, c) ∉ map fst rot.
Proof.
  intros H Hm Hc Hn. split.
  - eapply Forall_impl; [exact H|]. intros [[m' c'] ch] (H1 & H2 & H3). cbn in *.
    split; [done|]. split; [done|]. cbn. lia.
  - intros Hin. apply list_elem_of_fmap in Hin as ([[m' c'] ch] & E & Hin). cbn in E. injection E as <- <-.
    rewrite Forall_forall in H. apply H in Hin as (_ & _ & Hb). cbn in Hb. lia.
Qed.

(** What a rotation does: the lines of the open file have a name of their own. *)
Lemma log_rotates max others lines rot cur l w now :
  log_ok max others lines rot cur l w -> names_free (lg_file l) others ->
  ln_malloc now = true -> ln_open now = true -> lg_ts_rotate l <= ln_millis now < 2 ^ 64 ->
  zlen rot + 1 < 2 ^ 64 ->
  forall line, zlen cur + 1 = max ->
  let '(l', w') := vtm_log_rotate now (log_set_cur max l) (write_line (lg_file l) line w) in
  exists r, r.2 = cur ++ [line] /\ lg_file l' = lg_file l /\ lg_level l' = lg_level l /\ lg_pid l' = lg_pid l /\
    lg_hints l' = lg_hints l /\ lg_ts_rotate l' = ln_millis now /\
    log_ok max others (lines ++ [line]) (r :: rot) [] l' w'.
Proof.
  intros H [Hf Hfree] Hma Hop Hms Hlen line Hmax. destruct H. unfold vtm_log_rotate. rewrite Hma, Hop. cbn [negb].
  cbn [log_set_cur log_set_rotate log_set_fp lg_file lg_ts_rotate lg_cnt_rotate lg_level lg_pid lg_hints].
  set (m := ln_millis now) in *.
  set (cnt := if m =? lg_ts_rotate l then u64 (lg_cnt_rotate l + 1) else 0).
  assert (0 <= cnt <= zlen rot + 1 /\ (lg_ts_rotate l < m \/ lg_ts_rotate l = m /\ lg_cnt_rotate l < cnt)) as [Hc Hn].
  { subst cnt. destruct (Z.eqb_spec m (lg_ts_rotate l)); [|lia].
    rewrite u64_small by (unfold is_size, SIZE_MAX; lia). lia. }
  destruct (rot_before_next _ _ _ m cnt lo_rot0) as [Hb Hnew]; [lia|lia|exact Hn|].
  assert ((if m =? lg_ts_rotate l then lg_file l ++ [46] ++ fmt_num m ++ [46] ++ fmt_num cnt
           else lg_file l ++ [46] ++ fmt_num m) = rotated_name (lg_file l) m cnt) as ->.
  { unfold rotated_name. subst cnt. destruct (Z.eqb_spec m (lg_ts_rotate l)).
    - destruct (Z.eqb_spec (u64 (lg_cnt_rotate l + 1)) 0); [lia|done].
    - rewrite Z.eqb_refl. by rewrite app_nil_r. }
  exists (m, cnt, cur ++ [line]). do 6 (split; [reflexivity|]).
  unfold write_line, rename_file, fopen_append. cbn [lw_files lw_console]. rewrite lo_files0, lookup_insert_eq.
  cbn [default]. rewrite insert_insert_eq, lookup_insert_eq. cbn [lw_files lw_console].
  rewrite delete_insert_eq, delete_id by (by apply rot_files_cur).
  rewrite lookup_insert_ne by (apply rotated_name_ne). rewrite rot_files_cur by done. cbn [default].
  split; cbn [log_set_fp log_set_cur log_set_rotate lg_fp lg_max_lines lg_cur_lines lg_ts_rotate lg_cnt_rotate lw_files lg_file map fst snd].
  - reflexivity.
  - exact lo_max0.
  - reflexivity.
  - lia.
  - rewrite zlen_cons. lia.
  - reflexivity.
  - constructor; [|exact Hb]. split; cbn; [lia|]. split; [lia|]. right. lia.
  - constructor; [|exact lo_nodup0]. exact Hnew.
  - constructor; [|exact lo_full0]. cbn [snd]. rewrite zlen_app. change (zlen [line]) with 1. lia.
  - pose proof (zlen_nonneg cur). change (zlen (@nil bytes)) with 0. lia.
  - rewrite app_nil_r, reverse_cons, map_app, concat_app. cbn [map concat snd app]. rewrite app_nil_r, app_assoc.
    exact (f_equal (fun x => x ++ [line]) lo_lines0).
Qed.

Lemma rot_names_nodup file ts cnt rot :
  Forall (rot_before ts cnt) rot -> NoDup (map fst rot) ->
  NoDup (map (fun r : rotated => rotated_name file r.1.1 r.1.2) rot).
Proof.
  induction rot as [|r rot IH]; intros Hb Hn; [constructor|].
  apply Forall_cons in Hb as [(Hm & Hc & _) Hb]. cbn [map] in Hn |- *. apply NoDup_cons in Hn as [Hr Hn].
  constructor; [|by apply IH]. intros Hin. apply Hr.
  apply list_elem_of_fmap in Hin as (r' & E & Hin). rewrite Forall_forall in Hb. pose proof (Hb _ Hin) as (Hm' & Hc' & _).
  apply rotated_name_inj in E as [E1 E2]; [|done..]. apply list_elem_of_fmap. exists r'. split; [|done].
  destruct r as [[m c] ch], r' as [[m' c'] ch']. cbn in *. congruence.
Qed.

(** What is the same before and behind a call. *)
Definition same_log (l l' : vtm_log) : Prop :=
  lg_file l' = lg_file l /\ lg_level l' = lg_level l /\ lg_pid l' = lg_pid l /\ lg_hints l' = lg_hints l.

(** The clock is not put back; nothing fails. *)
Fixpoint calls_ok (t : Z) (calls : list (log_now * vtm_log_level * bytes)) : Prop :=
  match calls with
  | [] => True
  | (now, _, _) :: calls =>
      ln_malloc now = true /\ ln_open now = true /\ t <= ln_millis now < 2 ^ 64 /\ calls_ok (ln_millis now) calls
  end.

(** The lines of the calls: what is above the level is left out. *)
Fixpoint call_lines (l : vtm_log) (calls : list (log_now * vtm_log_level * bytes)) : list bytes :=
  match calls with
  | [] => []
  | (now, level, msg) :: calls =>
      (if log_num (lg_level l) <? log_num level then [] else [log_line l now level msg]) ++ call_lines l calls
  end.

Lemma call_lines_same l l' calls : same_log l l' -> call_lines l' calls = call_lines l calls.
Proof.
  intros (_ & Hl & Hp & _). induction calls as [|[[now level] msg] calls IH]; [done|]. cbn [call_lines].
  unfold log_line. by rewrite IH, Hl, Hp.
Qed.

Lemma calls_ok_earlier t t' calls : t <= t' -> calls_ok t' calls -> calls_ok t calls.
Proof. destruct calls as [|[[now ?] ?] calls]; [done|]. cbn. intros. naive_solver lia. Qed.

Lemma log_write_step max others lines rot cur l w now level msg :
  log_ok max others lines rot cur l w -> names_free (lg_file l) others ->
  ln_malloc now = true -> ln_open now = true -> lg_ts_rotate l <= ln_millis now < 2 ^ 64 ->
  zlen rot + 1 < 2 ^ 64 -> max < 2 ^ 64 ->
  let '(l', w') := vtm_log_write now l level msg w in
  same_log l l' /\ lg_ts_rotate l' <= ln_millis now /\
  exists rot' cur', zlen rot' <= zlen rot + 1 /\ log_ok max others (lines ++ call_lines l [(now, level, msg)]) rot' cur' l' w'.
Proof.
  intros H Hfree Hma Hop Hms Hlen Hmax. unfold vtm_log_write. cbn [call_lines]. rewrite app_nil_r.
  destruct (log_num (lg_level l) <? log_num level).
  { split; [done|]. split; [lia|]. exists rot, cur. split; [lia|]. by rewrite app_nil_r. }
  unfold vtm_log_write_internal. rewrite (lo_fp _ _ _ _ _ _ _ H).
  set (line := log_line l now level msg).
  set (w0 := if Z.land (lg_hints l) VTM_LOG_HINT_CONSOLE =? 0 then w else _).
  assert (log_ok max others lines rot cur l w0) as H0.
  { destruct H. subst w0. destruct (Z.land _ _ =? 0); by split. }
  clearbody w0. clear H w. unfold vtm_log_check_size.
  pose proof (zlen_nonneg cur). pose proof (lo_room _ _ _ _ _ _ _ H0) as Hroom.
  pose proof (lo_cur _ _ _ _ _ _ _ H0) as Hcur. pose proof (lo_max _ _ _ _ _ _ _ H0) as Hm.
  rewrite u64_small by (unfold is_size, SIZE_MAX; lia). cbn [log_set_cur lg_cur_lines lg_max_lines]. rewrite Hcur, Hm.
  destruct (Z.ltb_spec (zlen cur + 1) max) as [Hlt|Hge].
  - split; [done|]. split; [cbn; lia|]. exists rot, (cur ++ [line]). split; [lia|]. destruct H0.
    split; cbn [lg_fp lg_max_lines lg_cur_lines lg_ts_rotate lg_cnt_rotate lw_files lg_file write_line]; try done.
    + by rewrite zlen_app.
    + rewrite lo_files0, lookup_insert_eq. cbn [default]. by rewrite insert_insert_eq.
    + rewrite zlen_app. change (zlen [line]) with 1. lia.
    + rewrite app_assoc. exact (f_equal (fun x => x ++ [line]) lo_lines0).
  - pose proof (log_rotates max others lines rot cur l w0 now H0 Hfree Hma Hop Hms Hlen line) as Hr.
    replace (zlen cur + 1) with max by lia.
    change (mk_log _ _ _ _ _ _ _ _ _) with (log_set_cur max l).
    destruct (vtm_log_rotate _ _ _) as [l' w']. destruct Hr as (r & _ & Hf & Hl & Hp & Hh & Ht & Hok); [lia|].
    split; [done|]. split; [lia|]. exists (r :: rot), []. rewrite zlen_cons. split; [lia|exact Hok].
Qed.

Lemma log_run_lines max others calls : forall lines rot cur l w,
  log_ok max others lines rot cur l w -> names_free (lg_file l) others -> calls_ok (lg_ts_rotate l) calls ->
  zlen rot + zlen calls < 2 ^ 64 -> max < 2 ^ 64 ->
  exists rot' cur', let '(l', w') := log_run calls l w in
    same_log l l' /\ log_ok max others (lines ++ call_lines l calls) rot' cur' l' w'.
Proof.
  induction calls as [|[[now level] msg] calls IH]; intros lines rot cur l w H Hfree Hok Hlen Hmax.
  - exists rot, cur. cbn [log_run call_lines]. rewrite app_nil_r. done.
  - destruct Hok as (Hma & Hop & Hms & Hok). rewrite zlen_cons in Hlen. pose proof (zlen_nonneg calls).
    pose proof (log_write_step max others lines rot cur l w now level msg H Hfree Hma Hop Hms ltac:(lia) Hmax) as Hs.
    cbn [log_run]. destruct (vtm_log_write now l level msg w) as [l1 w1].
    destruct Hs as (Hsame & Ht & rot1 & cur1 & Hl1 & H1).
    destruct (IH _ _ _ _ _ H1) as (rot2 & cur2 & H2).
    + destruct Hsame as (-> & _). exact Hfree.
    + by eapply calls_ok_earlier.
    + lia.
    + lia.
    + exists rot2, cur2. destruct (log_run calls l1 w1) as [l2 w2]. destruct H2 as (Hs2 & H2).
      rewrite (call_lines_same _ _ _ Hsame), <- app_assoc in H2. cbn [call_lines app] in H2 |- *.
      rewrite app_nil_r in H2. split; [|exact H2]. unfold same_log in *. naive_solver congruence.
Qed.

(** C31: Rotation loses no line (fs/log.c, vtm_log_open, vtm_log_write,
    vtm_log_check_size, vtm_log_rotate).  A log on a new file whose clock is not put
    back and whose allocations and fopen() succeed: behind any sequence of writes
    the lines that the level lets through are, in their order, those of the rotated
    files and then of the open one; each rotated file has the same number of lines,
    and a name of its own, so that none of them is overwritten; the open file is
    below the limit; other files are as before. *)
Theorem log_keeps_lines pid path name hints w0 l0 w1 max calls
    (Hopen : vtm_log_open true true true true pid path name hints w0 = (Some l0, w1))
    (Hhint : Z.land hints VTM_LOG_HINT_FILE <> 0) (Hfree : names_free (lg_file l0) (lw_files w0))
    (Hmax : 0 < max < 2 ^ 64) (Hcalls : calls_ok 0 calls) (Hlen : zlen calls < 2 ^ 64) :
  let '(l, w) := log_run calls (vtm_log_set_max_lines l0 max) w1 in
  exists rot cur,
    lw_files w = <[lg_file l0 := cur]> (rot_files (lg_file l0) rot (lw_files w0)) /\
    NoDup (map (fun r : rotated => rotated_name (lg_file l0) r.1.1 r.1.2) rot) /\
    Forall (fun r : rotated => zlen r.2 = max) rot /\ zlen cur < max /\
    concat (map snd (reverse rot)) ++ cur = call_lines l0 calls.
Proof.
  unfold vtm_log_open in Hopen. cbn [negb andb] in Hopen. apply Z.eqb_neq in Hhint. rewrite Hhint in Hopen.
  injection Hopen as Hl Hw.
  assert (log_ok max (lw_files w0) [] [] [] (vtm_log_set_max_lines l0 max) w1) as H.
  { subst l0 w1. destruct Hfree as [Hf _]. unfold lg_file in Hf.
    split; cbn [vtm_log_set_max_lines lg_fp lg_max_lines lg_cur_lines lg_ts_rotate lg_cnt_rotate lg_file fopen_append
      lw_files rot_files foldr map]; try done; try (change (zlen (@nil bytes)) with 0; lia).
    - by rewrite Hf.
    - constructor. }
  destruct (log_run_lines max (lw_files w0) calls _ _ _ _ _ H) as (rot & cur & Hr).
  - exact Hfree.
  - subst l0. exact Hcalls.
  - exact Hlen.
  - lia.
  - destruct (log_run calls _ _) as [l w]. destruct Hr as ((Hf & _) & []).
    change (lg_file (vtm_log_set_max_lines l0 max)) with (lg_file l0) in Hf. rewrite Hf in *.
    exists rot, cur. split; [exact lo_files0|]. split; [by apply (rot_names_nodup _ _ _ _ lo_rot0)|].
    split; [exact lo_full0|]. split; [exact lo_room0|].
    refine (eq_trans lo_lines0 _). apply (call_lines_same l0). done.
Qed.

(** Two lines per file; a line above the level; two rotations in a millisecond. *)
Definition demo_log_calls : list (log_now * vtm_log_level * bytes) :=
  let at_ := fun t => mk_now (cstr_of "now"%string) t true true in
  let msg := fun s => cstr_of s in
  [(at_ 7, VTM_LOG_INFO, msg "a"%string); (at_ 7, VTM_LOG_DEBUG, msg "b"%string); (at_ 7, VTM_LOG_WARN, msg "c"%string);
   (at_ 7, VTM_LOG_ERROR, msg "d"%string); (at_ 7, VTM_LOG_INFO, msg "e"%string); (at_ 9, VTM_LOG_INFO, msg "f"%string)].

Lemma log_keeps_lines_witness :
  exists l0 w1, vtm_log_open true true true true [49] [46] (cstr_of "v"%string) 2 (mk_world gmap_empty []) = (Some l0, w1) /\
  let '(l, w) := log_run demo_log_calls (vtm_log_set_max_lines l0 2) w1 in
  exists rot cur,
    lw_files w = <[lg_file l0 := cur]> (rot_files (lg_file l0) rot gmap_empty) /\
    NoDup (map (fun r : rotated => rotated_name (lg_file l0) r.1.1 r.1.2) rot) /\
    Forall (fun r : rotated => zlen r.2 = 2) rot /\ zlen cur < 2 /\
    concat (map snd (reverse rot)) ++ cur = call_lines l0 demo_log_calls.
Proof.
  eexists _, _. split; [reflexivity|].
  apply (log_keeps_lines [49] [46] (cstr_of "v"%string) 2 (mk_world gmap_empty []) _ _ 2 demo_log_calls eq_refl).
  - discriminate.
  - split; [reflexivity|]. intros m c. apply lookup_empty.
  - lia.
  - cbn [calls_ok demo_log_calls ln_malloc ln_open ln_millis]. repeat split; lia.
  - vm_compute. reflexivity.
Defined.
